(* ===== verification/_CoqProject ===== *)
-Q . S2P
Prelude.v
Asg01.v
Traps.v
Hw.v
Seg.v
Lapic.v
Ioapic.v
Mem.v
StringC.v
Mp.v
Boot.v
Crc32.v
Grep.v
Fcntl.v
Ulib.v
Sh.v
ShLex.v
ShParse.v
ShTree.v
ShRun.v
Umalloc.v
Kernel.v
Mmu.v
Kalloc.v
Spinlock.v
Sched.v
Wakeup.v
Bio.v
Ide.v
Layout.v
Mkfs.v
MkfsSpec.v
Log.v
Reserve.v
Tx.v
Printf.v
User.v
Programs.v
TestsFs.v
TestsProc.v
Cons.v
Fs.v
Balloc.v
Readi.v
Growth.v
Bmap.v
Writei.v
Image.v
Paths.v
Pipe.v
PipeFlow.v
File.v
Vm.v
Space.v
Mapping.v
Pages.v
Uvm.v
Umem.v
Setup.v
Copy.v
Proc.v
Lifecycle.v
Exit.v
Console.v
Kbd.v
Syscall.v
Args.v
Exec.v
Sysfile.v
Trap.v
Machine.v
Selftest.v
