(* ===== verification/Prelude.v ===== *)
(** * A verification library for the CS5460 tree: the C exercises of Asg01 and the xv6 of Asg02

    The repository under src/ has two programs: the host-side exercises
    Asg01/assignment1.c, and Asg02/xv6-2, an x86 xv6 to which the course added a
    free-page counter ([freemem]), exit statuses ([exit2], [wait2]) and the user programs
    crc32, testexit and freemem. This library models both in Rocq and proves what makes
    them correct. File names below are under src/Asg02/xv6-2 unless they say otherwise.

    ** How the code is modelled

    - A C integer is a [Z] with its wrap-around written out ([u32], [s32], [x +u y]; this
      file). Memory is a map of bytes (Mem.v); a table of structures is a list of records,
      and a pointer to an element of one is its index.
    - Kernel code is in the monad [K] of Kernel.v over one record [kstate] with every
      global of the kernel the modelled code touches: page lists, the process table, the
      buffer cache, the disk, the log, inodes, files, pipes, console. It comes back with a
      result, with [Panic], with [Swtch s k] (it gave up the CPU in [sched] with the kernel
      in state [s]; [k] is the rest of its code) or with [NoFuel].
    - One process runs in the kernel at a time between two switches. What the others do
      meanwhile is the state handed to [k]; [Sched.resumed] says what the scheduler
      promises about it, and [resume_with] runs code that sleeps to its end with what the others
      do each time. Where the order of steps of several CPUs matters they are interleaved: the
      steps of [sleep] and [wakeup] in Wakeup.v, those of a spin lock in Spinlock.v, the
      critical sections of the log in Reserve.v. Spin locks are a set of held locks ([acquire] of a held one
      panics); Spinlock.v shows that the implementation with interrupt flags and [pushcli]
      refines that set, and [Smp] interleaves the steps of any number of CPUs.
    - A user program is a tree of system calls with continuations (Sh.v, User.v,
      Programs.v), run against lists of answers, against a table of descriptors
      (ShRun.v) or against the contents of files (Programs.v).
    - Start-up code is a tree of accesses to ports and device registers (Hw.v), run against
      a class that says what the device does. The disks of Boot.v and Ide.v decode the commands
      they are given and take none while they are busy.
    - What the hardware or the host gives (port values, the trap number, the blocks
      [malloc] returns in Asg01, the files mkfs packs) is an argument.

    ** The files

    - Machine and memory: Prelude (integers, lists, packing), Mem (bytes and words),
      StringC (string.c), Mmu (the macros of mmu.h).
    - Asg01: [Asg01.Sort], [Asg01.StrList], [Asg01.Convert], [Asg01.DrawU].
    - Start-up: Hw (device accesses), Boot (bootmain.c), Mp (mp.c), Lapic (lapic.c), Ioapic
      (ioapic.c, picirq.c, the set-up of uart.c), Traps (traps.h), Seg (the descriptors of
      mmu.h, [seginit], [tvinit], the task state of [switchuvm]).
    - Pages: Kalloc (kalloc.c with [freemem]); Vm (vm.c), on which Space, Mapping, Pages,
      Uvm, Umem, Setup and Copy prove what its operations do to an address space.
    - Concurrency: Spinlock (spinlock.c), Sched ([sleep], [wakeup], [sched] of proc.c and
      sleeplock.c), Wakeup (why no wakeup is lost).
    - Storage: Bio (bio.c and memide.c), Ide (ide.c), Layout (the structures of fs.h in a
      block), Log (log.c), Reserve (what [begin_op] reserves), Fs (fs.c), Readi and Paths (what [readi] and path lookup
      do), Tx (what code between [begin_op] and [end_op] may rely on), Balloc, Growth, Bmap
      and Writei (what [balloc], [bmap] and [writei] do inside a transaction), Mkfs and
      MkfsSpec (mkfs.c and what it makes), Image (mkfs and the kernel together), File
      (file.c), Pipe (pipe.c), PipeFlow (what goes through one).
    - Processes: Proc (proc.c), Lifecycle and Exit (what its operations do).
    - Console: Printf (printf.c and the [printint]s), Cons (output of console.c), Console
      (its line editor and device), Kbd (kbd.c, kbd.h, the input of uart.c).
    - System calls: Syscall (syscall.c, sysproc.c), Args (why arguments are safe), Exec
      (exec.c), Sysfile (sysfile.c), Trap (trap.c and the dispatch of syscall.c), Fcntl
      (fcntl.h).
    - User space: Ulib (ulib.c), Umalloc (umalloc.c), Sh (sh.c) with ShLex, ShParse,
      ShTree and ShRun on it, Crc32 and Grep (what crc32.c and grep.c compute), User and
      Programs (the programs), TestsFs and TestsProc (usertests.c).
    - The whole: Machine runs user programs on the kernel through [trap] and the scheduler;
      Selftest starts the kernel and runs tests on it. Both are drivers: they compose
      definitions of the other files and stand for the user-mode instructions between them.

    The files that model a component hold its definitions under the names of the code;
    the files that prove about it come after and require it. Interfaces are classes:
    [Devsw] (the device switch of Fs that Console fills in), [Image] (the initial user
    program), [Fuel] (below), [Device] (what start-up code talks to). The contract of one
    component for another is a lemma about its operations ([Bio.bread_ok], [Space],
    [Layout.dinode_put_get]) and not its definitions.

    ** What is proved

    - Storage: a crash after any prefix of the writes of a commit recovers to all or
      nothing; [begin_op] comes back once there is room, operations that keep to their
      MAXOPBLOCKS blocks stay within what it reserves, and with the log mkfs makes [log_write] refuses
      the last of those blocks all the same; the buffer cache is coherent and keeps
      its LRU list; the queue of the IDE driver serves requests in order as if each were
      done at once; [readi] returns the contents of a file; [balloc] finds a free block
      exactly when there is one; [writei] changes the bytes it is to change and no other file,
      and a file keeps distinct blocks marked in the free map; mkfs makes an image in which
      every file reads back, and the kernel reads it.
    - Memory: the allocator is a stack of distinct pages and [freemem] counts it;
      [setupkvm], [mappages], [allocuvm], [deallocuvm], [copyuvm] and [freevm] do what
      they promise to an address space, and lose or double-free no page, also when memory
      runs out; user pointers are checked and used within bounds.
    - Processes: however the steps of [sleep] and [wakeup] interleave no wakeup is lost, a pipe
      is a queue also when its ends wait for each other, [exit2] leaves the status for [wait2], which
      gives back the child's memory; [growproc] keeps size and page table in step, except for a
      decrement to size 0.
    - Start-up: the loader puts the kernel where its headers say; [mpinit] reads the
      firmware's tables; a date is never a mix of two; only the interrupts asked for are
      routed; user code gets in by the system call gate only.
    - The whole: as a test of the model itself, the kernel is started on an image of mkfs and
      passes eleven of the tests in usertests.c, by computation (Selftest).
    - Locks: mutual exclusion on any number of CPUs, and the refinement above.
    - User space: the shell's parser accepts exactly a grammar and always ends, and
      [runcmd] starts the programs a command stands for with the right descriptors, closes the
      ends of pipes and waits where it should;
      [malloc] and [free] keep the list of blocks; grep writes the matching lines; wc,
      cat, crc32, forktest and testexit print what they should.
    - Findings: places where the code does not do what it means to (kill(0), shrinking a
      process to 0, a full log, a failed disk read taken as good, short reads in grep,
      directories in crc32, an unknown entry in the tables of mp.c, ...) are theorems or examples beside the definitions.

    ** Bounds and fuel

    [Fuel] bounds how often a process goes round a [while(cond) sleep(...)] loop; the
    theorems hold for every value, and a loop woken more often comes back as [NoFuel]; that a call
    returns is proved for as many rounds as it is resumed ([Reserve.begin_op_returns], [PipeFlow]).
    Other loops that are not structural take a number of rounds that is enough: the
    number of bytes or blocks left, of entries in a table, of characters of a line
    ([Sh.parse_fuel], shown to be enough), of free blocks in a list ([Umalloc]).
    [NoFuel] and [OutOfFuel] are then shown not to happen. Programs that run for ever (init, the shell's
    main loop) take the number of rounds to look at.

    ** Not modelled

    - main.c calls the set-up routines in order and waits for the other processors; Selftest
      calls those the tests depend on, and gives its first process a small address space made by
      hand instead of the one of [userinit]. The assembly files and [entrypgdir] are not
      modelled.
    - The tests that Selftest leaves out fork, need more memory or take too long to compute; they
      are programs in TestsFs and TestsProc all the same.
    - Asg01/main.c is a test driver; defs.h, user.h and types.h only declare.
    - The paging hardware is the page walk of Space; caches, the TLB and [swtch] itself
      are not modelled beyond what [Swtch] says.
    - In sh.c [malloc] is taken to succeed; [sbrk] in Umalloc is a break and a limit. *)

From stdpp Require Export base gmap list list_numbers strings sorting.
From Stdlib Require Export ZArith Lia Ascii.

#[global] Open Scope Z_scope.

(** ** Machine integers

    A C integer of width [w] is a [Z]; the wrap-around of the unsigned types and
    the two's complement reading of the signed ones are written out. *)

Declare Scope cint_scope.
Delimit Scope cint_scope with cint.

Definition u8 (x : Z) : Z := x mod 2 ^ 8.
Definition u16 (x : Z) : Z := x mod 2 ^ 16.
Definition u32 (x : Z) : Z := x mod 2 ^ 32.
Definition u64 (x : Z) : Z := x mod 2 ^ 64.

(** The value a [w]-bit pattern has as a signed integer. *)
Definition swrap (w x : Z) : Z :=
  let r := x mod 2 ^ w in if r <? 2 ^ (w - 1) then r else r - 2 ^ w.
Definition s8 (x : Z) : Z := swrap 8 x.
Definition s16 (x : Z) : Z := swrap 16 x.
Definition s32 (x : Z) : Z := swrap 32 x.

Notation "x +u y" := (u32 (x + y)) (at level 50, left associativity) : cint_scope.
Notation "x -u y" := (u32 (x - y)) (at level 50, left associativity) : cint_scope.
Notation "x *u y" := (u32 (x * y)) (at level 40, left associativity) : cint_scope.
Notation "x .& y" := (Z.land x y) (at level 40, left associativity) : cint_scope.
Notation "x .| y" := (Z.lor x y) (at level 50, left associativity) : cint_scope.
Notation "x .^ y" := (Z.lxor x y) (at level 50, left associativity) : cint_scope.
Notation "x <<u y" := (u32 (Z.shiftl x y)) (at level 45, left associativity) : cint_scope.
Notation "x >>u y" := (Z.shiftr x y) (at level 45, left associativity) : cint_scope.
#[global] Open Scope cint_scope.

(** A character constant as its code. *)
Definition ch (a : ascii) : Z := Z.of_N (N_of_ascii a).

(** The codes of a string literal, without the terminating NUL. *)
Fixpoint codes (s : string) : list Z :=
  match s with
  | EmptyString => []
  | String a s' => ch a :: codes s'
  end.

(** ** Tactics *)

(** Case analysis on the boolean comparisons of the goal and hypotheses. *)
Ltac zcase1 :=
  match goal with
  | |- context [ (?a =? ?b)%Z ] => destruct (Z.eqb_spec a b)
  | |- context [ (?a <? ?b)%Z ] => destruct (Z.ltb_spec a b)
  | |- context [ (?a <=? ?b)%Z ] => destruct (Z.leb_spec a b)
  | H : context [ (?a =? ?b)%Z ] |- _ => destruct (Z.eqb_spec a b)
  | H : context [ (?a <? ?b)%Z ] |- _ => destruct (Z.ltb_spec a b)
  | H : context [ (?a <=? ?b)%Z ] |- _ => destruct (Z.leb_spec a b)
  end.
Ltac zcase := repeat zcase1.

(** [lia] with division and remainder by constants turned into equations. *)
Ltac dlia := Z.div_mod_to_equations; lia.

(** Close a goal about bit patterns bit by bit. *)
Ltac zbits :=
  apply Z.bits_inj'; intros ?i ?Hi;
  repeat first
    [ rewrite Z.lor_spec | rewrite Z.land_spec | rewrite Z.lxor_spec
    | rewrite Z.shiftr_spec by lia ].

(** Decide a closed proposition by evaluation. *)
Ltac by_decide := apply (bool_decide_unpack _); vm_compute; exact I.

Create HintDb cint.

(** ** Facts on the integer wraps *)

Lemma u8_range x : 0 <= u8 x < 256.
Proof. unfold u8. apply Z.mod_pos_bound. lia. Qed.

Lemma u32_range x : 0 <= u32 x < 2 ^ 32.
Proof. unfold u32. apply Z.mod_pos_bound. lia. Qed.

Lemma u64_range x : 0 <= u64 x < 2 ^ 64.
Proof. unfold u64. apply Z.mod_pos_bound. lia. Qed.

Lemma u8_id x : 0 <= x < 256 -> u8 x = x.
Proof. intros. unfold u8. apply Z.mod_small. lia. Qed.

Lemma u16_id x : 0 <= x < 2 ^ 16 -> u16 x = x.
Proof. intros. unfold u16. apply Z.mod_small. lia. Qed.

Lemma u32_id x : 0 <= x < 2 ^ 32 -> u32 x = x.
Proof. intros. unfold u32. apply Z.mod_small. lia. Qed.

Lemma u64_id x : 0 <= x < 2 ^ 64 -> u64 x = x.
Proof. intros. unfold u64. apply Z.mod_small. lia. Qed.

Lemma swrap_id w x : 0 < w -> - 2 ^ (w - 1) <= x < 2 ^ (w - 1) -> swrap w x = x.
Proof.
  intros Hw Hx. unfold swrap.
  assert (H2 : 2 ^ w = 2 * 2 ^ (w - 1)).
  { replace w with (1 + (w - 1)) at 1 by lia. rewrite Z.pow_add_r by lia. lia. }
  destruct (Z_lt_le_dec x 0).
  - replace (x mod 2 ^ w) with (x + 2 ^ w).
    { zcase; lia. }
    apply (Z.mod_unique_pos _ _ (-1)); lia.
  - rewrite Z.mod_small by lia. zcase; lia.
Qed.

Lemma s32_id x : - 2 ^ 31 <= x < 2 ^ 31 -> s32 x = x.
Proof. intros. apply swrap_id; lia. Qed.

Lemma s16_id x : - 2 ^ 15 <= x < 2 ^ 15 -> s16 x = x.
Proof. intros. apply swrap_id; lia. Qed.

Lemma swrap_range w x : 0 < w -> - 2 ^ (w - 1) <= swrap w x < 2 ^ (w - 1).
Proof.
  intros Hw. unfold swrap.
  assert (H2 : 2 ^ w = 2 * 2 ^ (w - 1)).
  { replace w with (1 + (w - 1)) at 1 by lia. rewrite Z.pow_add_r by lia. lia. }
  pose proof (Z.mod_pos_bound x (2 ^ w) ltac:(lia)). zcase; lia.
Qed.

Lemma swrap_mod w x : 0 < w -> swrap w (x mod 2 ^ w) = swrap w x.
Proof.
  intros Hw. unfold swrap. rewrite Z.mod_mod; [done|].
  pose proof (Z.pow_pos_nonneg 2 w ltac:(lia) ltac:(lia)). lia.
Qed.

#[export] Hint Resolve u8_range u32_range u64_range : cint.

(** ** Bits *)

Lemma testbit_small n x i : 0 <= x < 2 ^ n -> n <= i -> Z.testbit x i = false.
Proof.
  intros Hx Hi. destruct (Z.eq_dec x 0) as [->|Hnz]; [apply Z.bits_0|].
  apply Z.bits_above_log2; [lia|].
  apply Z.log2_lt_pow2; [lia|].
  eapply Z.lt_le_trans; [apply Hx|]. apply Z.pow_le_mono_r; [lia|].
  destruct (Z_lt_le_dec n 0); [|lia].
  rewrite Z.pow_neg_r in Hx by done. lia.
Qed.

Lemma lor_shiftl_add w a b :
  0 <= w -> 0 <= a < 2 ^ w -> Z.lor a (Z.shiftl b w) = a + b * 2 ^ w.
Proof.
  intros Hw Ha. rewrite <- Z.shiftl_mul_pow2 by lia.
  symmetry. rewrite Z.add_nocarry_lxor.
  - apply Z.bits_inj'; intros i Hi. rewrite Z.lxor_spec, Z.lor_spec.
    destruct (Z_lt_le_dec i w).
    + rewrite Z.shiftl_spec_low by lia. by destruct (Z.testbit a i).
    + rewrite (testbit_small w a i) by lia. by destruct (Z.testbit _ i).
  - apply Z.bits_inj'; intros i Hi. rewrite Z.land_spec, Z.bits_0.
    destruct (Z_lt_le_dec i w).
    + rewrite Z.shiftl_spec_low by lia. by rewrite andb_false_r.
    + by rewrite (testbit_small w a i) by lia.
Qed.

(** ** Fields of [w] bits packed in an integer, lowest first *)

Fixpoint unpack (w : Z) (n : nat) (x : Z) : list Z :=
  match n with
  | O => []
  | S n' => x mod 2 ^ w :: unpack w n' (x / 2 ^ w)
  end.

Fixpoint pack (w : Z) (l : list Z) : Z :=
  match l with
  | [] => 0
  | x :: l' => x + pack w l' * 2 ^ w
  end.

Definition field_ok (w : Z) (x : Z) : Prop := 0 <= x < 2 ^ w.

Section Pack.
Context (w : Z) (Hw : 0 <= w).

Lemma pow2_pos : 0 < 2 ^ w.
Proof using Hw. apply Z.pow_pos_nonneg; lia. Qed.

Lemma length_unpack n x : length (unpack w n x) = n.
Proof using Type. revert x; induction n; simpl; auto. Qed.

Lemma unpack_ok n x : Forall (field_ok w) (unpack w n x).
Proof using Hw.
  pose proof pow2_pos as Hpos.
  revert x; induction n; simpl; intros; constructor; auto.
  unfold field_ok. apply Z.mod_pos_bound. lia.
Qed.

Lemma pack_range l :
  Forall (field_ok w) l -> 0 <= pack w l < 2 ^ (w * Z.of_nat (length l)).
Proof using Hw.
  pose proof pow2_pos as Hpos.
  induction 1 as [|x l Hx _ IH]; cbn [pack length].
  - rewrite Z.mul_0_r. simpl. lia.
  - replace (w * Z.of_nat (S (length l))) with (w + w * Z.of_nat (length l)) by lia.
    rewrite Z.pow_add_r by lia. unfold field_ok in Hx. nia.
Qed.

Lemma unpack_pack l :
  Forall (field_ok w) l -> unpack w (length l) (pack w l) = l.
Proof using Hw.
  pose proof pow2_pos as Hpos.
  induction 1 as [|x l Hx _ IH]; [done|]. cbn [pack length unpack].
  unfold field_ok in Hx. f_equal.
  - rewrite Z_mod_plus_full. by apply Z.mod_small.
  - rewrite Z.div_add by lia. rewrite Z.div_small by done. by rewrite Z.add_0_l.
Qed.

Lemma pack_unpack n x :
  pack w (unpack w n x) = x mod 2 ^ (w * Z.of_nat n).
Proof using Hw.
  pose proof pow2_pos as Hpos.
  revert x; induction n; intros x; cbn [pack unpack].
  - rewrite Z.mul_0_r, Z.pow_0_r, Z.mod_1_r. done.
  - rewrite IHn. replace (w * Z.of_nat (S n)) with (w + w * Z.of_nat n) by lia.
    rewrite Z.pow_add_r by lia.
    assert (0 < 2 ^ (w * Z.of_nat n)) by (apply Z.pow_pos_nonneg; lia).
    rewrite Z.rem_mul_r by lia. lia.
Qed.

Lemma pack_unpack_id n x :
  0 <= x < 2 ^ (w * Z.of_nat n) -> pack w (unpack w n x) = x.
Proof using Hw.
  pose proof pow2_pos as Hpos. intros. rewrite pack_unpack. by apply Z.mod_small. Qed.

Lemma lookup_unpack n x i :
  (i < n)%nat ->
  unpack w n x !! i = Some ((x / 2 ^ (w * Z.of_nat i)) mod 2 ^ w).
Proof using Hw.
  pose proof pow2_pos as Hpos.
  revert x i; induction n; intros x i Hi; [lia|]. destruct i; simpl.
  - by rewrite Z.mul_0_r, Z.pow_0_r, Z.div_1_r.
  - rewrite IHn by lia.
    rewrite Z.div_div by (try apply Z.pow_pos_nonneg; lia).
    rewrite <- Z.pow_add_r by lia.
    by replace (w + w * Z.of_nat i) with (w * Z.of_nat (S i)) by lia.
Qed.

Lemma pack_app l1 l2 :
  pack w (l1 ++ l2) = pack w l1 + pack w l2 * 2 ^ (w * Z.of_nat (length l1)).
Proof using Hw.
  induction l1 as [|x l1 IH]; cbn [pack app length].
  - rewrite Z.mul_0_r. lia.
  - rewrite IH. replace (w * Z.of_nat (S (length l1)))
      with (w + w * Z.of_nat (length l1)) by lia.
    rewrite Z.pow_add_r by lia. ring.
Qed.
End Pack.

(** Little-endian encodings: the bytes of a [n]-byte integer. *)
Abbreviation le_bytes := (unpack 8).
Abbreviation le_val := (pack 8).

#[export] Hint Resolve unpack_ok : cint.

(** ** Lists as C arrays *)

(** Write the elements of [src] into [l] from index [i]. *)
Definition splice {A} (i : nat) (src l : list A) : list A :=
  take i l ++ src ++ drop (i + length src) l.

(** Bytes [i .. i+n-1] of an array. *)
Definition slice {A} (i n : nat) (l : list A) : list A := take n (drop i l).

Lemma length_slice {A} i n (l : list A) :
  (i + n <= length l)%nat -> length (slice i n l) = n.
Proof. intros. unfold slice. rewrite length_take, length_drop. lia. Qed.

Lemma length_splice {A} i (src l : list A) :
  (i + length src <= length l)%nat -> length (splice i src l) = length l.
Proof.
  intros. unfold splice. rewrite !length_app, length_take, length_drop. lia.
Qed.

Lemma slice_splice {A} i (src l : list A) :
  (i + length src <= length l)%nat -> slice i (length src) (splice i src l) = src.
Proof.
  intros. unfold slice, splice.
  rewrite drop_app_length' by (rewrite length_take; lia).
  by rewrite take_app_length.
Qed.

Lemma lookup_splice_out {A} i (src l : list A) j :
  (i + length src <= length l)%nat ->
  (j < i \/ i + length src <= j)%nat -> splice i src l !! j = l !! j.
Proof.
  intros Hl Hj. unfold splice.
  destruct Hj as [Hj|Hj].
  - rewrite lookup_app_l by (rewrite length_take; lia). by rewrite lookup_take_lt.
  - rewrite lookup_app_r by (rewrite length_take; lia).
    rewrite lookup_app_r by (rewrite length_take; lia).
    rewrite lookup_drop, length_take. f_equal. lia.
Qed.

Lemma lookup_splice_in {A} i (src l : list A) j :
  (i <= length l)%nat -> (i <= j < i + length src)%nat -> splice i src l !! j = src !! (j - i)%nat.
Proof.
  intros Hl Hj. unfold splice. rewrite lookup_app_r by (rewrite length_take; lia).
  rewrite length_take, Nat.min_l by lia. by rewrite lookup_app_l by lia.
Qed.

Lemma lookup_slice {A} i n (l : list A) j :
  (j < n)%nat -> slice i n l !! j = l !! (i + j)%nat.
Proof. intros. unfold slice. rewrite lookup_take_lt by done. apply lookup_drop. Qed.

Lemma slice_splice_out {A} i (src l : list A) j n :
  (i + length src <= length l)%nat ->
  (j + n <= i \/ i + length src <= j)%nat ->
  slice j n (splice i src l) = slice j n l.
Proof.
  intros Hl Hj. apply list_eq. intros k.
  destruct (decide (k < n)%nat).
  - rewrite !lookup_slice by done. apply lookup_splice_out; lia.
  - rewrite !lookup_ge_None_2; [done| |]; unfold slice; rewrite length_take; lia.
Qed.
