(* ===== verification/Asg01.v ===== *)
(** * Assignment 1: the host-side exercises of Asg01/assignment1.c

    [Sort] models [bubble_sort], [byte_sort] and [nibble_sort]; [StrList] models
    [str_to_list] over an explicit heap with an allocator that may fail; [Convert]
    models [convert] and its three digit printers over uninitialised arrays;
    [DrawU] models the system calls [draw_u] issues. *)

From S2P Require Import Prelude.

Module Sort.

(** The body of the inner loop: compare [arr[j]] with [arr[j+1]] and swap. *)
Definition bubble_step (arr : list Z) (j : nat) : list Z :=
  if (arr !!! S j) <? (arr !!! j)
  then let temp := arr !!! j in
       let arr := <[j := arr !!! S j]> arr in
       <[S j := temp]> arr
  else arr.

(** [for(j = 0; j < m; j++)] *)
Definition bubble_inner (arr : list Z) (m : nat) : list Z :=
  fold_left bubble_step (seq 0 m) arr.

Definition bubble_sort (arr : list Z) (n : nat) : list Z :=
  fold_left (fun arr i => bubble_inner arr (n - i - 1)) (seq 0 (n - 1)) arr.

Definition byte_sort (arg : Z) : Z :=
  let bytes := (fun i => (arg >>u (i * 8)) .& 0xff) <$> seqZ 0 8 in
  let bytes := bubble_sort bytes 8 in
  let b (i : nat) := bytes !!! i in
  let shl x k := u64 (Z.shiftl x k) in
  b 0%nat .| shl (b 1%nat) 8 .| shl (b 2%nat) 16 .| shl (b 3%nat) 24
  .| shl (b 4%nat) 32 .| shl (b 5%nat) 40 .| shl (b 6%nat) 48 .| shl (b 7%nat) 56.

Definition nibble_sort (arg : Z) : Z :=
  let nums := (fun i => (arg >>u (i * 4)) .& 0xf) <$> seqZ 0 16 in
  let nums := bubble_sort nums 16 in
  let b (i : nat) := nums !!! i in
  let shl x k := u64 (Z.shiftl x k) in
  b 0%nat .| shl (b 1%nat) 4 .| shl (b 2%nat) 8 .| shl (b 3%nat) 12
  .| shl (b 4%nat) 16 .| shl (b 5%nat) 20 .| shl (b 6%nat) 24 .| shl (b 7%nat) 28
  .| shl (b 8%nat) 32 .| shl (b 9%nat) 36 .| shl (b 10%nat) 40 .| shl (b 11%nat) 44
  .| shl (b 12%nat) 48 .| shl (b 13%nat) 52 .| shl (b 14%nat) 56 .| shl (b 15%nat) 60.

(** ** The two loops *)

Lemma bubble_step_at l x y r :
  bubble_step (l ++ x :: y :: r) (length l) =
  if y <? x then l ++ y :: x :: r else l ++ x :: y :: r.
Proof.
  unfold bubble_step.
  assert (Hx : (l ++ x :: y :: r) !! length l = Some x)
    by (by apply list_lookup_middle).
  assert (Hy : (l ++ x :: y :: r) !! S (length l) = Some y).
  { rewrite lookup_app_r by lia. by replace (S (length l) - length l)%nat with 1%nat by lia. }
  rewrite (list_lookup_total_correct _ _ _ Hx), (list_lookup_total_correct _ _ _ Hy).
  destruct (y <? x); [|done].
  rewrite insert_app_r_alt by lia. rewrite Nat.sub_diag. simpl.
  rewrite insert_app_r_alt by lia.
  by replace (S (length l) - length l)%nat with 1%nat by lia.
Qed.

(** One pass moves the maximum of the first [k+1] elements to index [k]. *)
Lemma bubble_inner_max arr k :
  (k < length arr)%nat ->
  exists l x, bubble_inner arr k = l ++ x :: drop (S k) arr /\
    length l = k /\ Permutation (take (S k) arr) (l ++ [x]) /\
    Forall (fun a => a <= x) l.
Proof.
  induction k as [|k IH]; intros Hk.
  - destruct arr as [|a arr]; [simpl in Hk; lia|].
    exists [], a. simpl. rewrite drop_0, take_0. auto.
  - destruct IH as (l & x & Hrun & Hlen & Hperm & Hmax); [lia|].
    unfold bubble_inner in *. rewrite seq_S, fold_left_app, Hrun. simpl.
    destruct (lookup_lt_is_Some_2 arr (S k) Hk) as [y Hy].
    rewrite (drop_S _ _ _ Hy).
    pose proof (bubble_step_at l x y (drop (S (S k)) arr)) as Hst.
    rewrite Hlen in Hst. rewrite Hst, (take_S_r _ _ _ Hy). clear Hst.
    setoid_rewrite Hperm.
    destruct (Z.ltb_spec y x).
    + exists (l ++ [y]), x. rewrite <- !app_assoc. simpl. split; [done|].
      rewrite length_app. simpl. split; [lia|]. split.
      * apply Permutation_app_head, perm_swap.
      * apply Forall_app; auto with lia.
    + exists (l ++ [x]), y. rewrite <- !app_assoc. simpl. split; [done|].
      rewrite length_app. simpl. split; [lia|]. split; [done|].
      apply Forall_app; split; [|auto].
      eapply Forall_impl; [exact Hmax|]. simpl; lia.
Qed.

(** After [i] passes the last [i] elements are in their final place. *)
Lemma bubble_outer arr i :
  (i <= length arr - 1)%nat ->
  exists p s,
    fold_left (fun arr' i => bubble_inner arr' (length arr - i - 1)) (seq 0 i) arr = p ++ s /\
    length s = i /\ Permutation arr (p ++ s) /\ StronglySorted Z.le s /\
    Forall (fun a => Forall (Z.le a) s) p.
Proof.
  induction i as [|i IH]; intros Hi.
  - exists arr, []. rewrite app_nil_r. split_and!; try done; [constructor|].
    by apply Forall_true.
  - destruct IH as (p & s & Hrun & Hlen & Hperm & Hsort & Hle); [lia|].
    rewrite seq_S, fold_left_app, Hrun. simpl.
    assert (Hpl : length p = (length arr - i)%nat)
      by (apply Permutation_length in Hperm; rewrite length_app in Hperm; lia).
    set (k := (length arr - i - 1)%nat).
    destruct (bubble_inner_max (p ++ s) k) as (l & x & -> & Hl & Hp & Hmax);
      [rewrite length_app; lia|].
    rewrite take_app_length' in Hp by lia. rewrite drop_app_length' by lia.
    exists l, (x :: s). split; [done|]. split; [simpl; lia|].
    rewrite Hperm, Hp, <- app_assoc. split; [done|].
    rewrite Hp, Forall_app, Forall_singleton in Hle. destruct Hle as [Hle Hx].
    split; [by constructor|].
    rewrite !Forall_forall in *. intros a Ha. constructor; auto.
Qed.

Lemma bubble_sort_spec arr :
  Sorted Z.le (bubble_sort arr (length arr)) /\
  Permutation arr (bubble_sort arr (length arr)).
Proof.
  destruct (bubble_outer arr (length arr - 1)) as (p & s & Hrun & Hlen & Hperm & Hs & Hle);
    [lia|].
  unfold bubble_sort. rewrite Hrun. split; [|done].
  apply StronglySorted_Sorted.
  apply Permutation_length in Hperm. rewrite length_app in Hperm.
  destruct p as [|a [|b p]]; cbn [length app] in Hperm |- *; [done| |lia].
  constructor; [done|]. by apply Forall_cons in Hle as [Ha _].
Qed.

(** ** Packing the fields back *)

Fixpoint or_fields (w k acc : Z) (l : list Z) : Z :=
  match l with
  | [] => acc
  | x :: l' => or_fields w (k + w) (acc .| u64 (Z.shiftl x k)) l'
  end.

Lemma or_fields_pack w k acc l :
  0 <= w -> 0 <= k -> 0 <= acc < 2 ^ k -> Forall (field_ok w) l ->
  k + w * Z.of_nat (length l) <= 64 ->
  or_fields w k acc l = acc + pack w l * 2 ^ k.
Proof.
  intros Hw Hk Hacc Hl. revert k acc Hk Hacc.
  induction Hl as [|x l Hx Hl IH]; intros k acc Hk Hacc H64; [simpl; lia|].
  cbn [or_fields pack length] in *. unfold field_ok in Hx.
  assert (Hle : 2 ^ (k + w) <= 2 ^ 64) by (apply Z.pow_le_mono_r; lia).
  rewrite Z.pow_add_r in Hle by lia.
  rewrite u64_id by (rewrite Z.shiftl_mul_pow2 by lia; nia).
  rewrite lor_shiftl_add by lia.
  rewrite IH; [|lia|rewrite Z.pow_add_r by lia; nia|lia].
  rewrite Z.pow_add_r by lia. ring.
Qed.

Lemma fields_unpack w n arg :
  0 <= w -> (fun i => (arg >>u (i * w)) .& Z.ones w) <$> seqZ 0 (Z.of_nat n) = unpack w n arg.
Proof.
  intros Hw. apply list_eq. intros i. rewrite list_lookup_fmap.
  destruct (decide (i < n)%nat).
  - rewrite lookup_seqZ_lt, lookup_unpack by lia. simpl.
    rewrite Z.land_ones, Z.shiftr_div_pow2 by lia. do 4 f_equal. lia.
  - rewrite lookup_seqZ_ge by lia. simpl. symmetry. apply lookup_ge_None_2.
    rewrite length_unpack. lia.
Qed.

(** Sorting the [n] fields of [w] bits of a 64-bit integer, whatever [w] and [n]. *)
Lemma field_sort_spec w (n : nat) arg r :
  0 <= w -> w * Z.of_nat n = 64 -> 0 <= arg < 2 ^ 64 ->
  r = pack w (bubble_sort (unpack w n arg) n) ->
  0 <= r < 2 ^ 64 /\ Sorted Z.le (unpack w n r) /\
  Permutation (unpack w n arg) (unpack w n r).
Proof.
  intros Hw Hn Harg ->.
  destruct (bubble_sort_spec (unpack w n arg)) as [Hs Hp].
  rewrite length_unpack in Hs, Hp.
  set (l := bubble_sort _ _) in *.
  assert (Hok : Forall (field_ok w) l) by (rewrite <- Hp; by apply unpack_ok).
  assert (Hlen : length l = n) by (by rewrite <- Hp, length_unpack).
  pose proof (pack_range w Hw l Hok) as Hr. rewrite Hlen, Hn in Hr.
  split; [done|]. rewrite <- Hlen at 1 3. rewrite unpack_pack by done. done.
Qed.

Ltac explode l H :=
  repeat match type of H with
  | length l = S _ =>
      let x := fresh "x" in destruct l as [|x l]; [discriminate H|simpl in H; injection H as H]
  | length l = 0%nat => destruct l; [|discriminate H]
  end.

Lemma bubble_fields w n arg :
  0 <= w ->
  length (bubble_sort (unpack w n arg) n) = n /\
  Forall (field_ok w) (bubble_sort (unpack w n arg) n).
Proof.
  intros Hw. destruct (bubble_sort_spec (unpack w n arg)) as [_ Hp].
  rewrite length_unpack in Hp.
  split; [by rewrite <- Hp, length_unpack|rewrite <- Hp; by apply unpack_ok].
Qed.

Lemma or_fields_all w l x :
  0 <= w -> Forall (field_ok w) (x :: l) -> w * Z.of_nat (length (x :: l)) <= 64 ->
  or_fields w w x l = pack w (x :: l).
Proof.
  intros Hw Hok Hlen. apply Forall_cons in Hok as [Hx Hok]. simpl length in Hlen.
  rewrite or_fields_pack by (done || lia). done.
Qed.

Lemma byte_sort_pack arg :
  byte_sort arg = pack 8 (bubble_sort (le_bytes 8 arg) 8).
Proof.
  unfold byte_sort.
  rewrite (fields_unpack 8 8 arg ltac:(lia) : (fun i => (arg >>u (i * 8)) .& 0xff) <$> seqZ 0 8 = _).
  destruct (bubble_fields 8 8 arg) as [Hlen Hok]; [lia|].
  generalize dependent (bubble_sort (le_bytes 8 arg) 8). intros l Hlen Hok.
  explode l Hlen. rewrite <- or_fields_all by (done || simpl; lia).
  by cbn -[Z.lor u64 Z.shiftl].
Qed.

Lemma nibble_sort_pack arg :
  nibble_sort arg = pack 4 (bubble_sort (unpack 4 16 arg) 16).
Proof.
  unfold nibble_sort.
  rewrite (fields_unpack 4 16 arg ltac:(lia) : (fun i => (arg >>u (i * 4)) .& 0xf) <$> seqZ 0 16 = _).
  destruct (bubble_fields 4 16 arg) as [Hlen Hok]; [lia|].
  generalize dependent (bubble_sort (unpack 4 16 arg) 16). intros l Hlen Hok.
  explode l Hlen. rewrite <- or_fields_all by (done || simpl; lia).
  by cbn -[Z.lor u64 Z.shiftl].
Qed.

(** C37: [byte_sort] returns the 64-bit number whose bytes, least significant
    first, are the bytes of its argument in increasing order. *)
Theorem byte_sort_correct (arg : Z) (Harg : 0 <= arg < 2 ^ 64) :
  0 <= byte_sort arg < 2 ^ 64 /\
  Sorted Z.le (le_bytes 8 (byte_sort arg)) /\
  Permutation (le_bytes 8 arg) (le_bytes 8 (byte_sort arg)).
Proof. apply field_sort_spec; [lia..|apply byte_sort_pack]. Qed.

Lemma byte_sort_correct_witness :
  byte_sort 0x0403deadbeef0201 = 0xefdebead04030201 /\
  Sorted Z.le (le_bytes 8 (byte_sort 0x0403deadbeef0201)).
Proof.
  split; [reflexivity|]. apply (byte_sort_correct 0x0403deadbeef0201). lia.
Defined.

(** [nibble_sort] does the same for the sixteen 4-bit digits. *)
Theorem nibble_sort_correct (arg : Z) (Harg : 0 <= arg < 2 ^ 64) :
  0 <= nibble_sort arg < 2 ^ 64 /\
  Sorted Z.le (unpack 4 16 (nibble_sort arg)) /\
  Permutation (unpack 4 16 arg) (unpack 4 16 (nibble_sort arg)).
Proof. apply field_sort_spec; [lia..|apply nibble_sort_pack]. Qed.

Lemma nibble_sort_correct_witness :
  nibble_sort 0x0403deadbeef0201 = 0xfeeeddba43210000 /\
  Sorted Z.le (unpack 4 16 (nibble_sort 0x0403deadbeef0201)).
Proof.
  split; [reflexivity|]. apply (nibble_sort_correct 0x0403deadbeef0201). lia.
Defined.

End Sort.

Module StrList.

(** [struct elt]; a link is an address, 0 is [NULL]. *)
Record elt := Elt { val : Z; link : Z }.
#[global] Instance elt_eq_dec : EqDecision elt.
Proof. solve_decision. Defined.

(** The heap cells in use, and what the next calls of [malloc] will return: an
    address (0 for a failure) with the indeterminate contents of the block. *)
Record heap := Heap { cells : gmap Z elt; mallocs : list (Z * elt) }.

Definition malloc (h : heap) : Z * heap :=
  match mallocs h with
  | [] => (0, h)
  | (a, junk) :: ms =>
      if a =? 0 then (0, Heap (cells h) ms) else (a, Heap (<[a := junk]> (cells h)) ms)
  end.

(** [free(NULL)] does nothing. *)
Definition free (p : Z) (h : heap) : heap :=
  if p =? 0 then h else Heap (delete p (cells h)) (mallocs h).

Definition write (p : Z) (e : elt) (h : heap) : heap :=
  Heap (<[p := e]> (cells h)) (mallocs h).

(** [while (currChar != 0) { currChar = str[size]; ++size; }]; [None] is a read
    past the end of the array, or fuel run out. *)
Fixpoint size_loop (str : list Z) (fuel : nat) (currChar : Z) (size : nat) : option nat :=
  if currChar =? 0 then Some size
  else match fuel with
       | O => None
       | S fuel => c ← str !! size; size_loop str fuel c (S size)
       end.

Definition str_size (str : list Z) : option nat :=
  c ← str !! 0%nat;
  size ← size_loop str (length str) c 1;
  Some (size - 1)%nat.

(** [for(i = size - 1; i >= 0; --i)], with [k] = [i + 1]. *)
Fixpoint build (str : list Z) (k : nat) (next curr : Z) (h : heap) : Z * heap :=
  match k with
  | O => (curr, h)
  | S i =>
      let '(curr, h) := malloc h in
      if curr =? 0 then (0, free next (free curr h))
      else build str i curr curr (write curr (Elt (str !!! i) next) h)
  end.

Definition str_to_list (str : list Z) (h : heap) : option (Z * heap) :=
  size ← str_size str; Some (build str size 0 0 h).

(** The list at [p] spells [s]. *)
Fixpoint list_at (m : gmap Z elt) (p : Z) (s : list Z) : Prop :=
  match s with
  | [] => p = 0
  | c :: s' => p <> 0 /\ exists q, m !! p = Some (Elt c q) /\ list_at m q s'
  end.

(** What the code relies on of [malloc]: distinct non-null blocks not in use. *)
Definition fresh (h : heap) (ms : list (Z * elt)) : Prop :=
  NoDup ms.*1 /\ Forall (fun a => a <> 0 /\ cells h !! a = None) ms.*1.

Lemma size_loop_spec s r pre fuel c :
  (length s <= fuel)%nat -> Forall (fun x => x <> 0) s -> c = hd 0 (s ++ [0]) ->
  size_loop (pre ++ s ++ 0 :: r) fuel c (S (length pre)) = Some (S (length pre + length s)).
Proof.
  revert pre fuel c. induction s as [|x s IH]; intros pre fuel c Hf Hs ->; simpl.
  - destruct fuel; simpl; do 2 f_equal; lia.
  - apply Forall_cons in Hs as [Hx Hs]. simpl in Hf. destruct fuel; [lia|]. simpl.
    destruct (Z.eqb_spec x 0); [done|].
    assert (Hl : (pre ++ x :: s ++ 0 :: r) !! S (length pre) = Some (hd 0 (s ++ [0]))).
    { rewrite lookup_app_r by lia.
      replace (S (length pre) - length pre)%nat with 1%nat by lia. by destruct s. }
    rewrite Hl. simpl.
    replace (pre ++ x :: s ++ 0 :: r) with ((pre ++ [x]) ++ s ++ 0 :: r)
      by (by rewrite <- app_assoc).
    replace (S (S (length pre))) with (S (length (pre ++ [x]))) by (rewrite length_app; simpl; lia).
    rewrite IH by (done || lia). rewrite length_app. simpl. do 2 f_equal. lia.
Qed.

Lemma str_size_spec s r :
  Forall (fun x => x <> 0) s -> str_size (s ++ 0 :: r) = Some (length s).
Proof.
  intros Hs. unfold str_size.
  assert (Hl : (s ++ 0 :: r) !! 0%nat = Some (hd 0 (s ++ [0]))) by (by destruct s).
  rewrite Hl. simpl.
  rewrite (size_loop_spec s r [] _ _) by (done || rewrite length_app; lia). simpl.
  f_equal. lia.
Qed.

Lemma list_at_insert m a e p s :
  m !! a = None -> list_at m p s -> list_at (<[a := e]> m) p s.
Proof.
  intros Ha. revert p. induction s as [|c s IH]; simpl; [done|].
  intros p (Hp & q & Hl & Hs). split; [done|]. exists q. split; [|auto].
  rewrite lookup_insert_ne by congruence. done.
Qed.

Lemma malloc_fresh h a junk ms rest :
  fresh h ((a, junk) :: ms) -> mallocs h = ((a, junk) :: ms) ++ rest ->
  forall e, let h' := Heap (<[a := e]> (cells h)) (ms ++ rest) in
  (malloc h = (a, Heap (<[a := junk]> (cells h)) (ms ++ rest)) /\ a <> 0) /\
  cells h !! a = None /\ fresh h' ms.
Proof.
  intros [Hnd Hall] Hm e. simpl in *.
  apply NoDup_cons in Hnd as [Hni Hnd]. apply Forall_cons in Hall as [[Ha0 Ha] Hall].
  unfold malloc. rewrite Hm. simpl. destruct (Z.eqb_spec a 0); [done|].
  split_and!; try done. unfold fresh. simpl. split; [done|].
  rewrite Forall_forall in *. intros b Hb.
  destruct (Hall b Hb). split; [done|]. rewrite lookup_insert_ne; [done|]. by intros ->.
Qed.

Lemma build_ok s k ms rest next h :
  (k <= length s)%nat -> length ms = k -> fresh h ms -> mallocs h = ms ++ rest ->
  list_at (cells h) next (drop k s) ->
  exists p h', build s k next next h = (p, h') /\ list_at (cells h') p s /\
    size (cells h') = (size (cells h) + k)%nat /\ cells h ⊆ cells h' /\ mallocs h' = rest.
Proof.
  revert ms next h. induction k as [|i IH]; intros ms next h Hk Hms Hfr Hm Hl.
  - destruct ms; [|done]. exists next, h. simpl. split_and!; try done.
  - destruct ms as [|[a junk] ms]; [done|]. simpl in Hms. cbn [build].
    destruct (malloc_fresh h a junk ms rest Hfr Hm (Elt (s !!! i) next))
      as ((-> & Ha0) & Ha & Hfr').
    destruct (Z.eqb_spec a 0); [done|].
    unfold write. simpl. rewrite insert_insert_eq.
    destruct (IH ms a _ ltac:(lia) ltac:(lia) Hfr' eq_refl) as (p & h' & Hb & Hp & Hsz & Hsub & Hrest).
    { destruct (lookup_lt_is_Some_2 s i ltac:(lia)) as [c Hc].
      rewrite (drop_S _ _ _ Hc), (list_lookup_total_correct _ _ _ Hc). simpl.
      split; [done|]. exists next. rewrite lookup_insert_eq. split; [done|].
      by apply list_at_insert. }
    exists p, h'. rewrite Hb. split_and!; try done.
    + rewrite Hsz. simpl. rewrite map_size_insert_None by done. lia.
    + etransitivity; [|exact Hsub]. simpl. by apply insert_subseteq.
Qed.

(** [build] only looks at the first [k] characters. *)
Lemma build_prefix s t k next curr h :
  (k <= length s)%nat -> build (s ++ t) k next curr h = build s k next curr h.
Proof.
  revert next curr h. induction k as [|i IH]; intros next curr h Hk; [done|].
  cbn [build]. destruct (malloc h) as [a h']. destruct (a =? 0); [done|].
  rewrite lookup_total_app_l by lia. apply IH. lia.
Qed.

(** When every allocation succeeds [str_to_list] returns a list that spells
    the string, uses one new cell per character and leaves the old heap intact. *)
Theorem str_to_list_correct (s r : list Z) (h : heap) (ms rest : list (Z * elt))
    (Hs : Forall (fun x => x <> 0) s) (Hms : length ms = length s)
    (Hfresh : fresh h ms) (Hm : mallocs h = ms ++ rest) :
  exists p h', str_to_list (s ++ 0 :: r) h = Some (p, h') /\
    list_at (cells h') p s /\ size (cells h') = (size (cells h) + length s)%nat /\
    cells h ⊆ cells h'.
Proof.
  unfold str_to_list. rewrite str_size_spec by done. simpl.
  rewrite build_prefix by done.
  destruct (build_ok s (length s) ms rest 0 h) as (p & h' & -> & ? & ? & ? & _);
    [done|done|done|done|by rewrite drop_all|].
  by exists p, h'.
Qed.

Definition help : list Z := codes "help".
Definition heap4 : heap :=
  Heap ∅ [(8, Elt 7 7); (16, Elt 7 7); (24, Elt 7 7); (32, Elt 7 7)].

Lemma str_to_list_correct_witness :
  exists p h', str_to_list (help ++ [0]) heap4 = Some (p, h') /\
    list_at (cells h') p help /\ size (cells h') = 4%nat /\ ∅ ⊆ cells h'.
Proof.
  apply (str_to_list_correct help [] heap4 (mallocs heap4) []); try reflexivity.
  - repeat constructor; discriminate.
  - split; by_decide.
Defined.

(** When the allocation after [k] successful ones fails, [str_to_list]
    returns [NULL] but frees only the cell allocated last: the other [k - 1] cells
    stay allocated and unreachable. *)
Theorem str_to_list_oom_leaks (s r : list Z) (h : heap) (ms rest : list (Z * elt)) (junk : elt)
    (Hs : Forall (fun x => x <> 0) s) (Hms : (length ms < length s)%nat)
    (Hfresh : fresh h ms) (Hm : mallocs h = ms ++ (0, junk) :: rest) :
  exists h', str_to_list (s ++ 0 :: r) h = Some (0, h') /\
    size (cells h') = (size (cells h) + (length ms - 1))%nat.
Proof.
  unfold str_to_list. rewrite str_size_spec by done. simpl.
  rewrite build_prefix by done.
  assert (Hgen : forall k next curr h ms,
    (length ms < k)%nat -> fresh h ms -> mallocs h = ms ++ (0, junk) :: rest ->
    exists h', build s k next curr h = (0, h') /\
      (ms <> [] -> size (cells h') = (size (cells h) + (length ms - 1))%nat) /\
      (ms = [] -> cells h' = cells (free next h))).
  { clear. induction k as [|i IH]; intros next curr h ms Hk Hfr Hm; [lia|]. cbn [build].
    destruct ms as [|[a j] ms].
    - unfold malloc. rewrite Hm. simpl. eexists. split; [done|]. split; [done|].
      intros _. unfold free. simpl. by destruct (next =? 0).
    - destruct (malloc_fresh h a j ms _ Hfr Hm (Elt (s !!! i) next)) as ((-> & Ha0) & Ha & Hfr').
      destruct (Z.eqb_spec a 0); [done|]. unfold write. simpl. rewrite insert_insert_eq.
      destruct (IH a a _ ms ltac:(simpl in Hk; lia) Hfr' eq_refl) as (h' & -> & H1 & H2).
      eexists. split; [done|]. split; [|done]. intros _. destruct ms as [|m ms].
      + rewrite H2 by done. unfold free. simpl. destruct (Z.eqb_spec a 0); [done|]. simpl.
        rewrite delete_insert_eq, delete_id by done. lia.
      + rewrite H1 by done. simpl. rewrite map_size_insert_None by done. lia. }
  destruct (Hgen (length s) 0 0 h ms Hms Hfresh Hm) as (h' & -> & H1 & H2).
  exists h'. split; [done|]. destruct ms; [|by apply H1].
  rewrite H2 by done. unfold free. simpl. lia.
Qed.

Definition heap2 : heap := Heap ∅ [(8, Elt 7 7); (16, Elt 7 7); (0, Elt 7 7)].

Lemma str_to_list_oom_leaks_witness :
  exists h', str_to_list (help ++ [0]) heap2 = Some (0, h') /\ size (cells h') = 1%nat.
Proof.
  apply (str_to_list_oom_leaks help [] heap2 [(8, Elt 7 7); (16, Elt 7 7)] [] (Elt 7 7)).
  - repeat constructor; discriminate.
  - simpl; lia.
  - split; by_decide.
  - reflexivity.
Defined.
End StrList.

Module Convert.

(** [for(i = 0; i < n; ++i) { arr[i] = curr % base; curr /= base; if(curr == 0) break; }],
    with [fuel] = [n - i]; returns the value of [i] after the loop. *)
Fixpoint digit_loop (base : Z) (fuel i : nat) (currValue : Z) (arr : list Z) : nat * list Z :=
  match fuel with
  | O => (i, arr)
  | S fuel =>
      let remainder := currValue mod base in
      let currValue := currValue / base in
      let arr := <[i := remainder]> arr in
      if currValue =? 0 then (i, arr) else digit_loop base fuel (S i) currValue arr
  end.

(** [for(; i < n; ++i) arr[i] = 0;] *)
Definition zero_loop (n i : nat) (arr : list Z) : list Z :=
  fold_left (fun arr k => <[k := 0]> arr) (seq i (n - i)) arr.

(** The two loops with the [++i] between them. *)
Definition digits (base : Z) (n : nat) (value : Z) (arr : list Z) : list Z :=
  let '(i, arr) := digit_loop base n 0 value arr in zero_loop n (S i) arr.

(** The [switch] of [convert_hex]: a digit out of range leaves [result[i]] as it was. *)
Definition hex_char (d old : Z) : Z :=
  match d with
  | 0 => ch "0" | 1 => ch "1" | 2 => ch "2" | 3 => ch "3" | 4 => ch "4" | 5 => ch "5"
  | 6 => ch "6" | 7 => ch "7" | 8 => ch "8" | 9 => ch "9" | 10 => ch "a" | 11 => ch "b"
  | 12 => ch "c" | 13 => ch "d" | 14 => ch "e" | 15 => ch "f"
  | _ => old
  end.

Definition bin_char (d old : Z) : Z :=
  match d with 0 => ch "0" | 1 => ch "1" | _ => old end.

Definition oct_char (d old : Z) : Z :=
  match d with
  | 0 => ch "0" | 1 => ch "1" | 2 => ch "2" | 3 => ch "3" | 4 => ch "4" | 5 => ch "5"
  | 6 => ch "6" | 7 => ch "7" | _ => old
  end.

(** [for(i = 0; i < n; ++i) switch(arr[i]) ...] *)
Definition char_loop (f : Z -> Z -> Z) (n : nat) (arr result : list Z) : list Z :=
  fold_left (fun res i => <[i := f (arr !!! i) (res !!! i)]> res) (seq 0 n) result.

Section Malloc.
(** [malloc n] gives the indeterminate contents of the new block, [None] for [NULL];
    [stack n] is the indeterminate contents of an automatic array of [n] ints. *)
Context (malloc stack : nat -> list Z) (ok : nat -> bool).

Definition alloc (n : nat) : option (list Z) := if ok n then Some (malloc n) else None.

(** Writing through a null [result] crashes: [None]. *)
Definition convert_hex (value : Z) : option (list Z) :=
  let arr := digits 16 16 value (stack 16%nat) in
  result ← alloc 16; Some (char_loop hex_char 16 arr result).

Definition convert_bin (value : Z) : option (list Z) :=
  let arr := digits 2 64 value (stack 64%nat) in
  result ← alloc 64; Some (char_loop bin_char 64 arr result).

Definition convert_oct (value : Z) : option (list Z) :=
  let arr := digits 8 24 value (stack 24%nat) in
  result ← alloc 24; Some (char_loop oct_char 24 arr result).

Definition OCT : Z := 99.
Definition BIN : Z := 100.
Definition HEX : Z := 101.

(** [for(i = n - 1; i >= 0; --i) putc(num[i], stdout);] and the newline. *)
Definition put_loop (n : nat) (num : list Z) : list Z :=
  ((fun i => num !!! i) <$> rev (seq 0 n)) ++ [10].

(** What [convert] writes to [stdout]. *)
Definition convert (mode value : Z) : option (list Z) :=
  if mode =? HEX then num ← convert_hex value; Some (put_loop 16 num)
  else if mode =? BIN then num ← convert_bin value; Some (put_loop 64 num)
  else if mode =? OCT then num ← convert_oct value; Some (put_loop 24 num)
  else Some [].
End Malloc.

(** Reading a numeral back. *)
Definition digit_val (c : Z) : Z := if c <=? ch "9" then c - ch "0" else c - ch "a" + 10.
Definition numeral (base : Z) (s : list Z) : Z :=
  fold_left (fun acc c => acc * base + digit_val c) s 0.

Lemma zero_loop_spec n i arr :
  length arr = n -> (i <= n)%nat -> zero_loop n i arr = take i arr ++ replicate (n - i) 0.
Proof.
  intros Hlen. unfold zero_loop. remember (n - i)%nat as k eqn:Hk. revert i arr Hlen Hk.
  induction k as [|k IH]; intros i arr Hlen Hk Hi; simpl.
  - rewrite app_nil_r, take_ge by lia. done.
  - rewrite IH by (rewrite ?length_insert; lia).
    destruct (lookup_lt_is_Some_2 arr i ltac:(lia)) as [x Hx].
    erewrite take_S_r by (by apply list_lookup_insert_eq; lia).
    rewrite take_insert_ge by lia. by rewrite <- app_assoc.
Qed.

Lemma unpack_zero w n : 0 <= w -> unpack w n 0 = replicate n 0.
Proof.
  intros Hw. induction n; [done|]. cbn [unpack replicate].
  pose proof (pow2_pos w Hw).
  by rewrite Z.mod_0_l, Z.div_0_l, IHn by lia.
Qed.

Lemma digits_unpack w n v arr :
  0 < w -> length arr = n -> 0 <= v < 2 ^ (w * Z.of_nat n) ->
  digits (2 ^ w) n v arr = unpack w n v.
Proof.
  intros Hw Hlen Hv. unfold digits.
  pose proof (pow2_pos w ltac:(lia)) as Hp.
  assert (Hgen : forall fuel i c a, length a = n -> (i + fuel = n)%nat ->
    0 <= c < 2 ^ (w * Z.of_nat fuel) ->
    (let '(j, a') := digit_loop (2 ^ w) fuel i c a in zero_loop n (S j) a') =
    if decide (fuel = 0)%nat then a else take i a ++ unpack w fuel c).
  { induction fuel as [|f IH]; intros i c a Ha Hi Hc; cbn [digit_loop].
    - unfold zero_loop. by replace (n - S i)%nat with 0%nat by lia.
    - assert (Ht : forall x, take (S i) (<[i := x]> a) = take i a ++ [x]).
      { intros x. erewrite take_S_r by (by apply list_lookup_insert_eq; lia).
        by rewrite take_insert_ge by lia. }
      destruct (Z.eqb_spec (c / 2 ^ w) 0) as [E|E].
      + rewrite zero_loop_spec, Ht by (rewrite ?length_insert; lia).
        cbn [unpack]. rewrite E, unpack_zero by lia.
        replace (n - S i)%nat with f by lia. simpl. by rewrite <- app_assoc.
      + rewrite IH; [|by rewrite length_insert|lia|].
        2: { split; [apply Z.div_pos; lia|]. apply Z.div_lt_upper_bound; [lia|].
             rewrite <- Z.pow_add_r by lia.
             replace (w + w * Z.of_nat f) with (w * Z.of_nat (S f)) by lia. apply Hc. }
        cbn [unpack]. destruct (decide (f = 0)%nat) as [->|]; simpl.
        * exfalso. apply E, Z.div_small. split; [lia|].
          replace (w * Z.of_nat 1) with w in Hc by lia. apply Hc.
        * rewrite Ht. by rewrite <- app_assoc. }
  rewrite Hgen by (done || lia). destruct (decide _) as [E|]; [|done].
  subst n. rewrite E. by destruct arr.
Qed.

Lemma char_loop_map f n arr res :
  length arr = n -> length res = n ->
  (forall d, d ∈ arr -> forall a b, f d a = f d b) ->
  char_loop f n arr res = (fun d => f d 0) <$> arr.
Proof.
  intros Ha Hr Hf. unfold char_loop.
  assert (Hgen : forall k, (k <= n)%nat ->
    fold_left (fun res i => <[i := f (arr !!! i) (res !!! i)]> res) (seq 0 k) res =
    take k ((fun d => f d 0) <$> arr) ++ drop k res).
  { induction k as [|k IH]; intros Hk; [by rewrite drop_0|].
    rewrite seq_S, fold_left_app, IH by lia. simpl.
    destruct (lookup_lt_is_Some_2 arr k ltac:(lia)) as [d Hd].
    destruct (lookup_lt_is_Some_2 res k ltac:(lia)) as [x Hx].
    rewrite (drop_S _ _ _ Hx).
    erewrite take_S_r by (by rewrite list_lookup_fmap, Hd).
    rewrite (list_lookup_total_correct _ _ _ Hd).
    rewrite insert_app_r_alt by (rewrite length_take, length_fmap; lia).
    rewrite length_take, length_fmap, Nat.min_l, Nat.sub_diag by lia. simpl.
    rewrite <- app_assoc. simpl. do 2 f_equal. apply Hf.
    apply list_elem_of_lookup. eauto. }
  rewrite Hgen by lia. rewrite take_ge by (rewrite length_fmap; lia).
  rewrite drop_ge by lia. apply app_nil_r.
Qed.

Lemma put_loop_rev n num : length num = n -> put_loop n num = rev num ++ [10].
Proof.
  intros Hn. unfold put_loop. f_equal.
  change (map (fun i => num !!! i) (rev (seq 0 n)) = rev num).
  rewrite map_rev. f_equal. apply list_eq. intros i.
  change (map (fun i => num !!! i) (seq 0 n)) with ((fun i => num !!! i) <$> seq 0 n).
  rewrite list_lookup_fmap. destruct (decide (i < n)%nat).
  - rewrite lookup_seq_lt by lia. simpl. symmetry. apply list_lookup_lookup_total_lt. lia.
  - rewrite lookup_seq_ge by lia. symmetry. apply lookup_ge_None_2. lia.
Qed.

Lemma numeral_rev w f l :
  0 <= w -> (forall d, d ∈ l -> digit_val (f d) = d) ->
  numeral (2 ^ w) (rev (f <$> l)) = pack w l.
Proof.
  intros Hw Hf. unfold numeral. rewrite <- fold_left_rev_right, rev_involutive.
  induction l as [|d l IH]; [done|]. rewrite fmap_cons. cbn [foldr pack].
  rewrite IH by set_solver.
  rewrite Hf by set_solver. lia.
Qed.

(** A digit below [2^w] prints as a digit that reads back, whatever was in the buffer. *)
Definition prints (w : Z) (f : Z -> Z -> Z) : Prop :=
  forall d, field_ok w d -> digit_val (f d 0) = d /\ forall a b, f d a = f d b.

Lemma prints_by_cases w f (n : nat) :
  2 ^ w = Z.of_nat n ->
  Forall (fun d => digit_val (f d 0) = d /\ forall a b, f d a = f d b) (seqZ 0 (Z.of_nat n)) ->
  prints w f.
Proof.
  intros Hn Hall d Hd. rewrite Forall_forall in Hall. apply Hall.
  apply elem_of_seqZ. unfold field_ok in Hd. lia.
Qed.

Lemma hex_prints : prints 4 hex_char.
Proof. apply (prints_by_cases _ _ 16); [done|]. by repeat constructor. Qed.
Lemma bin_prints : prints 1 bin_char.
Proof. apply (prints_by_cases _ _ 2); [done|]. by repeat constructor. Qed.
Lemma oct_prints : prints 3 oct_char.
Proof. apply (prints_by_cases _ _ 8); [done|]. by repeat constructor. Qed.

Lemma print_reads_back w f n v arr res :
  0 < w -> prints w f -> length arr = n -> length res = n -> 0 <= v < 2 ^ (w * Z.of_nat n) ->
  exists ds, put_loop n (char_loop f n (digits (2 ^ w) n v arr) res) = ds ++ [10] /\
    length ds = n /\ numeral (2 ^ w) ds = v.
Proof.
  intros Hw Hf Ha Hr Hv. rewrite digits_unpack by done.
  pose proof (unpack_ok w ltac:(lia) n v) as Hok. rewrite Forall_forall in Hok.
  rewrite char_loop_map; [|by rewrite length_unpack|done|by intros d Hd; apply Hf, Hok].
  rewrite put_loop_rev by (by rewrite length_fmap, length_unpack).
  eexists. split; [done|]. rewrite length_rev, length_fmap, length_unpack. split; [done|].
  rewrite numeral_rev by (lia || intros d Hd; apply Hf, Hok, Hd).
  apply pack_unpack_id; [lia|done].
Qed.

(** Whatever the uninitialised arrays hold, and when its [malloc] succeeds,
    [convert] writes a newline-terminated numeral of the fixed width of its mode
    that reads back to the 64-bit value. *)
Theorem convert_roundtrip (malloc stack : nat -> list Z) (ok : nat -> bool) (mode value : Z)
    (w : Z) (n : nat) (Hv : 0 <= value < 2 ^ 64)
    (Hm : (mode, w, n) ∈ [(HEX, 4, 16%nat); (BIN, 1, 64%nat); (OCT, 3, 24%nat)])
    (Hok : ok n = true) (Hmal : length (malloc n) = n) (Hst : length (stack n) = n) :
  exists ds, convert malloc stack ok mode value = Some (ds ++ [10]) /\
    length ds = n /\ numeral (2 ^ w) ds = value.
Proof.
  assert (Hcase : mode = HEX /\ w = 4 /\ n = 16%nat \/ mode = BIN /\ w = 1 /\ n = 64%nat \/
                  mode = OCT /\ w = 3 /\ n = 24%nat).
  { rewrite !elem_of_cons in Hm. destruct Hm as [E|[E|[E|E]]]; [..|by apply elem_of_nil in E];
      injection E as -> -> ->; auto. }
  unfold convert, convert_hex, convert_bin, convert_oct, alloc.
  destruct Hcase as [(-> & -> & ->)|[(-> & -> & ->)|(-> & -> & ->)]]; rewrite Hok.
  - destruct (print_reads_back 4 hex_char 16 value (stack 16%nat) (malloc 16%nat))
      as (ds & Hp & Hl); [lia|exact hex_prints|done|done|simpl; lia|].
    exists ds. rewrite <- Hp. done.
  - destruct (print_reads_back 1 bin_char 64 value (stack 64%nat) (malloc 64%nat))
      as (ds & Hp & Hl); [lia|exact bin_prints|done|done|simpl; lia|].
    exists ds. rewrite <- Hp. done.
  - destruct (print_reads_back 3 oct_char 24 value (stack 24%nat) (malloc 24%nat))
      as (ds & Hp & Hl); [lia|exact oct_prints|done|done|simpl; lia|].
    exists ds. rewrite <- Hp. done.
Qed.

Lemma convert_roundtrip_witness :
  exists ds, convert (fun n => replicate n 85) (fun n => replicate n (-1)) (fun _ => true)
               HEX 0xdeadbeef = Some (ds ++ [10]) /\
    length ds = 16%nat /\ numeral (2 ^ 4) ds = 0xdeadbeef.
Proof.
  apply convert_roundtrip; try reflexivity; [lia|]. by_decide.
Defined.
End Convert.

Module DrawU.

(** The system calls of [draw_u], in order. *)
Inductive call :=
| Creat (name : list Z)
| Write (fd : Z) (buf : list Z)
| Close (fd : Z).

(** [fd] and [line1..3] are what the kernel answers to the creation and the writes. *)
Definition draw_u (fd line1 line2 line3 : Z) : list call :=
  [Creat (codes "u.txt")] ++
  (if fd =? -1 then [Close fd] else []) ++
  [Write fd (codes "| |" ++ [10]); Write fd (codes "| |" ++ [10]); Write fd (codes "___")] ++
  (if (line1 =? -1) || (line2 =? -1) || (line3 =? -1) then [Close fd] else []) ++
  [Close fd].
End DrawU.
