(* ===== verification/Hw.v ===== *)
(** * Code that talks to devices

    Start-up code reads and writes ports and device registers mapped in memory. A piece of
    such code is a tree of these accesses, and a device gives them a meaning: [run] runs a
    tree against the state of a device. A device promises what a theorem needs and no
    more, so it is the instance of a class. *)

From S2P Require Import Prelude.

(** [Out]/[In]: the instructions out and in; [St]: a store of [n] bytes and [Ld]: a 32-bit
    load, at an address the hardware answers; [Print]: a message for the console. *)
Inductive io (A : Type) : Type :=
| Ret (a : A)
| Out (port v : Z) (k : io A)
| In (port : Z) (k : Z -> io A)
| St (n : nat) (a v : Z) (k : io A)
| Ld (a : Z) (k : Z -> io A)
| Print (msg : string) (k : io A)
| Panic (msg : string)
| OutOfFuel.
Arguments Ret {A} _.
Arguments Out {A} _ _ _.
Arguments In {A} _ _.
Arguments St {A} _ _ _ _.
Arguments Ld {A} _ _.
Arguments Print {A} _ _.
Arguments Panic {A} _.
Arguments OutOfFuel {A}.

#[export] Instance io_ret : MRet io := @Ret.

#[export] Instance io_bind : MBind io := fun A B f =>
  fix go (m : io A) : io B :=
    match m with
    | Ret a => f a
    | Out p v k => Out p v (go k)
    | In p k => In p (fun x => go (k x))
    | St n a v k => St n a v (go k)
    | Ld a k => Ld a (fun x => go (k x))
    | Print w k => Print w (go k)
    | Panic w => Panic w
    | OutOfFuel => OutOfFuel
    end.

Definition outb (port v : Z) : io unit := Out port v (Ret tt).
Definition inb (port : Z) : io Z := In port Ret.
Definition store (n : nat) (a v : Z) : io unit := St n a v (Ret tt).
Definition load (a : Z) : io Z := Ld a Ret.
Definition say (msg : string) : io unit := Print msg (Ret tt).

(** [P2V]: where the kernel sees a physical address. *)
Definition p2v (a : Z) : Z := u32 (a + 0x80000000).

(** ** Devices *)

Class Device (S : Type) := {
  d_out : Z -> Z -> S -> S;
  d_in : Z -> S -> Z * S;
  d_st : nat -> Z -> Z -> S -> S;
  d_ld : Z -> S -> Z * S;
  d_print : string -> S -> S;
}.

(** How a run ends. *)
Inductive ending (A : Type) : Type :=
| Done (a : A)
| Paniced (msg : string)
| Running.
Arguments Done {A} _.
Arguments Paniced {A} _.
Arguments Running {A}.

Section Run.
Context {S : Type} `{Device S}.

Fixpoint run {A} (m : io A) (s : S) : ending A * S :=
  match m with
  | Ret a => (Done a, s)
  | Out p v k => run k (d_out p v s)
  | In p k => let '(x, s) := d_in p s in run (k x) s
  | St n a v k => run k (d_st n a v s)
  | Ld a k => let '(x, s) := d_ld a s in run (k x) s
  | Print w k => run k (d_print w s)
  | Panic w => (Paniced w, s)
  | OutOfFuel => (Running, s)
  end.

Lemma run_bind {A B} (m : io A) (f : A -> io B) s :
  run (m ≫= f) s =
  match run m s with
  | (Done a, s) => run (f a) s
  | (Paniced w, s) => (Paniced w, s)
  | (Running, s) => (Running, s)
  end.
Proof using Type.
  revert s. induction m as [a|p v k IH|p k IH|n p v k IH|p k IH|w k IH| |]; intros s; try done; cbn.
  - apply IH.
  - destruct (d_in p s) as [x s']. apply IH.
  - apply IH.
  - destruct (d_ld p s) as [x s']. apply IH.
  - apply IH.
Qed.

(** The rule to step through straight-line code. *)
Lemma run_seq {A B} (m : io A) (f : A -> io B) a s s' :
  run m s = (Done a, s') -> run (m ≫= f) s = run (f a) s'.
Proof using Type. intros Hm. by rewrite run_bind, Hm. Qed.
End Run.
