(* ===== verification/Seg.v ===== *)
(** * Segments and gates (the descriptors of mmu.h; [seginit] and [switchuvm] of vm.c, [tvinit]
    and [idtinit] of trap.c)

    A descriptor is a structure of bit fields that the processor reads as eight bytes. [sd_bits]
    and [gd_bits] lay the fields out as the structures declare them; [seg_decode] and
    [gate_decode] read the bytes as the processor does. *)

From S2P Require Import Prelude Traps.

Definition SEG_KCODE : Z := 1.
Definition SEG_KDATA : Z := 2.
Definition SEG_UCODE : Z := 3.
Definition SEG_UDATA : Z := 4.
Definition SEG_TSS : Z := 5.
Definition NSEGS : Z := 6.

Definition DPL_USER : Z := 0x3.
Definition STA_X : Z := 0x8.
Definition STA_W : Z := 0x2.
Definition STA_R : Z := 0x2.
Definition STS_T32A : Z := 0x9.
Definition STS_IG32 : Z := 0xE.
Definition STS_TG32 : Z := 0xF.

(** ** Descriptors *)

Record segdesc := SegDesc {
  sd_lim_15_0 : Z; sd_base_15_0 : Z; sd_base_23_16 : Z; sd_type : Z; sd_s : Z; sd_dpl : Z; sd_p : Z;
  sd_lim_19_16 : Z; sd_avl : Z; sd_rsv1 : Z; sd_db : Z; sd_g : Z; sd_base_31_24 : Z;
}.

Definition SEG (type base lim dpl : Z) : segdesc :=
  SegDesc ((lim >>u 12) .& 0xffff) (base .& 0xffff) ((base >>u 16) .& 0xff) type 1 dpl 1
    (lim >>u 28) 0 0 1 1 (base >>u 24).

Definition SEG16 (type base lim dpl : Z) : segdesc :=
  SegDesc (lim .& 0xffff) (base .& 0xffff) ((base >>u 16) .& 0xff) type 1 dpl 1
    (lim >>u 16) 0 0 1 0 (base >>u 24).

Record gatedesc := GateDesc {
  gd_off_15_0 : Z; gd_cs : Z; gd_args : Z; gd_rsv1 : Z; gd_type : Z; gd_s : Z; gd_dpl : Z; gd_p : Z; gd_off_31_16 : Z;
}.

Definition SETGATE (istrap : bool) (sel off d : Z) : gatedesc :=
  GateDesc (off .& 0xffff) sel 0 0 (if istrap then STS_TG32 else STS_IG32) 0 d 1 (off >>u 16).

(** Bit fields, the first at the lowest bit; a value is cut to its field. *)
Fixpoint bits (l : list (Z * Z)) : Z :=
  match l with
  | [] => 0
  | (w, x) :: l => x mod 2 ^ w + 2 ^ w * bits l
  end.

Definition sd_bits (d : segdesc) : Z :=
  bits [(16, sd_lim_15_0 d); (16, sd_base_15_0 d); (8, sd_base_23_16 d); (4, sd_type d); (1, sd_s d); (2, sd_dpl d);
        (1, sd_p d); (4, sd_lim_19_16 d); (1, sd_avl d); (1, sd_rsv1 d); (1, sd_db d); (1, sd_g d); (8, sd_base_31_24 d)].

Definition gd_bits (d : gatedesc) : Z :=
  bits [(16, gd_off_15_0 d); (16, gd_cs d); (5, gd_args d); (3, gd_rsv1 d); (4, gd_type d); (1, gd_s d); (2, gd_dpl d);
        (1, gd_p d); (16, gd_off_31_16 d)].

(** ** What the code loads *)

(** The operand of lgdt and lidt: the limit and the address in three shorts. *)
Definition lgdt (p size : Z) : list Z := [u16 (size - 1); u16 p; u16 (p >>u 16)].
Definition lidt (p size : Z) : list Z := [u16 (size - 1); u16 p; u16 (p >>u 16)].

(** [c->gdt], at the address [addr], and what lgdt loads. *)
Definition seginit (gdt : list segdesc) (addr : Z) : list segdesc * list Z :=
  let gdt := <[Z.to_nat SEG_KCODE := SEG (STA_X .| STA_R) 0 0xffffffff 0]> gdt in
  let gdt := <[Z.to_nat SEG_KDATA := SEG STA_W 0 0xffffffff 0]> gdt in
  let gdt := <[Z.to_nat SEG_UCODE := SEG (STA_X .| STA_R) 0 0xffffffff DPL_USER]> gdt in
  let gdt := <[Z.to_nat SEG_UDATA := SEG STA_W 0 0xffffffff DPL_USER]> gdt in
  (gdt, lgdt addr (8 * NSEGS)).

(** The fields of [struct taskstate] the kernel sets. *)
Record taskstate := Task { ts_ss0 : Z; ts_esp0 : Z; ts_iomb : Z }.

Definition sizeof_taskstate : Z := 104.

Definition upd_sd_s (s : Z) (d : segdesc) : segdesc :=
  SegDesc (sd_lim_15_0 d) (sd_base_15_0 d) (sd_base_23_16 d) (sd_type d) s (sd_dpl d) (sd_p d) (sd_lim_19_16 d)
    (sd_avl d) (sd_rsv1 d) (sd_db d) (sd_g d) (sd_base_31_24 d).

(** [switchuvm]: the task state of the CPU, at [ts], and its descriptor, for a kernel stack
    that ends at [esp0]; also the selector for ltr. *)
Definition switch_tss (gdt : list segdesc) (ts esp0 : Z) : list segdesc * taskstate * Z :=
  let gdt := <[Z.to_nat SEG_TSS := upd_sd_s 0 (SEG16 STS_T32A ts (sizeof_taskstate - 1) 0)]> gdt in
  (gdt, Task (SEG_KDATA <<u 3) esp0 0xFFFF, SEG_TSS <<u 3).

(** [idt], from the addresses of the entry points in vectors.S. *)
Definition tvinit (vectors : list Z) : list gatedesc :=
  let idt := map (fun i => SETGATE false (SEG_KCODE <<u 3) (vectors !!! Z.to_nat i) 0) (seqZ 0 256) in
  <[Z.to_nat T_SYSCALL := SETGATE true (SEG_KCODE <<u 3) (vectors !!! Z.to_nat T_SYSCALL) DPL_USER]> idt.

Definition idtinit (idt : Z) : list Z := lidt idt (8 * 256).

(** ** What the processor reads *)

(** Bits [i .. i+n-1]. *)
Definition field (i n x : Z) : Z := x / 2 ^ i mod 2 ^ n.

Record segment := Segment {
  sg_base : Z; sg_limit : Z; sg_type : Z; sg_app : bool; sg_dpl : Z; sg_present : bool; sg_32 : bool;
}.

(** The limit counts pages when the granularity bit is set. *)
Definition seg_decode (x : Z) : segment :=
  let lim := field 0 16 x + 2 ^ 16 * field 48 4 x in
  Segment (field 16 16 x + 2 ^ 16 * field 32 8 x + 2 ^ 24 * field 56 8 x)
    (if Z.testbit x 55 then lim * 4096 + 4095 else lim)
    (field 40 4 x) (Z.testbit x 44) (field 45 2 x) (Z.testbit x 47) (Z.testbit x 54).

Record gate := Gate { g_offset : Z; g_sel : Z; g_type : Z; g_app : bool; g_dpl : Z; g_present : bool }.

Definition gate_decode (x : Z) : gate :=
  Gate (field 0 16 x + 2 ^ 16 * field 48 16 x) (field 16 16 x) (field 40 4 x) (Z.testbit x 44) (field 45 2 x)
    (Z.testbit x 47).

(** ** Fields come back *)

Definition width (l : list (Z * Z)) : Z := foldr (fun x n => x.1 + n) 0 l.

Definition widths_ok (l : list (Z * Z)) : bool := forallb (fun x => 0 <=? x.1) l.

Lemma width_nonneg l : widths_ok l = true -> 0 <= width l.
Proof.
  induction l as [|[w x] l IH]; cbn; [lia|]. rewrite andb_true_iff, Z.leb_le. intros [Hw Hl].
  specialize (IH Hl). unfold width in IH. lia.
Qed.

Lemma field_bits l1 w x l2 :
  widths_ok l1 = true -> 0 <= w -> field (width l1) w (bits (l1 ++ (w, x) :: l2)) = x mod 2 ^ w.
Proof.
  unfold field. induction l1 as [|[v y] l1 IH]; intros Hl Hw.
  - cbn [width foldr app bits]. rewrite Z.pow_0_r, Z.div_1_r. rewrite Z.mul_comm, Z_mod_plus_full, Z.mod_mod; [done|].
    pose proof (Z.pow_pos_nonneg 2 w ltac:(lia) Hw). lia.
  - cbn in Hl. apply andb_true_iff in Hl as [Hv Hl]. apply Z.leb_le in Hv.
    change (width ((v, y) :: l1)) with (v + width l1). cbn [app bits].
    pose proof (width_nonneg _ Hl) as Hwd. pose proof (Z.pow_pos_nonneg 2 v ltac:(lia) Hv) as Hp.
    rewrite Z.pow_add_r, <- Z.div_div by (try apply Z.pow_pos_nonneg; lia).
    rewrite Z.mul_comm, Z.div_add, (Z.div_small (y mod 2 ^ v)) by (try apply Z.mod_pos_bound; lia).
    by rewrite Z.add_0_l, IH.
Qed.

Lemma testbit_field x i : 0 <= i -> Z.testbit x i = (field i 1 x =? 1).
Proof.
  intros Hi. unfold field. change (2 ^ 1) with 2. rewrite <- Z.testbit_spec' by done.
  by destruct (Z.testbit x i).
Qed.

(** Field [k] of a descriptor, at the width it is declared with. *)
Lemma field_nth l k w x i :
  l !! k = Some (w, x) -> i = width (take k l) -> widths_ok l = true -> field i w (bits l) = x mod 2 ^ w.
Proof.
  intros Hk -> Hl. rewrite <- (take_drop_middle l k (w, x) Hk).
  assert (Hw : forallb (fun x => 0 <=? x.1) (take k l ++ (w, x) :: drop (S k) l) = true) by (by rewrite take_drop_middle).
  rewrite forallb_app in Hw. apply andb_true_iff in Hw as [Hw1 Hw2]. apply andb_true_iff in Hw2 as [Hw2 _].
  rewrite take_app_le by (rewrite length_take; apply lookup_lt_Some in Hk; lia). rewrite take_take, Nat.min_id.
  apply field_bits; [exact Hw1|]. by apply Z.leb_le.
Qed.

Ltac nth_field k i w := rewrite (field_nth _ k w _ i) by reflexivity.

Lemma sd_decode d :
  seg_decode (sd_bits d) =
  let lim := sd_lim_15_0 d mod 2 ^ 16 + 2 ^ 16 * (sd_lim_19_16 d mod 2 ^ 4) in
  Segment (sd_base_15_0 d mod 2 ^ 16 + 2 ^ 16 * (sd_base_23_16 d mod 2 ^ 8) + 2 ^ 24 * (sd_base_31_24 d mod 2 ^ 8))
    (if sd_g d mod 2 =? 1 then lim * 4096 + 4095 else lim) (sd_type d mod 2 ^ 4) (sd_s d mod 2 =? 1)
    (sd_dpl d mod 2 ^ 2) (sd_p d mod 2 =? 1) (sd_db d mod 2 =? 1).
Proof.
  unfold seg_decode. rewrite !testbit_field by lia. unfold sd_bits.
  nth_field 0%nat 0 16. nth_field 1%nat 16 16. nth_field 2%nat 32 8. nth_field 3%nat 40 4.
  nth_field 4%nat 44 1. nth_field 5%nat 45 2. nth_field 6%nat 47 1. nth_field 7%nat 48 4.
  nth_field 10%nat 54 1. nth_field 11%nat 55 1. nth_field 12%nat 56 8. done.
Qed.

Lemma gd_decode d :
  gate_decode (gd_bits d) =
  Gate (gd_off_15_0 d mod 2 ^ 16 + 2 ^ 16 * (gd_off_31_16 d mod 2 ^ 16)) (gd_cs d mod 2 ^ 16) (gd_type d mod 2 ^ 4)
    (gd_s d mod 2 =? 1) (gd_dpl d mod 2 ^ 2) (gd_p d mod 2 =? 1).
Proof.
  unfold gate_decode. rewrite !testbit_field by lia. unfold gd_bits.
  nth_field 0%nat 0 16. nth_field 1%nat 16 16. nth_field 4%nat 40 4. nth_field 5%nat 44 1.
  nth_field 6%nat 45 2. nth_field 7%nat 47 1. nth_field 8%nat 48 16. done.
Qed.

(** A 32-bit value cut in the pieces of a descriptor. *)
Lemma low16 x : x .& 0xffff = x mod 2 ^ 16.
Proof. apply (Z.land_ones x 16). lia. Qed.

Lemma low8 x : x .& 0xff = x mod 2 ^ 8.
Proof. apply (Z.land_ones x 8). lia. Qed.

(** [SEG] makes a flat 32-bit segment, its limit rounded up to a page. *)
Lemma SEG_decodes type base lim dpl :
  0 <= type < 16 -> 0 <= base < 2 ^ 32 -> 0 <= lim < 2 ^ 32 -> 0 <= dpl < 4 ->
  seg_decode (sd_bits (SEG type base lim dpl)) = Segment base (lim / 4096 * 4096 + 4095) type true dpl true true.
Proof.
  intros Ht Hb Hl Hd. rewrite sd_decode. cbn [SEG sd_lim_15_0 sd_base_15_0 sd_base_23_16 sd_type sd_s sd_dpl sd_p sd_lim_19_16 sd_db sd_g sd_base_31_24].
  rewrite !low16, low8, !Z.shiftr_div_pow2 by lia. change (1 mod 2 =? 1) with true. cbv iota zeta. f_equal; dlia.
Qed.

(** [SEG16]: the limit in bytes. *)
Lemma SEG16_decodes type base lim dpl :
  0 <= type < 16 -> 0 <= base < 2 ^ 32 -> 0 <= lim < 2 ^ 20 -> 0 <= dpl < 4 ->
  seg_decode (sd_bits (SEG16 type base lim dpl)) = Segment base lim type true dpl true true.
Proof.
  intros Ht Hb Hl Hd. rewrite sd_decode. cbn [SEG16 sd_lim_15_0 sd_base_15_0 sd_base_23_16 sd_type sd_s sd_dpl sd_p sd_lim_19_16 sd_db sd_g sd_base_31_24].
  rewrite !low16, low8, !Z.shiftr_div_pow2 by lia. change (1 mod 2 =? 1) with true. change (0 mod 2 =? 1) with false. cbv iota zeta. f_equal; dlia.
Qed.

Lemma SETGATE_decodes trap sel off d :
  0 <= sel < 2 ^ 16 -> 0 <= off < 2 ^ 32 -> 0 <= d < 4 ->
  gate_decode (gd_bits (SETGATE trap sel off d)) = Gate off sel (if trap then STS_TG32 else STS_IG32) false d true.
Proof.
  intros Hs Ho Hd. rewrite gd_decode. cbn [SETGATE gd_off_15_0 gd_cs gd_type gd_s gd_dpl gd_p gd_off_31_16].
  rewrite low16, Z.shiftr_div_pow2 by lia. change (1 mod 2 =? 1) with true. change (0 mod 2 =? 1) with false.
  f_equal; try dlia. by destruct trap.
Qed.

(** ** What the tables say *)

(** [int n] at privilege [cpl]: where the processor goes, if the gate lets it. *)
Definition int_from (cpl : Z) (idt : list gatedesc) (n : Z) : option (Z * Z) :=
  match idt !! Z.to_nat n with
  | Some d => let g := gate_decode (gd_bits d) in
              if g_present g && (cpl <=? g_dpl g) then Some (g_sel g, g_offset g) else None
  | None => None
  end.

(** The segment a selector names. *)
Definition segment_of (gdt : list segdesc) (sel : Z) : option segment :=
  (fun d => seg_decode (sd_bits d)) <$> gdt !! Z.to_nat (sel / 8).

(** The bit of a port in the map beyond the task state: past its limit every port is refused. *)
Definition port_allowed (t : taskstate) (limit port : Z) : bool := ts_iomb t + port / 8 <=? limit.

(** What in and out check: the privilege level against IOPL in eflags, and then the map. *)
Definition iopl (eflags : Z) : Z := Z.land (Z.shiftr eflags 12) 3.
Definition io_allowed (cpl eflags : Z) (t : taskstate) (limit port : Z) : bool :=
  (cpl <=? iopl eflags) || port_allowed t limit port.

(** The eflags [userinit] gives the first process, which [fork] and [exec] keep. *)
Definition FL_IF : Z := 0x200.

Lemma tvinit_gate vectors i off :
  length vectors = 256%nat -> Forall (field_ok 32) vectors -> 0 <= i < 256 -> vectors !! Z.to_nat i = Some off ->
  exists d, tvinit vectors !! Z.to_nat i = Some d /\
    gate_decode (gd_bits d) =
      Gate off 8 (if i =? T_SYSCALL then STS_TG32 else STS_IG32) false (if i =? T_SYSCALL then DPL_USER else 0) true.
Proof.
  intros Hlen Hok Hi Hv. pose proof (Forall_lookup_1 _ _ _ _ Hok Hv) as Hoff. unfold tvinit.
  destruct (Z.eqb_spec i T_SYSCALL) as [->|Hne].
  - eexists. split; [apply list_lookup_insert_eq; rewrite length_map, length_seqZ; unfold T_SYSCALL; lia|].
    rewrite (list_lookup_total_correct _ _ _ Hv). by apply SETGATE_decodes.
  - eexists. split.
    + rewrite list_lookup_insert_ne by (unfold T_SYSCALL in *; lia).
      rewrite list_lookup_fmap, lookup_seqZ_lt by lia. done.
    + cbn [fmap]. rewrite Z.add_0_l, Z2Nat.id by lia. rewrite (list_lookup_total_correct _ _ _ Hv). by apply SETGATE_decodes.
Qed.

(** C31: user code gets into the kernel by one door. With the tables of [seginit], [tvinit]
    and [switchuvm], [int n] at user privilege is let through for the system call vector
    only, and leads to its entry point; every gate leads to the flat code segment of the
    kernel, at ring 0; and no port is open to user code, neither by the map beyond the task state nor
    by IOPL, which is 0 in the eflags of a process. *)
Theorem user_enters_by_syscall (vectors : list Z) (gdt : list segdesc) (gdt_at ts esp0 : Z)
    (Hlen : length vectors = 256%nat) (Hok : Forall (field_ok 32) vectors) (Hgdt : length gdt = 6%nat)
    (Hts : 0 <= ts < 2 ^ 32) :
  let idt := tvinit vectors in
  let '(gdt', task, tr) := switch_tss (seginit gdt gdt_at).1 ts esp0 in
  (forall n, 0 <= n < 256 ->
     int_from 3 idt n = if n =? T_SYSCALL then Some (8, vectors !!! Z.to_nat T_SYSCALL) else None) /\
  (forall n, 0 <= n < 256 -> int_from 0 idt n = Some (8, vectors !!! Z.to_nat n)) /\
  segment_of gdt' 8 = Some (Segment 0 (2 ^ 32 - 1) (STA_X .| STA_R) true 0 true true) /\
  segment_of gdt' tr = Some (Segment ts (sizeof_taskstate - 1) STS_T32A false 0 true true) /\
  (forall port, 0 <= port -> port_allowed task (sizeof_taskstate - 1) port = false) /\
  (forall port, 0 <= port -> io_allowed 3 FL_IF task (sizeof_taskstate - 1) port = false).
Proof.
  cbv zeta. unfold switch_tss, seginit. cbn [fst].
  change (Z.to_nat SEG_KCODE) with 1%nat. change (Z.to_nat SEG_KDATA) with 2%nat. change (Z.to_nat SEG_UCODE) with 3%nat.
  change (Z.to_nat SEG_UDATA) with 4%nat. change (Z.to_nat SEG_TSS) with 5%nat.
  assert (Hg : forall n, 0 <= n < 256 -> exists d, tvinit vectors !! Z.to_nat n = Some d /\
    gate_decode (gd_bits d) = Gate (vectors !!! Z.to_nat n) 8 (if n =? T_SYSCALL then STS_TG32 else STS_IG32) false
      (if n =? T_SYSCALL then DPL_USER else 0) true).
  { intros n Hn. destruct (lookup_lt_is_Some_2 vectors (Z.to_nat n) ltac:(lia)) as [off Hoff].
    rewrite (list_lookup_total_correct _ _ _ Hoff). by apply tvinit_gate. }
  assert (Hport : forall esp0' port, 0 <= port -> port_allowed (Task (SEG_KDATA <<u 3) esp0' 0xFFFF) (sizeof_taskstate - 1) port = false).
  { intros e port Hp. unfold port_allowed, sizeof_taskstate. cbn [ts_iomb]. apply Z.leb_gt.
    pose proof (Z.div_pos port 8 Hp ltac:(lia)). lia. }
  split; [|split; [|split; [|split; [|split]]]].
  - intros n Hn. destruct (Hg n Hn) as (d & Hd & Hdec). unfold int_from. rewrite Hd, Hdec. cbn [g_present g_dpl andb].
    destruct (Z.eqb_spec n T_SYSCALL) as [->|]; done.
  - intros n Hn. destruct (Hg n Hn) as (d & Hd & Hdec). unfold int_from. rewrite Hd, Hdec. cbn [g_present g_dpl andb].
    by destruct (n =? T_SYSCALL).
  - unfold segment_of. change (Z.to_nat (8 / 8)) with 1%nat.
    rewrite !list_lookup_insert_ne, list_lookup_insert_eq by (done || lia). cbn [fmap option_fmap option_map].
    rewrite SEG_decodes by (done || (unfold STA_X, STA_R; cbn; lia)). done.
  - unfold segment_of. change (Z.to_nat ((SEG_TSS <<u 3) / 8)) with 5%nat.
    rewrite list_lookup_insert_eq by (rewrite !length_insert; lia). cbn [fmap option_fmap option_map].
    rewrite sd_decode. pose proof (SEG16_decodes STS_T32A ts (sizeof_taskstate - 1) 0) as H.
    rewrite sd_decode in H. specialize (H ltac:(done) Hts ltac:(done) ltac:(done)).
    injection H as H1. cbn [upd_sd_s sd_lim_15_0 sd_base_15_0 sd_base_23_16 sd_type sd_s sd_dpl sd_p sd_lim_19_16 sd_db sd_g sd_base_31_24].
    f_equal. f_equal; assumption || done.
  - intros port Hp. by apply Hport.
  - intros port Hp. unfold io_allowed. rewrite Hport by done. reflexivity.
Qed.

(** The entry points of vectors.S, four bytes apart. *)
Definition some_vectors : list Z := map (fun i => 0x80106000 + 4 * i) (seqZ 0 256).

Lemma user_enters_by_syscall_witness :
  int_from 3 (tvinit some_vectors) 64 = Some (8, 0x80106100) /\ int_from 3 (tvinit some_vectors) 14 = None.
Proof.
  assert (Hok : Forall (field_ok 32) some_vectors).
  { apply Forall_forall. intros x Hx. apply list_elem_of_fmap in Hx as (i & -> & Hi).
    apply elem_of_seqZ in Hi. unfold field_ok. lia. }
  destruct (user_enters_by_syscall some_vectors (replicate 6 (SEG 0 0 0 0)) 0 0x80112780 0
    ltac:(reflexivity) Hok ltac:(reflexivity) ltac:(lia)) as (H & _).
  split; rewrite H by lia; reflexivity.
Defined.
