(* ===== verification/Lapic.v ===== *)
(** * The local interrupt controller and the clock (lapic.c)

    [Lapic] is the controller: its set-up and the start of another processor. [Cmos]
    reads the time of day. *)

From S2P Require Import Prelude Traps Hw.

Module Lapic.

Definition ID : Z := 0x0020 / 4.
Definition VER : Z := 0x0030 / 4.
Definition TPR : Z := 0x0080 / 4.
Definition EOI : Z := 0x00B0 / 4.
Definition SVR : Z := 0x00F0 / 4.
Definition ENABLE : Z := 0x00000100.
Definition ESR : Z := 0x0280 / 4.
Definition ICRLO : Z := 0x0300 / 4.
Definition INIT : Z := 0x00000500.
Definition STARTUP : Z := 0x00000600.
Definition DELIVS : Z := 0x00001000.
Definition ASSERT : Z := 0x00004000.
Definition LEVEL : Z := 0x00008000.
Definition BCAST : Z := 0x00080000.
Definition ICRHI : Z := 0x0310 / 4.
Definition TIMER : Z := 0x0320 / 4.
Definition X1 : Z := 0x0000000B.
Definition PERIODIC : Z := 0x00020000.
Definition PCINT : Z := 0x0340 / 4.
Definition LINT0 : Z := 0x0350 / 4.
Definition LINT1 : Z := 0x0360 / 4.
Definition ERROR : Z := 0x0370 / 4.
Definition MASKED : Z := 0x00010000.
Definition TICR : Z := 0x0380 / 4.
Definition TDCR : Z := 0x03E0 / 4.

(** [lapic]: the address of the registers, 0 when there is no controller. *)
Definition reg (lapic index : Z) : Z := lapic +u 4 * index.

Definition lapicw (lapic index value : Z) : io unit :=
  store 4 (reg lapic index) (u32 value);;
  _ ← load (reg lapic ID);
  mret tt.

(** [while(lapic[ICRLO] & DELIVS);] *)
Fixpoint wait_delivered (fuel : nat) (lapic : Z) : io unit :=
  match fuel with
  | O => OutOfFuel
  | S fuel =>
      x ← load (reg lapic ICRLO);
      if x .& DELIVS =? 0 then mret tt else wait_delivered fuel lapic
  end.

Definition lapicinit (fuel : nat) (lapic : Z) : io unit :=
  if lapic =? 0 then mret tt else
  lapicw lapic SVR (ENABLE .| (T_IRQ0 + IRQ_SPURIOUS));;
  lapicw lapic TDCR X1;;
  lapicw lapic TIMER (PERIODIC .| (T_IRQ0 + IRQ_TIMER));;
  lapicw lapic TICR 10000000;;
  lapicw lapic LINT0 MASKED;;
  lapicw lapic LINT1 MASKED;;
  ver ← load (reg lapic VER);
  (if 4 <=? ((ver >>u 16) .& 0xFF) then lapicw lapic PCINT MASKED else mret tt);;
  lapicw lapic ERROR (T_IRQ0 + IRQ_ERROR);;
  lapicw lapic ESR 0;;
  lapicw lapic ESR 0;;
  lapicw lapic EOI 0;;
  lapicw lapic ICRHI 0;;
  lapicw lapic ICRLO (BCAST .| INIT .| LEVEL);;
  wait_delivered fuel lapic;;
  lapicw lapic TPR 0.

Definition lapicid (lapic : Z) : io Z :=
  if lapic =? 0 then mret 0 else
  x ← load (reg lapic ID);
  mret (x >>u 24).

Definition lapiceoi (lapic : Z) : io unit :=
  if lapic =? 0 then mret tt else lapicw lapic EOI 0.

Definition CMOS_PORT : Z := 0x70.

(** The warm reset vector. *)
Definition wrv : Z := p2v ((0x40 <<u 4) .| 0x67).

Definition startup_ipi (lapic apicid addr : Z) : io unit :=
  lapicw lapic ICRHI (apicid <<u 24);;
  lapicw lapic ICRLO (STARTUP .| (addr >>u 12)).

Definition lapicstartap (lapic apicid addr : Z) : io unit :=
  outb CMOS_PORT 0xF;;
  outb (CMOS_PORT + 1) 0x0A;;
  store 2 wrv 0;;
  store 2 (wrv + 2) (u16 (addr >>u 4));;
  lapicw lapic ICRHI (apicid <<u 24);;
  lapicw lapic ICRLO (INIT .| LEVEL .| ASSERT);;
  lapicw lapic ICRLO (INIT .| LEVEL);;
  startup_ipi lapic apicid addr;;
  startup_ipi lapic apicid addr.

(** ** What the controller does

    Its registers; a write to [ICRLO] sends an interrupt to the processor [ICRHI] names,
    and is pending for the next [delay] reads. The CMOS and the memory below it are kept as the
    writes they got. *)
Record chip := Chip {
  regs : gmap Z Z;
  ipis : list (Z * Z); (* destination and command, in order *)
  pending : nat;
  cmos : list (Z * Z);
  low : list (Z * Z);
}.

Section Controller.
Context (base : Z) (delay : nat).

Definition rd (c : chip) (i : Z) : Z := default 0 (regs c !! i).

(** The number of a register, and whether the address is one. *)
Definition index (a : Z) : Z := (a - base) / 4.
Definition mine (a : Z) : bool := (base <=? a) && (a <? base + 0x400) && (a mod 4 =? 0).

Definition write (a v : Z) (c : chip) : chip :=
  let c := Chip (<[index a := v]> (regs c)) (ipis c) (pending c) (cmos c) (low c) in
  if index a =? ICRLO
  then Chip (regs c) (ipis c ++ [(rd c ICRHI >>u 24, v)]) delay (cmos c) (low c)
  else c.

Definition read (a : Z) (c : chip) : Z * chip :=
  if index a =? ICRLO
  then (if (pending c =? 0)%nat then rd c ICRLO else rd c ICRLO .| DELIVS,
        Chip (regs c) (ipis c) (pred (pending c)) (cmos c) (low c))
  else (rd c (index a), c).

#[export] Instance controller : Device chip := {
  d_out p v c := Chip (regs c) (ipis c) (pending c) (cmos c ++ [(p, v)]) (low c);
  d_in p c := (0, c);
  d_st n a v c := if mine a then write a v c
                  else Chip (regs c) (ipis c) (pending c) (cmos c) (low c ++ [(a, v)]);
  d_ld a c := if mine a then read a c else (0, c);
  d_print w c := c;
}.
End Controller.

(** ** What the code makes it do *)

Section Base.
Context (base : Z) (delay : nat).
Hypothesis Hbase : 0 < base /\ base mod 4 = 0 /\ 0x80010000 <= base /\ base + 0x400 <= 2 ^ 32.

#[local] Existing Instance controller.

Lemma reg_at i : 0 <= i < 256 -> reg base i = base + 4 * i.
Proof using All. intros Hi. unfold reg. apply u32_id. lia. Qed.

Lemma index_reg i : 0 <= i < 256 -> index base (reg base i) = i.
Proof using All. intros Hi. rewrite reg_at by done. unfold index. dlia. Qed.

Lemma mine_reg i : 0 <= i < 256 -> mine base (reg base i) = true.
Proof using All.
  intros Hi. rewrite reg_at by done. unfold mine.
  rewrite !andb_true_iff, Z.leb_le, Z.ltb_lt, Z.eqb_eq. dlia.
Qed.

Lemma run_load i c :
  0 <= i < 256 -> i <> ICRLO -> run (H := controller base delay) (load (reg base i)) c = (Done (rd c i), c).
Proof using All.
  intros Hi Hne. unfold load. cbn [run d_ld controller]. rewrite mine_reg by done. unfold read.
  rewrite index_reg by done. by rewrite (proj2 (Z.eqb_neq _ _) Hne).
Qed.

(** A register write: what the chip does with it, since reading [ID] changes nothing. *)
Definition wrote (i v : Z) (c : chip) : chip := write base delay (reg base i) v c.

Lemma run_lapicw i v c :
  0 <= i < 256 -> run (H := controller base delay) (lapicw base i v) c = (Done tt, wrote i (u32 v) c).
Proof using All.
  intros Hi. unfold lapicw. erewrite run_seq.
  2: { unfold store. cbn [run d_st controller]. rewrite mine_reg by done. done. }
  erewrite run_seq; [done|]. by apply run_load.
Qed.

Lemma rd_wrote i v c j : 0 <= i < 256 -> rd (wrote i v c) j = if i =? j then v else rd c j.
Proof using All.
  intros Hi. unfold wrote, write. rewrite index_reg by done.
  assert (E : rd (Chip (<[i := v]> (regs c)) (ipis c) (pending c) (cmos c) (low c)) j = if i =? j then v else rd c j).
  { unfold rd. cbn [regs]. destruct (Z.eqb_spec i j) as [->|Hne].
    - by rewrite lookup_insert_eq.
    - by rewrite lookup_insert_ne. }
  by destruct (i =? ICRLO).
Qed.

Lemma ipis_wrote i v c :
  0 <= i < 256 -> ipis (wrote i v c) = if i =? ICRLO then ipis c ++ [(rd c ICRHI >>u 24, v)] else ipis c.
Proof using All.
  intros Hi. unfold wrote, write. rewrite index_reg by done. destruct (Z.eqb_spec i ICRLO) as [->|]; [|done].
  cbn [ipis]. unfold rd. cbn [regs]. by rewrite lookup_insert_ne.
Qed.

Lemma low_wrote i v c : low (wrote i v c) = low c.
Proof using All. unfold wrote, write. by case_match. Qed.

Lemma lor_absorb x y : x .& (x .| y) = x.
Proof using Type. clear base delay Hbase. apply Z.bits_inj'. intros i Hi. rewrite Z.land_spec, Z.lor_spec. by destruct (Z.testbit x i). Qed.

Lemma pending_icr v c : pending (wrote ICRLO v c) = delay.
Proof using All. unfold wrote, write. by rewrite index_reg, Z.eqb_refl. Qed.

Lemma pending_wrote i v c : 0 <= i < 256 -> i <> ICRLO -> pending (wrote i v c) = pending c.
Proof using All. intros Hi Hne. unfold wrote, write. by rewrite index_reg, (proj2 (Z.eqb_neq _ _) Hne). Qed.

(** The chip once the interrupt is delivered. *)
Definition settled (c : chip) : chip := Chip (regs c) (ipis c) 0 (cmos c) (low c).

Lemma rd_settled c i : rd (settled c) i = rd c i.
Proof using Type. done. Qed.

Lemma ipis_settled c : ipis (settled c) = ipis c.
Proof using Type. done. Qed.

Lemma run_wait fuel c :
  (pending c < fuel)%nat -> rd c ICRLO .& DELIVS = 0 ->
  run (H := controller base delay) (wait_delivered fuel base) c = (Done tt, settled c).
Proof using All.
  intros Hf Hd. revert c Hf Hd. induction fuel as [|fuel IH]; intros c Hf Hd; [lia|]. cbn [wait_delivered].
  unfold load. cbn [mbind io_bind run d_ld controller mret io_ret]. rewrite (mine_reg ICRLO) by done.
  unfold read. rewrite (index_reg ICRLO) by done. rewrite Z.eqb_refl.
  destruct (Nat.eqb_spec (pending c) 0) as [Hp|Hp].
  - rewrite Hd, Hp. done.
  - rewrite (Z.lor_comm (rd c ICRLO)), Z.land_comm, lor_absorb. change (DELIVS =? 0) with false. cbv iota.
    rewrite IH; [done|cbn; lia|done].
Qed.
(** What a local vector table entry says. *)
Definition vector (x : Z) : Z := x mod 256.
Definition masked (x : Z) : bool := Z.testbit x 16.
Definition periodic (x : Z) : bool := Z.testbit x 17.

(** The state the code leaves the controller in. *)
Definition configured (c c' : chip) : Prop :=
  Z.testbit (rd c' SVR) 8 = true /\ vector (rd c' SVR) = T_IRQ0 + IRQ_SPURIOUS /\
  (vector (rd c' TIMER) = T_IRQ0 + IRQ_TIMER /\ masked (rd c' TIMER) = false /\ periodic (rd c' TIMER) = true) /\
  rd c' TICR = 10000000 /\ rd c' TDCR = X1 /\
  masked (rd c' LINT0) = true /\ masked (rd c' LINT1) = true /\
  (4 <= (rd c VER >>u 16) .& 0xFF -> masked (rd c' PCINT) = true) /\
  (vector (rd c' ERROR) = T_IRQ0 + IRQ_ERROR /\ masked (rd c' ERROR) = false) /\
  rd c' ESR = 0 /\ rd c' TPR = 0 /\
  ipis c' = ipis c ++ [(0, BCAST .| INIT .| LEVEL)] /\ pending c' = 0%nat.

Ltac lstep := erewrite run_seq; [|by apply run_lapicw].
Ltac lread := rewrite ?rd_wrote by done; cbn [Z.eqb Pos.eqb]; try done.

Lemma lapicinit_ok fuel c :
  (delay < fuel)%nat ->
  exists c', run (H := controller base delay) (lapicinit fuel base) c = (Done tt, c') /\ configured c c'.
Proof using All.
  intros Hf. unfold lapicinit. rewrite (proj2 (Z.eqb_neq base 0)) by lia.
  do 6 lstep. erewrite run_seq; [|by apply run_load].
  set (c1 := wrote LINT1 _ _).
  assert (Hver : rd c1 VER = rd c VER) by (unfold c1; rewrite !rd_wrote by done; done).
  rewrite Hver. set (vok := 4 <=? _). set (c2 := if vok then wrote PCINT MASKED c1 else c1).
  erewrite (run_seq _ _ tt _ c2); [|subst c2; destruct vok; [by apply run_lapicw|done]].
  assert (Hrd : forall j, j <> PCINT -> rd c2 j = rd c1 j).
  { intros j Hj. subst c2. destruct vok; [|done]. rewrite rd_wrote by done. by zcase. }
  do 6 lstep. erewrite run_seq; [|apply run_wait; [by rewrite pending_icr|by rewrite rd_wrote]].
  rewrite run_lapicw by done. eexists; split; [done|]. unfold configured. rewrite !rd_wrote by done.
  rewrite !rd_settled, !rd_wrote, pending_wrote, !ipis_wrote, !ipis_settled, !ipis_wrote by done.
  assert (Hi2 : ipis c2 = ipis c) by (subst c2; destruct vok; unfold c1; rewrite !ipis_wrote by done; done).
  rewrite Hi2, (Hrd SVR), (Hrd TIMER), (Hrd TICR), (Hrd TDCR), (Hrd LINT0), (Hrd LINT1) by done.
  unfold c1. rewrite !rd_wrote by done.
  repeat split; try reflexivity.
  intros Hv. subst c2 vok. rewrite (proj2 (Z.leb_le _ _) Hv), rd_wrote by done. done.
Qed.

(** A start-up interrupt names a page. *)
Definition start_page (cmd : Z) : Z := cmd mod 256 * 4096.

Lemma run_low n a v c :
  0x80000000 <= a < base ->
  run (H := controller base delay) (store n a v) c =
    (Done tt, Chip (regs c) (ipis c) (pending c) (cmos c) (low c ++ [(a, v)])).
Proof using All.
  intros Ha. unfold store. cbn [run d_st controller]. unfold mine.
  by rewrite (proj2 (Z.leb_gt base a)) by lia.
Qed.

Lemma run_startup apicid addr c :
  run (H := controller base delay) (startup_ipi base apicid addr) c =
    (Done tt, wrote ICRLO (u32 (STARTUP .| (addr >>u 12))) (wrote ICRHI (u32 (apicid <<u 24)) c)).
Proof using All. unfold startup_ipi. lstep. by apply run_lapicw. Qed.

Lemma sent_to apicid v c :
  0 <= apicid < 256 -> rd c ICRHI = u32 (apicid <<u 24) ->
  ipis (wrote ICRLO v c) = ipis c ++ [(apicid, v)].
Proof using All.
  intros Ha Hh. rewrite ipis_wrote, Hh by done. change (ICRLO =? ICRLO) with true. cbv iota.
  repeat f_equal. rewrite Z.shiftr_div_pow2, Z.shiftl_mul_pow2 by lia.
  rewrite (u32_id (apicid * 2 ^ 24)), u32_id by lia. apply Z.div_mul. lia.
Qed.

Lemma startup_command addr :
  0 <= addr < 0x100000 -> addr mod 4096 = 0 ->
  let start := u32 (STARTUP .| (addr >>u 12)) in start .& STARTUP = STARTUP /\ start_page start = addr.
Proof using Type.
  clear base delay Hbase. intros Ha Hm start. subst start. rewrite Z.shiftr_div_pow2 by lia.
  assert (E : STARTUP .| (addr / 2 ^ 12) = addr / 2 ^ 12 + 6 * 2 ^ 8).
  { rewrite Z.lor_comm. change STARTUP with (Z.shiftl 6 8). apply lor_shiftl_add; dlia. }
  rewrite u32_id by (rewrite E; dlia). split.
  - rewrite Z.land_comm. apply lor_absorb.
  - rewrite E. unfold start_page. dlia.
Qed.

Lemma lapicstartap_ok c apicid addr :
  0 <= apicid < 256 -> 0 <= addr < 0x100000 -> addr mod 4096 = 0 ->
  exists c' start, run (H := controller base delay) (lapicstartap base apicid addr) c = (Done tt, c') /\
    ipis c' = ipis c ++ [(apicid, INIT .| LEVEL .| ASSERT); (apicid, INIT .| LEVEL); (apicid, start); (apicid, start)] /\
    (start .& STARTUP = STARTUP /\ start_page start = addr) /\
    (* the warm reset vector: offset and segment *)
    (exists off seg, low c' = low c ++ [(wrv, off); (wrv + 2, seg)] /\ seg * 16 + off = addr) /\
    cmos c' = cmos c ++ [(CMOS_PORT, 0xF); (CMOS_PORT + 1, 0x0A)].
Proof using All.
  intros Ha Hb Hal. unfold lapicstartap.
  do 2 (erewrite run_seq; [|done]).
  assert (Hw : wrv = 0x80000467) by done.
  do 2 (erewrite run_seq; [|apply run_low; lia]). do 3 lstep.
  erewrite run_seq; [|apply run_startup]. rewrite run_startup.
  do 2 eexists. split; [done|].
  assert (Hhi : forall x c, rd (wrote ICRHI x c) ICRHI = x) by (intros; by rewrite rd_wrote).
  assert (Hkeep : forall x c, rd (wrote ICRLO x c) ICRHI = rd c ICRHI) by (intros; by rewrite rd_wrote).
  assert (Hnone : forall x c, ipis (wrote ICRHI x c) = ipis c) by (intros; by rewrite ipis_wrote).
  split; [|split; [by apply startup_command|split]].
  - do 4 (rewrite (sent_to apicid) by (done || rewrite ?Hkeep, Hhi; done); rewrite ?Hnone).
    cbn [ipis d_out controller]. rewrite <- !app_assoc. done.
  - rewrite !low_wrote. cbn [low d_out controller]. rewrite <- app_assoc. eexists 0, _. split; [done|].
    rewrite Z.shiftr_div_pow2 by lia. unfold u16. rewrite Z.mod_small; dlia.
  - assert (Hc : forall i v c, cmos (wrote i v c) = cmos c) by (intros; unfold wrote, write; by case_match).
    rewrite !Hc. cbn [cmos d_out controller]. rewrite <- app_assoc. done.
Qed.
End Base.

End Lapic.

Module Cmos.

Definition CMOS_PORT : Z := 0x70.
Definition CMOS_RETURN : Z := 0x71.
Definition CMOS_STATA : Z := 0x0a.
Definition CMOS_STATB : Z := 0x0b.
Definition CMOS_UIP : Z := Z.shiftl 1 7.
Definition SECS : Z := 0x00.
Definition MINS : Z := 0x02.
Definition HOURS : Z := 0x04.
Definition DAY : Z := 0x07.
Definition MONTH : Z := 0x08.
Definition YEAR : Z := 0x09.

Record rtcdate := Date { second : Z; minute : Z; hour : Z; day : Z; month : Z; year : Z }.

#[export] Instance rtcdate_eq_dec : EqDecision rtcdate.
Proof. solve_decision. Defined.

Definition cmos_read (reg : Z) : io Z :=
  outb CMOS_PORT reg;;
  inb CMOS_RETURN.

Definition fill_rtcdate : io rtcdate :=
  s ← cmos_read SECS;
  mi ← cmos_read MINS;
  h ← cmos_read HOURS;
  d ← cmos_read DAY;
  mo ← cmos_read MONTH;
  y ← cmos_read YEAR;
  mret (Date s mi h d mo y).

(** The loop: read until two readings agree. *)
Fixpoint stable_date (fuel : nat) : io rtcdate :=
  match fuel with
  | O => OutOfFuel
  | S fuel =>
      t1 ← fill_rtcdate;
      a ← cmos_read CMOS_STATA;
      if negb (a .& CMOS_UIP =? 0) then stable_date fuel else
      t2 ← fill_rtcdate;
      if decide (t1 = t2) then mret t1 else stable_date fuel
  end.

Definition CONV (x : Z) : Z := ((x >>u 4) *u 10) +u (x .& 0xf).

Definition convert (t : rtcdate) : rtcdate :=
  Date (CONV (second t)) (CONV (minute t)) (CONV (hour t)) (CONV (day t)) (CONV (month t)) (CONV (year t)).

Definition cmostime (fuel : nat) : io rtcdate :=
  sb ← cmos_read CMOS_STATB;
  let bcd := sb .& Z.shiftl 1 2 =? 0 in
  t1 ← stable_date fuel;
  let t1 := if bcd then convert t1 else t1 in
  mret (Date (second t1) (minute t1) (hour t1) (day t1) (month t1) (year t1 +u 2000)).

(** ** A clock that goes on while it is read

    [clock n] is what its registers hold at the [n]th read. *)
Record chip := Chip { sel : Z; now : nat }.

Section Clock.
Context (clock : nat -> Z -> Z).

#[export] Instance cmos : Device chip := {
  d_out p v c := if p =? CMOS_PORT then Chip v (now c) else c;
  d_in p c := if p =? CMOS_RETURN then (clock (now c) (sel c), Chip (sel c) (S (now c))) else (0, c);
  d_st n a v c := c;
  d_ld a c := (0, c);
  d_print w c := c;
}.

(** The date the registers show at one time. *)
Definition shows (n : nat) : rtcdate :=
  Date (clock n SECS) (clock n MINS) (clock n HOURS) (clock n DAY) (clock n MONTH) (clock n YEAR).

(** While two dates are read the clock moves on at most once. *)
Definition slow : Prop :=
  forall n, exists k, forall i, (i <= 12)%nat ->
    shows (n + i) = if (i <? k)%nat then shows n else shows (n + 12).

Lemma run_cmos_read r c : run (cmos_read r) c = (Done (clock (now c) r), Chip r (S (now c))).
Proof using Type. done. Qed.

Lemma run_fill c :
  run fill_rtcdate c =
    (let n := now c in
     Done (Date (clock n SECS) (clock (n + 1) MINS) (clock (n + 2) HOURS) (clock (n + 3) DAY)
                (clock (n + 4) MONTH) (clock (n + 5) YEAR)),
     Chip YEAR (now c + 6)).
Proof using Type.
  unfold fill_rtcdate. repeat (erewrite run_seq; [|apply run_cmos_read]). cbn [now].
  cbn [mret io_ret run]. repeat f_equal; lia.
Qed.

(** A date read field by field is the one shown before or after the clock moved, if
    reading it again gives the same. *)
Definition reading (n : nat) : rtcdate :=
  Date (clock n SECS) (clock (n + 1) MINS) (clock (n + 2) HOURS) (clock (n + 3) DAY)
       (clock (n + 4) MONTH) (clock (n + 5) YEAR).

Lemma reading_shows n r :
  (forall i, (i <= 5)%nat -> shows (n + i) = r) -> reading n = r.
Proof using Type.
  intros H. pose proof (H 0%nat ltac:(lia)) as H0. pose proof (H 1%nat ltac:(lia)) as H1.
  pose proof (H 2%nat ltac:(lia)) as H2. pose proof (H 3%nat ltac:(lia)) as H3.
  pose proof (H 4%nat ltac:(lia)) as H4. pose proof (H 5%nat ltac:(lia)) as H5.
  rewrite Nat.add_0_r in H0. destruct r as [s mi h d mo y]. unfold reading, shows in *. congruence.
Qed.

Lemma agreeing_not_torn n :
  slow -> reading n = reading (n + 7) -> reading n = shows n \/ reading n = shows (n + 12).
Proof using Type.
  intros Hs He. destruct (Hs n) as [k Hk]. destruct (decide (6 <= k)%nat).
  - left. apply reading_shows. intros i Hi. rewrite Hk by lia.
    by rewrite (proj2 (Nat.ltb_lt i k)) by lia.
  - right. rewrite He. apply reading_shows. intros i Hi. rewrite <- Nat.add_assoc, Hk by lia.
    by rewrite (proj2 (Nat.ltb_ge (7 + i) k)) by lia.
Qed.

Lemma stable_date_ok fuel c r c' :
  slow -> run (stable_date fuel) c = (Done r, c') ->
  exists n, (now c <= n <= now c')%nat /\ r = shows n.
Proof using Type.
  intros Hs. revert c. induction fuel as [|fuel IH]; intros c Hrun; [done|]. cbn [stable_date] in Hrun.
  rewrite (run_seq _ _ _ _ _ (run_fill c)), (run_seq _ _ _ _ _ (run_cmos_read _ _)) in Hrun. cbn [now] in Hrun.
  destruct (negb _).
  { destruct (IH _ Hrun) as (n & Hn & Hr). exists n. cbn [now] in Hn. split; [lia|done]. }
  rewrite (run_seq _ _ _ _ _ (run_fill _)) in Hrun. cbn [now] in Hrun.
  case_decide as Heq.
  - replace (S (now c + 6)) with (now c + 7)%nat in Hrun, Heq by lia.
    change (reading (now c) = reading (now c + 7)) in Heq.
    injection Hrun as Hr Hc. change (reading (now c) = r) in Hr. subst c'. cbn [now].
    destruct (agreeing_not_torn _ Hs Heq) as [Hn|Hn]; [exists (now c)|exists (now c + 12)%nat];
      (split; [lia|congruence]).
  - destruct (IH _ Hrun) as (n & Hn & Hr). exists n. cbn [now] in Hn. split; [lia|done].
Qed.

Lemma stable_date_ends fuel c :
  (forall i, (i <= 12)%nat -> shows (now c + i) = shows (now c)) ->
  clock (now c + 6) CMOS_STATA .& CMOS_UIP = 0 ->
  run (stable_date (S fuel)) c = (Done (shows (now c)), Chip YEAR (now c + 13)).
Proof using Type.
  intros Hst Hup. cbn [stable_date].
  rewrite (run_seq _ _ _ _ _ (run_fill c)), (run_seq _ _ _ _ _ (run_cmos_read _ _)). cbn [now].
  rewrite Hup. cbn [negb Z.eqb]. rewrite (run_seq _ _ _ _ _ (run_fill _)). cbn [now].
  replace (S (now c + 6)) with (now c + 7)%nat by lia.
  assert (H1 : reading (now c) = shows (now c)) by (apply reading_shows; intros; apply Hst; lia).
  assert (H2 : reading (now c + 7) = shows (now c)).
  { apply reading_shows. intros. rewrite <- Nat.add_assoc. apply Hst. lia. }
  unfold reading in H1, H2. rewrite H1, H2. rewrite decide_True by done.
  cbn [mret io_ret run]. do 2 f_equal. lia.
Qed.
End Clock.

(** ** Dates as the registers hold them *)

Definition to_bcd (x : Z) : Z := x / 10 * 16 + x mod 10.

Definition encode (f : Z -> Z) (t : rtcdate) : rtcdate :=
  Date (f (second t)) (f (minute t)) (f (hour t)) (f (day t)) (f (month t)) (f (year t)).

Definition two_digits (t : rtcdate) : Prop :=
  Forall (fun x => 0 <= x < 100) [second t; minute t; hour t; day t; month t; year t].

(** The date of the century the code takes. *)
Definition in_2000s (t : rtcdate) : rtcdate :=
  Date (second t) (minute t) (hour t) (day t) (month t) (2000 + year t).

Lemma CONV_to_bcd x : 0 <= x < 100 -> CONV (to_bcd x) = x.
Proof.
  intros Hx. unfold CONV, to_bcd. change 0xf with (Z.ones 4).
  rewrite Z.land_ones, Z.shiftr_div_pow2 by lia.
  replace ((x / 10 * 16 + x mod 10) / 2 ^ 4) with (x / 10) by dlia.
  replace ((x / 10 * 16 + x mod 10) mod 2 ^ 4) with (x mod 10) by dlia.
  rewrite (u32_id (x / 10 * 10)), u32_id by dlia. dlia.
Qed.

Lemma convert_encode t : two_digits t -> convert (encode to_bcd t) = t.
Proof.
  destruct t as [s mi h d mo y]. unfold two_digits, convert, encode. cbn.
  rewrite !Forall_cons. intros (? & ? & ? & ? & ? & ? & _). by rewrite !CONV_to_bcd.
Qed.

(** Status register B, which the code reads first, says how the registers hold the date. *)
Definition format (clock : nat -> Z -> Z) (n : nat) : Z -> Z :=
  if clock n CMOS_STATB .& Z.shiftl 1 2 =? 0 then to_bcd else id.

Lemma decode_shown clock c (date : nat -> rtcdate) n :
  two_digits (date n) -> shows clock n = encode (format clock c) (date n) ->
  let t := if clock c CMOS_STATB .& Z.shiftl 1 2 =? 0 then convert (shows clock n) else shows clock n in
  Date (second t) (minute t) (hour t) (day t) (month t) (year t +u 2000) = in_2000s (date n).
Proof.
  intros Hd Hs. unfold format in Hs. cbv zeta.
  assert (E : (if clock c CMOS_STATB .& Z.shiftl 1 2 =? 0 then convert (shows clock n) else shows clock n) = date n).
  { case_match; rewrite Hs; [by apply convert_encode|by destruct (date n)]. }
  rewrite E. unfold in_2000s. f_equal. unfold two_digits in Hd. rewrite !Forall_cons in Hd.
  rewrite u32_id by lia. lia.
Qed.

(** The date [cmostime] gives is never torn. The clock goes on while its registers are
    read one by one; if it moves at most once during two readings, every run of [cmostime]
    that ends gives a date the clock showed at one moment of the run, in the 2000s and
    decoded from BCD or binary as status register B says. It ends after one round when the
    clock does not move and no update is in progress. *)
Theorem cmostime_not_torn (clock : nat -> Z -> Z) (date : nat -> rtcdate) (fuel : nat) (c : chip)
    (Hslow : slow clock) (Hdate : forall n, two_digits (date n))
    (Hfmt : forall n, shows clock n = encode (format clock (now c)) (date n)) :
  (forall r c', run (H := cmos clock) (cmostime fuel) c = (Done r, c') ->
     exists n, (now c <= n <= now c')%nat /\ r = in_2000s (date n)) /\
  ((forall i, (i <= 12)%nat -> date (now c + 1 + i)%nat = date (now c + 1)%nat) ->
   clock (now c + 7)%nat CMOS_STATA .& CMOS_UIP = 0 -> (0 < fuel)%nat ->
   (run (H := cmos clock) (cmostime fuel) c).1 = Done (in_2000s (date (now c + 1)%nat))).
Proof.
  unfold cmostime. rewrite (run_seq _ _ _ _ _ (run_cmos_read clock _ c)). split.
  - intros r c' Hrun. rewrite run_bind in Hrun.
    destruct (run (stable_date fuel) _) as [[t| |] c1] eqn:Ht; [|done..].
    apply (stable_date_ok clock _ _ _ _ Hslow) in Ht as (n & Hn & ->). cbn [now] in Hn.
    injection Hrun as Hr Hc. exists n. subst c1. split; [lia|]. rewrite <- Hr. by apply decode_shown.
  - intros Hst Hup Hf. destruct fuel as [|fuel]; [lia|].
    erewrite run_seq; [|apply stable_date_ends; cbn [now]].
    + cbn [mret io_ret run fst now]. f_equal. rewrite <- Nat.add_1_r. by apply decode_shown.
    + intros i Hi. rewrite !Hfmt. replace (S (now c) + i)%nat with (now c + 1 + i)%nat by lia.
      rewrite Hst by done. by rewrite Nat.add_1_r.
    + by replace (S (now c) + 6)%nat with (now c + 7)%nat by lia.
Qed.

(** A clock that ticks from 23:59:59 to midnight after its first three reads. *)
Definition new_year (n : nat) : rtcdate :=
  if (n <? 4)%nat then Date 59 59 23 31 12 21 else Date 0 0 0 1 1 22.

Definition ticking (n : nat) (r : Z) : Z :=
  let d := encode to_bcd (new_year n) in
  if r =? SECS then second d else if r =? MINS then minute d else if r =? HOURS then hour d
  else if r =? DAY then day d else if r =? MONTH then month d else if r =? YEAR then year d else 0.

Lemma ticking_slow : slow ticking.
Proof.
  intros n. exists (4 - n)%nat. intros i Hi. unfold shows, ticking, new_year. cbn [Z.eqb Pos.eqb SECS MINS HOURS DAY MONTH YEAR].
  destruct (Nat.ltb_spec i (4 - n)), (Nat.ltb_spec (n + i) 4), (Nat.ltb_spec n 4), (Nat.ltb_spec (n + 12) 4); done || lia.
Qed.

Lemma ticking_shows n : shows ticking n = encode to_bcd (new_year n).
Proof. by destruct (encode to_bcd (new_year n)) eqn:E; unfold shows, ticking; rewrite E. Qed.

Lemma cmostime_not_torn_witness :
  run (H := cmos ticking) (cmostime 2) (Chip 0 0) = (Done (Date 0 0 0 1 1 2022), Chip YEAR 27) /\
  exists n, (0 <= n <= 27)%nat /\ Date 0 0 0 1 1 2022 = in_2000s (new_year n).
Proof.
  assert (H : run (H := cmos ticking) (cmostime 2) (Chip 0 0) = (Done (Date 0 0 0 1 1 2022), Chip YEAR 27)) by reflexivity.
  split; [exact H|].
  assert (Hd : forall n, two_digits (new_year n)).
  { intros n. unfold two_digits, new_year. case_match; repeat constructor; cbn; lia. }
  exact (proj1 (cmostime_not_torn ticking new_year 2 (Chip 0 0) ticking_slow Hd ticking_shows) _ _ H).
Defined.

End Cmos.
