(* ===== verification/Ioapic.v ===== *)
(** * Routing interrupts (ioapic.c, picirq.c) and the serial port's set-up (uart.c) *)

From S2P Require Import Prelude Traps Hw.

Module Pic.
Definition IO_PIC1 : Z := 0x20.
Definition IO_PIC2 : Z := 0xA0.

Definition picinit : io unit :=
  outb (IO_PIC1 + 1) 0xFF;;
  outb (IO_PIC2 + 1) 0xFF.
End Pic.

Module Ioapic.

Definition IOAPIC : Z := 0xFEC00000.
Definition REG_ID : Z := 0x00.
Definition REG_VER : Z := 0x01.
Definition REG_TABLE : Z := 0x10.
Definition INT_DISABLED : Z := 0x00010000.

(** [struct ioapic]: the offsets of [reg] and [data]. *)
Definition reg : Z := IOAPIC.
Definition data : Z := IOAPIC + 16.

Definition ioapicread (r : Z) : io Z :=
  store 4 reg r;;
  load data.

Definition ioapicwrite (r v : Z) : io unit :=
  store 4 reg r;;
  store 4 data v.

(** The loop of [ioapicinit] from [i], with [n] rounds to go. *)
Fixpoint mask_from (n : nat) (i : Z) : io unit :=
  match n with
  | O => mret tt
  | S n =>
      ioapicwrite (REG_TABLE + 2 * i) (INT_DISABLED .| (T_IRQ0 + i));;
      ioapicwrite (REG_TABLE + 2 * i + 1) 0;;
      mask_from n (i + 1)
  end.

Definition ioapicinit (ioapicid : Z) : io unit :=
  ver ← ioapicread REG_VER;
  let maxintr := (ver >>u 16) .& 0xFF in
  x ← ioapicread REG_ID;
  let id := x >>u 24 in
  (if negb (id =? ioapicid)
   then say "ioapicinit: id isn't equal to ioapicid; not a MP
"
   else mret tt);;
  mask_from (Z.to_nat (maxintr + 1)) 0.

Definition ioapicenable (irq cpunum : Z) : io unit :=
  ioapicwrite (REG_TABLE + 2 * irq) (T_IRQ0 + irq);;
  ioapicwrite (REG_TABLE + 2 * irq + 1) (cpunum <<u 24).

(** ** The chip

    The register selected, by its low eight bits, the registers, and the messages printed
    while it is set up. *)
Record chip := Chip { sel : Z; regs : gmap Z Z; log : list string }.

Definition rd (c : chip) (i : Z) : Z := default 0 (regs c !! i).

#[export] Instance ioapic : Device chip := {
  d_out p v c := c;
  d_in p c := (0, c);
  d_st n a v c := if a =? reg then Chip (v mod 256) (regs c) (log c)
                  else if a =? data then Chip (sel c) (<[sel c := v]> (regs c)) (log c)
                  else c;
  d_ld a c := if a =? data then (rd c (sel c), c) else (0, c);
  d_print w c := Chip (sel c) (regs c) (log c ++ [w]);
}.

Definition maxintr (c : chip) : Z := (rd c REG_VER >>u 16) .& 0xFF.

(** Where an interrupt goes: the vector and the processor, if it is not masked. *)
Definition delivers (c : chip) (irq : Z) : option (Z * Z) :=
  let low := rd c (REG_TABLE + 2 * irq) in
  if Z.testbit low 16 then None
  else Some (low mod 256, rd c (REG_TABLE + 2 * irq + 1) >>u 24).

Definition wrote (r v : Z) (c : chip) : chip := Chip r (<[r := v]> (regs c)) (log c).

Lemma run_ioapicwrite r v c : 0 <= r < 256 -> run (ioapicwrite r v) c = (Done tt, wrote r v c).
Proof.
  intros Hr. unfold ioapicwrite, store. cbn [mbind io_bind mret io_ret run d_st ioapic].
  change (reg =? reg) with true. change (data =? reg) with false. change (data =? data) with true.
  cbn [sel regs log]. by rewrite (Z.mod_small r) by lia.
Qed.

Lemma rd_wrote_route r v c i : rd (wrote r v c) i = if r =? i then v else rd c i.
Proof.
  unfold rd, wrote. cbn [regs]. destruct (Z.eqb_spec r i) as [->|Hne].
  - by rewrite lookup_insert_eq.
  - by rewrite lookup_insert_ne.
Qed.

Ltac rds := rewrite !rd_wrote_route; zcase; try lia.

(** The two registers of an interrupt are its own. *)
Lemma delivers_wrote c irq i low high :
  delivers (wrote (REG_TABLE + 2 * irq + 1) high (wrote (REG_TABLE + 2 * irq) low c)) i =
  if i =? irq then if Z.testbit low 16 then None else Some (low mod 256, high >>u 24)
  else delivers c i.
Proof.
  unfold delivers. rewrite !rd_wrote_route. unfold REG_TABLE.
  destruct (Z.eqb_spec i irq) as [->|Hne].
  - rewrite (proj2 (Z.eqb_neq (16 + 2 * irq + 1) (16 + 2 * irq))), !Z.eqb_refl by lia. done.
  - zcase; done || lia.
Qed.

Definition with_masked (i : Z) (c : chip) : chip :=
  wrote (REG_TABLE + 2 * i + 1) 0 (wrote (REG_TABLE + 2 * i) (INT_DISABLED .| (T_IRQ0 + i)) c).

Lemma masked_bit i : 0 <= i -> Z.testbit (INT_DISABLED .| (T_IRQ0 + i)) 16 = true.
Proof. intros Hi. by rewrite Z.lor_spec. Qed.

Lemma mask_from_ok n i c :
  0 <= i -> i + Z.of_nat n <= 120 ->
  exists c', run (mask_from n i) c = (Done tt, c') /\
    (forall j, delivers c' j = if (i <=? j) && (j <? i + Z.of_nat n) then None else delivers c j) /\
    (forall r, r < REG_TABLE -> rd c' r = rd c r).
Proof.
  revert i c. induction n as [|n IH]; intros i c Hi Hn; cbn [mask_from].
  - exists c. split; [done|]. split; [|done]. intros j. zcase; simpl; done || lia.
  - rewrite (run_seq _ _ _ _ _ (run_ioapicwrite (REG_TABLE + 2 * i) (INT_DISABLED .| (T_IRQ0 + i)) c ltac:(unfold REG_TABLE; lia))).
    rewrite (run_seq _ _ _ _ _ (run_ioapicwrite (REG_TABLE + 2 * i + 1) 0 _ ltac:(unfold REG_TABLE; lia))).
    change (wrote (REG_TABLE + 2 * i + 1) 0 _) with (with_masked i c).
    destruct (IH (i + 1) (with_masked i c) ltac:(lia) ltac:(lia)) as (c' & Hrun & Hd & Hr).
    exists c'. split; [done|]. split.
    + intros j. rewrite Hd. unfold with_masked. rewrite delivers_wrote, masked_bit by done.
      zcase; simpl; done || lia.
    + intros r Hlt. rewrite Hr by done. unfold with_masked. unfold REG_TABLE in *. rds.
Qed.

(** What [ioapicinit] finds when it reads a register. *)
Lemma run_ioapicread r c :
  0 <= r < 256 -> run (ioapicread r) c = (Done (rd c r), Chip r (regs c) (log c)).
Proof.
  intros Hr. unfold ioapicread, store, load. cbn [mbind io_bind mret io_ret run d_st d_ld ioapic].
  change (reg =? reg) with true. change (data =? data) with true.
  cbn [sel regs log]. by rewrite (Z.mod_small r) by lia.
Qed.

Lemma ioapicinit_ok ioapicid c :
  maxintr c < 120 ->
  exists c', run (ioapicinit ioapicid) c = (Done tt, c') /\
    (forall irq, 0 <= irq <= maxintr c -> delivers c' irq = None) /\ maxintr c' = maxintr c.
Proof.
  intros Hm. assert (H0 : 0 <= maxintr c) by (unfold maxintr; apply Z.land_nonneg; by right).
  unfold ioapicinit. rewrite (run_seq _ _ _ _ _ (run_ioapicread REG_VER c ltac:(done))).
  rewrite (run_seq _ _ _ _ _ (run_ioapicread REG_ID _ ltac:(done))). fold (maxintr c).
  set (c1 := Chip REG_ID (regs c) (log c)).
  set (c2 := if negb (rd c1 REG_ID >>u 24 =? ioapicid)
             then Chip REG_ID (regs c) (log c ++ ["ioapicinit: id isn't equal to ioapicid; not a MP
"]) else c1).
  erewrite (run_seq _ _ tt _ c2); [|subst c2; by destruct (negb _)].
  destruct (mask_from_ok (Z.to_nat (maxintr c + 1)) 0 c2 ltac:(lia) ltac:(lia)) as (c' & Hrun & Hd & Hr).
  exists c'. split; [done|]. split.
  - intros irq Hirq. rewrite Hd. by rewrite (proj2 (Z.leb_le _ _)), (proj2 (Z.ltb_lt _ _)) by lia.
  - unfold maxintr. rewrite Hr by done. subst c2. by destruct (negb _).
Qed.

Lemma ioapicenable_ok irq cpu c :
  0 <= irq < 120 -> 0 <= cpu < 256 ->
  exists c', run (ioapicenable irq cpu) c = (Done tt, c') /\
    (forall i, delivers c' i = if i =? irq then Some (T_IRQ0 + irq, cpu) else delivers c i).
Proof.
  intros Hi Hc. eexists. unfold ioapicenable.
  rewrite (run_seq _ _ _ _ _ (run_ioapicwrite (REG_TABLE + 2 * irq) (T_IRQ0 + irq) c ltac:(unfold REG_TABLE; lia))).
  rewrite run_ioapicwrite by (unfold REG_TABLE; lia). split; [done|].
  intros i. rewrite delivers_wrote. case_match; [|done]. unfold T_IRQ0.
  rewrite (testbit_small 8) by lia. rewrite Z.mod_small by lia. do 2 f_equal.
  rewrite Z.shiftr_div_pow2, Z.shiftl_mul_pow2 by lia. rewrite u32_id by lia. apply Z.div_mul. lia.
Qed.

(** The drivers enable their lines one after the other, on a processor each. *)
Definition enable_all (l : list (Z * Z)) : io unit := foldr (fun x k => ioapicenable x.1 x.2;; k) (mret tt) l.

(** The processor the last request for a line names. *)
Fixpoint routed (l : list (Z * Z)) (irq : Z) : option Z :=
  match l with
  | [] => None
  | (i, cpu) :: l => match routed l irq with Some c => Some c | None => if i =? irq then Some cpu else None end
  end.

Lemma enable_all_ok l c :
  Forall (fun x => 0 <= x.1 < 120 /\ 0 <= x.2 < 256) l ->
  exists c', run (enable_all l) c = (Done tt, c') /\
    (forall i, delivers c' i = match routed l i with Some cpu => Some (T_IRQ0 + i, cpu) | None => delivers c i end).
Proof.
  intros Hl. revert c. induction Hl as [|[irq cpu] l [Hi Hc] Hl IH]; intros c; cbn [enable_all foldr routed].
  - by exists c.
  - destruct (ioapicenable_ok irq cpu c Hi Hc) as (c1 & Hrun & Hd). cbn [fst snd].
    rewrite (run_seq _ _ _ _ _ Hrun). destruct (IH c1) as (c2 & Hrun2 & Hd2). exists c2. split; [done|].
    intros i. rewrite Hd2. destruct (routed l i); [done|]. rewrite Hd.
    destruct (Z.eqb_spec i irq) as [->|Hne]; [by rewrite Z.eqb_refl|].
    by rewrite (proj2 (Z.eqb_neq irq i)) by congruence.
Qed.

(** After [ioapicinit] and the [ioapicenable] calls of the drivers, an interrupt line
    of the chip reaches a processor exactly if a driver enabled it: with its own vector,
    [T_IRQ0 + irq], and at the processor the last call for the line names; every other
    line is masked. *)
Theorem only_enabled_interrupts (ioapicid : Z) (l : list (Z * Z)) (c : chip)
    (Hm : maxintr c < 120) (Hl : Forall (fun x => 0 <= x.1 <= maxintr c /\ 0 <= x.2 < 256) l) :
  exists c', run (ioapicinit ioapicid;; enable_all l) c = (Done tt, c') /\
    forall irq, 0 <= irq <= maxintr c ->
      delivers c' irq = match routed l irq with Some cpu => Some (T_IRQ0 + irq, cpu) | None => None end.
Proof.
  destruct (ioapicinit_ok ioapicid c Hm) as (c1 & Hrun & Hd & _).
  rewrite (run_seq _ _ _ _ _ Hrun).
  destruct (enable_all_ok l c1) as (c2 & Hrun2 & Hd2).
  { eapply Forall_impl; [exact Hl|]. cbn. intros x Hx. lia. }
  exists c2. split; [done|]. intros irq Hirq. rewrite Hd2. case_match; [done|]. by apply Hd.
Qed.

(** A chip with 24 lines: keyboard, serial port and disk on processors 0, 0 and 1. *)
Definition chip24 : chip := Chip 0 {[REG_VER := 0x170011; REG_ID := 0]} [].

Lemma only_enabled_interrupts_witness :
  exists c', run (ioapicinit 0;; enable_all [(IRQ_KBD, 0); (IRQ_COM1, 0); (IRQ_IDE, 1)]) chip24 = (Done tt, c') /\
    delivers c' IRQ_IDE = Some (46, 1) /\ delivers c' 7 = None.
Proof.
  destruct (only_enabled_interrupts 0 [(IRQ_KBD, 0); (IRQ_COM1, 0); (IRQ_IDE, 1)] chip24) as (c' & Hrun & Hd).
  - reflexivity.
  - assert (E : maxintr chip24 = 23) by reflexivity. rewrite E, !Forall_cons, Forall_nil.
    unfold IRQ_KBD, IRQ_COM1, IRQ_IDE. cbn [fst snd]. lia.
  - assert (E : maxintr chip24 = 23) by reflexivity. rewrite E in Hd.
    exists c'. split; [exact Hrun|]. split; rewrite Hd by (unfold IRQ_IDE; lia); reflexivity.
Defined.

End Ioapic.

Module Uart.

Definition COM1 : Z := 0x3f8.

(** [for(i = 0; i < 128 && !(inb(COM1+5) & 0x20); i++)] *)
Fixpoint wait_ready (n : nat) : io unit :=
  match n with
  | O => mret tt
  | S n =>
      st ← inb (COM1 + 5);
      if st .& 0x20 =? 0 then wait_ready n else mret tt
  end.

Definition uartputc (uart : bool) (c : Z) : io unit :=
  if negb uart then mret tt else
  wait_ready 128;;
  outb (COM1 + 0) (u8 c).

Definition put_string (uart : bool) (s : list Z) : io unit :=
  foldr (fun c k => uartputc uart c;; k) (mret tt) s.

(** The new value of [uart]: is there a port? *)
Definition uartinit : io bool :=
  outb (COM1 + 2) 0;;
  outb (COM1 + 3) 0x80;;
  outb (COM1 + 0) (115200 / 9600);;
  outb (COM1 + 1) 0;;
  outb (COM1 + 3) 0x03;;
  outb (COM1 + 4) 0;;
  outb (COM1 + 1) 0x01;;
  st ← inb (COM1 + 5);
  if st =? 0xFF then mret false else
  _ ← inb (COM1 + 2);
  _ ← inb (COM1 + 0);
  Ioapic.ioapicenable IRQ_COM1 0;;
  put_string true (codes "xv6...
");;
  mret true.

(** ** The port

    Bit 7 of the line control register turns the first two ports into the divisor. A
    character sent keeps the transmitter busy for the next [delay] reads of the line
    status, and one sent while it is busy is lost. *)
Record port := Port {
  lcr : Z; dll : Z; dlm : Z; ier : Z; sent : list Z; busy : nat;
  stores : list (Z * Z); (* writes to the I/O controller *)
}.

Section Port.
Context (present : bool) (delay : nat).

Definition latch (s : port) : bool := Z.testbit (lcr s) 7.

Definition put (p v : Z) (s : port) : port :=
  if p =? COM1 + 3 then Port v (dll s) (dlm s) (ier s) (sent s) (busy s) (stores s)
  else if p =? COM1 + 0 then
    if latch s then Port (lcr s) v (dlm s) (ier s) (sent s) (busy s) (stores s)
    else if (busy s =? 0)%nat then Port (lcr s) (dll s) (dlm s) (ier s) (sent s ++ [v]) delay (stores s)
    else s
  else if p =? COM1 + 1 then
    if latch s then Port (lcr s) (dll s) v (ier s) (sent s) (busy s) (stores s)
    else Port (lcr s) (dll s) (dlm s) v (sent s) (busy s) (stores s)
  else s.

Definition get (p : Z) (s : port) : Z * port :=
  if negb present then (0xFF, s)
  else if p =? COM1 + 5 then
    (if (busy s =? 0)%nat then 0x60 else 0x40,
     Port (lcr s) (dll s) (dlm s) (ier s) (sent s) (pred (busy s)) (stores s))
  else (0, s).

#[local] Instance uart8250 : Device port := {
  d_out p v s := if present then put p v s else s;
  d_in := get;
  d_st n a v s := Port (lcr s) (dll s) (dlm s) (ier s) (sent s) (busy s) (stores s ++ [(a, v)]);
  d_ld a s := (0, s);
  d_print w s := s;
}.

Definition with_sent (l : list Z) (b : nat) (s : port) : port :=
  Port (lcr s) (dll s) (dlm s) (ier s) l b (stores s).

Lemma run_get p s : present = true -> run (inb p) s = (Done (get p s).1, (get p s).2).
Proof using Type. intros Hp. unfold inb. cbn [run d_in uart8250]. by destruct (get p s). Qed.

Lemma wait_ready_ok n s :
  present = true -> (busy s < n)%nat -> run (wait_ready n) s = (Done tt, with_sent (sent s) 0 s).
Proof using Type.
  intros Hp. revert s. induction n as [|n IH]; intros s Hb; [lia|]. cbn [wait_ready].
  unfold inb. cbn [mbind io_bind run d_in uart8250]. unfold get. rewrite Hp.
  change (COM1 + 5 =? COM1 + 5) with true. cbn [negb].
  destruct (Nat.eqb_spec (busy s) 0) as [H0|H0].
  - change (0x60 .& 0x20 =? 0) with false. cbn [mret io_ret run]. unfold with_sent. by rewrite H0.
  - change (0x40 .& 0x20 =? 0) with true. rewrite IH; [done|]. cbn [busy]. lia.
Qed.

Lemma uartputc_ok c s :
  present = true -> (busy s < 128)%nat -> latch s = false -> field_ok 8 c ->
  run (uartputc true c) s = (Done tt, with_sent (sent s ++ [c]) delay s).
Proof using Type.
  intros Hp Hb Hl Hc. unfold uartputc. cbn [negb]. rewrite (run_seq _ _ _ _ _ (wait_ready_ok 128 s Hp Hb)).
  unfold outb. cbn [run d_out uart8250]. rewrite Hp. unfold put.
  change (COM1 + 0 =? COM1 + 3) with false. change (COM1 + 0 =? COM1 + 0) with true.
  change (latch (with_sent (sent s) 0 s)) with (latch s). rewrite Hl, (u8_id c) by exact Hc. done.
Qed.

Lemma put_string_ok l s :
  present = true -> (delay < 128)%nat -> (busy s < 128)%nat -> latch s = false -> Forall (field_ok 8) l ->
  exists b, run (put_string true l) s = (Done tt, with_sent (sent s ++ l) b s).
Proof using Type.
  intros Hp Hd Hb Hl Hok. revert s Hb Hl. induction Hok as [|c l Hc Hok IH]; intros s Hb Hl.
  - exists (busy s). unfold with_sent. rewrite app_nil_r. by destruct s.
  - destruct (IH (with_sent (sent s ++ [c]) delay s) Hd Hl) as (b & Hrun).
    exists b. change (put_string true (c :: l)) with (uartputc true c ;; put_string true l).
    rewrite (run_seq _ _ _ _ _ (uartputc_ok c s Hp Hb Hl Hc)), Hrun.
    unfold with_sent. cbn. by rewrite <- app_assoc.
Qed.

(** A port that is there: 9600 baud, receive interrupts on and routed to processor 0, and
    the greeting sent in full. *)
Lemma uartinit_announces s :
  present = true -> (delay < 128)%nat -> busy s = 0%nat ->
  exists s', run uartinit s = (Done true, s') /\
    dlm s' * 256 + dll s' = 12 /\ lcr s' = 3 /\ ier s' = 1 /\ sent s' = sent s ++ codes "xv6...
" /\
    stores s' = stores s ++ [(Ioapic.reg, 24); (Ioapic.data, 36); (Ioapic.reg, 25); (Ioapic.data, 0)].
Proof using Type.
  intros Hp Hd Hb. unfold uartinit.
  do 7 (erewrite run_seq; [|unfold outb; cbn [run d_out uart8250]; rewrite Hp; done]).
  set (s1 := put (COM1 + 1) 1 _).
  assert (E1 : s1 = Port 3 12 0 1 (sent s) 0 (stores s)) by (subst s1; destruct s; cbn in Hb; by subst).
  rewrite E1, (run_seq _ _ _ _ _ (run_get (COM1 + 5) _ Hp)). unfold get at 1 2. rewrite Hp. cbn [negb].
  change (COM1 + 5 =? COM1 + 5) with true. cbn [fst snd busy Nat.eqb pred Z.eqb Pos.eqb].
  rewrite (run_seq _ _ _ _ _ (run_get (COM1 + 2) _ Hp)), (run_seq _ _ _ _ _ (run_get (COM1 + 0) _ Hp)). unfold get. rewrite Hp.
  change (COM1 + 2 =? COM1 + 5) with false. change (COM1 + 0 =? COM1 + 5) with false. cbn [negb snd].
  erewrite run_seq; [|done].
  set (s2 := d_st 4 Ioapic.data (0 <<u 24) _).
  destruct (put_string_ok (codes "xv6...
") s2 Hp Hd) as (b & Hrun); [subst s2; cbn; lia|done| |].
  { apply (bool_decide_unpack _). reflexivity. }
  rewrite (run_seq _ _ _ _ _ Hrun). eexists. split; [done|]. cbn. rewrite <- !app_assoc. done.
Qed.

(** No port: nothing is sent or enabled, and the rest of the kernel is told. *)
Lemma uartinit_absent s : present = false -> run uartinit s = (Done false, s).
Proof using Type. intros Hp. unfold uartinit, outb, inb. cbn. unfold get. by rewrite Hp. Qed.
End Port.
End Uart.
