(* ===== verification/Mem.v ===== *)
(** * Byte-addressed memory

    The physical memory the kernel sees through its direct map: a finite map from
    addresses to bytes, where an address never written reads as 0.  Loads and
    stores of 32-bit words are little endian. *)

From S2P Require Import Prelude.

Abbreviation mem := (gmap Z Z).

Definition load8 (m : mem) (a : Z) : Z := u8 (default 0 (m !! a)).
Definition store8 (m : mem) (a v : Z) : mem := <[a := u8 v]> m.

(** Load and store consecutive bytes. *)
Fixpoint loads (m : mem) (a : Z) (n : nat) : list Z :=
  match n with
  | O => []
  | S n => load8 m a :: loads m (a + 1) n
  end.

Fixpoint stores (m : mem) (a : Z) (bs : list Z) : mem :=
  match bs with
  | [] => m
  | b :: bs => stores (store8 m a b) (a + 1) bs
  end.

Definition load32 (m : mem) (a : Z) : Z := le_val (loads m a 4).
Definition store32 (m : mem) (a v : Z) : mem := stores m a (le_bytes 4 v).

(** Two memories that read the same everywhere. *)
Definition mem_eq (m1 m2 : mem) : Prop := forall a, load8 m1 a = load8 m2 a.

#[export] Instance mem_eq_equiv : Equivalence mem_eq.
Proof.
  split; unfold mem_eq.
  - by intros m a.
  - intros m1 m2 H a. by rewrite H.
  - intros m1 m2 m3 H1 H2 a. by rewrite H1.
Qed.

Lemma load8_range m a : 0 <= load8 m a < 256.
Proof. apply u8_range. Qed.

Lemma load8_store8 m a v b :
  load8 (store8 m a v) b = if a =? b then u8 v else load8 m b.
Proof.
  unfold load8, store8. rewrite lookup_insert.
  destruct (Z.eqb_spec a b); case_decide; try done; simpl.
  unfold u8. by rewrite Z.mod_mod.
Qed.

Lemma load8_stores m a bs b :
  load8 (stores m a bs) b =
  if (a <=? b) && (b <? a + Z.of_nat (length bs))
  then u8 (bs !!! Z.to_nat (b - a)) else load8 m b.
Proof.
  revert m a. induction bs as [|x bs IH]; intros m a; cbn [stores length].
  - zcase; simpl; done || lia.
  - rewrite IH, load8_store8.
    destruct (Z.eqb_spec a b) as [->|Hne].
    + replace (b + 1 <=? b) with false by (symmetry; apply Z.leb_gt; lia).
      replace (b <=? b) with true by (symmetry; apply Z.leb_le; lia).
      replace (b <? b + Z.of_nat (S (length bs))) with true
        by (symmetry; apply Z.ltb_lt; lia).
      simpl. by rewrite Z.sub_diag.
    + destruct (Z.leb_spec (a + 1) b), (Z.ltb_spec b (a + 1 + Z.of_nat (length bs))),
        (Z.leb_spec a b), (Z.ltb_spec b (a + Z.of_nat (S (length bs)))); simpl; try lia; try done.
      replace (Z.to_nat (b - a)) with (S (Z.to_nat (b - (a + 1)))) by lia. done.
Qed.

Lemma length_loads m a n : length (loads m a n) = n.
Proof. revert a; induction n; simpl; auto. Qed.

Lemma lookup_loads m a n i :
  (i < n)%nat -> loads m a n !! i = Some (load8 m (a + Z.of_nat i)).
Proof.
  revert a i; induction n; intros a i Hi; [lia|]. destruct i; simpl.
  - by rewrite Z.add_0_r.
  - rewrite IHn by lia. do 2 f_equal. lia.
Qed.

Lemma loads_ext m m' a a' n :
  (forall i, 0 <= i < Z.of_nat n -> load8 m (a + i) = load8 m' (a' + i)) ->
  loads m a n = loads m' a' n.
Proof.
  intros H. apply list_eq. intros i. destruct (decide (i < n)%nat).
  - rewrite !lookup_loads by done. f_equal. apply H. lia.
  - rewrite !lookup_ge_None_2; [done|rewrite length_loads; lia..].
Qed.

Lemma loads_ok m a n : Forall (field_ok 8) (loads m a n).
Proof. revert a; induction n; simpl; constructor; auto. apply load8_range. Qed.

Lemma loads_stores_same m a bs :
  Forall (field_ok 8) bs -> loads (stores m a bs) a (length bs) = bs.
Proof.
  intros Hok. apply list_eq. intros i. destruct (decide (i < length bs)%nat).
  - rewrite lookup_loads by done. rewrite load8_stores.
    replace (a <=? a + Z.of_nat i) with true by (symmetry; apply Z.leb_le; lia).
    replace (a + Z.of_nat i <? a + Z.of_nat (length bs)) with true
      by (symmetry; apply Z.ltb_lt; lia). simpl.
    replace (Z.to_nat (a + Z.of_nat i - a)) with i by lia.
    destruct (lookup_lt_is_Some_2 bs i ltac:(done)) as [x Hx].
    rewrite Hx, (list_lookup_total_correct _ _ _ Hx). f_equal. apply u8_id.
    rewrite Forall_forall in Hok. apply Hok. apply list_elem_of_lookup. eauto.
  - rewrite !lookup_ge_None_2; [done|lia|rewrite length_loads; lia].
Qed.

Lemma load8_stores_out m a bs b :
  b < a \/ a + Z.of_nat (length bs) <= b -> load8 (stores m a bs) b = load8 m b.
Proof. intros Hb. rewrite load8_stores. zcase; simpl; done || lia. Qed.

Lemma loads_stores_out m a bs b n :
  b + Z.of_nat n <= a \/ a + Z.of_nat (length bs) <= b ->
  loads (stores m a bs) b n = loads m b n.
Proof. intros Hb. apply loads_ext. intros i Hi. apply load8_stores_out. lia. Qed.

Lemma load32_range m a : 0 <= load32 m a < 2 ^ 32.
Proof.
  unfold load32. pose proof (pack_range 8 ltac:(lia) _ (loads_ok m a 4)) as H.
  by rewrite length_loads in H.
Qed.

Lemma load32_store32_same m a v : load32 (store32 m a v) a = u32 v.
Proof.
  unfold load32, store32.
  pose proof (loads_stores_same m a (le_bytes 4 v) (unpack_ok 8 ltac:(lia) 4 v)) as H.
  rewrite length_unpack in H. rewrite H. rewrite pack_unpack by lia. done.
Qed.

Lemma load32_store32_other m a v b :
  b + 4 <= a \/ a + 4 <= b -> load32 (store32 m a v) b = load32 m b.
Proof.
  intros Hb. unfold load32, store32. rewrite loads_stores_out; [done|].
  rewrite length_unpack. lia.
Qed.

#[export] Instance load32_proper : Proper (mem_eq ==> eq ==> eq) load32.
Proof. intros m1 m2 Hm a ? <-. unfold load32. f_equal. apply loads_ext. intros; apply Hm. Qed.
