(* ===== verification/StringC.v ===== *)
(** * The kernel's string routines (string.c)

    [memset] and [memmove] act on memory, since overlap and the word-wise path are
    what they are about.  The routines that only read take their arguments as
    accessors [nat -> Z] (byte [i] of the object pointed to); [strncpy] and
    [safestrcpy] give the bytes written to the destination, which their callers
    never overlap with the source. *)

From S2P Require Import Prelude Mem.

Module StringC.

(** ** memset *)

(** [rep stosb] and [rep stosl]. *)
Fixpoint stosb (m : mem) (addr data : Z) (cnt : nat) : mem :=
  match cnt with
  | O => m
  | S cnt => stosb (store8 m addr data) (addr + 1) data cnt
  end.

Fixpoint stosl (m : mem) (addr data : Z) (cnt : nat) : mem :=
  match cnt with
  | O => m
  | S cnt => stosl (store32 m addr data) (addr + 4) data cnt
  end.

Definition memset (m : mem) (dst c : Z) (n : nat) : mem :=
  if (dst mod 4 =? 0) && (Z.of_nat n mod 4 =? 0) then
    let c := c .& 0xFF in
    stosl m dst (u32 (Z.shiftl c 24) .| u32 (Z.shiftl c 16) .| u32 (Z.shiftl c 8) .| c) (n / 4)
  else stosb m dst c n.

(** ** memcmp and memmove *)

Fixpoint memcmp (s1 s2 : nat -> Z) (n : nat) : Z :=
  match n with
  | O => 0
  | S n =>
      if negb (s1 0%nat =? s2 0%nat) then s1 0%nat - s2 0%nat
      else memcmp (fun i => s1 (S i)) (fun i => s2 (S i)) n
  end.

(** [while(n-- > 0) *d++ = *s++;] *)
Fixpoint copy_fwd (m : mem) (d s : Z) (n : nat) : mem :=
  match n with
  | O => m
  | S n => copy_fwd (store8 m d (load8 m s)) (d + 1) (s + 1) n
  end.

(** [while(n-- > 0) *--d = *--s;] *)
Fixpoint copy_bwd (m : mem) (d s : Z) (n : nat) : mem :=
  match n with
  | O => m
  | S n => copy_bwd (store8 m (d - 1) (load8 m (s - 1))) (d - 1) (s - 1) n
  end.

Definition memmove (m : mem) (d s : Z) (n : nat) : mem :=
  if (s <? d) && (d <? s + Z.of_nat n)
  then copy_bwd m (d + Z.of_nat n) (s + Z.of_nat n) n
  else copy_fwd m d s n.

Definition memcpy (m : mem) (d s : Z) (n : nat) : mem := memmove m d s n.

(** ** Strings *)

Fixpoint strncmp (p q : nat -> Z) (n : nat) : Z :=
  match n with
  | O => 0
  | S n =>
      if negb (p 0%nat =? 0) && (p 0%nat =? q 0%nat)
      then strncmp (fun i => p (S i)) (fun i => q (S i)) n
      else u8 (p 0%nat) - u8 (q 0%nat)
  end.

(** [while(n-- > 0 && ( *s++ = *t++) != 0);]: the bytes written and the value of [n] left. *)
Fixpoint strncpy_copy (t : nat -> Z) (n : nat) : list Z * nat :=
  match n with
  | O => ([], O)
  | S n =>
      if t 0%nat =? 0 then ([0], n)
      else let '(l, r) := strncpy_copy (fun i => t (S i)) n in (t 0%nat :: l, r)
  end.

Definition strncpy (t : nat -> Z) (n : nat) : list Z :=
  let '(l, r) := strncpy_copy t n in l ++ replicate r 0.

(** [while(--n > 0 && ( *s++ = *t++) != 0); *s = 0;], with [k] = [n - 1] on entry. *)
Fixpoint safestrcpy_copy (t : nat -> Z) (k : nat) : list Z :=
  match k with
  | O => [0]
  | S k => if t 0%nat =? 0 then [0; 0] else t 0%nat :: safestrcpy_copy (fun i => t (S i)) k
  end.

Definition safestrcpy (t : nat -> Z) (n : Z) : list Z :=
  if n <=? 0 then [] else safestrcpy_copy t (Z.to_nat (n - 1)).

(** [for(n = 0; s[n]; n++);] *)
Fixpoint strlen (fuel : nat) (s : nat -> Z) (n : nat) : option nat :=
  if s n =? 0 then Some n
  else match fuel with O => None | S fuel => strlen fuel s (S n) end.

(** ** What they compute *)

(** The string in the first [n] bytes: up to a NUL, or all [n] of them. *)
Fixpoint cname (p : nat -> Z) (n : nat) : list Z :=
  match n with
  | O => []
  | S n => if p 0%nat =? 0 then [] else p 0%nat :: cname (fun i => p (S i)) n
  end.

Definition bytes (p : nat -> Z) : Prop := forall i, 0 <= p i < 256.

(** A list of bytes as an accessor; past its end it reads 0. *)
Definition at_ (l : list Z) : nat -> Z := fun i => default 0 (l !! i).

Lemma at_cons x l : (fun i => at_ (x :: l) (S i)) = at_ l.
Proof. done. Qed.

Lemma load8_stosb m a c n b :
  load8 (stosb m a c n) b = if (a <=? b) && (b <? a + Z.of_nat n) then u8 c else load8 m b.
Proof.
  revert m a; induction n; intros m a; cbn [stosb].
  - zcase; simpl; done || lia.
  - rewrite IHn, load8_store8. zcase; simpl; done || lia.
Qed.

Lemma load8_store32 m a v b :
  load8 (store32 m a v) b =
  if (a <=? b) && (b <? a + 4) then (v / 2 ^ (8 * (b - a))) mod 2 ^ 8 else load8 m b.
Proof.
  unfold store32. rewrite load8_stores, length_unpack. change (Z.of_nat 4) with 4.
  destruct (Z.leb_spec a b), (Z.ltb_spec b (a + 4)); cbn [andb]; try done.
  pose proof (lookup_unpack 8 ltac:(lia) 4 v (Z.to_nat (b - a)) ltac:(lia)) as Hl.
  rewrite (list_lookup_total_correct _ _ _ Hl).
  rewrite Z2Nat.id by lia. unfold u8. by rewrite Z.mod_mod by lia.
Qed.

Lemma splat_byte c k :
  0 <= k < 4 ->
  let c := c .& 0xFF in
  ((u32 (Z.shiftl c 24) .| u32 (Z.shiftl c 16) .| u32 (Z.shiftl c 8) .| c) / 2 ^ (8 * k)) mod 2 ^ 8 = c.
Proof.
  intros Hk d. assert (Hd : 0 <= d < 256).
  { unfold d. change 0xFF with (Z.ones 8). rewrite Z.land_ones by lia.
    apply Z.mod_pos_bound. lia. }
  clearbody d. rewrite !u32_id by (rewrite Z.shiftl_mul_pow2 by lia; lia).
  replace (Z.shiftl d 24 .| Z.shiftl d 16 .| Z.shiftl d 8 .| d)
    with (d + d * 2 ^ 8 + d * 2 ^ 16 + d * 2 ^ 24).
  - assert (k = 0 \/ k = 1 \/ k = 2 \/ k = 3) as [-> | [-> | [-> | ->]]] by lia; simpl; dlia.
  - transitivity (d .| Z.shiftl d 8 .| Z.shiftl d 16 .| Z.shiftl d 24).
    + rewrite (lor_shiftl_add 8 d d), (lor_shiftl_add 16), (lor_shiftl_add 24) by lia. lia.
    + apply Z.bits_inj'. intros i Hi. rewrite !Z.lor_spec.
      by destruct (Z.testbit d i), (Z.testbit (Z.shiftl d 8) i),
        (Z.testbit (Z.shiftl d 16) i), (Z.testbit (Z.shiftl d 24) i).
Qed.

Lemma load8_stosl m a w n b c :
  (forall k, 0 <= k < 4 -> (w / 2 ^ (8 * k)) mod 2 ^ 8 = c) ->
  load8 (stosl m a w n) b =
  if (a <=? b) && (b <? a + 4 * Z.of_nat n) then c else load8 m b.
Proof.
  intros Hw. revert m a; induction n; intros m a; cbn [stosl].
  - zcase; simpl; done || lia.
  - rewrite IHn, load8_store32. zcase; simpl; try done; try lia. apply Hw. lia.
Qed.

(** The word-wise and the byte-wise path of [memset] both fill exactly [n] bytes. *)
Lemma load8_memset m dst c n b :
  load8 (memset m dst c n) b =
  if (dst <=? b) && (b <? dst + Z.of_nat n) then u8 c else load8 m b.
Proof.
  unfold memset. destruct ((dst mod 4 =? 0) && (Z.of_nat n mod 4 =? 0)) eqn:E.
  - apply andb_true_iff in E as [_ E]. apply Z.eqb_eq in E.
    rewrite (load8_stosl _ _ _ _ _ (c .& 0xFF)) by (intros; by apply splat_byte).
    change 0xFF with (Z.ones 8). rewrite Z.land_ones by lia.
    replace (4 * Z.of_nat (n / 4)) with (Z.of_nat n); [done|].
    rewrite Nat2Z.inj_div. simpl. dlia.
  - apply load8_stosb.
Qed.

Lemma load8_copy_fwd m d s n b :
  d <= s \/ s + Z.of_nat n <= d ->
  load8 (copy_fwd m d s n) b =
  if (d <=? b) && (b <? d + Z.of_nat n) then load8 m (s + (b - d)) else load8 m b.
Proof.
  revert m d s; induction n; intros m d s H; cbn [copy_fwd].
  - zcase; simpl; done || lia.
  - rewrite IHn by lia. rewrite !load8_store8, u8_id by apply load8_range.
    zcase; simpl; try lia; try done; f_equal; lia.
Qed.

Lemma load8_copy_bwd m d s n b :
  s < d ->
  load8 (copy_bwd m (d + Z.of_nat n) (s + Z.of_nat n) n) b =
  if (d <=? b) && (b <? d + Z.of_nat n) then load8 m (s + (b - d)) else load8 m b.
Proof.
  intros H. revert m; induction n; intros m; cbn [copy_bwd].
  - zcase; simpl; done || lia.
  - replace (d + Z.of_nat (S n) - 1) with (d + Z.of_nat n) by lia.
    replace (s + Z.of_nat (S n) - 1) with (s + Z.of_nat n) by lia.
    rewrite IHn. rewrite !load8_store8, u8_id by apply load8_range.
    zcase; simpl; try lia; try done; f_equal; lia.
Qed.

Lemma load8_memmove (m : mem) (d s : Z) (n : nat) (b : Z) :
  load8 (memmove m d s n) b =
  if (d <=? b) && (b <? d + Z.of_nat n) then load8 m (s + (b - d)) else load8 m b.
Proof.
  unfold memmove. destruct ((s <? d) && (d <? s + Z.of_nat n)) eqn:E.
  - apply andb_true_iff in E as [E1 E2]. apply load8_copy_bwd. lia.
  - apply load8_copy_fwd. apply andb_false_iff in E as [E|E]; lia.
Qed.

(** [memmove] copies as if through a temporary, however source and
    destination overlap, and touches nothing else. *)
Theorem memmove_correct (m : mem) (d s : Z) (n : nat) (b : Z) :
  load8 (memmove m d s n) b =
  if (d <=? b) && (b <? d + Z.of_nat n) then load8 m (s + (b - d)) else load8 m b.
Proof. apply load8_memmove. Qed.

(** [memset] sets each of the [n] bytes to the low byte of [c], on the path
    that stores words as on the one that stores bytes, and touches nothing else. *)
Theorem memset_correct (m : mem) (dst c : Z) (n : nat) :
  mem_eq (memset m dst c n) (stosb m dst c n) /\
  forall b, load8 (memset m dst c n) b =
    if (dst <=? b) && (b <? dst + Z.of_nat n) then u8 c else load8 m b.
Proof.
  split; intros b; [rewrite load8_memset, load8_stosb; done|apply load8_memset].
Qed.

Lemma memcmp_zero s1 s2 n :
  memcmp s1 s2 n = 0 <-> forall i, (i < n)%nat -> s1 i = s2 i.
Proof.
  revert s1 s2; induction n as [|n IH]; intros s1 s2; simpl; [split; [lia|done]|].
  destruct (Z.eqb_spec (s1 0%nat) (s2 0%nat)) as [E|E]; simpl.
  - rewrite IH. split; intros H.
    + intros [|i] Hi; [done|apply H; lia].
    + intros i Hi. apply (H (S i)). lia.
  - split; [lia|]. intros H. specialize (H O). lia.
Qed.

Lemma strncmp_zero p q n :
  bytes p -> bytes q -> strncmp p q n = 0 <-> cname p n = cname q n.
Proof.
  revert p q; induction n as [|n IH]; intros p q Hp Hq; simpl; [done|].
  pose proof (Hp O). pose proof (Hq O). rewrite !u8_id by done.
  destruct (Z.eqb_spec (p 0%nat) 0) as [E|E]; simpl.
  - destruct (Z.eqb_spec (q 0%nat) 0); split; intros; done || lia.
  - destruct (Z.eqb_spec (p 0%nat) (q 0%nat)) as [E'|E'].
    + rewrite IH by (by intros i; auto). rewrite <- E'.
      destruct (Z.eqb_spec (p 0%nat) 0); [done|].
      split; [by intros ->|]. by injection 1.
    + split; [lia|]. destruct (Z.eqb_spec (q 0%nat) 0); [done|]. by injection 1.
Qed.

Lemma length_strncpy t n : length (strncpy t n) = n.
Proof.
  unfold strncpy. revert t; induction n as [|n IH]; intros t; simpl; [done|].
  destruct (t 0%nat =? 0); simpl; [by rewrite length_replicate|].
  specialize (IH (fun i => t (S i))). destruct (strncpy_copy _ n) as [l r]. simpl in *. lia.
Qed.

Lemma cname_zeros n k : cname (at_ (replicate n 0)) k = [].
Proof.
  destruct k; [done|]. simpl. unfold at_.
  destruct n; simpl; done.
Qed.

Lemma cname_strncpy t n : cname (at_ (strncpy t n)) n = cname t n.
Proof.
  unfold strncpy. revert t; induction n as [|n IH]; intros t; [done|]. cbn [strncpy_copy cname].
  destruct (Z.eqb_spec (t 0%nat) 0) as [E|E]; [done|].
  specialize (IH (fun i => t (S i))). destruct (strncpy_copy _ n) as [l r].
  cbn [app]. change (at_ (t 0%nat :: l ++ replicate r 0) 0%nat) with (t 0%nat).
  destruct (Z.eqb_spec (t 0%nat) 0); [done|]. f_equal. by rewrite at_cons.
Qed.

(** A name stored with [strncpy] in a field of [n] bytes is found again by
    [strncmp]: it compares equal to exactly the names with the same first [n]
    characters, and the field is filled to its last byte. *)
Theorem strncpy_strncmp (t q : nat -> Z) (n : nat) (Ht : bytes t) (Hq : bytes q) :
  length (strncpy t n) = n /\
  (strncmp q (at_ (strncpy t n)) n = 0 <-> cname q n = cname t n).
Proof.
  split; [apply length_strncpy|].
  assert (Hb : bytes (at_ (strncpy t n))).
  { intros i. unfold at_. revert t Ht i. unfold strncpy.
    induction n as [|n IH]; intros t Ht i; [simpl; destruct i; simpl; lia|].
    cbn [strncpy_copy]. destruct (Z.eqb_spec (t 0%nat) 0).
    - change ([0] ++ replicate n 0) with (replicate (S n) 0).
      destruct (replicate (S n) 0 !! i) as [x|] eqn:E; simpl; [|lia].
      apply lookup_replicate in E as [-> _]. lia.
    - specialize (IH (fun i => t (S i)) ltac:(by intros ?; apply Ht)).
      destruct (strncpy_copy _ n) as [l r]. destruct i; simpl; [apply Ht|apply IH]. }
  rewrite strncmp_zero by done. by rewrite cname_strncpy.
Qed.

Lemma strncpy_strncmp_witness :
  length (strncpy (at_ (codes "README")) 14) = 14%nat /\
  (strncmp (at_ (codes "README")) (at_ (strncpy (at_ (codes "README")) 14)) 14 = 0 <->
   cname (at_ (codes "README")) 14 = cname (at_ (codes "README")) 14).
Proof.
  assert (Hb : bytes (at_ (codes "README"))).
  { intros i. do 6 (destruct i as [|i]; [by vm_compute|]). by vm_compute. }
  apply strncpy_strncmp; exact Hb.
Defined.

(** [safestrcpy] writes at most [n] bytes, always NUL-terminates when [n > 0],
    and keeps the first [n - 1] characters of the source. *)
Theorem safestrcpy_terminates (t : nat -> Z) (n : Z) (Hn : 0 < n) :
  (length (safestrcpy t n) <= Z.to_nat n)%nat /\
  0 ∈ safestrcpy t n /\
  cname (at_ (safestrcpy t n)) (length (safestrcpy t n)) = cname t (Z.to_nat (n - 1)).
Proof.
  unfold safestrcpy. destruct (Z.leb_spec n 0); [lia|].
  remember (Z.to_nat (n - 1)) as k eqn:Hk.
  assert (Hlen : (length (safestrcpy_copy t k) <= S k)%nat /\ 0 ∈ safestrcpy_copy t k /\
    cname (at_ (safestrcpy_copy t k)) (length (safestrcpy_copy t k)) = cname t k).
  { clear. revert t; induction k as [|k IH]; intros t; simpl; [split_and!; [lia|set_solver|done]|].
    destruct (Z.eqb_spec (t 0%nat) 0) as [E|E]; simpl.
    - split_and!; [lia|set_solver|done].
    - destruct (IH (fun i => t (S i))) as (IH1 & IH2 & IH3).
      split_and!; [lia|set_solver|]. rewrite at_cons.
      change (at_ (t 0%nat :: _) 0%nat) with (t 0%nat).
      destruct (Z.eqb_spec (t 0%nat) 0); [done|]. by rewrite IH3. }
  split_and!; [lia|apply Hlen..].
Qed.

Lemma safestrcpy_terminates_witness :
  0 ∈ safestrcpy (at_ (codes "usertests-long-name")) 16 /\
  (length (safestrcpy (at_ (codes "usertests-long-name")) 16%Z) <= 16)%nat.
Proof.
  pose proof (safestrcpy_terminates (at_ (codes "usertests-long-name")) 16 ltac:(lia)) as H.
  split; [apply H|apply H].
Defined.

Lemma strlen_spec s n k fuel :
  (forall i, (k <= i < n)%nat -> s i <> 0) -> s n = 0 -> (k <= n)%nat -> (n - k <= fuel)%nat ->
  strlen fuel s k = Some n.
Proof.
  revert k; induction fuel as [|f IH]; intros k Hnz Hz Hk Hf; cbn [strlen].
  - assert (k = n) as -> by lia. destruct (Z.eqb_spec (s n) 0); done.
  - destruct (decide (k = n)) as [->|Hne].
    + destruct (Z.eqb_spec (s n) 0); done.
    + destruct (Z.eqb_spec (s k) 0) as [E|E]; [by apply Hnz in E; [|lia]|].
      apply IH; auto with lia.
Qed.
End StringC.
