(* ===== verification/Mp.v ===== *)
(** * Finding the processors (mp.c)

    The tables the firmware leaves in memory are bytes at the addresses the kernel sees
    them at ([P2V]). [mpinit] writes the ports of the interrupt mode register, and comes
    back with the values it gives [lapic], [cpus], [ncpu] and [ioapicid]. *)

From S2P Require Import Prelude Mem Hw.

Module Mp.

Definition NCPU : Z := 8.

Definition sizeof_mp : Z := 16.
Definition sizeof_mpconf : Z := 44.
Definition sizeof_mpproc : Z := 20.
Definition sizeof_mpioapic : Z := 8.

Definition MPPROC : Z := 0x00.
Definition MPBUS : Z := 0x01.
Definition MPIOAPIC : Z := 0x02.
Definition MPIOINTR : Z := 0x03.
Definition MPLINTR : Z := 0x04.

Section Tables.
Context (m : mem).

Definition load16 (a : Z) : Z := le_val (loads m a 2).

(** The fields of [struct mp], [struct mpconf] and the entries, by their addresses. *)
Definition mp_physaddr (a : Z) : Z := load32 m (a + 4).
Definition mp_imcrp (a : Z) : Z := load8 m (a + 12).
Definition conf_length (a : Z) : Z := load16 (a + 4).
Definition conf_version (a : Z) : Z := load8 m (a + 6).
Definition conf_lapicaddr (a : Z) : Z := load32 m (a + 36).
Definition proc_apicid (a : Z) : Z := load8 m (a + 1).
Definition ioapic_apicno (a : Z) : Z := load8 m (a + 1).

Definition sum (addr len : Z) : Z := u8 (fold_left (fun s b => s32 (s + b)) (loads m addr (Z.to_nat len)) 0).

(** The loop of [mpsearch1]; no structure is 0. *)
Fixpoint search_loop (n : nat) (p e : Z) : Z :=
  match n with
  | O => 0
  | S n =>
      if negb (p <? e) then 0
      else if bool_decide (loads m p 4 = codes "_MP_") && (sum p sizeof_mp =? 0) then p
      else search_loop n (p +u sizeof_mp) e
  end.

Definition mpsearch1 (a len : Z) : Z :=
  let addr := p2v a in
  let e := addr +u len in
  search_loop (Z.to_nat (len / sizeof_mp + 1)) addr e.

Definition mpsearch : Z :=
  let bda := p2v 0x400 in
  let rom := mpsearch1 0xF0000 0x10000 in
  let p := ((load8 m (bda + 0x0F) <<u 8) .| load8 m (bda + 0x0E)) <<u 4 in
  if negb (p =? 0) then
    let mp := mpsearch1 p 1024 in
    if negb (mp =? 0) then mp else rom
  else
    let p := ((load8 m (bda + 0x14) <<u 8) .| load8 m (bda + 0x13)) *u 1024 in
    let mp := mpsearch1 (p -u 1024) 1024 in
    if negb (mp =? 0) then mp else rom.

(** The table and [*pmp]. *)
Definition mpconfig : option (Z * Z) :=
  let mp := mpsearch in
  if (mp =? 0) || (mp_physaddr mp =? 0) then None else
  let conf := p2v (mp_physaddr mp) in
  if negb (bool_decide (loads m conf 4 = codes "PCMP")) then None
  else if negb (conf_version conf =? 1) && negb (conf_version conf =? 4) then None
  else if negb (sum conf (conf_length conf) =? 0) then None
  else Some (conf, mp).

(** [cpus[i].apicid] for [i < ncpu], and [ioapicid]. *)
Record found := Found { apicids : list Z; ioapicid : Z }.

Inductive walk :=
| Walked (ismp : bool) (f : found)
| WalkFuel.

(** The loop over the entries. The [break] of its default case only leaves the switch. *)
Fixpoint entries (fuel : nat) (p e : Z) (ismp : bool) (f : found) : walk :=
  match fuel with
  | O => WalkFuel
  | S fuel =>
      if negb (p <? e) then Walked ismp f else
      let t := load8 m p in
      if t =? MPPROC then
        entries fuel (p +u sizeof_mpproc) e ismp
          (if Z.of_nat (length (apicids f)) <? NCPU
           then Found (apicids f ++ [proc_apicid p]) (ioapicid f) else f)
      else if t =? MPIOAPIC then
        entries fuel (p +u sizeof_mpioapic) e ismp (Found (apicids f) (ioapic_apicno p))
      else if (t =? MPBUS) || (t =? MPIOINTR) || (t =? MPLINTR) then
        entries fuel (p +u 8) e ismp f
      else entries fuel p e false f
  end.

(** The new values of [lapic] and of [cpus], [ncpu] and [ioapicid]. *)
Definition mpinit (fuel : nat) (f : found) : io (Z * found) :=
  match mpconfig with
  | None => Panic "Expect to run on an SMP"
  | Some (conf, mp) =>
      let lapic := conf_lapicaddr conf in
      match entries fuel (conf +u sizeof_mpconf) (conf +u conf_length conf) true f with
      | WalkFuel => OutOfFuel
      | Walked ismp f =>
          if negb ismp then Panic "Didn't find a suitable machine" else
          if negb (mp_imcrp mp =? 0) then
            outb 0x22 0x70;;
            x ← inb 0x23;
            outb 0x23 (x .| 1);;
            mret (lapic, f)
          else mret (lapic, f)
      end
  end.
End Tables.

(** ** What the firmware writes *)

Inductive entry :=
| Proc (apicid : Z) (rest : list Z) (* 18 bytes *)
| Ioapic (apicno : Z) (rest : list Z) (* 6 bytes *)
| Other (type : Z) (rest : list Z). (* bus and interrupt entries: 7 bytes *)

Definition encode (x : entry) : list Z :=
  match x with
  | Proc id rest => [MPPROC; id] ++ rest
  | Ioapic no rest => [MPIOAPIC; no] ++ rest
  | Other t rest => [t] ++ rest
  end.

Definition entry_ok (x : entry) : Prop :=
  match x with
  | Proc id rest => field_ok 8 id /\ Forall (field_ok 8) rest /\ length rest = 18%nat
  | Ioapic no rest => field_ok 8 no /\ Forall (field_ok 8) rest /\ length rest = 6%nat
  | Other t rest => t ∈ [MPBUS; MPIOINTR; MPLINTR] /\ Forall (field_ok 8) rest /\ length rest = 7%nat
  end.

(** The processors, in the order of the table, and the last I/O controller. *)
Definition processors (l : list entry) : list Z :=
  omap (fun x => match x with Proc id _ => Some id | _ => None end) l.

Definition last_ioapic (old : Z) (l : list entry) : Z :=
  fold_left (fun old x => match x with Ioapic no _ => no | _ => old end) l old.

Lemma loads_split m a n k : loads m a (n + k) = loads m a n ++ loads m (a + Z.of_nat n) k.
Proof.
  revert a. induction n as [|n IH]; intros a; cbn [loads plus app].
  - by rewrite Z.add_0_r.
  - rewrite IH. do 3 f_equal. lia.
Qed.

Section Walk.
Context (m : mem).

(** Memory holds [bs] at [a]. *)
Definition holds (a : Z) (bs : list Z) : Prop := loads m a (length bs) = bs.

Lemma holds_app a l1 l2 : holds a (l1 ++ l2) -> holds a l1 /\ holds (a + Z.of_nat (length l1)) l2.
Proof using Type.
  unfold holds. rewrite length_app, loads_split. intros H. apply app_inj_1 in H; [done|apply length_loads].
Qed.

Lemma holds_cons a b l : holds a (b :: l) -> load8 m a = b /\ holds (a + 1) l.
Proof using Type. unfold holds. cbn. by intros [= -> ->]. Qed.

Definition table (l : list entry) : list Z := concat (map encode l).

(** What an entry does to the processors and the controller found. *)
Definition note (f : found) (x : entry) : found :=
  match x with
  | Proc id _ => if Z.of_nat (length (apicids f)) <? NCPU then Found (apicids f ++ [id]) (ioapicid f) else f
  | Ioapic no _ => Found (apicids f) no
  | Other _ _ => f
  end.

Lemma entries_one fuel p e ismp f x :
  entry_ok x -> holds p (encode x) -> p < e -> 0 <= p -> p + Z.of_nat (length (encode x)) < 2 ^ 32 ->
  entries m (S fuel) p e ismp f =
  entries m fuel (p + Z.of_nat (length (encode x))) e ismp (note f x).
Proof using Type.
  intros Hok Hh Hlt Hp Hw. cbn [entries]. rewrite (proj2 (Z.ltb_lt p e)) by done. cbn [negb].
  destruct x as [id rest|no rest|ty rest]; cbn [encode entry_ok app] in *.
  - destruct Hok as (_ & _ & Hlen). cbn [length] in *. rewrite Hlen in *.
    apply holds_cons in Hh as [-> Hh]. apply holds_cons in Hh as [Hid _].
    change (MPPROC =? MPPROC) with true. cbv iota. unfold proc_apicid. rewrite Hid.
    rewrite u32_id by (unfold sizeof_mpproc; lia). done.
  - destruct Hok as (_ & _ & Hlen). cbn [length] in *. rewrite Hlen in *.
    apply holds_cons in Hh as [-> Hh]. apply holds_cons in Hh as [Hid _].
    change (MPIOAPIC =? MPPROC) with false. change (MPIOAPIC =? MPIOAPIC) with true. cbv iota.
    unfold ioapic_apicno. rewrite Hid. rewrite u32_id by (unfold sizeof_mpioapic; lia). done.
  - destruct Hok as (Hty & _ & Hlen). cbn [length] in *. rewrite Hlen in *.
    apply holds_cons in Hh as [-> _]. rewrite (u32_id (p + 8)) by lia.
    rewrite !elem_of_cons in Hty. destruct Hty as [->|[->|[->|Hty]]]; try done. by apply elem_of_nil in Hty.
Qed.

Lemma encode_nonempty x : entry_ok x -> (0 < length (encode x))%nat.
Proof using Type. destruct x; cbn; lia. Qed.

Lemma entries_table l rest fuel p e ismp f :
  Forall entry_ok l -> holds p (table l ++ rest) -> p + Z.of_nat (length (table l ++ rest)) = e ->
  0 <= p -> e < 2 ^ 32 ->
  entries m (length l + fuel) p e ismp f =
  entries m fuel (p + Z.of_nat (length (table l))) e ismp (fold_left note l f).
Proof using Type.
  intros Hok. revert p f. induction Hok as [|x l Hx Hok IH]; intros p f Hh He Hp Hw.
  - cbn. by rewrite Z.add_0_r.
  - cbn [table map concat length plus fold_left] in *. fold (table l) in *. rewrite <- app_assoc in Hh.
    apply holds_app in Hh as [Hh1 Hh2]. pose proof (encode_nonempty x Hx) as Hpos.
    rewrite !length_app in *.
    rewrite (entries_one _ _ _ _ _ x) by (done || lia).
    rewrite IH by (done || rewrite ?length_app; lia). f_equal. lia.
Qed.

Lemma note_fold l f :
  (length (apicids f) <= 8)%nat ->
  fold_left note l f = Found (take 8 (apicids f ++ processors l)) (last_ioapic (ioapicid f) l).
Proof using Type.
  revert f. induction l as [|x l IH]; intros f Hf; cbn [fold_left].
  - cbn [processors omap list_omap last_ioapic fold_left]. rewrite app_nil_r, take_ge by done. by destruct f.
  - destruct x as [id rest|no rest|ty rest]; cbn [note].
    + unfold NCPU. destruct (Z.ltb_spec (Z.of_nat (length (apicids f))) 8) as [Hlt|Hge].
      * rewrite IH by (cbn; rewrite length_app; cbn; lia). cbn. by rewrite <- app_assoc.
      * rewrite IH by done. unfold processors. cbn. rewrite !take_app_le by lia. done.
    + by rewrite IH.
    + by rewrite IH.
Qed.

Lemma entries_end fuel p ismp f : entries m (S fuel) p p ismp f = Walked ismp f.
Proof using Type. cbn [entries]. by rewrite Z.ltb_irrefl. Qed.

(** ** The checksum and the search *)

Definition total (bs : list Z) : Z := foldr Z.add 0 bs.

Lemma s32_mod x : s32 x mod 256 = x mod 256.
Proof using Type. clear m. unfold s32, swrap. zcase; dlia. Qed.

Lemma sum_spec a len : sum m a len = total (loads m a (Z.to_nat len)) mod 256.
Proof using Type.
  unfold sum, u8. change (2 ^ 8) with 256.
  assert (H : forall bs s, fold_left (fun s b => s32 (s + b)) bs s mod 256 = (s + total bs) mod 256).
  { intros bs. induction bs as [|b bs IH]; intros s; cbn [fold_left total foldr].
    - by rewrite Z.add_0_r.
    - rewrite IH. fold (total bs). rewrite <- Zplus_mod_idemp_l, s32_mod, Zplus_mod_idemp_l. f_equal. lia. }
  by rewrite H.
Qed.

(** A floating pointer structure: its signature, and bytes that add up to 0. *)
Definition is_mp (a : Z) : bool :=
  bool_decide (loads m a 4 = codes "_MP_") && (total (loads m a 16) mod 256 =? 0).

(** The first in the [k] slots from [a] is slot [i]. *)
Definition first_mp (a k i : Z) : Prop :=
  0 <= i < k /\ is_mp (a + 16 * i) = true /\ forall j, 0 <= j < i -> is_mp (a + 16 * j) = false.

Lemma search_loop_first i n a k :
  first_mp a k i -> 0 <= a -> a + 16 * k < 2 ^ 32 -> (Z.to_nat i < n)%nat ->
  search_loop m n a (a + 16 * k) = a + 16 * i.
Proof using Type.
  intros (Hi & Hyes & Hno) Ha Hw Hn.
  assert (H : forall d j, 0 <= j <= i -> Z.of_nat d = i - j -> forall n, (d < n)%nat ->
    search_loop m n (a + 16 * j) (a + 16 * k) = a + 16 * i).
  { induction d as [|d IH]; intros j Hj Hd [|n'] Hn'; try lia; cbn [search_loop];
      rewrite (proj2 (Z.ltb_lt (a + 16 * j) (a + 16 * k))) by lia; cbn [negb];
      rewrite sum_spec; change (Z.to_nat sizeof_mp) with 16%nat; fold (is_mp (a + 16 * j)).
    - replace j with i by lia. by rewrite Hyes.
    - rewrite Hno by lia. rewrite u32_id by (unfold sizeof_mp; lia).
      replace (a + 16 * j + sizeof_mp) with (a + 16 * (j + 1)) by (unfold sizeof_mp; lia).
      apply IH; lia. }
  rewrite <- (H (Z.to_nat i) 0 ltac:(lia) ltac:(lia) n Hn). f_equal; lia.
Qed.

Definition no_mp (a k : Z) : Prop := forall j, 0 <= j < k -> is_mp (a + 16 * j) = false.

Lemma search_loop_none k a n :
  no_mp a k -> 0 <= a -> a + 16 * k < 2 ^ 32 -> forall j, 0 <= j <= k -> search_loop m n (a + 16 * j) (a + 16 * k) = 0.
Proof using Type.
  intros Hno Ha Hw. induction n as [|n IH]; intros j Hj; [done|]. cbn [search_loop].
  destruct (Z.ltb_spec (a + 16 * j) (a + 16 * k)); cbn [negb]; [|done].
  rewrite sum_spec. change (Z.to_nat sizeof_mp) with 16%nat. fold (is_mp (a + 16 * j)). rewrite Hno by lia.
  rewrite u32_id by (unfold sizeof_mp; lia).
  replace (a + 16 * j + sizeof_mp) with (a + 16 * (j + 1)) by (unfold sizeof_mp; lia). apply IH. lia.
Qed.

Lemma mpsearch1_none a k :
  0 <= a -> 0 <= k -> a + 16 * k < 2 ^ 31 -> no_mp (p2v a) k -> mpsearch1 m a (16 * k) = 0.
Proof using Type.
  intros Ha Hk Hw Hno. unfold mpsearch1.
  assert (Hp : p2v a = a + 2 ^ 31) by (unfold p2v; rewrite u32_id; lia).
  rewrite (u32_id (p2v a + 16 * k)) by lia.
  rewrite <- (Z.add_0_r (p2v a)) at 1. replace 0 with (16 * 0) at 1 by lia.
  apply search_loop_none; (done || lia).
Qed.

Lemma mpsearch1_first a k i :
  0 <= a -> a + 16 * k < 2 ^ 31 -> first_mp (p2v a) k i -> mpsearch1 m a (16 * k) = p2v a + 16 * i.
Proof using Type.
  intros Ha Hw Hf. unfold mpsearch1. assert (Hi := proj1 Hf).
  assert (Hp : p2v a = a + 2 ^ 31) by (unfold p2v; rewrite u32_id; lia).
  rewrite (u32_id (p2v a + 16 * k)) by lia. apply search_loop_first; try done; try lia.
  unfold sizeof_mp. rewrite (Z.mul_comm 16 k), Z.div_mul by lia. lia.
Qed.

(** ** The tables of a machine *)

(** [struct mpconf]: [mid] is the product id and the OEM fields. *)
Definition header (len ver cks : Z) (mid : list Z) (lapic : Z) (tail : list Z) : list Z :=
  codes "PCMP" ++ le_bytes 2 len ++ [ver; cks] ++ mid ++ le_bytes 4 lapic ++ tail.

(** The segment of the extended BIOS data area, and the KBs of base memory. *)
Definition ebda : Z := (load8 m (p2v 0x40F) <<u 8) .| load8 m (p2v 0x40E).
Definition base_kb : Z := (load8 m (p2v 0x414) <<u 8) .| load8 m (p2v 0x413).

(** Where the floating pointer may be: the first KB of the extended BIOS data area, the last KB of
    base memory when there is no such area, and the ROM from 0xF0000 on when it is not there. *)
Inductive located : Z -> Prop :=
| in_ebda i : 0 < ebda -> first_mp (p2v (16 * ebda)) 64 i -> located (p2v (16 * ebda) + 16 * i)
| in_base i : ebda = 0 -> 0 < base_kb -> first_mp (p2v (1024 * base_kb - 1024)) 64 i ->
    located (p2v (1024 * base_kb - 1024) + 16 * i)
| in_rom i :
    0 < ebda /\ no_mp (p2v (16 * ebda)) 64 \/
    ebda = 0 /\ 0 < base_kb /\ no_mp (p2v (1024 * base_kb - 1024)) 64 ->
    first_mp (p2v 0xF0000) 4096 i -> located (p2v 0xF0000 + 16 * i).

(** The floating pointer is [mp], and leads to a configuration table of the entries [l]. *)
Record machine (mp lapic : Z) (l : list entry) (rest : list Z) : Prop := {
  mp_located : located mp;
  conf_at : 0 < mp_physaddr m mp /\ mp_physaddr m mp + 44 + Z.of_nat (length (table l ++ rest)) < 2 ^ 31;
  conf_bytes : exists ver cks mid tail,
    let bytes := header (44 + Z.of_nat (length (table l ++ rest))) ver cks mid lapic tail ++ table l ++ rest in
    holds (p2v (mp_physaddr m mp)) bytes /\ total bytes mod 256 = 0 /\
    (ver = 1 \/ ver = 4) /\ length mid = 28%nat /\ length tail = 4%nat;
  conf_len : 44 + Z.of_nat (length (table l ++ rest)) < 2 ^ 16;
  lapic_ok : field_ok 32 lapic;
  conf_entries : Forall entry_ok l;
}.

Lemma word_range a b : 0 <= ((load8 m a <<u 8) .| load8 m b) < 2 ^ 16.
Proof using Type.
  pose proof (load8_range m a). pose proof (load8_range m b).
  rewrite u32_id by (rewrite Z.shiftl_mul_pow2; lia).
  rewrite Z.lor_comm, lor_shiftl_add by lia. lia.
Qed.

(** [mpsearch] with its two words read. *)
Lemma mpsearch_words :
  mpsearch m =
  let rom := mpsearch1 m 0xF0000 (16 * 4096) in
  let mp := if ebda =? 0 then mpsearch1 m (1024 * base_kb -u 1024) (16 * 64) else mpsearch1 m (16 * ebda) (16 * 64) in
  if mp =? 0 then rom else mp.
Proof using Type.
  pose proof (word_range (p2v 0x40F) (p2v 0x40E) : 0 <= ebda < 2 ^ 16) as He.
  pose proof (word_range (p2v 0x414) (p2v 0x413) : 0 <= base_kb < 2 ^ 16) as Hb.
  unfold mpsearch. change (p2v 0x400 + 0x0F) with (p2v 0x40F). change (p2v 0x400 + 0x0E) with (p2v 0x40E).
  change (p2v 0x400 + 0x14) with (p2v 0x414). change (p2v 0x400 + 0x13) with (p2v 0x413).
  fold ebda. fold base_kb. change (16 * 4096) with 0x10000. change (16 * 64) with 1024.
  rewrite Z.shiftl_mul_pow2, !u32_id by lia. replace (ebda * 2 ^ 4) with (16 * ebda) by lia.
  replace (base_kb * 1024) with (1024 * base_kb) by lia.
  destruct (Z.eqb_spec ebda 0) as [->|Hne]; cbn [negb Z.mul Z.eqb].
  - change (16 * 0 =? 0) with true. cbn [negb]. rewrite (u32_id (1024 * base_kb)) by lia. by destruct (mpsearch1 m (1024 * _ -u _) _ =? 0).
  - rewrite (proj2 (Z.eqb_neq (16 * ebda) 0)) by lia. cbn [negb]. by destruct (mpsearch1 m (16 * ebda) _ =? 0).
Qed.

Lemma p2v_low a : 0 <= a < 2 ^ 31 -> p2v a = a + 2 ^ 31.
Proof using Type. intros Ha. unfold p2v. rewrite u32_id; lia. Qed.

Lemma mpsearch_located mp : located mp -> mpsearch m = mp /\ mp <> 0.
Proof using Type.
  pose proof (word_range (p2v 0x40F) (p2v 0x40E) : 0 <= ebda < 2 ^ 16) as He.
  pose proof (word_range (p2v 0x414) (p2v 0x413) : 0 <= base_kb < 2 ^ 16) as Hb.
  rewrite mpsearch_words. cbv zeta. intros [i Hpos Hf|i H0 Hpos Hf|i Habsent Hf]; pose proof (proj1 Hf) as Hi.
  - rewrite (proj2 (Z.eqb_neq ebda 0)) by lia. rewrite (mpsearch1_first _ _ i) by (done || lia).
    pose proof (p2v_low (16 * ebda) ltac:(lia)). rewrite (proj2 (Z.eqb_neq (p2v _ + _) 0)) by lia. split; [done|lia].
  - rewrite H0. cbn [Z.eqb]. rewrite u32_id by lia. rewrite (mpsearch1_first _ _ i) by (done || lia).
    pose proof (p2v_low (1024 * base_kb - 1024) ltac:(lia)). rewrite (proj2 (Z.eqb_neq (p2v _ + _) 0)) by lia. split; [done|lia].
  - rewrite (mpsearch1_first 0xF0000 4096 i) by (done || lia). pose proof (p2v_low 0xF0000 ltac:(lia)). split; [|lia].
    destruct Habsent as [[Hpos Hno]|(H0 & Hpos & Hno)].
    + rewrite (proj2 (Z.eqb_neq ebda 0)) by lia. by rewrite mpsearch1_none by (done || lia).
    + rewrite H0. cbn [Z.eqb]. rewrite u32_id by lia. by rewrite mpsearch1_none by (done || lia).
Qed.

Lemma mpsearch_machine mp lapic l rest : machine mp lapic l rest -> mpsearch m = mp /\ mp <> 0.
Proof using Type. intros Hm. apply mpsearch_located, (mp_located _ _ _ _ Hm). Qed.

(** What [mpconfig] reads of the table's header. *)
Lemma mpconfig_machine mp lapic l rest :
  machine mp lapic l rest ->
  let conf := p2v (mp_physaddr m mp) in
  mpconfig m = Some (conf, mp) /\ conf_length m conf = 44 + Z.of_nat (length (table l ++ rest)) /\
  conf_lapicaddr m conf = lapic /\ holds (conf + 44) (table l ++ rest) /\ conf = mp_physaddr m mp + 2 ^ 31.
Proof using Type.
  intros Hm conf. pose proof (mpsearch_machine _ _ _ _ Hm) as [Hs Hne].
  destruct Hm as [_ [Hpa Hw] (ver & cks & mid & tail & Hh & Htot & Hver & Hmid & Htail) Hlen Hlap _].
  fold conf in Hh. assert (Hc : conf = mp_physaddr m mp + 2 ^ 31) by (unfold conf, p2v; rewrite u32_id; lia).
  set (len := 44 + Z.of_nat (length (table l ++ rest))) in *.
  pose proof Hh as Hall. unfold header in Hh. rewrite <- !app_assoc in Hh.
  apply holds_app in Hh as [Hsig Hh]. apply holds_app in Hh as [Hlen2 Hh]. cbn [length app codes] in Hh.
  rewrite !length_unpack in Hh. change (Z.of_nat 4) with 4 in Hh. change (Z.of_nat 2) with 2 in Hh.
  apply holds_cons in Hh as [Hv Hh]. apply holds_cons in Hh as [_ Hh]. apply holds_app in Hh as [_ Hh].
  rewrite Hmid in Hh. apply holds_app in Hh as [Hl Hh]. rewrite length_unpack in Hh.
  apply holds_app in Hh as [_ Hh]. rewrite Htail in Hh.
  assert (Hcl : conf_length m conf = len).
  { unfold conf_length, load16. unfold holds in Hlen2. rewrite length_unpack in Hlen2.
    change (Z.of_nat (length (codes "PCMP"))) with 4 in Hlen2. rewrite Hlen2.
    apply pack_unpack_id; [lia|]. change (8 * Z.of_nat 2) with 16. lia. }
  repeat split; try done.
  - unfold mpconfig. rewrite Hs. fold conf. rewrite (proj2 (Z.eqb_neq mp 0)), (proj2 (Z.eqb_neq (mp_physaddr m mp) 0)) by lia.
    cbn [orb]. rewrite bool_decide_true by exact Hsig. cbn [negb].
    assert (Ev : conf_version m conf = ver) by (rewrite <- Hv; unfold conf_version; f_equal; lia). rewrite Ev.
    assert (E1 : negb (ver =? 1) && negb (ver =? 4) = false) by (by destruct Hver as [-> | ->]). rewrite E1.
    rewrite sum_spec, Hcl. unfold holds in Hall.
    replace (Z.to_nat len) with (length (header len ver cks mid lapic tail ++ table l ++ rest)).
    2: { unfold len, header. rewrite !length_app, !length_unpack, Hmid, Htail. cbn [length codes]. lia. }
    by rewrite Hall, Htot.
  - unfold conf_lapicaddr, load32. unfold holds in Hl. rewrite length_unpack in Hl.
    replace (conf + 36) with (conf + 4 + 2 + 1 + 1 + Z.of_nat 28) by lia. rewrite Hl.
    apply pack_unpack_id; [lia|]. exact Hlap.
  - replace (conf + 44) with (conf + 4 + 2 + 1 + 1 + Z.of_nat 28 + Z.of_nat 4 + Z.of_nat 4) by lia. exact Hh.
Qed.

(** More rounds do not change how the walk ends. *)
Lemma entries_more n fuel p e ismp f b f' :
  entries m fuel p e ismp f = Walked b f' -> entries m (n + fuel) p e ismp f = Walked b f'.
Proof using Type.
  revert p ismp f. induction fuel as [|fuel IH]; intros p ismp f; [done|].
  rewrite Nat.add_succ_r. cbn [entries]. repeat (case_match; try done; auto).
Qed.

Lemma stuck_entry fuel p e ismp f : p < e -> 4 < load8 m p -> entries m fuel p e ismp f = WalkFuel.
Proof using Type.
  intros Hlt Ht. revert ismp. induction fuel as [|fuel IH]; intros ismp; [done|]. cbn [entries].
  rewrite (proj2 (Z.ltb_lt p e)) by done. cbn [negb].
  unfold MPPROC, MPIOAPIC, MPBUS, MPIOINTR, MPLINTR. zcase; try lia. apply IH.
Qed.

(** What is left at the end: with no [rest], the walk ends there. *)
Lemma walk_machine mp lapic l rest fuel :
  machine mp lapic l rest ->
  let conf := p2v (mp_physaddr m mp) in
  let e := conf +u conf_length m conf in
  entries m (length l + fuel) (conf +u sizeof_mpconf) e true (Found [] 0) =
  entries m fuel (e - Z.of_nat (length rest)) e true (Found (take 8 (processors l)) (last_ioapic 0 l)).
Proof using Type.
  intros Hm conf. pose proof (mpconfig_machine _ _ _ _ Hm) as (_ & Hlen & _ & Hh & Hc). fold conf in Hlen, Hh, Hc.
  pose proof (conf_at _ _ _ _ Hm) as [Hpa Hw]. pose proof (conf_entries _ _ _ _ Hm) as Hok.
  rewrite Hlen. cbv zeta. unfold sizeof_mpconf. rewrite (u32_id (conf + 44)), u32_id by lia.
  rewrite (entries_table l rest) by (done || lia).
  rewrite note_fold by (cbn; lia). cbn [app apicids ioapicid]. f_equal. rewrite length_app. lia.
Qed.
End Walk.

(** The interrupt mode register, when there is one: selected, read, and its bit 0 set. *)
Definition imcr {S : Type} {D : Device S} (present : bool) (s : S) : S :=
  if present then let s := d_out 0x22 0x70 s in let '(x, s) := d_in 0x23 s in d_out 0x23 (x .| 1) s else s.

(** C36: [mpinit] reads back the tables the firmware wrote. When the floating pointer is in one of
    the places the code searches ([located]: the extended BIOS data area, the last KB of base memory
    if there is none, and the ROM from 0xF0000 on if it is not there), the first one there, and
    leads to a configuration table with a good signature, version and checksum, [mpinit] ends after
    one round for each entry, and gives [lapic] its address, [cpus] the processors of the table in
    order, at most NCPU of them, and [ioapicid] the last I/O controller; external interrupts are
    masked in the IMCR when the pointer says that there is one, and otherwise no port is touched. *)
Theorem mpinit_reads_tables (m : mem) (mp lapic : Z) (l : list entry) (fuel : nat)
    (Hm : machine m mp lapic l []) (Hf : (length l < fuel)%nat) (S : Type) (D : Device S) (s : S) :
  run (mpinit m fuel (Found [] 0)) s =
    (Done (lapic, Found (take 8 (processors l)) (last_ioapic 0 l)), imcr (negb (mp_imcrp m mp =? 0)) s).
Proof.
  pose proof (mpconfig_machine _ _ _ _ _ Hm) as (Hc & _ & Hl & _). unfold mpinit. rewrite Hc, Hl.
  replace fuel with (length l + Datatypes.S (fuel - length l - 1))%nat by lia.
  rewrite (walk_machine _ _ _ _ _ _ Hm). cbn [length Z.of_nat]. rewrite Z.sub_0_r, entries_end. cbn [negb].
  unfold imcr. destruct (negb _); [|done]. cbn. by destruct (d_in _ _).
Qed.

(** An entry of a type the code does not know hangs the boot. The [break] of the
    default case leaves the [switch] and not the loop, which then looks at the same entry
    again: [mpinit] never ends, and "Didn't find a suitable machine" is never said. *)
Theorem mpinit_unknown_entry_hangs (m : mem) (mp lapic t : Z) (l : list entry) (rest : list Z)
    (Hm : machine m mp lapic l (t :: rest)) (Ht : 4 < t) (S : Type) (D : Device S) (s : S) (fuel : nat) :
  run (mpinit m fuel (Found [] 0)) s = (Running, s).
Proof.
  pose proof (mpconfig_machine _ _ _ _ _ Hm) as (Hc & Hlen & _ & Hh & Hcv). unfold mpinit. rewrite Hc.
  set (conf := p2v (mp_physaddr m mp)) in *. set (e := conf +u conf_length m conf).
  assert (E : entries m fuel (conf +u sizeof_mpconf) e true (Found [] 0) = WalkFuel); [|by rewrite E].
  destruct (entries m fuel _ e true _) as [b f|] eqn:E; [|done].
  apply (entries_more m (length l)) in E. subst e conf. rewrite (walk_machine _ _ _ _ _ _ Hm) in E.
  rewrite (stuck_entry m) in E; [done|..]; pose proof (conf_at _ _ _ _ _ Hm) as [Hpa Hw];
    rewrite Hlen, u32_id by lia; rewrite length_app in *; cbn [length] in *.
  - lia.
  - apply holds_app in Hh as [_ Hh]. apply holds_cons in Hh as [Ht' _]. rewrite <- Ht' in Ht.
    assert (Ha : forall a, a = p2v (mp_physaddr m mp) + 44 + Z.of_nat (length (table l)) -> 4 < load8 m a) by (by intros a ->).
    apply Ha. lia.
Qed.

(** A machine of two processors and an I/O controller, between entries of other types. *)
Definition duo : list entry :=
  [Proc 0 (replicate 18 0); Other MPBUS (replicate 7 1); Proc 4 (replicate 18 0); Ioapic 9 (replicate 6 0);
   Other MPLINTR (replicate 7 0)].

Definition duo_table (rest : list Z) (cks : Z) : list Z :=
  header (44 + Z.of_nat (length (table duo ++ rest))) 4 cks (replicate 28 0) 0xFEE00000 (replicate 4 0) ++ table duo ++ rest.

(** No extended BIOS data area, 639 KB of base memory, and the floating pointer in the ROM. *)
Definition duo_mem (rest : list Z) : mem :=
  stores (stores (stores ∅ (p2v 0x413) [0x7F; 0x02])
    (p2v 0xF0010) (codes "_MP_" ++ le_bytes 4 0xF64F0 ++ [1; 4; 189; 0; 0x80; 0; 0; 0]))
    (p2v 0xF64F0) (duo_table rest ((- total (duo_table rest 0)) mod 256)).

Lemma no_mp_check m a k : forallb (fun j => negb (is_mp m (a + 16 * j))) (seqZ 0 k) = true -> no_mp m a k.
Proof.
  intros H j Hj. rewrite forallb_forall in H. apply negb_true_iff, H, list_elem_of_In, elem_of_seqZ. lia.
Qed.

Ltac on_duo rest :=
  split;
  [ apply (in_rom (duo_mem rest) 1);
    [ right; split; [vm_compute; reflexivity|]; split; [vm_compute; reflexivity|];
      apply no_mp_check; vm_compute; reflexivity
    | split; [lia|]; split; [vm_compute; reflexivity|];
      intros j Hj; replace j with 0 by lia; vm_compute; reflexivity ]
  | assert (E : mp_physaddr (duo_mem rest) (p2v 0xF0000 + 16 * 1) = 0xF64F0) by (vm_compute; reflexivity);
    rewrite E; split; [lia|]; vm_compute; reflexivity
  | exists 4, ((- total (duo_table rest 0)) mod 256), (replicate 28 0), (replicate 4 0);
    split; [vm_compute; reflexivity|]; split; [vm_compute; reflexivity|]; split; [by right|]; done
  | vm_compute; reflexivity
  | split; [done|vm_compute; reflexivity]
  | apply (bool_decide_unpack _); vm_compute; exact I ].

#[local] Instance entry_ok_dec x : Decision (entry_ok x).
Proof. destruct x; cbn; apply _. Defined.

Lemma duo_machine : machine (duo_mem []) (p2v 0xF0000 + 16 * 1) 0xFEE00000 duo [].
Proof. on_duo (@nil Z). Qed.

Lemma strange_machine : machine (duo_mem [5]) (p2v 0xF0000 + 16 * 1) 0xFEE00000 duo [5].
Proof. on_duo [5]. Qed.

(** A device that answers every read with 4, and the list of what is written to it. *)
#[local] Instance recorder : Device (list (Z * Z)) := {
  d_out p v s := s ++ [(p, v)]; d_in _ s := (4, s); d_st _ _ _ s := s; d_ld _ s := (4, s); d_print _ s := s }.

Lemma mpinit_reads_tables_witness :
  run (mpinit (duo_mem []) 6 (Found [] 0)) [] = (Done (0xFEE00000, Found [0; 4] 9), [(0x22, 0x70); (0x23, 5)]).
Proof. exact (mpinit_reads_tables _ _ _ _ 6 duo_machine ltac:(cbn; lia) (list (Z * Z)) recorder []). Defined.

Lemma mpinit_unknown_entry_hangs_witness : run (mpinit (duo_mem [5]) 1000 (Found [] 0)) [] = (Running, []).
Proof. exact (mpinit_unknown_entry_hangs _ _ _ 5 _ [] strange_machine ltac:(lia) (list (Z * Z)) recorder [] 1000). Defined.

End Mp.
