(* ===== verification/Boot.v ===== *)
(** * The boot loader (bootmain.c)

    The loader runs before paging, so memory is physical memory. It reads the kernel's ELF
    image from the disk, sector by sector through the ports of the controller. *)

From S2P Require Import Prelude Mem StringC Hw.

Module Boot.

Definition SECTSIZE : Z := 512.
Definition ELF_MAGIC : Z := 0x464C457F.
Definition sizeof_proghdr : Z := 32.

Fixpoint waitdisk (fuel : nat) : io unit :=
  match fuel with
  | O => OutOfFuel
  | S fuel =>
      x ← inb 0x1F7;
      if negb (x .& 0xC0 =? 0x40) then waitdisk fuel else mret tt
  end.

(** [insl]: [cnt] words from a port to memory. *)
Fixpoint insl (port addr : Z) (cnt : nat) (m : mem) : io mem :=
  match cnt with
  | O => mret m
  | S cnt =>
      x ← inb port;
      insl port (addr +u 4) cnt (store32 m addr x)
  end.

Section Loader.
Context (fuel : nat).

Definition readsect (m : mem) (dst offset : Z) : io mem :=
  waitdisk fuel;;
  outb 0x1F2 1;;
  outb 0x1F3 (u8 offset);;
  outb 0x1F4 (u8 (offset >>u 8));;
  outb 0x1F5 (u8 (offset >>u 16));;
  outb 0x1F6 (u8 ((offset >>u 24) .| 0xE0));;
  outb 0x1F7 0x20;;
  waitdisk fuel;;
  insl 0x1F0 dst (Z.to_nat (SECTSIZE / 4)) m.

(** The loop of [readseg], with [n] rounds at most to go. *)
Fixpoint read_sectors (n : nat) (m : mem) (pa epa offset : Z) : io mem :=
  match n with
  | O => OutOfFuel
  | S n =>
      if negb (pa <? epa) then mret m
      else m ← readsect m pa offset;
           read_sectors n m (pa +u SECTSIZE) epa (offset +u 1)
  end.

Definition readseg (m : mem) (pa count offset : Z) : io mem :=
  let epa := pa +u count in
  let pa := pa -u offset mod SECTSIZE in
  let offset := offset / SECTSIZE +u 1 in
  read_sectors (Z.to_nat (count / SECTSIZE + 3)) m pa epa offset.

(** The fields of the ELF header and of a program header, by their address. *)
Definition elf_entry (m : mem) (a : Z) : Z := load32 m (a + 24).
Definition elf_phoff (m : mem) (a : Z) : Z := load32 m (a + 28).
Definition elf_phnum (m : mem) (a : Z) : Z := le_val (loads m (a + 44) 2).
Definition ph_off (m : mem) (a : Z) : Z := load32 m (a + 4).
Definition ph_paddr (m : mem) (a : Z) : Z := load32 m (a + 12).
Definition ph_filesz (m : mem) (a : Z) : Z := load32 m (a + 16).
Definition ph_memsz (m : mem) (a : Z) : Z := load32 m (a + 20).

(** [for(; ph < eph; ph++)] *)
Fixpoint load_each (n : nat) (m : mem) (ph eph : Z) : io mem :=
  match n with
  | O => mret m
  | S n =>
      if negb (ph <? eph) then mret m else
      let pa := ph_paddr m ph in
      m' ← readseg m pa (ph_filesz m ph) (ph_off m ph);
      let m := if ph_filesz m' ph <? ph_memsz m' ph
               then StringC.stosb m' (pa +u ph_filesz m' ph) 0 (Z.to_nat (ph_memsz m' ph - ph_filesz m' ph))
               else m' in
      load_each n m (ph +u sizeof_proghdr) eph
  end.

Definition scratch : Z := 0x10000.

(** Memory, and the entry point to call; [None] when the code returns to bootasm.S. *)
Definition bootmain (m : mem) : io (mem * option Z) :=
  let elf := scratch in
  m ← readseg m elf 4096 0;
  if negb (load32 m elf =? ELF_MAGIC) then mret (m, None) else
  let ph := elf +u elf_phoff m elf in
  let eph := ph +u elf_phnum m elf * sizeof_proghdr in
  m ← load_each (Z.to_nat (elf_phnum m elf)) m ph eph;
  mret (m, Some (elf_entry m elf)).
End Loader.

(** ** The disk

    READ SECTORS makes the controller busy for [delay] reads of its status; then the sectors
    named by the registers come through the data port, four bytes at a time. While it is busy the
    controller takes nothing and gives no data, and until all the data of a command has been
    read it takes no other command. It knows no other command. *)
Record disk := Disk { count : Z; low : Z; mid : Z; high : Z; drive : Z; words : list Z; busy : nat }.

Section Disk.
Context (sector : Z -> list Z) (delay : nat).

Definition lba (d : disk) : Z := low d + 2 ^ 8 * mid d + 2 ^ 16 * high d + 2 ^ 24 * (drive d mod 16).

Fixpoint to_words (n : nat) (l : list Z) : list Z :=
  match n with
  | O => []
  | S n => le_val (take 4 l) :: to_words n (drop 4 l)
  end.

(** The data of [n] sectors from sector [i] on. *)
Fixpoint sectors (n : nat) (i : Z) : list Z :=
  match n with
  | O => []
  | S n => to_words 128 (sector i) ++ sectors n (i + 1)
  end.

(** A count of 0 asks for 256 sectors. *)
Definition wanted (d : disk) : nat := if count d =? 0 then 256 else Z.to_nat (count d).

Definition command (v : Z) (d : disk) : disk :=
  if v =? 0x20 then
    match words d with
    | [] => Disk (count d) (low d) (mid d) (high d) (drive d) (sectors (wanted d) (lba d)) delay
    | _ :: _ => d
    end
  else d.

#[export] Instance controller : Device disk := {
  d_out p v d :=
    if negb (busy d =? 0)%nat then d
    else if p =? 0x1F2 then Disk v (low d) (mid d) (high d) (drive d) (words d) (busy d)
    else if p =? 0x1F3 then Disk (count d) v (mid d) (high d) (drive d) (words d) (busy d)
    else if p =? 0x1F4 then Disk (count d) (low d) v (high d) (drive d) (words d) (busy d)
    else if p =? 0x1F5 then Disk (count d) (low d) (mid d) v (drive d) (words d) (busy d)
    else if p =? 0x1F6 then Disk (count d) (low d) (mid d) (high d) v (words d) (busy d)
    else if p =? 0x1F7 then command v d
    else d;
  d_in p d :=
    if p =? 0x1F7 then
      (if (busy d =? 0)%nat then 0x40 else 0x80,
       Disk (count d) (low d) (mid d) (high d) (drive d) (words d) (pred (busy d)))
    else if (p =? 0x1F0) && (busy d =? 0)%nat then
      match words d with
      | [] => (0, d)
      | w :: ws => (w, Disk (count d) (low d) (mid d) (high d) (drive d) ws (busy d))
      end
    else (0, d);
  d_st n a v d := d;
  d_ld a d := (0, d);
  d_print w d := d;
}.

(** The disk once it is no longer busy. *)
Definition rested (d : disk) : disk := Disk (count d) (low d) (mid d) (high d) (drive d) (words d) 0.

Lemma waitdisk_ok d n : (busy d < n)%nat -> run (waitdisk n) d = (Done tt, rested d).
Proof using Type.
  revert d. induction n as [|n IH]; intros d Hb; [lia|]. cbn [waitdisk].
  unfold inb. cbn [mbind io_bind run d_in controller]. change (0x1F7 =? 0x1F7) with true. cbv iota.
  destruct (Nat.eqb_spec (busy d) 0) as [H0|H0].
  - change (negb (0x40 .& 0xC0 =? 0x40)) with false. cbn. by rewrite H0.
  - change (negb (0x80 .& 0xC0 =? 0x40)) with true. cbv iota. rewrite IH; [done|]. cbn. lia.
Qed.

Lemma stores_app m a l1 l2 : stores m a (l1 ++ l2) = stores (stores m a l1) (a + Z.of_nat (length l1)) l2.
Proof using Type.
  revert m a. induction l1 as [|x l1 IH]; intros m a; cbn [app stores length].
  - by rewrite Z.add_0_r.
  - rewrite IH. f_equal. lia.
Qed.

Definition with_words (ws : list Z) (d : disk) : disk := Disk (count d) (low d) (mid d) (high d) (drive d) ws (busy d).

Lemma insl_ok n l a m d :
  busy d = 0%nat -> words d = to_words n l -> length l = (4 * n)%nat -> Forall (field_ok 8) l -> 0 <= a -> a + 4 * Z.of_nat n < 2 ^ 32 ->
  run (insl 0x1F0 a n m) d = (Done (stores m a l), with_words [] d).
Proof using Type.
  revert l a m d. induction n as [|n IH]; intros l a m d Hb Hd Hl Hok Ha Hw; cbn [insl].
  - destruct l; [|done]. cbn in Hd. destruct d. cbn in Hd. by subst.
  - unfold inb. cbn [mbind io_bind run d_in controller]. change (0x1F0 =? 0x1F7) with false. change (0x1F0 =? 0x1F0) with true. cbv iota.
    rewrite Hb, Hd. cbn [andb Nat.eqb]. cbn [to_words]. rewrite u32_id by lia.
    rewrite (IH (drop 4 l)); [|done|done|rewrite length_drop; lia|by apply Forall_drop|lia|lia].
    f_equal; [|unfold with_words; cbn; by rewrite Hb]. f_equal. unfold store32.
    pose proof (unpack_pack 8 ltac:(lia) (take 4 l) (Forall_take _ _ _ Hok)) as E.
    rewrite length_take, Nat.min_l in E by lia. rewrite E.
    rewrite <- (take_drop 4 l) at 3. rewrite stores_app, length_take, Nat.min_l by lia. done.
Qed.

Lemma sector_lba off : 0 <= off < 2 ^ 28 ->
  u8 off + 2 ^ 8 * u8 (off >>u 8) + 2 ^ 16 * u8 (off >>u 16) + 2 ^ 24 * (u8 ((off >>u 24) .| 0xE0) mod 16) = off.
Proof using Type.
  clear sector delay. intros Ho. rewrite !Z.shiftr_div_pow2 by lia.
  assert (E : (off / 2 ^ 24) .| 0xE0 = off / 2 ^ 24 + 14 * 2 ^ 4).
  { change 0xE0 with (Z.shiftl 14 4). apply lor_shiftl_add; dlia. }
  rewrite E. unfold u8. dlia.
Qed.

(** The command of [readsect], as the controller takes it. *)
Definition asked (off : Z) (d : disk) : disk :=
  Disk 1 (u8 off) (u8 (off >>u 8)) (u8 (off >>u 16)) (u8 ((off >>u 24) .| 0xE0)) (words d) (busy d).

Lemma command_taken off d : 0 <= off < 2 ^ 28 -> words d = [] ->
  command 0x20 (asked off d) = with_words (to_words 128 (sector off)) (Disk 1 (u8 off) (u8 (off >>u 8)) (u8 (off >>u 16)) (u8 ((off >>u 24) .| 0xE0)) [] delay).
Proof using Type.
  intros Ho Hw. unfold command, asked, with_words. cbn [words]. rewrite Hw. change (0x20 =? 0x20) with true. cbv iota.
  cbn [count low mid high drive busy]. unfold wanted, lba. cbn [count low mid high drive].
  rewrite sector_lba by done. change (if 1 =? 0 then 256%nat else Z.to_nat 1) with 1%nat. cbn [sectors].
  by rewrite app_nil_r.
Qed.

Context (fuel : nat).
Hypothesis Hfuel : (delay < fuel)%nat.
Hypothesis Hsector : forall i, length (sector i) = 512%nat /\ Forall (field_ok 8) (sector i).

(** Between sectors: soon ready, with no data left. *)
Definition idle (d : disk) : Prop := (busy d < fuel)%nat /\ words d = [].

Lemma readsect_ok m dst off d :
  idle d -> 0 <= off < 2 ^ 28 -> 0 <= dst -> dst + 512 < 2 ^ 32 ->
  exists d', run (readsect fuel m dst off) d = (Done (stores m dst (sector off)), d') /\ idle d'.
Proof using All.
  intros [Hb Hws] Ho Hd Hw. unfold readsect.
  rewrite (run_seq _ _ _ _ _ (waitdisk_ok d fuel Hb)).
  do 6 (erewrite run_seq; [|done]).
  change (d_out 0x1F7 0x20 _) with (command 0x20 (asked off (rested d))). rewrite command_taken by done.
  erewrite run_seq; [|apply waitdisk_ok; exact Hfuel]. cbn [with_words rested count low mid high drive words busy].
  destruct (Hsector off) as [Hl Hok].
  eexists. split; [apply insl_ok; try done; cbn; lia|]. split; [cbn; lia|done].
Qed.

(** ** Reading a piece of the image *)

(** Byte [a] of the kernel's image, which starts at sector 1. *)
Definition image (a : Z) : Z := sector (a / 512 + 1) !!! Z.to_nat (a mod 512).

(** Memory [m'] is [m] with the image from [off] at the addresses from [lo] up to [hi]. *)
Definition loaded (m m' : mem) (lo hi off : Z) : Prop :=
  forall x, load8 m' x = if (lo <=? x) && (x <? hi) then image (x - lo + off) else load8 m x.

Lemma image_byte a : 0 <= image a < 256.
Proof using All.
  unfold image. destruct (Hsector (a / 512 + 1)) as [Hl Hok].
  destruct (lookup_lt_is_Some_2 (sector (a / 512 + 1)) (Z.to_nat (a mod 512)) ltac:(dlia)) as [b Hb].
  rewrite (list_lookup_total_correct _ _ _ Hb). exact (Forall_lookup_1 _ _ _ _ Hok Hb).
Qed.

Lemma loaded_sector m pa i : 0 <= i -> loaded m (stores m pa (sector (i + 1))) pa (pa + 512) (512 * i).
Proof using All.
  intros Hi x. destruct (Hsector (i + 1)) as [Hl _]. rewrite load8_stores, Hl.
  change (Z.of_nat 512) with 512. destruct ((pa <=? x) && (x <? pa + 512)) eqn:E; [|done].
  apply andb_true_iff in E as [E1 E2].
  apply Z.leb_le in E1. apply Z.ltb_lt in E2.
  assert (Ei : image (x - pa + 512 * i) = sector (i + 1) !!! Z.to_nat (x - pa)).
  { unfold image. replace ((x - pa + 512 * i) / 512) with i by dlia.
    by replace ((x - pa + 512 * i) mod 512) with (x - pa) by dlia. }
  rewrite Ei. apply u8_id. rewrite <- Ei. apply image_byte.
Qed.

Lemma loaded_app m1 m2 m3 lo mid_ hi off :
  loaded m1 m2 lo mid_ off -> loaded m2 m3 mid_ hi (off + (mid_ - lo)) -> lo <= mid_ <= hi -> loaded m1 m3 lo hi off.
Proof using All.
  intros H1 H2 Hle x. rewrite H2, H1.
  zcase; cbn [andb]; try lia; try done. f_equal. lia.
Qed.

(** The end of the sectors that cover the bytes up to [epa], from [pa]. *)
Definition sectors_end (pa epa : Z) : Z := pa + 512 * ((epa - pa + 511) / 512).

Lemma read_sectors_ok n m pa epa i d :
  idle d -> 0 <= pa -> pa < epa + 512 -> epa + 1024 < 2 ^ 32 -> epa - pa <= 512 * (Z.of_nat n - 1) ->
  0 <= i -> i + (epa - pa + 511) / 512 < 2 ^ 28 ->
  exists m' d', run (read_sectors fuel n m pa epa (i + 1)) d = (Done m', d') /\ idle d' /\
    loaded m m' pa (sectors_end pa epa) (512 * i).
Proof using All.
  revert m pa i d. induction n as [|n IH]; intros m pa i d Hb Hpa Hlt Hw Hn Hi Hin; [lia|]. cbn [read_sectors].
  destruct (Z.ltb_spec pa epa) as [Hpe|Hpe]; cbn [negb].
  - destruct (readsect_ok m pa (i + 1) d Hb) as (d1 & Hr & Hb1); try lia.
    { dlia. }
    rewrite (run_seq _ _ _ _ _ Hr). unfold SECTSIZE. rewrite !u32_id by dlia.
    destruct (IH (stores m pa (sector (i + 1))) (pa + 512) (i + 1) d1 Hb1) as (m' & d' & Hr' & Hb' & Hl); try lia; [dlia|].
    exists m', d'. split; [done|]. split; [done|].
    apply (loaded_app _ _ _ _ (pa + 512) _ _ (loaded_sector m pa i Hi)).
    + unfold sectors_end in *. replace (pa + 512 * ((epa - pa + 511) / 512)) with (pa + 512 + 512 * ((epa - (pa + 512) + 511) / 512)) by dlia.
      by replace (512 * i + (pa + 512 - pa)) with (512 * (i + 1)) by lia.
    + unfold sectors_end. dlia.
  - exists m, d. split; [done|]. split; [done|]. intros x. unfold sectors_end.
    replace ((epa - pa + 511) / 512) with 0 by dlia. zcase; simpl; done || lia.
Qed.

(** [readseg] leaves the bytes asked for at [pa], and the rest of the sectors around them. *)
Lemma readseg_ok m pa count off d :
  idle d -> 0 <= count -> 0 <= off -> off mod 512 <= pa -> pa + count + 1024 < 2 ^ 32 ->
  off + count + 1024 < 2 ^ 32 ->
  exists m' d', run (readseg fuel m pa count off) d = (Done m', d') /\ idle d' /\
    loaded m m' (pa - off mod 512) (sectors_end (pa - off mod 512) (pa + count)) (off / 512 * 512).
Proof using All.
  intros Hb Hc Ho Hpa Hw Hoff. unfold readseg, SECTSIZE. rewrite !u32_id by dlia.
  destruct (read_sectors_ok (Z.to_nat (count / 512 + 3)) m (pa - off mod 512) (pa + count) (off / 512) d)
    as (m' & d' & Hr & Hb' & Hl); try done; try dlia.
  exists m', d'. split; [done|]. split; [done|]. by rewrite (Z.mul_comm (off / 512)).
Qed.

Lemma loaded_inside m m' lo hi off x :
  loaded m m' lo hi off -> lo <= x < hi -> load8 m' x = image (x - lo + off).
Proof using All. intros H Hx. rewrite H. zcase; simpl; done || lia. Qed.

Lemma loaded_outside m m' lo hi off x :
  loaded m m' lo hi off -> ~ lo <= x < hi -> load8 m' x = load8 m x.
Proof using All. intros H Hx. rewrite H. zcase; simpl; done || lia. Qed.

(** ** The image's segments *)

(** An [n]-byte integer of the image. *)
Definition im (n : nat) (a : Z) : Z := le_val (map image (seqZ a (Z.of_nat n))).

Record seg := Seg { s_off : Z; s_paddr : Z; s_filesz : Z; s_memsz : Z }.

Definition seg_at (j : Z) : seg :=
  let h := im 4 28 + 32 * j in Seg (im 4 (h + 4)) (im 4 (h + 12)) (im 4 (h + 16)) (im 4 (h + 20)).

Definition segments : Z := im 2 44.

Definition s_size (g : seg) : Z := Z.max (s_filesz g) (s_memsz g).

(** All the memory that loading a segment writes: whole sectors. *)
Definition s_lo (g : seg) : Z := s_paddr g - s_off g mod 512.
Definition s_hi (g : seg) : Z := Z.max (sectors_end (s_lo g) (s_paddr g + s_filesz g)) (s_paddr g + s_memsz g).

Definition disjoint_ranges (a b c d : Z) : Prop := b <= c \/ d <= a.

(** The segments fit the machine, none is loaded over the loader's copy of the headers, and
    what comes with a later one stays clear of the earlier ones. *)
Record loadable : Prop := {
  headers_fit : im 4 28 + 32 * segments <= 4096;
  segs_fit : forall j, 0 <= j < segments -> let g := seg_at j in
    s_off g mod 512 <= s_paddr g /\ s_paddr g + s_size g + 1024 < 2 ^ 32 /\ s_off g + s_filesz g + 1024 < 2 ^ 32 /\
    disjoint_ranges (s_lo g) (s_hi g) scratch (scratch + 4096);
  segs_order : forall i j, 0 <= i < j -> j < segments ->
    disjoint_ranges (s_paddr (seg_at i)) (s_paddr (seg_at i) + s_size (seg_at i)) (s_lo (seg_at j)) (s_hi (seg_at j));
}.

(** A segment is in memory: its bytes of the file, then zeros. *)
Definition in_place (m : mem) (g : seg) : Prop :=
  forall x, 0 <= x < s_size g -> load8 m (s_paddr g + x) = if x <? s_filesz g then image (s_off g + x) else 0.

Definition has_headers (m : mem) : Prop := forall x, 0 <= x < 4096 -> load8 m (scratch + x) = image x.

Lemma load_im m n a b :
  (forall i, 0 <= i < Z.of_nat n -> load8 m (a + i) = image (b + i)) -> le_val (loads m a n) = im n b.
Proof using All.
  intros H. unfold im. f_equal. apply list_eq. intros i. destruct (decide (i < n)%nat).
  - rewrite lookup_loads, H, list_lookup_fmap, lookup_seqZ_lt by lia. done.
  - rewrite !lookup_ge_None_2; [done|rewrite ?length_map, ?length_seqZ, ?length_loads; lia..].
Qed.

Lemma header_field m n b : has_headers m -> 0 <= b -> b + Z.of_nat n <= 4096 -> le_val (loads m (scratch + b) n) = im n b.
Proof using All. intros Hm Hb Hn. apply load_im. intros i Hi. rewrite <- Z.add_assoc. apply Hm. lia. Qed.

Lemma im_range n a : 0 <= im n a < 2 ^ (8 * Z.of_nat n).
Proof using All.
  unfold im. assert (Hok : Forall (field_ok 8) (map image (seqZ a (Z.of_nat n)))).
  { apply Forall_forall. intros x Hx. apply list_elem_of_fmap in Hx as (y & -> & _). apply image_byte. }
  pose proof (pack_range 8 ltac:(lia) _ Hok) as H. rewrite length_map, length_seqZ, Nat2Z.id in H. done.
Qed.

Lemma seg_range j : let g := seg_at j in
  0 <= s_off g < 2 ^ 32 /\ 0 <= s_paddr g < 2 ^ 32 /\ 0 <= s_filesz g < 2 ^ 32 /\ 0 <= s_memsz g < 2 ^ 32.
Proof using All. cbn. repeat split; apply (im_range 4). Qed.

(** What the loader reads of a program header. *)
Lemma read_header m j :
  has_headers m -> loadable -> 0 <= j < segments ->
  let ph := scratch + im 4 28 + 32 * j in let g := seg_at j in
  ph_off m ph = s_off g /\ ph_paddr m ph = s_paddr g /\ ph_filesz m ph = s_filesz g /\ ph_memsz m ph = s_memsz g.
Proof using All.
  intros Hm Hl Hj ph g. pose proof (headers_fit Hl) as Hf. pose proof (im_range 4 28) as Hr.
  assert (H : forall o, 0 <= o <= 28 -> load32 m (ph + o) = im 4 (im 4 28 + 32 * j + o)).
  { intros o Ho. unfold load32, ph. replace (scratch + im 4 28 + 32 * j + o) with (scratch + (im 4 28 + 32 * j + o)) by lia.
    apply header_field; [done|lia|lia]. }
  unfold ph_off, ph_paddr, ph_filesz, ph_memsz, g, seg_at. cbn [s_off s_paddr s_filesz s_memsz].
  rewrite !H by lia. done.
Qed.

(** One round of the loop. *)
Lemma load_one m j d n eph :
  has_headers m -> loadable -> 0 <= j < segments -> idle d ->
  let ph := scratch + im 4 28 + 32 * j in let g := seg_at j in ph < eph ->
  exists m' d', run (load_each fuel (S n) m ph eph) d = run (load_each fuel n m' (ph + 32) eph) d' /\
    idle d' /\ in_place m' g /\ (forall x, ~ s_lo g <= x < s_hi g -> load8 m' x = load8 m x).
Proof using All.
  intros Hm Hl Hj Hb ph g Hlt. destruct (segs_fit Hl j Hj) as (H1 & H2 & H3 & H4). fold g in H1, H2, H3, H4.
  pose proof (seg_range j) as (R1 & R2 & R3 & R4). fold g in R1, R2, R3, R4.
  destruct (read_header m j Hm Hl Hj) as (E1 & E2 & E3 & E4). fold ph g in E1, E2, E3, E4.
  cbn [load_each]. rewrite (proj2 (Z.ltb_lt ph eph) Hlt). cbn [negb]. rewrite E1, E2, E3.
  unfold s_size in *.
  destruct (readseg_ok m (s_paddr g) (s_filesz g) (s_off g) d Hb) as (m1 & d1 & Hr & Hb1 & Hld); try lia.
  rewrite (run_seq _ _ _ _ _ Hr). fold (s_lo g) in Hld.
  assert (Hm1 : has_headers m1).
  { intros x Hx. rewrite (loaded_outside _ _ _ _ _ _ Hld); [by apply Hm|].
    unfold disjoint_ranges, s_hi in H4. lia. }
  destruct (read_header m1 j Hm1 Hl Hj) as (_ & _ & E3' & E4'). fold ph g in E3', E4'. rewrite E3', E4'.
  pose proof (headers_fit Hl) as Hfit. pose proof (im_range 4 28) as Rh.
  unfold sizeof_proghdr. rewrite (u32_id (ph + 32)) by (unfold ph, scratch; lia).
  do 2 eexists. split; [reflexivity|]. split; [exact Hb1|].
  assert (Hcov : s_paddr g + s_filesz g <= sectors_end (s_lo g) (s_paddr g + s_filesz g)) by (unfold sectors_end, s_lo; dlia).
  assert (Hlo : s_lo g <= s_paddr g) by (unfold s_lo; dlia).
  split; intros x Hx.
  - destruct (Z.ltb_spec x (s_filesz g)) as [Hxf|Hxf].
    + assert (Hin : load8 m1 (s_paddr g + x) = image (s_off g + x)).
      { rewrite (loaded_inside _ _ _ _ _ _ Hld) by lia. f_equal. unfold s_lo. dlia. }
      rewrite <- Hin. case_match; [|done]. rewrite StringC.load8_stosb, u32_id by lia.
      by rewrite (proj2 (Z.leb_gt _ _)) by lia.
    + unfold s_size in Hx. rewrite (proj2 (Z.ltb_lt (s_filesz g) (s_memsz g))) by lia.
      rewrite StringC.load8_stosb, u32_id by lia.
      by rewrite (proj2 (Z.leb_le _ _)), (proj2 (Z.ltb_lt _ _)) by lia.
  - unfold s_hi in Hx. rewrite <- (loaded_outside _ _ _ _ _ x Hld) by lia.
    destruct (Z.ltb_spec (s_filesz g) (s_memsz g)); [|done]. rewrite StringC.load8_stosb, u32_id by lia.
    zcase; cbn [andb]; done || lia.
Qed.

(** The loop. *)
Lemma load_each_ok n m j d eph :
  has_headers m -> loadable -> 0 <= j -> j + Z.of_nat n = segments -> idle d ->
  eph = scratch + im 4 28 + 32 * segments -> (forall i, 0 <= i < j -> in_place m (seg_at i)) ->
  exists m' d', run (load_each fuel n m (scratch + im 4 28 + 32 * j) eph) d = (Done m', d') /\ idle d' /\
    has_headers m' /\ (forall i, 0 <= i < segments -> in_place m' (seg_at i)) /\
    (forall x, (forall i, 0 <= i < segments -> ~ s_lo (seg_at i) <= x < s_hi (seg_at i)) -> load8 m' x = load8 m x).
Proof using All.
  revert m j d. induction n as [|n IH]; intros m j d Hm Hl Hj Hn Hb He Hdone.
  - exists m, d. split; [done|]. split; [done|]. split; [done|]. split; [|done]. intros i Hi. apply Hdone. lia.
  - destruct (load_one m j d n eph Hm Hl ltac:(lia) Hb ltac:(lia)) as (m1 & d1 & Hr & Hb1 & Hin & Hout).
    pose proof (segs_fit Hl j ltac:(lia)) as (_ & _ & _ & Hscr).
    destruct (IH m1 (j + 1) d1) as (m' & d' & Hr' & Hi' & Hh & Hall & Hrest); try done; try lia.
    + intros x Hx. rewrite Hout; [by apply Hm|]. unfold disjoint_ranges in Hscr. lia.
    + intros i Hi. destruct (Z.eq_dec i j) as [->|Hne]; [done|]. intros x Hx.
      rewrite Hout; [by apply Hdone; [lia|]|].
      pose proof (segs_order Hl i j ltac:(lia) ltac:(lia)) as Hd. unfold disjoint_ranges in Hd. lia.
    + exists m', d'. split; [rewrite Hr, <- Hr'; do 2 f_equal; lia|]. split; [done|]. split; [done|]. split; [done|].
      intros x Hx. rewrite Hrest by done. apply Hout. apply Hx. lia.
Qed.

Lemma load_scratch m d :
  idle d -> exists m' d', run (readseg fuel m scratch 4096 0) d = (Done m', d') /\ idle d' /\
    has_headers m' /\ (forall x, ~ scratch <= x < scratch + 4096 -> load8 m' x = load8 m x).
Proof using All.
  intros Hb. destruct (readseg_ok m scratch 4096 0 d) as (m' & d' & Hr & Hb' & Hl);
    [exact Hb|lia|lia|change (0 mod 512) with 0; unfold scratch; lia|unfold scratch; lia|lia|].
  exists m', d'. split; [done|]. split; [done|]. change (0 mod 512) with 0 in Hl. rewrite Z.sub_0_r in Hl.
  change (sectors_end scratch (scratch + 4096)) with (scratch + 4096) in Hl. split; intros x Hx.
  - rewrite (loaded_inside _ _ _ _ _ _ Hl) by lia. f_equal. change (0 / 512 * 512) with 0. lia.
  - apply (loaded_outside _ _ _ _ _ _ Hl Hx).
Qed.

Lemma bootmain_ok m d :
  idle d -> loadable -> im 4 0 = ELF_MAGIC ->
  exists m' d', run (bootmain fuel m) d = (Done (m', Some (im 4 24)), d') /\ idle d' /\
    (forall i, 0 <= i < segments -> in_place m' (seg_at i)) /\
    (forall x, ~ scratch <= x < scratch + 4096 ->
       (forall i, 0 <= i < segments -> ~ s_lo (seg_at i) <= x < s_hi (seg_at i)) -> load8 m' x = load8 m x).
Proof using All.
  intros Hb Hl Hmag. unfold bootmain. destruct (load_scratch m d Hb) as (m1 & d1 & Hr & Hb1 & Hh & Hout).
  rewrite (run_seq _ _ _ _ _ Hr).
  assert (E : load32 m1 scratch = im 4 0).
  { unfold load32. rewrite <- (Z.add_0_r scratch). by apply header_field. }
  rewrite E, Hmag. change (negb (ELF_MAGIC =? ELF_MAGIC)) with false. cbv iota.
  pose proof (headers_fit Hl) as Hfit. pose proof (im_range 4 28) as R1. pose proof (im_range 2 44) as R2. fold segments in R2.
  assert (E1 : elf_phoff m1 scratch = im 4 28) by (unfold elf_phoff, load32; by apply header_field).
  assert (E2 : elf_phnum m1 scratch = segments) by (unfold elf_phnum; by apply header_field).
  rewrite E1, E2. unfold sizeof_proghdr. rewrite !u32_id by (unfold scratch; lia).
  destruct (load_each_ok (Z.to_nat segments) m1 0 d1 (scratch + im 4 28 + segments * 32)) as (m' & d' & Hr' & Hi' & Hh' & Hall & Hrest);
    try done; try lia.
  rewrite Z.mul_0_r, Z.add_0_r in Hr'. rewrite (run_seq _ _ _ _ _ Hr').
  assert (E3 : elf_entry m' scratch = im 4 24) by (unfold elf_entry, load32; by apply header_field).
  exists m', d'. rewrite E3. split; [done|]. split; [done|]. split; [done|]. intros x Hx1 Hx2. rewrite Hrest by done. by apply Hout.
Qed.

Lemma bootmain_bad m d :
  idle d -> im 4 0 <> ELF_MAGIC -> exists m' d', run (bootmain fuel m) d = (Done (m', None), d') /\ idle d'.
Proof using All.
  intros Hb Hmag. unfold bootmain. destruct (load_scratch m d Hb) as (m1 & d1 & Hr & Hb1 & Hh & Hout).
  rewrite (run_seq _ _ _ _ _ Hr).
  assert (E : load32 m1 scratch = im 4 0).
  { unfold load32. rewrite <- (Z.add_0_r scratch). by apply header_field. }
  rewrite E, (proj2 (Z.eqb_neq _ _) Hmag). by do 2 eexists.
Qed.
End Disk.


(** An image of two segments: 700 bytes of code at 1 MB, and data with a bss in the middle of a
    page. *)
Definition tiny_bytes : list Z :=
  le_bytes 4 ELF_MAGIC ++ replicate 20 0 ++ le_bytes 4 0x10000C ++ le_bytes 4 52 ++ replicate 12 0 ++ le_bytes 2 2 ++
  replicate 6 0 ++
  le_bytes 4 1 ++ le_bytes 4 4096 ++ le_bytes 4 0x80100000 ++ le_bytes 4 0x100000 ++ le_bytes 4 700 ++ le_bytes 4 700 ++
  replicate 8 0 ++
  le_bytes 4 1 ++ le_bytes 4 5120 ++ le_bytes 4 0x80100400 ++ le_bytes 4 0x100400 ++ le_bytes 4 100 ++ le_bytes 4 9000 ++
  replicate 8 0.

(** Past the headers, byte [a] of the image is [a] modulo 251. *)
Definition tiny_sector (i : Z) : list Z :=
  map (fun j => let a := 512 * (i - 1) + j in
                if a <? 0 then 0 else match tiny_bytes !! Z.to_nat a with Some b => b | None => a mod 251 end) (seqZ 0 512).

Lemma tiny_sectors i : length (tiny_sector i) = 512%nat /\ Forall (field_ok 8) (tiny_sector i).
Proof.
  split; [unfold tiny_sector; by rewrite length_map, length_seqZ|]. apply Forall_forall. intros x Hx.
  apply list_elem_of_fmap in Hx as (j & -> & _). cbv zeta. unfold field_ok.
  destruct (_ <? 0); [lia|]. destruct (tiny_bytes !! _) as [b|] eqn:E.
  - assert (H : Forall (field_ok 8) tiny_bytes) by (unfold tiny_bytes; rewrite !Forall_app; repeat split; try apply unpack_ok; try lia; apply Forall_replicate; unfold field_ok; lia).
    exact (Forall_lookup_1 _ _ _ _ H E).
  - dlia.
Qed.

Lemma tiny_loadable : loadable tiny_sector.
Proof.
  assert (E0 : seg_at tiny_sector 0 = Seg 4096 0x100000 700 700) by (vm_compute; reflexivity).
  assert (E1 : seg_at tiny_sector 1 = Seg 5120 0x100400 100 9000) by (vm_compute; reflexivity).
  assert (E2 : segments tiny_sector = 2) by (vm_compute; reflexivity).
  split.
  - vm_compute. congruence.
  - intros j Hj. rewrite E2 in Hj. assert (j = 0 \/ j = 1) as [-> | ->] by lia; [rewrite E0|rewrite E1];
      vm_compute; intuition congruence.
  - intros i j Hi Hj. rewrite E2 in Hj. assert (i = 0 /\ j = 1) as [-> ->] by lia. rewrite E0, E1.
    vm_compute. intuition congruence.
Qed.


End Boot.
