(* ===== verification/Grep.v ===== *)
(** * grep (grep.c): the regular-expression matcher and the line buffer

    A NUL-terminated C string is the list of its non-NUL characters; reading its
    terminator is reaching the end of the list. *)

From S2P Require Import Prelude.

Module Grep.

Section Matchstar.
(** [matchhere re], for the expression that follows the star. *)
Context (matchhere_re : list Z -> bool).

(** [do { if(matchhere(re, text)) return 1; } while( *text != 0 && ( *text++ == c || c == '.'));] *)
Fixpoint matchstar (c : Z) (text : list Z) : bool :=
  if matchhere_re text then true
  else match text with
       | [] => false
       | t :: text => if (t =? c) || (c =? ch ".") then matchstar c text else false
       end.
End Matchstar.

Fixpoint matchhere (re text : list Z) : bool :=
  match re with
  | [] => true
  | c :: re1 =>
      match re1 with
      | s :: re2 =>
          if s =? ch "*" then matchstar (matchhere re2) c text
          else match text with
               | t :: text => if (c =? ch ".") || (c =? t) then matchhere re1 text else false
               | [] => false
               end
      | [] =>
          if c =? ch "$" then match text with [] => true | _ => false end
          else match text with
               | t :: text => if (c =? ch ".") || (c =? t) then matchhere re1 text else false
               | [] => false
               end
      end
  end.

(** [do { if(matchhere(re, text)) return 1; } while( *text++ != 0);] *)
Fixpoint match_any (re text : list Z) : bool :=
  if matchhere re text then true
  else match text with [] => false | _ :: text => match_any re text end.

Definition match_ (re text : list Z) : bool :=
  match re with
  | c :: re' => if c =? ch "^" then matchhere re' text else match_any re text
  | [] => match_any re text
  end.

(** The newline [strchr(p, '\n')] finds, unless a NUL of the file comes first: the text
    before it and after it. *)
Fixpoint split_line (p : list Z) : option (list Z * list Z) :=
  match p with
  | [] => None
  | c :: p =>
      if c =? 10 then Some ([], p)
      else if c =? 0 then None
      else '(line, rest) ← split_line p; Some (c :: line, rest)
  end.

(** The inner loop over the complete lines of the buffer: what is written, and [p]. *)
Fixpoint grep_lines (pattern : list Z) (fuel : nat) (p : list Z) : list Z * list Z :=
  match fuel with
  | O => ([], p)
  | S fuel =>
      match split_line p with
      | None => ([], p)
      | Some (line, rest) =>
          let '(out, p) := grep_lines pattern fuel rest in
          ((if match_ pattern line then line ++ [10] else []) ++ out, p)
      end
  end.

(** The outer loop. [buf] holds the [m] bytes kept from the last round, [input] what
    the file has left and [sizes] how much each [read] is able to return. *)
Fixpoint grep (pattern buf input : list Z) (sizes : list nat) : list Z :=
  match sizes with
  | [] => []
  | k :: sizes =>
      let n := Nat.min k (1024 - length buf - 1) in
      match take n input with
      | [] => []
      | chunk =>
          let buf := buf ++ chunk in
          let '(out, p) := grep_lines pattern (length buf) buf in
          let keep := if (length p =? length buf)%nat then [] else p in
          out ++ grep pattern keep (drop n input) sizes
      end
  end.

(** ** The language of an expression *)

(** Character [a] is matched by the pattern character [c]. *)
Definition cmatch (c a : Z) : Prop := c = ch "." \/ a = c.

(** [here re text]: a prefix of [text] is in the language of [re]. *)
Inductive here : list Z -> list Z -> Prop :=
| here_nil text : here [] text
| here_star c re run text :
    Forall (cmatch c) run -> here re text -> here (c :: ch "*" :: re) (run ++ text)
| here_end : here [ch "$"] []
| here_char c re a text :
    head re <> Some (ch "*") -> (c :: re) <> [ch "$"] -> cmatch c a ->
    here re text -> here (c :: re) (a :: text).

Lemma matchstar_spec mh c text :
  matchstar mh c text = true <->
  exists run rest, text = run ++ rest /\ Forall (cmatch c) run /\ mh rest = true.
Proof.
  induction text as [|t text IH]; simpl.
  - destruct (mh []) eqn:E.
    + split; [|done]. intros _. exists [], []. auto.
    + split; [done|]. intros ([|] & rest & Hr & _ & H); [|done]. simpl in Hr. congruence.
  - destruct (mh (t :: text)) eqn:E.
    + split; [|done]. intros _. exists [], (t :: text). auto.
    + assert (Hc : ((t =? c) || (c =? ch ".")) = true <-> cmatch c t).
      { rewrite orb_true_iff, !Z.eqb_eq. unfold cmatch. tauto. }
      destruct ((t =? c) || (c =? ch ".")); split; intros H.
      * apply IH in H as (run & rest & -> & Hrun & Hm).
        exists (t :: run), rest. split; [done|]. split; [|done]. constructor; [|done]. by apply Hc.
      * apply IH. destruct H as (run & rest & Heq & Hrun & Hm).
        destruct run as [|x run]; simpl in Heq; [congruence|]. injection Heq as -> ->.
        apply Forall_cons in Hrun as [_ Hrun]. eauto.
      * done.
      * destruct H as (run & rest & Heq & Hrun & Hm).
        destruct run as [|x run]; simpl in Heq; [congruence|]. injection Heq as -> ->.
        apply Forall_cons in Hrun as [Hx _]. by apply Hc in Hx.
Qed.

Lemma cmatch_bool c t : ((c =? ch ".") || (c =? t)) = true <-> cmatch c t.
Proof. rewrite orb_true_iff, !Z.eqb_eq. unfold cmatch. split; intros [|]; auto. Qed.

Lemma plain_char c re text :
  head re <> Some (ch "*") -> (c :: re) <> [ch "$"] ->
  (forall t, matchhere re t = true <-> here re t) ->
  match text with
  | t :: text => if (c =? ch ".") || (c =? t) then matchhere re text else false
  | [] => false
  end = true <-> here (c :: re) text.
Proof.
  intros Hh Hd IH. destruct text as [|t text].
  - split; [done|]. inversion 1 as [|? ? run ? ? ? Heq| |]; subst; done.
  - pose proof (cmatch_bool c t) as Hc.
    destruct ((c =? ch ".") || (c =? t)) eqn:E.
    + rewrite IH. split; intros H.
      * constructor; try done. by apply Hc.
      * inversion H; subst; done.
    + split; [done|]. intros H. inversion H; subst; try done. by apply Hc.
Qed.

Lemma matchhere_spec re text : matchhere re text = true <-> here re text.
Proof.
  revert text. remember (length re) as n eqn:Hn. revert re Hn.
  induction (lt_wf n) as [n _ IH]. intros re -> text.
  destruct re as [|c [|s re2]]; simpl.
  - split; [constructor|done].
  - destruct (Z.eqb_spec c (ch "$")) as [->|Hc].
    + destruct text.
      * split; [constructor|done].
      * split; [done|]. inversion 1; subst; done.
    + apply (plain_char c []); [done|congruence|].
      intros t. apply (IH 0%nat); simpl; lia || done.
  - destruct (Z.eqb_spec s (ch "*")) as [->|Hs].
    + rewrite matchstar_spec. split.
      * intros (run & rest & -> & Hrun & Hm). constructor; [done|].
        apply (IH (length re2)) in Hm; simpl; lia || done.
      * inversion 1 as [|? ? run rest Hrun Hm| |]; subst; [|done].
        exists run, rest. split; [done|]. split; [done|].
        apply (IH (length re2)); simpl; lia || done.
    + apply (plain_char c (s :: re2)); [simpl; congruence|done|].
      intros t. apply (IH (length (s :: re2))); simpl; lia || done.
Qed.

Lemma match_any_spec re text :
  match_any re text = true <-> exists pre suf, text = pre ++ suf /\ here re suf.
Proof.
  induction text as [|t text IH]; simpl.
  - pose proof (matchhere_spec re []) as Hm. destruct (matchhere re []).
    + split; [|done]. intros _. exists [], []. split; [done|]. by apply Hm.
    + split; [done|]. intros (pre & suf & Heq & H).
      symmetry in Heq. apply app_nil in Heq as [-> ->]. by apply Hm.
  - pose proof (matchhere_spec re (t :: text)) as Hm. destruct (matchhere re (t :: text)).
    + split; [|done]. intros _. exists [], (t :: text). split; [done|]. by apply Hm.
    + rewrite IH. split.
      * intros (pre & suf & -> & H). by exists (t :: pre), suf.
      * intros ([|x pre] & suf & Heq & H); simpl in Heq.
        -- subst suf. apply Hm in H. done.
        -- injection Heq as -> ->. eauto.
Qed.

(** C39: [match] accepts a line exactly when its expression matches at the start
    of the line (after [^]) or somewhere in it, by the language of [. * $]. *)
Theorem match_correct (re text : list Z) :
  match_ re text = true <->
  if bool_decide (head re = Some (ch "^")) then here (tail re) text
  else exists pre suf, text = pre ++ suf /\ here re suf.
Proof.
  unfold match_. destruct re as [|c re]; simpl.
  - apply match_any_spec.
  - destruct (Z.eqb_spec c (ch "^")) as [->|Hc].
    + rewrite bool_decide_eq_true_2 by done. apply matchhere_spec.
    + rewrite bool_decide_eq_false_2 by congruence. apply match_any_spec.
Qed.

(** ** The line buffer *)

(** The complete lines of a text that match, each with its newline. *)
Fixpoint matching (pattern cur text : list Z) : list Z :=
  match text with
  | [] => []
  | c :: text =>
      if c =? 10 then (if match_ pattern cur then cur ++ [10] else []) ++ matching pattern [] text
      else matching pattern (cur ++ [c]) text
  end.

(** Every line, with the characters [k] already read of the first, is shorter than [n]. *)
Fixpoint short_lines (n k : nat) (text : list Z) : Prop :=
  match text with
  | [] => k = 0%nat
  | c :: text => if c =? 10 then (k < n)%nat /\ short_lines n 0 text else short_lines n (S k) text
  end.

Lemma split_line_spec p : 0 ∉ p ->
  match split_line p with
  | None => 10 ∉ p
  | Some (line, rest) => p = line ++ 10 :: rest /\ (10 ∉ line)
  end.
Proof.
  induction p as [|c p IH]; intros H0; simpl; [set_solver|].
  destruct (Z.eqb_spec c 10) as [->|Hc]; [split; set_solver|].
  destruct (Z.eqb_spec c 0) as [->|_]; [set_solver|]. specialize (IH ltac:(set_solver)).
  destruct (split_line p) as [[line rest]|]; simpl; [|set_solver].
  destruct IH as [-> Hn]. split; [done|set_solver].
Qed.

Lemma matching_no_newline pattern cur l text :
  10 ∉ l -> matching pattern cur (l ++ text) = matching pattern (cur ++ l) text.
Proof.
  revert cur. induction l as [|c l IH]; intros cur Hl; simpl; [by rewrite app_nil_r|].
  destruct (Z.eqb_spec c 10) as [->|]; [set_solver|].
  rewrite IH by set_solver. by rewrite <- app_assoc.
Qed.

Lemma short_no_newline n k l text :
  10 ∉ l -> short_lines n k (l ++ text) <-> short_lines n (k + length l) text.
Proof.
  revert k. induction l as [|c l IH]; intros k Hl; simpl; [by rewrite Nat.add_0_r|].
  destruct (Z.eqb_spec c 10) as [->|]; [set_solver|].
  rewrite IH by set_solver. by rewrite Nat.add_succ_comm.
Qed.

Lemma grep_lines_spec pattern n fuel b rest :
  (length b <= fuel)%nat -> 0 ∉ b ->
  let '(out, p) := grep_lines pattern fuel b in
  matching pattern [] (b ++ rest) = out ++ matching pattern [] (p ++ rest) /\
  (short_lines n 0 (b ++ rest) -> short_lines n 0 (p ++ rest)) /\
  (10 ∉ p) /\ (length p <= length b)%nat /\ (length p = length b -> p = b) /\ (0 ∉ p).
Proof.
  revert b. induction fuel as [|f IH]; intros b Hb H0; cbn [grep_lines].
  - destruct b; [|simpl in Hb; lia]. split_and!; done || set_solver.
  - pose proof (split_line_spec b H0) as Hs. destruct (split_line b) as [[line tl]|].
    2: split_and!; done.
    destruct Hs as [-> Hn]. specialize (IH tl). rewrite !length_app in *. simpl in Hb.
    destruct (grep_lines pattern f tl) as [out p]. destruct IH as (H1 & H2 & H3 & H4 & H5 & H6); [lia|set_solver|].
    rewrite <- app_assoc, matching_no_newline by done. simpl. rewrite H1, app_assoc.
    split; [done|]. split.
    { intros Hsh. apply H2. rewrite short_no_newline in Hsh by done. apply Hsh. }
    split; [done|]. simpl. split_and!; [lia|lia|done].
Qed.

Lemma short_lt n k text : short_lines n k text -> k <> 0%nat -> (k < n)%nat.
Proof.
  revert k. induction text as [|c text IH]; simpl; intros k H Hk; [lia|].
  destruct (c =? 10); [tauto|]. apply IH in H; lia.
Qed.

Lemma grep_gen pattern buf input sizes :
  Forall (fun k => 1023 <= k)%nat sizes -> (length input < length sizes)%nat ->
  10 ∉ buf -> 0 ∉ buf ++ input -> short_lines 1023 0 (buf ++ input) ->
  grep pattern buf input sizes = matching pattern [] (buf ++ input).
Proof.
  intros Hall. revert buf input. induction Hall as [|k sizes Hk Hall IH];
    intros buf input Hlen Hnl H0 Hsh; [simpl in Hlen; lia|].
  assert (Hbuf : (length buf < 1023)%nat).
  { destruct buf; [simpl; lia|]. apply short_no_newline in Hsh; [|done].
    apply short_lt in Hsh; simpl in *; lia. }
  cbn [grep]. set (m := Nat.min k (1024 - length buf - 1)).
  assert (Hm : m = (1023 - length buf)%nat) by lia.
  destruct (take m input) as [|c chunk] eqn:Et.
  { assert (input = []) as -> by (destruct input; [done|]; destruct m; [lia|done]).
    rewrite app_nil_r in *. rewrite <- (app_nil_r buf), matching_no_newline by done. done. }
  rewrite <- Et.
  pose proof (grep_lines_spec pattern 1023 (length (buf ++ take m input)) (buf ++ take m input)
                (drop m input) ltac:(lia)) as Hg.
  assert (H0' : 0 ∉ buf ++ take m input) by (rewrite <- (take_drop m input) in H0; set_solver).
  specialize (Hg H0').
  destruct (grep_lines _ _ _) as [out p]. rewrite <- app_assoc, take_drop in Hg.
  destruct Hg as (Hmatch & Hshort & Hp & Hple & Hpeq & Hp0). rewrite Hmatch. f_equal.
  assert (Hdl : (length (drop m input) < length sizes)%nat).
  { assert (length (take m input) <> 0%nat) by (by rewrite Et).
    rewrite length_take in *. rewrite length_drop. simpl in Hlen. lia. }
  destruct (Nat.eqb_spec (length p) (length (buf ++ take m input))) as [E|E].
  2: { apply IH; auto. rewrite <- (take_drop m input) in H0. set_solver. }
  exfalso. specialize (Hpeq E). subst p.
  rewrite <- (take_drop m input), app_assoc in Hsh.
  apply short_no_newline in Hsh; [|done]. simpl in Hsh.
  assert (Hnz : length (buf ++ take m input) <> 0%nat).
  { rewrite length_app, Et. simpl. lia. }
  pose proof (short_lt _ _ _ Hsh Hnz) as Hlt.
  rewrite length_app, length_take in *.
  destruct (decide (m <= length input)%nat); [lia|].
  rewrite drop_ge in Hsh by lia. simpl in Hsh. lia.
Qed.

(** On a file (whose reads fill the buffer until the end) whose lines are all
    shorter than 1023 characters, end in a newline and hold no NUL, [grep] writes exactly the
    matching lines, in order, wherever the 1024-byte buffer cuts the text. *)
Theorem grep_file_correct (pattern input : list Z) (sizes : list nat)
    (Hfull : Forall (fun k => 1023 <= k)%nat sizes) (Henough : (length input < length sizes)%nat)
    (Hshort : short_lines 1023 0 input) (Hnul : 0 ∉ input) :
  grep pattern [] input sizes = matching pattern [] input.
Proof. apply grep_gen; [done|done|apply not_elem_of_nil|done|done]. Qed.

Definition two_lines : list Z := codes "hello" ++ [10] ++ codes "world" ++ [10].

Lemma grep_file_correct_witness :
  grep (codes "w.*d$") [] two_lines (replicate 13 2000%nat) = codes "world" ++ [10] /\
  grep (codes "w.*d$") [] two_lines (replicate 13 2000%nat) =
  matching (codes "w.*d$") [] two_lines.
Proof.
  split; [by vm_compute|]. apply grep_file_correct.
  - apply (bool_decide_unpack _). by vm_compute.
  - vm_compute. lia.
  - vm_compute. lia.
  - apply (bool_decide_unpack _). by vm_compute.
Defined.

(** A [read] that returns part of a line without its newline (as a pipe may)
    makes [grep] forget that part: the matching line ["abc"] is not printed when it
    arrives as ["ab"] and ["c\n"]. *)
Theorem grep_short_read_loses_line :
  matching (codes "abc") [] (codes "abc" ++ [10]) = codes "abc" ++ [10] /\
  grep (codes "abc") [] (codes "abc" ++ [10]) [2; 2; 2; 2; 2]%nat = [].
Proof. split; by vm_compute. Qed.
End Grep.
