(* ===== verification/Fcntl.v ===== *)
(** * The flags of [open] (fcntl.h), shared by the kernel and the shell *)

From S2P Require Import Prelude.

Definition O_RDONLY : Z := 0x000.
Definition O_WRONLY : Z := 0x001.
Definition O_RDWR : Z := 0x002.
Definition O_CREATE : Z := 0x200.
