(* ===== verification/Ulib.v ===== *)
(** * The user library (ulib.c): strings, line input and the forward [memmove]

    A C string is the list of the characters at and after its address; it ends at
    the first NUL, or where the list ends. [memmove] acts on memory, since
    overlapping areas are the point. *)

From S2P Require Import Prelude Mem StringC.

Module Ulib.

Fixpoint strlen (s : list Z) : nat :=
  match s with
  | [] => O
  | c :: s => if c =? 0 then O else S (strlen s)
  end.

(** [while(( *s++ = *t++) != 0)]: the characters written, with the NUL. *)
Fixpoint strcpy (t : list Z) : list Z :=
  match t with
  | [] => [0]
  | c :: t => if c =? 0 then [0] else c :: strcpy t
  end.

(** The first character of a string, its NUL included. *)
Definition hd0 (s : list Z) : Z := default 0 (head s).

(** [while( *p && *p == *q) p++, q++; return (uchar)*p - (uchar)*q;] *)
Fixpoint strcmp (p q : list Z) : Z :=
  match p with
  | [] => 0 - u8 (hd0 q)
  | a :: p' =>
      if negb (a =? 0) && (a =? hd0 q) then strcmp p' (tail q)
      else u8 a - u8 (hd0 q)
  end.

(** The offset of the character found. *)
Fixpoint strchr (s : list Z) (c : Z) : option nat :=
  match s with
  | [] => None
  | x :: s => if x =? 0 then None else if x =? c then Some O else S <$> strchr s c
  end.

(** [memset] stores bytes with [stosb]. *)
Definition memset (m : mem) (dst c : Z) (n : nat) : mem := StringC.stosb m dst c n.

(** [while(n-- > 0) *dst++ = *src++;], whatever the overlap. *)
Definition memmove (m : mem) (vdst vsrc n : Z) : mem := StringC.copy_fwd m vdst vsrc (Z.to_nat n).

(** [for(i=0; i+1 < max; )] of [gets] with [n] more rounds to go: the bytes of the input that
    are stored, and those left. The input ends where [read] returns less than 1. *)
Fixpoint gets_loop (n : nat) (input : list Z) : list Z * list Z :=
  match n, input with
  | S n, c :: input =>
      if (c =? 10) || (c =? 13) then ([c], input)
      else let '(l, rest) := gets_loop n input in (c :: l, rest)
  | _, _ => ([], input)
  end.

(** The buffer's contents, with the NUL, and the input left. *)
Definition gets (max : Z) (input : list Z) : list Z * list Z :=
  let '(l, rest) := gets_loop (Z.to_nat (max - 1)) input in (l ++ [0], rest).

(** ** Strings *)

(** The C string at the head of a list. *)
Fixpoint cstr (s : list Z) : list Z :=
  match s with
  | [] => []
  | c :: s => if c =? 0 then [] else c :: cstr s
  end.

Lemma strlen_cstr s : strlen s = length (cstr s).
Proof. induction s as [|c s IH]; [done|]. simpl. destruct (c =? 0); [done|]. simpl. by rewrite IH. Qed.

Lemma strcpy_cstr s : strcpy s = cstr s ++ [0].
Proof. induction s as [|c s IH]; [done|]. simpl. destruct (c =? 0); [done|]. by rewrite IH. Qed.

Lemma cstr_id s : Forall (fun c => c <> 0) s -> cstr s = s.
Proof. induction 1 as [|c s Hc _ IH]; [done|]. simpl. zcase; [done|]. by rewrite IH. Qed.

Lemma cstr_app s l : Forall (fun c => c <> 0) s -> cstr (s ++ 0 :: l) = s.
Proof. induction 1 as [|c s Hc _ IH]; [done|]. simpl. zcase; [done|]. by rewrite IH. Qed.

Lemma cstr_nonzero s : Forall (fun c => c <> 0) (cstr s).
Proof. induction s as [|c s IH]; [constructor|]. simpl. zcase; constructor; auto. Qed.

(** [strchr] tells whether a character that is not NUL is in the string. *)
Lemma strchr_spec s c : c <> 0 -> is_Some (strchr s c) <-> c ∈ cstr s.
Proof.
  intros Hc. induction s as [|x s IH]; simpl.
  - split; [intros [? [=]]|]. intros H. inversion H.
  - zcase.
    + split; [intros [? [=]]|]. intros H. inversion H.
    + subst. split; [left|eauto].
    + rewrite fmap_is_Some, IH, elem_of_cons. split; [auto|]. intros [->|]; [done|auto].
Qed.

Lemma strchr_nul s : strchr s 0 = None.
Proof. induction s as [|x s IH]; [done|]. simpl. destruct (x =? 0) eqn:E; [done|]. by rewrite IH. Qed.

(** The reference order: the first difference decides, a proper prefix comes first. *)
Fixpoint lex_compare (p q : list Z) : comparison :=
  match p, q with
  | [], [] => Eq
  | [], _ => Lt
  | _, [] => Gt
  | a :: p, b :: q => match Z.compare a b with Eq => lex_compare p q | c => c end
  end.

Definition uchars (s : list Z) : Prop := Forall (fun c => 0 < c < 256) s.

(** The sign of [strcmp] is the order of the strings as unsigned characters; it is 0 exactly
    for equal strings. *)
Theorem strcmp_compare (p q : list Z) : uchars p -> uchars q ->
  Z.compare (strcmp p q) 0 = lex_compare p q.
Proof.
  intros Hp. revert q. induction Hp as [|a p Ha Hp IH]; intros q Hq.
  - destruct Hq as [|b q Hb Hq]; [done|]. cbn [strcmp hd0 head default lex_compare].
    unfold hd0; simpl. rewrite u8_id by lia. apply Z.compare_lt_iff. lia.
  - cbn [strcmp]. destruct Hq as [|b q Hb Hq]; cbn [lex_compare]; unfold hd0; simpl.
    + replace (a =? 0) with false by (symmetry; apply Z.eqb_neq; lia). simpl.
      rewrite u8_id by lia. change (u8 0) with 0. apply Z.compare_gt_iff. lia.
    + destruct (Z.compare_spec a b) as [->|H|H].
      * replace (b =? 0) with false by (symmetry; apply Z.eqb_neq; lia). rewrite Z.eqb_refl. by apply IH.
      * replace (a =? b) with false by (symmetry; apply Z.eqb_neq; lia). rewrite andb_false_r.
        rewrite !u8_id by lia. apply Z.compare_lt_iff. lia.
      * replace (a =? b) with false by (symmetry; apply Z.eqb_neq; lia). rewrite andb_false_r.
        rewrite !u8_id by lia. apply Z.compare_gt_iff. lia.
Qed.

Lemma strcmp_compare_witness : Z.compare (strcmp (codes "ls") (codes "lsx")) 0 = Lt.
Proof.
  rewrite (strcmp_compare (codes "ls") (codes "lsx")); [reflexivity| |].
  all: repeat constructor.
Defined.

(** ** Line input *)

Lemma gets_loop_spec n input l rest : gets_loop n input = (l, rest) ->
  input = l ++ rest /\ (length l <= n)%nat /\
  ((exists body c, l = body ++ [c] /\ (c = 10 \/ c = 13) /\ Forall (fun x => x <> 10 /\ x <> 13) body) \/
   Forall (fun x => x <> 10 /\ x <> 13) l /\ (length l = n \/ rest = [])).
Proof.
  revert input l rest. induction n as [|n IH]; intros input l rest; cbn [gets_loop].
  - intros [= <- <-]. split; [done|]. split; [done|]. right. split; [constructor|auto].
  - destruct input as [|c input]; [intros [= <- <-]; split; [done|]; split; [simpl; lia|]; right; split; [constructor|auto]|].
    destruct ((c =? 10) || (c =? 13)) eqn:E.
    + intros [= <- <-]. split; [done|]. split; [simpl; lia|]. left. exists [], c. split; [done|].
      apply orb_true_iff in E. rewrite !Z.eqb_eq in E. split; [done|constructor].
    + apply orb_false_iff in E as [E1 E2]. rewrite Z.eqb_neq in E1, E2.
      destruct (gets_loop n input) as [l1 r1] eqn:H1. intros [= <- <-].
      destruct (IH _ _ _ H1) as (-> & Hlen & Hr). split; [done|]. split; [simpl; lia|].
      destruct Hr as [(body & c1 & -> & Hc & Hb)|[Hb He]].
      * left. exists (c :: body), c1. split; [done|]. split; [done|]. constructor; auto.
      * right. split; [constructor; auto|]. simpl. destruct He; auto.
Qed.

(** [gets] stores one line of the input, up to and with its end, as long as it fits into the
    buffer with the NUL, and leaves the rest of the input. *)
Theorem gets_line (max : Z) (input l rest : list Z) (Hmax : 0 < max) (H : gets max input = (l, rest)) :
  Z.of_nat (length l) <= max /\ exists line, l = line ++ [0] /\ input = line ++ rest /\
  ((exists body c, line = body ++ [c] /\ (c = 10 \/ c = 13) /\ Forall (fun x => x <> 10 /\ x <> 13) body) \/
   Forall (fun x => x <> 10 /\ x <> 13) line /\ (Z.of_nat (length l) = max \/ rest = [])).
Proof.
  unfold gets in H. destruct (gets_loop _ input) as [l1 r1] eqn:E. injection H as <- <-.
  destruct (gets_loop_spec _ _ _ _ E) as (-> & Hl & Hr). rewrite length_app. simpl. split; [lia|].
  exists l1. split; [done|]. split; [done|]. destruct Hr as [|[H1 H2]]; [auto|]. right. split; [done|].
  destruct H2; [left; lia|auto].
Qed.

Lemma gets_line_witness : exists line, fst (gets 100 (codes "ls -l" ++ 10 :: codes "cd")) = line ++ [0].
Proof.
  destruct (gets_line 100 (codes "ls -l" ++ 10 :: codes "cd") _ _ ltac:(lia) eq_refl) as (_ & line & H & _).
  exists line. exact H.
Defined.

(** ** memmove *)

(** The user's [memmove] copies upwards only: it is right unless the destination begins inside
    the source ... *)
Theorem user_memmove_correct (m : mem) (d s n : Z) (Hn : 0 <= n) (Hover : ~ s < d < s + n) (b : Z) :
  load8 (memmove m d s n) b = load8 (StringC.memmove m d s (Z.to_nat n)) b.
Proof.
  unfold memmove. rewrite StringC.load8_memmove. rewrite StringC.load8_copy_fwd by lia. done.
Qed.

Lemma user_memmove_correct_witness : load8 (memmove ∅ 0 1 3) 0 = load8 (StringC.memmove ∅ 0 1 3) 0.
Proof. apply (user_memmove_correct ∅ 0 1 3); lia. Defined.

(** ... and then it repeats the first bytes of the source instead of moving them. *)
Theorem user_memmove_smears (m : mem) (s : Z) :
  loads (memmove m (s + 1) s 3) s 4 = replicate 4 (load8 m s).
Proof.
  set (m' := memmove m (s + 1) s 3).
  assert (H : forall i, 0 <= i < 4 -> load8 m' (s + i) = load8 m s).
  { intros i Hi. unfold m', memmove. change (Z.to_nat 3) with 3%nat. cbn [StringC.copy_fwd].
    rewrite !load8_store8. zcase; try lia; repeat (rewrite u8_id; [|first [apply load8_range|apply u8_range]]); try done; f_equal; lia. }
  cbn [loads replicate]. rewrite <- (Z.add_0_r s) at 1.
  rewrite <- !Z.add_assoc, !H by lia. done.
Qed.

End Ulib.
