(* ===== verification/Sh.v ===== *)
(** * The shell (sh.c): scanner, recursive-descent parser, [nulterminate] and [runcmd]

    A pointer into the command line is an offset into the buffer. The parser
    returns a command whose words are pairs of offsets, as the code's are pairs of
    pointers; [nulterminate] then writes the NULs. [malloc] is taken to succeed.
    [runcmd] and [main] are programs of system calls: what the kernel answers is
    the argument of the continuation. *)

From S2P Require Import Prelude Fcntl Ulib.

Module Sh.
Import Ulib.

Definition MAXARGS : nat := 10.

(** ** Commands *)

(** [execcmd], [redircmd], [pipecmd], [listcmd] and [backcmd]; the tag [type] is the
    constructor. *)
Inductive cmd :=
| EXEC (argv : list (nat * nat))
| REDIR (c : cmd) (file efile : nat) (mode fd : Z)
| PIPE (left right : cmd)
| LIST (left right : cmd)
| BACK (c : cmd).

(** The parser returns, or prints the texts to descriptor 2 and exits. *)
Inductive result (A : Type) :=
| Ok (a : A)
| Panic (texts : list (list Z))
| NoFuel.
Arguments Ok {A} a.
Arguments Panic {A} texts.
Arguments NoFuel {A}.

Definition bind {A B} (r : result A) (k : A -> result B) : result B :=
  match r with
  | Ok a => k a
  | Panic t => Panic t
  | NoFuel => NoFuel
  end.
Notation "'let!' p ':=' r 'in' k" := (bind r (fun p => k)) (at level 10, p strict pattern, r at level 99, k at level 200).

(** [printf(2, "%s\n", s); exit();] *)
Definition panic {A} (s : string) : result A := Panic [codes s ++ [10]].

(** ** Scanning *)

(** [" \t\r\n\v"] *)
Definition whitespace : list Z := [32; 9; 13; 10; 11].
Definition symbols : list Z := codes "<|>&;()".

Definition in_set (set : list Z) (c : Z) : bool := match strchr set c with Some _ => true | None => false end.

Section Parser.
Context (buf : list Z).

(** [*s] *)
Definition at_ (s : nat) : Z := nth s buf 0.
(** [es = s + strlen(s)] for the start of the buffer. *)
Definition es : nat := strlen buf.

(** [while(s < es && p( *s)) s++;] with [n = es - s]. *)
Fixpoint advance (p : Z -> bool) (n s : nat) : nat :=
  match n with
  | O => s
  | S n => if p (at_ s) then advance p n (S s) else s
  end.

Definition skip_space (s : nat) : nat := advance (in_set whitespace) (es - s) s.
Definition skip_word (s : nat) : nat :=
  advance (fun c => negb (in_set whitespace c) && negb (in_set symbols c)) (es - s) s.

(** The token, its first offset, the one after its last, and the next position. *)
Definition gettoken (s : nat) : Z * nat * nat * nat :=
  let q := skip_space s in
  let c := at_ q in
  let '(ret, eq) :=
    if c =? 0 then (c, q)
    else if in_set (codes "|();&<") c then (c, S q)
    else if c =? ch ">" then (if at_ (S q) =? ch ">" then (ch "+", S (S q)) else (c, S q))
    else (ch "a", skip_word q) in
  (ret, q, eq, skip_space eq).

Definition peek (s : nat) (toks : list Z) : bool * nat :=
  let s := skip_space s in
  (negb (at_ s =? 0) && in_set toks (at_ s), s).

(** ** Parsing *)

(** [while(peek(ps, es, "<>")) ...] *)
Fixpoint parseredirs (n : nat) (cmd : cmd) (s : nat) : result (Sh.cmd * nat) :=
  match n with
  | O => NoFuel
  | S n =>
      let '(p, s) := peek s (codes "<>") in
      if p then
        let '(tok, _, _, s) := gettoken s in
        let '(a, q, eq, s) := gettoken s in
        if negb (a =? ch "a") then panic "missing file for redirection" else
        let cmd :=
          if tok =? ch "<" then REDIR cmd q eq O_RDONLY 0
          else if tok =? ch ">" then REDIR cmd q eq (O_WRONLY .| O_CREATE) 1
          else if tok =? ch "+" then REDIR cmd q eq (O_WRONLY .| O_CREATE) 1
          else cmd in
        parseredirs n cmd s
      else Ok (cmd, s)
  end.

(** [cmd->argv[argc] = q; cmd->eargv[argc] = eq;] where [cmd] is the simple command under the
    redirections of [ret]. *)
Fixpoint set_arg (ret : cmd) (q eq : nat) : cmd :=
  match ret with
  | EXEC argv => EXEC (argv ++ [(q, eq)])
  | REDIR c file efile mode fd => REDIR (set_arg c q eq) file efile mode fd
  | c => c
  end.

(** The loop over the arguments in [parseexec]. *)
Fixpoint parseargs (n : nat) (ret : cmd) (argc s : nat) : result (cmd * nat) :=
  match n with
  | O => NoFuel
  | S n =>
      let '(p, s) := peek s (codes "|)&;") in
      if p then Ok (ret, s) else
      let '(tok, q, eq, s) := gettoken s in
      if tok =? 0 then Ok (ret, s) else
      if negb (tok =? ch "a") then panic "syntax" else
      let ret := set_arg ret q eq in
      let argc := S argc in
      if (MAXARGS <=? argc)%nat then panic "too many args" else
      let! (ret, s) := parseredirs (S (es - s)) ret s in
      parseargs n ret argc s
  end.

(** [while(peek(ps, es, "&"))] in [parseline]. *)
Fixpoint parseback (n : nat) (cmd : cmd) (s : nat) : result (Sh.cmd * nat) :=
  match n with
  | O => NoFuel
  | S n =>
      let '(p, s) := peek s (codes "&") in
      if p then
        let '(_, _, _, s) := gettoken s in
        parseback n (BACK cmd) s
      else Ok (cmd, s)
  end.

Fixpoint parseline (n : nat) (s : nat) {struct n} : result (cmd * nat) :=
  match n with
  | O => NoFuel
  | S n =>
      let! (cmd, s) := parsepipe n s in
      let! (cmd, s) := parseback (S (es - s)) cmd s in
      let '(p, s) := peek s (codes ";") in
      if p then
        let '(_, _, _, s) := gettoken s in
        let! (r, s) := parseline n s in
        Ok (LIST cmd r, s)
      else Ok (cmd, s)
  end
with parsepipe (n : nat) (s : nat) {struct n} : result (cmd * nat) :=
  match n with
  | O => NoFuel
  | S n =>
      let! (cmd, s) := parseexec n s in
      let '(p, s) := peek s (codes "|") in
      if p then
        let '(_, _, _, s) := gettoken s in
        let! (r, s) := parsepipe n s in
        Ok (PIPE cmd r, s)
      else Ok (cmd, s)
  end
with parseexec (n : nat) (s : nat) {struct n} : result (cmd * nat) :=
  match n with
  | O => NoFuel
  | S n =>
      let '(p, s) := peek s (codes "(") in
      if p then parseblock n s else
      let! (ret, s) := parseredirs (S (es - s)) (EXEC []) s in
      parseargs (S (es - s)) ret 0 s
  end
with parseblock (n : nat) (s : nat) {struct n} : result (cmd * nat) :=
  match n with
  | O => NoFuel
  | S n =>
      let '(p, s) := peek s (codes "(") in
      if negb p then panic "parseblock" else
      let '(_, _, _, s) := gettoken s in
      let! (cmd, s) := parseline n s in
      let '(p, s) := peek s (codes ")") in
      if negb p then panic "syntax - missing )" else
      let '(_, _, _, s) := gettoken s in
      parseredirs (S (es - s)) cmd s
  end.

(** [*eq = 0;] for the words of a simple command. *)
Definition nul_words (argv : list (nat * nat)) (b : list Z) : list Z :=
  fold_left (fun b w => <[snd w := 0]> b) argv b.

(** The buffer after the NULs are written. *)
Fixpoint nulterminate (c : cmd) (b : list Z) : list Z :=
  match c with
  | EXEC argv => nul_words argv b
  | REDIR c _ efile _ _ => <[efile := 0]> (nulterminate c b)
  | PIPE l r => nulterminate r (nulterminate l b)
  | LIST l r => nulterminate r (nulterminate l b)
  | BACK c => nulterminate c b
  end.

(** Every cycle through the four parsers takes a character; each is entered at most once
    between two. *)
Definition parse_fuel : nat := 4 * es + 4.

(** The command and the buffer its words are in. *)
Definition parsecmd : result (cmd * list Z) :=
  let! (cmd, s) := parseline parse_fuel 0 in
  let '(_, s) := peek s [] in
  if negb (s =? es)%nat then
    Panic [codes "leftovers: " ++ cstr (drop s buf) ++ [10]; codes "syntax" ++ [10]]
  else Ok (cmd, nulterminate cmd buf).

End Parser.

(** ** Running a command *)

(** A process as the system calls it makes; [Exec]'s continuation runs when [exec] fails. *)
Inductive prog :=
| Exit
| Close (fd : Z) (k : prog)
| Open (name : list Z) (mode : Z) (k : Z -> prog)
| Dup (fd : Z) (k : prog)
| Pipe (k : option (Z * Z) -> prog)
| Exec (path : list Z) (argv : list (list Z)) (k : prog)
| Fork (k : Z -> prog)
| Wait (k : prog)
| Chdir (name : list Z) (k : Z -> prog)
| Print (fd : Z) (text : list Z) (k : prog)
| Gets (max : Z) (k : list Z -> prog)
| OutOfFuel.

(** [printf(2, "%s\n", s); exit();] *)
Definition die (s : string) : prog := Print 2 (codes s ++ [10]) Exit.

(** [if(fork1() == 0) child; parent], where the child does not come back. *)
Definition fork1 (child parent : prog) : prog :=
  Fork (fun pid => if pid =? -1 then die "fork" else if pid =? 0 then child else parent).

Section Runcmd.
Context (buf : list Z).

Definition string_at (q : nat) : list Z := cstr (drop q buf).

Fixpoint runcmd (c : cmd) : prog :=
  match c with
  | EXEC [] => Exit
  | EXEC (((q, _) :: _) as argv) =>
      Exec (string_at q) (map (fun w => string_at (fst w)) argv)
        (Print 2 (codes "exec " ++ string_at q ++ codes " failed" ++ [10]) Exit)
  | REDIR c file _ mode fd =>
      Close fd (Open (string_at file) mode (fun r =>
        if r <? 0 then Print 2 (codes "open " ++ string_at file ++ codes " failed" ++ [10]) Exit
        else runcmd c))
  | LIST l r => fork1 (runcmd l) (Wait (runcmd r))
  | PIPE l r =>
      Pipe (fun p =>
        match p with
        | None => die "pipe"
        | Some (p0, p1) =>
            fork1 (Close 1 (Dup p1 (Close p0 (Close p1 (runcmd l)))))
              (fork1 (Close 0 (Dup p0 (Close p0 (Close p1 (runcmd r)))))
                (Close p0 (Close p1 (Wait (Wait Exit)))))
        end)
  | BACK c => fork1 (runcmd c) Exit
  end.
End Runcmd.

(** [printf(2, text)] for the texts of a parser that gave up, then [exit]. *)
Fixpoint print_all (texts : list (list Z)) : prog :=
  match texts with
  | [] => Exit
  | t :: texts => Print 2 t (print_all texts)
  end.

(** [runcmd(parsecmd(buf))] *)
Definition run_line (buf : list Z) : prog :=
  match parsecmd buf with
  | Ok (c, b) => runcmd b c
  | Panic texts => print_all texts
  | NoFuel => OutOfFuel
  end.

(** [buf] after [memset(buf, 0, nbuf); gets(buf, nbuf);] that stored [l]. *)
Definition fill (nbuf : nat) (l : list Z) : list Z := l ++ replicate (nbuf - length l) 0.

(** [printf(2, "$ "); memset(buf, 0, nbuf); gets(buf, nbuf);]; the continuation for -1 is [eof]. *)
Definition getcmd (nbuf : nat) (eof : prog) (k : list Z -> prog) : prog :=
  Print 2 (codes "$ ") (Gets (Z.of_nat nbuf) (fun l =>
    let buf := fill nbuf l in if at_ buf 0 =? 0 then eof else k buf)).

(** The loop of [main], for [n] lines. *)
Fixpoint main_loop (n : nat) : prog :=
  match n with
  | O => OutOfFuel
  | S n =>
      getcmd 100 Exit (fun buf =>
        if (at_ buf 0 =? ch "c") && (at_ buf 1 =? ch "d") && (at_ buf 2 =? 32) then
          (* Chdir must be called by the parent, not the child; chop \n. *)
          let buf := <[(strlen buf - 1)%nat := 0]> buf in
          let dir := string_at buf 3 in
          Chdir dir (fun r =>
            if r <? 0 then Print 2 (codes "cannot cd " ++ dir ++ [10]) (main_loop n) else main_loop n)
        else fork1 (run_line buf) (Wait (main_loop n)))
  end.

(** [while((fd = open("console", O_RDWR)) >= 0) if(fd >= 3) { close(fd); break; }] *)
Fixpoint open_console (n : nat) (k : prog) : prog :=
  match n with
  | O => OutOfFuel
  | S n =>
      Open (codes "console") O_RDWR (fun fd =>
        if fd <? 0 then k else if 3 <=? fd then Close fd k else open_console n k)
  end.

Definition main (n : nat) : prog := open_console n (main_loop n).

Example parse_pipe :
  parsecmd (codes "ls -l>f|(wc;cat <g)&" ++ [0]) =
  Ok (BACK (PIPE (REDIR (EXEC [(0, 2); (3, 5)]%nat) 6 7 0x201 1)
               (LIST (EXEC [(9, 11)]%nat) (REDIR (EXEC [(12, 15)]%nat) 17 18 0 0))),
      codes "ls" ++ [0] ++ codes "-l" ++ [0] ++ codes "f" ++ [0] ++ codes "(wc" ++ [0] ++ codes "cat" ++ [0]
      ++ codes "<g" ++ [0] ++ codes "&" ++ [0]).
Proof. vm_compute. reflexivity. Qed.

End Sh.
