(* ===== verification/ShLex.v ===== *)
(** * The words and symbols of a command line

    [lex] is the reference scanner, an automaton over the characters; the lemmas
    relate what [gettoken] and [peek] do at a position to the tokens of the rest of
    the line. *)

From S2P Require Import Prelude Ulib Sh.
Import Ulib Sh.

Definition space (c : Z) : bool := in_set whitespace c.
Definition symbol (c : Z) : bool := in_set symbols c.
Definition wordchar (c : Z) : bool := negb (space c) && negb (symbol c).

Inductive token :=
| TSym (c : Z)
| TAppend
| TWord (w : list Z).

(** The word collected so far, if there is one, before [ts]. *)
Definition flush (w : list Z) (ts : list token) : list token :=
  match w with [] => ts | _ => TWord w :: ts end.

Fixpoint lex (w l : list Z) : list token :=
  match l with
  | [] => flush w []
  | c :: l =>
      if wordchar c then lex (w ++ [c]) l
      else flush w
        (if space c then lex [] l
         else if c =? ch ">" then
           match l with
           | c2 :: l2 => if c2 =? ch ">" then TAppend :: lex [] l2 else TSym c :: lex [] l
           | [] => [TSym c]
           end
         else TSym c :: lex [] l)
  end.

Example lex_line : lex [] (codes "cat<g >>out &") =
  [TWord (codes "cat"); TSym (ch "<"); TWord (codes "g"); TAppend; TWord (codes "out"); TSym (ch "&")].
Proof. reflexivity. Qed.

(** The character [peek] looks at for the first of the tokens ([a] for a word). *)
Definition front (ts : list token) : Z :=
  match ts with
  | [] => 0
  | TSym c :: _ => c
  | TAppend :: _ => ch ">"
  | TWord _ :: _ => ch "a"
  end.

(** ** Characters *)

Lemma in_set_0 set : in_set set 0 = false.
Proof. unfold in_set. by rewrite strchr_nul. Qed.

Lemma wordchar_0 : wordchar 0 = true.
Proof. reflexivity. Qed.

(** The eight symbols, one by one. *)
Lemma symbol_cases c : symbol c = true ->
  c ∈ [ch "<"; ch "|"; ch ">"; ch "&"; ch ";"; ch "("; ch ")"].
Proof.
  unfold symbol, in_set. intros H.
  destruct (decide (c = 0)) as [->|Hc]; [done|].
  assert (Hs : is_Some (strchr symbols c)) by (destruct (strchr symbols c); [eauto|done]).
  apply strchr_spec in Hs; [|done]. exact Hs.
Qed.

Lemma symbol_not_space c : symbol c = true -> space c = false.
Proof. intros H%symbol_cases. repeat (apply elem_of_cons in H as [->|H]; [reflexivity|]). inversion H. Qed.

Lemma symbol_nonzero c : symbol c = true -> c <> 0.
Proof. intros H ->. by rewrite (in_set_0 symbols : symbol 0 = false) in H. Qed.

Lemma in_cstr c s : c ∈ cstr s -> c ∈ s.
Proof.
  induction s as [|x s IH]; [done|]. simpl. zcase; [intros H; inversion H|].
  rewrite !elem_of_cons. tauto.
Qed.

Lemma in_set_symbol set : forallb symbol set = true -> forall c, in_set set c = true -> symbol c = true.
Proof.
  intros Hs c H. destruct (decide (c = 0)) as [->|Hc]; [by rewrite in_set_0 in H|].
  unfold in_set in H. destruct (strchr set c) as [i|] eqn:Hi; [|done].
  assert (Hel : c ∈ cstr set) by (apply strchr_spec; [done|eauto]).
  rewrite forallb_forall in Hs. apply Hs. apply list_elem_of_In. by apply in_cstr.
Qed.

(** ** The reference scanner *)

Lemma lex_space c l : space c = true -> lex [] (c :: l) = lex [] l.
Proof. intros H. simpl. unfold wordchar. by rewrite H. Qed.

Lemma lex_spaces pre l : Forall (fun c => space c = true) pre -> lex [] (pre ++ l) = lex [] l.
Proof. induction 1 as [|c pre Hc _ IH]; [done|]. cbn [app]. by rewrite lex_space. Qed.

Lemma lex_sym c l : symbol c = true -> c <> ch ">" -> lex [] (c :: l) = TSym c :: lex [] l.
Proof.
  intros H Hc. simpl. unfold wordchar. rewrite H, (symbol_not_space c H). simpl.
  by destruct (Z.eqb_spec c (ch ">")).
Qed.

Lemma lex_append l : lex [] (ch ">" :: ch ">" :: l) = TAppend :: lex [] l.
Proof. reflexivity. Qed.

Lemma lex_gt l : hd0 l <> ch ">" -> lex [] (ch ">" :: l) = TSym (ch ">") :: lex [] l.
Proof.
  intros H. simpl. change (wordchar (ch ">")) with false. change (space (ch ">")) with false. simpl.
  destruct l as [|c l]; [done|]. unfold hd0 in H; simpl in H. by destruct (Z.eqb_spec c (ch ">")).
Qed.

(** The rest of the line does not begin with a character of a word. *)
Definition breaks (l : list Z) : Prop := match l with [] => True | c :: _ => wordchar c = false end.

Lemma lex_word_go w v l : w ++ v <> [] -> Forall (fun c => wordchar c = true) v -> breaks l ->
  lex w (v ++ l) = TWord (w ++ v) :: lex [] l.
Proof.
  intros Hne Hv Hl. revert w Hne. induction Hv as [|c v Hc _ IH]; intros w Hne; cbn [app].
  - rewrite app_nil_r in *. destruct l as [|c l]; simpl.
    + by destruct w.
    + simpl in Hl. rewrite Hl. by destruct w.
  - simpl. rewrite Hc, IH; [by rewrite <- app_assoc|]. by destruct w.
Qed.

Lemma lex_word v l : v <> [] -> Forall (fun c => wordchar c = true) v -> breaks l ->
  lex [] (v ++ l) = TWord v :: lex [] l.
Proof. intros. by apply (lex_word_go []). Qed.

Lemma length_lex l : forall w, (length (lex w l) <= length l + (match w with [] => 0 | _ => 1 end))%nat.
Proof.
  induction l as [l IH] using (induction_ltof1 _ (@length Z)). unfold ltof in IH.
  destruct l as [|c l]; intros w; simpl; [by destruct w|].
  assert (Hf : forall ts, (length ts <= S (length l))%nat ->
    (length (flush w ts) <= S (length l + match w with [] => 0 | _ => 1 end))%nat).
  { intros ts H. destruct w; simpl; lia. }
  pose proof (IH l ltac:(simpl; lia) []) as H0.
  destruct (wordchar c).
  { pose proof (IH l ltac:(simpl; lia) (w ++ [c])) as H1.
    assert (H2 : (match w ++ [c] with [] => 0 | _ => 1 end <= 1)%nat) by (destruct (w ++ [c]); lia).
    destruct w; simpl in *; lia. }
  simpl in H0. apply Hf. destruct (space c); [lia|]. destruct (c =? ch ">"); [|simpl; lia].
  destruct l as [|c2 l2]; [simpl; lia|]. pose proof (IH l2 ltac:(simpl; lia) []).
  destruct (c2 =? ch ">"); simpl in *; lia.
Qed.

(** ** Scanning a line in a buffer *)

Section Line.
Context (buf : list Z).

(** The line up to its NUL, and what is left of it at [s]. *)
Definition line : list Z := cstr buf.
Definition rest (s : nat) : list Z := drop s line.
Definition toks (s : nat) : list token := lex [] (rest s).

(** A place where a word may end: the end of the line or a character that is not a word's. *)
Definition stop (e : nat) : Prop := (e <= es buf)%nat /\ breaks (rest e).

(** The offsets [q] and [eq] of the word [w]. *)
Definition word_at (p : nat * nat) (w : list Z) : Prop :=
  w <> [] /\ Forall (fun c => wordchar c = true) w /\ rest (fst p) = w ++ rest (snd p) /\ stop (snd p).

Lemma length_line : length line = es buf.
Proof. unfold line, es. by rewrite strlen_cstr. Qed.

Lemma length_rest s : length (rest s) = (es buf - s)%nat.
Proof. unfold rest. by rewrite length_drop, length_line. Qed.

Lemma line_nonzero : Forall (fun c => c <> 0) line.
Proof. apply cstr_nonzero. Qed.

Lemma buf_line : exists l, buf = line ++ l /\ hd0 l = 0.
Proof.
  unfold line. induction buf as [|c b IH]; [by exists []|]. simpl.
  destruct (Z.eqb_spec c 0) as [->|Hc]; [by exists (0 :: b)|].
  destruct IH as (l & Hl & H0). exists l. split; [|done]. simpl. by f_equal.
Qed.

Lemma at_rest s : (s <= es buf)%nat -> at_ buf s = hd0 (rest s).
Proof.
  intros Hs. destruct buf_line as (l & Hl & H0). unfold at_, rest.
  rewrite Hl at 1. rewrite <- length_line in Hs. clear Hl.
  revert s Hs. induction line as [|c b IH]; intros s Hs; simpl in *.
  - replace s with O by lia. unfold hd0 in *. by destruct l.
  - destruct s as [|s]; [done|]. simpl. apply IH. lia.
Qed.

Lemma rest_step s c l : rest s = c :: l -> rest (S s) = l /\ (S s <= es buf)%nat /\ c <> 0.
Proof.
  intros H. split; [|split].
  - unfold rest in *. replace (S s) with (s + 1)%nat by lia. by rewrite <- drop_drop, H.
  - pose proof (length_rest s) as Hl. rewrite H in Hl. simpl in Hl. lia.
  - pose proof line_nonzero as Hz. rewrite Forall_forall in Hz. apply Hz.
    rewrite <- (take_drop s line). apply elem_of_app. right. fold (rest s). rewrite H. left.
Qed.

Lemma rest_nil s : (es buf <= s)%nat -> rest s = [].
Proof. intros. apply nil_length_inv. rewrite length_rest. lia. Qed.

(** [advance] passes exactly the longest run of characters that satisfy [p]. *)
Lemma advance_spec p n s : n = (es buf - s)%nat -> (s <= es buf)%nat ->
  exists pre, let s' := advance buf p n s in
    s' = (s + length pre)%nat /\ (s' <= es buf)%nat /\ rest s = pre ++ rest s' /\
    Forall (fun c => p c = true) pre /\ match rest s' with c :: _ => p c = false | [] => True end.
Proof.
  revert s. induction n as [|n IH]; intros s Hn Hs; cbn [advance].
  - exists []. simpl. split; [lia|]. split; [lia|]. rewrite rest_nil by lia. auto.
  - pose proof (at_rest s Hs) as Ha. destruct (rest s) as [|c l] eqn:Hr.
    { pose proof (length_rest s) as Hl. rewrite Hr in Hl. simpl in Hl. lia. }
    destruct (rest_step _ _ _ Hr) as (Hl & Hle & _). rewrite Ha. unfold hd0; simpl.
    destruct (p c) eqn:Hp.
    + destruct (IH (S s) ltac:(lia) Hle) as (pre & H1 & H2 & H3 & H4 & H5).
      exists (c :: pre). simpl in *. split; [lia|]. split; [lia|].
      split; [by rewrite <- Hl, H3|]. split; [by constructor|done].
    + exists []. simpl. rewrite Hr. split; [lia|]. auto.
Qed.

Lemma skip_space_spec s : (s <= es buf)%nat ->
  let s' := skip_space buf s in
  (s <= s' <= es buf)%nat /\ toks s' = toks s /\
  match rest s' with c :: _ => space c = false | [] => True end.
Proof.
  intros Hs. destruct (advance_spec (in_set whitespace) (es buf - s) s eq_refl Hs) as (pre & H1 & H2 & H3 & H4 & H5).
  simpl in *. fold (skip_space buf s) in *. split; [lia|]. split; [|done].
  unfold toks. rewrite H3. symmetry. by apply lex_spaces.
Qed.

(** What [gettoken] answers for a token. *)
Definition token_code (t : token) : Z :=
  match t with TSym c => c | TAppend => ch "+" | TWord _ => ch "a" end.

Definition got (s : nat) (r : Z * nat * nat * nat) : Prop :=
  let '(tok, q, eq, s') := r in
  (s <= s' <= es buf)%nat /\
  match toks s with
  | [] => tok = 0 /\ toks s' = []
  | t :: ts => tok = token_code t /\ toks s' = ts /\
      match t with TWord w => word_at (q, eq) w | TSym c => symbol c = true | TAppend => True end
  end.

Lemma skip_word_spec s c l : (s <= es buf)%nat -> rest s = c :: l -> wordchar c = true ->
  exists w, toks s = TWord w :: toks (skip_word buf s) /\ word_at (s, skip_word buf s) w /\
    (s <= skip_word buf s <= es buf)%nat.
Proof.
  intros Hs Hr Hc.
  destruct (advance_spec wordchar (es buf - s) s eq_refl Hs) as (w & H1 & H2 & H3 & H4 & H5).
  simpl in *. change (advance buf wordchar (es buf - s) s) with (skip_word buf s) in *.
  assert (Hne : w <> []).
  { intros ->. rewrite Hr in H3. simpl in H3. rewrite <- H3 in H5. congruence. }
  assert (Hb : breaks (rest (skip_word buf s))) by (unfold breaks; by destruct (rest _)).
  exists w. split; [|split; [|lia]].
  - unfold toks. rewrite H3. by apply lex_word.
  - repeat split; auto.
Qed.

Lemma gettoken_spec s : (s <= es buf)%nat -> got s (gettoken buf s).
Proof.
  intros Hs. unfold gettoken. destruct (skip_space_spec s Hs) as (Hq & Ht & Hsp).
  set (q := skip_space buf s) in *.
  assert (Hend : forall e tok, (q <= e <= es buf)%nat ->
    match toks q with
    | [] => tok = 0 /\ toks e = []
    | t :: ts => tok = token_code t /\ toks e = ts /\
        match t with TWord w => word_at (q, e) w | TSym c => symbol c = true | TAppend => True end
    end -> got s (tok, q, e, skip_space buf e)).
  { intros e tok He H. destruct (skip_space_spec e ltac:(lia)) as (He2 & Ht2 & _).
    unfold got. rewrite Ht2, <- Ht. split; [lia|done]. }
  rewrite at_rest by lia. destruct (rest q) as [|c l] eqn:Hr.
  { change (hd0 []) with 0. rewrite Z.eqb_refl. apply Hend; [lia|]. unfold toks. rewrite Hr. done. }
  change (hd0 (c :: l)) with c.
  destruct (rest_step _ _ _ Hr) as (Hl & Hle & Hc).
  destruct (Z.eqb_spec c 0) as [|_]; [done|].
  destruct (in_set (codes "|();&<") c) eqn:Hin; [|destruct (Z.eqb_spec c (ch ">")) as [->|Hgt]].
  - apply Hend; [lia|]. assert (Hsym : symbol c = true /\ c <> ch ">").
    { unfold in_set in Hin. destruct (strchr _ c) as [i|] eqn:Hi; [|done].
      assert (Hel : c ∈ codes "|();&<") by (apply (strchr_spec (codes "|();&<")); [done|eauto]).
      repeat (apply elem_of_cons in Hel as [->|Hel]; [done|]). inversion Hel. }
    destruct Hsym as [Hsym Hgt]. unfold toks. rewrite Hr, Hl, lex_sym by done. done.
  - rewrite (at_rest (S q)), Hl by lia. destruct (Z.eqb_spec (hd0 l) (ch ">")) as [Hg|Hg].
    + destruct l as [|c2 l2]; [done|]. unfold hd0 in Hg; simpl in Hg. subst c2.
      destruct (rest_step _ _ _ Hl) as (Hl2 & Hle2 & _).
      apply Hend; [lia|]. unfold toks. by rewrite Hr, Hl2, lex_append.
    + apply Hend; [lia|]. unfold toks. by rewrite Hr, Hl, lex_gt.
  - assert (Hw : wordchar c = true).
    { unfold wordchar. rewrite Hsp. simpl. destruct (symbol c) eqn:Hsym; [|done]. exfalso.
      apply symbol_cases in Hsym.
      repeat (apply elem_of_cons in Hsym as [->|Hsym]; [done|]). inversion Hsym. }
    destruct (skip_word_spec q c l ltac:(lia) Hr Hw) as (w & H1 & H2 & H3).
    apply Hend; [lia|]. by rewrite H1.
Qed.

(** [peek] passes the spaces and compares the first character. *)
Lemma peek_spec s set : (s <= es buf)%nat -> (forall c, in_set set c = true -> symbol c = true) ->
  exists s', peek buf s set = (in_set set (front (toks s)), s') /\ (s <= s' <= es buf)%nat /\ toks s' = toks s.
Proof.
  intros Hs Hset. unfold peek. destruct (skip_space_spec s Hs) as (Hq & Ht & Hsp).
  set (q := skip_space buf s) in *. exists q. split; [|done]. f_equal. rewrite at_rest by lia. rewrite <- Ht.
  unfold toks. destruct (rest q) as [|c l] eqn:Hr.
  { change (hd0 []) with 0. symmetry. apply in_set_0. }
  change (hd0 (c :: l)) with c.
  destruct (rest_step _ _ _ Hr) as (Hl & Hle & Hc). destruct (Z.eqb_spec c 0) as [|_]; [done|]. cbn [negb andb].
  destruct (symbol c) eqn:Hsym.
  - destruct (Z.eqb_spec c (ch ">")) as [->|Hgt].
    + f_equal. destruct l as [|c2 l2]; [done|]. destruct (Z.eqb_spec c2 (ch ">")) as [->|]; [done|].
      by rewrite lex_gt.
    + by rewrite lex_sym.
  - assert (Hw : wordchar c = true) by (unfold wordchar; by rewrite Hsym, Hsp).
    destruct (skip_word_spec q c l ltac:(lia) Hr Hw) as (w & H1 & _). unfold toks in H1. rewrite Hr in H1.
    rewrite H1. cbn [front].
    assert (H2 : in_set set c = false) by (destruct (in_set set c) eqn:E; [apply Hset in E; congruence|done]).
    rewrite H2. symmetry. destruct (in_set set (ch "a")) eqn:E; [|done]. apply Hset in E. done.
Qed.

Lemma length_toks s : (length (toks s) <= es buf - s)%nat.
Proof. unfold toks. pose proof (length_lex (rest s) []). rewrite length_rest in H. simpl in H. lia. Qed.

Lemma toks_end s : (s <= es buf)%nat -> toks s = [] -> skip_space buf s = es buf.
Proof.
  intros Hs Ht. destruct (skip_space_spec s Hs) as (Hq & Ht2 & Hsp). rewrite Ht in Ht2.
  set (q := skip_space buf s) in *. destruct (rest q) as [|c l] eqn:Hr.
  - pose proof (length_rest q) as H. rewrite Hr in H. simpl in H. lia.
  - exfalso. pose proof (gettoken_spec q ltac:(lia)) as H. unfold toks in Ht2. rewrite Hr in Ht2.
    destruct (wordchar c) eqn:Hw.
    + destruct (skip_word_spec q c l ltac:(lia) Hr Hw) as (w & H1 & _). unfold toks in H1. rewrite Hr in H1. congruence.
    + simpl in Ht2. rewrite Hw, Hsp in Ht2. simpl in Ht2. destruct (c =? ch ">"); [|done].
      destruct l as [|c2 l2]; [done|]. by destruct (c2 =? ch ">").
Qed.

End Line.
