(* ===== verification/ShParse.v ===== *)
(** * What the shell's parser accepts

    The grammar of command lines as inductive relations on tokens, the tree each
    phrase denotes, and the proof that [parsecmd] always ends, accepts exactly the
    lines of the grammar and hands [runcmd] the tree with its words. *)

From S2P Require Import Prelude Fcntl Ulib Sh ShLex.
Import Ulib Sh.

(** ** The grammar *)

(** A command with its words as text. *)
Inductive tree :=
| TExec (argv : list (list Z))
| TRedir (t : tree) (file : list Z) (mode fd : Z)
| TPipe (left right : tree)
| TList (left right : tree)
| TBack (t : tree).

(** A redirection: its file, the mode it is opened with and its descriptor. *)
Definition redir : Type := list Z * Z * Z.

(** The first redirection of the line is the innermost. *)
Definition wrap (rs : list redir) (t : tree) : tree :=
  fold_left (fun t r => TRedir t r.1.1 r.1.2 r.2) rs t.

Definition redir_of (t : token) : option (Z * Z) :=
  match t with
  | TSym c => if c =? ch "<" then Some (O_RDONLY, 0) else if c =? ch ">" then Some (O_WRONLY .| O_CREATE, 1) else None
  | TAppend => Some (O_WRONLY .| O_CREATE, 1)
  | TWord _ => None
  end.

(** Words and redirections in any order. *)
Inductive simple : list token -> list (list Z) -> list redir -> Prop :=
| simple_nil : simple [] [] []
| simple_word w ts ws rs : simple ts ws rs -> simple (TWord w :: ts) (w :: ws) rs
| simple_redir o w m d ts ws rs :
    redir_of o = Some (m, d) -> simple ts ws rs -> simple (o :: TWord w :: ts) ws ((w, m, d) :: rs).

Abbreviation amps n := (replicate n (TSym (ch "&"))).

Inductive Line : list token -> tree -> Prop :=
| Line_last p n t : Pipeline p t -> Line (p ++ amps n) (Nat.iter n TBack t)
| Line_more p n t l t' : Pipeline p t -> Line l t' ->
    Line (p ++ amps n ++ TSym (ch ";") :: l) (TList (Nat.iter n TBack t) t')
with Pipeline : list token -> tree -> Prop :=
| Pipeline_last c t : Command c t -> Pipeline c t
| Pipeline_more c t p t' : Command c t -> Pipeline p t' -> Pipeline (c ++ TSym (ch "|") :: p) (TPipe t t')
with Command : list token -> tree -> Prop :=
| Command_simple ts ws rs : simple ts ws rs -> (length ws < MAXARGS)%nat -> Command ts (wrap rs (TExec ws))
| Command_block l t ts rs : Line l t -> simple ts [] rs ->
    Command (TSym (ch "(") :: l ++ TSym (ch ")") :: ts) (wrap rs t).

Scheme Line_mut := Minimality for Line Sort Prop
  with Pipeline_mut := Minimality for Pipeline Sort Prop
  with Command_mut := Minimality for Command Sort Prop.
Combined Scheme grammar_ind from Line_mut, Pipeline_mut, Command_mut.

Lemma wrap_app rs rs' t : wrap (rs ++ rs') t = wrap rs' (wrap rs t).
Proof. apply fold_left_app. Qed.

Lemma simple_app ts ws rs ts' ws' rs' :
  simple ts ws rs -> simple ts' ws' rs' -> simple (ts ++ ts') (ws ++ ws') (rs ++ rs').
Proof. induction 1; simpl; intros; [done|constructor; auto|econstructor; eauto]. Qed.

(** The redirections before the first word. *)
Lemma simple_split ts ws rs : simple ts ws rs -> exists ts1 rs1 ts2 rs2,
  ts = ts1 ++ ts2 /\ rs = rs1 ++ rs2 /\ simple ts1 [] rs1 /\ simple ts2 ws rs2 /\
  match ts2 with [] => ws = [] /\ rs2 = [] | TWord w :: ts3 => exists ws', ws = w :: ws' /\ simple ts3 ws' rs2 | _ => False end.
Proof.
  induction 1 as [|w ts ws rs H IH|o w m d ts ws rs Ho H IH].
  - exists [], [], [], []. repeat split; constructor.
  - exists [], [], (TWord w :: ts), rs. repeat split; [constructor|by constructor|]. eauto.
  - destruct IH as (ts1 & rs1 & ts2 & rs2 & -> & -> & H1 & H2 & H3).
    exists (o :: TWord w :: ts1), ((w, m, d) :: rs1), ts2, rs2. repeat split; auto. by constructor.
Qed.

Section Parse.
Context (buf : list Z).
Local Abbreviation es := (es buf).
Local Abbreviation toks := (toks buf).
Local Abbreviation word_at := (word_at buf).

(** The command [c] is the tree [t] with its words at offsets of the line. *)
Fixpoint reads (c : cmd) (t : tree) : Prop :=
  match c, t with
  | EXEC argv, TExec ws => Forall2 word_at argv ws
  | REDIR c f e m d, TRedir t w m' d' => reads c t /\ word_at (f, e) w /\ m = m' /\ d = d'
  | PIPE l r, TPipe l' r' => reads l l' /\ reads r r'
  | LIST l r, TList l' r' => reads l l' /\ reads r r'
  | BACK c, TBack t => reads c t
  | _, _ => False
  end.

Lemma reads_set_arg rs : forall ret ws q eq w,
  reads ret (wrap rs (TExec ws)) -> word_at (q, eq) w -> reads (set_arg ret q eq) (wrap rs (TExec (ws ++ [w]))).
Proof.
  induction rs as [|r rs IH] using rev_ind; intros ret ws q eq w.
  - destruct ret; simpl; try done. intros H Hw. apply Forall2_app; [done|]. constructor; [done|constructor].
  - rewrite !wrap_app. destruct ret; try done. simpl. intros (H & H1) Hw. split; [|done]. by apply IH.
Qed.

(** The outcome of a parser started at [s] that is to find a phrase of [P]. *)
Definition parsed (s : nat) (r : result (cmd * nat)) (P : list token -> cmd -> Prop) : Prop :=
  match r with
  | Ok (c, s') => (s <= s' <= es)%nat /\ exists ts, toks s = ts ++ toks s' /\ P ts c
  | Panic _ => True
  | NoFuel => False
  end.

Lemma parsed_from s s0 r (P Q : list token -> cmd -> Prop) pre :
  parsed s r P -> (s0 <= s)%nat -> toks s0 = pre ++ toks s -> (forall ts c, P ts c -> Q (pre ++ ts) c) ->
  parsed s0 r Q.
Proof.
  unfold parsed. destruct r as [[c s']| |]; [|done|done].
  intros (H1 & ts & H2 & H3) H4 H5 H6. split; [lia|]. exists (pre ++ ts). rewrite H5, H2. split; [by rewrite app_assoc|auto].
Qed.

Lemma parsed_ok s c s' (P : list token -> cmd -> Prop) ts :
  (s <= s' <= es)%nat -> toks s = ts ++ toks s' -> P ts c -> parsed s (Ok (c, s')) P.
Proof. intros. split; [done|]. eauto. Qed.

Lemma parsed_bind s0 s r k (P Q : list token -> cmd -> Prop) :
  parsed s r P -> (s0 <= s)%nat ->
  (forall c s' ts, (s <= s' <= es)%nat -> toks s = ts ++ toks s' -> P ts c -> parsed s0 (k (c, s')) Q) ->
  parsed s0 (bind r k) Q.
Proof. unfold parsed at 1. destruct r as [[c s']| |]; [|done|done]. intros (H1 & ts & H2 & H3) _ Hk. eauto. Qed.

(** One [peek] at [s] and one [gettoken] there. *)
Ltac peeks s s1 :=
  match goal with
  | |- context [peek buf s ?set] =>
      let He := fresh "He" in let H1 := fresh "Hs" in let Ht := fresh "Ht" in
      destruct (peek_spec buf s set ltac:(lia) (in_set_symbol set eq_refl)) as (s1 & He & H1 & Ht);
      rewrite He; clear He; rewrite <- ?Ht
  end.
Ltac gets_token s :=
  let G := fresh "G" in
  pose proof (gettoken_spec buf s ltac:(lia)) as G; unfold got in G;
  destruct (gettoken buf s) as [[[?tok ?q] ?eq] ?s'].

Lemma one_sym c ts : c <> ch ">" -> c <> ch "a" -> in_set [c] (front ts) = true -> exists ts', ts = TSym c :: ts'.
Proof.
  unfold in_set. simpl. intros H1 H2. zcase; [done| |done].
  destruct ts as [|[x| |w] ts]; simpl in *; intros _; subst; eauto; try done; congruence.
Qed.

Definition is_redir (ts : list token) : bool := in_set (codes "<>") (front ts).

Lemma is_redir_spec t ts : is_redir (t :: ts) = true -> (match t with TSym c => symbol c = true | _ => True end) ->
  exists m d, redir_of t = Some (m, d) /\ forall c q eq,
    (if token_code t =? ch "<" then REDIR c q eq O_RDONLY 0
     else if token_code t =? ch ">" then REDIR c q eq (O_WRONLY .| O_CREATE) 1
     else if token_code t =? ch "+" then REDIR c q eq (O_WRONLY .| O_CREATE) 1
     else c) = REDIR c q eq m d.
Proof.
  destruct t as [c| |w]; [|by eauto|done]. intros H Hc. apply symbol_cases in Hc.
  repeat (apply elem_of_cons in Hc as [->|Hc]; [first [by vm_compute in H|eexists _, _; split; reflexivity]|]).
  inversion Hc.
Qed.

Lemma parseredirs_parsed n : forall c t s, (s <= es)%nat -> (length (toks s) < n)%nat -> reads c t ->
  parsed s (parseredirs buf n c s) (fun ts c' => exists rs, simple ts [] rs /\ reads c' (wrap rs t)).
Proof.
  induction n as [|n IH]; intros c t s Hs Hn Hr; [lia|]. cbn [parseredirs].
  peeks s s1. fold (is_redir (toks s1)). destruct (is_redir (toks s1)) eqn:Hp.
  - gets_token s1. destruct (toks s1) as [|o ts1] eqn:H1; [done|]. destruct G as (G1 & -> & G2 & G3).
    gets_token s'. destruct (toks s') as [|[x| |w] ts2] eqn:H2.
    + destruct G as (_ & -> & _). done.
    + destruct G as (_ & -> & _ & Hx). simpl. destruct (Z.eqb_spec x (ch "a")) as [->|]; [done|done].
    + destruct G as (_ & -> & _). done.
    + destruct G as (G4 & -> & G5 & G6). simpl negb. cbn iota.
      subst ts1. destruct (is_redir_spec o _ Hp) as (m & d & Ho & ->); [by destruct o|].
      eapply parsed_from with (s := s'0) (pre := [o; TWord w]); [|lia|by rewrite <- Ht, G5|].
      { apply IH with (t := TRedir t w m d); [lia| |simpl; auto].
        rewrite <- Ht in Hn. simpl in Hn. rewrite G5. lia. }
      intros ts c' (rs & Hsim & Hrd). exists ((w, m, d) :: rs). split; [by apply simple_redir|done].
  - apply parsed_ok with (ts := []); [lia|by rewrite Ht|]. exists []. split; [constructor|done].
Qed.

Lemma parseargs_parsed n : forall ret rs0 ws0 argc s, (s <= es)%nat -> (length (toks s) < n)%nat ->
  argc = length ws0 -> (argc < MAXARGS)%nat -> reads ret (wrap rs0 (TExec ws0)) ->
  parsed s (parseargs buf n ret argc s) (fun ts c => exists ws rs, simple ts ws rs /\
    (length (ws0 ++ ws) < MAXARGS)%nat /\ reads c (wrap (rs0 ++ rs) (TExec (ws0 ++ ws)))).
Proof.
  induction n as [|n IH]; intros ret rs0 ws0 argc s Hs Hn Hargc Hmax Hr; [lia|]. cbn [parseargs].
  assert (Hdone : forall s', (s <= s' <= es)%nat -> toks s' = toks s ->
    parsed s (Ok (ret, s')) (fun ts c => exists ws rs, simple ts ws rs /\
      (length (ws0 ++ ws) < MAXARGS)%nat /\ reads c (wrap (rs0 ++ rs) (TExec (ws0 ++ ws))))).
  { intros s' Hs' Ht'. apply parsed_ok with (ts := []); [lia|by rewrite Ht'|].
    exists [], []. rewrite !app_nil_r. split; [constructor|]. split; [lia|done]. }
  peeks s s1. destruct (in_set _ _); [apply Hdone; auto|].
  gets_token s1. destruct (toks s1) as [|[x| |w] ts1] eqn:H1.
  - destruct G as (G1 & -> & G2). simpl. apply Hdone; [lia|]. by rewrite G2.
  - destruct G as (G1 & -> & G2 & G3). apply symbol_cases in G3. simpl.
    repeat (apply elem_of_cons in G3 as [->|G3]; [done|]). inversion G3.
  - destruct G as (_ & -> & _). done.
  - destruct G as (G1 & -> & G2 & G3). simpl negb. cbn [Z.eqb]. change (ch "a" =? 0) with false. cbn iota.
    destruct (MAXARGS <=? S argc)%nat eqn:Hm; [done|]. apply Nat.leb_gt in Hm.
    eapply parsed_from with (s := s') (pre := [TWord w]); [|lia|by rewrite <- Ht, G2|intros ts c H; exact H].
    assert (Hlen : (length (toks s') < n)%nat) by (rewrite <- Ht in Hn; simpl in Hn; rewrite G2; lia).
    eapply (parsed_bind s' s'); [|lia|].
    { apply parseredirs_parsed with (t := wrap rs0 (TExec (ws0 ++ [w]))); [lia| |].
      - pose proof (length_toks buf s'). lia.
      - by apply reads_set_arg. }
    intros c s2 ts Hs2 Ht2 (rs & Hsim & Hrd).
    eapply parsed_from with (s := s2) (pre := ts); [|lia|done|].
    { rewrite <- wrap_app in Hrd. eapply IH; [lia| | | |exact Hrd].
      - rewrite Ht2, length_app in Hlen. lia.
      - rewrite length_app. simpl. lia.
      - lia. }
    intros ts2 c2 (ws & rs2 & Hsim2 & Hl2 & Hrd2). exists (w :: ws), (rs ++ rs2).
    rewrite <- !app_assoc in *. split; [|done]. constructor.
    by apply (simple_app ts [] rs).
Qed.

Lemma parseback_parsed n : forall c t s, (s <= es)%nat -> (length (toks s) < n)%nat -> reads c t ->
  parsed s (parseback buf n c s) (fun ts c' => exists k, ts = amps k /\ reads c' (Nat.iter k TBack t)).
Proof.
  induction n as [|n IH]; intros c t s Hs Hn Hr; [lia|]. cbn [parseback].
  peeks s s1. destruct (in_set (codes "&") (front (toks s1))) eqn:Hp.
  - gets_token s1. destruct (toks s1) as [|o ts1] eqn:H1; [done|]. destruct G as (G1 & _ & G2 & G3).
    apply (one_sym (ch "&")) in Hp as (ts' & [= -> _]); [|done..].
    eapply parsed_from with (s := s') (pre := [TSym (ch "&")]); [|lia|by rewrite <- Ht, G2|].
    { apply IH with (t := TBack t); [lia| |done]. rewrite <- Ht in Hn. simpl in Hn. rewrite G2. lia. }
    intros ts c' (k & -> & Hrd). exists (S k). split; [done|]. by rewrite Nat.iter_succ_r.
  - apply parsed_ok with (ts := []); [lia|by rewrite Ht|]. by exists O.
Qed.

Definition phrase (P : list token -> tree -> Prop) (ts : list token) (c : cmd) : Prop :=
  exists t, P ts t /\ reads c t.

(** Take the symbol [x] that [peek] found at [s]. *)
Ltac takes Hp x s s2 H2 :=
  let T := fresh "tail" in apply (one_sym x) in Hp as (T & Hp); [|done..];
  let G := fresh "G" in let G1 := fresh "G" in
  pose proof (gettoken_spec buf s ltac:(lia)) as G; unfold got in G;
  destruct (gettoken buf s) as [[[?tok ?q] ?eq] s2]; rewrite Hp in G; destruct G as (G1 & _ & H2 & _).

Abbreviation fuel_for s k n := (4 * length (toks s) + k <= n)%nat.

Lemma parseline_parsed n :
  (forall s, (s <= es)%nat -> fuel_for s 4 n -> parsed s (parseline buf n s) (phrase Line)) ->
  (forall s, (s <= es)%nat -> fuel_for s 3 n -> parsed s (parsepipe buf n s) (phrase Pipeline)) ->
  forall s, (s <= es)%nat -> fuel_for s 4 (S n) -> parsed s (parseline buf (S n) s) (phrase Line).
Proof.
  intros IHl IHp s Hs Hn. cbn [parseline].
  apply (parsed_bind s s _ _ _ _ (IHp s Hs ltac:(lia)) ltac:(lia)). intros c s1 ts1 Hs1 Ht1 (t & HP & Hr).
  assert (Hb : parsed s1 (parseback buf (S (es - s1)) c s1) (fun ts c' => exists k, ts = amps k /\ reads c' (Nat.iter k TBack t))).
  { apply parseback_parsed; [lia| |done]. pose proof (length_toks buf s1). lia. }
  apply (parsed_bind s s1 _ _ _ _ Hb ltac:(lia)). intros c2 s2 ts2 Hs2 Ht2 (k & -> & Hr2).
  peeks s2 s3. destruct (in_set (codes ";") (front (toks s3))) eqn:Hp.
  - takes Hp (ch ";") s3 s4 H4.
    assert (Hall : toks s = (ts1 ++ amps k ++ [TSym (ch ";")]) ++ toks s4)
      by (rewrite Ht1, Ht2, <- Ht, Hp, H4; by simplify_list_eq).
    assert (Hf : fuel_for s4 4 n) by (rewrite Hall, !length_app in Hn; simpl in Hn; lia).
    apply (parsed_bind s s4 _ _ _ _ (IHl s4 ltac:(lia) Hf) ltac:(lia)). intros c5 s5 ts5 Hs5 Ht5 (t5 & HL & Hr5).
    apply parsed_ok with (ts := ts1 ++ amps k ++ TSym (ch ";") :: ts5); [lia|rewrite Hall, Ht5; by simplify_list_eq|].
    exists (TList (Nat.iter k TBack t) t5). split; [by apply Line_more|done].
  - apply parsed_ok with (ts := ts1 ++ amps k); [lia|rewrite Ht1, Ht2, Ht; by simplify_list_eq|].
    exists (Nat.iter k TBack t). split; [by apply Line_last|done].
Qed.

Lemma parsepipe_parsed n :
  (forall s, (s <= es)%nat -> fuel_for s 3 n -> parsed s (parsepipe buf n s) (phrase Pipeline)) ->
  (forall s, (s <= es)%nat -> fuel_for s 2 n -> parsed s (parseexec buf n s) (phrase Command)) ->
  forall s, (s <= es)%nat -> fuel_for s 3 (S n) -> parsed s (parsepipe buf (S n) s) (phrase Pipeline).
Proof.
  intros IHp IHe s Hs Hn. cbn [parsepipe].
  apply (parsed_bind s s _ _ _ _ (IHe s Hs ltac:(lia)) ltac:(lia)). intros c s1 ts1 Hs1 Ht1 (t & HP & Hr).
  peeks s1 s3. destruct (in_set (codes "|") (front (toks s3))) eqn:Hp.
  - takes Hp (ch "|") s3 s4 H4.
    assert (Hall : toks s = (ts1 ++ [TSym (ch "|")]) ++ toks s4)
      by (rewrite Ht1, <- Ht, Hp, H4; by simplify_list_eq).
    assert (Hf : fuel_for s4 3 n) by (rewrite Hall, !length_app in Hn; simpl in Hn; lia).
    apply (parsed_bind s s4 _ _ _ _ (IHp s4 ltac:(lia) Hf) ltac:(lia)). intros c5 s5 ts5 Hs5 Ht5 (t5 & HL & Hr5).
    apply parsed_ok with (ts := ts1 ++ TSym (ch "|") :: ts5); [lia|rewrite Hall, Ht5; by simplify_list_eq|].
    exists (TPipe t t5). split; [by apply Pipeline_more|done].
  - apply parsed_ok with (ts := ts1); [lia|by rewrite Ht1, Ht|]. exists t. split; [by apply Pipeline_last|done].
Qed.

Lemma parseexec_parsed n :
  (forall s, (s <= es)%nat -> fuel_for s 1 n -> in_set (codes "(") (front (toks s)) = true ->
     parsed s (parseblock buf n s) (phrase Command)) ->
  forall s, (s <= es)%nat -> fuel_for s 2 (S n) -> parsed s (parseexec buf (S n) s) (phrase Command).
Proof.
  intros IHb s Hs Hn. cbn [parseexec]. peeks s s1. destruct (in_set (codes "(") (front (toks s1))) eqn:Hp.
  - eapply parsed_from with (s := s1) (pre := []); [|lia|done|intros ts c H; exact H].
    apply IHb; [lia|rewrite Ht; lia|done].
  - assert (Hr : parsed s1 (parseredirs buf (S (es - s1)) (EXEC []) s1)
      (fun ts c' => exists rs, simple ts [] rs /\ reads c' (wrap rs (TExec [])))).
    { apply parseredirs_parsed; [lia| |constructor]. pose proof (length_toks buf s1). lia. }
    apply (parsed_bind s s1 _ _ _ _ Hr ltac:(lia)). intros c s2 ts2 Hs2 Ht2 (rs & Hsim & Hrd).
    eapply parsed_from with (s := s2) (pre := ts2); [|lia|by rewrite <- Ht|].
    { apply (parseargs_parsed _ c rs []); [lia| |done|unfold MAXARGS; simpl; lia|done].
      pose proof (length_toks buf s2). lia. }
    intros ts c2 (ws & rs2 & Hsim2 & Hl & Hrd2). exists (wrap (rs ++ rs2) (TExec ws)). split; [|done].
    apply Command_simple; [|done]. by apply (simple_app ts2 [] rs).
Qed.

Lemma parseblock_parsed n :
  (forall s, (s <= es)%nat -> fuel_for s 4 n -> parsed s (parseline buf n s) (phrase Line)) ->
  forall s, (s <= es)%nat -> fuel_for s 1 (S n) -> in_set (codes "(") (front (toks s)) = true ->
    parsed s (parseblock buf (S n) s) (phrase Command).
Proof.
  intros IHl s Hs Hn Hpar. cbn [parseblock]. peeks s s1. rewrite <- Ht in Hpar. rewrite Hpar. cbn [negb].
  takes Hpar (ch "(") s1 s2 H2.
  assert (Hall : toks s = [TSym (ch "(")] ++ toks s2) by (by rewrite <- Ht, Hpar, H2).
  assert (Hf : fuel_for s2 4 n) by (rewrite Hall in Hn; simpl in Hn; lia).
  apply (parsed_bind s s2 _ _ _ _ (IHl s2 ltac:(lia) Hf) ltac:(lia)). intros c s3 ts3 Hs3 Ht3 (t & HL & Hr).
  peeks s3 s4. destruct (in_set (codes ")") (front (toks s4))) eqn:Hp; [|done]. cbn [negb].
  takes Hp (ch ")") s4 s5 H5.
  assert (Hall2 : toks s = (TSym (ch "(") :: ts3 ++ [TSym (ch ")")]) ++ toks s5)
    by (rewrite Hall, Ht3, <- Ht0, Hp, H5; by simplify_list_eq).
  eapply parsed_from with (s := s5); [|lia|exact Hall2|].
  { apply parseredirs_parsed with (t := t); [lia| |done]. pose proof (length_toks buf s5). lia. }
  intros ts c2 (rs & Hsim & Hrd). exists (wrap rs t). split; [|done]. simplify_list_eq. by apply Command_block.
Qed.

Lemma parse_parsed n :
  (forall s, (s <= es)%nat -> fuel_for s 4 n -> parsed s (parseline buf n s) (phrase Line)) /\
  (forall s, (s <= es)%nat -> fuel_for s 3 n -> parsed s (parsepipe buf n s) (phrase Pipeline)) /\
  (forall s, (s <= es)%nat -> fuel_for s 2 n -> parsed s (parseexec buf n s) (phrase Command)) /\
  (forall s, (s <= es)%nat -> fuel_for s 1 n -> in_set (codes "(") (front (toks s)) = true ->
     parsed s (parseblock buf n s) (phrase Command)).
Proof.
  induction n as [|n (IHl & IHp & IHe & IHb)]; [repeat split; intros; lia|].
  split; [by apply parseline_parsed|]. split; [by apply parsepipe_parsed|].
  split; [by apply parseexec_parsed|by apply parseblock_parsed].
Qed.

(** ** Every phrase is found *)

(** What comes after a phrase: nothing, or one of some symbols. *)
Definition follow (set : list Z) (ts : list token) : Prop :=
  ts = [] \/ exists c ts', ts = TSym c :: ts' /\ c ∈ set.

Lemma follow_mono set set' ts : (forall c, c ∈ set -> c ∈ set') -> follow set ts -> follow set' ts.
Proof. intros H [->|(c & ts' & -> & Hc)]; [by left|right; eauto]. Qed.

(** Decide what [peek] answers for what follows a phrase. *)
Ltac follows H :=
  let c := fresh "c" in let T := fresh "T" in let Hc := fresh "Hc" in
  destruct H as [->|(c & T & -> & Hc)];
  [|cbv [codes] in Hc; repeat (apply elem_of_cons in Hc as [->|Hc]; [|]); [..|by inversion Hc]].

(** A parser returns, at the tokens [r], a command that reads as [t]. *)
Definition found (s : nat) (res : result (cmd * nat)) (r : list token) (t : tree) : Prop :=
  exists c s', res = Ok (c, s') /\ (s <= s' <= es)%nat /\ toks s' = r /\ reads c t.

Lemma found_bind s0 s res k r r' t t' : found s res r t -> (s0 <= s)%nat ->
  (forall c s', (s <= s' <= es)%nat -> toks s' = r -> reads c t -> found s0 (k (c, s')) r' t') ->
  found s0 (bind res k) r' t'.
Proof. intros (c & s' & -> & H1 & H2 & H3) _ Hk. simpl. eauto. Qed.

Lemma found_from s0 s res r t : found s res r t -> (s0 <= s)%nat -> found s0 res r t.
Proof. intros (c & s' & -> & H1 & H2) H. exists c, s'. split; [done|]. split; [lia|done]. Qed.

Lemma found_ok s c s' r t : (s <= s' <= es)%nat -> toks s' = r -> reads c t -> found s (Ok (c, s')) r t.
Proof. intros. exists c, s'. auto. Qed.

Lemma redir_front o w m d ts : redir_of o = Some (m, d) -> is_redir (o :: TWord w :: ts) = true.
Proof.
  unfold is_redir. destruct o as [c| |w']; simpl; [|done|done]. zcase; subst; done.
Qed.

Lemma simple_front ts ws rs r : simple ts ws rs -> is_redir r = false -> ws = [] -> is_redir (ts ++ r) = negb (bool_decide (ts = [])).
Proof. destruct 1; intros; simplify_eq/=; [done|]. by eapply redir_front. Qed.

Lemma redirs_found ts ws rs : simple ts ws rs -> ws = [] -> forall n c t s r, (s <= es)%nat -> (length (toks s) < n)%nat ->
  toks s = ts ++ r -> is_redir r = false -> reads c t -> found s (parseredirs buf n c s) r (wrap rs t).
Proof.
  induction 1 as [|w ts ws rs H IH|o w m d ts ws rs Ho H IH]; intros Hws n c t s r Hs Hn Ht Hr Hrd; [|done|].
  all: destruct n as [|n]; [lia|]; cbn [parseredirs]; peeks s s1; rewrite Ht0, Ht in *.
  - simpl app in *. fold (is_redir r). rewrite Hr. apply found_ok; [lia|done|done].
  - fold (is_redir ((o :: TWord w :: ts) ++ r)). change ((o :: TWord w :: ts) ++ r) with (o :: TWord w :: (ts ++ r)) in *.
    rewrite (redir_front o w m d (ts ++ r) Ho).
    gets_token s1. rewrite Ht0 in G. destruct G as (G1 & -> & G2 & G3).
    gets_token s'. rewrite G2 in G. destruct G as (G4 & -> & G5 & G6). simpl negb. cbn iota.
    destruct (is_redir_spec o (TWord w :: ts ++ r) (redir_front o w m d (ts ++ r) Ho)) as (m' & d' & Ho' & ->); [by destruct o|].
    simplify_eq. apply (found_from s s'0); [|lia]. apply (IH eq_refl n (REDIR c q0 eq0 m d) (TRedir t w m d)); [lia| |done|done|].
    + rewrite G5. simpl in Hn. lia.
    + simpl. auto.
Qed.

Lemma args_found n : forall ts ws rs ret rs0 ws0 argc s r, (s <= es)%nat -> (length (toks s) < n)%nat ->
  toks s = ts ++ r -> simple ts ws rs -> is_redir (ts ++ r) = false -> follow (codes "|)&;") r ->
  argc = length ws0 -> (length (ws0 ++ ws) < MAXARGS)%nat -> reads ret (wrap rs0 (TExec ws0)) ->
  found s (parseargs buf n ret argc s) r (wrap (rs0 ++ rs) (TExec (ws0 ++ ws))).
Proof.
  induction n as [|n IH]; intros ts ws rs ret rs0 ws0 argc s r Hs Hn Ht Hsim Hnr Hf -> Hmax Hrd; [lia|].
  cbn [parseargs]. peeks s s1. rewrite Ht0, Ht in *. destruct Hsim as [|w ts ws rs Hsim|o w m d ts ws rs Ho Hsim].
  - rewrite !app_nil_r. simpl app in *.
    assert (H : in_set (codes "|)&;") (front r) = true \/ r = []) by (follows Hf; auto).
    destruct (in_set _ (front r)) eqn:Hin; [by apply found_ok|]. destruct H as [|Hnil]; [done|]. rewrite Hnil in *.
    gets_token s1. rewrite Ht0 in G. destruct G as (G1 & -> & G2). simpl. apply found_ok; [lia|done|done].
  - change ((TWord w :: ts) ++ r) with (TWord w :: (ts ++ r)) in *. change (in_set (codes "|)&;") (front (TWord w :: ts ++ r))) with false.
    cbn iota. gets_token s1. rewrite Ht0 in G. destruct G as (G1 & -> & G2 & G3). simpl negb. change (token_code (TWord w) =? 0) with false. cbn iota.
    rewrite length_app in Hmax. simpl in Hmax.
    destruct (MAXARGS <=? S (length ws0))%nat eqn:Hm; [apply Nat.leb_le in Hm; lia|].
    destruct (simple_split _ _ _ Hsim) as (ts1 & rs1 & ts2 & rs2 & -> & -> & H1 & H2 & H3).
    rewrite <- app_assoc in G2.
    assert (Hnr2 : is_redir (ts2 ++ r) = false) by (destruct ts2 as [|[| |] ts2]; [follows Hf; done|done..]).
    assert (Hl : (length (toks s') < n)%nat) by (rewrite G2; simpl in Hn; rewrite !length_app in *; lia).
    assert (Hred : found s' (parseredirs buf (S (es - s')) (set_arg ret q eq) s') (ts2 ++ r) (wrap rs1 (wrap rs0 (TExec (ws0 ++ [w]))))).
    { apply (redirs_found ts1 [] rs1 H1 eq_refl); [lia| |done|done|by apply reads_set_arg].
      pose proof (length_toks buf s'). lia. }
    eapply found_bind; [exact Hred|lia|]. intros c s2 Hs2 Ht2 Hrd2. apply (found_from s s2); [|lia].
    rewrite <- wrap_app in Hrd2. rewrite app_assoc. change (w :: ws) with ([w] ++ ws). rewrite app_assoc.
    apply (IH ts2); [lia| |done|done|done|done|rewrite length_app; simpl; lia|rewrite !length_app; simpl; lia|done].
    rewrite Ht2. rewrite G2, !length_app in Hl. rewrite length_app. lia.
  - change ((o :: TWord w :: ts) ++ r) with (o :: TWord w :: (ts ++ r)) in Hnr. by rewrite (redir_front o w m d _ Ho) in Hnr.
Qed.

Lemma back_found k : forall n c t s r, (s <= es)%nat -> (length (toks s) < n)%nat ->
  toks s = amps k ++ r -> in_set (codes "&") (front r) = false -> reads c t ->
  found s (parseback buf n c s) r (Nat.iter k TBack t).
Proof.
  induction k as [|k IH]; intros n c t s r Hs Hn Ht Hr Hrd; (destruct n as [|n]; [lia|]); cbn [parseback];
    peeks s s1; rewrite Ht0, Ht in *.
  - simpl app. rewrite Hr. by apply found_ok.
  - simpl app in *. change (in_set (codes "&") (front (TSym (ch "&") :: amps k ++ r))) with true. cbn iota.
    gets_token s1. rewrite Ht0 in G. destruct G as (G1 & _ & G2 & _). apply (found_from s s'); [|lia].
    rewrite Nat.iter_succ_r. apply IH; [lia| |done|done|done]. rewrite G2. simpl in Hn. lia.
Qed.

(** [found] for a phrase of the grammar, before what may follow it. *)
Definition completes (parse : nat -> nat -> result (cmd * nat)) (k : nat) (set : list Z) (ts : list token) (t : tree) : Prop :=
  forall n s r, (s <= es)%nat -> toks s = ts ++ r -> follow set r -> fuel_for s k n -> found s (parse n s) r t.

Lemma amps_follow k r set : follow set r -> ch "&" ∈ set -> follow set (amps k ++ r).
Proof. intros Hr Hin. destruct k as [|k]; [done|]. right. exists (ch "&"), (amps k ++ r). done. Qed.

(** The [&]s after a pipeline. *)
Lemma pipeline_backs n s k p t r : completes (parsepipe buf) 3 (codes ")&;") p t ->
  (s <= es)%nat -> toks s = p ++ amps k ++ r -> follow (codes ");") r -> fuel_for s 3 n ->
  forall cont r' t', 
  (forall c s', (s <= s' <= es)%nat -> toks s' = r -> reads c (Nat.iter k TBack t) -> found s (cont (c, s')) r' t') ->
  found s (bind (parsepipe buf n s) (fun '(c, s1) => bind (parseback buf (S (es - s1)) c s1) cont)) r' t'.
Proof.
  intros Hp Hs Ht Hr Hf cont r' t' Hk.
  assert (Hr2 : follow (codes ")&;") r) by (eapply follow_mono; [|exact Hr]; intros c; cbv [codes]; rewrite !elem_of_cons; tauto).
  assert (Hfr : in_set (codes "&") (front r) = false) by (follows Hr; done).
  eapply found_bind; [apply (Hp n s (amps k ++ r)); [done|done| |done]|lia|].
  { apply amps_follow; [done|]. cbv [codes]. rewrite !elem_of_cons. auto. }
  intros c s1 Hs1 Ht1 Hrd. eapply (found_bind s s1); [|lia|].
  { apply (back_found k _ c t s1 r); [lia| |done|done|done]. pose proof (length_toks buf s1). lia. }
  intros c2 s2 Hs2 Ht2 Hrd2. apply Hk; [lia|done|done].
Qed.

Lemma line_last_completes p k t : completes (parsepipe buf) 3 (codes ")&;") p t ->
  completes (parseline buf) 4 (codes ")") (p ++ amps k) (Nat.iter k TBack t).
Proof.
  intros Hp n s r Hs Ht Hr Hf. destruct n as [|n]; [lia|]. cbn [parseline]. rewrite <- app_assoc in Ht.
  eapply (pipeline_backs n s k p t r Hp Hs Ht); [|lia|].
  { eapply follow_mono; [|exact Hr]. intros c; cbv [codes]; rewrite !elem_of_cons; tauto. }
  intros c s1 Hs1 Ht1 Hrd. peeks s1 s2. rewrite Ht0, Ht1.
  assert (Hfr : in_set (codes ";") (front r) = false) by (follows Hr; done). rewrite Hfr.
  apply found_ok; [lia|by rewrite Ht0|done].
Qed.

Lemma line_more_completes p k t l t' : completes (parsepipe buf) 3 (codes ")&;") p t ->
  completes (parseline buf) 4 (codes ")") l t' ->
  completes (parseline buf) 4 (codes ")") (p ++ amps k ++ TSym (ch ";") :: l) (TList (Nat.iter k TBack t) t').
Proof.
  intros Hp Hl n s r Hs Ht Hr Hf. destruct n as [|n]; [lia|]. cbn [parseline].
  assert (Ht' : toks s = p ++ amps k ++ (TSym (ch ";") :: l ++ r)) by (rewrite Ht; by simplify_list_eq).
  eapply (pipeline_backs n s k p t _ Hp Hs Ht'); [|lia|].
  { right. eexists _, _. split; [done|]. cbv [codes]. rewrite !elem_of_cons. auto. }
  intros c s1 Hs1 Ht1 Hrd. peeks s1 s2. rewrite Ht1 in Ht0. rewrite Ht0.
  change (in_set (codes ";") (front (TSym (ch ";") :: l ++ r))) with true. cbn iota.
  gets_token s2. rewrite Ht0 in G. destruct G as (G1 & _ & G2 & _).
  eapply found_bind; [apply (Hl n s' r); [lia|done|done|]|lia|].
  { rewrite G2. rewrite Ht', !length_app in Hf. simpl in Hf. rewrite length_app in *. lia. }
  intros c2 s3 Hs3 Ht3 Hrd3. apply found_ok; [lia|done|done].
Qed.

Lemma pipeline_last_completes c t : completes (parseexec buf) 2 (codes "|)&;") c t ->
  completes (parsepipe buf) 3 (codes ")&;") c t.
Proof.
  intros Hc n s r Hs Ht Hr Hf. destruct n as [|n]; [lia|]. cbn [parsepipe].
  eapply found_bind; [apply (Hc n s r); [done|done| |lia]|lia|].
  { eapply follow_mono; [|exact Hr]. intros x; cbv [codes]; rewrite !elem_of_cons; tauto. }
  intros c1 s1 Hs1 Ht1 Hrd. peeks s1 s2. rewrite Ht0, Ht1.
  assert (Hfr : in_set (codes "|") (front r) = false) by (follows Hr; done). rewrite Hfr.
  apply found_ok; [lia|by rewrite Ht0|done].
Qed.

Lemma pipeline_more_completes c t p t' : completes (parseexec buf) 2 (codes "|)&;") c t ->
  completes (parsepipe buf) 3 (codes ")&;") p t' ->
  completes (parsepipe buf) 3 (codes ")&;") (c ++ TSym (ch "|") :: p) (TPipe t t').
Proof.
  intros Hc Hp n s r Hs Ht Hr Hf. destruct n as [|n]; [lia|]. cbn [parsepipe].
  assert (Ht' : toks s = c ++ (TSym (ch "|") :: p ++ r)) by (rewrite Ht; by simplify_list_eq).
  eapply found_bind; [apply (Hc n s _ Hs Ht'); [|lia]|lia|].
  { right. eexists _, _. split; [done|]. cbv [codes]. rewrite !elem_of_cons. auto. }
  intros c1 s1 Hs1 Ht1 Hrd. peeks s1 s2. rewrite Ht1 in Ht0. rewrite Ht0.
  change (in_set (codes "|") (front (TSym (ch "|") :: p ++ r))) with true. cbn iota.
  gets_token s2. rewrite Ht0 in G. destruct G as (G1 & _ & G2 & _).
  eapply found_bind; [apply (Hp n s' r); [lia|done|done|]|lia|].
  { rewrite G2. rewrite Ht', !length_app in Hf. simpl in Hf. rewrite length_app in *. lia. }
  intros c2 s3 Hs3 Ht3 Hrd3. apply found_ok; [lia|done|done].
Qed.

Lemma not_block ts ws rs r : simple ts ws rs -> follow (codes "|)&;") r -> in_set (codes "(") (front (ts ++ r)) = false.
Proof.
  destruct 1 as [|w ts ws rs H|o w m d ts ws rs Ho H]; intros Hr; [simpl app; follows Hr; done|done|].
  destruct o as [c| |w']; [|done|done]. simpl in Ho. simpl app. revert Ho. zcase; subst; done.
Qed.

Lemma command_simple_completes ts ws rs : simple ts ws rs -> (length ws < MAXARGS)%nat ->
  completes (parseexec buf) 2 (codes "|)&;") ts (wrap rs (TExec ws)).
Proof.
  intros Hsim Hws n s r Hs Ht Hr Hf. destruct n as [|n]; [lia|]. cbn [parseexec].
  peeks s s1. rewrite Ht in Ht0. rewrite Ht0, (not_block _ _ _ _ Hsim Hr).
  destruct (simple_split _ _ _ Hsim) as (ts1 & rs1 & ts2 & rs2 & -> & -> & H1 & H2 & H3).
  rewrite <- app_assoc in Ht0.
  assert (Hnr : is_redir (ts2 ++ r) = false) by (destruct ts2 as [|[| |] ts2]; [follows Hr; done|done..]).
  eapply found_bind.
  { apply (redirs_found ts1 [] rs1 H1 eq_refl _ (EXEC []) (TExec []) s1 (ts2 ++ r)); [lia| |done|done|constructor].
    pose proof (length_toks buf s1). lia. }
  { lia. }
  intros c s2 Hs2 Ht2 Hrd. apply (found_from s s2); [|lia]. rewrite wrap_app, <- wrap_app.
  apply (args_found _ ts2 ws rs2 c rs1 []); [lia| |done|done|done|done|done|done|done].
  pose proof (length_toks buf s2). lia.
Qed.

Lemma command_block_completes l t ts rs : completes (parseline buf) 4 (codes ")") l t -> simple ts [] rs ->
  completes (parseexec buf) 2 (codes "|)&;") (TSym (ch "(") :: l ++ TSym (ch ")") :: ts) (wrap rs t).
Proof.
  intros Hl Hsim n s r Hs Ht Hr Hf. destruct n as [|n]; [lia|]. cbn [parseexec].
  assert (Ht' : toks s = TSym (ch "(") :: l ++ (TSym (ch ")") :: ts ++ r)) by (rewrite Ht; by simplify_list_eq).
  rewrite Ht' in Hf. simpl in Hf. rewrite length_app in Hf. simpl in Hf.
  peeks s s1. rewrite Ht0, Ht'. cbn [front]. change (in_set (codes "(") (ch "(")) with true. cbn iota.
  destruct n as [|n]; [lia|]. cbn [parseblock].
  peeks s1 s2. rewrite Ht0, Ht' in Ht1. rewrite Ht1. cbn [front]. change (in_set (codes "(") (ch "(")) with true. cbn [negb].
  gets_token s2. rewrite Ht1 in G. destruct G as (G1 & _ & G2 & _).
  eapply found_bind; [apply (Hl n s' _ ltac:(lia) G2); [|rewrite G2, length_app; simpl; lia]|lia|].
  { right. eexists _, _. split; [done|]. cbv [codes]. rewrite !elem_of_cons. auto. }
  intros c s3 Hs3 Ht3 Hrd. peeks s3 s4. rewrite Ht3 in Ht2. rewrite Ht2. cbn [front].
  change (in_set (codes ")") (ch ")")) with true. cbn [negb].
  gets_token s4. rewrite Ht2 in G. destruct G as (G4 & _ & G5 & _). apply (found_from s s'0); [|lia].
  apply (redirs_found ts [] rs Hsim eq_refl); [lia| |done| |done].
  - pose proof (length_toks buf s'0). lia.
  - follows Hr; done.
Qed.

Lemma grammar_completes :
  (forall ts t, Line ts t -> completes (parseline buf) 4 (codes ")") ts t) /\
  (forall ts t, Pipeline ts t -> completes (parsepipe buf) 3 (codes ")&;") ts t) /\
  (forall ts t, Command ts t -> completes (parseexec buf) 2 (codes "|)&;") ts t).
Proof.
  apply grammar_ind; intros.
  - by apply line_last_completes.
  - by apply line_more_completes.
  - by apply pipeline_last_completes.
  - by apply pipeline_more_completes.
  - by apply command_simple_completes.
  - by apply command_block_completes.
Qed.
End Parse.
