(* ===== verification/ShTree.v ===== *)
(** * [parsecmd]: the words it leaves in the buffer, and its correctness *)

From S2P Require Import Prelude Ulib Sh ShLex ShParse.
Import Ulib Sh.

(** The command as its words read in the buffer [b]. *)
Fixpoint tree_of (b : list Z) (c : cmd) : tree :=
  match c with
  | EXEC argv => TExec (map (fun w => string_at b (fst w)) argv)
  | REDIR c file _ mode fd => TRedir (tree_of b c) (string_at b file) mode fd
  | PIPE l r => TPipe (tree_of b l) (tree_of b r)
  | LIST l r => TList (tree_of b l) (tree_of b r)
  | BACK c => TBack (tree_of b c)
  end.

(** The offsets of all words of a command, in the order [nulterminate] ends them. *)
Fixpoint words (c : cmd) : list (nat * nat) :=
  match c with
  | EXEC argv => argv
  | REDIR c file efile _ _ => words c ++ [(file, efile)]
  | PIPE l r | LIST l r => words l ++ words r
  | BACK c => words c
  end.

Lemma nulterminate_words c : forall b, nulterminate c b = nul_words (words c) b.
Proof.
  unfold nul_words. induction c as [argv|c IH f e m d|l IHl r IHr|l IHl r IHr|c IH]; intros b; simpl;
    rewrite ?fold_left_app; [done|by rewrite IH|by rewrite IHl, IHr|by rewrite IHl, IHr|done].
Qed.

Lemma tree_of_words b c t : forall buf, reads buf c t ->
  (forall p w, p ∈ words c -> word_at buf p w -> string_at b (fst p) = w) -> tree_of b c = t.
Proof.
  intros buf. revert t.
  induction c as [argv|c IH f e m d|l IHl r IHr|l IHl r IHr|c IH]; intros [ws|t' w m' d'|l' r'|l' r'|t'] Hr Hw; try done; simpl in *.
  - f_equal. induction Hr as [|p w argv ws Hp _ IH]; [done|]. simpl. f_equal.
    + apply Hw; [left|done].
    + apply IH. intros p' w' Hin. apply Hw. by right.
  - destruct Hr as (Hr & Hp & -> & ->). f_equal.
    + apply IH; [done|]. intros p' w' Hin. apply Hw. apply elem_of_app. by left.
    + apply (Hw (f, e)); [|done]. apply elem_of_app. right. left.
  - destruct Hr as (H1 & H2). f_equal; [apply IHl|apply IHr]; auto; intros p' w' Hin; apply Hw, elem_of_app; auto.
  - destruct Hr as (H1 & H2). f_equal; [apply IHl|apply IHr]; auto; intros p' w' Hin; apply Hw, elem_of_app; auto.
  - f_equal. by apply IH.
Qed.

Section Words.
Context (buf : list Z) (Hnul : (es buf < length buf)%nat).
Local Abbreviation rest := (rest buf).
Local Abbreviation stop := (stop buf).
Local Abbreviation word_at := (word_at buf).

Lemma reads_words c : forall t, reads buf c t -> Forall (fun p => exists w, word_at p w) (words c).
Proof using Type.
  induction c as [argv|c IH f e m d|l IHl r IHr|l IHl r IHr|c IH]; intros [ws|t' w m' d'|l' r'|l' r'|t'] Hr; try done; simpl in *.
  - induction Hr; constructor; eauto.
  - destruct Hr as (Hr & Hp & _). apply Forall_app. split; [eauto|]. repeat constructor. eauto.
  - destruct Hr. apply Forall_app. eauto.
  - destruct Hr. apply Forall_app. eauto.
  - eauto.
Qed.

(** A buffer that differs from the line only by NULs at places where words end. *)
Definition held (b : list Z) : Prop :=
  length b = length buf /\ forall i, b !! i = buf !! i \/ stop i /\ b !! i = Some 0.

Lemma held_refl : held buf.
Proof using Type. split; auto. Qed.

Lemma held_nul b e : held b -> stop e -> held (<[e := 0]> b) /\ <[e := 0]> b !! e = Some 0.
Proof using Hnul.
  intros [Hl Hb] He. assert (Hlt : (e < length b)%nat) by (rewrite Hl; destruct He; lia).
  split; [|by apply list_lookup_insert_eq]. split; [by rewrite length_insert|]. intros i.
  destruct (decide (e = i)) as [->|Hne]; [right; split; [done|by apply list_lookup_insert_eq]|].
  rewrite list_lookup_insert_ne by done. apply Hb.
Qed.

Lemma nul_words_held ps : forall b, Forall (fun p => exists w, word_at p w) ps -> held b ->
  held (nul_words ps b) /\ (forall e, b !! e = Some 0 -> nul_words ps b !! e = Some 0) /\
  Forall (fun p => nul_words ps b !! snd p = Some 0) ps.
Proof using Hnul.
  unfold nul_words. induction ps as [|p ps IH]; intros b Hps Hb; [by simpl; auto|].
  apply Forall_cons in Hps as [(w & _ & _ & _ & Hstop) Hps]. simpl.
  destruct (held_nul b (snd p) Hb Hstop) as [Hb' He].
  destruct (IH _ Hps Hb') as (H1 & H2 & H3). split; [done|]. split.
  - intros e Hz. apply H2. destruct (decide (snd p = e)) as [<-|Hne]; [done|]. by rewrite list_lookup_insert_ne.
  - constructor; [by apply H2|done].
Qed.

Lemma lookup_rest i : rest i !! 0%nat = line buf !! i.
Proof using Hnul. unfold rest. rewrite lookup_drop. f_equal. lia. Qed.

Lemma lookup_line i c : line buf !! i = Some c -> buf !! i = Some c.
Proof using Type.
  intros H. destruct (buf_line buf) as (l & Hl & _). rewrite Hl. rewrite lookup_app_l; [done|].
  by apply lookup_lt_Some in H.
Qed.

(** A word that got its NUL reads as itself. *)
Lemma word_reads b q e w : word_at (q, e) w -> held b -> b !! e = Some 0 -> string_at b q = w.
Proof using Hnul.
  intros (Hne & Hw & Hrest & He & _) [Hl Hb] Hz. simpl in *.
  assert (Hlen : (es buf - q = length w + (es buf - e))%nat) by (rewrite <- !length_rest, Hrest; by rewrite length_app).
  assert (Hq : (q + length w = e)%nat) by (destruct w; [done|]; simpl in *; lia).
  assert (Hnz : Forall (fun c => c <> 0) w).
  { pose proof (line_nonzero buf) as H. rewrite <- (take_drop q (line buf)) in H. apply Forall_app in H as [_ H].
    fold (rest q) in H. rewrite Hrest in H. by apply Forall_app in H as [H _]. }
  assert (Hpre : take (length w) (drop q b) = w).
  { apply list_eq. intros i. destruct (decide (i < length w)%nat) as [Hi|Hi].
    - destruct (lookup_lt_is_Some_2 w i Hi) as [c Hc]. rewrite lookup_take_lt, lookup_drop, Hc by done.
      assert (Hline : line buf !! (q + i)%nat = Some c).
      { rewrite <- lookup_drop. fold (rest q). rewrite Hrest. by rewrite lookup_app_l. }
      destruct (Hb (q + i)%nat) as [->|[[_ Hs] _]]; [by apply lookup_line|]. exfalso.
      pose proof (lookup_rest (q + i)) as H0. rewrite Hline in H0. unfold breaks in Hs.
      destruct (rest (q + i)) as [|c0 l0]; [done|]. simpl in H0. injection H0 as ->.
      rewrite Forall_forall in Hw. rewrite (Hw c) in Hs; [done|]. by eapply list_elem_of_lookup_2.
    - rewrite !lookup_ge_None_2; [done|lia|]. rewrite length_take. lia. }
  unfold string_at. rewrite <- (take_drop (length w) (drop q b)), Hpre, drop_drop, Hq.
  rewrite (drop_S b 0 e Hz). by apply cstr_app.
Qed.

Lemma nulterminate_tree c t : reads buf c t -> tree_of (nulterminate c buf) c = t.
Proof using Hnul.
  intros Hr. apply (tree_of_words _ _ _ buf Hr). intros [q e] w Hin Hw. rewrite nulterminate_words.
  destruct (nul_words_held (words c) buf (reads_words c t Hr) held_refl) as (H1 & _ & H3).
  apply (word_reads _ q e); [done|done|]. rewrite Forall_forall in H3. by apply (H3 (q, e)).
Qed.
End Words.

(** ** parsecmd *)

Lemma peek_end buf s : peek buf s [] = (false, skip_space buf s).
Proof. unfold peek. by rewrite andb_false_r. Qed.

Lemma parsecmd_start buf : parsed buf 0 (parseline buf (parse_fuel buf) 0) (phrase buf Line).
Proof.
  apply parse_parsed; [lia|]. unfold parse_fuel. pose proof (length_toks buf 0). lia.
Qed.

(** C24: the shell's parser ends on every line: the recursion of [parseline], [parsepipe],
    [parseexec] and [parseblock] is never deeper than four calls for each character. *)
Theorem parsecmd_terminates (buf : list Z) : parsecmd buf <> NoFuel.
Proof.
  pose proof (parsecmd_start buf) as H. unfold parsecmd. destruct (parseline _ _ _) as [[c s]| |]; [|done|done].
  cbn [bind]. rewrite peek_end. by destruct (negb _).
Qed.

Lemma parsecmd_complete buf t : (es buf < length buf)%nat -> Line (lex [] (cstr buf)) t ->
  exists c b, parsecmd buf = Ok (c, b) /\ tree_of b c = t.
Proof.
  intros Hnul HL.
  assert (Ht : toks buf 0 = lex [] (cstr buf) ++ []) by (by rewrite app_nil_r).
  destruct (proj1 (grammar_completes buf) _ _ HL (parse_fuel buf) 0%nat [] ltac:(lia) Ht) as (c & s & Hp & Hs & Hts & Hr).
  { by left. }
  { unfold parse_fuel. pose proof (length_toks buf 0). lia. }
  exists c, (nulterminate c buf). split; [|by apply nulterminate_tree].
  unfold parsecmd. rewrite Hp. cbn [bind]. rewrite peek_end. rewrite toks_end by (try lia; done).
  by rewrite Nat.eqb_refl.
Qed.

(** C23: the shell's parser accepts exactly the lines of the grammar, and what it returns, read
    in the buffer where [nulterminate] ended the words, is the command the line denotes. *)
Theorem parsecmd_grammar (buf : list Z) (t : tree) (Hnul : (es buf < length buf)%nat) :
  (exists c b, parsecmd buf = Ok (c, b) /\ tree_of b c = t) <-> Line (lex [] (cstr buf)) t.
Proof.
  split; [|by apply parsecmd_complete]. intros (c & b & Hp & <-). unfold parsecmd in Hp.
  pose proof (parsecmd_start buf) as H. destruct (parseline _ _ _) as [[c' s]| |]; [|done|done].
  cbn [bind] in Hp. rewrite peek_end in Hp. destruct (Nat.eqb_spec (skip_space buf s) (es buf)) as [He|]; [|done].
  injection Hp as <- <-. destruct H as (Hs & ts & Hts & t & HL & Hr).
  rewrite (nulterminate_tree buf Hnul _ _ Hr). destruct (skip_space_spec buf s ltac:(lia)) as (_ & Hsk & _).
  assert (Hnil : toks buf s = []) by (rewrite <- Hsk, He; unfold toks; by rewrite rest_nil).
  rewrite Hnil, app_nil_r in Hts. change (toks buf 0) with (lex [] (cstr buf)) in Hts. by rewrite Hts.
Qed.

Lemma parsecmd_grammar_witness :
  exists c b, parsecmd (codes "ls -l | wc" ++ [10; 0]) = Ok (c, b) /\
    tree_of b c = TPipe (TExec [codes "ls"; codes "-l"]) (TExec [codes "wc"]).
Proof.
  apply (parsecmd_grammar (codes "ls -l | wc" ++ [10; 0])); [vm_compute; lia|].
  change (lex [] _) with (([TWord (codes "ls"); TWord (codes "-l")] ++ TSym (ch "|") :: [TWord (codes "wc")]) ++ replicate 0 (TSym (ch "&"))).
  apply (Line_last _ 0). apply Pipeline_more; [|apply Pipeline_last].
  - apply (Command_simple _ [codes "ls"; codes "-l"] []); [repeat constructor|vm_compute; lia].
  - apply (Command_simple _ [codes "wc"] []); [repeat constructor|vm_compute; lia].
Defined.
