(* ===== verification/ShRun.v ===== *)
(** * What the shell starts: [runcmd] against the descriptors each program gets

    [launch] runs a program of system calls with a table of open files as the kernel keeps
    it ([open], [dup] and [pipe] take the lowest free descriptors), every [fork] in both
    processes, and says what the process then does: the program it becomes, the processes it makes
    and waits for, what it prints, and what it does when [fork], [exec] or [pipe] fails.
    [jobs] is the meaning of a command tree. *)

From S2P Require Import Prelude Fcntl Ulib Sh ShLex ShParse ShTree.
Import Ulib Sh.

(** An open file: a pipe's ends are told apart by the place in the tree of processes where the
    pipe was made ([false] for the child of a [fork]; the last step is first). *)
Inductive obj :=
| Tty
| File (name : list Z) (mode : Z)
| ReadEnd (id : list bool)
| WriteEnd (id : list bool).

Definition fds : Type := list (option obj).

(** The lowest free descriptor. *)
Fixpoint lowest (t : fds) : option nat :=
  match t with
  | [] => None
  | None :: _ => Some O
  | Some _ :: t => S <$> lowest t
  end.

Definition install (o : obj) (t : fds) : option (nat * fds) :=
  i ← lowest t; Some (i, <[i := Some o]> t).

(** What a process does from some point on. [Runs] becomes the program at [path], with its arguments
    and open files, or goes on when [exec] fails; [Waits] shows what is open meanwhile; [Says] prints
    a text to an open file. *)
Inductive process :=
| Ends
| Runs (path : list Z) (argv : list (list Z)) (t : fds) (failed : process)
| Forks (child parent failed : process)
| MakesPipe (made failed : process)
| Moves (dir : list Z) (moved failed : process)
| Waits (t : fds) (p : process)
| Says (o : option obj) (text : list Z) (p : process)
| Unknown. (* the program model's own fuel is used up *)

Definition close (fd : Z) (t : fds) : fds := <[Z.to_nat fd := None]> t.

Section Launch.
(** Which files can be opened, and what [gets] reads. *)
Context (can_open : list Z -> Z -> bool) (input : list Z).

Fixpoint launch (p : prog) (t : fds) (n : list bool) : process :=
  match p with
  | Exit => Ends
  | OutOfFuel => Unknown
  | Close fd k => launch k (close fd t) n
  | Open name mode k =>
      if can_open name mode then
        match install (File name mode) t with
        | Some (fd, t) => launch (k (Z.of_nat fd)) t n
        | None => launch (k (-1)) t n
        end
      else launch (k (-1)) t n
  | Dup fd k =>
      match mjoin (t !! Z.to_nat fd) with
      | Some o => match install o t with Some (_, t) => launch k t n | None => launch k t n end
      | None => launch k t n
      end
  | Pipe k =>
      match install (ReadEnd n) t with
      | Some (p0, t0) =>
          match install (WriteEnd n) t0 with
          | Some (p1, t1) =>
              MakesPipe (launch (k (Some (Z.of_nat p0, Z.of_nat p1))) t1 (true :: n)) (launch (k None) t (true :: n))
          | None => launch (k None) t n
          end
      | None => launch (k None) t n
      end
  | Exec path argv k => Runs path argv t (launch k t n)
  | Fork k => Forks (launch (k 0) t (false :: n)) (launch (k 1) t (true :: n)) (launch (k (-1)) t (true :: n))
  | Wait k => Waits t (launch k t n)
  | Chdir dir k => Moves dir (launch (k 0) t n) (launch (k (-1)) t n)
  | Print fd text k => Says (mjoin (t !! Z.to_nat fd)) text (launch k t n)
  | Gets _ k => launch (k input) t n
  end.

(** Complaining and ending; a [fork] of the shell. *)
Definition complains (t : fds) (text : list Z) : process := Says (mjoin (t !! 2%nat)) (text ++ [10]) Ends.
Definition forks (t : fds) (child parent : process) : process := Forks child parent (complains t (codes "fork")).

(** What a command stands for, in a process with the files [t]. A list waits for its first command,
    a pipeline for both, with neither end of the pipe open; a command in the background is
    not waited for. *)
Fixpoint jobs (c : tree) (t : fds) (n : list bool) : process :=
  match c with
  | TExec [] => Ends
  | TExec ((w :: _) as argv) => Runs w argv t (complains t (codes "exec " ++ w ++ codes " failed"))
  | TRedir c f mode fd =>
      if can_open f mode then jobs c (<[Z.to_nat fd := Some (File f mode)]> t) n
      else complains t (codes "open " ++ f ++ codes " failed")
  | TPipe l r =>
      MakesPipe
        (forks t (jobs l (<[1%nat := Some (WriteEnd n)]> t) (false :: true :: n))
          (forks t (jobs r (<[0%nat := Some (ReadEnd n)]> t) (false :: true :: true :: n)) (Waits t (Waits t Ends))))
        (complains t (codes "pipe"))
  | TList l r => forks t (jobs l t (false :: n)) (Waits t (jobs r t (true :: n)))
  | TBack c => forks t (jobs c t (false :: n)) Ends
  end.

(** Descriptors 0, 1 and 2 are open and no others. *)
Definition std (t : fds) : Prop := exists o0 o1 o2, t = Some o0 :: Some o1 :: Some o2 :: replicate 13 None.

(** Redirections concern 0 and 1 only. *)
Fixpoint std_redirs (c : tree) : Prop :=
  match c with
  | TExec _ => True
  | TRedir c _ _ fd => (fd = 0 \/ fd = 1) /\ std_redirs c
  | TPipe l r | TList l r => std_redirs l /\ std_redirs r
  | TBack c => std_redirs c
  end.

Lemma std_redirs_wrap rs : forall t, std_redirs t -> Forall (fun r => r.2 = 0 \/ r.2 = 1) rs -> std_redirs (wrap rs t).
Proof using Type. induction rs as [|r rs IH]; intros t Ht H; [done|]. apply Forall_cons in H as [H1 H2]. by apply IH. Qed.

Lemma simple_std ts ws rs : simple ts ws rs -> Forall (fun r => r.2 = 0 \/ r.2 = 1) rs.
Proof using Type.
  induction 1 as [|w ts ws rs H IH|o w m d ts ws rs Ho H IH]; [done|done|]. constructor; [|done]. simpl.
  destruct o as [c| |w']; simpl in Ho; repeat case_match; simplify_eq; auto.
Qed.

Lemma iter_back_std k t : std_redirs t -> std_redirs (Nat.iter k TBack t).
Proof using Type. by induction k. Qed.

Lemma grammar_std :
  (forall ts t, Line ts t -> std_redirs t) /\ (forall ts t, Pipeline ts t -> std_redirs t) /\
  (forall ts t, Command ts t -> std_redirs t).
Proof using Type.
  apply grammar_ind; intros; simpl; auto using iter_back_std.
  - apply std_redirs_wrap; [done|]. by eapply simple_std.
  - apply std_redirs_wrap; [done|]. by eapply simple_std.
Qed.

Lemma complain_text a w b : a ++ w ++ b ++ [10] = (a ++ w ++ b) ++ [10 : Z].
Proof using Type. by rewrite <- !app_assoc. Qed.

(** The descriptors of a pipeline: only the ends in use stay open. *)
Lemma launch_pipeline l r o0 o1 o2 n (t := Some o0 :: Some o1 :: Some o2 :: replicate 13 None) :
  launch (Pipe (fun p =>
    match p with
    | None => die "pipe"
    | Some (p0, p1) =>
        fork1 (Close 1 (Dup p1 (Close p0 (Close p1 l))))
          (fork1 (Close 0 (Dup p0 (Close p0 (Close p1 r)))) (Close p0 (Close p1 (Wait (Wait Exit)))))
    end)) t n =
  MakesPipe
    (forks t (launch l (<[1%nat := Some (WriteEnd n)]> t) (false :: true :: n))
      (forks t (launch r (<[0%nat := Some (ReadEnd n)]> t) (false :: true :: true :: n)) (Waits t (Waits t Ends))))
    (complains t (codes "pipe")).
Proof using Type. reflexivity. Qed.

Lemma runcmd_jobs b c : forall t n, std t -> std_redirs (tree_of b c) -> launch (runcmd b c) t n = jobs (tree_of b c) t n.
Proof using Type.
  induction c as [argv|c IH f e m d|l IHl r IHr|l IHl r IHr|c IH]; intros t n Ht Hs.
  - destruct argv as [|[q e] argv]; [reflexivity|]. cbn [runcmd launch tree_of jobs map fst]. unfold complains.
    by rewrite <- complain_text.
  - destruct Hs as (Hd & Hs). destruct Ht as (o0 & o1 & o2 & ->). cbn [runcmd launch tree_of jobs].
    destruct (can_open _ _).
    + destruct Hd as [-> | ->]; apply IH; try done; eexists _, _, _; reflexivity.
    + unfold complains. rewrite <- complain_text. by destruct Hd as [-> | ->].
  - destruct Hs as (Hs1 & Hs2). destruct Ht as (o0 & o1 & o2 & ->). cbn [runcmd tree_of jobs].
    rewrite launch_pipeline. by rewrite IHl, IHr by (try done; eexists _, _, _; reflexivity).
  - destruct Hs as (Hs1 & Hs2). cbn [tree_of jobs]. rewrite <- IHl, <- IHr by done. reflexivity.
  - cbn [tree_of jobs]. rewrite <- IH by done. reflexivity.
Qed.

(** C25: in a shell with descriptors 0, 1 and 2 open and no others ([std]), a line of the grammar does
    exactly what its command stands for. Each program is run by its
    first word, with its words as arguments and with descriptors 0, 1 and 2 open and no others: the
    redirected file or the end of the pipe at 0 or 1 and what the shell had elsewhere. The
    shell's process for a list waits for the first command before the second, for a pipeline it
    waits for both commands and has closed both ends of the pipe before, so that the pipe ends when
    the programs that use it are done, and for a command in the background it does not wait. A
    [fork], [exec], [open] or [pipe] that fails is complained about on descriptor 2, and ends it. *)
Theorem run_line_jobs (buf : list Z) (c : tree) (t : fds) (n : list bool)
    (Hnul : (es buf < length buf)%nat) (Hline : Line (lex [] (cstr buf)) c) (Hstd : std t) :
  launch (run_line buf) t n = jobs c t n.
Proof using Type.
  destruct (parsecmd_complete buf c Hnul Hline) as (cm & b & Hp & <-). unfold run_line. rewrite Hp.
  apply runcmd_jobs; [done|]. by apply grammar_std in Hline.
Qed.

End Launch.

(** With [fds] as the shell has them. *)
Definition shell_fds : fds := Some Tty :: Some Tty :: Some Tty :: replicate 13 None.

Lemma run_line_jobs_witness :
  launch (fun _ _ => true) [] (run_line (codes "cat <a | wc >b" ++ [10; 0])) shell_fds [] =
  let no_fork := Says (Some Tty) (codes "fork" ++ [10]) Ends in
  MakesPipe
    (Forks
      (Runs (codes "cat") [codes "cat"] (<[1%nat := Some (WriteEnd [])]> (<[0%nat := Some (File (codes "a") O_RDONLY)]> shell_fds))
        (Says (Some Tty) (codes "exec cat failed" ++ [10]) Ends))
      (Forks
        (Runs (codes "wc") [codes "wc"] (<[0%nat := Some (ReadEnd [])]> (<[1%nat := Some (File (codes "b") (O_WRONLY .| O_CREATE))]> shell_fds))
          (Says (Some Tty) (codes "exec wc failed" ++ [10]) Ends))
        (Waits shell_fds (Waits shell_fds Ends)) no_fork) no_fork)
    (Says (Some Tty) (codes "pipe" ++ [10]) Ends).
Proof.
  rewrite (run_line_jobs (fun _ _ => true) [] (codes "cat <a | wc >b" ++ [10; 0])
    (TPipe (TRedir (TExec [codes "cat"]) (codes "a") O_RDONLY 0)
           (TRedir (TExec [codes "wc"]) (codes "b") (O_WRONLY .| O_CREATE) 1)) shell_fds []).
  - vm_compute. reflexivity.
  - vm_compute. lia.
  - change (lex [] _) with (([TWord (codes "cat"); TSym (ch "<"); TWord (codes "a")] ++ TSym (ch "|") ::
      [TWord (codes "wc"); TSym (ch ">"); TWord (codes "b")]) ++ replicate 0 (TSym (ch "&"))).
    apply (Line_last _ 0). apply Pipeline_more; [|apply Pipeline_last].
    + apply (Command_simple _ [codes "cat"] [(codes "a", O_RDONLY, 0)]); [repeat constructor|vm_compute; lia].
    + apply (Command_simple _ [codes "wc"] [(codes "b", O_WRONLY .| O_CREATE, 1)]); [repeat constructor|vm_compute; lia].
  - eexists _, _, _. reflexivity.
Defined.

(** Of two redirections of the output the first on the line is the one in force, though both files
    are opened. *)
Theorem first_redirection_wins :
  launch (fun _ _ => true) [] (run_line (codes "echo x >a >b" ++ [10; 0])) shell_fds [] =
  Runs (codes "echo") [codes "echo"; codes "x"] (<[1%nat := Some (File (codes "a") (O_WRONLY .| O_CREATE))]> shell_fds)
    (Says (Some Tty) (codes "exec echo failed" ++ [10]) Ends).
Proof. vm_compute. reflexivity. Qed.
