(* ===== verification/Umalloc.v ===== *)
(** * The user's allocator (umalloc.c)

    A circular list of free blocks in address order, each with a header of eight
    bytes: the address of the next block and the size in headers, the header
    included. The list is in memory, as in the code; [bs] below is the list of its
    blocks. [sbrk] hands out the memory above the break up to a limit. *)

From S2P Require Import Prelude Mem.

Module Umalloc.

Definition HSIZE : Z := 8.

(** Memory, the static [freep], and the break with the limit of [sbrk]. *)
Record heap := Heap { h_mem : mem; h_freep : Z; h_brk : Z; h_limit : Z }.

Definition ptr (m : mem) (p : Z) : Z := load32 m p.
Definition size (m : mem) (p : Z) : Z := load32 m (p + 4).
Definition set_ptr (m : mem) (p v : Z) : mem := store32 m p v.
Definition set_size (m : mem) (p v : Z) : mem := store32 m (p + 4) v.

(** [p + n] for a header pointer. *)
Definition hplus (p n : Z) : Z := p +u HSIZE * n.

Section Allocator.
(** The address of the static header [base]. *)
Context (base : Z).

(** The condition that ends the search in [free], at [p]. *)
Definition found_place (m : mem) (bp p : Z) : bool :=
  ((p <? bp) && (bp <? ptr m p)) ||
  ((ptr m p <=? p) && ((p <? bp) || (bp <? ptr m p))).

Fixpoint free_loop (n : nat) (m : mem) (bp p : Z) : option Z :=
  match n with
  | O => None
  | S n => if found_place m bp p then Some p else free_loop n m bp (ptr m p)
  end.

(** Put the block [bp] into the list after [p]. *)
Definition link_free (m : mem) (p bp : Z) : mem :=
  let q := ptr m p in
  let m :=
    if hplus bp (size m bp) =? q
    then set_ptr (set_size m bp (size m bp +u size m q)) bp (ptr m q)
    else set_ptr m bp q in
  if hplus p (size m p) =? bp
  then set_ptr (set_size m p (size m p +u size m bp)) p (ptr m bp)
  else set_ptr m p bp.

Definition free (n : nat) (ap : Z) (h : heap) : option heap :=
  let bp := ap -u HSIZE in
  p ← free_loop n (h_mem h) bp (h_freep h);
  Some (Heap (link_free (h_mem h) p bp) p (h_brk h) (h_limit h)).

(** The old break, or -1. A call of [malloc] makes at most one [sbrk], so that the limit says what
    the kernel answers to it, for whatever reason. *)
Definition sbrk (k : Z) (h : heap) : Z * heap :=
  if h_brk h + k <=? h_limit h
  then (h_brk h, Heap (h_mem h) (h_freep h) (h_brk h + k) (h_limit h))
  else (-1, h).

Definition morecore (n : nat) (nu : Z) (h : heap) : option (Z * heap) :=
  let nu := if nu <? 4096 then 4096 else nu in
  let '(p, h) := sbrk (s32 (nu *u HSIZE)) h in
  if p =? -1 then Some (0, h) else
  let h := Heap (set_size (h_mem h) p nu) (h_freep h) (h_brk h) (h_limit h) in
  h ← free n (hplus p 1) h;
  Some (h_freep h, h).

(** Take [nunits] from the block [p] that is big enough. *)
Definition carve (m : mem) (prevp p nunits : Z) : Z * mem :=
  if size m p =? nunits then (p, set_ptr m prevp (ptr m p))
  else
    let m := set_size m p (size m p -u nunits) in
    let p := hplus p (size m p) in
    (p, set_size m p nunits).

Fixpoint malloc_loop (n : nat) (nunits prevp p : Z) (h : heap) : option (Z * heap) :=
  match n with
  | O => None
  | S n =>
      if nunits <=? size (h_mem h) p then
        let '(p, m) := carve (h_mem h) prevp p nunits in
        Some (hplus p 1, Heap m prevp (h_brk h) (h_limit h))
      else if p =? h_freep h then
        '(p, h) ← morecore n nunits h;
        if p =? 0 then Some (0, h) else malloc_loop n nunits p (ptr (h_mem h) p) h
      else malloc_loop n nunits p (ptr (h_mem h) p) h
  end.

Definition units (nbytes : Z) : Z := (nbytes +u (HSIZE - 1)) / HSIZE + 1.

(** [base.s.ptr = freep = prevp = &base; base.s.size = 0;] *)
Definition init (h : heap) : heap :=
  Heap (set_size (set_ptr (h_mem h) base base) base 0) base (h_brk h) (h_limit h).

Definition malloc (n : nat) (nbytes : Z) (h : heap) : option (Z * heap) :=
  let nunits := units nbytes in
  let h := if h_freep h =? 0 then init h else h in
  malloc_loop n nunits (h_freep h) (ptr (h_mem h) (h_freep h)) h.

End Allocator.

(** ** Headers in memory *)

Definition apart (a b : Z) : Prop := a + HSIZE <= b \/ b + HSIZE <= a.

Lemma ptr_set_ptr m p v : 0 <= v < 2 ^ 32 -> ptr (set_ptr m p v) p = v.
Proof. intros. unfold ptr, set_ptr. rewrite load32_store32_same. by apply u32_id. Qed.

Lemma size_set_size m p v : 0 <= v < 2 ^ 32 -> size (set_size m p v) p = v.
Proof. intros. unfold size, set_size. rewrite load32_store32_same. by apply u32_id. Qed.

Lemma ptr_set_size m p v : ptr (set_size m p v) p = ptr m p.
Proof. apply load32_store32_other. lia. Qed.

Lemma size_set_ptr m p v : size (set_ptr m p v) p = size m p.
Proof. apply load32_store32_other. lia. Qed.

(** The header of [a] is the same in two memories. *)
Definition same_header (m m' : mem) (a : Z) : Prop := ptr m' a = ptr m a /\ size m' a = size m a.

Lemma set_ptr_apart m p v a : apart a p -> same_header m (set_ptr m p v) a.
Proof. unfold apart, HSIZE. intros. split; apply load32_store32_other; lia. Qed.

Lemma set_size_apart m p v a : apart a p -> same_header m (set_size m p v) a.
Proof. unfold apart, HSIZE. intros. split; apply load32_store32_other; lia. Qed.

Lemma same_header_trans m1 m2 m3 a : same_header m1 m2 a -> same_header m2 m3 a -> same_header m1 m3 a.
Proof. intros [H1 H2] [H3 H4]. split; congruence. Qed.

(** ** The list of free blocks *)

(** A block: the address of its header and its size. *)
Abbreviation block := (Z * Z)%type.

(** The headers of [bs] are linked in order, the last one to [last]. *)
Fixpoint chain (m : mem) (bs : list block) (last : Z) : Prop :=
  match bs with
  | [] => True
  | (a, s) :: bs' =>
      size m a = s /\ ptr m a = match bs' with (b, _) :: _ => b | [] => last end /\ chain m bs' last
  end.

Definition first (bs : list block) (last : Z) : Z := match bs with (b, _) :: _ => b | [] => last end.

Lemma chain_app m bs1 bs2 last : chain m (bs1 ++ bs2) last <-> chain m bs1 (first bs2 last) /\ chain m bs2 last.
Proof.
  induction bs1 as [|[a s] bs1 IH]; simpl; [tauto|]. rewrite IH.
  destruct bs1 as [|[b t] bs1]; simpl; tauto.
Qed.

Lemma chain_same m m' bs last : (forall b, b ∈ bs -> same_header m m' b.1) -> chain m bs last -> chain m' bs last.
Proof.
  induction bs as [|[a s] bs IH]; [done|]. intros H (H1 & H2 & H3).
  destruct (H (a, s) ltac:(left)) as [H4 H5]. simpl in *. rewrite H4, H5.
  split; [done|]. split; [done|]. apply IH; [|done]. intros b Hb. apply H. by right.
Qed.

(** What a block takes: its units, and its header even when it has none. *)
Definition bend (a s : Z) : Z := Z.max (a + HSIZE * s) (a + HSIZE - 1).

(** Every block ends before the next begins, with a gap, and within [lo] and [hi]. *)
Fixpoint spread (lo : Z) (bs : list block) (hi : Z) : Prop :=
  match bs with
  | [] => lo <= hi
  | (a, s) :: bs => lo < a /\ 0 <= s /\ spread (bend a s) bs hi
  end.

Lemma spread_le lo bs hi : spread lo bs hi -> lo <= hi.
Proof.
  revert lo. induction bs as [|[a s] bs IH]; simpl; [done|]. intros lo (H1 & H2 & H3%IH).
  unfold bend, HSIZE in *. lia.
Qed.

Lemma spread_hi lo bs hi hi' : spread lo bs hi -> hi <= hi' -> spread lo bs hi'.
Proof. revert lo. induction bs as [|[a s] bs IH]; simpl; [lia|]. intros lo (H1 & H2 & H3) H. eauto. Qed.

Lemma spread_lo lo lo' bs hi : spread lo bs hi -> lo' <= lo -> spread lo' bs hi.
Proof. destruct bs as [|[a s] bs]; simpl; [lia|]. intros (H1 & H2 & H3) H. split; [lia|done]. Qed.

Lemma spread_app lo bs1 bs2 hi : spread lo (bs1 ++ bs2) hi <-> exists mid, spread lo bs1 mid /\ spread mid bs2 hi.
Proof.
  revert lo. induction bs1 as [|[a s] bs1 IH]; intros lo; simpl.
  - split; [intros H; exists lo; split; [lia|done]|]. intros (mid & H1 & H2).
    destruct bs2 as [|[b t] bs2]; simpl in *; [lia|]. destruct H2 as (H2 & H3 & H4). split; [lia|done].
  - rewrite IH. split; [intros (H1 & H2 & mid & H3 & H4); exists mid; auto|intros (mid & (H1 & H2 & H3) & H4); eauto 6].
Qed.

Lemma spread_in lo bs hi a s : spread lo bs hi -> (a, s) ∈ bs -> lo < a /\ 0 <= s /\ bend a s <= hi.
Proof.
  revert lo. induction bs as [|[b t] bs IH]; intros lo; [intros _ H; inversion H|].
  intros (H1 & H2 & H3) [[= -> ->]|H]%elem_of_cons.
  - pose proof (spread_le _ _ _ H3). lia.
  - destruct (IH _ H3 H) as (H4 & H5 & H6). unfold bend, HSIZE in *. lia.
Qed.

(** The bytes of the free blocks. *)
Definition covers (bs : list block) (x : Z) : Prop := exists a s, (a, s) ∈ bs /\ a <= x < a + HSIZE * s.

Lemma covers_app bs1 bs2 x : covers (bs1 ++ bs2) x <-> covers bs1 x \/ covers bs2 x.
Proof.
  split.
  - intros (a & s & H & Hx). apply elem_of_app in H as [H|H]; [left|right]; by exists a, s.
  - intros [(a & s & H & Hx)|(a & s & H & Hx)]; exists a, s; (split; [|done]); apply elem_of_app; auto.
Qed.

Lemma covers_cons a s bs x : covers ((a, s) :: bs) x <-> a <= x < a + HSIZE * s \/ covers bs x.
Proof.
  split.
  - intros (b & t & [[= -> ->]|H]%elem_of_cons & Hx); [by left|right; by exists b, t].
  - intros [H|(b & t & H & Hx)]; [exists a, s|exists b, t]; (split; [|done]); [left|by right].
Qed.

Lemma covers_nil x : ~ covers [] x.
Proof. intros (a & s & H & _). inversion H. Qed.

(** The allocator's state: the list begins with the static header, of size 0, the others have
    memory, all lie in address order below the break, no two touch, and [freep] is one of them. *)
Definition heap_ok (base : Z) (h : heap) (bs : list block) : Prop :=
  (0 < base /\ base + HSIZE <= h_brk h) /\ h_brk h <= h_limit h /\ h_limit h < 2 ^ 31 /\
  spread 0 ((base, 0) :: bs) (h_brk h) /\ Forall (fun b => 1 <= b.2) bs /\
  chain (h_mem h) ((base, 0) :: bs) base /\
  exists s, (h_freep h, s) ∈ (base, 0) :: bs.

(** ** The search of [free] *)

Lemma chain_next m a s bs last : chain m ((a, s) :: bs) last -> ptr m a = first bs last.
Proof. intros (_ & H & _). exact H. Qed.

Lemma free_walk m bp seg n : forall rest_ last, chain m (seg ++ rest_) last ->
  (forall a s, (a, s) ∈ seg -> found_place m bp a = false) ->
  free_loop (length seg + n) m bp (first (seg ++ rest_) last) = free_loop n m bp (first rest_ last).
Proof.
  induction seg as [|[a s] seg IH]; intros rest_ last Hc Hf; [done|].
  cbn [length plus free_loop app first]. rewrite (Hf a s) by left.
  rewrite (chain_next m a s _ last Hc). apply IH; [by destruct Hc as (_ & _ & Hc)|].
  intros b t Hb. apply (Hf b t). by right.
Qed.

(** What [found_place] says at a block with the next one at [y]. *)
Lemma place_up m bp x y : ptr m x = y -> x < y -> found_place m bp x = (x <? bp) && (bp <? y).
Proof. intros H Hlt. unfold found_place. rewrite H. destruct (x <? bp) eqn:?, (bp <? y) eqn:?; simpl; lia. Qed.

Lemma place_last m bp x y : ptr m x = y -> y <= x -> y < bp -> found_place m bp x = (x <? bp).
Proof. intros H Hle Hlt. unfold found_place. rewrite H. destruct (x <? bp) eqn:?, (bp <? y) eqn:?; simpl; lia. Qed.

Section Place.
Context (base : Z) (m : mem) (bp : Z) (pre post : list block) (P ps hi : Z).
Context (Hchain : chain m (pre ++ (P, ps) :: post) base) (Hspread : spread (base - 1) (pre ++ (P, ps) :: post) hi).
Context (Hbase : base < bp) (HP : P < bp) (Hpost : match post with (b, _) :: _ => bp < b | [] => True end).

Lemma place_pre a s : (a, s) ∈ pre -> found_place m bp a = false.
Proof using All.
  intros (l1 & l2 & ->)%list_elem_of_split. rewrite <- app_assoc in Hchain, Hspread. simpl in *.
  apply chain_app in Hchain as [_ Hc]. apply spread_app in Hspread as (mid & _ & _ & _ & Hs).
  pose proof (chain_next _ _ _ _ _ Hc) as Hn.
  assert (Hy : a < first (l2 ++ (P, ps) :: post) base <= P).
  { destruct l2 as [|[b t] l2]; simpl in *.
    - destruct Hs as (Hs & _). unfold bend, HSIZE in *. lia.
    - destruct Hs as (Hs1 & _ & Hs2). destruct (spread_in _ _ _ P ps Hs2) as (H & _); [apply elem_of_app; right; left|].
      unfold bend, HSIZE in *. lia. }
  rewrite (place_up _ _ _ _ Hn) by lia. destruct (a <? bp) eqn:?, (bp <? first _ _) eqn:?; simpl; lia.
Qed.

Lemma place_post a s : (a, s) ∈ post -> found_place m bp a = false.
Proof using All.
  intros Hin. assert (Hbp : bp < a).
  { apply spread_app in Hspread as (mid & _ & _ & _ & Hs). destruct post as [|[b t] l]; [inversion Hin|].
    destruct Hs as (Hs1 & _ & Hs2). apply elem_of_cons in Hin as [[= -> ->]|Hin]; [done|].
    destruct (spread_in _ _ _ a s Hs2 Hin) as (H & _). unfold bend, HSIZE in *. lia. }
  apply list_elem_of_split in Hin as (l1 & l2 & ->).
  change ((P, ps) :: l1 ++ (a, s) :: l2) with (((P, ps) :: l1) ++ (a, s) :: l2) in *. rewrite app_assoc in *.
  apply chain_app in Hchain as [_ Hc]. apply spread_app in Hspread as (mid & _ & Hs0 & _ & Hs).
  pose proof (chain_next _ _ _ _ _ Hc) as Hn. destruct l2 as [|[b t] l2]; simpl in Hn.
  - rewrite (place_last _ _ _ _ Hn) by lia. lia.
  - destruct Hs as (Hs & _). rewrite (place_up _ _ _ _ Hn) by (unfold bend, HSIZE in *; lia).
    destruct (a <? bp) eqn:?; simpl; lia.
Qed.

Lemma place_found : found_place m bp P = true.
Proof using All.
  apply chain_app in Hchain as [_ Hc]. pose proof (chain_next _ _ _ _ _ Hc) as Hn.
  apply spread_app in Hspread as (mid & Hpre & Hm & _ & Hs).
  destruct post as [|[b t] l]; simpl in Hn.
  - pose proof (spread_le _ _ _ Hpre). rewrite (place_last _ _ _ _ Hn) by lia. lia.
  - rewrite (place_up _ _ _ _ Hn) by lia. lia.
Qed.

(** The search finds the block before the place of [bp], wherever it starts. *)
Lemma free_loop_finds x s n : (x, s) ∈ pre ++ (P, ps) :: post ->
  (length (pre ++ (P, ps) :: post) + length pre < n)%nat ->
  first (pre ++ (P, ps) :: post) base = base -> free_loop n m bp x = Some P.
Proof using All.
  intros Hin Hn Hfirst.
  assert (Hstop : forall k, (0 < k)%nat -> free_loop k m bp P = Some P).
  { intros k Hk. destruct k as [|k]; [lia|]. simpl. by rewrite place_found. }
  assert (Hpre : forall seg1 seg2, pre = seg1 ++ seg2 -> forall k, (length seg2 < k)%nat ->
    free_loop k m bp (first (seg2 ++ [(P, ps)]) base) = Some P).
  { intros seg1 seg2 Hsplit k Hk. pose proof Hchain as Hch. rewrite Hsplit in Hch. replace k with (length seg2 + (k - length seg2))%nat by lia.
    rewrite <- app_assoc in Hch. apply chain_app in Hch as [_ Hc].
    change ((P, ps) :: post) with ([(P, ps)] ++ post) in Hc. rewrite app_assoc in Hc. apply chain_app in Hc as [Hc _].
    destruct seg2 as [|b seg2]; [apply Hstop; simpl; lia|].
    replace (first ((b :: seg2) ++ [(P, ps)]) base) with (first ((b :: seg2) ++ [(P, ps)]) (first post base)) by (by destruct b).
    rewrite free_walk by (try done; intros a t Ha; apply (place_pre a t); rewrite Hsplit; apply elem_of_app; auto).
    apply Hstop. lia. }
  rewrite length_app in Hn. simpl in Hn.
  apply elem_of_app in Hin as [Hin|Hin]; [|apply elem_of_cons in Hin as [[= -> ->]|Hin]; [apply Hstop; lia|]].
  - apply list_elem_of_split in Hin as (l1 & l2 & Hl). pose proof (Hpre l1 ((x, s) :: l2) Hl n) as H.
    apply H. apply (f_equal length) in Hl. rewrite length_app in Hl. simpl in *. lia.
  - apply list_elem_of_split in Hin as (l1 & l2 & Hl).
    assert (Hc : chain m (((x, s) :: l2) ++ []) base).
    { rewrite app_nil_r. pose proof Hchain as Hch. rewrite Hl in Hch.
      change ((P, ps) :: l1 ++ (x, s) :: l2) with (((P, ps) :: l1) ++ (x, s) :: l2) in Hch.
      rewrite app_assoc in Hch. by apply chain_app in Hch as [_ Hc]. }
    assert (Hlen : length post = (length l1 + S (length l2))%nat) by (rewrite Hl, length_app; done).
    assert (Hk : exists k, n = (length ((x, s) :: l2) + k)%nat /\ (length pre < k)%nat).
    { exists (n - length ((x, s) :: l2))%nat. simpl. lia. }
    destruct Hk as (k & -> & Hk).
    assert (Hw : free_loop (length ((x, s) :: l2) + k) m bp x = free_loop k m bp base).
    { apply (free_walk m bp ((x, s) :: l2) k [] base Hc). intros a t Ha.
      apply (place_post a t). rewrite Hl. apply elem_of_app. by right. }
    rewrite Hw, <- Hfirst at 1.
    replace (first (pre ++ (P, ps) :: post) base) with (first (pre ++ [(P, ps)]) base) by (by destruct pre as [|[]]).
    exact (Hpre [] pre eq_refl k Hk).
Qed.
End Place.

(** ** Linking a block in *)

(** The size of the block at [bp] and the blocks after it, joined when they touch. *)
Definition join_right (bp s : Z) (post : list block) : Z * list block :=
  match post with
  | (b, t) :: post' => if bp + HSIZE * s =? b then (s + t, post') else (s, post)
  | [] => (s, [])
  end.

Definition insert_at (P ps bp s : Z) (post : list block) : list block :=
  let '(s1, post1) := join_right bp s post in
  if P + HSIZE * ps =? bp then (P, ps + s1) :: post1 else (P, ps) :: (bp, s1) :: post1.

(** A store to a header leaves every byte outside alone. *)
Definition only_headers (m m' : mem) (hs : list Z) : Prop :=
  forall x, (forall p, p ∈ hs -> ~ p <= x < p + HSIZE) -> load8 m' x = load8 m x.

Lemma load8_store32_out m a v x : x < a \/ a + 4 <= x -> load8 (store32 m a v) x = load8 m x.
Proof. intros H. unfold store32. rewrite load8_stores_out; [done|]. rewrite length_unpack. lia. Qed.

Lemma set_ptr_only m p v : only_headers m (set_ptr m p v) [p].
Proof.
  intros x Hx. specialize (Hx p ltac:(left)). unfold HSIZE in Hx. apply load8_store32_out. lia.
Qed.

Lemma set_size_only m p v : only_headers m (set_size m p v) [p].
Proof.
  intros x Hx. specialize (Hx p ltac:(left)). unfold HSIZE in Hx. apply load8_store32_out. lia.
Qed.

Lemma only_headers_trans m1 m2 m3 hs : only_headers m1 m2 hs -> only_headers m2 m3 hs -> only_headers m1 m3 hs.
Proof. intros H1 H2 x Hx. rewrite H2 by done. by apply H1. Qed.

Lemma only_headers_mono m1 m2 hs hs' : (forall p, p ∈ hs -> p ∈ hs') -> only_headers m1 m2 hs -> only_headers m1 m2 hs'.
Proof. intros H H1 x Hx. apply H1. auto. Qed.

(** What one of the two joins of [link_free] does to the header [p]. *)
Definition header_set (m m' : mem) (p np ns : Z) : Prop :=
  ptr m' p = np /\ size m' p = ns /\ (forall a, apart a p -> same_header m m' a) /\ only_headers m m' [p].

Lemma set_both m p np ns : 0 <= np < 2 ^ 32 -> 0 <= ns < 2 ^ 32 -> header_set m (set_ptr (set_size m p ns) p np) p np ns.
Proof.
  intros Hp Hs. repeat split.
  - by apply ptr_set_ptr.
  - rewrite size_set_ptr. by apply size_set_size.
  - destruct (same_header_trans m (set_size m p ns) (set_ptr (set_size m p ns) p np) a); auto using set_size_apart, set_ptr_apart.
  - destruct (same_header_trans m (set_size m p ns) (set_ptr (set_size m p ns) p np) a); auto using set_size_apart, set_ptr_apart.
  - eapply only_headers_trans; [apply set_size_only|apply set_ptr_only].
Qed.

Lemma set_ptr_both m p np : 0 <= np < 2 ^ 32 -> header_set m (set_ptr m p np) p np (size m p).
Proof.
  intros Hp. split; [by apply ptr_set_ptr|]. split; [by rewrite size_set_ptr|].
  split; [by intros; apply set_ptr_apart|apply set_ptr_only].
Qed.

(** The block at [bp], of [s] units, lies between the block [P] of the list and the next. *)
Record linkable (base : Z) (m : mem) (bp s : Z) (pre post : list block) (P ps hi : Z) : Prop := {
  lk_chain : chain m (pre ++ (P, ps) :: post) base;
  lk_spread : spread (base - 1) (pre ++ (P, ps) :: post) hi;
  lk_base : 0 < base;
  lk_hi : hi < 2 ^ 31;
  lk_size : size m bp = s;
  lk_s : 1 <= s;
  lk_bp : P + HSIZE * ps <= bp /\ P + HSIZE <= bp;
  lk_end : bp + HSIZE * s <= match post with (b, _) :: _ => b | [] => hi end }.

Section Link.
Context {base : Z} {m : mem} {bp s : Z} {pre post : list block} {P ps hi : Z}.
Context (H : linkable base m bp s pre post P ps hi).

Lemma P_in : base - 1 < P /\ 0 <= ps /\ bend P ps <= hi.
Proof using H. apply (spread_in _ _ _ _ _ (lk_spread _ _ _ _ _ _ _ _ _ H)). apply elem_of_app. right. left. Qed.

Lemma post_in b t : (b, t) ∈ post -> bp + HSIZE * s <= b /\ 0 <= t /\ bend b t <= hi.
Proof using H.
  destruct H as [_ Hsp _ _ _ _ _ Hend]. clear H. intros Hin.
  apply spread_app in Hsp as (mid & _ & _ & _ & Hsp).
  destruct (spread_in _ _ _ _ _ Hsp Hin) as (H1 & H2 & H3).
  destruct post as [|[c u] l]; [inversion Hin|]. destruct Hsp as (H4 & H5 & H6).
  apply elem_of_cons in Hin as [[= -> ->]|Hin]; [lia|].
  destruct (spread_in _ _ _ _ _ H6 Hin) as (H7 & _). unfold bend, HSIZE in *. lia.
Qed.

Lemma bp_hi : bp + HSIZE * s <= hi.
Proof using H.
  pose proof post_in as Hin. destruct H as [_ _ _ _ _ _ _ Hend]. clear H.
  destruct post as [|[b t] l]; [done|]. specialize (Hin b t ltac:(left)). unfold bend, HSIZE in *. lia.
Qed.

Lemma first_post_range : 0 <= first post base < 2 ^ 32.
Proof using H.
  pose proof post_in as Hin. pose proof P_in as HP. destruct H as [_ _ Hb Hhi _ Hs Hbp Hend]. clear H.
  destruct post as [|[b t] l]; simpl; [unfold bend, HSIZE in *; lia|].
  specialize (Hin b t ltac:(left)). unfold bend, HSIZE in *. lia.
Qed.

Lemma hplus_id p n : 0 <= p + HSIZE * n < 2 ^ 32 -> hplus p n = p + HSIZE * n.
Proof using Type. intros. unfold hplus. by apply u32_id. Qed.

(** The first join, with the block after. *)
Lemma join_right_ok : let '(s1, post1) := join_right bp s post in
  let m1 := if hplus bp (size m bp) =? ptr m P
            then set_ptr (set_size m bp (size m bp +u size m (ptr m P))) bp (ptr m (ptr m P))
            else set_ptr m bp (ptr m P) in
  header_set m m1 bp (first post1 base) s1 /\ chain m post1 base /\ (exists l, post = l ++ post1) /\
  1 <= s1 /\ bp + HSIZE * s1 <= hi.
Proof using H.
  pose proof first_post_range as Hr. pose proof bp_hi as Hb. pose proof P_in as HPi. pose proof post_in as Hin.
  destruct H as [Hc _ Hb0 Hhi Hsize Hs Hbp Hend]. clear H.
  apply chain_app in Hc as [_ Hc]. pose proof (chain_next _ _ _ _ _ Hc) as Hn.
  destruct Hc as (_ & _ & Hc). rewrite Hn, Hsize.
  rewrite hplus_id by (unfold bend, HSIZE in *; lia). unfold join_right.
  assert (Hno : header_set m (set_ptr m bp (first post base)) bp (first post base) s)
    by (rewrite <- Hsize; by apply set_ptr_both).
  destruct post as [|[b t] l]; cbn [first] in *.
  - destruct (Z.eqb_spec (bp + HSIZE * s) base) as [Hx|_]; [unfold bend, HSIZE in *; lia|].
    split; [done|]. split; [done|]. split; [by exists []|]. lia.
  - destruct (Hin b t ltac:(left)) as (Hbt1 & Hbt2 & Hbt3).
    destruct (Z.eqb_spec (bp + HSIZE * s) b) as [Hx|_].
    + destruct Hc as (Hs1 & Hp1 & Hc1). rewrite Hs1, Hp1. rewrite u32_id by (unfold bend, HSIZE in *; lia).
      split; [apply set_both; [|unfold bend, HSIZE in *; lia]|].
      { destruct l as [|[c u] l]; cbn [first]; [unfold bend, HSIZE in *; lia|].
        specialize (Hin c u ltac:(right; left)). unfold bend, HSIZE in *. lia. }
      split; [done|]. split; [by exists [(b, t)]|]. unfold bend, HSIZE in *. lia.
    + split; [done|]. split; [done|]. split; [by exists []|]. lia.
Qed.

Lemma apart_both b : b ∈ pre ++ post -> apart b.1 bp /\ apart b.1 P.
Proof using H.
  intros Hin. destruct b as [b t]. unfold apart. simpl. apply elem_of_app in Hin as [Hin|Hin].
  - destruct H as [_ Hsp _ _ _ Hs Hbp _]. apply spread_app in Hsp as (mid & H1 & H2 & _).
    destruct (spread_in _ _ _ _ _ H1 Hin). unfold bend, HSIZE in *. lia.
  - apply post_in in Hin. destruct H as [_ _ _ _ _ Hs Hbp _]. unfold HSIZE in *. lia.
Qed.

Lemma link_free_ok : chain (link_free m P bp) (pre ++ insert_at P ps bp s post) base /\
  only_headers m (link_free m P bp) [P; bp].
Proof using H.
  pose proof join_right_ok as Hj. unfold link_free, insert_at. destruct (join_right bp s post) as [s1 post1].
  set (m1 := if _ =? _ then _ else _) in Hj |- *. cbv zeta in *. fold m1.
  destruct Hj as ((Hp1 & Hs1 & Hap & Hon) & Hc1 & (l & Hl) & Hge & Hle).
  pose proof apart_both as Hab. pose proof P_in as HPi. destruct H as [Hc _ Hb0 Hhi _ Hs Hbp _]. clear H.
  apply chain_app in Hc as [Hpre (HsP & HpP & _)].
  assert (HbpP : apart bp P /\ apart P bp) by (unfold apart; lia). destruct HbpP as [HbpP HPbp].
  assert (HP1 : size m1 P = ps) by (destruct (Hap P HPbp) as [_ ->]; done).
  rewrite HP1. rewrite hplus_id by (unfold bend, HSIZE in *; lia).
  assert (Hkeep : forall m2, (forall a, apart a P -> same_header m1 m2 a) ->
    forall b, b ∈ pre ++ post1 -> same_header m m2 b.1).
  { intros m2 H2 b Hb. destruct (Hab b) as [Ha1 Ha2]; [rewrite Hl; rewrite !elem_of_app in *; tauto|].
    eapply same_header_trans; [by apply Hap|by apply H2]. }
  assert (Hchains : forall m2, (forall a, apart a P -> same_header m1 m2 a) ->
    (forall f, chain m pre f -> chain m2 pre f) /\ chain m2 post1 base).
  { intros m2 H2. split; [intros f Hf|]; [eapply chain_same; [|exact Hf]|eapply chain_same; [|exact Hc1]];
      intros b Hb; apply (Hkeep m2 H2); rewrite elem_of_app; auto. }
  destruct (Z.eqb_spec (P + HSIZE * ps) bp) as [He|He].
  - rewrite Hs1, Hp1. rewrite u32_id by (unfold bend, HSIZE in *; lia).
    assert (Hr : 0 <= first post1 base < 2 ^ 32) by (rewrite <- Hp1; apply load32_range).
    destruct (set_both m1 P (first post1 base) (ps + s1) Hr ltac:(unfold bend, HSIZE in *; lia)) as (H1 & H2 & H3 & H4).
    destruct (Hchains _ H3) as [H5 H6]. split.
    + apply chain_app. split; [by apply H5|]. by split.
    + apply (only_headers_trans m m1); [apply (only_headers_mono _ _ [bp])|apply (only_headers_mono _ _ [P])];
        try done; intros p; rewrite !elem_of_cons; tauto.
  - assert (Hr : 0 <= bp < 2 ^ 32) by (unfold bend, HSIZE in *; lia).
    destruct (set_ptr_both m1 P bp Hr) as (H1 & H2 & H3 & H4). destruct (Hchains _ H3) as [H5 H6]. split.
    + apply chain_app. split; [by apply H5|]. split; [by rewrite H2|]. split; [done|].
      destruct (H3 bp HbpP) as [H7 H8]. split; [by rewrite H8|]. split; [by rewrite H7|done].
    + apply (only_headers_trans m m1); [apply (only_headers_mono _ _ [bp])|apply (only_headers_mono _ _ [P])];
        try done; intros p; rewrite !elem_of_cons; tauto.
Qed.

Lemma insert_spread : spread (base - 1) (pre ++ insert_at P ps bp s post) hi.
Proof using H.
  pose proof bp_hi as Hb. destruct H as [_ Hsp _ _ _ Hs Hbp Hend]. clear H.
  apply spread_app in Hsp as (mid & H1 & H2 & H3 & H4). apply spread_app. exists mid. split; [done|].
  unfold insert_at, join_right.
  destruct post as [|[b t] l]; simpl in H4; [|destruct H4 as (H4 & H5 & H6)].
  - destruct (Z.eqb_spec (P + HSIZE * ps) bp) as [He|He]; simpl; unfold bend, HSIZE in *; lia.
  - destruct (Z.eqb_spec (bp + HSIZE * s) b) as [Hx|Hx]; destruct (Z.eqb_spec (P + HSIZE * ps) bp) as [He|He]; simpl.
    + split; [done|]. split; [lia|]. eapply spread_lo; [exact H6|unfold bend, HSIZE in *; lia].
    + split; [done|]. split; [done|]. split; [unfold bend, HSIZE in *; lia|]. split; [lia|].
      eapply spread_lo; [exact H6|unfold bend, HSIZE in *; lia].
    + split; [done|]. split; [lia|]. split; [unfold bend, HSIZE in *; lia|]. split; [done|done].
    + split; [done|]. split; [done|]. split; [unfold bend, HSIZE in *; lia|]. split; [lia|].
      split; [unfold bend, HSIZE in *; lia|]. split; [done|done].
Qed.

Lemma insert_covers x : covers (pre ++ insert_at P ps bp s post) x <->
  covers (pre ++ (P, ps) :: post) x \/ bp <= x < bp + HSIZE * s.
Proof using H.
  pose proof P_in as HP. pose proof post_in as Hin. destruct H as [_ _ _ _ _ Hs Hbp _]. clear H.
  rewrite !covers_app. unfold insert_at, join_right.
  destruct post as [|[b t] l]; [|specialize (Hin b t ltac:(left)); destruct (Z.eqb_spec (bp + HSIZE * s) b) as [Hx|Hx]];
    destruct (Z.eqb_spec (P + HSIZE * ps) bp) as [He|He]; rewrite !covers_cons; unfold HSIZE in *; intuition lia.
Qed.
End Link.

(** ** free *)

(** The bytes from [a], [s] units of them. *)
Definition in_block (a s x : Z) : Prop := a <= x < a + HSIZE * s.

(** No byte outside the free blocks of [bs'] and the static header changed. *)
Definition untouched (base : Z) (m m' : mem) (bs' : list block) (b s : Z) : Prop :=
  forall x, ~ covers bs' x -> ~ in_block b s x -> ~ base <= x < base + HSIZE -> load8 m' x = load8 m x.

Lemma covers_block bs a s x : (a, s) ∈ bs -> in_block a s x -> covers bs x.
Proof. intros. by exists a, s. Qed.

Lemma covers_base base bs x : covers ((base, 0) :: bs) x <-> covers bs x.
Proof. rewrite covers_cons. unfold HSIZE. split; [intros [?|?]; [lia|done]|auto]. Qed.

(** The place of a block between those of the list. *)
Lemma split_place bs : forall a0 s0 lo hi bp s,
  spread lo ((a0, s0) :: bs) hi -> Forall (fun b => 1 <= b.2) bs -> 1 <= s -> bp + HSIZE * s <= hi ->
  a0 + HSIZE * s0 <= bp -> a0 + HSIZE <= bp -> (forall x, in_block bp s x -> ~ covers bs x) ->
  exists pre P ps post, (a0, s0) :: bs = pre ++ (P, ps) :: post /\
    (P + HSIZE * ps <= bp /\ P + HSIZE <= bp) /\ bp + HSIZE * s <= match post with (b, _) :: _ => b | [] => hi end.
Proof.
  induction bs as [|[a1 s1] bs IH]; intros a0 s0 lo hi bp s Hsp Hge Hs Hhi H1 H2 Hd.
  - exists [], a0, s0, []. auto.
  - destruct Hsp as (_ & _ & Hsp). apply Forall_cons in Hge as [Hs1 Hge]. simpl in Hs1.
    destruct (Z_lt_le_dec a1 bp) as [Hlt|Hle].
    + assert (Hend : a1 + HSIZE * s1 <= bp).
      { destruct (Z_lt_le_dec bp (a1 + HSIZE * s1)) as [Hc|]; [|done]. exfalso. apply (Hd bp); [unfold in_block, HSIZE in *; lia|].
        exists a1, s1. split; [left|lia]. }
      destruct (IH a1 s1 _ hi bp s Hsp Hge Hs Hhi Hend ltac:(unfold HSIZE in *; lia)) as (pre & P & ps & post & H & H3).
      { intros x Hx Hc. apply (Hd x Hx). apply covers_cons. auto. }
      exists ((a0, s0) :: pre), P, ps, post. simpl. by rewrite H.
    + exists [], a0, s0, ((a1, s1) :: bs). split; [done|]. split; [auto|].
      destruct (Z_lt_le_dec a1 (bp + HSIZE * s)) as [Hc|]; [|done]. exfalso.
      apply (Hd a1); [unfold in_block; lia|]. exists a1, s1. split; [left|unfold HSIZE in *; lia].
Qed.

(** What a list of blocks becomes: the first is the static header, the others have memory. *)
Definition sized (base : Z) (bs : list block) : Prop :=
  exists bs', bs = (base, 0) :: bs' /\ Forall (fun b : block => 1 <= b.2) bs'.

Lemma sized_insert base pre P ps bp s post : sized base (pre ++ (P, ps) :: post) -> P + HSIZE <= bp -> 1 <= s -> 0 <= ps ->
  sized base (pre ++ insert_at P ps bp s post) /\
  (exists ps', (P, ps') ∈ pre ++ insert_at P ps bp s post) /\
  (exists a t, (a, t) ∈ pre ++ insert_at P ps bp s post /\ s <= t) /\
  (length (insert_at P ps bp s post) <= S (S (length post)))%nat.
Proof.
  intros (bs & HB & Hge) HP Hs Hps.
  assert (Hpost : Forall (fun b : block => 1 <= b.2) post).
  { destruct pre as [|b pre]; simplify_eq/=; [done|]. apply Forall_app in Hge as [_ Hge]. by apply Forall_cons in Hge as [_ Hge]. }
  set (I := insert_at P ps bp s post).
  assert (HI : exists ps' rest, I = (P, ps') :: rest /\ ps <= ps' /\ (ps = 0 -> ps' = 0) /\
    Forall (fun b : block => 1 <= b.2) rest /\ (exists a t, (a, t) ∈ I /\ s <= t) /\ (length rest <= S (length post))%nat).
  { unfold I, insert_at, join_right. destruct post as [|[b t] l];
      [|apply Forall_cons in Hpost as [Ht Hl]; simpl in Ht; destruct (Z.eqb_spec (bp + HSIZE * s) b)];
      destruct (Z.eqb_spec (P + HSIZE * ps) bp); eexists _, _; (split; [reflexivity|]); (split; [lia|]);
      (split; [unfold HSIZE in *; lia|]); (split; [repeat (apply Forall_cons; split; [simpl; lia|]); first [done|apply Forall_nil; done]|]); (split; [|simpl; lia]).
    all: first [ exists P; eexists; split; [left|lia] | exists bp; eexists; split; [right; left|lia] ]. }
  destruct HI as (ps' & rest & HI & Hle & Hz & Hrest & (a & u & Hau & Hu) & Hlen).
  split; [|split; [|split]].
  - rewrite HI. destruct pre as [|b pre]; simplify_eq/=.
    + exists rest. rewrite Hz by done. done.
    + apply Forall_app in Hge as [Hg1 Hg2]. apply Forall_cons in Hg2 as [Hg2 _]. exists (pre ++ (P, ps') :: rest). split; [done|].
      apply Forall_app. split; [done|]. constructor; [simpl in *; lia|done].
  - exists ps'. apply elem_of_app. right. rewrite HI. left.
  - exists a, u. split; [|done]. apply elem_of_app. by right.
  - rewrite HI. simpl. lia.
Qed.

Lemma free_ok base h bs bp s n : heap_ok base h bs -> size (h_mem h) bp = s -> 1 <= s -> base + HSIZE <= bp ->
  bp + HSIZE * s <= h_brk h -> (forall x, in_block bp s x -> ~ covers bs x) -> (2 * length bs + 2 < n)%nat ->
  exists h' bs', free n (bp + HSIZE) h = Some h' /\ heap_ok base h' bs' /\
    h_brk h' = h_brk h /\ h_limit h' = h_limit h /\ (length bs' <= S (length bs))%nat /\
    (exists a t, (a, t) ∈ bs' /\ s <= t) /\
    (forall x, covers bs' x <-> covers bs x \/ in_block bp s x) /\
    untouched base (h_mem h) (h_mem h') bs' bp s.
Proof.
  intros (Hb0 & Hbl & Hlim & Hsp & Hge & Hch & (fs & Hfp)) Hsz Hs Hbase Hhi Hd Hn.
  destruct (split_place bs base 0 0 (h_brk h) bp s Hsp Hge Hs Hhi ltac:(unfold HSIZE in *; lia) Hbase Hd) as (pre & P & ps & post & HB & Hbp & Hend).
  assert (HlB : (S (length bs) = length pre + S (length post))%nat)
    by (pose proof (f_equal length HB) as Hl; rewrite length_app in Hl; exact Hl).
  assert (Hsp' : spread (base - 1) ((base, 0) :: bs) (h_brk h)) by (destruct Hsp as (_ & Hsp); split; [lia|done]).
  assert (Hsized : sized base ((base, 0) :: bs)) by (exists bs; done).
  rewrite HB in *. assert (HL : linkable base (h_mem h) bp s pre post P ps (h_brk h)) by (constructor; auto; lia).
  destruct (link_free_ok HL) as [Hch' Hon]. pose proof (insert_spread HL) as Hsp2. pose proof (insert_covers HL) as Hcov.
  destruct (P_in HL) as (HP1 & HP2 & _). destruct (sized_insert _ _ _ _ bp s _ Hsized ltac:(lia) Hs HP2) as ((bs' & HB' & Hge') & (ps' & HinP) & (a & u & Hau & Hu) & Hlen).
  rewrite HB' in Hch', Hsp2, HinP, Hau, Hcov. exists (Heap (link_free (h_mem h) P bp) P (h_brk h) (h_limit h)), bs'.
  assert (Hcov' : forall x, covers bs' x <-> covers bs x \/ in_block bp s x).
  { intros x. rewrite <- (covers_base base bs' x), Hcov, <- HB, covers_base. done. }
  split; [|split; [|split; [done|split; [done|split; [|split; [|split; [exact Hcov'|]]]]]]].
  - unfold free. rewrite u32_id by (unfold HSIZE in *; lia). replace (bp + HSIZE - HSIZE) with bp by lia.
    assert (Hfirst : first (pre ++ (P, ps) :: post) base = base) by (by rewrite <- HB).
    assert (Hpost : match post with (b, _) :: _ => bp < b | [] => True end)
      by (destruct post as [|[b t] l]; [done|]; unfold HSIZE in *; lia).
    rewrite (free_loop_finds base (h_mem h) bp pre post P ps (h_brk h) Hch Hsp' ltac:(unfold HSIZE in *; lia)
               ltac:(unfold HSIZE in *; lia) Hpost (h_freep h) fs n Hfp ltac:(rewrite length_app; simpl; lia) Hfirst). done.
  - split; [done|]. split; [done|]. split; [done|]. split; [|split; [done|split; [done|by exists ps']]].
    destruct Hsp2 as (_ & Hsp2). split; [lia|done].
  - assert (Hl : (S (length bs') = length pre + length (insert_at P ps bp s post))%nat)
      by (pose proof (f_equal length HB') as Hl; rewrite length_app in Hl; symmetry; exact Hl). lia.
  - apply elem_of_cons in Hau as [[= -> ->]|Hau]; [lia|]. by exists a, u.
  - intros x H1 H2 H3. apply Hon. intros p Hp.
    apply elem_of_cons in Hp as [->|Hp]; [|apply elem_of_cons in Hp as [->|Hp]; [|inversion Hp]].
    + apply elem_of_cons in HinP as [[= -> _]|HinP]; [done|]. intros Hx. apply H1. exists P, ps'.
      split; [done|]. rewrite Forall_forall in Hge'. specialize (Hge' (P, ps') HinP). simpl in Hge'. unfold HSIZE in *. lia.
    + intros Hx. apply H2. unfold in_block, HSIZE in *. lia.
Qed.

(** C27: [free] gives a block back: it joins the block with the free blocks it touches, keeps the
    list in order with nothing lost and nothing free twice, and changes no byte outside the free
    blocks and its header. *)
Theorem free_gives_back (base : Z) (h : heap) (bs : list block) (ap n : Z)
    (Hok : heap_ok base h bs) (Hs : 1 <= size (h_mem h) (ap - HSIZE)) (Hlo : base + 2 * HSIZE <= ap)
    (Hhi : ap - HSIZE + HSIZE * size (h_mem h) (ap - HSIZE) <= h_brk h)
    (Hused : forall x, in_block (ap - HSIZE) (size (h_mem h) (ap - HSIZE)) x -> ~ covers bs x)
    (Hn : 2 * Z.of_nat (length bs) + 2 < n) :
  exists h' bs', free (Z.to_nat n) ap h = Some h' /\ heap_ok base h' bs' /\ h_brk h' = h_brk h /\
    (forall x, covers bs' x <-> covers bs x \/ in_block (ap - HSIZE) (size (h_mem h) (ap - HSIZE)) x) /\
    forall x, ~ covers bs' x -> ~ base <= x < base + HSIZE -> load8 (h_mem h') x = load8 (h_mem h) x.
Proof.
  destruct (free_ok base h bs (ap - HSIZE) _ (Z.to_nat n) Hok eq_refl Hs ltac:(lia) Hhi Hused ltac:(lia))
    as (h' & bs' & Hf & Hok' & Hb & _ & _ & _ & Hc & Hu).
  exists h', bs'. replace (ap - HSIZE + HSIZE) with ap in Hf by lia. repeat (split; [done|]).
  intros x H1 H2. apply Hu; [done| |done]. intros H3. apply H1, Hc. by right.
Qed.

(** ** The search of [malloc] *)

(** What [malloc] does at a block that fits. *)
Definition take_block (nunits prev p : Z) (h : heap) : option (Z * heap) :=
  let '(q, m) := carve (h_mem h) prev p nunits in Some (hplus q 1, Heap m prev (h_brk h) (h_limit h)).

(** [p] comes right after [prev] in the list and fits. *)
Definition fits (bs : list block) (nunits prev p : Z) : Prop :=
  exists pre rs ps post, bs = pre ++ (prev, rs) :: (p, ps) :: post /\ nunits <= ps.

Section Search.
Context (base nunits : Z) (h : heap).
Local Abbreviation m := (h_mem h).

(** Passing a stretch of the list without [freep]: the block before is [prev]. *)
Lemma scan_stretch seg : forall pre prev rs tail_ last n,
  chain m (seg ++ tail_) last -> (forall a s, (a, s) ∈ seg -> a <> h_freep h) ->
  let bs := pre ++ (prev, rs) :: seg in
  (exists prev' p, fits bs nunits prev' p /\
     malloc_loop (length seg + n) nunits prev (first (seg ++ tail_) last) h = take_block nunits prev' p h) \/
  (Forall (fun b : block => b.2 < nunits) seg /\ exists prev', (exists s, (prev', s) ∈ bs /\ bs = removelast bs ++ [(prev', s)]) /\
     malloc_loop (length seg + n) nunits prev (first (seg ++ tail_) last) h =
     malloc_loop n nunits prev' (first tail_ last) h).
Proof using Type.
  induction seg as [|[p ps] seg IH]; intros pre prev rs tail_ last n Hc Hf bs.
  - right. split; [constructor|]. exists prev. split; [|done]. exists rs. unfold bs. rewrite removelast_last.
    split; [apply elem_of_app; right; left|done].
  - destruct Hc as (Hs & Hp & Hc). cbn [length plus malloc_loop app first]. rewrite Hs.
    destruct (Z.leb_spec nunits ps) as [Hle|Hlt].
    + left. exists prev, p. split; [|done]. by exists pre, rs, ps, seg.
    + destruct (Z.eqb_spec p (h_freep h)) as [He|_]; [exfalso; apply (Hf p ps); [left|done]|].
      rewrite Hp. fold (first (seg ++ tail_) last).
      destruct (IH (pre ++ [(prev, rs)]) p ps tail_ last n Hc) as [(prev' & q & H1 & H2)|(H0 & prev' & H1 & H2)].
      { intros a s Ha. apply (Hf a s). by right. }
      * left. exists prev', q. split; [|exact H2]. unfold bs. by rewrite <- app_assoc in H1.
      * right. split; [by constructor|]. exists prev'. split; [|exact H2]. unfold bs. by rewrite <- app_assoc in H1.
Qed.
End Search.

Lemma fits_app bs bs' nunits prev p : fits bs nunits prev p -> fits (bs ++ bs') nunits prev p.
Proof. intros (pre & rs & ps & post & -> & H). exists pre, rs, ps, (post ++ bs'). split; [by simplify_list_eq|done]. Qed.

Lemma chain_in m bs last a s : chain m bs last -> (a, s) ∈ bs -> size m a = s.
Proof.
  intros Hc (l1 & l2 & ->)%list_elem_of_split. apply chain_app in Hc as [_ (H & _)]. exact H.
Qed.

Lemma spread_apart lo bs hi a s l1 l2 : spread lo bs hi -> bs = l1 ++ (a, s) :: l2 ->
  forall b t, (b, t) ∈ l1 ++ l2 -> b <> a.
Proof.
  intros Hsp -> b t Hin. apply spread_app in Hsp as (mid & H1 & H2 & _ & H3). apply elem_of_app in Hin as [Hin|Hin].
  - destruct (spread_in _ _ _ _ _ H1 Hin) as (_ & _ & H). unfold bend, HSIZE in *. lia.
  - destruct (spread_in _ _ _ _ _ H3 Hin) as (H & _). unfold bend, HSIZE in *. lia.
Qed.

(** One turn round the list from [freep]: a block that fits, with the one before it, or back at
    [freep] with no block that fits. *)
Lemma scan_turn base nunits h bs n : heap_ok base h bs -> 1 <= nunits -> (length bs < n)%nat ->
  let B := (base, 0) :: bs in
  let r := malloc_loop n nunits (h_freep h) (ptr (h_mem h) (h_freep h)) h in
  (exists prev p, fits B nunits prev p /\ r = take_block nunits prev p h) \/
  (Forall (fun b : block => b.2 < nunits) bs /\ exists prev n', (n = length bs + n')%nat /\
     size (h_mem h) (h_freep h) < nunits /\ r = malloc_loop n' nunits prev (h_freep h) h).
Proof.
  intros (Hb0 & _ & _ & Hsp & _ & Hch & (fs & Hfp)) Hnu Hn B r. unfold r, B in *. clear r B.
  apply list_elem_of_split in Hfp as (l1 & l2 & HB). pose proof (spread_apart _ _ _ _ _ _ _ Hsp HB) as Hne.
  pose proof Hch as Hch2. rewrite HB in Hch2. apply chain_app in Hch2 as [Hc1 Hc2].
  pose proof (chain_next _ _ _ _ _ Hc2) as Hnext. destruct Hc2 as (Hfs & _ & Hc2).
  assert (Hlen : (S (length bs) = length l1 + S (length l2))%nat)
    by (pose proof (f_equal length HB) as Hl; rewrite length_app in Hl; exact Hl).
  assert (Hn2 : exists n1, n = (length l2 + n1)%nat) by (exists (n - length l2)%nat; lia). destruct Hn2 as (n1 & ->).
  rewrite Hnext. pose proof (scan_stretch nunits h l2 l1 (h_freep h) fs [] base n1) as Hs1. rewrite app_nil_r in Hs1.
  destruct (Hs1 Hc2) as [(prev & p & H1 & H2)|(H0 & prev & _ & H2)]; clear Hs1.
  { intros a s Ha. apply (Hne a s). apply elem_of_app. by right. }
  { left. exists prev, p. split; [by rewrite HB|exact H2]. }
  rewrite H2. cbn [first]. destruct l1 as [|[b z] l1']; injection HB as E1 E2 E3.
  { right. rewrite E3, <- E1. split; [done|]. exists prev, n1. split; [done|]. split; [|done]. rewrite E1, Hfs. lia. }
  subst z bs. rewrite <- E1 in *. clear b E1.
  destruct n1 as [|n1]; [lia|]. cbn [malloc_loop]. destruct Hch as (Hs0 & Hp0 & Hch). rewrite Hs0.
  destruct (Z.leb_spec nunits 0); [lia|]. destruct (Z.eqb_spec base (h_freep h)) as [He|_]; [by destruct (Hne base 0 ltac:(left))|].
  rewrite Hp0. fold (first (l1' ++ (h_freep h, fs) :: l2) base).
  rewrite length_app in Hn; simpl in Hn; assert (Hn3 : exists n2, n1 = (length l1' + n2)%nat) by (exists (n1 - length l1')%nat; lia). destruct Hn3 as (n2 & ->).
  destruct (scan_stretch nunits h l1' [] base 0 ((h_freep h, fs) :: l2) base n2 Hch) as [(prev2 & p & H3 & H4)|(H3 & prev2 & (s2 & _ & H4) & H5)].
  { intros a s Ha. apply (Hne a s). right. apply elem_of_app. by left. }
  { left. exists prev2, p. split; [|exact H4]. by apply (fits_app ((base, 0) :: l1')). }
  rewrite H5. cbn [first]. destruct (Z_le_gt_dec nunits fs) as [Hle|Hgt].
  - left. exists prev2, (h_freep h). destruct n2 as [|n2]; [rewrite length_app in *; simpl in *; lia|]. cbn [malloc_loop]. rewrite Hfs.
    destruct (Z.leb_spec nunits fs); [|lia]. split; [|done]. exists (removelast ((base, 0) :: l1')), s2, fs, l2.
    split; [|done]. change ((base, 0) :: l1' ++ (h_freep h, fs) :: l2) with (((base, 0) :: l1') ++ (h_freep h, fs) :: l2).
    simpl app in H4. rewrite H4 at 1. by rewrite <- app_assoc.
  - right. split; [apply Forall_app; split; [done|]; constructor; [simpl; lia|done]|].
    exists prev2, n2. split; [rewrite length_app in *; simpl in *; lia|]. split; [lia|done].
Qed.

(** ** Taking a block *)

(** What [malloc] promises of the address it returns. *)
Definition allocated (base : Z) (h h' : heap) (bs bs' : list block) (nunits r : Z) : Prop :=
  heap_ok base h' bs' /\ size (h_mem h') (r - HSIZE) = nunits /\ base + 2 * HSIZE <= r /\
  r - HSIZE + HSIZE * nunits <= h_brk h' /\
  (forall x, covers bs x <-> covers bs' x \/ in_block (r - HSIZE) nunits x) /\
  (forall x, in_block (r - HSIZE) nunits x -> ~ covers bs' x).

Lemma spread_disjoint lo bs hi a s l1 l2 : spread lo bs hi -> bs = l1 ++ (a, s) :: l2 ->
  forall b t, (b, t) ∈ l1 ++ l2 -> bend b t < a \/ bend a s < b.
Proof.
  intros Hsp -> b t Hin. apply spread_app in Hsp as (mid & H1 & H2 & _ & H3). apply elem_of_app in Hin as [Hin|Hin].
  - destruct (spread_in _ _ _ _ _ H1 Hin) as (_ & _ & H). lia.
  - destruct (spread_in _ _ _ _ _ H3 Hin) as (H & _). lia.
Qed.

Lemma sized_tail base pre prev rs l l' : sized base (pre ++ (prev, rs) :: l) -> Forall (fun b : block => 1 <= b.2) l' ->
  sized base (pre ++ (prev, rs) :: l').
Proof.
  intros (bs & HB & Hge) Hl'. destruct pre as [|b pre]; simplify_eq/=.
  - exists l'. done.
  - apply Forall_app in Hge as [H1 H2]. apply Forall_cons in H2 as [H2 _]. exists (pre ++ (prev, rs) :: l'). split; [done|].
    apply Forall_app. split; [done|]. by constructor.
Qed.

(** A list that is in memory and in order, below the break. *)
Lemma heap_ok_intro base h B bs' : 0 < base /\ base + HSIZE <= h_brk h -> h_brk h <= h_limit h -> h_limit h < 2 ^ 31 -> spread 0 B (h_brk h) ->
  chain (h_mem h) B base -> B = (base, 0) :: bs' -> Forall (fun b : block => 1 <= b.2) bs' ->
  (exists s, (h_freep h, s) ∈ B) -> heap_ok base h bs'.
Proof. intros ? ? ? ? ? -> ? ?. split; auto 10. Qed.

Section Take.
Context (base nunits : Z) (h : heap) (bs pre post : list block) (prev rs p ps : Z).
Context (Hok : heap_ok base h bs) (Hnu : 1 <= nunits) (HB : (base, 0) :: bs = pre ++ (prev, rs) :: (p, ps) :: post)
        (Hfit : nunits <= ps).

Lemma take_facts : base + HSIZE <= p /\ p + HSIZE * ps <= h_brk h /\ h_brk h < 2 ^ 31 /\ size (h_mem h) p = ps /\
  base <= prev /\ prev + HSIZE <= p /\ 0 <= rs /\ prev + HSIZE * rs < p /\
  (forall b t, (b, t) ∈ pre ++ (prev, rs) :: post -> bend b t < p \/ bend p ps < b) /\
  (forall b t, (b, t) ∈ pre ++ (p, ps) :: post -> bend b t < prev \/ bend prev rs < b) /\
  Forall (fun b : block => 1 <= b.2) post /\ sized base (pre ++ (prev, rs) :: (p, ps) :: post).
Proof using All.
  destruct Hok as (Hb0 & Hbl & Hlim & Hsp & Hge & Hch & _).
  assert (Hsized : sized base (pre ++ (prev, rs) :: (p, ps) :: post)) by (rewrite <- HB; exists bs; done).
  rewrite HB in Hsp, Hch.
  assert (HB2 : pre ++ (prev, rs) :: (p, ps) :: post = (pre ++ [(prev, rs)]) ++ (p, ps) :: post) by by simplify_list_eq.
  pose proof (spread_disjoint _ _ _ _ _ _ _ Hsp HB2) as Hd1. pose proof (spread_disjoint _ _ _ prev rs pre _ Hsp eq_refl) as Hd2.
  rewrite <- app_assoc in Hd1. simpl in Hd1.
  apply chain_app in Hch as [_ (_ & _ & Hs & _)].
  apply spread_app in Hsp as (mid & H1 & H2 & H3 & H4 & H5 & H6). apply spread_le in H6.
  assert (Hprev : base <= prev).
  { destruct pre as [|b pre']; simplify_eq/=; [lia|]. destruct H1 as (_ & _ & H1). apply spread_le in H1.
    unfold bend, HSIZE in *. lia. }
  assert (Hpost : Forall (fun b : block => 1 <= b.2) post).
  { destruct Hsized as (bs0 & E & Hg). destruct pre as [|b pre']; simplify_eq/=.
    - by apply Forall_cons in Hg as [_ Hg].
    - apply Forall_app in Hg as [_ Hg]. apply Forall_cons in Hg as [_ Hg]. by apply Forall_cons in Hg as [_ Hg]. }
  unfold bend, HSIZE in *. repeat split; auto; lia.
Qed.

(** The lists without and with the rest of the block, and what they cover. *)
Lemma covers_drop x : covers (pre ++ (prev, rs) :: (p, ps) :: post) x <->
  covers (pre ++ (prev, rs) :: post) x \/ in_block p ps x.
Proof using Type. rewrite !covers_app, !covers_cons. unfold in_block. tauto. Qed.

Lemma dropped_apart x : in_block p ps x -> ~ covers (pre ++ (prev, rs) :: post) x.
Proof using All.
  destruct take_facts as (_ & _ & _ & _ & _ & _ & _ & _ & Hd & _). intros Hx (b & t & Hin & Hb).
  destruct (Hd b t Hin); unfold in_block, bend, HSIZE in *; lia.
Qed.

Lemma take_all : ps = nunits ->
  exists bs', allocated base h (Heap (set_ptr (h_mem h) prev (ptr (h_mem h) p)) prev (h_brk h) (h_limit h)) bs bs' nunits (p + HSIZE) /\
    untouched base (h_mem h) (set_ptr (h_mem h) prev (ptr (h_mem h) p)) bs' p nunits.
Proof using All.
  intros Heq. destruct take_facts as (H1 & H2 & H3 & H4 & H5 & H6 & H7 & H8 & H9 & H10 & H11 & H12).
  destruct (sized_tail base pre prev rs _ post H12 H11) as (bs' & HB' & Hge').
  pose proof dropped_apart as Hda. pose proof covers_drop as Hcd.
  destruct Hok as (Hb0 & Hbl & Hlim & Hsp & _ & Hch & _).
  assert (Hcov : forall x, covers bs x <-> covers bs' x \/ in_block p nunits x).
  { intros x. rewrite <- (covers_base base bs), HB, Hcd, HB', covers_base, Heq. done. }
  exists bs'. unfold allocated. replace (p + HSIZE - HSIZE) with p by lia. split; [split; [|split; [|split; [|split; [|split]]]]|].
  - eapply (heap_ok_intro base _ (pre ++ (prev, rs) :: post) bs'); try done.
    + rewrite HB in Hsp. apply spread_app in Hsp as (mid & S1 & S2 & S3 & S4 & S5 & S6). apply spread_app. exists mid. split; [done|].
      split; [done|]. split; [done|]. eapply spread_lo; [exact S6|]. unfold bend, HSIZE in *. lia.
    + rewrite HB in Hch. apply chain_app in Hch as [C1 (C2 & C3 & C4 & C5 & C6)]. simpl in C1. cbn [h_mem]. apply chain_app.
      assert (Hkeep : forall l f, (forall b t, (b, t) ∈ l -> (b, t) ∈ pre ++ (p, ps) :: post) -> chain (h_mem h) l f ->
        chain (set_ptr (h_mem h) prev (ptr (h_mem h) p)) l f).
      { intros l f Hl. apply chain_same. intros [b t] Hb. apply set_ptr_apart. unfold apart.
        destruct (H10 b t (Hl b t Hb)); unfold bend, HSIZE in *; simpl; lia. }
      split; [apply Hkeep; [intros; apply elem_of_app; auto|exact C1]|].
      split; [rewrite size_set_ptr; done|]. split; [rewrite ptr_set_ptr by apply load32_range; exact C5|].
      apply Hkeep; [intros; apply elem_of_app; right; by right|exact C6].
    + exists rs. apply elem_of_app. right. left.
  - simpl. destruct (set_ptr_apart (h_mem h) prev (ptr (h_mem h) p) p) as [_ ->]; [unfold apart; lia|]. lia.
  - lia.
  - simpl. lia.
  - exact Hcov.
  - intros x Hx. rewrite <- (covers_base base bs' x), <- HB'. apply Hda. by rewrite Heq.
  - intros x X1 X2 X3. apply set_ptr_only. intros q [->|Hq]%elem_of_cons; [|inversion Hq].
    intros Hx. apply X1. rewrite <- (covers_base base bs' x), <- HB', !covers_app, covers_cons.
    destruct (decide (prev = base)) as [->|Hne]; [lia|]. right. left.
    assert (Hrs : 1 <= rs).
    { destruct pre as [|b pre']; simplify_eq/=. apply Forall_app in Hge' as [_ Hg]. by apply Forall_cons in Hg as [Hg _]. }
    unfold HSIZE in *. lia.
Qed.

Lemma take_part : nunits < ps -> let p' := p + HSIZE * (ps - nunits) in
  let m' := set_size (set_size (h_mem h) p (ps - nunits)) p' nunits in
  exists bs', allocated base h (Heap m' prev (h_brk h) (h_limit h)) bs bs' nunits (p' + HSIZE) /\
    untouched base (h_mem h) m' bs' p' nunits.
Proof using All.
  intros Hlt p' m'. destruct take_facts as (H1 & H2 & H3 & H4 & H5 & H6 & H7 & H8 & H9 & H10 & H11 & H12).
  assert (Hpost : Forall (fun b : block => 1 <= b.2) ((p, ps - nunits) :: post)) by (constructor; [simpl; lia|done]).
  destruct (sized_tail base pre prev rs _ _ H12 Hpost) as (bs' & HB' & Hge').
  pose proof dropped_apart as Hda. pose proof covers_drop as Hcd.
  destruct Hok as (Hb0 & Hbl & Hlim & Hsp & _ & Hch & _).
  assert (Hcov : forall x, covers bs' x <-> covers (pre ++ (prev, rs) :: post) x \/ in_block p (ps - nunits) x).
  { intros x. rewrite <- (covers_base base bs'), <- HB'. rewrite !covers_app, !covers_cons. unfold in_block. tauto. }
  assert (Hsplit : forall x, in_block p ps x <-> in_block p (ps - nunits) x \/ in_block p' nunits x)
    by (intros x; unfold in_block, p', HSIZE; lia).
  exists bs'. unfold allocated. replace (p' + HSIZE - HSIZE) with p' by lia. split; [split; [|split; [|split; [|split; [|split]]]]|].
  - eapply (heap_ok_intro base _ (pre ++ (prev, rs) :: (p, ps - nunits) :: post) bs'); try done.
    + rewrite HB in Hsp. apply spread_app in Hsp as (mid & S1 & S2 & S3 & S4 & S5 & S6). apply spread_app. exists mid. split; [done|].
      split; [done|]. split; [done|]. split; [done|]. split; [lia|]. eapply spread_lo; [exact S6|]. unfold bend, HSIZE in *. lia.
    + rewrite HB in Hch. apply chain_app in Hch as [C1 (C2 & C3 & C4 & C5 & C6)]. simpl in C1. cbn [h_mem]. apply chain_app.
      assert (Hsame : forall b t, (b, t) ∈ pre ++ (prev, rs) :: post -> same_header (h_mem h) m' b).
      { intros b t Hb. eapply same_header_trans; apply set_size_apart; unfold apart; destruct (H9 b t Hb);
          unfold p', bend, HSIZE in *; lia. }
      assert (Hkeep : forall l f, (forall b t, (b, t) ∈ l -> (b, t) ∈ pre ++ (prev, rs) :: post) -> chain (h_mem h) l f -> chain m' l f).
      { intros l f Hl. apply chain_same. intros [b t] Hb. by apply (Hsame b t), Hl. }
      assert (Hap : apart p p') by (unfold apart, p', HSIZE; lia).
      destruct (set_size_apart (set_size (h_mem h) p (ps - nunits)) p' nunits p Hap) as [Hp1 Hs1].
      destruct (Hsame prev rs) as [Hp2 Hs2]; [apply elem_of_app; right; left|].
      split; [apply Hkeep; [intros; apply elem_of_app; auto|exact C1]|].
      split; [rewrite Hs2; done|]. split; [rewrite Hp2; done|].
      split; [unfold m'; rewrite Hs1; apply size_set_size; unfold HSIZE in *; lia|].
      split; [unfold m'; rewrite Hp1, ptr_set_size; done|].
      apply Hkeep; [intros; apply elem_of_app; right; by right|exact C6].
    + exists rs. apply elem_of_app. right. left.
  - simpl. unfold m'. apply size_set_size. unfold HSIZE in *. lia.
  - unfold p', HSIZE in *. lia.
  - simpl. unfold p', HSIZE in *. lia.
  - intros x. rewrite Hcov, <- (covers_base base bs), HB, Hcd, Hsplit. tauto.
  - intros x Hx. rewrite Hcov. intros [Hc|Hc]; [|unfold in_block, p', HSIZE in *; lia].
    apply (Hda x); [apply Hsplit; auto|done].
  - intros x X1 X2 X3. unfold m'. apply (only_headers_trans _ (set_size (h_mem h) p (ps - nunits)) _ [p; p']).
    + apply (only_headers_mono _ _ [p]); [intros q; rewrite !elem_of_cons; tauto|apply set_size_only].
    + apply (only_headers_mono _ _ [p']); [intros q; rewrite !elem_of_cons; tauto|apply set_size_only].
    + intros q Hq Hx. apply elem_of_cons in Hq as [->|Hq]; [|apply elem_of_cons in Hq as [->|Hq]; [|inversion Hq]].
      * apply X1, Hcov. right. unfold in_block, HSIZE in *. lia.
      * apply X2. unfold in_block, HSIZE in *. lia.
Qed.
End Take.

Lemma take_ok base nunits h bs prev p : heap_ok base h bs -> 1 <= nunits -> fits ((base, 0) :: bs) nunits prev p ->
  exists r h' bs', take_block nunits prev p h = Some (r, h') /\ h_brk h' = h_brk h /\ h_limit h' = h_limit h /\
    allocated base h h' bs bs' nunits r /\
    untouched base (h_mem h) (h_mem h') bs' (r - HSIZE) nunits.
Proof.
  intros Hok Hnu (pre & rs & ps & post & HB & Hfit).
  destruct (take_facts base nunits h bs pre post prev rs p ps Hok Hnu HB Hfit) as (H1 & H2 & H3 & H4 & _).
  assert (Hb0 : 0 < base) by apply Hok.
  unfold take_block, carve. rewrite H4. destruct (Z.eqb_spec ps nunits) as [He|He].
  - destruct (take_all base nunits h bs pre post prev rs p ps Hok Hnu HB Hfit He) as (bs' & HA & HU).
    exists (p + HSIZE). eexists _, bs'. split; [f_equal; f_equal; unfold hplus; rewrite u32_id by (unfold HSIZE in *; lia); lia|].
    split; [done|]. split; [done|]. split; [exact HA|]. by replace (p + HSIZE - HSIZE) with p by lia.
  - destruct (take_part base nunits h bs pre post prev rs p ps Hok Hnu HB Hfit ltac:(lia)) as (bs' & HA & HU).
    rewrite u32_id by (unfold HSIZE in *; lia). rewrite size_set_size by (unfold HSIZE in *; lia).
    assert (Hpp : hplus p (ps - nunits) = p + HSIZE * (ps - nunits)) by (apply hplus_id; unfold HSIZE in *; lia).
    assert (Hp1 : hplus (p + HSIZE * (ps - nunits)) 1 = p + HSIZE * (ps - nunits) + HSIZE)
      by (rewrite hplus_id; unfold HSIZE in *; lia).
    rewrite Hpp, Hp1. eexists _, _, bs'. split; [reflexivity|]. split; [done|]. split; [done|]. split; [exact HA|].
    by replace (p + HSIZE * (ps - nunits) + HSIZE - HSIZE) with (p + HSIZE * (ps - nunits)) by lia.
Qed.

(** ** malloc *)

Lemma only_same_header m m' hs a : only_headers m m' hs -> (forall p, p ∈ hs -> apart a p) -> same_header m m' a.
Proof.
  intros H Ha. assert (Hl : forall x, a <= x < a + HSIZE -> load8 m' x = load8 m x).
  { intros x Hx. apply H. intros p Hp. destruct (Ha p Hp); lia. }
  unfold HSIZE in Hl. split; unfold ptr, size, load32; f_equal; apply loads_ext; intros k Hk; apply Hl; lia.
Qed.

Lemma units_ok nbytes : 0 <= nbytes <= 2 ^ 30 -> 1 <= units nbytes <= 2 ^ 27 + 2 /\ nbytes + HSIZE <= HSIZE * units nbytes.
Proof. intros H. unfold units, HSIZE. rewrite u32_id by lia. dlia. Qed.

(** The heap with the memory from [sbrk], its size stored. *)
Definition grown (h : heap) (nu : Z) : heap :=
  Heap (set_size (h_mem h) (h_brk h) nu) (h_freep h) (h_brk h + HSIZE * nu) (h_limit h).

Lemma grown_ok base h bs nu : heap_ok base h bs -> 1 <= nu -> h_brk h + HSIZE * nu <= h_limit h ->
  heap_ok base (grown h nu) bs /\ size (h_mem (grown h nu)) (h_brk h) = nu /\ base + HSIZE <= h_brk h /\
  (forall x, in_block (h_brk h) nu x -> ~ covers bs x) /\ only_headers (h_mem h) (h_mem (grown h nu)) [h_brk h].
Proof.
  intros (Hb0 & Hbl & Hlim & Hsp & Hge & Hch & Hfp) Hnu Hg.
  assert (Hin : forall b t, (b, t) ∈ bs -> 1 <= t /\ b + HSIZE * t <= h_brk h).
  { intros b t H. rewrite Forall_forall in Hge. specialize (Hge (b, t) H). destruct Hsp as (_ & _ & Hsp).
    destruct (spread_in _ _ _ _ _ Hsp H) as (_ & _ & H3). unfold bend, HSIZE in *. simpl in *. lia. }
  split; [|split; [|split; [lia|split]]].
  - unfold heap_ok, grown; cbn [h_brk h_limit h_mem h_freep]. split; [unfold HSIZE in *; lia|]. split; [done|]. split; [done|].
    split; [eapply spread_hi; [exact Hsp|unfold HSIZE in *; lia]|].
    split; [done|]. split; [|done]. eapply chain_same; [|exact Hch].
    intros [b t] Hb. apply set_size_apart. unfold apart. simpl.
    apply elem_of_cons in Hb as [[= -> ->]|Hb]; [lia|]. specialize (Hin b t Hb). unfold HSIZE in *. lia.
  - apply size_set_size. unfold HSIZE in *. lia.
  - intros x Hx (b & t & Hb & Hc). specialize (Hin b t Hb). unfold in_block, HSIZE in *. lia.
  - apply set_size_only.
Qed.

(** When no block fits: the heap grows and the search goes on, or there is no more memory. *)
Lemma morecore_ok base h bs nunits n : heap_ok base h bs -> 1 <= nunits <= 2 ^ 27 + 2 -> (2 * length bs + 2 < n)%nat ->
  let nu := Z.max nunits 4096 in
  (h_limit h < h_brk h + HSIZE * nu /\ morecore n nunits h = Some (0, h)) \/
  (exists h' bs', morecore n nunits h = Some (h_freep h', h') /\ h_freep h' <> 0 /\ heap_ok base h' bs' /\
     h_brk h' = h_brk h + HSIZE * nu /\ h_limit h' = h_limit h /\ (length bs' <= S (length bs))%nat /\
     (exists a t, (a, t) ∈ bs' /\ nunits <= t) /\
     (forall x, covers bs' x <-> covers bs x \/ in_block (h_brk h) nu x) /\
     untouched base (h_mem h) (h_mem h') bs' (h_brk h) nu).
Proof.
  intros Hok Hnu Hn nu. unfold morecore.
  replace (if nunits <? 4096 then 4096 else nunits) with nu by (unfold nu; zcase; lia).
  unfold sbrk. rewrite (u32_id (nu * HSIZE)) by (unfold nu, HSIZE; lia). rewrite s32_id by (unfold nu, HSIZE; lia).
  assert (Hpos : (0 < base /\ base + HSIZE <= h_brk h) /\ h_brk h <= h_limit h /\ h_limit h < 2 ^ 31) by (destruct Hok as (? & ? & ? & _); done).
  destruct (Z.leb_spec (h_brk h + nu * HSIZE) (h_limit h)) as [Hle|Hgt]; [right|left; split; [lia|done]].
  destruct (Z.eqb_spec (h_brk h) (-1)) as [|_]; [unfold HSIZE in *; lia|]. cbn [h_mem h_freep h_brk h_limit].
  destruct (grown_ok base h bs nu Hok ltac:(unfold nu; lia) ltac:(lia)) as (Hg & Hsz & Hlo & Hd & Hon).
  destruct (free_ok base (grown h nu) bs (h_brk h) nu n Hg Hsz ltac:(unfold nu; lia) Hlo ltac:(simpl; lia) Hd Hn)
    as (h' & bs' & Hf & Hok' & Hb & Hl & Hlen & (a & t & Hat & Ht) & Hc & Hu).
  replace (h_brk h + nu * HSIZE) with (h_brk h + HSIZE * nu) by lia.
  assert (Hhp : hplus (h_brk h) 1 = h_brk h + HSIZE) by (rewrite hplus_id; unfold HSIZE in *; lia).
  rewrite Hhp. fold (grown h nu). rewrite Hf. exists h', bs'. split; [done|]. split.
  { destruct Hok' as (Hb1 & _ & _ & Hs1 & _ & _ & (s1 & Hfp)). destruct (spread_in _ _ _ _ _ Hs1 Hfp). lia. }
  split; [done|]. split; [done|]. split; [done|]. split; [done|]. split; [exists a, t; split; [done|unfold nu in Ht; lia]|].
  split; [exact Hc|]. intros x H1 H2 H3. rewrite Hu by done. apply Hon. intros p [->|Hp]%elem_of_cons; [|inversion Hp].
  intros Hx. apply H2. unfold in_block, nu, HSIZE in *. lia.
Qed.

Lemma malloc_loop_ok base h bs nunits n : heap_ok base h bs -> 1 <= nunits <= 2 ^ 27 + 2 -> (3 * length bs + 4 < n)%nat ->
  let r := malloc_loop n nunits (h_freep h) (ptr (h_mem h) (h_freep h)) h in
  (r = Some (0, h) /\ Forall (fun b : block => b.2 < nunits) bs /\ h_limit h < h_brk h + HSIZE * Z.max nunits 4096) \/
  (exists q h' bs', r = Some (q, h') /\ heap_ok base h' bs' /\ h_brk h <= h_brk h' /\
     size (h_mem h') (q - HSIZE) = nunits /\ base + 2 * HSIZE <= q /\ q - HSIZE + HSIZE * nunits <= h_brk h' /\
     (forall x, covers bs x \/ h_brk h <= x < h_brk h' <-> covers bs' x \/ in_block (q - HSIZE) nunits x) /\
     (forall x, in_block (q - HSIZE) nunits x -> ~ covers bs' x) /\
     untouched base (h_mem h) (h_mem h') bs' (q - HSIZE) nunits).
Proof.
  intros Hok Hnu Hn r. unfold r. clear r.
  destruct (scan_turn base nunits h bs n Hok ltac:(lia) ltac:(lia)) as [(prev & p & Hfit & ->)|(Hno & prev & n1 & -> & Hsz & ->)].
  - right. destruct (take_ok base nunits h bs prev p Hok ltac:(lia) Hfit) as (q & h' & bs' & H1 & H2 & H3 & (A1 & A2 & A3 & A4 & A5 & A6) & Hu).
    exists q, h', bs'. split; [done|]. split; [done|]. split; [lia|]. repeat (split; [done|]).
    split; [|split; [exact A6|exact Hu]]. intros x. rewrite H2, <- A5. split; [intros [?|?]; [done|lia]|auto].
  - destruct n1 as [|n1]; [lia|]. cbn [malloc_loop]. destruct (Z.leb_spec nunits (size (h_mem h) (h_freep h))); [lia|].
    rewrite Z.eqb_refl.
    destruct (morecore_ok base h bs nunits n1 Hok Hnu ltac:(lia)) as [[Hlim ->]|(h1 & bs1 & -> & Hnz & Hok1 & Hb & Hl & Hlen & (a & t & Hat & Ht) & Hc & Hu)].
    + left. done.
    + right. cbn [mbind option_bind]. destruct (Z.eqb_spec (h_freep h1) 0) as [|_]; [done|].
      destruct (scan_turn base nunits h1 bs1 n1 Hok1 ltac:(lia) ltac:(lia)) as [(prev2 & p & Hfit & ->)|(Hno1 & _)].
      2:{ rewrite Forall_forall in Hno1. specialize (Hno1 (a, t) Hat). simpl in Hno1. lia. }
      destruct (take_ok base nunits h1 bs1 prev2 p Hok1 ltac:(lia) Hfit) as (q & h' & bs' & H1 & H2 & H3 & (A1 & A2 & A3 & A4 & A5 & A6) & Hu2).
      exists q, h', bs'. split; [done|]. split; [done|]. split; [unfold HSIZE in *; lia|]. repeat (split; [done|]).
      assert (Hall : forall x, covers bs x \/ h_brk h <= x < h_brk h' <-> covers bs' x \/ in_block (q - HSIZE) nunits x).
      { intros x. rewrite <- A5, Hc. unfold in_block. rewrite H2, Hb. done. }
      split; [exact Hall|]. split; [exact A6|]. intros x X1 X2 X3. rewrite Hu2 by done. apply Hu; [| |done].
      * rewrite A5. tauto.
      * intros Hx. destruct (proj1 (Hall x)); [right; unfold in_block in Hx; lia|done|done].
Qed.

(** The state [malloc] works on: the first call makes the list. *)
Definition started (base : Z) (h : heap) : heap := if h_freep h =? 0 then init base h else h.

(** The first call finds no block. *)
Lemma init_ok base h : 0 < base -> base + HSIZE <= h_brk h -> h_brk h <= h_limit h -> h_limit h < 2 ^ 31 ->
  heap_ok base (init base h) [].
Proof.
  intros H1 H2 H3 H4. split; [done|]. split; [done|]. split; [done|]. split; [simpl; unfold bend, HSIZE in *; lia|].
  split; [done|]. split; [|exists 0; left]. simpl. split; [by apply size_set_size|]. split; [|done].
  rewrite ptr_set_size. apply ptr_set_ptr. unfold HSIZE in *. lia.
Qed.

(** C26: asked for at most 2^30 bytes (near 2^32 the number of units wraps, see [units_wrap]),
    [malloc] returns a block of its own, of at least the bytes asked for, taken from the free
    blocks or from memory [sbrk] added above the break, which together it splits exactly into the
    block and what is still free, with no byte changed outside the free blocks, the block and the
    static header; or it returns 0, with the heap as it was, when no free block is big enough and
    the break cannot move. *)
Theorem malloc_allocates (base : Z) (h : heap) (bs : list block) (nbytes n : Z)
    (Hok : heap_ok base (started base h) bs) (Hnb : 0 <= nbytes <= 2 ^ 30) (Hn : 3 * Z.of_nat (length bs) + 4 < n) :
  exists r h', malloc base (Z.to_nat n) nbytes h = Some (r, h') /\
    ((r = 0 /\ h' = started base h /\ Forall (fun b : block => b.2 < units nbytes) bs /\
      h_limit h < h_brk h + HSIZE * Z.max (units nbytes) 4096) \/
     (exists bs', heap_ok base h' bs' /\ h_brk h <= h_brk h' /\
      nbytes <= HSIZE * units nbytes - HSIZE /\ size (h_mem h') (r - HSIZE) = units nbytes /\
      base + 2 * HSIZE <= r /\ r - HSIZE + HSIZE * units nbytes <= h_brk h' /\
      (forall x, covers bs x \/ h_brk h <= x < h_brk h' <-> covers bs' x \/ in_block (r - HSIZE) (units nbytes) x) /\
      (forall x, in_block (r - HSIZE) (units nbytes) x -> ~ covers bs' x) /\
      untouched base (h_mem (started base h)) (h_mem h') bs' (r - HSIZE) (units nbytes))).
Proof.
  destruct (units_ok nbytes Hnb) as [Hu1 Hu2].
  assert (Hb : h_brk (started base h) = h_brk h /\ h_limit (started base h) = h_limit h)
    by (unfold started; by destruct (h_freep h =? 0)). destruct Hb as [Hb1 Hb2].
  unfold malloc. fold (started base h).
  destruct (malloc_loop_ok base (started base h) bs (units nbytes) (Z.to_nat n) Hok Hu1 ltac:(lia))
    as [(-> & H1 & H2)|(q & h' & bs' & -> & H1 & H2 & H3)].
  - exists 0, (started base h). split; [done|]. left. rewrite Hb1, Hb2 in H2. auto.
  - exists q, h'. split; [done|]. right. exists bs'. rewrite Hb1 in *. split; [done|]. split; [done|]. split; [lia|done].
Qed.

(** Both at once on a small heap: the first [malloc], and its block freed again. *)
Definition heap0 : heap := Heap ∅ 0 8192 1000000.

Lemma malloc_allocates_witness : exists r h', malloc 4096 100 100 heap0 = Some (r, h').
Proof.
  destruct (malloc_allocates 4096 heap0 [] 100 100) as (r & h' & H & _).
  - apply init_ok; vm_compute; intuition congruence.
  - lia.
  - simpl. lia.
  - exists r, h'. exact H.
Defined.

Lemma free_gives_back_witness : exists n r h' h2, malloc 4096 100 100 heap0 = Some (r, h') /\ free n r h' = Some h2.
Proof.
  assert (Hok : heap_ok 4096 (started 4096 heap0) []) by (apply init_ok; vm_compute; intuition congruence).
  destruct (malloc_loop_ok 4096 (started 4096 heap0) [] (units 100) 100 Hok ltac:(vm_compute; intuition congruence) ltac:(simpl; lia))
    as [(_ & _ & H)|(r & h' & bs' & H1 & H2 & _ & H3 & H4 & H5 & _ & H6 & _)].
  { vm_compute in H. discriminate H. }
  destruct (free_gives_back 4096 h' bs' r (2 * Z.of_nat (length bs') + 3) H2) as (h2 & bs2 & Hf & _).
  - rewrite H3. vm_compute. intuition congruence.
  - exact H4.
  - rewrite H3. exact H5.
  - rewrite H3. exact H6.
  - lia.
  - exists (Z.to_nat (2 * Z.of_nat (length bs') + 3)), r, h', h2. split; [exact H1|exact Hf].
Defined.

(** A request close to the top of the address space wraps to one unit. *)
Theorem units_wrap : units (2 ^ 32 - 1) = 1.
Proof. reflexivity. Qed.

Example malloc_free :
  (let h0 := Heap ∅ 0 8192 1000000 in
   '(p, h1) ← malloc 4096 100 100 h0;
   '(q, h2) ← malloc 4096 100 20 h1;
   h3 ← free 100 p h2;
   h4 ← free 100 q h3;
   Some (p, q, h_brk h4, h_freep h4, ptr (h_mem h4) 4096, size (h_mem h4) 8192)) =
  Some (40856, 40824, 40960, 8192, 8192, 4096).
Proof. vm_compute. reflexivity. Qed.

End Umalloc.
