(* ===== verification/Kernel.v ===== *)
(** * The kernel's data and the monad its code runs in

    The constants and structures of param.h, memlayout.h, mmu.h, fs.h, buf.h,
    file.h, proc.h and sleeplock.h, one record for the kernel's globals, and the
    state monad [K] with the three ways kernel code can come back: a result, a
    [panic], or a [swtch] to the scheduler with the rest of the code as a
    continuation.  A pointer to an element of a static table is its index. *)

From S2P Require Import Prelude Mem.

(** ** Constants *)

Definition NPROC : nat := 64.
Definition KSTACKSIZE : Z := 4096.
Definition NOFILE : nat := 16.
Definition NFILE : nat := 100.
Definition NINODE : nat := 50.
Definition NDEV : Z := 10.
Definition ROOTDEV : Z := 1.
Definition MAXARG : nat := 32.
Definition MAXOPBLOCKS : Z := 10.
Definition LOGSIZE : Z := MAXOPBLOCKS * 3.
Definition NBUF : nat := 30.
Definition FSSIZE : Z := 1000.

Definition EXTMEM : Z := 0x100000.
Definition PHYSTOP : Z := 0xE000000.
Definition DEVSPACE : Z := 0xFE000000.
Definition KERNBASE : Z := 0x80000000.
Definition KERNLINK : Z := KERNBASE + EXTMEM.
Definition V2P (a : Z) : Z := a -u KERNBASE.
Definition P2V (a : Z) : Z := a +u KERNBASE.

Definition PGSIZE : Z := 4096.

Definition ROOTINO : Z := 1.
Definition BSIZE : Z := 512.
Definition NDIRECT : Z := 12.
Definition NINDIRECT : Z := BSIZE / 4.
Definition MAXFILE : Z := NDIRECT + NINDIRECT.
Definition DIRSIZ : nat := 14.
Definition PIPESIZE : Z := 512.

Definition B_VALID : Z := 0x2.
Definition B_DIRTY : Z := 0x4.

Definition T_DIR : Z := 1.
Definition T_FILE : Z := 2.
Definition T_DEV : Z := 3.

(** ** Locks and sleep channels *)

(** The spin locks, named by where they live; [LK_buf] and [LK_inode] are the spin
    locks inside the sleep locks of buffers and inodes. *)
Inductive lock :=
| LK_kmem | LK_ptable | LK_bcache | LK_icache | LK_ftable | LK_log | LK_ticks | LK_cons
| LK_ide | LK_buf (i : nat) | LK_inode (i : nat) | LK_pipe (p : Z).
#[global] Instance lock_eq_dec : EqDecision lock.
Proof. solve_decision. Defined.

(** The addresses processes sleep on. *)
Inductive chan :=
| CH_proc (i : nat) | CH_log | CH_ticks | CH_input | CH_buf (i : nat)
| CH_buflock (i : nat) | CH_inodelock (i : nat) | CH_nread (p : Z) | CH_nwrite (p : Z).
#[global] Instance chan_eq_dec : EqDecision chan.
Proof. solve_decision. Defined.

(** ** Structures *)

Inductive procstate := UNUSED | EMBRYO | SLEEPING | RUNNABLE | RUNNING | ZOMBIE.
#[global] Instance procstate_eq_dec : EqDecision procstate.
Proof. solve_decision. Defined.

Inductive ftype := FD_NONE | FD_PIPE | FD_INODE.
#[global] Instance ftype_eq_dec : EqDecision ftype.
Proof. solve_decision. Defined.

(** [struct sleeplock]; its inner spin lock is named by [lock]. *)
Record sleeplock := Sleeplock {
  sl_locked : bool;
  sl_pid : Z;
}.
Definition upd_sl_locked (g : bool -> bool) (r : sleeplock) : sleeplock :=
  Sleeplock (g (sl_locked r)) (sl_pid r).
Definition upd_sl_pid (g : Z -> Z) (r : sleeplock) : sleeplock :=
  Sleeplock (sl_locked r) (g (sl_pid r)).

(** [struct proc] *)
Record proc := Proc {
  p_sz : Z; (* size of process memory *)
  p_pgdir : Z; (* page table *)
  p_kstack : Z; (* bottom of kernel stack *)
  p_state : procstate;
  p_pid : Z;
  p_parent : option nat;
  p_tf : Z; (* trap frame address *)
  p_context : Z; (* saved context address *)
  p_chan : option chan;
  p_killed : Z;
  p_ofile : list (option nat); (* open files *)
  p_cwd : option nat; (* current directory *)
  p_name : list Z;
  p_exit_status : Z;
}.
Definition upd_p_sz (g : Z -> Z) (r : proc) : proc :=
  Proc (g (p_sz r)) (p_pgdir r) (p_kstack r) (p_state r) (p_pid r) (p_parent r) (p_tf r) (p_context r) (p_chan r) (p_killed r) (p_ofile r) (p_cwd r) (p_name r) (p_exit_status r).
Definition upd_p_pgdir (g : Z -> Z) (r : proc) : proc :=
  Proc (p_sz r) (g (p_pgdir r)) (p_kstack r) (p_state r) (p_pid r) (p_parent r) (p_tf r) (p_context r) (p_chan r) (p_killed r) (p_ofile r) (p_cwd r) (p_name r) (p_exit_status r).
Definition upd_p_kstack (g : Z -> Z) (r : proc) : proc :=
  Proc (p_sz r) (p_pgdir r) (g (p_kstack r)) (p_state r) (p_pid r) (p_parent r) (p_tf r) (p_context r) (p_chan r) (p_killed r) (p_ofile r) (p_cwd r) (p_name r) (p_exit_status r).
Definition upd_p_state (g : procstate -> procstate) (r : proc) : proc :=
  Proc (p_sz r) (p_pgdir r) (p_kstack r) (g (p_state r)) (p_pid r) (p_parent r) (p_tf r) (p_context r) (p_chan r) (p_killed r) (p_ofile r) (p_cwd r) (p_name r) (p_exit_status r).
Definition upd_p_pid (g : Z -> Z) (r : proc) : proc :=
  Proc (p_sz r) (p_pgdir r) (p_kstack r) (p_state r) (g (p_pid r)) (p_parent r) (p_tf r) (p_context r) (p_chan r) (p_killed r) (p_ofile r) (p_cwd r) (p_name r) (p_exit_status r).
Definition upd_p_parent (g : option nat -> option nat) (r : proc) : proc :=
  Proc (p_sz r) (p_pgdir r) (p_kstack r) (p_state r) (p_pid r) (g (p_parent r)) (p_tf r) (p_context r) (p_chan r) (p_killed r) (p_ofile r) (p_cwd r) (p_name r) (p_exit_status r).
Definition upd_p_tf (g : Z -> Z) (r : proc) : proc :=
  Proc (p_sz r) (p_pgdir r) (p_kstack r) (p_state r) (p_pid r) (p_parent r) (g (p_tf r)) (p_context r) (p_chan r) (p_killed r) (p_ofile r) (p_cwd r) (p_name r) (p_exit_status r).
Definition upd_p_context (g : Z -> Z) (r : proc) : proc :=
  Proc (p_sz r) (p_pgdir r) (p_kstack r) (p_state r) (p_pid r) (p_parent r) (p_tf r) (g (p_context r)) (p_chan r) (p_killed r) (p_ofile r) (p_cwd r) (p_name r) (p_exit_status r).
Definition upd_p_chan (g : option chan -> option chan) (r : proc) : proc :=
  Proc (p_sz r) (p_pgdir r) (p_kstack r) (p_state r) (p_pid r) (p_parent r) (p_tf r) (p_context r) (g (p_chan r)) (p_killed r) (p_ofile r) (p_cwd r) (p_name r) (p_exit_status r).
Definition upd_p_killed (g : Z -> Z) (r : proc) : proc :=
  Proc (p_sz r) (p_pgdir r) (p_kstack r) (p_state r) (p_pid r) (p_parent r) (p_tf r) (p_context r) (p_chan r) (g (p_killed r)) (p_ofile r) (p_cwd r) (p_name r) (p_exit_status r).
Definition upd_p_ofile (g : list (option nat) -> list (option nat)) (r : proc) : proc :=
  Proc (p_sz r) (p_pgdir r) (p_kstack r) (p_state r) (p_pid r) (p_parent r) (p_tf r) (p_context r) (p_chan r) (p_killed r) (g (p_ofile r)) (p_cwd r) (p_name r) (p_exit_status r).
Definition upd_p_cwd (g : option nat -> option nat) (r : proc) : proc :=
  Proc (p_sz r) (p_pgdir r) (p_kstack r) (p_state r) (p_pid r) (p_parent r) (p_tf r) (p_context r) (p_chan r) (p_killed r) (p_ofile r) (g (p_cwd r)) (p_name r) (p_exit_status r).
Definition upd_p_name (g : list Z -> list Z) (r : proc) : proc :=
  Proc (p_sz r) (p_pgdir r) (p_kstack r) (p_state r) (p_pid r) (p_parent r) (p_tf r) (p_context r) (p_chan r) (p_killed r) (p_ofile r) (p_cwd r) (g (p_name r)) (p_exit_status r).
Definition upd_p_exit_status (g : Z -> Z) (r : proc) : proc :=
  Proc (p_sz r) (p_pgdir r) (p_kstack r) (p_state r) (p_pid r) (p_parent r) (p_tf r) (p_context r) (p_chan r) (p_killed r) (p_ofile r) (p_cwd r) (p_name r) (g (p_exit_status r)).

(** [struct buf] *)
Record buf := Buf {
  b_flags : Z;
  b_dev : Z;
  b_blockno : Z;
  b_lock : sleeplock;
  b_refcnt : Z;
  b_prev : nat; (* LRU cache list *)
  b_next : nat;
  b_data : list Z;
}.
Definition upd_b_flags (g : Z -> Z) (r : buf) : buf :=
  Buf (g (b_flags r)) (b_dev r) (b_blockno r) (b_lock r) (b_refcnt r) (b_prev r) (b_next r) (b_data r).
Definition upd_b_dev (g : Z -> Z) (r : buf) : buf :=
  Buf (b_flags r) (g (b_dev r)) (b_blockno r) (b_lock r) (b_refcnt r) (b_prev r) (b_next r) (b_data r).
Definition upd_b_blockno (g : Z -> Z) (r : buf) : buf :=
  Buf (b_flags r) (b_dev r) (g (b_blockno r)) (b_lock r) (b_refcnt r) (b_prev r) (b_next r) (b_data r).
Definition upd_b_lock (g : sleeplock -> sleeplock) (r : buf) : buf :=
  Buf (b_flags r) (b_dev r) (b_blockno r) (g (b_lock r)) (b_refcnt r) (b_prev r) (b_next r) (b_data r).
Definition upd_b_refcnt (g : Z -> Z) (r : buf) : buf :=
  Buf (b_flags r) (b_dev r) (b_blockno r) (b_lock r) (g (b_refcnt r)) (b_prev r) (b_next r) (b_data r).
Definition upd_b_prev (g : nat -> nat) (r : buf) : buf :=
  Buf (b_flags r) (b_dev r) (b_blockno r) (b_lock r) (b_refcnt r) (g (b_prev r)) (b_next r) (b_data r).
Definition upd_b_next (g : nat -> nat) (r : buf) : buf :=
  Buf (b_flags r) (b_dev r) (b_blockno r) (b_lock r) (b_refcnt r) (b_prev r) (g (b_next r)) (b_data r).
Definition upd_b_data (g : list Z -> list Z) (r : buf) : buf :=
  Buf (b_flags r) (b_dev r) (b_blockno r) (b_lock r) (b_refcnt r) (b_prev r) (b_next r) (g (b_data r)).

(** [struct superblock] *)
Record superblock := Superblock {
  sb_size : Z;
  sb_nblocks : Z;
  sb_ninodes : Z;
  sb_nlog : Z;
  sb_logstart : Z;
  sb_inodestart : Z;
  sb_bmapstart : Z;
}.
Definition upd_sb_size (g : Z -> Z) (r : superblock) : superblock :=
  Superblock (g (sb_size r)) (sb_nblocks r) (sb_ninodes r) (sb_nlog r) (sb_logstart r) (sb_inodestart r) (sb_bmapstart r).
Definition upd_sb_nblocks (g : Z -> Z) (r : superblock) : superblock :=
  Superblock (sb_size r) (g (sb_nblocks r)) (sb_ninodes r) (sb_nlog r) (sb_logstart r) (sb_inodestart r) (sb_bmapstart r).
Definition upd_sb_ninodes (g : Z -> Z) (r : superblock) : superblock :=
  Superblock (sb_size r) (sb_nblocks r) (g (sb_ninodes r)) (sb_nlog r) (sb_logstart r) (sb_inodestart r) (sb_bmapstart r).
Definition upd_sb_nlog (g : Z -> Z) (r : superblock) : superblock :=
  Superblock (sb_size r) (sb_nblocks r) (sb_ninodes r) (g (sb_nlog r)) (sb_logstart r) (sb_inodestart r) (sb_bmapstart r).
Definition upd_sb_logstart (g : Z -> Z) (r : superblock) : superblock :=
  Superblock (sb_size r) (sb_nblocks r) (sb_ninodes r) (sb_nlog r) (g (sb_logstart r)) (sb_inodestart r) (sb_bmapstart r).
Definition upd_sb_inodestart (g : Z -> Z) (r : superblock) : superblock :=
  Superblock (sb_size r) (sb_nblocks r) (sb_ninodes r) (sb_nlog r) (sb_logstart r) (g (sb_inodestart r)) (sb_bmapstart r).
Definition upd_sb_bmapstart (g : Z -> Z) (r : superblock) : superblock :=
  Superblock (sb_size r) (sb_nblocks r) (sb_ninodes r) (sb_nlog r) (sb_logstart r) (sb_inodestart r) (g (sb_bmapstart r)).

(** [struct log], with its [struct logheader] *)
Record log := Log {
  log_start : Z;
  log_size : Z;
  log_outstanding : Z;
  log_committing : bool;
  log_dev : Z;
  lh_n : Z;
  lh_block : list Z;
}.
Definition upd_log_start (g : Z -> Z) (r : log) : log :=
  Log (g (log_start r)) (log_size r) (log_outstanding r) (log_committing r) (log_dev r) (lh_n r) (lh_block r).
Definition upd_log_size (g : Z -> Z) (r : log) : log :=
  Log (log_start r) (g (log_size r)) (log_outstanding r) (log_committing r) (log_dev r) (lh_n r) (lh_block r).
Definition upd_log_outstanding (g : Z -> Z) (r : log) : log :=
  Log (log_start r) (log_size r) (g (log_outstanding r)) (log_committing r) (log_dev r) (lh_n r) (lh_block r).
Definition upd_log_committing (g : bool -> bool) (r : log) : log :=
  Log (log_start r) (log_size r) (log_outstanding r) (g (log_committing r)) (log_dev r) (lh_n r) (lh_block r).
Definition upd_log_dev (g : Z -> Z) (r : log) : log :=
  Log (log_start r) (log_size r) (log_outstanding r) (log_committing r) (g (log_dev r)) (lh_n r) (lh_block r).
Definition upd_lh_n (g : Z -> Z) (r : log) : log :=
  Log (log_start r) (log_size r) (log_outstanding r) (log_committing r) (log_dev r) (g (lh_n r)) (lh_block r).
Definition upd_lh_block (g : list Z -> list Z) (r : log) : log :=
  Log (log_start r) (log_size r) (log_outstanding r) (log_committing r) (log_dev r) (lh_n r) (g (lh_block r)).

(** [struct inode], the in-memory copy *)
Record inode := Inode {
  i_dev : Z;
  i_inum : Z;
  i_ref : Z;
  i_lock : sleeplock;
  i_valid : bool;
  i_type : Z;
  i_major : Z;
  i_minor : Z;
  i_nlink : Z;
  i_size : Z;
  i_addrs : list Z;
}.
Definition upd_i_dev (g : Z -> Z) (r : inode) : inode :=
  Inode (g (i_dev r)) (i_inum r) (i_ref r) (i_lock r) (i_valid r) (i_type r) (i_major r) (i_minor r) (i_nlink r) (i_size r) (i_addrs r).
Definition upd_i_inum (g : Z -> Z) (r : inode) : inode :=
  Inode (i_dev r) (g (i_inum r)) (i_ref r) (i_lock r) (i_valid r) (i_type r) (i_major r) (i_minor r) (i_nlink r) (i_size r) (i_addrs r).
Definition upd_i_ref (g : Z -> Z) (r : inode) : inode :=
  Inode (i_dev r) (i_inum r) (g (i_ref r)) (i_lock r) (i_valid r) (i_type r) (i_major r) (i_minor r) (i_nlink r) (i_size r) (i_addrs r).
Definition upd_i_lock (g : sleeplock -> sleeplock) (r : inode) : inode :=
  Inode (i_dev r) (i_inum r) (i_ref r) (g (i_lock r)) (i_valid r) (i_type r) (i_major r) (i_minor r) (i_nlink r) (i_size r) (i_addrs r).
Definition upd_i_valid (g : bool -> bool) (r : inode) : inode :=
  Inode (i_dev r) (i_inum r) (i_ref r) (i_lock r) (g (i_valid r)) (i_type r) (i_major r) (i_minor r) (i_nlink r) (i_size r) (i_addrs r).
Definition upd_i_type (g : Z -> Z) (r : inode) : inode :=
  Inode (i_dev r) (i_inum r) (i_ref r) (i_lock r) (i_valid r) (g (i_type r)) (i_major r) (i_minor r) (i_nlink r) (i_size r) (i_addrs r).
Definition upd_i_major (g : Z -> Z) (r : inode) : inode :=
  Inode (i_dev r) (i_inum r) (i_ref r) (i_lock r) (i_valid r) (i_type r) (g (i_major r)) (i_minor r) (i_nlink r) (i_size r) (i_addrs r).
Definition upd_i_minor (g : Z -> Z) (r : inode) : inode :=
  Inode (i_dev r) (i_inum r) (i_ref r) (i_lock r) (i_valid r) (i_type r) (i_major r) (g (i_minor r)) (i_nlink r) (i_size r) (i_addrs r).
Definition upd_i_nlink (g : Z -> Z) (r : inode) : inode :=
  Inode (i_dev r) (i_inum r) (i_ref r) (i_lock r) (i_valid r) (i_type r) (i_major r) (i_minor r) (g (i_nlink r)) (i_size r) (i_addrs r).
Definition upd_i_size (g : Z -> Z) (r : inode) : inode :=
  Inode (i_dev r) (i_inum r) (i_ref r) (i_lock r) (i_valid r) (i_type r) (i_major r) (i_minor r) (i_nlink r) (g (i_size r)) (i_addrs r).
Definition upd_i_addrs (g : list Z -> list Z) (r : inode) : inode :=
  Inode (i_dev r) (i_inum r) (i_ref r) (i_lock r) (i_valid r) (i_type r) (i_major r) (i_minor r) (i_nlink r) (i_size r) (g (i_addrs r)).

(** [struct file] *)
Record file := File {
  f_type : ftype;
  f_ref : Z;
  f_readable : bool;
  f_writable : bool;
  f_pipe : Z;
  f_ip : nat;
  f_off : Z;
}.
Definition upd_f_type (g : ftype -> ftype) (r : file) : file :=
  File (g (f_type r)) (f_ref r) (f_readable r) (f_writable r) (f_pipe r) (f_ip r) (f_off r).
Definition upd_f_ref (g : Z -> Z) (r : file) : file :=
  File (f_type r) (g (f_ref r)) (f_readable r) (f_writable r) (f_pipe r) (f_ip r) (f_off r).
Definition upd_f_readable (g : bool -> bool) (r : file) : file :=
  File (f_type r) (f_ref r) (g (f_readable r)) (f_writable r) (f_pipe r) (f_ip r) (f_off r).
Definition upd_f_writable (g : bool -> bool) (r : file) : file :=
  File (f_type r) (f_ref r) (f_readable r) (g (f_writable r)) (f_pipe r) (f_ip r) (f_off r).
Definition upd_f_pipe (g : Z -> Z) (r : file) : file :=
  File (f_type r) (f_ref r) (f_readable r) (f_writable r) (g (f_pipe r)) (f_ip r) (f_off r).
Definition upd_f_ip (g : nat -> nat) (r : file) : file :=
  File (f_type r) (f_ref r) (f_readable r) (f_writable r) (f_pipe r) (g (f_ip r)) (f_off r).
Definition upd_f_off (g : Z -> Z) (r : file) : file :=
  File (f_type r) (f_ref r) (f_readable r) (f_writable r) (f_pipe r) (f_ip r) (g (f_off r)).

(** [struct pipe] *)
Record pipe := Pipe {
  pp_data : list Z;
  pp_nread : Z;
  pp_nwrite : Z;
  pp_readopen : bool;
  pp_writeopen : bool;
}.
Definition upd_pp_data (g : list Z -> list Z) (r : pipe) : pipe :=
  Pipe (g (pp_data r)) (pp_nread r) (pp_nwrite r) (pp_readopen r) (pp_writeopen r).
Definition upd_pp_nread (g : Z -> Z) (r : pipe) : pipe :=
  Pipe (pp_data r) (g (pp_nread r)) (pp_nwrite r) (pp_readopen r) (pp_writeopen r).
Definition upd_pp_nwrite (g : Z -> Z) (r : pipe) : pipe :=
  Pipe (pp_data r) (pp_nread r) (g (pp_nwrite r)) (pp_readopen r) (pp_writeopen r).
Definition upd_pp_readopen (g : bool -> bool) (r : pipe) : pipe :=
  Pipe (pp_data r) (pp_nread r) (pp_nwrite r) (g (pp_readopen r)) (pp_writeopen r).
Definition upd_pp_writeopen (g : bool -> bool) (r : pipe) : pipe :=
  Pipe (pp_data r) (pp_nread r) (pp_nwrite r) (pp_readopen r) (g (pp_writeopen r)).

(** The [input] buffer of console.c *)
Record consin := Consin {
  in_buf : list Z;
  in_r : Z;
  in_w : Z;
  in_e : Z;
}.
Definition upd_in_buf (g : list Z -> list Z) (r : consin) : consin :=
  Consin (g (in_buf r)) (in_r r) (in_w r) (in_e r).
Definition upd_in_r (g : Z -> Z) (r : consin) : consin :=
  Consin (in_buf r) (g (in_r r)) (in_w r) (in_e r).
Definition upd_in_w (g : Z -> Z) (r : consin) : consin :=
  Consin (in_buf r) (in_r r) (g (in_w r)) (in_e r).
Definition upd_in_e (g : Z -> Z) (r : consin) : consin :=
  Consin (in_buf r) (in_r r) (in_w r) (g (in_e r)).

(** The kernel's globals. *)
Record kstate := KState {
  k_end : Z; (* linker symbol: first address after the kernel *)
  k_data : Z; (* linker symbol: start of kernel data *)
  k_held : list lock; (* spin locks held by this CPU *)
  k_cur : option nat; (* mycpu()->proc *)
  k_cr3 : Z; (* page table register *)
  k_mem : mem; (* physical memory through the direct map *)
  k_use_lock : bool; (* kmem.use_lock *)
  k_freelist : Z; (* kmem.freelist *)
  k_kpgdir : Z;
  k_procs : list proc; (* ptable.proc *)
  k_nextpid : Z;
  k_initproc : option nat;
  k_bufs : list buf; (* bcache.buf, with bcache.head as the last element *)
  k_disk : gmap Z (list Z); (* the memdisk image, by block *)
  k_disksize : Z;
  k_writes : list (Z * list Z); (* ghost: the block writes the disk has done, oldest first *)
  k_log : log;
  k_sb : superblock;
  k_inodes : list inode; (* icache.inode *)
  k_files : list file; (* ftable.file *)
  k_pipes : gmap Z pipe; (* the struct pipe in each page allocated for one *)
  k_ticks : Z;
  k_input : consin;
  k_out : list Z; (* characters sent to the serial port, oldest first *)
  k_locking : bool; (* cons.locking *)
  k_pos : Z; (* the cursor position register of the CGA *)
  k_crt : gmap Z Z; (* CGA memory, by cell *)
  k_esp0 : Z; (* mycpu()->ts.esp0, the stack for traps from user space *)
  k_first : bool; (* the static first of forkret *)
  k_shift : Z; (* the static shift of kbdgetc *)
}.
Definition upd_k_end (g : Z -> Z) (r : kstate) : kstate :=
  KState (g (k_end r)) (k_data r) (k_held r) (k_cur r) (k_cr3 r) (k_mem r) (k_use_lock r) (k_freelist r) (k_kpgdir r) (k_procs r) (k_nextpid r) (k_initproc r) (k_bufs r) (k_disk r) (k_disksize r) (k_writes r) (k_log r) (k_sb r) (k_inodes r) (k_files r) (k_pipes r) (k_ticks r) (k_input r) (k_out r) (k_locking r) (k_pos r) (k_crt r) (k_esp0 r) (k_first r) (k_shift r).
Definition upd_k_data (g : Z -> Z) (r : kstate) : kstate :=
  KState (k_end r) (g (k_data r)) (k_held r) (k_cur r) (k_cr3 r) (k_mem r) (k_use_lock r) (k_freelist r) (k_kpgdir r) (k_procs r) (k_nextpid r) (k_initproc r) (k_bufs r) (k_disk r) (k_disksize r) (k_writes r) (k_log r) (k_sb r) (k_inodes r) (k_files r) (k_pipes r) (k_ticks r) (k_input r) (k_out r) (k_locking r) (k_pos r) (k_crt r) (k_esp0 r) (k_first r) (k_shift r).
Definition upd_k_held (g : list lock -> list lock) (r : kstate) : kstate :=
  KState (k_end r) (k_data r) (g (k_held r)) (k_cur r) (k_cr3 r) (k_mem r) (k_use_lock r) (k_freelist r) (k_kpgdir r) (k_procs r) (k_nextpid r) (k_initproc r) (k_bufs r) (k_disk r) (k_disksize r) (k_writes r) (k_log r) (k_sb r) (k_inodes r) (k_files r) (k_pipes r) (k_ticks r) (k_input r) (k_out r) (k_locking r) (k_pos r) (k_crt r) (k_esp0 r) (k_first r) (k_shift r).
Definition upd_k_cur (g : option nat -> option nat) (r : kstate) : kstate :=
  KState (k_end r) (k_data r) (k_held r) (g (k_cur r)) (k_cr3 r) (k_mem r) (k_use_lock r) (k_freelist r) (k_kpgdir r) (k_procs r) (k_nextpid r) (k_initproc r) (k_bufs r) (k_disk r) (k_disksize r) (k_writes r) (k_log r) (k_sb r) (k_inodes r) (k_files r) (k_pipes r) (k_ticks r) (k_input r) (k_out r) (k_locking r) (k_pos r) (k_crt r) (k_esp0 r) (k_first r) (k_shift r).
Definition upd_k_cr3 (g : Z -> Z) (r : kstate) : kstate :=
  KState (k_end r) (k_data r) (k_held r) (k_cur r) (g (k_cr3 r)) (k_mem r) (k_use_lock r) (k_freelist r) (k_kpgdir r) (k_procs r) (k_nextpid r) (k_initproc r) (k_bufs r) (k_disk r) (k_disksize r) (k_writes r) (k_log r) (k_sb r) (k_inodes r) (k_files r) (k_pipes r) (k_ticks r) (k_input r) (k_out r) (k_locking r) (k_pos r) (k_crt r) (k_esp0 r) (k_first r) (k_shift r).
Definition upd_k_mem (g : mem -> mem) (r : kstate) : kstate :=
  KState (k_end r) (k_data r) (k_held r) (k_cur r) (k_cr3 r) (g (k_mem r)) (k_use_lock r) (k_freelist r) (k_kpgdir r) (k_procs r) (k_nextpid r) (k_initproc r) (k_bufs r) (k_disk r) (k_disksize r) (k_writes r) (k_log r) (k_sb r) (k_inodes r) (k_files r) (k_pipes r) (k_ticks r) (k_input r) (k_out r) (k_locking r) (k_pos r) (k_crt r) (k_esp0 r) (k_first r) (k_shift r).
Definition upd_k_use_lock (g : bool -> bool) (r : kstate) : kstate :=
  KState (k_end r) (k_data r) (k_held r) (k_cur r) (k_cr3 r) (k_mem r) (g (k_use_lock r)) (k_freelist r) (k_kpgdir r) (k_procs r) (k_nextpid r) (k_initproc r) (k_bufs r) (k_disk r) (k_disksize r) (k_writes r) (k_log r) (k_sb r) (k_inodes r) (k_files r) (k_pipes r) (k_ticks r) (k_input r) (k_out r) (k_locking r) (k_pos r) (k_crt r) (k_esp0 r) (k_first r) (k_shift r).
Definition upd_k_freelist (g : Z -> Z) (r : kstate) : kstate :=
  KState (k_end r) (k_data r) (k_held r) (k_cur r) (k_cr3 r) (k_mem r) (k_use_lock r) (g (k_freelist r)) (k_kpgdir r) (k_procs r) (k_nextpid r) (k_initproc r) (k_bufs r) (k_disk r) (k_disksize r) (k_writes r) (k_log r) (k_sb r) (k_inodes r) (k_files r) (k_pipes r) (k_ticks r) (k_input r) (k_out r) (k_locking r) (k_pos r) (k_crt r) (k_esp0 r) (k_first r) (k_shift r).
Definition upd_k_kpgdir (g : Z -> Z) (r : kstate) : kstate :=
  KState (k_end r) (k_data r) (k_held r) (k_cur r) (k_cr3 r) (k_mem r) (k_use_lock r) (k_freelist r) (g (k_kpgdir r)) (k_procs r) (k_nextpid r) (k_initproc r) (k_bufs r) (k_disk r) (k_disksize r) (k_writes r) (k_log r) (k_sb r) (k_inodes r) (k_files r) (k_pipes r) (k_ticks r) (k_input r) (k_out r) (k_locking r) (k_pos r) (k_crt r) (k_esp0 r) (k_first r) (k_shift r).
Definition upd_k_procs (g : list proc -> list proc) (r : kstate) : kstate :=
  KState (k_end r) (k_data r) (k_held r) (k_cur r) (k_cr3 r) (k_mem r) (k_use_lock r) (k_freelist r) (k_kpgdir r) (g (k_procs r)) (k_nextpid r) (k_initproc r) (k_bufs r) (k_disk r) (k_disksize r) (k_writes r) (k_log r) (k_sb r) (k_inodes r) (k_files r) (k_pipes r) (k_ticks r) (k_input r) (k_out r) (k_locking r) (k_pos r) (k_crt r) (k_esp0 r) (k_first r) (k_shift r).
Definition upd_k_nextpid (g : Z -> Z) (r : kstate) : kstate :=
  KState (k_end r) (k_data r) (k_held r) (k_cur r) (k_cr3 r) (k_mem r) (k_use_lock r) (k_freelist r) (k_kpgdir r) (k_procs r) (g (k_nextpid r)) (k_initproc r) (k_bufs r) (k_disk r) (k_disksize r) (k_writes r) (k_log r) (k_sb r) (k_inodes r) (k_files r) (k_pipes r) (k_ticks r) (k_input r) (k_out r) (k_locking r) (k_pos r) (k_crt r) (k_esp0 r) (k_first r) (k_shift r).
Definition upd_k_initproc (g : option nat -> option nat) (r : kstate) : kstate :=
  KState (k_end r) (k_data r) (k_held r) (k_cur r) (k_cr3 r) (k_mem r) (k_use_lock r) (k_freelist r) (k_kpgdir r) (k_procs r) (k_nextpid r) (g (k_initproc r)) (k_bufs r) (k_disk r) (k_disksize r) (k_writes r) (k_log r) (k_sb r) (k_inodes r) (k_files r) (k_pipes r) (k_ticks r) (k_input r) (k_out r) (k_locking r) (k_pos r) (k_crt r) (k_esp0 r) (k_first r) (k_shift r).
Definition upd_k_bufs (g : list buf -> list buf) (r : kstate) : kstate :=
  KState (k_end r) (k_data r) (k_held r) (k_cur r) (k_cr3 r) (k_mem r) (k_use_lock r) (k_freelist r) (k_kpgdir r) (k_procs r) (k_nextpid r) (k_initproc r) (g (k_bufs r)) (k_disk r) (k_disksize r) (k_writes r) (k_log r) (k_sb r) (k_inodes r) (k_files r) (k_pipes r) (k_ticks r) (k_input r) (k_out r) (k_locking r) (k_pos r) (k_crt r) (k_esp0 r) (k_first r) (k_shift r).
Definition upd_k_disk (g : gmap Z (list Z) -> gmap Z (list Z)) (r : kstate) : kstate :=
  KState (k_end r) (k_data r) (k_held r) (k_cur r) (k_cr3 r) (k_mem r) (k_use_lock r) (k_freelist r) (k_kpgdir r) (k_procs r) (k_nextpid r) (k_initproc r) (k_bufs r) (g (k_disk r)) (k_disksize r) (k_writes r) (k_log r) (k_sb r) (k_inodes r) (k_files r) (k_pipes r) (k_ticks r) (k_input r) (k_out r) (k_locking r) (k_pos r) (k_crt r) (k_esp0 r) (k_first r) (k_shift r).
Definition upd_k_disksize (g : Z -> Z) (r : kstate) : kstate :=
  KState (k_end r) (k_data r) (k_held r) (k_cur r) (k_cr3 r) (k_mem r) (k_use_lock r) (k_freelist r) (k_kpgdir r) (k_procs r) (k_nextpid r) (k_initproc r) (k_bufs r) (k_disk r) (g (k_disksize r)) (k_writes r) (k_log r) (k_sb r) (k_inodes r) (k_files r) (k_pipes r) (k_ticks r) (k_input r) (k_out r) (k_locking r) (k_pos r) (k_crt r) (k_esp0 r) (k_first r) (k_shift r).
Definition upd_k_writes (g : list (Z * list Z) -> list (Z * list Z)) (r : kstate) : kstate :=
  KState (k_end r) (k_data r) (k_held r) (k_cur r) (k_cr3 r) (k_mem r) (k_use_lock r) (k_freelist r) (k_kpgdir r) (k_procs r) (k_nextpid r) (k_initproc r) (k_bufs r) (k_disk r) (k_disksize r) (g (k_writes r)) (k_log r) (k_sb r) (k_inodes r) (k_files r) (k_pipes r) (k_ticks r) (k_input r) (k_out r) (k_locking r) (k_pos r) (k_crt r) (k_esp0 r) (k_first r) (k_shift r).
Definition upd_k_log (g : log -> log) (r : kstate) : kstate :=
  KState (k_end r) (k_data r) (k_held r) (k_cur r) (k_cr3 r) (k_mem r) (k_use_lock r) (k_freelist r) (k_kpgdir r) (k_procs r) (k_nextpid r) (k_initproc r) (k_bufs r) (k_disk r) (k_disksize r) (k_writes r) (g (k_log r)) (k_sb r) (k_inodes r) (k_files r) (k_pipes r) (k_ticks r) (k_input r) (k_out r) (k_locking r) (k_pos r) (k_crt r) (k_esp0 r) (k_first r) (k_shift r).
Definition upd_k_sb (g : superblock -> superblock) (r : kstate) : kstate :=
  KState (k_end r) (k_data r) (k_held r) (k_cur r) (k_cr3 r) (k_mem r) (k_use_lock r) (k_freelist r) (k_kpgdir r) (k_procs r) (k_nextpid r) (k_initproc r) (k_bufs r) (k_disk r) (k_disksize r) (k_writes r) (k_log r) (g (k_sb r)) (k_inodes r) (k_files r) (k_pipes r) (k_ticks r) (k_input r) (k_out r) (k_locking r) (k_pos r) (k_crt r) (k_esp0 r) (k_first r) (k_shift r).
Definition upd_k_inodes (g : list inode -> list inode) (r : kstate) : kstate :=
  KState (k_end r) (k_data r) (k_held r) (k_cur r) (k_cr3 r) (k_mem r) (k_use_lock r) (k_freelist r) (k_kpgdir r) (k_procs r) (k_nextpid r) (k_initproc r) (k_bufs r) (k_disk r) (k_disksize r) (k_writes r) (k_log r) (k_sb r) (g (k_inodes r)) (k_files r) (k_pipes r) (k_ticks r) (k_input r) (k_out r) (k_locking r) (k_pos r) (k_crt r) (k_esp0 r) (k_first r) (k_shift r).
Definition upd_k_files (g : list file -> list file) (r : kstate) : kstate :=
  KState (k_end r) (k_data r) (k_held r) (k_cur r) (k_cr3 r) (k_mem r) (k_use_lock r) (k_freelist r) (k_kpgdir r) (k_procs r) (k_nextpid r) (k_initproc r) (k_bufs r) (k_disk r) (k_disksize r) (k_writes r) (k_log r) (k_sb r) (k_inodes r) (g (k_files r)) (k_pipes r) (k_ticks r) (k_input r) (k_out r) (k_locking r) (k_pos r) (k_crt r) (k_esp0 r) (k_first r) (k_shift r).
Definition upd_k_pipes (g : gmap Z pipe -> gmap Z pipe) (r : kstate) : kstate :=
  KState (k_end r) (k_data r) (k_held r) (k_cur r) (k_cr3 r) (k_mem r) (k_use_lock r) (k_freelist r) (k_kpgdir r) (k_procs r) (k_nextpid r) (k_initproc r) (k_bufs r) (k_disk r) (k_disksize r) (k_writes r) (k_log r) (k_sb r) (k_inodes r) (k_files r) (g (k_pipes r)) (k_ticks r) (k_input r) (k_out r) (k_locking r) (k_pos r) (k_crt r) (k_esp0 r) (k_first r) (k_shift r).
Definition upd_k_ticks (g : Z -> Z) (r : kstate) : kstate :=
  KState (k_end r) (k_data r) (k_held r) (k_cur r) (k_cr3 r) (k_mem r) (k_use_lock r) (k_freelist r) (k_kpgdir r) (k_procs r) (k_nextpid r) (k_initproc r) (k_bufs r) (k_disk r) (k_disksize r) (k_writes r) (k_log r) (k_sb r) (k_inodes r) (k_files r) (k_pipes r) (g (k_ticks r)) (k_input r) (k_out r) (k_locking r) (k_pos r) (k_crt r) (k_esp0 r) (k_first r) (k_shift r).
Definition upd_k_input (g : consin -> consin) (r : kstate) : kstate :=
  KState (k_end r) (k_data r) (k_held r) (k_cur r) (k_cr3 r) (k_mem r) (k_use_lock r) (k_freelist r) (k_kpgdir r) (k_procs r) (k_nextpid r) (k_initproc r) (k_bufs r) (k_disk r) (k_disksize r) (k_writes r) (k_log r) (k_sb r) (k_inodes r) (k_files r) (k_pipes r) (k_ticks r) (g (k_input r)) (k_out r) (k_locking r) (k_pos r) (k_crt r) (k_esp0 r) (k_first r) (k_shift r).
Definition upd_k_out (g : list Z -> list Z) (r : kstate) : kstate :=
  KState (k_end r) (k_data r) (k_held r) (k_cur r) (k_cr3 r) (k_mem r) (k_use_lock r) (k_freelist r) (k_kpgdir r) (k_procs r) (k_nextpid r) (k_initproc r) (k_bufs r) (k_disk r) (k_disksize r) (k_writes r) (k_log r) (k_sb r) (k_inodes r) (k_files r) (k_pipes r) (k_ticks r) (k_input r) (g (k_out r)) (k_locking r) (k_pos r) (k_crt r) (k_esp0 r) (k_first r) (k_shift r).
Definition upd_k_locking (g : bool -> bool) (r : kstate) : kstate :=
  KState (k_end r) (k_data r) (k_held r) (k_cur r) (k_cr3 r) (k_mem r) (k_use_lock r) (k_freelist r) (k_kpgdir r) (k_procs r) (k_nextpid r) (k_initproc r) (k_bufs r) (k_disk r) (k_disksize r) (k_writes r) (k_log r) (k_sb r) (k_inodes r) (k_files r) (k_pipes r) (k_ticks r) (k_input r) (k_out r) (g (k_locking r)) (k_pos r) (k_crt r) (k_esp0 r) (k_first r) (k_shift r).
Definition upd_k_pos (g : Z -> Z) (r : kstate) : kstate :=
  KState (k_end r) (k_data r) (k_held r) (k_cur r) (k_cr3 r) (k_mem r) (k_use_lock r) (k_freelist r) (k_kpgdir r) (k_procs r) (k_nextpid r) (k_initproc r) (k_bufs r) (k_disk r) (k_disksize r) (k_writes r) (k_log r) (k_sb r) (k_inodes r) (k_files r) (k_pipes r) (k_ticks r) (k_input r) (k_out r) (k_locking r) (g (k_pos r)) (k_crt r) (k_esp0 r) (k_first r) (k_shift r).
Definition upd_k_crt (g : gmap Z Z -> gmap Z Z) (r : kstate) : kstate :=
  KState (k_end r) (k_data r) (k_held r) (k_cur r) (k_cr3 r) (k_mem r) (k_use_lock r) (k_freelist r) (k_kpgdir r) (k_procs r) (k_nextpid r) (k_initproc r) (k_bufs r) (k_disk r) (k_disksize r) (k_writes r) (k_log r) (k_sb r) (k_inodes r) (k_files r) (k_pipes r) (k_ticks r) (k_input r) (k_out r) (k_locking r) (k_pos r) (g (k_crt r)) (k_esp0 r) (k_first r) (k_shift r).
Definition upd_k_esp0 (g : Z -> Z) (r : kstate) : kstate :=
  KState (k_end r) (k_data r) (k_held r) (k_cur r) (k_cr3 r) (k_mem r) (k_use_lock r) (k_freelist r) (k_kpgdir r) (k_procs r) (k_nextpid r) (k_initproc r) (k_bufs r) (k_disk r) (k_disksize r) (k_writes r) (k_log r) (k_sb r) (k_inodes r) (k_files r) (k_pipes r) (k_ticks r) (k_input r) (k_out r) (k_locking r) (k_pos r) (k_crt r) (g (k_esp0 r)) (k_first r) (k_shift r).
Definition upd_k_first (g : bool -> bool) (r : kstate) : kstate :=
  KState (k_end r) (k_data r) (k_held r) (k_cur r) (k_cr3 r) (k_mem r) (k_use_lock r) (k_freelist r) (k_kpgdir r) (k_procs r) (k_nextpid r) (k_initproc r) (k_bufs r) (k_disk r) (k_disksize r) (k_writes r) (k_log r) (k_sb r) (k_inodes r) (k_files r) (k_pipes r) (k_ticks r) (k_input r) (k_out r) (k_locking r) (k_pos r) (k_crt r) (k_esp0 r) (g (k_first r)) (k_shift r).
Definition upd_k_shift (g : Z -> Z) (r : kstate) : kstate :=
  KState (k_end r) (k_data r) (k_held r) (k_cur r) (k_cr3 r) (k_mem r) (k_use_lock r) (k_freelist r) (k_kpgdir r) (k_procs r) (k_nextpid r) (k_initproc r) (k_bufs r) (k_disk r) (k_disksize r) (k_writes r) (k_log r) (k_sb r) (k_inodes r) (k_files r) (k_pipes r) (k_ticks r) (k_input r) (k_out r) (k_locking r) (k_pos r) (k_crt r) (k_esp0 r) (k_first r) (g (k_shift r)).

(** ** The tables at boot: static data is zero *)

Definition sleeplock0 : sleeplock := Sleeplock false 0.
Definition proc0 : proc :=
  Proc 0 0 0 UNUSED 0 None 0 0 None 0 (replicate NOFILE None) None (replicate 16 0) 0.
Definition buf0 : buf := Buf 0 0 0 sleeplock0 0 0 0 (replicate (Z.to_nat BSIZE) 0).
Definition sb0 : superblock := Superblock 0 0 0 0 0 0 0.
Definition log0 : log := Log 0 0 0 false 0 0 (replicate (Z.to_nat LOGSIZE) 0).
Definition inode0 : inode := Inode 0 0 0 sleeplock0 false 0 0 0 0 0 (replicate 13 0).
Definition file0 : file := File FD_NONE 0 false false 0 0 0.
Definition consin0 : consin := Consin (replicate 128 0) 0 0 0.

(** The kernel linked so that it ends at [end_] and its data starts at [data]. *)
Definition boot (end_ data : Z) : kstate :=
  KState end_ data [] None 0 ∅ false 0 0 (replicate NPROC proc0) 1 None
    (replicate (S NBUF) buf0) ∅ 0 [] log0 sb0 (replicate NINODE inode0) (replicate NFILE file0)
    ∅ 0 consin0 [] false 0 ∅ 0 true 0.

(** ** The monad *)

(** How kernel code comes back. [Swtch s k]: the process gave up the CPU in [sched] with
    the kernel in state [s]; [k] is what it does when the scheduler resumes it.
    [NoFuel]: a loop that may sleep any number of times was woken more often than the
    bound [Fuel] it is run with. *)
Inductive res (A : Type) :=
| Ok (a : A) (s : kstate)
| Panic (msg : string)
| Swtch (s : kstate) (k : kstate -> res A)
| NoFuel.
Arguments Ok {A} _ _.
Arguments Panic {A} _.
Arguments Swtch {A} _ _.
Arguments NoFuel {A}.

Definition K (A : Type) : Type := kstate -> res A.

Fixpoint bind_res {A B} (r : res A) (f : A -> K B) : res B :=
  match r with
  | Ok a s => f a s
  | Panic msg => Panic msg
  | Swtch s k => Swtch s (fun s' => bind_res (k s') f)
  | NoFuel => NoFuel
  end.

(** How many times round a [while(cond) sleep(...)] loop goes at most. *)
Class Fuel := fuel : nat.

Definition kret {A} (a : A) : K A := fun s => Ok a s.
Definition kbind {A B} (m : K A) (f : A -> K B) : K B := fun s => bind_res (m s) f.
Definition panic {A} (msg : string) : K A := fun _ => Panic msg.
Definition gets {A} (g : kstate -> A) : K A := fun s => Ok (g s) s.
Definition modify (g : kstate -> kstate) : K unit := fun s => Ok tt (g s).

Declare Scope kmonad_scope.
Delimit Scope kmonad_scope with K.
Notation "x <- m ; k" := (kbind m (fun x => k))
  (at level 100, m at next level, right associativity) : kmonad_scope.
Notation "m ;; k" := (kbind m (fun _ => k))
  (at level 100, right associativity) : kmonad_scope.
#[global] Open Scope kmonad_scope.

(** [if(c) m], with nothing to return. *)
Definition kwhen (c : bool) (m : K unit) : K unit := if c then m else kret tt.

(** [for(x in l) body]: a loop with no exit. *)
Fixpoint kiter {A} (l : list A) (body : A -> K unit) : K unit :=
  match l with
  | [] => kret tt
  | x :: l => body x ;; kiter l body
  end.

(** ** Element access

    [ptable.proc[i]] and the like; an index out of range is a stray pointer. *)

Definition nth_or {A} (what : string) (l : list A) (i : nat) : K A :=
  match l !! i with Some x => kret x | None => panic what end.

Definition get_proc (i : nat) : K proc := fun s => nth_or "proc" (k_procs s) i s.
Definition set_proc (i : nat) (g : proc -> proc) : K unit :=
  modify (upd_k_procs (alter g i)).
Definition get_buf (i : nat) : K buf := fun s => nth_or "buf" (k_bufs s) i s.
Definition set_buf (i : nat) (g : buf -> buf) : K unit := modify (upd_k_bufs (alter g i)).
Definition get_inode (i : nat) : K inode := fun s => nth_or "inode" (k_inodes s) i s.
Definition set_inode (i : nat) (g : inode -> inode) : K unit :=
  modify (upd_k_inodes (alter g i)).
Definition get_file (i : nat) : K file := fun s => nth_or "file" (k_files s) i s.
Definition set_file (i : nat) (g : file -> file) : K unit := modify (upd_k_files (alter g i)).

(** ** Spin locks as the rest of the kernel sees them

    What spinlock.c promises on the CPU that runs the code: [acquire] of a lock this CPU
    holds and [release] of one it does not hold are panics. *)

Definition acquire (lk : lock) : K unit := fun s =>
  if bool_decide (lk ∈ k_held s) then Panic "acquire"
  else Ok tt (upd_k_held (cons lk) s).

Definition remove_lock (lk : lock) (l : list lock) : list lock :=
  filter (fun lk' => lk' <> lk) l.

Definition release (lk : lock) : K unit := fun s =>
  if bool_decide (lk ∈ k_held s) then Ok tt (upd_k_held (remove_lock lk) s)
  else Panic "release".

(** ** Outcomes *)

(** The code comes back with a result in [Q], or with a panic that [E] allows; it
    does not give up the CPU. *)
Definition wpx {A} (E : string -> Prop) (m : K A) (Q : A -> kstate -> Prop) (s : kstate) : Prop :=
  match m s with
  | Ok a s' => Q a s'
  | Panic msg => E msg
  | Swtch _ _ | NoFuel => False
  end.

(** The code comes back with a result in [Q]. *)
Definition wp {A} (m : K A) (Q : A -> kstate -> Prop) (s : kstate) : Prop :=
  wpx (fun _ => False) m Q s.

Create HintDb kernel.

Section Rules.
Context {A B : Type} (E : string -> Prop).

Lemma wpx_ret (a : A) Q s : Q a s -> wpx E (kret a) Q s.
Proof. done. Qed.

Lemma wpx_bind (m : K A) (f : A -> K B) Q s :
  wpx E m (fun a s' => wpx E (f a) Q s') s -> wpx E (kbind m f) Q s.
Proof. unfold wpx, kbind. by destruct (m s). Qed.

Lemma wpx_mono (m : K A) (Q Q' : A -> kstate -> Prop) s :
  wpx E m Q s -> (forall a s', Q a s' -> Q' a s') -> wpx E m Q' s.
Proof. unfold wpx. destruct (m s); auto. Qed.

Lemma wpx_gets (g : kstate -> A) Q s : Q (g s) s -> wpx E (gets g) Q s.
Proof. done. Qed.

Lemma wpx_modify g Q s : Q tt (g s) -> wpx E (modify g) Q s.
Proof. done. Qed.

Lemma wpx_panic msg Q s : E msg -> wpx E (panic msg : K A) Q s.
Proof. done. Qed.

Lemma wpx_ok (m : K A) Q s a s' : m s = Ok a s' -> Q a s' -> wpx E m Q s.
Proof. unfold wpx. by intros ->. Qed.
End Rules.

Lemma wpx_weaken {A} (E E' : string -> Prop) (m : K A) Q s :
  (forall msg, E msg -> E' msg) -> wpx E m Q s -> wpx E' m Q s.
Proof. unfold wpx. destruct (m s); auto. Qed.

Lemma wp_run {A} (m : K A) Q s : wp m Q s -> exists a s', m s = Ok a s' /\ Q a s'.
Proof. unfold wp, wpx. destruct (m s) as [a s'| | |]; [eauto|done..]. Qed.

(** Code that may give up the CPU: whenever it does so it guarantees [G] of the state it
    leaves, and whatever state related to that one by [R] it is resumed in, it comes back
    with a result in [Q] or a panic that [E] allows. *)
Fixpoint wpi {A} (E : string -> Prop) (G : kstate -> Prop) (R : kstate -> kstate -> Prop)
    (Q : A -> kstate -> Prop) (r : res A) : Prop :=
  match r with
  | Ok a s => Q a s
  | Panic msg => E msg
  | Swtch s k => G s /\ forall s', R s s' -> wpi E G R Q (k s')
  | NoFuel => True
  end.

Lemma wpi_bind {A B} E G R (m : res A) (f : A -> K B) Q :
  wpi E G R (fun a s => wpi E G R Q (f a s)) m -> wpi E G R Q (bind_res m f).
Proof.
  induction m as [a s|msg|s k IH|]; simpl; [done..| |done].
  intros [HG HR]. split; [done|]. intros s' Hs'. auto.
Qed.

Lemma wpi_mono {A} E G R (Q Q' : A -> kstate -> Prop) (m : res A) :
  wpi E G R Q m -> (forall a s, Q a s -> Q' a s) -> wpi E G R Q' m.
Proof.
  intros H HQ. induction m as [a s|msg|s k IH|]; simpl in *; [auto..| |done].
  destruct H as [HG HR]. split; [done|]. intros s' Hs'. auto.
Qed.

Lemma wpx_wpi {A} E G R (m : K A) Q s : wpx E m Q s -> wpi E G R Q (m s).
Proof. unfold wpx. by destruct (m s). Qed.

Lemma kbind_ok {A B} (m : K A) (f : A -> K B) s a s' :
  m s = Ok a s' -> kbind m f s = f a s'.
Proof. unfold kbind. by intros ->. Qed.

Lemma kbind_panic {A B} (m : K A) (f : A -> K B) s msg :
  m s = Panic msg -> kbind m f s = Panic msg.
Proof. unfold kbind. by intros ->. Qed.

Lemma kbind_swtch {A B} (m : K A) (f : A -> K B) s s' k :
  m s = Swtch s' k -> kbind m f s = Swtch s' (fun s'' => bind_res (k s'') f).
Proof. unfold kbind. by intros ->. Qed.

Lemma acquire_ok lk s :
  lk ∉ k_held s -> acquire lk s = Ok tt (upd_k_held (cons lk) s).
Proof. intros H. unfold acquire. by rewrite bool_decide_eq_false_2. Qed.

Lemma remove_lock_cons lk l : lk ∉ l -> remove_lock lk (lk :: l) = l.
Proof.
  intros H. unfold remove_lock. rewrite filter_cons_False by tauto.
  induction l as [|x l IH]; [done|].
  rewrite filter_cons_True by (intros ->; set_solver). f_equal. apply IH. set_solver.
Qed.

Lemma release_ok lk s :
  lk ∈ k_held s -> release lk s = Ok tt (upd_k_held (remove_lock lk) s).
Proof. intros H. unfold release. by rewrite bool_decide_eq_true_2. Qed.

(** A critical section gives back the locks it found. *)
Lemma release_acquired lk h s :
  k_held s = lk :: h -> lk ∉ h ->
  release lk s = Ok tt (upd_k_held (fun _ => h) s).
Proof.
  intros Hh Hn. rewrite release_ok by (rewrite Hh; set_solver).
  f_equal. unfold upd_k_held. by rewrite Hh, remove_lock_cons.
Qed.
