(* ===== verification/Mmu.v ===== *)
(** * Virtual addresses and page table entries (the macros of mmu.h) *)

From S2P Require Import Prelude Mem Kernel.

Definition PTXSHIFT : Z := 12.
Definition PDXSHIFT : Z := 22.
Definition NPDENTRIES : Z := 1024.

Definition PDX (va : Z) : Z := (va >>u PDXSHIFT) .& 0x3FF.
Definition PTX (va : Z) : Z := (va >>u PTXSHIFT) .& 0x3FF.
Definition PGADDR (d t o : Z) : Z := (d <<u PDXSHIFT) .| (t <<u PTXSHIFT) .| o.
Definition PGROUNDUP (sz : Z) : Z := (sz +u (PGSIZE - 1)) .& u32 (Z.lnot (PGSIZE - 1)).
Definition PGROUNDDOWN (a : Z) : Z := a .& u32 (Z.lnot (PGSIZE - 1)).

Definition PTE_P : Z := 0x001.
Definition PTE_W : Z := 0x002.
Definition PTE_U : Z := 0x004.

Definition PTE_ADDR (pte : Z) : Z := pte .& u32 (Z.lnot 0xFFF).
Definition PTE_FLAGS (pte : Z) : Z := pte .& 0xFFF.

(** Masking the low bits of a 32-bit word. *)
Lemma land_high_mask k a :
  0 <= k <= 32 -> 0 <= a < 2 ^ 32 -> Z.land a (u32 (Z.lnot (Z.ones k))) = a / 2 ^ k * 2 ^ k.
Proof.
  intros Hk Ha. rewrite <- Z.shiftr_div_pow2, <- Z.shiftl_mul_pow2 by lia.
  apply Z.bits_inj'. intros i Hi. rewrite Z.land_spec. unfold u32.
  destruct (Z_lt_le_dec i 32).
  - rewrite Z.mod_pow2_bits_low, Z.lnot_spec by lia. destruct (Z_lt_le_dec i k).
    + rewrite Z.ones_spec_low, Z.shiftl_spec_low by lia. by rewrite andb_false_r.
    + rewrite Z.ones_spec_high, Z.shiftl_spec, Z.shiftr_spec by lia.
      rewrite andb_true_r. f_equal. lia.
  - rewrite (testbit_small 32 a i), Z.shiftl_spec, Z.shiftr_spec by lia. simpl.
    symmetry. apply (testbit_small 32); lia.
Qed.

Lemma mask_page a : 0 <= a < 2 ^ 32 -> a .& u32 (Z.lnot (PGSIZE - 1)) = a / 4096 * 4096.
Proof. apply (land_high_mask 12). lia. Qed.

Lemma PGROUNDDOWN_spec a : 0 <= a < 2 ^ 32 -> PGROUNDDOWN a = a / 4096 * 4096.
Proof. apply mask_page. Qed.

Lemma PGROUNDUP_spec sz :
  0 <= sz <= 2 ^ 32 - 4096 -> PGROUNDUP sz = (sz + 4095) / 4096 * 4096.
Proof.
  intros H. unfold PGROUNDUP. rewrite mask_page by apply u32_range.
  rewrite u32_id by (unfold PGSIZE; lia). unfold PGSIZE.
  by replace (sz + (4096 - 1)) with (sz + 4095) by lia.
Qed.

Lemma PTE_ADDR_spec pte : 0 <= pte < 2 ^ 32 -> PTE_ADDR pte = pte / 4096 * 4096.
Proof. apply (land_high_mask 12). lia. Qed.

Lemma PTE_FLAGS_spec pte : PTE_FLAGS pte = pte mod 4096.
Proof. apply (Z.land_ones pte 12). lia. Qed.

Lemma PDX_spec va : 0 <= va < 2 ^ 32 -> PDX va = va / 2 ^ 22.
Proof.
  intros H. unfold PDX, PDXSHIFT. change 0x3FF with (Z.ones 10).
  rewrite Z.land_ones, Z.shiftr_div_pow2 by lia. apply Z.mod_small.
  split; [apply Z.div_pos; lia|]. apply Z.div_lt_upper_bound; lia.
Qed.

Lemma PTX_spec va : PTX va = (va / 2 ^ 12) mod 2 ^ 10.
Proof.
  unfold PTX, PTXSHIFT. change 0x3FF with (Z.ones 10).
  by rewrite Z.land_ones, Z.shiftr_div_pow2 by lia.
Qed.

Lemma PGADDR_spec d t o :
  0 <= d < 1024 -> 0 <= t < 1024 -> 0 <= o < 4096 ->
  PGADDR d t o = d * 2 ^ 22 + t * 2 ^ 12 + o.
Proof.
  intros Hd Ht Ho. unfold PGADDR, PDXSHIFT, PTXSHIFT.
  rewrite !u32_id by (rewrite Z.shiftl_mul_pow2 by lia; lia).
  rewrite (Z.lor_comm (Z.shiftl d 22)), <- Z.lor_assoc, (Z.lor_comm _ o), Z.lor_assoc,
    (Z.lor_comm _ o), (lor_shiftl_add 12 o t), (lor_shiftl_add 22) by lia. lia.
Qed.

Lemma page_split va :
  0 <= va < 2 ^ 32 ->
  va / 4096 * 4096 = PDX va * 2 ^ 22 + PTX va * 2 ^ 12.
Proof. intros H. rewrite PDX_spec, PTX_spec by done. dlia. Qed.
