(* ===== verification/Kalloc.v ===== *)
(** * The physical page allocator (kalloc.c)

    The free list is threaded through the free pages themselves: [struct run] is the
    first word of a page.  [flist] reads it as a list of pages, and the operations are
    shown to push, pop and count that list. *)

From S2P Require Import Prelude Mem StringC Kernel Mmu.
Import StringC.

Module Kalloc.

(** ** Operations *)

(** [if(kmem.use_lock) acquire(&kmem.lock);] *)
Definition kmem_acquire : K unit := b <- gets k_use_lock; kwhen b (acquire LK_kmem).
Definition kmem_release : K unit := b <- gets k_use_lock; kwhen b (release LK_kmem).

Definition kfree (v : Z) : K unit :=
  end_ <- gets k_end;
  if negb (v mod PGSIZE =? 0) || (v <? end_) || (PHYSTOP <=? V2P v) then panic "kfree" else
  (* Fill with junk to catch dangling refs. *)
  modify (upd_k_mem (fun m => memset m v 1 (Z.to_nat PGSIZE)));;
  kmem_acquire;;
  next <- gets k_freelist;
  modify (upd_k_mem (fun m => store32 m v next));;
  modify (upd_k_freelist (fun _ => v));;
  kmem_release.

Definition kalloc : K Z :=
  kmem_acquire;;
  r <- gets k_freelist;
  kwhen (negb (r =? 0)) (m <- gets k_mem; modify (upd_k_freelist (fun _ => load32 m r)));;
  kmem_release;;
  kret r.

(** [for(; p + PGSIZE <= vend; p += PGSIZE) kfree(p);] *)
Fixpoint freerange_loop (fuel : nat) (p vend : Z) : K unit :=
  if p + PGSIZE <=? vend then
    match fuel with
    | O => fun _ => NoFuel
    | S fuel => kfree p;; freerange_loop fuel (p + PGSIZE) vend
    end
  else kret tt.

Definition freerange (vstart vend : Z) : K unit :=
  freerange_loop (Z.to_nat (vend / PGSIZE)) (PGROUNDUP vstart) vend.

Definition kinit1 (vstart vend : Z) : K unit :=
  modify (upd_k_use_lock (fun _ => false));;
  freerange vstart vend.

Definition kinit2 (vstart vend : Z) : K unit :=
  freerange vstart vend;;
  modify (upd_k_use_lock (fun _ => true)).

(** [while(r) { freeMemBytes += 4096; r = r->next; }] *)
Fixpoint freemem_loop (fuel : nat) (m : mem) (r bytes : Z) : option Z :=
  if r =? 0 then Some bytes
  else match fuel with
       | O => None
       | S fuel => freemem_loop fuel m (load32 m r) (s32 (bytes + 4096))
       end.

Definition freemem : K Z :=
  kmem_acquire;;
  r <- gets k_freelist;
  m <- gets k_mem;
  match freemem_loop (Z.to_nat (PHYSTOP / PGSIZE)) m r 0 with
  | None => panic "freemem: the list does not end"
  | Some freeMemBytes =>
      let freeMemBytes := if freeMemBytes <? 0 then -1 else freeMemBytes in
      kmem_release;;
      kret freeMemBytes
  end.

(** ** The free list *)

(** The pages of the list that starts at [head]. *)
Fixpoint flist (m : mem) (head : Z) (pages : list Z) : Prop :=
  match pages with
  | [] => head = 0
  | p :: ps => head = p /\ p <> 0 /\ flist m (load32 m p) ps
  end.

(** A page the allocator may manage. *)
Definition managed (end_ p : Z) : Prop :=
  p mod PGSIZE = 0 /\ KERNBASE < end_ <= p /\ p < KERNBASE + PHYSTOP.

(** [pages] are the free pages, each once. *)
Definition kmem_ok (s : kstate) (pages : list Z) : Prop :=
  flist (k_mem s) (k_freelist s) pages /\ NoDup pages /\
  Forall (managed (k_end s)) pages.

(** The allocator's lock can be taken. *)
Definition kmem_free (s : kstate) : Prop := k_use_lock s = true -> LK_kmem ∉ k_held s.

Lemma managed_range e p : managed e p -> KERNBASE <= p /\ p + PGSIZE <= KERNBASE + PHYSTOP /\ V2P p < PHYSTOP.
Proof.
  unfold managed, V2P, u32, KERNBASE, PHYSTOP, PGSIZE. intros (H & He & Hp).
  rewrite Z.mod_small by lia. split_and!; [lia|dlia|lia].
Qed.

Lemma managed_apart e p q : managed e p -> managed e q -> p <> q -> p + PGSIZE <= q \/ q + PGSIZE <= p.
Proof. unfold managed, PGSIZE. intros (Hp & _) (Hq & _) Hne. dlia. Qed.

Lemma flist_ext m m' head pages :
  (forall p, p ∈ pages -> load32 m' p = load32 m p) -> flist m head pages -> flist m' head pages.
Proof.
  revert head. induction pages as [|p ps IH]; intros head Hm; simpl; [done|].
  intros (-> & Hp & Hl). split_and!; [done..|].
  rewrite Hm by set_solver. apply IH; [|done]. intros; apply Hm. set_solver.
Qed.

Lemma flist_head m h1 h2 pages : flist m h1 pages -> flist m h2 pages -> h1 = h2.
Proof. destruct pages; simpl; [by intros -> ->|]. by intros (-> & _) (-> & _). Qed.

(** Writing one managed page leaves the rest of the list as it was. *)
Lemma flist_other m m' e head pages v :
  Forall (managed e) pages -> managed e v -> v ∉ pages ->
  (forall a, a < v \/ v + PGSIZE <= a -> load8 m' a = load8 m a) ->
  flist m head pages -> flist m' head pages.
Proof.
  intros Hall Hv Hni Hm. apply flist_ext. intros p Hp.
  rewrite Forall_forall in Hall. pose proof (Hall p Hp) as Hpm.
  destruct (managed_apart e p v Hpm Hv) as [H|H]; [by intros ->|..];
    unfold load32; f_equal; apply loads_ext; intros i Hi; apply Hm; unfold PGSIZE in *; lia.
Qed.

(** The free pages fit below [PHYSTOP]. *)
Lemma managed_count e pages :
  NoDup pages -> Forall (managed e) pages -> (length pages <= Z.to_nat (PHYSTOP / PGSIZE))%nat.
Proof.
  intros Hnd Hall.
  set (frames := (fun i => KERNBASE + PGSIZE * i) <$> seqZ 0 (PHYSTOP / PGSIZE)).
  replace (Z.to_nat (PHYSTOP / PGSIZE)) with (length frames)
    by (unfold frames; by rewrite length_fmap, length_seqZ).
  apply submseteq_length, NoDup_submseteq; [done|]. intros p Hp.
  rewrite Forall_forall in Hall. destruct (Hall p Hp) as (Hm & He & Hlt).
  apply list_elem_of_fmap. exists ((p - KERNBASE) / PGSIZE).
  unfold KERNBASE, PHYSTOP, PGSIZE in *. split; [dlia|]. apply elem_of_seqZ. dlia.
Qed.

(** ** What the operations do *)

Lemma kmem_acquire_ok s :
  kmem_free s ->
  exists h, kmem_acquire s = Ok tt (upd_k_held (fun _ => h) s) /\
    forall s', k_held s' = h -> k_use_lock s' = k_use_lock s ->
      kmem_release s' = Ok tt (upd_k_held (fun _ => k_held s) s').
Proof.
  intros Hf. unfold kmem_acquire, kmem_release, kwhen, kbind, gets.
  destruct (k_use_lock s) eqn:E; simpl.
  - exists (LK_kmem :: k_held s). rewrite acquire_ok by (by apply Hf). split; [done|].
    intros s' Hh Hu. rewrite Hu. simpl. rewrite (release_acquired LK_kmem (k_held s)) by (auto).
    done.
  - exists (k_held s). split; [by destruct s|].
    intros s' Hh Hu. rewrite Hu. simpl. rewrite <- Hh. by destruct s'.
Qed.

(** The page [v] after [kfree]: the link and the junk. *)
Definition freed (m : mem) (v next : Z) : mem :=
  store32 (memset m v 1 (Z.to_nat PGSIZE)) v next.

Lemma freed_outside m v next a :
  a < v \/ v + PGSIZE <= a -> load8 (freed m v next) a = load8 m a.
Proof.
  unfold freed, PGSIZE. intros H. unfold store32.
  rewrite load8_stores_out by (rewrite length_unpack; lia).
  rewrite load8_memset. zcase; simpl; lia || done.
Qed.

Lemma freed_junk m v next a : v + 4 <= a < v + PGSIZE -> load8 (freed m v next) a = 1.
Proof.
  unfold freed, PGSIZE. intros H. unfold store32. rewrite load8_stores_out by (rewrite length_unpack; lia).
  rewrite load8_memset. zcase; simpl; lia || done.
Qed.

Lemma freed_link m v next : load32 (freed m v next) v = u32 next.
Proof. apply load32_store32_same. Qed.

Lemma kfree_run s v :
  managed (k_end s) v -> kmem_free s ->
  kfree v s = Ok tt (upd_k_freelist (fun _ => v)
    (upd_k_mem (fun m => freed m v (k_freelist s)) s)).
Proof.
  intros Hv Hf. pose proof (managed_range _ _ Hv) as (Hk & Hp & HV). destruct Hv as (Hm & He & Hlt).
  unfold kfree. rewrite (kbind_ok _ _ _ (k_end s) s) by done.
  rewrite Hm, Z.eqb_refl.
  replace (v <? k_end s) with false by (symmetry; apply Z.ltb_ge; lia).
  replace (PHYSTOP <=? V2P v) with false by (symmetry; apply Z.leb_gt; lia).
  cbn [negb orb].
  erewrite kbind_ok by done.
  set (s1 := upd_k_mem _ s).
  destruct (kmem_acquire_ok s1) as (h & Ha & Hr); [exact Hf|].
  rewrite (kbind_ok _ _ _ _ _ Ha). do 3 (erewrite kbind_ok by done).
  rewrite Hr by done. by destruct s.
Qed.

Lemma kfree_ok s pages v :
  kmem_ok s pages -> managed (k_end s) v -> v ∉ pages -> kmem_free s ->
  exists s', kfree v s = Ok tt s' /\ kmem_ok s' (v :: pages) /\
    s' = upd_k_freelist (fun _ => v) (upd_k_mem (fun m => freed m v (k_freelist s)) s).
Proof.
  intros (Hl & Hnd & Hall) Hv Hni Hf. eexists. split; [by apply kfree_run|]. split; [|done].
  split_and!; simpl; [|by constructor|by constructor].
  pose proof (managed_range _ _ Hv) as (Hk & _ & _).
  split_and!; [done|unfold KERNBASE in *; lia|]. rewrite freed_link.
  eapply (flist_other (k_mem s)); [done|done|done|intros; by apply freed_outside|].
  destruct pages as [|p ps]; simpl in *.
  - by rewrite Hl.
  - destruct Hl as (-> & Hp & Hl). split_and!; [|done..].
    apply Forall_cons in Hall as [Hpm _]. destruct (managed_range _ _ Hpm) as (? & ? & _).
    apply u32_id. unfold KERNBASE, PHYSTOP, PGSIZE in *. lia.
Qed.

Lemma kalloc_run s :
  kmem_free s ->
  kalloc s = Ok (k_freelist s)
    (if k_freelist s =? 0 then s
     else upd_k_freelist (fun _ => load32 (k_mem s) (k_freelist s)) s).
Proof.
  intros Hf. unfold kalloc.
  destruct (kmem_acquire_ok s Hf) as (h & Ha & Hr). rewrite (kbind_ok _ _ _ _ _ Ha).
  erewrite kbind_ok by done. cbn [k_freelist upd_k_held].
  destruct (Z.eqb_spec (k_freelist s) 0) as [E|E]; cbn [negb]; unfold kwhen.
  - erewrite kbind_ok by done. erewrite kbind_ok by (by apply Hr). by destruct s.
  - erewrite (kbind_ok (kbind _ _)) by done. erewrite kbind_ok by (by apply Hr). by destruct s.
Qed.

Lemma kalloc_ok s pages :
  kmem_ok s pages -> kmem_free s ->
  match pages with
  | [] => kalloc s = Ok 0 s
  | p :: ps => exists s', kalloc s = Ok p s' /\ kmem_ok s' ps /\
      s' = upd_k_freelist (fun _ => load32 (k_mem s) p) s
  end.
Proof.
  intros (Hl & Hnd & Hall) Hf. rewrite (kalloc_run s Hf). destruct pages as [|p ps]; simpl in Hl.
  - by rewrite Hl.
  - destruct Hl as (-> & Hp & Hl). destruct (Z.eqb_spec p 0); [done|].
    eexists. split; [done|]. split; [|done].
    apply NoDup_cons in Hnd as [_ Hnd]. apply Forall_cons in Hall as [_ Hall].
    split_and!; done.
Qed.

(** [n] consecutive pages from [p]. *)
Fixpoint frames (n : nat) (p : Z) : list Z :=
  match n with
  | O => []
  | S n => p :: frames n (p + PGSIZE)
  end.

Lemma elem_of_frames n p q :
  q ∈ frames n p <-> exists i, 0 <= i < Z.of_nat n /\ q = p + PGSIZE * i.
Proof.
  revert p. induction n as [|n IH]; intros p; cbn [frames].
  - rewrite elem_of_nil. split; [done|]. intros (i & Hi & _). lia.
  - rewrite elem_of_cons, IH. split.
    + intros [->|(i & Hi & ->)]; [exists 0|exists (i + 1)]; lia.
    + intros (i & Hi & ->). destruct (Z.eq_dec i 0) as [->|]; [left; lia|].
      right. exists (i - 1). lia.
Qed.

Lemma freerange_loop_ok fuel n p vend s pages :
  kmem_ok s pages -> kmem_free s -> p mod PGSIZE = 0 -> KERNBASE < k_end s <= p ->
  vend <= KERNBASE + PHYSTOP -> (n <= fuel)%nat ->
  p + PGSIZE * Z.of_nat n <= vend < p + PGSIZE * Z.of_nat (S n) ->
  (forall q, q ∈ frames n p -> q ∉ pages) ->
  exists s', freerange_loop fuel p vend s = Ok tt s' /\
    kmem_ok s' (rev (frames n p) ++ pages) /\
    k_end s' = k_end s /\ k_use_lock s' = k_use_lock s /\ k_held s' = k_held s.
Proof.
  revert fuel p s pages. induction n as [|n IH]; intros fuel p s pages Hok Hf Hp He Hv Hfu Hn Hni.
  - exists s. assert ((p + PGSIZE <=? vend) = false) as E by (apply Z.leb_gt; unfold PGSIZE in *; lia).
    destruct fuel; cbn [freerange_loop]; rewrite E; done.
  - destruct fuel as [|fuel]; [lia|]. cbn [freerange_loop].
    assert ((p + PGSIZE <=? vend) = true) as -> by (apply Z.leb_le; unfold PGSIZE in *; lia).
    assert (Hmp : managed (k_end s) p).
    { split_and!; [done|lia|lia|]. unfold PGSIZE in *. lia. }
    destruct (kfree_ok s pages p Hok Hmp) as (s1 & Hrun & Hok1 & E);
      [apply Hni; cbn [frames]; apply elem_of_cons; auto|done|].
    rewrite (kbind_ok _ _ _ _ _ Hrun).
    destruct (IH fuel (p + PGSIZE) s1 (p :: pages)) as (s' & Hr & Hok' & He' & Hu' & Hh');
      [exact Hok1|by rewrite E| | |done|lia|unfold PGSIZE in *; lia| |].
    + unfold PGSIZE in *. dlia.
    + rewrite E. simpl. unfold PGSIZE in *. lia.
    + intros q Hq. rewrite not_elem_of_cons. split.
      * apply elem_of_frames in Hq as (i & Hi & ->). unfold PGSIZE in *. lia.
      * apply Hni. cbn [frames]. apply elem_of_cons; auto.
    + exists s'. rewrite Hr. split; [done|]. rewrite He', Hu', Hh', E.
      cbn [frames rev]. rewrite <- app_assoc. done.
Qed.

(** C28: [kfree] and [kalloc] implement a stack of distinct free pages: [kfree] of a
    managed page that is not free pushes it, fills it with junk outside the link and
    writes to no other page; [kalloc] pops the page freed last, and answers 0 exactly
    when none is left. Of the kernel only memory and the head of the list change: the locks held
    are those held before, and the allocator's lock can be taken again. *)
Theorem kalloc_kfree_refine (s : kstate) (pages : list Z)
    (Hok : kmem_ok s pages) (Hlock : kmem_free s) :
  (forall v, managed (k_end s) v -> v ∉ pages ->
     exists s' m, kfree v s = Ok tt s' /\ kmem_ok s' (v :: pages) /\
       s' = upd_k_freelist (fun _ => v) (upd_k_mem (fun _ => m) s) /\ kmem_free s' /\
       (forall a, v + 4 <= a < v + PGSIZE -> load8 m a = 1) /\
       forall a, a < v \/ v + PGSIZE <= a -> load8 m a = load8 (k_mem s) a) /\
  match pages with
  | [] => kalloc s = Ok 0 s
  | p :: ps => exists s' next, kalloc s = Ok p s' /\ p <> 0 /\ kmem_ok s' ps /\ s' = upd_k_freelist (fun _ => next) s /\ kmem_free s'
  end.
Proof.
  split.
  - intros v Hv Hni. destruct (kfree_ok s pages v Hok Hv Hni Hlock) as (s' & Hrun & Hok' & ->).
    eexists _, _. split; [exact Hrun|]. split; [exact Hok'|]. split; [done|]. split; [exact Hlock|].
    split; intros a Ha; [by apply freed_junk|by apply freed_outside].
  - pose proof (kalloc_ok s pages Hok Hlock) as H. destruct pages as [|p ps]; [done|].
    destruct H as (s' & Hrun & Hok' & ->). eexists _, _. split; [done|].
    destruct Hok as ((_ & Hp & _) & _). done.
Qed.

Lemma freemem_ok (s : kstate) (pages : list Z)
    (Hok : kmem_ok s pages) (Hlock : kmem_free s) :
  freemem s = Ok (4096 * Z.of_nat (length pages)) s /\
  0 <= 4096 * Z.of_nat (length pages) <= PHYSTOP.
Proof.
  destruct Hok as (Hl & Hnd & Hall).
  pose proof (managed_count _ _ Hnd Hall) as Hcount.
  assert (Hbound : 4096 * Z.of_nat (length pages) <= PHYSTOP)
    by (change (Z.to_nat (PHYSTOP / PGSIZE)) with (Z.to_nat 57344) in Hcount; unfold PHYSTOP; lia).
  split; [|lia].
  assert (Hloop : forall fuel head ps b, flist (k_mem s) head ps -> (length ps <= fuel)%nat ->
    0 <= b -> b + 4096 * Z.of_nat (length ps) <= PHYSTOP ->
    freemem_loop fuel (k_mem s) head b = Some (b + 4096 * Z.of_nat (length ps))).
  { induction fuel as [|f IH]; intros head [|p ps] b; cbn [flist length freemem_loop].
    - intros -> _ _ _. simpl. f_equal. lia.
    - lia.
    - intros -> _ _ _. simpl. f_equal. lia.
    - intros (-> & Hp & Hps) Hlen Hb Hle. destruct (Z.eqb_spec p 0); [done|].
      unfold PHYSTOP in *. rewrite s32_id by lia. rewrite (IH _ ps) by (done || lia). f_equal. lia. }
  unfold freemem. destruct (kmem_acquire_ok s Hlock) as (h & Ha & Hr).
  rewrite (kbind_ok _ _ _ _ _ Ha). do 2 (erewrite kbind_ok by done). cbn [k_freelist k_mem upd_k_held].
  rewrite (Hloop _ _ pages 0) by (done || lia). rewrite Z.add_0_l.
  replace (4096 * Z.of_nat (length pages) <? 0) with false by (symmetry; apply Z.ltb_ge; lia).
  erewrite kbind_ok by (by apply Hr). unfold kret. by destruct s.
Qed.

(** [freemem] reports exactly 4096 bytes per free page; the [int] never
    overflows, so the -1 the code keeps for that case is never returned. *)
Theorem freemem_exact (s : kstate) (pages : list Z)
    (Hok : kmem_ok s pages) (Hlock : kmem_free s) :
  freemem s = Ok (4096 * Z.of_nat (length pages)) s /\
  0 <= 4096 * Z.of_nat (length pages) <= PHYSTOP.
Proof. by apply freemem_ok. Qed.

(** A machine whose kernel ends one page below the top of memory, with that page freed. *)
Definition top_page : Z := KERNBASE + PHYSTOP - PGSIZE.
Definition one_page : kstate :=
  match kfree top_page (boot top_page KERNLINK) with Ok _ s => s | _ => boot 0 0 end.

Lemma one_page_ok : kmem_ok one_page [top_page] /\ kmem_free one_page.
Proof.
  split; [|by vm_compute]. split_and!.
  - split_and!; by vm_compute.
  - by_decide.
  - constructor; [|constructor]. split_and!; by vm_compute.
Qed.

Lemma kalloc_kfree_refine_witness :
  exists s' next, kalloc one_page = Ok top_page s' /\ top_page <> 0 /\ kmem_ok s' [] /\
    s' = upd_k_freelist (fun _ => next) one_page /\ kmem_free s'.
Proof.
  apply (kalloc_kfree_refine one_page [top_page]); apply one_page_ok.
Defined.

Lemma freemem_exact_witness : freemem one_page = Ok 4096 one_page.
Proof. apply (freemem_exact one_page [top_page]); apply one_page_ok. Defined.

(** The two initialisation phases of [main] put every page frame between the
    end of the kernel and [PHYSTOP] on the free list, each once, and turn the lock on. *)
Theorem kinit_frees_all (s : kstate) (n1 n2 : nat)
    (Hk : KERNBASE < k_end s) (Hf : k_freelist s = 0) (Hh : k_held s = [])
    (H1 : k_end s <= P2V (4 * 1024 * 1024))
    (Hn1 : n1 = Z.to_nat ((P2V (4 * 1024 * 1024) - PGROUNDUP (k_end s)) / PGSIZE))
    (Hn2 : n2 = Z.to_nat ((PHYSTOP - 4 * 1024 * 1024) / PGSIZE)) :
  exists s', (kinit1 (k_end s) (P2V (4 * 1024 * 1024));;
              kinit2 (P2V (4 * 1024 * 1024)) (P2V PHYSTOP)) s = Ok tt s' /\
    kmem_ok s' (rev (frames n2 (P2V (4 * 1024 * 1024))) ++ rev (frames n1 (PGROUNDUP (k_end s)))) /\
    k_use_lock s' = true /\ k_held s' = [].
Proof.
  change (P2V (4 * 1024 * 1024)) with 0x80400000 in *. change (P2V PHYSTOP) with 0x8E000000.
  assert (Hup : PGROUNDUP (k_end s) = (k_end s + 4095) / 4096 * 4096)
    by (apply PGROUNDUP_spec; unfold KERNBASE in Hk; lia).
  set (e := PGROUNDUP (k_end s)) in *.
  assert (He : k_end s <= e <= 0x80400000 /\ e mod 4096 = 0)
    by (rewrite Hup; split; [dlia|apply Z_mod_mult]).
  unfold kinit1, kinit2, freerange. set (s0 := upd_k_use_lock (fun _ => false) s).
  destruct (freerange_loop_ok (Z.to_nat (0x80400000 / PGSIZE)) n1 e 0x80400000 s0 [])
    as (s1 & Hr1 & Hok1 & He1 & Hu1 & Hh1); try done; unfold PGSIZE, PHYSTOP, KERNBASE in *.
  { split_and!; simpl; [by rewrite Hf|constructor|constructor]. }
  { apply He. }
  { simpl. lia. }
  { subst n1. apply Z2Nat.inj_le; dlia. }
  { subst n1. rewrite Nat2Z.inj_succ, Z2Nat.id by dlia. dlia. }
  { intros q _. apply not_elem_of_nil. }
  rewrite app_nil_r in Hok1.
  destruct (freerange_loop_ok (Z.to_nat (0x8E000000 / PGSIZE)) n2 0x80400000 0x8E000000 s1 (rev (frames n1 e)))
    as (s2 & Hr2 & Hok2 & He2 & Hu2 & Hh2); try done; unfold PGSIZE, KERNBASE in *.
  { intros Hu. rewrite Hu1 in Hu. done. }
  { rewrite He1. simpl. lia. }
  { subst n2. apply Z2Nat.inj_le; dlia. }
  { subst n2. rewrite Nat2Z.inj_succ, Z2Nat.id by dlia. dlia. }
  { intros q Hq Hq'.
    apply elem_of_frames in Hq as (i & Hi & ->). apply list_elem_of_In, in_rev, list_elem_of_In in Hq'.
    apply elem_of_frames in Hq' as (j & Hj & E). unfold PGSIZE in *. dlia. }
  exists (upd_k_use_lock (fun _ => true) s2).
  split; [|split; [exact Hok2|split; [done|simpl; rewrite Hh2, Hh1; exact Hh]]].
  erewrite kbind_ok; [|erewrite kbind_ok by done; exact Hr1].
  change (PGROUNDUP 0x80400000) with 0x80400000.
  erewrite kbind_ok by exact Hr2. done.
Qed.

Lemma kinit_frees_all_witness :
  exists s', (kinit1 0x80115000 (P2V (4 * 1024 * 1024));;
              kinit2 (P2V (4 * 1024 * 1024)) (P2V PHYSTOP)) (boot 0x80115000 KERNLINK) = Ok tt s' /\
    kmem_ok s' (rev (frames (Z.to_nat ((PHYSTOP - 4 * 1024 * 1024) / PGSIZE)) (P2V (4 * 1024 * 1024))) ++
      rev (frames (Z.to_nat ((P2V (4 * 1024 * 1024) - PGROUNDUP 0x80115000) / PGSIZE))
             (PGROUNDUP 0x80115000))) /\
    k_use_lock s' = true /\ k_held s' = [].
Proof.
  apply (kinit_frees_all (boot 0x80115000 KERNLINK)); first [reflexivity | vm_compute; congruence].
Defined.
End Kalloc.
