(* ===== verification/Spinlock.v ===== *)
(** * Spin locks (spinlock.c)

    [pushcli], [popcli], [acquire] and [release] on one CPU, down to the interrupt
    flag and the fields of [struct spinlock], and their refinement of the set of held
    locks that the rest of the kernel is modelled with.  [Smp] interleaves the steps of
    [acquire] and [release] on any number of CPUs. *)

From S2P Require Import Prelude Mem Kernel.

Module Spinlock.

(** The part of [struct cpu] the locks use, with the interrupt flag of [eflags]. *)
Record cpu := Cpu { c_if : bool; c_ncli : Z; c_intena : bool }.

(** [struct spinlock]: [locked] and the CPU that holds it. *)
Record spin := Spin { sp_locked : bool; sp_cpu : option nat }.

Record machine := Machine { m_me : nat; m_cpu : cpu; m_spins : lock -> spin }.

(** [Spinning]: another CPU holds the lock, and the [xchg] loop does not end here. *)
Inductive out (A : Type) := Ret (a : A) | Die (msg : string) | Spinning.
Arguments Ret {A} _.
Arguments Die {A} _.
Arguments Spinning {A}.

Definition set_cpu (g : cpu -> cpu) (x : machine) : machine :=
  Machine (m_me x) (g (m_cpu x)) (m_spins x).
Definition set_spin (lk : lock) (sp : spin) (x : machine) : machine :=
  Machine (m_me x) (m_cpu x) (fun l => if decide (l = lk) then sp else m_spins x l).

(** ** Operations *)

Definition initlock (lk : lock) (x : machine) : machine := set_spin lk (Spin false None) x.

Definition cli (c : cpu) : cpu := Cpu false (c_ncli c) (c_intena c).
Definition sti (c : cpu) : cpu := Cpu true (c_ncli c) (c_intena c).

Definition pushcli (c : cpu) : cpu :=
  let eflags := c_if c in
  let c := cli c in
  let c := if c_ncli c =? 0 then Cpu (c_if c) (c_ncli c) eflags else c in
  Cpu (c_if c) (c_ncli c + 1) (c_intena c).

Definition popcli (c : cpu) : out cpu :=
  if c_if c then Die "popcli - interruptible" else
  let c := Cpu (c_if c) (c_ncli c - 1) (c_intena c) in
  if c_ncli c <? 0 then Die "popcli" else
  if (c_ncli c =? 0) && c_intena c then Ret (sti c) else Ret c.

(** [holding] leaves [ncli] as it found it, through a [pushcli] and a [popcli]. *)
Definition holding (lk : lock) (x : machine) : out (bool * machine) :=
  let x := set_cpu pushcli x in
  let r := sp_locked (m_spins x lk) && bool_decide (sp_cpu (m_spins x lk) = Some (m_me x)) in
  match popcli (m_cpu x) with
  | Ret c => Ret (r, set_cpu (fun _ => c) x)
  | Die msg => Die msg
  | Spinning => Spinning
  end.

Definition acquire (lk : lock) (x : machine) : out machine :=
  let x := set_cpu pushcli x in
  match holding lk x with
  | Ret (true, _) => Die "acquire"
  | Ret (false, x) =>
      (* while(xchg(&lk->locked, 1) != 0) ; *)
      if sp_locked (m_spins x lk) then Spinning
      else Ret (set_spin lk (Spin true (Some (m_me x))) x)
  | Die msg => Die msg
  | Spinning => Spinning
  end.

Definition release (lk : lock) (x : machine) : out machine :=
  match holding lk x with
  | Ret (false, _) => Die "release"
  | Ret (true, x) =>
      let x := set_spin lk (Spin (sp_locked (m_spins x lk)) None) x in
      let x := set_spin lk (Spin false (sp_cpu (m_spins x lk))) x in
      match popcli (m_cpu x) with
      | Ret c => Ret (set_cpu (fun _ => c) x)
      | Die msg => Die msg
      | Spinning => Spinning
      end
  | Die msg => Die msg
  | Spinning => Spinning
  end.

(** ** Refinement *)

(** [intr] is the interrupt flag with no lock held: it is in [eflags] when none is
    held and in [intena] otherwise. *)
Definition cpu_rel (c : cpu) (depth : nat) (intr : bool) : Prop :=
  c_ncli c = Z.of_nat depth /\
  match depth with
  | O => c_if c = intr
  | S _ => c_if c = false /\ c_intena c = intr
  end.

(** This CPU holds exactly the locks in [held], and nobody holds the others. *)
Definition refines (x : machine) (held : list lock) (intr : bool) : Prop :=
  NoDup held /\ cpu_rel (m_cpu x) (length held) intr /\
  forall lk, m_spins x lk = if decide (lk ∈ held) then Spin true (Some (m_me x)) else Spin false None.

Lemma pushcli_rel c d intr : cpu_rel c d intr -> cpu_rel (pushcli c) (S d) intr.
Proof.
  unfold cpu_rel, pushcli. intros [Hn Hd]. destruct c as [f n e]; simpl in *. subst n.
  destruct d; simpl in *.
  - subst. split; [done|done].
  - destruct (Z.eqb_spec (Z.pos (Pos.of_succ_nat d)) 0); [lia|]. simpl.
    split; [lia|]. by destruct Hd.
Qed.

Lemma popcli_rel c d intr :
  cpu_rel c (S d) intr -> exists c', popcli c = Ret c' /\ cpu_rel c' d intr.
Proof.
  unfold cpu_rel, popcli. intros (Hn & Hf & He). destruct c as [f n e]; cbn -[Z.of_nat] in *. subst.
  replace (Z.of_nat (S d) - 1) with (Z.of_nat d) by lia.
  destruct (Z.ltb_spec (Z.of_nat d) 0); [lia|].
  destruct d; cbn -[Z.of_nat].
  - destruct intr; eexists; done.
  - destruct (Z.eqb_spec (Z.of_nat (S d)) 0); [lia|]. by eexists.
Qed.

Lemma holding_rel lk x d intr :
  cpu_rel (m_cpu x) d intr ->
  exists c, holding lk x =
    Ret (sp_locked (m_spins x lk) && bool_decide (sp_cpu (m_spins x lk) = Some (m_me x)),
         set_cpu (fun _ => c) x) /\ cpu_rel c d intr.
Proof.
  intros H. unfold holding. simpl.
  destruct (popcli_rel (pushcli (m_cpu x)) d intr) as (c & -> & Hc);
    [by apply pushcli_rel|]. by exists c.
Qed.

(** C30: [acquire] and [release] keep, in the [locked] and [cpu] fields, exactly the
    set of locks this CPU holds: [acquire] adds a free lock and panics on one already
    held, [release] removes a held lock and panics on any other; interrupts are off
    while a lock is held, and the outermost [release] restores the flag found by the
    outermost [acquire]. *)
Theorem spinlock_refines (x : machine) (held : list lock) (intr : bool) (lk : lock)
    (Hr : refines x held intr) :
  (if decide (lk ∈ held) then acquire lk x = Die "acquire"
   else exists x', acquire lk x = Ret x' /\ refines x' (lk :: held) intr) /\
  (if decide (lk ∈ held)
   then exists x', release lk x = Ret x' /\ refines x' (remove_lock lk held) intr
   else release lk x = Die "release").
Proof.
  destruct Hr as (Hnd & Hc & Hs). split.
  - unfold acquire.
    destruct (holding_rel lk (set_cpu pushcli x) (S (length held)) intr) as (c & -> & Hc');
      [by apply pushcli_rel|]. simpl. rewrite (Hs lk).
    case_decide as Hin; simpl; [by rewrite bool_decide_eq_true_2|].
    eexists. split; [done|]. split_and!; [by constructor|done|].
    intros l. simpl. repeat case_decide; subst; try set_solver; try done.
    + rewrite Hs, decide_True; set_solver.
    + rewrite Hs, decide_False; set_solver.
  - unfold release.
    destruct (holding_rel lk x (length held) intr Hc) as (c & -> & Hc'). rewrite (Hs lk).
    case_decide as Hin; simpl; [|done]. rewrite bool_decide_eq_true_2 by done. simpl.
    assert (Hlen : length held = S (length (remove_lock lk held))).
    { clear -Hin Hnd. unfold remove_lock. induction held as [|l held IH]; [set_solver|].
      apply NoDup_cons in Hnd as [Hni Hnd]. rewrite filter_cons. case_decide as Hd; simpl.
      - rewrite <- IH; [done|done|set_solver].
      - subst l. f_equal.
        assert (filter (fun l' => l' <> lk) held = held) as ->; [|done].
        clear -Hni. induction held as [|y held IH]; [done|].
        rewrite filter_cons_True by set_solver. f_equal. apply IH. set_solver. }
    rewrite Hlen in Hc'. destruct (popcli_rel _ _ _ Hc') as (c2 & -> & Hc2).
    eexists. split; [done|]. split_and!; [by apply NoDup_filter|done|].
    intros l. simpl. unfold remove_lock.
    destruct (decide (l ∈ filter (fun lk' => lk' <> lk) held)) as [Hf|Hf];
      rewrite list_elem_of_filter in Hf; repeat case_decide; subst; try tauto; try congruence.
    + rewrite Hs, decide_True; tauto.
    + rewrite Hs, decide_False; tauto.
Qed.

Definition machine0 : machine := Machine 0 (Cpu true 0 false) (fun _ => Spin false None).

Lemma spinlock_refines_witness :
  refines machine0 [] true /\
  exists x', acquire LK_ptable machine0 = Ret x' /\ refines x' [LK_ptable] true.
Proof.
  assert (H : refines machine0 [] true)
    by (split_and!; [apply NoDup_nil_2|done..|intros lk; by rewrite decide_False by set_solver]).
  split; [exact H|]. apply (spinlock_refines machine0 [] true LK_ptable H).
Defined.
End Spinlock.

(** ** Several CPUs *)
Module Smp.

(** Where a CPU is in [acquire]/[release] of the one lock considered: [Grabbed] is after
    the [xchg] and before [lk->cpu = mycpu()]; [Leaving] is after [lk->cpu = 0] and before
    [locked = 0]. *)
Inductive pc := Outside | Trying | Grabbed | Inside | Leaving.
#[global] Instance pc_eq_dec : EqDecision pc.
Proof. solve_decision. Defined.

Record smp := SmpState { locked : bool; owner : option nat; pcs : list pc }.

Inductive step : smp -> smp -> Prop :=
| step_try l o ps i :
    ps !! i = Some Outside -> step (SmpState l o ps) (SmpState l o (<[i := Trying]> ps))
| step_spin o ps i :
    ps !! i = Some Trying -> step (SmpState true o ps) (SmpState true o ps)
| step_xchg o ps i :
    ps !! i = Some Trying -> step (SmpState false o ps) (SmpState true o (<[i := Grabbed]> ps))
| step_own l o ps i :
    ps !! i = Some Grabbed -> step (SmpState l o ps) (SmpState l (Some i) (<[i := Inside]> ps))
| step_clear l o ps i :
    ps !! i = Some Inside -> step (SmpState l o ps) (SmpState l None (<[i := Leaving]> ps))
| step_unlock l o ps i :
    ps !! i = Some Leaving -> step (SmpState l o ps) (SmpState false o (<[i := Outside]> ps)).

Definition initial (n : nat) : smp := SmpState false None (replicate n Outside).

(** The CPU has the lock. *)
Definition owns (p : pc) : bool :=
  match p with Grabbed | Inside | Leaving => true | _ => false end.

Definition inv (x : smp) : Prop :=
  (forall i j p q, pcs x !! i = Some p -> pcs x !! j = Some q ->
     owns p = true -> owns q = true -> i = j) /\
  (forall i p, pcs x !! i = Some p -> owns p = true -> locked x = true) /\
  (forall i, pcs x !! i = Some Inside -> owner x = Some i).

Lemma inv_update l o l' o' ps i p p' :
  inv (SmpState l o ps) -> ps !! i = Some p ->
  (owns p' = true -> l' = true /\ (owns p = true \/ l = false)) ->
  (p' = Inside -> o' = Some i) ->
  (owns p = false -> (l' = l \/ l' = true) /\ o' = o) ->
  inv (SmpState l' o' (<[i := p']> ps)).
Proof.
  intros (H1 & H2 & H3) Hi Hown Hin Hkeep. simpl in *.
  assert (Hother : forall j q, j <> i -> ps !! j = Some q -> owns q = true ->
    owns p = false /\ l = true).
  { intros j q Hji Hq Hoq. split; [|by eapply H2].
    destruct (owns p) eqn:E; [|done]. exfalso. apply Hji. eauto. }
  split_and!; simpl.
  - intros a b q r Ha Hb Hq Hr.
    apply list_lookup_insert_Some in Ha as [(-> & -> & _)|(Hai & Ha)];
      apply list_lookup_insert_Some in Hb as [(-> & -> & _)|(Hbi & Hb)]; try done.
    + destruct (Hother b r (not_eq_sym Hbi) Hb Hr). destruct (Hown Hq) as (_ & [|]); congruence.
    + destruct (Hother a q (not_eq_sym Hai) Ha Hq). destruct (Hown Hr) as (_ & [|]); congruence.
    + eauto.
  - intros a q Ha Hq. apply list_lookup_insert_Some in Ha as [(-> & -> & _)|(Hai & Ha)].
    + by destruct (Hown Hq).
    + destruct (Hother a q (not_eq_sym Hai) Ha Hq) as [Hp Hl].
      destruct (Hkeep Hp) as ([->|] & _); done.
  - intros a Ha. apply list_lookup_insert_Some in Ha as [(-> & -> & _)|(Hai & Ha)]; [auto|].
    destruct (Hother a Inside (not_eq_sym Hai) Ha eq_refl) as [Hp Hl].
    destruct (Hkeep Hp) as (_ & ->). auto.
Qed.

Lemma inv_step x y : inv x -> step x y -> inv y.
Proof.
  intros Hinv Hs. destruct Hs as [l o ps i Hi|o ps i Hi|o ps i Hi|l o ps i Hi|l o ps i Hi|l o ps i Hi];
    try exact Hinv; eapply inv_update; try exact Hinv; try exact Hi; simpl; intros; try done; auto.
  - split; [|by left]. destruct Hinv as (_ & H2 & _). by eapply H2.
  - split; [|by left]. destruct Hinv as (_ & H2 & _). by eapply H2.
Qed.

Lemma inv_initial n : inv (initial n).
Proof.
  split_and!; simpl.
  - intros i j p q Hi Hj Hp. apply lookup_replicate in Hi as [-> _]. done.
  - intros i p Hi Hp. apply lookup_replicate in Hi as [-> _]. done.
  - intros i Hi. by apply lookup_replicate in Hi as [? _].
Qed.

(** C29: however the [xchg]s of the CPUs interleave, at most one of them is inside
    the critical section, and the CPU inside is the one [holding] reports, so its
    [release] never panics. *)
Theorem mutual_exclusion (n : nat) (x : smp) (i j : nat)
    (Hreach : rtc step (initial n) x)
    (Hi : pcs x !! i = Some Inside) (Hj : pcs x !! j = Some Inside) :
  i = j /\ locked x = true /\ owner x = Some i.
Proof.
  assert (Hinv : inv x).
  { revert Hreach. apply (rtc_ind_r (fun y => inv y)); [apply inv_initial|].
    intros y z _ Hs Hy. by eapply inv_step. }
  destruct Hinv as (H1 & H2 & H3). split; [by eapply H1|]. split; [by eapply H2|auto].
Qed.

Lemma mutual_exclusion_witness :
  1%nat = 1%nat /\ locked (SmpState true (Some 1%nat) [Outside; Inside]) = true /\
  owner (SmpState true (Some 1%nat) [Outside; Inside]) = Some 1%nat.
Proof.
  apply (mutual_exclusion 2); [|done|done].
  eapply rtc_l; [apply (step_try _ _ _ 1%nat); done|].
  eapply rtc_l; [apply (step_xchg _ _ 1%nat); done|].
  eapply rtc_l; [apply (step_own _ _ _ 1%nat); done|]. apply rtc_refl.
Defined.
End Smp.
