(* ===== verification/Sched.v ===== *)
(** * Sleep, wakeup and sleep locks (proc.c, sleeplock.c)

    [sched] is where a process gives up the CPU: the model returns [Swtch] there, with
    the code after the [swtch] as continuation.  [resumed] is what the scheduler promises
    to the process it switches back to. [sleep] and [wakeup] are lists of steps, which Wakeup.v
    interleaves on several CPUs. *)

From S2P Require Import Prelude Mem Kernel.

(** ** proc.c *)

(** [myproc()]; [curproc] is its uses that follow the pointer. *)
Definition myproc : K (option nat) := gets k_cur.
Definition curproc : K nat :=
  p <- myproc;
  match p with Some p => kret p | None => panic "null process" end.

Definition swtch : K unit := fun s => Swtch s (fun s' => Ok tt s').

(** [ncli] is the number of locks held, and interrupts are off while one is held
    ([Spinlock.refines]), so the fourth check of [sched] cannot fail after the first. *)
Definition sched : K unit :=
  p <- curproc;
  held <- gets k_held;
  if negb (bool_decide (LK_ptable ∈ held)) then panic "sched ptable.lock" else
  if negb (Nat.eqb (length held) 1) then panic "sched locks" else
  pr <- get_proc p;
  if bool_decide (p_state pr = RUNNING) then panic "sched running" else
  swtch.

Definition yield : K unit :=
  acquire LK_ptable ;;
  p <- curproc;
  set_proc p (upd_p_state (fun _ => RUNNABLE)) ;;
  sched ;;
  release LK_ptable.

Definition wakeup1_proc (ch : chan) (pr : proc) : proc :=
  if bool_decide (p_state pr = SLEEPING) && bool_decide (p_chan pr = Some ch)
  then upd_p_state (fun _ => RUNNABLE) pr else pr.

(** What [sleep] and [wakeup] do, step by step: on several processors the steps of different
    processes interleave (Wakeup.v). *)
Inductive act :=
| Acquire (lk : lock)
| Release (lk : lock)
| SetChan (ch : option chan) (* p->chan = ch *)
| SetState (st : procstate) (* p->state = st *)
| Sched
| Wake (ch : chan). (* wakeup1(ch) *)

(** The process table after a step of process [p]. *)
Definition touch (p : nat) (a : act) : list proc -> list proc :=
  match a with
  | SetChan ch => alter (upd_p_chan (fun _ => ch)) p
  | SetState st => alter (upd_p_state (fun _ => st)) p
  | Wake ch => map (wakeup1_proc ch)
  | _ => fun procs => procs
  end.

Definition do_act (p : nat) (a : act) : K unit :=
  match a with
  | Acquire lk => acquire lk
  | Release lk => release lk
  | Sched => sched
  | _ => modify (upd_k_procs (touch p a))
  end.

Definition sleep_enters (lk : lock) : list act :=
  if bool_decide (lk = LK_ptable) then [] else [Acquire LK_ptable; Release lk].
Definition sleep_leaves (lk : lock) : list act :=
  if bool_decide (lk = LK_ptable) then [] else [Release LK_ptable; Acquire lk].
Definition sleep_acts (ch : chan) (lk : lock) : list act :=
  sleep_enters lk ++ [SetChan (Some ch); SetState SLEEPING; Sched; SetChan None] ++ sleep_leaves lk.

Definition sleep (ch : chan) (lk : lock) : K unit :=
  p <- myproc;
  match p with
  | None => panic "sleep"
  | Some p => kiter (sleep_acts ch lk) (do_act p)
  end.

Definition wakeup1 (ch : chan) : K unit :=
  modify (upd_k_procs (map (wakeup1_proc ch))).

(** No step of [wakeup] is about the process that makes it. *)
Definition wakeup_acts (ch : chan) : list act := [Acquire LK_ptable; Wake ch; Release LK_ptable].
Definition wakeup (ch : chan) : K unit := kiter (wakeup_acts ch) (do_act 0).

(** ** sleeplock.c *)

(** A pointer to a sleep lock. *)
Inductive slref := SL_buf (i : nat) | SL_inode (i : nat).

Definition sl_lk (l : slref) : lock :=
  match l with SL_buf i => LK_buf i | SL_inode i => LK_inode i end.
Definition sl_chan (l : slref) : chan :=
  match l with SL_buf i => CH_buflock i | SL_inode i => CH_inodelock i end.
Definition lookup_sl (l : slref) (s : kstate) : option sleeplock :=
  match l with
  | SL_buf i => b_lock <$> k_bufs s !! i
  | SL_inode i => i_lock <$> k_inodes s !! i
  end.
Definition put_sl (l : slref) (g : sleeplock -> sleeplock) : kstate -> kstate :=
  match l with
  | SL_buf i => upd_k_bufs (alter (upd_b_lock g) i)
  | SL_inode i => upd_k_inodes (alter (upd_i_lock g) i)
  end.
Definition get_sl (l : slref) : K sleeplock := fun s =>
  match lookup_sl l s with Some sl => Ok sl s | None => Panic "sleeplock" end.
Definition set_sl (l : slref) (g : sleeplock -> sleeplock) : K unit := modify (put_sl l g).

Definition initsleeplock (l : slref) : K unit :=
  set_sl l (upd_sl_locked (fun _ => false)) ;;
  set_sl l (upd_sl_pid (fun _ => 0)).

(** [while(lk->locked) sleep(lk, &lk->lk)] *)
Fixpoint acquiresleep_loop (n : nat) (l : slref) : K unit :=
  sl <- get_sl l;
  if sl_locked sl then
    match n with
    | O => fun _ => NoFuel
    | S n => sleep (sl_chan l) (sl_lk l) ;; acquiresleep_loop n l
    end
  else kret tt.

Definition acquiresleep `{Fuel} (l : slref) : K unit :=
  acquire (sl_lk l) ;;
  acquiresleep_loop fuel l ;;
  set_sl l (upd_sl_locked (fun _ => true)) ;;
  p <- curproc; pr <- get_proc p;
  set_sl l (upd_sl_pid (fun _ => p_pid pr)) ;;
  release (sl_lk l).

Definition releasesleep (l : slref) : K unit :=
  acquire (sl_lk l) ;;
  set_sl l (upd_sl_locked (fun _ => false)) ;;
  set_sl l (upd_sl_pid (fun _ => 0)) ;;
  wakeup (sl_chan l) ;;
  release (sl_lk l).

Definition holdingsleep (l : slref) : K bool :=
  acquire (sl_lk l) ;;
  sl <- get_sl l;
  p <- curproc; pr <- get_proc p;
  release (sl_lk l) ;;
  kret (sl_locked sl && (sl_pid sl =? p_pid pr)).

(** ** What the scheduler promises *)

(** [s'] resumes process [p] that gave up the CPU in [s]: the scheduler holds the process
    table lock, has made [p] current and RUNNING, and nobody changed [p]'s pid. *)
Definition resumed (s s' : kstate) : Prop :=
  k_held s' = [LK_ptable] /\ k_cur s' = k_cur s /\
  forall p pr, k_cur s = Some p -> k_procs s !! p = Some pr ->
    exists pr', k_procs s' !! p = Some pr' /\ p_state pr' = RUNNING /\ p_pid pr' = p_pid pr.

(** ** Code that sleeps, run to its end *)

(** Each time the code sleeps, the next function of [env] is what the others do until it is
    resumed. *)
Fixpoint resume_with {A} (env : list (kstate -> kstate)) (r : res A) : res A :=
  match env, r with
  | e :: env, Swtch s k => resume_with env (k (e s))
  | _, r => r
  end.

Lemma resume_ok {A} env (a : A) s : resume_with env (Ok a s) = Ok a s.
Proof. by destruct env. Qed.

Lemma resume_bind_ok {A B} (f : A -> K B) env : forall (r : res A) a s b s',
  resume_with env r = Ok a s -> f a s = Ok b s' -> resume_with env (bind_res r f) = Ok b s'.
Proof.
  induction env as [|e env IH]; intros r a s b s' Hr Hf.
  - destruct r; try done. injection Hr as -> ->. cbn. by rewrite Hf.
  - destruct r as [a0 s0|msg|s0 k|]; try done; cbn in *; [injection Hr as -> ->; by rewrite Hf|]. by eapply IH.
Qed.

Lemma resume_bind {A B} (f : A -> K B) env : forall (r : res A) b s',
  resume_with env (bind_res r f) = Ok b s' ->
  exists env' a s, env' `suffix_of` env /\ resume_with env r = Ok a s /\ resume_with env' (f a s) = Ok b s'.
Proof.
  induction env as [|e env IH]; intros r b s' H.
  - destruct r; try done. by exists [], a, s.
  - destruct r as [a s|msg|s k|]; try done; [by exists (e :: env), a, s|]. cbn in H.
    destruct (IH _ _ _ H) as (env' & a & s1 & Hsuf & H1 & H2). exists env', a, s1. split; [by apply suffix_cons_r|done].
Qed.

(** ** Lemmas *)

(** The process the CPU runs. *)
Definition cur_proc (s : kstate) : option proc := p ← k_cur s; k_procs s !! p.

Lemma cur_proc_inv s pr :
  cur_proc s = Some pr -> exists p, k_cur s = Some p /\ k_procs s !! p = Some pr.
Proof. unfold cur_proc. destruct (k_cur s); simpl; [eauto|done]. Qed.

Lemma curproc_ok p s : k_cur s = Some p -> curproc s = Ok p s.
Proof. intros H. unfold curproc, myproc, kbind, gets. simpl. by rewrite H. Qed.

Lemma get_proc_ok p pr s : k_procs s !! p = Some pr -> get_proc p s = Ok pr s.
Proof. intros H. unfold get_proc, nth_or. by rewrite H. Qed.

Lemma get_sl_ok l sl s : lookup_sl l s = Some sl -> get_sl l s = Ok sl s.
Proof. intros H. unfold get_sl. by rewrite H. Qed.

Lemma lookup_put_sl l g s : lookup_sl l (put_sl l g s) = g <$> lookup_sl l s.
Proof.
  destruct l as [i|i]; simpl; rewrite list_lookup_alter_eq by done;
    [by destruct (k_bufs s !! i)|by destruct (k_inodes s !! i)].
Qed.

Lemma put_sl_put_sl l g g' s : put_sl l g (put_sl l g' s) = put_sl l (fun x => g (g' x)) s.
Proof.
  destruct l as [i|i]; simpl; unfold upd_k_bufs, upd_k_inodes; simpl; f_equal;
    by rewrite list_alter_alter_eq.
Qed.

(** The fields other than the tables sleep locks live in. *)
Lemma put_sl_frame l g s :
  k_held (put_sl l g s) = k_held s /\ k_cur (put_sl l g s) = k_cur s /\
  k_procs (put_sl l g s) = k_procs s.
Proof. by destruct l. Qed.

Lemma put_sl_held l g h s :
  put_sl l g (upd_k_held h s) = upd_k_held h (put_sl l g s).
Proof. by destruct l. Qed.

(** A critical section around [f] that does not touch the lock set. *)
Lemma critical lk f s :
  lk ∉ k_held s -> (forall h s, f (upd_k_held h s) = upd_k_held h (f s)) ->
  (forall s, k_held (f s) = k_held s) ->
  (acquire lk ;; modify f ;; release lk) s = Ok tt (f s).
Proof.
  intros Hlk Hf Hh. unfold kbind. rewrite acquire_ok by done. simpl.
  rewrite (release_acquired lk (k_held s)); [|by rewrite Hh|done].
  rewrite Hf. f_equal. rewrite <- (Hh s). by destruct (f s).
Qed.

Lemma wakeup_ok ch s :
  LK_ptable ∉ k_held s ->
  wakeup ch s = Ok tt (upd_k_procs (map (wakeup1_proc ch)) s).
Proof.
  intros H. pose proof (critical LK_ptable (upd_k_procs (map (wakeup1_proc ch))) s H) as Hc.
  revert Hc. unfold wakeup, kbind. cbn [kiter wakeup_acts do_act touch modify bind_res]. unfold kbind.
  rewrite acquire_ok by done. cbn [bind_res modify]. intros ->; done.
Qed.

Lemma put_sl_ext l g g' s : (forall x, g x = g' x) -> put_sl l g s = put_sl l g' s.
Proof.
  intros H. destruct l as [i|i]; simpl; unfold upd_k_bufs, upd_k_inodes; f_equal;
    apply list_alter_ext; try done; intros x _; [destruct x|destruct x];
    unfold upd_b_lock, upd_i_lock; simpl; by rewrite H.
Qed.

Lemma sl_lk_ptable l : sl_lk l <> LK_ptable.
Proof. by destruct l. Qed.
#[export] Hint Resolve sl_lk_ptable : kernel.

Lemma acquiresleep_loop_free n l sl s :
  lookup_sl l s = Some sl -> sl_locked sl = false -> acquiresleep_loop n l s = Ok tt s.
Proof.
  intros Hl Hu. destruct n; simpl; unfold kbind; rewrite (get_sl_ok _ _ _ Hl); simpl; by rewrite Hu.
Qed.

(** What [acquiresleep] does once the lock is found free, with the inner lock held. *)
Lemma acquiresleep_take l s p pr h :
  k_held s = sl_lk l :: h -> sl_lk l ∉ h -> k_cur s = Some p -> k_procs s !! p = Some pr ->
  (set_sl l (upd_sl_locked (fun _ => true)) ;;
   p <- curproc; pr <- get_proc p;
   set_sl l (upd_sl_pid (fun _ => p_pid pr)) ;;
   release (sl_lk l)) s =
  Ok tt (upd_k_held (fun _ => h) (put_sl l (fun _ => Sleeplock true (p_pid pr)) s)).
Proof.
  intros Hh Hn Hcur Hp. unfold kbind, set_sl, modify. cbn [bind_res].
  destruct (put_sl_frame l (upd_sl_locked (fun _ => true)) s) as (F1 & F2 & F3).
  rewrite (curproc_ok p) by congruence. cbn [bind_res].
  rewrite (get_proc_ok p pr) by congruence. cbn [bind_res]. rewrite put_sl_put_sl.
  rewrite (put_sl_ext l _ (fun _ => Sleeplock true (p_pid pr))) by done.
  destruct (put_sl_frame l (fun _ => Sleeplock true (p_pid pr)) s) as (G1 & _ & _).
  by rewrite (release_acquired (sl_lk l) h) by congruence.
Qed.

Lemma acquiresleep_ok `{Fuel} l sl pr s :
  lookup_sl l s = Some sl -> sl_locked sl = false -> sl_lk l ∉ k_held s ->
  cur_proc s = Some pr ->
  acquiresleep l s = Ok tt (put_sl l (fun _ => Sleeplock true (p_pid pr)) s).
Proof.
  intros Hl Hu Hh (p & Hcur & Hp)%cur_proc_inv. unfold acquiresleep.
  rewrite (kbind_ok _ _ _ _ _ (acquire_ok _ _ Hh)).
  rewrite (kbind_ok _ _ _ tt (upd_k_held (cons (sl_lk l)) s))
    by (apply (acquiresleep_loop_free _ _ sl); [by destruct l|done]).
  rewrite (acquiresleep_take l _ p pr (k_held s)) by done. f_equal. by destruct l, s.
Qed.

Lemma holdingsleep_ok l sl pr s :
  lookup_sl l s = Some sl -> sl_lk l ∉ k_held s -> cur_proc s = Some pr ->
  holdingsleep l s = Ok (sl_locked sl && (sl_pid sl =? p_pid pr)) s.
Proof.
  intros Hl Hh (p & Hcur & Hp)%cur_proc_inv. unfold holdingsleep, kbind.
  rewrite acquire_ok by done. cbn [bind_res].
  rewrite (get_sl_ok l sl) by (by destruct l). cbn [bind_res].
  rewrite (curproc_ok p) by done. cbn [bind_res].
  rewrite (get_proc_ok p pr) by done. cbn [bind_res].
  rewrite (release_acquired (sl_lk l) (k_held s)) by done. cbn. by destruct s.
Qed.

Lemma releasesleep_ok l s :
  sl_lk l ∉ k_held s -> LK_ptable ∉ k_held s ->
  releasesleep l s =
  Ok tt (upd_k_procs (map (wakeup1_proc (sl_chan l)))
           (put_sl l (fun _ => Sleeplock false 0) s)).
Proof.
  intros Hh Hpt. unfold releasesleep, kbind.
  rewrite acquire_ok by done. cbn [bind_res]. unfold set_sl, modify. cbn [bind_res].
  rewrite put_sl_put_sl, (put_sl_ext l _ (fun _ => Sleeplock false 0)) by done.
  rewrite put_sl_held.
  destruct (put_sl_frame l (fun _ => Sleeplock false 0) s) as (F1 & _ & _).
  rewrite wakeup_ok.
  - cbn [bind_res]. rewrite (release_acquired (sl_lk l) (k_held s)); [|simpl; congruence|done].
    f_equal. by destruct l, s.
  - simpl. rewrite F1. pose proof (sl_lk_ptable l). set_solver.
Qed.

(** ** Sleeping and waking *)

(** How process [p] looks while it sleeps on [ch]. *)
Definition asleep (ch : chan) (pr : proc) : proc :=
  upd_p_state (fun _ => SLEEPING) (upd_p_chan (fun _ => Some ch) pr).

Lemma sched_ok p pr s :
  k_held s = [LK_ptable] -> k_cur s = Some p -> k_procs s !! p = Some pr ->
  p_state pr <> RUNNING -> sched s = Swtch s (fun s' => Ok tt s').
Proof.
  intros Hh Hcur Hp Hst. unfold sched, kbind. rewrite (curproc_ok p) by done. simpl.
  rewrite Hh, bool_decide_eq_true_2 by set_solver. simpl.
  rewrite (get_proc_ok p pr) by done. simpl. by rewrite bool_decide_eq_false_2.
Qed.

Lemma kiter_app {A} (l1 l2 : list A) (f : A -> K unit) s s1 :
  kiter l1 f s = Ok tt s1 -> kiter (l1 ++ l2) f s = kiter l2 f s1.
Proof.
  revert s. induction l1 as [|x l1 IH]; intros s H; cbn in *; [by injection H as ->|].
  unfold kbind in *. destruct (f x s) as [[] s'| | |]; try done. by apply IH.
Qed.

(** Trading [lk] for the process table lock, and back. *)
Lemma sleep_enter lk p s :
  k_held s = [lk] -> kiter (sleep_enters lk) (do_act p) s = Ok tt (upd_k_held (fun _ => [LK_ptable]) s).
Proof.
  intros Hh. unfold sleep_enters. case_bool_decide as Hlk; cbn [kiter do_act].
  - subst lk. unfold kret, upd_k_held. rewrite <- Hh. by destruct s.
  - unfold kbind. rewrite acquire_ok by (rewrite Hh; set_solver). cbn [bind_res].
    rewrite release_ok by (simpl; rewrite Hh; set_solver). cbn. unfold kret. f_equal.
    unfold upd_k_held; simpl. rewrite Hh. f_equal. unfold remove_lock.
    rewrite filter_cons_True by done. by rewrite filter_cons_False by tauto.
Qed.

Lemma sleep_leave lk p s :
  k_held s = [LK_ptable] -> kiter (sleep_leaves lk) (do_act p) s = Ok tt (upd_k_held (fun _ => [lk]) s).
Proof.
  intros Hh. unfold sleep_leaves. case_bool_decide as Hlk; cbn [kiter do_act].
  - subst lk. unfold kret, upd_k_held. rewrite <- Hh. by destruct s.
  - unfold kbind. rewrite (release_acquired LK_ptable []) by (done || set_solver).
    cbn [bind_res]. by rewrite acquire_ok by (simpl; set_solver).
Qed.

Lemma sleep_swtch ch lk p pr s :
  k_cur s = Some p -> k_procs s !! p = Some pr -> k_held s = [lk] ->
  exists k,
    sleep ch lk s =
      Swtch (upd_k_held (fun _ => [LK_ptable]) (upd_k_procs (alter (asleep ch) p) s)) k /\
    forall s'', k_held s'' = [LK_ptable] ->
      k s'' = Ok tt (upd_k_held (fun _ => [lk]) (upd_k_procs (alter (upd_p_chan (fun _ => None)) p) s'')).
Proof.
  intros Hcur Hp Hh. unfold sleep, kbind at 1, myproc, gets. cbn [bind_res]. rewrite Hcur.
  unfold sleep_acts. rewrite (kiter_app _ _ _ _ _ (sleep_enter lk p s Hh)).
  cbn [app kiter do_act touch]. unfold kbind, modify. cbn [bind_res].
  set (s1 := upd_k_procs _ (upd_k_procs _ _)).
  assert (Hs1 : s1 = upd_k_held (fun _ => [LK_ptable]) (upd_k_procs (alter (asleep ch) p) s)).
  { unfold s1, upd_k_procs, upd_k_held. simpl. f_equal. by rewrite list_alter_alter_eq. }
  rewrite Hs1. rewrite (sched_ok p (asleep ch pr)); [|done|done| |done].
  - eexists. split; [done|]. intros s'' Hs''. cbn [bind_res]. by rewrite sleep_leave.
  - simpl. by rewrite list_lookup_alter_eq, Hp.
Qed.

(** [sleep] gives up the CPU with exactly the process table lock held and the
    process SLEEPING on the channel, so that no [wakeup] can be missed: the next [wakeup1]
    of the channel makes it RUNNABLE and touches no process that does not sleep there; when
    it is resumed it no longer sleeps on the channel and has exactly the lock it was
    called with. *)
Theorem sleep_hands_over (s : kstate) (ch : chan) (lk : lock) (p : nat) (pr : proc)
    (Hcur : k_cur s = Some p) (Hp : k_procs s !! p = Some pr) (Hheld : k_held s = [lk]) :
  exists s' k,
    sleep ch lk s = Swtch s' k /\
    k_held s' = [LK_ptable] /\ k_procs s' = <[p := asleep ch pr]> (k_procs s) /\
    (exists s2, wakeup1 ch s' = Ok tt s2 /\
       (exists pr2, k_procs s2 !! p = Some pr2 /\ p_state pr2 = RUNNABLE) /\
       forall q qr, k_procs s' !! q = Some qr ->
         p_state qr <> SLEEPING \/ p_chan qr <> Some ch -> k_procs s2 !! q = Some qr) /\
    forall s'', resumed s' s'' ->
      exists s3, k s'' = Ok tt s3 /\ k_held s3 = [lk] /\
        exists pr3, k_procs s3 !! p = Some pr3 /\ p_chan pr3 = None /\ p_state pr3 = RUNNING.
Proof.
  destruct (sleep_swtch ch lk p pr s Hcur Hp Hheld) as (k & Hk & Hres).
  eexists _, k. split; [exact Hk|]. split; [done|].
  assert (Hal : alter (asleep ch) p (k_procs s) = <[p := asleep ch pr]> (k_procs s)).
  { apply list_eq. intros i. destruct (decide (p = i)) as [<-|Hne].
    - rewrite list_lookup_alter_eq, Hp. simpl.
      by rewrite list_lookup_insert_eq by (by eapply lookup_lt_Some).
    - by rewrite list_lookup_alter_ne, list_lookup_insert_ne. }
  split; [exact Hal|]. split.
  - eexists. split; [done|]. simpl. split.
    + rewrite list_lookup_fmap, list_lookup_alter_eq, Hp. simpl. eexists. split; [done|].
      unfold wakeup1_proc, asleep. simpl. by rewrite !bool_decide_eq_true_2.
    + intros q qr Hq Hn. rewrite list_lookup_fmap, Hq. simpl. f_equal. unfold wakeup1_proc.
      destruct Hn as [H|H]; rewrite (bool_decide_eq_false_2 _ H); by rewrite ?andb_false_r.
  - intros s'' (Hh & Hc & Hpr). rewrite (Hres s'' Hh). eexists. split; [done|]. split; [done|].
    destruct (Hpr p (asleep ch pr)) as (pr' & Hp' & Hr & _);
      [done|simpl; by rewrite list_lookup_alter_eq, Hp|].
    simpl. rewrite list_lookup_alter_eq, Hp'. simpl. by eexists.
Qed.

Definition sleeper : kstate :=
  upd_k_cur (fun _ => Some 0%nat)
    (upd_k_procs (alter (upd_p_state (fun _ => RUNNING)) 0%nat)
       (upd_k_held (fun _ => [LK_log]) (boot 0 0))).

Lemma sleep_hands_over_witness :
  exists s' k, sleep CH_log LK_log sleeper = Swtch s' k /\ k_held s' = [LK_ptable].
Proof.
  destruct (sleep_hands_over sleeper CH_log LK_log 0%nat
    (upd_p_state (fun _ => RUNNING) proc0) eq_refl eq_refl eq_refl) as (s' & k & H1 & H2 & _).
  by exists s', k.
Defined.

(** ** Sleep locks with other processes running *)

Section Interference.
Context (l : slref) (p : nat) (pid : Z).

(** What the process leaves when it waits for [l]: it sleeps on the lock's address and
    holds only the process table lock. *)
Definition waiting (s : kstate) : Prop :=
  k_held s = [LK_ptable] /\
  exists pr, cur_proc s = Some pr /\ p_state pr = SLEEPING /\ p_chan pr = Some (sl_chan l).

(** The lock is still there when the process is resumed; everything else about it may
    have changed. *)
Definition interference (s s' : kstate) : Prop :=
  resumed s s' /\ is_Some (lookup_sl l s').

Definition current (s : kstate) : Prop :=
  k_cur s = Some p /\ exists pr, k_procs s !! p = Some pr /\ p_pid pr = pid.

Lemma acquiresleep_loop_spec n s :
  current s -> is_Some (lookup_sl l s) -> k_held s = [sl_lk l] ->
  wpi (fun _ => False) waiting interference
    (fun _ s' => current s' /\ k_held s' = [sl_lk l] /\
       exists sl, lookup_sl l s' = Some sl /\ sl_locked sl = false)
    (acquiresleep_loop n l s).
Proof.
  revert s. induction n as [|n IH]; intros s Hc [sl Hl] Hh; simpl; unfold kbind;
    rewrite (get_sl_ok _ _ _ Hl); cbn [bind_res]; destruct (sl_locked sl) eqn:Hu; simpl; eauto 6.
  destruct Hc as (Hcur & pr & Hp & Hpid).
  destruct (sleep_swtch (sl_chan l) (sl_lk l) p pr s Hcur Hp Hh) as (k & -> & Hk).
  cbn [bind_res wpi].
  assert (Hsl : alter (asleep (sl_chan l)) p (k_procs s) !! p = Some (asleep (sl_chan l) pr))
    by (by rewrite list_lookup_alter_eq, Hp).
  split.
  - split; [done|]. exists (asleep (sl_chan l) pr). unfold cur_proc. simpl. by rewrite Hcur.
  - intros s' ((Hh' & Hcur' & Hpr) & Hl'). rewrite Hk by done. cbn [bind_res].
    destruct (Hpr p _ Hcur Hsl) as (pr' & Hp' & _ & Hpid').
    simpl in Hcur'. apply IH; [|by destruct l|done]. split; [simpl; congruence|].
    simpl. rewrite list_lookup_alter_eq, Hp'. simpl. eexists. split; [done|].
    simpl. rewrite Hpid'. exact Hpid.
Qed.
End Interference.

(** Mutual exclusion of sleep locks.  Whatever other processes do while the
    caller sleeps, [acquiresleep] never panics, waits only by sleeping on the lock with
    just the process table lock held, and returns with the lock taken in the caller's name
    from a state in which nobody had it, and with no spin lock held. *)
Theorem acquiresleep_exclusive `{Fuel} (l : slref) (p : nat) (pr : proc) (s : kstate)
    (Hcur : k_cur s = Some p) (Hp : k_procs s !! p = Some pr)
    (Hl : is_Some (lookup_sl l s)) (Hheld : k_held s = []) :
  wpi (fun _ => False) (waiting l) (interference l)
    (fun _ s' => exists s0 sl,
       lookup_sl l s0 = Some sl /\ sl_locked sl = false /\
       s' = upd_k_held (fun _ => []) (put_sl l (fun _ => Sleeplock true (p_pid pr)) s0) /\
       lookup_sl l s' = Some (Sleeplock true (p_pid pr)))
    (acquiresleep l s).
Proof.
  unfold acquiresleep. rewrite (kbind_ok _ _ _ tt (upd_k_held (cons (sl_lk l)) s))
    by (apply acquire_ok; rewrite Hheld; set_solver).
  apply wpi_bind. eapply wpi_mono.
  { apply (acquiresleep_loop_spec l p (p_pid pr)).
    - split; [done|]. exists pr. by split.
    - by destruct l.
    - simpl. by rewrite Hheld. }
  intros _ s' ((Hc & pr' & Hp' & Hpid) & Hh & sl & Hsl & Hu). cbn beta.
  rewrite (acquiresleep_take l s' p pr' []) by (done || set_solver).
  simpl. exists s', sl. rewrite Hpid. split_and!; try done.
  pose proof (lookup_put_sl l (fun _ => Sleeplock true (p_pid pr)) s') as Hlk.
  rewrite Hsl in Hlk. by destruct l.
Qed.

Definition taker : kstate :=
  upd_k_cur (fun _ => Some 0%nat)
    (upd_k_procs (alter (upd_p_pid (fun _ => 7)) 0%nat) (boot 0 0)).

#[local] Instance fuel3 : Fuel := 3%nat.

Lemma acquiresleep_exclusive_witness :
  exists s', acquiresleep (SL_buf 2) taker = Ok tt s' /\
    lookup_sl (SL_buf 2) s' = Some (Sleeplock true 7).
Proof.
  pose proof (acquiresleep_exclusive (SL_buf 2) 0%nat (upd_p_pid (fun _ => 7) proc0) taker
    eq_refl eq_refl ltac:(by eexists) eq_refl) as H.
  destruct (acquiresleep (SL_buf 2) taker) as [[] s'|msg|s' k|] eqn:E; cbn in H.
  - destruct H as (s0 & sl & _ & _ & _ & H). exists s'. by split.
  - done.
  - by rewrite (acquiresleep_ok _ sleeplock0 (upd_p_pid (fun _ => 7) proc0)) in E by (done || set_solver).
  - by rewrite (acquiresleep_ok _ sleeplock0 (upd_p_pid (fun _ => 7) proc0)) in E by (done || set_solver).
Defined.
