(* ===== verification/Wakeup.v ===== *)
(** * No wakeup is lost, on any number of processors

    The steps of [sleep] and [wakeup] (Sched.v) interleave. Some processes wait for a
    condition the way the kernel does, [while(!cond) sleep(ch, lk)] with [lk] held, and others
    make it true and call [wakeup(ch)] with [lk] held. A step that needs a lock waits for it. *)

From S2P Require Import Prelude Mem Kernel Sched.

(** What is left of the code of a process. [Resume]: the process is off its processor, in
    [sched], and goes on when the scheduler picks it. *)
Inductive instr :=
| Do (a : act)
| Loop (* while(!cond) sleep(ch, lk); *)
| Set_cond (* cond = 1; *)
| Resume.

Record smp := Smp {
  procs : list proc;
  owner : lock -> option nat; (* the process that holds a lock *)
  cond : bool;
  code : list (list instr);
}.

Definition with_owner (l : lock) (o : option nat) (m : smp) : smp :=
  Smp (procs m) (fun x => if decide (x = l) then o else owner m x) (cond m) (code m).
Definition goes_to (i : nat) (c : list instr) (m : smp) : smp :=
  Smp (procs m) (owner m) (cond m) (<[i := c]> (code m)).
Definition with_procs (g : list proc -> list proc) (m : smp) : smp :=
  Smp (g (procs m)) (owner m) (cond m) (code m).
Definition with_cond (b : bool) (m : smp) : smp := Smp (procs m) (owner m) b (code m).

Definition is_table_act (a : act) : bool :=
  match a with SetChan _ | SetState _ | Wake _ => true | _ => false end.

Section Interleaving.
Context (ch : chan) (lk : lock).

Definition sleeper_code : list instr := [Do (Acquire lk); Loop; Do (Release lk)].
Definition waker_code : list instr :=
  Do (Acquire lk) :: Set_cond :: map Do (wakeup_acts ch) ++ [Do (Release lk)].

(** A step of process [i]. [sched] wants the process not to be RUNNING and hands the lock of the
    table to the scheduler, which lets go of it; the scheduler takes it again to run a RUNNABLE
    process. *)
Inductive step_of (i : nat) (m : smp) : smp -> Prop :=
| step_acquire l c : code m !! i = Some (Do (Acquire l) :: c) -> owner m l = None ->
    step_of i m (goes_to i c (with_owner l (Some i) m))
| step_release l c : code m !! i = Some (Do (Release l) :: c) -> owner m l = Some i ->
    step_of i m (goes_to i c (with_owner l None m))
| step_table a c : code m !! i = Some (Do a :: c) -> is_table_act a = true ->
    step_of i m (goes_to i c (with_procs (touch i a) m))
| step_sched c pr : code m !! i = Some (Do Sched :: c) -> owner m LK_ptable = Some i ->
    procs m !! i = Some pr -> p_state pr <> RUNNING ->
    step_of i m (goes_to i (Resume :: c) (with_owner LK_ptable None m))
| step_resume c pr : code m !! i = Some (Resume :: c) -> owner m LK_ptable = None ->
    procs m !! i = Some pr -> p_state pr = RUNNABLE ->
    step_of i m (goes_to i c (with_owner LK_ptable (Some i) (with_procs (touch i (SetState RUNNING)) m)))
| step_test c : code m !! i = Some (Loop :: c) ->
    step_of i m (goes_to i (if cond m then c else map Do (sleep_acts ch lk) ++ Loop :: c) m)
| step_set c : code m !! i = Some (Set_cond :: c) ->
    step_of i m (goes_to i c (with_cond true m)).

Definition step (m m' : smp) : Prop := exists i, step_of i m m'.

(** Any number of processes about to wait or to wake; no lock is held. *)
Definition starts (m : smp) : Prop :=
  length (procs m) = length (code m) /\ (forall l, owner m l = None) /\ cond m = false /\
  Forall (fun c => c = sleeper_code \/ c = waker_code) (code m).

(** ** Where a process is *)

Inductive spot :=
| At_lock | Testing | S_ptable | S_unlock | S_chan | S_state | S_sched | S_off | S_clear | S_leave | Unlocking | Finished
| W_lock | W_set | W_ptable | W_wake | W_leave | W_unlock | W_done.

Definition tail_code : list instr := [Loop; Do (Release lk)].
Definition code_at (x : spot) : list instr :=
  match x with
  | At_lock => Do (Acquire lk) :: tail_code
  | Testing => tail_code
  | S_ptable => map Do [Acquire LK_ptable; Release lk; SetChan (Some ch); SetState SLEEPING; Sched; SetChan None; Release LK_ptable; Acquire lk] ++ tail_code
  | S_unlock => map Do [Release lk; SetChan (Some ch); SetState SLEEPING; Sched; SetChan None; Release LK_ptable; Acquire lk] ++ tail_code
  | S_chan => map Do [SetChan (Some ch); SetState SLEEPING; Sched; SetChan None; Release LK_ptable; Acquire lk] ++ tail_code
  | S_state => map Do [SetState SLEEPING; Sched; SetChan None; Release LK_ptable; Acquire lk] ++ tail_code
  | S_sched => map Do [Sched; SetChan None; Release LK_ptable; Acquire lk] ++ tail_code
  | S_off => Resume :: map Do [SetChan None; Release LK_ptable; Acquire lk] ++ tail_code
  | S_clear => map Do [SetChan None; Release LK_ptable; Acquire lk] ++ tail_code
  | S_leave => map Do [Release LK_ptable; Acquire lk] ++ tail_code
  | Unlocking | W_unlock => [Do (Release lk)]
  | Finished | W_done => []
  | W_lock => waker_code
  | W_set => Set_cond :: map Do (wakeup_acts ch) ++ [Do (Release lk)]
  | W_ptable => map Do (wakeup_acts ch) ++ [Do (Release lk)]
  | W_wake => [Do (Wake ch); Do (Release LK_ptable); Do (Release lk)]
  | W_leave => [Do (Release LK_ptable); Do (Release lk)]
  end.

Definition locks_at (x : spot) : list lock :=
  match x with
  | Testing | S_ptable | Unlocking | W_set | W_ptable | W_unlock => [lk]
  | S_unlock | W_wake | W_leave => [lk; LK_ptable]
  | S_chan | S_state | S_sched | S_clear | S_leave => [LK_ptable]
  | _ => []
  end.

(** A waker that has set the condition and has not woken anybody yet. *)
Definition will_wake (x : spot) : bool := match x with W_ptable | W_wake => true | _ => false end.
Definition has_set (x : spot) : bool :=
  match x with W_ptable | W_wake | W_leave | W_unlock | W_done => true | _ => false end.
Definition is_waker (x : spot) : bool := match x with W_lock | W_set => true | _ => has_set x end.

(** What is true of a process at a spot: before it gives up [lk] the condition is false, and from
    then on until somebody wakes it a waker is still to come if the condition is true. *)
Definition fits (b : bool) (coming : Prop) (x : spot) (pr : proc) : Prop :=
  match x with
  | S_ptable | S_unlock => b = false
  | S_chan => b = true -> coming
  | S_state => (b = true -> coming) /\ p_chan pr = Some ch
  | S_sched => (b = true -> coming) /\ p_chan pr = Some ch /\ p_state pr = SLEEPING
  | S_off => p_state pr = RUNNABLE \/ (b = true -> coming) /\ p_chan pr = Some ch /\ p_state pr = SLEEPING
  | _ => has_set x = true -> b = true
  end.

Definition coming (sps : list spot) : Prop := exists j x, sps !! j = Some x /\ will_wake x = true.

Record inv (m : smp) (sps : list spot) : Prop := {
  inv_code : code m = code_at <$> sps;
  inv_len : length (procs m) = length sps;
  inv_owner l i : owner m l = Some i <-> exists x, sps !! i = Some x /\ l ∈ locks_at x;
  inv_fits i x pr : sps !! i = Some x -> procs m !! i = Some pr -> fits (cond m) (coming sps) x pr;
}.

(** ** The invariant holds in every run *)

Context (Hlk : lk <> LK_ptable).

Lemma sleep_acts_lk :
  sleep_acts ch lk = [Acquire LK_ptable; Release lk; SetChan (Some ch); SetState SLEEPING; Sched; SetChan None; Release LK_ptable; Acquire lk].
Proof using Hlk. unfold sleep_acts, sleep_enters, sleep_leaves. by rewrite bool_decide_eq_false_2. Qed.

Lemma one_holder m sps i j x y l :
  inv m sps -> sps !! i = Some x -> sps !! j = Some y -> l ∈ locks_at x -> l ∈ locks_at y -> i = j.
Proof using Type.
  intros Hi H1 H2 L1 L2. assert (E1 : owner m l = Some i) by (apply (inv_owner _ _ Hi); eauto).
  assert (E2 : owner m l = Some j) by (apply (inv_owner _ _ Hi); eauto). congruence.
Qed.

Lemma fits_mono b (C C' : Prop) x pr : (C -> C') -> fits b C x pr -> fits b C' x pr.
Proof using Type. destruct x; cbn; tauto. Qed.

Lemma coming_keep sps i x x' :
  sps !! i = Some x -> (will_wake x = true -> will_wake x' = true) -> coming sps -> coming (<[i := x']> sps).
Proof using Type.
  intros Hi Hw (j & y & Hj & Hy). destruct (decide (j = i)) as [->|Hne].
  - exists i, x'. rewrite list_lookup_insert_eq by (by eapply lookup_lt_Some). split; [done|]. apply Hw. congruence.
  - exists j, y. by rewrite list_lookup_insert_ne.
Qed.

(** How [owner] changes with the locks of the spot of [i]. *)
Definition owners_move (i : nat) (x x' : spot) (o o' : lock -> option nat) : Prop :=
  forall l j, o' l = Some j <-> (j = i /\ l ∈ locks_at x') \/ (j <> i /\ o l = Some j).

Lemma inv_move m m' sps i x x' :
  inv m sps -> sps !! i = Some x -> code m' = <[i := code_at x']> (code m) ->
  owners_move i x x' (owner m) (owner m') -> length (procs m') = length (procs m) ->
  (forall j y pr, (<[i := x']> sps) !! j = Some y -> procs m' !! j = Some pr ->
     fits (cond m') (coming (<[i := x']> sps)) y pr) ->
  inv m' (<[i := x']> sps).
Proof using Type.
  intros [Hc Hn Ho Hf] Hi Hc' Ho' Hn' Hf'. constructor; [|by rewrite length_insert; congruence| |done].
  - by rewrite Hc', Hc, list_fmap_insert.
  - intros l j. rewrite (Ho' l j). pose proof (lookup_lt_Some _ _ _ Hi) as Hlt. destruct (decide (j = i)) as [->|Hne].
    + rewrite list_lookup_insert_eq by done. split; [intros [[_ ?]|[? _]]; [by eexists|done]|]. intros (y & [= <-] & ?). by left.
    + rewrite list_lookup_insert_ne by done. rewrite <- Ho. tauto.
Qed.

Section Step.
Context (m : smp) (sps : list spot) (i : nat) (x : spot) (Hinv : inv m sps) (Hx : sps !! i = Some x).

Lemma owners_keep x' : locks_at x' = locks_at x -> owners_move i x x' (owner m) (owner m).
Proof using Hinv Hx.
  intros E l j. rewrite E. destruct (decide (j = i)) as [->|Hne]; [|tauto]. rewrite (inv_owner _ _ Hinv). split.
  - intros (y & Hy & Hl). left. rewrite Hx in Hy. by injection Hy as ->.
  - intros [[_ ?]|[? _]]; [eauto|done].
Qed.

Lemma owners_take x' l : owner m l = None -> (forall k, k ∈ locks_at x' <-> k = l \/ k ∈ locks_at x) ->
  owners_move i x x' (owner m) (owner (with_owner l (Some i) m)).
Proof using Hinv Hx.
  intros Hl E k j. cbn. pose proof (owners_keep x eq_refl k j) as Hk. rewrite E. case_decide as Hd.
  - subst k. split; [intros [= ->]; by left; auto|]. intros [[-> _]|[? ?]]; congruence.
  - rewrite Hk. tauto.
Qed.

Lemma owners_drop x' l : owner m l = Some i -> (forall k, k ∈ locks_at x' <-> k <> l /\ k ∈ locks_at x) ->
  owners_move i x x' (owner m) (owner (with_owner l None m)).
Proof using Hinv Hx.
  intros Hl E k j. cbn. pose proof (owners_keep x eq_refl k j) as Hk. rewrite E. case_decide as Hd.
  - subst k. split; [done|]. intros [[-> [? _]]|[? ?]]; congruence.
  - rewrite Hk. tauto.
Qed.

(** A step that changes nothing for the other processes. *)
Lemma move_quiet m' x' :
  code m' = <[i := code_at x']> (code m) -> owners_move i x x' (owner m) (owner m') ->
  length (procs m') = length (procs m) -> (forall j, j <> i -> procs m' !! j = procs m !! j) -> cond m' = cond m ->
  (will_wake x = true -> will_wake x' = true) ->
  (forall pr pr', procs m !! i = Some pr -> procs m' !! i = Some pr' -> fits (cond m) (coming sps) x pr ->
     fits (cond m) (coming sps) x' pr') ->
  inv m' (<[i := x']> sps).
Proof using Hinv Hx.
  intros Hc Ho Hn Hp Hb Hw Hf. apply (inv_move m m' sps i x x'); try done. rewrite Hb. intros j y pr Hj Hpr.
  apply (fits_mono _ (coming sps)); [by apply (coming_keep _ _ x)|]. destruct (decide (j = i)) as [->|Hne].
  - rewrite list_lookup_insert_eq in Hj by (by eapply lookup_lt_Some). injection Hj as <-.
    destruct (lookup_lt_is_Some_2 (procs m) i) as [pr0 Hpr0]; [rewrite <- Hn; by eapply lookup_lt_Some|].
    eapply Hf; [done|done|]. by eapply (inv_fits _ _ Hinv).
  - rewrite list_lookup_insert_ne in Hj by done. rewrite Hp in Hpr by done. by eapply (inv_fits _ _ Hinv).
Qed.
End Step.

(** Where a step of process [i] leads. *)
Definition moves_to (sps : list spot) (i : nat) (m' : smp) : Prop :=
  exists x x', sps !! i = Some x /\ inv m' (<[i := x']> sps) /\ is_waker x' = is_waker x.

Lemma at_code m sps i c : inv m sps -> code m !! i = Some c -> exists x, sps !! i = Some x /\ code_at x = c.
Proof using Type.
  intros Hinv. rewrite (inv_code _ _ Hinv), list_lookup_fmap. destruct (sps !! i) as [x|] eqn:Hx; [|done].
  intros [= <-]. by exists x.
Qed.

Ltac locks := intros k; cbn; rewrite ?elem_of_cons, ?elem_of_nil; intuition congruence.
(** [owners] proves how the locks change; what is true of the process itself follows. *)
Ltac quiet Hinv Hx owners :=
  eapply (move_quiet _ _ _ _ Hinv Hx); try done; first [owners|intros pr pr'; cbn; intuition congruence].

Lemma acquire_moves m sps i l c :
  inv m sps -> code m !! i = Some (Do (Acquire l) :: c) -> owner m l = None ->
  moves_to sps i (goes_to i c (with_owner l (Some i) m)).
Proof using Hlk.
  intros Hinv (x & Hx & Hc)%(at_code _ _ _ _ Hinv) Hl. exists x.
  destruct x; try done; cbn in Hc; injection Hc as <- <-; [exists Testing|exists S_unlock|exists W_set|exists W_wake];
    (split; [done|split; [|done]]; quiet Hinv Hx ltac:(by apply (owners_take m sps _ _ Hinv Hx); [|locks])).
Qed.

Lemma release_moves m sps i l c :
  inv m sps -> code m !! i = Some (Do (Release l) :: c) -> owner m l = Some i ->
  moves_to sps i (goes_to i c (with_owner l None m)).
Proof using Hlk.
  intros Hinv (x & Hx & Hc)%(at_code _ _ _ _ Hinv) Hl. exists x.
  destruct x; try done; cbn in Hc; injection Hc as <- <-;
    [exists S_chan|exists At_lock|exists Finished|exists W_unlock|exists W_done];
    (split; [done|split; [|done]]; quiet Hinv Hx ltac:(by apply (owners_drop m sps _ _ Hinv Hx); [|locks])).
Qed.

Lemma wake_others m sps i c :
  inv m sps -> sps !! i = Some W_wake -> c = code_at W_leave ->
  inv (goes_to i c (with_procs (map (wakeup1_proc ch)) m)) (<[i := W_leave]> sps).
Proof using Hlk.
  intros Hinv Hx ->. apply (inv_move m _ sps i W_wake); try done; [by apply (owners_keep m sps)|apply length_map|].
  cbn. intros j y pr Hj Hpr. rewrite list_lookup_fmap in Hpr. destruct (procs m !! j) as [pr0|] eqn:Hp; [|done].
  injection Hpr as <-. destruct (decide (j = i)) as [->|Hne].
  - rewrite list_lookup_insert_eq in Hj by (by eapply lookup_lt_Some). injection Hj as <-.
    intros _. by apply (inv_fits _ _ Hinv i W_wake pr0).
  - rewrite list_lookup_insert_ne in Hj by done. pose proof (inv_fits _ _ Hinv j y pr0 Hj Hp) as Hf.
    assert (Hno : LK_ptable ∉ locks_at y) by (intros Hin; apply Hne; eapply (one_holder m sps); try done; cbn; rewrite ?elem_of_cons; tauto).
    assert (Hno' : lk ∉ locks_at y) by (intros Hin; apply Hne; eapply (one_holder m sps); try done; cbn; rewrite ?elem_of_cons; tauto).
    destruct y; try done; try (by destruct Hno; left); try (by destruct Hno'; left).
    left. unfold wakeup1_proc. destruct Hf as [Hf|(_ & Hc & Hs)].
    + rewrite (bool_decide_eq_false_2 (p_state pr0 = SLEEPING)) by congruence. done.
    + by rewrite !bool_decide_eq_true_2.
Qed.

Lemma touch_other i a ps j : (forall c, a <> Wake c) -> j <> i -> touch i a ps !! j = ps !! j.
Proof using Type. intros Hw Hne. destruct a; cbn; try done; try (by rewrite list_lookup_alter_ne); by destruct (Hw ch0). Qed.

Lemma length_touch i a ps : length (touch i a ps) = length ps.
Proof using Type. destruct a; cbn; rewrite ?length_alter, ?length_map; done. Qed.

Lemma table_moves m sps i a c :
  inv m sps -> code m !! i = Some (Do a :: c) -> is_table_act a = true -> moves_to sps i (goes_to i c (with_procs (touch i a) m)).
Proof using Hlk.
  intros Hinv (x & Hx & Hc)%(at_code _ _ _ _ Hinv) Ha. exists x.
  destruct x; try done; cbn in Hc; injection Hc as <- <-; try done; [exists S_state|exists S_sched|exists S_leave|exists W_leave];
    (split; [done|split; [|done]]); [..|by apply wake_others].
  all: eapply (move_quiet m sps i _ Hinv Hx); try done;
    first [by apply (owners_keep m sps)|apply length_touch|intros; by apply touch_other|idtac].
  all: cbn; intros pr pr' Hp; rewrite list_lookup_alter_eq, Hp; intros [= <-]; cbn; intuition congruence.
Qed.

Lemma sched_moves m sps i c :
  inv m sps -> code m !! i = Some (Do Sched :: c) -> owner m LK_ptable = Some i ->
  moves_to sps i (goes_to i (Resume :: c) (with_owner LK_ptable None m)).
Proof using Hlk.
  intros Hinv (x & Hx & Hc)%(at_code _ _ _ _ Hinv) Hl. exists x. destruct x; try done. cbn in Hc. injection Hc as <-.
  exists S_off. split; [done|split; [|done]]. eapply (move_quiet m sps i _ Hinv Hx); try done; first [by apply (owners_drop m sps _ _ Hinv Hx); [|locks]|idtac].
  intros pr pr' H1 H2 Hf. cbn in H2; rewrite H1 in H2. injection H2 as <-. by right.
Qed.

Lemma resume_moves m sps i c :
  inv m sps -> code m !! i = Some (Resume :: c) -> owner m LK_ptable = None ->
  moves_to sps i (goes_to i c (with_owner LK_ptable (Some i) (with_procs (touch i (SetState RUNNING)) m))).
Proof using Hlk.
  intros Hinv (x & Hx & Hc)%(at_code _ _ _ _ Hinv) Hl. exists x. destruct x; try done. cbn in Hc. injection Hc as <-.
  exists S_clear. split; [done|split; [|done]]. eapply (move_quiet m sps i _ Hinv Hx); try done;
    first [by apply (owners_take m sps _ _ Hinv Hx); [|locks]|apply length_alter|intros; by apply list_lookup_alter_ne].
Qed.

Lemma set_moves m sps i c :
  inv m sps -> code m !! i = Some (Set_cond :: c) -> moves_to sps i (goes_to i c (with_cond true m)).
Proof using Hlk.
  intros Hinv (x & Hx & Hc)%(at_code _ _ _ _ Hinv). exists x. destruct x; try done. cbn in Hc. injection Hc as <-.
  exists W_ptable. split; [done|split; [|done]]. apply (inv_move m _ sps i W_set); try done; [by apply (owners_keep m sps)|].
  cbn. intros j y pr Hj Hp. assert (Hcome : coming (<[i := W_ptable]> sps)).
  { exists i, W_ptable. by rewrite list_lookup_insert_eq by (by eapply lookup_lt_Some). }
  destruct (decide (j = i)) as [->|Hne].
  - rewrite list_lookup_insert_eq in Hj by (by eapply lookup_lt_Some). by injection Hj as <-.
  - rewrite list_lookup_insert_ne in Hj by done. pose proof (inv_fits _ _ Hinv j y pr Hj Hp) as Hf.
    assert (Hno : lk ∉ locks_at y) by (intros Hin; apply Hne; eapply (one_holder m sps); try done; cbn; rewrite ?elem_of_cons; tauto).
    clear Hx Hj Hp. destruct y; first [by destruct Hno; left|cbn in Hf |- *; tauto].
Qed.

Lemma test_moves m sps i c :
  inv m sps -> code m !! i = Some (Loop :: c) ->
  moves_to sps i (goes_to i (if cond m then c else map Do (sleep_acts ch lk) ++ Loop :: c) m).
Proof using Hlk.
  intros Hinv (x & Hx & Hc)%(at_code _ _ _ _ Hinv). exists x. destruct x; try done. cbn in Hc. injection Hc as <-.
  rewrite sleep_acts_lk. destruct (cond m) eqn:Hb; [exists Unlocking|exists S_ptable];
    (split; [done|split; [|done]]; eapply (move_quiet m sps i _ Hinv Hx); try done; by apply (owners_keep m sps)).
Qed.

Lemma step_moves m sps i m' : inv m sps -> step_of i m m' -> moves_to sps i m'.
Proof using Hlk.
  intros Hinv Hst. destruct Hst; [by apply acquire_moves|by apply release_moves|by apply table_moves|by apply sched_moves|
    by apply resume_moves|by apply test_moves|by apply set_moves].
Qed.

(** ** A run stops only at the end *)

(** A process that has not ended and does not wait for a lock or to be woken can go on. *)
Definition blocked_at (m : smp) (x : spot) (pr : proc) : Prop :=
  match x with
  | At_lock | W_lock => owner m lk <> None
  | S_ptable | W_ptable => owner m LK_ptable <> None
  | S_off => owner m LK_ptable <> None \/ p_state pr <> RUNNABLE
  | Finished | W_done => True
  | _ => False
  end.

Lemma stuck_blocked m sps i x pr :
  inv m sps -> sps !! i = Some x -> procs m !! i = Some pr -> ~ (exists m', step m m') -> blocked_at m x pr.
Proof using Hlk.
  intros Hinv Hx Hp Hst.
  assert (Hc : code m !! i = Some (code_at x)) by (by rewrite (inv_code _ _ Hinv), list_lookup_fmap, Hx).
  pose proof (inv_fits _ _ Hinv i x pr Hx Hp) as Hf.
  assert (Hown : forall l, l ∈ locks_at x -> owner m l = Some i) by (intros l Hl; apply (inv_owner _ _ Hinv); eauto).
  destruct x; cbn in *; try done; try (intros Hl); try (destruct (decide (p_state pr = RUNNABLE)); [left; intros Hl|by right]);
    apply Hst; eexists; exists i;
    solve [by eapply step_acquire|eapply step_release; [done|apply Hown; set_solver]|by eapply step_table|
      eapply step_sched; [done|apply Hown; set_solver|done|intuition congruence]|by eapply step_resume|by eapply step_test|by eapply step_set].
Qed.

Definition waker_in (sps : list spot) : Prop := exists j x, sps !! j = Some x /\ is_waker x = true.

Lemma start_inv m :
  starts m -> exists sps, inv m sps /\ ((exists j, code m !! j = Some waker_code) -> waker_in sps).
Proof using Type.
  intros (Hn & Ho & Hc & Hall).
  assert (exists sps, code m = code_at <$> sps /\ Forall (fun x => x = At_lock \/ x = W_lock) sps) as (sps & E & Hs).
  { clear Hn. induction Hall as [|c l Hcl _ (sps & E & Hs)]; [by exists []|].
    destruct Hcl as [->| ->]; [exists (At_lock :: sps)|exists (W_lock :: sps)]; (split; [by cbn; f_equal|by constructor; auto]). }
  assert (Hat : forall i x, sps !! i = Some x -> x = At_lock \/ x = W_lock) by (intros i x Hx; by apply (Forall_lookup_1 _ _ _ _ Hs Hx)).
  exists sps. split.
  - constructor; [done|by rewrite Hn, E, length_fmap| |].
    + intros l i. rewrite Ho. split; [done|]. intros (x & Hx & Hl). by destruct (Hat i x Hx) as [-> | ->]; apply elem_of_nil in Hl.
    + intros i x pr Hx _. by destruct (Hat i x Hx) as [-> | ->].
  - intros (j & Hj). rewrite E, list_lookup_fmap in Hj. destruct (sps !! j) as [x|] eqn:Hx; [|done]. exists j, x. split; [done|].
    by destruct (Hat j x Hx) as [-> | ->].
Qed.

Lemma run_inv m0 m :
  starts m0 -> rtc step m0 m -> exists sps, inv m sps /\ ((exists j, code m0 !! j = Some waker_code) -> waker_in sps).
Proof using Hlk.
  intros Hs. apply (rtc_ind_r (fun m => exists sps, inv m sps /\ ((exists j, code m0 !! j = Some waker_code) -> waker_in sps))).
  - by apply start_inv.
  - intros m1 m2 _ (i & Hst) (sps & Hinv & Hw). destruct (step_moves _ _ _ _ Hinv Hst) as (x & x' & Hx & Hinv' & Hk).
    exists (<[i := x']> sps). split; [done|]. intros H. destruct (Hw H) as (j & y & Hj & Hy). destruct (decide (j = i)) as [->|Hne].
    + exists i, x'. rewrite list_lookup_insert_eq by (by eapply lookup_lt_Some). split; congruence.
    + exists j, y. by rewrite list_lookup_insert_ne.
Qed.

(** Nobody holds a lock when no process can go on. *)
Lemma stuck_free m sps l : inv m sps -> ~ (exists m', step m m') -> owner m l = None.
Proof using Hlk.
  intros Hinv Hst. assert (Hb : forall l i, owner m l = Some i -> exists x pr, sps !! i = Some x /\ l ∈ locks_at x /\ blocked_at m x pr).
  { intros l0 i Hl. apply (inv_owner _ _ Hinv) in Hl as (x & Hx & Hl).
    destruct (lookup_lt_is_Some_2 (procs m) i) as [pr Hp]; [rewrite (inv_len _ _ Hinv); by eapply lookup_lt_Some|].
    exists x, pr. split; [done|split; [done|]]. by eapply stuck_blocked. }
  assert (HL : owner m LK_ptable = None).
  { destruct (owner m LK_ptable) as [i|] eqn:E; [|done]. destruct (Hb _ _ E) as (x & pr & _ & Hl & Hbl).
    destruct x; cbn in Hl, Hbl; try done; rewrite ?elem_of_cons, ?elem_of_nil in Hl; intuition congruence. }
  destruct (owner m l) as [i|] eqn:E; [|done]. destruct (Hb _ _ E) as (x & pr & _ & Hl & Hbl).
  by destruct x; cbn in Hl, Hbl; try done; rewrite ?elem_of_cons, ?elem_of_nil in Hl; intuition congruence.
Qed.

(** C32: no wakeup is lost. Any number of processes run [while(!cond) sleep(ch, lk)] or
    [cond = 1; wakeup(ch)] with [lk] held, and their steps interleave in any order. When a
    process is asleep though the condition is true, the process that made it true has the
    waking still before it; and, with at least one waker, a run stops only when every process
    has come to its end: nobody sleeps for ever and nobody waits for ever for a lock. *)
Theorem no_lost_wakeup (m0 m : smp) (Hstart : starts m0) (Hrun : rtc step m0 m) :
  (forall i pr c, code m !! i = Some (Resume :: c) -> procs m !! i = Some pr -> p_state pr <> RUNNABLE -> cond m = true ->
     exists j c', code m !! j = Some c' /\ Do (Wake ch) ∈ c') /\
  ((exists j, code m0 !! j = Some waker_code) -> ~ (exists m', step m m') -> Forall (fun c => c = []) (code m)).
Proof using Hlk.
  destruct (run_inv _ _ Hstart Hrun) as (sps & Hinv & Hw). split.
  - intros i pr c (x & Hx & Hc)%(at_code _ _ _ _ Hinv) Hp Hs Hb. destruct x; try done.
    destruct (inv_fits _ _ Hinv i S_off pr Hx Hp) as [?|(Hcome & _)]; [done|].
    destruct (Hcome Hb) as (j & y & Hy & Hwy). exists j, (code_at y). rewrite (inv_code _ _ Hinv), list_lookup_fmap, Hy.
    split; [done|]. destruct y; try done; cbn; rewrite !elem_of_cons; tauto.
  - intros Hex Hst. pose proof (fun l => stuck_free m sps l Hinv Hst) as Hfree.
    assert (Hbl : forall i x, sps !! i = Some x -> exists pr, procs m !! i = Some pr /\ blocked_at m x pr).
    { intros i x Hx. destruct (lookup_lt_is_Some_2 (procs m) i) as [pr Hp]; [rewrite (inv_len _ _ Hinv); by eapply lookup_lt_Some|].
      exists pr. split; [done|]. by eapply stuck_blocked. }
    assert (Hb : cond m = true).
    { destruct (Hw Hex) as (j & y & Hj & Hy). destruct (Hbl j y Hj) as (pr & Hp & Hbp).
      pose proof (inv_fits _ _ Hinv j y pr Hj Hp) as Hf. destruct y; try done; cbn in *; try (by destruct Hbp); auto; by rewrite Hfree in Hbp. }
    apply Forall_lookup_2. intros i c (x & Hx & <-)%(at_code _ _ _ _ Hinv). destruct (Hbl i x Hx) as (pr & Hp & Hbp).
    pose proof (inv_fits _ _ Hinv i x pr Hx Hp) as Hf. destruct x; cbn in Hbp |- *; try done; try (by destruct Hbp; rewrite ?Hfree).
    destruct Hbp as [Hbp|Hbp]; [by rewrite Hfree in Hbp|]. destruct Hf as [?|(Hcome & _)]; [done|].
    destruct (Hcome Hb) as (j & y & Hj & Hy). destruct (Hbl j y Hj) as (pr' & _ & Hbp'). destruct y; try done; cbn in Hbp'; by destruct Hbp'.
Qed.
End Interleaving.

(** One process waits, another one wakes it. *)
Definition two : smp :=
  Smp [proc0; proc0] (fun _ => None) false [sleeper_code LK_log; waker_code CH_log LK_log].

Lemma two_starts : starts CH_log LK_log two.
Proof. split_and!; try done. repeat (apply Forall_cons_2; [auto|]). apply Forall_nil_2. Qed.

(** The first has gone to sleep, the second has made the condition true. *)
Lemma two_run : exists m pr c, rtc (step CH_log LK_log) two m /\ code m !! 0%nat = Some (Resume :: c) /\
  procs m !! 0%nat = Some pr /\ p_state pr = SLEEPING /\ cond m = true.
Proof.
  eexists _, _, _. split.
  - do 7 (eapply rtc_l; [exists 0%nat; first [by eapply step_acquire|by eapply step_test|by eapply step_release|by eapply step_table|by eapply step_sched]|]).
    eapply rtc_l; [exists 1%nat; by eapply step_acquire|]. eapply rtc_l; [exists 1%nat; by eapply step_set|]. apply rtc_refl.
  - split_and!; reflexivity.
Qed.

Lemma no_lost_wakeup_witness : exists m pr j c', rtc (step CH_log LK_log) two m /\
  procs m !! 0%nat = Some pr /\ p_state pr = SLEEPING /\ code m !! j = Some c' /\ Do (Wake CH_log) ∈ c'.
Proof.
  destruct two_run as (m & pr & c & Hr & Hc & Hp & Hs & Hb).
  destruct (no_lost_wakeup CH_log LK_log ltac:(done) two m two_starts Hr) as [H _].
  destruct (H 0%nat pr c Hc Hp ltac:(congruence) Hb) as (j & c' & H1 & H2).
  exists m, pr, j, c'. split_and!; done.
Defined.
