(* ===== verification/Bio.v ===== *)
(** * The buffer cache and the disk under it (bio.c, memide.c)

    [bcache.buf] with its doubly linked LRU list, kept as indices as in the code, and
    the disk of memide.c, which serves a request at once.  [view] is the contents of the
    disk as the rest of the file system sees it through the cache; [bio_ok] is the
    invariant of the cache between operations. *)

From S2P Require Import Prelude Mem Kernel Sched.

(** [&bcache.head] *)
Definition head : nat := NBUF.

(** ** memide.c *)

Definition zero_block : list Z := replicate (Z.to_nat BSIZE) 0.
Definition disk_block (s : kstate) (bno : Z) : list Z := default zero_block (k_disk s !! bno).

(** [memdisk] starts at the image, whose blocks are [img]. *)
Definition ideinit (img : list (list Z)) : K unit :=
  modify (upd_k_disk (fun _ => list_to_map (zip (seqZ 0 (Z.of_nat (length img))) img))) ;;
  modify (upd_k_disksize (fun _ => Z.of_nat (length img))).

Definition iderw (b : nat) : K unit :=
  h <- holdingsleep (SL_buf b);
  if negb h then panic "iderw: buf not locked" else
  bf <- get_buf b;
  if Z.land (b_flags bf) (Z.lor B_VALID B_DIRTY) =? B_VALID then panic "iderw: nothing to do" else
  if negb (b_dev bf =? 1) then panic "iderw: request not for disk 1" else
  disksize <- gets k_disksize;
  if disksize <=? b_blockno bf then panic "iderw: block out of range" else
  (if negb (Z.land (b_flags bf) B_DIRTY =? 0) then
     set_buf b (upd_b_flags (fun f => Z.land f (Z.lnot B_DIRTY))) ;;
     modify (upd_k_disk (fun d => <[b_blockno bf := b_data bf]> d)) ;;
     modify (upd_k_writes (fun ws => ws ++ [(b_blockno bf, b_data bf)]))
   else
     p <- gets (fun s => disk_block s (b_blockno bf));
     set_buf b (upd_b_data (fun _ => p))) ;;
  set_buf b (upd_b_flags (fun f => Z.lor f B_VALID)).

(** ** bio.c *)

(** Insert [b] at the front of the list. *)
Definition push_front (b : nat) : K unit :=
  hd <- get_buf head;
  set_buf b (upd_b_next (fun _ => b_next hd)) ;;
  set_buf b (upd_b_prev (fun _ => head)).
Definition link_front (b : nat) : K unit :=
  hd <- get_buf head;
  set_buf (b_next hd) (upd_b_prev (fun _ => b)) ;;
  set_buf head (upd_b_next (fun _ => b)).

Definition binit : K unit :=
  set_buf head (upd_b_prev (fun _ => head)) ;;
  set_buf head (upd_b_next (fun _ => head)) ;;
  kiter (seq 0 NBUF) (fun b =>
    push_front b ;;
    initsleeplock (SL_buf b) ;;
    link_front b).

(** The two loops of [bget], from [b] along [next] or [prev] until [head]. *)
Fixpoint scan (n : nat) (dir : buf -> nat) (want : buf -> bool) (b : nat) : K (option nat) :=
  if Nat.eqb b head then kret None else
  match n with
  | O => fun _ => NoFuel
  | S n =>
      bf <- get_buf b;
      if want bf then kret (Some b) else scan n dir want (dir bf)
  end.

Definition bget `{Fuel} (dev blockno : Z) : K nat :=
  acquire LK_bcache ;;
  hd <- get_buf head;
  r <- scan NBUF b_next (fun bf => (b_dev bf =? dev) && (b_blockno bf =? blockno)) (b_next hd);
  match r with
  | Some b =>
      set_buf b (upd_b_refcnt (fun r => r +u 1)) ;;
      release LK_bcache ;;
      acquiresleep (SL_buf b) ;;
      kret b
  | None =>
      hd <- get_buf head;
      r <- scan NBUF b_prev
             (fun bf => (b_refcnt bf =? 0) && (Z.land (b_flags bf) B_DIRTY =? 0)) (b_prev hd);
      match r with
      | Some b =>
          set_buf b (upd_b_dev (fun _ => dev)) ;;
          set_buf b (upd_b_blockno (fun _ => blockno)) ;;
          set_buf b (upd_b_flags (fun _ => 0)) ;;
          set_buf b (upd_b_refcnt (fun _ => 1)) ;;
          release LK_bcache ;;
          acquiresleep (SL_buf b) ;;
          kret b
      | None => panic "bget: no buffers"
      end
  end.

Definition bread `{Fuel} (dev blockno : Z) : K nat :=
  b <- bget dev blockno;
  bf <- get_buf b;
  kwhen (Z.land (b_flags bf) B_VALID =? 0) (iderw b) ;;
  kret b.

Definition bwrite (b : nat) : K unit :=
  h <- holdingsleep (SL_buf b);
  if negb h then panic "bwrite" else
  set_buf b (upd_b_flags (fun f => Z.lor f B_DIRTY)) ;;
  iderw b.

Definition brelse (b : nat) : K unit :=
  h <- holdingsleep (SL_buf b);
  if negb h then panic "brelse" else
  releasesleep (SL_buf b) ;;
  acquire LK_bcache ;;
  set_buf b (upd_b_refcnt (fun r => r -u 1)) ;;
  bf <- get_buf b;
  kwhen (b_refcnt bf =? 0)
    (set_buf (b_next bf) (upd_b_prev (fun _ => b_prev bf)) ;;
     bf <- get_buf b;
     set_buf (b_prev bf) (upd_b_next (fun _ => b_next bf)) ;;
     push_front b ;;
     link_front b) ;;
  release LK_bcache.

(** ** The LRU list *)

Section Lru.
Implicit Types (nx pv : nat -> nat) (order : list nat).

(** Following [next] from [head] visits [order] and comes back to [head]; following
    [prev] goes the other way. *)
Definition linked nx pv order : Prop :=
  map nx (head :: order) = order ++ [head] /\ map pv (order ++ [head]) = head :: order.

(** Following [f] from [a] visits [l] and ends at [head]. *)
Definition path (f : nat -> nat) (a : nat) (l : list nat) : Prop := a :: map f l = l ++ [head].

Lemma linked_next nx pv order : linked nx pv order -> path nx (nx head) order.
Proof. by intros [H _]. Qed.

Lemma linked_prev nx pv order : linked nx pv order -> path pv (pv head) (rev order).
Proof.
  intros [_ H]. unfold path. apply (f_equal (@rev nat)) in H.
  rewrite map_app, rev_app_distr in H. simpl in H. rewrite <- map_rev in H. by rewrite H.
Qed.

Lemma map_ext_not (f f' : nat -> nat) (p : nat) (l : list nat) :
  (forall i, i <> p -> f' i = f i) -> p ∉ l -> map f' l = map f l.
Proof. intros Hf Hp. apply map_ext_in. intros i Hi. apply Hf. intros ->. apply Hp.
  by apply list_elem_of_In. Qed.

(** Unlinking [b]: its neighbours are made each other's neighbour. *)
Lemma linked_remove nx pv nx' pv' o1 b o2 :
  NoDup (head :: o1 ++ b :: o2) -> linked nx pv (o1 ++ b :: o2) ->
  (forall i, nx' i = if decide (i = pv b) then nx b else nx i) ->
  (forall i, pv' i = if decide (i = nx b) then pv b else pv i) ->
  linked nx' pv' (o1 ++ o2).
Proof.
  intros Hnd [Hn Hp] Hnx Hpv.
  destruct (exists_last (l := head :: o1)) as (q & p & Hq); [done|].
  destruct (o2 ++ [head]) as [|n r] eqn:Hr; [by destruct o2|].
  assert (Hlen : length q = length o1) by (apply (f_equal length) in Hq; rewrite length_app in Hq; simpl in Hq; lia).
  change (head :: o1 ++ b :: o2) with ((head :: o1) ++ b :: o2) in *.
  rewrite Hq in Hn, Hnd, Hp. rewrite <- app_assoc in Hn, Hnd. rewrite !map_app in Hn.
  rewrite <- app_assoc in Hn. apply app_inj_1 in Hn as [Hn1 Hn2]; [|by rewrite length_map].
  simpl in Hn2. injection Hn2 as Hnp Hnb. rewrite Hr in Hnb. injection Hnb as Hnb1 Hnb2.
  rewrite <- !app_assoc in Hp. simpl in Hp. rewrite Hr, map_app in Hp.
  apply app_inj_1 in Hp as [Hp1 Hp2]; [|by rewrite length_map].
  simpl in Hp2. injection Hp2 as Hpb Hpn Hpr.
  assert (Hpq : (p ∉ q) /\ (p ∉ o2)).
  { rewrite NoDup_app in Hnd. destruct Hnd as (_ & H1 & H2). split.
    - intros H. apply (H1 _ H). set_solver.
    - apply NoDup_cons in H2 as [H2 _]. set_solver. }
  assert (Hnr : (n ∉ o1) /\ (n ∉ r)).
  { assert (Hc : Permutation (q ++ [p] ++ b :: o2) (b :: o1 ++ n :: r)).
    { rewrite <- Hr. rewrite app_assoc, <- Hq. solve_Permutation. }
    rewrite Hc in Hnd. apply NoDup_cons in Hnd as [_ Hnd].
    apply NoDup_app in Hnd as (_ & H1 & H2). split; [set_solver|].
    by apply NoDup_cons in H2 as [H2 _]. }
  rewrite Hpb, Hnb1 in *. split.
  - change (head :: o1 ++ o2) with ((head :: o1) ++ o2). rewrite Hq, !map_app.
    rewrite (map_ext_not nx nx' p q) by (try tauto; intros i Hi; by rewrite Hnx, decide_False).
    rewrite (map_ext_not nx nx' p o2) by (try tauto; intros i Hi; by rewrite Hnx, decide_False).
    simpl. rewrite Hnx, decide_True by done. rewrite <- !app_assoc. simpl. by rewrite Hn1, Hr, Hnb2.
  - rewrite <- app_assoc, Hr, map_app.
    rewrite (map_ext_not pv pv' n) by (try tauto; intros i Hi; by rewrite Hpv, decide_False).
    simpl. rewrite (map_ext_not pv pv' n r) by (try tauto; intros i Hi; by rewrite Hpv, decide_False).
    rewrite Hpv, decide_True by done. rewrite Hp1, Hpr.
    change (head :: o1 ++ o2) with ((head :: o1) ++ o2). by rewrite Hq, <- app_assoc.
Qed.

(** Linking [b] in front. *)
Lemma linked_front nx pv nx' pv' b order :
  NoDup (head :: b :: order) -> linked nx pv order ->
  (forall i, nx' i = if decide (i = head) then b else if decide (i = b) then nx head else nx i) ->
  (forall i, pv' i = if decide (i = nx head) then b else if decide (i = b) then head else pv i) ->
  linked nx' pv' (b :: order).
Proof.
  intros Hnd [Hn Hp] Hnx Hpv.
  apply NoDup_cons in Hnd as [Hh Hnd]. apply NoDup_cons in Hnd as [Hb Hnd].
  destruct (order ++ [head]) as [|n r] eqn:Hr; [by destruct order|].
  injection Hn as Hn1 Hn2. injection Hp as Hp1 Hp2.
  assert (Hbr : b ∉ n :: r) by (rewrite <- Hr; set_solver).
  assert (Hnr : n ∉ r).
  { assert (NoDup (n :: r)) as H%NoDup_cons by (rewrite <- Hr; apply NoDup_app; set_solver by (eauto using NoDup_singleton)).
    tauto. }
  split; simpl.
  - rewrite Hnx, decide_True by done. f_equal. rewrite Hr, Hnx, decide_False by set_solver.
    rewrite decide_True, Hn1 by done. f_equal. rewrite <- Hn2. apply map_ext_in.
    intros i Hi%list_elem_of_In. rewrite Hnx, !decide_False; set_solver.
  - rewrite Hr. simpl. rewrite Hpv, decide_False by set_solver. rewrite decide_True by done.
    f_equal. rewrite Hpv, decide_True by done. f_equal. rewrite <- Hp2. apply map_ext_in.
    intros i Hi%list_elem_of_In. rewrite Hpv, !decide_False; set_solver.
Qed.
End Lru.

(** ** The invariant of the cache *)

Definition buf_at (s : kstate) (i : nat) : buf := default buf0 (k_bufs s !! i).
Definition nx (s : kstate) (i : nat) : nat := b_next (buf_at s i).
Definition pv (s : kstate) (i : nat) : nat := b_prev (buf_at s i).

Definition block_ok (d : list Z) : Prop := length d = Z.to_nat BSIZE /\ Forall (field_ok 8) d.

Definition valid (bf : buf) : bool := negb (Z.land (b_flags bf) B_VALID =? 0).
Definition dirty (bf : buf) : bool := negb (Z.land (b_flags bf) B_DIRTY =? 0).

(** [bf] caches block [bno] of disk 1. *)
Definition caches (bno : Z) (bf : buf) : bool := (b_dev bf =? 1) && (b_blockno bf =? bno).

(** Block [bno] as the file system sees it: through the cache if it is there. *)
Definition view (s : kstate) (bno : Z) : list Z :=
  match list_find (fun bf => caches bno bf && valid bf = true) (take NBUF (k_bufs s)) with
  | Some (_, bf) => b_data bf
  | None => disk_block s bno
  end.

(** A buffer [i] of the cache: [hs] are the buffers the process has locked.  The others
    are free, and the ones of them that hold a block agree with the disk unless they are
    marked dirty. *)
Record slot_ok (s : kstate) (pid : Z) (hs : list nat) (i : nat) (bf : buf) : Prop := {
  slot_flags : In (b_flags bf) [0; B_VALID; Z.lor B_VALID B_DIRTY];
  slot_data : block_ok (b_data bf);
  slot_dev : valid bf = true <-> b_dev bf = 1;
  slot_range : valid bf = true -> 0 <= b_blockno bf < k_disksize s;
  slot_held : i ∈ hs -> b_refcnt bf = 1 /\ b_lock bf = Sleeplock true pid /\ valid bf = true;
  slot_free : i ∉ hs -> b_refcnt bf = 0 /\ sl_locked (b_lock bf) = false /\
    (valid bf = true -> dirty bf = true \/ b_data bf = disk_block s (b_blockno bf));
}.

Record bio_ok (s : kstate) (pid : Z) (hs : list nat) : Prop := {
  bio_cur : exists pr, cur_proc s = Some pr /\ p_pid pr = pid /\ p_state pr = RUNNING;
  bio_locks : k_held s = [];
  bio_len : length (k_bufs s) = S NBUF;
  bio_order : exists order, Permutation order (seq 0 NBUF) /\ linked (nx s) (pv s) order;
  bio_uniq : forall i j bi bj, (i < NBUF)%nat -> (j < NBUF)%nat ->
    k_bufs s !! i = Some bi -> k_bufs s !! j = Some bj ->
    b_dev bi = 1 -> b_dev bj = 1 -> b_blockno bi = b_blockno bj -> i = j;
  bio_hs : NoDup hs /\ Forall (fun i => (i < NBUF)%nat) hs;
  bio_slots : forall i bf, (i < NBUF)%nat -> k_bufs s !! i = Some bf -> slot_ok s pid hs i bf;
  bio_disk : forall bno, block_ok (disk_block s bno);
}.

Lemma view_cached s pid hs bno i bf :
  bio_ok s pid hs -> (i < NBUF)%nat -> k_bufs s !! i = Some bf ->
  caches bno bf = true -> valid bf = true -> view s bno = b_data bf.
Proof.
  intros Hs Hi Hbf Hc Hv. unfold view.
  destruct (list_find _ _) as [[j bj]|] eqn:E.
  - apply list_find_Some in E as (Hj & [Hcj Hvj]%andb_true_iff & _).
    apply lookup_take_Some in Hj as [Hj Hjn].
    unfold caches in *. assert (j = i) as -> by (eapply (bio_uniq s pid hs Hs); eauto; lia).
    congruence.
  - apply list_find_None in E. rewrite Forall_lookup in E. exfalso.
    apply (E i bf); [by apply lookup_take_Some|by rewrite Hc, Hv].
Qed.

Lemma view_uncached s bno :
  (forall i bf, (i < NBUF)%nat -> k_bufs s !! i = Some bf -> caches bno bf = true ->
     valid bf = true -> False) -> view s bno = disk_block s bno.
Proof.
  intros H. unfold view. destruct (list_find _ _) as [[j bj]|] eqn:E; [|done].
  apply list_find_Some in E as (Hj & [Hcj Hvj]%andb_true_iff & _).
  apply lookup_take_Some in Hj as [Hj Hjn]. exfalso. eauto.
Qed.

(** The view of a block is what a buffer that caches it holds, or else the disk's. *)
Lemma view_cases s pid hs bno :
  bio_ok s pid hs ->
  (exists i bf, (i < NBUF)%nat /\ k_bufs s !! i = Some bf /\ caches bno bf = true /\
     valid bf = true /\ view s bno = b_data bf) \/
  ((forall i bf, (i < NBUF)%nat -> k_bufs s !! i = Some bf -> caches bno bf = true ->
     valid bf = false) /\ view s bno = disk_block s bno).
Proof.
  intros Hs. unfold view. destruct (list_find _ _) as [[j bj]|] eqn:E.
  - apply list_find_Some in E as (Hj & [Hcj Hvj]%andb_true_iff & _).
    apply lookup_take_Some in Hj as [Hj Hjn]. left. by exists j, bj.
  - right. split; [|done]. intros i bf Hi Hbf Hc. destruct (valid bf) eqn:Hv; [|done].
    apply list_find_None in E. rewrite Forall_lookup in E. exfalso.
    apply (E i bf); [by apply lookup_take_Some|by rewrite Hc, Hv].
Qed.

Lemma bio_buf s pid hs i :
  bio_ok s pid hs -> (i <= NBUF)%nat -> exists bf, k_bufs s !! i = Some bf.
Proof. intros Hs Hi. apply lookup_lt_is_Some_2. rewrite (bio_len _ _ _ Hs). lia. Qed.

Lemma get_buf_ok i bf s : k_bufs s !! i = Some bf -> get_buf i s = Ok bf s.
Proof. intros H. unfold get_buf, nth_or. by rewrite H. Qed.

(** Walking the list: [scan] finds the first buffer it wants, and always ends. *)
Lemma scan_path n dir want a l s :
  (forall i, i ∈ l -> (i < NBUF)%nat) -> length (k_bufs s) = S NBUF ->
  path (fun i => dir (buf_at s i)) a l -> (length l <= n)%nat ->
  (exists b l1 l2, scan n dir want a s = Ok (Some b) s /\ l = l1 ++ b :: l2 /\
     want (buf_at s b) = true /\ forall i, i ∈ l1 -> want (buf_at s i) = false) \/
  (scan n dir want a s = Ok None s /\ forall i, i ∈ l -> want (buf_at s i) = false).
Proof.
  revert n a. induction l as [|x l IH]; intros n a Hl Hlen Hp Hn.
  - injection Hp as ->. right. split; [|set_solver]. destruct n; done.
  - injection Hp as -> Hp. destruct n as [|n]; simpl in Hn; [lia|].
    assert (Hx : (x < NBUF)%nat) by (apply Hl; set_solver).
    assert (Hbx : k_bufs s !! x = Some (buf_at s x)).
    { unfold buf_at. destruct (lookup_lt_is_Some_2 (k_bufs s) x) as [bf ->]; [|done].
      rewrite Hlen. lia. }
    simpl. destruct (Nat.eqb_spec x head) as [->|_]; [unfold head in Hx; lia|].
    unfold kbind. rewrite (get_buf_ok _ _ _ Hbx). cbn [bind_res].
    destruct (want (buf_at s x)) eqn:Hw.
    + left. exists x, [], l. split_and!; [done..|set_solver].
    + destruct (IH n (dir (buf_at s x))) as [(b & l1 & l2 & H1 & -> & H2 & H3)|[H1 H2]];
        [set_solver|done|done|lia| |].
      * left. exists b, (x :: l1), l2. split_and!; [done..|].
        intros i [->|Hi]%elem_of_cons; auto.
      * right. split; [done|]. intros i [->|Hi]%elem_of_cons; auto.
Qed.

(** ** What each operation does to the cache *)

(** A cached block is handed to the process [pid]. *)
Definition take_buf (pid : Z) (bf : buf) : buf :=
  Buf (b_flags bf) (b_dev bf) (b_blockno bf) (Sleeplock true pid) (b_refcnt bf +u 1)
    (b_prev bf) (b_next bf) (b_data bf).
(** A buffer is recycled for block [bno] of disk 1. *)
Definition recycle_buf (pid bno : Z) (bf : buf) : buf :=
  Buf 0 1 bno (Sleeplock true pid) 1 (b_prev bf) (b_next bf) (b_data bf).

Lemma upd_bufs_ext (f g : list buf -> list buf) s :
  f (k_bufs s) = g (k_bufs s) -> upd_k_bufs f s = upd_k_bufs g s.
Proof. intros H. unfold upd_k_bufs. by rewrite H. Qed.

Lemma upd_bufs_alter f g b s :
  upd_k_bufs (alter f b) (upd_k_bufs (alter g b) s) = upd_k_bufs (alter (f ∘ g) b) s.
Proof. unfold upd_k_bufs. simpl. by rewrite list_alter_alter_eq. Qed.

(** The end of [bget]: release the cache lock, then lock the buffer. *)
Lemma bget_finish `{Fuel} s b bf bf' pr g g' :
  k_held s = [LK_bcache] -> k_bufs s !! b = Some bf -> g bf = bf' ->
  sl_locked (b_lock bf') = false -> cur_proc s = Some pr ->
  upd_b_lock (fun _ => Sleeplock true (p_pid pr)) bf' = g' bf ->
  (release LK_bcache ;; acquiresleep (SL_buf b) ;; kret b) (upd_k_bufs (alter g b) s) =
  Ok b (upd_k_held (fun _ => []) (upd_k_bufs (alter g' b) s)).
Proof.
  intros Hh Hb Hg Hu Hcur Hg'. unfold kbind.
  rewrite (release_acquired LK_bcache []) by (done || set_solver). cbn [bind_res].
  rewrite (acquiresleep_ok (SL_buf b) (b_lock bf') pr); [| |done|simpl; set_solver|done].
  - cbn [bind_res kret]. f_equal. unfold put_sl, upd_k_bufs, upd_k_held. simpl. f_equal.
    rewrite list_alter_alter_eq. apply list_alter_ext; [|done].
    intros x Hx. rewrite Hb in Hx. injection Hx as <-. simpl. by rewrite Hg.
  - simpl. by rewrite list_lookup_alter_eq, Hb, <- Hg.
Qed.

Lemma buf_at_lookup s pid hs i :
  bio_ok s pid hs -> (i <= NBUF)%nat -> k_bufs s !! i = Some (buf_at s i).
Proof. intros Hs Hi. destruct (bio_buf s pid hs i Hs Hi) as [bf Hbf]. unfold buf_at. by rewrite Hbf. Qed.

Lemma elem_order order i : Permutation order (seq 0 NBUF) -> i ∈ order <-> (i < NBUF)%nat.
Proof. intros ->. rewrite elem_of_seq. lia. Qed.

Lemma elem_rev_order order i : Permutation order (seq 0 NBUF) -> i ∈ rev order <-> (i < NBUF)%nat.
Proof. intros H. rewrite list_elem_of_In, <- in_rev, <- list_elem_of_In. by apply elem_order. Qed.

Lemma length_order order : Permutation order (seq 0 NBUF) -> length order = NBUF.
Proof. by intros ->%Permutation_length. Qed.

(** [bget] on a block the process has not locked: the cached buffer if there is one, else
    a recycled buffer that is neither in use nor dirty, else the panic. *)
Lemma bget_spec `{Fuel} s pid hs bno :
  bio_ok s pid hs -> (forall i, i ∈ hs -> caches bno (buf_at s i) = false) ->
  (exists b, (b < NBUF)%nat /\ (b ∉ hs) /\ caches bno (buf_at s b) = true /\
     bget 1 bno s = Ok b (upd_k_bufs (alter (take_buf pid) b) s)) \/
  ((forall i, (i < NBUF)%nat -> caches bno (buf_at s i) = false) /\
   ((exists b, (b < NBUF)%nat /\ (b ∉ hs) /\ dirty (buf_at s b) = false /\
       bget 1 bno s = Ok b (upd_k_bufs (alter (recycle_buf pid bno) b) s)) \/
    (bget 1 bno s = Panic "bget: no buffers" /\
     forall i, (i < NBUF)%nat -> i ∈ hs \/ dirty (buf_at s i) = true))).
Proof.
  intros Hs Hnh. destruct (bio_cur _ _ _ Hs) as (pr & Hcur & <- & _).
  destruct (bio_order _ _ _ Hs) as (order & Hperm & Hlink).
  pose proof (bio_locks _ _ _ Hs) as Hh. pose proof (bio_len _ _ _ Hs) as Hlen.
  set (s1 := upd_k_held (cons LK_bcache) s).
  assert (Hhd : k_bufs s1 !! head = Some (buf_at s head)) by (by eapply (buf_at_lookup s)).
  unfold bget. rewrite (kbind_ok _ _ s tt s1) by (apply acquire_ok; rewrite Hh; set_solver).
  rewrite (kbind_ok _ _ s1 _ s1 (get_buf_ok _ _ _ Hhd)).
  destruct (scan_path NBUF b_next (fun bf => (b_dev bf =? 1) && (b_blockno bf =? bno))
    (nx s head) order s1) as [(b & l1 & l2 & Hsc & Ho & Hw & _)|[Hsc Hno]];
    [by intros i; rewrite (elem_order order i Hperm)|done|by apply (linked_next _ (pv s))
    |by rewrite (length_order _ Hperm)| |].
  - left. assert (Hb : (b < NBUF)%nat) by (rewrite <- (elem_order order b Hperm), Ho; set_solver).
    assert (Hbh : b ∉ hs).
    { intros Hin. specialize (Hnh b Hin). unfold caches in Hnh. change (buf_at s1 b) with (buf_at s b) in Hw.
      congruence. }
    pose proof (buf_at_lookup s (p_pid pr) hs b Hs ltac:(lia)) as Hbf.
    destruct (slot_free _ _ _ _ _ (bio_slots _ _ _ Hs b _ Hb Hbf) Hbh) as (Hr & Hu & _).
    exists b. split_and!; [done..|]. rewrite (kbind_ok _ _ _ _ _ Hsc).
    unfold set_buf at 1. unfold kbind at 1, modify. cbn [bind_res].
    rewrite (bget_finish s1 b (buf_at s b) (upd_b_refcnt (fun r => r +u 1) (buf_at s b)) pr _
      (take_buf (p_pid pr))); try done; [by f_equal; destruct s; simpl in *; subst|].
    simpl. by rewrite Hh.
  - right. split; [intros i Hi; apply Hno, (elem_order order i Hperm), Hi|].
    rewrite (kbind_ok _ _ _ _ _ Hsc). rewrite (kbind_ok _ _ s1 _ s1 (get_buf_ok _ _ _ Hhd)).
    destruct (scan_path NBUF b_prev (fun bf => (b_refcnt bf =? 0) && (Z.land (b_flags bf) B_DIRTY =? 0))
      (pv s head) (rev order) s1) as [(b & l1 & l2 & Hsc' & Ho & Hw & _)|[Hsc' Hno']];
      [by intros i; rewrite (elem_rev_order order i Hperm)
      |done|by apply (linked_prev (nx s))|by rewrite length_rev, (length_order _ Hperm)| |].
    + left. assert (Hb : (b < NBUF)%nat).
      { rewrite <- (elem_rev_order order b Hperm), Ho. set_solver. }
      pose proof (buf_at_lookup s (p_pid pr) hs b Hs ltac:(lia)) as Hbf.
      apply andb_true_iff in Hw as [Hr%Z.eqb_eq Hd].
      change (buf_at s1 b) with (buf_at s b) in Hr, Hd.
      assert (Hbh : b ∉ hs).
      { intros Hin. destruct (slot_held _ _ _ _ _ (bio_slots _ _ _ Hs b _ Hb Hbf) Hin) as [H1 _]. lia. }
      destruct (slot_free _ _ _ _ _ (bio_slots _ _ _ Hs b _ Hb Hbf) Hbh) as (_ & Hu & _).
      exists b. split_and!; [done|done|unfold dirty; by rewrite Hd|].
      rewrite (kbind_ok _ _ _ _ _ Hsc'). unfold set_buf, modify, kbind at 1 2 3 4. cbn [bind_res].
      rewrite !upd_bufs_alter.
      rewrite (bget_finish s1 b (buf_at s b) (Buf 0 1 bno (b_lock (buf_at s b)) 1 (b_prev (buf_at s b))
        (b_next (buf_at s b)) (b_data (buf_at s b))) pr _ (recycle_buf (p_pid pr) bno)); try done;
        [by f_equal; destruct s; simpl in *; subst|]. simpl. by rewrite Hh.
    + right. rewrite (kbind_ok _ _ _ _ _ Hsc'). split; [done|]. intros i Hi.
      pose proof (buf_at_lookup s (p_pid pr) hs i Hs ltac:(lia)) as Hbf.
      destruct (decide (i ∈ hs)) as [|Hni]; [by left|right].
      destruct (slot_free _ _ _ _ _ (bio_slots _ _ _ Hs i _ Hi Hbf) Hni) as (Hr & _).
      specialize (Hno' i). rewrite (elem_rev_order order i Hperm) in Hno'.
      specialize (Hno' Hi). change (buf_at s1 i) with (buf_at s i) in Hno'.
      rewrite Hr in Hno'. cbn [Z.eqb andb] in Hno'. unfold dirty. by rewrite Hno'.
Qed.

(** A change to one buffer, and to the disk block it caches, keeps the invariant. *)
Lemma bio_update s s' pid hs hs' b bf' :
  bio_ok s pid hs -> (b < NBUF)%nat -> k_bufs s' = <[b := bf']> (k_bufs s) ->
  (exists pr, cur_proc s' = Some pr /\ p_pid pr = pid /\ p_state pr = RUNNING) ->
  k_held s' = [] -> k_disksize s' = k_disksize s ->
  b_next bf' = nx s b -> b_prev bf' = pv s b ->
  (forall i, i <> b -> i ∈ hs' <-> i ∈ hs) -> NoDup hs' ->
  (forall n, block_ok (disk_block s' n) /\
     (disk_block s' n = disk_block s n \/ (n = b_blockno bf' /\ b_dev bf' = 1))) ->
  (forall i, i <> b -> (i < NBUF)%nat -> b_dev bf' = 1 -> caches (b_blockno bf') (buf_at s i) = false) ->
  slot_ok s' pid hs' b bf' -> bio_ok s' pid hs'.
Proof.
  intros Hs Hb Hbufs Hcur Hheld Hds Hnx Hpv Hhs Hnd Hdisk Huniq Hslot.
  assert (Hlen := bio_len _ _ _ Hs).
  assert (Hat : forall i, i <> b -> buf_at s' i = buf_at s i)
    by (intros i Hi; unfold buf_at; by rewrite Hbufs, list_lookup_insert_ne).
  assert (Hat' : buf_at s' b = bf')
    by (unfold buf_at; rewrite Hbufs, list_lookup_insert_eq; [done|lia]).
  assert (Hlk : forall i bi, k_bufs s' !! i = Some bi -> (i = b /\ bi = bf') \/ (i <> b /\ k_bufs s !! i = Some bi)).
  { intros i bi. rewrite Hbufs. intros [(-> & -> & _)|[Hne ?]]%list_lookup_insert_Some; auto. }
  assert (Hkey : forall i bi, i <> b -> (i < NBUF)%nat -> k_bufs s !! i = Some bi ->
    b_dev bf' = 1 -> b_dev bi = 1 -> b_blockno bi <> b_blockno bf').
  { intros i bi Hne Hi Hbi Hd Hdi Heq. specialize (Huniq i Hne Hi Hd).
    unfold buf_at, caches in Huniq. rewrite Hbi in Huniq. simpl in Huniq.
    rewrite Hdi, Heq, !Z.eqb_refl in Huniq. done. }
  constructor; try done.
  - by rewrite Hbufs, length_insert.
  - destruct (bio_order _ _ _ Hs) as (order & Hperm & Hl1 & Hl2). exists order. split; [done|].
    split; [rewrite <- Hl1|rewrite <- Hl2]; apply map_ext; intros i; unfold nx, pv;
      (destruct (decide (i = b)) as [->|Hne]; [by rewrite Hat'|by rewrite Hat]).
  - intros i j bi bj Hi Hj Hbi Hbj Hdi Hdj Heq.
    destruct (Hlk i bi Hbi) as [[-> ->]|[Hib Hbi']], (Hlk j bj Hbj) as [[-> ->]|[Hjb Hbj']]; try done.
    + by destruct (Hkey j bj Hjb Hj Hbj' Hdi Hdj).
    + by destruct (Hkey i bi Hib Hi Hbi' Hdj Hdi).
    + by eapply (bio_uniq _ _ _ Hs).
  - split; [done|]. apply Forall_forall. intros i Hi. destruct (decide (i = b)) as [->|Hne]; [done|].
    destruct (bio_hs _ _ _ Hs) as [_ H]. rewrite Forall_forall in H. by apply H, Hhs.
  - intros i bi Hi Hbi. destruct (Hlk i bi Hbi) as [[-> ->]|[Hib Hbi']]; [done|].
    destruct (bio_slots _ _ _ Hs i bi Hi Hbi') as [S1 S2 S3 S6 S4 S5].
    constructor; try done.
    + by rewrite Hds.
    + intros Hin. by apply S4, Hhs.
    + intros Hin. rewrite Hhs in Hin by done. destruct (S5 Hin) as (F1 & F2 & F3).
      split_and!; [done..|]. intros Hv. destruct (F3 Hv) as [|Heq]; [by left|right].
      destruct (proj2 (Hdisk (b_blockno bi))) as [->|[Hbn Hd]]; [done|].
      by destruct (Hkey i bi Hib Hi Hbi' Hd (proj1 S3 Hv)).
  - intros n. apply Hdisk.
Qed.

(** Some buffer holds a modified copy of block [n]. *)
Definition isdirty (s : kstate) (n : Z) : bool :=
  existsb (fun bf => caches n bf && dirty bf) (take NBUF (k_bufs s)).

Lemma isdirty_iff s n :
  isdirty s n = true <->
  exists i bf, (i < NBUF)%nat /\ k_bufs s !! i = Some bf /\ caches n bf = true /\ dirty bf = true.
Proof.
  unfold isdirty. rewrite existsb_exists. split.
  - intros (bf & (i & Hi)%list_elem_of_In%list_elem_of_lookup & [Hc Hd]%andb_true_iff).
    apply lookup_take_Some in Hi as [Hi Hn]. by exists i, bf.
  - intros (i & bf & Hi & Hb & Hc & Hd). exists bf. rewrite Hc, Hd. split; [|done].
    apply list_elem_of_In, list_elem_of_lookup. exists i. by apply lookup_take_Some.
Qed.

Section Update.
Context (s s' : kstate) (pid : Z) (hs hs' : list nat) (b : nat) (bf bf' : buf).
Context (Hs : bio_ok s pid hs) (Hs' : bio_ok s' pid hs') (Hb : (b < NBUF)%nat).
Context (Hbf : k_bufs s !! b = Some bf) (Hbufs : k_bufs s' = <[b := bf']> (k_bufs s)).

Lemma update_lookup : k_bufs s' !! b = Some bf'.
Proof. rewrite Hbufs. apply list_lookup_insert_eq. by eapply lookup_lt_Some. Qed.

Lemma update_other i : i <> b -> k_bufs s' !! i = k_bufs s !! i.
Proof. intros Hi. by rewrite Hbufs, list_lookup_insert_ne. Qed.

(** What the file system sees of block [n] after buffer [b] has changed. *)
Lemma view_update n d :
  (caches n bf' && valid bf' = true -> b_data bf' = d) ->
  (caches n bf' && valid bf' = false -> caches n bf && valid bf = true -> disk_block s' n = d) ->
  (caches n bf' && valid bf' = false -> caches n bf && valid bf = false ->
     view s n = d /\ disk_block s' n = disk_block s n) ->
  view s' n = d.
Proof.
  intros H1 H2 H3.
  destruct (caches n bf' && valid bf') eqn:E'.
  { rewrite <- (H1 eq_refl). apply andb_true_iff in E' as [E1 E2].
    by apply (view_cached s' pid hs' n b bf' Hs' Hb update_lookup). }
  destruct (view_cases s' pid hs' n Hs') as [(i & bi & Hi & Hbi & Hc & Hv & ->)|[Hnone Hd]].
  - destruct (decide (i = b)) as [->|Hib].
    { rewrite update_lookup in Hbi. injection Hbi as <-. by rewrite Hc, Hv in E'. }
    rewrite update_other in Hbi by done. destruct (caches n bf && valid bf) eqn:E.
    + apply andb_true_iff in E as [E1 E2]. exfalso. apply Hib. unfold caches in *.
      by apply (bio_uniq _ _ _ Hs i b bi bf); zify; lia || eauto.
    + destruct (H3 eq_refl eq_refl) as [<- _].
      symmetry. by apply (view_cached s pid hs n i bi).
  - rewrite Hd. destruct (caches n bf && valid bf) eqn:E; [auto|].
    destruct (H3 eq_refl eq_refl) as [<- ->]. symmetry. apply view_uncached.
    intros i bi Hi Hbi Hc Hv. destruct (decide (i = b)) as [->|Hib].
    + rewrite Hbf in Hbi. injection Hbi as <-. by rewrite Hc, Hv in E.
    + rewrite <- update_other in Hbi by done. by rewrite (Hnone i bi Hi Hbi Hc) in Hv.
Qed.

Lemma isdirty_update n :
  caches n bf' && dirty bf' = caches n bf && dirty bf -> isdirty s' n = isdirty s n.
Proof.
  intros Heq. apply eq_iff_eq_true. rewrite !isdirty_iff. split; intros (i & bi & Hi & Hbi & Hc & Hd).
  - destruct (decide (i = b)) as [->|Hib].
    + rewrite update_lookup in Hbi. injection Hbi as <-. rewrite Hc, Hd in Heq.
      symmetry in Heq. apply andb_true_iff in Heq as [? ?]. by exists b, bf.
    + rewrite update_other in Hbi by done. by exists i, bi.
  - destruct (decide (i = b)) as [->|Hib].
    + rewrite Hbf in Hbi. injection Hbi as <-. rewrite Hc, Hd in Heq.
      apply andb_true_iff in Heq as [? ?]. exists b, bf'. by rewrite update_lookup.
    + exists i, bi. by rewrite update_other.
Qed.
End Update.

(** A request to the disk by the process that has the buffer locked. *)
Lemma iderw_start b bf pr pid s :
  k_held s = [] -> cur_proc s = Some pr -> p_pid pr = pid ->
  k_bufs s !! b = Some bf -> b_lock bf = Sleeplock true pid ->
  holdingsleep (SL_buf b) s = Ok true s.
Proof.
  intros Hh Hcur <- Hbf Hlk.
  rewrite (holdingsleep_ok (SL_buf b) (b_lock bf) pr);
    [|simpl; by rewrite Hbf|rewrite Hh; set_solver|done].
  rewrite Hlk. simpl. by rewrite Z.eqb_refl.
Qed.

Lemma iderw_read b bf pr pid s :
  k_held s = [] -> cur_proc s = Some pr -> p_pid pr = pid ->
  k_bufs s !! b = Some bf -> b_lock bf = Sleeplock true pid ->
  b_flags bf = 0 -> b_dev bf = 1 -> b_blockno bf < k_disksize s ->
  iderw b s = Ok tt (upd_k_bufs (alter (fun bf => upd_b_flags (fun _ => B_VALID)
    (upd_b_data (fun _ => disk_block s (b_blockno bf)) bf)) b) s).
Proof.
  intros Hh Hcur Hpid Hbf Hlk Hfl Hdev Hbn. unfold iderw.
  rewrite (kbind_ok _ _ _ _ _ (iderw_start _ _ _ _ _ Hh Hcur Hpid Hbf Hlk)). cbn [negb].
  rewrite (kbind_ok _ _ _ _ _ (get_buf_ok _ _ _ Hbf)). rewrite Hfl, Hdev.
  change (Z.land (0) (Z.lor B_VALID B_DIRTY) =? B_VALID) with false.
  change (negb (1 =? 1)) with false. change (negb (Z.land (0) B_DIRTY =? 0)) with false.
  unfold kbind, gets, set_buf, modify. cbn [bind_res].
  destruct (Z.leb_spec (k_disksize s) (b_blockno bf)); [lia|]. cbn [bind_res]. rewrite upd_bufs_alter. f_equal.
  apply upd_bufs_ext. apply list_alter_ext; [|done]. intros x Hx. rewrite Hbf in Hx.
  injection Hx as <-. unfold compose. destruct bf. simpl in *. by subst.
Qed.

Lemma iderw_write b bf pr pid s :
  k_held s = [] -> cur_proc s = Some pr -> p_pid pr = pid ->
  k_bufs s !! b = Some bf -> b_lock bf = Sleeplock true pid ->
  b_flags bf = Z.lor B_VALID B_DIRTY -> b_dev bf = 1 -> b_blockno bf < k_disksize s ->
  iderw b s = Ok tt (upd_k_bufs (alter (upd_b_flags (fun _ => B_VALID)) b)
    (upd_k_writes (fun ws => ws ++ [(b_blockno bf, b_data bf)])
      (upd_k_disk (fun d => <[b_blockno bf := b_data bf]> d) s))).
Proof.
  intros Hh Hcur Hpid Hbf Hlk Hfl Hdev Hbn. unfold iderw.
  rewrite (kbind_ok _ _ _ _ _ (iderw_start _ _ _ _ _ Hh Hcur Hpid Hbf Hlk)). cbn [negb].
  rewrite (kbind_ok _ _ _ _ _ (get_buf_ok _ _ _ Hbf)). rewrite Hfl, Hdev.
  change (Z.land (Z.lor B_VALID B_DIRTY) (Z.lor B_VALID B_DIRTY) =? B_VALID) with false.
  change (negb (1 =? 1)) with false. change (negb (Z.land (Z.lor B_VALID B_DIRTY) B_DIRTY =? 0)) with true.
  unfold kbind, gets, set_buf, modify. cbn [bind_res].
  destruct (Z.leb_spec (k_disksize s) (b_blockno bf)); [lia|]. cbn [bind_res]. f_equal.
  unfold upd_k_bufs, upd_k_disk, upd_k_writes. simpl. f_equal. rewrite list_alter_alter_eq.
  apply list_alter_ext; [|done]. intros x Hx. rewrite Hbf in Hx.
  injection Hx as <-. unfold compose, upd_b_flags. simpl. by rewrite Hfl.
Qed.

Lemma alter_insert {A} (f : A -> A) b bf (l : list A) :
  l !! b = Some bf -> alter f b l = <[b := f bf]> l.
Proof.
  intros Hb. apply list_eq. intros i. destruct (decide (b = i)) as [<-|Hne].
  - rewrite list_lookup_alter_eq, Hb. simpl.
    by rewrite list_lookup_insert_eq by (by eapply lookup_lt_Some).
  - by rewrite list_lookup_alter_ne, list_lookup_insert_ne.
Qed.

(** Handing buffer [b] to the process, as [bf']. *)
Lemma bio_hand s pid hs b bf' :
  bio_ok s pid hs -> (b < NBUF)%nat -> b ∉ hs ->
  b_next bf' = nx s b -> b_prev bf' = pv s b -> b_flags bf' ∈ [B_VALID; Z.lor B_VALID B_DIRTY] ->
  b_dev bf' = 1 -> 0 <= b_blockno bf' < k_disksize s -> block_ok (b_data bf') ->
  b_refcnt bf' = 1 -> b_lock bf' = Sleeplock true pid ->
  (forall i, i <> b -> (i < NBUF)%nat -> caches (b_blockno bf') (buf_at s i) = false) ->
  bio_ok (upd_k_bufs (insert b bf') s) pid (b :: hs).
Proof.
  intros Hs Hb Hbh Hnx Hpv Hfl Hdev Hbn Hdata Href Hlk Huniq.
  assert (Hv : valid bf' = true) by (unfold valid; set_unfold in Hfl; destruct Hfl as [->|[->|[]]]; done).
  eapply (bio_update s _ pid hs (b :: hs) b bf' Hs Hb); try done.
  - apply (bio_cur _ _ _ Hs).
  - apply (bio_locks _ _ _ Hs).
  - intros i Hi. set_solver.
  - apply NoDup_cons. split; [done|]. apply (bio_hs _ _ _ Hs).
  - intros n. split; [apply (bio_disk _ _ _ Hs)|by left].
  - eauto.
  - constructor; try done.
    + set_unfold in Hfl. destruct Hfl as [->|[->|[]]]; simpl; tauto.
    + intros Hin. set_solver.
Qed.

(** [bread] returns the buffer of the block, locked, with the contents the file system
    sees, and changes nothing it sees of any block; it panics when every buffer is in use
    or dirty. *)
Definition bread_post (s : kstate) (pid : Z) (hs : list nat) (bno : Z) (b : nat) (s' : kstate) : Prop :=
  (b < NBUF)%nat /\ (b ∉ hs) /\ bio_ok s' pid (b :: hs) /\
  caches bno (buf_at s' b) = true /\ b_data (buf_at s' b) = view s bno /\
  (forall n, view s' n = view s n) /\ (forall n, isdirty s' n = isdirty s n) /\
  (forall i, i <> b -> buf_at s' i = buf_at s i) /\
  (dirty (buf_at s' b) = true \/ b_data (buf_at s' b) = disk_block s' bno) /\
  s' = upd_k_bufs (fun _ => k_bufs s') s.

(** A buffer that is handed out with what the file system sees of its block. *)
Lemma bread_hand s pid hs bno b bf' :
  bio_ok s pid hs -> (b < NBUF)%nat -> b ∉ hs ->
  b_next bf' = nx s b -> b_prev bf' = pv s b -> b_flags bf' ∈ [B_VALID; Z.lor B_VALID B_DIRTY] ->
  b_dev bf' = 1 -> b_blockno bf' = bno -> 0 <= bno < k_disksize s -> b_data bf' = view s bno ->
  block_ok (b_data bf') -> b_refcnt bf' = 1 -> b_lock bf' = Sleeplock true pid ->
  (forall i, i <> b -> (i < NBUF)%nat -> caches bno (buf_at s i) = false) ->
  (forall n, caches n bf' && dirty bf' = caches n (buf_at s b) && dirty (buf_at s b)) ->
  (dirty (buf_at s b) = true -> caches bno (buf_at s b) = true) ->
  (dirty bf' = true \/ b_data bf' = disk_block s bno) ->
  bread_post s pid hs bno b (upd_k_bufs (insert b bf') s).
Proof.
  intros Hs Hb Hbh Hnx Hpv Hfl Hdev Hbn Hrange Hview Hdata Href Hlk Huniq Hdirty Hdc Hcl. subst bno.
  assert (Hs' : bio_ok (upd_k_bufs (insert b bf') s) pid (b :: hs)) by (by apply bio_hand).
  pose proof (buf_at_lookup s pid hs b Hs ltac:(lia)) as Hbf.
  assert (Hlen : (b < length (k_bufs s))%nat) by (by eapply lookup_lt_Some).
  assert (Hat : buf_at (upd_k_bufs (insert b bf') s) b = bf')
    by (unfold buf_at; simpl; by rewrite list_lookup_insert_eq).
  unfold bread_post. rewrite Hat. split_and!; try done.
  - unfold caches. by rewrite Hdev, !Z.eqb_refl.
  - intros n. apply (view_update s _ pid hs (b :: hs) b (buf_at s b) bf' Hs Hs' Hb Hbf eq_refl).
    + intros [Hc _]%andb_true_iff. unfold caches in Hc. apply andb_true_iff in Hc as [_ Hc%Z.eqb_eq].
      by rewrite <- Hc.
    + intros Hc' [Hc Hv]%andb_true_iff. rewrite (view_cached s pid hs n b _ Hs Hb Hbf Hc Hv).
      destruct (slot_free _ _ _ _ _ (bio_slots _ _ _ Hs b _ Hb Hbf) Hbh) as (_ & _ & Hclean).
      destruct (Hclean Hv) as [Hd|Heq].
      * exfalso. specialize (Hdc Hd). specialize (Hdirty n). rewrite Hc, Hd in Hdirty.
        apply andb_true_iff in Hdirty as [Hcn _]. rewrite Hcn in Hc'.
        assert (Hv' : valid bf' = true) by (unfold valid; set_unfold in Hfl; destruct Hfl as [->|[->|[]]]; done).
        by rewrite Hv' in Hc'.
      * unfold caches in Hc. apply andb_true_iff in Hc as [_ Hc%Z.eqb_eq]. by rewrite Heq, Hc.
    + done.
  - intros n. by apply (isdirty_update s _ b (buf_at s b) bf').
  - intros i Hi. unfold buf_at. simpl. by rewrite list_lookup_insert_ne.
Qed.

Lemma bread_ok `{Fuel} s pid hs bno :
  bio_ok s pid hs -> (forall i, i ∈ hs -> caches bno (buf_at s i) = false) ->
  0 <= bno < k_disksize s ->
  wpx (fun msg => msg = "bget: no buffers"%string /\
         forall i, (i < NBUF)%nat -> caches bno (buf_at s i) = false /\ (i ∈ hs \/ dirty (buf_at s i) = true))
    (bread 1 bno) (bread_post s pid hs bno) s.
Proof.
  intros Hs Hnh Hrange. unfold wpx, bread.
  destruct (bio_cur _ _ _ Hs) as (pr & Hcur & Hpid & _).
  destruct (bget_spec s pid hs bno Hs Hnh)
    as [(b & Hb & Hbh & Hc & Hg)|(Hnone & [(b & Hb & Hbh & Hd & Hg)|[Hg Hfull]])].
  - rewrite (kbind_ok _ _ _ _ _ Hg). pose proof (buf_at_lookup s pid hs b Hs ltac:(lia)) as Hbf.
    destruct (bio_slots _ _ _ Hs b _ Hb Hbf) as [Hfl Hdata Hdev _ _ Hfree].
    destruct (Hfree Hbh) as (Href & _ & Hclean).
    assert (Hcb := Hc). unfold caches in Hcb. apply andb_true_iff in Hcb as [Hc1%Z.eqb_eq Hc2%Z.eqb_eq].
    assert (Hv : valid (buf_at s b) = true) by (by apply Hdev).
    assert (Hget : k_bufs (upd_k_bufs (alter (take_buf pid) b) s) !! b = Some (take_buf pid (buf_at s b)))
      by (simpl; by rewrite list_lookup_alter_eq, Hbf).
    rewrite (kbind_ok _ _ _ _ _ (get_buf_ok _ _ _ Hget)). simpl b_flags.
    unfold valid in Hv. destruct (Z.land _ B_VALID =? 0) eqn:Hvf; [done|]. cbn [kwhen kbind bind_res kret].
    unfold kbind. cbn [bind_res kret].
    rewrite (upd_bufs_ext _ (insert b (take_buf pid (buf_at s b)))) by (by apply alter_insert).
    apply bread_hand; try done.
    + simpl in Hfl |- *. destruct Hfl as [Hf|[<-|[<-|[]]]]; [by rewrite <- Hf in Hvf|set_solver..].
    + simpl. symmetry. apply (view_cached s pid hs bno b _ Hs Hb Hbf Hc). unfold valid. by rewrite Hvf.
    + simpl. by rewrite Href.
    + intros i Hib Hi. destruct (caches bno (buf_at s i)) eqn:Hci; [|done]. exfalso. apply Hib.
      unfold caches in Hci. apply andb_true_iff in Hci as [Hi1%Z.eqb_eq Hi2%Z.eqb_eq].
      eapply (bio_uniq _ _ _ Hs); try done; [|congruence]. by apply (buf_at_lookup s pid hs); [|lia].
    + rewrite <- Hc2. apply Hclean. unfold valid. by rewrite Hvf.
  - rewrite (kbind_ok _ _ _ _ _ Hg). pose proof (buf_at_lookup s pid hs b Hs ltac:(lia)) as Hbf.
    set (s1 := upd_k_bufs _ s).
    assert (Hget : k_bufs s1 !! b = Some (recycle_buf pid bno (buf_at s b)))
      by (simpl; by rewrite list_lookup_alter_eq, Hbf).
    rewrite (kbind_ok _ _ _ _ _ (get_buf_ok _ _ _ Hget)). simpl b_flags.
    change (Z.land 0 B_VALID =? 0) with true. cbn [kwhen].
    rewrite (kbind_ok _ _ _ _ _ (iderw_read b _ pr pid s1 (bio_locks _ _ _ Hs) Hcur Hpid Hget
      eq_refl eq_refl eq_refl (proj2 Hrange))).
    unfold kret, s1. rewrite upd_bufs_alter.
    rewrite (upd_bufs_ext _ (insert b (Buf B_VALID 1 bno (Sleeplock true pid) 1 (pv s b) (nx s b)
      (disk_block s bno)))) by (by rewrite (alter_insert _ b _ _ Hbf)).
    assert (Hview : view s bno = disk_block s bno).
    { apply view_uncached. intros i bi Hi Hbi Hc _. specialize (Hnone i Hi). unfold buf_at in Hnone.
      rewrite Hbi in Hnone. simpl in Hnone. congruence. }
    apply bread_hand; try done; try (by simpl).
    + set_solver.
    + simpl. apply (bio_disk _ _ _ Hs).
    + intros i _ Hi. by apply Hnone.
    + intros n. rewrite Hd, !andb_false_r. done.
    + by rewrite Hd.
    + by right.
  - rewrite (kbind_panic _ _ _ _ Hg). split; [done|]. intros i Hi. auto.
Qed.

(** ** Moving a buffer to the front *)

(** A buffer without its links. *)
Definition unlinked (bf : buf) : buf := upd_b_prev (fun _ => 0%nat) (upd_b_next (fun _ => 0%nat) bf).

(** [s'] is [s] with only the links of the list changed. *)
Definition relinked (s s' : kstate) : Prop :=
  s' = upd_k_bufs (fun _ => k_bufs s') s /\ map unlinked (k_bufs s') = map unlinked (k_bufs s).

Lemma relinked_refl s : relinked s s.
Proof. split; [by destruct s|done]. Qed.

Lemma relinked_trans s1 s2 s3 : relinked s1 s2 -> relinked s2 s3 -> relinked s1 s3.
Proof.
  intros [H1 H2] [H3 H4]. split; [|by rewrite H4]. rewrite H3 at 1. rewrite H1. done.
Qed.

Lemma relinked_alter g j s :
  (forall bf, unlinked (g bf) = unlinked bf) -> relinked s (upd_k_bufs (alter g j) s).
Proof.
  intros Hg. split; [done|]. simpl. apply list_eq. intros i.
  rewrite !list_lookup_fmap. destruct (decide (i = j)) as [->|Hij].
  - rewrite list_lookup_alter_eq. destruct (k_bufs s !! j); simpl; by rewrite ?Hg.
  - by rewrite list_lookup_alter_ne.
Qed.

Lemma relinked_step g j s s1 :
  relinked s s1 -> (forall bf, unlinked (g bf) = unlinked bf) ->
  relinked s (upd_k_bufs (alter g j) s1).
Proof. intros H Hg. eapply relinked_trans; [done|by apply relinked_alter]. Qed.

Lemma relinked_length s s' : relinked s s' -> length (k_bufs s') = length (k_bufs s).
Proof. intros [_ H]. apply (f_equal length) in H. by rewrite !length_map in H. Qed.

Lemma relinked_lookup s s' i bf' :
  relinked s s' -> k_bufs s' !! i = Some bf' ->
  exists bf, k_bufs s !! i = Some bf /\ unlinked bf' = unlinked bf.
Proof.
  intros [_ H] Hi. apply (f_equal (.!! i)) in H. rewrite !list_lookup_fmap, Hi in H.
  destruct (k_bufs s !! i) as [bf|]; [|done]. exists bf. split; [done|].
  change (Some (unlinked bf') = Some (unlinked bf)) in H. congruence.
Qed.

Lemma relinked_sym s s' : relinked s s' -> relinked s' s.
Proof. intros [H1 H2]. split; [|done]. generalize dependent (k_bufs s'). intros l -> _. by destruct s. Qed.

Lemma unlinked_eq bf bf' :
  unlinked bf' = unlinked bf ->
  b_flags bf' = b_flags bf /\ b_dev bf' = b_dev bf /\ b_blockno bf' = b_blockno bf /\
  b_lock bf' = b_lock bf /\ b_refcnt bf' = b_refcnt bf /\ b_data bf' = b_data bf.
Proof. destruct bf, bf'. unfold unlinked. simpl. by intros [= -> -> -> -> -> ->]. Qed.

Lemma relinked_ok s s' pid hs order :
  relinked s s' -> bio_ok s pid hs -> Permutation order (seq 0 NBUF) ->
  linked (nx s') (pv s') order -> bio_ok s' pid hs.
Proof.
  intros Hr Hs Hp Hl. pose proof (proj1 Hr) as Heq. pose proof Hs as [B1 B2 B3 B4 B5 B6 B7 B8].
  constructor; [by rewrite Heq|by rewrite Heq|by rewrite (relinked_length s s')|by exists order
    | |done| |intros n; rewrite Heq; apply B8].
  - intros i j bi bj Hi Hj Hbi Hbj Hdi Hdj Hno.
    destruct (relinked_lookup _ _ _ _ Hr Hbi) as (bi' & Hbi' & Hui).
    destruct (relinked_lookup _ _ _ _ Hr Hbj) as (bj' & Hbj' & Huj).
    apply unlinked_eq in Hui as (_ & E1 & E2 & _), Huj as (_ & F1 & F2 & _).
    apply (B5 i j bi' bj'); congruence.
  - intros i bi Hi Hbi. destruct (relinked_lookup _ _ _ _ Hr Hbi) as (bi' & Hbi' & Hui).
    apply unlinked_eq in Hui as (E1 & E2 & E3 & E4 & E5 & E6).
    destruct (B7 i bi' Hi Hbi') as [S1 S2 S3 S6 S4 S5]. rewrite Heq.
    constructor; unfold valid, dirty in *; rewrite ?E1, ?E2, ?E3, ?E4, ?E5, ?E6; done.
Qed.

Lemma view_relinked s s' pid hs n :
  relinked s s' -> bio_ok s pid hs -> bio_ok s' pid hs -> view s' n = view s n.
Proof.
  intros Hr Hs Hs'. pose proof (proj1 Hr) as Heq.
  destruct (view_cases s' pid hs n Hs') as [(i & bi & Hi & Hbi & Hc & Hv & ->)|[Hnone ->]].
  - destruct (relinked_lookup _ _ _ _ Hr Hbi) as (bi' & Hbi' & Hui).
    apply unlinked_eq in Hui as (E1 & E2 & E3 & _ & _ & E6). unfold caches, valid in *.
    rewrite E6. symmetry. apply (view_cached s pid hs n i bi'); unfold caches, valid; congruence.
  - rewrite Heq. change (disk_block s n = view s n). symmetry. apply view_uncached.
    intros i bi Hi Hbi Hc Hv.
    destruct (relinked_lookup _ _ _ _ (relinked_sym _ _ Hr) Hbi) as (bi' & Hbi' & Hui).
    apply unlinked_eq in Hui as (E1 & E2 & E3 & _).
    specialize (Hnone i bi' Hi Hbi'). unfold caches, valid in *. rewrite <- E2, <- E3 in Hnone.
    specialize (Hnone Hc). congruence.
Qed.

Lemma isdirty_relinked s s' n : relinked s s' -> isdirty s' n = isdirty s n.
Proof.
  intros Hr. apply eq_iff_eq_true. rewrite !isdirty_iff.
  split; intros (i & bi & Hi & Hbi & Hc & Hd);
    [destruct (relinked_lookup _ _ _ _ Hr Hbi) as (bi' & Hbi' & Hui)
    |destruct (relinked_lookup _ _ _ _ (relinked_sym _ _ Hr) Hbi) as (bi' & Hbi' & Hui)];
    apply unlinked_eq in Hui as (E1 & E2 & E3 & _); exists i, bi';
    unfold caches, dirty in *; split_and!; congruence.
Qed.

Lemma buf_at_alter g j s i :
  (j < length (k_bufs s))%nat ->
  buf_at (upd_k_bufs (alter g j) s) i = if decide (i = j) then g (buf_at s i) else buf_at s i.
Proof.
  intros Hj. unfold buf_at. simpl. case_decide as Hij.
  - subst i. rewrite list_lookup_alter_eq.
    destruct (lookup_lt_is_Some_2 (k_bufs s) j Hj) as [bf ->]. done.
  - by rewrite list_lookup_alter_ne.
Qed.

Lemma nx_alter g j s i :
  (j < length (k_bufs s))%nat ->
  nx (upd_k_bufs (alter g j) s) i = if decide (i = j) then b_next (g (buf_at s i)) else nx s i.
Proof. intros Hj. unfold nx. rewrite buf_at_alter by done. by case_decide. Qed.

Lemma pv_alter g j s i :
  (j < length (k_bufs s))%nat ->
  pv (upd_k_bufs (alter g j) s) i = if decide (i = j) then b_prev (g (buf_at s i)) else pv s i.
Proof. intros Hj. unfold pv. rewrite buf_at_alter by done. by case_decide. Qed.

Lemma get_buf_at i s : (i < length (k_bufs s))%nat -> get_buf i s = Ok (buf_at s i) s.
Proof.
  intros Hi. destruct (lookup_lt_is_Some_2 _ _ Hi) as [bf Hbf].
  rewrite (get_buf_ok _ _ _ Hbf). unfold buf_at. by rewrite Hbf.
Qed.

(** [push_front] and [link_front] with nothing in between: [b] becomes the first. *)
Lemma front_ok s b order :
  length (k_bufs s) = S NBUF -> NoDup (head :: b :: order) -> (b < NBUF)%nat ->
  (forall i, i ∈ order -> (i < NBUF)%nat) -> linked (nx s) (pv s) order ->
  exists s', (push_front b ;; link_front b) s = Ok tt s' /\ relinked s s' /\
    linked (nx s') (pv s') (b :: order).
Proof.
  intros Hlen Hnd Hb Ho Hl.
  assert (Hin : nx s head ∈ order ++ [head]) by (rewrite <- (proj1 Hl); set_solver).
  unfold head in *.
  assert (Hn : (nx s NBUF <= NBUF)%nat).
  { apply elem_of_app in Hin as [Hin|Hin]; [apply Ho in Hin; lia|set_unfold in Hin; lia]. }
  assert (Hbn : b <> nx s NBUF).
  { intros ->. rewrite !NoDup_cons in Hnd. set_solver by lia. }
  unfold push_front, link_front, set_buf, modify, kbind, head.
  rewrite get_buf_at by lia. cbn [bind_res]. rewrite upd_bufs_alter.
  rewrite get_buf_at by (simpl; rewrite length_alter; lia). cbn [bind_res].
  rewrite buf_at_alter by lia. rewrite decide_False by lia. fold (nx s NBUF).
  eexists. split; [done|]. split.
  - do 3 (apply relinked_step; [|done]). apply relinked_refl.
  - eapply (linked_front (nx s) (pv s)); [done|done|..]; intros i; unfold head.
    + rewrite nx_alter by (simpl; rewrite !length_alter; lia).
      destruct (decide (i = NBUF)); [done|].
      rewrite nx_alter by (simpl; rewrite length_alter; lia).
      assert (Hsame : forall s0 j, (if decide (i = j) then b_next (upd_b_prev (λ _, b) (buf_at s0 i)) else nx s0 i) = nx s0 i)
        by (intros s0 j; by destruct (decide (i = j))).
      rewrite Hsame, nx_alter by lia. by destruct (decide (i = b)).
    + rewrite pv_alter by (simpl; rewrite !length_alter; lia).
      assert (Hsame : forall s0, (if decide (i = NBUF) then b_prev (upd_b_next (λ _, b) (buf_at s0 i)) else pv s0 i) = pv s0 i)
        by (intros s0; by destruct (decide (i = NBUF))).
      rewrite Hsame, pv_alter by (simpl; rewrite length_alter; lia).
      destruct (decide (i = nx s NBUF)); [done|]. rewrite pv_alter by lia. by destruct (decide (i = b)).
Qed.

(** Unlinking [b] as [brelse] does. *)
Lemma unlink_ok s b o1 o2 :
  length (k_bufs s) = S NBUF -> NoDup (head :: o1 ++ b :: o2) ->
  (forall i, i ∈ o1 ++ b :: o2 -> (i < NBUF)%nat) -> linked (nx s) (pv s) (o1 ++ b :: o2) ->
  exists s', (forall m : K unit,
      (set_buf (nx s b) (upd_b_prev (fun _ => pv s b)) ;;
       bf <- get_buf b;
       set_buf (b_prev bf) (upd_b_next (fun _ => b_next bf)) ;; m) s = m s') /\
    relinked s s' /\ linked (nx s') (pv s') (o1 ++ o2).
Proof.
  intros Hlen Hnd Ho Hl. pose proof Hl as [Hl1 Hl2].
  assert (Hb : (b < NBUF)%nat) by (apply Ho; set_solver).
  assert (Hn : nx s b ∈ o2 ++ [head]).
  { change (head :: o1 ++ b :: o2) with ((head :: o1) ++ b :: o2) in Hl1. rewrite map_app in Hl1.
    rewrite <- app_assoc in Hl1. simpl in Hl1. change (o1 ++ b :: o2 ++ [head]) with (o1 ++ [b] ++ (o2 ++ [head])) in Hl1.
    rewrite app_assoc in Hl1. change (nx s head :: map (nx s) o1 ++ nx s b :: map (nx s) o2)
      with ((nx s head :: map (nx s) o1) ++ nx s b :: map (nx s) o2) in Hl1.
    apply app_inj_1 in Hl1 as [_ <-]; [set_solver|].
    simpl. rewrite length_map, length_app. simpl. lia. }
  assert (Hp : pv s b ∈ head :: o1).
  { rewrite <- app_assoc, map_app in Hl2. simpl in Hl2.
    change (head :: o1 ++ b :: o2) with ((head :: o1) ++ b :: o2) in Hl2.
    destruct (exists_last (l := head :: o1)) as (q & p & Hq); [done|]. rewrite Hq in Hl2 |- *.
    rewrite <- app_assoc in Hl2. apply app_inj_1 in Hl2 as [_ Hl2].
    - injection Hl2 as -> _. set_solver.
    - apply (f_equal length) in Hq. rewrite length_app in Hq. simpl in Hq. rewrite length_map. lia. }
  assert (Hlt : (nx s b <= NBUF)%nat /\ (pv s b <= NBUF)%nat).
  { unfold head in *. split.
    - apply elem_of_app in Hn as [Hn|Hn]; [|set_unfold in Hn; lia].
      specialize (Ho (nx s b) ltac:(set_solver)). lia.
    - apply elem_of_cons in Hp as [->|Hp]; [done|]. specialize (Ho (pv s b) ltac:(set_solver)). lia. }
  assert (Hnb : nx s b <> b).
  { intros Heq. rewrite Heq in Hn. apply NoDup_cons in Hnd as [Hh Hnd].
    apply NoDup_app in Hnd as (_ & _ & Hnd). apply NoDup_cons in Hnd as [Hnd _]. set_solver. }
  exists (upd_k_bufs (alter (upd_b_next (fun _ => nx s b)) (pv s b))
            (upd_k_bufs (alter (upd_b_prev (fun _ => pv s b)) (nx s b)) s)).
  split; [|split].
  - intros m. unfold set_buf, modify, kbind. cbn [bind_res].
    rewrite get_buf_at by (simpl; rewrite length_alter; lia). cbn [bind_res].
    rewrite buf_at_alter by lia. by rewrite decide_False by done.
  - do 2 (apply relinked_step; [|done]). apply relinked_refl.
  - apply (linked_remove (nx s) (pv s) _ _ o1 b o2); [done|done|..]; intros i.
    + rewrite nx_alter by (simpl; rewrite length_alter; lia).
      destruct (decide (i = pv s b)); [done|]. rewrite nx_alter by lia. by destruct (decide (i = nx s b)).
    + rewrite pv_alter by (simpl; rewrite length_alter; lia).
      assert (Hsame : forall s0, (if decide (i = pv s b) then b_prev (upd_b_next (λ _, nx s b) (buf_at s0 i)) else pv s0 i) = pv s0 i)
        by (intros s0; by destruct (decide (i = pv s b))).
      rewrite Hsame, pv_alter by lia. by destruct (decide (i = nx s b)).
Qed.

Definition brelse_post (s : kstate) (pid : Z) (hs : list nat) (b : nat) (s' : kstate) : Prop :=
  bio_ok s' pid hs /\ (forall n, view s' n = view s n) /\ (forall n, isdirty s' n = isdirty s n) /\
  (forall i, i <> b -> unlinked (buf_at s' i) = unlinked (buf_at s i)) /\
  s' = upd_k_procs (map (wakeup1_proc (CH_buflock b))) (upd_k_bufs (fun _ => k_bufs s') s).

(** Giving buffer [b] back, before it is moved in the list. *)
Definition drop_buf (bf : buf) : buf :=
  upd_b_refcnt (fun r => r -u 1) (upd_b_lock (fun _ => Sleeplock false 0) bf).

Lemma bio_drop s pid hs hs' b :
  bio_ok s pid hs -> Permutation hs (b :: hs') ->
  dirty (buf_at s b) = true \/ b_data (buf_at s b) = disk_block s (b_blockno (buf_at s b)) ->
  let s1 := upd_k_procs (map (wakeup1_proc (CH_buflock b))) (upd_k_bufs (insert b (drop_buf (buf_at s b))) s) in
  bio_ok s1 pid hs' /\ (forall n, view s1 n = view s n) /\ (forall n, isdirty s1 n = isdirty s n).
Proof.
  intros Hs Hp Hclean s1. destruct (bio_hs _ _ _ Hs) as [Hnd Hlt].
  rewrite Hp in Hnd, Hlt. apply NoDup_cons in Hnd as [Hbh Hnd]. apply Forall_cons in Hlt as [Hb Hlt].
  pose proof (buf_at_lookup s pid hs b Hs ltac:(lia)) as Hbf.
  destruct (bio_slots _ _ _ Hs b _ Hb Hbf) as [S1 S2 S3 S6 S4 S5].
  destruct S4 as (Href & Hlk & Hv); [rewrite Hp; set_solver|].
  assert (Hs1 : bio_ok s1 pid hs').
  { apply (bio_update s s1 pid hs hs' b (drop_buf (buf_at s b))); try done.
    - destruct (bio_cur _ _ _ Hs) as (pr & (p & Hcur & Hpr)%cur_proc_inv & Hpid & Hrun).
      exists pr. unfold cur_proc. simpl. rewrite Hcur. simpl. rewrite list_lookup_fmap, Hpr. simpl.
      unfold wakeup1_proc. by rewrite Hrun.
    - apply (bio_locks _ _ _ Hs).
    - intros i Hi. rewrite Hp. set_solver.
    - intros n. split; [apply (bio_disk _ _ _ Hs)|by left].
    - intros i Hib Hi Hdev. simpl in *. destruct (caches _ _) eqn:Hc; [|done]. exfalso. apply Hib.
      unfold caches in Hc. apply andb_true_iff in Hc as [H1%Z.eqb_eq H2%Z.eqb_eq].
      apply (bio_uniq _ _ _ Hs i b (buf_at s i) (buf_at s b)); try done.
      apply (buf_at_lookup s pid hs); [done|lia].
    - constructor; try done. intros _. simpl. rewrite Href. by split_and!. }
  split_and!; [done|..].
  - intros n. apply (view_update s s1 pid hs hs' b (buf_at s b) (drop_buf (buf_at s b))); try done.
    + intros [Hc Hv']%andb_true_iff. symmetry. by apply (view_cached s pid hs n b (buf_at s b)).
    + intros H1 H2. unfold caches, valid in *. simpl in *. congruence.
  - intros n. by apply (isdirty_update s s1 b (buf_at s b) (drop_buf (buf_at s b))).
Qed.

(** Moving [b] to the front. *)
Lemma move_front_ok s b order :
  length (k_bufs s) = S NBUF -> (b < NBUF)%nat -> Permutation order (seq 0 NBUF) ->
  linked (nx s) (pv s) order ->
  exists s' order',
    (set_buf (nx s b) (upd_b_prev (fun _ => pv s b)) ;;
     bf <- get_buf b;
     set_buf (b_prev bf) (upd_b_next (fun _ => b_next bf)) ;;
     push_front b ;; link_front b) s = Ok tt s' /\
    relinked s s' /\ linked (nx s') (pv s') (b :: order') /\ Permutation (b :: order') (seq 0 NBUF).
Proof.
  intros Hlen Hb Hperm Hlink.
  assert (Hbo : b ∈ order) by (by apply (elem_order order b Hperm)).
  apply list_elem_of_split in Hbo as (o1 & o2 & ->).
  assert (Hnd : NoDup (head :: o1 ++ b :: o2)).
  { apply NoDup_cons. split; [rewrite (elem_order _ head Hperm); unfold head; lia|].
    rewrite Hperm. apply NoDup_seq. }
  assert (Hmv : Permutation (b :: o1 ++ o2) (o1 ++ b :: o2)) by apply Permutation_middle.
  destruct (unlink_ok s b o1 o2) as (s1 & Hrun1 & Hr1 & Hl1);
    [done|done|intros i; apply (elem_order _ i Hperm)|done|].
  destruct (front_ok s1 b (o1 ++ o2)) as (s2 & Hrun2 & Hr2 & Hl2);
    [by rewrite (relinked_length _ _ Hr1)|by rewrite Hmv|done| |done|].
  { intros i Hi. apply (elem_order _ i Hperm). set_solver. }
  exists s2, (o1 ++ o2). rewrite Hrun1, Hrun2. split_and!; [done| |done|by rewrite Hmv].
  by eapply relinked_trans.
Qed.

(** [brelse] of a buffer whose contents agree with the disk or are marked dirty: the
    buffer becomes free and the most recently used, and nothing the file system sees
    changes. *)
Lemma brelse_ok s pid hs hs' b :
  bio_ok s pid hs -> Permutation hs (b :: hs') ->
  dirty (buf_at s b) = true \/ b_data (buf_at s b) = disk_block s (b_blockno (buf_at s b)) ->
  wp (brelse b) (fun _ s' => brelse_post s pid hs' b s' /\
    exists order, linked (nx s') (pv s') (b :: order)) s.
Proof.
  intros Hs Hp Hclean. destruct (bio_drop s pid hs hs' b Hs Hp Hclean) as (Hs1 & Hview & Hdirty).
  destruct (bio_cur _ _ _ Hs) as (pr & Hcur & Hpid & Hrun). pose proof (bio_locks _ _ _ Hs) as Hh.
  destruct (bio_hs _ _ _ Hs) as [_ Hlt]. rewrite Hp in Hlt. apply Forall_cons in Hlt as [Hb _].
  pose proof (buf_at_lookup s pid hs b Hs ltac:(lia)) as Hbf.
  destruct (slot_held _ _ _ _ _ (bio_slots _ _ _ Hs b _ Hb Hbf)) as (Href & Hlk & Hv); [rewrite Hp; set_solver|].
  set (s1 := upd_k_procs _ _) in Hs1, Hview, Hdirty.
  destruct (bio_order _ _ _ Hs1) as (order & Hperm & Hlink).
  set (s2 := upd_k_held (cons LK_bcache) s1).
  destruct (move_front_ok s2 b order (bio_len _ _ _ Hs1) Hb Hperm Hlink)
    as (s3 & order' & Hmv & Hr & Hl3 & Hp3).
  assert (Hb2 : k_bufs s2 !! b = Some (drop_buf (buf_at s b)))
    by (simpl; rewrite list_lookup_insert_eq; [done|by eapply lookup_lt_Some]).
  unfold wp, wpx, brelse.
  rewrite (kbind_ok _ _ _ _ _ (iderw_start _ _ _ _ _ Hh Hcur Hpid Hbf Hlk)). cbn [negb].
  rewrite (kbind_ok _ _ _ _ _ (releasesleep_ok (SL_buf b) s ltac:(rewrite Hh; set_solver) ltac:(rewrite Hh; set_solver))).
  erewrite (kbind_ok (acquire LK_bcache)); [|apply acquire_ok; simpl; rewrite Hh; set_solver].
  rewrite (kbind_ok _ _ _ tt s2).
  2:{ unfold set_buf, modify. f_equal. unfold s2, s1, upd_k_held, upd_k_procs, upd_k_bufs. simpl. f_equal.
      rewrite list_alter_alter_eq. by rewrite (alter_insert _ b _ _ Hbf). }
  rewrite (kbind_ok _ _ _ _ _ (get_buf_ok _ _ _ Hb2)). simpl b_refcnt. rewrite Href. cbn [kwhen Z.eqb].
  assert (Hnp : b_next (drop_buf (buf_at s b)) = nx s2 b /\ b_prev (drop_buf (buf_at s b)) = pv s2 b)
    by (unfold nx, pv, buf_at at 2 4; by rewrite Hb2).
  destruct Hnp as [-> ->]. rewrite (kbind_ok _ _ _ _ _ Hmv).
  rewrite (release_acquired LK_bcache []); [|rewrite (proj1 Hr); simpl; by rewrite Hh|set_solver].
  assert (Hr1 : relinked s1 (upd_k_held (fun _ => []) s3)).
  { split; [|apply (proj2 Hr)]. rewrite (proj1 Hr) at 1. unfold upd_k_held, upd_k_bufs. simpl. by rewrite Hh. }
  split; [|by exists order']. assert (Hs3 : bio_ok (upd_k_held (fun _ => []) s3) pid hs')
    by (by eapply relinked_ok).
  split_and!; [done|..].
  - intros n. by rewrite <- Hview, (view_relinked s1 _ pid hs').
  - intros n. by rewrite <- Hdirty, (isdirty_relinked s1).
  - intros i Hi. unfold buf_at at 1. destruct (k_bufs _ !! i) as [bi|] eqn:Hbi.
    + destruct (relinked_lookup _ _ _ _ Hr1 Hbi) as (bi' & Hbi' & Hu). simpl in Hbi'.
      rewrite list_lookup_insert_ne in Hbi' by done. unfold buf_at. rewrite Hbi'. exact Hu.
    + apply lookup_ge_None in Hbi. rewrite (relinked_length _ _ Hr1) in Hbi. simpl in Hbi.
      rewrite length_insert in Hbi. unfold buf_at. by rewrite lookup_ge_None_2.
  - rewrite (proj1 Hr1) at 1. unfold upd_k_bufs, upd_k_procs. done.
Qed.

(** ** Changing a locked buffer *)

(** [bf'] is [bf] with other contents or flags. *)
Definition modified (bf bf' : buf) : Prop :=
  b_dev bf' = b_dev bf /\ b_blockno bf' = b_blockno bf /\ b_lock bf' = b_lock bf /\
  b_refcnt bf' = b_refcnt bf /\ b_prev bf' = b_prev bf /\ b_next bf' = b_next bf /\
  b_flags bf' ∈ [B_VALID; Z.lor B_VALID B_DIRTY] /\ block_ok (b_data bf').

Section Modify.
Context (s : kstate) (pid : Z) (hs : list nat) (b : nat) (bf' : buf).
Context (Hs : bio_ok s pid hs) (Hin : b ∈ hs) (Hm : modified (buf_at s b) bf').

Lemma held_lt : (b < NBUF)%nat.
Proof. destruct (bio_hs _ _ _ Hs) as [_ H]. rewrite Forall_forall in H. auto. Qed.

Lemma held_slot :
  k_bufs s !! b = Some (buf_at s b) /\ b_refcnt (buf_at s b) = 1 /\
  b_lock (buf_at s b) = Sleeplock true pid /\ valid (buf_at s b) = true /\
  b_dev (buf_at s b) = 1 /\ 0 <= b_blockno (buf_at s b) < k_disksize s /\
  block_ok (b_data (buf_at s b)).
Proof.
  pose proof held_lt as Hb. pose proof (buf_at_lookup s pid hs b Hs ltac:(lia)) as Hbf.
  destruct (bio_slots _ _ _ Hs b _ Hb Hbf) as [S1 S2 S3 S6 S4 S5].
  destruct (S4 Hin) as (H1 & H2 & H3). split_and!; try done; [by apply S3|by apply S6..].
Qed.

Lemma modified_valid : valid bf' = true.
Proof. destruct Hm as (_ & _ & _ & _ & _ & _ & Hf & _). unfold valid. set_unfold in Hf.
  by destruct Hf as [->|[->|[]]]. Qed.

(** No other buffer caches the block. *)
Lemma held_unique i :
  i <> b -> (i < NBUF)%nat -> caches (b_blockno (buf_at s b)) (buf_at s i) = false.
Proof.
  intros Hib Hi. destruct (caches _ _) eqn:Hc; [|done]. exfalso. apply Hib.
  unfold caches in Hc. apply andb_true_iff in Hc as [H1%Z.eqb_eq H2%Z.eqb_eq].
  destruct held_slot as (Hbf & _ & _ & _ & Hd & _).
  apply (bio_uniq _ _ _ Hs i b (buf_at s i) (buf_at s b)); try done; [apply held_lt|].
  apply (buf_at_lookup s pid hs); [done|lia].
Qed.

(** A change to the locked buffer [b], and to the disk's copy of its block. *)
Lemma bio_modify s' :
  k_bufs s' = <[b := bf']> (k_bufs s) -> k_cur s' = k_cur s -> k_procs s' = k_procs s ->
  k_held s' = k_held s -> k_disksize s' = k_disksize s ->
  (forall n, n <> b_blockno bf' -> disk_block s' n = disk_block s n) ->
  block_ok (disk_block s' (b_blockno bf')) ->
  bio_ok s' pid hs /\
  (forall n, view s' n = if n =? b_blockno bf' then b_data bf' else view s n) /\
  (forall n, isdirty s' n = if n =? b_blockno bf' then dirty bf' else isdirty s n).
Proof.
  intros Hbufs Hcur Hpr Hheld Hds Hdisk Hdok.
  destruct held_slot as (Hbf & Href & Hlk & Hv & Hdev & Hrange & Hdata).
  destruct Hm as (M1 & M2 & M3 & M4 & M5 & M6 & M7 & M8).
  assert (Hc' : forall n, caches n bf' = (n =? b_blockno bf')).
  { intros n. unfold caches. rewrite M1, Hdev. simpl. apply Z.eqb_sym. }
  assert (Hc : forall n, caches n (buf_at s b) = (n =? b_blockno bf')).
  { intros n. unfold caches. rewrite <- M2, Hdev. simpl. apply Z.eqb_sym. }
  assert (Hs' : bio_ok s' pid hs).
  { apply (bio_update s s' pid hs hs b bf' Hs held_lt Hbufs); try done.
    - unfold cur_proc. rewrite Hcur, Hpr. apply (bio_cur _ _ _ Hs).
    - rewrite Hheld. apply (bio_locks _ _ _ Hs).
    - apply (bio_hs _ _ _ Hs).
    - intros n. destruct (decide (n = b_blockno bf')) as [->|Hne].
      + split; [done|right]. by rewrite M1.
      + rewrite Hdisk by done. split; [apply (bio_disk _ _ _ Hs)|by left].
    - intros i Hi1 Hi2 _. rewrite M2. by apply held_unique.
    - constructor; try done.
      + set_unfold in M7. simpl. destruct M7 as [->|[->|[]]]; tauto.
      + rewrite M1, Hdev. split; [done|]. intros _. apply modified_valid.
      + rewrite M2, Hds. done.
      + rewrite M3, M4. intros _. split_and!; [done..|apply modified_valid]. }
  split_and!; [done|..].
  - intros n. apply (view_update s s' pid hs hs b (buf_at s b) bf' Hs Hs' held_lt Hbf Hbufs);
      rewrite Hc', ?Hc, ?modified_valid, ?Hv, ?andb_true_r.
    + by intros ->.
    + congruence.
    + intros Hn _. rewrite Hn. split; [done|]. apply Hdisk. lia.
  - intros n. destruct (Z.eqb_spec n (b_blockno bf')) as [->|Hne].
    + destruct (dirty bf') eqn:Hd.
      * apply isdirty_iff. exists b, bf'. rewrite Hbufs, list_lookup_insert_eq by (by eapply lookup_lt_Some).
        split_and!; [apply held_lt|done|by rewrite Hc', Z.eqb_refl|done].
      * apply not_true_iff_false. rewrite isdirty_iff. intros (i & bi & Hi & Hbi & Hci & Hdi).
        rewrite Hbufs in Hbi. apply list_lookup_insert_Some in Hbi as [(-> & -> & _)|[Hib Hbi]]; [congruence|].
        pose proof (held_unique i (not_eq_sym Hib) Hi) as Hu.
        assert (Hat : buf_at s i = bi) by (unfold buf_at; by rewrite Hbi).
        rewrite <- M2, Hat in Hu. congruence.
    + apply (isdirty_update s s' b (buf_at s b) bf' Hbf Hbufs).
      rewrite Hc', Hc. by destruct (Z.eqb_spec n (b_blockno bf')).
Qed.
End Modify.

(** [bwrite] makes the disk's copy of the block what the buffer holds. *)
Lemma bwrite_ok s pid hs b :
  bio_ok s pid hs -> b ∈ hs ->
  let bf := buf_at s b in
  wp (bwrite b) (fun _ s' =>
    bio_ok s' pid hs /\ buf_at s' b = upd_b_flags (fun _ => B_VALID) bf /\
    (forall n, view s' n = view s n) /\
    (forall n, isdirty s' n = if n =? b_blockno bf then false else isdirty s n) /\
    s' = upd_k_bufs (insert b (upd_b_flags (fun _ => B_VALID) bf))
           (upd_k_writes (fun ws => ws ++ [(b_blockno bf, b_data bf)])
              (upd_k_disk (insert (b_blockno bf) (b_data bf)) s))) s.
Proof.
  intros Hs Hin bf. destruct (held_slot s pid hs b Hs Hin) as (Hbf & Href & Hlk & Hv & Hdev & Hrange & Hdata).
  destruct (bio_cur _ _ _ Hs) as (pr & Hcur & Hpid & Hrun). pose proof (bio_locks _ _ _ Hs) as Hh.
  destruct (slot_flags _ _ _ _ _ (bio_slots _ _ _ Hs b _ (held_lt s pid hs b Hs Hin) Hbf)) as [Hf|Hf];
    [unfold valid in Hv; by rewrite <- Hf in Hv|].
  set (s1 := upd_k_bufs (alter (upd_b_flags (fun f => Z.lor f B_DIRTY)) b) s).
  assert (Hb1 : k_bufs s1 !! b = Some (upd_b_flags (fun f => Z.lor f B_DIRTY) bf))
    by (simpl; by rewrite list_lookup_alter_eq, Hbf).
  unfold wp, wpx, bwrite.
  rewrite (kbind_ok _ _ _ _ _ (iderw_start _ _ _ _ _ Hh Hcur Hpid Hbf Hlk)). cbn [negb].
  rewrite (kbind_ok _ _ _ tt s1) by done.
  rewrite (iderw_write b _ pr pid s1 Hh Hcur Hpid Hb1 Hlk); [|simpl; unfold bf; by destruct Hf as [<-|[<-|[]]]|done|apply Hrange].
  simpl b_blockno. simpl b_data.
  set (s2 := upd_k_bufs _ _).
  assert (Hs2 : s2 = upd_k_bufs (insert b (upd_b_flags (fun _ => B_VALID) bf))
           (upd_k_writes (fun ws => ws ++ [(b_blockno bf, b_data bf)])
              (upd_k_disk (insert (b_blockno bf) (b_data bf)) s))).
  { unfold s2, s1, upd_k_bufs, upd_k_disk, upd_k_writes. simpl. f_equal. rewrite list_alter_alter_eq.
    by rewrite (alter_insert _ b _ _ Hbf). }
  destruct (bio_modify s pid hs b (upd_b_flags (fun _ => B_VALID) bf) Hs Hin) with (s' := s2)
    as (R1 & R2 & R3); try (by rewrite Hs2).
  - unfold modified. simpl. split_and!; try done. set_solver.
  - intros n Hn. rewrite Hs2. unfold disk_block. simpl in *. by rewrite lookup_insert_ne.
  - rewrite Hs2. unfold disk_block. simpl. by rewrite lookup_insert_eq.
  - split_and!; try done.
    + rewrite Hs2. unfold buf_at at 1. simpl. rewrite list_lookup_insert_eq; [done|by eapply lookup_lt_Some].
    + intros n. rewrite R2. simpl. destruct (Z.eqb_spec n (b_blockno bf)) as [->|]; [|done].
      symmetry. apply (view_cached s pid hs _ b bf Hs (held_lt s pid hs b Hs Hin) Hbf); [|done].
      unfold caches. fold bf in Hdev. by rewrite Hdev, !Z.eqb_refl.
Qed.

(** ** The state [binit] leaves *)

(** A running process with pid 1 and nothing cached yet. *)
Definition fresh (img : list (list Z)) : kstate :=
  match (ideinit img ;; binit)
    (upd_k_cur (fun _ => Some 0%nat)
       (upd_k_procs (insert 0%nat (upd_p_pid (fun _ => 1) (upd_p_state (fun _ => RUNNING) proc0)))
          (boot 0 0))) with
  | Ok _ s => s
  | _ => boot 0 0
  end.

Lemma zero_block_ok : block_ok zero_block.
Proof.
  unfold zero_block. split; [by rewrite length_replicate|].
  apply Forall_replicate. unfold field_ok. lia.
Qed.

Lemma image_block_ok img n :
  Forall block_ok img ->
  block_ok (default zero_block
    ((list_to_map (zip (seqZ 0 (Z.of_nat (length img))) img) : gmap Z (list Z)) !! n)).
Proof.
  intros Himg. destruct (_ !! n) as [d|] eqn:E; cbn [default].
  - apply elem_of_list_to_map_2, elem_of_zip_r in E. rewrite Forall_forall in Himg. auto.
  - apply zero_block_ok.
Qed.

Lemma fresh_bufs img : k_bufs (fresh img) =
  map (fun i => Buf 0 0 0 sleeplock0 0 (if decide (i = 29%nat) then 30%nat else S i)
    (if decide (i = 0%nat) then 30%nat else Nat.pred i) zero_block) (seq 0 30) ++
  [Buf 0 0 0 sleeplock0 0 0 29 zero_block].
Proof. vm_compute. reflexivity. Qed.

Lemma fresh_slot img i bf : (i < NBUF)%nat -> k_bufs (fresh img) !! i = Some bf ->
  b_flags bf = 0 /\ b_dev bf = 0 /\ b_refcnt bf = 0 /\ b_lock bf = sleeplock0 /\ b_data bf = zero_block.
Proof.
  intros Hi. rewrite fresh_bufs, lookup_app_l by (rewrite length_map, length_seq; exact Hi).
  rewrite list_lookup_fmap. intros (j & _ & ->)%fmap_Some. split_and!; reflexivity.
Qed.

(** [binit] run at boot establishes the invariant of the cache. *)
Lemma binit_ok img : Forall block_ok img -> bio_ok (fresh img) 1 [].
Proof.
  intros Himg.
  pose proof (fresh_bufs img) as Hb. pose proof (fresh_slot img) as Hlk.
  constructor.
  - exists (upd_p_pid (fun _ => 1) (upd_p_state (fun _ => RUNNING) proc0)).
    split; [vm_compute; reflexivity|split; reflexivity].
  - vm_compute. reflexivity.
  - rewrite Hb, length_app, length_map, length_seq. done.
  - exists (rev (seq 0 NBUF)). split; [by rewrite <- Permutation_rev|].
    split; vm_compute; reflexivity.
  - intros i j bi bj Hi Hj Hbi _ Hd _ _. destruct (Hlk i bi Hi Hbi) as (_ & H & _). lia.
  - split; [apply NoDup_nil_2|constructor].
  - intros i bf Hi Hbf. destruct (Hlk i bf Hi Hbf) as (H1 & H2 & H3 & H4 & H5).
    assert (Hv : valid bf = false) by (unfold valid; by rewrite H1).
    constructor.
    + left. by rewrite H1.
    + rewrite H5. apply zero_block_ok.
    + rewrite Hv, H2. by split.
    + by rewrite Hv.
    + intros Hin. apply not_elem_of_nil in Hin. destruct Hin.
    + intros _. rewrite H3, H4, Hv. by split_and!.
  - intros n. apply image_block_ok, Himg.
Qed.

(** The blocks then read as in the image. *)
Lemma fresh_disk img : k_disk (fresh img) = list_to_map (zip (seqZ 0 (Z.of_nat (length img))) img) /\
  k_disksize (fresh img) = Z.of_nat (length img).
Proof. split; vm_compute; reflexivity. Qed.

Lemma fresh_view img n d : img !! Z.to_nat n = Some d -> 0 <= n -> view (fresh img) n = d.
Proof.
  intros Hd Hn. rewrite view_uncached.
  - unfold disk_block. rewrite (proj1 (fresh_disk img)).
    erewrite elem_of_list_to_map_1; [reflexivity| |].
    + rewrite fst_zip by (rewrite length_seqZ; lia). apply NoDup_seqZ.
    + apply list_elem_of_lookup. exists (Z.to_nat n). apply lookup_zip_Some. split; [|done].
      apply lookup_lt_Some in Hd. rewrite lookup_seqZ_lt by lia. f_equal. lia.
  - intros i bf Hi Hbf _ Hv. unfold valid in Hv. by rewrite (proj1 (fresh_slot img i bf Hi Hbf)) in Hv.
Qed.

Lemma bread_cases `{Fuel} s pid hs bno :
  bio_ok s pid hs -> (forall i, i ∈ hs -> caches bno (buf_at s i) = false) ->
  0 <= bno < k_disksize s ->
  (exists b s', bread 1 bno s = Ok b s' /\ bread_post s pid hs bno b s') \/
  (bread 1 bno s = Panic "bget: no buffers" /\
   forall i, (i < NBUF)%nat -> caches bno (buf_at s i) = false /\ (i ∈ hs \/ dirty (buf_at s i) = true)).
Proof.
  intros Hs Hnot Hbno. pose proof (bread_ok s pid hs bno Hs Hnot Hbno) as H1. unfold wpx in H1.
  destruct (bread 1 bno s) as [b s'|msg| |]; [left; eauto|right|done..].
  by destruct H1 as [-> ?].
Qed.

(** ** Theorems *)

(** C5: the cache is coherent.  [bread] of any block the process has not locked
    returns a buffer locked by it that holds what the file system last saw of the block
    (the cached copy, or the disk's when there is none), leaves what it sees of every block
    and what is dirty as it was, and keeps one buffer per block and a well-linked LRU list.
    It fails only with the panic for a cache whose buffers are all locked or dirty. *)
Theorem bread_coherent `{Fuel} (s : kstate) (pid : Z) (hs : list nat) (bno : Z)
    (Hs : bio_ok s pid hs) (Hnot : forall i, i ∈ hs -> caches bno (buf_at s i) = false)
    (Hbno : 0 <= bno < k_disksize s) :
  (exists b s', bread 1 bno s = Ok b s' /\ bread_post s pid hs bno b s') \/
  (bread 1 bno s = Panic "bget: no buffers" /\
   forall i, (i < NBUF)%nat -> caches bno (buf_at s i) = false /\ (i ∈ hs \/ dirty (buf_at s i) = true)).
Proof.
  by apply bread_cases.
Qed.

Definition img2 : list (list Z) := [zero_block; replicate (Z.to_nat BSIZE) 7].

Lemma img2_ok : Forall block_ok img2.
Proof.
  constructor; [apply zero_block_ok|]. constructor; [|constructor].
  split; [by rewrite length_replicate|]. apply Forall_replicate. unfold field_ok. lia.
Qed.

#[local] Instance fuel0 : Fuel := 0%nat.

Lemma bread_coherent_witness :
  exists b s', bread 1 1 (fresh img2) = Ok b s' /\ bread_post (fresh img2) 1 [] 1 b s'.
Proof.
  destruct (bread_coherent (fresh img2) 1 [] 1 (binit_ok img2 img2_ok)) as [H|[H _]].
  - intros i Hi. apply not_elem_of_nil in Hi. destruct Hi.
  - split; [lia|vm_compute; reflexivity].
  - exact H.
  - exfalso. assert (E : exists b s', bread 1 1 (fresh img2) = Ok b s') by
      (eexists _, _; vm_compute; reflexivity).
    destruct E as (b & s' & E). rewrite E in H. discriminate H.
Defined.

(** [b = bread(dev, bno); memmove(b->data, d, BSIZE); bwrite(b); brelse(b)] *)
Definition update_block `{Fuel} (bno : Z) (d : list Z) : K unit :=
  b <- bread 1 bno;
  set_buf b (upd_b_data (fun _ => d)) ;;
  bwrite b ;;
  brelse b.

(** C6: writing through the cache is durable.  Reading a block, replacing its
    contents, [bwrite] and [brelse] succeed whenever some buffer is not dirty, put exactly
    the new contents in exactly that block of the disk, make them what the file system sees
    there, and leave the cache with no buffer locked. *)
Theorem update_block_durable `{Fuel} (s : kstate) (pid bno : Z) (d : list Z)
    (Hs : bio_ok s pid []) (Hbno : 0 <= bno < k_disksize s) (Hd : block_ok d)
    (Hfree : exists i, (i < NBUF)%nat /\ dirty (buf_at s i) = false) :
  exists s', update_block bno d s = Ok tt s' /\ bio_ok s' pid [] /\
    k_disk s' = <[bno := d]> (k_disk s) /\
    forall n, view s' n = if n =? bno then d else view s n.
Proof.
  unfold update_block.
  destruct (bread_cases s pid [] bno Hs) as [(b & s1 & Hr & Hb & _ & Hs1 & Hc & _ & Hv & _ & _ & _ & Hfr)|[_ Hno]];
    [set_solver|done| |].
  2:{ destruct Hfree as (i & Hi & Hdi). destruct (Hno i Hi) as [_ [|]]; [set_solver|congruence]. }
  rewrite (kbind_ok _ _ _ _ _ Hr).
  assert (Hin : b ∈ [b]) by set_solver.
  destruct (held_slot s1 pid [b] b Hs1 Hin) as (Hbf & Hbref & Hblk & Hval & Hdev & _ & _).
  assert (Hbn : b_blockno (buf_at s1 b) = bno) by (unfold caches in Hc; lia).
  set (bf2 := upd_b_data (fun _ => d) (buf_at s1 b)).
  set (s2 := upd_k_bufs (insert b bf2) s1).
  assert (Hm : modified (buf_at s1 b) bf2).
  { unfold modified, bf2. simpl. split_and!; try done.
    destruct (slot_flags _ _ _ _ _ (bio_slots _ _ _ Hs1 b _ Hb Hbf)) as [Hf|[<-|[<-|[]]]]; [|set_solver..].
    unfold valid in Hval. by rewrite <- Hf in Hval. }
  rewrite (kbind_ok _ _ _ tt s2)
    by (unfold set_buf, modify; f_equal; apply upd_bufs_ext; by apply alter_insert).
  destruct (bio_modify s1 pid [b] b bf2 Hs1 Hin Hm s2) as (Hs2 & Hv2 & _); try done.
  { apply (bio_disk _ _ _ Hs1). }
  destruct (wp_run _ _ _ (bwrite_ok s2 pid [b] b Hs2 Hin)) as ([] & s3 & Hw & Hs3 & Hb3 & Hv3 & _ & Hfr3).
  assert (Hat2 : buf_at s2 b = bf2).
  { unfold buf_at, s2. simpl. rewrite list_lookup_insert_eq; [done|by eapply lookup_lt_Some]. }
  rewrite Hat2 in Hb3, Hfr3. simpl in Hb3, Hfr3. rewrite Hbn in Hfr3.
  assert (Hdisk3 : k_disk s3 = <[bno := d]> (k_disk s)).
  { rewrite Hfr3. unfold s2. simpl. rewrite Hfr. done. }
  rewrite (kbind_ok _ _ _ _ _ Hw).
  destruct (wp_run _ _ _ (brelse_ok s3 pid [b] [] b Hs3 ltac:(done)
    ltac:(right; rewrite Hb3; unfold disk_block; simpl; rewrite Hbn, Hdisk3, lookup_insert_eq; done)))
    as ([] & s4 & Hrel & (Hs4 & Hv4 & _ & _ & Hfr4) & _).
  exists s4. split_and!; [done..| |].
  - rewrite Hfr4. simpl. exact Hdisk3.
  - intros n. rewrite Hv4, Hv3, Hv2. simpl. rewrite Hbn, Hv. done.
Qed.

Lemma update_block_durable_witness :
  exists s', update_block 1 zero_block (fresh img2) = Ok tt s' /\
    k_disk s' = <[1 := zero_block]> (k_disk (fresh img2)).
Proof.
  destruct (update_block_durable (fresh img2) 1 1 zero_block (binit_ok img2 img2_ok))
    as (s' & H1 & _ & H2 & _).
  - split; [lia|vm_compute; reflexivity].
  - apply zero_block_ok.
  - exists 0%nat. split; [unfold NBUF; lia|vm_compute; reflexivity].
  - exists s'. split; [exact H1|exact H2].
Defined.

#[global] Opaque fresh.
