(* ===== verification/Ide.v ===== *)
(** * The IDE disk driver (ide.c)

    The driver queues requests through [qnext] pointers, hands the first to the disk and
    completes it at the next interrupt. The sections under [idelock] are the steps:
    [iderw] up to its wait, and [ideintr]. The disk is its registers, whether it is
    busy, and the command it carries out: a write to the command register starts the one that its
    code and the other registers describe. *)

From S2P Require Import Prelude Kernel.

Module Ide.

Definition SECTOR_SIZE : Z := 512.
Definition IDE_BSY : Z := 0x80.
Definition IDE_DRDY : Z := 0x40.
Definition IDE_DF : Z := 0x20.
Definition IDE_ERR : Z := 0x01.
Definition IDE_CMD_READ : Z := 0x20.
Definition IDE_CMD_WRITE : Z := 0x30.
Definition IDE_CMD_RDMUL : Z := 0xc4.
Definition IDE_CMD_WRMUL : Z := 0xc5.

(** ** The disk *)

(** What the disk is doing: reading or writing [n] sectors from a disk and sector on. A write is
    [complete] when its data is there. *)
Inductive command :=
| Reading (a : Z * Z) (n : Z)
| Writing (a : Z * Z) (n : Z) (complete : bool).

(** The registers, whether the disk is busy, the last command, and the sectors of the two disks. *)
Record hw := Hw {
  r_ctl : Z; r_sect : Z; r_low : Z; r_mid : Z; r_high : Z; r_drive : Z;
  busy : bool;
  active : option command;
  blocks : gmap (Z * Z) (list Z);
}.

(** The disk and sector the registers name. *)
Definition target (h : hw) : Z * Z :=
  (Z.land (Z.shiftr (r_drive h) 4) 1,
   Z.lor (Z.lor (Z.lor (r_low h) (Z.shiftl (r_mid h) 8)) (Z.shiftl (r_high h) 16)) (Z.shiftl (Z.land (r_drive h) 0xf) 24)).

(** READ SECTORS, READ MULTIPLE, WRITE SECTORS, WRITE MULTIPLE; the disk takes no other command. *)
Definition accepts (v : Z) (a : Z * Z) (n : Z) : option command :=
  if (v =? 0x20) || (v =? 0xc4) then Some (Reading a n)
  else if (v =? 0x30) || (v =? 0xc5) then Some (Writing a n false)
  else None.

(** A busy disk takes nothing but the control register, and a command makes it busy. *)
Definition outb (port v : Z) (h : hw) : hw :=
  let '(Hw ctl sect low mid high drive bz act bl) := h in
  if port =? 0x3f6 then Hw v sect low mid high drive bz act bl
  else if bz then h
  else if port =? 0x1f2 then Hw ctl v low mid high drive bz act bl
  else if port =? 0x1f3 then Hw ctl sect v mid high drive bz act bl
  else if port =? 0x1f4 then Hw ctl sect low v high drive bz act bl
  else if port =? 0x1f5 then Hw ctl sect low mid v drive bz act bl
  else if port =? 0x1f6 then Hw ctl sect low mid high v bz act bl
  else if port =? 0x1f7 then Hw ctl sect low mid high drive true (accepts v (target h) sect) bl
  else h.

(** The disk once its status has been read as [r]. *)
Definition status_read (r : Z) (h : hw) : hw :=
  let '(Hw ctl sect low mid high drive bz act bl) := h in
  Hw ctl sect low mid high drive (negb (Z.land r 0x80 =? 0)) act bl.

Fixpoint store_sectors (n : nat) (a : Z * Z) (d : list Z) (m : gmap (Z * Z) (list Z)) : gmap (Z * Z) (list Z) :=
  match n with
  | O => m
  | S n => store_sectors n (a.1, a.2 + 1) (drop 512 d) (<[a := take 512 d]> m)
  end.

Definition stored (m : gmap (Z * Z) (list Z)) (a : Z * Z) : list Z := default (replicate (Z.to_nat BSIZE) 0) (m !! a).

Fixpoint load_sectors (n : nat) (a : Z * Z) (m : gmap (Z * Z) (list Z)) : list Z :=
  match n with
  | O => []
  | S n => stored m a ++ load_sectors n (a.1, a.2 + 1) m
  end.

(** [cnt] words to or from the data port. A write takes the data of all its sectors, and only
    then reaches the disk; a read gives the data of all its sectors, once the disk is not busy. *)
Definition outsl (d : list Z) (cnt : Z) (h : hw) : hw :=
  let '(Hw ctl sect low mid high drive bz act bl) := h in
  let d := take (Z.to_nat (4 * cnt)) d in
  match act with
  | Some (Writing a n false) =>
      if Z.of_nat (length d) =? 512 * n then
        Hw ctl sect low mid high drive true (Some (Writing a n true)) (store_sectors (Z.to_nat n) a d bl)
      else h
  | _ => h
  end.

Definition insl (cnt : Z) (h : hw) : list Z :=
  if busy h then [] else
  match active h with
  | Some (Reading a n) => if 4 * cnt =? 512 * n then load_sectors (Z.to_nat n) a (blocks h) else []
  | _ => []
  end.

(** The disk will interrupt: it has a command that can be carried out, and bit 1 of the control
    register does not turn interrupts off. *)
Definition will_interrupt (h : hw) : bool :=
  (Z.land (r_ctl h) 2 =? 0) && match active h with Some (Reading _ _) => true | Some (Writing _ _ c) => c | None => false end.

(** ** The driver *)

(** [idequeue], the [qnext] of the buffers (absent for 0), the buffers, [havedisk1] and the disk. *)
Record ide := State {
  idequeue : option nat;
  qnext : gmap nat nat;
  bufs : list buf;
  havedisk1 : bool;
  disk : hw;
}.

Inductive outcome (A : Type) :=
| Ok (a : A)
| Panic (msg : string)
| Stuck. (* the disk never gets ready, or a stray pointer *)
Arguments Ok {A} _.
Arguments Panic {A} _.
Arguments Stuck {A}.

Definition bind {A B} (m : outcome A) (k : A -> outcome B) : outcome B :=
  match m with Ok a => k a | Panic w => Panic w | Stuck => Stuck end.

(** [sts]: what the status port gives each time it is read. *)
Fixpoint idewait (checkerr : bool) (sts : list Z) (h : hw) : outcome (Z * hw) :=
  match sts with
  | [] => Stuck
  | r :: sts =>
      let h := status_read r h in
      if negb (Z.land r (Z.lor IDE_BSY IDE_DRDY) =? IDE_DRDY) then idewait checkerr sts h
      else if checkerr && negb (Z.land r (Z.lor IDE_DF IDE_ERR) =? 0) then Ok (-1, h) else Ok (0, h)
  end.

Definition ideinit (sts probes : list Z) (s : ide) : outcome ide :=
  bind (idewait false sts (disk s)) (fun w =>
    let d := outb 0x1f6 (Z.lor 0xe0 (Z.shiftl 1 4)) w.2 in
    let have := existsb (fun r => negb (r =? 0)) (take 1000 probes) in
    let d := outb 0x1f6 (Z.lor 0xe0 (Z.shiftl 0 4)) d in
    Ok (State (idequeue s) (qnext s) (bufs s) (havedisk1 s || have) d)).

Definition set_disk (g : hw -> hw) (s : ide) : ide := State (idequeue s) (qnext s) (bufs s) (havedisk1 s) (g (disk s)).
Definition set_bufs (g : list buf -> list buf) (s : ide) : ide := State (idequeue s) (qnext s) (g (bufs s)) (havedisk1 s) (disk s).
Definition set_queue (q : option nat) (s : ide) : ide := State q (qnext s) (bufs s) (havedisk1 s) (disk s).
Definition set_next (b : nat) (q : option nat) (s : ide) : ide :=
  State (idequeue s) (match q with Some k => <[b := k]> (qnext s) | None => delete b (qnext s) end) (bufs s) (havedisk1 s) (disk s).

Definition sector_per_block : Z := BSIZE / SECTOR_SIZE.

Definition dirty (bf : buf) : bool := negb (Z.land (b_flags bf) B_DIRTY =? 0).

(** The port writes of [idestart]. *)
Definition start_request (bf : buf) (h : hw) : hw :=
  let sector := s32 (b_blockno bf * sector_per_block) in
  let read_cmd := if sector_per_block =? 1 then IDE_CMD_READ else IDE_CMD_RDMUL in
  let write_cmd := if sector_per_block =? 1 then IDE_CMD_WRITE else IDE_CMD_WRMUL in
  let h := outb 0x3f6 0 h in
  let h := outb 0x1f2 sector_per_block h in
  let h := outb 0x1f3 (Z.land sector 0xff) h in
  let h := outb 0x1f4 (Z.land (Z.shiftr sector 8) 0xff) h in
  let h := outb 0x1f5 (Z.land (Z.shiftr sector 16) 0xff) h in
  let h := outb 0x1f6 (Z.lor (Z.lor 0xe0 (Z.shiftl (Z.land (b_dev bf) 1) 4)) (Z.land (Z.shiftr sector 24) 0x0f)) h in
  if dirty bf then outsl (b_data bf) (BSIZE / 4) (outb 0x1f7 write_cmd h) else outb 0x1f7 read_cmd h.

Definition idestart (b : option nat) (sts : list Z) (s : ide) : outcome ide :=
  match b with
  | None => Panic "idestart"
  | Some b =>
      match bufs s !! b with
      | None => Stuck
      | Some bf =>
          if FSSIZE <=? b_blockno bf then Panic "incorrect blockno" else
          if 7 <? sector_per_block then Panic "idestart" else
          bind (idewait false sts (disk s)) (fun w => Ok (set_disk (fun _ => start_request bf w.2) s))
      end
  end.

(** [b->flags |= B_VALID; b->flags &= ~B_DIRTY;] *)
Definition finish (bf : buf) : buf := upd_b_flags (fun f => Z.land (Z.lor f B_VALID) (Z.lnot B_DIRTY)) bf.

(** The interrupt: the buffer it wakes, if any. [sts1] and [sts2] are for the waits of the
    read and of the next request. *)
Definition ideintr (sts1 sts2 : list Z) (s : ide) : outcome (option nat * ide) :=
  match idequeue s with
  | None => Ok (None, s)
  | Some b =>
      match bufs s !! b with
      | None => Stuck
      | Some bf =>
          let s := set_queue (qnext s !! b) s in
          bind (if dirty bf then Ok (-1, disk s) else idewait true sts1 (disk s)) (fun w =>
            let s := set_disk (fun _ => w.2) s in
            let bf := if negb (dirty bf) && (0 <=? w.1) then upd_b_data (fun _ => insl (BSIZE / 4) (disk s)) bf else bf in
            let s := set_bufs (fun l => <[b := finish bf]> l) s in
            match idequeue s with
            | None => Ok (Some b, s)
            | Some _ => bind (idestart (idequeue s) sts2 s) (fun s => Ok (Some b, s))
            end)
      end
  end.

(** The place [pp] the loop of [iderw] ends at: [None] for [&idequeue], [Some k] for the
    [qnext] of buffer [k]. *)
Fixpoint last_link (n : nat) (s : ide) (pp : option nat) : outcome (option nat) :=
  match (match pp with None => idequeue s | Some k => qnext s !! k end) with
  | None => Ok pp
  | Some k => match n with O => Stuck | S n => last_link n s (Some k) end
  end.

(** [(b->flags & (B_VALID|B_DIRTY)) == B_VALID] *)
Definition ready (bf : buf) : bool := Z.land (b_flags bf) (Z.lor B_VALID B_DIRTY) =? B_VALID.

(** [iderw] up to the wait for the request to finish, which it does once [ready]. *)
Definition iderw_start (held : bool) (b : nat) (sts : list Z) (s : ide) : outcome ide :=
  match bufs s !! b with
  | None => Stuck
  | Some bf =>
      if negb held then Panic "iderw: buf not locked" else
      if ready bf then Panic "iderw: nothing to do" else
      if negb (b_dev bf =? 0) && negb (havedisk1 s) then Panic "iderw: ide disk 1 not present" else
      let s := set_next b None s in
      bind (last_link (length (bufs s)) s None) (fun pp =>
        let s := match pp with None => set_queue (Some b) s | Some k => set_next k (Some b) s end in
        match idequeue s with
        | Some q => if (q =? b)%nat then idestart (Some b) sts s else Ok s
        | None => Ok s
        end)
  end.
End Ide.

(** ** What the driver does, one request at a time *)

Import Ide.

(** The buffers, the contents of the disks, the requests not yet served, and those served, whose
    processes have been woken. *)
Record served := Served {
  a_bufs : list buf; a_blocks : gmap (Z * Z) (list Z); a_pending : list nat; a_woken : list nat }.

Definition place (bf : buf) : Z * Z := (b_dev bf, b_blockno bf).

(** A request carried out at once: what the memory disk does. *)
Definition serve (bf : buf) (m : gmap (Z * Z) (list Z)) : buf * gmap (Z * Z) (list Z) :=
  if dirty bf then (finish bf, <[place bf := b_data bf]> m)
  else (finish (upd_b_data (fun _ => stored m (place bf)) bf), m).

(** [Touch]: a process that has locked a buffer that is not in the queue changes it. *)
Inductive event :=
| Request (b : nat) (sts : list Z)
| Interrupt (sts1 sts2 : list Z)
| Touch (b : nat) (bf : buf).

Definition drive (e : event) (w : list nat) (s : ide) : outcome (list nat * ide) :=
  match e with
  | Request b sts => bind (iderw_start true b sts s) (fun s => Ok (w, s))
  | Interrupt sts1 sts2 => bind (ideintr sts1 sts2 s) (fun r => Ok (w ++ option_list r.1, r.2))
  | Touch b bf => Ok (w, set_bufs (fun l => <[b := bf]> l) s)
  end.

Definition serves (e : event) (a : served) : served :=
  match e with
  | Request b _ => Served (a_bufs a) (a_blocks a) (a_pending a ++ [b]) (a_woken a)
  | Interrupt _ _ =>
      match a_pending a with
      | [] => a
      | b :: l =>
          match a_bufs a !! b with
          | Some bf => Served (<[b := (serve bf (a_blocks a)).1]> (a_bufs a)) (serve bf (a_blocks a)).2 l (a_woken a ++ [b])
          | None => a
          end
      end
  | Touch b bf => Served (<[b := bf]> (a_bufs a)) (a_blocks a) (a_pending a) (a_woken a)
  end.

(** A request the caller may make: for a block of the file system on a disk that is there. *)
Definition fit (have : bool) (bf : buf) : Prop :=
  0 <= b_blockno bf < FSSIZE /\ (b_dev bf = 0 \/ (b_dev bf = 1 /\ have = true)) /\ ready bf = false /\
  length (b_data bf) = Z.to_nat BSIZE.

(** The disk gets ready, and without an error. *)
Definition gets_ready (sts : list Z) : Prop := Exists (fun r => Z.land r (Z.lor IDE_BSY IDE_DRDY) = IDE_DRDY) sts.
Definition no_error (sts : list Z) : Prop := Forall (fun r => Z.land r (Z.lor IDE_DF IDE_ERR) = 0) sts.

Definition allowed (have : bool) (e : event) (a : served) : Prop :=
  match e with
  | Request b sts => (b ∉ a_pending a) /\ gets_ready sts /\ exists bf, a_bufs a !! b = Some bf /\ fit have bf
  | Interrupt sts1 sts2 => gets_ready sts1 /\ no_error sts1 /\ gets_ready sts2
  | Touch b _ => (b ∉ a_pending a) /\ (b < length (a_bufs a))%nat
  end.

(** What a wait ends with: the disk as it was, and not busy. *)
Definition settled (h : hw) : hw :=
  Hw (r_ctl h) (r_sect h) (r_low h) (r_mid h) (r_high h) (r_drive h) false (active h) (blocks h).

Lemma status_ready r h : Z.land r (Z.lor IDE_BSY IDE_DRDY) = IDE_DRDY -> status_read r h = settled h.
Proof.
  intros Hr. destruct h. unfold status_read, settled. cbn. do 2 f_equal. apply negb_false_iff, Z.eqb_eq.
  transitivity (Z.land (Z.land r (Z.lor IDE_BSY IDE_DRDY)) 0x80); [by rewrite <- Z.land_assoc|by rewrite Hr].
Qed.

Lemma settled_read r h : settled (status_read r h) = settled h.
Proof. by destruct h. Qed.

Lemma idewait_ready sts h : gets_ready sts -> idewait false sts h = Ok (0, settled h).
Proof.
  intros H. revert h. induction H as [r sts Hr|r sts _ IH]; intros h; cbn [idewait].
  - by rewrite Hr, Z.eqb_refl, status_ready.
  - destruct (negb _) eqn:E; [by rewrite IH, settled_read|].
    apply negb_false_iff, Z.eqb_eq in E. by rewrite status_ready.
Qed.

Lemma idewait_clean sts h : gets_ready sts -> no_error sts -> idewait true sts h = Ok (0, settled h).
Proof.
  intros H. revert h. induction H as [r sts Hr|r sts _ IH]; intros h He; apply Forall_cons_1 in He as [H0 He]; cbn [idewait].
  - by rewrite Hr, Z.eqb_refl, H0, status_ready.
  - rewrite H0. destruct (negb _) eqn:E; [by rewrite IH, settled_read|].
    apply negb_false_iff, Z.eqb_eq in E. by rewrite status_ready.
Qed.

(** ** The registers *)

Definition drive_bits (dev sector : Z) : Z :=
  Z.lor (Z.lor 0xe0 (Z.shiftl (Z.land dev 1) 4)) (Z.land (Z.shiftr sector 24) 0x0f).
Definition sector_bits (dev sector : Z) : Z :=
  Z.lor (Z.lor (Z.lor (Z.land sector 0xff) (Z.shiftl (Z.land (Z.shiftr sector 8) 0xff) 8))
    (Z.shiftl (Z.land (Z.shiftr sector 16) 0xff) 16)) (Z.shiftl (Z.land (drive_bits dev sector) 0xf) 24).

Lemma bits_checked : forallb (fun dev => forallb (fun n =>
  (Z.land (Z.shiftr (drive_bits dev (s32 (n * sector_per_block))) 4) 1 =? dev) &&
  (sector_bits dev (s32 (n * sector_per_block)) =? n)) (seqZ 0 FSSIZE)) [0; 1] = true.
Proof. vm_compute. reflexivity. Qed.

(** The disk is doing what the request for [bf] is. *)
Definition doing (bf : buf) (h : hw) : Prop :=
  active h = Some (if dirty bf then Writing (place bf) 1 true else Reading (place bf) 1) /\ will_interrupt h = true.

(** The data of a write of one sector. *)
Lemma outsl_sector d ctl sect low mid high drive bz a bl : Z.of_nat (length d) = 512 ->
  outsl d 128 (Hw ctl sect low mid high drive bz (Some (Writing a 1 false)) bl) =
  Hw ctl sect low mid high drive true (Some (Writing a 1 true)) (<[a := d]> bl).
Proof.
  intros Hd. unfold outsl. rewrite take_ge by (change (Z.to_nat (4 * 128)) with 512%nat; lia). rewrite Hd.
  change (store_sectors (Z.to_nat 1) a d bl) with (<[a := take 512 d]> bl). by rewrite take_ge by lia.
Qed.

Lemma start_request_spec have bf h : fit have bf -> busy h = false ->
  doing bf (start_request bf h) /\
  blocks (start_request bf h) = if dirty bf then <[place bf := b_data bf]> (blocks h) else blocks h.
Proof.
  intros (Hb & Hdev & _ & Hlen) Hbusy. pose proof bits_checked as H. rewrite forallb_forall in H.
  specialize (H (b_dev bf)). rewrite forallb_forall in H.
  assert (Ht : (Z.land (Z.shiftr (drive_bits (b_dev bf) (s32 (b_blockno bf * sector_per_block))) 4) 1,
                sector_bits (b_dev bf) (s32 (b_blockno bf * sector_per_block))) = place bf).
  { assert (Hc : (Z.land (Z.shiftr (drive_bits (b_dev bf) (s32 (b_blockno bf * sector_per_block))) 4) 1 =? b_dev bf) &&
      (sector_bits (b_dev bf) (s32 (b_blockno bf * sector_per_block)) =? b_blockno bf) = true).
    { apply H; [destruct Hdev as [->|[-> _]]; simpl; auto|]. apply list_elem_of_In, elem_of_seqZ. lia. }
    apply andb_true_iff in Hc as [H1%Z.eqb_eq H2%Z.eqb_eq]. by rewrite H1, H2. }
  unfold doing, start_request. rewrite <- Ht. destruct h as [? ? ? ? ? ? bz ? bl]. cbn in Hbusy. subst bz. destruct (dirty bf).
  - change (BSIZE / 4) with 128. change (if sector_per_block =? 1 then IDE_CMD_WRITE else IDE_CMD_WRMUL) with 0x30.
    cbn -[Z.land Z.lor Z.shiftl Z.shiftr outsl sector_per_block]. change sector_per_block with 1.
    rewrite !(outsl_sector (b_data bf)) by (by rewrite Hlen). done.
  - done.
Qed.

(** ** The queue *)

Fixpoint linked (next : gmap nat nat) (q : option nat) (l : list nat) : Prop :=
  match l with [] => q = None | b :: l => q = Some b /\ linked next (next !! b) l end.

Lemma linked_same next next' q l : (forall b, b ∈ l -> next' !! b = next !! b) -> linked next q l -> linked next' q l.
Proof.
  revert q. induction l as [|b l IH]; intros q H Hl; [done|]. destruct Hl as [-> Hl]. split; [done|].
  rewrite H by set_solver. apply IH; [set_solver|done].
Qed.

Lemma last_link_ok s l : forall n pp,
  linked (qnext s) (match pp with None => idequeue s | Some k => qnext s !! k end) l -> (length l <= n)%nat ->
  last_link n s pp = Ok (match last l with None => pp | Some k => Some k end).
Proof.
  induction l as [|b l IH]; intros n pp Hl Hn.
  - cbn in Hl. destruct n; cbn [last_link]; by rewrite Hl.
  - destruct Hl as [Hq Hl]. destruct n as [|n]; [simpl in Hn; lia|]. cbn [last_link]. rewrite Hq.
    rewrite (IH n (Some b)) by (try done; simpl in Hn; lia). destruct l as [|c l]; [done|].
    change (last (b :: c :: l)) with (last (c :: l)). destruct (last (c :: l)) eqn:E; [done|by apply last_None in E].
Qed.

Lemma linked_snoc next q l b : linked next q l -> NoDup l -> b ∉ l -> next !! b = None ->
  match last l with
  | None => linked next (Some b) [b]
  | Some k => linked (<[k := b]> next) q (l ++ [b])
  end.
Proof.
  revert q. induction l as [|c l IH]; intros q Hl Hnd Hb Hn; [by cbn|].
  destruct Hl as [-> Hl]. apply NoDup_cons in Hnd as [Hc Hnd]. specialize (IH _ Hl Hnd ltac:(set_solver) Hn).
  destruct l as [|d l].
  - cbn. split; [done|]. rewrite lookup_insert_eq. split; [done|]. rewrite lookup_insert_ne by set_solver. done.
  - change (last (c :: d :: l)) with (last (d :: l)). destruct (last (d :: l)) as [k|] eqn:Ek.
    2:{ by apply last_None in Ek. }
    cbn [app linked]. split; [done|]. assert (Hk : k ∈ d :: l) by (by apply last_Some_elem_of).
    rewrite lookup_insert_ne by (intros ->; contradiction). exact IH.
Qed.

(** ** The simulation *)

(** The driver in [s] is as if the requests before the pending ones had been served at
    once, except that the data of a write at the head of the queue is already on the disk. *)
Record related (s : ide) (a : served) : Prop := {
  rel_bufs : bufs s = a_bufs a;
  rel_queue : linked (qnext s) (idequeue s) (a_pending a);
  rel_nodup : NoDup (a_pending a);
  rel_fit : forall b, b ∈ a_pending a -> exists bf, a_bufs a !! b = Some bf /\ fit (havedisk1 s) bf;
  rel_disk : match a_pending a with
             | [] => blocks (disk s) = a_blocks a
             | b :: _ => forall bf, a_bufs a !! b = Some bf ->
                 doing bf (disk s) /\
                 blocks (disk s) = if dirty bf then <[place bf := b_data bf]> (a_blocks a) else a_blocks a
             end }.

Lemma pending_short s a : related s a -> (length (a_pending a) <= length (bufs s))%nat.
Proof.
  intros H. rewrite (rel_bufs _ _ H), <- (length_seq (length (a_bufs a)) 0).
  apply NoDup_incl_length; [apply NoDup_ListNoDup, (rel_nodup _ _ H)|].
  intros b Hb%list_elem_of_In. destruct (rel_fit _ _ H b Hb) as (bf & Hbf & _). apply in_seq.
  apply lookup_lt_Some in Hbf. lia.
Qed.

Lemma start_ok s b bf sts : bufs s !! b = Some bf -> fit (havedisk1 s) bf -> gets_ready sts ->
  idestart (Some b) sts s = Ok (set_disk (fun _ => start_request bf (settled (disk s))) s).
Proof.
  intros Hb (Hr & _ & _ & _) Hs. unfold idestart. rewrite Hb, (proj2 (Z.leb_gt _ _)) by lia.
  change (7 <? sector_per_block) with false. by rewrite idewait_ready.
Qed.

Lemma request_related s a b sts : related s a -> allowed (havedisk1 s) (Request b sts) a ->
  exists s', drive (Request b sts) (a_woken a) s = Ok (a_woken (serves (Request b sts) a), s') /\ related s' (serves (Request b sts) a) /\ havedisk1 s' = havedisk1 s.
Proof.
  intros H (Hb & Hsts & bf & Hbf & Hfit). pose proof Hfit as (Hr & Hdev & Hready & _).
  pose proof (rel_queue _ _ H) as Hq. pose proof (rel_nodup _ _ H) as Hnd. pose proof (pending_short _ _ H) as Hlen.
  cbn [drive]. unfold iderw_start. rewrite (rel_bufs _ _ H), Hbf, Hready. cbn [negb].
  assert (Hd1 : negb (b_dev bf =? 0) && negb (havedisk1 s) = false) by (destruct Hdev as [->|[-> ->]]; reflexivity).
  rewrite Hd1. set (s0 := set_next b None s).
  assert (Hq0 : linked (qnext s0) (idequeue s0) (a_pending a)).
  { apply (linked_same (qnext s)); [|done]. intros c Hc. cbn. rewrite lookup_delete_ne; [done|]. by intros ->. }
  rewrite (last_link_ok s0 (a_pending a)) by done. cbn [bind].
  pose proof (linked_snoc (qnext s0) (idequeue s0) (a_pending a) b Hq0 Hnd Hb ltac:(cbn; apply lookup_delete_eq)) as Hsn.
  assert (Hnd' : NoDup (a_pending a ++ [b])).
  { apply NoDup_app. split; [done|]. split; [|apply NoDup_singleton]. intros c Hc ->%list_elem_of_singleton. done. }
  assert (Hfits : forall c, c ∈ a_pending a ++ [b] -> exists bf, a_bufs a !! c = Some bf /\ fit (havedisk1 s) bf).
  { intros c Hc. apply elem_of_app in Hc as [Hc|Hc]; [by apply (rel_fit _ _ H)|].
    apply list_elem_of_singleton in Hc as ->. eauto. }
  destruct (last (a_pending a)) as [k|] eqn:El.
  - destruct (a_pending a) as [|hd l] eqn:Ep; [done|]. cbn [app linked] in Hsn. destruct Hsn as [Hhd Hsn].
    cbn [idequeue set_next]. change (idequeue s0) with (idequeue s) in *. rewrite Hhd.
    destruct (Nat.eqb_spec hd b) as [->|Hne]; [set_solver|].
    eexists. split; [reflexivity|]. split; [|done]. constructor; cbn [a_pending a_bufs a_blocks serves bufs disk set_next idequeue qnext havedisk1].
    + apply H.
    + rewrite Ep. cbn. done.
    + by rewrite Ep.
    + by rewrite Ep.
    + rewrite Ep. cbn. pose proof (rel_disk _ _ H) as Hd. by rewrite Ep in Hd.
  - apply last_None in El. rewrite El in *. cbn [idequeue set_queue]. rewrite Nat.eqb_refl.
    rewrite (start_ok _ b bf sts); [|cbn; by rewrite (rel_bufs _ _ H)|done|done].
    eexists. split; [reflexivity|]. split; [|done]. pose proof (rel_disk _ _ H) as Hd. rewrite El in Hd.
    constructor; cbn [a_pending a_bufs a_blocks serves bufs disk set_queue set_disk set_next idequeue qnext havedisk1]; rewrite ?El.
    + apply H.
    + exact Hsn.
    + done.
    + done.
    + cbn. intros bf' Hbf'. rewrite Hbf in Hbf'. injection Hbf' as <-.
      destruct (start_request_spec (havedisk1 s) bf (settled (disk s)) Hfit eq_refl) as [H1 H2].
      split; [exact H1|]. rewrite <- Hd. exact H2.
Qed.

Lemma interrupt_related s a sts1 sts2 : related s a -> allowed (havedisk1 s) (Interrupt sts1 sts2) a ->
  exists s', drive (Interrupt sts1 sts2) (a_woken a) s = Ok (a_woken (serves (Interrupt sts1 sts2) a), s') /\ related s' (serves (Interrupt sts1 sts2) a) /\ havedisk1 s' = havedisk1 s.
Proof.
  intros H (Hs1 & He1 & Hs2). pose proof (rel_queue _ _ H) as Hq. cbn [drive serves]. unfold ideintr.
  destruct (a_pending a) as [|b l] eqn:Ep.
  { cbn in Hq. rewrite Hq. cbn. rewrite app_nil_r. eauto. }
  destruct Hq as [Hq Hl]. rewrite Hq. pose proof (rel_nodup _ _ H) as Hnd. rewrite Ep in Hnd. apply NoDup_cons in Hnd as [Hbl Hnd].
  destruct (rel_fit _ _ H b ltac:(rewrite Ep; set_solver)) as (bf & Hbf & Hfit). rewrite (rel_bufs _ _ H), Hbf. cbn [a_woken].
  pose proof (rel_disk _ _ H) as Hd. rewrite Ep in Hd. destruct (Hd bf Hbf) as [[Hact _] Hblk].
  set (bf' := (serve bf (a_blocks a)).1). set (m := (serve bf (a_blocks a)).2).
  assert (Hrun : bind (if dirty bf then Ok (-1, disk s) else idewait true sts1 (disk s)) (fun w =>
      Ok (w.2, finish (if negb (dirty bf) && (0 <=? w.1) then upd_b_data (fun _ => insl (BSIZE / 4) w.2) bf else bf))) =
      Ok (if dirty bf then disk s else settled (disk s), bf') /\ blocks (disk s) = m).
  { unfold bf', m, serve. destruct (dirty bf); cbn; [done|]. rewrite idewait_clean by done. cbn. split; [|done].
    unfold insl. cbn. rewrite Hact, Hblk.
    change (4 * (BSIZE / 4) =? 512 * 1) with true. change (Z.to_nat 1) with 1%nat. cbn. by rewrite app_nil_r. }
  destruct Hrun as [Hrun Hm]. change (disk (set_queue _ s)) with (disk s).
  destruct (if dirty bf then Ok (-1, disk s) else idewait true sts1 (disk s)) as [[r h]| |]; [|done..].
  cbn [bind fst snd] in Hrun |- *. injection Hrun as Hh Hbf'. change (disk (set_disk (fun _ => h) _)) with h. rewrite Hbf'.
  assert (Hblocks : blocks h = m) by (by rewrite Hh; destruct (dirty bf)).
  set (s1 := set_bufs (fun l => <[b := bf']> l) (set_disk (fun _ => h) (set_queue (qnext s !! b) s))).
  change (idequeue s1) with (qnext s !! b).
  assert (Hlook : forall c, c ∈ l -> <[b := bf']> (a_bufs a) !! c = a_bufs a !! c).
  { intros c Hc. apply list_lookup_insert_ne. intros ->. contradiction. }
  assert (Hfits : forall c, c ∈ l -> exists bf, <[b := bf']> (a_bufs a) !! c = Some bf /\ fit (havedisk1 s) bf).
  { intros c Hc. rewrite Hlook by done. apply (rel_fit _ _ H). rewrite Ep. set_solver. }
  assert (Hbufs : bufs s1 = <[b := bf']> (a_bufs a)) by (cbn; by rewrite (rel_bufs _ _ H)).
  destruct l as [|c l].
  - cbn in Hl. rewrite Hl. eexists. split; [reflexivity|]. split; [|done].
    by constructor; cbn [a_pending a_bufs a_blocks].
  - destruct Hl as [Hc Hl]. rewrite Hc. destruct (Hfits c ltac:(set_solver)) as (cf & Hcf & Hcfit).
    rewrite (start_ok s1 c cf sts2); [|by rewrite Hbufs|done|done]. eexists. split; [reflexivity|]. split; [|done].
    constructor; cbn [a_pending a_bufs a_blocks]; [done|by cbn|done|done|].
    intros cf' Hcf'. rewrite Hcf in Hcf'. injection Hcf' as <-. 
    
    destruct (start_request_spec (havedisk1 s) cf (settled h) Hcfit eq_refl) as [H1 H2]. split; [exact H1|]. rewrite <- Hblocks. exact H2.
Qed.

Lemma touch_related s a b bf : related s a -> allowed (havedisk1 s) (Touch b bf) a ->
  exists s', drive (Touch b bf) (a_woken a) s = Ok (a_woken (serves (Touch b bf) a), s') /\ related s' (serves (Touch b bf) a) /\ havedisk1 s' = havedisk1 s.
Proof.
  intros H [Hb Hlt]. eexists. split; [reflexivity|]. split; [|done].
  assert (Hlook : forall c, c ∈ a_pending a -> <[b := bf]> (a_bufs a) !! c = a_bufs a !! c).
  { intros c Hc. apply list_lookup_insert_ne. intros ->. contradiction. }
  constructor; cbn [a_pending a_bufs a_blocks serves bufs disk set_bufs idequeue qnext havedisk1].
  - by rewrite (rel_bufs _ _ H).
  - apply H.
  - apply H.
  - intros c Hc. rewrite Hlook by done. by apply (rel_fit _ _ H).
  - pose proof (rel_disk _ _ H) as Hd. destruct (a_pending a) as [|c l]; [done|]. rewrite Hlook by set_solver. done.
Qed.

(** All the events, each allowed when it happens. *)
Fixpoint drive_all (es : list event) (w : list nat) (s : ide) : outcome (list nat * ide) :=
  match es with [] => Ok (w, s) | e :: es => bind (drive e w s) (fun r => drive_all es r.1 r.2) end.

Fixpoint all_allowed (have : bool) (es : list event) (a : served) : Prop :=
  match es with [] => True | e :: es => allowed have e a /\ all_allowed have es (serves e a) end.

Lemma drive_all_ok es : forall s a, related s a -> all_allowed (havedisk1 s) es a ->
  exists s', drive_all es (a_woken a) s = Ok (a_woken (foldl (fun a e => serves e a) a es), s') /\
    related s' (foldl (fun a e => serves e a) a es) /\ havedisk1 s' = havedisk1 s.
Proof.
  induction es as [|e es IH]; intros s a H Ha; [by exists s|]. destruct Ha as [He Ha].
  assert (Hstep : exists s', drive e (a_woken a) s = Ok (a_woken (serves e a), s') /\ related s' (serves e a) /\ havedisk1 s' = havedisk1 s).
  { destruct e; [by apply request_related|by apply interrupt_related|by apply touch_related]. }
  destruct Hstep as (s1 & Hr & Hs1 & Hh). rewrite <- Hh in Ha. destruct (IH s1 _ Hs1 Ha) as (s2 & Hr2 & Hs2 & Hh2).
  exists s2. cbn [drive_all foldl]. rewrite Hr. cbn [bind fst snd]. split; [done|]. split; [done|congruence].
Qed.

(** C7: however requests, interrupts and the work of processes on buffers that are not queued
    interleave, as long as requests are for blocks of the file system and their buffers not queued
    already ([fit]) and the disk gets ready without an error, the driver never panics and never waits for ever, and it is as if each interrupt
    served the oldest request at once, as the memory disk does: a write puts the buffer on its
    block, a read fills the buffer from its block, the buffer becomes valid and clean, and the
    process waiting for it is the one woken. Only the data of the write at the head of the queue
    reaches the disk earlier. While a request waits the disk is carrying out the oldest one, with
    the command for it and one sector, and will interrupt ([related]). *)
Theorem ide_serves_in_order (s : ide) (l : list event) (a := Served (bufs s) (blocks (disk s)) [] [])
    (Hempty : idequeue s = None)
    (Hall : all_allowed (havedisk1 s) l a) :
  exists s', drive_all l [] s = Ok (a_woken (foldl (fun a e => serves e a) a l), s') /\
    related s' (foldl (fun a e => serves e a) a l).
Proof.
  destruct (drive_all_ok l s a) as (s' & H1 & H2 & _); [|done|eauto].
  constructor; cbn; [done|done|constructor|intros b Hb; by apply not_elem_of_nil in Hb|done].
Qed.

(** ** A run *)

(** Two buffers: one to be written to block 5 and one to be read from it. *)
Definition write5 : buf := Buf B_DIRTY 1 5 (Sleeplock true 1) 1 0 0 (replicate 512 7).
Definition read5 : buf := Buf 0 1 5 (Sleeplock true 1) 1 0 0 (replicate 512 0).
Definition idle : ide := State None ∅ [write5; read5] true (Hw 2 0 0 0 0 0 true None ∅).
Definition two_requests : list event :=
  [Request 0 [0x80; 0x40]; Request 1 [0x40]; Interrupt [0x40] [0xC0; 0x40]; Interrupt [0x40] [0x40]].

Lemma fit_5 fl d : (Z.land fl 6 =? 2) = false -> length d = 512%nat ->
  fit true (Buf fl 1 5 (Sleeplock true 1) 1 0 0 d).
Proof. intros H Hd. split; [unfold FSSIZE; cbn; lia|]. split; [by right|]. by split. Qed.

Lemma ready_now r sts : Z.land r 0xC0 = 0x40 -> gets_ready (r :: sts).
Proof. intros H. by left. Qed.

Lemma two_requests_allowed : all_allowed true two_requests (Served (bufs idle) (blocks (disk idle)) [] []).
Proof.
  assert (H1 : gets_ready [0x40]) by (by apply ready_now).
  assert (H2 : no_error [0x40]) by (repeat constructor).
  cbn [all_allowed two_requests]. split; [|split; [|split; [|split; [|done]]]].
  - split; [apply not_elem_of_nil|]. split; [right; by apply ready_now|]. exists write5. split; [done|]. by apply fit_5.
  - split; [cbn; set_solver|]. split; [done|]. exists read5. split; [done|]. by apply fit_5.
  - split; [done|]. split; [done|]. right. by apply ready_now.
  - by split_and!.
Qed.

Lemma two_requests_served :
  a_bufs (foldl (fun a e => serves e a) (Served (bufs idle) (blocks (disk idle)) [] []) two_requests) !! 1%nat =
  Some (upd_b_data (fun _ => replicate 512 7) (finish read5)).
Proof. vm_compute. reflexivity. Qed.

(** The read sees what the write before it put on the disk. *)
Lemma ide_serves_in_order_witness : exists s', drive_all two_requests [] idle = Ok ([0; 1]%nat, s') /\
  bufs s' !! 1%nat = Some (upd_b_data (fun _ => replicate 512 7) (finish read5)).
Proof.
  destruct (ide_serves_in_order idle two_requests eq_refl two_requests_allowed) as (s' & H1 & H2).
  exists s'. split; [exact H1|]. rewrite (rel_bufs _ _ H2). exact two_requests_served.
Defined.

(** A read the disk reports as failed leaves the buffer marked valid, with its old data. *)
Lemma failed_read_is_valid (s : ide) (b : nat) (bf : buf) (sts : list Z)
    (Hq : idequeue s = Some b) (Hlast : qnext s !! b = None) (Hb : bufs s !! b = Some bf) (Hd : dirty bf = false) :
  exists s', ideintr (0x41 :: sts) [] s = Ok (Some b, s') /\ bufs s' !! b = Some (finish bf).
Proof.
  unfold ideintr. rewrite Hq, Hb, Hd. cbn. rewrite Hlast. eexists. split; [reflexivity|].
  cbn. apply list_lookup_insert_eq. by apply lookup_lt_Some in Hb.
Qed.
