(* ===== verification/Layout.v ===== *)
(** * Integers and structures inside a block (fs.h)

    Loads and stores of little-endian integers at a byte offset of a block's data, and
    the on-disk structures of fs.h read and written through them, the way the code casts
    [b->data] to them. *)

From S2P Require Import Prelude Kernel Bio.

(** The [n]-byte unsigned integer at [off], and storing it. *)
Definition rd (n : nat) (d : list Z) (off : nat) : Z := le_val (slice off n d).
Definition wr (n : nat) (d : list Z) (off : nat) (v : Z) : list Z := splice off (le_bytes n v) d.

Section RdWr.
Context (n : nat) (d : list Z) (off : nat).
Context (Hoff : (off + n <= length d)%nat).

Lemma length_wr v : length (wr n d off v) = length d.
Proof. unfold wr. apply length_splice. by rewrite length_unpack. Qed.

Lemma rd_wr v : rd n (wr n d off v) off = v mod 2 ^ (8 * Z.of_nat n).
Proof.
  unfold rd, wr. pose proof (slice_splice off (le_bytes n v) d) as H.
  rewrite length_unpack in H. rewrite H by done. by rewrite pack_unpack by lia.
Qed.

Lemma rd_wr_other v m off' :
  (off' + m <= off \/ off + n <= off')%nat -> rd m (wr n d off v) off' = rd m d off'.
Proof.
  intros H. unfold rd, wr. f_equal. apply slice_splice_out; rewrite length_unpack; lia.
Qed.

Lemma slice_wr_other v m off' :
  (off' + m <= off \/ off + n <= off')%nat -> slice off' m (wr n d off v) = slice off' m d.
Proof. intros H. unfold wr. apply slice_splice_out; rewrite length_unpack; lia. Qed.

Lemma rd_range : Forall (field_ok 8) d -> 0 <= rd n d off < 2 ^ (8 * Z.of_nat n).
Proof.
  intros Hd. pose proof (pack_range 8 ltac:(lia) (slice off n d)) as H.
  rewrite length_slice in H by done. apply H. unfold slice. by apply Forall_take, Forall_drop.
Qed.

Lemma wr_bytes v : Forall (field_ok 8) d -> Forall (field_ok 8) (wr n d off v).
Proof.
  intros Hd. unfold wr, splice. apply Forall_app. split; [by apply Forall_take|].
  apply Forall_app. split; [apply unpack_ok; lia|by apply Forall_drop].
Qed.
End RdWr.

Lemma wr_block n d off v :
  block_ok d -> (off + n <= Z.to_nat BSIZE)%nat -> block_ok (wr n d off v).
Proof.
  intros [Hl Hb] Ho. split; [rewrite length_wr; [done|lia]|apply wr_bytes; [lia|done]].
Qed.

Lemma splice_block d i p : block_ok d -> (i + length p <= 512)%nat -> Forall (field_ok 8) p -> block_ok (splice i p d).
Proof.
  intros [Hl Hb] Hi Hp. change (Z.to_nat BSIZE) with 512%nat in *. split.
  - rewrite length_splice; [done|lia].
  - unfold splice. apply Forall_app. split; [by apply Forall_take|]. apply Forall_app. split; [done|by apply Forall_drop].
Qed.

(** ** fs.h *)

Definition sizeof_dinode : Z := 64.
Definition IPB : Z := BSIZE / sizeof_dinode.
Definition IBLOCK (i : Z) (sb : superblock) : Z := u32 (i / IPB + sb_inodestart sb).
Definition BPB : Z := BSIZE * 8.
Definition BBLOCK (b : Z) (sb : superblock) : Z := u32 (b / BPB + sb_bmapstart sb).

(** [struct dinode] *)
Record dinode := Dinode {
  d_type : Z; d_major : Z; d_minor : Z; d_nlink : Z; d_size : Z; d_addrs : list Z;
}.

(** [(struct dinode* )bp->data + inum%IPB] read and written in place. *)
Definition dinode_off (inum : Z) : nat := Z.to_nat (64 * (inum mod IPB)).

Definition get_dinode (d : list Z) (inum : Z) : dinode :=
  let o := dinode_off inum in
  Dinode (s16 (rd 2 d o)) (s16 (rd 2 d (o + 2))) (s16 (rd 2 d (o + 4))) (s16 (rd 2 d (o + 6)))
    (rd 4 d (o + 8)) (map (fun k => rd 4 d (o + 12 + 4 * k)) (seq 0 13)).

(** The [memmove] of [addrs]. *)
Definition put_addrs (d : list Z) (o : nat) (addrs : list Z) : list Z :=
  foldl (fun d k => wr 4 d (o + 12 + 4 * k) (default 0 (addrs !! k))) d (seq 0 13).

Definition put_dinode (d : list Z) (inum : Z) (x : dinode) : list Z :=
  let o := dinode_off inum in
  let d := wr 2 d o (d_type x) in
  let d := wr 2 d (o + 2) (d_major x) in
  let d := wr 2 d (o + 4) (d_minor x) in
  let d := wr 2 d (o + 6) (d_nlink x) in
  let d := wr 4 d (o + 8) (d_size x) in
  put_addrs d o (d_addrs x).

(** [memset(dip, 0, sizeof( *dip))] *)
Definition clear_dinode (d : list Z) (inum : Z) : list Z :=
  splice (dinode_off inum) (replicate 64 0) d.

(** [struct dirent]: [inum] and 14 bytes of name. *)
Definition sizeof_dirent : Z := 16.
Definition de_inum (e : list Z) : Z := rd 2 e 0.
Definition de_name (e : list Z) : list Z := slice 2 14 e.
Definition mk_dirent (inum : Z) (name : list Z) : list Z := le_bytes 2 inum ++ name.

(** ** Storing and reading back an inode *)

Definition dinode_wf (x : dinode) : Prop :=
  (- 2 ^ 15 <= d_type x < 2 ^ 15) /\ (- 2 ^ 15 <= d_major x < 2 ^ 15) /\
  (- 2 ^ 15 <= d_minor x < 2 ^ 15) /\ (- 2 ^ 15 <= d_nlink x < 2 ^ 15) /\
  0 <= d_size x < 2 ^ 32 /\ length (d_addrs x) = 13%nat /\
  Forall (fun a => 0 <= a < 2 ^ 32) (d_addrs x).

Lemma dinode_off_le inum : (dinode_off inum + 64 <= Z.to_nat BSIZE)%nat.
Proof.
  unfold dinode_off, IPB, BSIZE, sizeof_dinode. change (512 / 64) with 8.
  pose proof (Z.mod_pos_bound inum 8 ltac:(lia)). lia.
Qed.

Lemma dinode_off_disjoint i j :
  i mod IPB <> j mod IPB -> (dinode_off i + 64 <= dinode_off j \/ dinode_off j + 64 <= dinode_off i)%nat.
Proof.
  unfold dinode_off, IPB, BSIZE, sizeof_dinode. change (512 / 64) with 8. intros H.
  pose proof (Z.mod_pos_bound i 8 ltac:(lia)). pose proof (Z.mod_pos_bound j 8 ltac:(lia)). lia.
Qed.

Lemma put_addrs_spec (d : list Z) (o : nat) (addrs : list Z) (ks : list nat) :
  (o + 64 <= length d)%nat -> (forall k, k ∈ ks -> (k < 13)%nat) -> Forall (field_ok 8) d ->
  let d' := foldl (fun d k => wr 4 d (o + 12 + 4 * k) (default 0 (addrs !! k))) d ks in
  length d' = length d /\ Forall (field_ok 8) d' /\
  (forall m off, (off + m <= o + 12 \/ o + 64 <= off)%nat -> rd m d' off = rd m d off) /\
  (forall k, (k < 13)%nat -> rd 4 d' (o + 12 + 4 * k) =
     if decide (k ∈ ks) then u32 (default 0 (addrs !! k)) else rd 4 d (o + 12 + 4 * k)).
Proof.
  intros Ho Hks Hd. induction ks as [|j ks IH] using rev_ind; [done|].
  destruct IH as (I1 & I2 & I3 & I4); [set_solver|]. assert (Hj : (j < 13)%nat) by (apply Hks; set_solver).
  rewrite foldl_app. cbn [foldl]. set (d1 := foldl _ d ks) in *.
  split_and!.
  - rewrite length_wr by lia. done.
  - apply wr_bytes; [lia|done].
  - intros m off Hoff. rewrite rd_wr_other by lia. by apply I3.
  - intros k Hk. destruct (decide (k = j)) as [->|Hne].
    + rewrite decide_True by set_solver. by rewrite rd_wr by lia.
    + rewrite rd_wr_other by lia. rewrite I4 by done. repeat case_decide; set_solver.
Qed.

Lemma rd2_signed d o v : - 2 ^ 15 <= v < 2 ^ 15 -> (o + 2 <= length d)%nat -> s16 (rd 2 (wr 2 d o v) o) = v.
Proof.
  intros Hv Ho. rewrite rd_wr by done. unfold s16. rewrite swrap_mod by lia. by apply s16_id.
Qed.

(** Look past the store that made [d]. *)
Ltac peel d := unfold d; rewrite rd_wr_other by lia.

(** Reading an inode back gives what was stored, and the other inodes of the block are
    untouched. *)
Lemma dinode_put_get d inum x :
  block_ok d -> dinode_wf x ->
  block_ok (put_dinode d inum x) /\ get_dinode (put_dinode d inum x) inum = x /\
  forall j, j mod IPB <> inum mod IPB -> get_dinode (put_dinode d inum x) j = get_dinode d j.
Proof.
  intros [Hl Hb] (W1 & W2 & W3 & W4 & W5 & W6 & W7).
  pose proof (dinode_off_le inum) as Ho. unfold put_dinode. set (o := dinode_off inum) in *.
  set (d1 := wr 2 d o (d_type x)). set (d2 := wr 2 d1 (o + 2) (d_major x)).
  set (d3 := wr 2 d2 (o + 4) (d_minor x)). set (d4 := wr 2 d3 (o + 6) (d_nlink x)).
  set (d5 := wr 4 d4 (o + 8) (d_size x)).
  assert (L1 : length d1 = length d) by (apply length_wr; lia).
  assert (L2 : length d2 = length d) by (unfold d2; rewrite length_wr; lia).
  assert (L3 : length d3 = length d) by (unfold d3; rewrite length_wr; lia).
  assert (L4 : length d4 = length d) by (unfold d4; rewrite length_wr; lia).
  assert (L5 : length d5 = length d) by (unfold d5; rewrite length_wr; lia).
  assert (B5 : Forall (field_ok 8) d5)
    by (do 5 (apply wr_bytes; [lia|]); done).
  destruct (put_addrs_spec d5 o (d_addrs x) (seq 0 13)) as (A1 & A2 & A3 & A4);
    [lia|intros k Hk%elem_of_seq; lia|done|]. fold (put_addrs d5 o (d_addrs x)) in *.
  assert (R : forall m off, (off + m <= o \/ o + 64 <= off)%nat -> rd m (put_addrs d5 o (d_addrs x)) off = rd m d off).
  { intros m off Hoff. rewrite A3 by lia. by peel d5; peel d4; peel d3; peel d2; peel d1. }
  split_and!; [split; [congruence|done]| |].
  - unfold get_dinode. fold o. rewrite !A3 by lia. destruct x as [t mj mn nl sz ad]; cbn [d_type d_major d_minor d_nlink d_size d_addrs] in *. f_equal.
    + peel d5; peel d4; peel d3; peel d2. by apply rd2_signed; [|lia].
    + peel d5; peel d4; peel d3. by apply rd2_signed; [|lia].
    + peel d5; peel d4. by apply rd2_signed; [|lia].
    + peel d5. by apply rd2_signed; [|lia].
    + unfold d5. rewrite rd_wr by lia. by apply Z.mod_small.
    + apply list_eq. intros k. destruct (decide (k < 13)%nat) as [Hk|Hk].
      * rewrite list_lookup_fmap, lookup_seq_lt by done. cbn [fmap option_fmap option_map].
        rewrite A4 by done. rewrite decide_True by (apply elem_of_seq; lia).
        destruct (lookup_lt_is_Some_2 ad k) as [a Ha]; [lia|].
        assert (Hd : default 0 (ad !! k) = a) by (by rewrite Ha).
        rewrite Nat.add_0_l, Hd, Ha. f_equal. apply u32_id. rewrite Forall_lookup in W7. eauto.
      * rewrite !lookup_ge_None_2; [done|lia|]. rewrite length_map, length_seq. lia.
  - intros j Hj. pose proof (dinode_off_disjoint j inum Hj) as Hdis. pose proof (dinode_off_le j).
    unfold get_dinode. fold o in Hdis. set (q := dinode_off j) in *. rewrite !R by lia. f_equal.
    apply map_ext_in. intros k Hk%in_seq. apply R. lia.
Qed.
