(* ===== verification/Mkfs.v ===== *)
(** * Making a file system (mkfs.c)

    The image under construction is a map of blocks with the two counters; the host's
    files are arguments. The structures are the ones of Layout.v, which the kernel reads
    them with. *)

From S2P Require Import Prelude Kernel Bio Layout.

Module Mkfs.

Definition NINODES : Z := 200.

Definition nbitmap : Z := FSSIZE / (BSIZE * 8) + 1.
Definition ninodeblocks : Z := NINODES / IPB + 1.
Definition nlog : Z := LOGSIZE.
Definition nmeta : Z := 2 + nlog + ninodeblocks + nbitmap.
Definition nblocks : Z := FSSIZE - nmeta.

(** [xshort] and [xint]: the bytes lowest first, read back as the host (little-endian) does. *)
Definition xshort (x : Z) : Z := le_val [x mod 256; Z.shiftr x 8 mod 256].
Definition xint (x : Z) : Z :=
  le_val [x mod 256; Z.shiftr x 8 mod 256; Z.shiftr x 16 mod 256; Z.shiftr x 24 mod 256].

(** The globals: the contents of [fsfd], [freeinode] and [freeblock]. *)
Record state := State { img : gmap Z (list Z); freeinode : Z; freeblock : Z }.

(** How mkfs comes back: done, out by [exit(1)] after an error of the host, or stopped by
    an assertion. [Stuck] is a loop out of fuel. *)
Inductive outcome (A : Type) :=
| Done (a : A) (s : state)
| Exit1 (what : list Z)
| Assertion (what : string)
| Stuck.
Arguments Done {A} _ _.
Arguments Exit1 {A} _.
Arguments Assertion {A} _.
Arguments Stuck {A}.

Definition M (A : Type) : Type := state -> outcome A.
Definition ret {A} (a : A) : M A := fun s => Done a s.
Definition bind {A B} (m : M A) (k : A -> M B) : M B := fun s =>
  match m s with
  | Done a s => k a s
  | Exit1 w => Exit1 w
  | Assertion w => Assertion w
  | Stuck => Stuck
  end.
Declare Scope mkfs_scope.
Notation "x <- m ; k" := (bind m (fun x => k)) (at level 100, m at next level, right associativity) : mkfs_scope.
Notation "m ;; k" := (bind m (fun _ => k)) (at level 100, right associativity) : mkfs_scope.
Open Scope mkfs_scope.

Fixpoint each {A} (l : list A) (body : A -> M unit) : M unit :=
  match l with [] => ret tt | x :: l => body x ;; each l body end.

Definition assert (b : bool) (what : string) : M unit := fun s => if b then Done tt s else Assertion what.

(** [sec * BSIZE] is computed in 32 bits. *)
Definition sector (sec : Z) : Z := sec *u BSIZE / BSIZE.

Definition wsect (sec : Z) (buf : list Z) : M unit := fun s =>
  Done tt (State (<[sector sec := buf]> (img s)) (freeinode s) (freeblock s)).

(** A sector past the end reads short. *)
Definition rsect (sec : Z) : M (list Z) := fun s =>
  match img s !! sector sec with Some d => Done d s | None => Exit1 (codes "read") end.

(** The super block [main] fills in. *)
Definition sb : superblock :=
  Superblock (xint FSSIZE) (xint nblocks) (xint NINODES) (xint nlog) (xint 2) (xint (2 + nlog)) (xint (2 + nlog + ninodeblocks)).

Definition sb_bytes (b : superblock) : list Z :=
  concat (map (le_bytes 4)
    [sb_size b; sb_nblocks b; sb_ninodes b; sb_nlog b; sb_logstart b; sb_inodestart b; sb_bmapstart b]).

Definition winode (inum : Z) (ip : dinode) : M unit :=
  let bn := IBLOCK inum sb in
  buf <- rsect bn;
  wsect bn (put_dinode buf inum ip).

Definition rinode (inum : Z) : M dinode :=
  buf <- rsect (IBLOCK inum sb);
  ret (get_dinode buf inum).

(** [freeinode++] and [freeblock++] *)
Definition next_inode : M Z := fun s => Done (freeinode s) (State (img s) (freeinode s +u 1) (freeblock s)).
Definition next_block : M Z := fun s => Done (freeblock s) (State (img s) (freeinode s) (freeblock s +u 1)).

Definition ialloc (type : Z) : M Z :=
  inum <- next_inode;
  winode inum (Dinode (s16 (xshort type)) 0 0 (s16 (xshort 1)) (xint 0) (replicate 13 0)) ;;
  ret inum.

(** The bitmap block with the first [used] bits set. *)
Definition set_bit (buf : list Z) (i : Z) : list Z :=
  <[Z.to_nat (i / 8) := Z.lor (nth (Z.to_nat (i / 8)) buf 0) (Z.shiftl 1 (i mod 8))]> buf.

Definition balloc (used : Z) : M unit :=
  assert (used <? BSIZE * 8) "used < BSIZE*8" ;;
  wsect (sb_bmapstart sb) (foldl set_bit zero_block (seqZ 0 used)).

Definition addr (din : dinode) (k : Z) : Z := default 0 (d_addrs din !! Z.to_nat k).
Definition set_addr (din : dinode) (k v : Z) : dinode :=
  Dinode (d_type din) (d_major din) (d_minor din) (d_nlink din) (d_size din) (<[Z.to_nat k := v]> (d_addrs din)).

(** [if(xint(din.addrs[k]) == 0) din.addrs[k] = xint(freeblock++);] *)
Definition fill_addr (din : dinode) (k : Z) : M dinode :=
  if xint (addr din k) =? 0 then b <- next_block; ret (set_addr din k (xint b)) else ret din.

(** The sector [x] for block [fbn] of the file, and [din]. *)
Definition find_block (din : dinode) (fbn : Z) : M (Z * dinode) :=
  if fbn <? NDIRECT then
    din <- fill_addr din fbn;
    ret (xint (addr din fbn), din)
  else
    din <- fill_addr din NDIRECT;
    let ia := xint (addr din NDIRECT) in
    indirect <- rsect ia;
    let off := Z.to_nat (4 * (fbn - NDIRECT)) in
    if rd 4 indirect off =? 0 then
      b <- next_block;
      wsect ia (wr 4 indirect off (xint b)) ;;
      ret (xint b, din)
    else ret (xint (rd 4 indirect off), din).

(** The loop of [iappend] over what is left of the bytes at [p]; each round takes at least one. *)
Fixpoint iappend_loop (n : nat) (din : dinode) (off : Z) (p : list Z) : M (dinode * Z) :=
  match p with
  | [] => ret (din, off)
  | _ =>
      match n with
      | O => fun _ => Stuck
      | S n =>
          let fbn := off / BSIZE in
          assert (fbn <? MAXFILE) "fbn < MAXFILE" ;;
          r <- find_block din fbn;
          let n1 := Z.min (Z.of_nat (length p)) (((fbn + 1) *u BSIZE) -u off) in
          buf <- rsect r.1;
          wsect r.1 (splice (Z.to_nat (off - fbn * BSIZE)) (take (Z.to_nat n1) p) buf) ;;
          iappend_loop n r.2 (off +u n1) (drop (Z.to_nat n1) p)
      end
  end.

Definition iappend (inum : Z) (p : list Z) : M unit :=
  din <- rinode inum;
  r <- iappend_loop (length p) din (xint (d_size din)) p;
  let '(din, off) := r in
  winode inum (Dinode (d_type din) (d_major din) (d_minor din) (d_nlink din) (xint off) (d_addrs din)).

(** A [struct dirent] with the name copied by [strncpy(de.name, name, DIRSIZ)]. *)
Definition dirent (inum : Z) (name : list Z) : list Z :=
  mk_dirent (xshort inum) (take DIRSIZ name ++ replicate (DIRSIZ - length name) 0).

(** An argument: its name, and what the reads of the file give one after another, or [None]
    when [open] fails. *)
Definition arg : Type := list Z * option (list (list Z)).

Definition skip_underscore (name : list Z) : list Z :=
  match name with c :: name' => if c =? ch "_" then name' else name | [] => [] end.

Definition add_file (rootino : Z) (a : arg) : M unit :=
  let '(name, file) := a in
  assert (negb (existsb (Z.eqb (ch "/")) name)) "index(argv[i], '/') == 0" ;;
  match file with
  | None => fun _ => Exit1 name
  | Some reads =>
      inum <- ialloc T_FILE;
      iappend rootino (dirent inum (skip_underscore name)) ;;
      each reads (iappend inum)
  end.

(** [// fix size of root inode dir] *)
Definition fix_root (rootino : Z) : M unit :=
  din <- rinode rootino;
  let off := xint (d_size din) in
  let off := (off / BSIZE + 1) *u BSIZE in
  winode rootino (Dinode (d_type din) (d_major din) (d_minor din) (d_nlink din) (xint off) (d_addrs din)).

(** The super block, the root directory and the files: the root's inode number. *)
Definition populate (args : list arg) : M Z :=
  wsect 1 (splice 0 (sb_bytes sb) zero_block) ;;
  rootino <- ialloc T_DIR;
  assert (rootino =? ROOTINO) "rootino == ROOTINO" ;;
  iappend rootino (dirent rootino (codes ".")) ;;
  iappend rootino (dirent rootino (codes "..")) ;;
  each args (add_file rootino) ;;
  ret rootino.

Definition main (args : list arg) : M unit :=
  (fun s => Done tt (State (img s) (freeinode s) nmeta)) ;;
  each (seqZ 0 FSSIZE) (fun i => wsect i zero_block) ;;
  rootino <- populate args;
  fix_root rootino ;;
  fun s => balloc (freeblock s) s.

(** Before [main]: an empty file. *)
Definition start : state := State ∅ 1 0.
End Mkfs.
