(* ===== verification/MkfsSpec.v ===== *)
(** * What mkfs makes: an image from which every file reads back

    First the blocks of one file ([holds]) and how [iappend] extends it, then the whole
    image ([image_ok]) and [main]. *)

From S2P Require Import Prelude Kernel Bio Layout Mkfs.
Import Mkfs.

(** ** The image *)

Definition blk (s : state) (b : Z) : list Z := default zero_block (img s !! b).

Record disk_ok (s : state) : Prop := {
  dk_img : forall b, 0 <= b < 1000 -> exists d, img s !! b = Some d /\ block_ok d;
  dk_free : 59 <= freeblock s <= 1000;
  dk_zero : forall b, freeblock s <= b < 1000 -> blk s b = zero_block }.

Definition put (s : state) (b : Z) (d : list Z) : state := State (<[b := d]> (img s)) (freeinode s) (freeblock s).
Definition bump (s : state) : state := State (img s) (freeinode s) (freeblock s + 1).

Lemma sector_id b : 0 <= b < 1000 -> sector b = b.
Proof. intros H. unfold sector, BSIZE. rewrite u32_id by lia. apply Z.div_mul. lia. Qed.

Lemma blk_ok s b : disk_ok s -> 0 <= b < 1000 -> block_ok (blk s b).
Proof. intros Hs Hb. destruct (dk_img _ Hs b Hb) as (d & Hd & Hok). unfold blk. by rewrite Hd. Qed.

Lemma rsect_ok s b : disk_ok s -> 0 <= b < 1000 -> rsect b s = Done (blk s b) s.
Proof.
  intros Hs Hb. unfold rsect, blk. rewrite (sector_id b Hb). by destruct (dk_img _ Hs b Hb) as (d & -> & _).
Qed.

Lemma wsect_ok s b d : 0 <= b < 1000 -> wsect b d s = Done tt (put s b d).
Proof. intros Hb. unfold wsect. by rewrite sector_id. Qed.

Lemma blk_put s b d : blk (put s b d) b = d.
Proof. unfold blk, put. cbn. by rewrite lookup_insert_eq. Qed.

Lemma blk_put_ne s b d b' : b' <> b -> blk (put s b d) b' = blk s b'.
Proof. intros H. unfold blk, put. cbn. by rewrite lookup_insert_ne. Qed.

Lemma put_disk_ok s b d : disk_ok s -> 0 <= b < freeblock s -> block_ok d -> disk_ok (put s b d).
Proof.
  intros [H1 H2 H3] Hb Hd. constructor; [|done|].
  - intros b' Hb'. destruct (decide (b' = b)) as [->|Hne].
    + exists d. cbn. by rewrite lookup_insert_eq.
    + cbn. rewrite lookup_insert_ne by done. auto.
  - intros b' Hb'. cbn in Hb'. rewrite blk_put_ne by lia. auto.
Qed.

Lemma next_block_ok s : disk_ok s -> next_block s = Done (freeblock s) (bump s).
Proof. intros [_ H _]. unfold next_block, bump. rewrite u32_id by lia. done. Qed.

Lemma bump_disk_ok s : disk_ok s -> freeblock s < 1000 -> disk_ok (bump s).
Proof. intros [H1 H2 H3] Hf. constructor; [done|cbn; lia|]. intros b Hb. apply H3. cbn in Hb. lia. Qed.

Lemma xint_id x : 0 <= x < 2 ^ 32 -> xint x = x.
Proof.
  intros Hx. unfold xint. cbn [pack]. rewrite !Z.shiftr_div_pow2 by lia.
  change (2 ^ 8) with 256. change (2 ^ 16) with 65536. change (2 ^ 24) with 16777216. dlia.
Qed.

Lemma bind_done {A B} (m : M A) (k : A -> M B) s a s' : m s = Done a s' -> bind m k s = k a s'.
Proof. intros H. unfold bind. by rewrite H. Qed.

(** ** One file *)

(** The blocks a file of [n] bytes has, and with the indirect block. *)
Definition nb (n : Z) : Z := (n + 511) / 512.
Definition with_indirect (k : Z) : Z := k + (if 12 <? k then 1 else 0).
Definition need (n : Z) : Z := with_indirect (nb n).

Definition own (bs : list Z) (ib : Z) : list Z := bs ++ (if ib =? 0 then [] else [ib]).

(** [din.addrs] *)
Definition addrs_of (bs : list Z) (ib : Z) : list Z := take 12 bs ++ replicate (12 - length bs) 0 ++ [ib].

(** A file with the blocks [bs] and the indirect block [ib] (0 for none) holds [c]. *)
Record holds (s : state) (bs : list Z) (ib : Z) (c : list Z) : Prop := {
  h_len : Z.of_nat (length c) <= 512 * Z.of_nat (length bs);
  h_max : (length bs <= 140)%nat;
  h_ib : (length bs <= 12)%nat -> ib = 0;
  h_table : (12 < length bs)%nat -> forall k, (k < 128)%nat -> rd 4 (blk s ib) (4 * k) = default 0 (bs !! (12 + k)%nat);
  h_data : forall k, (k < 512 * length bs)%nat ->
    default 0 (blk s (default 0 (bs !! (k / 512)%nat)) !! (k mod 512)%nat) = default 0 (c !! k);
  h_nodup : NoDup (own bs ib);
  h_ind : (12 < length bs)%nat -> ib <> 0;
  h_own : Forall (fun b => 59 <= b < freeblock s) (own bs ib) }.

(** Nothing below [freeblock] changes but the blocks [o]. *)
Definition kept (s s' : state) (o : list Z) : Prop :=
  freeinode s' = freeinode s /\ freeblock s <= freeblock s' /\
  forall b, 0 <= b < freeblock s -> b ∉ o -> blk s' b = blk s b.

Lemma kept_refl s o : kept s s o.
Proof. split_and!; auto. lia. Qed.

Lemma kept_trans s1 s2 s3 o o' : kept s1 s2 o -> kept s2 s3 o' ->
  (forall b, b ∈ o' -> b ∈ o \/ freeblock s1 <= b) -> kept s1 s3 o.
Proof.
  intros (I1 & F1 & K1) (I2 & F2 & K2) Hsub. split_and!; [congruence|lia|].
  intros b Hb Ho. rewrite K2; [auto|lia|]. intros Hin. destruct (Hsub b Hin); [done|lia].
Qed.

Lemma holds_kept s s' o bs ib c : kept s s' o -> (forall b, b ∈ own bs ib -> b ∉ o) ->
  holds s bs ib c -> holds s' bs ib c.
Proof.
  intros (_ & F & K) Hdis [H1 H2 H3 H4 H5 H6 H7 H8]. rewrite Forall_forall in H8.
  assert (Hblk : forall b, b ∈ own bs ib -> blk s' b = blk s b) by (intros b Hb; apply K; [specialize (H8 b Hb); lia|auto]).
  constructor; auto.
  - intros Hl k Hk. rewrite Hblk; [auto|]. unfold own. specialize (H7 Hl). destruct (Z.eqb_spec ib 0); [done|set_solver].
  - intros k Hk. destruct (lookup_lt_is_Some_2 bs (k / 512)) as [b Hb]; [apply Nat.Div0.div_lt_upper_bound; lia|].
    rewrite <- H5 by done. rewrite Hb. cbn. rewrite Hblk; [done|]. apply elem_of_app. left. by eapply list_elem_of_lookup_2.
  - apply Forall_forall. intros b Hb. specialize (H8 b Hb). lia.
Qed.

Lemma length_addrs_of bs ib : length (addrs_of bs ib) = 13%nat.
Proof. unfold addrs_of. rewrite !length_app, length_take, length_replicate. change (length [ib]) with 1%nat. lia. Qed.

Lemma addrs_of_direct bs ib k : (k < 12)%nat -> addrs_of bs ib !! k = Some (default 0 (bs !! k)).
Proof.
  intros Hk. unfold addrs_of. destruct (decide (k < length bs)%nat) as [Hl|Hl].
  - rewrite lookup_app_l by (rewrite length_take; lia). rewrite lookup_take_lt by done.
    destruct (lookup_lt_is_Some_2 bs k Hl) as [b ->]. done.
  - rewrite lookup_app_r by (rewrite length_take; lia). rewrite length_take, Nat.min_r by lia.
    rewrite lookup_app_l by (rewrite length_replicate; lia). rewrite lookup_replicate_2 by lia.
    by rewrite lookup_ge_None_2 by lia.
Qed.

Lemma addrs_of_indirect bs ib : addrs_of bs ib !! 12%nat = Some ib.
Proof.
  unfold addrs_of. rewrite app_assoc, lookup_app_r; rewrite length_app, length_take, length_replicate; [|lia].
  by replace (12 - (12 `min` length bs + (12 - length bs)))%nat with 0%nat by lia.
Qed.

Lemma addrs_of_snoc bs ib b : (length bs < 12)%nat -> addrs_of (bs ++ [b]) ib = <[length bs := b]> (addrs_of bs ib).
Proof.
  intros Hl. apply list_eq. intros k. destruct (decide (k < 13)%nat) as [Hk|Hk].
  2:{ rewrite !lookup_ge_None_2; [done|rewrite length_insert|]; rewrite length_addrs_of; lia. }
  destruct (decide (k = 12%nat)) as [->|H12].
  { rewrite list_lookup_insert_ne by lia. by rewrite !addrs_of_indirect. }
  rewrite addrs_of_direct by lia. destruct (decide (k = length bs)) as [->|Hne].
  - rewrite list_lookup_insert_eq by (rewrite length_addrs_of; lia). by rewrite list_lookup_middle.
  - rewrite list_lookup_insert_ne by done. rewrite addrs_of_direct by lia. f_equal.
    destruct (decide (k < length bs)%nat); [by rewrite lookup_app_l|].
    rewrite !lookup_ge_None_2; [done|lia|rewrite length_app; simpl; lia].
Qed.

Lemma addrs_of_more bs ib ib' b : (12 <= length bs)%nat ->
  addrs_of (bs ++ [b]) ib' = <[12%nat := ib']> (addrs_of bs ib).
Proof.
  intros Hl. apply list_eq. intros k. destruct (decide (k < 13)%nat) as [Hk|Hk].
  2:{ rewrite !lookup_ge_None_2; [done|rewrite length_insert|]; rewrite length_addrs_of; lia. }
  destruct (decide (k = 12%nat)) as [->|H12].
  { rewrite list_lookup_insert_eq by (rewrite length_addrs_of; lia). by rewrite addrs_of_indirect. }
  rewrite list_lookup_insert_ne by done. rewrite !addrs_of_direct by lia. by rewrite lookup_app_l by lia.
Qed.

(** ** One more block *)

Lemma zero_byte k : default 0 (zero_block !! k) = 0.
Proof.
  unfold zero_block. destruct (decide (k < Z.to_nat BSIZE)%nat).
  - by rewrite lookup_replicate_2.
  - rewrite lookup_ge_None_2; [done|]. rewrite length_replicate. lia.
Qed.

Lemma rd_zero n k : rd n zero_block k = 0.
Proof.
  unfold rd, slice, zero_block. rewrite drop_replicate, take_replicate.
  generalize (n `min` (Z.to_nat BSIZE - k))%nat. intros m. induction m as [|m IH]; [done|].
  cbn [replicate pack]. by rewrite IH.
Qed.

Lemma holds_snoc s s' bs ib ib' c x :
  holds s bs ib c -> length c = (512 * length bs)%nat -> (length bs < 140)%nat ->
  (forall b, b ∈ bs -> blk s' b = blk s b) -> blk s' x = zero_block ->
  NoDup (own (bs ++ [x]) ib') -> Forall (fun b => 59 <= b < freeblock s') (own (bs ++ [x]) ib') ->
  ((length bs < 12)%nat -> ib' = 0) ->
  ((12 <= length bs)%nat -> ib' <> 0 /\
     forall k, (k < 128)%nat -> rd 4 (blk s' ib') (4 * k) = default 0 ((bs ++ [x]) !! (12 + k)%nat)) ->
  holds s' (bs ++ [x]) ib' c.
Proof.
  intros [H1 H2 H3 H4 H5 H6 H7 H8] Hc Hl Hb Hx Hnd Hown Hib Htab.
  assert (Hlen : length (bs ++ [x]) = S (length bs)) by (rewrite length_app; simpl; lia).
  constructor; rewrite ?Hlen; try lia; try done.
  - intros Hl'. destruct Htab; [lia|done].
  - intros k Hk. pose proof (Nat.div_mod_eq k 512). pose proof (Nat.mod_upper_bound k 512 ltac:(lia)).
    destruct (decide (k / 512 < length bs)%nat) as [Hlt|Hge].
    + rewrite <- H5 by lia. rewrite lookup_app_l by done. destruct (lookup_lt_is_Some_2 bs _ Hlt) as [b Heq].
      rewrite Heq. cbn. rewrite Hb; [done|by eapply list_elem_of_lookup_2].
    + replace (k / 512)%nat with (length bs) by lia. rewrite list_lookup_middle by done. cbn.
      rewrite Hx, zero_byte. by rewrite lookup_ge_None_2 by lia.
Qed.

Definition with_addrs (din : dinode) (a : list Z) : dinode :=
  Dinode (d_type din) (d_major din) (d_minor din) (d_nlink din) (d_size din) a.

Lemma table_snoc d bs x :
  length d = 512%nat -> (12 <= length bs < 140)%nat -> 0 <= x < 2 ^ 32 ->
  (forall k, (k < 128)%nat -> rd 4 d (4 * k) = default 0 (bs !! (12 + k)%nat)) ->
  forall k, (k < 128)%nat -> rd 4 (wr 4 d (4 * (length bs - 12)) x) (4 * k) = default 0 ((bs ++ [x]) !! (12 + k)%nat).
Proof.
  intros Hd Hb Hx Ht k Hk. destruct (decide (k = length bs - 12)%nat) as [->|Hne].
  - rewrite rd_wr by lia. rewrite list_lookup_middle by lia. cbn [default from_option id]. by apply Z.mod_small.
  - rewrite rd_wr_other by lia. rewrite Ht by done. destruct (decide (12 + k < length bs)%nat).
    + by rewrite lookup_app_l by lia.
    + rewrite !lookup_ge_None_2; [done|rewrite length_app; simpl; lia|lia].
Qed.

(** What [find_block] leaves: room for the next byte of the file. *)
Definition found (s s' : state) (bs bs' : list Z) (ib ib' x : Z) (c : list Z) : Prop :=
  let n := Z.of_nat (length c) in
  disk_ok s' /\ holds s' bs' ib' c /\ Z.of_nat (length bs') = nb (n + 1) /\
  bs' !! Z.to_nat (n / 512) = Some x /\ freeblock s' = freeblock s + need (n + 1) - need n /\
  kept s s' (own bs ib) /\ forall b, b ∈ own bs' ib' -> b ∈ own bs ib \/ freeblock s <= b.

Section Find.
Context (s : state) (bs : list Z) (ib : Z) (c : list Z) (din : dinode).
Context (Hs : disk_ok s) (Hh : holds s bs ib c) (Hbs : Z.of_nat (length bs) = nb (Z.of_nat (length c))).
Context (Hdin : d_addrs din = addrs_of bs ib).

Lemma own_range b : b ∈ own bs ib -> 59 <= b < 1000.
Proof using Hs Hh.
  intros Hb. pose proof (h_own _ _ _ _ Hh) as H. rewrite Forall_forall in H. specialize (H b Hb).
  pose proof (dk_free _ Hs). lia.
Qed.

Lemma bs_own b : b ∈ bs -> b ∈ own bs ib.
Proof using Type. intros. apply elem_of_app. by left. Qed.

Lemma bs_at k : (k < length bs)%nat -> 59 <= default 0 (bs !! k) < 1000.
Proof using Hs Hh.
  intros Hk. destruct (lookup_lt_is_Some_2 bs k Hk) as [b Hb]. rewrite Hb. cbn.
  apply own_range, bs_own. by eapply list_elem_of_lookup_2.
Qed.

Lemma ib_own : (12 < length bs)%nat -> ib ∈ own bs ib.
Proof using All.
  intros Hl. pose proof (h_ind _ _ _ _ Hh Hl). unfold own. destruct (Z.eqb_spec ib 0); [done|]. set_solver.
Qed.

Lemma addr_direct k : 0 <= k < 12 -> addr din k = default 0 (bs !! Z.to_nat k).
Proof using Hdin. intros Hk. unfold addr. rewrite Hdin, addrs_of_direct by lia. done. Qed.

Lemma addr_indirect : addr din NDIRECT = ib.
Proof using Hdin. unfold addr. rewrite Hdin. change (Z.to_nat NDIRECT) with 12%nat. by rewrite addrs_of_indirect. Qed.

Lemma same_addrs : with_addrs din (addrs_of bs ib) = din.
Proof using Hdin. rewrite <- Hdin. by destruct din. Qed.

(** The last block has room. *)
Lemma find_block_same : Z.of_nat (length c) mod 512 <> 0 ->
  let fbn := Z.of_nat (length c) / 512 in
  exists x, find_block din fbn s = Done (x, din) s /\ found s s bs bs ib ib x c.
Proof using All.
  intros Hm fbn. set (n := Z.of_nat (length c)) in *.
  assert (Hn : nb (n + 1) = nb n) by (unfold nb; dlia).
  assert (Hf : 0 <= fbn < Z.of_nat (length bs)) by (rewrite Hbs; unfold fbn, nb; dlia).
  pose proof (bs_at (Z.to_nat fbn) ltac:(lia)) as Hx.
  exists (default 0 (bs !! Z.to_nat fbn)). split.
  - unfold find_block, fill_addr, NDIRECT at 1. destruct (Z.ltb_spec fbn 12) as [Hd|Hd].
    + rewrite addr_direct by lia. rewrite xint_id by lia. destruct (Z.eqb_spec (default 0 (bs !! Z.to_nat fbn)) 0); [lia|].
      unfold bind, ret. by rewrite addr_direct, xint_id by lia.
    + assert (Hl : (12 < length bs)%nat) by lia. pose proof (own_range ib (ib_own Hl)) as Hib.
      rewrite addr_indirect, xint_id by lia. destruct (Z.eqb_spec ib 0); [lia|].
      rewrite (bind_done (ret din) _ s din s eq_refl). rewrite addr_indirect, xint_id by lia.
      rewrite (bind_done _ _ _ _ _ (rsect_ok s ib Hs ltac:(lia))).
      pose proof (h_max _ _ _ _ Hh).
      replace (Z.to_nat (4 * (fbn - NDIRECT))) with (4 * Z.to_nat (fbn - 12))%nat by (unfold NDIRECT; lia).
      rewrite (h_table _ _ _ _ Hh Hl) by lia.
      replace (12 + Z.to_nat (fbn - 12))%nat with (Z.to_nat fbn) by lia.
      rewrite xint_id by lia. destruct (Z.eqb_spec (default 0 (bs !! Z.to_nat fbn)) 0); [lia|]. done.
  - unfold found. fold n. rewrite Hn. split_and!; try done.
    + fold fbn. destruct (lookup_lt_is_Some_2 bs (Z.to_nat fbn) ltac:(lia)) as [b ->]. done.
    + unfold need. rewrite Hn. lia.
    + auto.
Qed.

(** The file ends with its last block: a new one is taken. *)
Section NewBlock.
Context (Hfull : length c = (512 * length bs)%nat) (Hl : (length bs < 140)%nat).
Context (Hfit : freeblock s + need (Z.of_nat (length c) + 1) - need (Z.of_nat (length c)) <= 1000).

Let f := freeblock s.

Lemma free_new b : b ∈ own bs ib -> b < f.
Proof using All. intros Hb. pose proof (h_own _ _ _ _ Hh) as H. rewrite Forall_forall in H. apply (H b Hb). Qed.

Lemma block_count : nb (Z.of_nat (length c)) = Z.of_nat (length bs) /\ nb (Z.of_nat (length c) + 1) = Z.of_nat (length bs) + 1.
Proof using All. rewrite Hfull. unfold nb. split; dlia. Qed.

Lemma own_snoc ib' x : own (bs ++ [x]) ib' = bs ++ x :: (if ib' =? 0 then [] else [ib']).
Proof using All. unfold own. by rewrite <- app_assoc. Qed.

Lemma own_app : own bs ib = bs ++ (if ib =? 0 then [] else [ib]).
Proof using All. done. Qed.

Lemma next_index : Z.of_nat (length c) / 512 = Z.of_nat (length bs).
Proof using All. rewrite Hfull. dlia. Qed.

(** Among the direct blocks. *)
Lemma find_block_direct : (length bs < 12)%nat ->
  exists din', find_block din (Z.of_nat (length bs)) s = Done (f, din') (bump s) /\
    din' = with_addrs din (addrs_of (bs ++ [f]) ib) /\ found s (bump s) bs (bs ++ [f]) ib ib f c.
Proof using All.
  intros Hd. pose proof block_count as [Hn1 Hn2]. pose proof (dk_free _ Hs) as Hfr. fold f in Hfr.
  pose proof Hfit as Hfit'. unfold need in Hfit'. rewrite Hn1, Hn2 in Hfit'. unfold with_indirect in Hfit'.
  rewrite (proj2 (Z.ltb_ge 12 _)), (proj2 (Z.ltb_ge 12 _)) in Hfit' by lia.
  assert (Hib0 : ib = 0) by (apply (h_ib _ _ _ _ Hh); lia).
  assert (Hset : set_addr din (Z.of_nat (length bs)) f = with_addrs din (addrs_of (bs ++ [f]) ib)).
  { unfold set_addr, with_addrs. by rewrite Hdin, Nat2Z.id, addrs_of_snoc. }
  eexists. split; [|split; [reflexivity|]].
  - unfold find_block, fill_addr, NDIRECT at 1. rewrite (proj2 (Z.ltb_lt _ 12)) by lia.
    rewrite addr_direct by lia. rewrite Nat2Z.id, lookup_ge_None_2 by lia. cbn [default]. rewrite xint_id by lia.
    cbn [Z.eqb]. unfold bind at 1. rewrite (bind_done _ _ _ _ _ (next_block_ok s Hs)). fold f.
    rewrite (xint_id f) by lia. unfold ret at 1. rewrite Hset. unfold ret, addr. cbn [with_addrs d_addrs].
    rewrite addrs_of_direct by lia. rewrite Nat2Z.id, list_lookup_middle by done. cbn [default from_option id]. rewrite xint_id by lia. reflexivity.
  - assert (Hnew : Forall (fun b => 59 <= b < f) bs).
    { pose proof (h_own _ _ _ _ Hh) as H. unfold own in H. by apply Forall_app in H as [H _]. }
    assert (Hnd : NoDup bs) by (pose proof (h_nodup _ _ _ _ Hh) as H; unfold own in H; by apply NoDup_app in H as [H _]).
    unfold found. cbv zeta. rewrite Hn2. split; [apply bump_disk_ok; [done|unfold f in *; lia]|]. split.
    { apply (holds_snoc s (bump s) bs ib ib); try done.
      - by apply (dk_zero _ Hs); fold f; lia.
      - rewrite own_snoc, Hib0. cbn. apply NoDup_app. split; [done|]. split; [|apply NoDup_singleton].
        intros b Hb ->%list_elem_of_singleton. rewrite Forall_forall in Hnew. specialize (Hnew f Hb). lia.
      - rewrite own_snoc, Hib0. cbn [freeblock bump Z.eqb]. apply Forall_app. split.
        + eapply Forall_impl; [exact Hnew|]. unfold f. intros b Hb. cbn beta in *. lia.
        + constructor; [unfold f in *; lia|constructor].
      - lia. }
    split; [rewrite length_app; simpl; lia|]. split; [rewrite next_index, Nat2Z.id; by apply list_lookup_middle|].
    split.
    { unfold need. rewrite Hn1, Hn2. unfold with_indirect.
      rewrite (proj2 (Z.ltb_ge 12 _)), (proj2 (Z.ltb_ge 12 _)) by lia. cbn. lia. }
    split; [split_and!; [done|cbn; lia|done]|].
    intros b Hb. rewrite own_snoc, Hib0 in Hb. rewrite own_app, Hib0. cbn in *. fold f.
    apply elem_of_app in Hb as [Hb|Hb%list_elem_of_singleton]; [left; set_solver|right; lia].
Qed.

Lemma bs_below b : b ∈ bs -> 59 <= b < f.
Proof using All. intros Hb. split; [apply own_range|apply free_new]; by apply bs_own. Qed.

Lemma nodup_bs : NoDup bs.
Proof using All. pose proof (h_nodup _ _ _ _ Hh) as H. unfold own in H. by apply NoDup_app in H as [H _]. Qed.

(** The first block past the direct ones: the indirect block is taken too. *)
Lemma find_block_first_indirect : length bs = 12%nat ->
  exists s', find_block din (Z.of_nat (length bs)) s = Done (f + 1, with_addrs din (addrs_of (bs ++ [f + 1]) f)) s' /\
    found s s' bs (bs ++ [f + 1]) ib f (f + 1) c.
Proof using All.
  intros Hd. pose proof block_count as [Hn1 Hn2]. pose proof (dk_free _ Hs) as Hfr. fold f in Hfr.
  pose proof Hfit as Hfit'. unfold need in Hfit'. rewrite Hn1, Hn2 in Hfit'. unfold with_indirect in Hfit'.
  rewrite (proj2 (Z.ltb_lt 12 _)), (proj2 (Z.ltb_ge 12 _)) in Hfit' by lia. fold f in Hfit'.
  assert (Hib0 : ib = 0) by (apply (h_ib _ _ _ _ Hh); lia).
  pose proof (bump_disk_ok s Hs ltac:(fold f; lia)) as Hs1.
  pose proof (bump_disk_ok (bump s) Hs1 ltac:(cbn; fold f; lia)) as Hs2.
  assert (Hz : forall b, f <= b < 1000 -> blk s b = zero_block) by (intros b Hb; by apply (dk_zero _ Hs)).
  set (d := wr 4 zero_block (4 * (length bs - 12)) (f + 1)). exists (put (bump (bump s)) f d).
  assert (Hset : set_addr din NDIRECT f = with_addrs din (addrs_of (bs ++ [f + 1]) f)).
  { unfold set_addr, with_addrs. rewrite Hdin, (addrs_of_more bs ib f) by lia. done. }
  assert (Hd_ok : block_ok d) by (apply wr_block; [apply zero_block_ok|unfold BSIZE; lia]).
  split.
  - unfold find_block, fill_addr. rewrite (proj2 (Z.ltb_ge _ NDIRECT)) by (unfold NDIRECT; lia).
    rewrite addr_indirect, Hib0. change (xint 0 =? 0) with true. cbn iota. unfold bind at 1.
    rewrite (bind_done _ _ _ _ _ (next_block_ok s Hs)). fold f. rewrite (xint_id f) by lia. unfold ret at 1. rewrite Hset.
    unfold addr. cbn [with_addrs d_addrs]. change (Z.to_nat NDIRECT) with 12%nat. rewrite addrs_of_indirect.
    cbn [default from_option id]. rewrite (xint_id f) by lia.
    rewrite (bind_done _ _ _ _ _ (rsect_ok (bump s) f Hs1 ltac:(lia))). change (blk (bump s) f) with (blk s f).
    rewrite (Hz f) by lia. rewrite rd_zero, Z.eqb_refl. rewrite (bind_done _ _ _ _ _ (next_block_ok (bump s) Hs1)).
    cbn [freeblock bump]. fold f. rewrite (xint_id (f + 1)) by lia.
    replace (Z.to_nat (4 * (Z.of_nat (length bs) - NDIRECT))) with (4 * (length bs - 12))%nat by (unfold NDIRECT; lia).
    rewrite (bind_done _ _ _ _ _ (wsect_ok (bump (bump s)) f d ltac:(lia))). done.
  - unfold found. cbv zeta. rewrite Hn2. split; [apply put_disk_ok; [done|cbn; fold f; lia|done]|]. split.
    { apply (holds_snoc s _ bs ib f); try done.
      - intros b Hb. pose proof (bs_below b Hb). by rewrite blk_put_ne by lia.
      - rewrite blk_put_ne by lia. apply Hz. lia.
      - rewrite own_snoc. rewrite (proj2 (Z.eqb_neq f 0)) by lia. apply NoDup_app. split; [apply nodup_bs|]. split.
        + intros b Hb Hin. pose proof (bs_below b Hb). rewrite !elem_of_cons in Hin. set_solver by lia.
        + repeat constructor; rewrite ?elem_of_cons; set_solver by lia.
      - rewrite own_snoc. rewrite (proj2 (Z.eqb_neq f 0)) by lia. cbn. fold f. apply Forall_app. split.
        + apply Forall_forall. intros b Hb. pose proof (bs_below b Hb). lia.
        + repeat constructor; lia.
      - lia.
      - intros _. split; [lia|]. rewrite blk_put. unfold d. apply table_snoc; [reflexivity|lia|lia|].
        intros k Hk. rewrite rd_zero, lookup_ge_None_2 by lia. done. }
    split; [rewrite length_app; simpl; lia|]. split; [rewrite next_index, Nat2Z.id; by apply list_lookup_middle|].
    split.
    { unfold need. rewrite Hn1, Hn2. unfold with_indirect.
      rewrite (proj2 (Z.ltb_lt 12 _)), (proj2 (Z.ltb_ge 12 _)) by lia. cbn. lia. }
    split; [split_and!; [done|cbn; lia|]|].
    { intros b Hb _. fold f in Hb. rewrite blk_put_ne by lia. done. }
    intros b Hb. rewrite own_snoc in Hb. rewrite own_app. fold f. rewrite (proj2 (Z.eqb_neq f 0)) in Hb by lia.
    rewrite elem_of_app, !elem_of_cons in Hb. rewrite elem_of_app. destruct Hb as [Hb|[->|[->|Hb]]]; [by left; left|right; lia|right; lia|set_solver].
Qed.

(** With the indirect block there. *)
Lemma find_block_indirect : (12 < length bs)%nat ->
  exists s', find_block din (Z.of_nat (length bs)) s = Done (f, with_addrs din (addrs_of (bs ++ [f]) ib)) s' /\
    found s s' bs (bs ++ [f]) ib ib f c.
Proof using All.
  intros Hd. pose proof block_count as [Hn1 Hn2]. pose proof (dk_free _ Hs) as Hfr. fold f in Hfr.
  pose proof Hfit as Hfit'. unfold need in Hfit'. rewrite Hn1, Hn2 in Hfit'. unfold with_indirect in Hfit'.
  rewrite !(proj2 (Z.ltb_lt 12 _)) in Hfit' by lia. fold f in Hfit'.
  pose proof (ib_own Hd) as Hio. pose proof (own_range ib Hio) as Hir. pose proof (free_new ib Hio) as Hif.
  pose proof (bump_disk_ok s Hs ltac:(fold f; lia)) as Hs1.
  assert (Hni : ib ∉ bs).
  { pose proof (h_nodup _ _ _ _ Hh) as H. unfold own in H. rewrite (proj2 (Z.eqb_neq ib 0)) in H by lia.
    apply NoDup_app in H as (_ & H & _). intros Hin. apply (H ib Hin). set_solver. }
  set (d := wr 4 (blk s ib) (4 * (length bs - 12)) f). exists (put (bump s) ib d).
  assert (Hset : with_addrs din (addrs_of (bs ++ [f]) ib) = din).
  { rewrite (addrs_of_more bs ib ib) by lia. rewrite list_insert_id by apply addrs_of_indirect. apply same_addrs. }
  assert (Hd_ok : block_ok d) by (apply wr_block; [apply blk_ok; [done|lia]|unfold BSIZE; lia]).
  split.
  - unfold find_block, fill_addr. rewrite (proj2 (Z.ltb_ge _ NDIRECT)) by (unfold NDIRECT; lia).
    rewrite addr_indirect, xint_id by lia. rewrite (proj2 (Z.eqb_neq ib 0)) by lia.
    rewrite (bind_done (ret din) _ s din s eq_refl). rewrite addr_indirect, xint_id by lia.
    rewrite (bind_done _ _ _ _ _ (rsect_ok s ib Hs ltac:(lia))).
    replace (Z.to_nat (4 * (Z.of_nat (length bs) - NDIRECT))) with (4 * (length bs - 12))%nat by (unfold NDIRECT; lia).
    rewrite (h_table _ _ _ _ Hh Hd) by lia. rewrite lookup_ge_None_2 by lia. cbn [default from_option id]. rewrite Z.eqb_refl.
    rewrite (bind_done _ _ _ _ _ (next_block_ok s Hs)). fold f. rewrite (xint_id f) by lia. fold d.
    rewrite (bind_done _ _ _ _ _ (wsect_ok (bump s) ib d ltac:(lia))). by rewrite Hset.
  - unfold found. cbv zeta. rewrite Hn2. split; [apply put_disk_ok; [done|cbn; fold f; lia|done]|]. split.
    { apply (holds_snoc s _ bs ib ib); try done.
      - intros b Hb. rewrite blk_put_ne; [done|]. by intros ->.
      - rewrite blk_put_ne by lia. apply (dk_zero _ Hs). fold f. lia.
      - rewrite own_snoc. rewrite (proj2 (Z.eqb_neq ib 0)) by lia. apply NoDup_app. split; [apply nodup_bs|]. split.
        + intros b Hb Hin. pose proof (bs_below b Hb). rewrite !elem_of_cons in Hin. destruct Hin as [->|[->|Hin]]; [lia|done|set_solver].
        + repeat constructor; rewrite ?elem_of_cons; set_solver by lia.
      - rewrite own_snoc. rewrite (proj2 (Z.eqb_neq ib 0)) by lia. cbn. fold f. apply Forall_app. split.
        + apply Forall_forall. intros b Hb. pose proof (bs_below b Hb). lia.
        + repeat constructor; lia.
      - lia.
      - intros _. split; [lia|]. rewrite blk_put. unfold d. apply table_snoc; [apply (blk_ok s ib); [done|lia]|lia|lia|].
        apply (h_table _ _ _ _ Hh Hd). }
    split; [rewrite length_app; simpl; lia|]. split; [rewrite next_index, Nat2Z.id; by apply list_lookup_middle|].
    split.
    { unfold need. rewrite Hn1, Hn2. unfold with_indirect. rewrite !(proj2 (Z.ltb_lt 12 _)) by lia. cbn. lia. }
    split; [split_and!; [done|cbn; lia|]|].
    { intros b Hb Ho. rewrite blk_put_ne; [done|]. by intros ->. }
    intros b Hb. rewrite own_snoc in Hb. rewrite own_app. fold f. rewrite (proj2 (Z.eqb_neq ib 0)) in * by lia.
    rewrite elem_of_app, !elem_of_cons in Hb. rewrite elem_of_app. destruct Hb as [Hb|[->|Hb]]; [by left; left|right; lia|left; right; set_solver].
Qed.
End NewBlock.
End Find.

(** [find_block] finds or makes the block the next byte of the file goes to. *)
Lemma find_block_ok s bs ib c din :
  disk_ok s -> holds s bs ib c -> Z.of_nat (length bs) = nb (Z.of_nat (length c)) -> d_addrs din = addrs_of bs ib ->
  Z.of_nat (length c) < 71680 ->
  freeblock s + need (Z.of_nat (length c) + 1) - need (Z.of_nat (length c)) <= 1000 ->
  exists bs' ib' x s', find_block din (Z.of_nat (length c) / 512) s = Done (x, with_addrs din (addrs_of bs' ib')) s' /\
    found s s' bs bs' ib ib' x c.
Proof.
  intros Hs Hh Hbs Hdin Hlt Hfit. destruct (decide (Z.of_nat (length c) mod 512 = 0)) as [Hm|Hm].
  - assert (Hfull : length c = (512 * length bs)%nat) by (unfold nb in Hbs; dlia).
    assert (Hl : (length bs < 140)%nat) by lia. 
    replace (Z.of_nat (length c) / 512) with (Z.of_nat (length bs)) by (rewrite Hfull; dlia).
    destruct (lt_eq_lt_dec (length bs) 12) as [[Hd|Hd]|Hd].
    + destruct (find_block_direct s bs ib c din Hs Hh Hbs Hdin Hfull Hl Hfit Hd) as (din' & H1 & -> & H2). eauto 10.
    + destruct (find_block_first_indirect s bs ib c din Hs Hh Hbs Hdin Hfull Hl Hfit Hd) as (s' & H1 & H2). eauto 10.
    + destruct (find_block_indirect s bs ib c din Hs Hh Hbs Hdin Hfull Hl Hfit Hd) as (s' & H1 & H2). eauto 10.
  - destruct (find_block_same s bs ib c din Hs Hh Hbs Hdin Hm) as (x & H1 & H2).
    exists bs, ib, x, s. rewrite <- Hdin. by destruct din.
Qed.

(** ** Bytes into the last block *)

Lemma write_piece s bs ib c p x :
  disk_ok s -> holds s bs ib c -> Forall (field_ok 8) p ->
  bs !! Z.to_nat (Z.of_nat (length c) / 512) = Some x ->
  Z.of_nat (length p) <= 512 - Z.of_nat (length c) mod 512 ->
  let d := splice (Z.to_nat (Z.of_nat (length c) mod 512)) p (blk s x) in
  disk_ok (put s x d) /\ holds (put s x d) bs ib (c ++ p) /\ kept s (put s x d) (own bs ib).
Proof.
  intros Hs Hh Hp Hx Hlen d. set (n := length c) in *.
  pose proof Hh as [H1 H2 H3 H4 H5 H6 H7 H8]. rewrite Forall_forall in H8.
  assert (Hxo : x ∈ own bs ib) by (apply elem_of_app; left; by eapply list_elem_of_lookup_2).
  pose proof (H8 x Hxo) as Hxr. pose proof (dk_free _ Hs) as Hfr.
  assert (Hbx : block_ok (blk s x)) by (apply blk_ok; [done|lia]).
  assert (Hxl : length (blk s x) = 512%nat) by apply Hbx.
  assert (Hj : (Z.to_nat (Z.of_nat n / 512) < length bs)%nat) by (by eapply lookup_lt_Some).
  assert (Hnd : NoDup bs) by (unfold own in H6; by apply NoDup_app in H6 as [H6 _]).
  assert (Hib : (12 < length bs)%nat -> ib <> x).
  { intros Hl ->. unfold own in H6. specialize (H7 Hl). rewrite (proj2 (Z.eqb_neq x 0) H7) in H6.
    apply NoDup_app in H6 as (_ & H & _). apply (H x); [by eapply list_elem_of_lookup_2|set_solver]. }
  split; [apply put_disk_ok; [done|lia|]; apply splice_block; [done|dlia|done]|].
  split; [|split_and!; [done|cbn; lia|]; intros b Hb Ho; rewrite blk_put_ne; [done|]; by intros ->].
  constructor; try done.
  - rewrite length_app. fold n. dlia.
  - intros Hl k Hk. rewrite blk_put_ne by (by apply Hib). auto.
  - intros k Hk. pose proof (Nat.div_mod_eq k 512). pose proof (Nat.mod_upper_bound k 512 ltac:(lia)).
    assert (Hq : (k / 512 < length bs)%nat) by (apply Nat.Div0.div_lt_upper_bound; lia).
    pose proof (H5 k Hk) as Hold. destruct (lookup_lt_is_Some_2 bs _ Hq) as [b Hb]. rewrite Hb in *.
    cbn [default from_option id] in *.
    destruct (decide (b = x)) as [->|Hne].
    + assert (Heq : (k / 512)%nat = Z.to_nat (Z.of_nat n / 512)) by (eapply NoDup_lookup; eauto).
      rewrite blk_put. unfold d.
      assert (Hk2 : Z.of_nat k = 512 * (Z.of_nat n / 512) + Z.of_nat (k mod 512)) by dlia.
      destruct (decide (n <= k < n + length p)%nat) as [Hin|Hout].
      * rewrite lookup_splice_in by (rewrite ?Hxl; dlia). rewrite lookup_app_r by (fold n; lia). fold n.
        do 2 f_equal. dlia.
      * rewrite lookup_splice_out by (rewrite ?Hxl; dlia). rewrite Hold.
        destruct (decide (k < n)%nat); [by rewrite lookup_app_l by (fold n; lia)|].
        rewrite !lookup_ge_None_2; [done|rewrite length_app; fold n; lia|fold n; lia].
    + rewrite blk_put_ne by done. rewrite Hold.
      assert (Heq : (k / 512)%nat <> Z.to_nat (Z.of_nat n / 512)) by (intros He; rewrite He in Hb; congruence).
      assert (Hout : (k < n \/ n + length p <= k)%nat) by dlia.
      destruct Hout; [by rewrite lookup_app_l by (fold n; lia)|].
      rewrite !lookup_ge_None_2; [done|rewrite length_app; fold n; lia|fold n; lia].
  - by apply Forall_forall.
Qed.

(** ** [iappend] *)

Lemma nb_mono a b : a <= b -> nb a <= nb b.
Proof. unfold nb. intros. dlia. Qed.

Lemma need_mono a b : a <= b -> need a <= need b.
Proof. intros H. pose proof (nb_mono a b H). unfold need, with_indirect. zcase; lia. Qed.

(** [iappend] in memory: the file held [c] and now holds [c ++ p]. *)
Definition appended (s s' : state) (bs bs' : list Z) (ib ib' : Z) (c p : list Z) : Prop :=
  disk_ok s' /\ holds s' bs' ib' (c ++ p) /\ Z.of_nat (length bs') = nb (Z.of_nat (length (c ++ p))) /\
  freeblock s' = freeblock s + need (Z.of_nat (length (c ++ p))) - need (Z.of_nat (length c)) /\
  kept s s' (own bs ib) /\ forall b, b ∈ own bs' ib' -> b ∈ own bs ib \/ freeblock s <= b.

Lemma appended_nil s bs ib c din :
  disk_ok s -> holds s bs ib c -> Z.of_nat (length bs) = nb (Z.of_nat (length c)) -> d_addrs din = addrs_of bs ib ->
  exists bs' ib' s',
    ret (din, Z.of_nat (length c)) s = Done (with_addrs din (addrs_of bs' ib'), Z.of_nat (length (c ++ []))) s' /\
    appended s s' bs bs' ib ib' c [].
Proof.
  intros Hs Hh Hbs Hdin. exists bs, ib, s. unfold appended. rewrite app_nil_r.
  split; [rewrite <- Hdin; by destruct din|]. split; [done|]. split; [done|]. split; [done|]. split; [lia|].
  split; [apply kept_refl|auto].
Qed.

Lemma iappend_loop_ok n : forall s bs ib c din p,
  (length p <= n)%nat -> disk_ok s -> holds s bs ib c -> Z.of_nat (length bs) = nb (Z.of_nat (length c)) ->
  d_addrs din = addrs_of bs ib -> Forall (field_ok 8) p -> Z.of_nat (length (c ++ p)) <= 71680 ->
  freeblock s + need (Z.of_nat (length (c ++ p))) - need (Z.of_nat (length c)) <= 1000 ->
  exists bs' ib' s',
    iappend_loop n din (Z.of_nat (length c)) p s =
      Done (with_addrs din (addrs_of bs' ib'), Z.of_nat (length (c ++ p))) s' /\
    appended s s' bs bs' ib ib' c p.
Proof.
  induction n as [|n IH]; intros s bs ib c din p Hn Hs Hh Hbs Hdin Hp Hmax Hfit.
  { destruct p; [|simpl in Hn; lia]. by apply appended_nil. }
  destruct p as [|y p0]; [by apply appended_nil|].
  cbn [iappend_loop]. set (p := y :: p0) in *. set (off := Z.of_nat (length c)) in *.
  assert (Hpl : (1 <= length p)%nat) by (simpl; lia).
  rewrite length_app in Hmax, Hfit. fold off in Hfit. rewrite Nat2Z.inj_add in Hmax, Hfit. fold off in Hmax, Hfit.
  assert (Hoff : 0 <= off < 71680) by lia.
  assert (Hfbn : 0 <= off / 512 < 140) by dlia.
  unfold assert at 1. unfold bind at 1. change BSIZE with 512. change MAXFILE with 140.
  rewrite (proj2 (Z.ltb_lt _ 140)) by lia.
  pose proof (need_mono (off + 1) (off + Z.of_nat (length p)) ltac:(lia)) as Hmono.
  destruct (find_block_ok s bs ib c din Hs Hh Hbs Hdin ltac:(lia) ltac:(fold off; lia)) as (bs1 & ib1 & x & s1 & Hf & Hfound).
  fold off in Hf. rewrite (bind_done _ _ _ _ _ Hf). cbn [fst snd].
  destruct Hfound as (Hs1 & Hh1 & Hlen1 & Hx & Hfree1 & Hk1 & Hown1). fold off in Hlen1, Hx, Hfree1.
  set (m := Z.min (Z.of_nat (length p)) (((off / 512 + 1) *u 512) -u off)).
  assert (Hm : m = Z.min (Z.of_nat (length p)) (512 - off mod 512)).
  { unfold m. f_equal. rewrite (u32_id ((off / 512 + 1) * 512)) by dlia. rewrite u32_id by dlia. dlia. }
  assert (Hm1 : 1 <= m <= 512 - off mod 512) by dlia.
  assert (Hxr : 59 <= x < 1000).
  { pose proof (h_own _ _ _ _ Hh1) as H. rewrite Forall_forall in H. pose proof (dk_free _ Hs1).
    assert (Hin : x ∈ own bs1 ib1) by (apply elem_of_app; left; by eapply list_elem_of_lookup_2).
    specialize (H x Hin). lia. }
  rewrite (bind_done _ _ _ _ _ (rsect_ok s1 x Hs1 ltac:(lia))).
  replace (off - off / 512 * 512) with (off mod 512) by dlia.
  rewrite (bind_done _ _ _ _ _ (wsect_ok s1 x _ ltac:(lia))).
  assert (Hp1 : length (take (Z.to_nat m) p) = Z.to_nat m) by (rewrite length_take; lia).
  destruct (write_piece s1 bs1 ib1 c (take (Z.to_nat m) p) x Hs1 Hh1 ltac:(by apply Forall_take) Hx ltac:(fold off; lia))
    as (Hs2 & Hh2 & Hk2). fold off in Hs2, Hh2, Hk2.
  set (s2 := put s1 x _) in *.
  assert (Hoff2 : Z.of_nat (length (c ++ take (Z.to_nat m) p)) = off + m) by (rewrite length_app, Hp1; lia).
  assert (Hnb : nb (off + 1) = nb (off + m)) by (unfold nb; dlia).
  assert (Happ : (c ++ take (Z.to_nat m) p) ++ drop (Z.to_nat m) p = c ++ p) by (by rewrite <- app_assoc, take_drop).
  rewrite (u32_id (off + m)) by lia. rewrite <- Hoff2.
  assert (Hne : need (off + 1) = need (off + m)) by (unfold need; by rewrite Hnb).
  assert (Hf2 : freeblock s2 = freeblock s + need (off + m) - need off) by (change (freeblock s2) with (freeblock s1); lia).
  destruct (IH s2 bs1 ib1 (c ++ take (Z.to_nat m) p) (with_addrs din (addrs_of bs1 ib1)) (drop (Z.to_nat m) p))
    as (bs3 & ib3 & s3 & Hl3 & Hs3 & Hh3 & Hlen3 & Hf3 & Hk3 & Hown3).
  - rewrite length_drop. lia.
  - exact Hs2.
  - exact Hh2.
  - by rewrite Hoff2, Hlen1, Hnb.
  - done.
  - by apply Forall_drop.
  - rewrite Happ, length_app. lia.
  - rewrite Happ, length_app, Hoff2, Hf2. fold off. rewrite Nat2Z.inj_add. fold off. lia.
  - exists bs3, ib3, s3. rewrite Happ in *. split; [exact Hl3|].
    split; [done|]. split; [done|]. split; [done|].
    split; [rewrite Hf3, Hoff2, Hf2; fold off; lia|]. split.
    + eapply kept_trans; [exact Hk1|eapply kept_trans; [exact Hk2|exact Hk3|by left]|exact Hown1].
    + intros b Hb. destruct (Hown3 b Hb) as [H|H]; [by apply Hown1|]. right.
      pose proof (need_mono off (off + m) ltac:(lia)). lia.
Qed.

(** ** The whole image *)

(** A file as the image shows it: its type, size, blocks and contents. *)
Record filespec := File { f_type : Z; f_size : Z; f_bs : list Z; f_ib : Z; f_data : list Z }.

Definition f_own (x : filespec) : list Z := own (f_bs x) (f_ib x).
Definition dinode_of (x : filespec) : dinode := Dinode (f_type x) 0 0 1 (f_size x) (addrs_of (f_bs x) (f_ib x)).

Definition inode_at (s : state) (inum : Z) : dinode := get_dinode (blk s (IBLOCK inum sb)) inum.

Definition total (L : list filespec) : Z := foldr (fun x n => need (Z.of_nat (length (f_data x))) + n) 0 L.

Record file_in (s : state) (x : filespec) : Prop := {
  fi_holds : holds s (f_bs x) (f_ib x) (f_data x);
  fi_blocks : Z.of_nat (length (f_bs x)) = nb (Z.of_nat (length (f_data x)));
  fi_size : 0 <= f_size x < 2 ^ 32;
  fi_type : - 2 ^ 15 <= f_type x < 2 ^ 15 }.

(** The image [s] holds the files [L], the first with inode number 1: each has its inode
    and its blocks, no block belongs to two files, and [freeblock] counts them. *)
Record image_ok (s : state) (L : list filespec) : Prop := {
  im_disk : disk_ok s;
  im_next : freeinode s = Z.of_nat (length L) + 1;
  im_few : (length L <= 199)%nat;
  im_inode : forall i x, L !! i = Some x -> inode_at s (Z.of_nat i + 1) = dinode_of x;
  im_file : forall i x, L !! i = Some x -> file_in s x;
  im_disj : forall i j x y, i <> j -> L !! i = Some x -> L !! j = Some y -> forall b, b ∈ f_own x -> b ∉ f_own y;
  im_free : freeblock s = 59 + total L }.

(** The blocks before the inodes and the bitmap. *)
Definition low (s s' : state) : Prop := forall b, 0 <= b < 32 \/ b = 58 -> blk s' b = blk s b.

Lemma low_trans s1 s2 s3 : low s1 s2 -> low s2 s3 -> low s1 s3.
Proof. intros H1 H2 b Hb. rewrite H2 by done. auto. Qed.

Lemma iblock_eq inum : 0 <= inum < 208 -> IBLOCK inum sb = inum / 8 + 32.
Proof. intros H. unfold IBLOCK, IPB. change (sb_inodestart sb) with 32. change (BSIZE / sizeof_dinode) with 8. rewrite u32_id; [done|dlia]. Qed.

Lemma file_wf s x : file_in s x -> freeblock s <= 1000 -> dinode_wf (dinode_of x).
Proof.
  intros [Hh Hb Hsz Hty] Hf. unfold dinode_wf, dinode_of. cbn. pose proof (h_own _ _ _ _ Hh) as Ho. rewrite Forall_forall in Ho.
  split_and!; try lia; [apply length_addrs_of|]. apply Forall_forall. intros a Ha.
  unfold addrs_of in Ha. rewrite !elem_of_app in Ha. destruct Ha as [Ha|[Ha|Ha]].
  - assert (Hin : a ∈ own (f_bs x) (f_ib x)).
    { apply elem_of_app. left. apply list_elem_of_lookup in Ha as [k Hk]. apply lookup_take_Some in Hk as [Hk _]. by eapply list_elem_of_lookup_2. }
    specialize (Ho a Hin). lia.
  - apply elem_of_replicate in Ha as [-> _]. lia.
  - apply list_elem_of_singleton in Ha as ->. destruct (Z.eqb_spec (f_ib x) 0) as [->|Hne]; [lia|].
    assert (Hin : f_ib x ∈ own (f_bs x) (f_ib x)) by (unfold own; rewrite (proj2 (Z.eqb_neq _ 0) Hne); set_solver).
    specialize (Ho _ Hin). lia.
Qed.

(** Writing an inode: that inode changes and nothing else does. *)
Lemma winode_ok s inum x : disk_ok s -> 0 <= inum < 208 -> dinode_wf x ->
  exists s', winode inum x s = Done tt s' /\ disk_ok s' /\ inode_at s' inum = x /\
    (forall j, 0 <= j < 208 -> j <> inum -> inode_at s' j = inode_at s j) /\
    freeblock s' = freeblock s /\ freeinode s' = freeinode s /\
    forall b, 0 <= b < 32 \/ 58 <= b -> blk s' b = blk s b.
Proof.
  intros Hs Hi Hx. pose proof (iblock_eq inum Hi) as Hb.
  assert (Hr : 32 <= inum / 8 + 32 < 58) by dlia. pose proof (dk_free _ Hs).
  destruct (dinode_put_get (blk s (inum / 8 + 32)) inum x ltac:(apply blk_ok; [done|lia]) Hx) as (P1 & P2 & P3).
  exists (put s (inum / 8 + 32) (put_dinode (blk s (inum / 8 + 32)) inum x)).
  split; [unfold winode; rewrite Hb; rewrite (bind_done _ _ _ _ _ (rsect_ok s (inum / 8 + 32) Hs ltac:(lia))); apply wsect_ok; lia|].
  split; [apply put_disk_ok; [done|lia|done]|].
  split; [unfold inode_at; by rewrite Hb, blk_put|]. split; [|split; [done|split; [done|]]].
  - intros j Hj Hne. unfold inode_at. rewrite (iblock_eq j Hj). destruct (decide (j / 8 = inum / 8)) as [He|He].
    + rewrite He, blk_put. apply P3. unfold IPB. change (BSIZE / sizeof_dinode) with 8. dlia.
    + by rewrite blk_put_ne by lia.
  - intros b Hb'. by rewrite blk_put_ne by lia.
Qed.

Lemma rinode_ok s inum : disk_ok s -> 0 <= inum < 208 -> rinode inum s = Done (inode_at s inum) s.
Proof.
  intros Hs Hi. pose proof (iblock_eq inum Hi) as Hb. unfold rinode.
  rewrite (bind_done _ _ _ _ _ (rsect_ok s (IBLOCK inum sb) Hs ltac:(rewrite Hb; dlia))). done.
Qed.

Lemma file_in_kept s s' o x : kept s s' o -> (forall b, b ∈ f_own x -> b ∉ o) -> file_in s x -> file_in s' x.
Proof. intros Hk Hd [H1 H2 H3 H4]. constructor; try done. by eapply holds_kept. Qed.

(** Only inode blocks differ. *)
Lemma file_in_same s s' x : freeblock s' = freeblock s -> freeinode s' = freeinode s ->
  (forall b, 0 <= b < 32 \/ 58 <= b -> blk s' b = blk s b) -> file_in s x -> file_in s' x.
Proof.
  intros Hf Hn Hb Hx. apply (file_in_kept s s' (seqZ 32 26)); [| |done].
  - split; [done|]. split; [lia|]. intros b Hb1 Hb2. apply Hb. rewrite elem_of_seqZ in Hb2. lia.
  - intros b Ho. pose proof (h_own _ _ _ _ (fi_holds _ _ Hx)) as H. rewrite Forall_forall in H.
    specialize (H b Ho). rewrite elem_of_seqZ. lia.
Qed.

Lemma total_app L x : total (L ++ [x]) = total L + need (Z.of_nat (length (f_data x))).
Proof. unfold total. induction L as [|y L IH]; cbn; [lia|]. rewrite IH. lia. Qed.

Lemma total_insert L i x y : L !! i = Some x ->
  total (<[i := y]> L) = total L - need (Z.of_nat (length (f_data x))) + need (Z.of_nat (length (f_data y))).
Proof.
  unfold total. revert i. induction L as [|z L IH]; intros i Hi; [done|]. destruct i as [|i]; cbn in *.
  - injection Hi as ->. lia.
  - rewrite IH by done. lia.
Qed.

Lemma kept_inodes s s' x j : disk_ok s -> file_in s x -> kept s s' (f_own x) -> 0 <= j < 208 -> inode_at s' j = inode_at s j.
Proof.
  intros Hs Hx (_ & _ & Hk) Hj. unfold inode_at. pose proof (iblock_eq j Hj). pose proof (dk_free _ Hs).
  rewrite Hk; [done|dlia|]. intros Hin.
  pose proof (h_own _ _ _ _ (fi_holds _ _ Hx)) as H1. rewrite Forall_forall in H1. specialize (H1 _ Hin). dlia.
Qed.

Lemma kept_low s s' x : disk_ok s -> file_in s x -> kept s s' (f_own x) -> low s s'.
Proof.
  intros Hs Hx (_ & _ & Hk) b Hb. pose proof (dk_free _ Hs). apply Hk; [lia|]. intros Hin.
  pose proof (h_own _ _ _ _ (fi_holds _ _ Hx)) as H1. rewrite Forall_forall in H1. specialize (H1 _ Hin). lia.
Qed.

(** The file a file becomes when [p] is appended to it. *)
Definition grown (x : filespec) (bs : list Z) (ib : Z) (p : list Z) : filespec :=
  File (f_type x) (Z.of_nat (length (f_data x ++ p))) bs ib (f_data x ++ p).

(** The image after the inode of file [i] is written, its blocks being in place. *)
Lemma image_replace s s1 s2 L i x y :
  image_ok s L -> L !! i = Some x -> disk_ok s1 -> kept s s1 (f_own x) -> file_in s1 y ->
  (forall b, b ∈ f_own y -> b ∈ f_own x \/ freeblock s <= b) ->
  freeblock s1 = freeblock s + need (Z.of_nat (length (f_data y))) - need (Z.of_nat (length (f_data x))) ->
  disk_ok s2 -> inode_at s2 (Z.of_nat i + 1) = dinode_of y ->
  (forall j, 0 <= j < 208 -> j <> Z.of_nat i + 1 -> inode_at s2 j = inode_at s1 j) ->
  freeblock s2 = freeblock s1 -> freeinode s2 = freeinode s1 ->
  (forall b, 0 <= b < 32 \/ 58 <= b -> blk s2 b = blk s1 b) ->
  image_ok s2 (<[i := y]> L).
Proof.
  intros HL Hi Hs1 Hk Hy Hown Hfree Hs2 Hin Hother Hf2 Hn2 Hb2.
  pose proof (im_file _ _ HL i x Hi) as Hx. pose proof (im_few _ _ HL) as Hfew.
  assert (Hil : (i < length L)%nat) by (by eapply lookup_lt_Some).
  assert (Hlook : forall j z, <[i := y]> L !! j = Some z -> (j = i /\ z = y) \/ (j <> i /\ L !! j = Some z)).
  { intros j z Hj. destruct (decide (j = i)) as [->|Hne]; [left|right].
    - rewrite list_lookup_insert_eq in Hj by done. by injection Hj.
    - by rewrite list_lookup_insert_ne in Hj by done. }
  constructor.
  - done.
  - rewrite length_insert, Hn2. destruct Hk as (-> & _). apply HL.
  - by rewrite length_insert.
  - intros j z Hj. destruct (Hlook j z Hj) as [[-> ->]|[Hne Hz]]; [done|].
    assert (Hjl : (j < length L)%nat) by (by eapply lookup_lt_Some).
    rewrite Hother by lia. rewrite (kept_inodes s s1 x) by (try apply HL; try done; lia). by apply (im_inode _ _ HL).
  - intros j z Hj. apply (file_in_same s1); [done|done|done|].
    destruct (Hlook j z Hj) as [[-> ->]|[Hne Hz]]; [done|].
    apply (file_in_kept s s1 (f_own x)); [done| |by apply (im_file _ _ HL j)].
    intros b Hb. by apply (im_disj _ _ HL j i z x).
  - assert (Hcase : forall j z, j <> i -> L !! j = Some z -> forall b, b ∈ f_own z -> b ∉ f_own y).
    { intros j z Hne Hz b Hbz Hby. destruct (Hown b Hby) as [Hbx|Hge]; [by apply (im_disj _ _ HL j i z x Hne Hz Hi b)|].
      pose proof (h_own _ _ _ _ (fi_holds _ _ (im_file _ _ HL j z Hz))) as Ho. rewrite Forall_forall in Ho.
      specialize (Ho b Hbz). lia. }
    intros j k u v Hne Hj Hk' b Hbu Hbv.
    destruct (Hlook j u Hj) as [[-> ->]|[Hnj Hu]], (Hlook k v Hk') as [[-> ->]|[Hnk Hv]]; [done| | |].
    + by apply (Hcase k v Hnk Hv b).
    + by apply (Hcase j u Hnj Hu b).
    + by apply (im_disj _ _ HL j k u v Hne Hu Hv b).
  - rewrite (total_insert L i x y Hi), Hf2, Hfree, (im_free _ _ HL). lia.
Qed.

Lemma iappend_ok s L i x p :
  image_ok s L -> L !! i = Some x -> f_size x = Z.of_nat (length (f_data x)) -> Forall (field_ok 8) p ->
  Z.of_nat (length (f_data x ++ p)) <= 71680 ->
  freeblock s + need (Z.of_nat (length (f_data x ++ p))) - need (Z.of_nat (length (f_data x))) <= 1000 ->
  exists s' bs' ib', iappend (Z.of_nat i + 1) p s = Done tt s' /\
    image_ok s' (<[i := grown x bs' ib' p]> L) /\ low s s'.
Proof.
  intros HL Hi Hsz Hp Hmax Hfit. pose proof (im_disk _ _ HL) as Hs. pose proof (im_few _ _ HL) as Hfew.
  pose proof (im_file _ _ HL i x Hi) as Hx. assert (Hil : (i < length L)%nat) by (by eapply lookup_lt_Some).
  unfold iappend. rewrite (bind_done _ _ _ _ _ (rinode_ok s (Z.of_nat i + 1) Hs ltac:(lia))).
  rewrite (im_inode _ _ HL i x Hi). rewrite length_app in Hmax.
  destruct (iappend_loop_ok (length p) s (f_bs x) (f_ib x) (f_data x) (dinode_of x) p ltac:(lia) Hs (fi_holds _ _ Hx)
    (fi_blocks _ _ Hx) eq_refl Hp ltac:(rewrite length_app; lia) Hfit)
    as (bs' & ib' & s1 & Hrun & Hs1 & Hh1 & Hlen1 & Hfree1 & Hk1 & Hown1).
  cbn [dinode_of d_size]. rewrite Hsz, xint_id by lia. rewrite (bind_done _ _ _ _ _ Hrun). cbn iota beta.
  rewrite xint_id by (rewrite length_app; lia).
  set (y := grown x bs' ib' p).
  assert (Hy : file_in s1 y).
  { constructor; [done|done| |apply Hx]. unfold y, grown. cbn [f_size]. rewrite length_app. lia. }
  destruct (winode_ok s1 (Z.of_nat i + 1) (dinode_of y) Hs1 ltac:(lia) (file_wf s1 y Hy (proj2 (dk_free _ Hs1))))
    as (s2 & Hw & Hs2 & Hin & Hother & Hf2 & Hn2 & Hb2).
  exists s2, bs', ib'. split; [exact Hw|]. split.
  - by apply (image_replace s s1 s2 L i x y).
  - apply (low_trans s s1); [by apply (kept_low s s1 x)|]. intros b Hb. apply Hb2. lia.
Qed.

(** ** [ialloc] *)

Definition empty_file (type : Z) : filespec := File type 0 [] 0 [].

Lemma empty_file_in s type : disk_ok s -> - 2 ^ 15 <= type < 2 ^ 15 -> file_in s (empty_file type).
Proof.
  intros Hs Ht. constructor; cbn; try lia; [|done]. constructor; cbn; try lia; try constructor.
Qed.

Lemma ialloc_ok s L type : image_ok s L -> (length L < 199)%nat -> s16 (xshort type) = type ->
  exists s', ialloc type s = Done (Z.of_nat (length L) + 1) s' /\ image_ok s' (L ++ [empty_file type]) /\ low s s'.
Proof.
  intros HL Hl Ht. pose proof (im_disk _ _ HL) as Hs. pose proof (dk_free _ Hs) as Hf.
  pose proof (swrap_range 16 (xshort type) ltac:(lia)) as Hrange. fold (s16 (xshort type)) in Hrange. rewrite Ht in Hrange.
  set (s1 := State (img s) (Z.of_nat (length L) + 1 + 1) (freeblock s)).
  assert (Hnext : next_inode s = Done (Z.of_nat (length L) + 1) s1).
  { unfold next_inode, s1. rewrite (im_next _ _ HL). by rewrite u32_id by lia. }
  assert (Hs1 : disk_ok s1) by (destruct Hs; by constructor).
  pose proof (empty_file_in s1 type Hs1 ltac:(lia)) as Hx.
  destruct (winode_ok s1 (Z.of_nat (length L) + 1) (dinode_of (empty_file type)) Hs1 ltac:(lia) (file_wf s1 _ Hx ltac:(cbn; lia)))
    as (s2 & Hw & Hs2 & Hin & Hother & Hf2 & Hn2 & Hb2).
  exists s2. split; [|split].
  - unfold ialloc. rewrite (bind_done _ _ _ _ _ Hnext), Ht. change (s16 (xshort 1)) with 1. change (xint 0) with 0.
    rewrite (bind_done _ _ _ _ _ Hw). done.
  - assert (Hlook : forall j z, (L ++ [empty_file type]) !! j = Some z -> (j = length L /\ z = empty_file type) \/ L !! j = Some z).
    { intros j z Hj. apply lookup_app_Some in Hj as [Hj|[Hge Hj]]; [by right|left].
      apply list_lookup_singleton_Some in Hj as [Hj <-]. split; [lia|done]. }
    constructor.
    + done.
    + rewrite Hn2, length_app. cbn. lia.
    + rewrite length_app. cbn. lia.
    + intros j z Hj. destruct (Hlook j z Hj) as [[-> ->]|Hz]; [done|].
      assert (Hjl : (j < length L)%nat) by (by eapply lookup_lt_Some).
      rewrite Hother by lia. by apply (im_inode _ _ HL).
    + intros j z Hj. destruct (Hlook j z Hj) as [[-> ->]|Hz]; [by apply (file_in_same s1)|].
      apply (file_in_same s1); [done|done|done|].
      destruct (im_file _ _ HL j z Hz) as [F1 F2 F3 F4]. constructor; try done. destruct F1. by constructor.
    + intros j k u v Hne Hj Hk b Hbu Hbv.
      destruct (Hlook j u Hj) as [[-> ->]|Hu], (Hlook k v Hk) as [[-> ->]|Hv]; try (cbn in *; set_solver).
      by apply (im_disj _ _ HL j k u v Hne Hu Hv b).
    + rewrite total_app, Hf2. cbn [s1 freeblock empty_file f_data length]. rewrite (im_free _ _ HL).
      change (need (Z.of_nat 0)) with 0. lia.
  - intros b Hb. rewrite Hb2 by lia. done.
Qed.

(** ** The files of the command line *)

Lemma reads_ok reads : forall s L i x,
  image_ok s L -> L !! i = Some x -> f_size x = Z.of_nat (length (f_data x)) ->
  Forall (field_ok 8) (concat reads) ->
  Z.of_nat (length (f_data x ++ concat reads)) <= 71680 ->
  freeblock s + need (Z.of_nat (length (f_data x ++ concat reads))) - need (Z.of_nat (length (f_data x))) <= 1000 ->
  exists s' bs' ib', each reads (iappend (Z.of_nat i + 1)) s = Done tt s' /\
    image_ok s' (<[i := grown x bs' ib' (concat reads)]> L) /\ low s s'.
Proof.
  induction reads as [|p reads IH]; intros s L i x HL Hi Hsz Hp Hmax Hfit.
  - exists s, (f_bs x), (f_ib x). split; [done|]. split; [|by intros b Hb].
    cbn [concat]. unfold grown. rewrite app_nil_r, <- Hsz. rewrite list_insert_id; [done|]. by destruct x.
  - cbn [each concat] in *. apply Forall_app in Hp as [Hp1 Hp2]. rewrite app_assoc in Hmax, Hfit.
    assert (Hil : (i < length L)%nat) by (by eapply lookup_lt_Some).
    assert (Hlen : Z.of_nat (length (f_data x ++ p)) <= Z.of_nat (length ((f_data x ++ p) ++ concat reads)))
      by (rewrite (length_app (_ ++ _)); lia).
    pose proof (need_mono _ _ Hlen) as Hmono.
    destruct (iappend_ok s L i x p HL Hi Hsz Hp1 ltac:(lia) ltac:(lia)) as (s1 & bs1 & ib1 & Hrun & HL1 & Hlow1).
    rewrite (bind_done _ _ _ _ _ Hrun).
    destruct (IH s1 (<[i := grown x bs1 ib1 p]> L) i (grown x bs1 ib1 p) HL1 ltac:(by apply list_lookup_insert_eq)
      eq_refl Hp2 ltac:(cbn [grown f_data]; lia)) as (s2 & bs2 & ib2 & Hrun2 & HL2 & Hlow2).
    { cbn [grown f_data]. rewrite (im_free _ _ HL1), (total_insert L i x) by done. cbn [grown f_data].
      rewrite (im_free _ _ HL) in Hfit. lia. }
    exists s2, bs2, ib2. split; [done|]. split; [|by apply (low_trans s s1)].
    rewrite list_insert_insert_eq in HL2. unfold grown in *. cbn [f_data f_type] in HL2. by rewrite <- !app_assoc in HL2.
Qed.

(** A file to put in the image: its name and what the reads of it give. *)
Definition source : Type := list Z * list (list Z).

Definition source_ok (f : source) : Prop :=
  existsb (Z.eqb (ch "/")) f.1 = false /\ Forall (field_ok 8) f.1 /\
  Forall (field_ok 8) (concat f.2) /\ Z.of_nat (length (concat f.2)) <= 71680.

Definition arg_of (f : source) : arg := (f.1, Some f.2).

(** The root directory's entry for file number [k] of the command line (the first is 0). *)
Definition entry (k : nat) (f : source) : list Z := dirent (Z.of_nat k + 2) (skip_underscore f.1).

Lemma length_dirent inum name : length (dirent inum name) = 16%nat.
Proof.
  unfold dirent, mk_dirent. rewrite !length_app, length_unpack, length_take, length_replicate. unfold DIRSIZ. lia.
Qed.

Lemma dirent_bytes inum name : Forall (field_ok 8) name -> Forall (field_ok 8) (dirent inum name).
Proof.
  intros Hn. unfold dirent, mk_dirent. apply Forall_app. split; [apply unpack_ok; lia|].
  apply Forall_app. split; [by apply Forall_take|]. apply Forall_replicate. unfold field_ok. lia.
Qed.

Lemma skip_bytes name : Forall (field_ok 8) name -> Forall (field_ok 8) (skip_underscore name).
Proof. intros H. destruct name as [|c name]; [done|]. cbn. destruct (c =? ch "_"); [by inversion H|done]. Qed.

(** The blocks that the files and as many entries need. *)
Definition budget (files : list source) : Z :=
  foldr (fun f n => need (Z.of_nat (length (concat f.2))) + n) 0 files.

Lemma need_nonneg n : 0 <= n -> 0 <= need n.
Proof. intros. unfold need, with_indirect, nb. zcase; dlia. Qed.

Lemma budget_nonneg files : 0 <= budget files.
Proof. unfold budget. induction files as [|f files IH]; cbn; [lia|]. pose proof (need_nonneg (Z.of_nat (length (concat f.2))) ltac:(lia)). lia. Qed.

Lemma add_file_ok s root fs f :
  image_ok s (root :: fs) -> f_size root = Z.of_nat (length (f_data root)) -> source_ok f -> (length fs < 198)%nat ->
  Z.of_nat (length (f_data root)) + 16 <= 71680 ->
  freeblock s + need (Z.of_nat (length (f_data root)) + 16) - need (Z.of_nat (length (f_data root))) +
    need (Z.of_nat (length (concat f.2))) <= 1000 ->
  exists s' bs ib x, add_file 1 (arg_of f) s = Done tt s' /\
    image_ok s' (grown root bs ib (entry (length fs) f) :: fs ++ [x]) /\ low s s' /\
    f_type x = T_FILE /\ f_data x = concat f.2 /\ f_size x = Z.of_nat (length (f_data x)).
Proof.
  intros HL Hsz (Hslash & Hname & Hbytes & Hmax) Hl Hrmax Hfit.
  pose proof (need_mono (Z.of_nat (length (f_data root))) (Z.of_nat (length (f_data root)) + 16) ltac:(lia)) as Hmono.
  destruct (ialloc_ok s (root :: fs) T_FILE HL ltac:(simpl; lia) ltac:(reflexivity)) as (s1 & Hr1 & HL1 & Hlow1).
  set (en := entry (length fs) f). assert (Hen : length en = 16%nat) by apply length_dirent.
  assert (Hren : Z.of_nat (length (f_data root ++ en)) = Z.of_nat (length (f_data root)) + 16) by (rewrite length_app, Hen; lia).
  assert (Hf1 : freeblock s1 = freeblock s).
  { rewrite (im_free _ _ HL1), total_app, (im_free _ _ HL). change (need (Z.of_nat (length (f_data (empty_file T_FILE))))) with 0. lia. }
  pose proof (need_nonneg (Z.of_nat (length (concat f.2))) ltac:(lia)) as Hnn.
  destruct (iappend_ok s1 ((root :: fs) ++ [empty_file T_FILE]) 0 root en HL1 eq_refl Hsz
    ltac:(by apply dirent_bytes, skip_bytes) ltac:(lia) ltac:(rewrite Hren; lia)) as (s2 & bs & ib & Hr2 & HL2 & Hlow2).
  set (root' := grown root bs ib en) in *.
  change (<[0%nat := root']> ((root :: fs) ++ [empty_file T_FILE])) with ((root' :: fs) ++ [empty_file T_FILE]) in HL2.
  assert (Hlook : ((root' :: fs) ++ [empty_file T_FILE]) !! S (length fs) = Some (empty_file T_FILE)) by (by apply list_lookup_middle).
  destruct (reads_ok f.2 s2 _ (S (length fs)) (empty_file T_FILE) HL2 Hlook eq_refl Hbytes ltac:(cbn; lia))
    as (s3 & bs3 & ib3 & Hr3 & HL3 & Hlow3).
  { cbn [empty_file f_data app length]. change (need (Z.of_nat 0)) with 0.
    rewrite (im_free _ _ HL2), total_app. change (need (Z.of_nat (length (f_data (empty_file T_FILE))))) with 0.
    change (total (root' :: fs)) with (need (Z.of_nat (length (f_data root ++ en))) + total fs). rewrite Hren.
    rewrite (im_free _ _ HL) in Hfit. change (total (root :: fs)) with (need (Z.of_nat (length (f_data root))) + total fs) in Hfit. lia. }
  exists s3, bs, ib, (grown (empty_file T_FILE) bs3 ib3 (concat f.2)). split_and!; try done.
  - unfold add_file, arg_of. cbn [fst snd]. unfold assert. rewrite Hslash. unfold bind at 1. cbn [negb].
    rewrite (bind_done _ _ _ _ _ Hr1).
    replace (dirent (Z.of_nat (length (root :: fs)) + 1) (skip_underscore f.1)) with en
      by (unfold en, entry; f_equal; simpl length; lia).
    change 1 with (Z.of_nat 0 + 1) at 1. rewrite (bind_done _ _ _ _ _ Hr2).
    by replace (Z.of_nat (length (root :: fs)) + 1) with (Z.of_nat (S (length fs)) + 1) by (simpl length; lia).
  - replace (grown root bs ib en :: fs ++ [grown (empty_file T_FILE) bs3 ib3 (concat f.2)])
      with (<[S (length fs) := grown (empty_file T_FILE) bs3 ib3 (concat f.2)]> ((root' :: fs) ++ [empty_file T_FILE])); [done|].
    rewrite insert_app_r_alt by (simpl; lia). by replace (S (length fs) - length (root' :: fs))%nat with 0%nat by (simpl; lia).
  - eapply low_trans; [exact Hlow1|]. by eapply low_trans.
Qed.

(** The entries of the files from number [k] on. *)
Fixpoint entries (k : nat) (files : list source) : list Z :=
  match files with [] => [] | f :: files => entry k f ++ entries (S k) files end.

Lemma length_entries files : forall k, length (entries k files) = (16 * length files)%nat.
Proof. induction files as [|f files IH]; intros k; cbn [entries length]; [lia|]. rewrite length_app, IH. unfold entry. rewrite length_dirent. lia. Qed.

(** What the image has for a file of the command line. *)
Definition stored (f : source) (x : filespec) : Prop :=
  f_type x = T_FILE /\ f_data x = concat f.2 /\ f_size x = Z.of_nat (length (f_data x)).

Lemma files_ok files : forall s root fs,
  image_ok s (root :: fs) -> f_size root = Z.of_nat (length (f_data root)) -> Forall source_ok files ->
  (length fs + length files <= 198)%nat -> Z.of_nat (length (f_data root)) + 16 * Z.of_nat (length files) <= 71680 ->
  freeblock s + need (Z.of_nat (length (f_data root)) + 16 * Z.of_nat (length files)) - need (Z.of_nat (length (f_data root))) +
    budget files <= 1000 ->
  exists s' bs ib xs, each (map arg_of files) (add_file 1) s = Done tt s' /\
    image_ok s' (grown root bs ib (entries (length fs) files) :: fs ++ xs) /\ low s s' /\ Forall2 stored files xs.
Proof.
  induction files as [|f files IH]; intros s root fs HL Hsz Hok Hl Hmax Hfit.
  - exists s, (f_bs root), (f_ib root), []. cbn. split; [done|]. rewrite app_nil_r.
    unfold grown. rewrite app_nil_r, <- Hsz. split; [by destruct root|]. split; [by intros b Hb|constructor].
  - apply Forall_cons_1 in Hok as [Hf Hok]. cbn [length budget foldr] in *. fold (budget files) in Hfit.
    pose proof (budget_nonneg files) as Hb. set (r := Z.of_nat (length (f_data root))) in *.
    pose proof (need_mono (r + 16) (r + 16 * Z.of_nat (S (length files))) ltac:(lia)) as Hmono.
    destruct (add_file_ok s root fs f HL Hsz Hf ltac:(lia) ltac:(lia) ltac:(fold r; lia))
      as (s1 & bs & ib & x & Hr1 & HL1 & Hlow1 & Ht & Hd & Hxs).
    set (root1 := grown root bs ib (entry (length fs) f)) in *.
    assert (Hroot1 : Z.of_nat (length (f_data root1)) = r + 16).
    { unfold root1, grown, entry. cbn [f_data]. rewrite length_app, length_dirent. lia. }
    assert (Hf1 : freeblock s1 = freeblock s + need (r + 16) - need r + need (Z.of_nat (length (concat f.2)))).
    { rewrite (im_free _ _ HL1), (im_free _ _ HL). rewrite app_comm_cons, total_app, Hd.
      change (total (root1 :: fs)) with (need (Z.of_nat (length (f_data root1))) + total fs). rewrite Hroot1.
      change (total (root :: fs)) with (need r + total fs). lia. }
    destruct (IH s1 root1 (fs ++ [x]) HL1 eq_refl Hok ltac:(rewrite length_app; simpl; lia) ltac:(lia))
      as (s2 & bs2 & ib2 & xs & Hr2 & HL2 & Hlow2 & Hxs2).
    { rewrite Hroot1, Hf1. replace (r + 16 + 16 * Z.of_nat (length files)) with (r + 16 * Z.of_nat (S (length files))) by lia. lia. }
    exists s2, bs2, ib2, (x :: xs). split_and!.
    + cbn [map each]. by rewrite (bind_done _ _ _ _ _ Hr1).
    + rewrite length_app in HL2. cbn [length] in HL2. rewrite Nat.add_1_r, <- app_assoc in HL2. cbn [app] in HL2.
      cbn [entries]. unfold root1, grown in *. cbn [f_data f_type] in HL2. by rewrite <- !app_assoc in HL2.
    + by eapply low_trans.
    + by constructor.
Qed.

(** ** The empty image *)

Lemma zeroed l : forall s, Forall (fun b => 0 <= b < 1000) l ->
  exists s', each l (fun i => wsect i zero_block) s = Done tt s' /\
    freeinode s' = freeinode s /\ freeblock s' = freeblock s /\
    forall b, img s' !! b = if decide (b ∈ l) then Some zero_block else img s !! b.
Proof.
  induction l as [|i l IH]; intros s Hl.
  - exists s. by split_and!.
  - apply Forall_cons_1 in Hl as [Hi Hl]. destruct (IH (put s i zero_block) Hl) as (s' & Hr & H1 & H2 & H3).
    exists s'. split; [cbn [each]; by rewrite (bind_done _ _ _ _ _ (wsect_ok s i zero_block Hi))|].
    split; [done|]. split; [done|]. intros b. rewrite H3. cbn.
    destruct (decide (b ∈ l)) as [Hl1|Hl1], (decide (b ∈ i :: l)) as [Hl2|Hl2]; [done|set_solver| |].
    + apply elem_of_cons in Hl2 as [->|Hl2]; [by rewrite lookup_insert_eq|done].
    + by rewrite lookup_insert_ne by set_solver.
Qed.

Lemma blank_ok : exists s, each (seqZ 0 FSSIZE) (fun i => wsect i zero_block) (State ∅ 1 nmeta) = Done tt s /\
  image_ok s [] /\ forall b, 0 <= b < 1000 -> blk s b = zero_block.
Proof.
  destruct (zeroed (seqZ 0 FSSIZE) (State ∅ 1 nmeta)) as (s & Hr & Hn & Hf & Hb).
  { apply Forall_forall. intros b Hb%elem_of_seqZ. unfold FSSIZE in Hb. lia. }
  assert (Hin : forall b, 0 <= b < 1000 -> img s !! b = Some zero_block).
  { intros b Hb'. rewrite Hb. rewrite decide_True; [done|]. apply elem_of_seqZ. unfold FSSIZE. lia. }
  exists s. split; [done|]. assert (Hz : forall b, 0 <= b < 1000 -> blk s b = zero_block) by (intros b Hb'; unfold blk; by rewrite Hin).
  split; [|done]. change (freeblock s = 59) in Hf. constructor; try done.
  - constructor; [|lia|intros b Hb'; apply Hz; lia]. intros b Hb'. exists zero_block. split; [auto|apply zero_block_ok].
  - simpl; lia.
Qed.

(** ** Blocks that no file owns *)

Lemma image_other s s' L o : image_ok s L -> disk_ok s' -> freeblock s' = freeblock s -> freeinode s' = freeinode s ->
  (0 <= o < 32 \/ o = 58) -> (forall b, b <> o -> blk s' b = blk s b) -> image_ok s' L.
Proof.
  intros HL Hs' Hf Hn Ho Hb. destruct HL as [I1 I2 I3 I4 I5 I6 I7]. constructor; try done; try congruence.
  - intros i x Hi. rewrite <- (I4 i x Hi). unfold inode_at. assert (Hil : (i < length L)%nat) by (by eapply lookup_lt_Some).
    rewrite Hb; [done|]. rewrite iblock_eq by lia. dlia.
  - intros i x Hi. apply (file_in_kept s s' [o]); [| |by apply (I5 i)].
    + split; [done|]. split; [lia|]. intros b _ Hne. apply Hb. set_solver.
    + intros b Hin ->%list_elem_of_singleton. pose proof (h_own _ _ _ _ (fi_holds _ _ (I5 i x Hi))) as H.
      rewrite Forall_forall in H. specialize (H o Hin). lia.
Qed.

(** ** The bitmap *)

Definition bit_of (buf : list Z) (b : Z) : bool := Z.testbit (nth (Z.to_nat (b / 8)) buf 0) (b mod 8).

Lemma set_bit_spec buf i b : 0 <= i < 8 * Z.of_nat (length buf) -> 0 <= b ->
  bit_of (set_bit buf i) b = (b =? i) || bit_of buf b.
Proof.
  intros Hi Hb. unfold bit_of, set_bit. set (q := Z.to_nat (i / 8)).
  assert (Hq : (q < length buf)%nat) by (unfold q; dlia).
  destruct (decide (Z.to_nat (b / 8) = q)) as [He|Hne].
  - rewrite He, !nth_lookup, list_lookup_insert_eq by done. cbn [default from_option id].
    rewrite Z.lor_spec, Z.shiftl_spec by dlia.
    destruct (Z.eqb_spec b i) as [->|Hbi].
    + rewrite Z.sub_diag. cbn. by rewrite orb_true_r.
    + assert (Hm : b mod 8 <> i mod 8) by (unfold q in He; dlia).
      cbn [orb]. destruct (Z_lt_le_dec (b mod 8 - i mod 8) 0) as [Hneg|Hpos].
      * rewrite (Z.testbit_neg_r 1) by lia. by rewrite orb_false_r.
      * rewrite (testbit_small 1 1) by lia. by rewrite orb_false_r.
  - rewrite !nth_lookup, list_lookup_insert_ne by congruence.
    destruct (Z.eqb_spec b i) as [->|]; [done|]. done.
Qed.

Lemma length_set_bit buf i : length (set_bit buf i) = length buf.
Proof. apply length_insert. Qed.

Lemma set_bit_bytes buf i : Forall (field_ok 8) buf -> 0 <= i -> Forall (field_ok 8) (set_bit buf i).
Proof.
  intros Hb Hi. unfold set_bit. apply Forall_insert; [done|]. set (x := nth _ buf 0).
  assert (Hx : 0 <= x < 2 ^ 8).
  { unfold x. rewrite nth_lookup. destruct (buf !! _) eqn:E; [|cbn; lia]. rewrite Forall_lookup in Hb. by apply (Hb _ _ E). }
  unfold field_ok. split; [apply Z.lor_nonneg; split; [lia|apply Z.shiftl_nonneg; lia]|].
  destruct (Z.eq_dec (Z.lor x (Z.shiftl 1 (i mod 8))) 0) as [->|Hnz]; [lia|].
  apply Z.log2_lt_pow2; [|rewrite Z.log2_lor by (try apply Z.shiftl_nonneg; lia)].
  - assert (0 <= Z.lor x (Z.shiftl 1 (i mod 8))) by (apply Z.lor_nonneg; split; [lia|apply Z.shiftl_nonneg; lia]). lia.
  - rewrite Z.log2_shiftl by dlia. cbn [Z.log2]. pose proof (Z.log2_lt_pow2 x 8). pose proof (Z.log2_nonpos x).
    destruct (Z_lt_le_dec 0 x); dlia.
Qed.

Lemma bitmap_spec n : (n <= 4096)%nat ->
  let buf := foldl set_bit zero_block (seqZ 0 (Z.of_nat n)) in
  block_ok buf /\ forall b, 0 <= b < 4096 -> bit_of buf b = (b <? Z.of_nat n).
Proof.
  induction n as [|n IH]; intros Hn.
  - split; [apply zero_block_ok|]. intros b Hb. change (seqZ 0 (Z.of_nat 0)) with (@nil Z). cbn [foldl]. unfold bit_of.
    rewrite nth_lookup, zero_byte, Z.bits_0. symmetry. apply Z.ltb_ge. lia.
  - destruct (IH ltac:(lia)) as [[Hl Hb] Hbits]. change (Z.to_nat BSIZE) with 512%nat in Hl.
    replace (Z.of_nat (S n)) with (Z.of_nat n + 1) by lia. rewrite seqZ_app by lia. rewrite Z.add_0_l.
    rewrite (seqZ_cons (Z.of_nat n) 1) by lia. cbn [Z.pred]. change (seqZ (Z.succ (Z.of_nat n)) (Z.pred 1)) with (@nil Z).
    cbv zeta. rewrite foldl_app. cbn [foldl]. set (buf := foldl set_bit zero_block (seqZ 0 (Z.of_nat n))) in *.
    split; [split; [by rewrite length_set_bit|apply set_bit_bytes; [done|lia]]|].
    intros b Hb'. rewrite set_bit_spec by (rewrite ?Hl; lia). rewrite Hbits by done.
    destruct (Z.eqb_spec b (Z.of_nat n)) as [->|]; cbn [orb]; symmetry; zcase; lia.
Qed.

(** ** Reading the image back *)

(** The block number of block [q] of a file, and the bytes of the file, the way the kernel
    finds them ([bmap] and [readi]). *)
Definition block_no (s : state) (din : dinode) (q : Z) : Z :=
  if q <? NDIRECT then addr din q else rd 4 (blk s (addr din NDIRECT)) (Z.to_nat (4 * (q - NDIRECT))).

Definition read_file (s : state) (inum : Z) : list Z :=
  let din := inode_at s inum in
  map (fun k => default 0 (blk s (block_no s din (k / BSIZE)) !! Z.to_nat (k mod BSIZE))) (seqZ 0 (d_size din)).

Lemma block_no_ok s bs ib c din q : holds s bs ib c -> d_addrs din = addrs_of bs ib -> 0 <= q < Z.of_nat (length bs) ->
  block_no s din q = default 0 (bs !! Z.to_nat q).
Proof.
  intros Hh Hd Hq. unfold block_no, addr, NDIRECT. rewrite Hd. pose proof (h_max _ _ _ _ Hh). destruct (Z.ltb_spec q 12).
  - by rewrite addrs_of_direct by lia.
  - change (Z.to_nat 12) with 12%nat. rewrite addrs_of_indirect. cbn [default from_option id].
    replace (Z.to_nat (4 * (q - 12))) with (4 * Z.to_nat (q - 12))%nat by lia.
    rewrite (h_table _ _ _ _ Hh) by lia. by replace (12 + Z.to_nat (q - 12))%nat with (Z.to_nat q) by lia.
Qed.

(** A block past those of a short file has number 0. *)
Lemma block_no_hole bs ib din q : d_addrs din = addrs_of bs ib -> Z.of_nat (length bs) <= q < 12 -> block_no (State ∅ 0 0) din q = 0.
Proof.
  intros Hd Hq. unfold block_no, addr, NDIRECT. rewrite Hd, (proj2 (Z.ltb_lt q 12)) by lia.
  rewrite addrs_of_direct by lia. by rewrite lookup_ge_None_2 by lia.
Qed.

Lemma block_no_direct s s' din q : q < 12 -> block_no s din q = block_no s' din q.
Proof. intros Hq. unfold block_no, NDIRECT. by rewrite (proj2 (Z.ltb_lt q 12)) by lia. Qed.

(** A file reads as its contents, and zeros up to its size within its last block, or past it when it
    is short: block 0 is there in place of a block that it does not have. *)
Lemma read_file_ok s L i x : image_ok s L -> L !! i = Some x ->
  Z.of_nat (length (f_data x)) <= f_size x ->
  f_size x <= 512 * Z.of_nat (length (f_bs x)) \/ f_size x <= 512 * 12 /\ blk s 0 = zero_block ->
  read_file s (Z.of_nat i + 1) = f_data x ++ replicate (Z.to_nat (f_size x) - length (f_data x)) 0.
Proof.
  intros HL Hi Hsz Hsz2. pose proof (fi_holds _ _ (im_file _ _ HL i x Hi)) as Hh.
  unfold read_file. rewrite (im_inode _ _ HL i x Hi). cbn [dinode_of d_size]. unfold BSIZE.
  apply list_eq. intros k. destruct (decide (k < Z.to_nat (f_size x))%nat) as [Hk|Hk].
  2:{ rewrite !lookup_ge_None_2; [done|rewrite length_app, length_replicate; lia|rewrite length_map, length_seqZ; lia]. }
  rewrite list_lookup_fmap, lookup_seqZ_lt by lia. cbn [fmap option_fmap option_map]. rewrite Z.add_0_l.
  assert (Hz1 : Z.of_nat k / 512 = Z.of_nat (k / 512)) by (by rewrite Nat2Z.inj_div).
  assert (Hz2 : Z.of_nat k mod 512 = Z.of_nat (k mod 512)) by (by rewrite Nat2Z.inj_mod).
  assert (E : default 0 (blk s (block_no s (dinode_of x) (Z.of_nat k / 512)) !! Z.to_nat (Z.of_nat k mod 512)) = default 0 (f_data x !! k)).
  { destruct (decide (Z.of_nat k < 512 * Z.of_nat (length (f_bs x)))) as [Hin|Hout].
    - assert (Hq : (k / 512 < length (f_bs x))%nat) by (apply Nat.Div0.div_lt_upper_bound; lia).
      rewrite Hz1, Hz2, (block_no_ok s (f_bs x) (f_ib x) (f_data x)) by (done || lia).
      rewrite !Nat2Z.id. by rewrite (h_data _ _ _ _ Hh k ltac:(lia)).
    - destruct Hsz2 as [Hsz2|[Hsz2 H0]]; [lia|]. rewrite (block_no_direct s (State ∅ 0 0)) by dlia.
      rewrite (block_no_hole (f_bs x) (f_ib x)) by (done || dlia). rewrite H0, zero_byte.
      pose proof (h_len _ _ _ _ Hh). by rewrite lookup_ge_None_2 by lia. }
  rewrite E. destruct (decide (k < length (f_data x))%nat).
  - rewrite lookup_app_l by done. destruct (lookup_lt_is_Some_2 (f_data x) k ltac:(done)) as [b ->]. done.
  - rewrite lookup_app_r by lia. rewrite lookup_replicate_2 by lia. by rewrite lookup_ge_None_2 by lia.
Qed.

(** ** [main] *)

(** The root directory: the two dots and the entries. *)
Definition root_data (files : list source) : list Z :=
  dirent 1 (codes ".") ++ dirent 1 (codes "..") ++ entries 0 files.

Lemma length_root_data files : length (root_data files) = (32 + 16 * length files)%nat.
Proof. unfold root_data. rewrite !length_app, !length_dirent, length_entries. lia. Qed.

(** The files fit: their names and number, and their blocks in the 941 after the bitmap. *)
Definition sources_ok (files : list source) : Prop :=
  Forall source_ok files /\ (length files <= 198)%nat /\ need (32 + 16 * Z.of_nat (length files)) + budget files <= 941.

(** The root directory when the files are in. *)
Lemma before_fix files : sources_ok files ->
  exists s0 s root xs,
    each (seqZ 0 FSSIZE) (fun i => wsect i zero_block) (State ∅ 1 nmeta) = Done tt s0 /\
    populate (map arg_of files) s0 = Done 1 s /\
    image_ok s (root :: xs) /\ blk s 1 = splice 0 (sb_bytes sb) zero_block /\ blk s 0 = zero_block /\
    f_type root = T_DIR /\ f_data root = root_data files /\ f_size root = Z.of_nat (length (f_data root)) /\
    Forall2 stored files xs.
Proof.
  intros (Hok & Hl & Hfit). pose proof (budget_nonneg files) as Hb.
  destruct blank_ok as (s0 & Hr0 & HL0 & Hz0).
  set (b1 := splice 0 (sb_bytes sb) zero_block).
  assert (Hb1 : block_ok b1).
  { apply splice_block; [apply zero_block_ok|vm_compute; lia|]. unfold sb_bytes. apply Forall_concat.
    apply Forall_forall. intros l (x & -> & _)%list_elem_of_fmap. apply unpack_ok. lia. }
  assert (Hf0 : freeblock s0 = 59) by (by rewrite (im_free _ _ HL0)).
  set (s1 := put s0 1 b1).
  assert (HL1 : image_ok s1 []).
  { apply (image_other s0 s1 [] 1); try done; [apply put_disk_ok; [apply HL0|lia|done]|lia|].
    intros b Hne. by apply blk_put_ne. }
  destruct (ialloc_ok s1 [] T_DIR HL1 ltac:(simpl; lia) eq_refl) as (s2 & Hr2 & HL2 & Hlow2). cbn [app length] in HL2, Hr2.
  assert (Hf2 : freeblock s2 = 59) by (by rewrite (im_free _ _ HL2)).
  pose proof (need_mono 16 (32 + 16 * Z.of_nat (length files)) ltac:(lia)) as Hm1.
  pose proof (need_mono 32 (32 + 16 * Z.of_nat (length files)) ltac:(lia)) as Hm2.
  pose proof (length_dirent 1 (codes ".")) as Hd1. pose proof (length_dirent 1 (codes "..")) as Hd2.
  destruct (iappend_ok s2 [empty_file T_DIR] 0 (empty_file T_DIR) (dirent 1 (codes ".")) HL2 eq_refl eq_refl)
    as (s3 & bs3 & ib3 & Hr3 & HL3 & Hlow3).
  { apply dirent_bytes. by_decide. }
  { cbn [empty_file f_data app]. rewrite Hd1. lia. }
  { cbn [empty_file f_data app length]. rewrite Hd1, Hf2. vm_compute. congruence. }
  cbn [list_insert] in HL3. set (r1 := grown (empty_file T_DIR) bs3 ib3 (dirent 1 (codes "."))) in *.
  assert (Hf3 : freeblock s3 = 60) by (by rewrite (im_free _ _ HL3)).
  destruct (iappend_ok s3 [r1] 0 r1 (dirent 1 (codes "..")) HL3 eq_refl eq_refl) as (s4 & bs4 & ib4 & Hr4 & HL4 & Hlow4).
  { apply dirent_bytes. by_decide. }
  { cbn [r1 grown empty_file f_data app]. rewrite length_app, Hd1, Hd2. lia. }
  { cbn [r1 grown empty_file f_data app]. rewrite length_app, Hd1, Hd2, Hf3. vm_compute. congruence. }
  cbn [list_insert] in HL4. set (r2 := grown r1 bs4 ib4 (dirent 1 (codes ".."))) in *.
  assert (Hr2len : length (f_data r2) = 32%nat) by reflexivity.
  assert (Hf4 : freeblock s4 = 60) by (by rewrite (im_free _ _ HL4)).
  destruct (files_ok files s4 r2 [] HL4 eq_refl Hok ltac:(simpl; lia) ltac:(rewrite Hr2len; lia)) as (s5 & bs5 & ib5 & xs & Hr5 & HL5 & Hlow5 & Hxs).
  { rewrite Hr2len, Hf4. change (Z.of_nat 32) with 32. change (need 32) with 1. lia. }
  exists s0, s5, (grown r2 bs5 ib5 (entries 0 files)), xs. split; [done|]. split; [|split; [exact HL5|split]].
  - unfold populate. rewrite (bind_done _ _ _ _ _ (wsect_ok s0 1 b1 ltac:(lia))). fold s1. rewrite (bind_done _ _ _ _ _ Hr2).
    change (Z.of_nat 0 + 1) with 1 in *. unfold assert, ROOTINO. cbn [Z.eqb Pos.eqb]. unfold bind at 1.
    rewrite (bind_done _ _ _ _ _ Hr3), (bind_done _ _ _ _ _ Hr4).
    by rewrite (bind_done _ _ _ _ _ Hr5).
  - rewrite Hlow5, Hlow4, Hlow3, Hlow2 by lia. apply blk_put.
  - split; [rewrite Hlow5, Hlow4, Hlow3, Hlow2 by lia; unfold s1; rewrite blk_put_ne by lia; by apply Hz0|].
    split; [done|]. split; [|done]. cbn [grown f_data r2 r1 empty_file app]. unfold root_data. by rewrite <- app_assoc.
Qed.

(** The root directory is given whole blocks. *)
Lemma fix_root_ok s root xs :
  image_ok s (root :: xs) -> f_size root = Z.of_nat (length (f_data root)) -> Z.of_nat (length (f_data root)) <= 71680 ->
  let y := File (f_type root) ((f_size root / 512 + 1) * 512) (f_bs root) (f_ib root) (f_data root) in
  exists s', fix_root 1 s = Done tt s' /\ image_ok s' (y :: xs) /\ low s s'.
Proof.
  intros HL Hsz Hmax y. pose proof (im_disk _ _ HL) as Hs. pose proof (im_file _ _ HL 0%nat root eq_refl) as Hx.
  assert (Hy : file_in s y) by (destruct Hx; constructor; cbn; [done|done|dlia|done]).
  destruct (winode_ok s 1 (dinode_of y) Hs ltac:(lia) (file_wf s y Hy (proj2 (dk_free _ Hs)))) as (s2 & Hw & Hs2 & Hin & Hother & Hf2 & Hn2 & Hb2).
  exists s2. split; [|split].
  - unfold fix_root. rewrite (bind_done _ _ _ _ _ (rinode_ok s 1 Hs ltac:(lia))).
    pose proof (im_inode _ _ HL 0%nat root eq_refl) as Hi. change (Z.of_nat 0 + 1) with 1 in Hi. rewrite Hi.
    cbn [dinode_of d_type d_major d_minor d_nlink d_size d_addrs]. unfold BSIZE. rewrite (xint_id (f_size root)) by lia.
    rewrite (u32_id ((f_size root / 512 + 1) * 512)) by dlia. rewrite xint_id by dlia. exact Hw.
  - apply (image_replace s s s2 (root :: xs) 0 root y); try done.
    + by left.
    + cbn [f_data y]. lia.
  - intros b Hb. apply Hb2. lia.
Qed.

(** What is in the finished image. *)
Record made (s : state) (files : list source) : Prop := {
  mk_sb : blk s 1 = splice 0 (sb_bytes sb) zero_block;
  mk_file : forall k f, files !! k = Some f ->
    d_type (inode_at s (Z.of_nat k + 2)) = T_FILE /\ read_file s (Z.of_nat k + 2) = concat f.2;
  mk_root : d_type (inode_at s 1) = T_DIR /\
    d_size (inode_at s 1) = (Z.of_nat (length (root_data files)) / BSIZE + 1) * BSIZE /\
    exists n, read_file s 1 = root_data files ++ replicate n 0;
  mk_hole : Z.of_nat (length files + 2) mod 32 = 0 -> block_no s (inode_at s 1) (d_size (inode_at s 1) / BSIZE - 1) = 0;
  mk_bitmap : forall b, 0 <= b < 4096 -> bit_of (blk s 58) b = (b <? freeblock s);
  mk_image : exists root xs, image_ok s (root :: xs) /\ Forall2 stored files xs }.

Lemma mkfs_run (files : list source) (Hok : sources_ok files) :
  exists s, main (map arg_of files) start = Done tt s /\ made s files.
Proof.
  destruct (before_fix files Hok) as (s0 & s1 & root & xs & Hr0 & Hr1 & HL1 & Hsb & H0 & Hty & Hdata & Hsz & Hxs).
  pose proof (length_root_data files) as Hrl. rewrite <- Hdata in Hrl. destruct Hok as (_ & Hl & _).
  destruct (fix_root_ok s1 root xs HL1 Hsz ltac:(lia)) as (s2 & Hr2 & HL2 & Hlow2). set (y := File _ _ _ _ _) in HL2.
  pose proof (dk_free _ (im_disk _ _ HL2)) as Hfr.
  destruct (bitmap_spec (Z.to_nat (freeblock s2)) ltac:(lia)) as [Hbok Hbits]. rewrite Z2Nat.id in Hbok, Hbits by lia.
  set (bm := foldl set_bit zero_block (seqZ 0 (freeblock s2))) in *.
  set (s3 := put s2 58 bm).
  assert (HL3 : image_ok s3 (y :: xs)).
  { apply (image_other s2 s3 _ 58); try done; [apply put_disk_ok; [apply HL2|lia|done]|lia|]. intros b Hne. by apply blk_put_ne. }
  assert (Hlen : length xs = length files) by (symmetry; by eapply Forall2_length).
  exists s3. split.
  - unfold main, start. unfold bind at 1. cbn [img freeinode]. rewrite (bind_done _ _ _ _ _ Hr0), (bind_done _ _ _ _ _ Hr1), (bind_done _ _ _ _ _ Hr2).
    unfold balloc, assert. change (BSIZE * 8) with 4096. rewrite (proj2 (Z.ltb_lt _ 4096)) by lia. unfold bind at 1.
    change (sb_bmapstart sb) with 58. fold bm. by rewrite wsect_ok by lia.
  - constructor.
    + unfold s3. rewrite blk_put_ne by lia. by rewrite Hlow2 by lia.
    + intros k f Hk. destruct (Forall2_lookup_l _ _ _ _ _ Hxs Hk) as (x & Hx & Ht & Hd & Hs).
      pose proof (im_inode _ _ HL3 (S k) x Hx) as Hi. replace (Z.of_nat k + 2) with (Z.of_nat (S k) + 1) by lia.
      rewrite Hi. split; [done|]. rewrite (read_file_ok s3 _ (S k) x HL3 Hx).
      * rewrite Hs, Nat2Z.id, Nat.sub_diag, app_nil_r. done.
      * by rewrite Hs.
      * left. pose proof (im_file _ _ HL3 (S k) x Hx) as [Hh Hb _ _]. pose proof (h_len _ _ _ _ Hh). lia.
    + pose proof (im_inode _ _ HL3 0%nat y eq_refl) as Hi. change (Z.of_nat 0 + 1) with 1 in Hi. rewrite Hi. split; [done|].
      cbn [dinode_of d_size y f_size]. split; [by rewrite Hsz, Hdata|].
      pose proof (read_file_ok s3 _ 0 y HL3 eq_refl) as Hr. change (Z.of_nat 0 + 1) with 1 in Hr.
      eexists. rewrite Hr; [cbn [y f_data]; by rewrite Hdata|cbn [y f_size f_data]; rewrite Hsz; dlia|].
      right. cbn [y f_size]. split; [rewrite Hsz; dlia|]. unfold s3. rewrite blk_put_ne by lia. by rewrite Hlow2 by lia.
    + pose proof (im_inode _ _ HL3 0%nat y eq_refl) as Hi. change (Z.of_nat 0 + 1) with 1 in Hi. rewrite Hi. intros Hmod.
      pose proof (fi_blocks _ _ (im_file _ _ HL3 0%nat y eq_refl)) as Hb. cbn [y f_size f_bs f_data] in Hb. unfold nb in Hb.
      cbn [dinode_of d_size y f_size]. unfold BSIZE. rewrite Z.div_mul by lia.
      rewrite (block_no_direct s3 (State ∅ 0 0)) by (rewrite Hsz; dlia).
      apply (block_no_hole (f_bs root) (f_ib root)); [done|]. rewrite Hsz. dlia.
    + intros b Hb. unfold s3. rewrite blk_put. by apply Hbits.
    + by exists y, xs.
Qed.

(** C12: given files that fit (at most 198 of them, none larger than the largest file, in
    941 blocks together with the root directory), mkfs ends, and in the image it makes each
    file reads back byte for byte, the root directory lists them after the two dots, with zeros up to
    its size, which is the next multiple of BSIZE, no block belongs to two files, and the bitmap
    marks exactly the blocks in use. When the entries fill their last block exactly the size takes
    in a block that the directory does not have: its number is 0 ([mk_hole]). *)
Theorem mkfs_makes (files : list source) (Hok : sources_ok files) :
  exists s, main (map arg_of files) start = Done tt s /\ made s files.
Proof. by apply mkfs_run. Qed.

(** Two files, one of them with the underscore of the build. *)
Definition two_files : list source :=
  [(codes "README", [codes "hello"; codes " world"]); (codes "_cat", [replicate 512 7; [8]])].

Lemma two_files_ok : sources_ok two_files.
Proof.
  split; [|split; [simpl; lia|vm_compute; congruence]].
  repeat constructor; cbn [fst snd two_files]; by_decide.
Qed.

Lemma mkfs_makes_witness : exists s, main (map arg_of two_files) start = Done tt s /\
  read_file s 2 = codes "hello world" /\ length (read_file s 3) = 513%nat.
Proof.
  destruct (mkfs_makes two_files two_files_ok) as (s & Hr & Hm). exists s. split; [exact Hr|].
  split; [exact (proj2 (mk_file s two_files Hm 0 _ eq_refl))|].
  pose proof (proj2 (mk_file s two_files Hm 1 _ eq_refl)) as H. change (Z.of_nat 1 + 2) with 3 in H. rewrite H. reflexivity.
Defined.

(** With 30 files the entries fill the block, and the size given to the root directory
    takes in a block that was never allocated. *)
Example root_beyond_its_blocks :
  match main (map arg_of (replicate 30 (codes "f", []))) start with
  | Done _ s => Some (inode_at s 1)
  | _ => None
  end = Some (Dinode T_DIR 0 0 1 1024 (59 :: replicate 12 0)).
Proof. vm_compute. reflexivity. Qed.
