(* ===== verification/Log.v ===== *)
(** * The write-ahead log (log.c)

    The in-memory header, the on-disk log and the operations of log.c over the buffer
    cache.  The theorems show that a commit is atomic with respect to crashes: after any
    prefix of the disk writes it does, recovery leaves either none or all of the
    transaction's blocks. What [begin_op] reserves is the subject of Reserve.v. *)

From S2P Require Import Prelude Mem Kernel Sched Bio Layout.

(** ** Data *)

(** [struct logheader] inside a block: [n], then the block numbers. *)
Definition hdr_n (d : list Z) : Z := s32 (rd 4 d 0).
Definition hdr_block (d : list Z) (i : nat) : Z := s32 (rd 4 d (4 + 4 * i)).

Definition sizeof_logheader : Z := 4 + 4 * LOGSIZE.

Definition get_log : K log := gets k_log.
Definition set_log (g : log -> log) : K unit := modify (upd_k_log g).

(** [log.lh.block[i]]; an index past the array is a stray access. *)
Definition lh_get (i : nat) : K Z :=
  l <- get_log; nth_or "log.lh.block" (lh_block l) i.
Definition lh_set (i : nat) (v : Z) : K unit :=
  l <- get_log;
  if Nat.ltb i (length (lh_block l)) then set_log (upd_lh_block (insert i v))
  else panic "log.lh.block".

(** ** Operations *)

Section Ops.
Context `{Fuel}.

(** [readsb] of fs.c *)
Definition readsb (dev : Z) : K superblock :=
  b <- bread dev 1;
  bf <- get_buf b;
  let d := b_data bf in
  let sb := Superblock (rd 4 d 0) (rd 4 d 4) (rd 4 d 8) (rd 4 d 12) (rd 4 d 16) (rd 4 d 20) (rd 4 d 24) in
  brelse b ;;
  kret sb.

(** One iteration of the loop of [install_trans]. *)
Definition install_step (tail : nat) : K unit :=
  l <- get_log;
  lbuf <- bread (u32 (log_dev l)) (u32 (log_start l + Z.of_nat tail + 1));
  blk <- lh_get tail;
  dbuf <- bread (u32 (log_dev l)) (u32 blk);
  lbf <- get_buf lbuf;
  set_buf dbuf (upd_b_data (fun _ => b_data lbf)) ;;
  bwrite dbuf ;;
  brelse lbuf ;;
  brelse dbuf.
Definition install_trans : K unit :=
  l <- get_log;
  kiter (seq 0 (Z.to_nat (lh_n l))) install_step.

Definition read_head : K unit :=
  l <- get_log;
  b <- bread (u32 (log_dev l)) (u32 (log_start l));
  bf <- get_buf b;
  let lh := b_data bf in
  set_log (upd_lh_n (fun _ => hdr_n lh)) ;;
  kiter (seq 0 (Z.to_nat (hdr_n lh))) (fun i => lh_set i (hdr_block lh i)) ;;
  brelse b.

Definition write_head : K unit :=
  l <- get_log;
  b <- bread (u32 (log_dev l)) (u32 (log_start l));
  set_buf b (upd_b_data (fun d => wr 4 d 0 (lh_n l))) ;;
  kiter (seq 0 (Z.to_nat (lh_n l))) (fun i =>
    v <- lh_get i;
    set_buf b (upd_b_data (fun d => wr 4 d (4 + 4 * i) v))) ;;
  bwrite b ;;
  brelse b.

Definition recover_from_log : K unit :=
  read_head ;;
  install_trans ;;
  set_log (upd_lh_n (fun _ => 0)) ;;
  write_head.

Definition initlog (dev : Z) : K unit :=
  if BSIZE <=? sizeof_logheader then panic "initlog: too big logheader" else
  sb <- readsb dev;
  set_log (upd_log_start (fun _ => s32 (sb_logstart sb))) ;;
  set_log (upd_log_size (fun _ => s32 (sb_nlog sb))) ;;
  set_log (upd_log_dev (fun _ => dev)) ;;
  recover_from_log.

Fixpoint begin_op_loop (n : nat) : K unit :=
  l <- get_log;
  if log_committing l || (LOGSIZE <? lh_n l + (log_outstanding l + 1) * MAXOPBLOCKS) then
    match n with
    | O => fun _ => NoFuel
    | S n => sleep CH_log LK_log ;; begin_op_loop n
    end
  else
    set_log (upd_log_outstanding (fun o => o + 1)) ;;
    release LK_log.
Definition begin_op : K unit :=
  acquire LK_log ;;
  begin_op_loop fuel.

(** One iteration of the loop of [write_log]. *)
Definition write_log_step (tail : nat) : K unit :=
  l <- get_log;
  to <- bread (u32 (log_dev l)) (u32 (log_start l + Z.of_nat tail + 1));
  blk <- lh_get tail;
  from <- bread (u32 (log_dev l)) (u32 blk);
  fbf <- get_buf from;
  set_buf to (upd_b_data (fun _ => b_data fbf)) ;;
  bwrite to ;;
  brelse from ;;
  brelse to.
Definition write_log : K unit :=
  l <- get_log;
  kiter (seq 0 (Z.to_nat (lh_n l))) write_log_step.

Definition commit : K unit :=
  l <- get_log;
  kwhen (0 <? lh_n l)
    (write_log ;;
     write_head ;;
     install_trans ;;
     set_log (upd_lh_n (fun _ => 0)) ;;
     write_head).

(** The two critical sections of [end_op]: [do_commit], and what comes after the commit. *)
Definition end_begin : K bool :=
  acquire LK_log ;;
  set_log (upd_log_outstanding (fun o => o - 1)) ;;
  l <- get_log;
  if log_committing l then panic "log.committing" else
  let do_commit := log_outstanding l =? 0 in
  (if do_commit then set_log (upd_log_committing (fun _ => true)) else wakeup CH_log) ;;
  release LK_log ;;
  kret do_commit.
Definition end_finish : K unit :=
  acquire LK_log ;;
  set_log (upd_log_committing (fun _ => false)) ;;
  wakeup CH_log ;;
  release LK_log.

Definition end_op : K unit :=
  do_commit <- end_begin;
  kwhen do_commit (commit ;; end_finish).
End Ops.

(** The first of the first [n] logged blocks equal to [bno], or [n]. *)
Fixpoint absorb (bno : Z) (l : list Z) (n : nat) : nat :=
  match n, l with
  | S n, x :: l => if u32 x =? bno then O else S (absorb bno l n)
  | _, _ => O
  end.

Definition log_write (b : nat) : K unit :=
  l <- get_log;
  if (LOGSIZE <=? lh_n l) || (log_size l - 1 <=? lh_n l) then panic "too big a transaction" else
  if log_outstanding l <? 1 then panic "log_write outside of trans" else
  acquire LK_log ;;
  l <- get_log;
  bf <- get_buf b;
  let i := absorb (b_blockno bf) (lh_block l) (Z.to_nat (lh_n l)) in
  lh_set i (s32 (b_blockno bf)) ;;
  kwhen (Nat.eqb i (Z.to_nat (lh_n l))) (set_log (upd_lh_n (fun n => n + 1))) ;;
  set_buf b (upd_b_flags (fun f => Z.lor f B_DIRTY)) ;;
  release LK_log.

Lemma get_log_ok s : get_log s = Ok (k_log s) s.
Proof. done. Qed.

(** ** What the buffer cache leaves alone *)

(** [s'] is [s] but for buffers, disk and woken processes. *)
Definition bio_frame (s s' : kstate) : Prop :=
  s' = upd_k_bufs (fun _ => k_bufs s') (upd_k_disk (fun _ => k_disk s')
         (upd_k_writes (fun _ => k_writes s') (upd_k_procs (fun _ => k_procs s') s))) /\
  cur_proc s' = cur_proc s.

#[export] Instance bio_frame_preorder : PreOrder bio_frame.
Proof.
  split.
  - intros s. split; [by destruct s|done].
  - intros s1 s2 s3 [H1 C1] [H2 C2]. split; [|congruence]. rewrite H2 at 1. rewrite H1. done.
Qed.

Lemma bread_frame s pid hs bno b s' : bread_post s pid hs bno b s' -> bio_frame s s'.
Proof.
  intros (_ & _ & _ & _ & _ & _ & _ & _ & _ & H). rewrite H. split; [by destruct s|done].
Qed.

Lemma brelse_frame s pid hs hs' b s' :
  bio_ok s pid hs -> brelse_post s pid hs' b s' -> bio_frame s s'.
Proof.
  intros Hs (_ & _ & _ & _ & H). destruct (bio_cur _ _ _ Hs) as (pr & Hc & _ & Hr).
  rewrite H. split; [by destruct s|]. rewrite Hc. apply cur_proc_inv in Hc as (p & Hp & Hpr).
  unfold cur_proc. simpl. rewrite Hp. simpl. rewrite list_lookup_fmap, Hpr. simpl.
  unfold wakeup1_proc. by rewrite Hr.
Qed.

Lemma frame_log s s' : bio_frame s s' -> k_log s' = k_log s /\ k_disksize s' = k_disksize s.
Proof. intros [-> _]. done. Qed.

(** ** When [bread] cannot run out of buffers *)

Lemma dirty_valid bf :
  In (b_flags bf) [0; B_VALID; Z.lor B_VALID B_DIRTY] -> dirty bf = true -> valid bf = true.
Proof. unfold dirty, valid. by intros [Hf|[Hf|[Hf|[]]]]; rewrite <- Hf. Qed.

Section Room.
Context (s : kstate) (pid : Z) (D : list Z).
Context (HD : forall n, isdirty s n = true -> n ∈ D).

(** All buffers but those in [hs] dirty means at least that many dirty blocks. *)
Lemma all_dirty_many hs :
  bio_ok s pid hs ->
  (forall i, (i < NBUF)%nat -> i ∈ hs \/ dirty (buf_at s i) = true) ->
  (NBUF <= length hs + length D)%nat.
Proof.
  intros Hs Hall. set (rest := filter (fun i => i ∉ hs) (seq 0 NBUF)).
  assert (Hrest : (NBUF <= length hs + length rest)%nat).
  { assert (Hp : Permutation (seq 0 NBUF) (filter (fun i => i ∈ hs) (seq 0 NBUF) ++ rest)).
    { unfold rest. induction (seq 0 NBUF) as [|x l IH]; [done|]. rewrite !filter_cons.
      repeat case_decide; try tauto; rewrite IH at 1; [done|]. by rewrite Permutation_middle. }
    apply Permutation_length in Hp. rewrite length_seq, length_app in Hp.
    assert (length (filter (fun i => i ∈ hs) (seq 0 NBUF)) <= length hs)%nat; [|lia].
    apply NoDup_incl_length; [apply NoDup_ListNoDup, NoDup_filter, NoDup_seq|].
    intros i Hi. apply list_elem_of_In, list_elem_of_filter in Hi as [Hi _]. by apply list_elem_of_In. }
  assert (length rest <= length D)%nat; [|lia].
  rewrite <- (length_map (fun i => b_blockno (buf_at s i)) rest). apply NoDup_incl_length.
  - apply NoDup_ListNoDup. apply NoDup_fmap_2_strong; [|apply NoDup_filter, NoDup_seq].
    intros i j Hi Hj Heq. unfold rest in Hi, Hj. rewrite list_elem_of_filter, elem_of_seq in Hi, Hj.
    destruct Hi as [Hi1 Hi2], Hj as [Hj1 Hj2].
    pose proof (buf_at_lookup s pid hs i Hs ltac:(lia)) as Hbi.
    pose proof (buf_at_lookup s pid hs j Hs ltac:(lia)) as Hbj.
    assert (Hdv : forall i, dirty (buf_at s i) = true -> k_bufs s !! i = Some (buf_at s i) ->
      (i < NBUF)%nat -> b_dev (buf_at s i) = 1).
    { intros k Hd Hk Hkl. destruct (bio_slots _ _ _ Hs k _ Hkl Hk) as [S1 _ S3 _ _ _].
      by apply S3, dirty_valid. }
    destruct (Hall i ltac:(lia)) as [|Hdi]; [done|]. destruct (Hall j ltac:(lia)) as [|Hdj]; [done|].
    eapply (bio_uniq _ _ _ Hs); eauto; try lia; apply Hdv; auto; lia.
  - intros n. rewrite in_map_iff. intros (i & <- & Hi). apply list_elem_of_In, list_elem_of_filter in Hi as [Hi1 Hi2].
    apply elem_of_seq in Hi2. apply list_elem_of_In, HD, isdirty_iff.
    pose proof (buf_at_lookup s pid hs i Hs ltac:(lia)) as Hbi.
    destruct (Hall i ltac:(lia)) as [|Hd]; [done|]. exists i, (buf_at s i). split_and!; [lia|done| |done].
    destruct (bio_slots _ _ _ Hs i _ ltac:(lia) Hbi) as [S1 _ S3 _ _ _].
    unfold caches. rewrite Z.eqb_refl, andb_true_r. by apply Z.eqb_eq, S3, dirty_valid.
Qed.

Lemma bread_room `{Fuel} hs bno :
  bio_ok s pid hs -> (forall i, i ∈ hs -> caches bno (buf_at s i) = false) ->
  0 <= bno < k_disksize s ->
  (length hs + length D < NBUF)%nat \/ isdirty s bno = true ->
  exists b s', bread 1 bno s = Ok b s' /\ bread_post s pid hs bno b s'.
Proof.
  intros Hs Hn Hr Hroom. destruct (bread_cases s pid hs bno Hs Hn Hr) as [?|[_ Hall]]; [done|].
  exfalso. destruct Hroom as [Hroom|(i & bf & Hi & Hbf & Hc & _)%isdirty_iff].
  - assert (NBUF <= length hs + length D)%nat; [|lia].
    apply all_dirty_many; [done|]. intros i Hi. by apply Hall.
  - destruct (Hall i Hi) as [Hf _]. unfold buf_at in Hf. rewrite Hbf in Hf. simpl in Hf. congruence.
Qed.
End Room.

(** ** Copying a block to another *)

Section Copy.
Context `{Fuel} (s : kstate) (pid : Z) (D : list Z).
Context (Hs : bio_ok s pid []) (HD : forall n, isdirty s n = true -> n ∈ D).
Context (HDlen : (length D < NBUF)%nat).

(** The blocks [A] and [B] are both locked. *)
Definition two_locked (A B : Z) (a b : nat) (s' : kstate) : Prop :=
  a <> b /\ bio_ok s' pid [b; a] /\
  caches A (buf_at s' a) = true /\ caches B (buf_at s' b) = true /\
  b_data (buf_at s' a) = view s A /\ b_data (buf_at s' b) = view s B /\
  (dirty (buf_at s' a) = true \/ b_data (buf_at s' a) = disk_block s' A) /\
  (dirty (buf_at s' b) = true \/ b_data (buf_at s' b) = disk_block s' B) /\
  (forall n, view s' n = view s n) /\ (forall n, isdirty s' n = isdirty s n) /\
  k_disk s' = k_disk s /\ k_writes s' = k_writes s /\ bio_frame s s'.

Lemma two_reads A B :
  A <> B -> 0 <= A < k_disksize s -> 0 <= B < k_disksize s ->
  isdirty s B = true \/ (S (length D) < NBUF)%nat ->
  exists a s1 b s2, bread 1 A s = Ok a s1 /\ k_log s1 = k_log s /\
    bread 1 B s1 = Ok b s2 /\ two_locked A B a b s2.
Proof.
  intros HAB HA HB Hroom.
  destruct (bread_room s pid D HD [] A Hs) as (a & s1 & Hr1 & P1); [set_solver|done|left; simpl; lia|].
  pose proof (bread_frame _ _ _ _ _ _ P1) as F1. destruct (frame_log _ _ F1) as [L1 S1].
  pose proof P1 as (Ha & _ & Hs1 & Hca & Hda & Hv1 & Hd1 & _ & Hcl1 & E1).
  assert (HD1 : forall n, isdirty s1 n = true -> n ∈ D) by (intros n; rewrite Hd1; apply HD).
  destruct (bread_room s1 pid D HD1 [a] B Hs1) as (b & s2 & Hr2 & P2);
    [|by rewrite S1|simpl; rewrite Hd1; tauto|].
  { intros i Hi. assert (i = a) as -> by set_solver. unfold caches in *. lia. }
  pose proof (bread_frame _ _ _ _ _ _ P2) as F2.
  pose proof P2 as (Hb & Hna & Hs2 & Hcb & Hdb & Hv2 & Hd2 & Hsame & Hcl2 & E2).
  assert (Hab : a <> b) by set_solver.
  exists a, s1, b, s2. split_and!; try done. unfold two_locked. rewrite (Hsame a Hab).
  split_and!; try done.
  - by rewrite Hdb.
  - rewrite E2. done.
  - intros n. by rewrite Hv2.
  - intros n. by rewrite Hd2.
  - by rewrite E2, E1.
  - by rewrite E2, E1.
  - by rewrite F1.
Qed.
End Copy.

(** [memmove(dst->data, src->data, BSIZE); bwrite(dst); brelse(src); brelse(dst)] *)
Lemma copy_finish s pid hs src dst A B :
  bio_ok s pid hs -> Permutation hs [src; dst] -> caches A (buf_at s src) = true ->
  caches B (buf_at s dst) = true -> A <> B ->
  dirty (buf_at s src) = true \/ b_data (buf_at s src) = disk_block s A ->
  wp (set_buf dst (upd_b_data (fun _ => b_data (buf_at s src))) ;;
      bwrite dst ;; brelse src ;; brelse dst)
    (fun _ s' =>
       bio_ok s' pid [] /\ bio_frame s s' /\
       (forall n, view s' n = if n =? B then b_data (buf_at s src) else view s n) /\
       (forall n, isdirty s' n = if n =? B then false else isdirty s n) /\
       k_disk s' = <[B := b_data (buf_at s src)]> (k_disk s) /\
       k_writes s' = k_writes s ++ [(B, b_data (buf_at s src))]) s.
Proof.
  intros Hs Hp HA HB HAB Hcl. set (d := b_data (buf_at s src)) in *.
  assert (Hin1 : src ∈ hs) by (rewrite Hp; set_solver). assert (Hin2 : dst ∈ hs) by (rewrite Hp; set_solver).
  assert (Hne : src <> dst) by (intros ->; unfold caches in *; lia).
  destruct (held_slot s pid hs src Hs Hin1) as (_ & _ & _ & _ & _ & _ & Hdok).
  destruct (held_slot s pid hs dst Hs Hin2) as (Hbf & _ & _ & Hval & _ & _ & _).
  assert (HbA : b_blockno (buf_at s src) = A) by (unfold caches in HA; lia).
  assert (HbB : b_blockno (buf_at s dst) = B) by (unfold caches in HB; lia).
  set (bf1 := upd_b_data (fun _ => d) (buf_at s dst)).
  set (s1 := upd_k_bufs (insert dst bf1) s).
  assert (Hm : modified (buf_at s dst) bf1).
  { unfold modified, bf1. simpl. split_and!; try done.
    destruct (slot_flags _ _ _ _ _ (bio_slots _ _ _ Hs dst _ (held_lt _ _ _ _ Hs Hin2) Hbf)) as [Hf|[<-|[<-|[]]]]; [|set_solver..].
    unfold valid in Hval. by rewrite <- Hf in Hval. }
  destruct (bio_modify s pid hs dst bf1 Hs Hin2 Hm s1) as (Hs1 & Hv1 & Hd1); try done.
  { apply (bio_disk _ _ _ Hs). }
  assert (Hat1 : buf_at s1 dst = bf1).
  { unfold buf_at, s1. simpl. rewrite list_lookup_insert_eq; [done|by eapply lookup_lt_Some]. }
  assert (Hsrc1 : buf_at s1 src = buf_at s src).
  { unfold buf_at, s1. simpl. by rewrite list_lookup_insert_ne. }
  destruct (wp_run _ _ _ (bwrite_ok s1 pid hs dst Hs1 Hin2)) as ([] & s2 & Hw & Hs2 & Hb2 & Hv2 & Hd2 & E2).
  rewrite Hat1 in Hb2, Hd2, E2. simpl in Hb2, Hd2, E2. rewrite HbB in Hd2, E2.
  assert (Hsrc2 : buf_at s2 src = buf_at s src).
  { rewrite E2. unfold buf_at at 1. simpl. rewrite !list_lookup_insert_ne by done. done. }
  assert (Hdisk2 : forall n, disk_block s2 n = if n =? B then d else disk_block s n).
  { intros n. rewrite E2. unfold disk_block. simpl. destruct (Z.eqb_spec n B) as [->|Hn];
      [by rewrite lookup_insert_eq|by rewrite lookup_insert_ne]. }
  assert (F2 : bio_frame s s2) by (rewrite E2; split; [by destruct s|done]).
  destruct (wp_run _ _ _ (brelse_ok s2 pid hs [dst] src Hs2 Hp
    ltac:(rewrite Hsrc2, HbA, Hdisk2; destruct (Z.eqb_spec A B); tauto)))
    as ([] & s3 & Hr3 & P3 & _).
  pose proof (brelse_frame _ _ _ _ _ _ Hs2 P3) as F3. destruct P3 as (Hs3 & Hv3 & Hd3 & Hsame3 & E3).
  assert (Hdst3 : unlinked (buf_at s3 dst) = unlinked (upd_b_flags (fun _ => B_VALID) bf1))
    by (rewrite Hsame3 by done; by rewrite Hb2).
  apply unlinked_eq in Hdst3 as (_ & _ & Hn3 & _ & _ & Hdata3). simpl in Hn3, Hdata3.
  destruct (wp_run _ _ _ (brelse_ok s3 pid [dst] [] dst Hs3 ltac:(done)
    ltac:(right; rewrite Hdata3, Hn3, HbB, E3; change (d = disk_block s2 B); by rewrite Hdisk2, Z.eqb_refl)))
    as ([] & s4 & Hr4 & P4 & _).
  pose proof (brelse_frame _ _ _ _ _ _ Hs3 P4) as F4. destruct P4 as (Hs4 & Hv4 & Hd4 & _ & E4).
  unfold wp, wpx. rewrite (kbind_ok _ _ _ tt s1)
    by (unfold set_buf, modify; f_equal; apply upd_bufs_ext; by apply alter_insert).
  rewrite (kbind_ok _ _ _ _ _ Hw), (kbind_ok _ _ _ _ _ Hr3), Hr4.
  split_and!; [done|by rewrite F2, F3| | | |].
  - intros n. rewrite Hv4, Hv3, Hv2, Hv1. simpl. by rewrite HbB.
  - intros n. rewrite Hd4, Hd3, Hd2, Hd1. simpl. rewrite HbB. by destruct (n =? B).
  - rewrite E4, E3, E2. done.
  - rewrite E4, E3, E2. done.
Qed.

(** ** Sequences of block writes *)

Definition blk (d : gmap Z (list Z)) (n : Z) : list Z := default zero_block (d !! n).

(** The disk, and the contents of its blocks, after the writes [ws]. *)
Definition apply_writes (ws : list (Z * list Z)) (d : gmap Z (list Z)) : gmap Z (list Z) :=
  foldl (fun d w => <[w.1 := w.2]> d) d ws.
Definition after_writes (ws : list (Z * list Z)) (v : Z -> list Z) : Z -> list Z :=
  foldl (fun v w n => if n =? w.1 then w.2 else v n) v ws.

Lemma blk_apply_writes ws d n : blk (apply_writes ws d) n = after_writes ws (blk d) n.
Proof.
  revert d. induction ws as [|[a b] ws IH] using rev_ind; intros d; [done|].
  unfold apply_writes, after_writes in *. rewrite !foldl_app. simpl. unfold blk at 1.
  destruct (Z.eqb_spec n a) as [->|Hne]; [by rewrite lookup_insert_eq|].
  rewrite lookup_insert_ne by done. apply IH.
Qed.

Lemma after_writes_app ws ws' v n :
  after_writes (ws ++ ws') v n = after_writes ws' (after_writes ws v) n.
Proof. unfold after_writes. by rewrite foldl_app. Qed.

Lemma after_writes_fun ws v (G : Z -> list Z) n :
  (forall w, w ∈ ws -> w.2 = G w.1) ->
  after_writes ws v n = if decide (n ∈ ws.*1) then G n else v n.
Proof.
  induction ws as [|[a b] ws IH] using rev_ind; intros HG; [done|].
  unfold after_writes in *. rewrite foldl_app. simpl. rewrite fmap_app. simpl.
  destruct (Z.eqb_spec n a) as [->|Hne].
  - rewrite decide_True by set_solver. apply (HG (a, b)). set_solver.
  - rewrite IH by (intros w Hw; apply HG; set_solver).
    repeat case_decide; set_solver.
Qed.

Lemma after_writes_out ws v n : n ∉ ws.*1 -> after_writes ws v n = v n.
Proof.
  induction ws as [|[a b] ws IH] using rev_ind; intros Hn; [done|].
  unfold after_writes in *. rewrite foldl_app. simpl. rewrite fmap_app in Hn. simpl in Hn.
  destruct (Z.eqb_spec n a) as [->|Hne]; [set_solver|]. apply IH. set_solver.
Qed.

Lemma after_writes_ext ws v v' n :
  (forall n, v n = v' n) -> after_writes ws v n = after_writes ws v' n.
Proof.
  revert v v'. induction ws as [|w ws IH]; intros v v' Hv; [apply Hv|].
  apply IH. intros m. by rewrite Hv.
Qed.

Lemma elem_of_write1 (n a : Z) (b : list Z) : n ∈ [(a, b)].*1 <-> n = a.
Proof. simpl. rewrite elem_of_cons, elem_of_nil. tauto. Qed.

(** A state after the writes [ws] have gone through the cache to the disk. *)
Definition wrote (s s' : kstate) (ws : list (Z * list Z)) : Prop :=
  k_disk s' = apply_writes ws (k_disk s) /\ k_writes s' = k_writes s ++ ws /\
  (forall n, view s' n = after_writes ws (view s) n) /\
  (forall n, isdirty s' n = true <-> isdirty s n = true /\ (n ∉ ws.*1)) /\
  bio_frame s s'.

Lemma wrote_nil s : wrote s s [].
Proof.
  split_and!; [done|by rewrite app_nil_r|done| |done]. intros n. split; [|tauto]. intros H. split; [done|set_solver].
Qed.

Lemma wrote_trans s1 s2 s3 ws ws' : wrote s1 s2 ws -> wrote s2 s3 ws' -> wrote s1 s3 (ws ++ ws').
Proof.
  intros (A1 & A2 & A3 & A4 & A5) (B1 & B2 & B3 & B4 & B5). split_and!.
  - rewrite B1, A1. unfold apply_writes. by rewrite foldl_app.
  - by rewrite B2, A2, app_assoc.
  - intros n. rewrite B3, after_writes_app. by apply after_writes_ext.
  - intros n. rewrite B4, A4, fmap_app. set_solver.
  - by rewrite A5.
Qed.

Lemma wrote_log s s' ws : wrote s s' ws -> k_log s' = k_log s /\ k_disksize s' = k_disksize s.
Proof. intros (_ & _ & _ & _ & H). by apply frame_log. Qed.

(** ** The log's layout *)

(** The log region fits on the disk and holds the header and [lh.n] blocks. *)
Record log_wf (l : log) (disksize : Z) : Prop := {
  lw_dev : log_dev l = 1;
  lw_region : 0 <= log_start l /\ 0 < log_size l /\ log_start l + log_size l <= disksize < 2 ^ 31;
  lw_array : length (lh_block l) = Z.to_nat LOGSIZE;
  lw_n : 0 <= lh_n l <= LOGSIZE /\ lh_n l < log_size l;
}.

Definition in_log (l : log) (n : Z) : Prop := log_start l <= n < log_start l + log_size l.

(** The blocks of the transaction. *)
Definition txn (l : log) : list Z := take (Z.to_nat (lh_n l)) (lh_block l).

(** They are distinct disk blocks outside the log region. *)
Definition txn_wf (l : log) (disksize : Z) : Prop :=
  NoDup (txn l) /\ forall n, n ∈ txn l -> 0 <= n < disksize /\ ~ in_log l n.

Definition logged (l : log) (i : nat) : Z := default 0 (lh_block l !! i).

Lemma txn_lookup l disksize i :
  log_wf l disksize -> (i < Z.to_nat (lh_n l))%nat ->
  lh_block l !! i = Some (logged l i) /\ txn l !! i = Some (logged l i).
Proof.
  intros [_ _ Ha Hn] Hi. unfold logged, txn.
  destruct (lookup_lt_is_Some_2 (lh_block l) i) as [x Hx]; [lia|].
  rewrite lookup_take_lt by done. by rewrite Hx.
Qed.

Lemma length_txn l disksize : log_wf l disksize -> length (txn l) = Z.to_nat (lh_n l).
Proof. intros [_ _ Ha Hn]. unfold txn. rewrite length_take. lia. Qed.

Section Loops.
Context `{Fuel} (pid : Z) (l : log) (disksize : Z).
Context (Hwf : log_wf l disksize) (Htxn : txn_wf l disksize).

(** The two blocks one step of the copying loops works on. *)
Lemma step_blocks i :
  (i < Z.to_nat (lh_n l))%nat ->
  let A := log_start l + Z.of_nat i + 1 in let B := logged l i in
  u32 (log_dev l) = 1 /\ u32 A = A /\ u32 B = B /\ A <> B /\ 0 <= A < disksize /\ 0 <= B < disksize /\
  in_log l A /\ ~ in_log l B /\ B ∈ txn l.
Proof using Hwf Htxn.
  intros Hi A B. destruct (txn_lookup l disksize i Hwf Hi) as [_ Hx].
  assert (HB : B ∈ txn l) by (apply list_elem_of_lookup; by exists i).
  destruct Hwf as [Hdev Hreg Ha Hn]. destruct Htxn as [_ Ht]. destruct (Ht B HB) as [Hr Hnl].
  unfold in_log in *. rewrite Hdev. split_and!; try done; try lia; rewrite ?u32_id; unfold A in *; lia.
Qed.

Lemma write_log_step_ok s i :
  k_log s = l -> k_disksize s = disksize -> bio_ok s pid [] ->
  (forall n, isdirty s n = true <-> n ∈ txn l) -> (Z.to_nat (lh_n l) < NBUF)%nat ->
  (i < Z.to_nat (lh_n l))%nat ->
  wp (write_log_step i) (fun _ s' => bio_ok s' pid [] /\
    wrote s s' [(log_start l + Z.of_nat i + 1, view s (logged l i))]) s.
Proof using Hwf Htxn.
  intros Hl Hds Hs Hd Hroom Hi.
  destruct (step_blocks i Hi) as (U1 & U2 & U3 & HAB & HA & HB & HinA & HinB & Htx).
  destruct (txn_lookup l disksize i Hwf Hi) as [Hlk _].
  set (A := log_start l + Z.of_nat i + 1) in *. set (B := logged l i) in *.
  destruct (two_reads s pid (txn l) Hs) with (A := A) (B := B)
    as (a & s1 & b & s2 & Hr1 & Hl1 & Hr2 & Hab & Hs2 & Ca & Cb & Da & Db & Cla & Clb & Hv & Hdd & Hdk & Hwr & F);
    [intros n; apply Hd|by rewrite (length_txn l disksize Hwf)|done|by rewrite Hds|by rewrite Hds|left; by apply Hd|].
  unfold wp, wpx, write_log_step. rewrite (kbind_ok _ _ _ _ _ (get_log_ok s)).
  rewrite Hl. fold A. rewrite U1, U2, (kbind_ok _ _ _ _ _ Hr1).
  rewrite (kbind_ok _ _ _ B s1) by (unfold lh_get, kbind, get_log, gets; simpl; rewrite Hl1, Hl; unfold nth_or; by rewrite Hlk).
  rewrite U3, (kbind_ok _ _ _ _ _ Hr2).
  destruct (held_slot s2 pid [b; a] b Hs2 ltac:(set_solver)) as (Hbf & _).
  rewrite (kbind_ok _ _ _ _ _ (get_buf_ok _ _ _ Hbf)).
  destruct (wp_run _ _ _ (copy_finish s2 pid [b; a] b a B A Hs2 ltac:(done) Cb Ca (not_eq_sym HAB) Clb))
    as ([] & s3 & -> & Hs3 & F3 & Hv3 & Hd3 & Hdk3 & Hwr3).
  split; [done|]. split_and!.
  - rewrite Hdk3, Hdk, Db. done.
  - by rewrite Hwr3, Hwr, Db.
  - intros n. rewrite Hv3, Db. simpl. by destruct (n =? A).
  - intros n. rewrite Hd3, Hdd. rewrite elem_of_write1. destruct (Z.eqb_spec n A) as [->|Hn]; [|tauto].
    split; [done|]. tauto.
  - by rewrite F.
Qed.
Lemma install_step_ok s i D :
  k_log s = l -> k_disksize s = disksize -> bio_ok s pid [] ->
  (forall n, isdirty s n = true -> n ∈ D) -> (length D < NBUF)%nat ->
  isdirty s (logged l i) = true \/ (S (length D) < NBUF)%nat ->
  (i < Z.to_nat (lh_n l))%nat ->
  wp (install_step i) (fun _ s' => bio_ok s' pid [] /\
    wrote s s' [(logged l i, view s (log_start l + Z.of_nat i + 1))]) s.
Proof using Hwf Htxn.
  intros Hl Hds Hs Hd Hroom Hroom2 Hi.
  destruct (step_blocks i Hi) as (U1 & U2 & U3 & HAB & HA & HB & HinA & HinB & Htx).
  destruct (txn_lookup l disksize i Hwf Hi) as [Hlk _].
  set (A := log_start l + Z.of_nat i + 1) in *. set (B := logged l i) in *.
  destruct (two_reads s pid D Hs Hd Hroom A B HAB)
    as (a & s1 & b & s2 & Hr1 & Hl1 & Hr2 & Hab & Hs2 & Ca & Cb & Da & Db & Cla & Clb & Hv & Hdd & Hdk & Hwr & F);
    [by rewrite Hds..|done|].
  unfold wp, wpx, install_step. rewrite (kbind_ok _ _ _ _ _ (get_log_ok s)).
  rewrite Hl. fold A. rewrite U1, U2, (kbind_ok _ _ _ _ _ Hr1).
  rewrite (kbind_ok _ _ _ B s1) by (unfold lh_get, kbind, get_log, gets; simpl; rewrite Hl1, Hl; unfold nth_or; by rewrite Hlk).
  rewrite U3, (kbind_ok _ _ _ _ _ Hr2).
  destruct (held_slot s2 pid [b; a] a Hs2 ltac:(set_solver)) as (Hbf & _).
  rewrite (kbind_ok _ _ _ _ _ (get_buf_ok _ _ _ Hbf)).
  assert (Hperm : Permutation [b; a] [a; b]) by apply Permutation_swap.
  destruct (wp_run _ _ _ (copy_finish s2 pid [b; a] a b A B Hs2 Hperm Ca Cb HAB Cla))
    as ([] & s3 & -> & Hs3 & F3 & Hv3 & Hd3 & Hdk3 & Hwr3).
  split; [done|]. split_and!.
  - rewrite Hdk3, Hdk, Da. done.
  - by rewrite Hwr3, Hwr, Da.
  - intros n. rewrite Hv3, Da. simpl. by destruct (n =? B).
  - intros n. rewrite Hd3, Hdd. rewrite elem_of_write1. destruct (Z.eqb_spec n B) as [->|Hn]; [|tauto].
    split; [done|]. tauto.
  - by rewrite F.
Qed.

(** What [write_log] and [install_trans] write. *)
Definition log_writes (v : Z -> list Z) (t k : nat) : list (Z * list Z) :=
  map (fun i => (log_start l + Z.of_nat i + 1, v (logged l i))) (seq t k).
Definition install_writes (v : Z -> list Z) (t k : nat) : list (Z * list Z) :=
  map (fun i => (logged l i, v (log_start l + Z.of_nat i + 1))) (seq t k).

Lemma write_log_loop k : forall s t,
  k_log s = l -> k_disksize s = disksize -> bio_ok s pid [] ->
  (forall n, isdirty s n = true <-> n ∈ txn l) -> (Z.to_nat (lh_n l) < NBUF)%nat ->
  (t + k <= Z.to_nat (lh_n l))%nat ->
  wp (kiter (seq t k) write_log_step)
    (fun _ s' => bio_ok s' pid [] /\ wrote s s' (log_writes (view s) t k)) s.
Proof using Hwf Htxn.
  induction k as [|k IH]; intros s t Hl Hds Hs Hd Hroom Htk.
  { split; [done|apply wrote_nil]. }
  destruct (wp_run _ _ _ (write_log_step_ok s t Hl Hds Hs Hd Hroom ltac:(lia))) as ([] & s1 & Hr & Hs1 & W1).
  unfold wp, wpx. cbn [seq kiter]. rewrite (kbind_ok _ _ _ _ _ Hr).
  destruct (wrote_log _ _ _ W1) as [L1 S1].
  destruct (step_blocks t ltac:(lia)) as (_ & _ & _ & _ & _ & _ & HinA & _ & _).
  destruct (wp_run _ _ _ (IH s1 (S t) ltac:(congruence) ltac:(congruence) Hs1
    ltac:(intros n; rewrite (proj1 (proj2 (proj2 (proj2 W1)))), Hd; split; [tauto|];
          intros Hn; split; [done|]; destruct (proj2 Htxn n Hn); rewrite elem_of_write1; congruence) Hroom ltac:(lia)))
    as ([] & s2 & -> & Hs2 & W2).
  split; [done|]. pose proof (wrote_trans _ _ _ _ _ W1 W2) as W. unfold log_writes. simpl.
  replace (map _ (seq (S t) k)) with (log_writes (view s1) (S t) k); [exact W|].
  unfold log_writes. apply map_ext_in. intros i Hi%in_seq. f_equal.
  destruct (step_blocks i ltac:(lia)) as (_ & _ & _ & _ & _ & _ & _ & HinB & _).
  destruct W1 as (_ & _ & Hv1 & _). rewrite Hv1. apply after_writes_out.
  rewrite elem_of_write1. congruence.
Qed.

Lemma install_loop D k : forall s t,
  k_log s = l -> k_disksize s = disksize -> bio_ok s pid [] ->
  (forall n, isdirty s n = true -> n ∈ D) -> (length D < NBUF)%nat ->
  (forall i, (t <= i < t + k)%nat -> isdirty s (logged l i) = true) \/ (S (length D) < NBUF)%nat ->
  (t + k <= Z.to_nat (lh_n l))%nat ->
  wp (kiter (seq t k) install_step)
    (fun _ s' => bio_ok s' pid [] /\ wrote s s' (install_writes (view s) t k)) s.
Proof using Hwf Htxn.
  induction k as [|k IH]; intros s t Hl Hds Hs Hd Hroom Hroom2 Htk.
  { split; [done|apply wrote_nil]. }
  destruct (wp_run _ _ _ (install_step_ok s t D Hl Hds Hs Hd Hroom
    ltac:(destruct Hroom2 as [Hr|]; [left; apply Hr; lia|by right]) ltac:(lia))) as ([] & s1 & Hr & Hs1 & W1).
  unfold wp, wpx. cbn [seq kiter]. rewrite (kbind_ok _ _ _ _ _ Hr).
  destruct (wrote_log _ _ _ W1) as [L1 S1]. pose proof (proj1 (proj2 (proj2 (proj2 W1)))) as Hd1.
  destruct (step_blocks t ltac:(lia)) as (_ & _ & _ & _ & _ & _ & HinA & HinB & HtB).
  assert (Hroom3 : (forall i, (S t <= i < S t + k)%nat -> isdirty s1 (logged l i) = true) \/ (S (length D) < NBUF)%nat).
  { destruct Hroom2 as [Hr2|]; [left|by right]. intros i Hi. apply Hd1. split; [apply Hr2; lia|].
    intros Heq%elem_of_write1.
    destruct (txn_lookup l disksize i Hwf ltac:(lia)) as [_ Hx], (txn_lookup l disksize t Hwf ltac:(lia)) as [_ Hy].
    rewrite Heq in Hx. pose proof (NoDup_lookup _ _ _ _ (proj1 Htxn) Hx Hy). lia. }
  destruct (wp_run _ _ _ (IH s1 (S t) ltac:(congruence) ltac:(congruence) Hs1
    ltac:(intros n; rewrite Hd1; intros [? _]; auto) Hroom Hroom3 ltac:(lia)))
    as ([] & s2 & -> & Hs2 & W2).
  split; [done|]. pose proof (wrote_trans _ _ _ _ _ W1 W2) as W. unfold install_writes. simpl.
  replace (map _ (seq (S t) k)) with (install_writes (view s1) (S t) k); [exact W|].
  unfold install_writes. apply map_ext_in. intros i Hi%in_seq. f_equal.
  destruct (step_blocks i ltac:(lia)) as (_ & _ & _ & _ & _ & _ & HinA' & _ & _).
  destruct W1 as (_ & _ & Hv1 & _). rewrite Hv1. apply after_writes_out.
  rewrite elem_of_write1. congruence.
Qed.
End Loops.

(** ** The header block *)

(** The numbers [v i] for [i] in [ixs] stored in the header. *)
Definition put_blocks (v : nat -> Z) (ixs : list nat) (d : list Z) : list Z :=
  foldl (fun d i => wr 4 d (4 + 4 * i) (v i)) d ixs.

(** The header block that [write_head] builds over the old contents [d]. *)
Definition put_header (l : log) (d : list Z) : list Z :=
  put_blocks (logged l) (seq 0 (Z.to_nat (lh_n l))) (wr 4 d 0 (lh_n l)).

Lemma put_blocks_ok v ixs d :
  block_ok d -> (forall i, i ∈ ixs -> (i < Z.to_nat LOGSIZE)%nat) ->
  block_ok (put_blocks v ixs d) /\ rd 4 (put_blocks v ixs d) 0 = rd 4 d 0 /\
  forall i, (i < Z.to_nat LOGSIZE)%nat ->
    rd 4 (put_blocks v ixs d) (4 + 4 * i) = if decide (i ∈ ixs) then u32 (v i) else rd 4 d (4 + 4 * i).
Proof.
  unfold LOGSIZE, MAXOPBLOCKS.
  induction ixs as [|j ixs IH] using rev_ind; intros Hd His; [by split_and!|].
  destruct IH as (IH1 & IH2 & IH3); [done|set_solver|].
  assert (Hj : (j < 30)%nat) by (apply His; set_solver).
  unfold put_blocks in *. rewrite foldl_app. cbn [foldl].
  assert (Hl : (4 + 4 * j + 4 <= length (foldl (λ (d : list Z) (i : nat), wr 4 d (4 + 4 * i) (v i)) d ixs))%nat)
    by (destruct IH1 as [-> _]; unfold BSIZE; lia).
  split_and!.
  - apply wr_block; [done|]. unfold BSIZE. lia.
  - rewrite <- IH2. apply rd_wr_other; [done|lia].
  - intros i Hi. destruct (decide (i = j)) as [->|Hne].
    + rewrite decide_True by set_solver. by rewrite rd_wr.
    + rewrite rd_wr_other by (done || lia). rewrite IH3 by done. repeat case_decide; set_solver.
Qed.

Lemma put_header_ok l disksize d :
  log_wf l disksize -> block_ok d ->
  block_ok (put_header l d) /\ hdr_n (put_header l d) = lh_n l /\
  (txn_wf l disksize -> forall i, (i < Z.to_nat (lh_n l))%nat -> hdr_block (put_header l d) i = logged l i).
Proof.
  intros Hwf Hd. pose proof Hwf as [_ Hreg Ha Hn]. unfold LOGSIZE, MAXOPBLOCKS in *.
  destruct (put_blocks_ok (logged l) (seq 0 (Z.to_nat (lh_n l))) (wr 4 d 0 (lh_n l))) as (H1 & H2 & H3).
  - apply wr_block; [done|unfold BSIZE; lia].
  - intros i Hi%elem_of_seq. unfold LOGSIZE, MAXOPBLOCKS. lia.
  - unfold put_header, hdr_n, hdr_block. split_and!; [done|..].
    + rewrite H2, rd_wr by (destruct Hd as [-> _]; unfold BSIZE; lia).
      rewrite Z.mod_small by lia. apply s32_id. lia.
    + intros [_ Ht] i Hi. rewrite H3 by (unfold LOGSIZE, MAXOPBLOCKS; lia).
      rewrite decide_True by (apply elem_of_seq; lia).
      destruct (txn_lookup l disksize i Hwf Hi) as [_ Hx].
      destruct (Ht (logged l i)) as [Hr _]; [apply list_elem_of_lookup; by exists i|].
      rewrite u32_id by lia. apply s32_id. lia.
Qed.

(** The loop of [write_head] over the buffer [b]. *)
Lemma write_head_loop l b ixs : forall s,
  k_log s = l -> (forall i, i ∈ ixs -> (i < length (lh_block l))%nat) ->
  kiter ixs (fun i => v <- lh_get i; set_buf b (upd_b_data (fun d => wr 4 d (4 + 4 * i) v))) s =
  Ok tt (upd_k_bufs (alter (upd_b_data (put_blocks (logged l) ixs)) b) s).
Proof.
  induction ixs as [|i ixs IH]; intros s Hl His; cbn [kiter].
  - unfold kret. f_equal. unfold upd_k_bufs. destruct s. simpl. f_equal.
    symmetry. apply list_eq. intros j. destruct (decide (j = b)) as [->|].
    + rewrite list_lookup_alter_eq. destruct (_ !! b) as [[]|]; done.
    + by rewrite list_lookup_alter_ne.
  - destruct (lookup_lt_is_Some_2 (lh_block l) i) as [x Hx]; [apply His; set_solver|].
    assert (Hg : lh_get i s = Ok x s) by (unfold lh_get, kbind, get_log, gets, nth_or; simpl; by rewrite Hl, Hx).
    rewrite (kbind_ok _ _ s tt (upd_k_bufs (alter (upd_b_data (fun d => wr 4 d (4 + 4 * i) x)) b) s))
      by (by rewrite (kbind_ok _ _ _ _ _ Hg)).
    rewrite IH; [|done|set_solver]. f_equal. rewrite upd_bufs_alter. apply upd_bufs_ext.
    apply list_alter_ext; [|done]. intros bf _.
    assert (Hlg : x = logged l i) by (unfold logged; by rewrite Hx). by rewrite Hlg.
Qed.

(** Replacing the contents of a locked buffer, writing it and releasing it. *)
Lemma write_finish s pid b d :
  bio_ok s pid [b] -> block_ok d ->
  let B := b_blockno (buf_at s b) in
  wp (bwrite b ;; brelse b)
    (fun _ s' => bio_ok s' pid [] /\ wrote s s' [(B, d)])
    (upd_k_bufs (alter (upd_b_data (fun _ => d)) b) s).
Proof.
  intros Hs Hd B. assert (Hin : b ∈ [b]) by set_solver.
  destruct (held_slot s pid [b] b Hs Hin) as (Hbf & _ & _ & Hval & _ & _ & _).
  set (bf1 := upd_b_data (fun _ => d) (buf_at s b)).
  rewrite (upd_bufs_ext _ (insert b bf1)) by (by apply alter_insert).
  set (s1 := upd_k_bufs (insert b bf1) s).
  assert (Hm : modified (buf_at s b) bf1).
  { unfold modified, bf1. simpl. split_and!; try done.
    destruct (slot_flags _ _ _ _ _ (bio_slots _ _ _ Hs b _ (held_lt _ _ _ _ Hs Hin) Hbf)) as [Hf|[<-|[<-|[]]]]; [|set_solver..].
    unfold valid in Hval. by rewrite <- Hf in Hval. }
  destruct (bio_modify s pid [b] b bf1 Hs Hin Hm s1) as (Hs1 & Hv1 & Hd1); try done.
  { apply (bio_disk _ _ _ Hs). }
  assert (Hat1 : buf_at s1 b = bf1).
  { unfold buf_at, s1. simpl. rewrite list_lookup_insert_eq; [done|by eapply lookup_lt_Some]. }
  destruct (wp_run _ _ _ (bwrite_ok s1 pid [b] b Hs1 Hin)) as ([] & s2 & Hw & Hs2 & Hb2 & Hv2 & Hd2 & E2).
  rewrite Hat1 in Hb2, Hd2, E2. simpl in Hb2, Hd2, E2. fold B in Hd2, E2.
  assert (F2 : bio_frame s s2) by (rewrite E2; split; [by destruct s|done]).
  destruct (wp_run _ _ _ (brelse_ok s2 pid [b] [] b Hs2 ltac:(done)
    ltac:(right; rewrite Hb2; simpl; fold B; rewrite E2; unfold disk_block; simpl; by rewrite lookup_insert_eq)))
    as ([] & s3 & Hr3 & P3 & _).
  pose proof (brelse_frame _ _ _ _ _ _ Hs2 P3) as F3. destruct P3 as (Hs3 & Hv3 & Hd3 & _ & E3).
  unfold wp, wpx. rewrite (kbind_ok _ _ _ _ _ Hw), Hr3. split; [done|]. split_and!.
  - rewrite E3, E2. done.
  - rewrite E3, E2. done.
  - intros n. rewrite Hv3, Hv2, Hv1. done.
  - intros n. rewrite Hd3, Hd2, Hd1, elem_of_write1. simpl. fold B.
    destruct (Z.eqb_spec n B); [split; [done|tauto]|tauto].
  - by rewrite F2.
Qed.

Lemma write_head_ok `{Fuel} s pid l D :
  k_log s = l -> log_wf l (k_disksize s) -> bio_ok s pid [] ->
  (forall n, isdirty s n = true -> n ∈ D) -> (length D < NBUF)%nat ->
  wp write_head (fun _ s' => bio_ok s' pid [] /\
    wrote s s' [(log_start l, put_header l (view s (log_start l)))]) s.
Proof.
  intros Hl Hwf Hs HD Hroom. pose proof Hwf as [Hdev Hreg Ha Hn].
  destruct (bread_room s pid D HD [] (log_start l) Hs) as (b & s1 & Hr & P1);
    [set_solver|lia|left; simpl; lia|].
  pose proof (bread_frame _ _ _ _ _ _ P1) as F1. destruct (frame_log _ _ F1) as [L1 S1].
  destruct P1 as (Hb & _ & Hs1 & Hc & Hdata & Hv & Hd & _ & _ & E1).
  assert (Hin : b ∈ [b]) by set_solver.
  destruct (held_slot s1 pid [b] b Hs1 Hin) as (Hbf & _ & _ & _ & _ & _ & Hok).
  assert (Hbn : b_blockno (buf_at s1 b) = log_start l) by (unfold caches in Hc; lia).
  unfold wp, wpx, write_head. rewrite (kbind_ok _ _ _ _ _ (get_log_ok s)). rewrite Hl, Hdev.
  change (u32 1) with 1. rewrite u32_id by lia. rewrite (kbind_ok _ _ _ _ _ Hr).
  unfold set_buf at 1. rewrite (kbind_ok (modify _) _ _ tt _ eq_refl).
  erewrite (kbind_ok (kiter _ _)); [|apply (write_head_loop l b); [simpl; congruence|]].
  2:{ intros i Hi%elem_of_seq. rewrite Ha. lia. }
  rewrite upd_bufs_alter.
  assert (Hhd : block_ok (put_header l (view s (log_start l)))).
  { rewrite <- Hdata. by apply (put_header_ok l (k_disksize s)). }
  destruct (wp_run _ _ _ (write_finish s1 pid b _ Hs1 Hhd)) as ([] & s2 & Hrun & Hs2 & W).
  rewrite (upd_bufs_ext _ (alter (upd_b_data (fun _ => put_header l (view s (log_start l)))) b)).
  2:{ apply list_alter_ext; [|done]. intros bf Hbf'. rewrite Hbf in Hbf'. injection Hbf' as <-.
      unfold compose, upd_b_data. simpl. by rewrite <- Hdata. }
  rewrite Hrun. split; [done|]. rewrite Hbn in W. destruct W as (W1 & W2 & W3 & W4 & W5). split_and!.
  - rewrite W1, E1. done.
  - rewrite W2, E1. done.
  - intros n. rewrite W3. by apply after_writes_ext.
  - intros n. by rewrite W4, Hd.
  - by rewrite F1.
Qed.

(** ** Commit *)

Lemma bio_ok_log g s pid hs : bio_ok s pid hs -> bio_ok (upd_k_log g s) pid hs.
Proof. intros [B1 B2 B3 B4 B5 B6 B7 B8]. constructor; try done.
  intros i bf Hi Hb. destruct (B7 i bf Hi Hb). by constructor. Qed.

Lemma log_wf_n l ds n :
  log_wf l ds -> 0 <= n <= LOGSIZE -> n < log_size l -> log_wf (upd_lh_n (fun _ => n) l) ds.
Proof. intros [W1 W2 W3 W4] H1 H2. by constructor. Qed.

(** A clean block is the same in the cache and on the disk. *)
Lemma view_clean s pid n : bio_ok s pid [] -> isdirty s n = false -> view s n = disk_block s n.
Proof.
  intros Hs Hd. destruct (view_cases s pid [] n Hs) as [(i & bf & Hi & Hbf & Hc & Hv & ->)|[_ ->]]; [|done].
  destruct (slot_free _ _ _ _ _ (bio_slots _ _ _ Hs i bf Hi Hbf)) as (_ & _ & Hcl); [set_solver|].
  destruct (Hcl Hv) as [Hdi|Heq].
  - assert (isdirty s n = true) by (apply isdirty_iff; by exists i, bf). congruence.
  - rewrite Heq. unfold caches in Hc. f_equal. lia.
Qed.

(** The writes of a commit, in order: the blocks into the log, the header, the blocks to
    their homes, the empty header. *)
Definition commit_writes (l : log) (v : Z -> list Z) (h1 h0 : list Z) : list (Z * list Z) :=
  log_writes l v 0 (Z.to_nat (lh_n l)) ++ [(log_start l, h1)] ++
  map (fun i => (logged l i, v (logged l i))) (seq 0 (Z.to_nat (lh_n l))) ++ [(log_start l, h0)].

(** A header block for the transaction of [l]. *)
Definition header_for (l : log) (h : list Z) : Prop :=
  block_ok h /\ hdr_n h = lh_n l /\ forall i, (i < Z.to_nat (lh_n l))%nat -> hdr_block h i = logged l i.

(** The state in which [commit] is called: no buffer is locked, the dirty blocks are the
    transaction's, and there is a buffer left over. *)
Record commit_pre (s : kstate) (pid : Z) (l : log) : Prop := {
  cp_log : k_log s = l;
  cp_wf : log_wf l (k_disksize s);
  cp_txn : txn_wf l (k_disksize s);
  cp_bio : bio_ok s pid [];
  cp_dirty : forall n, isdirty s n = true <-> n ∈ txn l;
  cp_room : (Z.to_nat (lh_n l) < NBUF)%nat;
}.

Lemma log_writes_fst l v t k n :
  n ∈ (log_writes l v t k).*1 <-> exists i, (t <= i < t + k)%nat /\ n = log_start l + Z.of_nat i + 1.
Proof.
  unfold log_writes. rewrite <- list_fmap_compose. setoid_rewrite list_elem_of_fmap. split.
  - intros (i & -> & Hi%elem_of_seq). by exists i.
  - intros (i & Hi & ->). exists i. split; [done|]. by apply elem_of_seq.
Qed.

Lemma commit_phase1 `{Fuel} s pid l :
  commit_pre s pid l ->
  let V := view s in
  exists s3 h1,
    (forall m : K unit, (write_log ;; write_head ;; install_trans ;; m) s = m s3) /\
    bio_ok s3 pid [] /\ header_for l h1 /\
    wrote s s3 (log_writes l V 0 (Z.to_nat (lh_n l)) ++ [(log_start l, h1)] ++
                map (fun i => (logged l i, V (logged l i))) (seq 0 (Z.to_nat (lh_n l)))).
Proof.
  intros [Hl Hwf Htx Hs Hd Hroom] V. set (n := Z.to_nat (lh_n l)) in *.
  pose proof Hwf as [_ Hreg Ha Hn].
  destruct (wp_run _ _ _ (write_log_loop pid l (k_disksize s) Hwf Htx n s 0%nat Hl eq_refl Hs Hd Hroom ltac:(lia)))
    as ([] & s1 & R1 & Hs1 & W1). fold V in W1.
  destruct (wrote_log _ _ _ W1) as [L1 D1]. destruct W1 as (W1a & W1b & W1v & W1d & W1f).
  assert (Hd1 : forall m, isdirty s1 m = true <-> m ∈ txn l).
  { intros m. rewrite W1d, Hd, log_writes_fst. split; [tauto|]. intros Hm. split; [done|].
    intros (i & Hi & ->). destruct (proj2 Htx _ Hm) as [_ Hno]. apply Hno. unfold in_log. lia. }
  destruct (wp_run _ _ _ (write_head_ok s1 pid l (txn l) ltac:(congruence) ltac:(by rewrite D1) Hs1
    ltac:(intros m; apply Hd1) ltac:(by rewrite (length_txn l (k_disksize s) Hwf)))) as ([] & s2 & R2 & Hs2 & W2).
  set (h1 := put_header l (view s1 (log_start l))) in *.
  destruct (wrote_log _ _ _ W2) as [L2 D2].
  assert (Hh1 : header_for l h1).
  { destruct (put_header_ok l (k_disksize s) (view s1 (log_start l)) Hwf) as (P1 & P2 & P3).
    - destruct (view_cases s1 pid [] (log_start l) Hs1) as [(i & bf & Hi & Hbf & _ & _ & ->)|[_ ->]].
      + apply (slot_data _ _ _ _ _ (bio_slots _ _ _ Hs1 i bf Hi Hbf)).
      + apply (bio_disk _ _ _ Hs1).
    - split_and!; auto. }
  assert (Hd2 : forall m, isdirty s2 m = true <-> m ∈ txn l).
  { intros m. rewrite (proj1 (proj2 (proj2 (proj2 W2)))), Hd1, elem_of_write1. split; [tauto|]. intros Hm. split; [done|].
    intros ->. destruct (proj2 Htx _ Hm) as [_ Hno]. apply Hno. unfold in_log. lia. }
  destruct (wp_run _ _ _ (install_loop pid l (k_disksize s) Hwf Htx (txn l) n s2 0%nat ltac:(congruence) ltac:(congruence) Hs2
    ltac:(intros m; apply Hd2) ltac:(by rewrite (length_txn l (k_disksize s) Hwf))
    ltac:(left; intros i Hi; apply Hd2; apply (step_blocks l (k_disksize s) Hwf Htx); lia) ltac:(lia)))
    as ([] & s3 & R3 & Hs3 & W3).
  exists s3, h1. split_and!; [|done|done|].
  - intros m. unfold write_log, install_trans.
    rewrite (kbind_ok _ _ s tt s1) by (rewrite (kbind_ok _ _ _ _ _ (get_log_ok s)), Hl; exact R1).
    rewrite (kbind_ok _ _ _ _ _ R2).
    by rewrite (kbind_ok _ _ s2 tt s3) by (rewrite (kbind_ok _ _ _ _ _ (get_log_ok s2)), L2, L1, Hl; exact R3).
  - assert (W1 : wrote s s1 (log_writes l V 0 n)) by (by split_and!).
    pose proof (wrote_trans _ _ _ _ _ W1 (wrote_trans _ _ _ _ _ W2 W3)) as W.
    replace (map _ (seq 0 n)) with (install_writes l (view s2) 0 n); [exact W|].
    unfold install_writes. apply map_ext_in. intros i Hi%in_seq. f_equal.
    destruct (step_blocks l (k_disksize s) Hwf Htx i ltac:(lia)) as (_ & _ & _ & _ & _ & _ & HinA & _ & _).
    rewrite (proj1 (proj2 (proj2 W2))), after_writes_out by (rewrite elem_of_write1; lia).
    rewrite W1v, (after_writes_fun _ _ (fun m => V (logged l (Z.to_nat (m - log_start l - 1))))).
    + rewrite decide_True by (apply log_writes_fst; exists i; lia).
      do 2 f_equal. lia.
    + unfold log_writes. intros w (j & -> & Hj)%list_elem_of_fmap. simpl. do 2 f_equal. lia.
Qed.

Lemma put_header_empty l ds h :
  log_wf l ds -> block_ok h -> hdr_n (put_header (upd_lh_n (fun _ => 0) l) h) = 0.
Proof.
  intros Hwf Hh. apply (put_header_ok (upd_lh_n (fun _ => 0) l) ds); [|done].
  apply log_wf_n; [done|unfold LOGSIZE, MAXOPBLOCKS; lia|apply Hwf].
Qed.

Lemma view_ok s pid hs n : bio_ok s pid hs -> block_ok (view s n).
Proof.
  intros Hs. destruct (view_cases s pid hs n Hs) as [(i & bf & Hi & Hbf & _ & _ & ->)|[_ ->]].
  - apply (slot_data _ _ _ _ _ (bio_slots _ _ _ Hs i bf Hi Hbf)).
  - apply (bio_disk _ _ _ Hs).
Qed.

(** Outside the log region a commit changes nothing the file system sees. *)
Lemma commit_writes_view l ds v h1 h0 n :
  log_wf l ds -> txn_wf l ds -> ~ in_log l n -> after_writes (commit_writes l v h1 h0) v n = v n.
Proof.
  intros Hwf Htx Hn. pose proof Hwf as [_ Hreg Ha Hln].
  unfold commit_writes. rewrite !after_writes_app.
  rewrite (after_writes_out [(_, h0)]) by (rewrite elem_of_write1; unfold in_log in Hn; lia).
  rewrite (after_writes_fun _ _ v).
  2:{ intros w (i & -> & _)%list_elem_of_fmap. done. }
  case_decide; [done|].
  rewrite (after_writes_out [(_, h1)]) by (rewrite elem_of_write1; unfold in_log in Hn; lia).
  apply after_writes_out. rewrite log_writes_fst. intros (i & Hi & ->). apply Hn. unfold in_log. lia.
Qed.

Definition committed (s s' : kstate) (pid : Z) (l : log) (h1 h0 : list Z) : Prop :=
  bio_ok s' pid [] /\ k_log s' = upd_lh_n (fun _ => 0) l /\ (forall n, isdirty s' n = false) /\
  header_for l h1 /\ hdr_n h0 = 0 /\
  k_disk s' = apply_writes (commit_writes l (view s) h1 h0) (k_disk s) /\
  k_writes s' = k_writes s ++ commit_writes l (view s) h1 h0 /\
  (forall n, view s' n = after_writes (commit_writes l (view s) h1 h0) (view s) n).

Lemma commit_ok `{Fuel} s pid l :
  commit_pre s pid l -> 0 < lh_n l ->
  exists s' h1 h0, commit s = Ok tt s' /\ committed s s' pid l h1 h0.
Proof.
  intros Hpre Hpos. pose proof Hpre as [Hl Hwf Htx Hs Hd Hroom]. pose proof Hwf as [_ Hreg Ha Hn].
  destruct (commit_phase1 s pid l Hpre) as (s3 & h1 & Hrun & Hs3 & Hh1 & W).
  destruct (wrote_log _ _ _ W) as [L3 D3]. destruct W as (Wa & Wb & Wv & Wd & Wf).
  assert (Hclean : forall n, isdirty s3 n = false).
  { intros n. apply not_true_iff_false. rewrite Wd, Hd, !fmap_app. intros [Hin Hno]. apply Hno.
    apply list_elem_of_lookup in Hin as [i Hi]. apply elem_of_app. right. apply elem_of_app. right.
    rewrite <- list_fmap_compose. apply list_elem_of_fmap. exists i.
    assert (Hil : (i < Z.to_nat (lh_n l))%nat)
      by (apply lookup_lt_Some in Hi; by rewrite (length_txn l (k_disksize s) Hwf) in Hi).
    destruct (txn_lookup l (k_disksize s) i Hwf Hil) as [_ Hx]. split; [simpl; congruence|].
    apply elem_of_seq. lia. }
  set (l0 := upd_lh_n (fun _ => 0) l).
  set (s4 := upd_k_log (upd_lh_n (fun _ => 0)) s3).
  assert (Hwf0 : log_wf l0 (k_disksize s)) by (apply log_wf_n; [done|unfold LOGSIZE, MAXOPBLOCKS; lia|lia]).
  destruct (wp_run _ _ _ (write_head_ok s4 pid l0 [] ltac:(unfold s4, l0; simpl; by rewrite L3, Hl)
    ltac:(unfold s4; simpl; by rewrite D3) (bio_ok_log _ _ _ _ Hs3)
    ltac:(intros n; change (isdirty s4 n) with (isdirty s3 n); by rewrite Hclean) ltac:(unfold NBUF; simpl; lia)))
    as ([] & s5 & R5 & Hs5 & W5).
  set (h0 := put_header l0 (view s4 (log_start l0))) in *.
  destruct (wrote_log _ _ _ W5) as [L5 D5]. destruct W5 as (Va & Vb & Vv & Vd & Vf).
  exists s5, h1, h0. split.
  - unfold commit. rewrite (kbind_ok _ _ _ _ _ (get_log_ok s)). rewrite Hl.
    destruct (Z.ltb_spec 0 (lh_n l)); [|lia]. cbn [kwhen]. rewrite Hrun.
    by rewrite (kbind_ok (set_log (upd_lh_n (fun _ => 0))) _ s3 tt s4 eq_refl).
  - split_and!; [done| | |done| | | |].
    + rewrite L5. unfold s4. simpl. by rewrite L3, Hl.
    + intros n. apply not_true_iff_false. rewrite Vd. intros [Hx _].
      change (isdirty s3 n = true) in Hx. by rewrite Hclean in Hx.
    + apply (put_header_empty l (k_disksize s) _ Hwf), (view_ok s4 pid []), bio_ok_log, Hs3.
    + rewrite Va. unfold s4. simpl. rewrite Wa. unfold commit_writes, apply_writes.
      by rewrite !foldl_app.
    + rewrite Vb. unfold s4. simpl. rewrite Wb. unfold commit_writes. by rewrite !app_assoc.
    + intros n. rewrite Vv. unfold commit_writes. rewrite !app_assoc, after_writes_app.
      apply after_writes_ext. intros m. rewrite <- app_assoc. apply Wv.
Qed.

(** ** Recovery *)

Definition fill (f : nat -> Z) (ixs : list nat) (b : list Z) : list Z :=
  foldl (fun b i => <[i := f i]> b) b ixs.

Lemma fill_length f ixs b : length (fill f ixs b) = length b.
Proof. revert b. induction ixs as [|i ixs IH]; intros b; [done|]. simpl. by rewrite IH, length_insert. Qed.

Lemma fill_lookup f ixs b i :
  i ∈ ixs -> (i < length b)%nat -> fill f ixs b !! i = Some (f i).
Proof.
  induction ixs as [|j ixs IH] using rev_ind; intros Hi Hb; [set_solver|].
  assert (Hf : fill f (ixs ++ [j]) b = <[j := f j]> (fill f ixs b)) by (unfold fill; by rewrite foldl_app).
  rewrite Hf. destruct (decide (i = j)) as [->|Hne].
  - apply list_lookup_insert_eq. by rewrite fill_length.
  - rewrite list_lookup_insert_ne by done. apply IH; set_solver.
Qed.

Lemma read_head_loop f ixs : forall s,
  (forall i, i ∈ ixs -> (i < length (lh_block (k_log s)))%nat) ->
  kiter ixs (fun i => lh_set i (f i)) s = Ok tt (upd_k_log (upd_lh_block (fill f ixs)) s).
Proof.
  induction ixs as [|i ixs IH]; intros s Hi; cbn [kiter].
  - unfold kret. f_equal. by destruct s as [? ? ? ? ? ? ? ? ? ? ? ? ? ? ? ? []].
  - rewrite (kbind_ok _ _ s tt (upd_k_log (upd_lh_block (insert i (f i))) s)).
    + rewrite IH; [done|]. simpl. intros j Hj. rewrite length_insert. apply Hi. set_solver.
    + unfold lh_set. rewrite (kbind_ok _ _ _ _ _ (get_log_ok s)).
      destruct (Nat.ltb_spec i (length (lh_block (k_log s)))); [done|].
      specialize (Hi i ltac:(set_solver)). lia.
Qed.

(** A kernel that has just booted on a disk: nothing is dirty and the log structure knows
    where the log is. *)
Record rebooted (r : kstate) (pid : Z) (start size : Z) : Prop := {
  rb_bio : bio_ok r pid [];
  rb_clean : forall n, isdirty r n = false;
  rb_start : log_start (k_log r) = start;
  rb_size : log_size (k_log r) = size;
  rb_dev : log_dev (k_log r) = 1;
  rb_array : length (lh_block (k_log r)) = Z.to_nat LOGSIZE;
  rb_region : 0 <= start /\ 0 < size /\ start + size <= k_disksize r < 2 ^ 31;
}.

(** The log structure that [read_head] makes of the header [h]. *)
Definition read_log (l : log) (h : list Z) : log :=
  upd_lh_block (fill (hdr_block h) (seq 0 (Z.to_nat (hdr_n h)))) (upd_lh_n (fun _ => hdr_n h) l).

Lemma read_log_logged l h i :
  length (lh_block l) = Z.to_nat LOGSIZE -> hdr_n h <= LOGSIZE -> (i < Z.to_nat (hdr_n h))%nat ->
  logged (read_log l h) i = hdr_block h i.
Proof.
  intros Hl Hn Hi. unfold logged, read_log. simpl. rewrite fill_lookup; [done| |lia].
  apply elem_of_seq. lia.
Qed.

Lemma read_head_ok `{Fuel} r pid start size :
  rebooted r pid start size ->
  let h := disk_block r start in
  0 <= hdr_n h <= LOGSIZE ->
  exists r1, read_head r = Ok tt r1 /\ bio_ok r1 pid [] /\ k_log r1 = read_log (k_log r) h /\
    k_disk r1 = k_disk r /\ k_disksize r1 = k_disksize r /\
    (forall n, view r1 n = view r n) /\ (forall n, isdirty r1 n = false).
Proof.
  intros [Hs Hcl Hst Hsz Hdev Harr Hreg] h Hn.
  destruct (bread_room r pid [] ltac:(intros n; by rewrite Hcl) [] start Hs) as (b & r1 & Hr & P1);
    [set_solver|lia|left; simpl; unfold NBUF; lia|].
  pose proof (bread_frame _ _ _ _ _ _ P1) as F1. destruct (frame_log _ _ F1) as [L1 S1].
  destruct P1 as (Hb & _ & Hs1 & Hc & Hdata & Hv & Hd & _ & Hclean & E1).
  destruct (held_slot r1 pid [b] b Hs1 ltac:(set_solver)) as (Hbf & _).
  rewrite (view_clean r pid start Hs (Hcl start)) in Hdata. fold h in Hdata.
  set (r2 := upd_k_log (fun l => read_log l h) r1).
  assert (Hs2 : bio_ok r2 pid [b]) by (by apply bio_ok_log).
  assert (Hbn : b_blockno (buf_at r1 b) = start) by (unfold caches in Hc; lia).
  destruct (wp_run _ _ _ (brelse_ok r2 pid [b] [] b Hs2 ltac:(done)
    ltac:(change (buf_at r2 b) with (buf_at r1 b); rewrite Hbn; exact Hclean))) as ([] & r3 & R3 & P3 & _).
  pose proof (brelse_frame _ _ _ _ _ _ Hs2 P3) as F3. destruct (frame_log _ _ F3) as [L3 S3].
  destruct P3 as (Hs3 & Hv3 & Hd3 & _ & E3).
  exists r3. split.
  - unfold read_head. rewrite (kbind_ok _ _ _ _ _ (get_log_ok r)). rewrite Hdev, Hst.
    change (u32 1) with 1. rewrite u32_id by lia. rewrite (kbind_ok _ _ _ _ _ Hr).
    rewrite (kbind_ok _ _ _ _ _ (get_buf_ok _ _ _ Hbf)). rewrite Hdata.
    rewrite (kbind_ok (set_log _) _ r1 tt (upd_k_log (upd_lh_n (fun _ => hdr_n h)) r1) eq_refl).
    erewrite (kbind_ok (kiter _ _)); [|apply read_head_loop].
    2:{ intros i Hi%elem_of_seq. simpl. rewrite L1, Harr. lia. }
    exact R3.
  - split_and!; [done| | | | |].
    + rewrite L3. unfold r2. simpl. by rewrite L1.
    + rewrite E3. unfold r2. simpl. rewrite E1. done.
    + rewrite S3. unfold r2. simpl. done.
    + intros n. rewrite Hv3. change (view r2 n) with (view r1 n). apply Hv.
    + intros n. rewrite Hd3. change (isdirty r2 n) with (isdirty r1 n). by rewrite Hd.
Qed.

(** The disk after recovery, outside the log region: the blocks of a committed
    transaction have been copied to their homes. *)
Definition recovered (l : log) (d : Z -> list Z) (n : Z) : list Z :=
  after_writes (install_writes l d 0 (Z.to_nat (lh_n l))) d n.

Lemma recover_ok `{Fuel} r pid start size :
  rebooted r pid start size ->
  let h := disk_block r start in let l := read_log (k_log r) h in
  log_wf l (k_disksize r) -> txn_wf l (k_disksize r) ->
  exists r', recover_from_log r = Ok tt r' /\ bio_ok r' pid [] /\ lh_n (k_log r') = 0 /\
    (forall n, isdirty r' n = false) /\ hdr_n (disk_block r' start) = 0 /\
    forall n, ~ in_log l n -> disk_block r' n = recovered l (disk_block r) n.
Proof.
  intros Hrb h l Hwf Htx. pose proof Hrb as [Hs Hcl Hst Hsz Hdev Harr Hreg].
  assert (Hstl : log_start l = start) by done.
  destruct (read_head_ok r pid start size Hrb (proj1 (lw_n _ _ Hwf))) as (r1 & R1 & Hs1 & L1 & D1 & S1 & V1 & Cl1).
  destruct (wp_run _ _ _ (install_loop pid l (k_disksize r) Hwf Htx [] (Z.to_nat (lh_n l)) r1 0%nat L1 S1 Hs1
    ltac:(intros n; by rewrite Cl1) ltac:(unfold NBUF; simpl; lia) ltac:(right; unfold NBUF; simpl; lia) ltac:(lia)))
    as ([] & r2 & R2 & Hs2 & W2).
  destruct (wrote_log _ _ _ W2) as [L2 S2]. destruct W2 as (Wa & Wb & Wv & Wd & Wf).
  assert (Cl2 : forall n, isdirty r2 n = false).
  { intros n. apply not_true_iff_false. rewrite Wd, Cl1. by intros [? _]. }
  set (l0 := upd_lh_n (fun _ => 0) l). set (r3 := upd_k_log (upd_lh_n (fun _ => 0)) r2).
  assert (Hwf0 : log_wf l0 (k_disksize r)).
  { apply log_wf_n; [done|unfold LOGSIZE, MAXOPBLOCKS; lia|]. apply Hwf. }
  destruct (wp_run _ _ _ (write_head_ok r3 pid l0 [] ltac:(unfold r3, l0; simpl; by rewrite L2, L1)
    ltac:(unfold r3; simpl; by rewrite S2, S1) (bio_ok_log _ _ _ _ Hs2)
    ltac:(intros n; change (isdirty r3 n) with (isdirty r2 n); by rewrite Cl2) ltac:(unfold NBUF; simpl; lia)))
    as ([] & r4 & R4 & Hs4 & W4).
  destruct (wrote_log _ _ _ W4) as [L4 S4]. destruct W4 as (Va & Vb & Vv & Vd & Vf).
  assert (Cl4 : forall n, isdirty r4 n = false).
  { intros n. apply not_true_iff_false. rewrite Vd. intros [Hx _]. change (isdirty r2 n = true) in Hx. by rewrite Cl2 in Hx. }
  exists r4. split_and!; [|done| |done| |].
  - unfold recover_from_log. rewrite (kbind_ok _ _ _ _ _ R1). unfold install_trans.
    rewrite (kbind_ok _ _ r1 tt r2) by (rewrite (kbind_ok _ _ _ _ _ (get_log_ok r1)), L1; exact R2).
    by rewrite (kbind_ok (set_log (upd_lh_n (fun _ => 0))) _ r2 tt r3 eq_refl).
  - rewrite L4. done.
  - rewrite <- (view_clean r4 pid start Hs4 (Cl4 start)), Vv.
    rewrite (after_writes_fun _ _ (fun _ => put_header l0 (view r3 (log_start l0)))).
    + rewrite decide_True by (rewrite elem_of_write1; done).
      apply (put_header_empty l (k_disksize r) _ Hwf), (view_ok r3 pid []), bio_ok_log, Hs2.
    + intros w Hw. assert (w = (log_start l0, put_header l0 (view r3 (log_start l0)))) as -> by set_solver. done.
  - intros n Hn. rewrite <- (view_clean r4 pid n Hs4 (Cl4 n)), Vv.
    rewrite after_writes_out.
    2:{ rewrite elem_of_write1. intros ->. apply Hn. unfold in_log. simpl. pose proof (lw_region _ _ Hwf). simpl in *. lia. }
    change (view r3 n) with (view r2 n). rewrite Wv. unfold recovered.
    assert (Hvd : forall m, view r1 m = disk_block r m) by (intros m; rewrite V1; by apply (view_clean r pid)).
    unfold install_writes. erewrite map_ext; [|intros i; by rewrite Hvd]. by apply after_writes_ext.
Qed.

Lemma recover_empty `{Fuel} r pid start size :
  rebooted r pid start size -> hdr_n (disk_block r start) = 0 ->
  exists r', recover_from_log r = Ok tt r' /\
    forall n, ~ (start <= n < start + size) -> disk_block r' n = disk_block r n.
Proof.
  intros Hrb H0. pose proof Hrb as [Hs Hcl Hst Hsz Hdev Harr Hreg].
  destruct (recover_ok r pid start size Hrb) as (r' & R & _ & _ & _ & _ & Hd).
  - constructor; unfold read_log; simpl; rewrite ?H0; try done; [lia|].
    unfold LOGSIZE, MAXOPBLOCKS. lia.
  - unfold txn_wf, txn, read_log. simpl. rewrite H0. simpl. split; [apply NoDup_nil_2|set_solver].
  - exists r'. split; [done|]. intros n Hn. rewrite Hd.
    + unfold recovered, read_log. simpl. rewrite H0. done.
    + unfold in_log, read_log. simpl. lia.
Qed.

Lemma recover_full `{Fuel} r pid l V :
  rebooted r pid (log_start l) (log_size l) -> log_wf l (k_disksize r) -> txn_wf l (k_disksize r) ->
  header_for l (disk_block r (log_start l)) ->
  (forall i, (i < Z.to_nat (lh_n l))%nat -> disk_block r (log_start l + Z.of_nat i + 1) = V (logged l i)) ->
  exists r', recover_from_log r = Ok tt r' /\
    forall n, ~ in_log l n -> disk_block r' n = if decide (n ∈ txn l) then V n else disk_block r n.
Proof.
  intros Hrb Hwf Htx (Hh1 & Hh2 & Hh3) HV. pose proof Hrb as [Hs Hcl Hst Hsz Hdev Harr Hreg].
  set (h := disk_block r (log_start l)) in *. set (l' := read_log (k_log r) h).
  assert (Hlg : forall i, (i < Z.to_nat (lh_n l))%nat -> logged l' i = logged l i).
  { intros i Hi. unfold l'. rewrite read_log_logged; [by apply Hh3|done| |by rewrite Hh2].
    rewrite Hh2. apply Hwf. }
  assert (Hwf' : log_wf l' (k_disksize r)).
  { constructor; unfold l', read_log; simpl; rewrite ?Hh2, ?Hst, ?Hsz; try done;
      [by rewrite fill_length|apply Hwf]. }
  assert (Htxn : txn l' = txn l).
  { apply list_eq. intros i. destruct (decide (i < Z.to_nat (lh_n l))%nat) as [Hi|Hi].
    - destruct (txn_lookup l _ i Hwf Hi) as [_ ->].
      destruct (txn_lookup l' _ i Hwf') as [_ ->]; [unfold l', read_log; simpl; by rewrite Hh2|]. by rewrite Hlg.
    - rewrite !lookup_ge_None_2; [done|rewrite (length_txn l _ Hwf); lia|].
      rewrite (length_txn l' _ Hwf'). unfold l', read_log. simpl. rewrite Hh2. lia. }
  assert (Hin : forall n, in_log l' n <-> in_log l n) by (intros n; unfold in_log, l', read_log; simpl; by rewrite Hst, Hsz).
  destruct (recover_ok r pid (log_start l) (log_size l) Hrb Hwf') as (r' & R & _ & _ & _ & _ & Hd).
  { unfold txn_wf. fold h l'. rewrite Htxn. destruct Htx as [T1 T2]. split; [done|].
    intros n Hn. rewrite Hin. by apply T2. }
  exists r'. split; [done|]. intros n Hn. rewrite Hd by (fold h l'; by rewrite Hin).
  fold h l'. unfold recovered.
  assert (Hln : lh_n l' = lh_n l) by (unfold l', read_log; simpl; done). rewrite Hln.
  rewrite (after_writes_fun _ _ V).
  - assert (Hiff : n ∈ (install_writes l' (disk_block r) 0 (Z.to_nat (lh_n l))).*1 <-> n ∈ txn l); [|].
    { unfold install_writes. rewrite <- list_fmap_compose. rewrite list_elem_of_fmap. split.
      - intros (i & -> & Hi%elem_of_seq). simpl. rewrite Hlg by lia. apply list_elem_of_lookup. exists i.
        apply (txn_lookup l _ i Hwf). lia.
      - intros (i & Hi)%list_elem_of_lookup. exists i.
        assert (Hil : (i < Z.to_nat (lh_n l))%nat)
          by (apply lookup_lt_Some in Hi; by rewrite (length_txn l _ Hwf) in Hi).
        destruct (txn_lookup l _ i Hwf Hil) as [_ Hx]. split; [|apply elem_of_seq; lia].
        simpl. rewrite Hlg by done. congruence. }
    repeat case_decide; tauto.
  - intros w (i & -> & Hi%elem_of_seq)%list_elem_of_fmap. simpl. rewrite Hlg by lia.
    change (log_start l') with (log_start (k_log r)). rewrite Hst. apply HV. lia.
Qed.

(** ** Crashes during a commit *)

Section Crash.
Context `{Fuel} (s r : kstate) (pid : Z) (l : log) (h1 h0 : list Z) (wd : list (Z * list Z)).
Context (Hpre : commit_pre s pid l) (Hhdr : hdr_n (disk_block s (log_start l)) = 0).
Context (Hh1 : header_for l h1) (Hh0 : hdr_n h0 = 0).
Context (Hrb : rebooted r pid (log_start l) (log_size l)) (Hds : k_disksize r = k_disksize s).
Context (Hblk : forall n, disk_block r n = after_writes wd (disk_block s) n).

Definition home_writes : list (Z * list Z) :=
  map (fun i => (logged l i, view s (logged l i))) (seq 0 (Z.to_nat (lh_n l))).

(** Recovery leaves all of the file system as in [v]. *)
Definition recovers_to (v : Z -> list Z) : Prop :=
  exists r', recover_from_log r = Ok tt r' /\ forall n, ~ in_log l n -> disk_block r' n = v n.

Lemma home_writes_fst n : n ∈ home_writes.*1 -> n ∈ txn l.
Proof using Hpre.
  destruct Hpre as [_ Hwf _ _ _ _]. unfold home_writes. rewrite <- list_fmap_compose.
  intros (i & -> & Hi%elem_of_seq)%list_elem_of_fmap. apply list_elem_of_lookup. exists i.
  apply (txn_lookup l (k_disksize s)); [done|lia].
Qed.

Lemma home_writes_snd w : w ∈ home_writes -> w.2 = view s w.1.
Proof using Type. unfold home_writes. by intros (i & -> & _)%list_elem_of_fmap. Qed.

Lemma log_writes_in n :
  n ∈ (log_writes l (view s) 0 (Z.to_nat (lh_n l))).*1 -> in_log l n /\ n <> log_start l.
Proof using Hpre.
  destruct Hpre as [_ [_ Hreg Ha Hn] _ _ _ _]. rewrite log_writes_fst. unfold in_log.
  intros (i & Hi & ->). lia.
Qed.

(** A crash before the header is written: nothing has happened. *)
Lemma crash_before k :
  log_writes l (view s) 0 (Z.to_nat (lh_n l)) = wd ++ k -> recovers_to (disk_block s).
Proof using Hpre Hhdr Hrb Hblk.
  intros Hwd.
  assert (Hsub : forall n, n ∈ wd.*1 -> in_log l n /\ n <> log_start l).
  { intros n Hn. apply log_writes_in. rewrite Hwd, fmap_app. apply elem_of_app. by left. }
  destruct (recover_empty r pid (log_start l) (log_size l) Hrb) as (r' & R & Hd).
  { rewrite Hblk, after_writes_out; [done|]. intros Hn. by destruct (Hsub _ Hn). }
  exists r'. split; [done|]. intros n Hn. rewrite Hd, Hblk by done.
  apply after_writes_out. intros Hin. by destruct (Hsub _ Hin).
Qed.

(** A crash after the header is written and before it is erased: recovery installs the
    transaction again. *)
Lemma crash_between j k :
  wd = log_writes l (view s) 0 (Z.to_nat (lh_n l)) ++ (log_start l, h1) :: j ->
  home_writes = j ++ k -> recovers_to (view s).
Proof using Hpre Hh1 Hrb Hds Hblk.
  intros Hwd Hj. pose proof Hpre as [_ Hwf Htx Hs Hd _]. pose proof Hwf as [_ Hreg Ha Hn].
  assert (Hjt : forall n, n ∈ j.*1 -> n ∈ txn l).
  { intros n Hin. apply home_writes_fst. rewrite Hj, fmap_app. apply elem_of_app. by left. }
  assert (Hjv : forall w, w ∈ j -> w.2 = view s w.1).
  { intros w Hw. apply home_writes_snd. rewrite Hj. apply elem_of_app. by left. }
  assert (Hjl : forall n, in_log l n -> n ∉ j.*1).
  { intros n Hin Hn'. by destruct (proj2 Htx _ (Hjt _ Hn')). }
  assert (Hst : in_log l (log_start l)) by (unfold in_log; lia).
  assert (Happ : forall n, disk_block r n = after_writes j (after_writes [(log_start l, h1)]
    (after_writes (log_writes l (view s) 0 (Z.to_nat (lh_n l))) (disk_block s))) n).
  { intros n. rewrite Hblk, Hwd, after_writes_app. done. }
  destruct (recover_full r pid l (view s)) as (r' & R & Hr'); [done|by rewrite Hds|by rewrite Hds| | |].
  - assert (disk_block r (log_start l) = h1) as ->; [|done].
    rewrite Happ, after_writes_out by auto. simpl. by rewrite Z.eqb_refl.
  - intros i Hi. destruct (step_blocks l (k_disksize s) Hwf Htx i Hi) as (_ & _ & _ & _ & _ & _ & HinA & _ & _).
    rewrite Happ, after_writes_out by auto. rewrite after_writes_out by (rewrite elem_of_write1; lia).
    rewrite (after_writes_fun _ _ (fun m => view s (logged l (Z.to_nat (m - log_start l - 1))))).
    + rewrite decide_True by (apply log_writes_fst; exists i; lia). do 2 f_equal. lia.
    + unfold log_writes. intros w (q & -> & Hq)%list_elem_of_fmap. simpl. do 2 f_equal. lia.
  - exists r'. split; [done|]. intros n Hout. rewrite Hr' by done. case_decide as Hin; [done|].
    rewrite Happ, after_writes_out by auto.
    rewrite after_writes_out by (rewrite elem_of_write1; congruence).
    rewrite after_writes_out by (intros Hx; by destruct (log_writes_in _ Hx)).
    symmetry. apply (view_clean s pid n Hs). apply not_true_iff_false. by rewrite Hd.
Qed.

(** A crash after everything: the transaction is in place. *)
Lemma crash_after :
  wd = commit_writes l (view s) h1 h0 -> recovers_to (view s).
Proof using Hpre Hh0 Hrb Hds Hblk.
  intros ->. pose proof Hpre as [_ Hwf Htx Hs Hd _]. pose proof Hwf as [_ Hreg Ha Hn].
  destruct (recover_empty r pid (log_start l) (log_size l) Hrb) as (r' & R & Hr').
  { rewrite Hblk. unfold commit_writes. rewrite !app_assoc, after_writes_app. simpl. by rewrite Z.eqb_refl. }
  exists r'. split; [done|]. intros n Hout. rewrite Hr', Hblk by done.
  destruct (decide (n ∈ txn l)) as [Hin|Hin].
  - unfold commit_writes. rewrite !after_writes_app.
    rewrite after_writes_out by (rewrite elem_of_write1; unfold in_log in Hout; lia).
    rewrite (after_writes_fun _ _ (view s)) by apply home_writes_snd. rewrite decide_True; [done|].
    apply list_elem_of_lookup in Hin as [i Hi].
    assert (Hil : (i < Z.to_nat (lh_n l))%nat)
      by (apply lookup_lt_Some in Hi; by rewrite (length_txn l _ Hwf) in Hi).
    rewrite <- list_fmap_compose. apply list_elem_of_fmap. exists i. split; [|apply elem_of_seq; lia].
    destruct (txn_lookup l _ i Hwf Hil) as [_ Hx]. simpl. congruence.
  - rewrite after_writes_out.
    + symmetry. apply (view_clean s pid n Hs). apply not_true_iff_false. by rewrite Hd.
    + unfold commit_writes. rewrite !fmap_app, !elem_of_app, !elem_of_write1.
      intros [Hx|[Hx|[Hx|Hx]]].
      * by destruct (log_writes_in _ Hx).
      * unfold in_log in Hout. lia.
      * by apply Hin, home_writes_fst.
      * unfold in_log in Hout. lia.
Qed.
End Crash.

(** C1: a commit is atomic with respect to crashes.  [commit] succeeds and leaves every
    block of the file system on the disk as it was in the cache; and after a crash that
    lets any prefix of its disk writes through, the recovery done at boot succeeds and
    leaves the file system's blocks either all as they were on disk before the commit or
    all as the transaction had them. *)
Theorem commit_crash_atomic `{Fuel} (s : kstate) (pid : Z) (l : log)
    (Hpre : commit_pre s pid l) (Hpos : 0 < lh_n l)
    (Hhdr : hdr_n (disk_block s (log_start l)) = 0) :
  exists s' ws, commit s = Ok tt s' /\
    k_writes s' = k_writes s ++ ws /\ k_disk s' = apply_writes ws (k_disk s) /\
    lh_n (k_log s') = 0 /\ (forall n, ~ in_log l n -> disk_block s' n = view s n) /\
    forall done_ lost r,
      ws = done_ ++ lost -> k_disk r = apply_writes done_ (k_disk s) ->
      k_disksize r = k_disksize s -> rebooted r pid (log_start l) (log_size l) ->
      exists r', recover_from_log r = Ok tt r' /\
        ((forall n, ~ in_log l n -> disk_block r' n = disk_block s n) \/
         (forall n, ~ in_log l n -> disk_block r' n = view s n)).
Proof.
  destruct (commit_ok s pid l Hpre Hpos) as (s' & h1 & h0 & R & Hs' & L' & Cl & Hh1 & Hh0 & Dk & Wr & Vw).
  pose proof Hpre as Hpre'. destruct Hpre as [Hl Hwf Htx Hs Hd Hroom]. pose proof Hwf as [_ Hreg Ha Hn].
  exists s', (commit_writes l (view s) h1 h0). split_and!; [done..|by rewrite L'| |].
  { intros n Hout. rewrite <- (view_clean s' pid n Hs' (Cl n)), Vw.
    by apply (commit_writes_view l (k_disksize s)). }
  intros wd wl r Hws Hdr Hdsr Hrb.
  assert (Hblk : forall n, disk_block r n = after_writes wd (disk_block s) n).
  { intros n. unfold disk_block at 1. rewrite Hdr. apply blk_apply_writes. }
  assert (Hdo : recovers_to r l (disk_block s) \/ recovers_to r l (view s)).
  { unfold commit_writes in Hws. symmetry in Hws. apply app_eq_app in Hws as [k [[Hwd Hk]|[Hwd Hk]]].
    - destruct k as [|w k].
      + left. rewrite app_nil_r in Hwd. apply (crash_before s r pid l wd Hpre' Hhdr Hrb Hblk []).
        by rewrite app_nil_r.
      + simpl in Hk. injection Hk as <- Hk. right. apply app_eq_app in Hk as [j [[Hj Hk]|[Hj Hk]]].
        * by apply (crash_between s r pid l h1 wd Hpre' Hh1 Hrb Hdsr Hblk k j).
        * destruct j as [|w j]; simpl in Hk.
          -- apply (crash_between s r pid l h1 wd Hpre' Hh1 Hrb Hdsr Hblk k []); [done|].
             rewrite app_nil_r in Hj. by rewrite app_nil_r, Hj.
          -- injection Hk as <- Hk. destruct j; [|done].
             apply (crash_after s r pid l h1 h0 wd Hpre' Hh0 Hrb Hdsr Hblk). by rewrite Hwd, Hj.
    - left. by apply (crash_before s r pid l wd Hpre' Hhdr Hrb Hblk k). }
  destruct Hdo as [(r' & R' & Hr')|(r' & R' & Hr')]; exists r'; auto.
Qed.

(** ** Adding a block to the transaction *)

(** Between operations the log structure is well formed and the dirty blocks are exactly
    the transaction's. *)
Record log_inv (s : kstate) : Prop := {
  li_wf : log_wf (k_log s) (k_disksize s);
  li_txn : txn_wf (k_log s) (k_disksize s);
  li_dirty : forall n, isdirty s n = true <-> n ∈ txn (k_log s);
}.

Lemma absorb_le bno l n : (absorb bno l n <= n)%nat.
Proof. revert n. induction l as [|x l IH]; intros [|n]; simpl; try lia. case_match; [lia|]. specialize (IH n). lia. Qed.

Lemma absorb_spec bno l n :
  (n <= length l)%nat -> Forall (fun x => 0 <= x < 2 ^ 31) (take n l) ->
  if decide (bno ∈ take n l) then (absorb bno l n < n)%nat /\ l !! absorb bno l n = Some bno
  else absorb bno l n = n.
Proof.
  revert n. induction l as [|x l IH]; intros [|n] Hn Hok; [done|simpl in Hn; lia|done|].
  cbn [take firstn absorb] in *. simpl in Hn.
  apply Forall_cons in Hok as [Hx Hok]. rewrite u32_id by lia. specialize (IH n ltac:(lia) Hok).
  destruct (Z.eqb_spec x bno) as [->|Hne].
  - rewrite decide_True by set_solver. split; [lia|done].
  - destruct (decide (bno ∈ take n l)) as [Hin|Hin].
    + rewrite decide_True by (apply elem_of_cons; by right). destruct IH as [IH1 IH2]. split; [lia|done].
    + rewrite decide_False by (rewrite elem_of_cons; intros [?|?]; congruence). by f_equal.
Qed.

(** The log structure after block [bno] has been added. *)
Definition add_block (bno : Z) (l : log) : log :=
  if decide (bno ∈ txn l) then l
  else upd_lh_n (fun n => n + 1) (upd_lh_block (insert (Z.to_nat (lh_n l)) bno) l).

Lemma txn_add_block l ds bno :
  log_wf l ds -> lh_n l < LOGSIZE ->
  txn (add_block bno l) = if decide (bno ∈ txn l) then txn l else txn l ++ [bno].
Proof.
  intros [_ _ Ha Hn] Hlt. unfold add_block. case_decide; [done|]. unfold txn. simpl.
  replace (Z.to_nat (lh_n l + 1)) with (S (Z.to_nat (lh_n l))) by lia.
  rewrite (take_S_r _ _ bno) by (apply list_lookup_insert_eq; lia).
  by rewrite take_insert_ge by lia.
Qed.

Lemma log_write_run s pid hs b :
  bio_ok s pid hs -> b ∈ hs -> log_wf (k_log s) (k_disksize s) -> txn_wf (k_log s) (k_disksize s) ->
  lh_n (k_log s) < LOGSIZE -> lh_n (k_log s) < log_size (k_log s) - 1 -> 1 <= log_outstanding (k_log s) ->
  log_write b s = Ok tt (upd_k_bufs (alter (upd_b_flags (fun f => Z.lor f B_DIRTY)) b)
    (upd_k_log (add_block (b_blockno (buf_at s b))) s)).
Proof.
  intros Hs Hin Hwf Htx H1 H2 H3. pose proof Hwf as [_ Hreg Ha Hn].
  destruct (held_slot s pid hs b Hs Hin) as (Hbf & _ & _ & _ & _ & Hr & _).
  set (bno := b_blockno (buf_at s b)) in *. set (l := k_log s) in *.
  unfold log_write. rewrite (kbind_ok _ _ _ _ _ (get_log_ok s)). fold l.
  destruct (Z.leb_spec LOGSIZE (lh_n l)); [lia|]. destruct (Z.leb_spec (log_size l - 1) (lh_n l)); [lia|].
  cbn [orb]. destruct (Z.ltb_spec (log_outstanding l) 1); [lia|].
  set (s1 := upd_k_held (cons LK_log) s).
  rewrite (kbind_ok _ _ s tt s1) by (apply acquire_ok; rewrite (bio_locks _ _ _ Hs); set_solver).
  rewrite (kbind_ok _ _ _ _ _ (get_log_ok s1)). change (k_log s1) with l.
  rewrite (kbind_ok _ _ s1 _ s1 (get_buf_ok _ _ s1 Hbf)). fold bno.
  pose proof (absorb_spec bno (lh_block l) (Z.to_nat (lh_n l)) ltac:(lia)
    ltac:(apply Forall_forall; intros x Hx; destruct (proj2 Htx x Hx); lia)) as Hab.
  fold (txn l) in Hab. rewrite s32_id by lia. set (i := absorb bno (lh_block l) (Z.to_nat (lh_n l))) in *.
  assert (Hi : (i <= Z.to_nat (lh_n l))%nat) by apply absorb_le.
  rewrite (kbind_ok _ _ s1 tt (upd_k_log (upd_lh_block (insert i bno)) s1)).
  2:{ unfold lh_set. rewrite (kbind_ok _ _ _ _ _ (get_log_ok s1)). change (k_log s1) with l.
      destruct (Nat.ltb_spec i (length (lh_block l))); [done|]. lia. }
  assert (Hadd : (kwhen (Nat.eqb i (Z.to_nat (lh_n l))) (set_log (upd_lh_n (fun n => n + 1))))
    (upd_k_log (upd_lh_block (insert i bno)) s1) = Ok tt (upd_k_log (add_block bno) s1)).
  { unfold add_block. unfold kwhen, kret, set_log, modify. destruct (decide (bno ∈ txn l)) as [Hd|Hd].
    - destruct Hab as [Hlt Hlk]. rewrite (proj2 (Nat.eqb_neq i _)) by lia. f_equal.
      unfold upd_k_log. f_equal. fold l. change (k_log s1) with l. rewrite decide_True by done.
      unfold upd_lh_block. rewrite list_insert_id by done. by destruct l.
    - rewrite Hab, Nat.eqb_refl. f_equal. unfold upd_k_log. simpl. fold l. by rewrite decide_False. }
  rewrite (kbind_ok _ _ _ _ _ Hadd).
  rewrite (kbind_ok (set_buf _ _) _ _ tt _ eq_refl).
  rewrite (release_acquired LK_log []); [|simpl; by rewrite (bio_locks _ _ _ Hs)|set_solver].
  f_equal. unfold upd_k_held, upd_k_bufs, upd_k_log. simpl. by rewrite (bio_locks _ _ _ Hs).
Qed.

Definition log_write_post (s : kstate) (pid : Z) (hs : list nat) (b : nat) (s' : kstate) : Prop :=
  bio_ok s' pid hs /\ (forall n, view s' n = view s n) /\
  (forall n, isdirty s' n = (n =? b_blockno (buf_at s b)) || isdirty s n) /\
  k_log s' = add_block (b_blockno (buf_at s b)) (k_log s) /\
  s' = upd_k_log (fun _ => k_log s') (upd_k_bufs (insert b (upd_b_flags (fun _ => Z.lor B_VALID B_DIRTY) (buf_at s b))) s).

Lemma log_write_ok s pid hs b :
  bio_ok s pid hs -> b ∈ hs -> log_wf (k_log s) (k_disksize s) -> txn_wf (k_log s) (k_disksize s) ->
  lh_n (k_log s) < LOGSIZE -> lh_n (k_log s) < log_size (k_log s) - 1 -> 1 <= log_outstanding (k_log s) ->
  wp (log_write b) (fun _ s' => log_write_post s pid hs b s') s.
Proof.
  intros Hs Hin Hwf Htx H1 H2 H3. unfold wp, wpx. rewrite (log_write_run s pid hs b) by done.
  destruct (held_slot s pid hs b Hs Hin) as (Hbf & _ & _ & Hval & Hdev & Hr & Hdata).
  set (bno := b_blockno (buf_at s b)) in *. set (s0 := upd_k_log (add_block bno) s).
  set (bf' := upd_b_flags (fun _ => Z.lor B_VALID B_DIRTY) (buf_at s b)).
  rewrite (upd_bufs_ext _ (insert b bf')).
  2:{ rewrite (alter_insert _ b _ _ Hbf). f_equal. unfold bf', upd_b_flags. f_equal.
      destruct (slot_flags _ _ _ _ _ (bio_slots _ _ _ Hs b _ (held_lt _ _ _ _ Hs Hin) Hbf)) as [Hf|[<-|[<-|[]]]]; [|done..].
      unfold valid in Hval. by rewrite <- Hf in Hval. }
  assert (Hs0 : bio_ok s0 pid hs) by (by apply bio_ok_log).
  destruct (bio_modify s0 pid hs b bf' Hs0 Hin) with (s' := upd_k_bufs (insert b bf') s0) as (R1 & R2 & R3); try done.
  - unfold modified, bf'. simpl. split_and!; try done. set_solver.
  - apply (bio_disk _ _ _ Hs0).
  - split_and!; try done. intros n. rewrite R2. change (view s0 n) with (view s n). change (b_blockno bf') with bno.
    destruct (Z.eqb_spec n bno) as [->|]; [|done]. symmetry.
    apply (view_cached s pid hs bno b (buf_at s b) Hs (held_lt s pid hs b Hs Hin) Hbf); [|done].
    unfold caches. fold bno. by rewrite Hdev, !Z.eqb_refl.
Qed.

Lemma log_wf_add l ds bno :
  log_wf l ds -> lh_n l < LOGSIZE -> lh_n l < log_size l - 1 -> log_wf (add_block bno l) ds.
Proof.
  intros [W1 W2 W3 W4] H1 H2. unfold add_block. case_decide; [by constructor|].
  constructor; simpl; [done|done|by rewrite length_insert|lia].
Qed.

Lemma txn_wf_add l ds bno :
  log_wf l ds -> txn_wf l ds -> lh_n l < LOGSIZE -> 0 <= bno < ds -> ~ in_log l bno ->
  txn_wf (add_block bno l) ds.
Proof.
  intros Hwf [T1 T2] H1 Hb Hn. unfold txn_wf. rewrite (txn_add_block l ds) by done.
  assert (Hin : forall n, in_log (add_block bno l) n <-> in_log l n).
  { intros n. unfold add_block, in_log. by case_decide. }
  case_decide as Hd.
  - split; [done|]. intros n Hin'. rewrite Hin. auto.
  - split.
    + apply NoDup_app. split_and!; [done| |apply NoDup_singleton]. set_solver.
    + intros n [Hn'|Hn']%elem_of_app; rewrite Hin; [auto|]. assert (n = bno) as -> by set_solver. done.
Qed.

(** C2: [log_write] keeps the log's invariant and absorbs repeated writes: it adds the
    buffer's block to the transaction exactly when it is not there yet, so that the
    transaction stays free of duplicates, marks exactly that block dirty, and changes
    nothing the file system sees; it panics instead when the log is full or no operation
    is open. *)
Theorem log_write_absorbs (s : kstate) (pid : Z) (hs : list nat) (b : nat)
    (Hs : bio_ok s pid hs) (Hlog : log_inv s) (Hb : b ∈ hs)
    (Hout : ~ in_log (k_log s) (b_blockno (buf_at s b))) :
  let l := k_log s in
  let bno := b_blockno (buf_at s b) in
  if (LOGSIZE <=? lh_n l) || (log_size l - 1 <=? lh_n l) then
    log_write b s = Panic "too big a transaction"
  else if log_outstanding l <? 1 then log_write b s = Panic "log_write outside of trans"
  else exists s', log_write b s = Ok tt s' /\ bio_ok s' pid hs /\ log_inv s' /\
    (forall n, view s' n = view s n) /\
    txn (k_log s') = if decide (bno ∈ txn l) then txn l else txn l ++ [bno].
Proof.
  intros l bno. destruct Hlog as [Hwf Htx Hd].
  destruct ((LOGSIZE <=? lh_n l) || (log_size l - 1 <=? lh_n l)) eqn:E1.
  { unfold log_write. rewrite (kbind_ok _ _ _ _ _ (get_log_ok s)). fold l. by rewrite E1. }
  destruct (log_outstanding l <? 1) eqn:E2.
  { unfold log_write. rewrite (kbind_ok _ _ _ _ _ (get_log_ok s)). fold l. by rewrite E1, E2. }
  apply orb_false_iff in E1 as [E1 E1']. unfold l in *.
  destruct (wp_run _ _ _ (log_write_ok s pid hs b Hs Hb Hwf Htx ltac:(lia) ltac:(lia) ltac:(lia)))
    as ([] & s' & R & Hs' & Hv & Hd' & Hl' & E).
  destruct (held_slot s pid hs b Hs Hb) as (_ & _ & _ & _ & _ & Hr & _).
  assert (Hds : k_disksize s' = k_disksize s) by (rewrite E; done).
  assert (Htxn := txn_add_block (k_log s) (k_disksize s) bno Hwf ltac:(lia)).
  exists s'. split_and!; [done|done| |done|by rewrite Hl'].
  constructor; rewrite ?Hl', ?Hds.
  - apply log_wf_add; [done|lia|lia].
  - apply txn_wf_add; try done. lia.
  - intros n. rewrite Hd', orb_true_iff, Hd, Z.eqb_eq. unfold bno in Htxn. rewrite Htxn.
    case_decide; [split; [intros [->|]; done|tauto]|]. rewrite elem_of_app, elem_of_cons, elem_of_nil. tauto.
Qed.

(** ** A transaction of one block *)

Definition img8 : list (list Z) := replicate 8 zero_block.

Lemma img8_ok : Forall block_ok img8.
Proof. apply Forall_replicate. apply zero_block_ok. Qed.

(** A small disk with an empty log in blocks 2 to 5 and one operation open. *)
Definition demo_log : log := Log 2 4 1 false 1 0 (replicate (Z.to_nat LOGSIZE) 0).
Definition demo : kstate := upd_k_log (fun _ => demo_log) (fresh img8).

Lemma demo_log_wf : log_wf demo_log 8.
Proof. constructor; done. Qed.

Lemma demo_txn_wf : txn_wf demo_log 8.
Proof. split; [apply NoDup_nil_2|]. by intros n Hn%elem_of_nil. Qed.

#[local] Instance fuel0 : Fuel := 0%nat.

Section Demo.
Context (s0 : kstate) (Hs0 : bio_ok s0 1 []) (Hl0 : k_log s0 = demo_log).
Context (Hd0 : forall n, isdirty s0 n = false) (Hds0 : k_disksize s0 = 8).

(** Block 7 locked, as it is when [log_write] is called on it. *)
Lemma demo_locked :
  exists b s, bio_ok s 1 [b] /\ log_inv s /\ k_log s = demo_log /\ b_blockno (buf_at s b) = 7 /\
    k_disk s = k_disk s0 /\ k_disksize s = 8.
Proof using Type*.
  destruct (bread_room s0 1 [] ltac:(intros n; by rewrite Hd0) [] 7 Hs0) as (b & s & _ & P);
    [set_solver|lia|left; simpl; unfold NBUF; lia|].
  pose proof (bread_frame _ _ _ _ _ _ P) as F. destruct (frame_log _ _ F) as [L S].
  destruct P as (Hb & _ & Hs' & Hc & _ & _ & Hdd & _ & _ & E).
  exists b, s. split_and!; [done| |congruence| |by rewrite E|congruence].
  - constructor; rewrite ?L, ?S, ?Hl0, ?Hds0; [apply demo_log_wf|apply demo_txn_wf|].
    intros n. rewrite Hdd, Hd0. split; [done|]. by intros Hn%elem_of_nil.
  - unfold caches in Hc. lia.
Qed.

Lemma demo_commit :
  exists s, commit_pre s 1 (add_block 7 demo_log) /\ k_disk s = k_disk s0 /\ k_disksize s = 8.
Proof using Type*.
  destruct demo_locked as (b & s & Hs & [Hwf Htx Hd] & Hl & Hb & Hdk & Hds).
  destruct (wp_run _ _ _ (log_write_ok s 1 [b] b Hs ltac:(set_solver) Hwf Htx
    ltac:(rewrite Hl; done) ltac:(rewrite Hl; simpl; lia) ltac:(rewrite Hl; simpl; lia)))
    as ([] & s1 & _ & Hs1 & Hv1 & Hd1 & Hl1 & E1).
  rewrite Hb, Hl in Hl1.
  destruct (held_slot s 1 [b] b Hs ltac:(set_solver)) as (Hbf & _).
  assert (Hat : buf_at s1 b = upd_b_flags (fun _ => Z.lor B_VALID B_DIRTY) (buf_at s b)).
  { rewrite E1. unfold buf_at at 1. simpl. rewrite list_lookup_insert_eq; [done|by eapply lookup_lt_Some]. }
  destruct (wp_run _ _ _ (brelse_ok s1 1 [b] [] b Hs1 ltac:(done) ltac:(left; by rewrite Hat)))
    as ([] & s2 & _ & P & _).
  pose proof (brelse_frame _ _ _ _ _ _ Hs1 P) as F. destruct (frame_log _ _ F) as [L S].
  destruct P as (Hs2 & _ & Hd2 & _ & E2).
  assert (Hds2 : k_disksize s2 = 8) by (rewrite S, E1; done).
  exists s2. split_and!; [|rewrite E2, E1; exact Hdk|done].
  constructor; rewrite ?Hds2.
  - congruence.
  - apply log_wf_add; [apply demo_log_wf|done|simpl; lia].
  - apply txn_wf_add; [apply demo_log_wf|apply demo_txn_wf|done|lia|unfold in_log; simpl; lia].
  - done.
  - intros n. rewrite Hd2, Hd1, orb_true_iff, Hd, Hl, Hb, Z.eqb_eq. change (txn demo_log) with (@nil Z).
    change (txn (add_block 7 demo_log)) with [7]. rewrite elem_of_cons, elem_of_nil. tauto.
  - change (lh_n (add_block 7 demo_log)) with 1. unfold NBUF. lia.
Qed.
End Demo.

Lemma demo_ok :
  bio_ok demo 1 [] /\ k_log demo = demo_log /\ (forall n, isdirty demo n = false) /\
  k_disksize demo = 8 /\ hdr_n (blk (k_disk demo) 2) = 0.
Proof.
  split_and!; [apply bio_ok_log, binit_ok, img8_ok|vm_compute; reflexivity| |vm_compute; reflexivity..].
  intros n. apply not_true_iff_false. intros (i & bf & Hi & Hbf & Hc & Hd)%isdirty_iff.
  assert (Hb : forallb (fun bf => negb (dirty bf)) (k_bufs demo) = true) by (vm_compute; reflexivity).
  rewrite forallb_forall in Hb. specialize (Hb bf ltac:(apply list_elem_of_In, list_elem_of_lookup; by exists i)).
  by rewrite Hd in Hb.
Qed.

Lemma demo_exists :
  exists s0, bio_ok s0 1 [] /\ k_log s0 = demo_log /\ (forall n, isdirty s0 n = false) /\
    k_disksize s0 = 8 /\ hdr_n (blk (k_disk s0) 2) = 0.
Proof. exists demo. apply demo_ok. Qed.

Lemma log_write_absorbs_witness :
  exists b s s', log_write b s = Ok tt s' /\ txn (k_log s') = [7].
Proof.
  destruct demo_exists as (s0 & H1 & H2 & H3 & H4 & _).
  destruct (demo_locked s0 H1 H2 H3 H4) as (b & s & Hs & Hlog & Hl & Hb & _). exists b, s.
  pose proof (log_write_absorbs s 1 [b] b Hs Hlog ltac:(set_solver)) as H.
  rewrite Hl, Hb in H. destruct (H ltac:(unfold in_log; simpl; lia)) as (s' & R & _ & _ & _ & Ht).
  exists s'. split; [exact R|exact Ht].
Defined.

Lemma commit_crash_atomic_witness :
  exists s s', commit_pre s 1 (add_block 7 demo_log) /\ commit s = Ok tt s' /\ lh_n (k_log s') = 0.
Proof.
  destruct demo_exists as (s0 & H1 & H2 & H3 & H4 & H5).
  destruct (demo_commit s0 H1 H2 H3 H4) as (s & Hpre & Hdk & Hds).
  assert (Hh : hdr_n (disk_block s (log_start (add_block 7 demo_log))) = 0).
  { unfold disk_block. rewrite Hdk. exact H5. }
  destruct (commit_crash_atomic s 1 (add_block 7 demo_log) Hpre ltac:(done) Hh)
    as (s' & ws & R1 & _ & _ & R2 & _).
  exists s, s'. split; [exact Hpre|split; [exact R1|exact R2]].
Defined.
