(* ===== verification/Reserve.v ===== *)
(** * Reserving room in the log: what [begin_op] promises and what becomes of it

    [begin_op] lets an operation in when the log has room for MAXOPBLOCKS blocks of every open
    operation. The theorems say when it comes back, that operations that keep to their
    MAXOPBLOCKS blocks never outgrow the log, and where [log_write] refuses them all the same. *)

From S2P Require Import Prelude Mem Kernel Sched Bio Layout Log.

(** ** [begin_op] *)

(** What a process waiting in [begin_op] leaves: it sleeps on the log. *)
Definition waiting_log (s : kstate) : Prop :=
  k_held s = [LK_ptable] /\
  exists pr, cur_proc s = Some pr /\ p_state pr = SLEEPING /\ p_chan pr = Some CH_log.

(** The log has room for one more operation. *)
Definition has_room (l : log) : Prop :=
  log_committing l = false /\ lh_n l + (log_outstanding l + 1) * MAXOPBLOCKS <= LOGSIZE.

Lemma has_room_test l :
  has_room l <-> log_committing l || (LOGSIZE <? lh_n l + (log_outstanding l + 1) * MAXOPBLOCKS) = false.
Proof. unfold has_room. rewrite orb_false_iff, Z.ltb_ge. done. Qed.

(** The operation is counted, and no lock is held. *)
Definition counted (s s' : kstate) : Prop :=
  k_log s' = upd_log_outstanding (fun o => o + 1) (k_log s) /\ k_held s' = [].

Lemma round_ends n s :
  has_room (k_log s) -> k_held s = [LK_log] -> exists s', begin_op_loop n s = Ok tt s' /\ counted s s'.
Proof.
  intros E%has_room_test Hh. eexists. destruct n; cbn [begin_op_loop]; rewrite (kbind_ok _ _ _ _ _ (get_log_ok s)), E;
    rewrite (kbind_ok (set_log _) _ s tt _ eq_refl), (release_acquired LK_log []) by (done || set_solver); done.
Qed.

(** A round without room: the process sleeps, and looks again when it is resumed. *)
Lemma round_sleeps n p s :
  k_cur s = Some p -> is_Some (k_procs s !! p) -> k_held s = [LK_log] -> ~ has_room (k_log s) ->
  exists s1 k, begin_op_loop (S n) s = Swtch s1 k /\ waiting_log s1 /\
    forall s2, resumed s1 s2 -> exists s3, k s2 = begin_op_loop n s3 /\ k_log s3 = k_log s2 /\
      k_cur s3 = Some p /\ is_Some (k_procs s3 !! p) /\ k_held s3 = [LK_log].
Proof.
  intros Hcur [pr Hp] Hh Hno. cbn [begin_op_loop]. rewrite (kbind_ok _ _ _ _ _ (get_log_ok s)).
  rewrite has_room_test in Hno. apply not_false_is_true in Hno. rewrite Hno.
  destruct (sleep_swtch CH_log LK_log p pr s Hcur Hp Hh) as (k & Hsl & Hk). unfold kbind. rewrite Hsl.
  assert (Hlk : alter (asleep CH_log) p (k_procs s) !! p = Some (asleep CH_log pr))
    by (by rewrite list_lookup_alter_eq, Hp).
  eexists _, _. split; [done|]. split.
  - split; [done|]. exists (asleep CH_log pr). unfold cur_proc. simpl. by rewrite Hcur.
  - intros s2 (Hh' & Hcur' & Hpr). rewrite Hk by done. eexists. split; [done|]. simpl in *.
    destruct (Hpr p _ Hcur Hlk) as (pr' & Hp' & _). split_and!; [done|congruence| |done].
    rewrite list_lookup_alter_eq, Hp'. by eexists.
Qed.

Lemma begin_op_safe p n : forall s,
  k_cur s = Some p -> is_Some (k_procs s !! p) -> k_held s = [LK_log] ->
  wpi (fun _ => False) waiting_log resumed (fun _ s' => exists s0, has_room (k_log s0) /\ counted s0 s') (begin_op_loop n s).
Proof.
  induction n as [|n IH]; intros s Hcur Hp Hh;
    (destruct (decide (log_committing (k_log s) || (LOGSIZE <? lh_n (k_log s) + (log_outstanding (k_log s) + 1) * MAXOPBLOCKS) = false)) as [E|E];
     [apply has_room_test in E; destruct (round_ends 0 s E Hh) as (s' & Hr & Hc)|]).
  - rewrite Hr. by exists s.
  - cbn [begin_op_loop]. rewrite (kbind_ok _ _ _ _ _ (get_log_ok s)). apply not_false_is_true in E. by rewrite E.
  - destruct (round_ends (S n) s E Hh) as (s2 & Hr2 & Hc2). rewrite Hr2. by exists s.
  - destruct (round_sleeps n p s Hcur Hp Hh) as (s1 & k & Hsw & Hw & Hk); [by rewrite has_room_test|]. rewrite Hsw.
    split; [done|]. intros s2 (s3 & Hk3 & _ & H1 & H2 & H3)%Hk. rewrite Hk3. by apply IH.
Qed.

(** The state in which [begin_op] looks at the log: the one it is called in, or one it is resumed in. *)
Definition seen (env : list (kstate -> kstate)) (s s0 : kstate) : Prop :=
  k_log s0 = k_log s \/ exists e x, e ∈ env /\ waiting_log x /\ k_log s0 = k_log (e x).

Lemma begin_op_ends p env : forall n s,
  k_cur s = Some p -> is_Some (k_procs s !! p) -> k_held s = [LK_log] -> (length env <= n)%nat ->
  Forall (fun e => forall x, waiting_log x -> resumed x (e x)) env ->
  has_room (k_log s) \/ (exists e, last env = Some e /\ forall x, waiting_log x -> has_room (k_log (e x))) ->
  exists s0 s', resume_with env (begin_op_loop n s) = Ok tt s' /\ seen env s s0 /\ has_room (k_log s0) /\ counted s0 s'.
Proof.
  induction env as [|e env IH]; intros n s Hcur Hp Hh Hn He Hroom;
    (destruct (decide (log_committing (k_log s) || (LOGSIZE <? lh_n (k_log s) + (log_outstanding (k_log s) + 1) * MAXOPBLOCKS) = false)) as [E|E];
     [apply has_room_test in E; destruct (round_ends n s E Hh) as (s' & Hr & Hc); exists s, s'; rewrite Hr, resume_ok;
      split; [done|split; [by left|done]]|rewrite <- has_room_test in E]).
  - by destruct Hroom as [?|(e & ? & _)].
  - destruct n as [|n]; [cbn in Hn; lia|]. apply Forall_cons in He as [He Hes].
    destruct (round_sleeps n p s Hcur Hp Hh E) as (s1 & k & Hsw & Hw & Hk). rewrite Hsw. cbn [resume_with].
    destruct (Hk _ (He _ Hw)) as (s3 & Hk3 & Hl & H1 & H2 & H3). rewrite Hk3.
    destruct (IH n s3) as (s0 & s' & Hr & Hs0 & Hro & Hc); try done; [cbn in Hn; lia| |].
    + destruct Hroom as [?|(e' & Hlast & Hr)]; [done|]. destruct env as [|e2 env].
      * left. injection Hlast as <-. rewrite Hl. by apply Hr.
      * right. exists e'. split; [exact Hlast|done].
    + exists s0, s'. split; [done|]. split; [|done]. right. destruct Hs0 as [Hs0|(e' & x & Hin & Hx & Hs0)].
      * exists e, s1. split; [by left|]. split; [done|]. congruence.
      * exists e', x. split; [by right|done].
Qed.

(** C3: [begin_op] never panics, sleeps only on the log, and comes back: when, of what the
    others do while it sleeps, the last leaves room in the log ([env] has at most [fuel]
    elements, and any of them may leave room sooner), the call returns. It returns from a state it
    has seen in which no commit is running and the log has room for MAXOPBLOCKS blocks for
    every open operation, the new one included, which it then counts; no lock is held. *)
Theorem begin_op_returns `{Fuel} (s : kstate) (p : nat)
    (Hcur : k_cur s = Some p) (Hp : is_Some (k_procs s !! p)) (Hheld : k_held s = []) :
  wpi (fun _ => False) waiting_log resumed (fun _ s' => exists s0, has_room (k_log s0) /\ counted s0 s') (begin_op s) /\
  forall env, (length env <= fuel)%nat ->
    Forall (fun e => forall x, waiting_log x -> resumed x (e x)) env ->
    has_room (k_log s) \/ (exists e, last env = Some e /\ forall x, waiting_log x -> has_room (k_log (e x))) ->
    exists s0 s', resume_with env (begin_op s) = Ok tt s' /\ seen env s s0 /\ has_room (k_log s0) /\ counted s0 s'.
Proof.
  unfold begin_op. rewrite (kbind_ok _ _ _ tt (upd_k_held (cons LK_log) s))
    by (apply acquire_ok; rewrite Hheld; set_solver).
  assert (Hh : k_held (upd_k_held (cons LK_log) s) = [LK_log]) by (cbn; by rewrite Hheld).
  split; [by apply (begin_op_safe p)|]. intros env Hn He Hroom.
  by destruct (begin_op_ends p env fuel (upd_k_held (cons LK_log) s) Hcur Hp Hh Hn He Hroom) as (s0 & s' & Hres); exists s0, s'.
Qed.

(** A process that has to wait once: another operation holds all the room and then ends. *)
Definition crowded : kstate :=
  upd_k_cur (fun _ => Some 0%nat) (upd_k_log (upd_log_outstanding (fun _ => 3)) (boot 0 0)).
Definition one_ends (s : kstate) : kstate :=
  upd_k_log (fun _ => upd_log_outstanding (fun _ => 2) log0)
    (upd_k_procs (fun ps => match k_cur s with Some p => alter (upd_p_state (fun _ => RUNNING)) p ps | None => ps end) s).

Lemma one_ends_resumes x : waiting_log x -> resumed x (one_ends x).
Proof.
  intros (Hh & _). split; [done|]. split; [done|]. intros p pr Hc Hp. cbn. rewrite Hc, list_lookup_alter_eq, Hp. by eexists.
Qed.

#[local] Instance one_round : Fuel := 1%nat.

Lemma begin_op_returns_witness :
  exists s', resume_with [one_ends] (begin_op crowded) = Ok tt s' /\ log_outstanding (k_log s') = 3.
Proof.
  destruct (begin_op_returns crowded 0%nat eq_refl ltac:(by eexists) eq_refl) as [_ H].
  destruct (H [one_ends]) as (s0 & s' & Hr & _).
  - done.
  - apply Forall_singleton. exact one_ends_resumes.
  - right. exists one_ends. split; [done|]. intros x _. by vm_compute.
  - exists s'. split; [exact Hr|]. vm_compute in Hr. by injection Hr as <-.
Defined.

(** ** What leaves the log alone *)

(** However the others run while the code sleeps, as long as they leave the log alone. *)
Definition keeps_log {A} (m : K A) : Prop := forall s env a s',
  Forall (fun e => forall x, k_log (e x) = k_log x) env -> resume_with env (m s) = Ok a s' -> k_log s' = k_log s.

Lemma keeps_bind {A B} (m : K A) (f : A -> K B) : keeps_log m -> (forall a, keeps_log (f a)) -> keeps_log (kbind m f).
Proof.
  intros Hm Hf s env b s' He H. unfold kbind in H. apply resume_bind in H as (env' & a & s1 & [pre ->] & H1 & H2).
  apply Forall_app in He as H3. rewrite (Hf a s1 env' b s') by tauto. by eapply Hm.
Qed.

Lemma keeps_now {A} (m : K A) :
  (forall s, match m s with Ok _ s' => k_log s' = k_log s | Swtch _ _ => False | _ => True end) -> keeps_log m.
Proof.
  intros Hm s env a s' _ H. specialize (Hm s). destruct (m s) as [a0 s0|msg|s0 k|]; [|by destruct env|done|by destruct env].
  rewrite resume_ok in H. by injection H as _ <-.
Qed.

Lemma keeps_ret {A} (a : A) : keeps_log (kret a).
Proof. by apply keeps_now. Qed.
Lemma keeps_gets {A} (g : kstate -> A) : keeps_log (gets g).
Proof. by apply keeps_now. Qed.
Lemma keeps_panic {A} msg : keeps_log (panic msg : K A).
Proof. by apply keeps_now. Qed.
Lemma keeps_modify g : (forall s, k_log (g s) = k_log s) -> keeps_log (modify g).
Proof. intros H. by apply keeps_now. Qed.
Lemma keeps_acquire lk : keeps_log (acquire lk).
Proof. apply keeps_now. intros s. unfold acquire. by case_bool_decide. Qed.
Lemma keeps_release lk : keeps_log (release lk).
Proof. apply keeps_now. intros s. unfold release. by case_bool_decide. Qed.
Lemma keeps_nth {A} (what : string) (g : kstate -> list A) i : keeps_log (fun s => nth_or what (g s) i s).
Proof. apply keeps_now. intros s. unfold nth_or. by destruct (g s !! i). Qed.
Lemma keeps_nth_or {A} (what : string) (l : list A) i : keeps_log (nth_or what l i).
Proof. apply keeps_now. intros s. unfold nth_or. by destruct (l !! i). Qed.
Lemma keeps_fuel {A} : keeps_log (fun _ => NoFuel : res A).
Proof. by apply keeps_now. Qed.
Lemma keeps_swtch : keeps_log swtch.
Proof.
  intros s env a s' He H. destruct env as [|e env]; [done|]. cbn in H. rewrite resume_ok in H. injection H as _ <-.
  by apply Forall_cons in He as [He _].
Qed.
Lemma keeps_get_sl l : keeps_log (get_sl l).
Proof. apply keeps_now. intros s. unfold get_sl. by destruct (lookup_sl l s). Qed.
Lemma keeps_set_sl l g : keeps_log (set_sl l g).
Proof. apply keeps_modify. by destruct l. Qed.

Create HintDb keeps_log.
#[local] Hint Resolve keeps_ret keeps_gets keeps_panic keeps_acquire keeps_release keeps_nth keeps_nth_or keeps_fuel
  keeps_swtch keeps_get_sl keeps_set_sl : keeps_log.

(** Take code apart until each part is known to leave the log alone. *)
Ltac keeps := repeat first
  [ solve [auto with keeps_log]
  | apply keeps_bind; [|intros ?]
  | apply keeps_modify; intros ?; reflexivity
  | progress cbv beta zeta
  | match goal with |- keeps_log (match ?x with _ => _ end) => destruct x end ].

Lemma keeps_iter {A} (l : list A) f : (forall x, keeps_log (f x)) -> keeps_log (kiter l f).
Proof. intros Hf. induction l as [|x l IH]; cbn [kiter]; keeps; auto. Qed.

Lemma keeps_curproc : keeps_log curproc.
Proof. unfold curproc, myproc. keeps. Qed.
Lemma keeps_get_proc p : keeps_log (get_proc p).
Proof. apply (keeps_nth "proc" k_procs). Qed.
Lemma keeps_get_buf b : keeps_log (get_buf b).
Proof. apply (keeps_nth "buf" k_bufs). Qed.
Lemma keeps_set_buf b g : keeps_log (set_buf b g).
Proof. by apply keeps_modify. Qed.
#[local] Hint Resolve keeps_curproc keeps_get_proc keeps_get_buf keeps_set_buf : keeps_log.

Lemma keeps_sched : keeps_log sched.
Proof. unfold sched. keeps. Qed.
#[local] Hint Resolve keeps_sched : keeps_log.

Lemma keeps_do_act p a : keeps_log (do_act p a).
Proof. destruct a; cbn [do_act]; keeps. Qed.
Lemma keeps_sleep ch lk : keeps_log (sleep ch lk).
Proof. unfold sleep, myproc. keeps. apply keeps_iter, keeps_do_act. Qed.
Lemma keeps_wakeup ch : keeps_log (wakeup ch).
Proof. apply keeps_iter, keeps_do_act. Qed.
#[local] Hint Resolve keeps_sleep keeps_wakeup : keeps_log.

Lemma keeps_acquiresleep_loop n l : keeps_log (acquiresleep_loop n l).
Proof. induction n; cbn [acquiresleep_loop]; keeps. Qed.
#[local] Hint Resolve keeps_acquiresleep_loop : keeps_log.
Lemma keeps_acquiresleep `{Fuel} l : keeps_log (acquiresleep l).
Proof. unfold acquiresleep. keeps. Qed.
Lemma keeps_releasesleep l : keeps_log (releasesleep l).
Proof. unfold releasesleep. keeps. Qed.
Lemma keeps_holdingsleep l : keeps_log (holdingsleep l).
Proof. unfold holdingsleep. keeps. Qed.
#[local] Hint Resolve keeps_acquiresleep keeps_releasesleep keeps_holdingsleep : keeps_log.

Lemma keeps_scan n dir want b : keeps_log (scan n dir want b).
Proof. revert b. induction n; intros b; cbn [scan]; keeps. Qed.
Lemma keeps_iderw b : keeps_log (iderw b).
Proof. unfold iderw. keeps. Qed.
#[local] Hint Resolve keeps_scan keeps_iderw : keeps_log.
Lemma keeps_bread `{Fuel} dev bno : keeps_log (bread dev bno).
Proof. unfold bread, bget, kwhen. keeps. Qed.
Lemma keeps_bwrite b : keeps_log (bwrite b).
Proof. unfold bwrite. keeps. Qed.
Lemma keeps_brelse b : keeps_log (brelse b).
Proof. unfold brelse, push_front, link_front, kwhen. keeps. Qed.
Lemma keeps_lh_get i : keeps_log (lh_get i).
Proof. unfold lh_get, get_log. keeps. Qed.
#[local] Hint Resolve keeps_bread keeps_bwrite keeps_brelse keeps_lh_get : keeps_log.

Lemma keeps_write_log `{Fuel} : keeps_log write_log.
Proof. unfold write_log, get_log. keeps. apply keeps_iter. intros t. unfold write_log_step, get_log. keeps. Qed.
Lemma keeps_install_trans `{Fuel} : keeps_log install_trans.
Proof. unfold install_trans, get_log. keeps. apply keeps_iter. intros t. unfold install_step, get_log. keeps. Qed.
Lemma keeps_write_head `{Fuel} : keeps_log write_head.
Proof. unfold write_head, get_log. keeps. apply keeps_iter. intros i. keeps. Qed.

(** ** What the operations of log.c do to the log *)

Lemma bind_run {A B} (m : K A) (f : A -> K B) s b s' :
  kbind m f s = Ok b s' -> exists a s1, m s = Ok a s1 /\ f a s1 = Ok b s'.
Proof. unfold kbind. destruct (m s) as [a s1| | |]; try done. by exists a, s1. Qed.

(** Without sleeping. *)
Lemma keeps_run {A} (m : K A) s a s' : keeps_log m -> m s = Ok a s' -> k_log s' = k_log s.
Proof. intros H E. eapply (H s [] a s'); [by apply Forall_nil_2|by rewrite E]. Qed.

(** The round of [begin_op] in which it returns. *)
Lemma begin_round n s s' : begin_op_loop n s = Ok tt s' -> has_room (k_log s) /\ k_log s' = upd_log_outstanding (fun o => o + 1) (k_log s).
Proof.
  intros H. rewrite has_room_test. destruct n; cbn [begin_op_loop] in H; rewrite (kbind_ok _ _ _ _ _ (get_log_ok s)) in H;
    destruct (log_committing (k_log s) || _); try done.
  - apply bind_run in H as ([] & s1 & [= <-] & H). split; [done|]. by rewrite (keeps_run _ _ _ _ (keeps_release _) H).
  - apply bind_run in H as ([] & s1 & Hs & _). exfalso. unfold sleep in Hs. apply bind_run in Hs as (q & s2 & [= <- <-] & Hs).
    destruct (k_cur s) as [p|]; [|done]. unfold sleep_acts in Hs.
    assert (Hno : forall l2 l1 s0 x, kiter (l1 ++ Sched :: l2) (do_act p) s0 <> Ok tt x).
    { intros l2. induction l1 as [|a l1 IH]; intros s0 x Hx; cbn [app kiter do_act] in Hx; apply bind_run in Hx as ([] & s3 & Hx & Hr); [|by eapply IH].
      unfold sched, curproc, myproc in Hx. apply bind_run in Hx as (q & s4 & _ & Hx). apply bind_run in Hx as (h & s5 & _ & Hx).
      do 2 (case_match; [done|]). apply bind_run in Hx as (pr & s6 & _ & Hx). by case_match. }
    by apply (Hno (SetChan None :: sleep_leaves LK_log) (sleep_enters LK_log ++ [SetChan (Some CH_log); SetState SLEEPING]) s s1).
  - apply bind_run in H as ([] & s1 & [= <-] & H). split; [done|]. by rewrite (keeps_run _ _ _ _ (keeps_release _) H).
Qed.

Lemma end_begin_run d s s' : end_begin s = Ok d s' ->
  log_committing (k_log s) = false /\ d = (log_outstanding (k_log s) - 1 =? 0) /\
  k_log s' = let l := upd_log_outstanding (fun o => o - 1) (k_log s) in if d then upd_log_committing (fun _ => true) l else l.
Proof.
  intros H. unfold end_begin in H. apply bind_run in H as ([] & s1 & H1 & H). apply bind_run in H as ([] & s2 & [= <-] & H).
  apply bind_run in H as (l & s3 & [= <- <-] & H). rewrite <- (keeps_run _ _ _ _ (keeps_acquire _) H1). cbn in H.
  destruct (log_committing (k_log s1)); [done|]. split; [done|].
  apply bind_run in H as ([] & s4 & H4 & H). apply bind_run in H as ([] & s5 & H5 & [= <- <-]). split; [done|].
  rewrite (keeps_run _ _ _ _ (keeps_release _) H5). destruct (log_outstanding (k_log s1) - 1 =? 0); [by injection H4 as <-|].
  by rewrite (keeps_run _ _ _ _ (keeps_wakeup _) H4).
Qed.

Lemma end_finish_run s s' : end_finish s = Ok tt s' -> k_log s' = upd_log_committing (fun _ => false) (k_log s).
Proof.
  intros H. unfold end_finish in H. apply bind_run in H as ([] & s1 & H1 & H). apply bind_run in H as ([] & s2 & [= <-] & H).
  apply bind_run in H as ([] & s3 & H3 & H4). rewrite (keeps_run _ _ _ _ (keeps_release _) H4), (keeps_run _ _ _ _ (keeps_wakeup _) H3).
  cbn. by rewrite (keeps_run _ _ _ _ (keeps_acquire _) H1).
Qed.

(** A commit, whatever it sleeps on. *)
Lemma commit_run `{Fuel} s env s' :
  Forall (fun e => forall x, k_log (e x) = k_log x) env -> resume_with env (commit s) = Ok tt s' ->
  k_log s' = if 0 <? lh_n (k_log s) then upd_lh_n (fun _ => 0) (k_log s) else k_log s.
Proof.
  intros He Hrun. unfold commit in Hrun. rewrite (kbind_ok _ _ _ _ _ (get_log_ok s)) in Hrun. destruct (0 <? lh_n (k_log s)); cbn [kwhen] in Hrun;
    [|unfold kret in Hrun; rewrite resume_ok in Hrun; by injection Hrun as <-].
  assert (Hlog : forall A B (m : K A) (f : A -> K B) s env b, Forall (fun e => forall x, k_log (e x) = k_log x) env -> keeps_log m ->
    resume_with env (kbind m f s) = Ok b s' ->
    exists env' a s1, Forall (fun e => forall x, k_log (e x) = k_log x) env' /\ k_log s1 = k_log s /\ resume_with env' (f a s1) = Ok b s').
  { intros A B m f s0 env0 b He0 Hk Hb. unfold kbind in Hb. apply resume_bind in Hb as (env' & a & s1 & [pre ->] & H1 & H2).
    exists env', a, s1. apply Forall_app in He0 as He1. split; [tauto|]. split; [by eapply Hk|done]. }
  apply Hlog in Hrun as (e1 & [] & s1 & He1 & L1 & Hrun); [|done|apply keeps_write_log].
  apply Hlog in Hrun as (e2 & [] & s2 & He2 & L2 & Hrun); [|done|apply keeps_write_head].
  apply Hlog in Hrun as (e3 & [] & s3 & He3 & L3 & Hrun); [|done|apply keeps_install_trans].
  rewrite (kbind_ok (set_log _) _ s3 tt _ eq_refl) in Hrun.
  rewrite (keeps_write_head _ _ _ _ He3 Hrun). cbn. congruence.
Qed.

Lemma absorb_lt bno l n : (absorb bno l n <= n)%nat.
Proof. revert n. induction l as [|x l IH]; intros [|n]; cbn; try lia. case_match; [lia|]. specialize (IH n). lia. Qed.

(** The test for a full log. *)
Definition too_big (l : log) : bool := (LOGSIZE <=? lh_n l) || (log_size l - 1 <=? lh_n l).

Lemma log_write_log b s s' : log_write b s = Ok tt s' ->
  too_big (k_log s) = false /\ 1 <= log_outstanding (k_log s) /\ lh_n (k_log s) <= lh_n (k_log s') <= lh_n (k_log s) + 1 /\
  log_outstanding (k_log s') = log_outstanding (k_log s) /\ log_committing (k_log s') = log_committing (k_log s) /\
  log_size (k_log s') = log_size (k_log s).
Proof.
  intros H. unfold log_write in H. rewrite (kbind_ok _ _ _ _ _ (get_log_ok s)) in H. fold (too_big (k_log s)) in H.
  destruct (too_big (k_log s)); [done|]. split; [done|]. destruct (Z.ltb_spec (log_outstanding (k_log s)) 1); [done|]. split; [lia|].
  apply bind_run in H as ([] & s1 & H1 & H). rewrite (kbind_ok _ _ _ _ _ (get_log_ok s1)) in H.
  apply bind_run in H as (bf & s2 & H2 & H). apply bind_run in H as ([] & s3 & H3 & H). apply bind_run in H as ([] & s4 & H4 & H).
  apply bind_run in H as ([] & s5 & [= <-] & H5). rewrite (keeps_run _ _ _ _ (keeps_release _) H5). cbn.
  apply (keeps_run _ _ _ _ (keeps_acquire _)) in H1. apply (keeps_run _ _ _ _ (keeps_get_buf _)) in H2.
  assert (L3 : exists i v, k_log s3 = upd_lh_block (insert i v) (k_log s2)).
  { unfold lh_set in H3. rewrite (kbind_ok _ _ _ _ _ (get_log_ok s2)) in H3. case_match; [|done]. injection H3 as <-. by eexists _, _. }
  destruct L3 as (i & v & L3).
  assert (L4 : k_log s4 = k_log s3 \/ k_log s4 = upd_lh_n (fun n => n + 1) (k_log s3)).
  { unfold kwhen in H4. case_match; injection H4 as <-; [by right|by left]. }
  destruct L4 as [-> | ->]; rewrite L3, H2, H1; cbn; split_and!; done || lia.
Qed.

(** The only panic for a full log. *)
Lemma log_write_too_big b s : log_write b s = Panic "too big a transaction" <-> too_big (k_log s) = true.
Proof.
  unfold log_write. rewrite (kbind_ok _ _ _ _ _ (get_log_ok s)). fold (too_big (k_log s)).
  destruct (too_big (k_log s)); [done|]. split; [|done]. intros H. exfalso. revert H. case_match; [done|].
  assert (Hp : forall A B (m : K A) (f : A -> K B) s, m s <> Panic "too big a transaction" ->
    (forall a s1, m s = Ok a s1 -> f a s1 <> Panic "too big a transaction") -> kbind m f s <> Panic "too big a transaction").
  { intros A B m f s0 H1 H2. unfold kbind. destruct (m s0) eqn:E; cbn; try done; [by apply H2|congruence]. }
  repeat (apply Hp; [|intros ? ? _]); unfold acquire, release, get_buf, nth_or, get_log, gets, lh_set, kwhen, set_log, modify, set_buf, kret, panic, kbind;
    repeat (cbn; case_match); done.
Qed.

(** ** Operations that interleave *)

Module Ops.
Section Ops.
Context `{Fuel}.

(** The kernel, the number of blocks each open operation has logged, and where the process that
    commits is, if there is one: [false] before the commit, [true] after it. *)
Record st := St { ks : kstate; ops : list Z; committer : option bool }.

(** [begin_op], [log_write], the two critical sections of [end_op] and the commit between them, in
    any order, by operations that log at most MAXOPBLOCKS blocks each. The rest of the kernel,
    and what sleeps in these functions, may do anything but change the log. *)
Inductive step : st -> st -> Prop :=
| step_begin s s' cs cm n : begin_op_loop n s = Ok tt s' -> step (St s cs cm) (St s' (0 :: cs) cm)
| step_write s s' cs cm i c b :
    cs !! i = Some c -> c < MAXOPBLOCKS -> log_write b s = Ok tt s' -> step (St s cs cm) (St s' (<[i := c + 1]> cs) cm)
| step_end s s' cs cm i d :
    is_Some (cs !! i) -> end_begin s = Ok d s' -> step (St s cs cm) (St s' (delete i cs) (if d then Some false else cm))
| step_commit s s' cs env :
    Forall (fun e => forall x, k_log (e x) = k_log x) env -> resume_with env (commit s) = Ok tt s' ->
    step (St s cs (Some false)) (St s' cs (Some true))
| step_finish s s' cs : end_finish s = Ok tt s' -> step (St s cs (Some true)) (St s' cs None)
| step_other s s' cs cm : k_log s' = k_log s -> step (St s cs cm) (St s' cs cm).

(** What the open operations may still log. *)
Definition reserved (cs : list Z) : Z := foldr (fun c r => (MAXOPBLOCKS - c) + r) 0 cs.

Definition inv (x : st) : Prop :=
  let l := k_log (ks x) in
  log_outstanding l = Z.of_nat (length (ops x)) /\
  0 <= lh_n l /\ lh_n l + reserved (ops x) <= LOGSIZE /\
  Forall (fun c => 0 <= c <= MAXOPBLOCKS) (ops x) /\
  log_committing l = bool_decide (committer x <> None) /\
  (committer x <> None -> ops x = []).

Lemma reserved_insert cs i c c' :
  cs !! i = Some c -> reserved (<[i := c']> cs) = reserved cs + c - c'.
Proof using Type.
  revert i. induction cs as [|x cs IH]; intros [|i] Hi; simpl in *; try done; [injection Hi as ->; lia|].
  fold (reserved cs). fold (reserved (<[i := c']> cs)). rewrite (IH i Hi). lia.
Qed.

Lemma reserved_delete cs i c :
  cs !! i = Some c -> reserved cs = reserved (delete i cs) + (MAXOPBLOCKS - c).
Proof using Type.
  revert i. induction cs as [|x cs IH]; intros [|i] Hi; simpl in *; try done; [injection Hi as ->; lia|].
  fold (reserved cs). fold (reserved (delete i cs)). rewrite (IH i Hi). lia.
Qed.

Lemma reserved_nonneg cs : Forall (fun c => 0 <= c <= MAXOPBLOCKS) cs ->
  0 <= reserved cs <= MAXOPBLOCKS * Z.of_nat (length cs).
Proof using Type.
  induction 1 as [|c cs Hc _ IH]; simpl; [lia|]. fold (reserved cs).
  unfold MAXOPBLOCKS in *. lia.
Qed.

Lemma ops_inv_step x y : inv x -> step x y -> inv y.
Proof using Type.
  intros (I1 & I2 & I3 & I4 & I5 & I6) Hst. pose proof (reserved_nonneg _ I4) as Hr0.
  destruct Hst as [s s' cs cm n Hb|s s' cs cm i c b Hi Hc Hw|s s' cs cm i d [c Hi] He|s s' cs env He Hr|s s' cs Hf|s s' cs cm Ho];
    unfold inv in *; cbn [ks ops committer] in *.
  - apply begin_round in Hb as [[G1 G2] ->]. cbn. fold (reserved cs). split_and!; [lia|lia|lia| |done|].
    + constructor; [unfold MAXOPBLOCKS; lia|done].
    + intros Hcm. by rewrite bool_decide_eq_true_2 in I5; [congruence|].
  - apply log_write_log in Hw as (_ & _ & Hn & -> & -> & _). rewrite length_insert, (reserved_insert cs i c (c + 1) Hi).
    assert (Hcr : 0 <= c <= MAXOPBLOCKS) by (by apply (Forall_lookup_1 _ _ _ _ I4 Hi)).
    split_and!; [done|lia|lia| |done|]; [apply Forall_insert; [done|lia]|].
    intros Hcm. by rewrite (I6 Hcm) in Hi.
  - apply end_begin_run in He as (Hcm & -> & Hl). pose proof (lookup_lt_Some _ _ _ Hi) as Hlt.
    assert (Hlen : Z.of_nat (length (delete i cs)) = Z.of_nat (length cs) - 1) by (rewrite length_delete by (by eexists); lia).
    assert (Hcr : 0 <= c <= MAXOPBLOCKS) by (by apply (Forall_lookup_1 _ _ _ _ I4 Hi)).
    pose proof (reserved_delete cs i c Hi) as Hr. assert (HF : Forall (fun c => 0 <= c <= MAXOPBLOCKS) (delete i cs)) by (by apply Forall_delete).
    rewrite Hl. cbv zeta. destruct (Z.eqb_spec (log_outstanding (k_log s) - 1) 0); cbn; split_and!; try done; try lia.
    + intros _. apply length_zero_iff_nil. lia.
    + intros Hcm'. by rewrite bool_decide_eq_true_2 in I5; [congruence|].
  - rewrite (commit_run _ _ _ He Hr). rewrite (I6 ltac:(done)) in *. destruct (Z.ltb_spec 0 (lh_n (k_log s))); cbn; split_and!; try done; lia.
  - rewrite (end_finish_run _ _ Hf). rewrite (I6 ltac:(done)) in *. cbn. split_and!; done || lia.
  - by rewrite Ho.
Qed.

(** Nothing is open, and the log is empty. *)
Definition at_rest (s : kstate) : Prop :=
  log_outstanding (k_log s) = 0 /\ lh_n (k_log s) = 0 /\ log_committing (k_log s) = false.

(** C4: operations that log at most MAXOPBLOCKS blocks each never outgrow what [begin_op]
    reserves: in every interleaving of [begin_op], [log_write], [end_op] and the commits, the log
    never has more than LOGSIZE blocks, an operation that still has a block to log finds fewer, and
    a commit runs only when no operation is open. A log of LOGSIZE + 1 blocks or more, its header one of them, therefore never
    makes [log_write] panic. In a log of LOGSIZE blocks, which mkfs makes, it can: then LOGSIZE - 1
    blocks are in the log, and the operation logs its MAXOPBLOCKS-th block while every other
    open one has logged all of its own. *)
Theorem no_overflow (s0 : kstate) (x : st) (Hinit : at_rest s0) (Hreach : rtc step (St s0 [] None) x) :
  let l := k_log (ks x) in
  0 <= lh_n l <= LOGSIZE /\ (log_committing l = true -> ops x = []) /\
  forall i c b, ops x !! i = Some c -> c < MAXOPBLOCKS ->
    lh_n l < LOGSIZE /\
    (LOGSIZE < log_size l -> log_write b (ks x) <> Panic "too big a transaction") /\
    (log_size l = LOGSIZE -> log_write b (ks x) = Panic "too big a transaction" ->
       lh_n l = LOGSIZE - 1 /\ c = MAXOPBLOCKS - 1 /\ forall j c', j <> i -> ops x !! j = Some c' -> c' = MAXOPBLOCKS).
Proof using Type.
  assert (Hinv : inv x).
  { revert Hreach. apply (rtc_ind_r (fun y => inv y)).
    - destruct Hinit as (H1 & H2 & H3). unfold inv. cbn. rewrite H1, H2, H3. unfold LOGSIZE, MAXOPBLOCKS. split_and!; done || constructor.
    - intros y z _ Hst Hy. by eapply ops_inv_step. }
  destruct Hinv as (I1 & I2 & I3 & I4 & I5 & I6). pose proof (reserved_nonneg _ I4) as Hr0. cbv zeta. split; [lia|]. split.
  { intros Hcm. apply I6. rewrite I5 in Hcm. by apply bool_decide_eq_true in Hcm. }
  intros i c b Hi Hc. pose proof (reserved_delete _ _ _ Hi) as Hr.
  assert (HF : Forall (fun c => 0 <= c <= MAXOPBLOCKS) (delete i (ops x))) by (by apply Forall_delete).
  pose proof (reserved_nonneg _ HF) as Hr1. split; [lia|]. split; intros Hsz; rewrite log_write_too_big; unfold too_big.
  - rewrite orb_true_iff, !Z.leb_le. lia.
  - rewrite orb_true_iff, !Z.leb_le. intros Hbig. assert (lh_n (k_log (ks x)) = LOGSIZE - 1) by lia. split; [done|].
    assert (Hz : reserved (delete i (ops x)) = 0 /\ c = MAXOPBLOCKS - 1) by lia. split; [tauto|].
    intros j c' Hne Hj. destruct Hz as [Hz _].
    assert (Hin : exists k, delete i (ops x) !! k = Some c').
    { destruct (decide (j < i)%nat); [exists j; by rewrite list_lookup_delete_lt|]. exists (j - 1)%nat.
      rewrite list_lookup_delete_ge by lia. by replace (S (j - 1)) with j by lia. }
    destruct Hin as [k Hk]. pose proof (reserved_delete _ _ _ Hk) as Hrk.
    pose proof (reserved_nonneg (delete k (delete i (ops x))) ltac:(by apply Forall_delete)) as Hr2.
    assert (Hcr : 0 <= c' <= MAXOPBLOCKS) by (by apply (Forall_lookup_1 _ _ _ _ HF Hk)). lia.
Qed.
End Ops.
End Ops.

(** ** A full log *)

(** The log can take one more block, and its blocks so far are [done]. *)
Record filling (s : kstate) (done : list Z) : Prop := {
  fi_held : k_held s = [];
  fi_open : 1 <= log_outstanding (k_log s);
  fi_array : length (lh_block (k_log s)) = Z.to_nat LOGSIZE;
  fi_n : lh_n (k_log s) = Z.of_nat (length done);
  fi_txn : txn (k_log s) = done;
}.

Lemma absorb_new bno l n : Forall (fun x => 0 <= x < 2 ^ 31) (take n l) -> bno ∉ take n l -> (n <= length l)%nat -> absorb bno l n = n.
Proof. intros Hr Hn Hl. pose proof (absorb_spec bno l n Hl Hr) as H. by rewrite decide_False in H. Qed.

Lemma log_write_fills s done b bf :
  filling s done -> k_bufs s !! b = Some bf -> 0 <= b_blockno bf < 2 ^ 31 -> Forall (fun x => 0 <= x < 2 ^ 31) done ->
  b_blockno bf ∉ done -> Z.of_nat (length done) < LOGSIZE -> Z.of_nat (length done) < log_size (k_log s) - 1 ->
  exists s', log_write b s = Ok tt s' /\ filling s' (done ++ [b_blockno bf]) /\
    log_size (k_log s') = log_size (k_log s) /\ log_outstanding (k_log s') = log_outstanding (k_log s) /\
    forall b', b_blockno <$> k_bufs s' !! b' = b_blockno <$> k_bufs s !! b'.
Proof.
  intros [Hh Ho Ha Hn Ht] Hb Hr Hd Hnew H1 H2. set (l := k_log s) in *. set (bno := b_blockno bf) in *.
  assert (Hlen : (Z.to_nat (lh_n l) < length (lh_block l))%nat) by (rewrite Ha, Hn; lia).
  unfold log_write. rewrite (kbind_ok _ _ _ _ _ (get_log_ok s)). fold l.
  rewrite (proj2 (Z.leb_gt LOGSIZE (lh_n l))), (proj2 (Z.leb_gt (log_size l - 1) (lh_n l))), (proj2 (Z.ltb_ge (log_outstanding l) 1)) by lia.
  cbn [orb]. rewrite (kbind_ok _ _ s tt _ (acquire_ok LK_log s ltac:(rewrite Hh; set_solver))).
  set (s1 := upd_k_held (cons LK_log) s). rewrite (kbind_ok _ _ _ _ _ (get_log_ok s1)). change (k_log s1) with l.
  rewrite (kbind_ok _ _ s1 _ s1 (get_buf_ok _ _ s1 Hb)). fold bno.
  rewrite (absorb_new bno) by (try (fold (txn l); by rewrite Ht); lia). rewrite s32_id by lia.
  rewrite (kbind_ok _ _ s1 tt (upd_k_log (upd_lh_block (insert (Z.to_nat (lh_n l)) bno)) s1)).
  2:{ unfold lh_set. rewrite (kbind_ok _ _ _ _ _ (get_log_ok s1)). change (k_log s1) with l. by rewrite (proj2 (Nat.ltb_lt _ _) Hlen). }
  rewrite Nat.eqb_refl. cbn [kwhen]. rewrite (kbind_ok (set_log _) _ _ tt _ eq_refl), (kbind_ok (set_buf _ _) _ _ tt _ eq_refl).
  rewrite (release_acquired LK_log []) by (cbn; rewrite ?Hh; done || set_solver). eexists. split; [done|]. split; [|split_and!; try done].
  - constructor; cbn; fold l; [done|done|by rewrite length_insert|rewrite length_app; cbn; lia|].
    unfold txn. cbn. fold l. replace (Z.to_nat (lh_n l + 1)) with (S (Z.to_nat (lh_n l))) by lia.
    rewrite (take_S_r _ _ bno) by (by apply list_lookup_insert_eq). rewrite take_insert_ge by lia. fold (txn l). by rewrite Ht.
  - intros b'. cbn. destruct (decide (b' = b)) as [->|Hne]; [by rewrite list_lookup_alter_eq, Hb|by rewrite list_lookup_alter_ne].
Qed.

(** The blocks of the buffers [bs]. *)
Definition blocks_of (s : kstate) (bs : list nat) (bnos : list Z) : Prop :=
  Forall2 (fun b bno => b_blockno <$> k_bufs s !! b = Some bno) bs bnos.

Lemma log_writes_fill bs : forall bnos s done,
  filling s done -> blocks_of s bs bnos -> NoDup (done ++ bnos) -> Forall (fun x => 0 <= x < 2 ^ 31) (done ++ bnos) ->
  log_size (k_log s) = LOGSIZE -> Z.of_nat (length (done ++ bnos)) <= LOGSIZE - 1 ->
  exists s', kiter bs log_write s = Ok tt s' /\ filling s' (done ++ bnos) /\ log_size (k_log s') = LOGSIZE /\
    log_outstanding (k_log s') = log_outstanding (k_log s).
Proof.
  induction bs as [|b bs IH]; intros bnos s done Hf Hb Hnd Hr Hsz Hlen; inversion Hb as [|? bno ? bnos' Hbno Hbs E1 E2]; subst.
  - exists s. by rewrite app_nil_r.
  - apply fmap_Some in Hbno as (bf & Hbf & ->). rewrite length_app in Hlen. cbn [length] in Hlen.
    assert (Hn1 : b_blockno bf ∉ done) by (apply NoDup_app in Hnd as (_ & Hnd & _); intros Hin; apply (Hnd _ Hin); by left).
    destruct (log_write_fills s done b bf Hf Hbf) as (s1 & Hw & Hf1 & Hsz1 & Ho1 & Hb1); try done;
      [apply Forall_app in Hr as [_ Hr]; by apply Forall_cons in Hr as [? _]|by apply Forall_app in Hr as [? _]|lia|lia|].
    cbn [kiter]. rewrite (kbind_ok _ _ _ _ _ Hw). destruct (IH bnos' s1 (done ++ [b_blockno bf])) as (s' & Hk & Hf' & Hsz' & Ho').
    + done.
    + eapply Forall2_impl; [exact Hbs|]. intros b' bno' Hb'. cbn. by rewrite Hb1.
    + by rewrite <- app_assoc.
    + by rewrite <- app_assoc.
    + congruence.
    + rewrite <- app_assoc, length_app. cbn. lia.
    + exists s'. rewrite <- app_assoc in Hf'. split_and!; try done. congruence.
Qed.

(** [begin_op] three times on an empty log: as often as it lets an operation in. *)
Lemma three_begin `{Fuel} s :
  Ops.at_rest s -> k_held s = [] -> length (lh_block (k_log s)) = Z.to_nat LOGSIZE ->
  exists s', (begin_op ;; begin_op ;; begin_op) s = Ok tt s' /\ filling s' [] /\ log_outstanding (k_log s') = 3 /\
    log_size (k_log s') = log_size (k_log s) /\ k_bufs s' = k_bufs s.
Proof.
  intros (H1 & H2 & H3) Hh Ha.
  pose (next := fun s => upd_k_held (fun _ => []) (upd_k_log (upd_log_outstanding (fun o => o + 1)) s)).
  assert (Hone : forall s0, k_held s0 = [] -> has_room (k_log s0) -> begin_op s0 = Ok tt (next s0)).
  { intros s0 Hh0 Hr. unfold begin_op. rewrite (kbind_ok _ _ _ tt (upd_k_held (cons LK_log) s0)) by (apply acquire_ok; rewrite Hh0; set_solver).
    apply has_room_test in Hr. destruct fuel; cbn [begin_op_loop]; rewrite (kbind_ok _ _ _ _ _ (get_log_ok _)); cbn [k_log upd_k_held];
      rewrite Hr, (kbind_ok (set_log _) _ _ tt _ eq_refl); by rewrite (release_acquired LK_log []) by (cbn; rewrite ?Hh0; done || set_solver). }
  assert (Hr : forall l, log_committing l = false -> lh_n l = 0 -> log_outstanding l <= 2 -> has_room l)
    by (intros l Hc Hn Ho; split; [done|rewrite Hn; unfold LOGSIZE, MAXOPBLOCKS; lia]).
  rewrite (kbind_ok _ _ _ _ _ (Hone s Hh ltac:(apply Hr; [done|done|lia]))).
  rewrite (kbind_ok _ _ _ _ _ (Hone (next s) eq_refl ltac:(apply Hr; [done|done|cbn; lia]))).
  rewrite (Hone (next (next s)) eq_refl ltac:(apply Hr; [done|done|cbn; lia])).
  eexists. split; [done|]. cbn. rewrite H1. split_and!; try done. constructor; cbn; rewrite ?H1; try done. unfold txn. cbn. by rewrite H2.
Qed.

(** C34: with the log that mkfs makes, [log_write] refuses blocks that [begin_op] has reserved. On
    an empty log of LOGSIZE blocks, [begin_op] lets three operations in, which may log LOGSIZE
    blocks; once LOGSIZE - 1 different blocks are logged, every [log_write] panics, of a block
    that is in the transaction too. *)
Theorem full_log_panics `{Fuel} (s : kstate) (bs : list nat) (bnos : list Z)
    (Hrest : Ops.at_rest s) (Hheld : k_held s = []) (Harray : length (lh_block (k_log s)) = Z.to_nat LOGSIZE)
    (Hsize : log_size (k_log s) = LOGSIZE) (Hbs : blocks_of s bs bnos) (Hnd : NoDup bnos)
    (Hr : Forall (fun x => 0 <= x < 2 ^ 31) bnos) (Hlen : Z.of_nat (length bs) = LOGSIZE - 1) :
  exists s1 s', (begin_op ;; begin_op ;; begin_op) s = Ok tt s1 /\ kiter bs log_write s1 = Ok tt s' /\
    log_outstanding (k_log s') = 3 /\ txn (k_log s') = bnos /\ forall b, log_write b s' = Panic "too big a transaction".
Proof.
  destruct (three_begin s Hrest Hheld Harray) as (s1 & Hb & Hf & Ho & Hsz & Hbufs).
  pose proof (Forall2_length _ _ _ Hbs) as Hl. assert (Hbs1 : blocks_of s1 bs bnos) by (unfold blocks_of; by rewrite Hbufs).
  destruct (log_writes_fill bs bnos s1 [] Hf Hbs1) as (s' & Hk & Hf' & Hsz' & Ho'); cbn; try done; [congruence|lia|].
  exists s1, s'. split_and!; try done; [congruence|by apply (fi_txn _ _ Hf')|]. intros b. apply log_write_too_big. unfold too_big.
  rewrite (fi_n _ _ Hf'), Hsz'. cbn. rewrite <- Hl. rewrite (proj2 (Z.leb_le (LOGSIZE - 1) _)) by lia. apply orb_true_r.
Qed.

(** The log of mkfs, empty, and 29 buffers of different blocks. *)
Definition fresh_log : log := Log 2 LOGSIZE 0 false 1 0 (replicate (Z.to_nat LOGSIZE) 0).
Definition full_cache : kstate :=
  upd_k_log (fun _ => fresh_log)
    (upd_k_bufs (fun _ => map (fun n => upd_b_blockno (fun _ => n) buf0) (seqZ 100 29)) (boot 0 0)).

Lemma full_log_panics_witness :
  exists s', log_outstanding (k_log s') = 3 /\ log_write 7 s' = Panic "too big a transaction".
Proof.
  destruct (full_log_panics full_cache (seq 0 29) (seqZ 100 29)) as (s1 & s' & _ & _ & Ho & _ & Hp).
  - done.
  - done.
  - done.
  - done.
  - by repeat constructor.
  - apply NoDup_seqZ.
  - apply Forall_forall. intros x Hx%elem_of_seqZ. lia.
  - done.
  - exists s'. split; [exact Ho|apply Hp].
Defined.

(** One operation that has logged a block. *)
Definition one_open : kstate := upd_k_held (cons LK_log) full_cache.

Lemma one_logged : exists s1 s2, begin_op_loop 0 one_open = Ok tt s1 /\ log_write 3 s1 = Ok tt s2 /\ lh_n (k_log s2) = 1 /\
  log_size (k_log s2) = LOGSIZE.
Proof. eexists _, _. split; [vm_compute; reflexivity|]. split; [vm_compute; reflexivity|]. by split. Qed.

Lemma no_overflow_witness : exists x, rtc Ops.step (Ops.St full_cache [] None) x /\ Ops.ops x = [1] /\
  log_write 3 (Ops.ks x) <> Panic "too big a transaction".
Proof.
  destruct one_logged as (s1 & s2 & H1 & H2 & Hn & Hs).
  assert (Hr : rtc Ops.step (Ops.St full_cache [] None) (Ops.St s2 [1] None)).
  { eapply rtc_l; [by apply (Ops.step_other _ one_open)|]. eapply rtc_l; [by apply (Ops.step_begin _ _ _ _ _ H1)|].
    eapply rtc_l; [by apply (Ops.step_write _ _ [0] _ 0%nat 0 _ eq_refl ltac:(done) H2)|]. apply rtc_refl. }
  eexists. split; [exact Hr|]. split; [reflexivity|]. intros Hp.
  destruct (Ops.no_overflow full_cache _ ltac:(done) Hr) as (_ & _ & H).
  destruct (H 0%nat 1 3%nat eq_refl ltac:(done)) as (_ & _ & H3). destruct (H3 Hs Hp) as (H4 & _).
  cbn in H4. rewrite Hn in H4. discriminate H4.
Defined.
