(* ===== verification/Tx.v ===== *)
(** * Writing inside a transaction

    File system code between [begin_op] and [end_op] changes a block by reading it,
    changing the buffer, [log_write] and [brelse]. [tx] is what that needs: the buffer cache and the
    log in order, an operation open, and room in the log for the blocks of [W] (written or
    not so far) and [k] more. *)

From S2P Require Import Prelude Kernel Sched Bio Layout Log.

(** The blocks a transaction can have. *)
Definition log_limit (l : log) : nat := Z.to_nat (Z.min LOGSIZE (log_size l - 1)).

Definition missing (l : log) (W : list Z) : list Z := filter (fun b => b ∉ txn l) W.

Record tx (s : kstate) (pid : Z) (hs : list nat) (W : list Z) (k : nat) : Prop := {
  tx_bio : bio_ok s pid hs;
  tx_log : log_inv s;
  tx_open : 1 <= log_outstanding (k_log s);
  tx_set : NoDup W;
  tx_room : (length (txn (k_log s)) + length (missing (k_log s) W) + k <= log_limit (k_log s))%nat;
}.

(** [s'] is [s] after some work of the transaction: buffers, woken processes and the log
    changed, and the transaction may have grown. *)
Record later (s s' : kstate) : Prop := {
  lt_frame : s' = upd_k_log (fun _ => k_log s') (upd_k_procs (fun _ => k_procs s') (upd_k_bufs (fun _ => k_bufs s') s));
  lt_start : log_start (k_log s') = log_start (k_log s);
  lt_size : log_size (k_log s') = log_size (k_log s);
  lt_out : log_outstanding (k_log s') = log_outstanding (k_log s);
  lt_txn : forall n, n ∈ txn (k_log s) -> n ∈ txn (k_log s');
}.

#[export] Instance later_preorder : PreOrder later.
Proof.
  split.
  - intros s. constructor; try done. by destruct s.
  - intros s1 s2 s3 [F1 A1 B1 C1 D1] [F2 A2 B2 C2 D2]. constructor; try congruence; [|auto].
    rewrite F2 at 1. rewrite F1. done.
Qed.

Lemma later_same s s' : later s s' -> k_inodes s' = k_inodes s /\ k_disksize s' = k_disksize s /\ k_sb s' = k_sb s.
Proof. intros [F _ _ _ _]. rewrite F. done. Qed.

Lemma later_in_log s s' n : later s s' -> in_log (k_log s') n <-> in_log (k_log s) n.
Proof. intros H. unfold in_log. by rewrite (lt_start _ _ H), (lt_size _ _ H). Qed.

(** Working on fewer blocks needs less room. *)
Lemma tx_weaken s pid hs W k k' : tx s pid hs W k -> (k' <= k)%nat -> tx s pid hs W k'.
Proof. intros [H1 H2 H3 H4 H5] Hk. constructor; try done. lia. Qed.

(** Buffers only: reading a block, giving one back. *)
Lemma tx_bufs s s' pid hs hs' W k :
  tx s pid hs W k -> bio_ok s' pid hs' -> k_log s' = k_log s -> k_disksize s' = k_disksize s ->
  (forall n, isdirty s' n = isdirty s n) -> tx s' pid hs' W k.
Proof.
  intros [H1 [L1 L2 L3] H3 H4 H5] Hb Hl Hd Hdt. constructor; rewrite ?Hl; try done.
  constructor; rewrite ?Hl, ?Hd; try done. intros n. rewrite Hdt. apply L3.
Qed.

Lemma later_bufs s s' :
  s' = upd_k_procs (fun _ => k_procs s') (upd_k_bufs (fun _ => k_bufs s') s) -> later s s'.
Proof. intros E. constructor; rewrite E; done. Qed.

Lemma missing_in l W b : b ∈ W -> b ∉ txn l -> (0 < length (missing l W))%nat.
Proof.
  intros Hb Hn. assert (H : b ∈ missing l W) by (apply list_elem_of_filter; done).
  destruct (missing l W); [by apply elem_of_nil in H|cbn; lia].
Qed.

(** Adding a block takes room from [W] or from [k]. *)
Lemma missing_add l ds bno W :
  log_wf l ds -> lh_n l < LOGSIZE -> NoDup W -> bno ∉ txn l ->
  (length (missing (add_block bno l) W) + (if decide (bno ∈ W) then 1 else 0) = length (missing l W))%nat.
Proof.
  intros Hwf Hn HW Hb. unfold missing. rewrite (txn_add_block l ds) by done. rewrite decide_False by done.
  induction HW as [|x W Hx HW IH]; [done|]. rewrite !filter_cons.
  destruct (decide (x = bno)) as [->|Hne].
  - rewrite (decide_True (P := bno ∉ txn l)) by done. rewrite (decide_False (P := bno ∉ (txn l ++ [bno]))) by set_solver.
    rewrite (decide_True (P := bno ∈ bno :: W)) by set_solver. rewrite (decide_False (P := bno ∈ W)) in IH by done.
    cbn [length]. lia.
  - rewrite (decide_ext (bno ∈ x :: W) (bno ∈ W)) by (rewrite elem_of_cons; intuition congruence).
    destruct (decide (x ∈ txn l)) as [Hi|Hi].
    + rewrite (decide_False (P := x ∉ txn l)), (decide_False (P := x ∉ (txn l ++ [bno]))) by set_solver. exact IH.
    + rewrite (decide_True (P := x ∉ txn l)), (decide_True (P := x ∉ (txn l ++ [bno]))) by set_solver. cbn [length]. lia.
Qed.

Section Tx.
Context `{Fuel} (pid : Z).

(** [bread] of a block that is not held. *)
Lemma tx_bread s hs W k bno :
  tx s pid hs W k -> (length hs < k)%nat -> 0 <= bno < k_disksize s ->
  (forall i, i ∈ hs -> b_blockno (buf_at s i) <> bno) ->
  exists b s', bread 1 bno s = Ok b s' /\ tx s' pid (b :: hs) W k /\ later s s' /\ k_log s' = k_log s /\ (b ∉ hs) /\
    (forall n, view s' n = view s n) /\ b_blockno (buf_at s' b) = bno /\ b_data (buf_at s' b) = view s bno /\
    k_bufs s' !! b = Some (buf_at s' b) /\ (forall i, i <> b -> buf_at s' i = buf_at s i) /\
    (dirty (buf_at s' b) = true \/ b_data (buf_at s' b) = disk_block s' (b_blockno (buf_at s' b))).
Proof using Type.
  intros Ht Hk Hr Hn. pose proof (tx_bio _ _ _ _ _ Ht) as Hb. pose proof (tx_log _ _ _ _ _ Ht) as Hl.
  assert (Hlim : (log_limit (k_log s) <= NBUF)%nat) by (unfold log_limit; change LOGSIZE with 30; change NBUF with 30%nat; lia).
  pose proof (tx_room _ _ _ _ _ Ht) as Hroom.
  destruct (bread_room s pid (txn (k_log s)) (fun n => proj1 (li_dirty _ Hl n)) hs bno Hb) as (b & s' & Hrun & P); try done.
  - intros i Hi. unfold caches. specialize (Hn i Hi). rewrite (proj2 (Z.eqb_neq _ _) Hn). apply andb_false_r.
  - left. lia.
  - exists b, s'. destruct P as (Hlt & Hni & Hs' & Hc & Hdata & Hv & Hd & Ho & Hcl & E).
    assert (Hbn : b_blockno (buf_at s' b) = bno) by (unfold caches in Hc; lia).
    split; [done|]. split; [by apply (tx_bufs s _ _ hs); [done|done|by rewrite E..|done]|].
    assert (Hp : k_procs s' = k_procs s) by (by rewrite E).
    split; [apply later_bufs; rewrite Hp; etransitivity; [exact E|by destruct s]|].
    split; [by rewrite E|]. split; [done|]. split; [done|]. split; [done|]. split; [done|].
    split; [apply (buf_at_lookup s' pid (b :: hs)); [done|lia]|]. split; [done|]. by rewrite Hbn.
Qed.

(** [brelse] of a block that was only read, or that was logged. *)
Lemma tx_brelse s hs W k b :
  tx s pid (b :: hs) W k ->
  dirty (buf_at s b) = true \/ b_data (buf_at s b) = disk_block s (b_blockno (buf_at s b)) ->
  exists s', brelse b s = Ok tt s' /\ tx s' pid hs W k /\ later s s' /\ (forall n, view s' n = view s n) /\
    (forall i, i <> b -> b_blockno (buf_at s' i) = b_blockno (buf_at s i)) /\
    (forall i, i ∈ hs -> b_data (buf_at s' i) = b_data (buf_at s i)).
Proof using Type.
  intros Ht Hcl. pose proof (tx_bio _ _ _ _ _ Ht) as Hb.
  destruct (wp_run _ _ _ (brelse_ok s pid (b :: hs) hs b Hb ltac:(done) Hcl)) as ([] & s' & Hrun & (Hs' & Hv & Hd & Ho & E) & _).
  exists s'. split; [done|]. split; [by apply (tx_bufs s _ _ (b :: hs)); [done|done|by rewrite E..|done]|].
  assert (Hp : k_procs s' = map (wakeup1_proc (CH_buflock b)) (k_procs s)) by (by rewrite E).
  split; [apply later_bufs; rewrite Hp; etransitivity; [exact E|by destruct s]|]. split; [done|].
  assert (Hu : forall x y, unlinked x = unlinked y -> b_blockno x = b_blockno y /\ b_data x = b_data y).
  { intros [] [] [=]. subst. done. }
  split; intros i Hi; apply Hu, Ho; [done|]. intros ->.
  pose proof (proj1 (bio_hs _ _ _ Hb)) as Hnd. apply NoDup_cons in Hnd as [Hnd _]. done.
Qed.

(** The room a block takes when it is logged. *)
Definition cost (l : log) (W : list Z) (bno : Z) : nat :=
  if decide (bno ∈ W) then 0%nat else if decide (bno ∈ txn l) then 0%nat else 1%nat.

(** Whether a held block is dirty is what its buffer says. *)
Lemma held_dirty s hs b :
  bio_ok s pid hs -> b ∈ hs -> isdirty s (b_blockno (buf_at s b)) = dirty (buf_at s b).
Proof using Type.
  intros Hb Hin. destruct (held_slot s pid hs b Hb Hin) as (Hbf & _ & _ & _ & Hdev & _).
  apply eq_bool_prop_intro. rewrite !Is_true_true. rewrite isdirty_iff. split.
  - intros (i & bf & Hi & Hbi & Hc & Hd). destruct (decide (i = b)) as [->|Hne]; [congruence|].
    pose proof (held_unique s pid hs b Hb Hin i Hne Hi) as Hu.
    assert (Hat : buf_at s i = bf) by (unfold buf_at; by rewrite Hbi). congruence.
  - intros Hd. exists b, (buf_at s b). split; [by apply held_lt with s pid hs|]. split; [done|]. split; [|done].
    unfold caches. by rewrite Hdev, !Z.eqb_refl.
Qed.

(** Room that is left when a block has been added. *)
Lemma room_add s hs W k k' bno :
  tx s pid hs W k -> (0 < k)%nat -> (k' + cost (k_log s) W bno <= k)%nat ->
  let l' := add_block bno (k_log s) in
  (length (txn l') + length (missing l' W) + k' <= log_limit l')%nat.
Proof using Type.
  intros Ht Hk Hc l'. pose proof (tx_log _ _ _ _ _ Ht) as [L1 _ _]. pose proof (tx_room _ _ _ _ _ Ht) as Hroom.
  assert (Hn : length (txn (k_log s)) = Z.to_nat (lh_n (k_log s))) by (by apply length_txn with (k_disksize s)).
  assert (Hlt : lh_n (k_log s) < LOGSIZE) by (unfold log_limit in Hroom; pose proof (lw_n _ _ L1); lia).
  assert (El : log_limit l' = log_limit (k_log s)) by (unfold l', add_block, log_limit; by case_decide).
  rewrite El. unfold l' at 1. rewrite (txn_add_block _ _ bno L1 Hlt).
  unfold cost in Hc. destruct (decide (bno ∈ txn (k_log s))) as [Hi|Hi].
  - unfold l', add_block. rewrite decide_True by done. case_decide; lia.
  - pose proof (missing_add _ _ bno W L1 Hlt (tx_set _ _ _ _ _ Ht) Hi) as Hm. fold l' in Hm.
    rewrite length_app. cbn [length]. case_decide; lia.
Qed.

(** Changing a held buffer and logging it. *)
Lemma tx_log_write s hs W k k' b g :
  tx s pid hs W k -> (0 < k)%nat -> b ∈ hs -> let bno := b_blockno (buf_at s b) in
  (k' + cost (k_log s) W bno <= k)%nat -> ~ in_log (k_log s) bno -> block_ok (g (b_data (buf_at s b))) ->
  exists s', log_write b (upd_k_bufs (alter (upd_b_data g) b) s) = Ok tt s' /\ tx s' pid hs W k' /\ later s s' /\
    (forall n, view s' n = if n =? bno then g (b_data (buf_at s b)) else view s n) /\ bno ∈ txn (k_log s') /\
    (forall i, b_blockno (buf_at s' i) = b_blockno (buf_at s i)) /\
    (forall i, i <> b -> buf_at s' i = buf_at s i) /\
    b_data (buf_at s' b) = g (b_data (buf_at s b)) /\ dirty (buf_at s' b) = true.
Proof using Type.
  intros Ht Hk Hin bno Hcost Hout Hg. pose proof (tx_bio _ _ _ _ _ Ht) as Hb.
  pose proof (tx_log _ _ _ _ _ Ht) as [L1 L2 L3]. pose proof (tx_room _ _ _ _ _ Ht) as Hroom.
  destruct (held_slot s pid hs b Hb Hin) as (Hbf & _ & _ & Hval & Hdev & Hrange & _). fold bno in Hrange.
  set (bf1 := upd_b_data g (buf_at s b)).
  rewrite (upd_bufs_ext _ (insert b bf1)) by (by apply alter_insert). set (s1 := upd_k_bufs (insert b bf1) s).
  assert (Hm : modified (buf_at s b) bf1).
  { unfold modified, bf1. cbn. split_and!; try done.
    destruct (slot_flags _ _ _ _ _ (bio_slots _ _ _ Hb b _ (held_lt _ _ _ _ Hb Hin) Hbf)) as [Hf|[<-|[<-|[]]]]; [|set_solver..].
    unfold valid in Hval. by rewrite <- Hf in Hval. }
  destruct (bio_modify s pid hs b bf1 Hb Hin Hm s1) as (Hs1 & Hv1 & Hd1); try done.
  { apply (bio_disk _ _ _ Hb). }
  assert (Hat1 : buf_at s1 b = bf1) by (unfold buf_at, s1; cbn; by rewrite list_lookup_insert_eq by (by eapply lookup_lt_Some)).
  assert (Hd1' : forall n, isdirty s1 n = isdirty s n).
  { intros n. rewrite Hd1. destruct (Z.eqb_spec n (b_blockno bf1)) as [->|]; [|done].
    exact (eq_sym (held_dirty s hs b Hb Hin)). }
  assert (Hn : length (txn (k_log s)) = Z.to_nat (lh_n (k_log s))) by (by apply length_txn with (k_disksize s)).
  assert (Hlim : lh_n (k_log s) < LOGSIZE /\ lh_n (k_log s) < log_size (k_log s) - 1).
  { unfold log_limit in Hroom. pose proof (lw_n _ _ L1). lia. }
  destruct (wp_run _ _ _ (log_write_ok s1 pid hs b Hs1 Hin L1 L2 (proj1 Hlim) (proj2 Hlim) (tx_open _ _ _ _ _ Ht)))
    as ([] & s' & Hrun & Hs' & Hv' & Hd' & Hl' & E).
  rewrite Hat1 in Hd', Hl', E. change (b_blockno bf1) with bno in Hd', Hl'. change (k_log s1) with (k_log s) in Hl'.
  assert (Hbat : forall i, buf_at s' i = if decide (i = b) then upd_b_flags (fun _ => Z.lor B_VALID B_DIRTY) bf1 else buf_at s i).
  { intros i. rewrite E. unfold buf_at, s1. cbn. case_decide as Hi.
    - subst i. by rewrite list_lookup_insert_eq by (rewrite length_insert; by eapply lookup_lt_Some).
    - by rewrite !list_lookup_insert_ne. }
  assert (Hds : k_disksize s' = k_disksize s) by (by rewrite E).
  assert (Htx' : txn (k_log s') = if decide (bno ∈ txn (k_log s)) then txn (k_log s) else txn (k_log s) ++ [bno]).
  { rewrite Hl'. exact (txn_add_block _ _ bno L1 (proj1 Hlim)). }
  assert (Hadd : log_start (k_log s') = log_start (k_log s) /\ log_size (k_log s') = log_size (k_log s) /\
    log_outstanding (k_log s') = log_outstanding (k_log s)) by (rewrite Hl'; unfold add_block; by case_decide).
  destruct Hadd as (A1 & A2 & A3).
  exists s'. split; [done|]. split; [constructor|].
  - done.
  - constructor; rewrite ?Hl', ?Hds.
    + apply log_wf_add; [done|apply Hlim..].
    + apply txn_wf_add; [done|done|apply Hlim|done|done].
    + intros n. rewrite Hd', Hd1', orb_true_iff, L3, Z.eqb_eq. rewrite <- Hl', Htx'.
      case_decide; [split; [intros [->|]; done|tauto]|]. rewrite elem_of_app, elem_of_cons, elem_of_nil. tauto.
  - rewrite A3. apply (tx_open _ _ _ _ _ Ht).
  - apply (tx_set _ _ _ _ _ Ht).
  - rewrite Hl'. by apply (room_add s hs W k k').
  - split; [constructor; try done|].
    + assert (Hp : k_procs s' = k_procs s) by (by rewrite E).
      assert (Hbb : k_bufs s' = <[b:=upd_b_flags (fun _ => Z.lor B_VALID B_DIRTY) bf1]> (k_bufs s1)) by (by rewrite E).
      rewrite Hp, Hbb. etransitivity; [exact E|]. by destruct s.
    + intros n Hi. rewrite Htx'. case_decide; set_solver.
    + split; [intros n; by rewrite Hv', Hv1|]. split; [rewrite Htx'; case_decide; set_solver|].
      split; [intros i; rewrite Hbat; destruct (decide (i = b)) as [->|]; done|]. split; [intros i Hi; by rewrite Hbat, decide_False|].
      rewrite Hbat, decide_True by done. done.
Qed.

(** The buffers held before are held after, with what they had. *)
Definition held_same (hs : list nat) (s s' : kstate) : Prop :=
  forall i, i ∈ hs -> b_blockno (buf_at s' i) = b_blockno (buf_at s i) /\ b_data (buf_at s' i) = b_data (buf_at s i).

Lemma held_same_trans hs s1 s2 s3 : held_same hs s1 s2 -> held_same hs s2 s3 -> held_same hs s1 s3.
Proof using Type. intros H1 H2 i Hi. destruct (H1 i Hi), (H2 i Hi). split; congruence. Qed.

(** A step of the transaction that changes what block [bno] reads as. *)
Record set_block (hs : list nat) (W : list Z) (k : nat) (bno : Z) (d : list Z) (s s' : kstate) : Prop := {
  sb_tx : tx s' pid hs W k;
  sb_later : later s s';
  sb_view : forall n, view s' n = if n =? bno then d else view s n;
  sb_txn : bno ∈ txn (k_log s');
  sb_held : held_same hs s s';
}.

(** A step that changes nothing the file system sees. *)
Record quiet (hs : list nat) (W : list Z) (k : nat) (s s' : kstate) : Prop := {
  qt_tx : tx s' pid hs W k;
  qt_later : later s s';
  qt_view : forall n, view s' n = view s n;
  qt_held : held_same hs s s';
}.

Lemma quiet_refl hs W k s : tx s pid hs W k -> quiet hs W k s s.
Proof using Type. intros Ht. constructor; done. Qed.

(** Reading a block and either giving it back or changing it. *)
Lemma tx_open_block s hs W k bno :
  tx s pid hs W k -> (length hs < k)%nat -> 0 <= bno < k_disksize s ->
  (forall i, i ∈ hs -> b_blockno (buf_at s i) <> bno) ->
  exists b bf s1, bread 1 bno s = Ok b s1 /\ get_buf b s1 = Ok bf s1 /\ b_data bf = view s bno /\
    (exists s2, brelse b s1 = Ok tt s2 /\ quiet hs W k s s2) /\
    (forall g k', block_ok (g (view s bno)) -> ~ in_log (k_log s) bno -> (k' + cost (k_log s) W bno <= k)%nat ->
       exists s2 s3, log_write b (upd_k_bufs (alter (upd_b_data g) b) s1) = Ok tt s2 /\ brelse b s2 = Ok tt s3 /\
         set_block hs W k' bno (g (view s bno)) s s3).
Proof using Type.
  intros Ht Hk Hr Hn. destruct (tx_bread s hs W k bno Ht Hk Hr Hn) as (b & s1 & Hrun & Ht1 & Hl1 & Hlg & Hni & Hv1 & Hbn & Hd & Hbf & Ho & Hcl).
  exists b, (buf_at s1 b), s1. split; [done|]. split; [by apply get_buf_ok|]. split; [done|].
  assert (Hne : forall i, i ∈ hs -> i <> b) by (intros i Hi ->; done).
  split.
  - destruct (tx_brelse s1 hs W k b Ht1 Hcl) as (s2 & Hrel & Ht2 & Hl2 & Hv2 & Hb2 & Hd2).
    exists s2. split; [done|]. constructor; [done|by transitivity s1|intros n; by rewrite Hv2|].
    intros i Hi. rewrite Hb2, Hd2, Ho by auto. done.
  - intros g k' Hg Hout Hcost.
    rewrite <- Hlg, <- Hbn in Hcost. rewrite <- Hlg, <- Hbn in Hout. rewrite <- Hd in Hg.
    destruct (tx_log_write s1 (b :: hs) W k k' b g Ht1 ltac:(lia) ltac:(set_solver) Hcost Hout Hg)
      as (s2 & Hlw & Ht2 & Hl2 & Hv2 & Hin2 & Hb2 & Ho2 & Hd2 & Hdirty).
    destruct (tx_brelse s2 hs W k' b Ht2 (or_introl Hdirty)) as (s3 & Hrel & Ht3 & Hl3 & Hv3 & Hb3 & Hd3).
    exists s2, s3. split; [done|]. split; [done|]. constructor.
    + done.
    + by transitivity s1; [|transitivity s2].
    + intros n. by rewrite Hv3, Hv2, Hbn, Hd, Hv1.
    + rewrite <- Hbn. by apply (lt_txn _ _ Hl3).
    + intros i Hi. rewrite Hb3, Hd3, Hb2, Ho2, Ho by auto. done.
Qed.
End Tx.
