(* ===== verification/Printf.v ===== *)
(** * Formatted output (printf.c, console.c) and [atoi] (ulib.c)

    The two [printint]s and the two format interpreters, user [printf] and kernel
    [cprintf], as functions from the format and its arguments to the characters they put
    out, and the round trip through [atoi]. *)

From S2P Require Import Prelude Mem Kernel.

(** ** Integers *)

Definition digits_lower : list Z := codes "0123456789abcdef".
Definition digits_upper : list Z := codes "0123456789ABCDEF".

(** [do{ buf[i++] = digits[x % base]; }while((x /= base) != 0);]: [buf], lowest digit
    first; [buf] has room for 16 characters. *)
Fixpoint digit_loop (n : nat) (digits : list Z) (base x : Z) : list Z :=
  match n with
  | O => []
  | S n =>
      default 0 (digits !! Z.to_nat (x mod base)) ::
      (if x / base =? 0 then [] else digit_loop n digits base (x / base))
  end.

Definition printint (digits : list Z) (xx base : Z) (sign : bool) : list Z :=
  let neg := sign && (xx <? 0) in
  let x := if neg then u32 (- xx) else u32 xx in
  let buf := digit_loop 16 digits base x ++ (if neg then [ch "-"] else []) in
  rev buf.

(** ** Formats *)

(** An argument word: an integer, or a pointer to a string. *)
Inductive arg := AInt (x : Z) | AStr (s : option (list Z)).

Definition str_arg (s : option (list Z)) : list Z := default (codes "(null)") s.

(** [cprintf] from [fmt[i]] on. [None]: a directive without an argument of its kind. *)
Fixpoint cprintf_fmt (fmt : list Z) (args : list arg) : option (list Z) :=
  match fmt with
  | [] => Some []
  | c :: fmt =>
      if negb (c =? ch "%") then (fun o => c :: o) <$> cprintf_fmt fmt args else
      match fmt with
      | [] => Some []
      | c :: fmt =>
          if c =? ch "d" then
            match args with
            | AInt x :: args => (fun o => printint digits_lower (s32 x) 10 true ++ o) <$> cprintf_fmt fmt args
            | _ => None
            end
          else if (c =? ch "x") || (c =? ch "p") then
            match args with
            | AInt x :: args => (fun o => printint digits_lower (s32 x) 16 false ++ o) <$> cprintf_fmt fmt args
            | _ => None
            end
          else if c =? ch "s" then
            match args with
            | AStr s :: args => (fun o => str_arg s ++ o) <$> cprintf_fmt fmt args
            | _ => None
            end
          else if c =? ch "%" then (fun o => ch "%" :: o) <$> cprintf_fmt fmt args
          else (fun o => ch "%" :: c :: o) <$> cprintf_fmt fmt args
      end
  end.

(** [printf] with its [state] variable: [pct] is [state == '%']. *)
Fixpoint printf_fmt (pct : bool) (fmt : list Z) (args : list arg) : option (list Z) :=
  match fmt with
  | [] => Some []
  | c :: fmt =>
      if negb pct then
        if c =? ch "%" then printf_fmt true fmt args
        else (fun o => c :: o) <$> printf_fmt false fmt args
      else if c =? ch "d" then
        match args with
        | AInt x :: args => (fun o => printint digits_upper (s32 x) 10 true ++ o) <$> printf_fmt false fmt args
        | _ => None
        end
      else if (c =? ch "x") || (c =? ch "p") then
        match args with
        | AInt x :: args => (fun o => printint digits_upper (s32 x) 16 false ++ o) <$> printf_fmt false fmt args
        | _ => None
        end
      else if c =? ch "s" then
        match args with
        | AStr s :: args => (fun o => str_arg s ++ o) <$> printf_fmt false fmt args
        | _ => None
        end
      else if c =? ch "c" then
        match args with
        | AInt x :: args => (fun o => u8 x :: o) <$> printf_fmt false fmt args
        | _ => None
        end
      else if c =? ch "%" then (fun o => c :: o) <$> printf_fmt false fmt args
      else (fun o => ch "%" :: c :: o) <$> printf_fmt false fmt args
  end.

Definition printf (fmt : string) (args : list arg) : option (list Z) :=
  printf_fmt false (codes fmt) args.

(** ** atoi *)

Fixpoint atoi_loop (s : list Z) (n : Z) : Z :=
  match s with
  | [] => n
  | c :: s =>
      if (ch "0" <=? c) && (c <=? ch "9") then atoi_loop s (s32 (n * 10 + c - ch "0")) else n
  end.
Definition atoi (s : list Z) : Z := atoi_loop s 0.

(** ** What the digits mean *)

(** The value of a digit character, and of a number written lowest digit first. *)
Definition digit_val (digits : list Z) (c : Z) : Z :=
  match list_find (fun d => d = c) digits with Some (i, _) => Z.of_nat i | None => -1 end.
Definition lsd_val (digits : list Z) (base : Z) (l : list Z) : Z :=
  foldr (fun c acc => digit_val digits c + base * acc) 0 l.

(** The integer a string of digits with an optional sign denotes. *)
Definition parse_int (digits : list Z) (base : Z) (s : list Z) : Z :=
  match s with
  | c :: t => if c =? ch "-" then - lsd_val digits base (rev t) else lsd_val digits base (rev s)
  | [] => 0
  end.

Section Digits.
Context (digits : list Z) (base : Z).
Context (Hnd : NoDup digits) (Hlen : base <= Z.of_nat (length digits)) (Hbase : 2 <= base).

Lemma lsd_val_cons c l : lsd_val digits base (c :: l) = digit_val digits c + base * lsd_val digits base l.
Proof using Type. done. Qed.

Lemma digit_val_lookup i c : digits !! i = Some c -> digit_val digits c = Z.of_nat i.
Proof using Hnd.
  intros Hi. unfold digit_val. destruct (list_find _ digits) as [[j d]|] eqn:E.
  - apply list_find_Some in E as (Hj & -> & _). f_equal. by eapply NoDup_lookup.
  - apply list_find_None in E. rewrite Forall_lookup in E. by destruct (E i c Hi).
Qed.

Lemma digit_char x : 0 <= x ->
  exists c, digits !! Z.to_nat (x mod base) = Some c /\ digit_val digits c = x mod base.
Proof using Hnd Hlen Hbase.
  intros Hx. pose proof (Z.mod_pos_bound x base ltac:(lia)).
  destruct (lookup_lt_is_Some_2 digits (Z.to_nat (x mod base))) as [c Hc]; [lia|].
  exists c. split; [done|]. rewrite (digit_val_lookup _ _ Hc). lia.
Qed.

(** The loop writes the digits of [x] and stops within the length of [buf]. *)
Lemma digit_loop_val n x :
  0 <= x < base ^ Z.of_nat n -> (0 < n)%nat ->
  lsd_val digits base (digit_loop n digits base x) = x /\
  (length (digit_loop n digits base x) <= n)%nat /\
  Forall (fun c => exists i, (i < Z.to_nat base)%nat /\ digits !! i = Some c) (digit_loop n digits base x).
Proof using Hnd Hlen Hbase.
  revert x. induction n as [|n IH]; intros x Hx Hn; [lia|]. cbn [digit_loop].
  destruct (digit_char x) as (c & Hc & Hv); [lia|]. rewrite Hc. change (default 0 (Some c)) with c. rewrite lsd_val_cons.
  pose proof (Z.div_mod x base ltac:(lia)) as Hdm.
  assert (Hin : exists i, (i < Z.to_nat base)%nat /\ digits !! i = Some c).
  { exists (Z.to_nat (x mod base)). pose proof (Z.mod_pos_bound x base ltac:(lia)). split; [lia|done]. }
  destruct (Z.eqb_spec (x / base) 0) as [Hz|Hz].
  - split_and!; [unfold lsd_val; simpl; lia|simpl; lia|by repeat constructor].
  - assert (Hq : 0 <= x / base < base ^ Z.of_nat n).
    { split; [apply Z.div_pos; lia|]. apply Z.div_lt_upper_bound; [lia|].
      rewrite Nat2Z.inj_succ, Z.pow_succ_r in Hx by lia. lia. }
    destruct n as [|n]; [simpl in Hq; lia|].
    destruct (IH (x / base) Hq ltac:(lia)) as (V & L & F). split_and!.
    + rewrite V, Hv. lia.
    + simpl in *. lia.
    + by constructor.
Qed.
End Digits.

Lemma nodup_digits : NoDup digits_lower /\ NoDup digits_upper.
Proof. split; by_decide. Qed.

(** No digit is the minus sign. *)
Lemma digit_not_minus digits i c :
  digits = digits_lower \/ digits = digits_upper -> digits !! i = Some c -> c <> ch "-".
Proof.
  intros Hd Hi Hc. assert (Hin : ch "-" ∈ digits) by (apply list_elem_of_lookup; exists i; by subst c).
  destruct Hd; subst digits; revert Hin; by_decide.
Qed.

Lemma pow_le_32 base : 10 <= base -> 2 ^ 32 <= base ^ 10.
Proof.
  intros Hb. transitivity (10 ^ 10); [lia|]. apply Z.pow_le_mono_l. lia.
Qed.

(** The printed digits, most significant first after the sign. *)
Lemma printint_shape digits xx base sign :
  digits = digits_lower \/ digits = digits_upper -> 10 <= base <= 16 ->
  let neg := sign && (xx <? 0) in
  let x := if neg then u32 (- xx) else u32 xx in
  exists l, printint digits xx base sign = (if neg then [ch "-"] else []) ++ rev l /\
    lsd_val digits base l = x /\ (0 < length l <= 10)%nat /\
    Forall (fun c => exists i, (i < Z.to_nat base)%nat /\ digits !! i = Some c) l.
Proof.
  intros Hd Hb neg x.
  assert (Hx : 0 <= x < base ^ 10).
  { pose proof (pow_le_32 base ltac:(lia)). unfold x. destruct neg;
      [pose proof (u32_range (- xx))|pose proof (u32_range xx)]; lia. }
  assert (Hx16 : 0 <= x < base ^ Z.of_nat 16).
  { split; [lia|]. eapply Z.lt_le_trans; [apply Hx|]. apply Z.pow_le_mono_r; lia. }
  assert (Hnd : NoDup digits /\ length digits = 16%nat)
    by (destruct Hd; subst digits; (split; [apply nodup_digits|reflexivity])).
  destruct Hnd as [Hnd Hl16].
  exists (digit_loop 16 digits base x).
  destruct (digit_loop_val digits base Hnd ltac:(lia) ltac:(lia) 16 x Hx16 ltac:(lia)) as (V & _ & F).
  split; [|split; [done|split; [|done]]].
  - unfold printint. fold neg. fold x. rewrite rev_app_distr. by destruct neg.
  - assert (Hle : forall n y, (0 < n)%nat -> 0 <= y < base ^ Z.of_nat n -> forall m, (n <= m)%nat ->
      (0 < length (digit_loop m digits base y) <= n)%nat).
    { induction n as [|n IH]; intros y Hn Hy m Hm; [lia|]. destruct m as [|m]; [lia|]. cbn [digit_loop].
      destruct (Z.eqb_spec (y / base) 0) as [Hz|Hz]; [simpl; lia|].
      assert (Hq : 0 <= y / base < base ^ Z.of_nat n).
      { split; [apply Z.div_pos; lia|]. apply Z.div_lt_upper_bound; [lia|].
        rewrite Nat2Z.inj_succ, Z.pow_succ_r in Hy by lia. lia. }
      destruct n as [|n]; [simpl in Hq; lia|].
      specialize (IH (y / base) ltac:(lia) Hq m ltac:(lia)). simpl in *. lia. }
    apply (Hle 10%nat x); [lia|done|lia].
Qed.

(** *** Decimal digits and [atoi] *)

Definition dec_val (acc : Z) (t : list Z) : Z := foldl (fun n c => n * 10 + (c - 48)) acc t.

Lemma atoi_loop_val t acc :
  Forall (fun c => 48 <= c <= 57) t -> 0 <= acc -> dec_val acc t < 2 ^ 31 ->
  acc <= dec_val acc t /\ atoi_loop t acc = dec_val acc t.
Proof.
  unfold dec_val. revert acc. induction t as [|c t IH]; intros acc Ht Hacc Hlt; [simpl in *; split; [lia|done]|].
  apply Forall_cons in Ht as [Hc Ht]. cbn [foldl atoi_loop] in *.
  change (ch "0") with 48. change (ch "9") with 57.
  destruct (Z.leb_spec 48 c), (Z.leb_spec c 57); try lia. cbn [andb].
  destruct (IH (acc * 10 + (c - 48)) Ht ltac:(lia) Hlt) as [I1 I2]. split; [lia|].
  rewrite <- I2. f_equal. rewrite s32_id; lia.
Qed.

Lemma decimal_char digits i c :
  digits = digits_lower \/ digits = digits_upper -> (i < Z.to_nat 10)%nat -> digits !! i = Some c ->
  48 <= c <= 57 /\ digit_val digits c = c - 48.
Proof.
  intros Hd Hi Hc. assert (Hnd : NoDup digits) by (destruct Hd; subst digits; apply nodup_digits).
  rewrite (digit_val_lookup digits Hnd i c Hc).
  assert (Hc' : c = 48 + Z.of_nat i); [|lia].
  destruct Hd; subst digits; do 10 (destruct i as [|i]; [by injection Hc as <-|]); simpl in Hi; lia.
Qed.

Lemma lsd_val_rev digits l :
  Forall (fun c => 48 <= c <= 57 /\ digit_val digits c = c - 48) l ->
  dec_val 0 (rev l) = lsd_val digits 10 l.
Proof.
  unfold dec_val. induction 1 as [|c l [_ Hc] _ IH]; [done|].
  rewrite lsd_val_cons. simpl rev. rewrite foldl_app. simpl. rewrite IH. lia.
Qed.

(** Both [printint]s print exactly the integer they are given.  In base 10 to 16
    and with either digit table, what is printed for an [int] reads back as its signed
    value (as its unsigned value when [sign] is 0), the digits and the sign fit in the 11
    first characters of [buf[16]], and in base 10 [atoi] recovers every non-negative
    value. *)
Theorem printint_roundtrip (digits : list Z) (xx base : Z) (sign : bool)
    (Hd : digits = digits_lower \/ digits = digits_upper) (Hb : 10 <= base <= 16)
    (Hxx : - 2 ^ 31 <= xx < 2 ^ 31) :
  let out := printint digits xx base sign in
  parse_int digits base out = (if sign then xx else u32 xx) /\ (length out <= 11)%nat /\
  (base = 10 -> 0 <= xx -> atoi out = xx).
Proof.
  intros out. destruct (printint_shape digits xx base sign Hd Hb) as (l & Hout & Hv & Hl & HF).
  fold out in Hout. rewrite Hout.
  assert (Hfirst : forall c t, rev l = c :: t -> c <> ch "-").
  { intros c t Hr. assert (Hc : c ∈ l).
    { apply list_elem_of_In, in_rev. rewrite Hr. by left. }
    rewrite Forall_forall in HF. destruct (HF c Hc) as (i & _ & Hi). by eapply digit_not_minus. }
  assert (Hplain : parse_int digits base (rev l) = lsd_val digits base l).
  { unfold parse_int. destruct (rev l) as [|c t] eqn:Hr.
    - apply (f_equal length) in Hr. rewrite length_rev in Hr. simpl in Hr. lia.
    - destruct (Z.eqb_spec c (ch "-")) as [E|_]; [by destruct (Hfirst c t eq_refl)|].
      by rewrite <- Hr, rev_involutive. }
  split_and!.
  - destruct sign; simpl in *; destruct (Z.ltb_spec xx 0) as [Hneg|Hneg]; simpl in *.
    + rewrite rev_involutive, Hv. rewrite u32_id; lia.
    + rewrite Hplain, Hv. apply u32_id. lia.
    + by rewrite Hplain, Hv.
    + by rewrite Hplain, Hv.
  - rewrite length_app, length_rev. destruct (sign && (xx <? 0)); simpl; lia.
  - intros -> Hpos. replace (sign && (xx <? 0)) with false in * by (destruct sign; simpl; lia).
    simpl in *. rewrite u32_id in Hv by lia.
    assert (Hdig : Forall (fun c => 48 <= c <= 57 /\ digit_val digits c = c - 48) l).
    { eapply Forall_impl; [exact HF|]. intros c (i & Hi & Hc). by eapply decimal_char. }
    unfold atoi. rewrite <- (lsd_val_rev digits l Hdig) in Hv.
    rewrite (proj2 (atoi_loop_val (rev l) 0 ltac:(apply Forall_rev; eapply Forall_impl; [exact Hdig|tauto])
      ltac:(lia) ltac:(lia))). exact Hv.
Qed.

Lemma printint_roundtrip_witness :
  printint digits_lower (-2147483648) 10 true = codes "-2147483648" /\
  parse_int digits_lower 10 (codes "-2147483648") = -2147483648.
Proof.
  split; [vm_compute; reflexivity|].
  apply (printint_roundtrip digits_lower (-2147483648) 10 true); [by left|lia|lia].
Defined.
