(* ===== verification/User.v ===== *)
(** * The user programs (wc.c, cat.c, echo.c, ls.c, kill.c, ln.c, mkdir.c, rm.c, init.c, zombie.c,
    freemem.c, testexit.c)

    A program is the system calls it makes, each with what it does with the answer:
    the value returned and the bytes stored at the pointers of the call. [trace]
    runs a program against a list of answers. *)

From S2P Require Import Prelude Fcntl Kernel Layout Printf Ulib.

Inductive ucall :=
| SOpen (name : list Z) (mode : Z)
| SClose (fd : Z)
| SRead (fd n : Z)
| SWrite (fd : Z) (bytes : list Z)
| SDup (fd : Z)
| SFstat (fd : Z)
| SLink (old new : list Z)
| SUnlink (name : list Z)
| SMkdir (name : list Z)
| SMknod (name : list Z) (major minor : Z)
| SKill (pid : Z)
| SSleep (n : Z)
| SFork
| SWait
| SWait2
| SExec (path : list Z) (argv : list (list Z))
| SFreemem
| SChdir (path : list Z)
| SPipe
| SGetpid
| SSbrk (n : Z)
| SPrintf (fd : Z) (text : list Z).

(** What usertests.c also does: system calls with a pointer of its choice ([SReadAt], [SLinkAt],
    and [SSleepAt], which has its stack pointer at [esp]), single loads and stores of [n] bytes,
    port instructions, and the calls of umalloc.c. *)
Inductive uinstr :=
| SReadAt (fd addr n : Z)
| SLinkAt (old : list Z) (addr : Z)
| SSleepAt (esp : Z)
| SPeek (n : nat) (addr : Z)
| SPoke (n : nat) (addr v : Z)
| SOutb (port v : Z)
| SInb (port : Z)
| SMalloc (n : Z)
| SFree (addr : Z).

(** [Exit] carries the status of [exit2]; [Forever] is [for(;;);]. *)
Inductive prog :=
| Exit (status : option Z)
| Sys (c : ucall) (k : Z -> list Z -> prog)
| Ins (c : uinstr) (k : Z -> prog)
| Forever
| BadFormat
| OutOfFuel.

Definition quit : prog := Exit None.

(** A call whose answer is not used. *)
Definition do_ (c : ucall) (k : prog) : prog := Sys c (fun _ _ => k).

Definition print (fd : Z) (fmt : string) (args : list arg) (k : prog) : prog :=
  match printf fmt args with
  | Some text => do_ (SPrintf fd text) k
  | None => BadFormat
  end.

Definition str (s : list Z) : arg := AStr (Some s).

Fixpoint trace (p : prog) (answers : list (Z * list Z)) : list ucall :=
  match p with
  | Sys c k => c :: match answers with [] => [] | (v, b) :: answers => trace (k v b) answers end
  | _ => []
  end.

(** ** wc *)

Record count := Count { c_l : Z; c_w : Z; c_c : Z; c_inword : bool }.

(** [" \r\t\n\v"] *)
Definition blanks : list Z := [32; 13; 9; 10; 11].

Definition blank (c : Z) : bool := match Ulib.strchr blanks c with Some _ => true | None => false end.

(** The body of the inner loop of [wc]. *)
Definition count_char (x : count) (c : Z) : count :=
  let l := if c =? 10 then c_l x + 1 else c_l x in
  if blank c then Count l (c_w x) (c_c x + 1) false
  else if c_inword x then Count l (c_w x) (c_c x + 1) true
  else Count l (c_w x + 1) (c_c x + 1) true.

Fixpoint wc_loop (n : nat) (fd : Z) (name : list Z) (x : count) (k : prog) : prog :=
  match n with
  | O => OutOfFuel
  | S n =>
      Sys (SRead fd 512) (fun r bytes =>
        if 0 <? r then wc_loop n fd name (fold_left count_char (take (Z.to_nat r) bytes) x) k
        else if r <? 0 then print 1 "wc: read error
" [] quit
        else print 1 "%d %d %d %s
" [AInt (c_l x); AInt (c_w x); AInt (c_c x); str name] k)
  end.

Definition wc (n : nat) (fd : Z) (name : list Z) (k : prog) : prog := wc_loop n fd name (Count 0 0 0 false) k.

Fixpoint wc_files (n : nat) (argv : list (list Z)) : prog :=
  match argv with
  | [] => quit
  | a :: argv =>
      Sys (SOpen a 0) (fun fd _ =>
        if fd <? 0 then print 1 "wc: cannot open %s
" [str a] quit
        else wc n fd a (do_ (SClose fd) (wc_files n argv)))
  end.

(** [argv] without the program's name. *)
Definition wc_main (n : nat) (argv : list (list Z)) : prog :=
  match argv with [] => wc n 0 [] quit | _ => wc_files n argv end.

(** ** cat *)

Fixpoint cat (n : nat) (fd : Z) (k : prog) : prog :=
  match n with
  | O => OutOfFuel
  | S n =>
      Sys (SRead fd 512) (fun r bytes =>
        if 0 <? r then
          Sys (SWrite 1 (take (Z.to_nat r) bytes)) (fun w _ =>
            if negb (w =? r) then print 1 "cat: write error
" [] quit else cat n fd k)
        else if r <? 0 then print 1 "cat: read error
" [] quit else k)
  end.

Fixpoint cat_files (n : nat) (argv : list (list Z)) : prog :=
  match argv with
  | [] => quit
  | a :: argv =>
      Sys (SOpen a 0) (fun fd _ =>
        if fd <? 0 then print 1 "cat: cannot open %s
" [str a] quit
        else cat n fd (do_ (SClose fd) (cat_files n argv)))
  end.

Definition cat_main (n : nat) (argv : list (list Z)) : prog :=
  match argv with [] => cat n 0 quit | _ => cat_files n argv end.

(** ** echo, kill, ln, mkdir, rm *)

Fixpoint echo (argv : list (list Z)) : prog :=
  match argv with
  | [] => quit
  | [a] => print 1 "%s%s" [str a; str [10]] quit
  | a :: argv => print 1 "%s%s" [str a; str [32]] (echo argv)
  end.

Fixpoint kill_each (argv : list (list Z)) : prog :=
  match argv with
  | [] => quit
  | a :: argv => do_ (SKill (atoi a)) (kill_each argv)
  end.

Definition kill_main (argv : list (list Z)) : prog :=
  match argv with [] => print 2 "usage: kill pid...
" [] quit | _ => kill_each argv end.

Definition ln_main (argv : list (list Z)) : prog :=
  match argv with
  | [old; new] =>
      Sys (SLink old new) (fun r _ =>
        if r <? 0 then print 2 "link %s %s: failed
" [str old; str new] quit else quit)
  | _ => print 2 "Usage: ln old new
" [] quit
  end.

Fixpoint mkdir_each (argv : list (list Z)) : prog :=
  match argv with
  | [] => quit
  | a :: argv =>
      Sys (SMkdir a) (fun r _ =>
        if r <? 0 then print 2 "mkdir: %s failed to create
" [str a] quit else mkdir_each argv)
  end.

Definition mkdir_main (argv : list (list Z)) : prog :=
  match argv with [] => print 2 "Usage: mkdir files...
" [] quit | _ => mkdir_each argv end.

Fixpoint rm_each (argv : list (list Z)) : prog :=
  match argv with
  | [] => quit
  | a :: argv =>
      Sys (SUnlink a) (fun r _ =>
        if r <? 0 then print 2 "rm: %s failed to delete
" [str a] quit else rm_each argv)
  end.

Definition rm_main (argv : list (list Z)) : prog :=
  match argv with [] => print 2 "Usage: rm files...
" [] quit | _ => rm_each argv end.

(** ** init, zombie, freemem, testexit *)

(** [while((wpid=wait()) >= 0 && wpid != pid) printf(1, "zombie!\n");] *)
Fixpoint init_wait (n : nat) (pid : Z) (k : prog) : prog :=
  match n with
  | O => OutOfFuel
  | S n =>
      Sys SWait (fun wpid _ =>
        if (0 <=? wpid) && negb (wpid =? pid) then print 1 "zombie!
" [] (init_wait n pid k) else k)
  end.

Fixpoint init_loop (n : nat) : prog :=
  match n with
  | O => OutOfFuel
  | S n =>
      print 1 "init: starting sh
" [] (Sys SFork (fun pid _ =>
        if pid <? 0 then print 1 "init: fork failed
" [] quit
        else if pid =? 0 then
          do_ (SExec (codes "sh") [codes "sh"]) (print 1 "init: exec sh failed
" [] quit)
        else init_wait n pid (init_loop n)))
  end.

Definition init_main (n : nat) : prog :=
  Sys (SOpen (codes "console") O_RDWR) (fun fd _ =>
    let rest := do_ (SDup 0) (do_ (SDup 0) (init_loop n)) in
    if fd <? 0 then do_ (SMknod (codes "console") 1 1) (do_ (SOpen (codes "console") O_RDWR) rest)
    else rest).

Definition zombie_main : prog :=
  Sys SFork (fun pid _ => if 0 <? pid then do_ (SSleep 5) quit else quit).

(** The second argument of [printf(1, "%d", i, 1)] is not used. *)
Definition freemem_main : prog :=
  Sys SFreemem (fun i _ => print 1 "%d" [AInt i; AInt 1] (print 1 "
" [] quit)).

(** [wait2] stores the status as four bytes. *)
Definition testexit_main : prog :=
  Sys SFork (fun pid _ =>
    if pid =? 0 then Exit (Some (-1))
    else Sys SWait2 (fun _ bytes =>
      print 1 "%d" [AInt (le_val bytes)] (print 1 "
" [] (Exit (Some 1))))).

(** ** ls *)

(** What comes after the last slash. *)
Fixpoint base_name (path : list Z) : list Z :=
  match path with
  | [] => []
  | c :: p => if existsb (Z.eqb (ch "/")) p then base_name p else if c =? ch "/" then p else path
  end.

Definition fmtname (path : list Z) : list Z :=
  let p := base_name path in
  if Nat.leb DIRSIZ (length p) then p else p ++ replicate (DIRSIZ - length p) 32.

(** The fields of [struct stat] as [fstat] stores it. *)
Definition st_type_of (st : list Z) : Z := s16 (le_val (slice 0 2 st)).
Definition st_ino_of (st : list Z) : Z := le_val (slice 8 4 st).
Definition st_size_of (st : list Z) : Z := le_val (slice 16 4 st).

(** [stat] of ulib.c. *)
Definition stat_call (n : list Z) (k : Z -> list Z -> prog) : prog :=
  Sys (SOpen n O_RDONLY) (fun fd _ =>
    if fd <? 0 then k (-1) [] else Sys (SFstat fd) (fun r st => do_ (SClose fd) (k r st))).

Definition ls_line (path : list Z) (st : list Z) (k : prog) : prog :=
  print 1 "%s %d %d %d
" [str (fmtname path); AInt (st_type_of st); AInt (st_ino_of st); AInt (st_size_of st)] k.

(** The loop over the entries of a directory; an entry has its inode number and 14 bytes of name. *)
Fixpoint ls_dir (n : nat) (fd : Z) (path : list Z) (k : prog) : prog :=
  match n with
  | O => OutOfFuel
  | S n =>
      Sys (SRead fd 16) (fun r de =>
        if negb (r =? 16) then k
        else if le_val (slice 0 2 de) =? 0 then ls_dir n fd path k
        else
          let buf := path ++ [ch "/"] ++ Ulib.cstr (slice 2 DIRSIZ de) in
          stat_call buf (fun r st =>
            if r <? 0 then print 1 "ls: cannot stat %s
" [str buf] (ls_dir n fd path k)
            else ls_line buf st (ls_dir n fd path k)))
  end.

Definition ls (n : nat) (path : list Z) (k : prog) : prog :=
  Sys (SOpen path 0) (fun fd _ =>
    if fd <? 0 then print 2 "ls: cannot open %s
" [str path] k
    else Sys (SFstat fd) (fun r st =>
      let done_ := do_ (SClose fd) k in
      if r <? 0 then print 2 "ls: cannot stat %s
" [str path] done_
      else if st_type_of st =? T_FILE then ls_line path st done_
      else if st_type_of st =? T_DIR then
        if 512 <? Z.of_nat (length path) + 1 + Z.of_nat DIRSIZ + 1 then print 1 "ls: path too long
" [] done_
        else ls_dir n fd path done_
      else done_)).

Fixpoint ls_each (n : nat) (argv : list (list Z)) : prog :=
  match argv with
  | [] => quit
  | a :: argv => ls n a (ls_each n argv)
  end.

Definition ls_main (n : nat) (argv : list (list Z)) : prog :=
  match argv with [] => ls n (codes ".") quit | _ => ls_each n argv end.

(** ** What wc counts *)

(** The words of a text: the longest runs of characters that are not blank. *)
Fixpoint fields (e l : list Z) : list (list Z) :=
  match l with
  | [] => match e with [] => [] | _ => [e] end
  | c :: l => if blank c then match e with [] => fields [] l | _ => e :: fields [] l end else fields (e ++ [c]) l
  end.

Example fields_text : fields [] (codes "  one two
three ") = [codes "one"; codes "two"; codes "three"].
Proof. reflexivity. Qed.

Definition lines (l : list Z) : Z := Z.of_nat (length (filter (fun c => c = 10) l)).

Lemma count_chars l : forall e x, c_inword x = negb (bool_decide (e = [])) ->
  c_l (fold_left count_char l x) = c_l x + lines l /\
  c_c (fold_left count_char l x) = c_c x + Z.of_nat (length l) /\
  c_w (fold_left count_char l x) = c_w x + Z.of_nat (length (fields e l)) - (if c_inword x then 1 else 0).
Proof.
  induction l as [|c l IH]; intros e x Hx.
  - cbn [fold_left fields]. unfold lines. destruct e; rewrite Hx; simpl; lia.
  - cbn [fold_left fields]. unfold count_char at 2 4 6. 
    assert (Hl : lines (c :: l) = (if c =? 10 then 1 else 0) + lines l).
    { unfold lines. rewrite filter_cons. destruct (decide (c = 10)) as [->|Hc]; [simpl; lia|]. by destruct (Z.eqb_spec c 10). }
    rewrite Hl. destruct (blank c).
    + destruct (IH [] (Count (if c =? 10 then c_l x + 1 else c_l x) (c_w x) (c_c x + 1) false) eq_refl) as (H1 & H2 & H3).
      rewrite H1, H2, H3. simpl. rewrite Hx. destruct e; simpl; destruct (c =? 10); split_and!; lia.
    + destruct (c_inword x) eqn:Hi.
      * destruct (IH (e ++ [c]) (Count (if c =? 10 then c_l x + 1 else c_l x) (c_w x) (c_c x + 1) true)) as (H1 & H2 & H3); [by destruct e|].
        rewrite H1, H2, H3. simpl. destruct (c =? 10); split_and!; lia.
      * destruct e as [|? e]; [|done].
        destruct (IH ([] ++ [c]) (Count (if c =? 10 then c_l x + 1 else c_l x) (c_w x + 1) (c_c x + 1) true) eq_refl) as (H1 & H2 & H3).
        rewrite H1, H2, H3. simpl. destruct (c =? 10); split_and!; lia.
Qed.

(** The answers to reads that give the pieces of a file one after another and then its end. *)
Definition pieces (chunks : list (list Z)) : list (Z * list Z) :=
  map (fun b => (Z.of_nat (length b), b)) chunks ++ [(0, [])].

Lemma wc_trace chunks : forall n fd name x k answers, Forall (fun b => b <> []) chunks -> (length chunks < n)%nat ->
  let y := fold_left count_char (concat chunks) x in
  trace (wc_loop n fd name x k) (pieces chunks ++ answers) =
  replicate (S (length chunks)) (SRead fd 512) ++
  trace (print 1 "%d %d %d %s
" [AInt (c_l y); AInt (c_w y); AInt (c_c y); str name] k) answers.
Proof.
  induction chunks as [|b chunks IH]; intros n fd name x k answers Hne Hn; (destruct n as [|n]; [simpl in Hn; lia|]).
  - reflexivity.
  - apply Forall_cons in Hne as [Hb Hne]. cbn [concat]. rewrite fold_left_app.
    cbn [wc_loop trace pieces map app length replicate]. f_equal. fold (pieces chunks).
    destruct (Z.ltb_spec 0 (Z.of_nat (length b))) as [_|Hz]; [|destruct b; simpl in Hz; [done|lia]].
    rewrite Nat2Z.id, take_ge by lia. simpl in Hn. rewrite IH by (try done; lia). done.
Qed.

(** [wc] prints the number of newlines, of words and of bytes of what it reads, in whatever
    pieces [read] hands it over. *)
Theorem wc_counts (chunks : list (list Z)) (n : nat) (fd : Z) (name : list Z) (k : prog) (answers : list (Z * list Z))
    (Hne : Forall (fun b => b <> []) chunks) (Hn : (length chunks < n)%nat) :
  let text := concat chunks in
  trace (wc n fd name k) (pieces chunks ++ answers) =
  replicate (S (length chunks)) (SRead fd 512) ++
  trace (print 1 "%d %d %d %s
" [AInt (lines text); AInt (Z.of_nat (length (fields [] text))); AInt (Z.of_nat (length text)); str name] k) answers.
Proof.
  unfold wc. rewrite (wc_trace chunks n fd name (Count 0 0 0 false) k answers Hne Hn).
  destruct (count_chars (concat chunks) [] (Count 0 0 0 false) eq_refl) as (H1 & H2 & H3).
  simpl in H1, H2, H3. rewrite H1, H2, H3. do 2 f_equal. rewrite Z.sub_0_r. done.
Qed.

Lemma wc_counts_witness : trace (wc 10 3 (codes "f") quit) (pieces [codes "one tw"; codes "o
x"]) =
  [SRead 3 512; SRead 3 512; SRead 3 512; SPrintf 1 (codes "1 3 9 f
")].
Proof.
  rewrite <- (app_nil_r (pieces _)). rewrite (wc_counts [codes "one tw"; codes "o
x"] 10 3 (codes "f") quit []).
  - vm_compute. reflexivity.
  - repeat constructor; discriminate.
  - simpl. lia.
Defined.

(** [cat] writes exactly what it reads, piece by piece. *)
Theorem cat_copies (chunks : list (list Z)) (n : nat) (fd : Z) (k : prog) (answers : list (Z * list Z))
    (Hne : Forall (fun b => b <> []) chunks) (Hn : (length chunks < n)%nat) :
  trace (cat n fd k) (flat_map (fun b => [(Z.of_nat (length b), b); (Z.of_nat (length b), [])]) chunks ++ (0, []) :: answers) =
  flat_map (fun b => [SRead fd 512; SWrite 1 b]) chunks ++ SRead fd 512 :: trace k answers.
Proof.
  revert n Hn. induction Hne as [|b chunks Hb Hne IH]; intros n Hn; (destruct n as [|n]; [simpl in Hn; lia|]); [reflexivity|].
  cbn [flat_map app cat trace]. destruct (Z.ltb_spec 0 (Z.of_nat (length b))) as [_|Hz]; [|destruct b; simpl in Hz; [done|lia]].
  rewrite Nat2Z.id, take_ge by lia. cbn [trace]. rewrite Z.eqb_refl. cbn [negb]. do 2 f_equal. apply IH. simpl in Hn. lia.
Qed.

Lemma cat_copies_witness : trace (cat 5 0 quit) [(2, [104; 105]); (2, []); (0, [])] = [SRead 0 512; SWrite 1 [104; 105]; SRead 0 512].
Proof. apply (cat_copies [[104; 105]] 5 0 quit []); [repeat constructor; discriminate|simpl; lia]. Defined.

(** [testexit] prints the status its child gave to [exit2]: the four bytes [wait2] stores. *)
Theorem testexit_prints (pid w : Z) (Hpid : pid <> 0) :
  trace testexit_main [(pid, []); (w, le_bytes 4 (-1)); (0, []); (0, [])] =
  [SFork; SWait2; SPrintf 1 (codes "-1"); SPrintf 1 [10]].
Proof.
  unfold testexit_main. cbn [trace]. destruct (Z.eqb_spec pid 0); [done|]. vm_compute. reflexivity.
Qed.

Lemma testexit_prints_witness : trace testexit_main [(3, []); (3, le_bytes 4 (-1)); (0, []); (0, [])] =
  [SFork; SWait2; SPrintf 1 (codes "-1"); SPrintf 1 [10]].
Proof. apply (testexit_prints 3 3). lia. Defined.
