(* ===== verification/Programs.v ===== *)
(** * More user programs: grep and crc32 as programs of system calls, forktest and stressfs
    (grep.c, crc32.c, forktest.c, stressfs.c)

    What grep and crc32 compute is in Grep.v and Crc32.v; here are the calls they make. *)

From S2P Require Import Prelude Crc32 Grep Fcntl Ulib Kernel Layout Printf User.

(** ** grep *)

(** The inner loop of [grep]: the lines it writes, and [p]. *)
Fixpoint grep_scan (pattern : list Z) (fuel : nat) (p : list Z) : list (list Z) * list Z :=
  match fuel with
  | O => ([], p)
  | S fuel =>
      match Grep.split_line p with
      | None => ([], p)
      | Some (line, rest) =>
          let '(out, p) := grep_scan pattern fuel rest in
          ((if Grep.match_ pattern line then [line ++ [10]] else []) ++ out, p)
      end
  end.

Definition write_each (lines : list (list Z)) (k : prog) : prog :=
  fold_right (fun l k => do_ (SWrite 1 l) k) k lines.

Fixpoint grep_loop (n : nat) (pattern : list Z) (fd : Z) (buf : list Z) (k : prog) : prog :=
  match n with
  | O => OutOfFuel
  | S n =>
      Sys (SRead fd (1024 - Z.of_nat (length buf) - 1)) (fun r bytes =>
        if 0 <? r then
          let buf := buf ++ take (Z.to_nat r) bytes in
          let '(lines, p) := grep_scan pattern (length buf) buf in
          write_each lines
            (grep_loop n pattern fd (if (length p =? length buf)%nat then [] else p) k)
        else k)
  end.

Definition grep_fd (n : nat) (pattern : list Z) (fd : Z) (k : prog) : prog := grep_loop n pattern fd [] k.

Fixpoint grep_files (n : nat) (pattern : list Z) (argv : list (list Z)) : prog :=
  match argv with
  | [] => quit
  | a :: argv =>
      Sys (SOpen a 0) (fun fd _ =>
        if fd <? 0 then print 1 "grep: cannot open %s
" [str a] quit
        else grep_fd n pattern fd (do_ (SClose fd) (grep_files n pattern argv)))
  end.

(** [argv] without the program's name. *)
Definition grep_main (n : nat) (argv : list (list Z)) : prog :=
  match argv with
  | [] => print 2 "usage: grep pattern [file ...]
" [] quit
  | [pattern] => grep_fd n pattern 0 quit
  | pattern :: files => grep_files n pattern files
  end.

(** ** crc32 *)

(** [exit2(-1)] *)
Definition fail : prog := Exit (Some (-1)).

Section Crc32Main.
(** What the code uses without having set it: the bytes [malloc] gives, those that the
    stack holds after [de] (the [n] bytes there, in the round of the loop with [i] rounds
    of fuel todo), and [de] itself before the first read. *)
Context (heap : nat -> list Z) (above : nat -> nat -> list Z) (de0 : list Z).

Definition hex_line (x : Z) (k : prog) : prog := print 1 "%x
" [AInt x] k.

(** [memcpy] over the start of a block. *)
Definition over (new old : list Z) : list Z := new ++ drop (length new) old.

Definition crcFile (fd : Z) (st : list Z) (path : list Z) (k : prog) : prog :=
  let size := st_size_of st in
  let buffer := heap (Z.to_nat size) in
  Sys (SRead fd size) (fun r bytes =>
    if r <? 0 then print 1 "ERROR: Could not read file %s
" [str path] (do_ (SClose fd) fail)
    else hex_line (Crc32.crc32 0 (over (take (Z.to_nat r) bytes) buffer)) k).

(** [sizeof(de) == sizeof(de)] *)
Definition read_count : Z := 1.

(** The loop over a directory, by the parent and, after [fork], by the child: its [continue]
    and the end of its branch go on with the loop. *)
Fixpoint crc_dir (n : nat) (fd : Z) (path de : list Z) (k : prog) : prog :=
  match n with
  | O => OutOfFuel
  | S n =>
      Sys (SRead fd read_count) (fun r bytes =>
        if r =? 0 then k
        else
          let de := over (take (Z.to_nat r) bytes) de in
          Sys SFork (fun pid _ =>
            if pid =? 0 then
              if le_val (slice 0 2 de) =? 0 then crc_dir n fd path de k
              else
                let buffer := path ++ [ch "/"] ++ Ulib.cstr (slice 2 DIRSIZ de) in
                stat_call buffer (fun s st =>
                  if s <? 0 then print 1 "crc32: cannot stat %s
" [str buffer] (crc_dir n fd path de k)
                  else
                    let size := Z.to_nat (st_size_of st) in
                    hex_line (Crc32.crc32 0 (take size (de ++ above n (size - length de)%nat)))
                      (crc_dir n fd path de k))
            else do_ SWait2 (crc_dir n fd path de k)))
  end.

Definition crc_main (n : nat) (argv : list (list Z)) : prog :=
  match argv with
  | [a] =>
      Sys (SOpen a 0) (fun fd _ =>
        if fd <? 0 then print 2 "crc32: cannot open %s
" [str a] fail
        else Sys (SFstat fd) (fun r st =>
          if r <? 0 then print 2 "crc32: cannot stat %s
" [str a] (do_ (SClose fd) fail)
          else if st_type_of st =? T_FILE then crcFile fd st a quit
          else if st_type_of st =? T_DIR then
            if 512 <? Z.of_nat (length a) + 1 + Z.of_nat DIRSIZ + 1 then print 1 "CRC32: path too long
" [] quit
            else crc_dir n fd a de0 quit
          else quit))
  | _ => print 1 "ERROR: crc32 does not have the correct amount of arguments
" [] fail
  end.
End Crc32Main.

(** ** forktest *)

(** [printf] of forktest.c, which does not format. *)
Definition say (fd : Z) (s : string) (k : prog) : prog := do_ (SWrite fd (codes s)) k.

Definition NFORKS : Z := 1000.

(** [for(; n > 0; n--) if(wait() < 0) ...] *)
Fixpoint forktest_wait (n : nat) (k : prog) : prog :=
  match n with
  | O => k
  | S n => Sys SWait (fun r _ => if r <? 0 then say 1 "wait stopped early
" quit else forktest_wait n k)
  end.

Definition forktest_end (n : nat) : prog :=
  if Z.of_nat n =? NFORKS then say 1 "fork claimed to work N times!
" quit
  else forktest_wait n
    (Sys SWait (fun r _ => if negb (r =? -1) then say 1 "wait got too many
" quit else say 1 "fork test OK
" quit)).

(** The loop of forks, [todo] of them to go and [n] done. *)
Fixpoint forktest_fork (todo n : nat) : prog :=
  match todo with
  | O => forktest_end n
  | S todo =>
      Sys SFork (fun pid _ =>
        if pid <? 0 then forktest_end n else if pid =? 0 then quit else forktest_fork todo (S n))
  end.

Definition forktest : prog := say 1 "fork test
" (forktest_fork (Z.to_nat NFORKS) 0).

(** ** stressfs *)

(** [for(i = 0; i < 4; i++) if(fork() > 0) break;]: [i] after the loop. *)
Fixpoint stress_fork (todo : nat) (i : Z) (k : Z -> prog) : prog :=
  match todo with
  | O => k i
  | S todo => Sys SFork (fun pid _ => if 0 <? pid then k i else stress_fork todo (i + 1) k)
  end.

Definition times (n : nat) (c : ucall) (k : prog) : prog := Nat.iter n (do_ c) k.

Definition stressfs : prog :=
  print 1 "stressfs starting
" [] (stress_fork 4 0 (fun i =>
    print 1 "write %d
" [AInt i] (
    let path := codes "stressfs" ++ [ch "0" + i] in
    Sys (SOpen path (Z.lor O_CREATE O_RDWR)) (fun fd _ =>
    times 20 (SWrite fd (replicate 512 (ch "a"))) (do_ (SClose fd) (
    print 1 "read
" [] (
    Sys (SOpen path O_RDONLY) (fun fd _ =>
    times 20 (SRead fd 512) (do_ (SClose fd) (do_ SWait quit)))))))))).

(** ** What grep prints *)

(** The files that can be opened, by their names, and what is left to read at each open
    descriptor. *)
Record world := World { w_files : list Z -> option (list Z); w_open : gmap Z (list Z) }.

(** The lowest free descriptor. *)
Definition free_fd (m : gmap Z (list Z)) : option Z := find (fun fd => bool_decide (m !! fd = None)) (seqZ 0 16).

(** What a program writes to descriptor 1. A read takes what is left at its descriptor, as
    much as it asks for; other calls answer 0. *)
Fixpoint output (p : prog) (w : world) : list Z :=
  match p with
  | Sys (SOpen name _) k =>
      match w_files w name, free_fd (w_open w) with
      | Some c, Some fd => output (k fd []) (World (w_files w) (<[fd := c]> (w_open w)))
      | _, _ => output (k (-1) []) w
      end
  | Sys (SClose fd) k => output (k 0 []) (World (w_files w) (delete fd (w_open w)))
  | Sys (SRead fd n) k =>
      match w_open w !! fd with
      | None => output (k (-1) []) w
      | Some c =>
          let got := take (Z.to_nat n) c in
          output (k (Z.of_nat (length got)) got) (World (w_files w) (<[fd := drop (Z.to_nat n) c]> (w_open w)))
      end
  | Sys (SWrite fd b) k => (if fd =? 1 then b else []) ++ output (k (Z.of_nat (length b)) []) w
  | Sys (SPrintf fd text) k => (if fd =? 1 then text else []) ++ output (k 0 []) w
  | Sys _ k => output (k 0 []) w
  | _ => []
  end.

Lemma grep_scan_lines pattern fuel : forall p,
  Grep.grep_lines pattern fuel p = (concat (grep_scan pattern fuel p).1, (grep_scan pattern fuel p).2).
Proof.
  induction fuel as [|fuel IH]; intros p; [reflexivity|]. cbn [Grep.grep_lines grep_scan].
  destruct (Grep.split_line p) as [[line rest]|]; [|reflexivity]. rewrite IH.
  destruct (grep_scan pattern fuel rest) as [out q]. cbn [fst snd].
  rewrite concat_app. by destruct (Grep.match_ pattern line); cbn; rewrite ?app_nil_r.
Qed.

Lemma grep_scan_shorter pattern fuel : forall q, (length (grep_scan pattern fuel q).2 <= length q)%nat.
Proof.
  induction fuel as [|fuel IH]; intros q; [simpl; lia|]. cbn [grep_scan].
  destruct (Grep.split_line q) as [[line rest]|] eqn:E; [|simpl; lia].
  assert (length rest <= length q)%nat.
  { clear -E. revert line rest E. induction q as [|x q IHq]; intros line rest; simpl; [done|].
    destruct (x =? 10); [intros [= <- <-]; lia|]. destruct (x =? 0); [done|].
    destruct (Grep.split_line q) as [[l' r']|]; [|done]. intros [= <- <-]. specialize (IHq _ _ eq_refl). lia. }
  specialize (IH rest). destruct (grep_scan pattern fuel rest). simpl in *. lia.
Qed.

Lemma output_write_each lines k w : output (write_each lines k) w = concat lines ++ output k w.
Proof.
  induction lines as [|l lines IH]; [reflexivity|]. cbn. unfold write_each in IH. rewrite IH. by rewrite app_assoc.
Qed.

(** The loop reads the descriptor to its end and goes on. *)
Lemma grep_loop_output pattern fd k : forall n buf input w,
  w_open w !! fd = Some input -> (length input < n)%nat -> (length buf <= 1023)%nat -> exists rest,
  output (grep_loop n pattern fd buf k) w =
  Grep.grep pattern buf input (replicate n 1023%nat) ++ output k (World (w_files w) (<[fd := rest]> (w_open w))).
Proof.
  induction n as [|n IH]; intros buf input w Hfd Hn Hb; [lia|].
  cbn [grep_loop output]. rewrite Hfd. cbn [replicate Grep.grep].
  replace (Z.to_nat (1024 - Z.of_nat (length buf) - 1)) with (1024 - length buf - 1)%nat by lia.
  replace (Nat.min 1023 (1024 - length buf - 1)) with (1024 - length buf - 1)%nat by lia.
  set (j := (1024 - length buf - 1)%nat).
  destruct (take j input) as [|c chunk] eqn:Ec; [by exists (drop j input)|].
  rewrite (proj2 (Z.ltb_lt 0 _)) by (simpl length; lia).
  rewrite Nat2Z.id, (take_ge (c :: chunk)) by lia. rewrite grep_scan_lines.
  pose proof (grep_scan_shorter pattern (length (buf ++ c :: chunk)) (buf ++ c :: chunk)) as Hp.
  destruct (grep_scan _ _ _) as [lines p]. cbn [fst snd] in *. rewrite output_write_each.
  assert (Hl : (length (buf ++ c :: chunk) <= 1023)%nat) by (rewrite <- Ec, length_app, length_take; lia).
  assert (Hj : (0 < j)%nat) by (destruct j; [by rewrite take_0 in Ec|lia]).
  destruct (IH (if (length p =? length (buf ++ c :: chunk))%nat then [] else p) (drop j input)
    (World (w_files w) (<[fd := drop j input]> (w_open w)))) as (rest & ->).
  - cbn. apply lookup_insert_eq.
  - rewrite length_drop. destruct input; [by rewrite take_nil in Ec|cbn in *; lia].
  - destruct (_ =? _)%nat; [simpl; lia|lia].
  - exists rest. cbn [w_files w_open]. by rewrite insert_insert_eq, app_assoc.
Qed.

(** The text the program can cope with: every line ends in a newline and is shorter than 1023
    characters, and there is no NUL. *)
Definition text_ok (c : list Z) : Prop := Grep.short_lines 1023 0 c /\ 0 ∉ c.

Lemma grep_fd_output pattern fd k n input w :
  w_open w !! fd = Some input -> (length input < n)%nat -> text_ok input -> exists rest,
  output (grep_fd n pattern fd k) w =
  Grep.matching pattern [] input ++ output k (World (w_files w) (<[fd := rest]> (w_open w))).
Proof.
  intros Hfd Hn [Hs H0]. destruct (grep_loop_output pattern fd k n [] input w Hfd Hn ltac:(simpl; lia)) as (rest & Hr).
  exists rest. unfold grep_fd. rewrite Hr. f_equal.
  apply (Grep.grep_gen pattern [] input); [|by rewrite length_replicate|apply not_elem_of_nil|done|done].
  apply Forall_replicate. lia.
Qed.

(** What grep prints for the files named: their matching lines, up to one that cannot be opened. *)
Fixpoint grep_prints (pattern : list Z) (files : list Z -> option (list Z)) (names : list (list Z)) : list Z :=
  match names with
  | [] => []
  | a :: names =>
      match files a with
      | Some c => Grep.matching pattern [] c ++ grep_prints pattern files names
      | None => codes "grep: cannot open " ++ a ++ [10]
      end
  end.

Lemma free_fd_spec m fd : free_fd m = Some fd -> m !! fd = None /\ 0 <= fd.
Proof.
  intros H. apply find_some in H as [Hin Hf]. split; [by apply bool_decide_eq_true in Hf|].
  apply list_elem_of_In, elem_of_seqZ in Hin. lia.
Qed.

Lemma open_message a k : print 1 "grep: cannot open %s
" [str a] k = do_ (SPrintf 1 (codes "grep: cannot open " ++ a ++ [10])) k.
Proof. reflexivity. Qed.

Lemma grep_files_output pattern n files names : forall m fd,
  free_fd m = Some fd -> (forall a c, a ∈ names -> files a = Some c -> text_ok c /\ (length c < n)%nat) ->
  output (grep_files n pattern names) (World files m) = grep_prints pattern files names.
Proof.
  intros m fd Hm. pose proof (free_fd_spec m fd Hm) as [Hfree Hpos].
  induction names as [|a names IH]; intros Hok; [reflexivity|]. cbn [grep_files output grep_prints w_files w_open].
  rewrite Hm. destruct (files a) as [c|] eqn:Ea.
  - rewrite (proj2 (Z.ltb_ge fd 0)) by done. destruct (Hok a c ltac:(by left) Ea) as [Hc Hl].
    destruct (grep_fd_output pattern fd (do_ (SClose fd) (grep_files n pattern names)) n c (World files (<[fd := c]> m))
      ltac:(apply lookup_insert_eq) Hl Hc) as (rest & ->). f_equal.
    cbn [do_ output w_files w_open]. rewrite !delete_insert_eq, delete_id by done.
    apply IH. intros b d Hb. apply Hok. by right.
  - change (-1 <? 0) with true. cbv iota. rewrite open_message. cbn. by rewrite app_nil_r.
Qed.

(** C40: the grep program writes exactly the lines that match, in order, wherever its 1024-byte
    buffer cuts the text: those of standard input when it is given a pattern only, and those
    of each file it is given, read from its own descriptor, until one cannot be opened, which it
    says. This is for texts whose lines are shorter than 1023 characters, all end in a newline and
    hold no NUL ([text_ok]), when a read gives all it asks for as long as there is more. *)
Theorem grep_prints_matches (n : nat) (pattern stdin : list Z) (names : list (list Z)) (w : world) (fd : Z)
    (Hfree : free_fd (w_open w) = Some fd)
    (Hin : w_open w !! 0 = Some stdin) (Hstdin : text_ok stdin /\ (length stdin < n)%nat)
    (Hfiles : forall a c, a ∈ names -> w_files w a = Some c -> text_ok c /\ (length c < n)%nat) :
  output (grep_main n (pattern :: names)) w =
  match names with
  | [] => Grep.matching pattern [] stdin
  | _ => grep_prints pattern (w_files w) names
  end.
Proof.
  destruct names as [|a names]; cbn [grep_main].
  - destruct Hstdin as [Hc Hl]. destruct (grep_fd_output pattern 0 quit n stdin w Hin Hl Hc) as (rest & ->). apply app_nil_r.
  - destruct w as [files m]. by apply (grep_files_output pattern n files (a :: names) m fd).
Qed.

Lemma two_lines_matches : Grep.matching (codes "w.*d$") [] Grep.two_lines = codes "world
".
Proof. vm_compute. reflexivity. Qed.

(** Standard input, a file that is there and one that is not. *)
Definition shelf : world :=
  World (fun a => if bool_decide (a = codes "two") then Some Grep.two_lines else None)
    {[0 := Grep.two_lines; 1 := []; 2 := []]}.

Lemma two_lines_ok : text_ok Grep.two_lines /\ (length Grep.two_lines < 20)%nat.
Proof. split; [split; [vm_compute; lia|apply (bool_decide_unpack _); by vm_compute]|vm_compute; lia]. Qed.

Lemma grep_prints_matches_witness :
  output (grep_main 20 [codes "w.*d$"]) shelf = codes "world
" /\
  output (grep_main 20 [codes "w.*d$"; codes "two"; codes "three"]) shelf = codes "world
grep: cannot open three
".
Proof.
  assert (Hf : free_fd (w_open shelf) = Some 3) by (by vm_compute).
  assert (H0 : w_open shelf !! 0 = Some Grep.two_lines) by (by vm_compute).
  assert (Ha : forall (names : list (list Z)) a c, a ∈ names -> w_files shelf a = Some c -> text_ok c /\ (length c < 20)%nat).
  { intros names a c _ H. cbn in H. case_bool_decide; [injection H as <-; exact two_lines_ok|done]. }
  split.
  - rewrite (grep_prints_matches 20 (codes "w.*d$") Grep.two_lines [] shelf 3 Hf H0 two_lines_ok (Ha [])). vm_compute. reflexivity.
  - rewrite (grep_prints_matches 20 (codes "w.*d$") Grep.two_lines [codes "two"; codes "three"] shelf 3 Hf H0 two_lines_ok (Ha _)). vm_compute. reflexivity.
Defined.

(** ** What crc32 prints *)

(** A [struct stat] as [fstat] stores it. *)
Definition stat_bytes (type ino size : Z) : list Z :=
  le_bytes 2 type ++ [0; 0] ++ le_bytes 4 0 ++ le_bytes 4 ino ++ le_bytes 2 0 ++ [0; 0] ++ le_bytes 4 size.

(** For a file that [read] delivers whole, crc32 prints the CRC-32 of its contents in
    hexadecimal, whatever the block from [malloc] held before, and exits. *)
Theorem crc_file_prints heap above de0 n a fd st text
    (Hfd : 0 <= fd) (Ht : st_type_of st = T_FILE) (Hs : st_size_of st = Z.of_nat (length text))
    (Hh : length (heap (length text)) = length text) (Hb : Forall (field_ok 8) text) :
  trace (crc_main heap above de0 n [a]) [(fd, []); (0, st); (Z.of_nat (length text), text)] =
  [SOpen a 0; SFstat fd; SRead fd (Z.of_nat (length text))] ++
  trace (hex_line (Crc32.crc_bitwise 0 text) quit) [].
Proof.
  unfold crc_main, crcFile. cbn [trace].
  rewrite (proj2 (Z.ltb_ge fd 0) Hfd). cbn [trace Z.ltb Z.compare].
  rewrite Ht, Z.eqb_refl, Hs, Nat2Z.id. cbn [trace].
  rewrite (proj2 (Z.ltb_ge (Z.of_nat (length text)) 0)) by lia.
  rewrite Nat2Z.id, take_ge by lia. unfold over. rewrite drop_ge, app_nil_r by lia.
  by rewrite Crc32.crc32_ok.
Qed.

Lemma crc_file_prints_witness :
  trace (crc_main (fun n => replicate n 7) (fun _ _ => []) [] 1 [codes "f"])
    [(3, []); (0, stat_bytes T_FILE 5 9); (9, codes "123456789")] =
  [SOpen (codes "f") 0; SFstat 3; SRead 3 9; SPrintf 1 (codes "CBF43926
")].
Proof.
  rewrite (crc_file_prints _ _ _ 1 (codes "f") 3 (stat_bytes T_FILE 5 9) (codes "123456789")).
  - vm_compute. reflexivity.
  - lia.
  - reflexivity.
  - reflexivity.
  - reflexivity.
  - apply (bool_decide_unpack _). by vm_compute.
Defined.

(** On a directory every read asks for one byte, whatever the calls answer, because the
    comparison in the count is 1. *)
Definition one_byte (c : ucall) : Prop := match c with SRead _ n => n = 1 | _ => True end.

Lemma trace_do c k answers : Forall one_byte (trace k (tail answers)) -> one_byte c ->
  Forall one_byte (trace (do_ c k) answers).
Proof. intros H Hc. destruct answers as [|[]]; repeat constructor; auto. Qed.

Lemma trace_print fd fmt args k answers : Forall one_byte (trace k (tail answers)) ->
  Forall one_byte (trace (print fd fmt args k) answers).
Proof. intros H. unfold print. destruct (printf fmt args); [by apply trace_do|constructor]. Qed.

Lemma crc_dir_one_byte above n : forall fd path de answers,
  Forall one_byte (trace (crc_dir above n fd path de quit) answers).
Proof.
  induction n as [|n IH]; intros fd path de answers; [constructor|]. cbn [crc_dir trace]. constructor; [done|].
  destruct answers as [|[r b] answers]; [constructor|]. destruct (r =? 0); [constructor|].
  cbn [trace]. constructor; [done|]. destruct answers as [|[pid ?] answers]; [constructor|].
  destruct (pid =? 0); [|by apply trace_do]. destruct (_ =? 0); [apply IH|].
  unfold stat_call. cbn [trace]. constructor; [done|]. destruct answers as [|[f ?] answers]; [constructor|].
  destruct (f <? 0); [apply trace_print, IH|].
  cbn [trace]. constructor; [done|]. destruct answers as [|[s ?] answers]; [constructor|].
  apply trace_do; [|done]. destruct (s <? 0); apply trace_print, IH.
Qed.

(** Told to check a directory, crc32 reads it one byte at a time (the count it passes is
    a comparison): no read of an entry ever happens, whatever the system answers. *)
Theorem crc_directory_reads_bytes heap above de0 (n : nat) (a : list Z) (fd r : Z) (st : list Z)
    (answers : list (Z * list Z)) (Hd : st_type_of st = T_DIR) :
  Forall one_byte (trace (crc_main heap above de0 n [a]) ((fd, []) :: (r, st) :: answers)).
Proof.
  unfold crc_main. cbn [trace]. constructor; [done|]. destruct (fd <? 0); [apply trace_print; constructor|].
  cbn [trace]. constructor; [done|]. destruct (r <? 0); [apply trace_print, trace_do; constructor|].
  rewrite Hd. cbn. destruct (512 <? _); [apply trace_print; constructor|]. apply crc_dir_one_byte.
Qed.

Lemma crc_directory_reads_bytes_witness :
  Forall one_byte (trace (crc_main (fun n => replicate n 7) (fun _ _ => []) [] 2 [codes "d"])
    [(3, []); (0, stat_bytes T_DIR 1 32); (1, [1]); (9, []); (9, [])]).
Proof. apply crc_directory_reads_bytes. reflexivity. Defined.

(** ** What forktest reports *)

(** When the table of processes fills after [m] forks (and all can be waited for) forktest
    finds nothing wrong. *)
Lemma forktest_waits m : forall k answers,
  trace (forktest_wait m k) (replicate m (1, []) ++ answers) = replicate m SWait ++ trace k answers.
Proof. induction m as [|m IH]; intros k answers; [reflexivity|]. cbn. by rewrite IH. Qed.

Lemma forktest_forks m : forall todo n answers, (m < todo)%nat ->
  trace (forktest_fork todo n) (replicate m (1, []) ++ (-1, []) :: answers) =
  replicate (S m) SFork ++ trace (forktest_end (m + n)) answers.
Proof.
  induction m as [|m IH]; intros todo n answers H; (destruct todo as [|todo]; [lia|]); [reflexivity|].
  cbn [replicate app forktest_fork trace Z.ltb Z.eqb Z.compare]. rewrite IH by lia.
  replace (m + S n)%nat with (S m + n)%nat by lia. reflexivity.
Qed.

Theorem forktest_passes (m : nat) (Hm : (m < 1000)%nat) :
  trace forktest ((0, []) :: replicate m (1, []) ++ (-1, []) :: replicate m (1, []) ++ [(-1, []); (0, [])]) =
  SWrite 1 (codes "fork test
") :: replicate (S m) SFork ++ replicate (S m) SWait ++ [SWrite 1 (codes "fork test OK
")].
Proof.
  unfold forktest, say. cbn [trace do_]. rewrite forktest_forks by (change (Z.to_nat NFORKS) with 1000%nat; lia).
  rewrite Nat.add_0_r. unfold forktest_end.
  rewrite (proj2 (Z.eqb_neq (Z.of_nat m) NFORKS)) by (unfold NFORKS; lia).
  rewrite forktest_waits, (replicate_S_end _ SWait), <- app_assoc. reflexivity.
Qed.

Lemma forktest_passes_witness :
  trace forktest [(0, []); (1, []); (-1, []); (1, []); (-1, []); (0, [])] =
  [SWrite 1 (codes "fork test
"); SFork; SFork; SWait; SWait; SWrite 1 (codes "fork test OK
")].
Proof. apply (forktest_passes 1). lia. Defined.

(** The four writers of stressfs: the process that left the loop at its [i]th fork writes
    to a file of its own. *)
Example stressfs_second :
  take 4 (trace stressfs ((0, []) :: [(0, []); (9, [])] ++ replicate 50 (0, []))) =
  [SPrintf 1 (codes "stressfs starting
"); SFork; SFork; SPrintf 1 (codes "write 1
")] /\
  trace stressfs ((0, []) :: [(0, []); (9, [])] ++ replicate 50 (0, [])) !! 4%nat =
  Some (SOpen (codes "stressfs1") 0x202).
Proof. split; vm_compute; reflexivity. Qed.
