(* ===== verification/TestsFs.v ===== *)
(** * usertests.c: the tests of the file system

    Each test is a program with a continuation, what [main] does after it. The global [buf] is an
    argument, and goes on to the continuation when the test changes it. *)

From S2P Require Import Prelude Fcntl Kernel Layout Printf Ulib User Programs.

(** ** Checks *)

Definition nl : string := "
".

(** [printf(1, "...\n", ...)]; [stdout] is 1. *)
Definition line (s : string) (args : list arg) (k : prog) : prog := print 1 (s +:+ nl) args k.
Definition die (s : string) : prog := line s [] quit.

(** [if(call(...) bad){ printf(1, "...\n"); exit(); }] *)
Definition check (c : ucall) (bad : Z -> bool) (s : string) (k : prog) : prog :=
  Sys c (fun r _ => if bad r then die s else k).
Definition lt0 (r : Z) : bool := r <? 0.
Definition ge0 (r : Z) : bool := 0 <=? r.
Definition eq0 (r : Z) : bool := r =? 0.
Definition ne0 (r : Z) : bool := negb (r =? 0).
Definition not_ (n : Z) (r : Z) : bool := negb (r =? n).

(** [fd = open(...); if(fd < 0){ printf(1, "...\n"); exit(); }] *)
Definition open_or_die (name : string) (mode : Z) (s : string) (k : Z -> prog) : prog :=
  Sys (SOpen (codes name) mode) (fun fd _ => if fd <? 0 then die s else k fd).

(** [char buf[8192]] *)
Definition bufsize : Z := 8192.
Definition buf0 : list Z := replicate (Z.to_nat bufsize) 0.

(** [memset(buf, c, n)], and the bytes of [buf] after a read. *)
Definition memset_buf (c : Z) (n : nat) (buf : list Z) : list Z := over (replicate n c) buf.
Definition got (r : Z) (bytes buf : list Z) : list Z := over (take (Z.to_nat r) bytes) buf.
Definition CREATE : Z := O_CREATE .| O_RDWR.

(** A name of two characters, the second a digit or what comes after the digits. *)
Definition name2 (c i : Z) : list Z := [c; ch "0" + i].

(** ** Small tests *)

Definition iputtest (k : prog) : prog :=
  line "iput test" [] (
  check (SMkdir (codes "iputdir")) lt0 "mkdir failed" (
  check (SChdir (codes "iputdir")) lt0 "chdir iputdir failed" (
  check (SUnlink (codes "../iputdir")) lt0 "unlink ../iputdir failed" (
  check (SChdir (codes "/")) lt0 "chdir / failed" (
  line "iput test ok" [] k))))).

Definition exitiputtest (k : prog) : prog :=
  line "exitiput test" [] (
  Sys SFork (fun pid _ =>
  if pid <? 0 then die "fork failed"
  else if pid =? 0 then
    check (SMkdir (codes "iputdir")) lt0 "mkdir failed" (
    check (SChdir (codes "iputdir")) lt0 "child chdir failed" (
    check (SUnlink (codes "../iputdir")) lt0 "unlink ../iputdir failed" quit))
  else do_ SWait (
  line "exitiput test ok" [] k))).

Definition openiputtest (k : prog) : prog :=
  line "openiput test" [] (
  check (SMkdir (codes "oidir")) lt0 "mkdir oidir failed" (
  Sys SFork (fun pid _ =>
  if pid <? 0 then die "fork failed"
  else if pid =? 0 then
    Sys (SOpen (codes "oidir") O_RDWR) (fun fd _ =>
      if 0 <=? fd then die "open directory for write succeeded" else quit)
  else do_ (SSleep 1) (
  check (SUnlink (codes "oidir")) ne0 "unlink failed" (
  do_ SWait (
  line "openiput test ok" [] k)))))).

Definition opentest (k : prog) : prog :=
  line "open test" [] (
  open_or_die "echo" 0 "open echo failed!" (fun fd =>
  do_ (SClose fd) (
  check (SOpen (codes "doesnotexist") 0) ge0 "open doesnotexist succeeded!" (
  line "open test ok" [] k)))).

(** [for(i = 0; i < 100; i++)], [n] rounds to go. *)
Fixpoint write_pairs (n : nat) (i fd : Z) (k : prog) : prog :=
  match n with
  | O => k
  | S n =>
      Sys (SWrite fd (replicate 10 (ch "a"))) (fun r _ =>
      if negb (r =? 10) then line "error: write aa %d new file failed" [AInt i] quit else
      Sys (SWrite fd (replicate 10 (ch "b"))) (fun r _ =>
      if negb (r =? 10) then line "error: write bb %d new file failed" [AInt i] quit else
      write_pairs n (i + 1) fd k))
  end.

Definition writetest (buf : list Z) (k : list Z -> prog) : prog :=
  line "small file test" [] (
  Sys (SOpen (codes "small") CREATE) (fun fd _ =>
  if negb (0 <=? fd) then die "error: creat small failed!" else
  line "creat small succeeded; ok" [] (
  write_pairs 100 0 fd (
  line "writes ok" [] (
  do_ (SClose fd) (
  Sys (SOpen (codes "small") O_RDONLY) (fun fd _ =>
  if negb (0 <=? fd) then die "error: open small failed!" else
  line "open small succeeded ok" [] (
  Sys (SRead fd 2000) (fun i bytes =>
  let buf := got i bytes buf in
  if negb (i =? 2000) then die "read failed" else
  line "read succeeded ok" [] (
  do_ (SClose fd) (
  check (SUnlink (codes "small")) lt0 "unlink small failed" (
  line "small file test ok" [] (k buf))))))))))))).

(** [for(i = 0; i < MAXFILE; i++)]: the number of the block is its first word. *)
Fixpoint write_blocks (n : nat) (i fd : Z) (buf : list Z) (k : list Z -> prog) : prog :=
  match n with
  | O => k buf
  | S n =>
      let buf := wr 4 buf 0 i in
      Sys (SWrite fd (take 512 buf)) (fun r _ =>
      if negb (r =? 512) then line "error: write big file failed" [AInt i] quit else write_blocks n (i + 1) fd buf k)
  end.

(** [for(;;)] *)
Fixpoint read_blocks (fl : nat) (n fd : Z) (buf : list Z) (k : list Z -> prog) : prog :=
  match fl with
  | O => OutOfFuel
  | S fl =>
      Sys (SRead fd 512) (fun i bytes =>
      let buf := got i bytes buf in
      if i =? 0 then
        if n =? MAXFILE - 1 then print 1 "read only %d blocks from big" [AInt n] quit else k buf
      else if negb (i =? 512) then line "read failed %d" [AInt i] quit
      else if negb (s32 (rd 4 buf 0) =? n) then
        line "read content of block %d is %d" [AInt n; AInt (s32 (rd 4 buf 0))] quit
      else read_blocks fl (n + 1) fd buf k)
  end.

Definition writetest1 (fl : nat) (buf : list Z) (k : list Z -> prog) : prog :=
  line "big files test" [] (
  open_or_die "big" CREATE "error: creat big failed!" (fun fd =>
  write_blocks (Z.to_nat MAXFILE) 0 fd buf (fun buf =>
  do_ (SClose fd) (
  open_or_die "big" O_RDONLY "error: open big failed!" (fun fd =>
  read_blocks fl 0 fd buf (fun buf =>
  do_ (SClose fd) (
  check (SUnlink (codes "big")) lt0 "unlink big failed" (
  line "big files ok" [] (k buf))))))))).

(** The names of createtest: [a0], [a1] and so on. *)
Fixpoint create_names (n : nat) (i : Z) (k : prog) : prog :=
  match n with
  | O => k
  | S n => Sys (SOpen (name2 (ch "a") i) CREATE) (fun fd _ => do_ (SClose fd) (create_names n (i + 1) k))
  end.

Fixpoint unlink_names (n : nat) (i : Z) (k : prog) : prog :=
  match n with
  | O => k
  | S n => do_ (SUnlink (name2 (ch "a") i)) (unlink_names n (i + 1) k)
  end.

Definition createtest (k : prog) : prog :=
  line "many creates, followed by unlink test" [] (
  create_names 52 0 (unlink_names 52 0 (
  line "many creates, followed by unlink; ok" [] k))).

Definition dirtest (k : prog) : prog :=
  line "mkdir test" [] (
  check (SMkdir (codes "dir0")) lt0 "mkdir failed" (
  check (SChdir (codes "dir0")) lt0 "chdir dir0 failed" (
  check (SChdir (codes "..")) lt0 "chdir .. failed" (
  check (SUnlink (codes "dir0")) lt0 "unlink dir0 failed" (
  line "mkdir test ok" [] k))))).

(** ** Several processes *)

Fixpoint wait_times (n : nat) (k : prog) : prog :=
  match n with O => k | S n => do_ SWait (wait_times n k) end.

(** The loop of writes in sharedfd, which a failure ends. *)
Fixpoint share_writes (n : nat) (fd : Z) (buf : list Z) (k : prog) : prog :=
  match n with
  | O => k
  | S n => Sys (SWrite fd buf) (fun r _ =>
      if negb (r =? 10) then line "fstests: write sharedfd failed" [] k else share_writes n fd buf k)
  end.

Definition count_of (c : Z) (buf : list Z) : Z := Z.of_nat (length (filter (fun x => x = c) buf)).

(** [while((n = read(...)) > 0)]: all ten bytes of [buf] are counted each time. *)
Fixpoint share_reads (fl : nat) (fd nc np : Z) (buf : list Z) (k : Z -> Z -> prog) : prog :=
  match fl with
  | O => OutOfFuel
  | S fl => Sys (SRead fd 10) (fun n bytes =>
      let buf := got n bytes buf in
      if 0 <? n then share_reads fl fd (nc + count_of (ch "c") buf) (np + count_of (ch "p") buf) buf k else k nc np)
  end.

Definition sharedfd (fl : nat) (k : prog) : prog :=
  line "sharedfd test" [] (
  do_ (SUnlink (codes "sharedfd")) (
  Sys (SOpen (codes "sharedfd") CREATE) (fun fd _ =>
  if fd <? 0 then print 1 "fstests: cannot open sharedfd for writing" [] k else
  Sys SFork (fun pid _ =>
  let buf := replicate 10 (if pid =? 0 then ch "c" else ch "p") in
  share_writes (Z.to_nat 1000) fd buf (
  if pid =? 0 then quit else
  do_ SWait (
  do_ (SClose fd) (
  Sys (SOpen (codes "sharedfd") 0) (fun fd _ =>
  if fd <? 0 then line "fstests: cannot open sharedfd for reading" [] k else
  share_reads fl fd 0 0 buf (fun nc np =>
  do_ (SClose fd) (
  do_ (SUnlink (codes "sharedfd")) (
  if (nc =? 10000) && (np =? 10000) then line "sharedfd ok" [] k
  else line "sharedfd oops %d %d" [AInt nc; AInt np] quit))))))))))).

(** [names] of fourfiles. *)
Definition fname (i : Z) : list Z := name2 (ch "f") i.

Fixpoint four_writes (n : nat) (fd : Z) (buf : list Z) : prog :=
  match n with
  | O => quit
  | S n => Sys (SWrite fd (take 500 buf)) (fun r _ =>
      if negb (r =? 500) then line "write failed %d" [AInt r] quit else four_writes n fd buf)
  end.

Definition four_child (pi : Z) (buf : list Z) : prog :=
  Sys (SOpen (fname pi) CREATE) (fun fd _ =>
  if fd <? 0 then die "create failed" else four_writes 12 fd (memset_buf (ch "0" + pi) 512 buf)).

Fixpoint four_forks (n : nat) (pi : Z) (buf : list Z) (k : prog) : prog :=
  match n with
  | O => k
  | S n =>
      do_ (SUnlink (fname pi)) (
      Sys SFork (fun pid _ =>
      if pid <? 0 then die "fork failed" else if pid =? 0 then four_child pi buf else four_forks n (pi + 1) buf k))
  end.

Fixpoint four_read (fl : nat) (i fd total : Z) (buf : list Z) (k : Z -> list Z -> prog) : prog :=
  match fl with
  | O => OutOfFuel
  | S fl => Sys (SRead fd bufsize) (fun n bytes =>
      let buf := got n bytes buf in
      if 0 <? n then
        if forallb (fun c => c =? ch "0" + i) (take (Z.to_nat n) buf) then four_read fl i fd (total + n) buf k
        else die "wrong char"
      else k total buf)
  end.

(** [for(i = 0; i < 2; i++)] *)
Fixpoint four_checks (fl n : nat) (i : Z) (buf : list Z) (k : list Z -> prog) : prog :=
  match n with
  | O => k buf
  | S n =>
      Sys (SOpen (fname i) 0) (fun fd _ =>
      four_read fl i fd 0 buf (fun total buf =>
      do_ (SClose fd) (
      if negb (total =? 12 * 500) then line "wrong length %d" [AInt total] quit else
      do_ (SUnlink (fname i)) (four_checks fl n (i + 1) buf k))))
  end.

Definition fourfiles (fl : nat) (buf : list Z) (k : list Z -> prog) : prog :=
  line "fourfiles test" [] (
  four_forks 4 0 buf (
  wait_times 4 (
  four_checks fl 2 0 buf (fun buf =>
  line "fourfiles ok" [] (k buf))))).

(** createdelete: the loop of a child, [for(i = 0; i < N; i++)]. *)
Fixpoint cd_child (n : nat) (i c : Z) : prog :=
  match n with
  | O => quit
  | S n =>
      Sys (SOpen (name2 c i) CREATE) (fun fd _ =>
      if fd <? 0 then die "create failed" else
      do_ (SClose fd) (
      if (0 <? i) && (i mod 2 =? 0) then
        check (SUnlink (name2 c (i / 2))) lt0 "unlink failed" (cd_child n (i + 1) c)
      else cd_child n (i + 1) c))
  end.

Fixpoint cd_forks (n : nat) (pi : Z) (k : prog) : prog :=
  match n with
  | O => k
  | S n =>
      Sys SFork (fun pid _ =>
      if pid <? 0 then die "fork failed"
      else if pid =? 0 then cd_child 20 0 (ch "p" + pi) else cd_forks n (pi + 1) k)
  end.

(** The pairs of [for(i = 0; i < N; i++) for(pi = 0; pi < 4; pi++)]. *)
Definition cd_pairs : list (Z * Z) := i ← seqZ 0 20; pi ← seqZ 0 4; [(i, pi)].

Fixpoint cd_check (l : list (Z * Z)) (k : prog) : prog :=
  match l with
  | [] => k
  | (i, pi) :: l =>
      let name := name2 (ch "p" + pi) i in
      Sys (SOpen name 0) (fun fd _ =>
      if ((i =? 0) || (20 / 2 <=? i)) && (fd <? 0) then line "oops createdelete %s didn't exist" [str name] quit
      else if (1 <=? i) && (i <? 20 / 2) && (0 <=? fd) then line "oops createdelete %s did exist" [str name] quit
      else if 0 <=? fd then do_ (SClose fd) (cd_check l k) else cd_check l k)
  end.

(** The first character is ['p' + i] and not ['p' + pi]. *)
Fixpoint cd_unlink (l : list (Z * Z)) (k : prog) : prog :=
  match l with
  | [] => k
  | (i, _) :: l => do_ (SUnlink (name2 (ch "p" + i) i)) (cd_unlink l k)
  end.

Definition createdelete (k : prog) : prog :=
  line "createdelete test" [] (
  cd_forks 4 0 (
  wait_times 4 (
  cd_check cd_pairs (
  cd_unlink cd_pairs (
  line "createdelete ok" [] k))))).

Definition unlinkread (buf : list Z) (k : list Z -> prog) : prog :=
  line "unlinkread test" [] (
  open_or_die "unlinkread" CREATE "create unlinkread failed" (fun fd =>
  do_ (SWrite fd (codes "hello")) (
  do_ (SClose fd) (
  open_or_die "unlinkread" O_RDWR "open unlinkread failed" (fun fd =>
  check (SUnlink (codes "unlinkread")) ne0 "unlink unlinkread failed" (
  Sys (SOpen (codes "unlinkread") CREATE) (fun fd1 _ =>
  do_ (SWrite fd1 (codes "yyy")) (
  do_ (SClose fd1) (
  Sys (SRead fd bufsize) (fun r bytes =>
  let buf := got r bytes buf in
  if negb (r =? 5) then print 1 "unlinkread read failed" [] quit else
  if negb (buf !!! 0%nat =? ch "h") then die "unlinkread wrong data" else
  check (SWrite fd (take 10 buf)) (not_ 10) "unlinkread write failed" (
  do_ (SClose fd) (
  do_ (SUnlink (codes "unlinkread")) (
  line "unlinkread ok" [] (k buf)))))))))))))).

Definition linktest (buf : list Z) (k : list Z -> prog) : prog :=
  line "linktest" [] (
  do_ (SUnlink (codes "lf1")) (
  do_ (SUnlink (codes "lf2")) (
  open_or_die "lf1" CREATE "create lf1 failed" (fun fd =>
  check (SWrite fd (codes "hello")) (not_ 5) "write lf1 failed" (
  do_ (SClose fd) (
  check (SLink (codes "lf1") (codes "lf2")) lt0 "link lf1 lf2 failed" (
  do_ (SUnlink (codes "lf1")) (
  check (SOpen (codes "lf1") 0) ge0 "unlinked lf1 but it is still there!" (
  open_or_die "lf2" 0 "open lf2 failed" (fun fd =>
  Sys (SRead fd bufsize) (fun r bytes =>
  let buf := got r bytes buf in
  if negb (r =? 5) then die "read lf2 failed" else
  do_ (SClose fd) (
  check (SLink (codes "lf2") (codes "lf2")) ge0 "link lf2 lf2 succeeded! oops" (
  do_ (SUnlink (codes "lf2")) (
  check (SLink (codes "lf2") (codes "lf1")) ge0 "link non-existant succeeded! oops" (
  check (SLink (codes ".") (codes "lf1")) ge0 "link . lf1 succeeded! oops" (
  line "linktest ok" [] (k buf))))))))))))))))).

(** concreate: [for(i = 0; i < 40; i++)]. *)
Fixpoint con_create (n : nat) (i : Z) (k : prog) : prog :=
  match n with
  | O => k
  | S n =>
      let file := name2 (ch "C") i in
      do_ (SUnlink file) (
      Sys SFork (fun pid _ =>
      let next := if pid =? 0 then quit else do_ SWait (con_create n (i + 1) k) in
      if negb (pid =? 0) && (i mod 3 =? 1) then do_ (SLink (codes "C0") file) next
      else if (pid =? 0) && (i mod 5 =? 1) then do_ (SLink (codes "C0") file) next
      else Sys (SOpen file CREATE) (fun fd _ =>
        if fd <? 0 then line "concreate create %s failed" [str file] quit else do_ (SClose fd) next)))
  end.

(** The entries of the directory: [fa] marks the files seen. *)
Fixpoint con_read (fl : nat) (fd n : Z) (fa : list Z) (de : list Z) (k : Z -> prog) : prog :=
  match fl with
  | O => OutOfFuel
  | S fl => Sys (SRead fd 16) (fun r bytes =>
      let de := got r bytes de in
      let name := slice 2 DIRSIZ de in
      if negb (0 <? r) then k n
      else if le_val (slice 0 2 de) =? 0 then con_read fl fd n fa de k
      else if (name !!! 0%nat =? ch "C") && (name !!! 2%nat =? 0) then
        let i := s8 (name !!! 1%nat) - ch "0" in
        if (i <? 0) || (40 <=? i) then line "concreate weird file %s" [str (Ulib.cstr name)] quit
        else if negb (fa !!! Z.to_nat i =? 0) then line "concreate duplicate file %s" [str (Ulib.cstr name)] quit
        else con_read fl fd (n + 1) (<[Z.to_nat i := 1]> fa) de k
      else con_read fl fd n fa de k)
  end.

(** [close(open(file, 0));] and [unlink(file);], four times. *)
Definition open_close (file : list Z) (k : prog) : prog := Sys (SOpen file 0) (fun fd _ => do_ (SClose fd) k).

Fixpoint con_unlink (n : nat) (i : Z) (k : prog) : prog :=
  match n with
  | O => k
  | S n =>
      let file := name2 (ch "C") i in
      Sys SFork (fun pid _ =>
      if pid <? 0 then die "fork failed" else
      let next := if pid =? 0 then quit else do_ SWait (con_unlink n (i + 1) k) in
      if (i mod 3 =? 0) && (pid =? 0) || (i mod 3 =? 1) && negb (pid =? 0) then
        Nat.iter 4 (open_close file) next
      else times 4 (SUnlink file) next)
  end.

(** [de] holds what the stack held until the first read. *)
Definition concreate (fl : nat) (de : list Z) (k : prog) : prog :=
  line "concreate test" [] (
  con_create 40 0 (
  Sys (SOpen (codes ".") 0) (fun fd _ =>
  con_read fl fd 0 (replicate 40 0) de (fun n =>
  do_ (SClose fd) (
  if negb (n =? 40) then die "concreate not enough files in directory listing" else
  con_unlink 40 0 (
  line "concreate ok" [] k)))))).

Fixpoint lu_loop (n : nat) (x : Z) (k : prog) : prog :=
  match n with
  | O => k
  | S n =>
      let x := u32 (u32 (x * 1103515245) + 12345) in
      if x mod 3 =? 0 then Sys (SOpen (codes "x") CREATE) (fun fd _ => do_ (SClose fd) (lu_loop n x k))
      else if x mod 3 =? 1 then do_ (SLink (codes "cat") (codes "x")) (lu_loop n x k)
      else do_ (SUnlink (codes "x")) (lu_loop n x k)
  end.

Definition linkunlink (k : prog) : prog :=
  line "linkunlink test" [] (
  do_ (SUnlink (codes "x")) (
  Sys SFork (fun pid _ =>
  if pid <? 0 then die "fork failed" else
  lu_loop 100 (if pid =? 0 then 97 else 1) (
  if pid =? 0 then quit else do_ SWait (
  line "linkunlink ok" [] k))))).

(** ** Directories *)

Definition big_name (i : Z) : list Z := [ch "x"; ch "0" + i / 64; ch "0" + i mod 64].

Fixpoint bigdir_links (n : nat) (i : Z) (k : prog) : prog :=
  match n with
  | O => k
  | S n => check (SLink (codes "bd") (big_name i)) ne0 "bigdir link failed" (bigdir_links n (i + 1) k)
  end.

Fixpoint bigdir_unlinks (n : nat) (i : Z) (k : prog) : prog :=
  match n with
  | O => k
  | S n => Sys (SUnlink (big_name i)) (fun r _ =>
      if negb (r =? 0) then print 1 "bigdir unlink failed" [] quit else bigdir_unlinks n (i + 1) k)
  end.

Definition bigdir (k : prog) : prog :=
  line "bigdir test" [] (
  do_ (SUnlink (codes "bd")) (
  open_or_die "bd" O_CREATE "bigdir create failed" (fun fd =>
  do_ (SClose fd) (
  bigdir_links 500 0 (
  do_ (SUnlink (codes "bd")) (
  bigdir_unlinks 500 0 (
  line "bigdir ok" [] k))))))).

(** A call that must fail, or must give 0. *)
Definition must_open_fail (name : string) (mode : Z) (s : string) : prog -> prog := check (SOpen (codes name) mode) ge0 s.
Definition zero (c : ucall) (s : string) : prog -> prog := check c ne0 s.
Definition nonzero (c : ucall) (s : string) : prog -> prog := check c eq0 s.

(** What cannot be done below [dd]. *)
Definition subdir_errors (k : prog) : prog :=
  must_open_fail "dd/dd/ff" O_RDONLY "open (unlinked) dd/dd/ff succeeded!" (
  must_open_fail "dd/ff/ff" CREATE "create dd/ff/ff succeeded!" (
  must_open_fail "dd/xx/ff" CREATE "create dd/xx/ff succeeded!" (
  must_open_fail "dd" O_CREATE "create dd succeeded!" (
  must_open_fail "dd" O_RDWR "open dd rdwr succeeded!" (
  must_open_fail "dd" O_WRONLY "open dd wronly succeeded!" (
  nonzero (SLink (codes "dd/ff/ff") (codes "dd/dd/xx")) "link dd/ff/ff dd/dd/xx succeeded!" (
  nonzero (SLink (codes "dd/xx/ff") (codes "dd/dd/xx")) "link dd/xx/ff dd/dd/xx succeeded!" (
  nonzero (SLink (codes "dd/ff") (codes "dd/dd/ffff")) "link dd/ff dd/dd/ffff succeeded!" (
  nonzero (SMkdir (codes "dd/ff/ff")) "mkdir dd/ff/ff succeeded!" (
  nonzero (SMkdir (codes "dd/xx/ff")) "mkdir dd/xx/ff succeeded!" (
  nonzero (SMkdir (codes "dd/dd/ffff")) "mkdir dd/dd/ffff succeeded!" (
  nonzero (SUnlink (codes "dd/xx/ff")) "unlink dd/xx/ff succeeded!" (
  nonzero (SUnlink (codes "dd/ff/ff")) "unlink dd/ff/ff succeeded!" (
  nonzero (SChdir (codes "dd/ff")) "chdir dd/ff succeeded!" (
  nonzero (SChdir (codes "dd/xx")) "chdir dd/xx succeeded!" k))))))))))))))).

Definition subdir_cleanup (k : prog) : prog :=
  zero (SUnlink (codes "dd/dd/ffff")) "unlink dd/dd/ff failed" (
  zero (SUnlink (codes "dd/ff")) "unlink dd/ff failed" (
  nonzero (SUnlink (codes "dd")) "unlink non-empty dd succeeded!" (
  check (SUnlink (codes "dd/dd")) lt0 "unlink dd/dd failed" (
  check (SUnlink (codes "dd")) lt0 "unlink dd failed" k)))).

Definition subdir (buf : list Z) (k : list Z -> prog) : prog :=
  line "subdir test" [] (
  do_ (SUnlink (codes "ff")) (
  zero (SMkdir (codes "dd")) "subdir mkdir dd failed" (
  open_or_die "dd/ff" CREATE "create dd/ff failed" (fun fd =>
  do_ (SWrite fd (codes "ff")) (
  do_ (SClose fd) (
  check (SUnlink (codes "dd")) ge0 "unlink dd (non-empty dir) succeeded!" (
  zero (SMkdir (codes "/dd/dd")) "subdir mkdir dd/dd failed" (
  open_or_die "dd/dd/ff" CREATE "create dd/dd/ff failed" (fun fd =>
  do_ (SWrite fd (codes "FF")) (
  do_ (SClose fd) (
  open_or_die "dd/dd/../ff" 0 "open dd/dd/../ff failed" (fun fd =>
  Sys (SRead fd bufsize) (fun cc bytes =>
  let buf := got cc bytes buf in
  if negb (cc =? 2) || negb (buf !!! 0%nat =? ch "f") then die "dd/dd/../ff wrong content" else
  do_ (SClose fd) (
  zero (SLink (codes "dd/dd/ff") (codes "dd/dd/ffff")) "link dd/dd/ff dd/dd/ffff failed" (
  zero (SUnlink (codes "dd/dd/ff")) "unlink dd/dd/ff failed" (
  must_open_fail "dd/dd/ff" O_RDONLY "open (unlinked) dd/dd/ff succeeded" (
  zero (SChdir (codes "dd")) "chdir dd failed" (
  zero (SChdir (codes "dd/../../dd")) "chdir dd/../../dd failed" (
  zero (SChdir (codes "dd/../../../dd")) "chdir dd/../../dd failed" (
  zero (SChdir (codes "./..")) "chdir ./.. failed" (
  open_or_die "dd/dd/ffff" 0 "open dd/dd/ffff failed" (fun fd =>
  Sys (SRead fd bufsize) (fun r bytes =>
  let buf := got r bytes buf in
  if negb (r =? 2) then die "read dd/dd/ffff wrong len" else
  do_ (SClose fd) (
  subdir_errors (
  subdir_cleanup (
  line "subdir ok" [] (k buf))))))))))))))))))))))))))).

(** ** Large files *)

(** [for(i = 0; i < 2; i++)] *)
Fixpoint bigwrite_writes (n : nat) (fd sz : Z) (buf : list Z) (k : prog) : prog :=
  match n with
  | O => k
  | S n =>
      Sys (SWrite fd (take (Z.to_nat sz) buf)) (fun cc _ =>
      if negb (cc =? sz) then line "write(%d) ret %d" [AInt sz; AInt cc] quit else bigwrite_writes n fd sz buf k)
  end.

(** [for(sz = 499; sz < 12*512; sz += 471)] *)
Fixpoint bigwrite_loop (fl : nat) (sz : Z) (buf : list Z) (k : prog) : prog :=
  if sz <? 12 * 512 then
    match fl with
    | O => OutOfFuel
    | S fl =>
        open_or_die "bigwrite" CREATE "cannot create bigwrite" (fun fd =>
        bigwrite_writes 2 fd sz buf (
        do_ (SClose fd) (
        do_ (SUnlink (codes "bigwrite")) (bigwrite_loop fl (sz + 471) buf k))))
    end
  else k.

(** Twelve rounds. *)
Definition bigwrite (buf : list Z) (k : prog) : prog :=
  line "bigwrite test" [] (
  do_ (SUnlink (codes "bigwrite")) (
  bigwrite_loop 12 499 buf (
  line "bigwrite ok" [] k))).

Fixpoint bigfile_writes (n : nat) (i fd : Z) (buf : list Z) (k : list Z -> prog) : prog :=
  match n with
  | O => k buf
  | S n =>
      let buf := memset_buf i 600 buf in
      check (SWrite fd (take 600 buf)) (not_ 600) "write bigfile failed" (bigfile_writes n (i + 1) fd buf k)
  end.

Fixpoint bigfile_reads (fl : nat) (i total fd : Z) (buf : list Z) (k : Z -> list Z -> prog) : prog :=
  match fl with
  | O => OutOfFuel
  | S fl =>
      Sys (SRead fd 300) (fun cc bytes =>
      let buf := got cc bytes buf in
      if cc <? 0 then die "read bigfile failed"
      else if cc =? 0 then k total buf
      else if negb (cc =? 300) then die "short read bigfile"
      else if negb (buf !!! 0%nat =? i / 2) || negb (buf !!! 299%nat =? i / 2) then die "read bigfile wrong data"
      else bigfile_reads fl (i + 1) (total + cc) fd buf k)
  end.

Definition bigfile (fl : nat) (buf : list Z) (k : list Z -> prog) : prog :=
  line "bigfile test" [] (
  do_ (SUnlink (codes "bigfile")) (
  Sys (SOpen (codes "bigfile") CREATE) (fun fd _ =>
  if fd <? 0 then print 1 "cannot create bigfile" [] quit else
  bigfile_writes 20 0 fd buf (fun buf =>
  do_ (SClose fd) (
  open_or_die "bigfile" 0 "cannot open bigfile" (fun fd =>
  bigfile_reads fl 0 0 fd buf (fun total buf =>
  do_ (SClose fd) (
  if negb (total =? 20 * 600) then die "read bigfile wrong total" else
  do_ (SUnlink (codes "bigfile")) (
  line "bigfile test ok" [] (k buf)))))))))).

(** ** Names *)

Definition fourteen (k : prog) : prog :=
  line "fourteen test" [] (
  zero (SMkdir (codes "12345678901234")) "mkdir 12345678901234 failed" (
  zero (SMkdir (codes "12345678901234/123456789012345")) "mkdir 12345678901234/123456789012345 failed" (
  open_or_die "123456789012345/123456789012345/123456789012345" O_CREATE
    "create 123456789012345/123456789012345/123456789012345 failed" (fun fd =>
  do_ (SClose fd) (
  open_or_die "12345678901234/12345678901234/12345678901234" 0
    "open 12345678901234/12345678901234/12345678901234 failed" (fun fd =>
  do_ (SClose fd) (
  nonzero (SMkdir (codes "12345678901234/12345678901234")) "mkdir 12345678901234/12345678901234 succeeded!" (
  nonzero (SMkdir (codes "123456789012345/12345678901234")) "mkdir 12345678901234/123456789012345 succeeded!" (
  line "fourteen ok" [] k))))))))).

Definition rmdot (k : prog) : prog :=
  line "rmdot test" [] (
  zero (SMkdir (codes "dots")) "mkdir dots failed" (
  zero (SChdir (codes "dots")) "chdir dots failed" (
  nonzero (SUnlink (codes ".")) "rm . worked!" (
  nonzero (SUnlink (codes "..")) "rm .. worked!" (
  zero (SChdir (codes "/")) "chdir / failed" (
  nonzero (SUnlink (codes "dots/.")) "unlink dots/. worked!" (
  nonzero (SUnlink (codes "dots/..")) "unlink dots/.. worked!" (
  zero (SUnlink (codes "dots")) "unlink dots failed!" (
  line "rmdot ok" [] k))))))))).

Definition dirfile (k : prog) : prog :=
  line "dir vs file" [] (
  open_or_die "dirfile" O_CREATE "create dirfile failed" (fun fd =>
  do_ (SClose fd) (
  nonzero (SChdir (codes "dirfile")) "chdir dirfile succeeded!" (
  must_open_fail "dirfile/xx" 0 "create dirfile/xx succeeded!" (
  must_open_fail "dirfile/xx" O_CREATE "create dirfile/xx succeeded!" (
  nonzero (SMkdir (codes "dirfile/xx")) "mkdir dirfile/xx succeeded!" (
  nonzero (SUnlink (codes "dirfile/xx")) "unlink dirfile/xx succeeded!" (
  nonzero (SLink (codes "README") (codes "dirfile/xx")) "link to dirfile/xx succeeded!" (
  zero (SUnlink (codes "dirfile")) "unlink dirfile failed!" (
  must_open_fail "." O_RDWR "open . for writing succeeded!" (
  Sys (SOpen (codes ".") 0) (fun fd _ =>
  check (SWrite fd (codes "x")) (fun r => 0 <? r) "write . succeeded!" (
  do_ (SClose fd) (
  line "dir vs file OK" [] k)))))))))))))).

(** [fd = open(name, O_CREATE); if(fd >= 0) close(fd);] *)
Definition touch (name : string) (k : prog) : prog :=
  Sys (SOpen (codes name) O_CREATE) (fun fd _ => if 0 <=? fd then do_ (SClose fd) k else k).

Fixpoint iref_loop (n : nat) (k : prog) : prog :=
  match n with
  | O => k
  | S n =>
      zero (SMkdir (codes "irefd")) "mkdir irefd failed" (
      zero (SChdir (codes "irefd")) "chdir irefd failed" (
      do_ (SMkdir []) (
      do_ (SLink (codes "README") []) (
      touch "" (
      touch "xx" (
      do_ (SUnlink (codes "xx")) (iref_loop n k)))))))
  end.

Definition iref (k : prog) : prog :=
  line "empty file name" [] (
  iref_loop (50 + 1) (
  do_ (SChdir (codes "/")) (
  line "empty file name OK" [] k))).

(** ** fsfull, which [main] does not call *)

Definition full_name (nfiles : Z) : list Z :=
  [ch "f"; ch "0" + nfiles / 1000; ch "0" + nfiles mod 1000 / 100; ch "0" + nfiles mod 100 / 10; ch "0" + nfiles mod 10].

Fixpoint fsfull_write (fl : nat) (fd total : Z) (buf : list Z) (k : Z -> prog) : prog :=
  match fl with
  | O => OutOfFuel
  | S fl => Sys (SWrite fd (take 512 buf)) (fun cc _ =>
      if cc <? 512 then k total else fsfull_write fl fd (total + cc) buf k)
  end.

Fixpoint fsfull_fill (fl : nat) (nfiles : Z) (buf : list Z) (k : Z -> prog) : prog :=
  match fl with
  | O => OutOfFuel
  | S fl =>
      let name := full_name nfiles in
      line "writing %s" [str name] (
      Sys (SOpen name CREATE) (fun fd _ =>
      if fd <? 0 then line "open %s failed" [str name] (k nfiles) else
      fsfull_write fl fd 0 buf (fun total =>
      line "wrote %d bytes" [AInt total] (
      do_ (SClose fd) (
      if total =? 0 then k nfiles else fsfull_fill fl (nfiles + 1) buf k)))))
  end.

(** [while(nfiles >= 0)], with [n] files to go. *)
Fixpoint fsfull_unlink (n : nat) (nfiles : Z) (k : prog) : prog :=
  match n with
  | O => k
  | S n => do_ (SUnlink (full_name nfiles)) (fsfull_unlink n (nfiles - 1) k)
  end.

Definition fsfull (fl : nat) (buf : list Z) (k : prog) : prog :=
  line "fsfull test" [] (
  fsfull_fill fl 0 buf (fun nfiles =>
  fsfull_unlink (Z.to_nat (nfiles + 1)) nfiles (
  line "fsfull test finished" [] k))).
