(* ===== verification/TestsProc.v ===== *)
(** * usertests.c: the tests of processes and memory, and [main] *)

From S2P Require Import Prelude Fcntl Kernel Layout Printf Ulib User Programs TestsFs.

(** ** Pipes *)

(** [pipe(fds)] stores the two descriptors. *)
Definition pipe_fd (k : nat) (bytes : list Z) : Z := s32 (rd 4 bytes (4 * k)).

(** The child of pipe1: five writes of 1033 bytes that count on. *)
Fixpoint pipe1_writes (n : nat) (fd seq : Z) (buf : list Z) : prog :=
  match n with
  | O => quit
  | S n =>
      let buf := over (map u8 (seqZ seq 1033)) buf in
      check (SWrite fd (take 1033 buf)) (not_ 1033) "pipe1 oops 1" (pipe1_writes n fd (seq + 1033) buf)
  end.

(** [while((n = read(...)) > 0)]; [bad] is what the test does when a byte is wrong. *)
Fixpoint pipe1_reads (fl : nat) (fd seq total cc : Z) (buf : list Z) (bad k : list Z -> Z -> prog) : prog :=
  match fl with
  | O => OutOfFuel
  | S fl =>
      Sys (SRead fd cc) (fun n bytes =>
      let buf := got n bytes buf in
      if 0 <? n then
        if bool_decide (take (Z.to_nat n) buf = map u8 (seqZ seq n)) then
          pipe1_reads fl fd (seq + n) (total + n) (if bufsize <? cc * 2 then bufsize else cc * 2) buf bad k
        else bad buf total
      else k buf total)
  end.

Definition pipe1 (fl : nat) (buf : list Z) (k : list Z -> prog) : prog :=
  Sys SPipe (fun r fds =>
  if negb (r =? 0) then die "pipe() failed" else
  Sys SFork (fun pid _ =>
  if pid =? 0 then do_ (SClose (pipe_fd 0 fds)) (pipe1_writes 5 (pipe_fd 1 fds) 0 buf)
  else if 0 <? pid then
    do_ (SClose (pipe_fd 1 fds)) (
    pipe1_reads fl (pipe_fd 0 fds) 0 0 1 buf (fun buf _ => line "pipe1 oops 2" [] (k buf)) (fun buf total =>
    if negb (total =? 5 * 1033) then line "pipe1 oops 3 total %d" [AInt total] quit else
    do_ (SClose (pipe_fd 0 fds)) (
    do_ SWait (
    line "pipe1 ok" [] (k buf)))))
  else die "fork() failed")).

(** [pid = fork(); if(pid == 0) for(;;);] *)
Definition spinner (k : Z -> prog) : prog := Sys SFork (fun pid _ => if pid =? 0 then Forever else k pid).

Definition preempt (buf : list Z) (k : list Z -> prog) : prog :=
  print 1 "preempt: " [] (
  spinner (fun pid1 =>
  spinner (fun pid2 =>
  Sys SPipe (fun _ fds =>
  Sys SFork (fun pid3 _ =>
  if pid3 =? 0 then
    do_ (SClose (pipe_fd 0 fds)) (
    Sys (SWrite (pipe_fd 1 fds) (codes "x")) (fun r _ =>
    let rest := do_ (SClose (pipe_fd 1 fds)) Forever in
    if negb (r =? 1) then print 1 "preempt write error" [] rest else rest))
  else
    do_ (SClose (pipe_fd 1 fds)) (
    Sys (SRead (pipe_fd 0 fds) bufsize) (fun r bytes =>
    let buf := got r bytes buf in
    if negb (r =? 1) then print 1 "preempt read error" [] (k buf) else
    do_ (SClose (pipe_fd 0 fds)) (
    print 1 "kill... " [] (
    do_ (SKill pid1) (do_ (SKill pid2) (do_ (SKill pid3) (
    print 1 "wait... " [] (
    do_ SWait (do_ SWait (do_ SWait (
    line "preempt ok" [] (k buf))))))))))))))))).

Fixpoint exitwait_loop (n : nat) (ok bad : prog) : prog :=
  match n with
  | O => ok
  | S n =>
      Sys SFork (fun pid _ =>
      if pid <? 0 then line "fork failed" [] bad
      else if negb (pid =? 0) then
        Sys SWait (fun w _ => if negb (w =? pid) then line "wait wrong pid" [] bad else exitwait_loop n ok bad)
      else quit)
  end.

Definition exitwait (k : prog) : prog := exitwait_loop 100 (line "exitwait ok" [] k) k.

(** The fork test of forktest.c, with the formatting [printf]. *)
Fixpoint forktest_wait (n : nat) (k : prog) : prog :=
  match n with
  | O => k
  | S n => check SWait lt0 "wait stopped early" (forktest_wait n k)
  end.

Definition forktest_end (n : nat) (k : prog) : prog :=
  if Z.of_nat n =? 1000 then die "fork claimed to work 1000 times!" else
  forktest_wait n (
  check SWait (not_ (-1)) "wait got too many" (
  line "fork test OK" [] k)).

Fixpoint forktest_fork (todo n : nat) (k : prog) : prog :=
  match todo with
  | O => forktest_end n k
  | S todo => Sys SFork (fun pid _ =>
      if pid <? 0 then forktest_end n k else if pid =? 0 then quit else forktest_fork todo (S n) k)
  end.

Definition forktest (k : prog) : prog := line "fork test" [] (forktest_fork (Z.to_nat 1000) 0 k).

(** ** Memory *)

(** [while((m2 = malloc(10001)) != 0)]: the blocks are linked through their first word. *)
Fixpoint mem_fill (fl : nat) (m1 : Z) (k : Z -> prog) : prog :=
  match fl with
  | O => OutOfFuel
  | S fl => Ins (SMalloc 10001) (fun m2 => if m2 =? 0 then k m1 else Ins (SPoke 4 m2 m1) (fun _ => mem_fill fl m2 k))
  end.

Fixpoint mem_free (fl : nat) (m1 : Z) (k : prog) : prog :=
  if m1 =? 0 then k else
  match fl with
  | O => OutOfFuel
  | S fl => Ins (SPeek 4 m1) (fun m2 => Ins (SFree m1) (fun _ => mem_free fl m2 k))
  end.

Definition mem (fl : nat) (k : prog) : prog :=
  line "mem test" [] (
  Sys SGetpid (fun ppid _ =>
  Sys SFork (fun pid _ =>
  if pid =? 0 then
    mem_fill fl 0 (fun m1 =>
    mem_free fl m1 (
    Ins (SMalloc (1024 * 20)) (fun m1 =>
    if m1 =? 0 then line "couldn't allocate mem?!!" [] (do_ (SKill ppid) quit) else
    Ins (SFree m1) (fun _ =>
    line "mem ok" [] quit))))
  else do_ SWait k))).

(** [sbrk] gives a pointer: the answer as an unsigned number. *)
Definition sbrk (n : Z) (k : Z -> prog) : prog := Sys (SSbrk (s32 n)) (fun r _ => k (u32 r)).

Definition BIG : Z := 100 * 1024 * 1024.
Definition no_memory : Z := 0xffffffff.

(** One byte at a time: [for(i = 0; i < 5000; i++)]. *)
Fixpoint sbrk_bytes (n : nat) (i a : Z) (k : Z -> prog) : prog :=
  match n with
  | O => k a
  | S n => sbrk 1 (fun b =>
      if negb (b =? a) then line "sbrk test failed %d %x %x" [AInt i; AInt a; AInt b] quit else
      Ins (SPoke 1 b 1) (fun _ => sbrk_bytes n (i + 1) (b +u 1) k))
  end.

(** The addresses from KERNBASE up to KERNBASE+2000000, 50000 apart. *)
Fixpoint read_kernel (n : nat) (a : Z) (k : prog) : prog :=
  match n with
  | O => k
  | S n =>
      Sys SGetpid (fun ppid _ =>
      Sys SFork (fun pid _ =>
      if pid <? 0 then die "fork failed"
      else if pid =? 0 then
        Ins (SPeek 1 a) (fun x =>
        line "oops could read %x = %x" [AInt a; AInt (s8 x)] (do_ (SKill ppid) quit))
      else do_ SWait (read_kernel n (a + 50000) k)))
  end.

(** [for(;;) sleep(1000);] *)
Fixpoint sleep_on (fl : nat) : prog :=
  match fl with O => OutOfFuel | S fl => do_ (SSleep 1000) (sleep_on fl) end.

(** Ten children that take what memory there is; their pids. *)
Fixpoint eat_memory (fl n : nat) (fds : list Z) (pids : list Z) (k : list Z -> prog) : prog :=
  match n with
  | O => k pids
  | S n =>
      Sys SFork (fun pid _ =>
      if pid =? 0 then
        sbrk 0 (fun a => sbrk (BIG - a) (fun _ => do_ (SWrite (pipe_fd 1 fds) (codes "x")) (sleep_on fl)))
      else
        let next := eat_memory fl n fds (pids ++ [pid]) k in
        if negb (pid =? -1) then do_ (SRead (pipe_fd 0 fds) 1) next else next)
  end.

Fixpoint kill_pids (pids : list Z) (k : prog) : prog :=
  match pids with
  | [] => k
  | pid :: pids => if pid =? -1 then kill_pids pids k else do_ (SKill pid) (do_ SWait (kill_pids pids k))
  end.

(** [sbrk(-(sbrk(0) - oldbrk))] *)
Definition sbrk_back (oldbrk : Z) (k : Z -> prog) : prog := sbrk 0 (fun b => sbrk (- (b - oldbrk)) k).

(** The end of sbrktest. *)
Definition sbrk_exhaust (fl : nat) (oldbrk : Z) (k : prog) : prog :=
  Sys SPipe (fun r fds =>
  if negb (r =? 0) then die "pipe() failed" else
  eat_memory fl 10 fds [] (fun pids =>
  sbrk 4096 (fun c =>
  kill_pids pids (
  if c =? no_memory then die "failed sbrk leaked memory" else
  let ok := line "sbrk test OK" [] k in
  sbrk 0 (fun b => if oldbrk <? b then sbrk_back oldbrk (fun _ => ok) else ok))))).

(** Growing to [BIG], and the last page given back and taken again. *)
Definition sbrk_big (oldbrk : Z) (k : prog) : prog :=
  sbrk 0 (fun a =>
  sbrk (BIG - a) (fun p =>
  if negb (p =? a) then die "sbrk test failed to grow big address space; enough phys mem?" else
  let lastaddr := BIG - 1 in
  Ins (SPoke 1 lastaddr 99) (fun _ =>
  sbrk 0 (fun a =>
  sbrk (-4096) (fun c =>
  if c =? no_memory then die "sbrk could not deallocate" else
  sbrk 0 (fun c =>
  if negb (c =? a -u 4096) then
    line "sbrk deallocation produced wrong address, a %x c %x" [AInt a; AInt c] quit else
  sbrk 0 (fun a =>
  sbrk 4096 (fun c =>
  let failed := line "sbrk re-allocation failed, a %x c %x" [AInt a; AInt c] quit in
  if negb (c =? a) then failed else
  sbrk 0 (fun b =>
  if negb (b =? a +u 4096) then failed else
  Ins (SPeek 1 lastaddr) (fun x =>
  if s8 x =? 99 then die "sbrk de-allocation didn't really deallocate" else
  sbrk 0 (fun a =>
  sbrk_back oldbrk (fun c =>
  if negb (c =? a) then line "sbrk downsize failed, a %x c %x" [AInt a; AInt c] quit else k)))))))))))).

Definition sbrktest (fl : nat) (k : prog) : prog :=
  line "sbrk test" [] (
  sbrk 0 (fun oldbrk =>
  sbrk 0 (fun a =>
  sbrk_bytes (Z.to_nat 5000) 0 a (fun a =>
  Sys SFork (fun pid _ =>
  if pid <? 0 then die "sbrk test fork failed" else
  sbrk 1 (fun _ =>
  sbrk 1 (fun c =>
  if negb (c =? a +u 1) then die "sbrk test failed post-fork" else
  if pid =? 0 then quit else
  do_ SWait (
  sbrk_big oldbrk (
  read_kernel 40 KERNBASE (
  sbrk_exhaust fl oldbrk k)))))))))).

(** [for(p = 0; p <= (uint)hi; p += 4096)] *)
Fixpoint validate_loop (n : nat) (p : Z) (k : prog) : prog :=
  match n with
  | O => k
  | S n =>
      Sys SFork (fun pid _ =>
      if pid =? 0 then Ins (SSleepAt p) (fun _ => quit) else
      do_ (SSleep 0) (
      do_ (SSleep 0) (
      do_ (SKill pid) (
      do_ SWait (
      Ins (SLinkAt (codes "nosuchfile") p) (fun r =>
      if negb (r =? -1) then die "link should not succeed" else validate_loop n (p + 4096) k))))))
  end.

(** [hi / 4096] is 275. *)
Definition validatetest (k : prog) : prog :=
  line "validate test" [] (
  validate_loop (S (Z.to_nat (1100 * 1024 / 4096))) 0 (
  line "validate ok" [] k)).

(** [char uninit[10000]], which nothing writes. *)
Definition uninit : list Z := replicate (Z.to_nat 10000) 0.

Definition bsstest (k : prog) : prog :=
  line "bss test" [] (
  if forallb (fun c => c =? 0) uninit then line "bss test ok" [] k else die "bss test failed").

(** ** exec and ports *)

Definition echoargv : list (list Z) := [codes "echo"; codes "ALL"; codes "TESTS"; codes "PASSED"].

Definition exectest (k : prog) : prog :=
  line "exec test" [] (
  check (SExec (codes "echo") echoargv) lt0 "exec echo failed" k).

(** MAXARG - 1 words of 220 characters. *)
Definition bigargs : list (list Z) :=
  replicate (MAXARG - 1) (codes ("bigargs test: failed" +:+ nl) ++ replicate 199 32).

Definition bigargtest (k : prog) : prog :=
  do_ (SUnlink (codes "bigarg-ok")) (
  Sys SFork (fun pid _ =>
  if pid =? 0 then
    line "bigarg test" [] (
    do_ (SExec (codes "echo") bigargs) (
    line "bigarg test ok" [] (
    Sys (SOpen (codes "bigarg-ok") O_CREATE) (fun fd _ =>
    do_ (SClose fd) quit))))
  else if pid <? 0 then die "bigargtest: fork failed"
  else
    do_ SWait (
    open_or_die "bigarg-ok" 0 "bigarg test failed!" (fun fd =>
    do_ (SClose fd) (
    do_ (SUnlink (codes "bigarg-ok")) k))))).

Definition uio (k : prog) : prog :=
  line "uio test" [] (
  Sys SFork (fun pid _ =>
  if pid =? 0 then
    Ins (SOutb 0x70 0x09) (fun _ =>
    Ins (SInb 0x71) (fun _ =>
    die "uio: uio succeeded; test FAILED"))
  else if pid <? 0 then die "fork failed"
  else do_ SWait (
    line "uio test done" [] k))).

(** [read(fd, sbrk(0) - 1, -1)] *)
Definition argptest (k : prog) : prog :=
  Sys (SOpen (codes "init") O_RDONLY) (fun fd _ =>
  if fd <? 0 then print 2 ("open failed" +:+ nl) [] quit else
  sbrk 0 (fun b =>
  Ins (SReadAt fd (b -u 1) (-1)) (fun _ =>
  do_ (SClose fd) (
  line "arg test passed" [] k)))).

(** [rand], with [randstate]; no test calls it. *)
Definition rand (randstate : Z) : Z := u32 (u32 (randstate * 1664525) + 1013904223).

(** ** [main] *)

Definition usertests_main (fl : nat) (de : list Z) : prog :=
  line "usertests starting" [] (
  Sys (SOpen (codes "usertests.ran") 0) (fun fd _ =>
  if 0 <=? fd then die "already ran user tests -- rebuild fs.img" else
  Sys (SOpen (codes "usertests.ran") O_CREATE) (fun fd _ =>
  do_ (SClose fd) (
  argptest (createdelete (linkunlink (concreate fl de (fourfiles fl buf0 (fun buf => sharedfd fl (
  bigargtest (bigwrite buf (bigargtest (bsstest (sbrktest fl (validatetest (
  opentest (writetest buf (fun buf => writetest1 fl buf (fun buf => createtest (
  openiputtest (exitiputtest (iputtest (
  mem fl (pipe1 fl buf (fun buf => preempt buf (fun buf => exitwait (
  rmdot (fourteen (bigfile fl buf (fun buf => subdir buf (fun buf => linktest buf (fun buf =>
  unlinkread buf (fun buf => dirfile (iref (forktest (bigdir (uio (exectest quit)))))))))))))))))))))))))))))))))))))).
