(* ===== verification/Cons.v ===== *)
(** * Console output (console.c)

    [consputc] with the CGA screen, and [cprintf].  The serial port's output is recorded
    in [k_out]; the cursor register and the cells of the screen are part of the state. *)

From S2P Require Import Prelude Mem Kernel Sched Printf.

Definition BACKSPACE : Z := 0x100.

(** ** The screen *)

(** [memmove(crt, crt+80, sizeof(crt[0])*23*80)]: cells 80 up move down by 80. *)
Definition scroll (crt : gmap Z Z) : gmap Z Z :=
  foldl (fun m i => <[i := default 0 (crt !! (i + 80))]> m) crt (seqZ 0 (23 * 80)).
(** [memset(crt+pos, 0, sizeof(crt[0])*(24*80 - pos))] *)
Definition clear_from (pos : Z) (crt : gmap Z Z) : gmap Z Z :=
  foldl (fun m i => <[i := 0]> m) crt (seqZ pos (24 * 80 - pos)).

Definition cgaputc (c : Z) : K unit :=
  pos <- gets k_pos;
  pos <- (if c =? 10 then kret (pos + (80 - pos mod 80))
          else if c =? BACKSPACE then kret (if 0 <? pos then pos - 1 else pos)
          else modify (upd_k_crt (fun m => <[pos := Z.lor (Z.land c 0xff) 0x0700]> m)) ;;
               kret (pos + 1));
  if (pos <? 0) || (25 * 80 <? pos) then panic "pos under/overflow" else
  pos <- (if 24 <=? pos / 80 then
            modify (upd_k_crt scroll) ;;
            modify (upd_k_crt (clear_from (pos - 80))) ;;
            kret (pos - 80)
          else kret pos);
  modify (upd_k_pos (fun _ => u16 pos)) ;;
  modify (upd_k_crt (fun m => <[pos := Z.lor 32 0x0700]> m)).

Definition uartputc (c : Z) : K unit := modify (upd_k_out (fun o => o ++ [u8 c])).

Definition consputc (c : Z) : K unit :=
  (if c =? BACKSPACE then uartputc 8 ;; uartputc 32 ;; uartputc 8 else uartputc c) ;;
  cgaputc c.

(** [cprintf]: the output function is [consputc]. *)
Definition cprintf (fmt : string) (args : list arg) : K unit :=
  locking <- gets k_locking;
  kwhen locking (acquire LK_cons) ;;
  match cprintf_fmt (codes fmt) args with
  | Some out => kiter out consputc
  | None => panic "cprintf arguments"
  end ;;
  kwhen locking (release LK_cons).

(** The cursor is on one of the 24 lines in use. *)
Definition cursor_ok (s : kstate) : Prop := 0 <= k_pos s < 24 * 80.

(** The part of [cgaputc] after the character is placed. *)
Definition cga_finish (pos : Z) : K unit :=
  if (pos <? 0) || (25 * 80 <? pos) then panic "pos under/overflow" else
  pos <- (if 24 <=? pos / 80 then
            modify (upd_k_crt scroll) ;;
            modify (upd_k_crt (clear_from (pos - 80))) ;;
            kret (pos - 80)
          else kret pos);
  modify (upd_k_pos (fun _ => u16 pos)) ;;
  modify (upd_k_crt (fun m => <[pos := Z.lor 32 0x0700]> m)).

Lemma cga_finish_ok pos s :
  0 <= pos < 25 * 80 ->
  exists m pos', cga_finish pos s = Ok tt (upd_k_crt (fun _ => m) (upd_k_pos (fun _ => pos') s)) /\
    0 <= pos' < 24 * 80.
Proof.
  intros Hpos. unfold cga_finish.
  destruct (Z.ltb_spec pos 0), (Z.ltb_spec (25 * 80) pos); try lia. cbn [orb].
  destruct (Z.leb_spec 24 (pos / 80)) as [Hd|Hd]; unfold kbind, modify, kret; cbn [bind_res].
  - assert (24 * 80 <= pos) by dlia.
    eexists _, (u16 (pos - 80)). split; [reflexivity|]. rewrite u16_id by lia. lia.
  - assert (pos < 24 * 80) by dlia.
    eexists _, (u16 pos). split; [reflexivity|]. rewrite u16_id by lia. lia.
Qed.

(** A character printed with the cursor on the screen never runs into the
    "pos under/overflow" panic, and leaves the cursor on the screen and everything but the
    cursor and the screen memory alone. *)
Lemma cgaputc_ok (c : Z) (s : kstate) (Hpos : cursor_ok s) :
  exists m pos, cgaputc c s = Ok tt (upd_k_crt (fun _ => m) (upd_k_pos (fun _ => pos) s)) /\
    cursor_ok (upd_k_crt (fun _ => m) (upd_k_pos (fun _ => pos) s)).
Proof.
  unfold cursor_ok in *.
  change (cgaputc c) with
    (pos <- gets k_pos;
     pos <- (if c =? 10 then kret (pos + (80 - pos mod 80))
             else if c =? BACKSPACE then kret (if 0 <? pos then pos - 1 else pos)
             else modify (upd_k_crt (fun m => <[pos := Z.lor (Z.land c 0xff) 0x0700]> m)) ;;
                  kret (pos + 1));
     cga_finish pos).
  rewrite (kbind_ok (gets k_pos) _ s (k_pos s) s eq_refl).
  destruct (c =? 10); [|destruct (c =? BACKSPACE)].
  - rewrite (kbind_ok (kret _) _ s _ s eq_refl). apply cga_finish_ok. dlia.
  - rewrite (kbind_ok (kret _) _ s _ s eq_refl). apply cga_finish_ok.
    destruct (Z.ltb_spec 0 (k_pos s)); lia.
  - rewrite (kbind_ok (modify _ ;; kret _) _ s _ _ eq_refl).
    destruct (cga_finish_ok (k_pos s + 1)
      (upd_k_crt (fun m => <[k_pos s := Z.lor (Z.land c 0xff) 0x0700]> m) s) ltac:(lia)) as (m & pos & -> & Hp).
    by exists m, pos.
Qed.

(** [s'] is [s] but for what the console shows. *)
Definition console_only (s s' : kstate) : Prop :=
  exists o p c, s' = upd_k_crt (fun _ => c) (upd_k_pos (fun _ => p) (upd_k_out (fun _ => o) s)).

Lemma console_only_refl s : console_only s s.
Proof. exists (k_out s), (k_pos s), (k_crt s). by destruct s. Qed.

Lemma console_only_trans s1 s2 s3 : console_only s1 s2 -> console_only s2 s3 -> console_only s1 s3.
Proof. intros (o & p & c & ->) (o' & p' & c' & ->). by exists o', p', c'. Qed.

(** What the serial port gets for a character. *)
Definition serial (c : Z) : list Z := if c =? BACKSPACE then [8; 32; 8] else [u8 c].

Lemma consputc_ok c s :
  cursor_ok s -> exists s', consputc c s = Ok tt s' /\ console_only s s' /\ cursor_ok s' /\
    k_out s' = k_out s ++ serial c.
Proof.
  intros Hpos. set (s1 := upd_k_out (fun o => o ++ serial c) s).
  assert (H1 : (if c =? BACKSPACE then uartputc 8 ;; uartputc 32 ;; uartputc 8 else uartputc c) s = Ok tt s1).
  { unfold s1, serial. destruct (c =? BACKSPACE); [|done].
    transitivity (Ok tt (upd_k_out (fun o => ((o ++ [u8 8]) ++ [u8 32]) ++ [u8 8]) s)); [by destruct s|].
    unfold upd_k_out. by rewrite <- !app_assoc. }
  destruct (cgaputc_ok c s1 Hpos) as (m & pos & H2 & H3).
  unfold consputc. rewrite (kbind_ok _ _ _ _ _ H1), H2.
  eexists. split; [reflexivity|]. split; [|split; [exact H3|done]].
  exists (k_out s ++ serial c), pos, m. by destruct s.
Qed.

Lemma consputs_ok l : forall s,
  cursor_ok s -> exists s', kiter l consputc s = Ok tt s' /\ console_only s s' /\ cursor_ok s' /\
    k_out s' = k_out s ++ concat (map serial l).
Proof.
  induction l as [|c l IH]; intros s Hpos.
  - exists s. split; [done|]. split; [apply console_only_refl|]. split; [done|]. by rewrite app_nil_r.
  - destruct (consputc_ok c s Hpos) as (s1 & H1 & H2 & H3 & H4).
    destruct (IH s1 H3) as (s2 & G1 & G2 & G3 & G4). exists s2.
    cbn [kiter]. rewrite (kbind_ok _ _ _ _ _ H1). split; [done|].
    split; [by eapply console_only_trans|]. split; [done|]. rewrite G4, H4, <- app_assoc. done.
Qed.

(** The console's lock can be taken. *)
Definition cons_free (s : kstate) : Prop := k_locking s = true -> LK_cons ∉ k_held s.

Lemma cprintf_ok fmt args out s :
  cursor_ok s -> cons_free s -> cprintf_fmt (codes fmt) args = Some out ->
  exists s', cprintf fmt args s = Ok tt s' /\ console_only s s' /\ cursor_ok s' /\
    k_out s' = k_out s ++ concat (map serial out).
Proof.
  intros Hpos Hlk Hfmt. unfold cprintf. rewrite (kbind_ok (gets k_locking) _ s _ s eq_refl), Hfmt.
  destruct (k_locking s) eqn:EL; unfold kwhen.
  - rewrite (kbind_ok _ _ _ _ _ (acquire_ok LK_cons s (Hlk EL))).
    destruct (consputs_ok out (upd_k_held (cons LK_cons) s) Hpos) as (s1 & H1 & (o & p & c & ->) & H3 & H4).
    rewrite (kbind_ok _ _ _ _ _ H1), (release_acquired LK_cons (k_held s)) by (done || by apply Hlk).
    eexists. split; [reflexivity|]. split; [exists o, p, c; by destruct s|]. split; [exact H3|exact H4].
  - rewrite (kbind_ok (kret tt) _ s tt s eq_refl).
    destruct (consputs_ok out s Hpos) as (s1 & H1 & H2 & H3 & H4).
    rewrite (kbind_ok _ _ _ _ _ H1). by exists s1.
Qed.

(** [cprintf] sends exactly the formatted text to the serial port, never runs off the
    screen, gives back its lock and changes nothing but what the console shows. *)
Theorem cprintf_prints (fmt : string) (args : list arg) (out : list Z) (s : kstate)
    (Hpos : cursor_ok s) (Hlk : cons_free s) (Hfmt : cprintf_fmt (codes fmt) args = Some out)
    (Hout : Forall (field_ok 8) out) :
  exists s', cprintf fmt args s = Ok tt s' /\ k_out s' = k_out s ++ out /\ cursor_ok s' /\ console_only s s'.
Proof.
  destruct (cprintf_ok fmt args out s Hpos Hlk Hfmt) as (s' & H1 & H2 & H3 & H4). exists s'.
  split_and!; [done| |done|done]. rewrite H4. f_equal.
  clear -Hout. induction Hout as [|c l Hc _ IH]; [done|]. cbn. rewrite IH. unfold serial, BACKSPACE, field_ok in *.
  destruct (Z.eqb_spec c 256); [lia|]. cbn. by rewrite u8_id by lia.
Qed.

Lemma cprintf_prints_witness :
  exists s', cprintf "pid %d %s" [AInt 7; AStr (Some (codes "sh"))] (boot 0 0) = Ok tt s' /\
    k_out s' = codes "pid 7 sh".
Proof.
  destruct (cprintf_prints "pid %d %s" [AInt 7; AStr (Some (codes "sh"))] (codes "pid 7 sh") (boot 0 0))
    as (s' & H1 & H2 & _).
  - unfold cursor_ok. simpl. lia.
  - intros H. discriminate H.
  - reflexivity.
  - by_decide.
  - exists s'. split; [exact H1|]. rewrite H2. reflexivity.
Defined.
