(* ===== verification/Fs.v ===== *)
(** * The file system (fs.c)

    Blocks and the free map, inodes and their cache, file contents, directories and path
    names, over the buffer cache and the log.  [readi] gives the bytes it copies to [dst]
    and [writei] takes the bytes at [src], so that the same definitions serve kernel and
    user buffers.  The device switch is a class that console.c fills in. *)

From S2P Require Import Prelude Mem StringC Kernel Sched Bio Layout Log Printf Cons.

(** [devsw]: the read and write functions of each major device number. *)
Class Devsw := {
  dev_read : Z -> option (nat -> Z -> K (Z * list Z));
  dev_write : Z -> option (nat -> list Z -> Z -> K Z);
}.

Section Fs.
Context `{Fuel} `{Devsw}.

(** ** Blocks *)

Definition bzero (dev bno : Z) : K unit :=
  bp <- bread (u32 dev) (u32 bno);
  set_buf bp (upd_b_data (fun _ => replicate (Z.to_nat BSIZE) 0)) ;;
  log_write bp ;;
  brelse bp.

Definition byte_at (d : list Z) (i : Z) : Z := default 0 (d !! Z.to_nat i).
Definition set_byte (d : list Z) (i v : Z) : list Z := <[Z.to_nat i := u8 v]> d.

(** The inner loop of [balloc]: the first [bi] from the given one whose bit is clear. *)
Fixpoint free_bit (n : nat) (d : list Z) (b bi size : Z) : option Z :=
  match n with
  | O => None
  | S n =>
      if (bi <? BPB) && (b + bi <? size) then
        let m := Z.shiftl 1 (bi mod 8) in
        if Z.land (byte_at d (bi / 8)) m =? 0 then Some bi
        else free_bit n d b (bi + 1) size
      else None
  end.

(** The outer loop of [balloc]; [n] bounds the number of free map blocks. *)
Fixpoint balloc_loop (n : nat) (dev b : Z) : K Z :=
  sb <- gets k_sb;
  if b <? sb_size sb then
    match n with
    | O => fun _ => NoFuel
    | S n =>
        bp <- bread dev (BBLOCK b sb);
        bf <- get_buf bp;
        match free_bit (Z.to_nat BPB) (b_data bf) b 0 (sb_size sb) with
        | Some bi =>
            let m := Z.shiftl 1 (bi mod 8) in
            set_buf bp (upd_b_data (fun d => set_byte d (bi / 8) (Z.lor (byte_at d (bi / 8)) m))) ;;
            log_write bp ;;
            brelse bp ;;
            bzero dev (b + bi) ;;
            kret (b + bi)
        | None =>
            brelse bp ;;
            balloc_loop n dev (b + BPB)
        end
    end
  else panic "balloc: out of blocks".
Definition balloc (dev : Z) : K Z :=
  sb <- gets k_sb;
  balloc_loop (S (Z.to_nat (sb_size sb / BPB))) dev 0.

Definition bfree (dev b : Z) : K unit :=
  sb <- readsb dev;
  modify (upd_k_sb (fun _ => sb)) ;;
  bp <- bread (u32 dev) (BBLOCK b sb);
  let bi := b mod BPB in
  let m := Z.shiftl 1 (bi mod 8) in
  bf <- get_buf bp;
  if Z.land (byte_at (b_data bf) (bi / 8)) m =? 0 then panic "freeing free block" else
  set_buf bp (upd_b_data (fun d => set_byte d (bi / 8) (Z.land (byte_at d (bi / 8)) (Z.lnot m)))) ;;
  log_write bp ;;
  brelse bp.

(** ** Inodes *)

Definition iinit (dev : Z) : K unit :=
  kiter (seq 0 NINODE) (fun i => initsleeplock (SL_inode i)) ;;
  sb <- readsb dev;
  modify (upd_k_sb (fun _ => sb)) ;;
  cprintf "sb: size %d nblocks %d ninodes %d nlog %d logstart %d inodestart %d bmap start %d
"
    [AInt (sb_size sb); AInt (sb_nblocks sb); AInt (sb_ninodes sb); AInt (sb_nlog sb);
     AInt (sb_logstart sb); AInt (sb_inodestart sb); AInt (sb_bmapstart sb)].

(** The search of [iget]: the first entry in use for the inode, and the first free one. *)
Fixpoint iget_scan (l : list inode) (i : nat) (dev inum : Z) (empty : option nat) : nat + option nat :=
  match l with
  | [] => inr empty
  | ip :: l =>
      if (0 <? i_ref ip) && (i_dev ip =? dev) && (i_inum ip =? inum) then inl i
      else
        let empty := if bool_decide (empty = None) && (i_ref ip =? 0) then Some i else empty in
        iget_scan l (S i) dev inum empty
  end.

Definition iget (dev inum : Z) : K nat :=
  acquire LK_icache ;;
  inodes <- gets k_inodes;
  match iget_scan inodes 0 dev inum None with
  | inl ip =>
      set_inode ip (upd_i_ref (fun r => r + 1)) ;;
      release LK_icache ;;
      kret ip
  | inr None => panic "iget: no inodes"
  | inr (Some ip) =>
      set_inode ip (upd_i_dev (fun _ => dev)) ;;
      set_inode ip (upd_i_inum (fun _ => inum)) ;;
      set_inode ip (upd_i_ref (fun _ => 1)) ;;
      set_inode ip (upd_i_valid (fun _ => false)) ;;
      release LK_icache ;;
      kret ip
  end.

Fixpoint ialloc_loop (n : nat) (dev type inum : Z) : K nat :=
  sb <- gets k_sb;
  if inum <? sb_ninodes sb then
    match n with
    | O => fun _ => NoFuel
    | S n =>
        bp <- bread dev (IBLOCK inum sb);
        bf <- get_buf bp;
        if d_type (get_dinode (b_data bf) inum) =? 0 then
          set_buf bp (upd_b_data (fun d => wr 2 (clear_dinode d inum) (dinode_off inum) type)) ;;
          log_write bp ;;
          brelse bp ;;
          iget dev inum
        else
          brelse bp ;;
          ialloc_loop n dev type (inum + 1)
    end
  else panic "ialloc: no inodes".
Definition ialloc (dev type : Z) : K nat :=
  sb <- gets k_sb;
  ialloc_loop (Z.to_nat (sb_ninodes sb)) dev type 1.

Definition iupdate (i : nat) : K unit :=
  ip <- get_inode i;
  sb <- gets k_sb;
  bp <- bread (i_dev ip) (IBLOCK (i_inum ip) sb);
  set_buf bp (upd_b_data (fun d => put_dinode d (i_inum ip)
    (Dinode (i_type ip) (i_major ip) (i_minor ip) (i_nlink ip) (i_size ip) (i_addrs ip)))) ;;
  log_write bp ;;
  brelse bp.

Definition idup (i : nat) : K nat :=
  acquire LK_icache ;;
  set_inode i (upd_i_ref (fun r => r + 1)) ;;
  release LK_icache ;;
  kret i.

Definition ilock (i : nat) : K unit :=
  ip <- get_inode i;
  if i_ref ip <? 1 then panic "ilock" else
  acquiresleep (SL_inode i) ;;
  ip <- get_inode i;
  kwhen (negb (i_valid ip))
    (sb <- gets k_sb;
     bp <- bread (i_dev ip) (IBLOCK (i_inum ip) sb);
     bf <- get_buf bp;
     let dip := get_dinode (b_data bf) (i_inum ip) in
     set_inode i (upd_i_type (fun _ => d_type dip)) ;;
     set_inode i (upd_i_major (fun _ => d_major dip)) ;;
     set_inode i (upd_i_minor (fun _ => d_minor dip)) ;;
     set_inode i (upd_i_nlink (fun _ => d_nlink dip)) ;;
     set_inode i (upd_i_size (fun _ => d_size dip)) ;;
     set_inode i (upd_i_addrs (fun _ => d_addrs dip)) ;;
     brelse bp ;;
     set_inode i (upd_i_valid (fun _ => true)) ;;
     kwhen (d_type dip =? 0) (panic "ilock: no type")).

Definition iunlock (i : nat) : K unit :=
  h <- holdingsleep (SL_inode i);
  ip <- get_inode i;
  if negb h || (i_ref ip <? 1) then panic "iunlock" else
  releasesleep (SL_inode i).

(** ** Inode content *)

Definition addr_of (ip : inode) (k : nat) : Z := default 0 (i_addrs ip !! k).
Definition set_addr (i : nat) (k : nat) (a : Z) : K unit :=
  set_inode i (upd_i_addrs (insert k a)).

Definition bmap (i : nat) (bn : Z) : K Z :=
  ip <- get_inode i;
  if bn <? NDIRECT then
    let addr := addr_of ip (Z.to_nat bn) in
    if addr =? 0 then
      addr <- balloc (i_dev ip);
      set_addr i (Z.to_nat bn) addr ;;
      kret addr
    else kret addr
  else
  let bn := bn - NDIRECT in
  if bn <? NINDIRECT then
    addr <- (let addr := addr_of ip (Z.to_nat NDIRECT) in
             if addr =? 0 then
               addr <- balloc (i_dev ip);
               set_addr i (Z.to_nat NDIRECT) addr ;;
               kret addr
             else kret addr);
    bp <- bread (i_dev ip) addr;
    bf <- get_buf bp;
    let a := rd 4 (b_data bf) (Z.to_nat (4 * bn)) in
    addr <- (if a =? 0 then
               addr <- balloc (i_dev ip);
               set_buf bp (upd_b_data (fun d => wr 4 d (Z.to_nat (4 * bn)) addr)) ;;
               log_write bp ;;
               kret addr
             else kret a);
    brelse bp ;;
    kret addr
  else panic "bmap: out of range".

Definition itrunc (i : nat) : K unit :=
  kiter (seq 0 (Z.to_nat NDIRECT)) (fun k =>
    ip <- get_inode i;
    kwhen (negb (addr_of ip k =? 0))
      (bfree (i_dev ip) (addr_of ip k) ;;
       set_addr i k 0)) ;;
  ip <- get_inode i;
  let ind := addr_of ip (Z.to_nat NDIRECT) in
  kwhen (negb (ind =? 0))
    (bp <- bread (i_dev ip) ind;
     kiter (seq 0 (Z.to_nat NINDIRECT)) (fun j =>
       bf <- get_buf bp;
       let a := rd 4 (b_data bf) (4 * j) in
       kwhen (negb (a =? 0)) (bfree (i_dev ip) a)) ;;
     brelse bp ;;
     bfree (i_dev ip) ind ;;
     set_addr i (Z.to_nat NDIRECT) 0) ;;
  set_inode i (upd_i_size (fun _ => 0)) ;;
  iupdate i.

Definition iput (i : nat) : K unit :=
  acquiresleep (SL_inode i) ;;
  ip <- get_inode i;
  kwhen (i_valid ip && (i_nlink ip =? 0))
    (acquire LK_icache ;;
     ip <- get_inode i;
     let r := i_ref ip in
     release LK_icache ;;
     kwhen (r =? 1)
       (itrunc i ;;
        set_inode i (upd_i_type (fun _ => 0)) ;;
        iupdate i ;;
        set_inode i (upd_i_valid (fun _ => false)))) ;;
  releasesleep (SL_inode i) ;;
  acquire LK_icache ;;
  set_inode i (upd_i_ref (fun r => r - 1)) ;;
  release LK_icache.

Definition iunlockput (i : nat) : K unit := iunlock i ;; iput i.

(** [struct stat], as [stati] fills it. *)
Record stat := Stat { st_type : Z; st_dev : Z; st_ino : Z; st_nlink : Z; st_size : Z }.

Definition stati (i : nat) : K stat :=
  ip <- get_inode i;
  kret (Stat (i_type ip) (s32 (i_dev ip)) (i_inum ip) (i_nlink ip) (i_size ip)).

(** The loop of [readi] from [tot] on, with the bytes still to be copied to [dst]. *)
Fixpoint readi_loop (fl : nat) (i : nat) (off tot n : Z) : K (list Z) :=
  if tot <? n then
    match fl with
    | O => fun _ => NoFuel
    | S fl =>
        ip <- get_inode i;
        addr <- bmap i (off / BSIZE);
        bp <- bread (i_dev ip) addr;
        bf <- get_buf bp;
        let m := Z.min (n - tot) (BSIZE - off mod BSIZE) in
        let out := slice (Z.to_nat (off mod BSIZE)) (Z.to_nat m) (b_data bf) in
        brelse bp ;;
        rest <- readi_loop fl i (off + m) (tot + m) n;
        kret (out ++ rest)
    end
  else kret [].

(** At least one byte is copied in each round. *)
Definition readi (i : nat) (off n : Z) : K (Z * list Z) :=
  ip <- get_inode i;
  if i_type ip =? T_DEV then
    if (i_major ip <? 0) || (NDEV <=? i_major ip) then kret (-1, [])
    else match dev_read (i_major ip) with
         | Some f => f i (s32 n)
         | None => kret (-1, [])
         end
  else
  if (i_size ip <? off) || (u32 (off + n) <? off) then kret (-1, []) else
  let n := if i_size ip <? off + n then i_size ip - off else n in
  out <- readi_loop (Z.to_nat n) i off 0 n;
  kret (s32 n, out).

Fixpoint writei_loop (fl : nat) (i : nat) (src : list Z) (off tot n : Z) : K Z :=
  if tot <? n then
    match fl with
    | O => fun _ => NoFuel
    | S fl =>
        ip <- get_inode i;
        addr <- bmap i (off / BSIZE);
        bp <- bread (i_dev ip) addr;
        let m := Z.min (n - tot) (BSIZE - off mod BSIZE) in
        set_buf bp (upd_b_data (splice (Z.to_nat (off mod BSIZE)) (take (Z.to_nat m) src))) ;;
        log_write bp ;;
        brelse bp ;;
        writei_loop fl i (drop (Z.to_nat m) src) (off + m) (tot + m) n
    end
  else kret off.

Definition writei (i : nat) (src : list Z) (off n : Z) : K Z :=
  ip <- get_inode i;
  if i_type ip =? T_DEV then
    if (i_major ip <? 0) || (NDEV <=? i_major ip) then kret (-1)
    else match dev_write (i_major ip) with
         | Some f => f i src (s32 n)
         | None => kret (-1)
         end
  else
  if (i_size ip <? off) || (u32 (off + n) <? off) then kret (-1) else
  if MAXFILE * BSIZE <? off + n then kret (-1) else
  off <- writei_loop (Z.to_nat n) i src off 0 n;
  ip <- get_inode i;
  kwhen ((0 <? n) && (i_size ip <? off))
    (set_inode i (upd_i_size (fun _ => off)) ;;
     iupdate i) ;;
  kret (s32 n).

(** ** Directories *)

Definition namecmp (s t : list Z) : Z := StringC.strncmp (StringC.at_ s) (StringC.at_ t) DIRSIZ.

(** The entry's inode and its offset. *)
Fixpoint dirlookup_loop (n : nat) (dp : nat) (name : list Z) (off : Z) : K (option (nat * Z)) :=
  d <- get_inode dp;
  if off <? i_size d then
    match n with
    | O => fun _ => NoFuel
    | S n =>
        r <- readi dp off sizeof_dirent;
        if negb (r.1 =? sizeof_dirent) then panic "dirlookup read" else
        let de := r.2 in
        if de_inum de =? 0 then dirlookup_loop n dp name (off + sizeof_dirent)
        else if namecmp name (de_name de) =? 0 then
          ip <- iget (i_dev d) (de_inum de);
          kret (Some (ip, off))
        else dirlookup_loop n dp name (off + sizeof_dirent)
    end
  else kret None.
Definition dirlookup (dp : nat) (name : list Z) : K (option (nat * Z)) :=
  d <- get_inode dp;
  if negb (i_type d =? T_DIR) then panic "dirlookup not DIR" else
  dirlookup_loop (S (Z.to_nat (i_size d / sizeof_dirent))) dp name 0.

(** The search for an empty entry in [dirlink]: its offset, or the end. *)
Fixpoint dirlink_loop (n : nat) (dp : nat) (off : Z) : K Z :=
  d <- get_inode dp;
  if off <? i_size d then
    match n with
    | O => fun _ => NoFuel
    | S n =>
        r <- readi dp off sizeof_dirent;
        if negb (r.1 =? sizeof_dirent) then panic "dirlink read" else
        if de_inum r.2 =? 0 then kret off else dirlink_loop n dp (off + sizeof_dirent)
    end
  else kret off.

Definition dirlink (dp : nat) (name : list Z) (inum : Z) : K Z :=
  r <- dirlookup dp name;
  match r with
  | Some (ip, _) => iput ip ;; kret (-1)
  | None =>
      d <- get_inode dp;
      off <- dirlink_loop (S (Z.to_nat (i_size d / sizeof_dirent))) dp 0;
      let de := mk_dirent (u16 inum) (StringC.strncpy (StringC.at_ name) DIRSIZ) in
      w <- writei dp de off sizeof_dirent;
      if negb (w =? sizeof_dirent) then panic "dirlink" else kret 0
  end.
End Fs.

(** ** Paths *)

Definition slash : Z := ch "/".

Fixpoint skip_slashes (path : list Z) : list Z :=
  match path with
  | c :: rest => if c =? slash then skip_slashes rest else path
  | [] => []
  end.

(** [while( *path != '/' && *path != 0) path++;]: the element and what follows it. *)
Fixpoint take_elem (path : list Z) : list Z * list Z :=
  match path with
  | c :: rest =>
      if c =? slash then ([], path) else let '(e, r) := take_elem rest in (c :: e, r)
  | [] => ([], [])
  end.

(** A path is the bytes before its NUL. [skipelem(path, name)]: the new [path] and the new
    contents of [name]. *)
Definition skipelem (path name : list Z) : option (list Z * list Z) :=
  let path := skip_slashes path in
  match path with
  | [] => None
  | _ =>
      let '(s, path) := take_elem path in
      let len := length s in
      let name := if Nat.leb DIRSIZ len then splice 0 (take DIRSIZ s) name
                  else splice 0 (s ++ [0]) name in
      Some (skip_slashes path, name)
  end.

Section Paths.
Context `{Fuel} `{Devsw}.

(** The loop of [namex]; the result carries the contents of [name]. *)
Fixpoint namex_loop (n : nat) (ip : nat) (path : list Z) (parent : bool) (name : list Z) :
    K (option nat * list Z) :=
  match skipelem path name with
  | None => if parent then iput ip ;; kret (None, name) else kret (Some ip, name)
  | Some (path, name) =>
      match n with
      | O => fun _ => NoFuel
      | S n =>
          ilock ip ;;
          x <- get_inode ip;
          if negb (i_type x =? T_DIR) then iunlockput ip ;; kret (None, name) else
          if parent && bool_decide (path = []) then iunlock ip ;; kret (Some ip, name) else
          next <- dirlookup ip name;
          match next with
          | None => iunlockput ip ;; kret (None, name)
          | Some (next, _) => iunlockput ip ;; namex_loop n next path parent name
          end
      end
  end.

Definition namex (path : list Z) (parent : bool) (name : list Z) : K (option nat * list Z) :=
  ip <- (match path with
         | c :: _ =>
             if c =? slash then iget ROOTDEV ROOTINO
             else p <- curproc; pr <- get_proc p;
                  match p_cwd pr with Some d => idup d | None => panic "null cwd" end
         | [] =>
             p <- curproc; pr <- get_proc p;
             match p_cwd pr with Some d => idup d | None => panic "null cwd" end
         end);
  namex_loop (length path) ip path parent name.

(** [name] starts out with whatever is on the stack. *)
Definition namei (path : list Z) : K (option nat) :=
  r <- namex path false (replicate DIRSIZ 0);
  kret r.1.
Definition nameiparent (path name : list Z) : K (option nat * list Z) := namex path true name.
End Paths.
