(* ===== verification/Balloc.v ===== *)
(** * Allocating a block: what [balloc] does

    [used] reads the free map through the buffer cache; [balloc] marks the first block that
    is free there and zeroes it. *)

From S2P Require Import Prelude Kernel Sched Bio Layout Log Tx Printf Cons Fs.

(** ** The free map *)

Definition bit_of (d : list Z) (bi : Z) : bool := Z.testbit (byte_at d (bi / 8)) (bi mod 8).

(** The block with bit [bi] set, as [balloc] writes it. *)
Definition with_bit (bi : Z) (d : list Z) : list Z :=
  set_byte d (bi / 8) (Z.lor (byte_at d (bi / 8)) (Z.shiftl 1 (bi mod 8))).

Lemma land_bit x k : 0 <= k -> (Z.land x (Z.shiftl 1 k) =? 0) = negb (Z.testbit x k).
Proof.
  intros Hk. destruct (Z.testbit x k) eqn:E; cbn [negb].
  - apply Z.eqb_neq. intros H. assert (Hb : Z.testbit (Z.land x (Z.shiftl 1 k)) k = true).
    { rewrite Z.land_spec, E, Z.shiftl_spec, Z.sub_diag by lia. done. }
    by rewrite H, Z.bits_0 in Hb.
  - apply Z.eqb_eq, Z.bits_inj'. intros i Hi. rewrite Z.land_spec, Z.bits_0, Z.shiftl_spec by done.
    destruct (Z.eq_dec i k) as [->|Hne]; [by rewrite E|].
    assert (H1 : Z.testbit 1 (i - k) = false).
    { destruct (Z_lt_le_dec (i - k) 0); [by apply Z.testbit_neg_r|]. change 1 with (2 ^ 0). apply Z.pow2_bits_false. lia. }
    by rewrite H1, andb_false_r.
Qed.

Lemma byte_at_range d i : block_ok d -> 0 <= byte_at d i < 256.
Proof.
  intros [_ Hb]. unfold byte_at. destruct (d !! Z.to_nat i) as [x|] eqn:E; cbn; [|lia].
  exact (Forall_lookup_1 _ _ _ _ Hb E).
Qed.

Lemma byte_at_set d i j v : 0 <= i -> 0 <= j < Z.of_nat (length d) -> byte_at (set_byte d j v) i = if i =? j then u8 v else byte_at d i.
Proof.
  intros Hi Hj. unfold byte_at, set_byte. destruct (Z.eqb_spec i j) as [->|Hne].
  - by rewrite list_lookup_insert_eq by lia.
  - by rewrite list_lookup_insert_ne by lia.
Qed.

Lemma lor_byte x k : 0 <= x < 256 -> 0 <= k < 8 -> 0 <= Z.lor x (Z.shiftl 1 k) < 256.
Proof.
  intros Hx Hk. assert (H0 : 0 <= Z.lor x (Z.shiftl 1 k)) by (apply Z.lor_nonneg; split; [lia|apply Z.shiftl_nonneg; lia]).
  split; [done|]. destruct (Z_lt_le_dec (Z.lor x (Z.shiftl 1 k)) 256) as [|Hge]; [done|exfalso].
  assert (Hl : Z.log2 (Z.lor x (Z.shiftl 1 k)) < 8).
  { rewrite Z.log2_lor by (try apply Z.shiftl_nonneg; lia). rewrite Z.shiftl_1_l, Z.log2_pow2 by lia.
    assert (Z.log2 x <= 7) by (change 7 with (Z.log2 255); apply Z.log2_le_mono; lia). lia. }
  apply Z.log2_lt_pow2 in Hl; [change (2 ^ 8) with 256 in Hl; lia|lia].
Qed.

Lemma with_bit_ok bi d : block_ok d -> 0 <= bi < BPB -> block_ok (with_bit bi d).
Proof.
  intros [Hl Hb] Hbi. unfold with_bit, set_byte. split; [by rewrite length_insert|].
  apply Forall_insert; [done|]. apply u8_range.
Qed.

Lemma bit_with_bit bi d i :
  block_ok d -> 0 <= bi < BPB -> 0 <= i < BPB -> bit_of (with_bit bi d) i = (i =? bi) || bit_of d i.
Proof.
  intros Hok Hbi Hi. pose proof (proj1 Hok) as Hl. change (Z.to_nat BSIZE) with 512%nat in Hl. unfold BPB, BSIZE in *.
  unfold bit_of, with_bit. rewrite byte_at_set by (rewrite ?Hl; dlia).
  destruct (Z.eqb_spec (i / 8) (bi / 8)) as [E|E].
  - pose proof (Z.mod_pos_bound bi 8 ltac:(lia)). pose proof (Z.mod_pos_bound i 8 ltac:(lia)).
    rewrite u8_id by (apply lor_byte; [by apply byte_at_range|lia]).
    rewrite Z.lor_spec, Z.shiftl_spec, E by lia. destruct (Z.eqb_spec i bi) as [->|Hne].
    + rewrite Z.sub_diag. by rewrite orb_true_r.
    + assert (H1 : Z.testbit 1 (i mod 8 - bi mod 8) = false).
      { destruct (Z_lt_le_dec (i mod 8 - bi mod 8) 0); [by apply Z.testbit_neg_r|].
        change 1 with (2 ^ 0). apply Z.pow2_bits_false. dlia. }
      by rewrite H1, orb_false_r.
  - destruct (Z.eqb_spec i bi) as [->|]; done.
Qed.

(** The search in a block of the map. *)
Lemma free_bit_spec n d b bi size :
  0 <= bi -> BPB <= bi + Z.of_nat n ->
  match free_bit n d b bi size with
  | Some j => bi <= j < BPB /\ b + j < size /\ bit_of d j = false /\ forall i, bi <= i < j -> bit_of d i = true
  | None => forall i, bi <= i < BPB -> b + i < size -> bit_of d i = true
  end.
Proof.
  revert bi. induction n as [|n IH]; intros bi Hbi Hn; cbn [free_bit]; [intros; lia|].
  destruct (Z.ltb_spec bi BPB) as [Hlt|]; cbn [andb]; [|intros; lia].
  destruct (Z.ltb_spec (b + bi) size) as [Hs|]; [|intros; lia]. cbv zeta.
  rewrite land_bit by (apply Z.mod_pos_bound; lia). fold (bit_of d bi).
  destruct (bit_of d bi) eqn:E; cbn [negb].
  - specialize (IH (bi + 1) ltac:(lia) ltac:(lia)). destruct (free_bit n d b (bi + 1) size) as [j|].
    + destruct IH as (H1 & H2 & H3 & H4). split; [lia|]. split; [done|]. split; [done|].
      intros i Hi. destruct (Z.eq_dec i bi) as [->|]; [done|]. apply H4. lia.
    + intros i Hi Hsz. destruct (Z.eq_dec i bi) as [->|]; [done|]. apply IH; lia.
  - split; [lia|]. split; [done|]. split; [done|]. intros; lia.
Qed.

(** ** The layout of the disk *)

Definition bitmaps (sb : superblock) : Z := sb_size sb / BPB + 1.

(** The first block that can be allocated. *)
Definition data_start (sb : superblock) : Z := sb_bmapstart sb + bitmaps sb.

Definition used (s : kstate) (b : Z) : bool := bit_of (view s (BBLOCK b (k_sb s))) (b mod BPB).

(** The log comes before the inodes, these before the map and the map before the data; what
    comes before the data is marked used. *)
Record geometry (s : kstate) : Prop := {
  geo_size : 0 <= sb_bmapstart (k_sb s) /\ data_start (k_sb s) <= sb_size (k_sb s) <= k_disksize s;
  geo_disk : k_disksize s < 2 ^ 31;
  geo_log : log_start (k_log s) + log_size (k_log s) <= sb_inodestart (k_sb s);
  geo_inodes : 0 <= sb_inodestart (k_sb s) /\ 0 <= sb_ninodes (k_sb s) /\ sb_inodestart (k_sb s) + sb_ninodes (k_sb s) / IPB < sb_bmapstart (k_sb s);
  geo_used : forall b, 0 <= b < data_start (k_sb s) -> used s b = true;
}.

(** The blocks of the map. *)
Definition map_blocks (sb : superblock) : list Z := seqZ (sb_bmapstart sb) (bitmaps sb).

Lemma BBLOCK_spec s b : geometry s -> 0 <= b < sb_size (k_sb s) -> BBLOCK b (k_sb s) = sb_bmapstart (k_sb s) + b / BPB.
Proof.
  intros [G1 G2 _ _ _] Hb. unfold BBLOCK, data_start, bitmaps, BPB, BSIZE in *. rewrite u32_id by dlia. lia.
Qed.

Lemma BBLOCK_in s b : geometry s -> 0 <= b < sb_size (k_sb s) -> BBLOCK b (k_sb s) ∈ map_blocks (k_sb s).
Proof.
  intros Hg Hb. rewrite BBLOCK_spec by done. apply elem_of_seqZ. unfold bitmaps, BPB, BSIZE. dlia.
Qed.

Lemma data_not_log s b : geometry s -> data_start (k_sb s) <= b -> ~ in_log (k_log s) b.
Proof.
  intros [G1 G2 G3 G4 _] Hb. unfold in_log, data_start, bitmaps in *. change BPB with 4096 in *. change IPB with 8 in *. dlia.
Qed.

Lemma map_block_range s n : geometry s -> n ∈ map_blocks (k_sb s) ->
  0 <= n < data_start (k_sb s) /\ n < k_disksize s /\ ~ in_log (k_log s) n.
Proof.
  intros [G1 G2 G3 G4 _] Hn. apply elem_of_seqZ in Hn. unfold data_start in *. split; [lia|]. split; [lia|]. unfold in_log.
  change IPB with 8 in *. dlia.
Qed.

Lemma geometry_later s s' :
  geometry s -> later s s' -> (forall b, 0 <= b < sb_size (k_sb s) -> used s b = true -> used s' b = true) -> geometry s'.
Proof.
  intros [G1 G2 G3 G4 G5] Hl Hu. destruct (later_same _ _ Hl) as (_ & Hd & Hsb).
  constructor; rewrite ?Hd, ?Hsb, ?(lt_start _ _ Hl), ?(lt_size _ _ Hl); try done.
  intros b Hb. apply Hu; [lia|]. by apply G5.
Qed.

Lemma used_quiet s s' b : later s s' -> (forall n, view s' n = view s n) -> used s' b = used s b.
Proof. intros Hl Hv. unfold used. destruct (later_same _ _ Hl) as (_ & _ & ->). by rewrite Hv. Qed.

Section Alloc.
Context `{Fuel} `{Devsw} (pid : Z).

Lemma bzero_ok s hs W k b :
  tx s pid hs W (S k) -> (length hs <= k)%nat -> 0 <= b < k_disksize s -> k_disksize s < 2 ^ 31 -> ~ in_log (k_log s) b ->
  (forall i, i ∈ hs -> b_blockno (buf_at s i) <> b) ->
  exists s', bzero 1 b s = Ok tt s' /\ set_block pid hs W k b zero_block s s'.
Proof using Type.
  intros Ht Hk Hb Hd Hl Hn. unfold bzero. change (u32 1) with 1. rewrite u32_id by lia.
  destruct (tx_open_block pid s hs W (S k) b Ht ltac:(lia) Hb Hn) as (bp & bf & s1 & Hr & _ & _ & _ & Hset).
  rewrite (kbind_ok _ _ _ _ _ Hr). unfold set_buf at 1. rewrite (kbind_ok (modify _) _ _ tt _ eq_refl).
  destruct (Hset (fun _ => replicate (Z.to_nat BSIZE) 0) k) as (s2 & s3 & Hlw & Hrel & Hs3).
  - exact zero_block_ok.
  - done.
  - unfold cost. case_decide; [lia|]. case_decide; lia.
  - rewrite (kbind_ok _ _ _ _ _ Hlw). by exists s3.
Qed.

(** What an allocation of block [b] changes. *)
Record allocated (hs : list nat) (W : list Z) (k : nat) (b : Z) (s s' : kstate) : Prop := {
  al_tx : tx s' pid hs W k;
  al_later : later s s';
  al_held : held_same hs s s';
  al_range : data_start (k_sb s) <= b < sb_size (k_sb s);
  al_first : forall b', 0 <= b' < b -> used s b' = true;
  al_view : forall n, view s' n =
    if n =? b then zero_block
    else if n =? BBLOCK b (k_sb s) then with_bit (b mod BPB) (view s n) else view s n;
  al_used : used s b = false /\ forall b', 0 <= b' < sb_size (k_sb s) -> used s' b' = (b' =? b) || used s b';
  al_txn : b ∈ txn (k_log s');
}.

(** The blocks held are in use, and not of the free map. *)
Definition held_used (hs : list nat) (s : kstate) : Prop :=
  forall i, i ∈ hs -> data_start (k_sb s) <= b_blockno (buf_at s i) < sb_size (k_sb s) /\ used s (b_blockno (buf_at s i)) = true.

Lemma held_used_step hs s s' :
  held_used hs s -> held_same hs s s' -> later s s' ->
  (forall b, data_start (k_sb s) <= b < sb_size (k_sb s) -> used s b = true -> used s' b = true) -> held_used hs s'.
Proof using Type.
  intros Hu Hs Hl Hm i Hi. destruct (Hu i Hi) as [H1 H2], (Hs i Hi) as [-> _].
  destruct (later_same _ _ Hl) as (_ & _ & ->). split; [done|]. by apply Hm.
Qed.

(** Setting the bit of [b] in the map marks [b] used and no other block. *)
Lemma used_with_bit s s' b :
  geometry s -> k_sb s' = k_sb s -> (forall n, block_ok (view s n)) -> data_start (k_sb s) <= b < sb_size (k_sb s) ->
  (forall n, n < data_start (k_sb s) ->
     view s' n = if n =? BBLOCK b (k_sb s) then with_bit (b mod BPB) (view s n) else view s n) ->
  forall b', 0 <= b' < sb_size (k_sb s) -> used s' b' = (b' =? b) || used s b'.
Proof using Type.
  intros Hg Hsb Hok Hb Hv b' Hb'. pose proof (geo_size _ Hg) as G1.
  destruct (map_block_range s _ Hg (BBLOCK_in s b' Hg Hb')) as [R1 _].
  assert (Hd : 0 <= data_start (k_sb s)) by lia.
  unfold used. rewrite Hsb, Hv by lia. rewrite !BBLOCK_spec by (done || lia). change BPB with 4096 in *.
  destruct (Z.eqb_spec (sb_bmapstart (k_sb s) + b' / 4096) (sb_bmapstart (k_sb s) + b / 4096)) as [E|E].
  - rewrite bit_with_bit by (done || (change BPB with 4096; dlia)). f_equal.
    apply eq_bool_prop_intro. rewrite !Is_true_true, !Z.eqb_eq. split; [dlia|by intros ->].
  - destruct (Z.eqb_spec b' b) as [->|]; done.
Qed.

(** The block found, in one block of the map. *)
Lemma take_bit s hs W k b j :
  tx s pid hs W (S k) -> (length hs <= k)%nat -> geometry s -> held_used hs s -> (forall n, n ∈ map_blocks (k_sb s) -> n ∈ W) ->
  b mod BPB = 0 -> 0 <= b -> 0 <= j < BPB -> b + j < sb_size (k_sb s) -> used s (b + j) = false ->
  (forall b', 0 <= b' < b + j -> used s b' = true) ->
  exists bp bf s1 s2 s3 s4, bread 1 (BBLOCK b (k_sb s)) s = Ok bp s1 /\ get_buf bp s1 = Ok bf s1 /\
    b_data bf = view s (BBLOCK b (k_sb s)) /\
    log_write bp (upd_k_bufs (alter (upd_b_data (with_bit j)) bp) s1) = Ok tt s2 /\ brelse bp s2 = Ok tt s3 /\
    bzero 1 (b + j) s3 = Ok tt s4 /\ allocated hs W k (b + j) s s4.
Proof using Type.
  intros Ht Hk Hg Hh HW Hb Hb0 Hj Hsz Hfree Hfirst.
  pose proof (geo_size _ Hg) as G1. pose proof (geo_disk _ Hg) as G2.
  assert (HB : BBLOCK b (k_sb s) = BBLOCK (b + j) (k_sb s)).
  { rewrite !BBLOCK_spec by (done || lia). change BPB with 4096 in *. dlia. }
  assert (Hmb : BBLOCK b (k_sb s) ∈ map_blocks (k_sb s)) by (apply BBLOCK_in; [done|lia]).
  destruct (map_block_range s _ Hg Hmb) as (R1 & R2 & R3).
  assert (Hds : data_start (k_sb s) <= b + j).
  { destruct (Z_lt_le_dec (b + j) (data_start (k_sb s))) as [Hlt|]; [|done].
    pose proof (geo_used _ Hg (b + j) ltac:(lia)). congruence. }
  assert (Hheld : forall i, i ∈ hs -> b_blockno (buf_at s i) <> BBLOCK b (k_sb s)).
  { intros i Hi. destruct (Hh i Hi) as [H1 _]. lia. }
  destruct (tx_open_block pid s hs W (S k) _ Ht ltac:(lia) (conj (proj1 R1) R2) Hheld) as (bp & bf & s1 & Hr & Hgb & Hd & _ & Hset).
  assert (Hvok : block_ok (view s (BBLOCK b (k_sb s)))) by (apply (view_ok s pid hs), (tx_bio _ _ _ _ _ Ht)).
  destruct (Hset (with_bit j) (S k)) as (s2 & s3 & Hlw & Hrel & Hs3); [by apply with_bit_ok|done| |].
  { unfold cost. rewrite decide_True by (by apply HW). lia. }
  pose proof (sb_later _ _ _ _ _ _ _ _ Hs3) as Hl3. destruct (later_same _ _ Hl3) as (_ & D3 & B3).
  destruct (bzero_ok s3 hs W k (b + j)) as (s4 & Hz & Hs4).
  { apply (sb_tx _ _ _ _ _ _ _ _ Hs3). }
  { done. }
  { rewrite D3. lia. }
  { by rewrite D3. }
  { rewrite (later_in_log _ _ _ Hl3). by apply data_not_log. }
  { intros i Hi. destruct (sb_held _ _ _ _ _ _ _ _ Hs3 i Hi) as [-> _]. destruct (Hh i Hi) as [_ H2]. intros E. congruence. }
  exists bp, bf, s1, s2, s3, s4. do 6 (split; [done|]).
  assert (Hmod : (b + j) mod BPB = j) by (change BPB with 4096 in *; dlia).
  assert (Hv : forall n, view s4 n = if n =? b + j then zero_block
    else if n =? BBLOCK (b + j) (k_sb s) then with_bit ((b + j) mod BPB) (view s n) else view s n).
  { intros n. rewrite (sb_view _ _ _ _ _ _ _ _ Hs4), (sb_view _ _ _ _ _ _ _ _ Hs3), HB, Hmod.
    destruct (n =? b + j); [done|]. by destruct (Z.eqb_spec n (BBLOCK (b + j) (k_sb s))) as [->|]. }
  pose proof (sb_later _ _ _ _ _ _ _ _ Hs4) as Hl4. constructor; try done.
  - apply (sb_tx _ _ _ _ _ _ _ _ Hs4).
  - by transitivity s3.
  - eapply held_same_trans; [apply (sb_held _ _ _ _ _ _ _ _ Hs3)|apply (sb_held _ _ _ _ _ _ _ _ Hs4)].
  - split; [done|]. apply (used_with_bit s s4 (b + j) Hg); [|intros n; by apply (view_ok s pid hs), (tx_bio _ _ _ _ _ Ht)|done|].
    + destruct (later_same _ _ Hl4) as (_ & _ & ->). done.
    + intros n Hn. rewrite Hv, (proj2 (Z.eqb_neq n (b + j))) by lia. done.
  - apply (sb_txn _ _ _ _ _ _ _ _ Hs4).
Qed.

(** What [balloc] gives. *)
Definition balloc_result (hs : list nat) (W : list Z) (k : nat) (s : kstate) (r : res Z) : Prop :=
  (exists b s', r = Ok b s' /\ allocated hs W k b s s') \/
  (r = Panic "balloc: out of blocks" /\ forall b, 0 <= b < sb_size (k_sb s) -> used s b = true).

Lemma allocated_quiet hs W k b s s1 s2 :
  quiet pid hs W (S k) s s1 -> allocated hs W k b s1 s2 -> allocated hs W k b s s2.
Proof using Type.
  intros [T1 L1 V1 H1] [T2 L2 H2 R2 F2 V2 [U2 U3] X2]. destruct (later_same _ _ L1) as (_ & D1 & B1).
  assert (Hu : forall n, used s1 n = used s n) by (intros n; by apply used_quiet). rewrite B1 in *.
  constructor; try done.
  - by transitivity s1.
  - by eapply held_same_trans.
  - intros b' Hb'. rewrite <- Hu. auto.
  - intros n. by rewrite V2, V1.
  - rewrite <- Hu. split; [done|]. intros b' Hb'. rewrite <- Hu. auto.
Qed.

Lemma balloc_loop_ok n : forall s hs W k b,
  tx s pid hs W (S k) -> (length hs <= k)%nat -> geometry s -> held_used hs s -> (forall n, n ∈ map_blocks (k_sb s) -> n ∈ W) ->
  b mod BPB = 0 -> 0 <= b -> sb_size (k_sb s) < b + BPB * Z.of_nat n + 1 ->
  (forall b', 0 <= b' < b -> b' < sb_size (k_sb s) -> used s b' = true) ->
  balloc_result hs W k s (balloc_loop n 1 b s).
Proof using Type.
  induction n as [|n IH]; intros s hs W k b Ht Hk Hg Hh HW Hb Hb0 Hn Hfirst; cbn [balloc_loop];
    rewrite (kbind_ok (gets k_sb) _ s (k_sb s) s eq_refl).
  - rewrite (proj2 (Z.ltb_ge _ _)) by lia. right. split; [done|]. intros b' Hb'. apply Hfirst; lia.
  - destruct (Z.ltb_spec b (sb_size (k_sb s))) as [Hlt|Hge].
    2:{ right. split; [done|]. intros b' Hb'. apply Hfirst; lia. }
    assert (Hfb := free_bit_spec (Z.to_nat BPB) (view s (BBLOCK b (k_sb s))) b 0 (sb_size (k_sb s)) ltac:(lia) ltac:(done)).
    assert (Hbit : forall i, 0 <= i < BPB -> b + i < sb_size (k_sb s) -> used s (b + i) = bit_of (view s (BBLOCK b (k_sb s))) i).
    { intros i Hi Hs. unfold used. rewrite !BBLOCK_spec by (done || lia). change BPB with 4096 in *.
      replace ((b + i) / 4096) with (b / 4096) by dlia. by replace ((b + i) mod 4096) with i by dlia. }
    destruct (free_bit (Z.to_nat BPB) (view s (BBLOCK b (k_sb s))) b 0 (sb_size (k_sb s))) as [j|] eqn:Ej.
    + destruct Hfb as (H1 & H2 & H3 & H4).
      destruct (take_bit s hs W k b j) as (bp & bf & s1 & s2 & s3 & s4 & Hr & Hgb & Hd & Hlw & Hrel & Hz & Ha); try done.
      { rewrite Hbit by lia. done. }
      { intros b' Hb'. destruct (Z_lt_le_dec b' b) as [|Hge]; [apply Hfirst; lia|].
        replace b' with (b + (b' - b)) by lia. rewrite Hbit by lia. apply H4. lia. }
      left. exists (b + j), s4. split; [|done].
      rewrite (kbind_ok _ _ _ _ _ Hr), (kbind_ok _ _ _ _ _ Hgb), Hd, Ej.
      unfold set_buf at 1. rewrite (kbind_ok (modify _) _ _ tt _ eq_refl).
      change (fun d : list Z => set_byte d (j / 8) (byte_at d (j / 8) .| Z.shiftl 1 (j mod 8))) with (with_bit j).
      by rewrite (kbind_ok _ _ _ _ _ Hlw), (kbind_ok _ _ _ _ _ Hrel), (kbind_ok _ _ _ _ _ Hz).
    + destruct (map_block_range s _ Hg (BBLOCK_in s b Hg ltac:(lia))) as (R1 & R2 & R3).
      destruct (tx_open_block pid s hs W (S k) (BBLOCK b (k_sb s)) Ht ltac:(lia) ltac:(lia)) as (bp & bf & s1 & Hr & Hgb & Hd & (s2 & Hrel & Hq) & _).
      { intros i Hi. destruct (Hh i Hi) as [H1 _]. lia. }
      rewrite (kbind_ok _ _ _ _ _ Hr), (kbind_ok _ _ _ _ _ Hgb), Hd, Ej, (kbind_ok _ _ _ _ _ Hrel).
      pose proof Hq as [T2 L2 V2 H2]. destruct (later_same _ _ L2) as (_ & D2 & B2).
      assert (Hu : forall n, used s2 n = used s n) by (intros m; by apply used_quiet).
      destruct (IH s2 hs W k (b + BPB)) as [(b' & s' & Hrun & Ha)|[Hrun Hall]]; rewrite ?B2; try done.
      { apply (geometry_later s); [done|done|]. intros m _. by rewrite Hu. }
      { apply (held_used_step hs s); try done. intros m _. by rewrite Hu. }
      { change BPB with 4096 in *. dlia. }
      { change BPB with 4096 in *. lia. }
      { lia. }
      { intros b' Hb' Hs. rewrite Hu. destruct (Z_lt_le_dec b' b); [apply Hfirst; lia|].
        replace b' with (b + (b' - b)) by lia. rewrite Hbit by lia. apply Hfb; lia. }
      * left. exists b', s'. split; [done|]. by eapply allocated_quiet.
      * right. split; [done|]. intros b' Hb'. rewrite <- Hu. apply Hall. by rewrite B2.
Qed.

Lemma balloc_ok s hs W k :
  tx s pid hs W (S k) -> (length hs <= k)%nat -> geometry s -> held_used hs s -> (forall n, n ∈ map_blocks (k_sb s) -> n ∈ W) ->
  balloc_result hs W k s (balloc 1 s).
Proof using Type.
  intros Ht Hk Hg Hh HW. unfold balloc. rewrite (kbind_ok (gets k_sb) _ s (k_sb s) s eq_refl).
  pose proof (geo_size _ Hg) as G1. unfold data_start, bitmaps in G1. change BPB with 4096 in *.
  apply balloc_loop_ok; try done; try lia. change BPB with 4096. dlia.
Qed.

(** C10: [balloc] gives the first block that is free in the map, marks it and no other as
    used, and zeroes it; every other block but the one of the map keeps its contents, and
    both are part of the transaction. When the map has no free block it panics. *)
Theorem balloc_allocates (s : kstate) (hs : list nat) (W : list Z) (k : nat)
    (Ht : tx s pid hs W (S k)) (Hk : (length hs <= k)%nat) (Hg : geometry s) (Hh : held_used hs s)
    (HW : forall n, n ∈ map_blocks (k_sb s) -> n ∈ W) :
  balloc_result hs W k s (balloc 1 s).
Proof using Type. by apply balloc_ok. Qed.
End Alloc.

(** ** A small disk

    The log is in blocks 1 to 7, one block of inodes is block 8, the map is block 10 and the
    data starts at block 11; blocks 12 and 13 are free. Inode 1 has block 11. *)
Definition small_sb : superblock := Superblock 14 3 8 7 1 8 10.
Definition small_inode : dinode := Dinode 2 0 0 1 512 (11 :: replicate 12 0).
Definition small_img : list (list Z) :=
  replicate 8 zero_block ++ [put_dinode zero_block 1 small_inode; zero_block; 255 :: 15 :: replicate 510 0;
    replicate 512 7] ++ replicate 4 zero_block.
Definition small_disk : kstate :=
  upd_k_sb (fun _ => small_sb) (upd_k_log (fun _ => Log 1 7 1 false 1 0 (replicate (Z.to_nat LOGSIZE) 0)) (fresh small_img)).

Lemma small_img_ok : Forall block_ok small_img.
Proof.
  assert (Hz : block_ok zero_block) by apply zero_block_ok.
  unfold small_img. apply Forall_app. split; [by apply Forall_replicate|].
  assert (Hr : forall n x, 0 <= x < 256 -> Forall (field_ok 8) (replicate n x)) by (intros n x Hx; apply Forall_replicate; unfold field_ok; lia).
  apply Forall_app. split; [|by apply Forall_replicate].
  apply Forall_cons. split; [|apply Forall_cons; split; [exact Hz|apply Forall_cons; split; [|apply Forall_singleton]]].
  - apply dinode_put_get; [exact Hz|]. unfold dinode_wf. cbn [d_type d_major d_minor d_nlink d_size d_addrs small_inode].
    do 5 (split; [lia|]). split; [reflexivity|]. apply Forall_cons. split; [lia|]. apply Forall_replicate. lia.
  - split; [reflexivity|]. do 2 (apply Forall_cons; split; [unfold field_ok; lia|]). apply Hr. lia.
  - split; [by rewrite length_replicate|]. apply Hr. lia.
Qed.

Lemma bio_ok_sb g s pid hs : bio_ok s pid hs -> bio_ok (upd_k_sb g s) pid hs.
Proof.
  intros [H1 H2 H3 H4 H5 H6 H7 H8]. constructor; [exact H1|exact H2|exact H3|exact H4|exact H5|exact H6| |exact H8].
  intros i bf Hi Hb. destruct (H7 i bf Hi Hb) as [S1 S2 S3 S4 S5 S6].
  constructor; [exact S1|exact S2|exact S3|exact S4|exact S5|exact S6].
Qed.

Lemma small_bio : bio_ok small_disk 1 [].
Proof. apply bio_ok_sb, bio_ok_log, binit_ok, small_img_ok. Qed.

Lemma small_sb_eq : k_sb small_disk = small_sb.
Proof. reflexivity. Qed.

Lemma small_log_eq : k_log small_disk = Log 1 7 1 false 1 0 (replicate (Z.to_nat LOGSIZE) 0).
Proof. reflexivity. Qed.

#[global] Opaque small_disk.

Lemma small_size : k_disksize small_disk = 16.
Proof. vm_compute. reflexivity. Qed.

Lemma small_clean : forallb (fun bf => negb (dirty bf)) (take NBUF (k_bufs small_disk)) = true.
Proof. vm_compute. reflexivity. Qed.

Lemma small_map : view small_disk 10 = 255 :: 15 :: replicate 510 0.
Proof. vm_compute. reflexivity. Qed.

Lemma small_used b : 0 <= b < 14 -> used small_disk b = (b <? 12).
Proof.
  intros Hb. unfold used. assert (E : BBLOCK b small_sb = 10). { unfold BBLOCK. change BPB with 4096. cbn. rewrite u32_id by dlia. dlia. }
  rewrite small_sb_eq, E, small_map. change BPB with 4096. rewrite Z.mod_small by lia.
  assert (Hc : b = 0 \/ b = 1 \/ b = 2 \/ b = 3 \/ b = 4 \/ b = 5 \/ b = 6 \/ b = 7 \/ b = 8 \/ b = 9 \/ b = 10 \/ b = 11 \/ b = 12 \/ b = 13) by lia.
  repeat destruct Hc as [->|Hc]; try reflexivity. subst. reflexivity.
Qed.

Lemma small_geometry : geometry small_disk.
Proof.
  assert (Hd : data_start small_sb = 11) by reflexivity.
  constructor; rewrite ?small_size, ?small_sb_eq, ?small_log_eq, ?Hd; cbn -[Z.div]; try (change IPB with 8); try lia.
  - dlia.
  - intros b Hb. rewrite small_used by lia. lia.
Qed.

Lemma small_log_inv : log_inv small_disk.
Proof.
  assert (Ht : txn (k_log small_disk) = []) by (by rewrite small_log_eq). constructor.
  - rewrite small_size, small_log_eq. constructor; cbn; lia || done.
  - split; rewrite Ht; [constructor|]. intros n Hn. by apply elem_of_nil in Hn.
  - intros n. rewrite Ht. split; [|by intros Hn%elem_of_nil].
    intros (i & bf & Hi & Hb & _ & Hd)%isdirty_iff. exfalso. pose proof small_clean as Hc. rewrite forallb_forall in Hc.
    specialize (Hc bf). rewrite Hd in Hc. assert (Hin : In bf (take NBUF (k_bufs small_disk))).
    { apply list_elem_of_In, list_elem_of_lookup. exists i. by apply lookup_take_Some. }
    by specialize (Hc Hin).
Qed.

Lemma small_tx W k : NoDup W -> (length W + k <= 6)%nat -> tx small_disk 1 [] W k.
Proof.
  intros HW Hk. constructor; [apply small_bio|apply small_log_inv|by rewrite small_log_eq|done|].
  assert (Hm : (length (missing (k_log small_disk) W) <= length W)%nat) by apply length_filter.
  assert (Hl : log_limit (k_log small_disk) = 6%nat) by (by rewrite small_log_eq).
  assert (Ht : txn (k_log small_disk) = []) by (by rewrite small_log_eq). rewrite Hl, Ht. cbn [length]. lia.
Qed.

Lemma small_map_blocks n : n ∈ map_blocks (k_sb small_disk) -> n = 10.
Proof. rewrite small_sb_eq. intros Hn. apply elem_of_seqZ in Hn. change (sb_bmapstart small_sb) with 10 in Hn. change (bitmaps small_sb) with 1 in Hn. lia. Qed.

Section Witness.
#[local] Instance fuel0 : Fuel := 0%nat.
#[local] Instance no_devices : Devsw := { dev_read _ := None; dev_write _ := None }.

Lemma small_balloc : exists s', balloc 1 small_disk = Ok 12 s'.
Proof. eexists. vm_compute. reflexivity. Qed.

Lemma balloc_allocates_witness : exists s', balloc 1 small_disk = Ok 12 s' /\ allocated 1 [] [10] 4 12 small_disk s'.
Proof.
  destruct (balloc_allocates 1 small_disk [] [10] 4) as [(b & s' & Hrun & Ha)|[Hp _]].
  - apply small_tx; [repeat constructor; set_solver|cbn; lia].
  - cbn. lia.
  - apply small_geometry.
  - by intros i Hi%elem_of_nil.
  - intros n ->%small_map_blocks. set_solver.
  - destruct small_balloc as [s2 H2]. exists s'. rewrite Hrun in H2. injection H2 as -> _. split; [exact Hrun|exact Ha].
  - exfalso. destruct small_balloc as [s2 H2]. rewrite Hp in H2. discriminate H2.
Defined.
End Witness.
