(* ===== verification/Readi.v ===== *)
(** * Reading a file: what [readi] returns is what the file holds

    [contents] is the file as the numbered blocks of its inode show it through the
    buffer cache; [bmap] finds the blocks and [readi] copies the bytes asked for. *)

From S2P Require Import Prelude Mem StringC Kernel Sched Bio Layout Log Printf Cons Fs.

(** ** One block, read and given back *)

(** Fewer blocks are dirty than there are buffers. *)
Definition room (s : kstate) : Prop :=
  exists D : list Z, (length D < NBUF)%nat /\ forall n, isdirty s n = true -> n ∈ D.

Lemma dirty_slot s pid hs i : bio_ok s pid hs -> (i < NBUF)%nat -> dirty (buf_at s i) = true ->
  b_dev (buf_at s i) = 1 /\ isdirty s (b_blockno (buf_at s i)) = true.
Proof.
  intros Hs Hi Hd. assert (Hb : k_bufs s !! i = Some (buf_at s i)) by (apply (buf_at_lookup s pid hs); [done|lia]).
  destruct (bio_slots _ _ _ Hs i _ Hi Hb) as [Hfl _ Hdev _ _ _].
  assert (Hvalid : valid (buf_at s i) = true) by (unfold valid, dirty in *; destruct Hfl as [Hf|[Hf|[Hf|[]]]]; rewrite <- Hf in *; done).
  apply Hdev in Hvalid. split; [done|]. apply isdirty_iff. exists i, (buf_at s i).
  split; [done|]. split; [done|]. split; [|done]. unfold caches. by rewrite Hvalid, !Z.eqb_refl.
Qed.

(** So some buffer can be reused. *)
Lemma room_clean s pid hs : bio_ok s pid hs -> room s -> exists i, (i < NBUF)%nat /\ dirty (buf_at s i) = false.
Proof.
  intros Hs (D & HD & Hin).
  destruct (decide (Forall (fun i => dirty (buf_at s i) = true) (seq 0 NBUF))) as [Hall|Hno].
  - exfalso. rewrite Forall_forall in Hall.
    assert (Hd : forall i, (i < NBUF)%nat -> dirty (buf_at s i) = true) by (intros i Hi; apply Hall, elem_of_seq; lia).
    assert (Hle : (length (map (fun i => b_blockno (buf_at s i)) (seq 0 NBUF)) <= length D)%nat).
    { apply NoDup_incl_length.
      - apply NoDup_ListNoDup, NoDup_fmap_2_strong; [|apply NoDup_seq]. intros i j Hi%elem_of_seq Hj%elem_of_seq He.
        destruct (dirty_slot s pid hs i Hs ltac:(lia) (Hd i ltac:(lia))) as [Hi1 _].
        destruct (dirty_slot s pid hs j Hs ltac:(lia) (Hd j ltac:(lia))) as [Hj1 _].
        apply (bio_uniq _ _ _ Hs i j (buf_at s i) (buf_at s j)); try done; try lia;
          apply (buf_at_lookup s pid hs); try done; lia.
      - intros n Hn. apply list_elem_of_In in Hn. apply list_elem_of_fmap in Hn as (i & -> & Hi%elem_of_seq).
        apply list_elem_of_In, Hin. apply (dirty_slot s pid hs i Hs); [lia|apply Hd; lia]. }
    rewrite length_map, length_seq in Hle. lia.
  - apply not_Forall_Exists in Hno; [|intros i; solve_decision]. apply Exists_exists in Hno as (i & Hi%elem_of_seq & Hd).
    exists i. split; [lia|]. by apply not_true_is_false.
Qed.

(** Only the buffer cache and processes woken changed, and the blocks read the same. *)
Definition calm (pid : Z) (s s' : kstate) : Prop :=
  bio_ok s' pid [] /\ (forall n, view s' n = view s n) /\ (forall n, isdirty s' n = isdirty s n) /\
  s' = upd_k_procs (fun _ => k_procs s') (upd_k_bufs (fun _ => k_bufs s') s).

Lemma calm_trans pid s1 s2 s3 : calm pid s1 s2 -> calm pid s2 s3 -> calm pid s1 s3.
Proof.
  intros (_ & V1 & D1 & E1) (B2 & V2 & D2 & E2). split; [done|]. split; [intros; by rewrite V2|].
  split; [intros; by rewrite D2|]. rewrite E2 at 1. rewrite E1. done.
Qed.

Lemma calm_refl pid s : bio_ok s pid [] -> calm pid s s.
Proof. intros. split; [done|]. split; [done|]. split; [done|]. by destruct s. Qed.

Lemma calm_room pid s s' : calm pid s s' -> room s -> room s'.
Proof. intros (_ & _ & Hd & _) (D & H1 & H2). exists D. split; [done|]. intros n. rewrite Hd. auto. Qed.

Lemma calm_inodes pid s s' : calm pid s s' -> k_inodes s' = k_inodes s /\ k_disksize s' = k_disksize s.
Proof. intros (_ & _ & _ & ->). done. Qed.

Lemma with_block `{Fuel} s pid bno : bio_ok s pid [] -> room s -> 0 <= bno < k_disksize s ->
  exists b bf s1 s2, bread 1 bno s = Ok b s1 /\ get_buf b s1 = Ok bf s1 /\ b_data bf = view s bno /\
    brelse b s1 = Ok tt s2 /\ calm pid s s2 /\ k_inodes s1 = k_inodes s.
Proof.
  intros Hs Hroom Hbno. destruct (room_clean s pid [] Hs Hroom) as (i & Hi & Hdi).
  destruct (bread_cases s pid [] bno Hs) as [(b & s1 & Hr & Hb & _ & Hs1 & Hc & Hv & Hview & Hd & _ & Hclean & Hfr)|[_ Hno]];
    [set_solver|done| |].
  2:{ destruct (Hno i Hi) as [_ [|]]; [set_solver|congruence]. }
  pose proof (buf_at_lookup s1 pid [b] b Hs1 ltac:(lia)) as Hbf.
  assert (Hcl : dirty (buf_at s1 b) = true \/ b_data (buf_at s1 b) = disk_block s1 (b_blockno (buf_at s1 b))).
  { destruct Hclean as [|Hdk]; [by left|right]. rewrite Hdk. unfold caches in Hc. f_equal. lia. }
  destruct (wp_run _ _ _ (brelse_ok s1 pid [b] [] b Hs1 ltac:(done) Hcl)) as ([] & s2 & Hrel & (Hs2 & Hv2 & Hd2 & _ & Hfr2) & _).
  exists b, (buf_at s1 b), s1, s2. split; [done|]. split; [by apply get_buf_ok|]. split; [done|]. split; [done|].
  split; [|by rewrite Hfr]. split; [done|]. split; [intros; by rewrite Hv2|]. split; [intros; by rewrite Hd2|].
  rewrite Hfr2, Hfr. done.
Qed.

Lemma view_block_ok s pid hs n : bio_ok s pid hs -> block_ok (view s n).
Proof.
  intros Hs. destruct (view_cases s pid hs n Hs) as [(i & bf & Hi & Hb & _ & _ & ->)|[_ ->]].
  - apply (bio_slots _ _ _ Hs i bf Hi Hb).
  - apply (bio_disk _ _ _ Hs).
Qed.

(** ** The contents of a file *)

(** The block that holds block [bn] of the file. *)
Definition file_block (s : kstate) (ip : inode) (bn : Z) : Z :=
  if bn <? NDIRECT then addr_of ip (Z.to_nat bn)
  else rd 4 (view s (addr_of ip (Z.to_nat NDIRECT))) (Z.to_nat (4 * (bn - NDIRECT))).

Definition contents (s : kstate) (ip : inode) : list Z :=
  map (fun k => byte_at (view s (file_block s ip (k / BSIZE))) (k mod BSIZE)) (seqZ 0 (i_size ip)).

(** Every block below the size has been allocated, and the indirect block when it is needed. *)
Record file_ok (s : kstate) (ip : inode) : Prop := {
  file_dev : i_dev ip = 1;
  file_size : 0 <= i_size ip <= MAXFILE * BSIZE;
  file_blocks : forall bn, 0 <= bn -> BSIZE * bn < i_size ip -> 0 < file_block s ip bn < k_disksize s;
  file_ind : NDIRECT * BSIZE < i_size ip -> 0 < addr_of ip (Z.to_nat NDIRECT) < k_disksize s }.

Lemma file_block_calm pid s s' ip bn : calm pid s s' -> file_block s' ip bn = file_block s ip bn.
Proof. intros (_ & Hv & _). unfold file_block. by rewrite Hv. Qed.

Lemma contents_calm pid s s' ip : calm pid s s' -> contents s' ip = contents s ip.
Proof.
  intros Hc. unfold contents. apply map_ext. intros k. rewrite (file_block_calm pid s s') by done.
  destruct Hc as (_ & Hv & _). by rewrite Hv.
Qed.

Lemma file_ok_calm pid s s' ip : calm pid s s' -> file_ok s ip -> file_ok s' ip.
Proof.
  intros Hc [F1 F2 F3 F4]. destruct (calm_inodes pid s s' Hc) as [_ Hd]. constructor; [done|done| |by rewrite Hd].
  intros bn H1 H2. rewrite (file_block_calm pid s s') by done. rewrite Hd. auto.
Qed.

Lemma length_contents s ip : length (contents s ip) = Z.to_nat (i_size ip).
Proof. unfold contents. rewrite length_map. apply length_seqZ. Qed.

Lemma contents_lookup s ip k : 0 <= k < i_size ip ->
  contents s ip !! Z.to_nat k = Some (byte_at (view s (file_block s ip (k / BSIZE))) (k mod BSIZE)).
Proof.
  intros Hk. unfold contents. rewrite list_lookup_fmap.
  assert (H : seqZ 0 (i_size ip) !! Z.to_nat k = Some k) by (apply lookup_seqZ; lia). by rewrite H.
Qed.

(** A piece of one block is that piece of the file. *)
Lemma contents_piece s pid ip off m : bio_ok s pid [] -> 0 <= off -> 0 <= m <= BSIZE - off mod BSIZE -> off + m <= i_size ip ->
  slice (Z.to_nat (off mod BSIZE)) (Z.to_nat m) (view s (file_block s ip (off / BSIZE))) =
  take (Z.to_nat m) (drop (Z.to_nat off) (contents s ip)).
Proof.
  intros Hs Hoff Hm Hsz. destruct (view_block_ok s pid [] (file_block s ip (off / BSIZE)) Hs) as [Hlen _].
  unfold BSIZE in *. apply list_eq. intros k. destruct (decide (k < Z.to_nat m)%nat) as [Hk|Hk].
  - rewrite lookup_slice, lookup_take_lt, lookup_drop by done.
    replace (Z.to_nat off + k)%nat with (Z.to_nat (off + Z.of_nat k)) by lia.
    rewrite contents_lookup by lia. unfold BSIZE.
    replace ((off + Z.of_nat k) / 512) with (off / 512) by dlia.
    replace ((off + Z.of_nat k) mod 512) with (off mod 512 + Z.of_nat k) by dlia.
    unfold byte_at. replace (Z.to_nat (off mod 512 + Z.of_nat k)) with (Z.to_nat (off mod 512) + k)%nat by dlia.
    destruct (lookup_lt_is_Some_2 (view s (file_block s ip (off / 512))) (Z.to_nat (off mod 512) + k)) as [x ->]; [rewrite Hlen; dlia|done].
  - rewrite !lookup_ge_None_2; [done| |]; unfold slice; rewrite length_take; lia.
Qed.

Section Reading.
Context `{Fuel} `{Devsw}.

Lemma get_inode_ok i ip s : k_inodes s !! i = Some ip -> get_inode i s = Ok ip s.
Proof using Type. intros H1. unfold get_inode, nth_or. by rewrite H1. Qed.

(** [bmap] finds the block, and allocates nothing. *)
Lemma bmap_ok s pid i ip bn : bio_ok s pid [] -> room s -> k_inodes s !! i = Some ip -> file_ok s ip ->
  0 <= bn -> BSIZE * bn < i_size ip ->
  exists s', bmap i bn s = Ok (file_block s ip bn) s' /\ calm pid s s'.
Proof using Type.
  intros Hs Hroom Hi [F1 F2 F3 F4] Hbn Hlt. unfold bmap. rewrite (kbind_ok _ _ _ _ _ (get_inode_ok _ _ _ Hi)).
  specialize (F3 bn Hbn Hlt). unfold file_block in *. destruct (Z.ltb_spec bn NDIRECT) as [Hd|Hd].
  - destruct (Z.eqb_spec (addr_of ip (Z.to_nat bn)) 0); [lia|]. exists s. split; [done|by apply calm_refl].
  - assert (Hind : 0 < addr_of ip (Z.to_nat NDIRECT) < k_disksize s) by (apply F4; unfold BSIZE, NDIRECT in *; lia).
    destruct (Z.ltb_spec (bn - NDIRECT) NINDIRECT) as [Hr|Hr]; [|unfold MAXFILE, BSIZE, NDIRECT, NINDIRECT in *; lia].
    destruct (Z.eqb_spec (addr_of ip (Z.to_nat NDIRECT)) 0); [lia|].
    rewrite (kbind_ok _ _ s (addr_of ip (Z.to_nat NDIRECT)) s) by done. rewrite F1.
    destruct (with_block s pid (addr_of ip (Z.to_nat NDIRECT)) Hs Hroom ltac:(lia)) as (b & bf & s1 & s2 & H1 & H2 & H3 & H4 & H5 & _).
    rewrite (kbind_ok _ _ _ _ _ H1), (kbind_ok _ _ _ _ _ H2). rewrite H3.
    destruct (Z.eqb_spec (rd 4 (view s (addr_of ip (Z.to_nat NDIRECT))) (Z.to_nat (4 * (bn - NDIRECT)))) 0); [lia|].
    rewrite (kbind_ok _ _ s1 _ s1 eq_refl), (kbind_ok _ _ _ _ _ H4). exists s2. done.
Qed.

Lemma readi_loop_ok fl : forall s pid i ip off tot n, bio_ok s pid [] -> room s -> k_inodes s !! i = Some ip -> file_ok s ip ->
  0 <= off -> tot <= n -> off + (n - tot) <= i_size ip -> n - tot <= Z.of_nat fl ->
  exists s', readi_loop fl i off tot n s = Ok (take (Z.to_nat (n - tot)) (drop (Z.to_nat off) (contents s ip))) s' /\ calm pid s s'.
Proof using Type.
  induction fl as [|fl IH]; intros s pid i ip off tot n Hs Hroom Hi Hf Hoff Htot Hsz Hfl; cbn [readi_loop].
  - destruct (Z.ltb_spec tot n); [lia|]. replace (n - tot) with 0 by lia. exists s. split; [done|by apply calm_refl].
  - destruct (Z.ltb_spec tot n) as [Hlt|Hge].
    2:{ replace (n - tot) with 0 by lia. exists s. split; [done|by apply calm_refl]. }
    rewrite (kbind_ok _ _ _ _ _ (get_inode_ok _ _ _ Hi)).
    assert (Hbn : 0 <= off / BSIZE /\ BSIZE * (off / BSIZE) <= off) by (unfold BSIZE; dlia).
    destruct (bmap_ok s pid i ip (off / BSIZE) Hs Hroom Hi Hf ltac:(lia) ltac:(lia)) as (s1 & Hb & Hc1).
    rewrite (kbind_ok _ _ _ _ _ Hb). destruct (calm_inodes _ _ _ Hc1) as [Hin1 Hds1].
    pose proof (file_blocks _ _ Hf (off / BSIZE) ltac:(lia) ltac:(lia)) as Hblk. rewrite (file_dev _ _ Hf).
    destruct (with_block s1 pid (file_block s ip (off / BSIZE)) (proj1 Hc1) (calm_room _ _ _ Hc1 Hroom) ltac:(rewrite Hds1; lia))
      as (b & bf & s2 & s3 & H1 & H2 & H3 & H4 & H5 & _).
    rewrite (kbind_ok _ _ _ _ _ H1), (kbind_ok _ _ _ _ _ H2), (kbind_ok _ _ _ _ _ H4). rewrite H3.
    set (m := Z.min (n - tot) (BSIZE - off mod BSIZE)).
    assert (Hm : 0 < m <= n - tot /\ m <= BSIZE - off mod BSIZE) by (unfold m, BSIZE; dlia).
    pose proof (calm_trans _ _ _ _ Hc1 H5) as Hc3. destruct (calm_inodes _ _ _ Hc3) as [Hin3 _].
    destruct (IH s3 pid i ip (off + m) (tot + m) n (proj1 Hc3) (calm_room _ _ _ Hc3 Hroom) ltac:(by rewrite Hin3)
      (file_ok_calm _ _ _ _ Hc3 Hf) ltac:(lia) ltac:(lia) ltac:(lia) ltac:(lia)) as (s4 & Hl & Hc4).
    rewrite (kbind_ok _ _ _ _ _ Hl). exists s4. split; [|by eapply calm_trans]. unfold kret. f_equal.
    assert (Hv1 : view s1 (file_block s ip (off / BSIZE)) = view s (file_block s ip (off / BSIZE))) by apply Hc1.
    rewrite Hv1, (contents_piece s pid) by (try done; lia). rewrite (contents_calm _ _ _ _ Hc3).
    replace (Z.to_nat (off + m)) with (Z.to_nat off + Z.to_nat m)%nat by lia. rewrite <- drop_drop.
    replace (Z.to_nat (n - tot)) with (Z.to_nat m + Z.to_nat (n - (tot + m)))%nat by lia.
    by rewrite take_take_drop.
Qed.

Lemma readi_ok (s : kstate) (pid : Z) (i : nat) (ip : inode) (off n : Z)
    (Hs : bio_ok s pid []) (Hroom : room s) (Hi : k_inodes s !! i = Some ip) (Hf : file_ok s ip)
    (Htype : i_type ip <> T_DEV) (Hoff : 0 <= off < 2 ^ 31) (Hn : 0 <= n < 2 ^ 31) :
  exists s', calm pid s s' /\
    (if i_size ip <? off then readi i off n s = Ok (-1, []) s'
     else exists out, readi i off n s = Ok (Z.of_nat (length out), out) s' /\
       out = take (Z.to_nat n) (drop (Z.to_nat off) (contents s ip))).
Proof using Type.
  unfold readi. rewrite (kbind_ok _ _ _ _ _ (get_inode_ok _ _ _ Hi)).
  destruct (Z.eqb_spec (i_type ip) T_DEV); [done|]. destruct (Z.ltb_spec (i_size ip) off) as [Hlt|Hge].
  { exists s. split; [by apply calm_refl|done]. }
  rewrite u32_id by lia. destruct (Z.ltb_spec (off + n) off); [lia|]. cbn [orb].
  pose proof (file_size _ _ Hf) as Hsz. change (MAXFILE * BSIZE) with 71680 in Hsz.
  set (n' := if i_size ip <? off + n then i_size ip - off else n).
  assert (Hn' : 0 <= n' /\ off + n' <= i_size ip /\ n' = Z.min n (i_size ip - off)) by (unfold n'; zcase; lia).
  destruct (readi_loop_ok (Z.to_nat n') s pid i ip off 0 n' Hs Hroom Hi Hf ltac:(lia) ltac:(lia) ltac:(lia) ltac:(lia))
    as (s' & Hl & Hc).
  rewrite (kbind_ok _ _ _ _ _ Hl). rewrite Z.sub_0_r. exists s'. split; [done|]. eexists. split; [|reflexivity].
  assert (Heq : take (Z.to_nat n) (drop (Z.to_nat off) (contents s ip)) = take (Z.to_nat n') (drop (Z.to_nat off) (contents s ip))).
  { apply list_eq. intros k. destruct (decide (k < Z.to_nat n')%nat) as [Hk|Hk].
    - rewrite !lookup_take_lt by lia. done.
    - rewrite !lookup_ge_None_2; [done| |]; rewrite length_take, length_drop, length_contents; lia. }
  rewrite Heq. unfold kret. f_equal. f_equal. rewrite length_take, length_drop, length_contents.
  rewrite s32_id by lia. lia.
Qed.

(** C8: [readi] returns the bytes of the file from the offset on, at most as many as asked for and
    up to the end of the file, whatever of it is in the buffer cache; past the end it fails. Only
    the buffer cache changes, and no block reads differently afterwards. *)
Theorem readi_reads (s : kstate) (pid : Z) (i : nat) (ip : inode) (off n : Z)
    (Hs : bio_ok s pid []) (Hroom : room s) (Hi : k_inodes s !! i = Some ip) (Hf : file_ok s ip)
    (Htype : i_type ip <> T_DEV) (Hoff : 0 <= off < 2 ^ 31) (Hn : 0 <= n < 2 ^ 31) :
  exists s', calm pid s s' /\
    (if i_size ip <? off then readi i off n s = Ok (-1, []) s'
     else exists out, readi i off n s = Ok (Z.of_nat (length out), out) s' /\
       out = take (Z.to_nat n) (drop (Z.to_nat off) (contents s ip))).
Proof using Type. by apply readi_ok. Qed.

End Reading.

(** ** A small disk *)

Lemma bio_ok_inodes s pid hs g : bio_ok s pid hs -> bio_ok (upd_k_inodes g s) pid hs.
Proof.
  intros [H1 H2 H3 H4 H5 H6 H7 H8]. constructor; [exact H1|exact H2|exact H3|exact H4|exact H5|exact H6| |exact H8].
  intros i bf Hi Hb. destruct (H7 i bf Hi Hb) as [S1 S2 S3 S4 S5 S6].
  constructor; [exact S1|exact S2|exact S3|exact S4|exact S5|exact S6].
Qed.

Lemma clean_room s : forallb (fun bf => negb (dirty bf)) (take NBUF (k_bufs s)) = true -> room s.
Proof.
  intros Hc. exists []. split; [unfold NBUF; simpl; lia|]. intros n (i & bf & Hi & Hb & _ & Hd)%isdirty_iff.
  rewrite forallb_forall in Hc. specialize (Hc bf). rewrite Hd in Hc. exfalso.
  assert (Hin : In bf (take NBUF (k_bufs s))) by (apply list_elem_of_In, list_elem_of_lookup; exists i; by apply lookup_take_Some).
  by specialize (Hc Hin).
Qed.

(** A file of 512 bytes, all 7, in block 1. *)
Definition sevens : inode := Inode 1 5 1 (Sleeplock true 1) true T_FILE 0 0 1 512 (1 :: replicate 12 0).
Definition with_file : kstate := upd_k_inodes (fun _ => [sevens]) (fresh img2).

Lemma with_file_bio : bio_ok with_file 1 [].
Proof. apply bio_ok_inodes, binit_ok, img2_ok. Qed.

Lemma with_file_room : room with_file.
Proof. apply clean_room. vm_compute. reflexivity. Qed.

Lemma with_file_disk : k_disksize with_file = 2.
Proof. vm_compute. reflexivity. Qed.

(** A file with one direct block. *)
Lemma one_block_ok s ip : i_dev ip = 1 -> i_size ip = 512 -> addr_of ip 0 = 1 -> k_disksize s = 2 -> file_ok s ip.
Proof.
  intros H1 H2 H3 H4. constructor; [done|rewrite H2; change (MAXFILE * BSIZE) with 71680; lia| |].
  - intros bn Hb1 Hb2. assert (bn = 0) as -> by (unfold BSIZE in Hb2; lia).
    unfold file_block. change (0 <? NDIRECT) with true. cbn iota. change (Z.to_nat 0) with 0%nat. rewrite H3, H4. lia.
  - rewrite H2. unfold NDIRECT, BSIZE. lia.
Qed.

Lemma with_file_ok : file_ok with_file sevens.
Proof. apply one_block_ok; [reflexivity..|apply with_file_disk]. Qed.

Lemma with_file_inode : k_inodes with_file !! 0%nat = Some sevens.
Proof. reflexivity. Qed.

Lemma with_file_tail : take 100 (drop 510 (contents with_file sevens)) = [7; 7].
Proof. vm_compute. reflexivity. Qed.

Section Witness.
#[local] Instance fuel0 : Fuel := 0%nat.
#[local] Instance no_devices : Devsw := { dev_read _ := None; dev_write _ := None }.

Lemma readi_reads_witness : exists s', readi 0 510 100 with_file = Ok (2, [7; 7]) s'.
Proof.
  destruct (readi_reads with_file 1 0 sevens 510 100 with_file_bio with_file_room with_file_inode with_file_ok
    ltac:(vm_compute; congruence) ltac:(lia) ltac:(lia)) as (s' & _ & out & H1 & H2).
  exists s'. rewrite H1. clear H1. rewrite H2. clear H2.
  change (Z.to_nat 100) with 100%nat. change (Z.to_nat 510) with 510%nat. rewrite with_file_tail. reflexivity.
Defined.
End Witness.
