(* ===== verification/Growth.v ===== *)
(** * A file that grows: what [bmap] does when it allocates

    A file is the map [fb] from its block numbers to disk blocks, 0 where there is none.
    [bmap] looks a block up, and allocates it, and the indirect block, when it is not there. *)

From S2P Require Import Prelude Kernel Sched Bio Layout Log Tx Printf Cons Fs Readi Balloc.

(** ** Steps that also change inodes in memory *)

Record grew (s s' : kstate) : Prop := {
  gr_frame : s' = upd_k_inodes (fun _ => k_inodes s') (upd_k_log (fun _ => k_log s')
               (upd_k_procs (fun _ => k_procs s') (upd_k_bufs (fun _ => k_bufs s') s)));
  gr_start : log_start (k_log s') = log_start (k_log s);
  gr_size : log_size (k_log s') = log_size (k_log s);
  gr_out : log_outstanding (k_log s') = log_outstanding (k_log s);
  gr_txn : forall n, n ∈ txn (k_log s) -> n ∈ txn (k_log s');
}.

#[export] Instance grew_preorder : PreOrder grew.
Proof.
  split.
  - intros s. by constructor; try done; destruct s.
  - intros s1 s2 s3 [F1 A1 B1 C1 D1] [F2 A2 B2 C2 D2]. constructor; try congruence; [|auto].
    rewrite F2 at 1. rewrite F1. done.
Qed.

Lemma later_grew s s' : later s s' -> grew s s'.
Proof.
  intros [F A B C D]. constructor; try done.
  assert (Hi : k_inodes s' = k_inodes s) by (by rewrite F). rewrite Hi. exact F.
Qed.

Lemma inodes_grew g s : grew s (upd_k_inodes g s).
Proof. by constructor. Qed.

Lemma grew_same s s' : grew s s' -> k_disksize s' = k_disksize s /\ k_sb s' = k_sb s.
Proof. intros [F _ _ _ _]. rewrite F. done. Qed.

Lemma grew_in_log s s' n : grew s s' -> in_log (k_log s') n <-> in_log (k_log s) n.
Proof. intros H. unfold in_log. by rewrite (gr_start _ _ H), (gr_size _ _ H). Qed.

Lemma tx_inodes s pid hs W k g : tx s pid hs W k -> tx (upd_k_inodes g s) pid hs W k.
Proof.
  intros [H1 [L1 L2 L3] H3 H4 H5]. constructor; try done. by apply bio_ok_inodes.
Qed.

Lemma geometry_grew s s' :
  geometry s -> grew s s' -> (forall b, 0 <= b < sb_size (k_sb s) -> used s b = true -> used s' b = true) -> geometry s'.
Proof.
  intros [G1 G2 G3 G4 G5] Hl Hu. destruct (grew_same _ _ Hl) as (Hd & Hsb).
  constructor; rewrite ?Hd, ?Hsb, ?(gr_start _ _ Hl), ?(gr_size _ _ Hl); try done.
  intros b Hb. apply Hu; [lia|]. by apply G5.
Qed.

Lemma geometry_inodes g s : geometry s -> geometry (upd_k_inodes g s).
Proof. intros Hg. by apply (geometry_grew s); [|apply inodes_grew|]. Qed.

(** ** The blocks of a file *)

Definition ind (ip : inode) : Z := addr_of ip (Z.to_nat NDIRECT).

Definition fb (s : kstate) (ip : inode) (bn : Z) : Z :=
  if bn <? NDIRECT then addr_of ip (Z.to_nat bn)
  else if ind ip =? 0 then 0 else rd 4 (view s (ind ip)) (Z.to_nat (4 * (bn - NDIRECT))).

(** A block of the data region that the map marks used. *)
Definition owned (s : kstate) (b : Z) : Prop := data_start (k_sb s) <= b < sb_size (k_sb s) /\ used s b = true.

Record file_inv (s : kstate) (ip : inode) : Prop := {
  fi_dev : i_dev ip = 1;
  fi_size : 0 <= i_size ip <= MAXFILE * BSIZE;
  fi_addrs : length (i_addrs ip) = 13%nat;
  fi_blocks : forall bn, 0 <= bn < MAXFILE -> fb s ip bn = 0 \/ owned s (fb s ip bn);
  fi_ind : ind ip = 0 \/ owned s (ind ip);
  fi_below : forall bn, 0 <= bn -> BSIZE * bn < i_size ip -> fb s ip bn <> 0;
  fi_inj : forall b1 b2, 0 <= b1 < MAXFILE -> 0 <= b2 < MAXFILE -> fb s ip b1 = fb s ip b2 -> fb s ip b1 <> 0 -> b1 = b2;
  fi_sep : forall bn, 0 <= bn < MAXFILE -> fb s ip bn <> 0 -> fb s ip bn <> ind ip;
}.

(** The blocks whose contents may change while the file is written: the free map, blocks that
    were free, and [X]. *)
Definition kept (X : Z -> Prop) (s s' : kstate) : Prop :=
  forall n, 0 <= n < sb_size (k_sb s) -> n ∉ map_blocks (k_sb s) -> used s n = true -> ~ X n -> view s' n = view s n.

Definition nothing (n : Z) : Prop := False.

Definition more_used (s s' : kstate) : Prop :=
  forall b, 0 <= b < sb_size (k_sb s) -> used s b = true -> used s' b = true.

(** Room for the indirect block. *)
Definition icost (s : kstate) (ip : inode) : nat :=
  if decide (ind ip <> 0 /\ ind ip ∈ txn (k_log s)) then 0%nat else 1%nat.

(** The blocks of a file, with its indirect block. *)
Definition of_file (s : kstate) (ip : inode) (n : Z) : Prop :=
  n <> 0 /\ (n = ind ip \/ exists bn, 0 <= bn < MAXFILE /\ fb s ip bn = n).

Lemma kept_outside_trans (X Y : Z -> Prop) s1 s2 s3 :
  k_sb s2 = k_sb s1 -> more_used s1 s2 -> (forall n, Y n -> X n \/ used s1 n = false) ->
  kept X s1 s2 -> kept Y s2 s3 -> kept X s1 s3.
Proof.
  intros Hsb Hu HY H1 H2 n Hn Hm Hun HX. rewrite H2, H1; try done; rewrite ?Hsb; try done; [by apply Hu|].
  intros Hy. destruct (HY n Hy); [done|congruence].
Qed.

Lemma more_used_trans s1 s2 s3 : k_sb s2 = k_sb s1 -> more_used s1 s2 -> more_used s2 s3 -> more_used s1 s3.
Proof. intros Hsb H1 H2 b Hb Hu. apply H2; [by rewrite Hsb|]. by apply H1. Qed.

(** An allocation keeps what is in use. *)
Lemma allocated_kept pid hs W k b s s' : geometry s -> allocated pid hs W k b s s' -> kept nothing s s' /\ more_used s s'.
Proof.
  intros Hg Ha. destruct (al_used _ _ _ _ _ _ _ Ha) as [U1 U2]. split.
  - intros n Hn Hm Hu _. rewrite (al_view _ _ _ _ _ _ _ Ha). destruct (Z.eqb_spec n b) as [->|_]; [congruence|].
    destruct (Z.eqb_spec n (BBLOCK b (k_sb s))) as [->|_]; [|done].
    exfalso. apply Hm, BBLOCK_in; [done|]. pose proof (al_range _ _ _ _ _ _ _ Ha). pose proof (geo_size _ Hg).
    unfold data_start, bitmaps in *. change BPB with 4096 in *. dlia.
  - intros b' Hb' Hu. rewrite U2, Hu by done. apply orb_true_r.
Qed.

Lemma owned_not_map s b : owned s b -> b ∉ map_blocks (k_sb s).
Proof. intros [H _] Hm. apply elem_of_seqZ in Hm. unfold data_start in H. lia. Qed.

Lemma owned_step s s' b : k_sb s' = k_sb s -> geometry s -> more_used s s' -> owned s b -> owned s' b.
Proof.
  intros Hsb Hg Hm [H1 H2]. split; [by rewrite Hsb|]. apply Hm; [|done].
  pose proof (geo_size _ Hg). unfold data_start, bitmaps in *. change BPB with 4096 in *. dlia.
Qed.

Lemma data_start_pos s : geometry s -> 0 < data_start (k_sb s).
Proof. intros Hg. pose proof (geo_size _ Hg). unfold data_start, bitmaps in *. change BPB with 4096 in *. dlia. Qed.

(** What an owned block reads as survives a step that keeps it. *)
Lemma kept_owned X s s' b : geometry s -> kept X s s' -> owned s b -> ~ X b -> view s' b = view s b.
Proof.
  intros Hg Hk Ho HX. pose proof (data_start_pos s Hg). apply Hk; [|by apply owned_not_map|apply Ho|done].
  destruct Ho as [? _]. lia.
Qed.

Lemma file_owned_of s ip n :
  (forall bn, 0 <= bn < MAXFILE -> fb s ip bn = 0 \/ owned s (fb s ip bn)) -> (ind ip = 0 \/ owned s (ind ip)) ->
  of_file s ip n -> owned s n.
Proof. intros H1 H2 (Hn & [-> | (bn & Hbn & <-)]); [by destruct H2|by destruct (H1 bn Hbn)]. Qed.

Lemma file_owned s ip n : file_inv s ip -> of_file s ip n -> owned s n.
Proof. intros Hf. apply file_owned_of; apply Hf. Qed.

(** The map of a file only depends on its addresses and on the indirect block. *)
Lemma fb_same s s' ip ip' bn :
  i_addrs ip' = i_addrs ip -> (ind ip <> 0 -> view s' (ind ip) = view s (ind ip)) -> fb s' ip' bn = fb s ip bn.
Proof.
  intros Ha Hv. unfold fb, ind, addr_of in *. rewrite Ha. destruct (bn <? NDIRECT); [done|].
  destruct (Z.eqb_spec (default 0 (i_addrs ip !! Z.to_nat NDIRECT)) 0) as [|Hne]; [done|]. by rewrite Hv.
Qed.

(** The invariant of a file through a step that keeps its blocks. *)
Lemma file_inv_step s s' ip :
  geometry s -> k_sb s' = k_sb s -> more_used s s' -> (ind ip <> 0 -> view s' (ind ip) = view s (ind ip)) ->
  file_inv s ip -> file_inv s' ip.
Proof.
  intros Hg Hsb Hm Hv [F1 F2 F3 F4 F5 F6 F7 F8].
  assert (Hfb : forall bn, fb s' ip bn = fb s ip bn) by (intros bn; by apply fb_same).
  constructor; try done.
  - intros bn Hbn. rewrite Hfb. destruct (F4 bn Hbn); [by left|right]. by apply (owned_step s).
  - destruct F5; [by left|right]. by apply (owned_step s).
  - intros bn H1 H2. rewrite Hfb. auto.
  - intros b1 b2 H1 H2. rewrite !Hfb. auto.
  - intros bn H1. rewrite Hfb. auto.
Qed.

(** With the invariant, [file_block] of Readi is [fb] below the size. *)
Lemma file_block_fb s ip bn : file_inv s ip -> 0 <= bn -> BSIZE * bn < i_size ip -> file_block s ip bn = fb s ip bn.
Proof.
  intros Hf Hbn Hlt. pose proof (fi_below _ _ Hf bn Hbn Hlt) as Hne. unfold file_block, fb, ind in *.
  destruct (bn <? NDIRECT); [done|]. by destruct (addr_of ip (Z.to_nat NDIRECT) =? 0).
Qed.

Lemma owned_pos s b : geometry s -> owned s b -> b <> 0.
Proof. intros Hg [H _]. pose proof (data_start_pos s Hg). lia. Qed.

(** A file that gets block [b], which was free: at [bn], or as its indirect block. *)
Lemma file_inv_add s s' ip ip' bn b :
  geometry s -> k_sb s' = k_sb s -> more_used s s' -> file_inv s ip ->
  owned s' b -> used s b = false -> i_dev ip' = 1 -> i_size ip' = i_size ip -> length (i_addrs ip') = 13%nat ->
  (forall n, 0 <= n < MAXFILE -> fb s' ip' n = if n =? bn then b else fb s ip n) ->
  ind ip' = ind ip \/ (ind ip = 0 /\ ind ip' = b /\ bn = -1) ->
  file_inv s' ip' /\ forall n, of_file s' ip' n -> of_file s ip n \/ used s n = false.
Proof.
  intros Hg Hsb Hm Hf Hb Hfree Hdev Hsz Hlen Hfb Hind. pose proof Hf as [F1 F2 F3 F4 F5 F6 F7 F8].
  assert (Hb0 : b <> 0) by (destruct Hb as [H _]; rewrite Hsb in H; pose proof (data_start_pos s Hg); lia).
  assert (Hnew : forall n, 0 <= n < MAXFILE -> fb s ip n <> b).
  { intros n Hn E. destruct (F4 n Hn) as [|[_ Hu]]; [lia|]. rewrite E in Hu. congruence. }
  assert (Hni : ind ip <> b) by (intros E; destruct F5 as [|[_ Hu]]; [lia|]; rewrite E in Hu; congruence).
  assert (Hpos : MAXFILE = 140) by done.
  split; [constructor; try done|].
  - by rewrite Hsz.
  - intros n Hn. rewrite Hfb by done. destruct (Z.eqb_spec n bn); [by right|].
    destruct (F4 n Hn); [by left|right]. by apply (owned_step s).
  - destruct Hind as [-> | (_ & -> & _)]; [|by right]. destruct F5; [by left|right]. by apply (owned_step s).
  - intros n H1 H2. rewrite Hsz in H2. change BSIZE with 512 in *. rewrite Hfb by lia. destruct (Z.eqb_spec n bn); [done|]. by apply F6.
  - intros b1 b2 H1 H2. rewrite !Hfb by done. destruct (Z.eqb_spec b1 bn), (Z.eqb_spec b2 bn); subst; try done.
    + intros E _. by destruct (Hnew b2 H2).
    + intros E _. by destruct (Hnew b1 H1).
    + auto.
  - intros n Hn. rewrite Hfb by done. destruct (Z.eqb_spec n bn) as [->|].
    + intros _. destruct Hind as [-> | (_ & _ & ->)]; [done|lia].
    + destruct Hind as [-> | (_ & -> & _)]; [by apply F8|]. intros _. by apply Hnew.
  - intros n (Hn0 & [-> | (k & Hk & <-)]).
    + destruct Hind as [E | (_ & -> & _)]; [|by right]. rewrite E in *. left. split; [done|by left].
    + rewrite Hfb in * by done. destruct (k =? bn); [by right|]. left. split; [done|]. right. by exists k.
Qed.

(** ** Steps of [bmap] *)

Record extends (i : nat) (s : kstate) (ip : inode) (s' : kstate) (ip' : inode) : Prop := {
  ex_grew : grew s s';
  ex_inodes : k_inodes s' = <[i := ip']> (k_inodes s);
  ex_ip : ip' = upd_i_addrs (fun _ => i_addrs ip') ip;
  ex_inv : file_inv s' ip';
  ex_geo : geometry s';
  ex_used : more_used s s';
  ex_kept : kept (of_file s ip) s s';
  ex_new : forall n, of_file s' ip' n -> of_file s ip n \/ used s n = false;
}.

Lemma extends_refl i s ip : k_inodes s !! i = Some ip -> file_inv s ip -> geometry s -> extends i s ip s ip.
Proof.
  intros Hi Hf Hg. constructor; try done.
  - by rewrite list_insert_id.
  - by destruct ip.
  - by intros b _.
  - intros n Hn. by left.
Qed.

Lemma extends_trans i s1 ip1 s2 ip2 s3 ip3 :
  extends i s1 ip1 s2 ip2 -> extends i s2 ip2 s3 ip3 -> extends i s1 ip1 s3 ip3.
Proof.
  intros [A1 A2 A3 A4 A5 A6 A7 A8] [B1 B2 B3 B4 B5 B6 B7 B8]. destruct (grew_same _ _ A1) as [_ Hsb].
  constructor; try done.
  - by transitivity s2.
  - by rewrite B2, A2, list_insert_insert_eq.
  - rewrite B3, A3. done.
  - by apply (more_used_trans s1 s2).
  - by apply (kept_outside_trans _ (of_file s2 ip2) s1 s2).
  - intros n Hn. destruct (B8 n Hn) as [Hn2|Hn2]; [auto|]. right.
    pose proof (file_owned _ _ _ B4 Hn) as [Hr _]. destruct (grew_same _ _ B1) as [_ Hsb3]. rewrite Hsb3, Hsb in Hr.
    pose proof (geo_size _ A5) as G1. unfold data_start, bitmaps in *. rewrite Hsb in G1. change BPB with 4096 in *.
    apply not_true_is_false. intros Hu. rewrite A6 in Hn2; [done| |done]. dlia.
Qed.

(** The log only gets blocks, so the indirect block needs no more room later. *)
Lemma icost_le s s' ip ip' : grew s s' -> ind ip' = ind ip -> (icost s' ip' <= icost s ip)%nat.
Proof.
  intros Hg He. unfold icost. rewrite He. destruct (decide (ind ip <> 0 /\ ind ip ∈ txn (k_log s))) as [[H1 H2]|]; [|by case_decide; lia].
  rewrite decide_True by (split; [done|by apply (gr_txn _ _ Hg)]). lia.
Qed.

Lemma icost_in s ip : ind ip <> 0 -> ind ip ∈ txn (k_log s) -> icost s ip = 0%nat.
Proof. intros. unfold icost. by rewrite decide_True. Qed.

Lemma cost_in l W b : b ∈ txn l -> cost l W b = 0%nat.
Proof. intros. unfold cost. case_decide; [done|]. by rewrite decide_True. Qed.

Lemma cost_le l W b : (cost l W b <= 1)%nat.
Proof. unfold cost. repeat case_decide; lia. Qed.
