(* ===== verification/Bmap.v ===== *)
(** * [bmap]: finding a block of a file, or giving it one

    Three allocations are possible: of a direct block, of the indirect block, and of a block
    that the indirect block numbers. Each one extends the file. *)

From S2P Require Import Prelude Kernel Sched Bio Layout Log Tx Printf Cons Fs Readi Balloc Growth.

(** ** Where the numbers of a file are *)

Definition with_addr (k : nat) (b : Z) (ip : inode) : inode := upd_i_addrs (insert k b) ip.

Lemma addr_with_addr k b ip j :
  length (i_addrs ip) = 13%nat -> (k < 13)%nat -> addr_of (with_addr k b ip) j = if decide (j = k) then b else addr_of ip j.
Proof.
  intros Hl Hk. unfold addr_of, with_addr. cbn. case_decide as Hj.
  - subst. by rewrite list_lookup_insert_eq by lia.
  - by rewrite list_lookup_insert_ne.
Qed.

Lemma rd_zero_block n off : rd n zero_block off = 0.
Proof.
  unfold rd, zero_block, slice. rewrite drop_replicate, take_replicate. generalize (n `min` (Z.to_nat BSIZE - off))%nat.
  intros m. unfold le_val. induction m as [|m IH]; [done|]. cbn [replicate pack]. rewrite IH. done.
Qed.

(** The number in the inode that bmap sets: of block [k], or of the indirect block. *)
Definition slot_bn (k : nat) : Z := if decide (k = 12%nat) then -1 else Z.of_nat k.

(** The map of a file after block [b], which reads as zeroes, got into the free slot [k]. *)
Lemma fb_with_addr s s' ip k b n :
  length (i_addrs ip) = 13%nat -> (k < 13)%nat -> addr_of ip k = 0 -> b <> 0 -> 0 <= n < MAXFILE ->
  view s' b = zero_block -> (ind ip <> 0 -> view s' (ind ip) = view s (ind ip)) ->
  fb s' (with_addr k b ip) n = if n =? slot_bn k then b else fb s ip n.
Proof.
  intros Hl Hk Ha Hb Hn Hz Hv. unfold fb, ind, slot_bn in *. change (Z.to_nat NDIRECT) with 12%nat in *. change NDIRECT with 12 in *.
  rewrite !addr_with_addr by done. destruct (Z.ltb_spec n 12) as [Hd|Hd].
  - repeat case_decide; destruct (Z.eqb_spec n (Z.of_nat k)); try lia; zcase; try lia; try done.
  - destruct (decide (12%nat = k)) as [<-|Hne].
    + rewrite decide_True by done. rewrite Ha, Hz, rd_zero_block. zcase; lia || done.
    + rewrite decide_False by done. rewrite (proj2 (Z.eqb_neq n (Z.of_nat k))) by lia.
      destruct (Z.eqb_spec (addr_of ip 12) 0) as [|Hne']; [done|]. by rewrite Hv.
Qed.

(** The same for an entry of the indirect block. *)
Definition entry_off (bn : Z) : nat := Z.to_nat (4 * (bn - NDIRECT)).

Lemma fb_with_entry s s' ip bn b n :
  NDIRECT <= bn < MAXFILE -> 0 <= n < MAXFILE -> ind ip <> 0 -> 0 <= b < 2 ^ 32 -> block_ok (view s (ind ip)) ->
  view s' (ind ip) = wr 4 (view s (ind ip)) (entry_off bn) b ->
  fb s' ip n = if n =? bn then b else fb s ip n.
Proof.
  intros Hbn Hn Hi Hb [Hlen _] Hv. unfold fb, entry_off in *. rewrite Hv. change MAXFILE with 140 in *. change NDIRECT with 12 in *.
  change (Z.to_nat BSIZE) with 512%nat in *.
  destruct (Z.ltb_spec n 12) as [Hd|Hd]; [by rewrite (proj2 (Z.eqb_neq n bn)) by lia|].
  rewrite (proj2 (Z.eqb_neq (ind ip) 0)) by done. destruct (Z.eqb_spec n bn) as [->|Hne].
  - rewrite rd_wr by (rewrite Hlen; lia). change (2 ^ (8 * Z.of_nat 4)) with (2 ^ 32). by apply Z.mod_small.
  - apply rd_wr_other; rewrite ?Hlen; lia.
Qed.

Section Bmap.
Context `{Fuel} `{Devsw} (pid : Z).

(** What the code finds when [bmap] starts. *)
Record writable (W : list Z) (i : nat) (s : kstate) (ip : inode) : Prop := {
  wr_inode : k_inodes s !! i = Some ip;
  wr_inv : file_inv s ip;
  wr_geo : geometry s;
  wr_map : forall n, n ∈ map_blocks (k_sb s) -> n ∈ W;
}.

Lemma extends_writable W i s ip s' ip' : writable W i s ip -> extends i s ip s' ip' -> writable W i s' ip'.
Proof using Type.
  intros [H1 H2 H3 H4] [E1 E2 E3 E4 E5 E6 E7 E8]. constructor; try done.
  - rewrite E2. apply list_lookup_insert_eq. by eapply lookup_lt_Some.
  - by destruct (grew_same _ _ E1) as [_ ->].
Qed.

(** The file and what it got: [a] is block [bn] now. *)
Record mapped (W : list Z) (kr : nat) (i : nat) (bn : Z) (s : kstate) (ip : inode) (a : Z) (s' : kstate) (ip' : inode) : Prop := {
  mp_tx : tx s' pid [] W (kr + cost (k_log s') W a + icost s' ip');
  mp_ext : extends i s ip s' ip';
  mp_at : fb s' ip' bn = a /\ a <> 0;
  mp_same : fb s ip bn <> 0 -> ip' = ip;
  mp_old : forall n, 0 <= n < MAXFILE -> fb s' ip' n = fb s ip n \/ (n = bn /\ fb s ip n = 0);
  mp_data : forall n, 0 <= n < MAXFILE -> fb s ip n <> 0 -> view s' (fb s ip n) = view s (fb s ip n);
}.

(** A block got into a free slot of the inode. *)
Lemma add_addr W k i s ip s1 kk b :
  writable W i s ip -> allocated pid [] W k b s s1 -> (kk < 13)%nat -> addr_of ip kk = 0 ->
  let s' := upd_k_inodes (alter (upd_i_addrs (insert kk b)) i) s1 in
  extends i s ip s' (with_addr kk b ip) /\ tx s' pid [] W k /\ b <> 0 /\
  (forall n, 0 <= n < MAXFILE -> fb s' (with_addr kk b ip) n = if n =? slot_bn kk then b else fb s ip n) /\
  (forall n, owned s n -> view s' n = view s n).
Proof using Type.
  intros [Hi Hf Hg HW] Ha Hk Hz s'. pose proof (allocated_kept _ _ _ _ _ _ _ Hg Ha) as [Hkept Hmore].
  destruct Ha as [T L _ R _ V [U1 U2] X]. destruct (later_same _ _ L) as (Li & Ld & Lsb).
  pose proof (data_start_pos s Hg) as Hpos. pose proof (fi_addrs _ _ Hf) as Hlen.
  assert (Hown : owned s1 b). { split; [by rewrite Lsb|]. rewrite U2 by lia. by rewrite Z.eqb_refl. }
  assert (Hvo : forall n, owned s n -> view s' n = view s n) by (intros n Hn; apply (kept_owned nothing s s1); [done..|by intros []]).
  assert (Hvi : ind ip <> 0 -> view s' (ind ip) = view s (ind ip)).
  { intros Hne. apply Hvo. by destruct (fi_ind _ _ Hf). }
  assert (Hvb : view s' b = zero_block). { change (view s1 b = zero_block). by rewrite V, Z.eqb_refl. }
  assert (Hfb : forall n, 0 <= n < MAXFILE -> fb s' (with_addr kk b ip) n = if n =? slot_bn kk then b else fb s ip n).
  { intros n Hn. apply fb_with_addr; try done. lia. }
  destruct (file_inv_add s s' ip (with_addr kk b ip) (slot_bn kk) b) as [Hinv Hnew]; try done.
  { apply Hf. }
  { unfold with_addr. cbn. by rewrite length_insert. }
  { unfold ind. change (Z.to_nat NDIRECT) with 12%nat. rewrite addr_with_addr by done. unfold slot_bn.
    case_decide; [|by left]. subst kk. right. done. }
  assert (Hgrew : grew s s'). { transitivity s1; [by apply later_grew|apply inodes_grew]. }
  split; [constructor; try done|].
  - unfold s'. cbn. rewrite Li. by apply alter_insert.
  - by apply (geometry_grew s).
  - intros n H1 H2 H3 _. apply Hkept; [done..|by intros []].
  - split; [by apply tx_inodes|]. split; [lia|]. done.
Qed.

Lemma mapped_here W kr i bn s ip a :
  writable W i s ip -> tx s pid [] W (kr + 1 + icost s ip) -> fb s ip bn = a -> a <> 0 -> mapped W kr i bn s ip a s ip.
Proof using Type.
  intros [Hi Hf Hg HW] Ht Ha Hne. constructor; try done.
  - eapply tx_weaken; [exact Ht|]. pose proof (cost_le (k_log s) W a). lia.
  - by apply extends_refl.
  - intros n _. by left.
Qed.

(** The blocks as they read after block [b] was allocated and entered in the indirect block. *)
Definition entry_view (bn b : Z) (ip : inode) (s s2 s4 : kstate) : Prop :=
  forall n, view s4 n = if n =? ind ip then wr 4 (view s (ind ip)) (entry_off bn) b else view s2 n.

Lemma entry_extends W k i bn s ip bp s1 b s2 s4 :
  writable W i s ip -> NDIRECT <= bn < MAXFILE -> ind ip <> 0 -> fb s ip bn = 0 -> block_ok (view s (ind ip)) ->
  later s s1 -> (forall n, view s1 n = view s n) -> allocated pid [bp] W k b s1 s2 -> later s2 s4 -> entry_view bn b ip s s2 s4 ->
  extends i s ip s4 ip /\ b <> 0 /\ (forall n, 0 <= n < MAXFILE -> fb s4 ip n = if n =? bn then b else fb s ip n) /\
  (forall n, owned s n -> n <> ind ip -> view s4 n = view s n).
Proof using Type.
  intros [Hi Hf Hg HW] Hbn Hne Hz Hok L1 V1 Ha L4 V4. destruct (later_same _ _ L1) as (I1 & D1 & B1).
  assert (U1 : forall n, used s1 n = used s n) by (intros n; by apply used_quiet).
  assert (Hg1 : geometry s1) by (apply (geometry_later s); [done..|intros n _; by rewrite U1]).
  destruct (allocated_kept _ _ _ _ _ _ _ Hg1 Ha) as [Hkept Hmore]. destruct Ha as [T2 L2 _ R2 _ V2 [U2 U3] X2].
  destruct (later_same _ _ L2) as (I2 & D2 & B2). destruct (later_same _ _ L4) as (I4 & D4 & B4). rewrite B1 in *.
  pose proof (data_start_pos s Hg) as Hpos. pose proof (geo_size _ Hg) as Gs. pose proof (geo_disk _ Hg) as Gd.
  assert (Hio : owned s (ind ip)) by (by destruct (fi_ind _ _ Hf)).
  assert (Hvo : forall n, owned s n -> n <> ind ip -> view s4 n = view s n).
  { intros n Hn Hni. rewrite V4, (proj2 (Z.eqb_neq _ _)), <- V1 by done. apply (kept_owned nothing s1 s2); [done..| |by intros []].
    by apply (owned_step s); [| |intros m _; rewrite U1|]. }
  assert (Hu4 : forall n, 0 <= n < sb_size (k_sb s) -> used s4 n = (n =? b) || used s n).
  { intros n Hn. rewrite <- U1, <- U3 by done. unfold used. rewrite B4, B2, V4.
    rewrite (proj2 (Z.eqb_neq (BBLOCK n (k_sb s)) (ind ip))); [done|]. intros E. apply (owned_not_map s (ind ip)); [done|].
    rewrite <- E. by apply BBLOCK_in. }
  assert (Hm4 : more_used s s4) by (intros n Hn Hu; rewrite Hu4, Hu by done; apply orb_true_r).
  assert (Hb4 : owned s4 b) by (split; [by rewrite B4, B2|rewrite Hu4 by lia; by rewrite Z.eqb_refl]).
  assert (Hvi : view s4 (ind ip) = wr 4 (view s (ind ip)) (entry_off bn) b) by (by rewrite V4, Z.eqb_refl).
  assert (Hfb : forall n, 0 <= n < MAXFILE -> fb s4 ip n = if n =? bn then b else fb s ip n).
  { intros n Hn. apply fb_with_entry; try done. lia. }
  assert (Hl : later s s4) by (transitivity s1; [done|by transitivity s2]).
  destruct (file_inv_add s s4 ip ip bn b) as [Hinv Hnew]; try done; try (by left); try apply Hf.
  { by rewrite B4, B2. } { by rewrite <- U1. }
  split; [constructor; try done|].
  - by apply later_grew.
  - rewrite I4, I2, I1. by rewrite list_insert_id.
  - by destruct ip.
  - by apply (geometry_later s).
  - intros n H1 H2 H3 H4. rewrite V4, (proj2 (Z.eqb_neq n (ind ip))) by (intros ->; apply H4; split; [done|by left]).
    rewrite <- V1. apply Hkept; rewrite ?B1, ?U1; [done..|by intros []].
  - split; [lia|]. done.
Qed.

(** Reading only extends the file by nothing. *)
Lemma quiet_extends W i s ip s' :
  writable W i s ip -> later s s' -> (forall n, view s' n = view s n) -> extends i s ip s' ip.
Proof using Type.
  intros [Hi Hf Hg HW] L V. destruct (later_same _ _ L) as (Li & Ld & Lsb).
  assert (U : forall n, used s' n = used s n) by (intros n; by apply used_quiet).
  assert (Hm : more_used s s') by (intros n _; by rewrite U). constructor; try done.
  - by apply later_grew.
  - by rewrite Li, list_insert_id.
  - by destruct ip.
  - by apply (file_inv_step s).
  - by apply (geometry_later s).
  - intros n _ _ _ _. by rewrite V.
  - intros n Hn. left. destruct Hn as [Hn0 [Hn|(k & Hk & Hn)]]; split; [done|by left|done|right].
    exists k. split; [done|]. rewrite <- Hn. symmetry. by apply fb_same.
Qed.

(** An allocation failed: the map is full, after what was allocated so far. *)
Definition out_of_blocks {A} (i : nat) (s : kstate) (ip : inode) (r : res A) : Prop :=
  r = Panic "balloc: out of blocks" /\
  exists s1 ip1, extends i s ip s1 ip1 /\ forall b, 0 <= b < sb_size (k_sb s1) -> used s1 b = true.

Lemma bind_panic {A B} (m : K A) (f : A -> K B) s w : m s = Panic w -> kbind m f s = Panic w.
Proof using Type. intros E. unfold kbind. by rewrite E. Qed.

Lemma out_of_blocks_trans {A B} i s ip s1 ip1 (r1 : res A) (r : res B) :
  extends i s ip s1 ip1 -> out_of_blocks i s1 ip1 r1 -> r = Panic "balloc: out of blocks" -> out_of_blocks i s ip r.
Proof using Type.
  intros He (_ & s2 & ip2 & He2 & Hall) ->. split; [done|]. exists s2, ip2. split; [by eapply extends_trans|done].
Qed.

(** [balloc] for a file: with no block held, or with the indirect block held. *)
Lemma balloc_for_file W k i s ip :
  writable W i s ip -> tx s pid [] W (S k) ->
  (exists b s1, balloc 1 s = Ok b s1 /\ allocated pid [] W k b s s1) \/ out_of_blocks i s ip (balloc 1 s).
Proof using Type.
  intros [Hi Hf Hg HW] Ht. destruct (balloc_ok pid s [] W k Ht ltac:(cbn; lia) Hg ltac:(by intros j Hj%elem_of_nil) HW)
    as [(b & s1 & Hb & Ha)|[Hp Hall]].
  - left. by exists b, s1.
  - right. split; [done|]. exists s, ip. split; [by apply extends_refl|done].
Qed.

(** The direct blocks. *)
Lemma bmap_direct W kr i bn s ip :
  writable W i s ip -> tx s pid [] W (kr + 1 + icost s ip) -> 0 <= bn < NDIRECT ->
  (exists a s' ip', bmap i bn s = Ok a s' /\ mapped W kr i bn s ip a s' ip') \/ out_of_blocks i s ip (bmap i bn s).
Proof using Type.
  intros Hw Ht Hbn. pose proof Hw as [Hi Hf Hg HW]. unfold bmap. rewrite (kbind_ok _ _ _ _ _ (get_inode_ok _ _ _ Hi)).
  rewrite (proj2 (Z.ltb_lt bn NDIRECT)) by lia. rewrite (fi_dev _ _ Hf). change NDIRECT with 12 in *.
  assert (Ha : fb s ip bn = addr_of ip (Z.to_nat bn)). { unfold fb. change NDIRECT with 12. by rewrite (proj2 (Z.ltb_lt bn 12)) by lia. }
  destruct (Z.eqb_spec (addr_of ip (Z.to_nat bn)) 0) as [Hz|Hne].
  2:{ left. exists (addr_of ip (Z.to_nat bn)), s, ip. split; [done|]. by apply mapped_here. }
  destruct (balloc_for_file W (kr + icost s ip) i s ip Hw) as [(b & s1 & Hb & Hal)|Hout].
  { eapply tx_weaken; [exact Ht|lia]. }
  2:{ right. split; [by apply bind_panic, Hout|apply Hout]. }
  left. destruct (add_addr W _ i s ip s1 (Z.to_nat bn) b Hw Hal ltac:(lia) Hz) as (He & Ht1 & Hb0 & Hfb & Hv).
  rewrite (kbind_ok _ _ _ _ _ Hb). unfold set_addr, set_inode. rewrite (kbind_ok (modify _) _ _ tt _ eq_refl).
  eexists b, _, _. split; [reflexivity|]. assert (Hs : slot_bn (Z.to_nat bn) = bn) by (unfold slot_bn; case_decide; lia).
  rewrite Hs in Hfb. constructor; try done.
  - eapply tx_weaken; [exact Ht1|]. rewrite cost_in by apply (al_txn _ _ _ _ _ _ _ Hal).
    pose proof (icost_le _ _ ip (with_addr (Z.to_nat bn) b ip) (ex_grew _ _ _ _ _ He)) as Hc.
    rewrite <- Nat.add_assoc. apply Nat.add_le_mono_l. apply Hc. unfold ind. change (Z.to_nat NDIRECT) with 12%nat.
    rewrite addr_with_addr by (try apply Hf; lia). by rewrite decide_False by lia.
  - rewrite Hfb, Z.eqb_refl by (change MAXFILE with 140; lia). done.
  - by rewrite Ha.
  - intros n Hn. rewrite Hfb by done. destruct (Z.eqb_spec n bn) as [->|]; [right|by left]. by rewrite Ha.
  - intros n Hn Hne. apply Hv. by destruct (fi_blocks _ _ Hf n Hn).
Qed.

(** The part of [bmap] that looks at an entry of the indirect block. *)
Definition bmap_entry (addr bn : Z) : K Z :=
  bp <- bread 1 addr;
  bf <- get_buf bp;
  let a := rd 4 (b_data bf) (Z.to_nat (4 * bn)) in
  addr <- (if a =? 0 then
             addr <- balloc 1;
             set_buf bp (upd_b_data (fun d => wr 4 d (Z.to_nat (4 * bn)) addr)) ;;
             log_write bp ;;
             kret addr
           else kret a);
  brelse bp ;;
  kret addr.

(** A new entry: the indirect block is held while [balloc] runs. *)
Lemma add_entry W kr i bn s ip bp s1 :
  writable W i s ip -> NDIRECT <= bn < MAXFILE -> ind ip <> 0 -> fb s ip bn = 0 -> block_ok (view s (ind ip)) ->
  later s s1 -> (forall n, view s1 n = view s n) -> k_log s1 = k_log s -> (1 <= kr)%nat ->
  tx s1 pid [bp] W (S (kr + icost s ip)) -> b_blockno (buf_at s1 bp) = ind ip -> b_data (buf_at s1 bp) = view s (ind ip) ->
  (exists b s2 s3 s4, balloc 1 s1 = Ok b s2 /\
     log_write bp (upd_k_bufs (alter (upd_b_data (fun d => wr 4 d (entry_off bn) b)) bp) s2) = Ok tt s3 /\
     brelse bp s3 = Ok tt s4 /\ mapped W kr i bn s ip b s4 ip) \/ out_of_blocks i s ip (balloc 1 s1).
Proof using Type.
  intros Hw Hbn Hne Hz Hok L1 V1 Hlg Hkr Ht1 Hbb Hbd. pose proof Hw as [Hi Hf Hg HW].
  destruct (later_same _ _ L1) as (_ & _ & B1). assert (U1 : forall n, used s1 n = used s n) by (intros n; by apply used_quiet).
  assert (Hg1 : geometry s1) by (apply (geometry_later s); [done..|intros n _; by rewrite U1]).
  assert (Hio : owned s (ind ip)) by (by destruct (fi_ind _ _ Hf)).
  destruct (balloc_ok pid s1 [bp] W (kr + icost s ip) Ht1 ltac:(cbn; lia) Hg1) as [(b & s2 & Hb & Ha)|[Hp Hall]].
  { intros j Hj%list_elem_of_singleton. subst j. rewrite Hbb, B1, U1. apply Hio. }
  { by rewrite B1. }
  2:{ right. split; [done|]. exists s1, ip. split; [by apply (quiet_extends W)|done]. }
  left. pose proof Ha as [T2 L2 H2 R2 _ V2 _ X2]. destruct (H2 bp ltac:(set_solver)) as [Hbb2 Hbd2]. rewrite Hbb in Hbb2. rewrite Hbd in Hbd2.
  assert (Hl2 : later s s2) by (by transitivity s1).
  pose proof (geo_size _ Hg) as Gs. pose proof (geo_disk _ Hg) as Gd. pose proof (data_start_pos s Hg) as Hpos.
  assert (Hcost : (kr + cost (k_log s2) W (ind ip) <= kr + icost s ip)%nat).
  { unfold cost, icost. apply Nat.add_le_mono_l. case_decide; [lia|]. case_decide as Hn2; [lia|].
    case_decide as Hin; [|lia]. destruct Hin as [_ Hin]. by apply (lt_txn _ _ Hl2) in Hin. }
  destruct (tx_log_write pid s2 [bp] W (kr + icost s ip) kr bp (fun d => wr 4 d (entry_off bn) b) T2)
    as (s3 & Hlw & T3 & L3 & V3 & X3 & _ & _ & _ & Hdirty); rewrite ?Hbb2; try done; try lia; [set_solver| | |].
  { rewrite (later_in_log _ _ _ Hl2). apply data_not_log; [done|apply Hio]. }
  { rewrite Hbd2. apply wr_block; [done|]. unfold entry_off. change NDIRECT with 12 in *. change MAXFILE with 140 in *.
    change (Z.to_nat BSIZE) with 512%nat. lia. }
  rewrite Hbb2, Hbd2 in V3. rewrite Hbb2 in X3.
  destruct (tx_brelse pid s3 [] W kr bp T3 (or_introl Hdirty)) as (s4 & Hrel & T4 & L4 & V4 & _).
  assert (L24 : later s2 s4) by (by transitivity s3).
  assert (Hev : entry_view bn b ip s s2 s4) by (intros n; by rewrite V4, V3).
  destruct (entry_extends W _ i bn s ip bp s1 b s2 s4 Hw Hbn Hne Hz Hok L1 V1 Ha L24 Hev) as (He & Hb0 & Hfb & Hv).
  exists b, s2, s3, s4. split; [done|]. split; [done|]. split; [done|]. constructor; try done.
  - rewrite cost_in, icost_in, !Nat.add_0_r; [done|done| |].
    + by apply (lt_txn _ _ L4).
    + by apply (lt_txn _ _ L24).
  - rewrite Hfb, Z.eqb_refl by (change NDIRECT with 12 in *; lia). done.
  - intros n Hn. rewrite Hfb by done. destruct (Z.eqb_spec n bn) as [->|]; [by right|by left].
  - intros n Hn Hn0. apply Hv; [by destruct (fi_blocks _ _ Hf n Hn)|by apply (fi_sep _ _ Hf)].
Qed.

Lemma bmap_entry_ok W kr i bn s ip :
  writable W i s ip -> tx s pid [] W (kr + 1 + icost s ip) -> (1 <= kr)%nat -> NDIRECT <= bn < MAXFILE -> ind ip <> 0 ->
  (exists a s', bmap_entry (ind ip) (bn - NDIRECT) s = Ok a s' /\ mapped W kr i bn s ip a s' ip) \/
  out_of_blocks i s ip (bmap_entry (ind ip) (bn - NDIRECT) s).
Proof using Type.
  intros Hw Ht Hkr Hbn Hne. pose proof Hw as [Hi Hf Hg HW].
  assert (Hio : owned s (ind ip)) by (by destruct (fi_ind _ _ Hf)).
  pose proof (geo_size _ Hg) as Gs. pose proof (data_start_pos s Hg) as Hpos.
  destruct (tx_bread pid s [] W _ (ind ip) Ht ltac:(cbn; lia) ltac:(destruct Hio as [? _]; lia) ltac:(by intros j Hj%elem_of_nil))
    as (bp & s1 & Hr & T1 & L1 & Hlg & _ & V1 & Hbb & Hbd & Hbf & _ & Hcl).
  assert (Ha : fb s ip bn = rd 4 (view s (ind ip)) (entry_off bn)).
  { unfold fb, entry_off. rewrite (proj2 (Z.ltb_ge bn NDIRECT)) by lia. by rewrite (proj2 (Z.eqb_neq (ind ip) 0)). }
  unfold bmap_entry. rewrite (kbind_ok _ _ _ _ _ Hr), (kbind_ok _ _ _ _ _ (get_buf_ok _ _ _ Hbf)), Hbd.
  fold (entry_off bn). rewrite <- Ha. destruct (Z.eqb_spec (fb s ip bn) 0) as [Hz|Hnz].
  - destruct (add_entry W kr i bn s ip bp s1 Hw Hbn Hne Hz) as [(b & s2 & s3 & s4 & Hb & Hlw & Hrel & Hm)|Hout]; try done.
    { apply (view_ok s pid []), (tx_bio _ _ _ _ _ Ht). }
    { eapply tx_weaken; [exact T1|lia]. }
    + left. exists b, s4. split; [|done].
      assert (Hin : (addr <- balloc 1; set_buf bp (upd_b_data (fun d => wr 4 d (entry_off bn) addr)) ;; log_write bp ;; kret addr) s1 = Ok b s3).
      { rewrite (kbind_ok _ _ _ _ _ Hb). unfold set_buf at 1. rewrite (kbind_ok (modify _) _ _ tt _ eq_refl).
        by rewrite (kbind_ok _ _ _ _ _ Hlw). }
      by rewrite (kbind_ok _ _ _ _ _ Hin), (kbind_ok _ _ _ _ _ Hrel).
    + right. split; [|apply Hout]. apply bind_panic. by apply bind_panic, Hout.
  - left. rewrite (kbind_ok (kret _) _ _ _ _ eq_refl).
    destruct (tx_brelse pid s1 [] W _ bp T1 Hcl) as (s2 & Hrel & T2 & L2 & V2 & _).
    rewrite (kbind_ok _ _ _ _ _ Hrel). exists (fb s ip bn), s2. split; [done|].
    assert (L12 : later s s2) by (by transitivity s1). assert (V12 : forall n, view s2 n = view s n) by (intros n; by rewrite V2).
    assert (He : extends i s ip s2 ip) by (by apply (quiet_extends W)).
    assert (Hfb : forall n, fb s2 ip n = fb s ip n) by (intros n; by apply fb_same).
    constructor; try done.
    + eapply tx_weaken; [exact T2|]. pose proof (cost_le (k_log s2) W (fb s ip bn)).
      pose proof (icost_le s s2 ip ip (later_grew _ _ L12) eq_refl). lia.
    + intros n _. left. by apply Hfb.
Qed.

(** The blocks behind the indirect block, which may have to be allocated first. *)
Lemma bmap_indirect W kr i bn s ip :
  writable W i s ip -> tx s pid [] W (kr + 1 + icost s ip) -> (1 <= kr)%nat -> NDIRECT <= bn < MAXFILE ->
  (exists a s' ip', bmap i bn s = Ok a s' /\ mapped W kr i bn s ip a s' ip') \/ out_of_blocks i s ip (bmap i bn s).
Proof using Type.
  intros Hw Ht Hkr Hbn. pose proof Hw as [Hi Hf Hg HW]. unfold bmap. rewrite (kbind_ok _ _ _ _ _ (get_inode_ok _ _ _ Hi)).
  rewrite (proj2 (Z.ltb_ge bn NDIRECT)), (proj2 (Z.ltb_lt (bn - NDIRECT) NINDIRECT)) by (change MAXFILE with 140 in *; change NDIRECT with 12 in *; change NINDIRECT with 128; lia).
  rewrite (fi_dev _ _ Hf). fold (ind ip).
  match goal with |- context [kbind ?m ?f s] => change (kbind m f s) with (kbind m (fun addr => bmap_entry addr (bn - NDIRECT)) s) end.
  destruct (Z.eqb_spec (ind ip) 0) as [Hz|Hne].
  2:{ rewrite (kbind_ok (kret _) _ _ _ _ eq_refl).
      destruct (bmap_entry_ok W kr i bn s ip Hw Ht Hkr Hbn Hne) as [(a & s' & Hrun & Hm)|Hout]; [|by right].
      left. by exists a, s', ip. }
  assert (Hc : icost s ip = 1%nat) by (unfold icost; by rewrite decide_False by tauto). rewrite Hc in Ht.
  destruct (balloc_for_file W (kr + 1) i s ip Hw) as [(b & s1 & Hb & Hal)|Hout].
  { eapply tx_weaken; [exact Ht|lia]. }
  2:{ right. split; [apply bind_panic, bind_panic, Hout|apply Hout]. }
  destruct (add_addr W _ i s ip s1 12 b Hw Hal ltac:(lia) Hz) as (He & Ht1 & Hb0 & Hfb & Hv).
  set (s2 := upd_k_inodes (alter (upd_i_addrs (insert 12%nat b)) i) s1) in *. set (ip2 := with_addr 12 b ip) in *.
  assert (Hin : (addr <- balloc 1; set_addr i (Z.to_nat NDIRECT) addr ;; kret addr) s = Ok b s2).
  { rewrite (kbind_ok _ _ _ _ _ Hb). unfold set_addr, set_inode. by rewrite (kbind_ok (modify _) _ _ tt _ eq_refl). }
  rewrite (kbind_ok _ _ _ _ _ Hin).
  assert (Hind : ind ip2 = b) by (unfold ind, ip2; change (Z.to_nat NDIRECT) with 12%nat; by rewrite addr_with_addr by (lia || apply Hf)).
  pose proof (extends_writable _ _ _ _ _ _ Hw He) as Hw2. rewrite <- Hind.
  assert (Hc2 : icost s2 ip2 = 0%nat) by (apply icost_in; rewrite Hind; [done|apply (al_txn _ _ _ _ _ _ _ Hal)]).
  assert (Hsame : forall n, 0 <= n < MAXFILE -> fb s2 ip2 n = fb s ip n).
  { intros n Hn. rewrite Hfb by done. change (slot_bn 12) with (-1). by rewrite (proj2 (Z.eqb_neq n (-1))) by lia. }
  destruct (bmap_entry_ok W kr i bn s2 ip2 Hw2) as [(a & s' & Hrun & Hm)|Hout]; try done.
  - rewrite Hc2. eapply tx_weaken; [exact Ht1|lia].
  - by rewrite Hind.
  - left. exists a, s', ip2. split; [done|]. destruct Hm as [M1 M2 M3 M6 M4 M5]. constructor; try done.
    + by eapply extends_trans.
    + unfold fb. rewrite (proj2 (Z.ltb_ge bn NDIRECT)) by lia. by rewrite Hz.
    + intros n Hn. rewrite <- (Hsame n) by done. auto.
    + intros n Hn Hn0. rewrite <- (Hsame n) in * by done. rewrite M5 by done. rewrite (Hsame n) in * by done.
      apply Hv. by destruct (fi_blocks _ _ Hf n Hn).
  - right. by eapply out_of_blocks_trans; [exact He|exact Hout|apply Hout].
Qed.

(** [bmap] of any block a file can have. *)
Lemma bmap_maps W kr i bn s ip :
  writable W i s ip -> tx s pid [] W (kr + 1 + icost s ip) -> (1 <= kr)%nat -> 0 <= bn < MAXFILE ->
  (exists a s' ip', bmap i bn s = Ok a s' /\ mapped W kr i bn s ip a s' ip') \/ out_of_blocks i s ip (bmap i bn s).
Proof using Type.
  intros Hw Ht Hkr Hbn. destruct (Z_lt_le_dec bn NDIRECT); [apply bmap_direct|apply bmap_indirect]; done || lia.
Qed.
End Bmap.
