(* ===== verification/Writei.v ===== *)
(** * Writing a file: what [writei] leaves in it

    [writei] goes block by block: [bmap] finds or allocates the block, and the bytes go into
    its buffer, which is logged. The size is only set at the end, and with it the inode on
    the disk. *)

From S2P Require Import Prelude Mem Kernel Sched Bio Layout Log Tx Printf Cons Fs Readi Balloc Growth Bmap.

(** ** Bytes of a file *)

Definition byte (s : kstate) (ip : inode) (k : Z) : Z := byte_at (view s (fb s ip (k / BSIZE))) (k mod BSIZE).

(** The blocks that [len] bytes from [off] on touch. *)
Definition nblocks (off len : Z) : nat :=
  if len <=? 0 then 0%nat else Z.to_nat ((off + len - 1) / BSIZE - off / BSIZE + 1).

Lemma nblocks_step off len m :
  0 <= off -> 0 < len -> m = Z.min len (BSIZE - off mod BSIZE) -> nblocks off len = S (nblocks (off + m) (len - m)).
Proof.
  intros Ho Hl Hm. unfold nblocks. change BSIZE with 512 in *. rewrite (proj2 (Z.leb_gt len 0)) by lia.
  destruct (Z.leb_spec (len - m) 0); dlia.
Qed.

Lemma byte_at_splice d i p k :
  (i + length p <= length d)%nat -> 0 <= k ->
  byte_at (splice i p d) k = if bool_decide (Z.of_nat i <= k < Z.of_nat (i + length p)) then default 0 (p !! (Z.to_nat k - i)%nat) else byte_at d k.
Proof.
  intros Hl Hk. unfold byte_at. case_bool_decide.
  - rewrite lookup_splice_in by lia. done.
  - rewrite lookup_splice_out by lia. done.
Qed.

(** ** The inode on the disk *)

Definition dinode_of (ip : inode) : dinode :=
  Dinode (i_type ip) (i_major ip) (i_minor ip) (i_nlink ip) (i_size ip) (i_addrs ip).

Definition dinode_at (s : kstate) (inum : Z) : dinode := get_dinode (view s (IBLOCK inum (k_sb s))) inum.

(** An inode that [iupdate] can store: its number and its other fields are in range. *)
Record storable (s : kstate) (ip : inode) : Prop := {
  st_inum : 0 <= i_inum ip < sb_ninodes (k_sb s);
  st_fields : - 2 ^ 15 <= i_type ip < 2 ^ 15 /\ - 2 ^ 15 <= i_major ip < 2 ^ 15 /\
    - 2 ^ 15 <= i_minor ip < 2 ^ 15 /\ - 2 ^ 15 <= i_nlink ip < 2 ^ 15;
}.

Lemma dinode_of_wf s ip : geometry s -> file_inv s ip -> storable s ip -> dinode_wf (dinode_of ip).
Proof.
  intros Hg Hf [_ (H1 & H2 & H3 & H4)]. pose proof (fi_size _ _ Hf) as Hs. change (MAXFILE * BSIZE) with 71680 in Hs.
  pose proof (geo_size _ Hg) as Gs. pose proof (geo_disk _ Hg) as Gd. pose proof (data_start_pos _ Hg) as Hds.
  unfold dinode_wf. cbn. do 5 (split; [lia|]). split; [apply Hf|]. apply Forall_lookup. intros k a Hk.
  assert (Ha : a = 0 \/ owned s a).
  { pose proof (lookup_lt_Some _ _ _ Hk) as Hlt. rewrite (fi_addrs _ _ Hf) in Hlt. destruct (decide (k = 12%nat)) as [->|Hne].
    - destruct (fi_ind _ _ Hf) as [E|E]; unfold ind, addr_of in E; change (Z.to_nat NDIRECT) with 12%nat in E;
        rewrite Hk in E; [by left|by right].
    - pose proof (fi_blocks _ _ Hf (Z.of_nat k) ltac:(change MAXFILE with 140; lia)) as E. unfold fb, addr_of in E. change NDIRECT with 12 in E.
      rewrite (proj2 (Z.ltb_lt (Z.of_nat k) 12)), Nat2Z.id, Hk in E by lia. exact E. }
  destruct Ha as [->|[Ha _]]; lia.
Qed.

(** The block of inode [n] is in use, before the map and after the log. *)
Lemma iblock_range s n : geometry s -> 0 <= n < sb_ninodes (k_sb s) ->
  0 <= IBLOCK n (k_sb s) < data_start (k_sb s) /\ IBLOCK n (k_sb s) < k_disksize s /\ ~ in_log (k_log s) (IBLOCK n (k_sb s)) /\
  IBLOCK n (k_sb s) ∉ map_blocks (k_sb s).
Proof.
  intros [G1 G2 G3 G4 _] Hn. unfold IBLOCK, in_log, data_start, bitmaps in *. change IPB with 8 in *. change BPB with 4096 in *.
  rewrite u32_id by dlia. split_and!; try dlia. intros H%elem_of_seqZ. dlia.
Qed.

Section Writing.
Context `{Fuel} `{Devsw} (pid : Z).

(** Changing the data of a block of the file. *)
Lemma data_extends W k i s ip s' bn d :
  writable W i s ip -> 0 <= bn < MAXFILE -> fb s ip bn <> 0 -> set_block pid [] W k (fb s ip bn) d s s' ->
  extends i s ip s' ip /\ (forall n, fb s' ip n = fb s ip n).
Proof using Type.
  intros [Hi Hf Hg HW] Hbn Hne [T L V X _]. destruct (later_same _ _ L) as (Li & Ld & Lsb).
  assert (Hio : owned s (fb s ip bn)) by (by destruct (fi_blocks _ _ Hf bn Hbn)).
  assert (U : forall n, 0 <= n < sb_size (k_sb s) -> used s' n = used s n).
  { intros n Hn. unfold used. rewrite Lsb, V, (proj2 (Z.eqb_neq _ _)); [done|]. intros E.
    apply (owned_not_map _ _ Hio). rewrite <- E. by apply BBLOCK_in. }
  assert (Hm : more_used s s') by (intros n Hn; by rewrite U).
  assert (Hvi : ind ip <> 0 -> view s' (ind ip) = view s (ind ip)).
  { intros Hni. rewrite V, (proj2 (Z.eqb_neq _ _)); [done|]. intros E. by apply (fi_sep _ _ Hf bn). }
  assert (Hfb : forall n, fb s' ip n = fb s ip n) by (intros n; by apply fb_same).
  split; [constructor; try done|done].
  - by apply later_grew.
  - by rewrite Li, list_insert_id.
  - by destruct ip.
  - by apply (file_inv_step s).
  - apply (geometry_later s); try done.
  - intros n _ _ _ HX. rewrite V, (proj2 (Z.eqb_neq _ _)); [done|]. intros ->. apply HX. split; [done|]. right. by exists bn.
  - intros n [Hn0 [Hn|(j & Hj & Hn)]]; left; (split; [done|]); [by left|right]. exists j. by rewrite <- Hfb.
Qed.

(** What writing [src] at [off] has done to the file, the size aside. *)
Record wrote (W : list Z) (kr : nat) (i : nat) (off : Z) (src : list Z) (s : kstate) (ip : inode) (s' : kstate) (ip' : inode) : Prop := {
  wt_tx : tx s' pid [] W (kr + icost s' ip');
  wt_ext : extends i s ip s' ip';
  wt_new : forall k, off <= k < off + Z.of_nat (length src) ->
    fb s' ip' (k / BSIZE) <> 0 /\ src !! Z.to_nat (k - off) = Some (byte s' ip' k);
  wt_old : forall k, 0 <= k < MAXFILE * BSIZE -> fb s ip (k / BSIZE) <> 0 -> k < off \/ off + Z.of_nat (length src) <= k ->
    fb s' ip' (k / BSIZE) <> 0 /\ byte s' ip' k = byte s ip k;
  wt_same : off + Z.of_nat (length src) <= i_size ip -> ip' = ip;
}.

(** One round of the loop: [bmap] and the bytes of one block. *)
Lemma write_block W kr i off p s ip :
  writable W i s ip -> tx s pid [] W (kr + 1 + icost s ip) -> (1 <= kr)%nat ->
  0 <= off < MAXFILE * BSIZE -> Z.of_nat (length p) <= BSIZE - off mod BSIZE -> Forall (field_ok 8) p -> (0 < length p)%nat ->
  (exists a s1 ip1 b bf s2 s3 s4, bmap i (off / BSIZE) s = Ok a s1 /\ bread 1 a s1 = Ok b s2 /\ get_buf b s2 = Ok bf s2 /\
     log_write b (upd_k_bufs (alter (upd_b_data (splice (Z.to_nat (off mod BSIZE)) p)) b) s2) = Ok tt s3 /\
     brelse b s3 = Ok tt s4 /\ wrote W kr i off p s ip s4 ip1) \/ out_of_blocks i s ip (bmap i (off / BSIZE) s).
Proof using Type.
  intros Hw Ht Hkr Hoff Hp Hok Hpos. set (bn := off / BSIZE).
  assert (Hbn : 0 <= bn < MAXFILE) by (unfold bn; change MAXFILE with 140 in *; change BSIZE with 512 in *; dlia).
  destruct (bmap_maps pid W kr i bn s ip Hw Ht Hkr Hbn) as [(a & s1 & ip1 & Hrun & Hm)|Hout]; [left|by right].
  destruct Hm as [M1 M2 [M3 M4] M5 M6 M7]. pose proof (extends_writable _ _ _ _ _ _ Hw M2) as Hw1.
  pose proof Hw1 as [_ Hf1 Hg1 _]. pose proof (geo_size _ Hg1) as Gs. pose proof (data_start_pos _ Hg1) as Hds.
  assert (Hio : owned s1 a) by (rewrite <- M3; destruct (fi_blocks _ _ Hf1 bn Hbn); [congruence|done]).
  destruct (tx_open_block pid s1 [] W _ a M1 ltac:(cbn; lia) ltac:(destruct Hio as [? _]; lia) ltac:(by intros j Hj%elem_of_nil))
    as (b & bf & s2 & Hr & Hgb & _ & _ & Hset).
  pose proof (view_ok s1 pid [] a (tx_bio _ _ _ _ _ M1)) as Hva. assert (Hmod : 0 <= off mod BSIZE < 512) by (change BSIZE with 512; dlia).
  destruct (Hset (splice (Z.to_nat (off mod BSIZE)) p) (kr + icost s1 ip1)%nat) as (s3 & s4 & Hlw & Hrel & Hsb).
  { apply splice_block; try done. change BSIZE with 512 in *. lia. }
  { apply data_not_log; [done|apply Hio]. }
  { lia. }
  exists a, s1, ip1, b, bf, s2, s3, s4. do 5 (split; [done|]).
  rewrite <- M3 in Hsb. destruct (data_extends W _ i s1 ip1 s4 bn _ Hw1 Hbn ltac:(by rewrite M3) Hsb) as [He4 Hfb4].
  destruct Hva as [Hlen _]. change (Z.to_nat BSIZE) with 512%nat in Hlen. rewrite M3 in Hsb. pose proof (sb_view _ _ _ _ _ _ _ _ Hsb) as V4.
  assert (Hbyte : forall k, 0 <= k < MAXFILE * BSIZE -> fb s1 ip1 (k / BSIZE) <> 0 ->
    byte s4 ip1 k = if bool_decide (off <= k < off + Z.of_nat (length p)) then default 0 (p !! Z.to_nat (k - off)) else byte s1 ip1 k).
  { intros k Hk Hne. unfold byte. rewrite Hfb4, V4. change MAXFILE with 140 in *. destruct (Z.eqb_spec (fb s1 ip1 (k / BSIZE)) a) as [E|E].
    - assert (Hkb : k / BSIZE = bn). { apply (fi_inj _ _ Hf1); [change MAXFILE with 140; change BSIZE with 512 in *; dlia|done|congruence|done]. }
      rewrite byte_at_splice by (change BSIZE with 512 in *; dlia). rewrite Hkb, M3. unfold bn in *. change BSIZE with 512 in *.
      rewrite (bool_decide_ext (_ <= k mod 512 < _) (off <= k < off + Z.of_nat (length p))) by dlia.
      case_bool_decide; [|done]. f_equal. f_equal. dlia.
    - rewrite bool_decide_eq_false_2; [done|]. intros Hin. apply E. rewrite <- M3. f_equal. unfold bn. change BSIZE with 512 in *. dlia. }
  constructor.
  - eapply tx_weaken; [apply (sb_tx _ _ _ _ _ _ _ _ Hsb)|]. apply Nat.add_le_mono_l. apply icost_le; [apply He4|done].
  - by eapply extends_trans.
  - intros k Hk. assert (Hkb : k / BSIZE = bn) by (unfold bn; change BSIZE with 512 in *; dlia).
    assert (Hk2 : 0 <= k < MAXFILE * BSIZE) by (change MAXFILE with 140 in *; change BSIZE with 512 in *; dlia).
    split; [by rewrite Hfb4, Hkb, M3|]. rewrite Hbyte by (rewrite ?Hkb, ?M3; done). rewrite bool_decide_eq_true_2 by done.
    destruct (lookup_lt_is_Some_2 p (Z.to_nat (k - off))) as [x ->]; [lia|done].
  - intros k Hk Hne Hout. assert (Hkb : 0 <= k / BSIZE < MAXFILE) by (change MAXFILE with 140 in *; change BSIZE with 512 in *; dlia).
    destruct (M6 (k / BSIZE) Hkb) as [E|[_ E]]; [|congruence]. split; [by rewrite Hfb4, E|].
    rewrite Hbyte by (rewrite ?E; done). rewrite bool_decide_eq_false_2 by lia. unfold byte. by rewrite E, M7.
  - intros Hsz. apply M5. apply (fi_below _ _ (wr_inv _ _ _ _ Hw)); [lia|]. unfold bn. change BSIZE with 512 in *. dlia.
Qed.

Lemma wrote_both W kr1 kr2 i off p q s ip s1 ip1 s2 ip2 :
  0 <= off -> off + Z.of_nat (length p) + Z.of_nat (length q) <= MAXFILE * BSIZE -> 
  wrote W kr1 i off p s ip s1 ip1 -> wrote W kr2 i (off + Z.of_nat (length p)) q s1 ip1 s2 ip2 -> wrote W kr2 i off (p ++ q) s ip s2 ip2.
Proof using Type.
  intros Hoff Hmax [A1 A2 A3 A4 A5] [B1 B2 B3 B4 B5]. rewrite Z.add_comm in B4.
  constructor; rewrite ?length_app, ?Nat2Z.inj_add; try done.
  - by eapply extends_trans.
  - intros k Hk. destruct (Z_lt_le_dec k (off + Z.of_nat (length p))) as [Hlt|Hge].
    + destruct (A3 k ltac:(lia)) as [H1 H2]. destruct (B4 k ltac:(lia) H1 ltac:(lia)) as [H3 H4]. split; [done|].
      rewrite lookup_app_l by lia. by rewrite H4.
    + destruct (B3 k ltac:(lia)) as [H1 H2]. split; [done|]. rewrite lookup_app_r by lia. rewrite <- H2. f_equal. lia.
  - intros k Hk Hne Hout. destruct (A4 k Hk Hne ltac:(lia)) as [H1 H2]. destruct (B4 k Hk H1 ltac:(lia)) as [H3 H4]. split; [done|]. by rewrite H4.
  - intros Hsz. assert (ip1 = ip) as -> by (apply A5; lia). apply B5. lia.
Qed.

Lemma wrote_none W kr i off s ip :
  writable W i s ip -> tx s pid [] W (kr + icost s ip) -> wrote W kr i off [] s ip s ip.
Proof using Type.
  intros [Hi Hf Hg HW] Ht. constructor; try done.
  - by apply extends_refl.
  - intros k Hk. cbn in Hk. lia.
Qed.

Lemma writei_loop_ok fl : forall W kr i src off tot n s ip,
  writable W i s ip -> (1 <= kr)%nat -> n - tot = Z.of_nat (length src) -> (length src <= fl)%nat ->
  tx s pid [] W (kr + nblocks off (Z.of_nat (length src)) + icost s ip) ->
  0 <= off -> off + Z.of_nat (length src) <= MAXFILE * BSIZE -> Forall (field_ok 8) src ->
  (exists s' ip', writei_loop fl i src off tot n s = Ok (off + Z.of_nat (length src)) s' /\ wrote W kr i off src s ip s' ip') \/
  out_of_blocks i s ip (writei_loop fl i src off tot n s).
Proof using Type.
  induction fl as [|fl IH]; intros W kr i src off tot n s ip Hw Hkr Hn Hfl Ht Hoff Hmax Hok; cbn [writei_loop].
  - destruct src as [|]; [|cbn in Hfl; lia]. rewrite (proj2 (Z.ltb_ge tot n)) by (cbn in Hn; lia).
    left. exists s, ip. rewrite Z.add_0_r. split; [done|]. apply wrote_none; [done|]. eapply tx_weaken; [exact Ht|lia].
  - destruct (Z.ltb_spec tot n) as [Hlt|Hge].
    2:{ assert (src = []) as -> by (destruct src; [done|cbn in Hn; lia]). left. exists s, ip. rewrite Z.add_0_r.
        split; [done|]. apply wrote_none; [done|]. eapply tx_weaken; [exact Ht|lia]. }
    rewrite (kbind_ok _ _ _ _ _ (get_inode_ok _ _ _ (wr_inode _ _ _ _ Hw))).
    set (m := Z.min (n - tot) (BSIZE - off mod BSIZE)). set (p := take (Z.to_nat m) src). set (q := drop (Z.to_nat m) src).
    assert (Hm : 0 < m <= n - tot /\ m <= BSIZE - off mod BSIZE) by (unfold m; change BSIZE with 512; dlia).
    assert (Hlp : Z.of_nat (length p) = m) by (unfold p; rewrite length_take; lia).
    assert (Hlq : Z.of_nat (length q) = n - (tot + m)) by (unfold q; rewrite length_drop; lia).
    assert (Hpq : src = p ++ q) by (unfold p, q; by rewrite take_drop).
    rewrite (nblocks_step off (Z.of_nat (length src)) m) in Ht by (try done; rewrite <- ?Hn; lia || done).
    replace (Z.of_nat (length src) - m) with (Z.of_nat (length q)) in Ht by lia. set (kr1 := (kr + nblocks (off + m) (Z.of_nat (length q)))%nat).
    destruct (write_block W kr1 i off p s ip Hw) as [(a & s1 & ip1 & b & bf & s2 & s3 & s4 & Hb & Hr & Hgb & Hlw & Hrel & Hwr)|Hout];
      [eapply tx_weaken; [exact Ht|unfold kr1; lia]|unfold kr1; lia|lia|lia|by apply Forall_take|lia| |].
    2:{ right. split; [by apply bind_panic, Hout|apply Hout]. }
    pose proof Hwr as [T4 E4 _ _ _]. pose proof (extends_writable _ _ _ _ _ _ Hw E4) as Hw4.
    rewrite (kbind_ok _ _ _ _ _ Hb), (fi_dev _ _ (wr_inv _ _ _ _ Hw)), (kbind_ok _ _ _ _ _ Hr).
    unfold set_buf. rewrite (kbind_ok (modify _) _ _ tt _ eq_refl), (kbind_ok _ _ _ _ _ Hlw), (kbind_ok _ _ _ _ _ Hrel).
    destruct (IH W kr i q (off + m) (tot + m) n s4 ip1 Hw4 Hkr) as [(s' & ip' & Hrun & Hwr')|Hout];
      [lia|lia|done|lia|lia|by apply Forall_drop| |].
    + left. exists s', ip'. split; [rewrite Hrun; f_equal; lia|]. rewrite Hpq. eapply wrote_both; [done|lia|exact Hwr|by rewrite Hlp].
    + right. by eapply out_of_blocks_trans; [exact E4|exact Hout|apply Hout].
Qed.

(** [iupdate] stores the inode in its block, and changes nothing else. *)
Lemma iupdate_ok W k i s ip :
  writable W i s ip -> storable s ip -> tx s pid [] W (S k) -> IBLOCK (i_inum ip) (k_sb s) ∈ W ->
  exists s', iupdate i s = Ok tt s' /\
    set_block pid [] W (S k) (IBLOCK (i_inum ip) (k_sb s)) (put_dinode (view s (IBLOCK (i_inum ip) (k_sb s))) (i_inum ip) (dinode_of ip)) s s'.
Proof using Type.
  intros [Hi Hf Hg HW] Hst Ht Hin. destruct (iblock_range s _ Hg (st_inum _ _ Hst)) as (R1 & R2 & R3 & R4).
  set (bno := IBLOCK (i_inum ip) (k_sb s)) in *.
  destruct (dinode_put_get (view s bno) (i_inum ip) (dinode_of ip)) as (Hok & _);
    [apply (view_ok s pid []), (tx_bio _ _ _ _ _ Ht)|by apply (dinode_of_wf s)|].
  destruct (tx_open_block pid s [] W (S k) bno Ht ltac:(cbn; lia) ltac:(lia) ltac:(by intros j Hj%elem_of_nil)) as (b & bf & s1 & Hr & _ & _ & _ & Hset).
  destruct (Hset (fun d => put_dinode d (i_inum ip) (dinode_of ip)) (S k) Hok R3) as (s2 & s3 & Hlw & Hrel & Hsb).
  { unfold cost. rewrite decide_True by done. lia. }
  exists s3. split; [|done]. unfold iupdate. rewrite (kbind_ok _ _ _ _ _ (get_inode_ok _ _ _ Hi)).
  rewrite (kbind_ok (gets k_sb) _ s (k_sb s) s eq_refl), (fi_dev _ _ Hf), (kbind_ok _ _ _ _ _ Hr).
  unfold set_buf. rewrite (kbind_ok (modify _) _ _ tt _ eq_refl). by rewrite (kbind_ok _ _ _ _ _ Hlw).
Qed.

(** What a write has done. *)
Record written (W : list Z) (kr : nat) (i : nat) (off : Z) (src : list Z) (s : kstate) (ip : inode) (s' : kstate) (ip' : inode) : Prop := {
  wn_tx : tx s' pid [] W kr;
  wn_next : writable W i s' ip';
  wn_inodes : k_inodes s' = <[i := ip']> (k_inodes s);
  wn_ip : ip' = upd_i_size (fun _ => Z.max (i_size ip) (off + Z.of_nat (length src))) (upd_i_addrs (fun _ => i_addrs ip') ip);
  wn_contents : contents s' ip' =
    take (Z.to_nat off) (contents s ip) ++ src ++ drop (Z.to_nat off + length src) (contents s ip);
  wn_disk : dinode_at s (i_inum ip) = dinode_of ip -> dinode_at s' (i_inum ip) = dinode_of ip';
  wn_others : forall n, 0 <= n < sb_ninodes (k_sb s) -> n <> i_inum ip -> dinode_at s' n = dinode_at s n;
  wn_used : more_used s s';
  wn_kept : kept (fun n => of_file s ip n \/ n = IBLOCK (i_inum ip) (k_sb s)) s s';
}.

(** Every block below the new size is there. *)
Lemma wrote_blocks W kr i off src s ip s' ip' :
  writable W i s ip -> 0 <= off <= i_size ip -> off + Z.of_nat (length src) <= MAXFILE * BSIZE ->
  wrote W kr i off src s ip s' ip' ->
  forall k, 0 <= k < Z.max (i_size ip) (off + Z.of_nat (length src)) -> fb s' ip' (k / BSIZE) <> 0.
Proof using Type.
  intros [Hi Hf Hg HW] Hoff Hmax [_ _ T3 T4 _] k Hk. pose proof (fi_size _ _ Hf) as Hfs.
  destruct (decide (off <= k < off + Z.of_nat (length src))) as [Hin|Hin]; [by apply T3|].
  apply (T4 k); [lia|apply (fi_below _ _ Hf); change BSIZE with 512 in *; dlia|lia].
Qed.

(** The contents, when the bytes are known. *)
Lemma contents_written W kr i off src s ip s' ip' ip2 s2 :
  writable W i s ip -> 0 <= off <= i_size ip -> off + Z.of_nat (length src) <= MAXFILE * BSIZE ->
  wrote W kr i off src s ip s' ip' -> file_inv s2 ip2 ->
  i_size ip2 = Z.max (i_size ip) (off + Z.of_nat (length src)) ->
  (forall k, 0 <= k < i_size ip2 -> byte s2 ip2 k = byte s' ip' k) ->
  contents s2 ip2 = take (Z.to_nat off) (contents s ip) ++ src ++ drop (Z.to_nat off + length src) (contents s ip).
Proof using Type.
  intros [Hi Hf Hg HW] Hoff Hmax [_ _ T3 T4 _] Hf2 Hsz Hby. pose proof (fi_size _ _ Hf) as Hfs.
  assert (Hold : forall k, 0 <= k < i_size ip -> fb s ip (k / BSIZE) <> 0).
  { intros k Hk. apply (fi_below _ _ Hf); change BSIZE with 512 in *; dlia. }
  assert (Hc : forall s0 ip0 k, file_inv s0 ip0 -> 0 <= k < i_size ip0 -> contents s0 ip0 !! Z.to_nat k = Some (byte s0 ip0 k)).
  { intros s0 ip0 k Hf0 Hk. rewrite contents_lookup by done. unfold byte. rewrite file_block_fb; [done|done|change BSIZE with 512; dlia..]. }
  apply list_eq. intros j. set (k := Z.of_nat j). destruct (Z_lt_le_dec k (i_size ip2)) as [Hlt|Hge].
  2:{ rewrite lookup_ge_None_2 by (rewrite length_contents; lia). symmetry. apply lookup_ge_None_2.
      rewrite !length_app, length_take, length_drop, length_contents. lia. }
  replace j with (Z.to_nat k) by lia. rewrite Hc, Hby by (done || lia). rewrite Hsz in Hlt.
  destruct (Z_lt_le_dec k off) as [H1|H1].
  - rewrite lookup_app_l by (rewrite length_take, length_contents; lia). rewrite lookup_take_lt by lia.
    rewrite Hc by (done || lia). f_equal. apply T4; [lia|apply Hold; lia|lia].
  - rewrite lookup_app_r by (rewrite length_take, length_contents; lia). rewrite length_take, length_contents.
    destruct (Z_lt_le_dec k (off + Z.of_nat (length src))) as [H2|H2].
    + rewrite lookup_app_l by lia. destruct (T3 k ltac:(lia)) as [_ <-]. f_equal. lia.
    + rewrite lookup_app_r by lia. rewrite lookup_drop. replace (_ + _)%nat with (Z.to_nat k) by lia.
      rewrite Hc by (done || lia). f_equal. apply T4; [lia|apply Hold; lia|lia].
Qed.

(** The inodes on the disk are not among the blocks of a file. *)
Lemma dinode_kept s ip s' n :
  geometry s -> file_inv s ip -> k_sb s' = k_sb s -> kept (of_file s ip) s s' -> 0 <= n < sb_ninodes (k_sb s) ->
  dinode_at s' n = dinode_at s n.
Proof using Type.
  intros Hg Hf Hsb Hk Hn. destruct (iblock_range s n Hg Hn) as (R1 & R2 & _ & R4). unfold dinode_at. rewrite Hsb. f_equal.
  pose proof (geo_size _ Hg) as Gs. apply Hk; [lia|done|by apply (geo_used _ Hg)|].
  intros Ho. destruct (file_owned _ _ _ Hf Ho) as [? _]. lia.
Qed.

Lemma written_within W kr i off src s ip s' ip' :
  writable W i s ip -> storable s ip -> 0 <= off -> off + Z.of_nat (length src) <= i_size ip ->
  wrote W kr i off src s ip s' ip' -> written W kr i off src s ip s' ip'.
Proof using Type.
  intros Hw Hst Hoff Hsz Hwr. pose proof Hw as [Hi Hf Hg HW]. pose proof (wt_ext _ _ _ _ _ _ _ _ _ Hwr) as He.
  assert (ip' = ip) as -> by (by apply (wt_same _ _ _ _ _ _ _ _ _ Hwr)).
  destruct (grew_same _ _ (ex_grew _ _ _ _ _ He)) as [_ Hsb]. pose proof (fi_size _ _ Hf) as Hfs.
  assert (Hd : forall n, 0 <= n < sb_ninodes (k_sb s) -> dinode_at s' n = dinode_at s n).
  { intros n Hn. apply (dinode_kept s ip); try done. apply He. }
  constructor; try apply He.
  - eapply tx_weaken; [apply Hwr|lia].
  - by apply (extends_writable _ _ _ _ _ _ Hw).
  - rewrite Z.max_l by lia. by destruct ip.
  - apply (contents_written W kr i off src s ip s' ip); [done|lia|lia|done|apply He|lia|done].
  - intros E. rewrite Hd, E; [done|apply Hst].
  - intros n Hn _. by apply Hd.
  - intros n H1 H2 H3 H4. apply He; try done. intros Ho. apply H4. by left.
Qed.

(** A new size. *)
Lemma sized_writable W i s ip sz :
  writable W i s ip -> 0 <= sz <= MAXFILE * BSIZE -> (forall k, 0 <= k < sz -> fb s ip (k / BSIZE) <> 0) ->
  writable W i (upd_k_inodes (alter (upd_i_size (fun _ => sz)) i) s) (upd_i_size (fun _ => sz) ip).
Proof using Type.
  intros [Hi Hf Hg HW] Hsz Hb. set (s1 := upd_k_inodes (alter (upd_i_size (fun _ => sz)) i) s).
  assert (Hg1 : geometry s1) by (by apply geometry_inodes).
  constructor; try done.
  - unfold s1. cbn. by rewrite list_lookup_alter_eq, Hi.
  - destruct Hf as [F1 F2 F3 F4 F5 F6 F7 F8]. constructor; try done. cbn. intros bn H1 H2. change BSIZE with 512 in *.
    specialize (Hb (512 * bn) ltac:(lia)). by replace (512 * bn / 512) with bn in Hb by dlia.
Qed.

(** Changing a block of inodes changes nothing of the file or of the map. *)
Lemma iblock_step W k i s ip s' n d :
  writable W i s ip -> 0 <= n < sb_ninodes (k_sb s) -> set_block pid [] W k (IBLOCK n (k_sb s)) d s s' ->
  writable W i s' ip /\ (forall b, owned s b -> view s' b = view s b) /\ (forall k, fb s' ip k = fb s ip k) /\ more_used s s'.
Proof using Type.
  intros [Hi Hf Hg HW] Hn [_ L V _ _]. destruct (later_same _ _ L) as (I & D & B).
  destruct (iblock_range s n Hg Hn) as (R1 & R2 & R3 & R4).
  assert (Hvo : forall b, owned s b -> view s' b = view s b) by (intros b [Hb _]; rewrite V, (proj2 (Z.eqb_neq _ _)) by lia; done).
  assert (Hu : more_used s s').
  { intros b Hb. unfold used. rewrite B, V, (proj2 (Z.eqb_neq _ _)); [done|]. intros E. apply R4. rewrite <- E. by apply BBLOCK_in. }
  assert (Hvi : ind ip <> 0 -> view s' (ind ip) = view s (ind ip)) by (intros Hne; apply Hvo; by destruct (fi_ind _ _ Hf)).
  split; [|split; [done|split; [|done]]].
  - constructor; [by rewrite I|by apply (file_inv_step s)|by apply (geometry_later s)|by rewrite B].
  - intros j. by apply fb_same.
Qed.

(** Two inodes of one block. *)
Lemma iblock_same s n1 n2 :
  geometry s -> 0 <= n1 < sb_ninodes (k_sb s) -> 0 <= n2 < sb_ninodes (k_sb s) -> n1 <> n2 ->
  IBLOCK n1 (k_sb s) = IBLOCK n2 (k_sb s) -> n1 mod IPB <> n2 mod IPB.
Proof using Type.
  intros Hg H1 H2 Hne E. pose proof (geo_inodes _ Hg) as G4. pose proof (geo_size _ Hg) as Gs. pose proof (geo_disk _ Hg) as Gd.
  unfold IBLOCK, data_start, bitmaps in *. change IPB with 8 in *. change BPB with 4096 in *. rewrite !u32_id in E by dlia. dlia.
Qed.

(** The inode with its new size, which [iupdate] will store. *)
Lemma grown_writable W kr i off src s ip s1 ip1 :
  writable W i s ip -> storable s ip -> 0 <= off <= i_size ip -> i_size ip < off + Z.of_nat (length src) <= MAXFILE * BSIZE ->
  wrote W kr i off src s ip s1 ip1 ->
  let sz := off + Z.of_nat (length src) in
  let s2 := upd_k_inodes (alter (upd_i_size (fun _ => sz)) i) s1 in
  let ip2 := upd_i_size (fun _ => sz) ip1 in
  writable W i s2 ip2 /\ storable s2 ip2 /\ k_sb s2 = k_sb s /\ i_inum ip2 = i_inum ip.
Proof using Type.
  intros Hw Hst Hoff Hsz Hwr sz s2 ip2. pose proof (wt_ext _ _ _ _ _ _ _ _ _ Hwr) as He.
  destruct (grew_same _ _ (ex_grew _ _ _ _ _ He)) as [_ Hsb].
  assert (Hn1 : i_inum ip1 = i_inum ip) by (by rewrite (ex_ip _ _ _ _ _ He)). split; [|split; [|done]].
  - apply sized_writable; [by apply (extends_writable _ _ _ _ _ _ Hw)|unfold sz; lia|]. intros k Hk.
    apply (wrote_blocks W kr i off src s ip); try done; lia.
  - destruct Hst as [S1 S2]. unfold ip2. rewrite (ex_ip _ _ _ _ _ He). constructor; [cbn; by rewrite Hsb|exact S2].
Qed.

(** The inode changed on the disk too. *)
Lemma written_grown W kr i off src s ip s1 ip1 s3 :
  writable W i s ip -> storable s ip -> 0 <= off <= i_size ip -> i_size ip < off + Z.of_nat (length src) <= MAXFILE * BSIZE ->
  wrote W kr i off src s ip s1 ip1 ->
  let sz := off + Z.of_nat (length src) in
  let s2 := upd_k_inodes (alter (upd_i_size (fun _ => sz)) i) s1 in
  let ip2 := upd_i_size (fun _ => sz) ip1 in
  let bno := IBLOCK (i_inum ip) (k_sb s) in
  set_block pid [] W kr bno (put_dinode (view s2 bno) (i_inum ip) (dinode_of ip2)) s2 s3 ->
  written W kr i off src s ip s3 ip2.
Proof using Type.
  intros Hw Hst Hoff Hsz Hwr sz s2 ip2 bno Hsb3. pose proof Hsb3 as [T3 L3 V3 _ _]. pose proof Hw as [Hi Hf Hg HW].
  pose proof (wt_ext _ _ _ _ _ _ _ _ _ Hwr) as He. pose proof (extends_writable _ _ _ _ _ _ Hw He) as Hw1.
  destruct (grew_same _ _ (ex_grew _ _ _ _ _ He)) as [_ Hsb]. pose proof (fi_size _ _ Hf) as Hfs. pose proof (ex_ip _ _ _ _ _ He) as Hip1.
  assert (Hmax : sz = Z.max (i_size ip) (off + Z.of_nat (length src))) by (unfold sz; lia).
  destruct (grown_writable W kr i off src s ip s1 ip1 Hw Hst Hoff Hsz Hwr) as (Hw2 & Hst2 & Hsb2 & _). fold sz s2 ip2 in Hw2, Hst2, Hsb2.
  assert (Hb3 : k_sb s3 = k_sb s) by (destruct (later_same _ _ L3) as (_ & _ & ->); done).
  destruct (iblock_step W kr i s2 ip2 s3 (i_inum ip) (put_dinode (view s2 bno) (i_inum ip) (dinode_of ip2)) Hw2) as (Hw3 & Hvo & Hfb3 & Hu3).
  { rewrite Hsb2. apply (st_inum _ _ Hst). }
  { rewrite Hsb2. exact Hsb3. }
  destruct (dinode_put_get (view s2 bno) (i_inum ip) (dinode_of ip2)) as (_ & Hget & Hoth);
    [apply (view_ok s1 pid []), (tx_bio _ _ _ _ _ (wt_tx _ _ _ _ _ _ _ _ _ Hwr))|apply (dinode_of_wf s2); [apply Hw2|apply Hw2|done]|].
  constructor; try done.
  - destruct (later_same _ _ L3) as (-> & _ & _). unfold s2. cbn. rewrite (ex_inodes _ _ _ _ _ He).
    rewrite (alter_insert _ _ ip1); [by rewrite list_insert_insert_eq|].
    apply list_lookup_insert_eq. by eapply lookup_lt_Some.
  - unfold ip2. rewrite <- Hmax. by rewrite Hip1 at 1.
  - apply (contents_written W kr i off src s ip s1 ip1); try done; try lia; [apply Hw3|].
    intros k Hk. assert (Hne : fb s1 ip1 (k / BSIZE) <> 0) by (apply (wrote_blocks W kr i off src s ip); try done; cbn in Hk; lia).
    assert (Hkb : 0 <= k / BSIZE < MAXFILE) by (cbn in Hk; change MAXFILE with 140 in *; change BSIZE with 512 in *; dlia).
    unfold byte. rewrite Hfb3. change (fb s2 ip2 (k / BSIZE)) with (fb s1 ip1 (k / BSIZE)).
    rewrite Hvo; [done|]. by destruct (fi_blocks _ _ (wr_inv _ _ _ _ Hw2) (k / BSIZE) Hkb).
  - intros _. unfold dinode_at. rewrite Hb3. fold bno. by rewrite V3, Z.eqb_refl.
  - intros n Hn Hne. rewrite <- (dinode_kept s ip s1 n Hg Hf Hsb (ex_kept _ _ _ _ _ He) Hn). unfold dinode_at. rewrite Hb3, V3, Hsb.
    destruct (Z.eqb_spec (IBLOCK n (k_sb s)) bno) as [E|E]; [|done]. rewrite Hoth; [by rewrite E|].
    by apply (iblock_same s); [|..|apply Hst| |].
  - apply (more_used_trans s s2); [done|apply He|done].
  - intros n H1 H2 H3 H4. rewrite V3, (proj2 (Z.eqb_neq n bno)) by tauto. apply (ex_kept _ _ _ _ _ He); tauto.
Qed.

Lemma writei_ok W kr i off src s ip :
  writable W i s ip -> storable s ip -> IBLOCK (i_inum ip) (k_sb s) ∈ W -> (1 <= kr)%nat -> i_type ip <> T_DEV ->
  0 <= off < 2 ^ 31 -> Z.of_nat (length src) < 2 ^ 31 -> Forall (field_ok 8) src ->
  tx s pid [] W (kr + nblocks off (Z.of_nat (length src)) + icost s ip) ->
  let n := Z.of_nat (length src) in
  if (i_size ip <? off) || (MAXFILE * BSIZE <? off + n) then writei i src off n s = Ok (-1) s
  else (exists s' ip', writei i src off n s = Ok n s' /\ written W kr i off src s ip s' ip') \/
    out_of_blocks i s ip (writei i src off n s).
Proof using Type.
  intros Hw Hst Hin Hkr Hty Hoff Hlen Hok Ht n. pose proof (get_inode_ok _ _ _ (wr_inode _ _ _ _ Hw)) as Hgi.
  unfold writei. rewrite (kbind_ok _ _ _ _ _ Hgi), (proj2 (Z.eqb_neq _ _) Hty).
  rewrite (u32_id (off + n)), (proj2 (Z.ltb_ge (off + n) off)), orb_false_r by lia.
  destruct (Z.ltb_spec (i_size ip) off) as [|Hsz]; [done|]. destruct (Z.ltb_spec (MAXFILE * BSIZE) (off + n)) as [|Hmax]; [done|]. cbn [orb].
  destruct (writei_loop_ok (Z.to_nat n) W kr i src off 0 n s ip) as [(s1 & ip1 & Hrun & Hwr)|Hout]; try done; try lia.
  2:{ right. split; [by apply bind_panic, Hout|apply Hout]. }
  left. rewrite (kbind_ok _ _ _ _ _ Hrun). fold n. pose proof (wt_ext _ _ _ _ _ _ _ _ _ Hwr) as He.
  pose proof (extends_writable _ _ _ _ _ _ Hw He) as Hw1. rewrite (kbind_ok _ _ _ _ _ (get_inode_ok _ _ _ (wr_inode _ _ _ _ Hw1))).
  assert (Hs1 : i_size ip1 = i_size ip /\ i_inum ip1 = i_inum ip) by (by rewrite (ex_ip _ _ _ _ _ He)). destruct Hs1 as [Hs1 Hn1].
  destruct (grew_same _ _ (ex_grew _ _ _ _ _ He)) as [_ Hsb]. pose proof (fi_size _ _ (wr_inv _ _ _ _ Hw)) as Hfs.
  rewrite Hs1, s32_id by lia. destruct (Z.ltb_spec (i_size ip) (off + n)) as [Hg|Hg].
  2:{ rewrite andb_false_r. exists s1, ip1. split; [done|]. apply written_within; done || lia. }
  rewrite (proj2 (Z.ltb_lt 0 n)) by lia. cbn [andb kwhen].
  set (sz := off + n) in *. set (s2 := upd_k_inodes (alter (upd_i_size (fun _ => sz)) i) s1). set (ip2 := upd_i_size (fun _ => sz) ip1).
  destruct (grown_writable W kr i off src s ip s1 ip1 Hw Hst ltac:(lia) ltac:(unfold n in *; lia) Hwr) as (Hw2 & Hst2 & Hsb2 & Hin2).
  fold n in Hw2, Hst2, Hsb2, Hin2. fold sz in Hw2, Hst2, Hsb2, Hin2. fold s2 ip2 in Hw2, Hst2, Hsb2, Hin2.
  destruct kr as [|kr]; [lia|].
  destruct (iupdate_ok W kr i s2 ip2 Hw2 Hst2) as (s3 & Hup & Hset).
  { apply tx_inodes. eapply tx_weaken; [apply Hwr|lia]. }
  { by rewrite Hin2, Hsb2. }
  exists s3, ip2. split.
  - assert (Hkw : (set_inode i (upd_i_size (fun _ => sz)) ;; iupdate i) s1 = Ok tt s3).
    { unfold set_inode. by rewrite (kbind_ok (modify _) _ _ tt _ eq_refl). }
    by rewrite (kbind_ok _ _ _ _ _ Hkw).
  - rewrite Hin2, Hsb2 in Hset.
    apply (written_grown W (S kr) i off src s ip s1 ip1 s3); try done; unfold sz, n in *; lia.
Qed.

(** C9: [writei] inside a transaction with room for the blocks it touches puts the bytes at the
    offset and keeps the rest of the file, which grows to hold them; it returns their number.
    The file still owns distinct blocks, an inode that was stored on the disk as it is in
    memory still is, the other inodes on the disk and the blocks that were in use and are not
    of this file are unchanged. The offset may not be past the end and the file may not get larger
    than MAXFILE blocks: then nothing happens but -1. The other outcome is the panic of
    [balloc], and then the free map really is full. *)
Theorem writei_writes (W : list Z) (kr i : nat) (off : Z) (src : list Z) (s : kstate) (ip : inode)
    (Hw : writable W i s ip) (Hst : storable s ip) (Hin : IBLOCK (i_inum ip) (k_sb s) ∈ W) (Hkr : (1 <= kr)%nat)
    (Hty : i_type ip <> T_DEV) (Hoff : 0 <= off < 2 ^ 31) (Hlen : Z.of_nat (length src) < 2 ^ 31)
    (Hok : Forall (field_ok 8) src)
    (Ht : tx s pid [] W (kr + nblocks off (Z.of_nat (length src)) + icost s ip)) :
  let n := Z.of_nat (length src) in
  if (i_size ip <? off) || (MAXFILE * BSIZE <? off + n) then writei i src off n s = Ok (-1) s
  else (exists s' ip', writei i src off n s = Ok n s' /\ written W kr i off src s ip s' ip') \/
    out_of_blocks i s ip (writei i src off n s).
Proof using Type. by apply writei_ok. Qed.
End Writing.

(** ** On the small disk *)

Definition small_ip : inode := Inode 1 1 1 (Sleeplock true 1) true T_FILE 0 0 1 512 (11 :: replicate 12 0).
Definition small_file : kstate := upd_k_inodes (fun _ => [small_ip]) small_disk.

(** Inodes in memory are not part of what the blocks read as. *)
Lemma inodes_same g s : k_sb (upd_k_inodes g s) = k_sb s /\ forall b, used (upd_k_inodes g s) b = used s b.
Proof. done. Qed.

Lemma small_file_eq : k_sb small_file = small_sb /\ k_inodes small_file = [small_ip].
Proof. split; [rewrite <- small_sb_eq; apply inodes_same|reflexivity]. Qed.

Lemma small_fb s bn : 0 <= bn -> fb s small_ip bn = if bn =? 0 then 11 else 0.
Proof.
  intros Hbn. unfold fb. change (ind small_ip) with 0. change NDIRECT with 12. destruct (Z.ltb_spec bn 12).
  - unfold addr_of. change (i_addrs small_ip) with (11 :: replicate 12 0). destruct (Z.eqb_spec bn 0) as [->|]; [done|].
    destruct (Z.to_nat bn) as [|k] eqn:E; [lia|]. change (default 0 (replicate 12 0 !! k) = 0). by rewrite lookup_replicate_2 by lia.
  - by rewrite (proj2 (Z.eqb_neq bn 0)) by lia.
Qed.

Lemma small_writable : writable [10; 8] 0 small_file small_ip.
Proof.
  assert (Hown : owned small_file 11).
  { split; [rewrite (proj1 small_file_eq); change (data_start small_sb) with 11; change (sb_size small_sb) with 14; lia|].
    unfold small_file. rewrite (proj2 (inodes_same _ _)). by rewrite small_used by lia. }
  constructor; [by rewrite (proj2 small_file_eq)| |apply geometry_inodes, small_geometry|].
  - constructor; try done.
    + intros bn Hbn. rewrite small_fb by lia. destruct (bn =? 0); [by right|by left].
    + by left.
    + intros bn H1 H2. change BSIZE with 512 in *. change (i_size small_ip) with 512 in H2. rewrite small_fb by done.
      by rewrite (proj2 (Z.eqb_eq bn 0)) by lia.
    + intros b1 b2 H1 H2. rewrite !small_fb by lia. destruct (Z.eqb_spec b1 0), (Z.eqb_spec b2 0); congruence.
  - intros n. rewrite (proj1 small_file_eq), <- small_sb_eq. intros ->%small_map_blocks. set_solver.
Qed.

Section Witness.
#[local] Instance fuel0 : Fuel := 0%nat.
#[local] Instance no_devices : Devsw := { dev_read _ := None; dev_write _ := None }.

Lemma small_writei : exists s', writei 0 [1; 2; 3] 510 3 small_file = Ok 3 s'.
Proof. eexists. vm_compute. reflexivity. Qed.

Lemma small_contents : contents small_file small_ip = replicate 512 7.
Proof. vm_compute. reflexivity. Qed.

Lemma writei_writes_witness : exists s' ip', writei 0 [1; 2; 3] 510 3 small_file = Ok 3 s' /\ i_size ip' = 513 /\
  contents s' ip' = replicate 510 7 ++ [1; 2; 3].
Proof.
  destruct (writei_writes 1 [10; 8] 1 0 510 [1; 2; 3] small_file small_ip small_writable) as [(s' & ip' & Hrun & Hwn)|[Hp _]].
  - constructor; [rewrite (proj1 small_file_eq)|]; cbn; [|change T_FILE with 2]; lia.
  - rewrite (proj1 small_file_eq). change (IBLOCK _ _) with 8. set_solver.
  - lia.
  - discriminate.
  - lia.
  - cbn. lia.
  - repeat (constructor; [unfold field_ok; lia|]). constructor.
  - apply tx_inodes, small_tx; [repeat constructor; set_solver|]. change (nblocks _ _) with 2%nat. change (icost _ _) with 1%nat. cbn. lia.
  - exists s', ip'. split; [exact Hrun|]. split; [by rewrite (wn_ip _ _ _ _ _ _ _ _ _ _ Hwn)|].
    rewrite (wn_contents _ _ _ _ _ _ _ _ _ _ Hwn), small_contents. reflexivity.
  - exfalso. destruct small_writei as [s2 H2]. change (Z.of_nat (length [1; 2; 3])) with 3 in Hp. rewrite Hp in H2. discriminate H2.
Defined.
End Witness.
