(* ===== verification/Image.v ===== *)
(** * The kernel reads what mkfs wrote

    The on-disk format is the contract between mkfs and the kernel's file system: a file
    that mkfs put in the image is what [readi] returns. *)

From S2P Require Import Prelude Mem StringC Kernel Sched Bio Layout Log Printf Cons Fs Readi Mkfs MkfsSpec.
Import Mkfs.

(** The in-memory inode that [ilock] fills from the on-disk one. *)
Definition loaded (ip : inode) (din : dinode) : Prop :=
  i_dev ip = 1 /\ i_type ip = d_type din /\ i_size ip = d_size din /\ i_addrs ip = d_addrs din.

(** The kernel sees the blocks of the image. *)
Definition mounted (t : kstate) (s : state) : Prop :=
  k_disksize t = 1000 /\ forall b, 0 <= b < 1000 -> view t b = blk s b.

Section Mounted.
Context (t : kstate) (s : state) (pid : Z) (L : list filespec) (i : nat) (x : filespec) (ip : inode).
Context (Ht : bio_ok t pid []) (Hm : mounted t s) (HL : image_ok s L) (Hx : L !! i = Some x).
Context (Hip : loaded ip (inode_at s (Z.of_nat i + 1))) (Hsz : f_size x = Z.of_nat (length (f_data x))).

Lemma file_holds : holds s (f_bs x) (f_ib x) (f_data x).
Proof using HL Hx. exact (fi_holds _ _ (im_file _ _ HL i x Hx)). Qed.

Lemma loaded_fields : i_size ip = f_size x /\ i_addrs ip = addrs_of (f_bs x) (f_ib x) /\ i_dev ip = 1 /\ i_type ip = f_type x.
Proof using HL Hx Hip. destruct Hip as (H1 & H2 & H3 & H4). rewrite (im_inode _ _ HL i x Hx) in *. done. Qed.

Lemma own_in b : b ∈ f_own x -> 0 < b < 1000.
Proof using HL Hx.
  intros Hb. pose proof (h_own _ _ _ _ file_holds) as H. rewrite Forall_forall in H. specialize (H b Hb).
  pose proof (dk_free _ (im_disk _ _ HL)). lia.
Qed.

(** The kernel finds the same blocks. *)
Lemma file_block_ok q : 0 <= q < Z.of_nat (length (f_bs x)) -> file_block t ip q = default 0 (f_bs x !! Z.to_nat q).
Proof using All.
  intros Hq. pose proof loaded_fields as (_ & Ha & _). pose proof file_holds as Hh. pose proof (h_max _ _ _ _ Hh).
  unfold file_block, NDIRECT, addr_of. rewrite Ha. destruct (Z.ltb_spec q 12).
  - by rewrite addrs_of_direct by lia.
  - change (Z.to_nat 12) with 12%nat. rewrite addrs_of_indirect. cbn [default from_option id].
    assert (Hib : f_ib x ∈ f_own x).
    { unfold f_own, own. rewrite (proj2 (Z.eqb_neq (f_ib x) 0)) by (apply (h_ind _ _ _ _ Hh); lia). set_solver. }
    pose proof (own_in _ Hib). rewrite (proj2 Hm) by lia.
    replace (Z.to_nat (4 * (q - 12))) with (4 * Z.to_nat (q - 12))%nat by lia.
    rewrite (h_table _ _ _ _ Hh) by lia. by replace (12 + Z.to_nat (q - 12))%nat with (Z.to_nat q) by lia.
Qed.

Lemma block_in q : 0 <= q < Z.of_nat (length (f_bs x)) -> 0 < default 0 (f_bs x !! Z.to_nat q) < 1000.
Proof using HL Hx.
  intros Hq. destruct (lookup_lt_is_Some_2 (f_bs x) (Z.to_nat q) ltac:(lia)) as [b Hb]. rewrite Hb. cbn.
  apply own_in, elem_of_app. left. by eapply list_elem_of_lookup_2.
Qed.

Lemma mounted_file_ok : file_ok t ip.
Proof using All.
  pose proof loaded_fields as (Hs & Ha & Hd & _). pose proof file_holds as Hh. pose proof (h_len _ _ _ _ Hh). pose proof (h_max _ _ _ _ Hh).
  constructor.
  - done.
  - rewrite Hs, Hsz. change (MAXFILE * BSIZE) with 71680. lia.
  - intros bn Hbn Hlt. unfold BSIZE in Hlt. rewrite (proj1 Hm), file_block_ok by lia. apply block_in. lia.
  - intros Hlt. change (NDIRECT * BSIZE) with 6144 in Hlt. unfold addr_of. rewrite Ha. change (Z.to_nat NDIRECT) with 12%nat.
    rewrite addrs_of_indirect, (proj1 Hm). cbn [default from_option id]. apply own_in. unfold f_own, own.
    rewrite (proj2 (Z.eqb_neq (f_ib x) 0)) by (apply (h_ind _ _ _ _ Hh); lia). set_solver.
Qed.

Lemma mounted_contents : contents t ip = f_data x.
Proof using All.
  pose proof loaded_fields as (Hs & _). pose proof file_holds as Hh. pose proof (h_len _ _ _ _ Hh).
  apply list_eq. intros k. destruct (decide (k < length (f_data x))%nat) as [Hk|Hk].
  2:{ rewrite !lookup_ge_None_2; [done|lia|rewrite length_contents, Hs, Hsz; lia]. }
  replace k with (Z.to_nat (Z.of_nat k)) at 1 by lia. rewrite contents_lookup by (rewrite Hs, Hsz; lia). unfold BSIZE, byte_at.
  assert (Hz1 : Z.of_nat k / 512 = Z.of_nat (k / 512)) by (by rewrite Nat2Z.inj_div).
  assert (Hz2 : Z.of_nat k mod 512 = Z.of_nat (k mod 512)) by (by rewrite Nat2Z.inj_mod).
  assert (Hq : (k / 512 < length (f_bs x))%nat) by (apply Nat.Div0.div_lt_upper_bound; lia).
  rewrite Hz1, Hz2, file_block_ok by lia. pose proof (block_in (Z.of_nat (k / 512)) ltac:(lia)).
  rewrite (proj2 Hm) by lia. rewrite !Nat2Z.id, (h_data _ _ _ _ Hh) by lia.
  by destruct (lookup_lt_is_Some_2 (f_data x) k Hk) as [b ->].
Qed.
End Mounted.

(** C11: on a disk made by mkfs, [readi] of the inode of the [k]th file given to mkfs returns the
    bytes of that file: from the offset on, as many as asked for, up to its end. *)
Theorem readi_mkfs `{Fuel} `{Devsw} (files : list source) (s : state) (t : kstate) (pid : Z) (j k : nat) (f : source)
    (ip : inode) (off n : Z)
    (Hmade : made s files) (Hf : files !! k = Some f) (Ht : bio_ok t pid []) (Hroom : room t) (Hm : mounted t s)
    (Hj : k_inodes t !! j = Some ip) (Hip : loaded ip (inode_at s (Z.of_nat k + 2)))
    (Hoff : 0 <= off <= Z.of_nat (length (concat f.2))) (Hn : 0 <= n < 2 ^ 31) :
  exists t' out, readi j off n t = Ok (Z.of_nat (length out), out) t' /\
    out = take (Z.to_nat n) (drop (Z.to_nat off) (concat f.2)).
Proof.
  destruct (mk_image _ _ Hmade) as (root & xs & HL & Hxs). destruct (Forall2_lookup_l _ _ _ _ _ Hxs Hf) as (x & Hx & Hty & Hd & Hs).
  replace (Z.of_nat k + 2) with (Z.of_nat (S k) + 1) in Hip by lia.
  assert (Hx' : (root :: xs) !! S k = Some x) by done.
  pose proof (mounted_file_ok t s pid (root :: xs) (S k) x ip Ht Hm HL Hx' Hip Hs) as Hfok.
  pose proof (mounted_contents t s pid (root :: xs) (S k) x ip Ht Hm HL Hx' Hip Hs) as Hc.
  destruct (loaded_fields s (root :: xs) (S k) x ip HL Hx' Hip) as (Hsz & _ & _ & Hit).
  pose proof (fi_holds _ _ (im_file _ _ HL (S k) x Hx')) as Hh. pose proof (h_len _ _ _ _ Hh). pose proof (h_max _ _ _ _ Hh).
  rewrite <- Hd in Hoff.
  destruct (readi_ok t pid j ip off n Ht Hroom Hj Hfok ltac:(rewrite Hit, Hty; vm_compute; congruence) ltac:(lia) Hn) as (t' & _ & Hr).
  rewrite (proj2 (Z.ltb_ge (i_size ip) off)) in Hr by (rewrite Hsz, Hs; lia). destruct Hr as (out & Hr & Ho).
  exists t', out. split; [done|]. by rewrite Ho, Hc, Hd.
Qed.

(** ** The machine started on the image *)

(** The image as the memory disk has it, and the inode of a file in memory. *)
Definition disk_of (s : state) : list (list Z) := map (blk s) (seqZ 0 1000).

Definition inode_of (s : state) (inum : Z) : inode :=
  let d := inode_at s inum in
  Inode 1 inum 1 (Sleeplock true 1) true (d_type d) (d_major d) (d_minor d) (d_nlink d) (d_size d) (d_addrs d).

Definition started (s : state) (inum : Z) : kstate := upd_k_inodes (fun _ => [inode_of s inum]) (fresh (disk_of s)).

Lemma disksize_inodes g u : k_disksize (upd_k_inodes g u) = k_disksize u.
Proof. done. Qed.

Lemma bufs_inodes g u : k_bufs (upd_k_inodes g u) = k_bufs u.
Proof. done. Qed.

Lemma view_inodes g u b : view (upd_k_inodes g u) b = view u b.
Proof. done. Qed.

Lemma started_ok s L inum : image_ok s L -> bio_ok (started s inum) 1 [] /\ mounted (started s inum) s.
Proof.
  intros HL. split.
  - apply bio_ok_inodes, binit_ok. apply Forall_forall. intros d (b & -> & Hb%elem_of_seqZ)%list_elem_of_fmap.
    apply blk_ok; [apply HL|lia].
  - split.
    + unfold started. rewrite disksize_inodes, (proj2 (fresh_disk _)).
      unfold disk_of. by rewrite length_map, length_seqZ.
    + intros b Hb. unfold started. rewrite view_inodes. apply fresh_view; [|lia].
      unfold disk_of. rewrite list_lookup_fmap, lookup_seqZ_lt by lia. cbn. f_equal. f_equal. lia.
Qed.

Lemma started_room s inum : room (started s inum).
Proof.
  apply clean_room. unfold started. rewrite bufs_inodes. apply forallb_forall. intros bf Hbf%list_elem_of_In.
  apply list_elem_of_lookup in Hbf as [i Hi]. apply lookup_take_Some in Hi as [Hi Hlt].
  unfold dirty. by rewrite (proj1 (fresh_slot _ i bf Hlt Hi)).
Qed.

Section Witness.
#[local] Instance fuel0 : Fuel := 0%nat.
#[local] Instance no_devices : Devsw := { dev_read _ := None; dev_write _ := None }.

(** README of [two_files] read by the kernel. *)
Lemma readi_mkfs_witness : exists s t' out, main (map arg_of two_files) start = Done tt s /\
  readi 0 6 100 (started s 2) = Ok (Z.of_nat (length out), out) t' /\ out = codes "world".
Proof.
  destruct (mkfs_run two_files two_files_ok) as (s & Hrun & Hm).
  destruct (mk_image _ _ Hm) as (root & xs & HL & _). destruct (started_ok s (root :: xs) 2 HL) as [Hb Hmt].
  destruct (readi_mkfs two_files s (started s 2) 1 0 0 (codes "README", [codes "hello"; codes " world"]) (inode_of s 2) 6 100
    Hm eq_refl Hb (started_room s 2) Hmt eq_refl) as (t' & out & H1 & H2); [repeat split|simpl; lia|lia|].
  exists s, t', out. split; [exact Hrun|]. split; [exact H1|]. rewrite H2. reflexivity.
Defined.
End Witness.
