(* ===== verification/Paths.v ===== *)
(** * Path names: [skipelem] splits a path at its slashes *)

From S2P Require Import Prelude Kernel Layout Fs Ulib.

(** The element collected so far, if there is one, before the others. *)
Definition push (e : list Z) (es : list (list Z)) : list (list Z) := match e with [] => es | _ => e :: es end.

(** The elements of a path: what lies between slashes, where there is something. *)
Fixpoint elements (e path : list Z) : list (list Z) :=
  match path with
  | [] => push e []
  | c :: path => if c =? slash then push e (elements [] path) else elements (e ++ [c]) path
  end.

Example elements_path : elements [] (codes "/a//bb/c/") = [codes "a"; codes "bb"; codes "c"].
Proof. reflexivity. Qed.

(** The loop of [namex] without the directories: the names it looks up. *)
Fixpoint names (n : nat) (path name : list Z) : option (list (list Z)) :=
  match skipelem path name with
  | None => Some []
  | Some (path, name) =>
      match n with
      | O => None
      | S n => cons (Ulib.cstr name) <$> names n path name
      end
  end.

Lemma skip_slashes_spec path : exists k, path = replicate k slash ++ skip_slashes path /\
  match skip_slashes path with c :: _ => c <> slash | [] => True end.
Proof.
  induction path as [|c path (k & IH & H)]; [by exists O|]. simpl. destruct (Z.eqb_spec c slash) as [->|Hc].
  - exists (S k). simpl. by rewrite <- IH.
  - by exists O.
Qed.

Lemma elements_skip path : elements [] (skip_slashes path) = elements [] path.
Proof. induction path as [|c path IH]; [done|]. simpl. destruct (Z.eqb_spec c slash) as [->|Hc]; [done|]. simpl. by destruct (Z.eqb_spec c slash). Qed.

Lemma take_elem_spec path : forall e, let '(s, r) := take_elem path in
  path = s ++ r /\ Forall (fun c => c <> slash) s /\ elements e path = push (e ++ s) (elements [] r) /\
  match r with c :: _ => c = slash | [] => True end.
Proof.
  induction path as [|c path IH]; intros e; simpl.
  - rewrite app_nil_r. destruct e; done.
  - destruct (Z.eqb_spec c slash) as [->|Hc].
    + rewrite app_nil_r. simpl. done.
    + specialize (IH (e ++ [c])). destruct (take_elem path) as [s r]. destruct IH as (-> & H1 & H2 & H3).
      split; [done|]. split; [by constructor|]. split; [|done]. rewrite H2. by rewrite <- app_assoc.
Qed.

(** What is left in [name] reads as the element, cut to [DIRSIZ]. *)
Lemma name_reads e name : length name = DIRSIZ -> Forall (fun c => c <> 0) e ->
  let name' := if Nat.leb DIRSIZ (length e) then splice 0 (take DIRSIZ e) name else splice 0 (e ++ [0]) name in
  length name' = DIRSIZ /\ Ulib.cstr name' = take DIRSIZ e.
Proof.
  intros Hn He. destruct (Nat.leb_spec DIRSIZ (length e)) as [Hl|Hl].
  - assert (Ht : length (take DIRSIZ e) = DIRSIZ) by (rewrite length_take; lia).
    unfold splice. rewrite Ht. simpl take at 1. rewrite drop_ge by (rewrite Hn; lia). rewrite app_nil_r. simpl. split; [done|].
    apply Ulib.cstr_id. by apply Forall_take.
  - split; [rewrite length_splice; [done|rewrite length_app; simpl in *; lia]|].
    unfold splice. simpl take. rewrite <- app_assoc. simpl app. rewrite Ulib.cstr_app by done. rewrite take_ge by lia. done.
Qed.

Lemma skipelem_spec path name : length name = DIRSIZ -> Forall (fun c => c <> 0) path ->
  match skipelem path name with
  | None => elements [] path = []
  | Some (path', name') => exists e, elements [] path = e :: elements [] path' /\
      length name' = DIRSIZ /\ Ulib.cstr name' = take DIRSIZ e /\
      (length path' < length path)%nat /\ Forall (fun c => c <> 0) path'
  end.
Proof.
  intros Hn Hp. unfold skipelem. destruct (skip_slashes_spec path) as (k & Hk & Hhd).
  rewrite <- (elements_skip path). pose proof (f_equal length Hk) as Hlk. rewrite length_app, length_replicate in Hlk.
  assert (Hp1 : Forall (fun c => c <> 0) (skip_slashes path)) by (rewrite Hk in Hp; by apply Forall_app in Hp as [_ Hp]).
  destruct (skip_slashes path) as [|c p] eqn:Hsk; [done|]. rewrite <- Hsk in *.
  pose proof (take_elem_spec (skip_slashes path) []) as Ht. destruct (take_elem (skip_slashes path)) as [s r] eqn:Hte.
  destruct Ht as (Heq & Hs & Hel & Hr).
  assert (Hne : s <> []) by (intros ->; simpl in Heq; rewrite Hsk in Heq; subst r; done).
  rewrite Heq in Hp1, Hlk. apply Forall_app in Hp1 as [Hs0 Hr0]. rewrite length_app in Hlk.
  destruct (name_reads s name Hn Hs0) as [Hl Hc]. exists s.
  split; [rewrite Hel, elements_skip; by destruct s|]. split; [done|]. split; [done|].
  destruct (skip_slashes_spec r) as (k2 & Hk2 & _). pose proof (f_equal length Hk2) as Hl2. rewrite length_app in Hl2.
  split; [destruct s; [done|]; simpl in *; lia|]. rewrite Hk2 in Hr0. by apply Forall_app in Hr0 as [_ Hr0].
Qed.

Lemma names_ok n : forall path name, length name = DIRSIZ -> Forall (fun c => c <> 0) path -> (length path <= n)%nat ->
  names n path name = Some (map (take DIRSIZ) (elements [] path)).
Proof.
  induction n as [|n IH]; intros path name Hn Hp Hl; pose proof (skipelem_spec path name Hn Hp) as H; simpl;
    destruct (skipelem path name) as [[path' name']|]; try (by rewrite H);
    destruct H as (e & He & Hn' & Hc & Hlt & Hp'); [lia|].
  rewrite (IH path' name' Hn' Hp' ltac:(lia)), He, Hc. done.
Qed.

(** The names a path is looked up by, one [skipelem] after another, are its elements between
    the slashes, each cut to the 14 characters a directory entry holds; there is a round for
    each element, and fewer rounds than characters. *)
Theorem path_names (path name : list Z) (Hname : length name = DIRSIZ) (Hpath : Forall (fun c => c <> 0) path) :
  names (length path) path name = Some (map (take DIRSIZ) (elements [] path)).
Proof. by apply names_ok. Qed.

Lemma path_names_witness : names 30 (codes "//usr/averyveryverylongname/x/") (replicate 14 0) =
  Some [codes "usr"; codes "averyveryveryl"; codes "x"].
Proof.
  apply (path_names (codes "//usr/averyveryverylongname/x/") (replicate 14 0)); [reflexivity|].
  repeat constructor; vm_compute; congruence.
Defined.
