(* ===== verification/Pipe.v ===== *)
(** * Pipes (pipe.c)

    The ring buffer of [struct pipe] with its free-running 32-bit counters, and its
    refinement of a bounded queue of bytes.  [pipealloc], which also makes the two file
    structures, is with the file table. *)

From S2P Require Import Prelude Mem Kernel Mmu Kalloc Sched.

Definition get_pipe (p : Z) : K pipe := fun s =>
  match k_pipes s !! p with Some x => Ok x s | None => Panic "pipe" end.
Definition set_pipe (p : Z) (g : pipe -> pipe) : K unit := modify (upd_k_pipes (alter g p)).

Definition pipeclose (p : Z) (writable : bool) : K unit :=
  acquire (LK_pipe p) ;;
  (if writable then set_pipe p (upd_pp_writeopen (fun _ => false)) ;; wakeup (CH_nread p)
   else set_pipe p (upd_pp_readopen (fun _ => false)) ;; wakeup (CH_nwrite p)) ;;
  x <- get_pipe p;
  if negb (pp_readopen x) && negb (pp_writeopen x) then
    release (LK_pipe p) ;;
    modify (upd_k_pipes (delete p)) ;;
    Kalloc.kfree p
  else release (LK_pipe p).

(** [myproc()->killed] *)
Definition killed : K bool :=
  p <- curproc; pr <- get_proc p; kret (negb (p_killed pr =? 0)).

(** [while(p->nwrite == p->nread + PIPESIZE){ ... }]: whether there is room now, or the
    call fails, with the lock released. *)
Fixpoint pipewrite_wait (n : nat) (p : Z) : K bool :=
  x <- get_pipe p;
  if pp_nwrite x =? pp_nread x +u PIPESIZE then
    k <- (if pp_readopen x then killed else kret true);
    if k then release (LK_pipe p) ;; kret false
    else
      match n with
      | O => fun _ => NoFuel
      | S n => wakeup (CH_nread p) ;; sleep (CH_nwrite p) (LK_pipe p) ;; pipewrite_wait n p
      end
  else kret true.

(** [p->data[p->nwrite++ % PIPESIZE] = c] *)
Definition pipe_put (c : Z) (x : pipe) : pipe :=
  upd_pp_nwrite (fun w => w +u 1)
    (upd_pp_data (insert (Z.to_nat (pp_nwrite x mod PIPESIZE)) (u8 c)) x).

Fixpoint pipewrite_loop `{Fuel} (p : Z) (addr : list Z) : K bool :=
  match addr with
  | [] => kret true
  | c :: addr =>
      ok <- pipewrite_wait fuel p;
      if ok then set_pipe p (pipe_put c) ;; pipewrite_loop p addr else kret false
  end.

(** [addr] holds the [n] bytes to write. *)
Definition pipewrite `{Fuel} (p : Z) (addr : list Z) : K Z :=
  acquire (LK_pipe p) ;;
  ok <- pipewrite_loop p addr;
  if ok then
    wakeup (CH_nread p) ;;
    release (LK_pipe p) ;;
    kret (Z.of_nat (length addr))
  else kret (-1).

Fixpoint piperead_wait (n : nat) (p : Z) : K bool :=
  x <- get_pipe p;
  if (pp_nread x =? pp_nwrite x) && pp_writeopen x then
    k <- killed;
    if k then release (LK_pipe p) ;; kret false
    else
      match n with
      | O => fun _ => NoFuel
      | S n => sleep (CH_nread p) (LK_pipe p) ;; piperead_wait n p
      end
  else kret true.

(** The copying loop of [piperead] for at most [n] bytes. *)
Fixpoint piperead_loop (n : nat) (p : Z) : K (list Z) :=
  match n with
  | O => kret []
  | S n =>
      x <- get_pipe p;
      if pp_nread x =? pp_nwrite x then kret [] else
      let c := default 0 (pp_data x !! Z.to_nat (pp_nread x mod PIPESIZE)) in
      set_pipe p (upd_pp_nread (fun r => r +u 1)) ;;
      rest <- piperead_loop n p;
      kret (c :: rest)
  end.

(** The result and the bytes stored at [addr]. *)
Definition piperead `{Fuel} (p n : Z) : K (Z * list Z) :=
  acquire (LK_pipe p) ;;
  ok <- piperead_wait fuel p;
  if ok then
    out <- piperead_loop (Z.to_nat n) p;
    wakeup (CH_nwrite p) ;;
    release (LK_pipe p) ;;
    kret (Z.of_nat (length out), out)
  else kret (-1, []).

(** ** The queue a pipe implements *)

Definition pipe_count (x : pipe) : Z := pp_nwrite x -u pp_nread x.

(** The bytes written and not yet read, oldest first. *)
Definition queue (x : pipe) : list Z :=
  map (fun i => default 0 (pp_data x !! Z.to_nat ((pp_nread x + i) mod PIPESIZE))) (seqZ 0 (pipe_count x)).

Record pipe_ok (x : pipe) : Prop := {
  po_data : length (pp_data x) = Z.to_nat PIPESIZE;
  po_r : 0 <= pp_nread x < 2 ^ 32;
  po_w : 0 <= pp_nwrite x < 2 ^ 32;
  po_count : pipe_count x <= PIPESIZE;
}.

Lemma count_range x : pipe_ok x -> 0 <= pipe_count x <= PIPESIZE.
Proof. intros [_ _ _ H]. pose proof (u32_range (pp_nwrite x - pp_nread x)). unfold pipe_count in *. lia. Qed.

(** The counters agree modulo 2^32 with the count, whether or not they have wrapped. *)
Lemma nwrite_count x : pipe_ok x -> pp_nwrite x = u32 (pp_nread x + pipe_count x).
Proof.
  intros [_ Hr Hw _]. unfold pipe_count, u32. rewrite Zplus_mod_idemp_r.
  replace (pp_nread x + (pp_nwrite x - pp_nread x)) with (pp_nwrite x) by lia.
  symmetry. by apply Z.mod_small.
Qed.

Lemma mod_pipesize_u32 a : u32 a mod PIPESIZE = a mod PIPESIZE.
Proof.
  unfold u32, PIPESIZE. rewrite (Z.mod_mod_divide a (2 ^ 32) 512); [done|]. by exists (2 ^ 23).
Qed.

Lemma pipe_empty_iff x : pipe_ok x -> (pp_nread x =? pp_nwrite x) = (pipe_count x =? 0).
Proof.
  intros Hx. pose proof Hx as [_ Hr Hw _]. pose proof (count_range x Hx) as Hc.
  pose proof (nwrite_count x Hx) as Hn. unfold PIPESIZE in *.
  destruct (Z.eqb_spec (pipe_count x) 0) as [E|E].
  - rewrite E, Z.add_0_r, u32_id in Hn by done. lia.
  - apply Z.eqb_neq. intros Heq. rewrite Heq in Hn. unfold u32 in Hn.
    assert ((pp_nwrite x + pipe_count x) / 2 ^ 32 = 0 \/ (pp_nwrite x + pipe_count x) / 2 ^ 32 = 1) by dlia.
    dlia.
Qed.

Lemma pipe_full_iff x : pipe_ok x -> (pp_nwrite x =? pp_nread x +u PIPESIZE) = (pipe_count x =? PIPESIZE).
Proof.
  intros Hx. pose proof Hx as [_ Hr Hw _]. pose proof (count_range x Hx) as Hc.
  pose proof (nwrite_count x Hx) as Hn. unfold PIPESIZE in *.
  destruct (Z.eqb_spec (pipe_count x) 512) as [E|E].
  - rewrite E in Hn. by apply Z.eqb_eq.
  - apply Z.eqb_neq. rewrite Hn. unfold u32. dlia.
Qed.

Lemma put_ok c x :
  pipe_ok x -> pipe_count x < PIPESIZE ->
  pipe_ok (pipe_put c x) /\ queue (pipe_put c x) = queue x ++ [u8 c].
Proof.
  intros Hx Hroom. pose proof Hx as [Hd Hr Hw _]. pose proof (count_range x Hx) as Hc.
  pose proof (nwrite_count x Hx) as Hn. unfold PIPESIZE in *.
  assert (Hcnt : pipe_count (pipe_put c x) = pipe_count x + 1).
  { unfold pipe_count at 1, pipe_put. simpl. rewrite Hn. unfold u32. dlia. }
  assert (Hidx : pp_nwrite x mod 512 = (pp_nread x + pipe_count x) mod 512)
    by (rewrite Hn; apply (mod_pipesize_u32 (pp_nread x + pipe_count x))).
  split.
  - constructor; [simpl; by rewrite length_insert|done|simpl; apply u32_range|unfold PIPESIZE; lia].
  - unfold queue. rewrite Hcnt. rewrite (seqZ_app 0 (pipe_count x) 1) by lia. rewrite map_app. f_equal.
    + apply map_ext_in. intros i Hi%list_elem_of_In%elem_of_seqZ. simpl. unfold PIPESIZE in *.
      rewrite list_lookup_insert_ne; [done|]. rewrite Hidx. dlia.
    + assert (Hix : Z.to_nat ((pp_nread x + (Z.of_nat 0 + (0 + pipe_count x))) mod 512) = Z.to_nat (pp_nwrite x mod 512))
        by (rewrite Hidx; do 2 f_equal; lia).
      simpl. unfold PIPESIZE. rewrite Hix, list_lookup_insert_eq; [done|].
      rewrite Hd. pose proof (Z.mod_pos_bound (pp_nwrite x) 512 ltac:(lia)). lia.
Qed.

Lemma get_ok x :
  pipe_ok x -> 0 < pipe_count x ->
  let x' := upd_pp_nread (fun r => r +u 1) x in
  pipe_ok x' /\
  queue x = default 0 (pp_data x !! Z.to_nat (pp_nread x mod PIPESIZE)) :: queue x'.
Proof.
  intros Hx Hpos x'. pose proof Hx as [Hd Hr Hw _]. pose proof (count_range x Hx) as Hc.
  pose proof (nwrite_count x Hx) as Hn. unfold PIPESIZE in *.
  assert (Hcnt : pipe_count x' = pipe_count x - 1).
  { unfold pipe_count at 1, x'. simpl. rewrite Hn. unfold u32. dlia. }
  split.
  - constructor; [done|simpl; apply u32_range|done|unfold PIPESIZE; lia].
  - unfold queue. rewrite Hcnt. rewrite (seqZ_cons 0 (pipe_count x)) by lia. rewrite map_cons.
    rewrite Z.add_0_r. f_equal. replace (Z.pred (pipe_count x)) with (pipe_count x - 1) by lia.
    change (Z.succ 0) with (1 + 0). rewrite <- (fmap_add_seqZ 1 0 (pipe_count x - 1)).
    rewrite <- (list_fmap_compose (Z.add 1)). apply map_ext. intros i. unfold x', compose. simpl. unfold PIPESIZE.
    do 3 f_equal. rewrite <- (Zplus_mod_idemp_l (u32 (pp_nread x + 1)) i).
    replace (u32 (pp_nread x + 1) mod 512) with ((pp_nread x + 1) mod 512)
      by (symmetry; apply (mod_pipesize_u32 (pp_nread x + 1))).
    rewrite Zplus_mod_idemp_l. f_equal. lia.
Qed.

Lemma length_queue x : pipe_ok x -> Z.of_nat (length (queue x)) = pipe_count x.
Proof. intros Hx. pose proof (count_range x Hx). unfold queue. rewrite length_map, length_seqZ. lia. Qed.

Lemma get_pipe_ok p x s : k_pipes s !! p = Some x -> get_pipe p s = Ok x s.
Proof. intros H. unfold get_pipe. by rewrite H. Qed.

Lemma set_pipe_ok p x g s :
  k_pipes s !! p = Some x -> set_pipe p g s = Ok tt (upd_k_pipes (insert p (g x)) s).
Proof.
  intros H. unfold set_pipe, modify. f_equal. unfold upd_k_pipes. f_equal.
  apply map_eq. intros q. destruct (decide (p = q)) as [<-|Hne].
  - by rewrite lookup_alter_eq, lookup_insert_eq, H.
  - by rewrite lookup_alter_ne, lookup_insert_ne.
Qed.

Lemma upd_pipes_insert p x y s :
  upd_k_pipes (insert p x) (upd_k_pipes (insert p y) s) = upd_k_pipes (insert p x) s.
Proof. unfold upd_k_pipes. simpl. by rewrite insert_insert_eq. Qed.

(** Writing what fits does not wait. *)
Lemma pipewrite_loop_ok `{Fuel} p addr : forall x s,
  k_pipes s !! p = Some x -> pipe_ok x -> pipe_count x + Z.of_nat (length addr) <= PIPESIZE ->
  exists x', pipewrite_loop p addr s = Ok true (upd_k_pipes (insert p x') s) /\ pipe_ok x' /\
    queue x' = queue x ++ map u8 addr /\
    pp_readopen x' = pp_readopen x /\ pp_writeopen x' = pp_writeopen x.
Proof.
  induction addr as [|c addr IH]; intros x s Hp Hx Hroom; cbn [pipewrite_loop].
  - exists x. split_and!; try done; [|by rewrite app_nil_r].
    unfold kret. f_equal. unfold upd_k_pipes. rewrite insert_id by done. by destruct s.
  - simpl in Hroom. assert (Hw : pipewrite_wait fuel p s = Ok true s).
    { destruct fuel; cbn [pipewrite_wait]; rewrite (kbind_ok _ _ _ _ _ (get_pipe_ok _ _ _ Hp));
        rewrite pipe_full_iff by done; destruct (Z.eqb_spec (pipe_count x) PIPESIZE); try lia; done. }
    rewrite (kbind_ok _ _ _ _ _ Hw), (kbind_ok _ _ _ _ _ (set_pipe_ok p x (pipe_put c) s Hp)).
    destruct (put_ok c x Hx ltac:(lia)) as [Hx1 Hq1].
    destruct (IH (pipe_put c x) (upd_k_pipes (insert p (pipe_put c x)) s)) as (x' & R & Hx' & Hq' & H1 & H2);
      [apply lookup_insert_eq|done| |].
    { pose proof (length_queue _ Hx). rewrite <- (length_queue _ Hx1), Hq1, length_app. simpl. lia. }
    exists x'. rewrite R, upd_pipes_insert. split_and!; [done|done| |done|done].
    rewrite Hq', Hq1, <- app_assoc. done.
Qed.

Lemma piperead_loop_ok n p : forall x s,
  k_pipes s !! p = Some x -> pipe_ok x ->
  exists x', piperead_loop n p s = Ok (take n (queue x)) (upd_k_pipes (insert p x') s) /\ pipe_ok x' /\
    queue x' = drop n (queue x) /\
    pp_readopen x' = pp_readopen x /\ pp_writeopen x' = pp_writeopen x.
Proof.
  induction n as [|n IH]; intros x s Hp Hx; cbn [piperead_loop].
  - exists x. split_and!; try done. unfold kret. f_equal. unfold upd_k_pipes.
    rewrite insert_id by done. by destruct s.
  - rewrite (kbind_ok _ _ _ _ _ (get_pipe_ok _ _ _ Hp)). rewrite pipe_empty_iff by done.
    pose proof (count_range x Hx). pose proof (length_queue x Hx) as Hlq.
    destruct (Z.eqb_spec (pipe_count x) 0) as [E|E].
    + exists x. rewrite E in Hlq. destruct (queue x) eqn:Hq; [|simpl in Hlq; lia].
      split_and!; try done. unfold kret. f_equal. unfold upd_k_pipes. rewrite insert_id by done. by destruct s.
    + destruct (get_ok x Hx ltac:(lia)) as [Hx1 Hq1]. rewrite Hq1.
      rewrite (kbind_ok _ _ _ _ _ (set_pipe_ok p x _ s Hp)).
      destruct (IH (upd_pp_nread (fun r => r +u 1) x) (upd_k_pipes (insert p (upd_pp_nread (fun r => r +u 1) x)) s))
        as (x' & R & Hx' & Hq' & H1 & H2); [apply lookup_insert_eq|done|].
      exists x'. rewrite (kbind_ok _ _ _ _ _ R), upd_pipes_insert. split_and!; done.
Qed.

(** The end of [pipewrite] and [piperead]: wake the other side, release the lock. *)
Lemma pipe_finish {A} p ch x (r : A) s :
  k_held s = [] ->
  (wakeup ch ;; release (LK_pipe p) ;; kret r)
    (upd_k_pipes (insert p x) (upd_k_held (cons (LK_pipe p)) s)) =
  Ok r (upd_k_procs (map (wakeup1_proc ch)) (upd_k_pipes (insert p x) s)).
Proof.
  intros Hh. unfold kbind. rewrite wakeup_ok by (simpl; rewrite Hh; set_solver). cbn [bind_res].
  rewrite (release_acquired (LK_pipe p) []); [|simpl; by rewrite Hh|set_solver]. cbn [bind_res kret].
  f_equal. unfold upd_k_held, upd_k_procs, upd_k_pipes. simpl. by rewrite Hh.
Qed.

Lemma acquire_pipe p s : k_held s = [] -> acquire (LK_pipe p) s = Ok tt (upd_k_held (cons (LK_pipe p)) s).
Proof. intros Hh. apply acquire_ok. rewrite Hh. set_solver. Qed.

(** A [pipewrite] of what fits appends its bytes and reports them all, and wakes the readers. *)
Lemma pipewrite_fits `{Fuel} (s : kstate) (p : Z) (x : pipe) addr :
  k_pipes s !! p = Some x -> pipe_ok x -> k_held s = [] -> pipe_count x + Z.of_nat (length addr) <= PIPESIZE ->
  exists x', pipe_ok x' /\ queue x' = queue x ++ map u8 addr /\
    pipewrite p addr s = Ok (Z.of_nat (length addr))
      (upd_k_procs (map (wakeup1_proc (CH_nread p))) (upd_k_pipes (insert p x') s)).
Proof.
  intros Hp Hx Hheld Hroom. unfold pipewrite. rewrite (kbind_ok _ _ _ _ _ (acquire_pipe p s Hheld)).
  destruct (pipewrite_loop_ok p addr x (upd_k_held (cons (LK_pipe p)) s) Hp Hx Hroom) as (x' & R & Hx' & Hq & _).
  exists x'. split_and!; [done|done|]. rewrite (kbind_ok _ _ _ _ _ R). by apply pipe_finish.
Qed.

(** A [piperead] that need not wait takes the oldest bytes, at most [n], and wakes the writers. *)
Lemma piperead_ready `{Fuel} (s : kstate) (p : Z) (x : pipe) n :
  k_pipes s !! p = Some x -> pipe_ok x -> k_held s = [] -> 0 <= n -> 0 < pipe_count x \/ pp_writeopen x = false ->
  exists x', pipe_ok x' /\ queue x' = drop (Z.to_nat n) (queue x) /\ pp_readopen x' = pp_readopen x /\
    piperead p n s = Ok (Z.min n (pipe_count x), take (Z.to_nat n) (queue x))
      (upd_k_procs (map (wakeup1_proc (CH_nwrite p))) (upd_k_pipes (insert p x') s)).
Proof.
  intros Hp Hx Hheld Hn Hready. unfold piperead. rewrite (kbind_ok _ _ _ _ _ (acquire_pipe p s Hheld)).
  set (s1 := upd_k_held (cons (LK_pipe p)) s).
  assert (Hw : piperead_wait fuel p s1 = Ok true s1).
  { pose proof (count_range x Hx). assert (Hc : (pp_nread x =? pp_nwrite x) && pp_writeopen x = false).
    { rewrite pipe_empty_iff by done. destruct Hready as [Hr| ->]; [|by rewrite andb_false_r].
      by rewrite (proj2 (Z.eqb_neq _ _)) by lia. }
    destruct fuel; cbn [piperead_wait]; rewrite (kbind_ok _ _ s1 _ s1 (get_pipe_ok p x s1 Hp));
      by rewrite Hc. }
  rewrite (kbind_ok _ _ _ _ _ Hw).
  destruct (piperead_loop_ok (Z.to_nat n) p x s1 Hp Hx) as (x' & R & Hx' & Hq & Hro & _).
  exists x'. split_and!; [done|done|done|]. rewrite (kbind_ok _ _ _ _ _ R).
  unfold s1. rewrite (pipe_finish p (CH_nwrite p) x' _ s Hheld). do 2 f_equal.
  rewrite length_take. pose proof (length_queue x Hx). pose proof (count_range x Hx). lia.
Qed.

Lemma upd_k_held_id s : upd_k_held (fun _ => k_held s) s = s.
Proof. by destruct s. Qed.

Section Blocked.
Context (s : kstate) (p : Z) (x : pipe) (me : nat) (pr : proc) (n : nat).
Context (Hp : k_pipes s !! p = Some x) (Hx : pipe_ok x) (Hheld : k_held s = []).
Context (Hcur : k_cur s = Some me) (Hpr : k_procs s !! me = Some pr) (Hrun : p_state pr = RUNNING).
Let s1 := upd_k_held (cons (LK_pipe p)) s.

Lemma killed_ok : killed s1 = Ok (negb (p_killed pr =? 0)) s1.
Proof using Hcur Hpr.
  unfold killed. rewrite (kbind_ok _ _ _ me s1) by (by apply curproc_ok).
  by rewrite (kbind_ok _ _ _ pr s1) by (by apply get_proc_ok).
Qed.

Lemma release_back {A} (r : A) : (release (LK_pipe p) ;; kret r) s1 = Ok r s.
Proof using Hheld.
  unfold kbind. rewrite (release_acquired (LK_pipe p) []); [|simpl; by rewrite Hheld|apply not_elem_of_nil].
  cbn [bind_res kret]. f_equal. transitivity (upd_k_held (fun _ => k_held s) s); [by rewrite Hheld|apply upd_k_held_id].
Qed.

Lemma write_wait_full :
  pipe_count x = PIPESIZE ->
  if pp_readopen x && (p_killed pr =? 0)
  then exists s' k, pipewrite_wait (S n) p s1 = Swtch s' k /\ k_held s' = [LK_ptable] /\
         k_procs s' !! me = Some (asleep (CH_nwrite p) pr)
  else pipewrite_wait (S n) p s1 = Ok false s.
Proof using Hp Hx Hheld Hcur Hpr Hrun.
  intros Hfull. cbn [pipewrite_wait]. rewrite (kbind_ok _ _ _ _ _ (get_pipe_ok p x s1 Hp)).
  rewrite pipe_full_iff, Hfull, Z.eqb_refl by done.
  destruct (pp_readopen x); cbn [andb].
  - rewrite (kbind_ok _ _ _ _ _ killed_ok). destruct (p_killed pr =? 0); cbn [negb]; [|apply release_back].
    set (s2 := upd_k_procs (map (wakeup1_proc (CH_nread p))) s1).
    rewrite (kbind_ok _ _ _ tt s2) by (apply wakeup_ok; simpl; rewrite Hheld; set_solver).
    assert (Hpr2 : k_procs s2 !! me = Some pr).
    { simpl. rewrite list_lookup_fmap, Hpr. simpl. unfold wakeup1_proc. by rewrite Hrun. }
    destruct (sleep_swtch (CH_nwrite p) (LK_pipe p) me pr s2 Hcur Hpr2) as (k & Hk & _); [simpl; by rewrite Hheld|].
    unfold kbind. rewrite Hk. cbn [bind_res]. eexists _, _. split; [done|]. split; [done|].
    simpl in *. by rewrite list_lookup_alter_eq, Hpr2.
  - rewrite (kbind_ok (kret true) _ s1 true s1 eq_refl). apply release_back.
Qed.

Lemma read_wait_empty :
  pipe_count x = 0 -> pp_writeopen x = true ->
  if p_killed pr =? 0
  then exists s' k, piperead_wait (S n) p s1 = Swtch s' k /\ k_held s' = [LK_ptable] /\
         k_procs s' !! me = Some (asleep (CH_nread p) pr)
  else piperead_wait (S n) p s1 = Ok false s.
Proof using Hp Hx Hheld Hcur Hpr.
  intros He Hw. cbn [piperead_wait]. rewrite (kbind_ok _ _ _ _ _ (get_pipe_ok p x s1 Hp)).
  rewrite pipe_empty_iff, He, Hw by done. cbn [Z.eqb andb].
  rewrite (kbind_ok _ _ _ _ _ killed_ok). destruct (p_killed pr =? 0); cbn [negb]; [|apply release_back].
  destruct (sleep_swtch (CH_nread p) (LK_pipe p) me pr s1 Hcur Hpr) as (k & Hk & _); [simpl; by rewrite Hheld|].
  unfold kbind. rewrite Hk. cbn [bind_res]. eexists _, _. split; [done|]. split; [done|].
  simpl. by rewrite list_lookup_alter_eq, Hpr.
Qed.
End Blocked.

(** What a pipe does when it cannot go on.  A writer that finds the pipe full fails
    with -1 when the read end is closed or the process has been killed, and otherwise goes
    to sleep on [nwrite] after waking the readers; a reader that finds it empty with a
    writer still open fails with -1 when the process has been killed and otherwise goes to
    sleep on [nread]; in the failing cases the pipe is left as it was and no lock is held. *)
Theorem pipe_blocked (fl : nat) (s : kstate) (p : Z) (x : pipe) (me : nat) (pr : proc) (c : Z) (addr : list Z) (n : Z)
    (Hp : k_pipes s !! p = Some x) (Hx : pipe_ok x) (Hheld : k_held s = [])
    (Hcur : k_cur s = Some me) (Hpr : k_procs s !! me = Some pr) (Hrun : p_state pr = RUNNING) :
  (pipe_count x = PIPESIZE ->
     if pp_readopen x && (p_killed pr =? 0)
     then exists s' k, pipewrite (H := S fl) p (c :: addr) s = Swtch s' k /\ k_held s' = [LK_ptable] /\
            k_procs s' !! me = Some (asleep (CH_nwrite p) pr)
     else pipewrite (H := S fl) p (c :: addr) s = Ok (-1) s) /\
  (pipe_count x = 0 -> pp_writeopen x = true ->
     if p_killed pr =? 0
     then exists s' k, piperead (H := S fl) p n s = Swtch s' k /\ k_held s' = [LK_ptable] /\
            k_procs s' !! me = Some (asleep (CH_nread p) pr)
     else piperead (H := S fl) p n s = Ok (-1, []) s).
Proof.
  set (s1 := upd_k_held (cons (LK_pipe p)) s).
  assert (Hacq : acquire (LK_pipe p) s = Ok tt s1) by (apply acquire_ok; rewrite Hheld; set_solver).
  split.
  - intros Hfull. pose proof (write_wait_full s p x me pr fl Hp Hx Hheld Hcur Hpr Hrun Hfull) as Hw.
    unfold pipewrite. rewrite (kbind_ok _ _ _ _ _ Hacq). cbn [pipewrite_loop].
    destruct (pp_readopen x && (p_killed pr =? 0)).
    + destruct Hw as (s' & k & Hw & H1 & H2).
      rewrite (kbind_swtch _ _ _ _ _ (kbind_swtch _ _ _ _ _ Hw)). eexists _, _. split; [done|by split].
    + by rewrite (kbind_ok _ _ s1 false s) by (by rewrite (kbind_ok _ _ _ _ _ Hw)).
  - intros He Hwo. pose proof (read_wait_empty s p x me pr fl Hp Hx Hheld Hcur Hpr He Hwo) as Hw.
    unfold piperead. rewrite (kbind_ok _ _ _ _ _ Hacq).
    destruct (p_killed pr =? 0).
    + destruct Hw as (s' & k & Hw & H1 & H2).
      rewrite (kbind_swtch _ _ _ _ _ Hw). eexists _, _. split; [done|by split].
    + by rewrite (kbind_ok _ _ _ _ _ Hw).
Qed.

(** An empty pipe with a writer, read by process 0. *)
Definition empty_pipe : pipe := Pipe (replicate (Z.to_nat PIPESIZE) 0) 0 0 true true.
Definition reader_state : kstate := upd_k_pipes (fun _ => {[4096 := empty_pipe]}) sleeper.

Lemma pipe_blocked_witness :
  exists s' k, piperead (H := 1%nat) 4096 10 (upd_k_held (fun _ => []) reader_state) = Swtch s' k /\
    k_held s' = [LK_ptable].
Proof.
  destruct (proj2 (pipe_blocked 0 (upd_k_held (fun _ => []) reader_state) 4096 empty_pipe 0%nat
    (upd_p_state (fun _ => RUNNING) proc0) 0 [] 10 ltac:(vm_compute; reflexivity)
    ltac:(constructor; [vm_compute; reflexivity|simpl; lia|simpl; lia|vm_compute; done])
    eq_refl eq_refl eq_refl eq_refl) eq_refl eq_refl) as (s' & k & R & Hh & _).
  exists s', k. split; [exact R|exact Hh].
Defined.
