(* ===== verification/PipeFlow.v ===== *)
(** * What goes through a pipe (pipe.c)

    A [pipewrite] that does not fit and a [piperead] that finds nothing sleep until others have
    made room or written. Run to their end, with what the others do while they sleep, they
    lose no byte, overwrite none and change no order. *)

From S2P Require Import Prelude Mem Kernel Mmu Kalloc Sched Pipe.

(** ** The others *)

(** No process sleeps on [ch]. *)
Definition nobody_on (ch : chan) (s : kstate) : Prop :=
  forall q, q ∈ k_procs s -> ~ (p_state q = SLEEPING /\ p_chan q = Some ch).

(** The process that ran sleeps on [ch] and has not been killed. *)
Definition sleeps_on (ch : chan) (s : kstate) : Prop :=
  exists pr, cur_proc s = Some pr /\ p_state pr = SLEEPING /\ p_chan pr = Some ch /\ p_killed pr = 0.

(** The process that runs is running and has not been killed. *)
Definition alive (s : kstate) : Prop := exists pr, cur_proc s = Some pr /\ p_state pr = RUNNING /\ p_killed pr = 0.

(** Pipe [p] holds the bytes [q]. *)
Definition holds_bytes (p : Z) (q : list Z) (s : kstate) : Prop :=
  exists x, k_pipes s !! p = Some x /\ pipe_ok x /\ queue x = q.

Definition read_open (p : Z) (s : kstate) : Prop := exists x, k_pipes s !! p = Some x /\ pp_readopen x = true.
Definition write_open (p : Z) (s : kstate) : Prop := exists x, k_pipes s !! p = Some x /\ pp_writeopen x = true.

(** What a writer leaves when it waits: it has filled the pipe and woken the readers. *)
Definition writer_waits (p : Z) (q : list Z) (s : kstate) : Prop :=
  k_held s = [LK_ptable] /\ sleeps_on (CH_nwrite p) s /\ nobody_on (CH_nread p) s /\
  holds_bytes p q s /\ Z.of_nat (length q) = PIPESIZE /\ read_open p s.

(** While a writer waits, [e] reads [n] bytes and resumes it, not killed and with the read end still
    open. *)
Definition takes (p : Z) (n : nat) (e : kstate -> kstate) : Prop :=
  forall q s, writer_waits p q s ->
    resumed s (e s) /\ alive (e s) /\ holds_bytes p (drop n q) (e s) /\ read_open p (e s).

(** What a reader leaves when it waits: the pipe is empty, and somebody may write. *)
Definition reader_waits (p : Z) (s : kstate) : Prop :=
  k_held s = [LK_ptable] /\ sleeps_on (CH_nread p) s /\ holds_bytes p [] s /\ write_open p s.

(** While a reader waits, [e] resumes it, not killed, with the bytes [q] in the pipe. *)
Definition leaves (p : Z) (q : list Z) (e : kstate -> kstate) : Prop :=
  forall s, reader_waits p s -> resumed s (e s) /\ alive (e s) /\ holds_bytes p q (e s).

(** ** Lemmas *)

Lemma alive_inv s : alive s -> exists me pr, k_cur s = Some me /\ k_procs s !! me = Some pr /\ p_state pr = RUNNING /\ p_killed pr = 0.
Proof. intros (pr & (me & Hc & Hp)%cur_proc_inv & H). by exists me, pr. Qed.

Lemma alive_killed s : alive s -> killed s = Ok false s.
Proof.
  intros (me & pr & Hcur & Hpr & _ & Hk)%alive_inv. unfold killed.
  rewrite (kbind_ok _ _ _ me s) by (by apply curproc_ok). rewrite (kbind_ok _ _ _ pr s) by (by apply get_proc_ok).
  by rewrite Hk.
Qed.

(** Resumed, with the lock back. *)
Definition woken (lk : lock) (me : nat) (s : kstate) : kstate :=
  upd_k_held (fun _ => [lk]) (upd_k_procs (alter (upd_p_chan (fun _ => None)) me) s).

Lemma woken_alive lk me s : k_cur s = Some me -> alive s -> alive (woken lk me s).
Proof.
  intros Hcur (me' & pr & Hcur' & Hpr & H1 & H2)%alive_inv. replace me' with me in * by congruence.
  exists (upd_p_chan (fun _ => None) pr). split; [|done]. unfold cur_proc. simpl. rewrite Hcur. simpl.
  by rewrite list_lookup_alter_eq, Hpr.
Qed.

(** Going to sleep, and being resumed. *)
Lemma pipe_sleeps ch lk me pr s :
  k_held s = [lk] -> k_cur s = Some me -> k_procs s !! me = Some pr -> p_killed pr = 0 ->
  exists s1 k, sleep ch lk s = Swtch s1 k /\ k_held s1 = [LK_ptable] /\ sleeps_on ch s1 /\ k_cur s1 = Some me /\
    k_pipes s1 = k_pipes s /\ (forall q, q ∈ k_procs s1 -> q = asleep ch pr \/ q ∈ k_procs s) /\
    forall s2, resumed s1 s2 -> k s2 = Ok tt (woken lk me s2).
Proof.
  intros Hh Hcur Hpr Hk0. destruct (sleep_swtch ch lk me pr s Hcur Hpr Hh) as (k & Hk & Hres).
  eexists _, k. split; [exact Hk|]. split; [done|]. split.
  { exists (asleep ch pr). split; [|done]. unfold cur_proc. simpl. rewrite Hcur. simpl. by rewrite list_lookup_alter_eq, Hpr. }
  split; [done|]. split; [done|]. split.
  - intros q Hq. simpl in Hq. apply list_elem_of_lookup in Hq as [i Hi].
    destruct (decide (i = me)) as [->|Hne].
    + rewrite list_lookup_alter_eq, Hpr in Hi. injection Hi as <-. by left.
    + rewrite list_lookup_alter_ne in Hi by done. right. by eapply list_elem_of_lookup_2.
  - intros s2 (Hh2 & _). by apply Hres.
Qed.

Lemma wake_all_nobody ch s : nobody_on ch (upd_k_procs (map (wakeup1_proc ch)) s).
Proof.
  intros q Hq [Hs Hc]. simpl in Hq. apply list_elem_of_fmap in Hq as (r & -> & _).
  unfold wakeup1_proc in Hs, Hc. destruct (_ && _) eqn:E; [done|].
  apply andb_false_iff in E as [E|E]; by apply bool_decide_eq_false in E.
Qed.

Lemma holds_count p q s x : holds_bytes p q s -> k_pipes s !! p = Some x -> pipe_ok x /\ queue x = q /\ pipe_count x = Z.of_nat (length q).
Proof.
  intros (x' & Hp & Hx & Hq) Hp'. rewrite Hp in Hp'. injection Hp' as ->. split; [done|]. split; [done|].
  by rewrite <- Hq, length_queue.
Qed.

(** The state a writer is in between two bytes. *)
Definition writing (p : Z) (q : list Z) (s : kstate) : Prop :=
  k_held s = [LK_pipe p] /\ alive s /\ holds_bytes p q s /\ read_open p s.

Lemma write_wait_room n p q s : writing p q s -> Z.of_nat (length q) < PIPESIZE -> pipewrite_wait n p s = Ok true s.
Proof.
  intros (_ & _ & Hq & _) Hlt. pose proof Hq as (x & Hp & Hx & _). destruct (holds_count _ _ _ _ Hq Hp) as (_ & _ & Hc).
  destruct n; cbn [pipewrite_wait]; rewrite (kbind_ok _ _ _ _ _ (get_pipe_ok _ _ _ Hp)), pipe_full_iff by done;
    by rewrite (proj2 (Z.eqb_neq _ _)) by lia.
Qed.

Lemma write_wait_sleeps n p q s : writing p q s -> Z.of_nat (length q) = PIPESIZE ->
  exists s1 k, pipewrite_wait (S n) p s = Swtch s1 k /\ writer_waits p q s1 /\
    forall s2, resumed s1 s2 -> exists me, k_cur s2 = Some me /\ k s2 = pipewrite_wait n p (woken (LK_pipe p) me s2).
Proof.
  intros (Hh & Hal & Hq & Hro) Hfull. pose proof Hq as (x & Hp & Hx & Hqx). destruct (holds_count _ _ _ _ Hq Hp) as (_ & _ & Hc).
  cbn [pipewrite_wait]. rewrite (kbind_ok _ _ _ _ _ (get_pipe_ok _ _ _ Hp)), pipe_full_iff by done.
  rewrite Hc, Hfull, Z.eqb_refl. destruct Hro as (x' & Hp' & Hro). rewrite Hp in Hp'. injection Hp' as <-. rewrite Hro.
  rewrite (kbind_ok _ _ _ _ _ (alive_killed s Hal)).
  rewrite (kbind_ok _ _ _ tt _ (wakeup_ok (CH_nread p) s ltac:(rewrite Hh; set_solver))).
  destruct (alive_inv s Hal) as (me & pr & Hcur & Hpr & Hrun & Hk0).
  set (sw := upd_k_procs (map (wakeup1_proc (CH_nread p))) s).
  assert (Hprw : k_procs sw !! me = Some pr).
  { simpl. rewrite list_lookup_fmap, Hpr. simpl. unfold wakeup1_proc. by rewrite Hrun. }
  destruct (pipe_sleeps (CH_nwrite p) (LK_pipe p) me pr sw Hh Hcur Hprw Hk0) as (s1 & k & Hsl & H1 & H2 & H3 & H4 & H5 & H6).
  unfold kbind. rewrite Hsl. eexists s1, _. split; [done|]. split.
  - split; [done|]. split; [done|]. split.
    + intros r Hr [Hrs Hrc]. destruct (H5 r Hr) as [->|Hin]; [done|].
      by apply (wake_all_nobody (CH_nread p) s r Hin).
    + unfold holds_bytes, read_open. rewrite H4. change (k_pipes sw) with (k_pipes s). eauto 10.
  - intros s2 Hs2. exists me. pose proof Hs2 as (_ & Hc2 & _). split; [congruence|]. by rewrite H6.
Qed.

(** A byte more. *)
Lemma put_writing p q c s x : writing p q s -> k_pipes s !! p = Some x -> Z.of_nat (length q) < PIPESIZE ->
  exists s', set_pipe p (pipe_put c) s = Ok tt s' /\ writing p (q ++ [u8 c]) s'.
Proof.
  intros (Hh & Hal & Hq & Hro) Hp Hlt. destruct (holds_count _ _ _ _ Hq Hp) as (Hx & Hqx & Hc).
  destruct (put_ok c x Hx ltac:(lia)) as [Hx1 Hq1]. eexists. split; [exact (set_pipe_ok p x (pipe_put c) s Hp)|].
  split; [done|]. split; [exact Hal|]. split.
  - exists (pipe_put c x). simpl. rewrite lookup_insert_eq. by rewrite Hq1, Hqx.
  - destruct Hro as (x' & Hp' & Hro). rewrite Hp in Hp'. injection Hp' as <-.
    exists (pipe_put c x). simpl. by rewrite lookup_insert_eq.
Qed.

Lemma resumed_writing p me q n e s :
  writer_waits p q s -> takes p n e -> k_cur (e s) = Some me -> writing p (drop n q) (woken (LK_pipe p) me (e s)).
Proof.
  intros Hw Ht Hcur. destruct (Ht q s Hw) as (_ & Hal & Hq & Hro). split; [done|].
  split; [by apply woken_alive|]. by split.
Qed.

Definition bytes_of (ns : list nat) : nat := sum_list ns.

(** The loop of [pipewrite]: of the bytes there were and those of [addr] the oldest have gone
    to the readers and the others are in the pipe. *)
Lemma write_flow `{Fuel} p addr : forall ns es q s,
  writing p q s -> Z.of_nat (length q) <= PIPESIZE -> Forall2 (takes p) ns es -> Forall (fun n => (1 <= n <= Z.to_nat PIPESIZE)%nat) ns ->
  (length q + length addr <= Z.to_nat PIPESIZE + bytes_of ns)%nat -> (length es <= fuel)%nat ->
  exists used s' q', used `prefix_of` ns /\ resume_with es (pipewrite_loop p addr s) = Ok true s' /\
    writing p q' s' /\ q' = drop (bytes_of used) (q ++ map u8 addr) /\ (bytes_of used <= length (q ++ map u8 addr))%nat.
Proof.
  induction addr as [|c addr IH]; intros ns es q s Hw Hq Ht Hns Hroom Hf; cbn [pipewrite_loop].
  { exists [], s, q. split; [apply prefix_nil|]. unfold kret. rewrite resume_ok. split; [done|]. split; [done|].
    cbn. rewrite app_nil_r. split; [done|lia]. }
  assert (Hput : forall ns es q s, writing p q s -> Z.of_nat (length q) < PIPESIZE -> Forall2 (takes p) ns es ->
      Forall (fun n => (1 <= n <= Z.to_nat PIPESIZE)%nat) ns ->
      (length q + S (length addr) <= Z.to_nat PIPESIZE + bytes_of ns)%nat -> (length es <= fuel)%nat ->
      exists used s' q', used `prefix_of` ns /\
        resume_with es ((set_pipe p (pipe_put c) ;; pipewrite_loop p addr) s) = Ok true s' /\ writing p q' s' /\
        q' = drop (bytes_of used) (q ++ u8 c :: map u8 addr) /\ (bytes_of used <= length (q ++ u8 c :: map u8 addr))%nat).
  { clear ns es q s Hw Hq Ht Hns Hroom Hf. intros ns es q s Hw Hq Ht Hns Hroom Hf.
    pose proof Hw as (_ & _ & (x & Hp & _) & _). destruct (put_writing p q c s x Hw Hp Hq) as (s1 & Hs1 & Hw1).
    rewrite (kbind_ok _ _ _ _ _ Hs1). destruct (IH ns es _ s1 Hw1) as (used & s' & q' & H1 & H2 & H3 & H4 & H5); try done;
      try (rewrite length_app; cbn; lia).
    rewrite <- app_assoc in H4, H5. by exists used, s', q'. }
  cbn [length map] in *. destruct (decide (Z.of_nat (length q) = PIPESIZE)) as [Hfull|Hne].
  2: { rewrite (kbind_ok _ _ _ _ _ (write_wait_room fuel p q s Hw ltac:(lia))). apply Hput; (done || lia). }
  destruct Ht as [|n e ns es Hn Ht]; [unfold bytes_of, PIPESIZE in *; cbn in *; lia|].
  apply Forall_cons in Hns as [Hn1 Hns]. destruct fuel as [|fl] eqn:Ef; [cbn in Hf; lia|].
  destruct (write_wait_sleeps fl p q s Hw Hfull) as (s1 & k & Hsl & Hww & Hk).
  unfold kbind at 1. rewrite Hsl. cbn [bind_res resume_with].
  destruct (Hn q s1 Hww) as (Hres & _). destruct (Hk _ Hres) as (me & Hcur & Hk2). rewrite Hk2.
  pose proof (resumed_writing p me q n e s1 Hww Hn Hcur) as Hw2.
  assert (Hlen : length (drop n q) = (length q - n)%nat) by apply length_drop. unfold PIPESIZE in *.
  rewrite (write_wait_room fl p (drop n q) _ Hw2 ltac:(unfold PIPESIZE; lia)). cbn [bind_res].
  destruct (Hput ns es (drop n q) _ Hw2) as (used & s' & q' & H1 & H2 & H3 & H4 & H5); try done; try (cbn in *; lia).
  { unfold bytes_of in *. cbn in Hroom. lia. }
  exists (n :: used), s', q'. split; [by apply prefix_cons|]. split; [exact H2|]. split; [done|].
  assert (Hd : drop n q ++ u8 c :: map u8 addr = drop n (q ++ u8 c :: map u8 addr)) by (by rewrite drop_app_le by lia).
  rewrite Hd in H4, H5. rewrite drop_drop in H4. rewrite length_drop in H5. split; [exact H4|].
  unfold bytes_of in *. rewrite length_app in *. cbn in *. lia.
Qed.

(** The end of both calls: the other side is woken and the lock released. *)
Lemma flow_finish {A} p ch (r : A) s :
  k_held s = [LK_pipe p] ->
  exists s', (wakeup ch ;; release (LK_pipe p) ;; kret r) s = Ok r s' /\
    k_held s' = [] /\ k_pipes s' = k_pipes s /\ nobody_on ch s'.
Proof.
  intros Hh. rewrite (kbind_ok _ _ _ tt _ (wakeup_ok ch s ltac:(rewrite Hh; set_solver))).
  rewrite (kbind_ok _ _ _ tt _ (release_acquired (LK_pipe p) [] (upd_k_procs (map (wakeup1_proc ch)) s) Hh ltac:(set_solver))).
  eexists. split; [done|]. split; [done|]. split; [done|]. exact (wake_all_nobody ch s).
Qed.

(** The state a reader is in. *)
Definition reading (p : Z) (q : list Z) (s : kstate) : Prop := k_held s = [LK_pipe p] /\ alive s /\ holds_bytes p q s.

Lemma read_wait_sleeps n p s : reading p [] s -> write_open p s ->
  exists s1 k, piperead_wait (S n) p s = Swtch s1 k /\ reader_waits p s1 /\
    forall s2, resumed s1 s2 -> exists me, k_cur s2 = Some me /\ k s2 = piperead_wait n p (woken (LK_pipe p) me s2).
Proof.
  intros (Hh & Hal & Hq) Hwo. pose proof Hq as (x & Hp & Hx & Hqx). destruct (holds_count _ _ _ _ Hq Hp) as (_ & _ & Hc).
  cbn [piperead_wait]. rewrite (kbind_ok _ _ _ _ _ (get_pipe_ok _ _ _ Hp)), pipe_empty_iff by done.
  rewrite Hc. change (Z.of_nat (length (@nil Z)) =? 0) with true. cbn [andb]. pose proof Hwo as (x' & Hp' & Hw'). rewrite Hp in Hp'. injection Hp' as <-. rewrite Hw'. cbv iota.
  rewrite (kbind_ok _ _ _ _ _ (alive_killed s Hal)).
  destruct (alive_inv s Hal) as (me & pr & Hcur & Hpr & _ & Hk0).
  destruct (pipe_sleeps (CH_nread p) (LK_pipe p) me pr s Hh Hcur Hpr Hk0) as (s1 & k & Hsl & H1 & H2 & H3 & H4 & _ & H6).
  unfold kbind. rewrite Hsl. eexists s1, _. split; [done|]. split.
  - split; [done|]. split; [done|]. unfold holds_bytes, write_open in *. rewrite H4. eauto.
  - intros s2 Hs2. exists me. pose proof Hs2 as (_ & Hc2 & _). split; [congruence|]. by rewrite H6.
Qed.

Lemma read_wait_ready n p q s : reading p q s -> q <> [] \/ ~ write_open p s -> piperead_wait n p s = Ok true s.
Proof.
  intros (_ & _ & Hq) Hready. pose proof Hq as (x & Hp & Hx & _). destruct (holds_count _ _ _ _ Hq Hp) as (_ & _ & Hc).
  assert (E : (pp_nread x =? pp_nwrite x) && pp_writeopen x = false).
  { rewrite pipe_empty_iff, Hc by done. destruct Hready as [Hne|Hno].
    - destruct q; [done|]. by rewrite (proj2 (Z.eqb_neq _ _)) by (cbn; lia).
    - destruct (pp_writeopen x) eqn:Ew; [|apply andb_false_r]. exfalso. apply Hno. by exists x. }
  destruct n; cbn [piperead_wait]; by rewrite (kbind_ok _ _ _ _ _ (get_pipe_ok _ _ _ Hp)), E.
Qed.

(** A reader is resumed in vain any number of times, and then with the bytes [q]. *)
Definition wakes_reader (p : Z) (q : list Z) (last_ : kstate -> kstate) (es : list (kstate -> kstate)) : Prop :=
  Forall (fun e => leaves p [] e /\ forall s, reader_waits p s -> write_open p (e s)) es /\ leaves p q last_ /\
  (q <> [] \/ forall s, reader_waits p s -> ~ write_open p (last_ s)).

Lemma read_wait_flow p q e es : forall n s,
  reading p [] s -> write_open p s -> wakes_reader p q e es -> (length es < n)%nat ->
  exists s', resume_with (es ++ [e]) (piperead_wait n p s) = Ok true s' /\ reading p q s'.
Proof.
  induction es as [|e1 es IH]; intros n s Hr Hwo (Hes & He & Hq) Hn; (destruct n as [|n]; [cbn in Hn; lia|]);
    destruct (read_wait_sleeps n p s Hr Hwo) as (s1 & k & Hsl & Hrw & Hk); rewrite Hsl; cbn [app resume_with].
  - destruct (He s1 Hrw) as (Hres & Hal & Hb). destruct (Hk _ Hres) as (me & Hcur & ->).
    assert (Hr2 : reading p q (woken (LK_pipe p) me (e s1))).
    { split; [done|]. split; [by apply woken_alive|done]. }
    rewrite (read_wait_ready n p q _ Hr2) by (destruct Hq as [?|Hq]; [by left|right; exact (Hq s1 Hrw)]). eauto.
  - apply Forall_cons in Hes as [[He1 Hwo1] Hes]. destruct (He1 s1 Hrw) as (Hres & Hal & Hb).
    destruct (Hk _ Hres) as (me & Hcur & ->). apply IH; [|exact (Hwo1 s1 Hrw)|by split|cbn in Hn; lia].
    split; [done|]. split; [by apply woken_alive|done].
Qed.

Lemma entered p q s : k_held s = [] -> alive s -> holds_bytes p q s ->
  reading p q (upd_k_held (cons (LK_pipe p)) s).
Proof. intros Hh Hal Hq. split; [simpl; by rewrite Hh|]. by split. Qed.


(** ** A run *)

(** While the writer sleeps process [other] calls [piperead], and the writer is resumed. *)
Definition read_by (fl : nat) (other : nat) (p n : Z) (s : kstate) : kstate :=
  match piperead (H := fl) p n (upd_k_cur (fun _ => Some other) (upd_k_held (fun _ => []) s)) with
  | Ok _ s' =>
      upd_k_held (fun _ => [LK_ptable]) (upd_k_cur (fun _ => k_cur s)
        (upd_k_procs (fun ps => match k_cur s with Some me => alter (upd_p_state (fun _ => RUNNING)) me ps | None => ps end) s'))
  | _ => s
  end.

Lemma read_by_takes fl other p n : takes p n (read_by fl other p (Z.of_nat n)).
Proof.
  intros q s (Hh & (pr & (me & Hcur & Hpr)%cur_proc_inv & Hst & Hch & Hk) & _ & Hq & Hfull & Hro).
  pose proof Hq as (x & Hp & Hx & <-). rewrite length_queue in Hfull by done.
  destruct (piperead_ready (H := fl) (upd_k_cur (fun _ => Some other) (upd_k_held (fun _ => []) s)) p x (Z.of_nat n)
    Hp Hx eq_refl ltac:(lia) ltac:(left; unfold PIPESIZE in *; lia)) as (x' & Hx' & Hq' & Hro' & R).
  unfold read_by. rewrite R, Hcur. rewrite Nat2Z.id in Hq'.
  set (pr' := upd_p_state (fun _ => RUNNING) pr).
  assert (Hpr' : alter (upd_p_state (fun _ => RUNNING)) me (map (wakeup1_proc (CH_nwrite p)) (k_procs s)) !! me = Some pr').
  { rewrite list_lookup_alter_eq, list_lookup_fmap, Hpr. simpl. unfold wakeup1_proc. by rewrite Hst, Hch, !bool_decide_eq_true_2. }
  split; [split; [done|]; split; [simpl; congruence|]|].
  - intros me' r Hc Hr. replace me' with me in * by congruence. rewrite Hpr in Hr. injection Hr as <-.
    exists pr'. split; [exact Hpr'|done].
  - split; [exists pr'; split; [|done]; unfold cur_proc; simpl; exact Hpr'|].
    destruct Hro as (x0 & Hp0 & Hro). rewrite Hp in Hp0. injection Hp0 as <-.
    split; exists x'; simpl; rewrite lookup_insert_eq; [done|split; congruence].
Qed.

(** A pipe whose counters are about to wrap, with a byte in it. *)
Definition wrapping_pipe : pipe :=
  Pipe (replicate (Z.to_nat PIPESIZE) 9) (2 ^ 32 - 2) (2 ^ 32 - 1) true true.
Definition pipe_state : kstate :=
  upd_k_pipes (fun _ => {[4096 := wrapping_pipe]}) (upd_k_held (fun _ => []) sleeper).

Lemma pipe_state_holds : holds_bytes 4096 [9] pipe_state.
Proof.
  exists wrapping_pipe. split; [by vm_compute|]. split; [|by vm_compute].
  constructor; [vm_compute; reflexivity|simpl; lia|simpl; lia|vm_compute; done].
Qed.

