(* ===== verification/File.v ===== *)
(** * File structures (file.c) and [pipealloc] (pipe.c)

    The table of open files and its reference counts.  As in [Fs] and [Pipe], reads give
    the bytes copied to the caller's buffer and writes take them. *)

From S2P Require Import Prelude Mem StringC Kernel Mmu Kalloc Sched Bio Layout Log Printf Cons Fs Pipe.

(** The index of the first element that satisfies [P]. *)
Fixpoint find_from {A} (P : A -> bool) (l : list A) (i : nat) : option nat :=
  match l with
  | [] => None
  | x :: l => if P x then Some i else find_from P l (S i)
  end.

Lemma find_from_some {A} (P : A -> bool) (l : list A) : forall i p x,
  l !! p = Some x -> P x = true -> (forall j y, (j < p)%nat -> l !! j = Some y -> P y = false) ->
  find_from P l i = Some (i + p)%nat.
Proof.
  induction l as [|y l IH]; intros i p x Hp Hx Hb; [done|]. cbn. destruct p as [|p].
  - injection Hp as ->. rewrite Hx. f_equal. lia.
  - rewrite (Hb O y) by (done || lia). rewrite (IH (S i) p x); [f_equal; lia|done|done|].
    intros j z Hj. apply (Hb (S j)). lia.
Qed.

Lemma find_from_inv {A} (P : A -> bool) (l : list A) : forall i,
  match find_from P l i with
  | Some k => exists p x, k = (i + p)%nat /\ l !! p = Some x /\ P x = true /\
      forall j y, (j < p)%nat -> l !! j = Some y -> P y = false
  | None => forall j y, l !! j = Some y -> P y = false
  end.
Proof.
  induction l as [|y l IH]; intros i; cbn; [done|]. destruct (P y) eqn:E.
  - exists O, y. split_and!; [lia|done|done|]. intros; lia.
  - specialize (IH (S i)). destruct (find_from P l (S i)) as [k|].
    + destruct IH as (p & x & -> & Hp & Hx & Hb). exists (S p), x. split_and!; [lia|done|done|].
      intros [|j] z Hj Hz; [cbn in Hz; congruence|]. apply (Hb j); [lia|done].
    + intros [|j] z Hz; [cbn in Hz; congruence|]. by apply (IH j).
Qed.

Section File.
Context `{Fuel} `{Devsw}.

Definition filealloc : K (option nat) :=
  acquire LK_ftable ;;
  files <- gets k_files;
  match find_from (fun f => f_ref f =? 0) files 0 with
  | Some f =>
      set_file f (upd_f_ref (fun _ => 1)) ;;
      release LK_ftable ;;
      kret (Some f)
  | None =>
      release LK_ftable ;;
      kret None
  end.

Definition filedup (f : nat) : K nat :=
  acquire LK_ftable ;;
  x <- get_file f;
  if f_ref x <? 1 then panic "filedup" else
  set_file f (upd_f_ref (fun r => r + 1)) ;;
  release LK_ftable ;;
  kret f.

Definition fileclose (f : nat) : K unit :=
  acquire LK_ftable ;;
  x <- get_file f;
  if f_ref x <? 1 then panic "fileclose" else
  set_file f (upd_f_ref (fun r => r - 1)) ;;
  if 0 <? f_ref x - 1 then release LK_ftable else
  ff <- get_file f;
  set_file f (upd_f_ref (fun _ => 0)) ;;
  set_file f (upd_f_type (fun _ => FD_NONE)) ;;
  release LK_ftable ;;
  match f_type ff with
  | FD_PIPE => pipeclose (f_pipe ff) (f_writable ff)
  | FD_INODE =>
      begin_op ;;
      iput (f_ip ff) ;;
      end_op
  | FD_NONE => kret tt
  end.

Definition filestat (f : nat) : K (option stat) :=
  x <- get_file f;
  match f_type x with
  | FD_INODE =>
      ilock (f_ip x) ;;
      st <- stati (f_ip x);
      iunlock (f_ip x) ;;
      kret (Some st)
  | _ => kret None
  end.

Definition fileread (f : nat) (n : Z) : K (Z * list Z) :=
  x <- get_file f;
  if negb (f_readable x) then kret (-1, []) else
  match f_type x with
  | FD_PIPE => piperead (f_pipe x) n
  | FD_INODE =>
      ilock (f_ip x) ;;
      x <- get_file f;
      r <- readi (f_ip x) (f_off x) (u32 n);
      kwhen (0 <? r.1) (set_file f (upd_f_off (fun o => o +u r.1))) ;;
      iunlock (f_ip x) ;;
      kret r
  | FD_NONE => panic "fileread"
  end.

(** [((MAXOPBLOCKS-1-1-2) / 2) * 512] *)
Definition filewrite_max : Z := ((MAXOPBLOCKS - 1 - 1 - 2) / 2) * 512.

(** [while(i < n)]; [addr] holds the bytes from [i] on. The loop ends after at most [n]
    rounds since each full round advances [i]. *)
Fixpoint filewrite_loop (fl : nat) (f : nat) (addr : list Z) (i n : Z) : K Z :=
  if i <? n then
    match fl with
    | O => fun _ => NoFuel
    | S fl =>
        let n1 := if filewrite_max <? n - i then filewrite_max else n - i in
        begin_op ;;
        x <- get_file f;
        ilock (f_ip x) ;;
        x <- get_file f;
        r <- writei (f_ip x) addr (f_off x) (u32 n1);
        kwhen (0 <? r) (set_file f (upd_f_off (fun o => o +u r))) ;;
        iunlock (f_ip x) ;;
        end_op ;;
        if r <? 0 then kret i else
        if negb (r =? n1) then panic "short filewrite" else
        filewrite_loop fl f (drop (Z.to_nat r) addr) (i + r) n
    end
  else kret i.

Definition filewrite (f : nat) (addr : list Z) (n : Z) : K Z :=
  x <- get_file f;
  if negb (f_writable x) then kret (-1) else
  match f_type x with
  | FD_PIPE => pipewrite (f_pipe x) (take (Z.to_nat n) addr)
  | FD_INODE =>
      i <- filewrite_loop (Z.to_nat n) f addr 0 n;
      kret (if i =? n then n else -1)
  | FD_NONE => panic "filewrite"
  end.

(** ** pipealloc *)

(** The [bad:] exit. *)
Definition pipealloc_bad (f0 f1 : option nat) : K (option (nat * nat)) :=
  match f0 with Some f => fileclose f | None => kret tt end ;;
  match f1 with Some f => fileclose f | None => kret tt end ;;
  kret None.

(** The page [p] now holds a [struct pipe]; [data] is what the page held. *)
Definition pipealloc : K (option (nat * nat)) :=
  f0 <- filealloc;
  match f0 with
  | None => pipealloc_bad None None
  | Some i0 =>
      f1 <- filealloc;
      match f1 with
      | None => pipealloc_bad f0 None
      | Some i1 =>
          p <- Kalloc.kalloc;
          if p =? 0 then pipealloc_bad f0 f1 else
          m <- gets k_mem;
          modify (upd_k_pipes (insert p (Pipe (loads m p (Z.to_nat PIPESIZE)) 0 0 true true))) ;;
          set_file i0 (upd_f_type (fun _ => FD_PIPE)) ;;
          set_file i0 (upd_f_readable (fun _ => true)) ;;
          set_file i0 (upd_f_writable (fun _ => false)) ;;
          set_file i0 (upd_f_pipe (fun _ => p)) ;;
          set_file i1 (upd_f_type (fun _ => FD_PIPE)) ;;
          set_file i1 (upd_f_readable (fun _ => false)) ;;
          set_file i1 (upd_f_writable (fun _ => true)) ;;
          set_file i1 (upd_f_pipe (fun _ => p)) ;;
          kret (Some (i0, i1))
      end
  end.
End File.
