(* ===== verification/Vm.v ===== *)
(** * Page tables and user memory (vm.c)

    Page tables live in physical memory, so the operations read and write [k_mem] word by
    word, as the paging hardware does.  [Space] says what they do to an address space. *)

From S2P Require Import Prelude Mem StringC Kernel Mmu Kalloc Sched Bio Layout Log Printf Cons Fs.

(** Read and write words of physical memory. *)
Definition ldw (a : Z) : K Z := m <- gets k_mem; kret (load32 m a).
Definition stw (a v : Z) : K unit := modify (upd_k_mem (fun m => store32 m a v)).

Definition present (e : Z) : bool := negb (e .& PTE_P =? 0).

(** ** Walking and mapping *)

Definition walkpgdir (pgdir va : Z) (alloc : bool) : K Z :=
  let pde := pgdir +u 4 * PDX va in
  e <- ldw pde;
  if present e then kret (P2V (PTE_ADDR e) +u 4 * PTX va)
  else if negb alloc then kret 0 else
  pgtab <- Kalloc.kalloc;
  if pgtab =? 0 then kret 0 else
  modify (upd_k_mem (fun m => StringC.memset m pgtab 0 (Z.to_nat PGSIZE))) ;;
  stw pde (V2P pgtab .| PTE_P .| PTE_W .| PTE_U) ;;
  kret (pgtab +u 4 * PTX va).

(** [for(;;)] in [mappages]. *)
Fixpoint mappages_loop (fl : nat) (pgdir a last pa perm : Z) : K Z :=
  match fl with
  | O => fun _ => NoFuel
  | S fl =>
      pte <- walkpgdir pgdir a true;
      if pte =? 0 then kret (-1) else
      e <- ldw pte;
      if present e then panic "remap" else
      stw pte (pa .| perm .| PTE_P) ;;
      if a =? last then kret 0
      else mappages_loop fl pgdir (a +u PGSIZE) last (pa +u PGSIZE) perm
  end.

(** The loop visits every page from the first to the last. *)
Definition mappages (pgdir va size pa perm : Z) : K Z :=
  let a := PGROUNDDOWN va in
  let last := PGROUNDDOWN (u32 (va + size - 1)) in
  mappages_loop (S (Z.to_nat ((last -u a) / PGSIZE))) pgdir a last pa perm.

(** ** Freeing *)

(** [for(; a < oldsz; a += PGSIZE)] in [deallocuvm]. *)
Fixpoint deallocuvm_loop (fl : nat) (pgdir a oldsz : Z) : K unit :=
  if a <? oldsz then
    match fl with
    | O => fun _ => NoFuel
    | S fl =>
        pte <- walkpgdir pgdir a false;
        if pte =? 0 then
          let a := PGADDR (PDX a + 1) 0 0 -u PGSIZE in
          deallocuvm_loop fl pgdir (a +u PGSIZE) oldsz
        else
          e <- ldw pte;
          kwhen (present e)
            (let pa := PTE_ADDR e in
             if pa =? 0 then panic "kfree" else
             let v := P2V pa in
             Kalloc.kfree v ;;
             stw pte 0) ;;
          deallocuvm_loop fl pgdir (a +u PGSIZE) oldsz
    end
  else kret tt.

Definition deallocuvm (pgdir oldsz newsz : Z) : K Z :=
  if oldsz <=? newsz then kret oldsz else
  deallocuvm_loop (Z.to_nat (oldsz / PGSIZE + 1)) pgdir (PGROUNDUP newsz) oldsz ;;
  kret newsz.

Definition freevm (pgdir : Z) : K unit :=
  if pgdir =? 0 then panic "freevm: no pgdir" else
  deallocuvm pgdir KERNBASE 0 ;;
  kiter (seqZ 0 NPDENTRIES) (fun i =>
    e <- ldw (pgdir +u 4 * i);
    kwhen (present e) (let v := P2V (PTE_ADDR e) in Kalloc.kfree v)) ;;
  Kalloc.kfree pgdir.

(** ** The kernel's mappings *)

Record kmap := Kmap { km_virt : Z; km_phys_start : Z; km_phys_end : Z; km_perm : Z }.

Definition kmaps (data : Z) : list kmap :=
  [Kmap KERNBASE 0 EXTMEM PTE_W;
   Kmap KERNLINK (V2P KERNLINK) (V2P data) 0;
   Kmap data (V2P data) PHYSTOP PTE_W;
   Kmap DEVSPACE DEVSPACE 0 PTE_W].

Fixpoint setupkvm_loop (ks : list kmap) (pgdir : Z) : K Z :=
  match ks with
  | [] => kret pgdir
  | k :: ks =>
      r <- mappages pgdir (km_virt k) (km_phys_end k -u km_phys_start k) (km_phys_start k) (km_perm k);
      if r <? 0 then freevm pgdir ;; kret 0
      else setupkvm_loop ks pgdir
  end.

Definition setupkvm : K Z :=
  pgdir <- Kalloc.kalloc;
  if pgdir =? 0 then kret 0 else
  modify (upd_k_mem (fun m => StringC.memset m pgdir 0 (Z.to_nat PGSIZE))) ;;
  if DEVSPACE <? P2V PHYSTOP then panic "PHYSTOP too high" else
  data <- gets k_data;
  setupkvm_loop (kmaps data) pgdir.

(** [lcr3(V2P(kpgdir))] *)
Definition switchkvm : K unit :=
  kpgdir <- gets k_kpgdir;
  modify (upd_k_cr3 (fun _ => V2P kpgdir)).

Definition kvmalloc : K unit :=
  pgdir <- setupkvm;
  modify (upd_k_kpgdir (fun _ => pgdir)) ;;
  switchkvm.

(** Of the task state segment the model keeps [esp0]; the descriptor that makes the CPU
    use it is fixed. *)
Definition switchuvm (p : option nat) : K unit :=
  match p with
  | None => panic "switchuvm: no process"
  | Some p =>
      pr <- get_proc p;
      if p_kstack pr =? 0 then panic "switchuvm: no kstack" else
      if p_pgdir pr =? 0 then panic "switchuvm: no pgdir" else
      modify (upd_k_esp0 (fun _ => p_kstack pr +u KSTACKSIZE)) ;;
      modify (upd_k_cr3 (fun _ => V2P (p_pgdir pr)))
  end.

(** ** Building an address space *)

Definition inituvm (pgdir : Z) (init : list Z) : K unit :=
  if PGSIZE <=? Z.of_nat (length init) then panic "inituvm: more than a page" else
  mem <- Kalloc.kalloc;
  (* writing through a null pointer is a page fault *)
  if mem =? 0 then panic "trap" else
  modify (upd_k_mem (fun m => StringC.memset m mem 0 (Z.to_nat PGSIZE))) ;;
  mappages pgdir 0 PGSIZE (V2P mem) (PTE_W .| PTE_U) ;;
  modify (upd_k_mem (fun m => stores m mem init)).

(** [for(; a < newsz; a += PGSIZE)] in [allocuvm]; 0 when it gives up. *)
Fixpoint allocuvm_loop (fl : nat) (pgdir a oldsz newsz : Z) : K Z :=
  if a <? newsz then
    match fl with
    | O => fun _ => NoFuel
    | S fl =>
        mem <- Kalloc.kalloc;
        if mem =? 0 then
          cprintf "allocuvm out of memory
" [] ;;
          deallocuvm pgdir newsz oldsz ;;
          kret 0
        else
        modify (upd_k_mem (fun m => StringC.memset m mem 0 (Z.to_nat PGSIZE))) ;;
        r <- mappages pgdir a PGSIZE (V2P mem) (PTE_W .| PTE_U);
        if r <? 0 then
          cprintf "allocuvm out of memory (2)
" [] ;;
          deallocuvm pgdir newsz oldsz ;;
          Kalloc.kfree mem ;;
          kret 0
        else allocuvm_loop fl pgdir (a +u PGSIZE) oldsz newsz
    end
  else kret newsz.

Definition allocuvm (pgdir oldsz newsz : Z) : K Z :=
  if KERNBASE <=? newsz then kret 0 else
  if newsz <? oldsz then kret oldsz else
  allocuvm_loop (Z.to_nat (newsz / PGSIZE + 1)) pgdir (PGROUNDUP oldsz) oldsz newsz.

Definition clearpteu (pgdir uva : Z) : K unit :=
  pte <- walkpgdir pgdir uva false;
  if pte =? 0 then panic "clearpteu" else
  e <- ldw pte;
  stw pte (e .& u32 (Z.lnot PTE_U)).

(** [for(i = 0; i < sz; i += PGSIZE)] in [copyuvm]; [false] is [goto bad]. *)
Fixpoint copyuvm_loop (fl : nat) (pgdir d i sz : Z) : K bool :=
  if i <? sz then
    match fl with
    | O => fun _ => NoFuel
    | S fl =>
        pte <- walkpgdir pgdir i false;
        if pte =? 0 then panic "copyuvm: pte should exist" else
        e <- ldw pte;
        if negb (present e) then panic "copyuvm: page not present" else
        let pa := PTE_ADDR e in
        let flags := PTE_FLAGS e in
        mem <- Kalloc.kalloc;
        if mem =? 0 then kret false else
        modify (upd_k_mem (fun m => StringC.memmove m mem (P2V pa) (Z.to_nat PGSIZE))) ;;
        r <- mappages d i PGSIZE (V2P mem) flags;
        if r <? 0 then Kalloc.kfree mem ;; kret false
        else copyuvm_loop fl pgdir d (i +u PGSIZE) sz
    end
  else kret true.

Definition copyuvm (pgdir sz : Z) : K Z :=
  d <- setupkvm;
  if d =? 0 then kret 0 else
  ok <- copyuvm_loop (Z.to_nat (sz / PGSIZE + 1)) pgdir d 0 sz;
  if (ok : bool) then kret d else freevm d ;; kret 0.

(** ** User memory as the kernel sees it in a system call

    The page walk of the x86: a virtual address below [KERNBASE] through the table in
    [cr3].  A missing page, or a write to a page without [PTE_W] ([CR0_WP] is set), is a
    page fault in the kernel, where [trap] panics. *)

Definition translate (m : mem) (cr3 va : Z) : option (Z * Z) :=
  let pde := load32 m (P2V cr3 +u 4 * PDX va) in
  if present pde then
    let pte := load32 m (P2V (PTE_ADDR pde) +u 4 * PTX va) in
    if present pte then Some (P2V (PTE_ADDR pte) + va mod PGSIZE, pte) else None
  else None.

Definition uload8 (va : Z) : K Z := fun s =>
  match translate (k_mem s) (k_cr3 s) va with
  | Some (a, _) => Ok (load8 (k_mem s) a) s
  | None => Panic "trap"
  end.

Definition ustore8 (va v : Z) : K unit := fun s =>
  match translate (k_mem s) (k_cr3 s) va with
  | Some (a, e) =>
      if e .& PTE_W =? 0 then Panic "trap"
      else Ok tt (upd_k_mem (fun m => store8 m a v) s)
  | None => Panic "trap"
  end.

Fixpoint uloads (va : Z) (n : nat) : K (list Z) :=
  match n with
  | O => kret []
  | S n => b <- uload8 va; bs <- uloads (va + 1) n; kret (b :: bs)
  end.

Fixpoint ustores (va : Z) (bs : list Z) : K unit :=
  match bs with
  | [] => kret tt
  | b :: bs => ustore8 va b ;; ustores (va + 1) bs
  end.

Definition uload32 (va : Z) : K Z := bs <- uloads va 4; kret (le_val bs).
Definition ustore32 (va v : Z) : K unit := ustores va (le_bytes 4 v).

(** ** Copying out *)

(** [walkpgdir] gives a null pointer when the page table is missing, and the code then reads
    the word at address 0 of the address space the CPU is in. *)
Definition uva2ka (pgdir uva : Z) : K Z :=
  pte <- walkpgdir pgdir uva false;
  e <- (if pte =? 0 then uload32 0 else ldw pte);
  if negb (present e) then kret 0 else
  if e .& PTE_U =? 0 then kret 0 else
  kret (P2V (PTE_ADDR e)).

(** [while(len > 0)]: [buf] holds the bytes still to be copied. *)
Fixpoint copyout_loop (fl : nat) (pgdir va : Z) (buf : list Z) : K Z :=
  let len := Z.of_nat (length buf) in
  if 0 <? len then
    match fl with
    | O => fun _ => NoFuel
    | S fl =>
        let va0 := PGROUNDDOWN va in
        pa0 <- uva2ka pgdir va0;
        if pa0 =? 0 then kret (-1) else
        let n := PGSIZE -u (va -u va0) in
        let n := if len <? n then len else n in
        modify (upd_k_mem (fun m => stores m (pa0 +u (va -u va0)) (take (Z.to_nat n) buf))) ;;
        copyout_loop fl pgdir (va0 +u PGSIZE) (drop (Z.to_nat n) buf)
    end
  else kret 0.

(** At least one byte is copied in each round. *)
Definition copyout (pgdir va : Z) (p : list Z) : K Z := copyout_loop (length p) pgdir va p.

Section Load.
Context `{Fuel} `{Devsw}.

Fixpoint loaduvm_loop (fl : nat) (pgdir addr : Z) (ip : nat) (offset sz i : Z) : K Z :=
  if i <? sz then
    match fl with
    | O => fun _ => NoFuel
    | S fl =>
        pte <- walkpgdir pgdir (addr +u i) false;
        if pte =? 0 then panic "loaduvm: address should exist" else
        e <- ldw pte;
        let pa := PTE_ADDR e in
        let n := if sz - i <? PGSIZE then sz - i else PGSIZE in
        r <- readi ip (offset +u i) n;
        modify (upd_k_mem (fun m => stores m (P2V pa) r.2)) ;;
        if negb (u32 r.1 =? n) then kret (-1)
        else loaduvm_loop fl pgdir addr ip offset sz (i +u PGSIZE)
    end
  else kret 0.

Definition loaduvm (pgdir addr : Z) (ip : nat) (offset sz : Z) : K Z :=
  if negb (addr mod PGSIZE =? 0) then panic "loaduvm: addr must be page aligned" else
  loaduvm_loop (Z.to_nat (sz / PGSIZE + 1)) pgdir addr ip offset sz 0.
End Load.
