(* ===== verification/Space.v ===== *)
(** * Address spaces: what the operations of vm.c do

    [entry] reads a page table the way the paging hardware does; [tables] and [mapped] are
    the pages an address space is made of.  The theorems say what the operations do to the
    entries, to the contents of the pages and to the list of free pages: nothing is lost,
    nothing is freed twice, nothing else is touched. *)

From S2P Require Import Prelude Mem StringC Kernel Mmu Kalloc Sched Bio Layout Log Printf Cons Fs Vm.

(** ** Reading a page table *)

(** The page a directory or table entry refers to, in the direct map. *)
Definition frame (e : Z) : Z := P2V (PTE_ADDR e).

Definition pde (m : mem) (pgdir i : Z) : Z := load32 m (pgdir + 4 * i).

(** The entry for virtual page [k]; 0 where there is no table. *)
Definition entry (m : mem) (pgdir k : Z) : Z :=
  let e := pde m pgdir (k / 1024) in
  if present e then load32 m (frame e + 4 * (k mod 1024)) else 0.

(** The pages of present entries. *)
Definition frame_if (e : Z) : option Z := if present e then Some (frame e) else None.
(** The page tables below a directory, and the pages that [n] virtual pages from [lo] on map to.
    Both are sealed: the second can be half a million entries long. *)
Definition tables_def (m : mem) (pgdir : Z) : list Z :=
  omap (fun i => frame_if (pde m pgdir i)) (seqZ 0 NPDENTRIES).
Definition tables_aux : seal tables_def.
Proof. by eexists. Qed.
Definition tables := tables_aux.(unseal).
Lemma tables_unfold m pgdir : tables m pgdir = omap (fun i => frame_if (pde m pgdir i)) (seqZ 0 NPDENTRIES).
Proof. unfold tables. by rewrite tables_aux.(seal_eq). Qed.

Definition mapped_def (m : mem) (pgdir lo n : Z) : list Z :=
  omap (fun k => frame_if (entry m pgdir k)) (seqZ lo n).
Definition mapped_aux : seal mapped_def.
Proof. by eexists. Qed.
Definition mapped := mapped_aux.(unseal).
Lemma mapped_unfold m pgdir lo n : mapped m pgdir lo n = omap (fun k => frame_if (entry m pgdir k)) (seqZ lo n).
Proof. unfold mapped. by rewrite mapped_aux.(seal_eq). Qed.

(** The user half of the address space. *)
Definition UPAGES : Z := KERNBASE / PGSIZE.

(** [pages] and [free] are different pages of the allocator's, [free] the free ones. *)
Definition owns (s : kstate) (pages free : list Z) : Prop :=
  Kalloc.kmem_ok s free /\ NoDup (pages ++ free) /\ Forall (Kalloc.managed (k_end s)) pages.

(** The directory and its tables are the allocator's and apart from the pages that the
    virtual pages from [lo] on map to. *)
Definition space_ok (s : kstate) (pgdir lo n : Z) (free : list Z) : Prop :=
  owns s (pgdir :: tables (k_mem s) pgdir ++ mapped (k_mem s) pgdir lo n) free.

(** [s'] is [s] but for memory and the list of free pages. *)
Definition mem_only (s s' : kstate) : Prop :=
  exists f m, s' = upd_k_freelist (fun _ => f) (upd_k_mem (fun _ => m) s).

(** Memory is as it was on the page at [p]. *)
Definition same_page (m m' : mem) (p : Z) : Prop :=
  forall a, p <= a < p + PGSIZE -> load8 m' a = load8 m a.

Lemma mem_only_refl s : mem_only s s.
Proof. exists (k_freelist s), (k_mem s). by destruct s. Qed.

Lemma mem_only_trans s1 s2 s3 : mem_only s1 s2 -> mem_only s2 s3 -> mem_only s1 s3.
Proof. intros (f & m & ->) (f' & m' & ->). by exists f', m'. Qed.

Lemma mem_only_mem s g : mem_only s (upd_k_mem g s).
Proof. exists (k_freelist s), (g (k_mem s)). by destruct s. Qed.

Lemma mem_only_free s s' : mem_only s s' -> Kalloc.kmem_free s -> Kalloc.kmem_free s'.
Proof. by intros (f & m & ->). Qed.

Lemma mem_only_end s s' : mem_only s s' -> k_end s' = k_end s.
Proof. by intros (f & m & ->). Qed.

Lemma same_page_load32 m m' p a :
  same_page m m' p -> p <= a -> a + 4 <= p + PGSIZE -> load32 m' a = load32 m a.
Proof. intros H Ha Ha'. unfold load32. f_equal. apply loads_ext. intros i Hi. apply H. lia. Qed.

Lemma same_page_trans m1 m2 m3 p : same_page m1 m2 p -> same_page m2 m3 p -> same_page m1 m3 p.
Proof. intros H1 H2 a Ha. rewrite H2, H1 by done. done. Qed.

(** A write to one of the allocator's pages is not seen on another. *)
Lemma same_page_other e m m' v p :
  Kalloc.managed e v -> Kalloc.managed e p -> v <> p ->
  (forall a, a < v \/ v + PGSIZE <= a -> load8 m' a = load8 m a) -> same_page m m' p.
Proof.
  intros Hv Hp Hne H a Ha. apply H.
  destruct (Kalloc.managed_apart e v p Hv Hp Hne); lia.
Qed.

Lemma store32_outside m v a w b :
  v <= a -> a + 4 <= v + PGSIZE -> b < v \/ v + PGSIZE <= b ->
  load8 (store32 m a w) b = load8 m b.
Proof. intros. unfold store32. apply load8_stores_out. rewrite length_unpack. lia. Qed.

Lemma memset_outside m v c b :
  b < v \/ v + PGSIZE <= b -> load8 (StringC.memset m v c (Z.to_nat PGSIZE)) b = load8 m b.
Proof. intros H. rewrite StringC.load8_memset. unfold PGSIZE in *. zcase; simpl; lia || done. Qed.

Lemma kmem_ok_write s m' pages v :
  Kalloc.kmem_ok s pages -> Kalloc.managed (k_end s) v -> v ∉ pages ->
  (forall a, a < v \/ v + PGSIZE <= a -> load8 m' a = load8 (k_mem s) a) ->
  Kalloc.kmem_ok (upd_k_mem (fun _ => m') s) pages.
Proof.
  intros (Hl & Hnd & Hall) Hv Hni Hm. split_and!; [|done|done]. simpl.
  eapply Kalloc.flist_other; [exact Hall|exact Hv|exact Hni|exact Hm|exact Hl].
Qed.

(** ** Address arithmetic *)

Lemma frame_aligned e : 0 <= e < 2 ^ 32 -> frame e mod PGSIZE = 0.
Proof.
  intros He. unfold frame, P2V, PGSIZE, KERNBASE. rewrite PTE_ADDR_spec by done.
  unfold u32. dlia.
Qed.

Lemma managed_word e p i :
  Kalloc.managed e p -> 0 <= i < 1024 -> p +u 4 * i = p + 4 * i /\ p + 4 * i <> 0.
Proof.
  intros Hp Hi. destruct (Kalloc.managed_range e p Hp) as (H1 & H2 & _).
  unfold KERNBASE, PHYSTOP, PGSIZE in *. split; [apply u32_id; lia|lia].
Qed.

Lemma PDX_page k : 0 <= k < 2 ^ 20 -> PDX (4096 * k) = k / 1024.
Proof. intros Hk. rewrite PDX_spec by lia. dlia. Qed.

Lemma PTX_page k : 0 <= k < 2 ^ 20 -> PTX (4096 * k) = k mod 1024.
Proof. intros Hk. rewrite PTX_spec. dlia. Qed.

(** Where the entry of page [k] is kept. *)
Definition slot (m : mem) (pgdir k : Z) : Z :=
  frame (pde m pgdir (k / 1024)) + 4 * (k mod 1024).

Lemma entry_slot m pgdir k :
  present (pde m pgdir (k / 1024)) = true -> entry m pgdir k = load32 m (slot m pgdir k).
Proof. intros H. unfold entry, slot. by rewrite H. Qed.

Lemma elem_of_dir i : i ∈ seqZ 0 NPDENTRIES <-> 0 <= i < 1024.
Proof. rewrite elem_of_seqZ. by change (0 + NPDENTRIES) with 1024. Qed.

Lemma elem_of_tables m pgdir t :
  t ∈ tables m pgdir <-> exists i, 0 <= i < 1024 /\ present (pde m pgdir i) = true /\ t = frame (pde m pgdir i).
Proof.
  rewrite tables_unfold, list_elem_of_omap. split.
  - intros (i & Hi & Hf). apply elem_of_dir in Hi. unfold frame_if in Hf.
    destruct (present (pde m pgdir i)) eqn:E; [|done]. injection Hf as <-. eauto.
  - intros (i & Hi & Hp & ->). exists i. split; [by apply elem_of_dir|].
    unfold frame_if. by rewrite Hp.
Qed.

Lemma omap_NoDup_inj {A B} (f : A -> option B) (l : list A) x y z :
  NoDup (omap f l) -> x ∈ l -> y ∈ l -> f x = Some z -> f y = Some z -> x = y.
Proof.
  intros Hnd Hx Hy Hfx Hfy. induction l as [|a l IH]; [by apply not_elem_of_nil in Hx|].
  cbn in Hnd. apply elem_of_cons in Hx, Hy.
  assert (Hin : forall w, w ∈ l -> f w = Some z -> z ∈ omap f l)
    by (intros w Hw Hfw; apply list_elem_of_omap; eauto).
  destruct Hx as [->|Hx], Hy as [->|Hy]; [done|..].
  - rewrite Hfx in Hnd. apply NoDup_cons in Hnd as [Hn _]. exfalso. eauto.
  - rewrite Hfy in Hnd. apply NoDup_cons in Hnd as [Hn _]. exfalso. eauto.
  - apply IH; [|done..]. destruct (f a); [by apply NoDup_cons in Hnd as [_ ?]|done].
Qed.

Lemma omap_ext_in {A B} (f g : A -> option B) (l : list A) : (forall x, x ∈ l -> f x = g x) -> omap f l = omap g l.
Proof.
  induction l as [|a l IH]; intros H; [done|]. cbn. rewrite (H a) by set_solver.
  destruct (g a); rewrite IH; auto; intros; apply H; set_solver.
Qed.

Lemma tables_inj m pgdir i j :
  NoDup (tables m pgdir) -> 0 <= i < 1024 -> 0 <= j < 1024 ->
  present (pde m pgdir i) = true -> present (pde m pgdir j) = true ->
  frame (pde m pgdir i) = frame (pde m pgdir j) -> i = j.
Proof.
  intros Hnd Hi Hj Hpi Hpj He. rewrite tables_unfold in Hnd.
  apply (omap_NoDup_inj (fun i => frame_if (pde m pgdir i)) (seqZ 0 NPDENTRIES) i j (frame (pde m pgdir i)));
    [exact Hnd|by apply elem_of_dir..| |]; unfold frame_if; [by rewrite Hpi|by rewrite Hpj, He].
Qed.

Lemma pde_same m m' pgdir i :
  same_page m m' pgdir -> 0 <= i < 1024 -> pde m' pgdir i = pde m pgdir i.
Proof. intros H Hi. eapply same_page_load32; [exact H|lia|unfold PGSIZE; lia]. Qed.

Lemma tables_same m m' pgdir : same_page m m' pgdir -> tables m' pgdir = tables m pgdir.
Proof.
  intros H. rewrite !tables_unfold. apply omap_ext_in. intros i Hi. apply elem_of_dir in Hi.
  by rewrite (pde_same m m').
Qed.

Lemma entry_same m m' pgdir k :
  0 <= k < 2 ^ 20 -> same_page m m' pgdir ->
  (present (pde m pgdir (k / 1024)) = true -> same_page m m' (frame (pde m pgdir (k / 1024)))) ->
  entry m' pgdir k = entry m pgdir k.
Proof.
  intros Hk Hd Ht. unfold entry. rewrite (pde_same m m') by (done || dlia).
  destruct (present _) eqn:E; [|done].
  eapply same_page_load32; [by apply Ht|dlia|unfold PGSIZE; dlia].
Qed.

Lemma mapped_ext m m' pgdir lo n :
  (forall k, lo <= k < lo + n -> entry m' pgdir k = entry m pgdir k) ->
  mapped m' pgdir lo n = mapped m pgdir lo n.
Proof. intros H. rewrite !mapped_unfold. apply omap_ext_in. intros k Hk. apply elem_of_seqZ in Hk. by rewrite H. Qed.

Lemma mapped_cons m pgdir lo n :
  0 < n -> mapped m pgdir lo n =
    (match frame_if (entry m pgdir lo) with Some f => [f] | None => [] end) ++ mapped m pgdir (lo + 1) (n - 1).
Proof.
  intros Hn. rewrite !mapped_unfold, seqZ_cons by done. cbn [omap list_omap].
  rewrite Z.add_1_r, Z.sub_1_r. by destruct (frame_if _).
Qed.

(** Pages whose table is missing are not mapped. *)
Lemma mapped_hole m pgdir lo n j :
  0 <= j <= n -> (forall k, lo <= k < lo + j -> present (pde m pgdir (k / 1024)) = false) ->
  mapped m pgdir lo n = mapped m pgdir (lo + j) (n - j).
Proof.
  intros Hj Hk. rewrite !mapped_unfold. replace (seqZ lo n) with (seqZ lo j ++ seqZ (lo + j) (n - j))
    by (replace n with (j + (n - j)) at 2 by lia; rewrite seqZ_app by lia; done).
  rewrite omap_app. replace (omap _ (seqZ lo j)) with ([] : list Z); [done|].
  symmetry. erewrite omap_ext_in with (g := fun _ => None).
  - by induction (seqZ lo j).
  - intros k Hin. apply elem_of_seqZ in Hin. unfold entry. rewrite Hk by lia. done.
Qed.

(** The parts of [owns]. *)
Lemma owns_disjoint s pages free p : owns s pages free -> p ∈ pages -> p ∉ free.
Proof. intros (_ & Hnd & _) Hp Hf. apply NoDup_app in Hnd as (_ & H & _). by apply (H p). Qed.

Lemma owns_managed s pages free p : owns s pages free -> p ∈ pages -> Kalloc.managed (k_end s) p.
Proof. intros (_ & _ & Hall) Hp. rewrite Forall_forall in Hall. by apply Hall. Qed.

#[export] Instance owns_proper s : Proper (Permutation ==> eq ==> iff) (owns s).
Proof.
  intros p1 p2 Hp f ? <-. unfold owns. rewrite Hp.
  split; intros (H1 & H2 & H3); (split; [done|split; [|]]); try done; by rewrite Hp in * || by rewrite <- Hp in *.
Qed.

(** Freeing a page one owns. *)
Lemma kfree_owned s v pages free :
  owns s (v :: pages) free -> Kalloc.kmem_free s ->
  exists s', Kalloc.kfree v s = Ok tt s' /\ mem_only s s' /\ owns s' pages (v :: free) /\
    forall a, a < v \/ v + PGSIZE <= a -> load8 (k_mem s') a = load8 (k_mem s) a.
Proof.
  intros (Hk & Hnd & Hall) Hf. apply Forall_cons in Hall as [Hv Hall].
  cbn [app] in Hnd. pose proof Hnd as Hnd'. apply NoDup_cons in Hnd as [Hni Hnd].
  destruct (Kalloc.kfree_ok s free v Hk Hv) as (s' & Hrun & Hok & ->); [set_solver|done|].
  eexists. split; [exact Hrun|]. split; [|split].
  - eexists _, _. reflexivity.
  - split; [exact Hok|]. split; [|exact Hall]. by rewrite <- Permutation_middle.
  - intros a Ha. simpl. by apply Kalloc.freed_outside.
Qed.

(** ** Walking without allocating *)

Lemma ldw_ok a s : ldw a s = Ok (load32 (k_mem s) a) s.
Proof. done. Qed.

Lemma walk_noalloc s pgdir k :
  Kalloc.managed (k_end s) pgdir -> 0 <= k < 2 ^ 20 ->
  (present (pde (k_mem s) pgdir (k / 1024)) = true ->
     Kalloc.managed (k_end s) (frame (pde (k_mem s) pgdir (k / 1024)))) ->
  walkpgdir pgdir (4096 * k) false s =
    Ok (if present (pde (k_mem s) pgdir (k / 1024)) then slot (k_mem s) pgdir k else 0) s /\
  (present (pde (k_mem s) pgdir (k / 1024)) = true -> slot (k_mem s) pgdir k <> 0).
Proof.
  intros Hd Hk Ht. unfold walkpgdir. rewrite PDX_page, PTX_page by done.
  rewrite (proj1 (managed_word _ _ (k / 1024) Hd ltac:(dlia))).
  rewrite (kbind_ok _ _ _ _ _ (ldw_ok _ s)). fold (pde (k_mem s) pgdir (k / 1024)).
  destruct (present _) eqn:E; [|done].
  fold (frame (pde (k_mem s) pgdir (k / 1024))). unfold slot.
  destruct (managed_word _ _ (k mod 1024) (Ht eq_refl) ltac:(dlia)) as [-> H]. done.
Qed.

(** The table of page [k] among the pages of the address space. *)
Lemma table_of m pgdir k :
  0 <= k < 2 ^ 20 -> present (pde m pgdir (k / 1024)) = true ->
  frame (pde m pgdir (k / 1024)) ∈ tables m pgdir.
Proof. intros Hk Hp. apply elem_of_tables. exists (k / 1024). split_and!; [dlia|dlia|done|done]. Qed.

(** Storing to the slot of page [k] changes that entry and nothing else of the table. *)
Lemma store_slot m pgdir k w e :
  0 <= k < 2 ^ 20 -> present (pde m pgdir (k / 1024)) = true ->
  Forall (Kalloc.managed e) (pgdir :: tables m pgdir) -> NoDup (pgdir :: tables m pgdir) ->
  let m' := store32 m (slot m pgdir k) w in
  (forall a, a < frame (pde m pgdir (k / 1024)) \/ frame (pde m pgdir (k / 1024)) + PGSIZE <= a ->
     load8 m' a = load8 m a) /\
  same_page m m' pgdir /\ entry m' pgdir k = u32 w /\
  forall k', 0 <= k' < 2 ^ 20 -> k' <> k -> entry m' pgdir k' = entry m pgdir k'.
Proof.
  intros Hk Hp Hall Hnd m'. set (t := frame (pde m pgdir (k / 1024))).
  pose proof (table_of m pgdir k Hk Hp) as Hin. fold t in Hin.
  apply Forall_cons in Hall as [Hd Hall]. apply NoDup_cons in Hnd as [Hni Hnd].
  assert (Ht : Kalloc.managed e t) by (rewrite Forall_forall in Hall; by apply Hall).
  assert (Hout : forall a, a < t \/ t + PGSIZE <= a -> load8 m' a = load8 m a).
  { intros a Ha. apply (store32_outside m t); [unfold slot; fold t; dlia| |done].
    unfold slot, PGSIZE. fold t. dlia. }
  assert (Hpd : same_page m m' pgdir)
    by (apply (same_page_other e m m' t); [done|done|by intros ->|done]).
  split; [done|]. split; [done|]. split.
  - assert (Hpe : pde m' pgdir (k / 1024) = pde m pgdir (k / 1024)) by (apply pde_same; [done|dlia]).
    rewrite entry_slot by (by rewrite Hpe).
    replace (slot m' pgdir k) with (slot m pgdir k) by (unfold slot; by rewrite Hpe).
    apply load32_store32_same.
  - intros k' Hk' Hne. unfold entry. rewrite (pde_same m m') by (done || dlia).
    destruct (present (pde m pgdir (k' / 1024))) eqn:E; [|done].
    unfold m', slot. fold t.
    destruct (Z.eq_dec (k' / 1024) (k / 1024)) as [Eq|Neq].
    + rewrite Eq. fold t. apply load32_store32_other. dlia.
    + apply load32_store32_other.
      assert (Hne' : t <> frame (pde m pgdir (k' / 1024)))
        by (intros He; apply Neq; symmetry; apply (tables_inj m pgdir); done || dlia).
      pose proof (table_of m pgdir k' Hk' E) as Hin'. rewrite Forall_forall in Hall.
      destruct (Kalloc.managed_apart e _ _ Ht (Hall _ Hin') Hne'); unfold PGSIZE in *; dlia.
Qed.

(** Membership in a list put together from known parts. *)
Ltac inlist :=
  repeat match goal with
  | H : _ ∈ _ :: _ |- _ => rewrite elem_of_cons in H
  | H : _ ∈ _ ++ _ |- _ => rewrite elem_of_app in H
  end; repeat (rewrite elem_of_cons || rewrite elem_of_app); tauto.

Lemma perm_pull {A} (x f : A) l1 l2 : x :: l1 ++ [f] ++ l2 ≡ₚ f :: x :: l1 ++ l2.
Proof. cbn [app]. rewrite <- Permutation_middle. apply perm_swap. Qed.

(** Freeing the page behind entry [k]: [kfree(v); *pte = 0;]. *)
Lemma free_entry s pgdir k n free :
  space_ok s pgdir k n free -> Kalloc.kmem_free s -> 0 <= k -> 0 < n -> k + n <= 2 ^ 20 ->
  present (pde (k_mem s) pgdir (k / 1024)) = true -> present (entry (k_mem s) pgdir k) = true ->
  exists s', (Kalloc.kfree (frame (entry (k_mem s) pgdir k)) ;; stw (slot (k_mem s) pgdir k) 0) s = Ok tt s' /\
    mem_only s s' /\ space_ok s' pgdir (k + 1) (n - 1) (frame (entry (k_mem s) pgdir k) :: free) /\
    tables (k_mem s') pgdir = tables (k_mem s) pgdir /\ same_page (k_mem s) (k_mem s') pgdir /\
    entry (k_mem s') pgdir k = 0 /\
    (forall k', 0 <= k' < 2 ^ 20 -> k' <> k -> entry (k_mem s') pgdir k' = entry (k_mem s) pgdir k') /\
    (forall p, Kalloc.managed (k_end s) p -> p ∉ tables (k_mem s) pgdir -> p <> frame (entry (k_mem s) pgdir k) ->
       same_page (k_mem s) (k_mem s') p).
Proof.
  intros Hsp Hf Hk Hn Hkn Hp Hpe. unfold space_ok in Hsp. rewrite mapped_cons in Hsp by done.
  unfold frame_if in Hsp. rewrite Hpe in Hsp. set (f := frame (entry (k_mem s) pgdir k)) in *.
  set (rest := mapped (k_mem s) pgdir (k + 1) (n - 1)) in *. set (ts := tables (k_mem s) pgdir) in *.
  assert (Hsp' : owns s (f :: pgdir :: ts ++ rest) free).
  { eapply owns_proper; [|done|exact Hsp]. symmetry. apply perm_pull. }
  destruct (kfree_owned s f _ _ Hsp' Hf) as (s1 & Hrun & Hmo & Hown & Hout).
  pose proof (owns_managed _ _ _ f Hsp' ltac:(inlist)) as Hfm.
  assert (Hmg : forall p, p ∈ pgdir :: ts -> Kalloc.managed (k_end s) p)
    by (intros p Hpi; eapply owns_managed; [exact Hsp|]; inlist).
  assert (Hnd : NoDup (f :: pgdir :: ts)).
  { destruct Hsp' as (_ & Hnd & _). rewrite app_comm_cons, app_comm_cons in Hnd.
    rewrite <- !app_assoc in Hnd. by apply NoDup_app in Hnd as (? & _ & _). }
  apply NoDup_cons in Hnd as [Hfni Hnd].
  assert (Hsame : forall p, p ∈ pgdir :: ts -> same_page (k_mem s) (k_mem s1) p).
  { intros p Hpi. apply (same_page_other (k_end s) _ _ f); [done|by apply Hmg|by intros ->|done]. }
  assert (Hent : forall k', 0 <= k' < 2 ^ 20 -> entry (k_mem s1) pgdir k' = entry (k_mem s) pgdir k').
  { intros k' Hk'. apply entry_same; [done|apply Hsame; inlist|]. intros Hp'. apply Hsame.
    apply elem_of_cons. right. by apply table_of. }
  assert (Hpde : pde (k_mem s1) pgdir (k / 1024) = pde (k_mem s) pgdir (k / 1024))
    by (apply pde_same; [apply Hsame; inlist|dlia]).
  assert (Hts : tables (k_mem s1) pgdir = ts) by (apply tables_same, Hsame; inlist).
  assert (Hslot : slot (k_mem s) pgdir k = slot (k_mem s1) pgdir k) by (unfold slot; by rewrite Hpde).
  destruct (store_slot (k_mem s1) pgdir k 0 (k_end s)) as (Hout2 & Hpd2 & He2 & Hent2);
    [lia|by rewrite Hpde|rewrite Hts; rewrite Forall_forall; exact Hmg|by rewrite Hts|].
  rewrite (kbind_ok _ _ _ _ _ Hrun). rewrite Hslot.
  set (m2 := store32 (k_mem s1) (slot (k_mem s1) pgdir k) 0) in *.
  exists (upd_k_mem (fun _ => m2) s1).
  assert (Ht : frame (pde (k_mem s1) pgdir (k / 1024)) ∈ ts)
    by (rewrite Hpde; apply table_of; [lia|done]).
  assert (Hts2 : tables m2 pgdir = ts) by (rewrite <- Hts; by apply tables_same).
  split; [reflexivity|]. split; [eapply mem_only_trans; [exact Hmo|apply mem_only_mem]|].
  split_and!.
  - unfold space_ok. cbn [k_mem upd_k_mem].
    rewrite Hts2, (mapped_ext (k_mem s)) by (intros k' Hk'; rewrite Hent2, Hent by lia; done). fold rest.
    destruct Hown as (Hk1 & Hnd1 & Hall1). split; [|split; [exact Hnd1|exact Hall1]].
    eapply kmem_ok_write; [exact Hk1| |intros Hin|exact Hout2].
    + rewrite (mem_only_end _ _ Hmo). apply Hmg. inlist.
    + apply NoDup_app in Hnd1 as (_ & Hd & _). eapply Hd; [|exact Hin]. inlist.
  - exact Hts2.
  - eapply same_page_trans; [apply Hsame; inlist|exact Hpd2].
  - exact He2.
  - intros k' Hk' Hne. cbn. by rewrite Hent2, Hent.
  - intros p Hpm Hpt Hpf. eapply same_page_trans.
    + eapply same_page_other; [exact Hfm|exact Hpm|by intros ->|exact Hout].
    + eapply (same_page_other (k_end s)); [apply Hmg; apply elem_of_cons; right; exact Ht|exact Hpm| |exact Hout2].
      intros He. apply Hpt. by rewrite <- He.
Qed.

(** ** Freeing an address space *)

(** The virtual pages from [k] on that lie below [sz]. *)
Definition pages_below (k n sz : Z) : Prop :=
  0 <= n /\ forall j, k <= j -> (4096 * j < sz <-> j < k + n).

Lemma present_zero : present 0 = false.
Proof. done. Qed.

Lemma next_table k :
  0 <= k < UPAGES -> (PGADDR (PDX (4096 * k) + 1) 0 0 -u PGSIZE) +u PGSIZE = 4096 * (1024 * (k / 1024 + 1)).
Proof.
  change UPAGES with 524288. unfold PGSIZE. intros Hk. rewrite PDX_page by lia.
  rewrite PGADDR_spec by dlia. rewrite (u32_id (_ - 4096)) by dlia. rewrite u32_id by dlia. lia.
Qed.

(** What [deallocuvm] leaves of the memory it does not free. *)
Definition dealloc_frame (s s' : kstate) (pgdir k n : Z) : Prop :=
  tables (k_mem s') pgdir = tables (k_mem s) pgdir /\
  same_page (k_mem s) (k_mem s') pgdir /\
  (forall j, 0 <= j < 2 ^ 20 ->
     entry (k_mem s') pgdir j =
       if (k <=? j) && (j <? k + n) && present (entry (k_mem s) pgdir j) then 0 else entry (k_mem s) pgdir j) /\
  (forall p, Kalloc.managed (k_end s) p -> p ∉ tables (k_mem s) pgdir -> p ∉ mapped (k_mem s) pgdir k n ->
     same_page (k_mem s) (k_mem s') p).

Lemma dealloc_frame_refl s pgdir k : dealloc_frame s s pgdir k 0.
Proof.
  split_and!; [done|done| |done]. intros j Hj.
  destruct (Z.leb_spec k j), (Z.ltb_spec j (k + 0)); simpl; done || lia.
Qed.

Lemma elem_of_mapped m pgdir lo n f :
  f ∈ mapped m pgdir lo n <-> exists k, lo <= k < lo + n /\ present (entry m pgdir k) = true /\ f = frame (entry m pgdir k).
Proof.
  rewrite mapped_unfold, list_elem_of_omap. unfold frame_if. split.
  - intros (k & Hk & Hf). apply elem_of_seqZ in Hk. exists k. destruct (present _); [|done].
    by injection Hf as <-.
  - intros (k & Hk & Hp & ->). exists k. rewrite elem_of_seqZ, Hp. done.
Qed.

(** One page with nothing to free. *)
Lemma dealloc_frame_skip s s' pgdir k n j :
  0 <= j <= n -> 0 <= k -> k + n <= 2 ^ 20 ->
  (forall i, k <= i < k + j -> present (entry (k_mem s) pgdir i) = false) ->
  dealloc_frame s s' pgdir (k + j) (n - j) -> dealloc_frame s s' pgdir k n.
Proof.
  intros Hj Hk Hkn Hnp (H1 & H2 & H3 & H4). split_and!; [done|done| |].
  - intros i Hi. rewrite H3 by done.
    destruct (Z.leb_spec k i), (Z.ltb_spec i (k + n)), (Z.leb_spec (k + j) i), (Z.ltb_spec i (k + j + (n - j)));
      simpl; try lia; try done. by rewrite Hnp by lia.
  - intros p Hp Ht Hni. apply H4; [done..|]. rewrite elem_of_mapped in *.
    intros (i & Hi & Hpi & ->). apply Hni. exists i. split; [lia|done].
Qed.

Lemma dealloc_frame_free s s1 s' pgdir k n :
  0 < n -> 0 <= k -> k + n <= 2 ^ 20 -> k_end s1 = k_end s ->
  present (entry (k_mem s) pgdir k) = true ->
  tables (k_mem s1) pgdir = tables (k_mem s) pgdir -> same_page (k_mem s) (k_mem s1) pgdir ->
  entry (k_mem s1) pgdir k = 0 ->
  (forall k', 0 <= k' < 2 ^ 20 -> k' <> k -> entry (k_mem s1) pgdir k' = entry (k_mem s) pgdir k') ->
  (forall p, Kalloc.managed (k_end s) p -> p ∉ tables (k_mem s) pgdir -> p <> frame (entry (k_mem s) pgdir k) ->
       same_page (k_mem s) (k_mem s1) p) ->
  dealloc_frame s1 s' pgdir (k + 1) (n - 1) -> dealloc_frame s s' pgdir k n.
Proof.
  intros Hn Hk Hkn He Hp E1 E2 E3 E4 E5 (H1 & H2 & H3 & H4). split_and!.
  - by rewrite H1.
  - eapply same_page_trans; done.
  - intros j Hj. rewrite H3 by done. destruct (Z.eq_dec j k) as [->|Hne].
    + rewrite E3, present_zero, andb_false_r, Hp, andb_true_r.
      destruct (Z.leb_spec k k), (Z.ltb_spec k (k + n)); simpl; done || lia.
    + rewrite E4 by done.
      destruct (Z.leb_spec k j), (Z.leb_spec (k + 1) j), (Z.ltb_spec j (k + n)), (Z.ltb_spec j (k + 1 + (n - 1)));
        simpl; done || lia.
  - intros p Hpm Ht Hni. rewrite elem_of_mapped in Hni. eapply same_page_trans.
    + apply E5; [done|done|]. intros ->. apply Hni. exists k. split; [lia|done].
    + apply H4; [by rewrite He|by rewrite E1|]. rewrite elem_of_mapped. intros (i & Hi & Hpi & ->).
      rewrite E4 in Hpi by lia. apply Hni. exists i. rewrite E4 by lia. split; [lia|done].
Qed.

Lemma dealloc_loop_done fl k pgdir sz s :
  pages_below k 0 sz -> deallocuvm_loop fl pgdir (4096 * k) sz s = Ok tt s.
Proof.
  intros [_ Hb].
  assert (E : (4096 * k <? sz) = false)
    by (apply Z.ltb_ge, Z.nlt_ge; intros H; apply Hb in H; lia).
  destruct fl; cbn [deallocuvm_loop]; by rewrite E.
Qed.

Lemma space_ok_empty s pgdir k free :
  space_ok s pgdir k 0 free ->
  mem_only s s /\ owns s (pgdir :: tables (k_mem s) pgdir) (rev (mapped (k_mem s) pgdir k 0) ++ free) /\
  dealloc_frame s s pgdir k 0.
Proof.
  intros Hsp. split; [apply mem_only_refl|]. split; [|apply dealloc_frame_refl].
  unfold space_ok in Hsp. rewrite mapped_unfold in *. change (seqZ k 0) with (@nil Z) in *. by rewrite app_nil_r in Hsp.
Qed.

Lemma pages_below_skip k n j sz :
  0 <= j <= n -> pages_below k n sz -> pages_below (k + j) (n - j) sz.
Proof. intros Hj [Hn H]. split; [lia|]. intros i Hi. rewrite H by lia. lia. Qed.

Lemma pages_below_past k n k' sz :
  k + n <= k' -> 0 <= n -> k <= k' -> pages_below k n sz -> pages_below k' 0 sz.
Proof. intros Hk Hn Hkk [_ H]. split; [lia|]. intros i Hi. rewrite H by lia. lia. Qed.

Lemma space_ok_hole s pgdir k n j free :
  0 <= j <= n -> (forall i, k <= i < k + j -> present (pde (k_mem s) pgdir (i / 1024)) = false) ->
  space_ok s pgdir k n free -> space_ok s pgdir (k + j) (n - j) free.
Proof. intros Hj Hp. unfold space_ok. by rewrite (mapped_hole _ _ k n j). Qed.

Lemma dealloc_loop_ok fl : forall n k pgdir sz s free,
  space_ok s pgdir k n free -> Kalloc.kmem_free s -> 0 <= k -> k + n <= UPAGES ->
  pages_below k n sz -> (Z.to_nat n <= fl)%nat ->
  exists s', deallocuvm_loop fl pgdir (4096 * k) sz s = Ok tt s' /\ mem_only s s' /\
    owns s' (pgdir :: tables (k_mem s) pgdir) (rev (mapped (k_mem s) pgdir k n) ++ free) /\
    dealloc_frame s s' pgdir k n.
Proof.
  induction fl as [|fl IH]; intros n k pgdir sz s free Hsp Hf Hk Hkn Hb Hfl.
  all: assert (HU : UPAGES = 524288) by done.
  all: destruct (Z.eq_dec n 0) as [->|Hn0];
    [exists s; split; [by apply dealloc_loop_done|by apply space_ok_empty]|].
  all: pose proof Hb as [Hb0 Hb1].
  1: lia.
  assert (Hlt : 4096 * k < sz) by (apply Hb1; lia).
  cbn [deallocuvm_loop]. replace (4096 * k <? sz) with true by (symmetry; by apply Z.ltb_lt).
  assert (Hd : Kalloc.managed (k_end s) pgdir) by (eapply owns_managed; [exact Hsp|inlist]).
  destruct (walk_noalloc s pgdir k Hd ltac:(lia)) as [Hw Hs0].
  { intros Hp. eapply owns_managed; [exact Hsp|]. pose proof (table_of _ _ k ltac:(lia) Hp). inlist. }
  rewrite (kbind_ok _ _ _ _ _ Hw).
  destruct (present (pde (k_mem s) pgdir (k / 1024))) eqn:Hpd.
  - destruct (Z.eqb_spec (slot (k_mem s) pgdir k) 0) as [E|_]; [by apply Hs0 in E|].
    rewrite (kbind_ok _ _ _ _ _ (ldw_ok _ s)). rewrite <- entry_slot by done.
    replace (4096 * k +u PGSIZE) with (4096 * (k + 1)) by (unfold PGSIZE; rewrite u32_id by lia; lia).
    destruct (present (entry (k_mem s) pgdir k)) eqn:Hpe; unfold kwhen.
    + assert (Hf0 : Kalloc.managed (k_end s) (frame (entry (k_mem s) pgdir k))).
      { eapply owns_managed; [exact Hsp|]. rewrite elem_of_cons, elem_of_app, elem_of_mapped.
        right. right. exists k. split; [lia|done]. }
      destruct (Z.eqb_spec (PTE_ADDR (entry (k_mem s) pgdir k)) 0) as [E|_].
      { destruct Hf0 as (_ & H1 & _). unfold frame in H1. rewrite E in H1.
        change (P2V 0) with KERNBASE in H1. lia. }
      fold (frame (entry (k_mem s) pgdir k)).
      destruct (free_entry s pgdir k n free Hsp Hf Hk ltac:(lia) ltac:(lia) Hpd Hpe)
        as (s1 & Hrun & Hmo & Hsp1 & E1 & E2 & E3 & E4 & E5).
      rewrite (kbind_ok _ _ _ _ _ Hrun).
      destruct (IH (n - 1) (k + 1) pgdir sz s1 _ Hsp1) as (s' & Hr & Hmo' & Hown & Hfr);
        [by eapply mem_only_free|lia|lia|by apply pages_below_skip; [lia|]|lia|].
      exists s'. split; [exact Hr|]. split; [by eapply mem_only_trans|]. split.
      * rewrite mapped_cons by lia. unfold frame_if. rewrite Hpe. cbn [app rev].
        rewrite <- app_assoc. cbn [app]. rewrite E1 in Hown.
        rewrite (mapped_ext (k_mem s)) in Hown; [exact Hown|]. intros i Hi. apply E4; lia.
      * apply (dealloc_frame_free s s1); [lia|lia|lia|by apply mem_only_end|done..].
    + rewrite (kbind_ok (kret tt) _ s tt s eq_refl).
      assert (Hm : mapped (k_mem s) pgdir k n = mapped (k_mem s) pgdir (k + 1) (n - 1))
        by (rewrite mapped_cons by lia; unfold frame_if; by rewrite Hpe).
      destruct (IH (n - 1) (k + 1) pgdir sz s free) as (s' & Hr & Hmo & Hown & Hfr);
        [unfold space_ok; by rewrite <- Hm|done|lia|lia|by apply pages_below_skip; [lia|]|lia|].
      exists s'. rewrite Hm. split; [exact Hr|]. split; [done|]. split; [done|].
      apply (dealloc_frame_skip s s' pgdir k n 1); try lia; [|done].
      intros i Hi. by replace i with k by lia.
  - rewrite Z.eqb_refl, next_table by lia.
    set (k' := 1024 * (k / 1024 + 1)).
    assert (Hk' : k < k' <= k + 1024) by (unfold k'; dlia).
    assert (Hhole : forall i, k <= i < k' -> present (pde (k_mem s) pgdir (i / 1024)) = false).
    { intros i Hi. replace (i / 1024) with (k / 1024); [done|]. unfold k' in Hi. dlia. }
    assert (Hent : forall i, k <= i < k' -> present (entry (k_mem s) pgdir i) = false).
    { intros i Hi. unfold entry. rewrite Hhole by done. done. }
    set (j := Z.min n (k' - k)).
    assert (Hspj : space_ok s pgdir (k + j) (n - j) free)
      by (apply space_ok_hole; [lia| |done]; intros i Hi; apply Hhole; lia).
    assert (Hmj : mapped (k_mem s) pgdir k n = mapped (k_mem s) pgdir (k + j) (n - j))
      by (apply mapped_hole; [lia|]; intros i Hi; apply Hhole; lia).
    rewrite Hmj.
    assert (exists s', deallocuvm_loop fl pgdir (4096 * k') sz s = Ok tt s' /\ mem_only s s' /\
      owns s' (pgdir :: tables (k_mem s) pgdir) (rev (mapped (k_mem s) pgdir (k + j) (n - j)) ++ free) /\
      dealloc_frame s s' pgdir (k + j) (n - j)) as (s' & Hr & Hmo & Hown & Hfr).
    { destruct (Z.le_gt_cases (k' - k) n).
      - replace k' with (k + j) by lia.
        apply IH; [done|done|lia|lia|by apply pages_below_skip; [lia|]|lia].
      - replace (n - j) with 0 in * by lia.
        exists s. split; [|by apply space_ok_empty].
        apply dealloc_loop_done. eapply (pages_below_past k n); done || lia. }
    exists s'. split; [exact Hr|]. split; [done|]. split; [done|].
    apply (dealloc_frame_skip s s' pgdir k n j); try lia; [|done]. intros i Hi. apply Hent. lia.
Qed.

(** [deallocuvm] on sizes of user memory. *)
Lemma deallocuvm_run s pgdir oldsz newsz k n free :
  space_ok s pgdir k n free -> Kalloc.kmem_free s ->
  0 <= newsz < oldsz -> oldsz <= KERNBASE ->
  k = (newsz + 4095) / 4096 -> n = (oldsz + 4095) / 4096 - k ->
  exists s', deallocuvm pgdir oldsz newsz s = Ok newsz s' /\ mem_only s s' /\
    owns s' (pgdir :: tables (k_mem s) pgdir) (rev (mapped (k_mem s) pgdir k n) ++ free) /\
    dealloc_frame s s' pgdir k n.
Proof.
  intros Hsp Hf Hsz Hold -> ->. unfold deallocuvm, KERNBASE in *.
  assert (HU : UPAGES = 524288) by done.
  replace (oldsz <=? newsz) with false by (symmetry; apply Z.leb_gt; lia).
  rewrite PGROUNDUP_spec, (Z.mul_comm _ 4096) by lia.
  destruct (dealloc_loop_ok (Z.to_nat (oldsz / PGSIZE + 1)) _ _ _ oldsz _ _ Hsp Hf)
    as (s' & Hr & H); [dlia|rewrite HU; dlia| |unfold PGSIZE; apply Z2Nat.inj_le; dlia|].
  - split; [dlia|]. intros j Hj. dlia.
  - exists s'. rewrite (kbind_ok _ _ _ _ _ Hr). done.
Qed.

(** The body of [freevm]'s loop over the directory. *)
Definition free_pde (pgdir i : Z) : K unit :=
  e <- ldw (pgdir +u 4 * i);
  kwhen (present e) (let v := P2V (PTE_ADDR e) in Kalloc.kfree v).

Definition tables_at (m : mem) (pgdir : Z) (l : list Z) : list Z :=
  omap (fun i => frame_if (pde m pgdir i)) l.

(** Pages other than [pages] are as they were. *)
Definition same_outside (s s' : kstate) (pages : list Z) : Prop :=
  forall p, Kalloc.managed (k_end s) p -> p ∉ pages -> same_page (k_mem s) (k_mem s') p.

Lemma same_outside_1 s s' f :
  Kalloc.managed (k_end s) f ->
  (forall a, a < f \/ f + PGSIZE <= a -> load8 (k_mem s') a = load8 (k_mem s) a) -> same_outside s s' [f].
Proof.
  intros Hf Hout p Hp Hn. apply (same_page_other (k_end s) _ _ f); [done|done| |done]. intros ->. apply Hn. inlist.
Qed.

Lemma same_outside_trans s1 s2 s3 l1 l2 :
  mem_only s1 s2 -> same_outside s1 s2 l1 -> same_outside s2 s3 l2 -> same_outside s1 s3 (l1 ++ l2).
Proof.
  intros Hm H1 H2 p Hp Hn. eapply same_page_trans.
  - apply H1; [done|]. intros H. apply Hn. inlist.
  - apply H2; [by rewrite (mem_only_end _ _ Hm)|]. intros H. apply Hn. inlist.
Qed.

Lemma free_pde_ok s pgdir i l free :
  (forall j, j ∈ i :: l -> 0 <= j < 1024) ->
  owns s (pgdir :: tables_at (k_mem s) pgdir (i :: l)) free -> Kalloc.kmem_free s ->
  exists s1, free_pde pgdir i s = Ok tt s1 /\ mem_only s s1 /\
    owns s1 (pgdir :: tables_at (k_mem s) pgdir l)
      (rev (tables_at (k_mem s) pgdir [i]) ++ free) /\
    tables_at (k_mem s1) pgdir l = tables_at (k_mem s) pgdir l /\
    same_outside s s1 (tables_at (k_mem s) pgdir [i]).
Proof.
  intros Hl Hown Hf. assert (Hd : Kalloc.managed (k_end s) pgdir) by (eapply owns_managed; [exact Hown|inlist]).
  assert (Hi : 0 <= i < 1024) by (apply Hl; inlist).
  unfold free_pde. rewrite (proj1 (managed_word _ _ i Hd Hi)), (kbind_ok _ _ _ _ _ (ldw_ok _ s)).
  fold (pde (k_mem s) pgdir i). unfold tables_at in *. cbn [omap list_omap] in *.
  assert (Ef : frame_if (pde (k_mem s) pgdir i) =
    if present (pde (k_mem s) pgdir i) then Some (frame (pde (k_mem s) pgdir i)) else None) by done.
  rewrite Ef in *. clear Ef. destruct (present (pde (k_mem s) pgdir i)) eqn:Hp; unfold kwhen.
  - fold (frame (pde (k_mem s) pgdir i)). set (f := frame (pde (k_mem s) pgdir i)) in *.
    assert (Hown' : owns s (f :: pgdir :: omap (fun i => frame_if (pde (k_mem s) pgdir i)) l) free)
      by (eapply owns_proper; [apply perm_swap|done|exact Hown]).
    destruct (kfree_owned _ _ _ _ Hown' Hf) as (s1 & Hr & Hmo & Hown1 & Hout).
    assert (Hfm : Kalloc.managed (k_end s) f) by (eapply owns_managed; [exact Hown'|inlist]).
    exists s1. split; [exact Hr|]. split; [done|]. split; [exact Hown1|]. split; [|by apply same_outside_1].
    apply omap_ext_in. intros j Hj. rewrite (pde_same (k_mem s)); [done| |apply Hl; inlist].
    apply (same_page_other (k_end s) _ _ f); [done|done| |done].
    intros E. destruct Hown' as (_ & Hnd & _). apply NoDup_cons in Hnd as [Hnd _]. apply Hnd. rewrite E. inlist.
  - exists s. split; [done|]. split; [apply mem_only_refl|]. split; [done|]. split; [done|]. by intros p _ _.
Qed.

Lemma free_tables pgdir l : forall s free,
  (forall i, i ∈ l -> 0 <= i < 1024) -> owns s (pgdir :: tables_at (k_mem s) pgdir l) free -> Kalloc.kmem_free s ->
  exists s', kiter l (free_pde pgdir) s = Ok tt s' /\ mem_only s s' /\
    owns s' [pgdir] (rev (tables_at (k_mem s) pgdir l) ++ free) /\
    same_outside s s' (tables_at (k_mem s) pgdir l).
Proof.
  induction l as [|i l IH]; intros s free Hl Hown Hf.
  { exists s. split; [done|]. split; [apply mem_only_refl|]. split; [done|]. by intros p _ _. }
  destruct (free_pde_ok s pgdir i l free Hl Hown Hf) as (s1 & Hr & Hmo & Hown1 & E & Hs1).
  cbn [kiter]. rewrite (kbind_ok _ _ _ _ _ Hr).
  destruct (IH s1 (rev (tables_at (k_mem s) pgdir [i]) ++ free)) as (s' & Hr' & Hmo' & Hown' & Hs');
    [intros j Hj; apply Hl; inlist|by rewrite E|by eapply mem_only_free|].
  exists s'. split; [done|]. split; [by eapply mem_only_trans|]. rewrite E in Hown', Hs'.
  replace (tables_at (k_mem s) pgdir (i :: l)) with (tables_at (k_mem s) pgdir [i] ++ tables_at (k_mem s) pgdir l)
    by (unfold tables_at; cbn [omap list_omap]; by destruct (frame_if _)).
  rewrite rev_app_distr, <- app_assoc. split; [done|]. by eapply same_outside_trans.
Qed.

Lemma freevm_ok s pgdir free :
  space_ok s pgdir 0 UPAGES free -> Kalloc.kmem_free s ->
  exists s', freevm pgdir s = Ok tt s' /\ mem_only s s' /\
    Kalloc.kmem_ok s' (pgdir :: rev (tables (k_mem s) pgdir) ++ rev (mapped (k_mem s) pgdir 0 UPAGES) ++ free) /\
    same_outside s s' (pgdir :: tables (k_mem s) pgdir ++ mapped (k_mem s) pgdir 0 UPAGES).
Proof.
  intros Hsp Hf. unfold freevm.
  assert (Hd : Kalloc.managed (k_end s) pgdir) by (eapply owns_managed; [exact Hsp|inlist]).
  destruct (managed_word _ _ 0 Hd ltac:(lia)) as [_ Hnz]. rewrite Z.mul_0_r, Z.add_0_r in Hnz.
  destruct (Z.eqb_spec pgdir 0) as [E|_]; [done|].
  destruct (deallocuvm_run s pgdir KERNBASE 0 0 UPAGES free Hsp Hf) as (s1 & Hr1 & Hm1 & Ho1 & (Ht & Hs & _ & Hs1));
    [unfold KERNBASE; lia|done|done|done|].
  rewrite (kbind_ok _ _ _ _ _ Hr1). set (l := seqZ 0 NPDENTRIES).
  assert (E1 : tables_at (k_mem s1) pgdir l = tables (k_mem s) pgdir) by (rewrite <- Ht; symmetry; apply tables_unfold).
  destruct (free_tables pgdir l s1 (rev (mapped (k_mem s) pgdir 0 UPAGES) ++ free)) as (s2 & Hr2 & Hm2 & Ho2 & Hs2);
    [intros i; apply elem_of_dir|by rewrite E1|by eapply mem_only_free|]. rewrite E1 in Ho2, Hs2.
  erewrite kbind_ok by exact Hr2.
  destruct (kfree_owned s2 pgdir [] _ Ho2) as (s3 & Hr3 & Hm3 & Ho3 & Hs3);
    [eapply mem_only_free; [exact Hm2|by eapply mem_only_free]|].
  exists s3. split; [exact Hr3|].
  split; [eapply mem_only_trans; [exact Hm1|by eapply mem_only_trans]|]. split; [by destruct Ho3 as (? & _ & _)|].
  apply same_outside_1 in Hs3; [|eapply owns_managed; [exact Ho2|inlist]].
  assert (Hs1' : same_outside s s1 (tables (k_mem s) pgdir ++ mapped (k_mem s) pgdir 0 UPAGES))
    by (intros p Hp Hn; apply Hs1; [done|intros H; apply Hn; inlist..]).
  pose proof (same_outside_trans _ _ _ _ _ Hm2 Hs2 Hs3) as H23.
  pose proof (same_outside_trans _ _ _ _ _ Hm1 Hs1' H23) as H. intros p Hp Hn. apply H; [done|]. intros Hin. apply Hn.
  rewrite !elem_of_app, list_elem_of_singleton in Hin. inlist.
Qed.

Lemma length_freed {A} (p : A) t u f :
  Z.of_nat (length (p :: rev t ++ rev u ++ f)) =
  1 + Z.of_nat (length t) + Z.of_nat (length u) + Z.of_nat (length f).
Proof. cbn [length]. rewrite !length_app, !length_rev. lia. Qed.

(** C17: [freevm] gives back every page of an address space, once: the user pages, the page
    tables and the directory, and touches nothing but these pages and the free list; [freemem]
    grows by exactly their size. *)
Theorem freevm_frees_all (s : kstate) (pgdir : Z) (free : list Z)
    (Hsp : space_ok s pgdir 0 UPAGES free) (Hf : Kalloc.kmem_free s) :
  exists s', freevm pgdir s = Ok tt s' /\ mem_only s s' /\
    Kalloc.kmem_ok s' (pgdir :: rev (tables (k_mem s) pgdir) ++ rev (mapped (k_mem s) pgdir 0 UPAGES) ++ free) /\
    same_outside s s' (pgdir :: tables (k_mem s) pgdir ++ mapped (k_mem s) pgdir 0 UPAGES) /\
    Kalloc.freemem s = Ok (4096 * Z.of_nat (length free)) s /\
    Kalloc.freemem s' = Ok (4096 * (1 + Z.of_nat (length (tables (k_mem s) pgdir)) +
      Z.of_nat (length (mapped (k_mem s) pgdir 0 UPAGES)) + Z.of_nat (length free))) s'.
Proof.
  destruct (freevm_ok s pgdir free Hsp Hf) as (s' & Hr & Hm & Hk & Hs). exists s'.
  split; [done|]. split; [done|]. split; [done|]. split; [done|]. split.
  - apply (Kalloc.freemem_ok s free); [by destruct Hsp|done].
  - rewrite <- (length_freed pgdir). by apply Kalloc.freemem_ok; [|eapply mem_only_free].
Qed.

(** ** A small address space *)

(** Six pages at the top of memory. The first two are free; of the others one is a directory with
    one table and two are pages of user memory. *)
Definition top_pages : list Z := (fun i => Kalloc.top_page - PGSIZE * i) <$> seqZ 0 6.
Definition small_pgdir : Z := Kalloc.top_page - PGSIZE * 5.
Definition user_pte (p : Z) : Z := V2P p .| PTE_W .| PTE_U .| PTE_P.
Definition small : kstate :=
  upd_k_freelist (fun _ => small_pgdir + 16384) (
  upd_k_mem (fun m =>
    foldr (fun '(a, v) m => store32 m a v) m
      [(small_pgdir, user_pte (small_pgdir + 8192));
       (small_pgdir + 8192, user_pte (small_pgdir + 4096));
       (small_pgdir + 8196, user_pte (small_pgdir + 12288));
       (small_pgdir + 16384, small_pgdir + 20480)])
  (boot (Kalloc.top_page - PGSIZE * 6) KERNLINK)).

(** An address space with tables for its first [t] directory entries only. *)
Lemma mapped_low m pgdir t :
  0 <= t <= 512 -> forallb (fun i => negb (present (pde m pgdir i))) (seqZ t (512 - t)) = true ->
  mapped m pgdir 0 UPAGES = mapped m pgdir 0 (1024 * t).
Proof.
  intros Ht Hp. rewrite (mapped_unfold m pgdir 0 UPAGES).
  replace (seqZ 0 UPAGES) with (seqZ 0 (1024 * t) ++ seqZ (1024 * t) (524288 - 1024 * t))
    by (rewrite <- seqZ_app by lia; f_equal; change UPAGES with 524288; lia).
  rewrite omap_app, <- !mapped_unfold.
  rewrite (mapped_hole m pgdir (1024 * t) (524288 - 1024 * t) (524288 - 1024 * t)); [|lia|].
  - rewrite Z.sub_diag. rewrite (mapped_unfold m pgdir _ 0). apply app_nil_r.
  - intros k Hk. rewrite forallb_forall in Hp.
    assert (Hk' : t <= k / 1024 < 512)
      by (split; [apply Z.div_le_lower_bound; lia|apply Z.div_lt_upper_bound; lia]).
    assert (Hin : In (k / 1024) (seqZ t (512 - t))) by (rewrite <- list_elem_of_In, elem_of_seqZ; lia).
    apply Hp in Hin. by destruct (present _).
Qed.

(** The pages of the small address space. *)
Lemma small_pages : small_pgdir :: tables (k_mem small) small_pgdir ++ mapped (k_mem small) small_pgdir 0 (1024 * 1) =
  [small_pgdir; small_pgdir + 8192; small_pgdir + 4096; small_pgdir + 12288].
Proof. rewrite tables_unfold, mapped_unfold. by vm_compute. Qed.

Lemma small_ok : space_ok small small_pgdir 0 UPAGES (rev (take 2 top_pages)) /\ Kalloc.kmem_free small.
Proof.
  split; [|by vm_compute]. unfold space_ok. rewrite (mapped_low (k_mem small) small_pgdir 1); [|lia|by vm_compute].
  rewrite small_pages. split_and!; [split_and!| |].
  - vm_compute. repeat split; discriminate.
  - by_decide.
  - repeat (apply Forall_cons_2; [split_and!; by vm_compute|]). apply Forall_nil_2.
  - by_decide.
  - repeat (apply Forall_cons_2; [split_and!; by vm_compute|]). apply Forall_nil_2.
Qed.

Lemma freevm_frees_all_witness : exists s', freevm small_pgdir small = Ok tt s' /\ mem_only small s'.
Proof.
  destruct (freevm_frees_all small small_pgdir (rev (take 2 top_pages)) (proj1 small_ok) (proj2 small_ok))
    as (s' & H & H2 & _).
  exists s'. split; [exact H|exact H2].
Defined.

(** ** Parts of an address space *)

Lemma mapped_app m pgdir lo n1 n2 :
  0 <= n1 -> 0 <= n2 -> mapped m pgdir lo (n1 + n2) = mapped m pgdir lo n1 ++ mapped m pgdir (lo + n1) n2.
Proof. intros H1 H2. rewrite !mapped_unfold. by rewrite seqZ_app, omap_app by lia. Qed.

Lemma owns_weaken s p1 p2 p3 free : owns s (p1 ++ p2 ++ p3) free -> owns s (p1 ++ p3) free.
Proof.
  intros (Hk & Hnd & Hall). split; [done|]. split.
  - rewrite (Permutation_app_comm p1), <- app_assoc, <- app_assoc in Hnd.
    apply NoDup_app in Hnd as (_ & _ & Hnd). rewrite app_assoc in Hnd.
    by rewrite (Permutation_app_comm p1 p3).
  - rewrite !Forall_app in *. tauto.
Qed.

Lemma space_ok_sub s pgdir lo n lo' n' free :
  lo <= lo' -> 0 <= n' -> lo' + n' <= lo + n -> space_ok s pgdir lo n free -> space_ok s pgdir lo' n' free.
Proof.
  intros H1 H2 H3. unfold space_ok. set (ts := pgdir :: tables (k_mem s) pgdir).
  rewrite !app_comm_cons. fold ts.
  replace n with ((lo' - lo) + (n' + (lo + n - (lo' + n')))) by lia.
  rewrite !mapped_app by lia. replace (lo + (lo' - lo)) with lo' by lia.
  intros H. apply owns_weaken in H. rewrite <- (app_nil_r (ts ++ mapped (k_mem s) pgdir lo' n')).
  apply (owns_weaken s (ts ++ mapped (k_mem s) pgdir lo' n') (mapped (k_mem s) pgdir (lo' + n') (lo + n - (lo' + n'))) []).
  by rewrite app_nil_r, <- app_assoc.
Qed.

(** [deallocuvm] to a smaller size frees exactly the pages that lie wholly above it and
    clears their entries; the other entries, the page tables and the contents of every other
    page stay as they are. *)
Theorem deallocuvm_frees (s : kstate) (pgdir oldsz newsz k n : Z) (free : list Z)
    (Hsp : space_ok s pgdir 0 UPAGES free) (Hf : Kalloc.kmem_free s)
    (Hnew : 0 <= newsz < oldsz) (Hold : oldsz <= KERNBASE)
    (Hk : k = (newsz + 4095) / 4096) (Hn : n = (oldsz + 4095) / 4096 - k) :
  exists s', deallocuvm pgdir oldsz newsz s = Ok newsz s' /\ mem_only s s' /\
    Kalloc.kmem_ok s' (rev (mapped (k_mem s) pgdir k n) ++ free) /\
    tables (k_mem s') pgdir = tables (k_mem s) pgdir /\
    (forall j, 0 <= j < 2 ^ 20 ->
       entry (k_mem s') pgdir j =
         if (k <=? j) && (j <? k + n) && present (entry (k_mem s) pgdir j) then 0 else entry (k_mem s) pgdir j) /\
    (forall p, Kalloc.managed (k_end s) p -> p ∉ tables (k_mem s) pgdir ->
       p ∉ mapped (k_mem s) pgdir k n -> same_page (k_mem s) (k_mem s') p).
Proof.
  assert (HU : UPAGES = 524288) by done. unfold KERNBASE in Hold.
  destruct (deallocuvm_run s pgdir oldsz newsz k n free) as (s' & Hr & Hm & Ho & (H1 & _ & H3 & H4)); try done.
  { apply (space_ok_sub s pgdir 0 UPAGES); [| | |done]; subst; dlia. }
  exists s'. destruct Ho as (Ho & _ & _). done.
Qed.

Lemma deallocuvm_frees_witness :
  exists s', deallocuvm small_pgdir 5000 10 small = Ok 10 s' /\ mem_only small s'.
Proof.
  destruct (deallocuvm_frees small small_pgdir 5000 10 1 1 (rev (take 2 top_pages))
    (proj1 small_ok) (proj2 small_ok)) as (s' & H & H2 & _); [lia|unfold KERNBASE; lia|reflexivity|reflexivity|].
  exists s'. split; [exact H|exact H2].
Defined.

Lemma mapped_none m pgdir lo n :
  (forall k, lo <= k < lo + n -> present (entry m pgdir k) = false) -> mapped m pgdir lo n = [].
Proof.
  intros H. rewrite mapped_unfold. erewrite omap_ext_in with (g := fun _ => None).
  - by induction (seqZ lo n).
  - intros k Hk. apply elem_of_seqZ in Hk. unfold frame_if. by rewrite H.
Qed.

(** All the pages of an address space. *)
Definition space_pages (m : mem) (pgdir : Z) : list Z :=
  pgdir :: tables m pgdir ++ mapped m pgdir 0 UPAGES.

(** An address space depends on its directory and tables only. *)
Lemma space_same m m' pgdir :
  (forall q, q ∈ pgdir :: tables m pgdir -> same_page m m' q) ->
  tables m' pgdir = tables m pgdir /\ space_pages m' pgdir = space_pages m pgdir /\
  forall j, 0 <= j < 2 ^ 20 -> entry m' pgdir j = entry m pgdir j.
Proof.
  intros H. assert (Ht : tables m' pgdir = tables m pgdir) by (apply tables_same, H; inlist).
  assert (He : forall j, 0 <= j < 2 ^ 20 -> entry m' pgdir j = entry m pgdir j).
  { intros j Hj. apply entry_same; [done|apply H; inlist|]. intros Hp. apply H. pose proof (table_of _ _ j Hj Hp). inlist. }
  split; [done|]. split; [|done]. unfold space_pages. rewrite Ht. do 2 f_equal. apply mapped_ext.
  change UPAGES with 524288. intros j Hj. apply He. lia.
Qed.

(** The owner of an address space and of [spare] pages can shrink it. No page is lost. *)
Lemma dealloc_spare s pgdir oldsz newsz k n spare free :
  owns s (space_pages (k_mem s) pgdir ++ spare) free -> Kalloc.kmem_free s ->
  0 <= newsz < oldsz -> oldsz <= KERNBASE ->
  k = (newsz + 4095) / 4096 -> n = (oldsz + 4095) / 4096 - k ->
  exists s' free', deallocuvm pgdir oldsz newsz s = Ok newsz s' /\ mem_only s s' /\
    owns s' (space_pages (k_mem s') pgdir ++ spare) free' /\
    space_pages (k_mem s') pgdir ++ free' ≡ₚ space_pages (k_mem s) pgdir ++ free /\
    dealloc_frame s s' pgdir k n.
Proof.
  intros Hown Hf Hsz Hold Hk Hn. assert (HU : UPAGES = 524288) by done. unfold KERNBASE in Hold.
  assert (Hkn : 0 <= k /\ 0 <= n /\ k + n <= UPAGES) by (rewrite HU; subst; split_and!; dlia).
  destruct Hkn as (Hk0 & Hn0 & Hkn). set (m := k_mem s) in *.
  set (A := mapped m pgdir 0 k). set (B := mapped m pgdir k n). set (D := mapped m pgdir (k + n) (UPAGES - (k + n))).
  assert (Emap : mapped m pgdir 0 UPAGES = A ++ B ++ D).
  { replace UPAGES with (k + (n + (UPAGES - (k + n)))) by lia. rewrite !mapped_app by lia.
    rewrite Z.add_0_l. unfold A, B, D. do 2 f_equal. }
  assert (Hsp : space_ok s pgdir k n free).
  { apply (space_ok_sub s pgdir 0 UPAGES); [lia..|].
    rewrite <- (app_nil_r (space_pages m pgdir ++ spare)), <- app_assoc in Hown.
    apply owns_weaken in Hown. by rewrite app_nil_r in Hown. }
  destruct (deallocuvm_run s pgdir oldsz newsz k n free Hsp Hf Hsz Hold Hk Hn) as (s' & Hr & Hm & Ho & Hfr).
  fold m in Ho. exists s', (rev B ++ free). split; [done|]. split; [done|].
  pose proof Hfr as (H1 & _ & H3 & _). fold m in H1, H3.
  assert (Hext : forall j, 0 <= j < UPAGES -> ~ (k <= j < k + n) -> entry (k_mem s') pgdir j = entry m pgdir j).
  { intros j Hj Hnot. rewrite H3 by lia.
    destruct (Z.leb_spec k j), (Z.ltb_spec j (k + n)); simpl; done || lia. }
  assert (Emap' : mapped (k_mem s') pgdir 0 UPAGES = A ++ D).
  { replace UPAGES with (k + (n + (UPAGES - (k + n)))) at 1 by lia. rewrite !mapped_app by lia. rewrite Z.add_0_l.
    rewrite (mapped_none (k_mem s') pgdir k n), app_nil_l.
    - unfold A, D. f_equal; apply mapped_ext; intros j Hj; apply Hext; lia.
    - intros j Hj. rewrite H3 by lia.
      destruct (Z.leb_spec k j), (Z.ltb_spec j (k + n)); try lia. simpl.
      by destruct (present (entry m pgdir j)) eqn:E. }
  assert (Hperm : space_pages (k_mem s') pgdir ++ (rev B ++ free) ≡ₚ space_pages m pgdir ++ free).
  { unfold space_pages. rewrite H1, Emap, Emap'. generalize (tables m pgdir). intros T.
    rewrite <- (Permutation_rev B). cbn [app]. constructor. rewrite <- !app_assoc. do 2 f_equiv.
    rewrite !app_assoc. f_equiv. apply Permutation_app_comm. }
  split; [|split; [exact Hperm|exact Hfr]].
  destruct Ho as (Ho & _ & _). destruct Hown as (_ & Hnd & Hall). split; [done|]. split.
  - rewrite <- app_assoc, (Permutation_app_comm spare), app_assoc, Hperm.
    by rewrite <- app_assoc, (Permutation_app_comm spare), app_assoc in Hnd.
  - rewrite (mem_only_end _ _ Hm). unfold space_pages in *. rewrite H1, Emap'. rewrite Emap in Hall.
    cbn [app] in *. rewrite Forall_cons, !Forall_app in *. tauto.
Qed.
