(* ===== verification/Mapping.v ===== *)
(** * Mapping pages: [walkpgdir] and [mappages] (vm.c)

    What adding mappings does to an address space: new page tables come from the free list,
    the entries asked for appear, and no other entry or page changes. *)

From S2P Require Import Prelude Mem StringC Kernel Mmu Kalloc Sched Bio Layout Log Printf Cons Fs Vm Space.

(** ** Making entries *)

Lemma pte_make pa perm :
  pa mod 4096 = 0 -> 0 <= pa < 2 ^ 32 -> 0 <= perm < 4096 ->
  let e := pa .| perm .| PTE_P in
  0 <= e < 2 ^ 32 /\ PTE_ADDR e = pa /\ PTE_FLAGS e = perm .| PTE_P /\ present e = true.
Proof.
  intros Ha Hpa Hp e. set (f := perm .| PTE_P).
  assert (Hf : 0 <= f < 4096).
  { unfold f, PTE_P. split; [apply Z.lor_nonneg; lia|].
    destruct (Z.eq_dec (Z.lor perm 1) 0) as [->|]; [lia|].
    apply (Z.log2_lt_pow2 _ 12); [pose proof (Z.lor_nonneg perm 1); lia|].
    rewrite Z.log2_lor by lia. apply Z.max_lub_lt; [|done].
    destruct (Z.eq_dec perm 0) as [->|]; [done|]. apply Z.log2_lt_pow2; lia. }
  assert (E : e = f + pa).
  { unfold e. rewrite <- Z.lor_assoc, Z.lor_comm. fold f.
    replace pa with (Z.shiftl (pa / 4096) 12) at 1 by (rewrite Z.shiftl_mul_pow2 by lia; dlia).
    rewrite lor_shiftl_add by lia. dlia. }
  assert (He : 0 <= e < 2 ^ 32) by dlia.
  split_and!; [lia|lia| | |].
  - rewrite PTE_ADDR_spec by done. dlia.
  - rewrite PTE_FLAGS_spec. dlia.
  - unfold present, e, PTE_P. replace (Z.land _ 1) with 1; [done|]. symmetry.
    change 1 with (Z.ones 1). apply Z.bits_inj'. intros i Hi. rewrite Z.land_spec, Z.lor_spec.
    destruct (Z.testbit (Z.ones 1) i); by rewrite ?orb_true_r, ?andb_false_r.
Qed.

Lemma V2P_managed e p : Kalloc.managed e p -> V2P p = p - KERNBASE /\ V2P p mod 4096 = 0 /\ P2V (V2P p) = p.
Proof.
  intros H. destruct (Kalloc.managed_range e p H) as (H1 & H2 & _). destruct H as (H & _).
  unfold V2P, P2V, KERNBASE, PHYSTOP, PGSIZE in *. rewrite (u32_id (p - _)) by lia.
  split_and!; [done|dlia|]. rewrite u32_id by lia. lia.
Qed.

(** An entry made for page [p]. *)
Lemma frame_make e p perm :
  Kalloc.managed e p -> 0 <= perm < 4096 ->
  frame (V2P p .| perm .| PTE_P) = p /\ present (V2P p .| perm .| PTE_P) = true /\
  0 <= V2P p .| perm .| PTE_P < 2 ^ 32.
Proof.
  intros Hp Hperm. destruct (V2P_managed e p Hp) as (H1 & H2 & H3).
  destruct (pte_make (V2P p) perm H2) as (Hr & Ha & _ & Hpr); [unfold V2P; apply u32_range|done|].
  unfold frame. by rewrite Ha.
Qed.

(** ** Lists of tables with one more *)

Lemma omap_add {A B} (f g : A -> option B) (l : list A) i z :
  NoDup l -> i ∈ l -> f i = None -> g i = Some z -> (forall j, j ∈ l -> j <> i -> g j = f j) ->
  omap g l ≡ₚ z :: omap f l.
Proof.
  intros Hnd Hi Hf Hg Hj. induction l as [|a l IH]; [by apply not_elem_of_nil in Hi|].
  apply NoDup_cons in Hnd as [Ha Hnd]. apply elem_of_cons in Hi as [<-|Hi].
  - cbn. rewrite Hf, Hg. erewrite omap_ext_in; [done|]. intros x Hx. apply Hj; [inlist|]. by intros ->.
  - cbn. rewrite (Hj a); [|inlist|by intros ->].
    assert (IH' : omap g l ≡ₚ z :: omap f l) by (apply IH; [done|done|]; intros; apply Hj; [inlist|done]).
    destruct (f a); rewrite IH'; [apply perm_swap|done].
Qed.

Lemma load32_zeroed m p a :
  p <= a -> a + 4 <= p + PGSIZE -> load32 (StringC.memset m p 0 (Z.to_nat PGSIZE)) a = 0.
Proof.
  intros H1 H2. unfold load32.
  replace (loads (StringC.memset m p 0 (Z.to_nat PGSIZE)) a 4) with (replicate 4 0); [done|].
  apply list_eq. intros i. destruct (decide (i < 4)%nat).
  - rewrite lookup_loads, lookup_replicate_2 by done. rewrite StringC.load8_memset. unfold PGSIZE in *.
    destruct (Z.leb_spec p (a + Z.of_nat i)), (Z.ltb_spec (a + Z.of_nat i) (p + Z.of_nat (Z.to_nat 4096)));
      simpl; done || lia.
  - rewrite !lookup_ge_None_2; [done|rewrite length_loads; lia|rewrite length_replicate; lia].
Qed.

(** ** Walking with allocation *)

(** The memory after [walkpgdir] has made [p] the table of directory entry [i]. *)
Definition with_table (m : mem) (pgdir i p : Z) : mem :=
  store32 (StringC.memset m p 0 (Z.to_nat PGSIZE)) (pgdir + 4 * i) (V2P p .| PTE_P .| PTE_W .| PTE_U).

Lemma table_pde e p : Kalloc.managed e p ->
  frame (V2P p .| PTE_P .| PTE_W .| PTE_U) = p /\ present (V2P p .| PTE_P .| PTE_W .| PTE_U) = true /\
  0 <= V2P p .| PTE_P .| PTE_W .| PTE_U < 2 ^ 32.
Proof.
  intros Hp. replace (V2P p .| PTE_P .| PTE_W .| PTE_U) with (V2P p .| 6 .| PTE_P).
  - by apply (frame_make e); [|lia].
  - unfold PTE_P, PTE_W, PTE_U. by rewrite <- !Z.lor_assoc.
Qed.

Section WithTable.
Context (m : mem) (pgdir i p e : Z).
Hypothesis Hi : 0 <= i < 1024.
Hypothesis Hd : Kalloc.managed e pgdir.
Hypothesis Hp : Kalloc.managed e p.
Hypothesis Hne : p <> pgdir.
Hypothesis Hpi : present (pde m pgdir i) = false.
Hypothesis Htabs : forall t, t ∈ tables m pgdir -> Kalloc.managed e t /\ t <> p /\ t <> pgdir.

Let m' := with_table m pgdir i p.

Lemma with_table_outside a :
  (a < p \/ p + PGSIZE <= a) -> (a < pgdir \/ pgdir + PGSIZE <= a) -> load8 m' a = load8 m a.
Proof using All.
  intros H1 H2. unfold m', with_table. rewrite (store32_outside _ pgdir) by (unfold PGSIZE in *; lia || done).
  by apply memset_outside.
Qed.

Lemma with_table_same q : Kalloc.managed e q -> q <> p -> q <> pgdir -> same_page m m' q.
Proof using All.
  intros Hq H1 H2 a Ha. apply with_table_outside.
  - destruct (Kalloc.managed_apart e p q Hp Hq); lia.
  - destruct (Kalloc.managed_apart e pgdir q Hd Hq); lia.
Qed.

Lemma with_table_pde j :
  0 <= j < 1024 -> pde m' pgdir j = if j =? i then V2P p .| PTE_P .| PTE_W .| PTE_U else pde m pgdir j.
Proof using All.
  intros Hj. unfold m', with_table, pde. destruct (Z.eqb_spec j i) as [->|Hji].
  - rewrite load32_store32_same. apply u32_id. by apply (table_pde e).
  - rewrite load32_store32_other by lia.
    apply (same_page_load32 _ _ pgdir); [|lia|unfold PGSIZE; lia].
    apply (same_page_other e _ _ p); [done..|]. intros a Ha. by apply memset_outside.
Qed.

Lemma with_table_tables : tables m' pgdir ≡ₚ p :: tables m pgdir.
Proof using All.
  destruct (table_pde e p Hp) as (Hf & Hpr & _).
  rewrite !tables_unfold. apply (omap_add _ _ _ i); [apply NoDup_seqZ|by apply elem_of_dir| | |].
  - unfold frame_if. by rewrite Hpi.
  - unfold frame_if. by rewrite with_table_pde, Z.eqb_refl, Hpr, Hf.
  - intros j Hj Hji. apply elem_of_dir in Hj. rewrite with_table_pde by done.
    by destruct (Z.eqb_spec j i).
Qed.

Lemma with_table_entry k : 0 <= k < 2 ^ 20 -> entry m' pgdir k = entry m pgdir k.
Proof using All.
  intros Hk. destruct (table_pde e p Hp) as (Hf & Hpr & _).
  unfold entry. rewrite with_table_pde by dlia. destruct (Z.eqb_spec (k / 1024) i) as [<-|Hki].
  - rewrite Hpr, Hf, Hpi. unfold m', with_table.
    rewrite (same_page_load32 (StringC.memset m p 0 (Z.to_nat PGSIZE)) _ p); [|
      |dlia|unfold PGSIZE; dlia].
    + apply load32_zeroed; unfold PGSIZE; dlia.
    + apply (same_page_other e _ _ pgdir); [done|done|by intros ->|].
      intros a Ha. apply (store32_outside _ pgdir); unfold PGSIZE in *; lia.
  - destruct (present (pde m pgdir (k / 1024))) eqn:E; [|done].
    destruct (Htabs _ (table_of m pgdir k Hk E)) as (H1 & H2 & H3).
    apply (same_page_load32 _ _ (frame (pde m pgdir (k / 1024)))); [by apply with_table_same|dlia|unfold PGSIZE; dlia].
Qed.
End WithTable.

(** What [walkpgdir] and [mappages] may do besides the entries asked for: take tables from
    the free list. [rest] are other pages of the owner. *)
Record grown (s s' : kstate) (pgdir : Z) (rest free free' : list Z) : Prop := {
  gr_mem_only : mem_only s s';
  gr_owns : owns s' (pgdir :: tables (k_mem s') pgdir ++ rest) free';
  gr_new : exists new, free = new ++ free' /\ tables (k_mem s') pgdir ≡ₚ new ++ tables (k_mem s) pgdir;
  gr_same : forall p, Kalloc.managed (k_end s) p -> p <> pgdir -> p ∉ tables (k_mem s') pgdir ->
    same_page (k_mem s) (k_mem s') p;
}.

Lemma grown_refl s pgdir rest free :
  owns s (pgdir :: tables (k_mem s) pgdir ++ rest) free -> grown s s pgdir rest free free.
Proof. intros H. split; [apply mem_only_refl|done|by exists []|done]. Qed.

Lemma grown_trans s1 s2 s3 pgdir rest f1 f2 f3 :
  grown s1 s2 pgdir rest f1 f2 -> grown s2 s3 pgdir rest f2 f3 -> grown s1 s3 pgdir rest f1 f3.
Proof.
  intros [A1 A2 (n1 & -> & A3) A4] [B1 B2 (n2 & -> & B3) B4]. split.
  - by eapply mem_only_trans.
  - done.
  - exists (n1 ++ n2). split; [by rewrite app_assoc|]. rewrite B3, A3.
    rewrite (Permutation_app_comm n1 n2), <- app_assoc. done.
  - intros p Hp Hne Hni. eapply same_page_trans.
    + apply A4; [done|done|]. intros Hin. apply Hni. rewrite B3. inlist.
    + apply B4; [by rewrite (mem_only_end _ _ A1)|done|done].
Qed.

Lemma owns_alloc s pages free p s' :
  owns s pages (p :: free) -> Kalloc.kmem_ok s' free -> k_end s' = k_end s -> owns s' (p :: pages) free.
Proof.
  intros (Hk & Hnd & Hall) Hk' He. destruct Hk as (_ & _ & Hm). apply Forall_cons in Hm as [Hm _].
  split; [done|]. split; [by rewrite <- Permutation_middle in Hnd|]. rewrite He. by constructor.
Qed.

Lemma kmem_ok_mem s m' pages :
  Kalloc.kmem_ok s pages -> (forall p, p ∈ pages -> same_page (k_mem s) m' p) ->
  Kalloc.kmem_ok (upd_k_mem (fun _ => m') s) pages.
Proof.
  intros (Hl & Hnd & Hall) Hm. split_and!; [|done|done].
  eapply Kalloc.flist_ext; [|exact Hl]. intros p Hp.
  apply (same_page_load32 _ _ p); [by apply Hm|lia|unfold PGSIZE; lia].
Qed.

Lemma walk_alloc s pgdir k rest free :
  owns s (pgdir :: tables (k_mem s) pgdir ++ rest) free -> Kalloc.kmem_free s -> 0 <= k < 2 ^ 20 ->
  (walkpgdir pgdir (4096 * k) true s = Ok 0 s /\ present (pde (k_mem s) pgdir (k / 1024)) = false /\ free = []) \/
  (exists s' free', walkpgdir pgdir (4096 * k) true s = Ok (slot (k_mem s') pgdir k) s' /\
    slot (k_mem s') pgdir k <> 0 /\ present (pde (k_mem s') pgdir (k / 1024)) = true /\
    grown s s' pgdir rest free free' /\ (length free <= length free' + 1)%nat /\
    forall j, 0 <= j < 2 ^ 20 -> entry (k_mem s') pgdir j = entry (k_mem s) pgdir j).
Proof.
  intros Hown Hf Hk. assert (Hd : Kalloc.managed (k_end s) pgdir) by (eapply owns_managed; [exact Hown|inlist]).
  unfold walkpgdir. rewrite PDX_page, PTX_page by done.
  rewrite (proj1 (managed_word _ _ (k / 1024) Hd ltac:(dlia))), (kbind_ok _ _ _ _ _ (ldw_ok _ s)).
  fold (pde (k_mem s) pgdir (k / 1024)). destruct (present (pde (k_mem s) pgdir (k / 1024))) eqn:Hp.
  - right. exists s, free. fold (frame (pde (k_mem s) pgdir (k / 1024))). unfold slot.
    assert (Ht : Kalloc.managed (k_end s) (frame (pde (k_mem s) pgdir (k / 1024)))).
    { eapply owns_managed; [exact Hown|]. pose proof (table_of _ _ k Hk Hp). inlist. }
    destruct (managed_word _ _ (k mod 1024) Ht ltac:(dlia)) as [-> Hnz].
    split_and!; [done|done|done|by apply grown_refl|lia|done].
  - cbn [negb]. pose proof (Kalloc.kalloc_ok s free ltac:(by destruct Hown) Hf) as Hka.
    destruct free as [|p free].
    { left. rewrite (kbind_ok _ _ _ _ _ Hka). done. }
    right. destruct Hka as (s1 & Hr & Hk1 & Es1). rewrite (kbind_ok _ _ _ _ _ Hr).
    assert (Hpm : Kalloc.managed (k_end s) p).
    { destruct Hown as ((_ & _ & Hall) & _). by apply Forall_cons in Hall as [? _]. }
    destruct (managed_word _ _ (k mod 1024) Hpm ltac:(dlia)) as [Hpw Hpnz].
    destruct (managed_word _ _ 0 Hpm ltac:(lia)) as [_ Hp0]. rewrite Z.mul_0_r, Z.add_0_r in Hp0.
    destruct (Z.eqb_spec p 0) as [E|_]; [done|]. rewrite Hpw.
    set (m' := with_table (k_mem s) pgdir (k / 1024) p).
    assert (Hni : forall q, q ∈ pgdir :: tables (k_mem s) pgdir ++ rest -> q <> p).
    { intros q Hq ->. eapply owns_disjoint; [exact Hown|exact Hq|inlist]. }
    assert (Hpd : p <> pgdir) by (intros ->; by eapply Hni; [inlist|]).
    assert (Htabs : forall t, t ∈ tables (k_mem s) pgdir ->
      Kalloc.managed (k_end s) t /\ t <> p /\ t <> pgdir).
    { intros t Ht. split_and!; [eapply owns_managed; [exact Hown|inlist]|apply Hni; inlist|].
      intros ->. destruct Hown as (_ & Hnd & _). apply NoDup_cons in Hnd as [Hnd _]. apply Hnd. inlist. }
    assert (Hi : 0 <= k / 1024 < 1024) by dlia.
    pose proof (with_table_tables (k_mem s) pgdir (k / 1024) p (k_end s) Hi Hd Hpm Hpd Hp Htabs) as Hts.
    pose proof (with_table_pde (k_mem s) pgdir (k / 1024) p (k_end s) Hi Hd Hpm Hpd Hp Htabs (k / 1024) Hi) as Hpde.
    pose proof (with_table_same (k_mem s) pgdir (k / 1024) p (k_end s) Hi Hd Hpm Hpd Hp Htabs) as Hsame.
    pose proof (with_table_entry (k_mem s) pgdir (k / 1024) p (k_end s) Hi Hd Hpm Hpd Hp Htabs) as Hent.
    fold m' in Hts, Hpde, Hsame, Hent. rewrite Z.eqb_refl in Hpde.
    destruct (table_pde (k_end s) p Hpm) as (Hfr & Hpr & _).
    exists (upd_k_mem (fun _ => m') s1), free. cbn [k_mem upd_k_mem].
    assert (Eslot : slot m' pgdir k = p + 4 * (k mod 1024)) by (unfold slot; by rewrite Hpde, Hfr).
    rewrite Eslot, Hpde. split_and!; [subst s1; done|done|done| |cbn [length]; lia|done].
    assert (Hown1 : owns s1 (p :: pgdir :: tables (k_mem s) pgdir ++ rest) free)
      by (apply (owns_alloc s); [done|done|by rewrite Es1]).
    split.
    + rewrite Es1. eexists _, _. reflexivity.
    + destruct Hown1 as (_ & Hnd1 & Hall1).
      assert (Hperm : pgdir :: tables m' pgdir ++ rest ≡ₚ p :: pgdir :: tables (k_mem s) pgdir ++ rest)
        by (rewrite Hts; apply perm_swap).
      split; [|split; [cbn [k_mem upd_k_mem]; by rewrite Hperm|cbn [k_mem k_end upd_k_mem]; by rewrite Hperm]].
      apply kmem_ok_mem; [done|]. intros q Hq. rewrite Es1. cbn [k_mem upd_k_freelist].
      destruct Hown as ((_ & _ & Hallf) & Hnd & _). apply Hsame.
      * apply Forall_cons in Hallf as [_ Hallf]. rewrite Forall_forall in Hallf. by apply Hallf.
      * intros ->. destruct Hk1 as (_ & Hndf & _).
        apply NoDup_cons in Hnd1 as [Hnd1 _]. apply Hnd1. inlist.
      * intros ->. apply NoDup_cons in Hnd as [Hnd _]. apply Hnd. inlist.
    + exists [p]. split; [done|]. exact Hts.
    + intros q Hq Hqd Hqt. cbn [k_mem upd_k_mem] in *. apply Hsame; [done| |done].
      intros ->. apply Hqt. rewrite Hts. inlist.
Qed.

(** ** Setting an entry *)

Lemma store_entry s pgdir k w rest free :
  owns s (pgdir :: tables (k_mem s) pgdir ++ rest) free -> 0 <= k < 2 ^ 20 ->
  present (pde (k_mem s) pgdir (k / 1024)) = true ->
  let s' := upd_k_mem (fun m => store32 m (slot (k_mem s) pgdir k) w) s in
  grown s s' pgdir rest free free /\ entry (k_mem s') pgdir k = u32 w /\
  forall j, 0 <= j < 2 ^ 20 -> j <> k -> entry (k_mem s') pgdir j = entry (k_mem s) pgdir j.
Proof.
  intros Hown Hk Hp s'. pose proof Hown as (Hkm & Hnd & Hall).
  rewrite !app_comm_cons in Hall. apply Forall_app in Hall as [Hall Hrest].
  assert (Hnd' : NoDup (pgdir :: tables (k_mem s) pgdir)).
  { rewrite !app_comm_cons, <- app_assoc in Hnd. by apply NoDup_app in Hnd as (? & _). }
  destruct (store_slot (k_mem s) pgdir k w (k_end s) Hk Hp Hall Hnd') as (Hout & Hpd & He & Hent).
  pose proof (table_of _ _ k Hk Hp) as Ht. set (t := frame (pde (k_mem s) pgdir (k / 1024))) in *.
  assert (Htm : Kalloc.managed (k_end s) t) by (rewrite Forall_forall in Hall; apply Hall; inlist).
  assert (Hts : tables (k_mem s') pgdir = tables (k_mem s) pgdir) by (by apply tables_same).
  split; [|done]. split.
  - apply mem_only_mem.
  - rewrite Hts. split; [|split; [done|by rewrite !app_comm_cons, Forall_app]].
    apply (kmem_ok_write s _ free t); [done|done| |done].
    eapply owns_disjoint; [exact Hown|inlist].
  - exists []. by rewrite Hts.
  - intros p Hpm Hne Hni. rewrite Hts in Hni. apply (same_page_other (k_end s) _ _ t); [done|done| |done].
    by intros <-.
Qed.

(** ** [mappages] *)

(** The entry [mappages] makes for page [j] of a range from page [k] to address [pa]. *)
Definition mapped_to (k pa perm j : Z) : Z := (pa + 4096 * (j - k)) .| perm .| PTE_P.

Lemma lor_u32 a b : 0 <= a < 2 ^ 32 -> 0 <= b < 2 ^ 32 -> u32 (Z.lor a b) = Z.lor a b.
Proof.
  intros Ha Hb. unfold u32. apply Z.bits_inj'. intros i Hi. rewrite Z.lor_spec.
  destruct (Z_lt_le_dec i 32); [by rewrite Z.mod_pow2_bits_low, Z.lor_spec by lia|].
  rewrite Z.mod_pow2_bits_high by lia. by rewrite !(testbit_small 32) by lia.
Qed.

Definition mapped_prefix (m m' : mem) (pgdir k pa perm c : Z) : Prop :=
  forall j, 0 <= j < 2 ^ 20 ->
    entry m' pgdir j = if (k <=? j) && (j <? k + c) then mapped_to k pa perm j else entry m pgdir j.

Lemma mapped_prefix_step m m1 m' pgdir k pa perm c :
  entry m1 pgdir k = mapped_to k pa perm k ->
  (forall j, 0 <= j < 2 ^ 20 -> j <> k -> entry m1 pgdir j = entry m pgdir j) ->
  0 <= c -> mapped_prefix m1 m' pgdir (k + 1) (pa + 4096) perm c -> mapped_prefix m m' pgdir k pa perm (c + 1).
Proof.
  intros E1 E2 Hc H j Hj. rewrite H by done. unfold mapped_to.
  replace (pa + 4096 + 4096 * (j - (k + 1))) with (pa + 4096 * (j - k)) by lia.
  destruct (Z.eq_dec j k) as [->|Hne].
  - rewrite E1. destruct (Z.leb_spec (k + 1) k), (Z.leb_spec k k), (Z.ltb_spec k (k + (c + 1))); simpl; done || lia.
  - rewrite E2 by done.
    destruct (Z.leb_spec (k + 1) j), (Z.leb_spec k j), (Z.ltb_spec j (k + 1 + c)), (Z.ltb_spec j (k + (c + 1)));
      simpl; done || lia.
Qed.

Section Mappages.
Context (pgdir perm : Z) (rest : list Z).
Hypothesis Hperm : 0 <= perm < 4096.

(** One turn of the loop. *)
Lemma map_page s k pa free :
  owns s (pgdir :: tables (k_mem s) pgdir ++ rest) free -> Kalloc.kmem_free s -> 0 <= k < 2 ^ 20 ->
  present (entry (k_mem s) pgdir k) = false -> pa mod 4096 = 0 -> 0 <= pa < 2 ^ 32 ->
  (walkpgdir pgdir (4096 * k) true s = Ok 0 s /\ free = []) \/
  exists pte s1 s2 free', walkpgdir pgdir (4096 * k) true s = Ok pte s1 /\ pte <> 0 /\
    present (load32 (k_mem s1) pte) = false /\ stw pte (pa .| perm .| PTE_P) s1 = Ok tt s2 /\
    grown s s2 pgdir rest free free' /\ (length free <= length free' + 1)%nat /\
    entry (k_mem s2) pgdir k = mapped_to k pa perm k /\
    forall j, 0 <= j < 2 ^ 20 -> j <> k -> entry (k_mem s2) pgdir j = entry (k_mem s) pgdir j.
Proof using Hperm.
  intros Hown Hf Hk Hnp Hpa Hpa'.
  destruct (walk_alloc s pgdir k rest free Hown Hf Hk) as [(Hw & _ & Hfr)|(s1 & free' & Hw & Hnz & Hp & Hg & Hln & He)];
    [by left|right].
  destruct (store_entry s1 pgdir k (pa .| perm .| PTE_P) rest free') as (Hg2 & He2 & Hj2);
    [by destruct Hg|done|done|].
  eexists _, s1, _, free'. split; [exact Hw|]. split; [exact Hnz|].
  split; [rewrite <- entry_slot, He; done|]. split; [reflexivity|].
  split; [by eapply grown_trans|]. split; [exact Hln|]. split.
  - rewrite He2. unfold mapped_to. rewrite Z.sub_diag, Z.mul_0_r, Z.add_0_r.
    apply u32_id. by destruct (pte_make pa perm).
  - intros j Hj Hne. by rewrite Hj2, He.
Qed.

Lemma mappages_loop_ok n : forall fl k pa s free,
  owns s (pgdir :: tables (k_mem s) pgdir ++ rest) free -> Kalloc.kmem_free s ->
  0 <= k -> k + Z.of_nat n < 2 ^ 20 ->
  (forall j, k <= j <= k + Z.of_nat n -> present (entry (k_mem s) pgdir j) = false) ->
  pa mod 4096 = 0 -> 0 <= pa -> pa + 4096 * Z.of_nat n < 2 ^ 32 -> (n < fl)%nat ->
  exists r s' free' c, mappages_loop fl pgdir (4096 * k) (4096 * (k + Z.of_nat n)) pa perm s = Ok r s' /\
    grown s s' pgdir rest free free' /\ mapped_prefix (k_mem s) (k_mem s') pgdir k pa perm c /\
    Z.of_nat (length free) <= Z.of_nat (length free') + c /\
    (r = 0 /\ c = Z.of_nat n + 1 \/ r = -1 /\ free' = [] /\ 0 <= c <= Z.of_nat n).
Proof using Hperm.
  induction n as [|n IH]; intros fl k pa s free Hown Hf Hk Hkn Hnp Hpa Hpa0 Hpa1 Hfl.
  all: destruct fl as [|fl]; [lia|]; cbn [mappages_loop].
  all: destruct (map_page s k pa free) as [(Hw & Hfr)|(pte & s1 & s2 & free' & Hw & Hnz & Hpte & Hst & Hg & Hln & He & Hj)];
    [done|done|lia|apply Hnp; lia|done|lia|
     rewrite (kbind_ok _ _ _ _ _ Hw); exists (-1), s, free, 0; split; [done|]; split; [by apply grown_refl|]; split;
       [intros j Hj; destruct (Z.leb_spec k j), (Z.ltb_spec j (k + 0)); simpl; done || lia|split; [lia|right; lia || (split; [done|split; [done|lia]])]]|].
  all: rewrite (kbind_ok _ _ _ _ _ Hw).
  all: destruct (Z.eqb_spec pte 0) as [|_]; [done|].
  all: rewrite (kbind_ok _ _ _ _ _ (ldw_ok _ s1)), Hpte, (kbind_ok _ _ _ _ _ Hst).
  - rewrite Z.add_0_r, Z.eqb_refl. exists 0, s2, free', 1. split; [done|]. split; [done|]. split; [|split; [lia|by left]].
    intros j Hj'. destruct (Z.eq_dec j k) as [->|Hne].
    + rewrite He. destruct (Z.leb_spec k k), (Z.ltb_spec k (k + 1)); simpl; done || lia.
    + rewrite Hj by done. destruct (Z.leb_spec k j), (Z.ltb_spec j (k + 1)); simpl; done || lia.
  - destruct (Z.eqb_spec (4096 * k) (4096 * (k + Z.of_nat (S n)))) as [|_]; [lia|].
    replace (4096 * k +u PGSIZE) with (4096 * (k + 1)) by (unfold PGSIZE; rewrite u32_id by lia; lia).
    replace (pa +u PGSIZE) with (pa + 4096) by (unfold PGSIZE; rewrite u32_id by lia; lia).
    replace (k + Z.of_nat (S n)) with (k + 1 + Z.of_nat n) in * by lia.
    destruct (IH fl (k + 1) (pa + 4096) s2 free') as (r & s' & free'' & c & Hr & Hg' & Hm & Hln' & Hres).
    + by destruct Hg.
    + eapply mem_only_free; [by destruct Hg|done].
    + lia.
    + lia.
    + intros j Hj'. rewrite Hj by lia. apply Hnp. lia.
    + dlia.
    + lia.
    + lia.
    + lia.
    + exists r, s', free'', (c + 1). split; [done|]. split; [by eapply grown_trans|]. split.
      * eapply mapped_prefix_step; [done|done|lia|done].
      * split; [lia|]. destruct Hres as [[-> ->]|(-> & -> & Hc)]; [left|right]; split; lia || (done || (split; [done|lia])).
Qed.
End Mappages.

Lemma mappages_run s pgdir va size pa perm k n rest free :
  owns s (pgdir :: tables (k_mem s) pgdir ++ rest) free -> Kalloc.kmem_free s ->
  0 <= va -> 0 < size -> va + size <= 2 ^ 32 -> k = va / 4096 -> n = (va + size - 1) / 4096 - k ->
  (forall j, k <= j <= k + n -> present (entry (k_mem s) pgdir j) = false) ->
  pa mod 4096 = 0 -> 0 <= pa -> pa + 4096 * n < 2 ^ 32 -> 0 <= perm < 4096 ->
  exists r s' free' c, mappages pgdir va size pa perm s = Ok r s' /\
    grown s s' pgdir rest free free' /\ mapped_prefix (k_mem s) (k_mem s') pgdir k pa perm c /\
    Z.of_nat (length free) <= Z.of_nat (length free') + c /\
    (r = 0 /\ c = n + 1 \/ r = -1 /\ free' = [] /\ 0 <= c <= n).
Proof.
  intros Hown Hf Hva Hsz Hend -> -> Hnp Hpa Hpa0 Hpa1 Hperm. unfold mappages.
  rewrite (u32_id (va + size - 1)), !PGROUNDDOWN_spec, !(Z.mul_comm _ 4096) by lia.
  set (k := va / 4096) in *. set (n := (va + size - 1) / 4096 - k) in *.
  replace ((va + size - 1) / 4096) with (k + Z.of_nat (Z.to_nat n)) by (rewrite Z2Nat.id; unfold n, k; dlia).
  destruct (mappages_loop_ok pgdir perm rest Hperm (Z.to_nat n)
    (S (Z.to_nat ((4096 * (k + Z.of_nat (Z.to_nat n)) -u 4096 * k) / PGSIZE))) k pa s free)
    as (r & s' & free' & c & H); rewrite ?Z2Nat.id by (unfold n, k; dlia); try done.
  - unfold k. dlia.
  - unfold n, k. dlia.
  - apply Nat.lt_succ_r. unfold PGSIZE.
    rewrite u32_id by (unfold n, k; dlia). apply Z2Nat.inj_le; unfold n, k; dlia.
  - exists r, s', free', c. rewrite Z2Nat.id in H by (unfold n, k; dlia). done.
Qed.

(** C15: [mappages] maps every page that the range touches to consecutive frames from [pa] on,
    or gives -1 when no page is left for a page table and then has mapped a prefix of them.
    The entries of other pages and the contents of every page that is not a page table stay as
    they are, and the only pages taken from the free list are new page tables. *)
Theorem mappages_maps (s : kstate) (pgdir va size pa perm k n : Z) (rest free : list Z)
    (Hown : owns s (pgdir :: tables (k_mem s) pgdir ++ rest) free) (Hf : Kalloc.kmem_free s)
    (Hva : 0 <= va) (Hsz : 0 < size) (Hend : va + size <= 2 ^ 32)
    (Hk : k = va / 4096) (Hn : n = (va + size - 1) / 4096 - k)
    (Hnp : forall j, k <= j <= k + n -> present (entry (k_mem s) pgdir j) = false)
    (Hpa : pa mod 4096 = 0 /\ 0 <= pa /\ pa + 4096 * n < 2 ^ 32) (Hperm : 0 <= perm < 4096) :
  exists r s' free' c, mappages pgdir va size pa perm s = Ok r s' /\
    (r = 0 /\ c = n + 1 \/ r = -1 /\ free' = [] /\ 0 <= c <= n) /\
    (forall j, 0 <= j < 2 ^ 20 ->
       entry (k_mem s') pgdir j =
         if (k <=? j) && (j <? k + c) then (pa + 4096 * (j - k)) .| perm .| PTE_P else entry (k_mem s) pgdir j) /\
    (exists new, free = new ++ free' /\ tables (k_mem s') pgdir ≡ₚ new ++ tables (k_mem s) pgdir) /\
    owns s' (pgdir :: tables (k_mem s') pgdir ++ rest) free' /\
    (forall p, Kalloc.managed (k_end s) p -> p <> pgdir -> p ∉ tables (k_mem s') pgdir ->
       same_page (k_mem s) (k_mem s') p).
Proof.
  destruct Hpa as (H1 & H2 & H3).
  destruct (mappages_run s pgdir va size pa perm k n rest free) as (r & s' & free' & c & Hr & [_ G1 G2 G3] & Hm & _ & Hres);
    try done.
  by exists r, s', free', c.
Qed.

Lemma mappages_maps_witness :
  exists r s', mappages small_pgdir 0x400123 10 0 PTE_W small = Ok r s'.
Proof.
  destruct small_ok as [Hsp Hf].
  destruct (mappages_maps small small_pgdir 0x400123 10 0 PTE_W 1024 0
    (mapped (k_mem small) small_pgdir 0 UPAGES) (rev (take 2 top_pages))) as (r & s' & free' & c & H & _).
  - exact Hsp.
  - exact Hf.
  - lia.
  - lia.
  - lia.
  - reflexivity.
  - reflexivity.
  - intros j Hj. replace j with 1024 by lia. vm_compute. reflexivity.
  - split; [reflexivity|lia].
  - vm_compute. split; congruence.
  - exists r, s'. exact H.
Defined.
