(* ===== verification/Pages.v ===== *)
(** * Adding pages to an address space (vm.c)

    [allocuvm] and [copyuvm] add pages one by one: take a page, give it its contents, map it.
    Here is what one such step does, and what the steps add up to, for any contents and any
    permissions, while the owner also has the pages [rest]. *)

From S2P Require Import Prelude Mem StringC Kernel Mmu Kalloc Sched Bio Layout Log Printf Cons Fs Vm Space Mapping.

Lemma space_own s pgdir rest free :
  owns s (space_pages (k_mem s) pgdir ++ rest) free -> owns s (space_pages (k_mem s) pgdir) free.
Proof.
  intros H. rewrite <- (app_nil_r (_ ++ rest)), <- app_assoc in H. apply owns_weaken in H. by rewrite app_nil_r in H.
Qed.

(** A page of the address space is neither the directory nor one of the tables. *)
Lemma mapped_user s pgdir free p :
  owns s (space_pages (k_mem s) pgdir) free -> p ∈ mapped (k_mem s) pgdir 0 UPAGES ->
  Kalloc.managed (k_end s) p /\ (p ∉ free) /\ p <> pgdir /\ p ∉ tables (k_mem s) pgdir.
Proof.
  intros Hown Hp. assert (Hsp : p ∈ space_pages (k_mem s) pgdir) by (unfold space_pages; inlist).
  split_and!; [by eapply owns_managed|by eapply owns_disjoint| |].
  all: destruct Hown as (_ & Hnd & _); unfold space_pages in Hnd; cbn [app] in Hnd; apply NoDup_cons in Hnd as [Hni Hnd].
  - intros ->. apply Hni. inlist.
  - intros Ht. rewrite <- app_assoc in Hnd. apply NoDup_app in Hnd as (_ & Hnd & _). apply (Hnd p Ht). inlist.
Qed.

(** A page that was free is still one of the allocator's. *)
Lemma owns_from s s' pages pages' free free' p :
  k_end s' = k_end s -> owns s' pages' free' -> pages' ++ free' ≡ₚ pages ++ free -> p ∈ free ->
  Kalloc.managed (k_end s) p.
Proof.
  intros He ((_ & _ & Hfr) & _ & Hall) Hperm Hp. rewrite <- He. rewrite Forall_forall in Hall, Hfr.
  assert (Hp' : p ∈ pages' ++ free') by (rewrite Hperm, elem_of_app; by right).
  apply elem_of_app in Hp' as [?|?]; auto.
Qed.

(** One more entry in the user half maps one more page. *)
Lemma mapped_add m m' pgdir k p :
  0 <= k < UPAGES -> present (entry m pgdir k) = false ->
  present (entry m' pgdir k) = true -> frame (entry m' pgdir k) = p ->
  (forall j, 0 <= j < 2 ^ 20 -> j <> k -> entry m' pgdir j = entry m pgdir j) ->
  mapped m' pgdir 0 UPAGES ≡ₚ p :: mapped m pgdir 0 UPAGES.
Proof.
  intros Hk Hn Hp Hf Hj. rewrite !mapped_unfold. change UPAGES with 524288 in *.
  apply (omap_add _ _ _ k); [apply NoDup_seqZ|apply elem_of_seqZ; lia|unfold frame_if..|].
  - by rewrite Hn.
  - by rewrite Hp, Hf.
  - intros j Hin Hne. apply elem_of_seqZ in Hin. by rewrite Hj by lia.
Qed.

(** [freevm] for an owner of more than the address space. *)
Lemma freevm_rest s pgdir rest free :
  owns s (space_pages (k_mem s) pgdir ++ rest) free -> Kalloc.kmem_free s ->
  exists s' free', freevm pgdir s = Ok tt s' /\ mem_only s s' /\ owns s' rest free' /\
    free' ≡ₚ space_pages (k_mem s) pgdir ++ free /\ same_outside s s' (space_pages (k_mem s) pgdir).
Proof.
  intros Hown Hf. pose proof (space_own s pgdir rest free Hown) as Ho.
  destruct (freevm_ok s pgdir free Ho Hf) as (s' & Hr & Hm & Hk & Hs).
  set (free' := pgdir :: rev (tables (k_mem s) pgdir) ++ rev (mapped (k_mem s) pgdir 0 UPAGES) ++ free) in *.
  assert (Hperm : free' ≡ₚ space_pages (k_mem s) pgdir ++ free).
  { unfold free', space_pages. cbn [app]. rewrite <- !Permutation_rev, <- app_assoc. done. }
  exists s', free'. split; [done|]. split; [done|]. split; [|done].
  destruct Hown as (_ & Hnd & Hall). split; [done|]. split.
  - rewrite Hperm, app_assoc, (Permutation_app_comm rest). done.
  - rewrite (mem_only_end _ _ Hm). by apply Forall_app in Hall as [_ ?].
Qed.

Lemma owns_pgdir_nz s pgdir rest free : owns s (pgdir :: rest) free -> pgdir <> 0.
Proof.
  intros H. assert (Hm : Kalloc.managed (k_end s) pgdir) by (eapply owns_managed; [exact H|inlist]).
  destruct (managed_word _ pgdir 0 Hm); lia.
Qed.

(** Page [p] holds [bytes]. *)
Definition holds (m : mem) (p : Z) (bytes : Z -> Z) : Prop := forall o, 0 <= o < PGSIZE -> load8 m (p + o) = bytes o.

Lemma holds_same m m' p bytes : same_page m m' p -> holds m p bytes -> holds m' p bytes.
Proof. intros Hs Hh o Ho. rewrite Hs by lia. by apply Hh. Qed.

(** ** One page *)

(** After [kalloc] and the write of the contents the address space is as before. *)
Lemma fresh_page pgdir rest s p free1 g :
  owns s (space_pages (k_mem s) pgdir ++ rest) (p :: free1) -> Kalloc.kmem_free s ->
  (forall a, a < p \/ p + PGSIZE <= a -> load8 (g (k_mem s)) a = load8 (k_mem s) a) ->
  exists s0, Kalloc.kalloc s = Ok p s0 /\ p <> 0 /\
    let s1 := upd_k_mem g s0 in
    mem_only s s1 /\ k_mem s1 = g (k_mem s) /\ owns s1 (p :: space_pages (k_mem s) pgdir ++ rest) free1 /\
    same_outside s s1 [p] /\ tables (k_mem s1) pgdir = tables (k_mem s) pgdir /\
    forall j, 0 <= j < 2 ^ 20 -> entry (k_mem s1) pgdir j = entry (k_mem s) pgdir j.
Proof.
  intros Hown Hf Hg. pose proof Hown as (Hk & Hnd & Hall).
  destruct (Kalloc.kalloc_ok s (p :: free1) Hk Hf) as (s0 & Hr & Hk0 & E). exists s0. split; [done|].
  assert (Hpm : Kalloc.managed (k_end s) p) by (destruct Hk as (_ & _ & H); by apply Forall_cons in H as [? _]).
  assert (Hown0 : owns s0 (p :: space_pages (k_mem s) pgdir ++ rest) free1)
    by (apply (owns_alloc s); [done|done|by rewrite E]).
  split; [destruct (managed_word _ p 0 Hpm ltac:(lia)); lia|]. intros s1.
  assert (Em : k_mem s1 = g (k_mem s)) by (unfold s1; by rewrite E).
  assert (Hs : same_outside s s1 [p]) by (apply same_outside_1; [done|by rewrite Em]).
  split; [unfold s1; rewrite E; eexists _, _; reflexivity|]. split; [done|]. split.
  - destruct Hown0 as (H1 & H2 & H3). split; [|done]. unfold s1.
    apply (kmem_ok_write s0 _ free1 p); [done|by rewrite E| |rewrite E; done].
    cbn [app] in H2. apply NoDup_cons in H2 as [H2 _]. intros H. apply H2. apply elem_of_app. by right.
  - split; [done|]. destruct (space_same (k_mem s) (k_mem s1) pgdir) as (H1 & _ & H3); [|done].
    intros q Hq. assert (Hin : q ∈ space_pages (k_mem s) pgdir ++ rest) by (unfold space_pages; inlist).
    apply Hs; [by eapply owns_managed|]. rewrite list_elem_of_singleton. intros ->.
    eapply owns_disjoint; [exact Hown|exact Hin|inlist].
Qed.

Section Pages.
Context (pgdir : Z) (rest : list Z) (perm : Z -> Z) (cont : Z -> Z -> Z).
Hypothesis Hperm : forall j, 0 <= perm j < 4096.

(** The entry for page [j] made with page [p]. *)
Definition new_pte (j p : Z) : Z := V2P p .| perm j .| PTE_P.

(** [s'] is [s] with [c] more pages from page [k] on, taken from the front of [free]. *)
Record allocated (s s' : kstate) (k c : Z) (free free' : list Z) : Prop := {
  al_mem_only : mem_only s s';
  al_owns : owns s' (space_pages (k_mem s') pgdir ++ rest) free';
  al_perm : space_pages (k_mem s') pgdir ++ free' ≡ₚ space_pages (k_mem s) pgdir ++ free;
  al_suffix : exists new, free = new ++ free';
  al_tables : forall t, t ∈ tables (k_mem s') pgdir -> t ∈ tables (k_mem s) pgdir \/ t ∈ free;
  al_new : forall j, k <= j < k + c -> exists p, p ∈ free /\
    entry (k_mem s') pgdir j = new_pte j p /\ holds (k_mem s') p (cont j);
  al_other : forall j, 0 <= j < 2 ^ 20 -> ~ (k <= j < k + c) -> entry (k_mem s') pgdir j = entry (k_mem s) pgdir j;
  al_same : forall p, Kalloc.managed (k_end s) p -> p ∉ free -> p <> pgdir -> p ∉ tables (k_mem s) pgdir ->
    same_page (k_mem s) (k_mem s') p;
  al_count : Z.of_nat (length free) <= Z.of_nat (length free') + 2 * c;
}.

Lemma allocated_refl s k free :
  owns s (space_pages (k_mem s) pgdir ++ rest) free -> allocated s s k 0 free free.
Proof using Type.
  intros H. split; [apply mem_only_refl|done|done|by exists []|tauto|intros; lia|done|done|lia].
Qed.

Lemma allocated_trans s1 s2 s3 k c1 c2 f1 f2 f3 :
  0 <= c1 -> 0 <= c2 -> 0 <= k -> k + c1 + c2 <= UPAGES ->
  allocated s1 s2 k c1 f1 f2 -> allocated s2 s3 (k + c1) c2 f2 f3 -> allocated s1 s3 k (c1 + c2) f1 f3.
Proof using Hperm.
  intros Hc1 Hc2 Hk Hb [A1 A2 A3 (n1 & ->) A5 A6 A7 A8 A9] [B1 B2 B3 (n2 & ->) B5 B6 B7 B8 B9].
  change UPAGES with 524288 in Hb. apply space_own in A2. split.
  - by eapply mem_only_trans.
  - done.
  - by rewrite B3.
  - exists (n1 ++ n2). by rewrite app_assoc.
  - intros t Ht. destruct (B5 t Ht) as [H|H]; [by apply A5|right; inlist].
  - intros j Hj. destruct (decide (j < k + c1)) as [Hlt|Hge].
    + destruct (A6 j ltac:(lia)) as (p & Hp & He & Hz). exists p. split; [done|].
      split; [rewrite B7 by lia; done|].
      assert (Hin : p ∈ mapped (k_mem s2) pgdir 0 UPAGES).
      { apply elem_of_mapped. exists j. change UPAGES with 524288. split; [lia|]. rewrite He.
        pose proof (owns_from s1 s2 _ _ _ _ p (mem_only_end _ _ A1) A2 A3 Hp) as Hpm.
        unfold new_pte. destruct (frame_make (k_end s1) p (perm j) Hpm (Hperm j)) as (-> & -> & _). done. }
      destruct (mapped_user s2 pgdir (n2 ++ f3) p A2 Hin) as (H1 & H2 & H3 & H4).
      eapply holds_same; [|exact Hz]. by apply B8.
    + destruct (B6 j ltac:(lia)) as (p & Hp & He & Hz). exists p. split; [inlist|done].
  - intros j Hj Hn. rewrite B7, A7 by lia. done.
  - intros p Hm Hf Hd Ht. assert (Hf2 : p ∉ n2 ++ f3) by (intros H; apply Hf; inlist).
    eapply same_page_trans; [by apply A8|]. apply B8; [by rewrite (mem_only_end _ _ A1)|done|done|].
    intros H. destruct (A5 p H); done.
  - lia.
Qed.

(** What a failed attempt to map page [p] leaves: [p] is still the caller's. *)
Record not_mapped (s s' : kstate) (p : Z) (free1 : list Z) : Prop := {
  nm_mem_only : mem_only s s';
  nm_owns : owns s' (space_pages (k_mem s') pgdir ++ [p] ++ rest) [];
  nm_perm : space_pages (k_mem s') pgdir ++ [p] ≡ₚ space_pages (k_mem s) pgdir ++ p :: free1;
  nm_tables : forall t, t ∈ tables (k_mem s') pgdir -> t ∈ tables (k_mem s) pgdir \/ t ∈ free1;
  nm_entry : forall j, 0 <= j < 2 ^ 20 -> entry (k_mem s') pgdir j = entry (k_mem s) pgdir j;
  nm_same : forall q, Kalloc.managed (k_end s) q -> q ∉ p :: free1 -> q <> pgdir -> q ∉ tables (k_mem s) pgdir ->
    same_page (k_mem s) (k_mem s') q;
  nm_count : free1 = [];
}.

(** The two outcomes of [mappages] for the fresh page [p] of [s1]. *)
Section Step.
Context (s s1 s2 : kstate) (k p c : Z) (new free2 : list Z).
Hypothesis Hk : 0 <= k < 524288.
Hypothesis Hnp : present (entry (k_mem s) pgdir k) = false.
Hypothesis Hpm : Kalloc.managed (k_end s) p.
Hypothesis Hm1 : mem_only s s1.
Hypothesis Hs1 : same_outside s s1 [p].
Hypothesis Ht1 : tables (k_mem s1) pgdir = tables (k_mem s) pgdir.
Hypothesis He1 : forall j, 0 <= j < 2 ^ 20 -> entry (k_mem s1) pgdir j = entry (k_mem s) pgdir j.
Hypothesis Hg : grown s1 s2 pgdir (p :: mapped (k_mem s) pgdir 0 UPAGES ++ rest) (new ++ free2) free2.
Hypothesis Hnew : tables (k_mem s2) pgdir ≡ₚ new ++ tables (k_mem s) pgdir.
Hypothesis Hpre : mapped_prefix (k_mem s1) (k_mem s2) pgdir k (V2P p) (perm k) c.
Hypothesis Hcnt : Z.of_nat (length (new ++ free2)) <= Z.of_nat (length free2) + c.

Lemma step_tables t : t ∈ tables (k_mem s2) pgdir -> t ∈ tables (k_mem s) pgdir \/ t ∈ new ++ free2.
Proof using All. intros Ht. rewrite Hnew in Ht. inlist. Qed.

Lemma step_same q : Kalloc.managed (k_end s) q -> q ∉ p :: new ++ free2 -> q <> pgdir ->
  q ∉ tables (k_mem s) pgdir -> same_page (k_mem s) (k_mem s2) q.
Proof using All.
  intros Hq Hqf Hqd Hqt. apply not_elem_of_cons in Hqf as [Hqp Hqf]. eapply same_page_trans.
  - apply Hs1; [done|]. by rewrite list_elem_of_singleton.
  - apply (gr_same _ _ _ _ _ _ Hg); [by rewrite (mem_only_end _ _ Hm1)|done|].
    intros H. by destruct (step_tables q H).
Qed.

Lemma step_mapped : c = 1 -> holds (k_mem s1) p (cont k) -> allocated s s2 k 1 (p :: new ++ free2) free2.
Proof using All.
  intros Ec Hz. pose proof Hg as [G1 G2 _ G4]. pose proof Hpre as Hpre'. rewrite Ec in Hpre'. set (M := mapped (k_mem s) pgdir 0 UPAGES) in *.
  assert (Hek : entry (k_mem s2) pgdir k = new_pte k p).
  { rewrite Hpre' by lia. destruct (Z.leb_spec k k), (Z.ltb_spec k (k + 1)); try lia. cbn.
    unfold mapped_to, new_pte. do 2 f_equal. lia. }
  assert (Heo : forall j, 0 <= j < 2 ^ 20 -> j <> k -> entry (k_mem s2) pgdir j = entry (k_mem s) pgdir j).
  { intros j Hj Hne. rewrite Hpre' by lia. destruct (Z.leb_spec k j), (Z.ltb_spec j (k + 1)); cbn; try lia; by apply He1. }
  destruct (frame_make (k_end s) p (perm k) Hpm (Hperm k)) as (Hfr & Hpr & _).
  assert (HM : mapped (k_mem s2) pgdir 0 UPAGES ≡ₚ p :: M)
    by (apply (mapped_add _ _ _ k); [change UPAGES with 524288; lia|done|by rewrite Hek..|done]).
  split.
  - by eapply mem_only_trans.
  - eapply owns_proper; [|done|exact G2]. unfold space_pages. rewrite HM. cbn [app]. by rewrite <- app_assoc.
  - unfold space_pages. rewrite HM, Hnew. fold M. generalize (tables (k_mem s) pgdir). intros T.
    cbn [app]. constructor. rewrite <- !app_assoc. cbn [app]. rewrite <- !Permutation_middle. constructor.
    rewrite (Permutation_app_comm new (T ++ M ++ free2)), <- !app_assoc. do 2 f_equiv. apply Permutation_app_comm.
  - exists (p :: new). done.
  - intros t Ht. destruct (step_tables t Ht); [by left|right; inlist].
  - intros j Hj. replace j with k by lia. exists p. split; [inlist|]. split; [done|].
    eapply holds_same; [|exact Hz]. apply G4; [by rewrite (mem_only_end _ _ Hm1)| |].
    + intros ->. destruct G2 as (_ & Hnd & _). cbn [app] in Hnd. apply NoDup_cons in Hnd as [Hnd _]. apply Hnd. inlist.
    + intros H. destruct G2 as (_ & Hnd & _). cbn [app] in Hnd. apply NoDup_cons in Hnd as [_ Hnd].
      rewrite <- app_assoc in Hnd. apply NoDup_app in Hnd as (_ & Hnd & _). apply (Hnd p H). inlist.
  - intros j Hj Hne. apply Heo; [done|lia].
  - apply step_same.
  - rewrite length_cons. lia.
Qed.

Lemma step_failed : c = 0 -> free2 = [] -> not_mapped s s2 p (new ++ free2).
Proof using All.
  intros Ec Ef. pose proof Hg as [G1 G2 _ G4].
  pose proof step_tables as Htab. pose proof step_same as Hsame. pose proof Hpre as Hpre'. pose proof Hcnt as Hcnt'.
  rewrite Ef, app_nil_r in Htab, Hsame, Hcnt'. rewrite Ef in G2. rewrite Ec in Hpre', Hcnt'. rewrite Ef, app_nil_r.
  set (M := mapped (k_mem s) pgdir 0 UPAGES) in *.
  assert (Heo : forall j, 0 <= j < 2 ^ 20 -> entry (k_mem s2) pgdir j = entry (k_mem s) pgdir j).
  { intros j Hj. rewrite Hpre' by lia. destruct (Z.leb_spec k j), (Z.ltb_spec j (k + 0)); cbn; try lia; by apply He1. }
  assert (HM : mapped (k_mem s2) pgdir 0 UPAGES = M)
    by (apply mapped_ext; intros j Hj; apply Heo; change UPAGES with 524288 in Hj; lia).
  split; [by eapply mem_only_trans| | |done|done|done|].
  - eapply owns_proper; [|reflexivity|exact G2]. unfold space_pages. rewrite HM. generalize (tables (k_mem s2) pgdir). intros T.
    cbn [app]. constructor. rewrite <- app_assoc. f_equiv. symmetry. apply Permutation_middle.
  - unfold space_pages. rewrite HM, Hnew. fold M. generalize (tables (k_mem s) pgdir). intros T.
    cbn [app]. constructor. rewrite <- !app_assoc. rewrite (Permutation_app_comm new), <- !app_assoc. done.
  - destruct new; [done|]. cbn in Hcnt'. lia.
Qed.
End Step.

Lemma alloc_page s k p free1 g :
  owns s (space_pages (k_mem s) pgdir ++ rest) (p :: free1) -> Kalloc.kmem_free s ->
  0 <= k < UPAGES -> present (entry (k_mem s) pgdir k) = false ->
  (forall a, a < p \/ p + PGSIZE <= a -> load8 (g (k_mem s)) a = load8 (k_mem s) a) ->
  holds (g (k_mem s)) p (cont k) ->
  exists s0 r s2, Kalloc.kalloc s = Ok p s0 /\ p <> 0 /\
    mappages pgdir (4096 * k) PGSIZE (V2P p) (perm k) (upd_k_mem g s0) = Ok r s2 /\
    ((r = 0 /\ exists free2, allocated s s2 k 1 (p :: free1) free2) \/ (r = -1 /\ not_mapped s s2 p free1)).
Proof using Hperm.
  intros Hown Hf Hk Hnp Hgo Hgc. change UPAGES with 524288 in Hk.
  destruct (fresh_page pgdir rest s p free1 g Hown Hf Hgo) as (s0 & Hka & Hp0 & Hm1 & Em1 & Hown1 & Hs1 & Ht1 & He1).
  set (s1 := upd_k_mem g s0) in *. set (M := mapped (k_mem s) pgdir 0 UPAGES) in *.
  assert (Hpm : Kalloc.managed (k_end s) p)
    by (destruct Hown as ((_ & _ & H) & _); by apply Forall_cons in H as [? _]).
  assert (Hownr : owns s1 (pgdir :: tables (k_mem s1) pgdir ++ p :: M ++ rest) free1).
  { eapply owns_proper; [|done|exact Hown1]. rewrite Ht1. unfold space_pages. fold M. cbn [app].
    rewrite <- Permutation_middle, <- app_assoc. apply perm_swap. }
  destruct (V2P_managed _ _ Hpm) as (HV & HV4 & _). pose proof (Kalloc.managed_range _ _ Hpm) as (Hr1 & Hr2 & _).
  destruct (mappages_run s1 pgdir (4096 * k) PGSIZE (V2P p) (perm k) k 0 (p :: M ++ rest) free1)
    as (r & s2 & free2 & c & Hr & Hg & Hpre & Hcnt & Hres);
    [done|by eapply mem_only_free| | | | | | |done| | |apply Hperm|]; unfold KERNBASE, PHYSTOP, PGSIZE in *; try dlia.
  { intros j Hj. replace j with k by lia. by rewrite He1 by lia. }
  exists s0, r, s2. split; [done|]. split; [done|]. split; [done|].
  destruct (gr_new _ _ _ _ _ _ Hg) as (new & -> & Hnew). rewrite Ht1 in Hnew.
  destruct Hres as [[-> ->]|(-> & -> & Hc)]; [left|right]; (split; [done|]).
  - exists free2. eapply (step_mapped s s1 s2 k p (0 + 1) new free2); try done. by rewrite Em1.
  - apply (step_failed s s1 s2 k p c new []); try done. lia.
Qed.
End Pages.
