(* ===== verification/Uvm.v ===== *)
(** * Growing an address space: [allocuvm] (vm.c)

    A growth that succeeds gives fresh zeroed pages to exactly the new part of the address
    space; one that runs out of memory puts the address space back. Either way no page is
    lost. *)

From S2P Require Import Prelude Mem StringC Kernel Mmu Kalloc Sched Bio Layout Log Printf Cons Fs Vm Space Mapping Pages.

(** What [allocuvm] maps user pages with, and what they hold. *)
Definition user_perm (_ : Z) : Z := PTE_W .| PTE_U.
Definition no_bytes (_ _ : Z) : Z := 0.
Definition user_pte (p : Z) : Z := V2P p .| (PTE_W .| PTE_U) .| PTE_P.
Definition zeroed (m : mem) (p : Z) : Prop := holds m p (fun _ => 0).

Lemma user_perm_ok j : 0 <= user_perm j < 4096.
Proof. unfold user_perm, PTE_W, PTE_U. by vm_compute. Qed.

Lemma memset_zeroed m p : zeroed (StringC.memset m p 0 (Z.to_nat PGSIZE)) p.
Proof.
  intros o Ho. rewrite StringC.load8_memset. unfold PGSIZE in *.
  destruct (Z.leb_spec p (p + o)), (Z.ltb_spec (p + o) (p + Z.of_nat (Z.to_nat 4096))); simpl; done || lia.
Qed.

(** ** Giving up *)

(** Only memory, the free list and the console differ. *)
Definition mem_console_only (s s' : kstate) : Prop := exists s1, mem_only s s1 /\ console_only s1 s'.

Lemma mem_console_trans_l s1 s2 s3 : mem_only s1 s2 -> mem_console_only s2 s3 -> mem_console_only s1 s3.
Proof. intros H (s & H1 & H2). exists s. split; [by eapply mem_only_trans|done]. Qed.

Lemma mem_console_trans_r s1 s2 s3 : mem_console_only s1 s2 -> mem_only s2 s3 -> mem_console_only s1 s3.
Proof.
  intros (s & (f & m & ->) & (o & p & c & ->)) (f' & m' & ->).
  exists (upd_k_freelist (fun _ => f') (upd_k_mem (fun _ => m') s1)). split; [by exists f', m'|].
  exists o, p, c. by destruct s1.
Qed.

Lemma console_only_mem s s' : console_only s s' -> k_mem s' = k_mem s /\ k_end s' = k_end s /\
  (forall pages free, owns s pages free -> owns s' pages free) /\ (Kalloc.kmem_free s -> Kalloc.kmem_free s').
Proof. intros (o & p & c & ->). by split_and!. Qed.

Lemma mem_console_end s s' : mem_console_only s s' -> k_end s' = k_end s.
Proof. intros (s1 & H1 & H2). apply console_only_mem in H2 as (_ & -> & _). by apply mem_only_end. Qed.

(** The address space is back to the pages below [k] and above [k + n]; nothing is lost. *)
Record given_up (s s' : kstate) (pgdir : Z) (rest : list Z) (k n : Z) (free free' : list Z) : Prop := {
  gu_only : mem_console_only s s';
  gu_owns : owns s' (space_pages (k_mem s') pgdir ++ rest) free';
  gu_perm : space_pages (k_mem s') pgdir ++ free' ≡ₚ space_pages (k_mem s) pgdir ++ free;
  gu_range : forall j, k <= j < k + n -> present (entry (k_mem s') pgdir j) = false;
  gu_other : forall j, 0 <= j < 2 ^ 20 -> ~ (k <= j < k + n) -> entry (k_mem s') pgdir j = entry (k_mem s) pgdir j;
  gu_same : forall p, Kalloc.managed (k_end s) p -> p ∉ free -> p <> pgdir -> p ∉ tables (k_mem s) pgdir ->
    p ∉ mapped (k_mem s) pgdir k n -> same_page (k_mem s) (k_mem s') p;
}.

Lemma back_off s pgdir oldsz newsz k n spare free msg out :
  owns s (space_pages (k_mem s) pgdir ++ spare) free -> Kalloc.kmem_free s -> cursor_ok s -> cons_free s ->
  0 <= oldsz < newsz -> newsz < KERNBASE -> k = (oldsz + 4095) / 4096 -> n = (newsz + 4095) / 4096 - k ->
  cprintf_fmt (codes msg) [] = Some out ->
  exists s1 s2 free', cprintf msg [] s = Ok tt s1 /\ deallocuvm pgdir newsz oldsz s1 = Ok oldsz s2 /\
    mem_console_only s s2 /\ Kalloc.kmem_free s2 /\ owns s2 (space_pages (k_mem s2) pgdir ++ spare) free' /\
    space_pages (k_mem s2) pgdir ++ free' ≡ₚ space_pages (k_mem s) pgdir ++ free /\
    dealloc_frame s s2 pgdir k n.
Proof.
  intros Hown Hf Hcur Hcons Hsz Hnew Hk Hn Hfmt.
  destruct (cprintf_ok msg [] out s Hcur Hcons Hfmt) as (s1 & Hc & Hco & _).
  pose proof (console_only_mem s s1 Hco) as (Em & Ee & Ho1 & Hf1). specialize (Ho1 _ _ Hown). specialize (Hf1 Hf).
  rewrite <- Em in Ho1.
  destruct (dealloc_spare s1 pgdir newsz oldsz k n spare free Ho1 Hf1 Hsz ltac:(lia) Hk Hn)
    as (s2 & free' & Hr & Hm & Ho2 & Hp & Hfr).
  exists s1, s2, free'. unfold dealloc_frame in *. rewrite Em, Ee in *. split_and!; try done.
  - eapply mem_console_trans_r; [|exact Hm]. exists s. split; [apply mem_only_refl|done].
  - by eapply mem_only_free.
  - exact (proj1 Hfr).
  - exact (proj1 (proj2 Hfr)).
  - exact (proj1 (proj2 (proj2 Hfr))).
  - exact (proj2 (proj2 (proj2 Hfr))).
Qed.

(** In what [dealloc_frame] says, the range is unmapped. *)
Lemma dealloc_frame_range s s' pgdir k n :
  0 <= k -> k + n <= 2 ^ 20 -> dealloc_frame s s' pgdir k n ->
  (forall j, k <= j < k + n -> present (entry (k_mem s') pgdir j) = false) /\
  (forall j, 0 <= j < 2 ^ 20 -> ~ (k <= j < k + n) -> entry (k_mem s') pgdir j = entry (k_mem s) pgdir j).
Proof.
  intros Hk Hkn (_ & _ & H & _). split; intros j Hj.
  - rewrite H by lia. destruct (Z.leb_spec k j), (Z.ltb_spec j (k + n)); try lia. cbn.
    by destruct (present (entry (k_mem s) pgdir j)) eqn:E.
  - intros Hn. rewrite H by lia. destruct (Z.leb_spec k j), (Z.ltb_spec j (k + n)); cbn; done || lia.
Qed.

(** Giving up later, after pages were allocated in the range. *)
Lemma given_up_after s s1 s' pgdir rest k n i c free free1 free' :
  k <= i -> 0 <= c -> i + c <= k + n -> 0 <= k -> k + n <= UPAGES -> allocated pgdir rest user_perm no_bytes s s1 i c free free1 ->
  given_up s1 s' pgdir rest k n free1 free' -> given_up s s' pgdir rest k n free free'.
Proof.
  intros Hi Hc Hic Hk Hkn [A1 A2 A3 (new & ->) A5 A6 A7 A8 A9] [B1 B2 B3 B4 B5 B6].
  change UPAGES with 524288 in Hkn. split; [by eapply mem_console_trans_l|done|by rewrite B3|done| |].
  - intros j Hj Hn. rewrite B5, A7 by lia. done.
  - intros p Hp Hpf Hpd Hpt Hpm. eapply same_page_trans; [by apply A8|].
    apply B6; [by rewrite (mem_only_end _ _ A1)|intros H; apply Hpf; inlist|done| |].
    + intros H. destruct (A5 p H); done.
    + intros H. apply elem_of_mapped in H as (j & Hj & Hpr & Hf). destruct (decide (i <= j < i + c)) as [Hin|Hout].
      * destruct (A6 j Hin) as (q & Hq & He & _). apply Hpf. rewrite Hf, He. unfold new_pte.
        pose proof (owns_from s s1 _ _ _ _ q (mem_only_end _ _ A1) (space_own _ _ _ _ A2) A3 Hq) as Hqm.
        by destruct (frame_make (k_end s) q (user_perm j) Hqm (user_perm_ok j)) as (-> & _ & _).
      * apply Hpm, elem_of_mapped. exists j. rewrite A7 in Hpr, Hf by lia. done.
Qed.

(** Pages that are neither free nor part of the page table. *)
Lemma outside_pages s pgdir rest free p :
  owns s (space_pages (k_mem s) pgdir ++ rest) free -> p ∈ mapped (k_mem s) pgdir 0 UPAGES ++ rest ->
  Kalloc.managed (k_end s) p /\ (p ∉ free) /\ p <> pgdir /\ p ∉ tables (k_mem s) pgdir.
Proof.
  intros Hown [Hp|Hp]%elem_of_app; [by eapply mapped_user; [eapply space_own|]|].
  split; [eapply owns_managed; [exact Hown|inlist]|]. split; [eapply owns_disjoint; [exact Hown|inlist]|].
  assert (Hn : p ∉ space_pages (k_mem s) pgdir).
  { intros Hin. destruct Hown as (_ & Hnd & _). rewrite <- app_assoc in Hnd. apply NoDup_app in Hnd as (_ & Hnd & _).
    apply (Hnd p Hin). inlist. }
  unfold space_pages in Hn. split; [intros ->|intros H]; apply Hn; inlist.
Qed.

(** ** The loop *)

Section Loop.
Context (pgdir oldsz newsz k0 n0 : Z) (rest : list Z).
Hypothesis Hold : 0 <= oldsz.
Hypothesis Hnew : newsz < KERNBASE.
Hypothesis Hk0 : k0 = (oldsz + 4095) / 4096.
Hypothesis Hn0 : n0 = (newsz + 4095) / 4096 - k0.

(** The two error exits of the loop. *)
Lemma oom_kalloc s :
  oldsz < newsz -> owns s (space_pages (k_mem s) pgdir ++ rest) [] -> Kalloc.kmem_free s -> cursor_ok s -> cons_free s ->
  exists s' free', (cprintf "allocuvm out of memory
" [] ;; deallocuvm pgdir newsz oldsz ;; kret 0) s = Ok 0 s' /\ given_up s s' pgdir rest k0 n0 [] free'.
Proof using All.
  intros Hsz Hown Hf Hcur Hcons. unfold KERNBASE in Hnew.
  destruct (back_off s pgdir oldsz newsz k0 n0 rest [] "allocuvm out of memory
" (codes "allocuvm out of memory
") Hown Hf Hcur Hcons ltac:(lia) ltac:(unfold KERNBASE; lia) Hk0 Hn0
    eq_refl) as (s1 & s2 & free' & Hc & Hd & Hm & _ & Ho & Hp & Hfr).
  exists s2, free'. rewrite (kbind_ok _ _ _ _ _ Hc), (kbind_ok _ _ _ _ _ Hd). split; [done|].
  destruct (dealloc_frame_range s s2 pgdir k0 n0) as [H1 H2]; [dlia..|done|].
  split; [done|done|done|done|done|]. intros p Hpm _ _ Hpt Hpn. by apply Hfr.
Qed.

Lemma oom_mappages s s1 p free1 :
  oldsz < newsz -> not_mapped pgdir rest s s1 p free1 -> Kalloc.managed (k_end s) p ->
  Kalloc.kmem_free s1 -> cursor_ok s1 -> cons_free s1 ->
  exists s' free', (cprintf "allocuvm out of memory (2)
" [] ;; deallocuvm pgdir newsz oldsz ;; Kalloc.kfree p ;; kret 0) s1 = Ok 0 s' /\
    given_up s s' pgdir rest k0 n0 (p :: free1) free'.
Proof using All.
  intros Hsz [N1 N2 N3 N4 N5 N6 N7] Hpm Hf Hcur Hcons. unfold KERNBASE in Hnew.
  destruct (back_off s1 pgdir oldsz newsz k0 n0 ([p] ++ rest) [] "allocuvm out of memory (2)
" (codes "allocuvm out of memory (2)
") N2 Hf Hcur Hcons ltac:(lia) ltac:(unfold KERNBASE; lia) Hk0 Hn0
    eq_refl) as (s2 & s3 & free' & Hc & Hd & Hm & Hf3 & Ho & Hp & Hfr).
  rewrite (kbind_ok _ _ _ _ _ Hc), (kbind_ok _ _ _ _ _ Hd). change ([p] ++ rest) with (p :: rest) in Ho. rewrite <- Permutation_middle in Ho.
  destruct (kfree_owned s3 p _ free' Ho Hf3) as (s4 & Hk & Hm4 & Ho4 & Hout).
  exists s4, (p :: free'). rewrite (kbind_ok _ _ _ _ _ Hk). split; [done|].
  assert (He3 : k_end s3 = k_end s) by (rewrite (mem_console_end _ _ Hm); by apply mem_only_end).
  assert (Hsame : forall q, Kalloc.managed (k_end s) q -> q <> p -> same_page (k_mem s3) (k_mem s4) q)
    by (intros q Hq Hne; apply (same_page_other (k_end s) _ _ p); [done..|by apply not_eq_sym|done]).
  assert (Hsp : forall q, q ∈ space_pages (k_mem s3) pgdir -> same_page (k_mem s3) (k_mem s4) q).
  { intros q Hq. apply Hsame.
    - rewrite <- He3. eapply owns_managed; [exact Ho|inlist].
    - intros ->. destruct Ho as (_ & Hnd & _). cbn [app] in Hnd. apply NoDup_cons in Hnd as [Hnd _]. apply Hnd.
      rewrite !elem_of_app. by left; left. }
  destruct (space_same (k_mem s3) (k_mem s4) pgdir) as (_ & Hsp4 & Hee);
    [intros q Hq; apply Hsp; unfold space_pages; inlist|].
  destruct (dealloc_frame_range s1 s3 pgdir k0 n0) as [H1 H2]; [dlia..|done|].
  split.
  - eapply mem_console_trans_l; [exact N1|]. by eapply mem_console_trans_r.
  - by rewrite Hsp4.
  - rewrite Hsp4, <- N3. rewrite <- Permutation_middle, Hp, app_nil_r. apply Permutation_cons_append.
  - intros j Hj. rewrite Hee by dlia. by apply H1.
  - intros j Hj Hn. rewrite Hee, H2, N5 by done. done.
  - intros q Hq Hqf Hqd Hqt Hqm. assert (Hqp : q <> p) by (intros ->; apply Hqf; inlist).
    assert (Hqt1 : q ∉ tables (k_mem s1) pgdir).
    { intros H. destruct (N4 q H) as [|H']; [done|]. apply Hqf. inlist. }
    eapply same_page_trans; [|by apply Hsame]. eapply same_page_trans; [by apply N6|].
    apply Hfr; [by rewrite (mem_only_end _ _ N1)|done|]. intros H. apply Hqm.
    rewrite (mapped_ext (k_mem s) (k_mem s1)) in H; [done|]. intros j Hj. apply N5. dlia.
Qed.

Lemma alloc_loop_ok n : forall fl k s free,
  owns s (space_pages (k_mem s) pgdir ++ rest) free -> Kalloc.kmem_free s -> cursor_ok s -> cons_free s ->
  k0 <= k -> k + Z.of_nat n = k0 + n0 -> (n <= fl)%nat ->
  (forall j, k <= j < k + Z.of_nat n -> present (entry (k_mem s) pgdir j) = false) ->
  exists r s' free', allocuvm_loop fl pgdir (4096 * k) oldsz newsz s = Ok r s' /\
    ((r = newsz /\ allocated pgdir rest user_perm no_bytes s s' k (Z.of_nat n) free free') \/
     (r = 0 /\ given_up s s' pgdir rest k0 n0 free free' /\ Z.of_nat (length free) < 2 * Z.of_nat n)).
Proof using All.
  unfold KERNBASE in Hnew. induction n as [|n IH]; intros fl k s free Hown Hf Hcur Hcons Hkk Hkn Hfl Hnp.
  { exists newsz, s, free. split; [|left; split; [done|by apply allocated_refl]].
    destruct fl; cbn [allocuvm_loop]; destruct (Z.ltb_spec (4096 * k) newsz); done || dlia. }
  destruct fl as [|fl]; [lia|]. cbn [allocuvm_loop].
  destruct (Z.ltb_spec (4096 * k) newsz) as [Hlt|]; [|dlia].
  assert (Hsz : oldsz < newsz) by dlia. assert (HU : UPAGES = 524288) by done.
  destruct free as [|p free1].
  { rewrite (kbind_ok _ _ _ _ _ (Kalloc.kalloc_ok s [] (proj1 Hown) Hf)).
    destruct (oom_kalloc s) as (s' & free' & Hr & Hg); [done..|]. exists 0, s', free'. cbn [Z.eqb].
    split; [exact Hr|]. right. split; [done|]. split; [done|cbn; lia]. }
  destruct (alloc_page pgdir rest user_perm no_bytes user_perm_ok s k p free1
    (fun m => StringC.memset m p 0 (Z.to_nat PGSIZE))) as (s0 & r & s2 & Hka & Hp0 & Hr & Hres);
    [done|done|rewrite HU; dlia|apply Hnp; lia|intros; by apply memset_outside|apply memset_zeroed|].
  rewrite (kbind_ok _ _ _ _ _ Hka). destruct (Z.eqb_spec p 0) as [|_]; [done|].
  rewrite (kbind_ok (modify _) _ s0 tt _ eq_refl), (kbind_ok _ _ _ _ _ Hr).
  destruct Hres as [[-> (free2 & Hal)]|[-> Hnm]]; cbn [Z.ltb Z.compare].
  - replace (4096 * k +u PGSIZE) with (4096 * (k + 1)) by (unfold PGSIZE; rewrite u32_id by dlia; lia).
    pose proof Hal as [A1 A2 _ _ _ _ A7 _ A9]. pose proof A1 as (f & m & Es2).
    destruct (IH fl (k + 1) s2 free2) as (r & s' & free' & Hr' & Hres'); [done|by eapply mem_only_free|by rewrite Es2..|lia|lia|lia| |].
    { intros j Hj. rewrite A7 by dlia. apply Hnp. lia. }
    exists r, s', free'. split; [done|]. destruct Hres' as [[-> H]|(-> & H & Hlen)]; [left|right]; (split; [done|]).
    + replace (Z.of_nat (S n)) with (1 + Z.of_nat n) by lia. eapply allocated_trans; [apply user_perm_ok|lia..|dlia| |exact Hal|exact H]. rewrite HU. dlia.
    + split; [|lia]. eapply given_up_after; [..|exact Hal|exact H]; rewrite ?HU; dlia.
  - pose proof (nm_mem_only _ _ _ _ _ _ Hnm) as Hmo. pose proof Hmo as (f & m & Es2).
    destruct (oom_mappages s s2 p free1) as (s' & free' & Hr' & Hg);
      [done|done|by destruct Hown as ((_ & _ & H) & _); apply Forall_cons in H as [? _]|by eapply mem_only_free|by rewrite Es2..|].
    exists 0, s', free'. split; [exact Hr'|]. right. split; [done|]. split; [done|].
    rewrite (nm_count _ _ _ _ _ _ Hnm). cbn. lia.
Qed.
End Loop.

Lemma allocuvm_ok (s : kstate) (pgdir oldsz newsz k n : Z) (rest free : list Z)
    (Hown : owns s (space_pages (k_mem s) pgdir ++ rest) free) (Hf : Kalloc.kmem_free s)
    (Hcur : cursor_ok s) (Hcons : cons_free s)
    (Hsz : 0 <= oldsz <= newsz) (Hnew : newsz < KERNBASE)
    (Hk : k = (oldsz + 4095) / 4096) (Hn : n = (newsz + 4095) / 4096 - k)
    (Hnp : forall j, k <= j < k + n -> present (entry (k_mem s) pgdir j) = false) :
  exists r s' free', allocuvm pgdir oldsz newsz s = Ok r s' /\
    owns s' (space_pages (k_mem s') pgdir ++ rest) free' /\
    space_pages (k_mem s') pgdir ++ free' ≡ₚ space_pages (k_mem s) pgdir ++ free /\
    (forall j, 0 <= j < 2 ^ 20 -> ~ (k <= j < k + n) -> entry (k_mem s') pgdir j = entry (k_mem s) pgdir j) /\
    (forall p, p ∈ mapped (k_mem s) pgdir 0 UPAGES ++ rest -> same_page (k_mem s) (k_mem s') p) /\
    ((r = newsz /\ mem_only s s' /\
      forall j, k <= j < k + n -> exists p, p ∈ free /\ entry (k_mem s') pgdir j = user_pte p /\ zeroed (k_mem s') p) \/
     (r = 0 /\ mem_console_only s s' /\ Z.of_nat (length free) < 2 * n /\
      forall j, k <= j < k + n -> present (entry (k_mem s') pgdir j) = false)).
Proof.
  unfold allocuvm. destruct (Z.leb_spec KERNBASE newsz); [lia|]. destruct (Z.ltb_spec newsz oldsz); [lia|].
  unfold KERNBASE in *. rewrite PGROUNDUP_spec, Z.mul_comm, <- Hk by lia.
  destruct (alloc_loop_ok pgdir oldsz newsz k n rest (proj1 Hsz) Hnew Hk Hn (Z.to_nat n) (Z.to_nat (newsz / PGSIZE + 1)) k s free)
    as (r & s' & free' & Hr & Hres); try done; try (rewrite ?Z2Nat.id by dlia; lia || done).
  { apply Z2Nat.inj_le; unfold PGSIZE; dlia. }
  rewrite Z2Nat.id in Hres by dlia. exists r, s', free'. split; [exact Hr|].
  destruct Hres as [[-> [A1 A2 A3 _ _ A6 A7 A8 _]]|(-> & [B1 B2 B3 B4 B5 B6] & Hlen)];
    (split; [done|]; split; [done|]; split; [done|]; split).
  - intros p Hp. destruct (outside_pages s pgdir rest free p Hown Hp) as (H1 & H2 & H3 & H4). by apply A8.
  - left. done.
  - intros p Hp. destruct (outside_pages s pgdir rest free p Hown Hp) as (H1 & H2 & H3 & H4). apply B6; [done..|].
    rewrite mapped_none; [apply not_elem_of_nil|done].
  - right. done.
Qed.

Lemma mapped_present m m' pgdir lo n :
  (forall k, lo <= k < lo + n -> entry m' pgdir k = entry m pgdir k \/
     present (entry m' pgdir k) = false /\ present (entry m pgdir k) = false) ->
  mapped m' pgdir lo n = mapped m pgdir lo n.
Proof.
  intros H. rewrite !mapped_unfold. apply omap_ext_in. intros k Hk%elem_of_seqZ. unfold frame_if.
  destruct (H k Hk) as [->|[-> ->]]; done.
Qed.

(** C16: [allocuvm] either grows the address space by fresh zeroed user pages, one for each new
    page, or, when the free list holds less than two pages (one for a table) for each new page,
    gives 0 with every translation as it was: then the pages of the space are those it had, and every
    page taken is back on the free list or stays with the space as a page table that maps nothing.
    In both cases the translations and pages outside the new part, and the pages [rest] of other
    owners, stay as they are, and no page is lost or shared. *)
Theorem allocuvm_grows (s : kstate) (pgdir oldsz newsz k n : Z) (rest free : list Z)
    (Hown : owns s (space_pages (k_mem s) pgdir ++ rest) free) (Hf : Kalloc.kmem_free s)
    (Hcur : cursor_ok s) (Hcons : cons_free s)
    (Hsz : 0 <= oldsz <= newsz) (Hnew : newsz < KERNBASE)
    (Hk : k = (oldsz + 4095) / 4096) (Hn : n = (newsz + 4095) / 4096 - k)
    (Hnp : forall j, k <= j < k + n -> present (entry (k_mem s) pgdir j) = false) :
  exists r s' free', allocuvm pgdir oldsz newsz s = Ok r s' /\
    owns s' (space_pages (k_mem s') pgdir ++ rest) free' /\
    space_pages (k_mem s') pgdir ++ free' ≡ₚ space_pages (k_mem s) pgdir ++ free /\
    (forall j, 0 <= j < 2 ^ 20 -> ~ (k <= j < k + n) -> entry (k_mem s') pgdir j = entry (k_mem s) pgdir j) /\
    (forall p, p ∈ mapped (k_mem s) pgdir 0 UPAGES ++ rest -> same_page (k_mem s) (k_mem s') p) /\
    ((r = newsz /\ mem_only s s' /\
      forall j, k <= j < k + n -> exists p, p ∈ free /\ entry (k_mem s') pgdir j = user_pte p /\ zeroed (k_mem s') p) \/
     (r = 0 /\ mem_console_only s s' /\ Z.of_nat (length free) < 2 * n /\
      (forall j, k <= j < k + n -> present (entry (k_mem s') pgdir j) = false) /\
      mapped (k_mem s') pgdir 0 UPAGES = mapped (k_mem s) pgdir 0 UPAGES /\
      tables (k_mem s') pgdir ++ free' ≡ₚ tables (k_mem s) pgdir ++ free)).
Proof.
  destruct (allocuvm_ok s pgdir oldsz newsz k n rest free Hown Hf Hcur Hcons Hsz Hnew Hk Hn Hnp)
    as (r & s' & free' & H1 & H2 & H3 & H4 & H5 & H6).
  exists r, s', free'. do 5 (split; [done|]). destruct H6 as [?|(Hr & Hc & Hl & Hj)]; [by left|right].
  assert (Hm : mapped (k_mem s') pgdir 0 UPAGES = mapped (k_mem s) pgdir 0 UPAGES).
  { apply mapped_present. change UPAGES with 524288. intros j Hj0. destruct (decide (k <= j < k + n)) as [Hin|Hout].
    - right. auto.
    - left. apply H4; [lia|done]. }
  split; [done|]. split; [done|]. split; [done|]. split; [done|]. split; [done|].
  unfold space_pages in H3. rewrite Hm in H3. cbn [app] in H3. apply Permutation_cons_inv in H3.
  rewrite <- !app_assoc in H3. rewrite !(Permutation_app_comm (mapped _ _ _ _)), !app_assoc in H3.
  by apply Permutation_app_inv_r in H3.
Qed.

Lemma allocuvm_grows_witness :
  exists r s', allocuvm small_pgdir 5000 9000 small = Ok r s' /\ (r = 9000 \/ r = 0).
Proof.
  destruct small_ok as [Hsp Hf].
  destruct (allocuvm_grows small small_pgdir 5000 9000 2 1 [] (rev (take 2 top_pages)))
    as (r & s' & free' & H & _ & _ & _ & _ & Hr).
  - rewrite app_nil_r. exact Hsp.
  - exact Hf.
  - unfold cursor_ok. vm_compute. split; congruence.
  - intros E. vm_compute in E. discriminate E.
  - lia.
  - unfold KERNBASE. lia.
  - reflexivity.
  - reflexivity.
  - intros j Hj. replace j with 2 by lia. vm_compute. reflexivity.
  - exists r, s'. split; [exact H|]. destruct Hr as [[-> _]|[-> _]]; [left|right]; reflexivity.
Defined.
