(* ===== verification/Umem.v ===== *)
(** * User memory: what the kernel reads and writes on behalf of a process (vm.c)

    The bytes of an address space seen through its page table, and what writing them does:
    through the hardware's page walk, as system calls write to pointers they were given, and
    through [copyout], which walks the table itself. *)

From S2P Require Import Prelude Mem StringC Kernel Mmu Kalloc Sched Bio Layout Log Printf Cons Fs Vm Space Mapping Pages.

Definition upage (m : mem) (pgdir va : Z) : Z := entry m pgdir (va / 4096).
Definition uaddr (m : mem) (pgdir va : Z) : Z := frame (upage m pgdir va) + va mod 4096.
Definition ubyte (m : mem) (pgdir va : Z) : Z := load8 m (uaddr m pgdir va).

(** The pages [va] to [va + n - 1] lie on are present and satisfy [P]. *)
Definition urange (P : Z -> Prop) (m : mem) (pgdir va n : Z) : Prop :=
  0 <= va /\ va + n <= KERNBASE /\
  forall v, va <= v < va + n -> present (upage m pgdir v) = true /\ P (upage m pgdir v).
Definition writable (e : Z) : Prop := e .& PTE_W <> 0.
Definition user (e : Z) : Prop := e .& PTE_U <> 0.

(** [s'] is [s] with the bytes [bs] at [va]. *)
Record user_written (s s' : kstate) (pgdir va : Z) (bs rest free : list Z) : Prop := {
  uw_mem : exists m, s' = upd_k_mem (fun _ => m) s;
  uw_owns : owns s' (space_pages (k_mem s') pgdir ++ rest) free;
  uw_pages : space_pages (k_mem s') pgdir = space_pages (k_mem s) pgdir;
  uw_entry : forall j, 0 <= j < 2 ^ 20 -> entry (k_mem s') pgdir j = entry (k_mem s) pgdir j;
  uw_byte : forall v, 0 <= v < KERNBASE -> present (upage (k_mem s) pgdir v) = true ->
    ubyte (k_mem s') pgdir v =
      if (va <=? v) && (v <? va + Z.of_nat (length bs)) then u8 (bs !!! Z.to_nat (v - va)) else ubyte (k_mem s) pgdir v;
  uw_same : same_outside s s' (mapped (k_mem s) pgdir 0 UPAGES);
  uw_dir : same_page (k_mem s) (k_mem s') pgdir;
}.

Lemma upage_entry m m' pgdir :
  (forall j, 0 <= j < 2 ^ 20 -> entry m' pgdir j = entry m pgdir j) ->
  forall v, 0 <= v < KERNBASE -> upage m' pgdir v = upage m pgdir v /\ uaddr m' pgdir v = uaddr m pgdir v.
Proof.
  intros H v Hv. unfold KERNBASE in Hv. unfold uaddr, upage. rewrite H by dlia. done.
Qed.

Lemma user_written_nil s pgdir va rest free :
  owns s (space_pages (k_mem s) pgdir ++ rest) free -> user_written s s pgdir va [] rest free.
Proof.
  intros H. split; [exists (k_mem s); by destruct s|done|done|done| |by intros p _ _|done].
  intros v Hv Hp. change (Z.of_nat (length [])) with 0.
  destruct (Z.leb_spec va v), (Z.ltb_spec v (va + 0)); cbn; done || lia.
Qed.

Lemma user_written_app s1 s2 s3 pgdir va bs1 bs2 rest free :
  user_written s1 s2 pgdir va bs1 rest free ->
  user_written s2 s3 pgdir (va + Z.of_nat (length bs1)) bs2 rest free ->
  user_written s1 s3 pgdir va (bs1 ++ bs2) rest free.
Proof.
  intros [(m1 & E1) A2 A3 A4 A5 A6 A7] [(m2 & E2) B2 B3 B4 B5 B6 B7]. split.
  - exists m2. rewrite E2, E1. by destruct s1.
  - done.
  - by rewrite B3.
  - intros j Hj. by rewrite B4, A4.
  - intros v Hv Hp. destruct (upage_entry _ _ _ A4 v Hv) as [Hpg _].
    rewrite B5 by (done || by rewrite Hpg). rewrite A5 by done. rewrite length_app, Nat2Z.inj_add.
    destruct (Z.leb_spec va v), (Z.leb_spec (va + Z.of_nat (length bs1)) v), (Z.ltb_spec v (va + Z.of_nat (length bs1))),
      (Z.ltb_spec v (va + Z.of_nat (length bs1) + Z.of_nat (length bs2))),
      (Z.ltb_spec v (va + (Z.of_nat (length bs1) + Z.of_nat (length bs2)))); cbn; try lia; try done.
    + f_equal. rewrite lookup_total_app_r by lia. f_equal. lia.
    + f_equal. by rewrite lookup_total_app_l by lia.
  - assert (Em : mapped (k_mem s2) pgdir 0 UPAGES = mapped (k_mem s1) pgdir 0 UPAGES)
      by (apply mapped_ext; change UPAGES with 524288; intros j Hj; apply A4; lia).
    intros p Hp Hn. eapply same_page_trans; [by apply A6|]. apply B6; [by rewrite E1|by rewrite Em].
  - by eapply same_page_trans.
Qed.

Section Space.
Context (s : kstate) (pgdir : Z) (rest free : list Z).
Hypothesis Hown : owns s (space_pages (k_mem s) pgdir ++ rest) free.

Lemma upage_mapped v : 0 <= v < KERNBASE -> present (upage (k_mem s) pgdir v) = true ->
  frame (upage (k_mem s) pgdir v) ∈ mapped (k_mem s) pgdir 0 UPAGES.
Proof using Type.
  unfold KERNBASE. intros Hv Hp. apply elem_of_mapped. exists (v / 4096). change UPAGES with 524288.
  split; [dlia|]. done.
Qed.

(** The hardware's walk and the entries of the table agree. *)
Lemma translate_user v : 0 <= v < KERNBASE ->
  translate (k_mem s) (V2P pgdir) v =
    if present (upage (k_mem s) pgdir v) then Some (uaddr (k_mem s) pgdir v, upage (k_mem s) pgdir v) else None.
Proof using All.
  unfold KERNBASE. intros Hv.
  assert (Hd : Kalloc.managed (k_end s) pgdir) by (eapply owns_managed; [exact (space_own s pgdir rest free Hown)|unfold space_pages; inlist]).
  unfold translate. rewrite (proj2 (proj2 (V2P_managed _ _ Hd))), PDX_spec, PTX_spec by lia.
  replace (v / 2 ^ 22) with (v / 4096 / 1024) by dlia. change (2 ^ 12) with 4096. change (2 ^ 10) with 1024.
  rewrite (proj1 (managed_word _ _ (v / 4096 / 1024) Hd ltac:(dlia))).
  fold (pde (k_mem s) pgdir (v / 4096 / 1024)).
  unfold upage, entry. destruct (present (pde (k_mem s) pgdir (v / 4096 / 1024))) eqn:Hp; [|by rewrite present_zero].
  fold (frame (pde (k_mem s) pgdir (v / 4096 / 1024))).
  assert (Ht : Kalloc.managed (k_end s) (frame (pde (k_mem s) pgdir (v / 4096 / 1024)))).
  { pose proof (table_of (k_mem s) pgdir (v / 4096) ltac:(dlia) Hp). eapply owns_managed; [exact (space_own s pgdir rest free Hown)|].
    unfold space_pages. inlist. }
  rewrite (proj1 (managed_word _ _ (v / 4096 mod 1024) Ht ltac:(dlia))).
  unfold uaddr, upage, entry. rewrite Hp. reflexivity.
Qed.

(** Different virtual addresses are different bytes of memory. *)
Lemma uaddr_inj v w : 0 <= v < KERNBASE -> 0 <= w < KERNBASE ->
  present (upage (k_mem s) pgdir v) = true -> present (upage (k_mem s) pgdir w) = true ->
  uaddr (k_mem s) pgdir v = uaddr (k_mem s) pgdir w -> v = w.
Proof using All.
  intros Hv Hw Hpv Hpw E. pose proof (space_own s pgdir rest free Hown) as Ho.
  destruct (mapped_user s pgdir free _ Ho (upage_mapped v Hv Hpv)) as (Hmv & _).
  destruct (mapped_user s pgdir free _ Ho (upage_mapped w Hw Hpw)) as (Hmw & _).
  unfold uaddr, KERNBASE in *.
  assert (Ef : frame (upage (k_mem s) pgdir v) = frame (upage (k_mem s) pgdir w)).
  { destruct (decide (frame (upage (k_mem s) pgdir v) = frame (upage (k_mem s) pgdir w))) as [|Hne]; [done|].
    destruct (Kalloc.managed_apart _ _ _ Hmv Hmw Hne); unfold PGSIZE in *; dlia. }
  enough (v / 4096 = w / 4096) by dlia.
  destruct Ho as (_ & Hnd & _). unfold space_pages in Hnd. cbn [app] in Hnd. apply NoDup_cons in Hnd as [_ Hnd].
  rewrite <- app_assoc in Hnd. apply NoDup_app in Hnd as (_ & _ & Hnd). apply NoDup_app in Hnd as (Hnd & _ & _).
  rewrite mapped_unfold in Hnd. change UPAGES with 524288 in Hnd. unfold upage in *.
  apply (omap_NoDup_inj (fun k => frame_if (entry (k_mem s) pgdir k)) (seqZ 0 524288) _ _ (frame (entry (k_mem s) pgdir (v / 4096))) Hnd);
    [apply elem_of_seqZ; dlia..| |]; unfold frame_if.
  - by rewrite Hpv.
  - by rewrite Hpw, Ef.
Qed.
End Space.

(** Writing a page of the user's leaves the page table alone. *)
Lemma user_page_write s pgdir rest free f m' :
  owns s (space_pages (k_mem s) pgdir ++ rest) free -> f ∈ mapped (k_mem s) pgdir 0 UPAGES ->
  (forall a, a < f \/ f + PGSIZE <= a -> load8 m' a = load8 (k_mem s) a) ->
  let s' := upd_k_mem (fun _ => m') s in
  same_outside s s' [f] /\ space_pages m' pgdir = space_pages (k_mem s) pgdir /\
  owns s' (space_pages m' pgdir ++ rest) free /\ same_page (k_mem s) m' pgdir /\
  forall j, 0 <= j < 2 ^ 20 -> entry m' pgdir j = entry (k_mem s) pgdir j.
Proof.
  intros Hown Hf Hout s'. pose proof (space_own s pgdir rest free Hown) as Ho.
  destruct (mapped_user s pgdir free f Ho Hf) as (Hfm & Hff & Hfd & Hft).
  assert (Hs : same_outside s s' [f]) by (by apply same_outside_1).
  assert (Hpage : forall q, q ∈ pgdir :: tables (k_mem s) pgdir -> same_page (k_mem s) m' q).
  { intros q Hq. apply Hs; [eapply owns_managed; [exact Ho|unfold space_pages; inlist]|].
    rewrite list_elem_of_singleton. intros ->. inlist. }
  destruct (space_same (k_mem s) m' pgdir Hpage) as (_ & Hsp & He).
  split; [done|]. split; [done|]. split; [|split; [apply Hpage; inlist|done]]. rewrite Hsp. destruct Hown as (Hk & Hnd & Hall).
  split; [|done]. by apply (kmem_ok_write s _ free f).
Qed.

(** Writing some bytes of one page. *)
Lemma user_chunk s pgdir rest free va bs :
  owns s (space_pages (k_mem s) pgdir ++ rest) free -> 0 <= va < KERNBASE ->
  va mod 4096 + Z.of_nat (length bs) <= 4096 -> present (upage (k_mem s) pgdir va) = true ->
  user_written s (upd_k_mem (fun m => stores m (uaddr (k_mem s) pgdir va) bs) s) pgdir va bs rest free.
Proof.
  intros Hown Hva Hlen Hp. set (a := uaddr (k_mem s) pgdir va). set (m' := stores (k_mem s) a bs).
  set (f := frame (upage (k_mem s) pgdir va)). pose proof (upage_mapped s pgdir va Hva Hp) as Hf. fold f in Hf.
  assert (Ha : a = f + va mod 4096) by done.
  destruct (user_page_write s pgdir rest free f m' Hown Hf) as (Hs & Hsp & Ho & Hdir & He).
  { intros b Hb. apply load8_stores_out. unfold PGSIZE in Hb. dlia. }
  split; [by exists m'|done|done|done| | |done].
  - intros v Hv Hpv. unfold ubyte. destruct (upage_entry _ _ _ He v Hv) as [_ Eu].
    cbn [k_mem upd_k_mem]. fold m'. rewrite Eu. unfold m'. rewrite load8_stores. unfold KERNBASE in *.
    destruct (decide (va <= v < va + Z.of_nat (length bs))) as [Hin|Hout].
    + assert (Ev : uaddr (k_mem s) pgdir v = a + (v - va)).
      { unfold uaddr. rewrite Ha. unfold f, upage. replace (v / 4096) with (va / 4096) by dlia. dlia. }
      rewrite Ev. replace (a + (v - va) - a) with (v - va) by lia.
      destruct (Z.leb_spec a (a + (v - va))), (Z.ltb_spec (a + (v - va)) (a + Z.of_nat (length bs))),
        (Z.leb_spec va v), (Z.ltb_spec v (va + Z.of_nat (length bs))); cbn; done || lia.
    + assert (Hn : ~ (a <= uaddr (k_mem s) pgdir v < a + Z.of_nat (length bs))).
      { intros Hin. set (w := va + (uaddr (k_mem s) pgdir v - a)).
        assert (Ew : w / 4096 = va / 4096) by (unfold w; dlia).
        assert (Hw : v = w); [|unfold w in Hw; lia].
        apply (uaddr_inj s pgdir rest free Hown); [done|unfold KERNBASE, w; dlia|done|unfold upage in *; by rewrite Ew|].
        unfold uaddr at 2. unfold upage. rewrite Ew. fold (upage (k_mem s) pgdir va). fold f. unfold w in *. dlia. }
      destruct (Z.leb_spec a (uaddr (k_mem s) pgdir v)), (Z.ltb_spec (uaddr (k_mem s) pgdir v) (a + Z.of_nat (length bs))),
        (Z.leb_spec va v), (Z.ltb_spec v (va + Z.of_nat (length bs))); cbn; done || lia.
  - intros p Hpm Hn. apply Hs; [done|]. rewrite list_elem_of_singleton. by intros ->.
Qed.

(** ** Through the page walk of the hardware *)

Lemma uload8_ok s pgdir rest free va :
  owns s (space_pages (k_mem s) pgdir ++ rest) free -> k_cr3 s = V2P pgdir -> 0 <= va < KERNBASE ->
  present (upage (k_mem s) pgdir va) = true -> uload8 va s = Ok (ubyte (k_mem s) pgdir va) s.
Proof.
  intros Hown Hcr Hva Hp. unfold uload8. rewrite Hcr, (translate_user s pgdir rest free Hown va Hva), Hp. done.
Qed.

Lemma uloads_ok n : forall va s pgdir rest free,
  owns s (space_pages (k_mem s) pgdir ++ rest) free -> k_cr3 s = V2P pgdir ->
  urange (fun _ => True) (k_mem s) pgdir va (Z.of_nat n) ->
  uloads va n s = Ok (map (ubyte (k_mem s) pgdir) (seqZ va (Z.of_nat n))) s.
Proof.
  induction n as [|n IH]; intros va s pgdir rest free Hown Hcr (H0 & H1 & H2); [done|].
  cbn [uloads]. destruct (H2 va ltac:(lia)) as [Hp _].
  rewrite (kbind_ok _ _ _ _ _ (uload8_ok s pgdir rest free va Hown Hcr ltac:(lia) Hp)).
  rewrite (kbind_ok _ _ _ _ _ (IH (va + 1) s pgdir rest free Hown Hcr ltac:(split_and!; [lia..|]; intros; apply H2; lia))).
  rewrite (seqZ_cons va (Z.of_nat (S n))) by lia. cbn. unfold kret. do 3 f_equal. f_equal; lia.
Qed.

Lemma ustores_ok bs : forall va s pgdir rest free,
  owns s (space_pages (k_mem s) pgdir ++ rest) free -> k_cr3 s = V2P pgdir ->
  urange writable (k_mem s) pgdir va (Z.of_nat (length bs)) ->
  exists s', ustores va bs s = Ok tt s' /\ user_written s s' pgdir va bs rest free.
Proof.
  induction bs as [|b bs IH]; intros va s pgdir rest free Hown Hcr (H0 & H1 & H2).
  { exists s. split; [done|]. by apply user_written_nil. }
  cbn [length] in *. destruct (H2 va ltac:(lia)) as [Hp Hw].
  assert (Hst : ustore8 va b s = Ok tt (upd_k_mem (fun m => stores m (uaddr (k_mem s) pgdir va) [b]) s)).
  { unfold ustore8. rewrite Hcr, (translate_user s pgdir rest free Hown va ltac:(lia)), Hp.
    by destruct (Z.eqb_spec (upage (k_mem s) pgdir va .& PTE_W) 0). }
  pose proof (user_chunk s pgdir rest free va [b] Hown ltac:(lia) ltac:(cbn; dlia) Hp) as Hu.
  set (s1 := upd_k_mem _ s) in *. cbn [ustores]. rewrite (kbind_ok _ _ _ _ _ Hst).
  pose proof Hu as [(m1 & E1) A2 _ A4 _ _ _].
  destruct (IH (va + 1) s1 pgdir rest free A2) as (s' & Hr & Hu'); [by rewrite E1| |].
  { split_and!; [lia..|]. intros v Hv. destruct (upage_entry _ _ _ A4 v ltac:(lia)) as [-> _]. apply H2. lia. }
  exists s'. split; [done|]. by apply (user_written_app s s1 s' pgdir va [b] bs).
Qed.

Lemma user_store_loads (s : kstate) (pgdir va : Z) (bs rest free : list Z)
    (Hown : owns s (space_pages (k_mem s) pgdir ++ rest) free) (Hcr : k_cr3 s = V2P pgdir)
    (Hrange : urange writable (k_mem s) pgdir va (Z.of_nat (length bs))) (Hbs : Forall (field_ok 8) bs) :
  exists s', ustores va bs s = Ok tt s' /\ uloads va (length bs) s' = Ok bs s' /\
    user_written s s' pgdir va bs rest free.
Proof.
  destruct (ustores_ok bs va s pgdir rest free Hown Hcr Hrange) as (s' & Hr & Hu). exists s'. split; [done|]. split; [|done].
  pose proof Hu as [(m & E) A2 _ A4 A5 _ _]. destruct Hrange as (H0 & H1 & H2).
  rewrite (uloads_ok _ va s' pgdir rest free A2); [|by rewrite E|].
  - f_equal. apply list_eq. intros i. rewrite list_lookup_fmap. destruct (decide (i < length bs)%nat) as [Hi|Hi].
    + rewrite lookup_seqZ_lt by lia. cbn. destruct (H2 (va + Z.of_nat i) ltac:(lia)) as [Hp _].
      rewrite A5 by (lia || done). destruct (Z.leb_spec va (va + Z.of_nat i)); [|lia].
      destruct (Z.ltb_spec (va + Z.of_nat i) (va + Z.of_nat (length bs))); [|lia]. cbn.
      replace (Z.to_nat (va + Z.of_nat i - va)) with i by lia.
      rewrite (list_lookup_lookup_total_lt bs i) by done. f_equal. apply u8_id.
      rewrite Forall_lookup in Hbs. by apply (Hbs i), list_lookup_lookup_total_lt.
    + rewrite lookup_seqZ_ge by lia. by rewrite lookup_ge_None_2 by lia.
  - split_and!; [lia..|]. intros v Hv. destruct (upage_entry _ _ _ A4 v ltac:(lia)) as [-> _].
    by destruct (H2 v Hv).
Qed.

(** What the kernel writes to a writable range of the memory of the process it runs for,
    it reads back from there; every other byte of the process and every page that is not the
    process's stays as it was. *)
Theorem user_store_load (s : kstate) (pgdir va : Z) (bs rest free : list Z)
    (Hown : owns s (space_pages (k_mem s) pgdir ++ rest) free) (Hcr : k_cr3 s = V2P pgdir)
    (Hrange : urange writable (k_mem s) pgdir va (Z.of_nat (length bs))) (Hbs : Forall (field_ok 8) bs) :
  exists s', ustores va bs s = Ok tt s' /\ uloads va (length bs) s' = Ok bs s' /\
    user_written s s' pgdir va bs rest free.
Proof. by apply user_store_loads. Qed.

(** The page table the CPU uses is not part of the memory. *)
Lemma space_cr3 s g pgdir rest free :
  owns s (space_pages (k_mem s) pgdir ++ rest) free ->
  owns (upd_k_cr3 g s) (space_pages (k_mem (upd_k_cr3 g s)) pgdir ++ rest) free.
Proof. done. Qed.

Lemma urange_cr3 P s g pgdir va n :
  urange P (k_mem s) pgdir va n -> urange P (k_mem (upd_k_cr3 g s)) pgdir va n.
Proof. done. Qed.

Lemma user_store_load_witness :
  exists s', ustores 4090 [1; 2; 3; 4; 5; 6; 7; 8] (upd_k_cr3 (fun _ => V2P small_pgdir) small) = Ok tt s' /\
    uloads 4090 8 s' = Ok [1; 2; 3; 4; 5; 6; 7; 8] s'.
Proof.
  destruct (user_store_load (upd_k_cr3 (fun _ => V2P small_pgdir) small) small_pgdir 4090 [1; 2; 3; 4; 5; 6; 7; 8] []
    (rev (take 2 top_pages))) as (s' & H1 & H2 & _).
  - apply space_cr3. rewrite app_nil_r. exact (proj1 small_ok).
  - reflexivity.
  - apply urange_cr3. cbn [length]. split; [lia|]. split; [unfold KERNBASE; lia|]. intros v Hv. unfold upage.
    assert (Hk : v / 4096 = 0 \/ v / 4096 = 1) by dlia.
    destruct Hk as [-> | ->]; vm_compute; split; congruence.
  - by_decide.
  - exists s'. split; [exact H1|exact H2].
Defined.

(** ** Through [copyout] *)

Lemma uva2ka_ok s pgdir rest free va :
  owns s (space_pages (k_mem s) pgdir ++ rest) free -> 0 <= va < KERNBASE ->
  present (pde (k_mem s) pgdir (va / 4096 / 1024)) = true ->
  uva2ka pgdir (PGROUNDDOWN va) s =
    Ok (if present (upage (k_mem s) pgdir va) && negb (upage (k_mem s) pgdir va .& PTE_U =? 0)
        then frame (upage (k_mem s) pgdir va) else 0) s.
Proof.
  unfold KERNBASE. intros Hown Hva Hp. pose proof (space_own s pgdir rest free Hown) as Ho.
  rewrite PGROUNDDOWN_spec, Z.mul_comm by lia. unfold uva2ka.
  destruct (walk_noalloc s pgdir (va / 4096)) as [Hw Hnz].
  - eapply owns_managed; [exact Ho|unfold space_pages; inlist].
  - dlia.
  - intros H. pose proof (table_of (k_mem s) pgdir (va / 4096) ltac:(dlia) H).
    eapply owns_managed; [exact Ho|unfold space_pages; inlist].
  - rewrite (kbind_ok _ _ _ _ _ Hw), Hp. specialize (Hnz Hp).
    destruct (Z.eqb_spec (slot (k_mem s) pgdir (va / 4096)) 0); [done|].
    rewrite (kbind_ok _ _ _ _ _ (ldw_ok _ s)), <- entry_slot by done. fold (upage (k_mem s) pgdir va).
    destruct (present (upage (k_mem s) pgdir va)); [|done]. cbn [negb andb].
    by destruct (upage (k_mem s) pgdir va .& PTE_U =? 0).
Qed.

Lemma upage_pde m pgdir va : present (upage m pgdir va) = true -> present (pde m pgdir (va / 4096 / 1024)) = true.
Proof. unfold upage, entry. by destruct (present (pde m pgdir (va / 4096 / 1024))). Qed.

(** The number of bytes a round of the loop copies. *)
Definition chunk (va len : Z) : Z := Z.min len (4096 - va mod 4096).

Lemma copyout_round fl s pgdir rest free va bs :
  owns s (space_pages (k_mem s) pgdir ++ rest) free -> 0 <= va < KERNBASE -> bs <> [] ->
  present (upage (k_mem s) pgdir va) = true -> user (upage (k_mem s) pgdir va) ->
  let n := Z.to_nat (chunk va (Z.of_nat (length bs))) in
  let s1 := upd_k_mem (fun m => stores m (uaddr (k_mem s) pgdir va) (take n bs)) s in
  user_written s s1 pgdir va (take n bs) rest free /\
  copyout_loop (S fl) pgdir va bs s = copyout_loop fl pgdir (va / 4096 * 4096 + 4096) (drop n bs) s1.
Proof.
  intros Hown Hva Hne Hp Hu n s1. pose proof (space_own s pgdir rest free Hown) as Ho.
  destruct (mapped_user s pgdir free _ Ho (upage_mapped s pgdir va Hva Hp)) as (Hfm & _).
  pose proof (Kalloc.managed_range _ _ Hfm) as (Hf1 & Hf2 & _).
  assert (Hlen : 0 < Z.of_nat (length bs)) by (destruct bs; [done|cbn; lia]).
  split; [apply user_chunk; [done|done| |done]; rewrite length_take; unfold n, chunk; dlia|].
  cbn [copyout_loop]. destruct (Z.ltb_spec 0 (Z.of_nat (length bs))); [|lia].
  rewrite (kbind_ok _ _ _ _ _ (uva2ka_ok s pgdir rest free va Hown Hva (upage_pde _ _ _ Hp))), Hp.
  unfold user in Hu. destruct (Z.eqb_spec (upage (k_mem s) pgdir va .& PTE_U) 0); [done|]. cbn [negb andb].
  set (f := frame (upage (k_mem s) pgdir va)) in *. unfold KERNBASE, PHYSTOP, PGSIZE in *.
  destruct (Z.eqb_spec f 0); [lia|]. rewrite PGROUNDDOWN_spec by lia.
  replace (va -u va / 4096 * 4096) with (va mod 4096) by (rewrite u32_id; dlia).
  rewrite (u32_id (4096 - va mod 4096)) by dlia. rewrite (u32_id (f + _)) by dlia.
  rewrite (u32_id (va / 4096 * 4096 + 4096)) by dlia.
  replace (if Z.of_nat (length bs) <? 4096 - va mod 4096 then Z.of_nat (length bs) else 4096 - va mod 4096)
    with (chunk va (Z.of_nat (length bs))) by (unfold chunk; destruct (Z.ltb_spec (Z.of_nat (length bs)) (4096 - va mod 4096)); lia).
  reflexivity.
Qed.

(** [copyout] gets past user pages up to a page boundary or to the end of what it copies. *)
Lemma copyout_prefix fl : forall s pgdir rest free va bs1 bs2,
  owns s (space_pages (k_mem s) pgdir ++ rest) free ->
  urange user (k_mem s) pgdir va (Z.of_nat (length bs1)) -> (length (bs1 ++ bs2) <= fl)%nat ->
  bs2 = [] \/ (va + Z.of_nat (length bs1)) mod 4096 = 0 \/ bs1 = [] ->
  exists s' fl' va', user_written s s' pgdir va bs1 rest free /\ (length bs2 <= fl')%nat /\
    (bs2 <> [] -> va' = va + Z.of_nat (length bs1)) /\
    copyout_loop fl pgdir va (bs1 ++ bs2) s = copyout_loop fl' pgdir va' bs2 s'.
Proof.
  induction fl as [|fl IH]; intros s pgdir rest free va bs1 bs2 Hown (H0 & H1 & H2) Hfl Hb.
  { destruct bs1, bs2; try (cbn in Hfl; lia). exists s, O, va. split; [by apply user_written_nil|]. done. }
  destruct (decide (bs1 = [])) as [->|Hne].
  { exists s, (S fl), va. split; [by apply user_written_nil|]. split; [done|]. split; [cbn; lia|done]. }
  assert (Hl1 : 0 < Z.of_nat (length bs1)) by (destruct bs1; [done|cbn; lia]).
  destruct (H2 va ltac:(lia)) as [Hp Hu].
  destruct (copyout_round fl s pgdir rest free va (bs1 ++ bs2)) as [Hw Hr]; [done|lia|by destruct bs1|done|done|].
  set (n := Z.to_nat (chunk va (Z.of_nat (length (bs1 ++ bs2))))) in *.
  assert (Hn : (0 < n <= length bs1)%nat).
  { unfold n, chunk. rewrite length_app. split; [apply Nat2Z.inj_lt; rewrite Z2Nat.id; dlia|].
    apply Nat2Z.inj_le. rewrite Z2Nat.id by dlia. destruct Hb as [->|[Hb|Hb]]; [cbn; lia| |done]. dlia. }
  rewrite take_app_le, drop_app_le in * by lia.
  set (s1 := upd_k_mem _ s) in *. rewrite Hr. pose proof Hw as [(m1 & E1) A2 _ A4 _ _ _].
  rewrite length_app in Hfl.
  assert (Hlt : length (take n bs1) = n) by (rewrite length_take; lia).
  destruct (decide (drop n bs1 = [] /\ bs2 = [])) as [[Ed ->]|Hmore].
  - rewrite Ed. exists s1, fl, (va / 4096 * 4096 + 4096).
    assert (Et : take n bs1 = bs1) by (rewrite <- (take_drop n bs1) at 2; by rewrite Ed, app_nil_r).
    rewrite Et in Hw. split; [done|]. split; [cbn; lia|]. done.
  - assert (Eva : va / 4096 * 4096 + 4096 = va + Z.of_nat n).
    { assert (Hc : chunk va (Z.of_nat (length (bs1 ++ bs2))) = 4096 - va mod 4096); [|unfold n; rewrite Hc; dlia].
      unfold n, chunk in *. rewrite length_app in *. apply Z.min_r. apply Z.nlt_ge. intros Hlt'.
      apply Hmore. destruct bs2; [|cbn in *; dlia]. split; [|done]. apply drop_ge. rewrite Z.min_l by lia. cbn. lia. }
    destruct (IH s1 pgdir rest free (va / 4096 * 4096 + 4096) (drop n bs1) bs2 A2) as (s' & fl' & va' & Hw' & Hfl' & Hva' & Hr').
    + rewrite Eva, length_drop. split_and!; [lia..|]. intros v Hv.
      destruct (upage_entry _ _ _ A4 v ltac:(lia)) as [-> _]. apply H2. lia.
    + rewrite length_app, length_drop. lia.
    + rewrite Eva, length_drop. destruct Hb as [->|[Hb|]]; [by left|right; left|done].
      replace (va + Z.of_nat n + Z.of_nat (length bs1 - n)) with (va + Z.of_nat (length bs1)) by lia. done.
    + exists s', fl', va'. split; [|split; [done|split; [|done]]].
      * rewrite <- (take_drop n bs1). eapply user_written_app; [done|]. by rewrite Hlt, <- Eva.
      * intros Hb2. rewrite Hva' by done. rewrite Eva, length_drop. lia.
Qed.

(** A page whose table exists but that the user may not use. *)
Definition refused (m : mem) (pgdir va : Z) : Prop :=
  0 <= va < KERNBASE /\ present (pde m pgdir (va / 4096 / 1024)) = true /\
  (present (upage m pgdir va) = false \/ upage m pgdir va .& PTE_U = 0).

Lemma copyout_done fl pgdir va s : copyout_loop fl pgdir va [] s = Ok 0 s.
Proof. by destruct fl. Qed.

Lemma copyout_stop fl s pgdir rest free va bs :
  owns s (space_pages (k_mem s) pgdir ++ rest) free -> refused (k_mem s) pgdir va -> bs <> [] -> (length bs <= fl)%nat ->
  copyout_loop fl pgdir va bs s = Ok (-1) s.
Proof.
  intros Hown (Hva & Hp & Hr) Hne Hfl. destruct bs as [|b bs]; [done|]. destruct fl as [|fl]; [cbn in Hfl; lia|].
  cbn [copyout_loop]. destruct (Z.ltb_spec 0 (Z.of_nat (length (b :: bs)))); [|cbn in *; lia].
  rewrite (kbind_ok _ _ _ _ _ (uva2ka_ok s pgdir rest free va Hown Hva Hp)).
  destruct Hr as [-> | ->]; [|rewrite andb_false_r]; done.
Qed.

(** A page with no table: the code takes the word at address 0 of the address space the CPU is in
    for its entry. *)
Definition no_table (m : mem) (pgdir va : Z) : Prop :=
  0 <= va < KERNBASE /\ present (pde m pgdir (va / 4096 / 1024)) = false.

Definition through_null (fl : nat) (pgdir va : Z) (bs : list Z) : K Z :=
  let n := Z.to_nat (chunk va (Z.of_nat (length bs))) in
  w <- uload32 0;
  if negb (present w) || (w .& PTE_U =? 0) || (P2V (PTE_ADDR w) =? 0) then kret (-1) else
  modify (upd_k_mem (fun m => stores m (P2V (PTE_ADDR w) +u va mod 4096) (take n bs))) ;;
  copyout_loop fl pgdir (va / 4096 * 4096 + 4096) (drop n bs).

Lemma uloads_run n : forall va s, (exists bs, uloads va n s = Ok bs s) \/ uloads va n s = Panic "trap".
Proof.
  induction n as [|n IH]; intros va s; [left; by exists []|]. cbn [uloads].
  destruct (translate (k_mem s) (k_cr3 s) va) as [[a e]|] eqn:E.
  - assert (H : uload8 va s = Ok (load8 (k_mem s) a) s) by (unfold uload8; by rewrite E). rewrite (kbind_ok _ _ _ _ _ H).
    destruct (IH (va + 1) s) as [[bs Hb]|Hb]; [left|right].
    + rewrite (kbind_ok _ _ _ _ _ Hb). by eexists.
    + by rewrite (kbind_panic _ _ _ _ Hb).
  - right. unfold kbind, uload8. by rewrite E.
Qed.

Lemma uload32_run va s : (exists w, uload32 va s = Ok w s) \/ uload32 va s = Panic "trap".
Proof.
  unfold uload32. destruct (uloads_run 4 va s) as [[bs H]|H]; [left|right].
  - rewrite (kbind_ok _ _ _ _ _ H). by eexists.
  - by rewrite (kbind_panic _ _ _ _ H).
Qed.

Lemma copyout_null fl s pgdir rest free va bs :
  owns s (space_pages (k_mem s) pgdir ++ rest) free -> no_table (k_mem s) pgdir va -> bs <> [] ->
  copyout_loop (S fl) pgdir va bs s = through_null fl pgdir va bs s.
Proof.
  unfold no_table, KERNBASE. intros Hown (Hva & Hp) Hne. pose proof (space_own s pgdir rest free Hown) as Ho.
  assert (Hlen : 0 < Z.of_nat (length bs)) by (destruct bs; [done|cbn; lia]).
  cbn [copyout_loop]. rewrite (proj2 (Z.ltb_lt 0 _)) by done. unfold through_null.
  rewrite PGROUNDDOWN_spec by lia.
  destruct (walk_noalloc s pgdir (va / 4096)) as [Hw _].
  - eapply owns_managed; [exact Ho|unfold space_pages; inlist].
  - dlia.
  - intros H. congruence.
  - rewrite Z.mul_comm, Hp in Hw.
    assert (Hu : uva2ka pgdir (va / 4096 * 4096) s =
      (e <- uload32 0; if negb (present e) then kret 0 else if e .& PTE_U =? 0 then kret 0 else kret (P2V (PTE_ADDR e))) s)
      by (unfold uva2ka; by rewrite (kbind_ok _ _ _ _ _ Hw)).
    destruct (uload32_run 0 s) as [[w H]|H].
    2: { rewrite (kbind_panic _ _ _ _ H) in Hu. rewrite (kbind_panic _ _ _ _ H). by rewrite (kbind_panic _ _ _ _ Hu). }
    rewrite (kbind_ok _ _ _ _ _ H) in Hu. rewrite (kbind_ok _ _ _ _ _ H).
    replace (va -u va / 4096 * 4096) with (va mod 4096) by (rewrite u32_id; dlia).
    unfold PGSIZE. rewrite (u32_id (4096 - va mod 4096)) by dlia. rewrite (u32_id (va / 4096 * 4096 + 4096)) by dlia.
    replace (if Z.of_nat (length bs) <? 4096 - va mod 4096 then Z.of_nat (length bs) else 4096 - va mod 4096)
      with (chunk va (Z.of_nat (length bs))) by (unfold chunk; destruct (Z.ltb_spec (Z.of_nat (length bs)) (4096 - va mod 4096)); lia).
    destruct (present w); cbn [negb orb] in *; [|by rewrite (kbind_ok _ _ _ _ _ Hu)].
    destruct (w .& PTE_U =? 0); cbn [orb] in *; rewrite (kbind_ok _ _ _ _ _ Hu); [done|].
    by destruct (P2V (PTE_ADDR w) =? 0).
Qed.

(** C18: [copyout] writes the bytes to the user's pages, wherever they are in memory, and returns
    0; when it meets a page the user may not use it returns -1, having written exactly the
    bytes below that page. Nothing else of the address space and no page of another changes.
    When the page has no page table ([uva2ka] does not check [walkpgdir]'s result) the word at
    address 0 decides: -1 unless it looks like the entry of a user page, and otherwise the bytes go
    to the page it names ([through_null]). *)
Theorem copyout_writes (s : kstate) (pgdir va : Z) (bs1 bs2 rest free : list Z)
    (Hown : owns s (space_pages (k_mem s) pgdir ++ rest) free)
    (Hrange : urange user (k_mem s) pgdir va (Z.of_nat (length bs1)))
    (Hend : bs2 = [] \/ (va + Z.of_nat (length bs1)) mod 4096 = 0 \/ bs1 = []) :
  exists s', user_written s s' pgdir va bs1 rest free /\
    (bs2 = [] -> copyout pgdir va (bs1 ++ bs2) s = Ok 0 s') /\
    (bs2 <> [] -> refused (k_mem s) pgdir (va + Z.of_nat (length bs1)) -> copyout pgdir va (bs1 ++ bs2) s = Ok (-1) s') /\
    (bs2 <> [] -> no_table (k_mem s) pgdir (va + Z.of_nat (length bs1)) -> exists fl,
       copyout pgdir va (bs1 ++ bs2) s = through_null fl pgdir (va + Z.of_nat (length bs1)) bs2 s').
Proof.
  destruct (copyout_prefix (length (bs1 ++ bs2)) s pgdir rest free va bs1 bs2) as (s' & fl' & va' & Hw & Hfl & Hva & Hr);
    [done..|].
  exists s'. split; [done|]. unfold copyout. rewrite Hr. pose proof Hw as [_ A2 A3 A4 _ _ A7]. split; [|split].
  - intros ->. apply copyout_done.
  - intros Hne (H1 & H2 & H3). rewrite (Hva Hne).
    apply (copyout_stop _ s' pgdir rest free); [done| |done|done]. split; [done|].
    destruct (upage_entry _ _ _ A4 _ H1) as [-> _]. split; [|done].
    unfold KERNBASE in H1. by rewrite (pde_same (k_mem s)) by (done || dlia).
  - intros Hne (H1 & H2). rewrite (Hva Hne). destruct fl' as [|fl']; [destruct bs2; [done|cbn in Hfl; lia]|]. exists fl'.
    apply (copyout_null fl' s' pgdir rest free); [done| |done]. split; [done|].
    unfold KERNBASE in H1. by rewrite (pde_same (k_mem s)) by (done || dlia).
Qed.

(** Past the last page of the small space, and far above it, where it has no table: there the word at
    0 is read, and the page table the CPU has is not that of a process. *)
Lemma copyout_writes_witness :
  (exists s', copyout small_pgdir 8190 ([7; 8] ++ [9]) small = Ok (-1) s' /\
    user_written small s' small_pgdir 8190 [7; 8] [] (rev (take 2 top_pages))) /\
  exists s' fl, copyout small_pgdir 0x40000000 ([] ++ [9]) small = through_null fl small_pgdir 0x40000000 [9] s'.
Proof.
  assert (Hown : owns small (space_pages (k_mem small) small_pgdir ++ []) (rev (take 2 top_pages)))
    by (rewrite app_nil_r; exact (proj1 small_ok)). split.
  - destruct (copyout_writes small small_pgdir 8190 [7; 8] [9] [] (rev (take 2 top_pages)) Hown) as (s' & Hw & _ & Hr & _).
    + cbn [length]. split; [lia|]. split; [unfold KERNBASE; lia|]. intros v Hv. unfold upage.
      replace (v / 4096) with 1 by dlia. vm_compute. split; congruence.
    + right. left. reflexivity.
    + exists s'. split; [|exact Hw]. apply Hr; [done|]. split; [unfold KERNBASE; cbn [length]; lia|].
      split; [vm_compute; reflexivity|left; vm_compute; reflexivity].
  - destruct (copyout_writes small small_pgdir 0x40000000 [] [9] [] (rev (take 2 top_pages)) Hown) as (s' & _ & _ & _ & Hn).
    + cbn [length]. split; [lia|]. split; [unfold KERNBASE; lia|]. intros v Hv. lia.
    + right. right. reflexivity.
    + destruct Hn as (fl & Hn); [done| |by exists s', fl]. split; [unfold KERNBASE; cbn [length]; lia|]. vm_compute. reflexivity.
Defined.
