(* ===== verification/Setup.v ===== *)
(** * The kernel's half of an address space: [setupkvm] (vm.c) *)

From S2P Require Import Prelude Mem StringC Kernel Mmu Kalloc Sched Bio Layout Log Printf Cons Fs Vm Space Mapping Pages.

(** ** What the table of [kmaps] asks for *)

Definition km_size (k : kmap) : Z := km_phys_end k -u km_phys_start k.
Definition km_page (k : kmap) : Z := km_virt k / 4096.
Definition km_last (k : kmap) : Z := (km_virt k + km_size k - 1) / 4096.

(** The entries of an address space, [ents] before, after [k] is mapped. *)
Definition map_ents (k : kmap) (ents : Z -> Z) (j : Z) : Z :=
  if (km_page k <=? j) && (j <? km_last k + 1) then mapped_to (km_page k) (km_phys_start k) (km_perm k) j else ents j.

(** The range is in the kernel's half and is not mapped yet. *)
Definition kmap_ok (k : kmap) (ents : Z -> Z) : Prop :=
  KERNBASE <= km_virt k /\ 0 < km_size k /\ km_virt k + km_size k <= 2 ^ 32 /\
  km_phys_start k mod 4096 = 0 /\ 0 <= km_phys_start k /\
  km_phys_start k + 4096 * (km_last k - km_page k) < 2 ^ 32 /\ 0 <= km_perm k < 4096 /\
  forall j, km_page k <= j <= km_last k -> present (ents j) = false.

Fixpoint kmaps_ok (ks : list kmap) (ents : Z -> Z) : Prop :=
  match ks with
  | [] => True
  | k :: ks => kmap_ok k ents /\ kmaps_ok ks (map_ents k ents)
  end.

Definition all_ents (ks : list kmap) (ents : Z -> Z) : Z -> Z := foldl (fun e k => map_ents k e) ents ks.

(** No page of the user's half. *)
Definition no_user (ents : Z -> Z) : Prop := forall j, 0 <= j < UPAGES -> present (ents j) = false.

Lemma map_ents_user k ents : kmap_ok k ents -> no_user ents -> no_user (map_ents k ents).
Proof.
  intros (H1 & _) Hu j Hj. unfold map_ents, km_page. unfold KERNBASE in H1. change UPAGES with 524288 in *.
  destruct (Z.leb_spec (km_virt k / 4096) j); cbn; [dlia|]. by apply Hu.
Qed.

Lemma length_omap_le {A B} (f : A -> option B) (l : list A) : (length (omap f l) <= length l)%nat.
Proof. induction l as [|x l IH]; [done|]. cbn. destruct (f x); cbn; lia. Qed.

Lemma length_tables m pgdir : (length (tables m pgdir) <= 1024)%nat.
Proof. rewrite tables_unfold. etransitivity; [apply length_omap_le|]. by rewrite length_seqZ. Qed.

Section Setup.
Context (pgdir : Z) (rest : list Z).

(** How the loop may end: everything is mapped, or memory ran out and all is given back. *)
Definition setup_result (s s' : kstate) (free free' : list Z) (ents : Z -> Z) (r : Z) : Prop :=
  (r = pgdir /\ grown s s' pgdir rest free free' /\ forall j, 0 <= j < 2 ^ 20 -> entry (k_mem s') pgdir j = ents j) \/
  (r = 0 /\ mem_only s s' /\ owns s' rest free' /\ free' ≡ₚ pgdir :: tables (k_mem s) pgdir ++ free /\
   (length (tables (k_mem s) pgdir) + length free <= 1024)%nat /\
   same_outside s s' (pgdir :: tables (k_mem s) pgdir ++ free)).

Lemma grown_outside s s' free free' :
  grown s s' pgdir rest free free' -> same_outside s s' (pgdir :: tables (k_mem s) pgdir ++ free).
Proof using Type.
  intros [_ _ (new & -> & Hnew) Hsame] p Hp Hn. apply not_elem_of_cons in Hn as [Hd Hn].
  apply Hsame; [done|done|]. rewrite Hnew. intros H. apply Hn. inlist.
Qed.

(** Giving up: [freevm] of what was mapped so far. *)
Lemma setup_giveup s s1 free ents :
  grown s s1 pgdir rest free [] -> Kalloc.kmem_free s -> no_user ents ->
  (forall j, 0 <= j < UPAGES -> entry (k_mem s1) pgdir j = ents j) ->
  exists s' free', (freevm pgdir ;; kret 0) s1 = Ok 0 s' /\ forall ents', setup_result s s' free free' ents' 0.
Proof using Type.
  intros Hg Hf Hu He. pose proof Hg as [G1 G2 (new & Hnew & G3) _]. rewrite app_nil_r in Hnew. subst new.
  assert (Hsp : space_pages (k_mem s1) pgdir = pgdir :: tables (k_mem s1) pgdir).
  { unfold space_pages. rewrite mapped_none, app_nil_r; [done|]. rewrite Z.add_0_l. intros j Hj. rewrite He by done. by apply Hu. }
  rewrite app_comm_cons, <- Hsp in G2.
  destruct (freevm_rest s1 pgdir rest [] G2) as (s' & free' & Hr & Hm & Ho & Hp & Hs); [by eapply mem_only_free|].
  exists s', free'. rewrite (kbind_ok _ _ _ _ _ Hr). split; [done|]. intros ents'. right.
  rewrite Hsp, app_nil_r in Hp. rewrite Hsp in Hs.
  assert (Hperm : pgdir :: tables (k_mem s1) pgdir ≡ₚ pgdir :: tables (k_mem s) pgdir ++ free)
    by (rewrite G3; constructor; apply Permutation_app_comm).
  split; [done|]. split; [by eapply mem_only_trans|]. split; [done|]. split; [by rewrite Hp|]. split.
  - pose proof (length_tables (k_mem s1) pgdir) as Hl. rewrite G3, length_app in Hl. lia.
  - intros p Hpm Hn. eapply same_page_trans; [by eapply grown_outside|].
    apply Hs; [by rewrite (mem_only_end _ _ G1)|]. by rewrite Hperm.
Qed.

Lemma setup_result_after s s1 s' free free1 free' ents r :
  grown s s1 pgdir rest free free1 -> setup_result s1 s' free1 free' ents r -> setup_result s s' free free' ents r.
Proof using Type.
  intros Hg. pose proof Hg as [G1 _ (new & -> & G3) _]. intros [(-> & Hg' & He)|(-> & Hm & Ho & Hp & Hl & Hs)]; [left|right].
  - split; [done|]. split; [by eapply grown_trans|done].
  - assert (Hperm : pgdir :: tables (k_mem s1) pgdir ++ free1 ≡ₚ pgdir :: tables (k_mem s) pgdir ++ new ++ free1)
      by (rewrite G3, (Permutation_app_comm new), <- app_assoc; done).
    split; [done|]. split; [by eapply mem_only_trans|]. split; [done|]. split; [by rewrite Hp|]. split.
    + rewrite G3, length_app in Hl. rewrite length_app. lia.
    + intros p Hpm Hn. eapply same_page_trans; [by eapply grown_outside|].
      apply Hs; [by rewrite (mem_only_end _ _ G1)|]. by rewrite Hperm.
Qed.

Lemma setupkvm_loop_ok ks : forall s free ents,
  owns s (pgdir :: tables (k_mem s) pgdir ++ rest) free -> Kalloc.kmem_free s ->
  (forall j, 0 <= j < 2 ^ 20 -> entry (k_mem s) pgdir j = ents j) -> no_user ents -> kmaps_ok ks ents ->
  exists r s' free', setupkvm_loop ks pgdir s = Ok r s' /\ setup_result s s' free free' (all_ents ks ents) r.
Proof using Type.
  induction ks as [|k ks IH]; intros s free ents Hown Hf He Hu Hok.
  { exists pgdir, s, free. split; [done|]. left. split; [done|]. split; [by apply grown_refl|done]. }
  cbn [setupkvm_loop all_ents foldl]. destruct Hok as [Hk Hok]. pose proof Hk as (K1 & K2 & K3 & K4 & K5 & K6 & K7 & K8).
  fold (km_size k). unfold KERNBASE in K1.
  destruct (mappages_run s pgdir (km_virt k) (km_size k) (km_phys_start k) (km_perm k) (km_page k) (km_last k - km_page k) rest free)
    as (r & s1 & free1 & c & Hr & Hg & Hpre & _ & Hres); try done; try lia.
  { intros j Hj. rewrite He by (unfold km_page, km_last in *; dlia). apply K8. lia. }
  rewrite (kbind_ok _ _ _ _ _ Hr). pose proof (gr_mem_only _ _ _ _ _ _ Hg) as Hm1. destruct Hres as [[-> ->]|(-> & -> & Hc)].
  - cbn [Z.ltb Z.compare]. destruct (IH s1 free1 (map_ents k ents)) as (r & s' & free' & Hr' & Hres).
    + by destruct Hg.
    + by eapply mem_only_free.
    + intros j Hj. rewrite Hpre, He by done. unfold map_ents.
      replace (km_page k + (km_last k - km_page k + 1)) with (km_last k + 1) by lia. done.
    + by apply map_ents_user.
    + done.
    + exists r, s', free'. split; [done|]. by eapply setup_result_after.
  - cbn [Z.ltb Z.compare]. destruct (setup_giveup s s1 free (map_ents k ents) Hg Hf) as (s' & free' & Hr' & Hres).
    + by apply map_ents_user.
    + change UPAGES with 524288. intros j Hj. rewrite Hpre, He by lia. unfold map_ents, km_page in *.
      destruct (Z.leb_spec (km_virt k / 4096) j); [dlia|done].
    + exists 0, s', free'. done.
Qed.
End Setup.

(** ** The kernel's mappings *)

(** The entry for page [j] in the kernel's half: low memory and the kernel's data and free
    memory writable, the kernel's text read only, the devices at their own addresses. *)
Definition kentry (data j : Z) : Z :=
  if (524288 <=? j) && (j <? 524544) then 4096 * (j - 524288) .| PTE_W .| PTE_P
  else if (524544 <=? j) && (j <? data / 4096) then 4096 * (j - 524288) .| 0 .| PTE_P
  else if (data / 4096 <=? j) && (j <? 581632) then 4096 * (j - 524288) .| PTE_W .| PTE_P
  else if (1040384 <=? j) && (j <? 1048576) then 4096 * j .| PTE_W .| PTE_P
  else 0.

Section Kentry.
Context (data : Z).
Hypothesis Hdata : KERNLINK < data < KERNBASE + PHYSTOP.
Hypothesis Halign : data mod 4096 = 0.

(** The four rows with their numbers worked out. *)
Lemma kmaps_rows : exists k1 k2 k3 k4, kmaps data = [k1; k2; k3; k4] /\
  (km_page k1 = 524288 /\ km_last k1 = 524543 /\ km_phys_start k1 = 0 /\ km_perm k1 = PTE_W /\
   km_virt k1 = 0x80000000 /\ km_size k1 = 0x100000) /\
  (km_page k2 = 524544 /\ km_last k2 = data / 4096 - 1 /\ km_phys_start k2 = 0x100000 /\ km_perm k2 = 0 /\
   km_virt k2 = 0x80100000 /\ km_size k2 = data - 0x80100000) /\
  (km_page k3 = data / 4096 /\ km_last k3 = 581631 /\ km_phys_start k3 = data - 0x80000000 /\ km_perm k3 = PTE_W /\
   km_virt k3 = data /\ km_size k3 = 0x8E000000 - data) /\
  (km_page k4 = 1040384 /\ km_last k4 = 1048575 /\ km_phys_start k4 = 0xFE000000 /\ km_perm k4 = PTE_W /\
   km_virt k4 = 0xFE000000 /\ km_size k4 = 0x2000000).
Proof using All.
  unfold KERNLINK, KERNBASE, PHYSTOP, EXTMEM in Hdata. eexists _, _, _, _. split; [reflexivity|].
  assert (E1 : V2P data = data - 0x80000000) by (unfold V2P, KERNBASE; by rewrite u32_id by lia).
  unfold km_page, km_last, km_size. cbn [km_virt km_phys_start km_phys_end km_perm]. rewrite E1.
  change (V2P KERNLINK) with 0x100000. change KERNLINK with 0x80100000. change PHYSTOP with 0xE000000.
  rewrite (u32_id (data - 2147483648 - 1048576)), (u32_id (234881024 - (data - 2147483648))) by lia.
  split; [done|]. split; [split_and!; try done; dlia|]. split; [split_and!; try done; dlia|done].
Qed.

Lemma kmaps_kentry :
  kmaps_ok (kmaps data) (fun _ => 0) /\
  forall j, 0 <= j < 2 ^ 20 -> all_ents (kmaps data) (fun _ => 0) j = kentry data j.
Proof using All.
  destruct kmaps_rows as (k1 & k2 & k3 & k4 & -> & (A1 & A2 & A3 & A4 & A5 & A6) & (B1 & B2 & B3 & B4 & B5 & B6)
    & (C1 & C2 & C3 & C4 & C5 & C6) & (D1 & D2 & D3 & D4 & D5 & D6)).
  unfold KERNLINK, KERNBASE, PHYSTOP, EXTMEM in Hdata.
  assert (Hperm : 0 <= PTE_W < 4096) by (unfold PTE_W; lia). split.
  - cbn [kmaps_ok]. unfold kmap_ok, map_ents. rewrite A1, A2, A3, A4, A5, A6, B1, B2, B3, B4, B5, B6, C1, C2, C3, C4, C5, C6, D1, D2, D3, D4, D5, D6.
    unfold KERNBASE. split_and!; try lia; try done; try dlia; intros j Hj;
      repeat match goal with |- context [?a <=? ?b] => destruct (Z.leb_spec a b); [|cbn] | |- context [?a <? ?b] => destruct (Z.ltb_spec a b); [|cbn] end;
      cbn; done || dlia.
  - intros j Hj. unfold all_ents, map_ents, kentry, mapped_to. cbn [foldl].
    rewrite A1, A2, A3, A4, B1, B2, B3, B4, C1, C2, C3, C4, D1, D2, D3, D4.
    repeat match goal with |- context [?a <=? ?b] => destruct (Z.leb_spec a b); cbn [andb] | |- context [?a <? ?b] => destruct (Z.ltb_spec a b); cbn [andb] end;
      try dlia; repeat f_equal; dlia.
Qed.
End Kentry.

(** ** [setupkvm] *)

(** A zeroed page is an empty directory. *)
Lemma zero_dir m p :
  (forall i, 0 <= i < 1024 -> pde m p i = 0) ->
  tables m p = [] /\ forall j, 0 <= j < 2 ^ 20 -> entry m p j = 0.
Proof.
  intros H. split.
  - rewrite tables_unfold. erewrite omap_ext_in with (g := fun _ => None).
    + by induction (seqZ 0 NPDENTRIES).
    + intros i Hi. apply elem_of_dir in Hi. by rewrite H.
  - intros j Hj. unfold entry. by rewrite H by dlia.
Qed.

(** How [setupkvm] may end: [r] is the directory of a new address space with the kernel's
    mappings, or 0 with all pages given back, when fewer pages were free than a directory
    and its tables may need. *)
Definition kvm_result (s s' : kstate) (rest free free' : list Z) (r : Z) : Prop :=
  mem_only s s' /\ same_outside s s' free /\
  ((r <> 0 /\ owns s' (space_pages (k_mem s') r ++ rest) free' /\ space_pages (k_mem s') r ++ free' ≡ₚ free /\
    (exists new, free = new ++ free') /\
    forall j, 0 <= j < 2 ^ 20 -> entry (k_mem s') r j = kentry (k_data s) j) \/
   (r = 0 /\ owns s' rest free' /\ free' ≡ₚ free /\ (length free <= 1025)%nat)).

Lemma setupkvm_ok s rest free :
  owns s rest free -> Kalloc.kmem_free s ->
  KERNLINK < k_data s < KERNBASE + PHYSTOP -> k_data s mod 4096 = 0 ->
  exists r s' free', setupkvm s = Ok r s' /\ kvm_result s s' rest free free' r.
Proof.
  intros Hown Hf Hd1 Hd2. unfold setupkvm.
  pose proof (Kalloc.kalloc_ok s free (proj1 Hown) Hf) as Hka. destruct free as [|p free].
  { rewrite (kbind_ok _ _ _ _ _ Hka). exists 0, s, []. split; [done|]. split; [apply mem_only_refl|].
    split; [by intros q _ _|]. right. split_and!; [done|done|done|cbn; lia]. }
  destruct Hka as (s0 & Hr & Hk0 & E0). rewrite (kbind_ok _ _ _ _ _ Hr).
  assert (Hpm : Kalloc.managed (k_end s) p) by (destruct Hown as ((_ & _ & H) & _); by apply Forall_cons in H as [? _]).
  assert (Hp0 : p <> 0) by (destruct (managed_word _ p 0 Hpm); lia). destruct (Z.eqb_spec p 0) as [|_]; [done|].
  set (s1 := upd_k_mem (fun m => StringC.memset m p 0 (Z.to_nat PGSIZE)) s0).
  rewrite (kbind_ok (modify (upd_k_mem (fun m => StringC.memset m p 0 (Z.to_nat PGSIZE)))) _ s0 tt s1 eq_refl). change (DEVSPACE <? P2V PHYSTOP) with false. cbn iota.
  rewrite (kbind_ok (gets k_data) _ s1 (k_data s) s1) by (unfold s1; by rewrite E0).
  assert (Em1 : k_mem s1 = StringC.memset (k_mem s) p 0 (Z.to_nat PGSIZE)) by (unfold s1; by rewrite E0).
  assert (Hm1 : mem_only s s1) by (unfold s1; rewrite E0; eexists _, _; reflexivity).
  assert (Hs1 : same_outside s s1 [p]) by (apply same_outside_1; [done|]; intros; rewrite Em1; by apply memset_outside).
  destruct (zero_dir (k_mem s1) p) as [Ht He].
  { intros i Hi. unfold pde. rewrite Em1. apply load32_zeroed; unfold PGSIZE; lia. }
  assert (Hown0 : owns s0 (p :: rest) free) by (apply (owns_alloc s); [done|done|by rewrite E0]).
  assert (Hown1 : owns s1 (p :: tables (k_mem s1) p ++ rest) free).
  { rewrite Ht. destruct Hown0 as (H1 & H2 & H3). split; [|done]. unfold s1.
    apply (kmem_ok_write s0 _ free p); [done|by rewrite E0| |rewrite E0; intros; by apply memset_outside].
    cbn [app] in H2. apply NoDup_cons in H2 as [H2 _]. intros H. apply H2. inlist. }
  destruct (kmaps_kentry (k_data s) Hd1 Hd2) as [Hok Hent].
  destruct (setupkvm_loop_ok p rest (kmaps (k_data s)) s1 free (fun _ => 0)) as (r & s' & free' & Hr' & Hres);
    [done|by eapply mem_only_free|done|by intros j _|done|].
  exists r, s', free'. split; [done|]. unfold kvm_result.
  assert (Hout : forall s', mem_only s1 s' -> same_outside s1 s' (p :: tables (k_mem s1) p ++ free) -> same_outside s s' (p :: free)).
  { intros s2 _ H q Hq Hn. eapply same_page_trans.
    - apply Hs1; [done|]. intros H'. apply list_elem_of_singleton in H'. apply Hn. subst. inlist.
    - apply H; [by rewrite (mem_only_end _ _ Hm1)|]. by rewrite Ht. }
  destruct Hres as [(-> & Hg & Hents)|(-> & Hm & Ho & Hp & Hl & Hs)].
  - pose proof Hg as [G1 G2 (new & -> & G3) _]. split; [by eapply mem_only_trans|].
    split; [by apply Hout; [|eapply grown_outside]|]. left. split; [done|].
    assert (Hsp : space_pages (k_mem s') p = p :: tables (k_mem s') p).
    { unfold space_pages. rewrite mapped_none, app_nil_r; [done|]. change UPAGES with 524288. rewrite Z.add_0_l. intros j Hj.
      rewrite Hents, Hent by lia. unfold kentry. destruct (Z.leb_spec 524288 j), (Z.leb_spec 524544 j), (Z.leb_spec (k_data s / 4096) j),
        (Z.leb_spec 1040384 j); cbn; try done; unfold KERNLINK, KERNBASE, EXTMEM in Hd1; dlia. }
    rewrite Hsp. split; [exact G2|]. rewrite G3, Ht, app_nil_r. split; [done|]. split; [by exists (p :: new)|].
    intros j Hj. by rewrite Hents, Hent.
  - split; [by eapply mem_only_trans|]. split; [by apply Hout|]. right. split; [done|]. split; [done|].
    rewrite Hp, Ht. split; [done|]. cbn [length]. lia.
Qed.

(** C14: [setupkvm] makes a directory whose kernel half maps low memory, the kernel's text (read
    only), its data and all free memory, and the devices, none of it for the user, and whose
    user half is empty; or it gives 0, having given back every page it took, when no more than
    a directory and its tables may need was free. *)
Theorem setupkvm_maps (s : kstate) (rest free : list Z)
    (Hown : owns s rest free) (Hf : Kalloc.kmem_free s)
    (Hdata : KERNLINK < k_data s < KERNBASE + PHYSTOP) (Halign : k_data s mod 4096 = 0) :
  exists r s' free', setupkvm s = Ok r s' /\ kvm_result s s' rest free free' r.
Proof. by apply setupkvm_ok. Qed.

(** Where the kernel's data starts does not matter to the allocator. *)
Lemma data_kmem s g pages : Kalloc.kmem_ok s pages -> owns (upd_k_data g s) [] pages.
Proof. intros H. split; [exact H|]. split; [by destruct H as (_ & ? & _)|constructor]. Qed.

Lemma data_free s g : Kalloc.kmem_free s -> Kalloc.kmem_free (upd_k_data g s).
Proof. done. Qed.

Lemma setupkvm_maps_witness :
  exists r s' free', setupkvm (upd_k_data (fun _ => KERNLINK + 4096) Kalloc.one_page) = Ok r s' /\
    kvm_result (upd_k_data (fun _ => KERNLINK + 4096) Kalloc.one_page) s' [] [Kalloc.top_page] free' r.
Proof.
  apply (setupkvm_maps (upd_k_data (fun _ => KERNLINK + 4096) Kalloc.one_page) [] [Kalloc.top_page]).
  - apply data_kmem. exact (proj1 Kalloc.one_page_ok).
  - apply data_free. exact (proj2 Kalloc.one_page_ok).
  - unfold KERNLINK, KERNBASE, EXTMEM, PHYSTOP. cbn. lia.
  - reflexivity.
Defined.
