(* ===== verification/Copy.v ===== *)
(** * Copying an address space for [fork]: [copyuvm] (vm.c) *)

From S2P Require Import Prelude Mem StringC Kernel Mmu Kalloc Sched Bio Layout Log Printf Cons Fs Vm Space Mapping Pages Setup.

Lemma PTE_FLAGS_range e : 0 <= PTE_FLAGS e < 4096.
Proof. rewrite PTE_FLAGS_spec. dlia. Qed.

(** A page copied to [p] with [memmove]. *)
Lemma memmove_page m p src :
  (forall a, a < p \/ p + PGSIZE <= a -> load8 (StringC.memmove m p src (Z.to_nat PGSIZE)) a = load8 m a) /\
  holds (StringC.memmove m p src (Z.to_nat PGSIZE)) p (fun o => load8 m (src + o)).
Proof.
  unfold PGSIZE. split; [intros a Ha|intros o Ho; unfold PGSIZE in Ho]; rewrite StringC.load8_memmove.
  - destruct (Z.leb_spec p a), (Z.ltb_spec a (p + Z.of_nat (Z.to_nat 4096))); cbn; done || lia.
  - destruct (Z.leb_spec p (p + o)), (Z.ltb_spec (p + o) (p + Z.of_nat (Z.to_nat 4096))); cbn; try lia.
    do 2 f_equal. lia.
Qed.

Section Copy.
Context (m0 : mem) (pgdir d : Z) (rest : list Z).

(** The pages that are not the copy's: the parent's and [rest]. *)
Let others : list Z := space_pages m0 pgdir ++ rest.
Definition copy_perm (j : Z) : Z := PTE_FLAGS (entry m0 pgdir j).
Definition copy_cont (j o : Z) : Z := load8 m0 (frame (entry m0 pgdir j) + o).

Lemma copy_perm_ok j : 0 <= copy_perm j < 4096.
Proof using Type. apply PTE_FLAGS_range. Qed.

(** The parent's address space is as it was in [m0]. *)
Definition parent_kept (m : mem) : Prop := forall q, q ∈ space_pages m0 pgdir -> same_page m0 m q.

(** The pages copied so far are given back with [d] by the caller. *)
Record copy_failed (s s' : kstate) (free free' : list Z) : Prop := {
  cf_mem_only : mem_only s s';
  cf_owns : owns s' (space_pages (k_mem s') d ++ others) free';
  cf_perm : space_pages (k_mem s') d ++ free' ≡ₚ space_pages (k_mem s) d ++ free;
  cf_same : same_outside s s' (space_pages (k_mem s) d ++ free);
}.

Lemma allocated_outside s s' k c free free' :
  allocated d others copy_perm copy_cont s s' k c free free' -> same_outside s s' (space_pages (k_mem s) d ++ free).
Proof using Type.
  intros [_ _ _ _ _ _ _ H _] p Hp Hn. unfold space_pages in Hn. apply H; [done| | |]; try intros ->; try intros Hin; apply Hn; inlist.
Qed.

Lemma copy_failed_after s s1 s' k c free free1 free' :
  allocated d others copy_perm copy_cont s s1 k c free free1 -> copy_failed s1 s' free1 free' -> copy_failed s s' free free'.
Proof using Type.
  intros Ha [B1 B2 B3 B4]. pose proof (allocated_outside _ _ _ _ _ _ Ha) as Ho. destruct Ha as [A1 A2 A3 _ _ _ _ _ _].
  split; [by eapply mem_only_trans|done|by rewrite B3|].
  intros p Hp Hn. eapply same_page_trans; [by apply Ho|]. apply B4; [by rewrite (mem_only_end _ _ A1)|]. by rewrite A3.
Qed.

(** The error exit after [mappages]: [kfree(mem)]. *)
Lemma copy_unmapped s s1 p free1 :
  not_mapped d others s s1 p free1 -> Kalloc.kmem_free s1 ->
  exists s' free', (Kalloc.kfree p ;; kret false) s1 = Ok false s' /\ copy_failed s s' (p :: free1) free'.
Proof using Type.
  intros [N1 N2 N3 N4 N5 N6 N7] Hf. change ([p] ++ others) with (p :: others) in N2. rewrite <- Permutation_middle in N2.
  destruct (kfree_owned s1 p _ [] N2 Hf) as (s' & Hr & Hm & Ho & Hout). exists s', [p].
  rewrite (kbind_ok _ _ _ _ _ Hr). split; [done|].
  assert (Hpm : Kalloc.managed (k_end s1) p) by (eapply owns_managed; [exact N2|inlist]).
  pose proof (same_outside_1 s1 s' p Hpm Hout) as Hs.
  destruct (space_same (k_mem s1) (k_mem s') d) as (_ & Esp & _).
  { intros q Hq. assert (Hin : q ∈ space_pages (k_mem s1) d ++ others) by (unfold space_pages; inlist).
    apply Hs; [eapply owns_managed; [exact N2|inlist]|]. rewrite list_elem_of_singleton. intros ->.
    destruct N2 as (_ & Hnd & _). cbn [app] in Hnd. apply NoDup_cons in Hnd as [Hnd _]. apply Hnd. inlist. }
  split; [by eapply mem_only_trans|by rewrite Esp|by rewrite Esp, N3|].
  intros q Hq Hn. unfold space_pages in Hn.
  assert (Hn' : q <> d /\ (q ∉ tables (k_mem s) d) /\ q ∉ p :: free1) by (split_and!; intros H; apply Hn; subst; inlist).
  destruct Hn' as (H1 & H2 & H3). eapply same_page_trans; [by apply N6|].
  apply Hs; [by rewrite (mem_only_end _ _ N1)|]. rewrite list_elem_of_singleton. intros ->. apply H3. inlist.
Qed.

Lemma copy_entry s free j :
  owns s (space_pages (k_mem s) d ++ others) free -> parent_kept (k_mem s) -> 0 <= j < 2 ^ 20 ->
  present (entry m0 pgdir j) = true ->
  exists slot, walkpgdir pgdir (4096 * j) false s = Ok slot s /\ slot <> 0 /\ load32 (k_mem s) slot = entry m0 pgdir j.
Proof using Type.
  intros Hown Hkept Hj Hp.
  destruct (space_same m0 (k_mem s) pgdir) as (Ht & Esp & He); [intros q Hq; apply Hkept; unfold space_pages; inlist|].
  assert (Hpd : present (pde (k_mem s) pgdir (j / 1024)) = true).
  { rewrite <- (He j Hj) in Hp. unfold entry in Hp. by destruct (present (pde (k_mem s) pgdir (j / 1024))). }
  destruct (walk_noalloc s pgdir j) as [Hw Hnz]; [|done| |].
  - eapply owns_managed; [exact Hown|]. unfold others, space_pages. inlist.
  - intros _. pose proof (table_of _ _ j Hj Hpd) as Hin. rewrite Ht in Hin.
    eapply owns_managed; [exact Hown|]. unfold others. rewrite !elem_of_app. right; left. unfold space_pages. inlist.
  - rewrite Hpd in Hw. eexists. split; [exact Hw|]. split; [by apply Hnz|]. by rewrite <- entry_slot, He.
Qed.

Section Loop.
Context (sz : Z).
Hypothesis Hsz : 0 <= sz <= KERNBASE.

Lemma copy_loop_ok n : forall fl i s free,
  owns s (space_pages (k_mem s) d ++ others) free -> Kalloc.kmem_free s -> parent_kept (k_mem s) ->
  0 <= i -> i + Z.of_nat n = (sz + 4095) / 4096 -> (n <= fl)%nat ->
  (forall j, i <= j < i + Z.of_nat n -> present (entry m0 pgdir j) = true /\ present (entry (k_mem s) d j) = false) ->
  exists b s' free', copyuvm_loop fl pgdir d (4096 * i) sz s = Ok b s' /\
    ((b = true /\ allocated d others copy_perm copy_cont s s' i (Z.of_nat n) free free') \/
     (b = false /\ copy_failed s s' free free' /\ Z.of_nat (length free) < 2 * Z.of_nat n)).
Proof using Hsz.
  unfold KERNBASE in Hsz. induction n as [|n IH]; intros fl i s free Hown Hf Hkept Hi Hin Hfl Hpr.
  { exists true, s, free. split; [|left; split; [done|by apply allocated_refl]].
    destruct fl; cbn [copyuvm_loop]; destruct (Z.ltb_spec (4096 * i) sz); done || dlia. }
  destruct fl as [|fl]; [lia|]. cbn [copyuvm_loop]. destruct (Z.ltb_spec (4096 * i) sz) as [Hlt|]; [|dlia].
  assert (HU : UPAGES = 524288) by done. destruct (Hpr i ltac:(lia)) as [Hp Hnp].
  destruct (copy_entry s free i Hown Hkept ltac:(dlia) Hp) as (sl & Hw & Hnz & He).
  rewrite (kbind_ok _ _ _ _ _ Hw). destruct (Z.eqb_spec sl 0) as [|_]; [done|].
  rewrite (kbind_ok _ _ _ _ _ (ldw_ok _ s)), He, Hp. cbn [negb].
  destruct free as [|p free1].
  { rewrite (kbind_ok _ _ _ _ _ (Kalloc.kalloc_ok s [] (proj1 Hown) Hf)). exists false, s, []. split; [done|].
    right. split; [done|]. split; [|cbn; lia]. split; [apply mem_only_refl|done|done|by intros q _ _]. }
  fold (copy_perm i). fold (frame (entry m0 pgdir i)). set (src := frame (entry m0 pgdir i)).
  destruct (memmove_page (k_mem s) p src) as [Hmo Hmc].
  assert (Hsrc : src ∈ space_pages m0 pgdir).
  { unfold space_pages. assert (src ∈ mapped m0 pgdir 0 UPAGES); [|inlist]. apply elem_of_mapped. exists i. rewrite HU. split; [dlia|done]. }
  destruct (alloc_page d others copy_perm copy_cont copy_perm_ok s i p free1 (fun m => StringC.memmove m p src (Z.to_nat PGSIZE)))
    as (s0 & r & s2 & Hka & Hp0 & Hr & Hres); [done|done|rewrite HU; dlia|done|done| |].
  { intros o Ho. rewrite Hmc by done. unfold copy_cont. fold src. apply (Hkept src Hsrc). lia. }
  rewrite (kbind_ok _ _ _ _ _ Hka). destruct (Z.eqb_spec p 0) as [|_]; [done|].
  rewrite (kbind_ok (modify (upd_k_mem (fun m => StringC.memmove m p src (Z.to_nat PGSIZE)))) _ s0 tt _ eq_refl), (kbind_ok _ _ _ _ _ Hr).
  destruct Hres as [[-> (free2 & Hal)]|[-> Hnm]]; cbn [Z.ltb Z.compare].
  - replace (4096 * i +u PGSIZE) with (4096 * (i + 1)) by (unfold PGSIZE; rewrite u32_id by dlia; lia).
    pose proof Hal as [A1 A2 _ _ _ _ A7 A8 A9].
    destruct (IH fl (i + 1) s2 free2) as (b & s' & free' & Hr' & Hres'); [done|by eapply mem_only_free| |lia|lia|lia| |].
    { intros q Hq. eapply same_page_trans; [by apply Hkept|]. apply (allocated_outside _ _ _ _ _ _ Hal).
      - eapply owns_managed; [exact Hown|]. unfold others. inlist.
      - intros Hin'. apply elem_of_app in Hin' as [Hin'|Hin'].
        + destruct Hown as (_ & Hnd & _). rewrite <- app_assoc in Hnd. apply NoDup_app in Hnd as (_ & Hnd & _).
          apply (Hnd q Hin'). unfold others. inlist.
        + eapply owns_disjoint; [exact Hown| |exact Hin']. unfold others. inlist. }
    { intros j Hj. rewrite A7 by dlia. apply Hpr. lia. }
    exists b, s', free'. split; [done|]. destruct Hres' as [[-> H]|(-> & H & Hlen)]; [left|right]; (split; [done|]).
    + replace (Z.of_nat (S n)) with (1 + Z.of_nat n) by lia. eapply allocated_trans; [apply copy_perm_ok|lia..|rewrite HU; dlia|exact Hal|exact H].
    + split; [by eapply copy_failed_after|lia].
  - pose proof (nm_mem_only _ _ _ _ _ _ Hnm) as Hmo2.
    destruct (copy_unmapped s s2 p free1 Hnm) as (s' & free' & Hr' & Hcf); [by eapply mem_only_free|].
    exists false, s', free'. split; [exact Hr'|]. right. split; [done|]. split; [done|].
    rewrite (nm_count _ _ _ _ _ _ Hnm). cbn. lia.
Qed.
End Loop.
End Copy.

(** ** The whole copy *)

Lemma kentry_user data j : KERNLINK < data -> 0 <= j < UPAGES -> kentry data j = 0.
Proof.
  change UPAGES with 524288. unfold KERNLINK, KERNBASE, EXTMEM. intros Hd Hj. unfold kentry.
  destruct (Z.leb_spec 524288 j), (Z.leb_spec 524544 j), (Z.leb_spec (data / 4096) j), (Z.leb_spec 1040384 j);
    cbn; try done; dlia.
Qed.

(** [d] is a copy of the first [n] pages of [pgdir] in the memory [m0]. *)
Definition copy_of (m0 m : mem) (data pgdir d n : Z) (free : list Z) : Prop :=
  (forall j, 0 <= j < n -> exists p, p ∈ free /\
     entry m d j = V2P p .| PTE_FLAGS (entry m0 pgdir j) .| PTE_P /\
     holds m p (fun o => load8 m0 (frame (entry m0 pgdir j) + o))) /\
  (forall j, n <= j < 2 ^ 20 -> entry m d j = kentry data j).

(** How [copyuvm] may end. *)
Definition copy_result (s s' : kstate) (pgdir sz : Z) (rest free free' : list Z) (r : Z) : Prop :=
  let n := (sz + 4095) / 4096 in
  mem_only s s' /\ same_outside s s' free /\
  ((r <> 0 /\ owns s' (space_pages (k_mem s') r ++ space_pages (k_mem s) pgdir ++ rest) free' /\
    space_pages (k_mem s') r ++ free' ≡ₚ free /\ copy_of (k_mem s) (k_mem s') (k_data s) pgdir r n free) \/
   (r = 0 /\ owns s' (space_pages (k_mem s) pgdir ++ rest) free' /\ free' ≡ₚ free /\
    Z.of_nat (length free) < 1026 + 2 * n)).

Lemma copyuvm_ok s pgdir sz rest free :
  owns s (space_pages (k_mem s) pgdir ++ rest) free -> Kalloc.kmem_free s ->
  KERNLINK < k_data s < KERNBASE + PHYSTOP -> k_data s mod 4096 = 0 -> 0 <= sz <= KERNBASE ->
  (forall j, 0 <= j -> 4096 * j < sz -> present (entry (k_mem s) pgdir j) = true) ->
  exists r s' free', copyuvm pgdir sz s = Ok r s' /\ copy_result s s' pgdir sz rest free free' r.
Proof.
  intros Hown Hf Hd1 Hd2 Hsz Hpr. assert (Hk : KERNBASE = 2147483648) by done. assert (HU : UPAGES = 524288) by done.
  unfold copyuvm. set (n := (sz + 4095) / 4096).
  assert (Hn : 0 <= n <= 524288) by (unfold n; dlia).
  destruct (setupkvm_ok s (space_pages (k_mem s) pgdir ++ rest) free Hown Hf Hd1 Hd2) as (d & s1 & free1 & Hr & Hm1 & Hs1 & Hres).
  rewrite (kbind_ok _ _ _ _ _ Hr). destruct Hres as [(Hd0 & Ho1 & Hp1 & (new & Hnew) & He1)|(-> & Ho1 & Hp1 & Hl1)].
  2: { cbn [Z.eqb]. exists 0, s1, free1. split; [done|]. split; [done|]. split; [done|]. right. split_and!; try done. lia. }
  destruct (Z.eqb_spec d 0) as [|_]; [done|].
  assert (Hkept : parent_kept (k_mem s) pgdir (k_mem s1)).
  { intros q Hq. apply Hs1; [eapply owns_managed; [exact Hown|inlist]|]. eapply owns_disjoint; [exact Hown|inlist]. }
  assert (Hlen : Z.of_nat (length free) <= 1025 + Z.of_nat (length free1)).
  { pose proof (Permutation_length Hp1) as Hl. unfold space_pages in Hl.
    rewrite mapped_none, app_nil_r in Hl.
    - cbn in Hl. rewrite length_app in Hl. pose proof (length_tables (k_mem s1) d). lia.
    - rewrite Z.add_0_l. intros j Hj. rewrite He1, kentry_user by (lia || done). done. }
  destruct (copy_loop_ok (k_mem s) pgdir d rest sz Hsz (Z.to_nat n) (Z.to_nat (sz / PGSIZE + 1)) 0 s1 free1)
    as (b & s2 & free2 & Hr2 & Hres2); [done|by eapply mem_only_free|done|lia|rewrite Z2Nat.id by lia; done| | |].
  { apply Z2Nat.inj_le; unfold n, PGSIZE; dlia. }
  { rewrite Z2Nat.id by lia. intros j Hj. split; [apply Hpr; unfold n in Hj; dlia|].
    rewrite He1, kentry_user by (lia || done). done. }
  rewrite Z.mul_0_r in Hr2. rewrite (kbind_ok _ _ _ _ _ Hr2). rewrite Z2Nat.id in Hres2 by lia.
  assert (Hout : forall s', same_outside s1 s' (space_pages (k_mem s1) d ++ free1) -> same_outside s s' free).
  { intros s' H q Hq Hnq. eapply same_page_trans; [by apply Hs1|]. apply H; [by rewrite (mem_only_end _ _ Hm1)|]. by rewrite Hp1. }
  destruct Hres2 as [[-> Hal]|(-> & [C1 C2 C3 C4] & Hl2)].
  - exists d, s2, free2. split; [done|]. pose proof (allocated_outside _ _ _ _ _ _ _ _ _ _ Hal) as Ho2.
    destruct Hal as [A1 A2 A3 _ _ A6 A7 _ _]. split; [by eapply mem_only_trans|]. split; [by apply Hout|]. left.
    split; [done|]. split; [done|]. split; [by rewrite A3, Hp1|]. split.
    + intros j Hj. destruct (A6 j ltac:(lia)) as (p & Hp & He & Hh). exists p. split; [|done]. rewrite Hnew. inlist.
    + intros j Hj. rewrite A7, He1 by lia. done.
  - destruct (freevm_rest s2 d _ free2 C2) as (s3 & free3 & Hr3 & Hm3 & Ho3 & Hp3 & Hs3);
      [eapply mem_only_free; [exact C1|by eapply mem_only_free]|].
    rewrite (kbind_ok _ _ _ _ _ Hr3). exists 0, s3, free3. split; [done|].
    split; [eapply mem_only_trans; [exact Hm1|by eapply mem_only_trans]|]. split.
    + apply Hout. intros q Hq Hnq. eapply same_page_trans; [by apply C4|].
      apply Hs3; [by rewrite (mem_only_end _ _ C1)|]. intros H. apply Hnq. rewrite <- C3. inlist.
    + right. split; [done|]. split; [done|]. split; [by rewrite Hp3, C3, Hp1|]. lia.
Qed.

(** C13: [copyuvm] gives a new address space with its own copy of every page below [sz], byte for
    byte and with the same permissions, and the kernel's mappings, made of pages that were
    free; the parent's memory and the pages of others do not change. When memory runs out it
    gives 0 and every page it took is free again. *)
Theorem copyuvm_copies (s : kstate) (pgdir sz : Z) (rest free : list Z)
    (Hown : owns s (space_pages (k_mem s) pgdir ++ rest) free) (Hf : Kalloc.kmem_free s)
    (Hdata : KERNLINK < k_data s < KERNBASE + PHYSTOP) (Halign : k_data s mod 4096 = 0)
    (Hsz : 0 <= sz <= KERNBASE)
    (Hpr : forall j, 0 <= j -> 4096 * j < sz -> present (entry (k_mem s) pgdir j) = true) :
  exists r s' free', copyuvm pgdir sz s = Ok r s' /\ copy_result s s' pgdir sz rest free free' r.
Proof. by apply copyuvm_ok. Qed.

Lemma data_space s g pgdir free :
  owns s (space_pages (k_mem s) pgdir) free ->
  owns (upd_k_data g s) (space_pages (k_mem (upd_k_data g s)) pgdir ++ []) free.
Proof. by rewrite app_nil_r. Qed.

Lemma data_present s g pgdir sz :
  (forall j, 0 <= j -> 4096 * j < sz -> present (entry (k_mem s) pgdir j) = true) ->
  forall j, 0 <= j -> 4096 * j < sz -> present (entry (k_mem (upd_k_data g s)) pgdir j) = true.
Proof. done. Qed.

Lemma copyuvm_copies_witness :
  exists r s' free', copyuvm small_pgdir 5000 (upd_k_data (fun _ => KERNLINK + 4096) small) = Ok r s' /\
    copy_result (upd_k_data (fun _ => KERNLINK + 4096) small) s' small_pgdir 5000 [] (rev (take 2 top_pages)) free' r.
Proof.
  apply (copyuvm_copies (upd_k_data (fun _ => KERNLINK + 4096) small) small_pgdir 5000 [] (rev (take 2 top_pages))).
  - apply data_space. exact (proj1 small_ok).
  - apply data_free. exact (proj2 small_ok).
  - unfold KERNLINK, KERNBASE, EXTMEM, PHYSTOP. cbn. lia.
  - reflexivity.
  - unfold KERNBASE. lia.
  - apply data_present. intros j Hj Hlt. assert (Hj' : j = 0 \/ j = 1) by lia.
    destruct Hj' as [-> | ->]; vm_compute; reflexivity.
Defined.
