(* ===== verification/Proc.v ===== *)
(** * Processes (proc.c)

    The process table: creating, growing, killing, ending and collecting processes, and the
    scheduler.  Kernel stacks, trap frames and contexts are in physical memory, as are the
    address spaces [Vm] manages.  [sleep], [wakeup] and [sched] are in [Sched]. *)

From S2P Require Import Prelude Seg Mem StringC Kernel Mmu Kalloc Sched Bio Layout Log Printf Cons Fs Pipe File Vm.

(** What the build gives the kernel: the addresses of [trapret] and [forkret], and the
    machine code of initcode.S. *)
Class Image := {
  trapret : Z;
  forkret_addr : Z;
  initcode : list Z;
}.

(** ** Trap frames *)

Definition sizeof_trapframe : Z := 76.
Definition sizeof_context : Z := 20.
Definition tf_eax : Z := 28.
Definition tf_es : Z := 40.
Definition tf_ds : Z := 44.
Definition tf_trapno : Z := 48.
Definition tf_err : Z := 52.
Definition tf_eip : Z := 56.
Definition tf_cs : Z := 60.
Definition tf_eflags : Z := 64.
Definition tf_esp : Z := 68.
Definition tf_ss : Z := 72.
Definition context_ebp : Z := 12.
Definition context_eip : Z := 16.

(** A 16-bit field. *)
Definition sth (a v : Z) : K unit := modify (upd_k_mem (fun m => stores m a (le_bytes 2 v))).

(** The bytes of a C string kept in an array. *)
Fixpoint cstr (l : list Z) : list Z :=
  match l with
  | [] => []
  | c :: l => if c =? 0 then [] else c :: cstr l
  end.

(** ** Creating processes *)

Definition allocproc `{Image} : K (option nat) :=
  acquire LK_ptable ;;
  procs <- gets k_procs;
  match find_from (fun pr => bool_decide (p_state pr = UNUSED)) procs 0 with
  | None =>
      release LK_ptable ;;
      kret None
  | Some p =>
      set_proc p (upd_p_state (fun _ => EMBRYO)) ;;
      pid <- gets k_nextpid;
      set_proc p (upd_p_pid (fun _ => pid)) ;;
      modify (upd_k_nextpid (fun n => s32 (n + 1))) ;;
      release LK_ptable ;;
      (* Allocate kernel stack. *)
      kstack <- Kalloc.kalloc;
      set_proc p (upd_p_kstack (fun _ => kstack)) ;;
      if kstack =? 0 then
        set_proc p (upd_p_state (fun _ => UNUSED)) ;;
        kret None
      else
      let sp := kstack + KSTACKSIZE in
      (* Leave room for trap frame. *)
      let sp := sp - sizeof_trapframe in
      set_proc p (upd_p_tf (fun _ => sp)) ;;
      let sp := sp - 4 in
      stw sp trapret ;;
      let sp := sp - sizeof_context in
      set_proc p (upd_p_context (fun _ => sp)) ;;
      modify (upd_k_mem (fun m => StringC.memset m sp 0 (Z.to_nat sizeof_context))) ;;
      stw (sp + context_eip) forkret_addr ;;
      kret (Some p)
  end.

Definition userinit `{Fuel} `{Devsw} `{Image} : K unit :=
  p <- allocproc;
  modify (upd_k_initproc (fun _ => p)) ;;
  match p with
  | None => panic "null process"
  | Some p =>
      pgdir <- setupkvm;
      set_proc p (upd_p_pgdir (fun _ => pgdir)) ;;
      if pgdir =? 0 then panic "userinit: out of memory?" else
      inituvm pgdir initcode ;;
      set_proc p (upd_p_sz (fun _ => PGSIZE)) ;;
      pr <- get_proc p;
      let tf := p_tf pr in
      modify (upd_k_mem (fun m => StringC.memset m tf 0 (Z.to_nat sizeof_trapframe))) ;;
      sth (tf + tf_cs) ((SEG_UCODE <<u 3) .| DPL_USER) ;;
      sth (tf + tf_ds) ((SEG_UDATA <<u 3) .| DPL_USER) ;;
      sth (tf + tf_es) ((SEG_UDATA <<u 3) .| DPL_USER) ;;
      sth (tf + tf_ss) ((SEG_UDATA <<u 3) .| DPL_USER) ;;
      stw (tf + tf_eflags) FL_IF ;;
      stw (tf + tf_esp) PGSIZE ;;
      stw (tf + tf_eip) 0 ;;
      set_proc p (upd_p_name (splice 0 (StringC.safestrcpy (StringC.at_ (codes "initcode")) 16))) ;;
      cwd <- namei [slash];
      set_proc p (upd_p_cwd (fun _ => cwd)) ;;
      acquire LK_ptable ;;
      set_proc p (upd_p_state (fun _ => RUNNABLE)) ;;
      release LK_ptable
  end.

(** ** Memory *)

Definition growproc (n : Z) : K Z :=
  p <- curproc;
  pr <- get_proc p;
  let sz := p_sz pr in
  r <- (if 0 <? n then
          sz <- allocuvm (p_pgdir pr) sz (sz +u n);
          kret (if sz =? 0 then None else Some sz)
        else if n <? 0 then
          sz <- deallocuvm (p_pgdir pr) sz (sz +u n);
          kret (if sz =? 0 then None else Some sz)
        else kret (Some sz));
  match r with
  | None => kret (-1)
  | Some sz =>
      set_proc p (upd_p_sz (fun _ => sz)) ;;
      switchuvm (Some p) ;;
      kret 0
  end.

(** ** Fork *)

(** [for(i = 0; i < NOFILE; i++)] in [fork]. *)
Definition dup_files (cur np : nat) : K unit :=
  kiter (seq 0 NOFILE) (fun i =>
    pr <- get_proc cur;
    match p_ofile pr !! i with
    | Some (Some f) =>
        f <- filedup f;
        set_proc np (upd_p_ofile (insert i (Some f)))
    | _ => kret tt
    end).

Definition fork `{Image} : K Z :=
  cur <- curproc;
  np <- allocproc;
  match np with
  | None => kret (-1)
  | Some np =>
      pr <- get_proc cur;
      pgdir <- copyuvm (p_pgdir pr) (p_sz pr);
      set_proc np (upd_p_pgdir (fun _ => pgdir)) ;;
      if pgdir =? 0 then
        npr <- get_proc np;
        Kalloc.kfree (p_kstack npr) ;;
        set_proc np (upd_p_kstack (fun _ => 0)) ;;
        set_proc np (upd_p_state (fun _ => UNUSED)) ;;
        kret (-1)
      else
      pr <- get_proc cur;
      npr <- get_proc np;
      set_proc np (upd_p_sz (fun _ => p_sz pr)) ;;
      set_proc np (upd_p_parent (fun _ => Some cur)) ;;
      modify (upd_k_mem (fun m => stores m (p_tf npr) (loads m (p_tf pr) (Z.to_nat sizeof_trapframe)))) ;;
      (* Clear %eax so that fork returns 0 in the child. *)
      stw (p_tf npr + tf_eax) 0 ;;
      dup_files cur np ;;
      pr <- get_proc cur;
      match p_cwd pr with
      | None => panic "null cwd"
      | Some d =>
          cwd <- idup d;
          set_proc np (upd_p_cwd (fun _ => Some cwd)) ;;
          set_proc np (upd_p_name (splice 0 (StringC.safestrcpy (StringC.at_ (p_name pr)) 16))) ;;
          npr <- get_proc np;
          let pid := p_pid npr in
          acquire LK_ptable ;;
          set_proc np (upd_p_state (fun _ => RUNNABLE)) ;;
          release LK_ptable ;;
          kret pid
      end
  end.

(** ** Ending a process *)

(** [wakeup1] on a pointer that may be null. *)
Definition wakeup1_ptr (p : option nat) : K unit :=
  modify (upd_k_procs (map (fun pr =>
    if bool_decide (p_state pr = SLEEPING) && bool_decide (p_chan pr = CH_proc <$> p)
    then upd_p_state (fun _ => RUNNABLE) pr else pr))).

(** [for(fd = 0; fd < NOFILE; fd++)]: close all open files. *)
Definition close_files `{Fuel} (cur : nat) : K unit :=
  kiter (seq 0 NOFILE) (fun fd =>
    pr <- get_proc cur;
    match p_ofile pr !! fd with
    | Some (Some f) =>
        fileclose f ;;
        set_proc cur (upd_p_ofile (insert fd None))
    | _ => kret tt
    end).

(** Pass abandoned children to init. *)
Definition abandon (cur : nat) : K unit :=
  kiter (seq 0 NPROC) (fun p =>
    pr <- get_proc p;
    kwhen (bool_decide (p_parent pr = Some cur))
      (init <- gets k_initproc;
       set_proc p (upd_p_parent (fun _ => init)) ;;
       kwhen (bool_decide (p_state pr = ZOMBIE)) (wakeup1_ptr init))).

(** From [acquire(&ptable.lock)] on: the process becomes a zombie and leaves the CPU. *)
Definition become_zombie {A} (cur : nat) (exit_status : Z) : K A :=
  acquire LK_ptable ;;
  (* Parent might be sleeping in wait(). *)
  pr <- get_proc cur;
  wakeup1_ptr (p_parent pr) ;;
  abandon cur ;;
  (* Jump into the scheduler, never to return. *)
  set_proc cur (upd_p_state (fun _ => ZOMBIE)) ;;
  set_proc cur (upd_p_exit_status (fun _ => exit_status)) ;;
  sched ;;
  panic "zombie exit".

Definition exit2 `{Fuel} {A} (exit_status : Z) : K A :=
  cur <- curproc;
  init <- gets k_initproc;
  if bool_decide (Some cur = init) then panic "init exiting" else
  close_files cur ;;
  begin_op ;;
  pr <- get_proc cur;
  match p_cwd pr with
  | None => panic "null cwd"
  | Some d => iput d
  end ;;
  end_op ;;
  set_proc cur (upd_p_cwd (fun _ => None)) ;;
  become_zombie cur exit_status.

(** The same code with the status 0. *)
Definition exit `{Fuel} {A} : K A := exit2 0.

(** ** Collecting a child *)

(** The scan of [wait]: the first zombie child, or whether there are children. *)
Fixpoint wait_scan (ps : list proc) (p cur : nat) (havekids : bool) : nat + bool :=
  match ps with
  | [] => inr havekids
  | pr :: ps =>
      if negb (bool_decide (p_parent pr = Some cur)) then wait_scan ps (S p) cur havekids
      else if bool_decide (p_state pr = ZOMBIE) then inl p
      else wait_scan ps (S p) cur true
  end.

(** What [wait] does to the child it found. *)
Definition reap (p : nat) : K unit :=
  pr <- get_proc p;
  Kalloc.kfree (p_kstack pr) ;;
  set_proc p (upd_p_kstack (fun _ => 0)) ;;
  freevm (p_pgdir pr) ;;
  set_proc p (upd_p_pid (fun _ => 0)) ;;
  set_proc p (upd_p_parent (fun _ => None)) ;;
  set_proc p (upd_p_name (insert 0%nat 0)) ;;
  set_proc p (upd_p_killed (fun _ => 0)) ;;
  set_proc p (upd_p_state (fun _ => UNUSED)).

(** [for(;;)] in [wait] and [wait2]; [status] is what [wait2] does with the child's
    status before it lets go of the table. *)
Fixpoint wait_loop (n : nat) (cur : nat) (status : Z -> K unit) : K Z :=
  procs <- gets k_procs;
  match wait_scan procs 0 cur false with
  | inl p =>
      pr <- get_proc p;
      let pid := p_pid pr in
      reap p ;;
      status (p_exit_status pr) ;;
      release LK_ptable ;;
      kret pid
  | inr havekids =>
      pr <- get_proc cur;
      (* No point waiting if we don't have any children. *)
      if negb havekids || negb (p_killed pr =? 0) then
        release LK_ptable ;;
        kret (-1)
      else
      match n with
      | O => fun _ => NoFuel
      | S n => sleep (CH_proc cur) LK_ptable ;; wait_loop n cur status
      end
  end.

Definition wait `{Fuel} : K Z :=
  cur <- curproc;
  acquire LK_ptable ;;
  wait_loop fuel cur (fun _ => kret tt).

(** [exit_status] is an address in the memory of the process that calls. *)
Definition wait2 `{Fuel} (exit_status : Z) : K Z :=
  cur <- curproc;
  acquire LK_ptable ;;
  wait_loop fuel cur (fun st => ustore32 exit_status st).

(** ** Kill and the process listing *)

Definition kill (pid : Z) : K Z :=
  acquire LK_ptable ;;
  procs <- gets k_procs;
  match find_from (fun pr => p_pid pr =? pid) procs 0 with
  | Some p =>
      set_proc p (upd_p_killed (fun _ => 1)) ;;
      pr <- get_proc p;
      kwhen (bool_decide (p_state pr = SLEEPING)) (set_proc p (upd_p_state (fun _ => RUNNABLE))) ;;
      release LK_ptable ;;
      kret 0
  | None =>
      release LK_ptable ;;
      kret (-1)
  end.

(** [getcallerpcs]: the [i]th and following program counters. *)
Fixpoint getcallerpcs_loop (n : nat) (m : mem) (ebp : Z) : list Z :=
  match n with
  | O => []
  | S n' =>
      if (ebp =? 0) || (ebp <? KERNBASE) || (ebp =? 0xffffffff) then replicate n 0
      else load32 m (ebp +u 4) :: getcallerpcs_loop n' m (load32 m ebp)
  end.
Definition getcallerpcs (m : mem) (v : Z) : list Z := getcallerpcs_loop 10 m (v -u 8).

Definition state_name (st : procstate) : list Z :=
  codes (match st with
         | UNUSED => "unused" | EMBRYO => "embryo" | SLEEPING => "sleep "
         | RUNNABLE => "runble" | RUNNING => "run   " | ZOMBIE => "zombie"
         end).

(** [for(i=0; i<10 && pc[i] != 0; i++)] *)
Fixpoint print_pcs (pcs : list Z) : K unit :=
  match pcs with
  | [] => kret tt
  | pc :: pcs => if pc =? 0 then kret tt else cprintf " %p" [AInt pc] ;; print_pcs pcs
  end.

Definition procdump : K unit :=
  kiter (seq 0 NPROC) (fun p =>
    pr <- get_proc p;
    if bool_decide (p_state pr = UNUSED) then kret tt else
    cprintf "%d %s %s" [AInt (p_pid pr); AStr (Some (state_name (p_state pr))); AStr (Some (cstr (p_name pr)))] ;;
    kwhen (bool_decide (p_state pr = SLEEPING))
      (m <- gets k_mem;
       print_pcs (getcallerpcs m (load32 m (p_context pr + context_ebp) +u 8))) ;;
    cprintf "
" []).

(** ** The scheduler *)

(** A process returning from [swtch] for the first time. *)
Definition forkret `{Fuel} : K unit :=
  release LK_ptable ;;
  first <- gets k_first;
  kwhen first
    (modify (upd_k_first (fun _ => false)) ;;
     iinit ROOTDEV ;;
     initlog ROOTDEV).

(** What is left to run of each process that is off the CPU: the other side of its
    [swtch]. *)
Abbreviation threads := (gmap nat (kstate -> res unit)).

(** How running a process ends: it gave the CPU back, or it returned to user space, where
    code that is not the kernel's goes on, or the machine stopped. *)
Inductive ran :=
| Back (s : kstate) (th : threads)
| ToUser (p : nat) (s : kstate) (th : threads)
| Stopped (msg : string)
| Stuck.

(** [c->proc = p; switchuvm(p); p->state = RUNNING;] *)
Definition dispatch (p : nat) : K unit :=
  modify (upd_k_cur (fun _ => Some p)) ;;
  switchuvm (Some p) ;;
  set_proc p (upd_p_state (fun _ => RUNNING)).

(** [switchkvm(); c->proc = 0;] *)
Definition undispatch : K unit :=
  switchkvm ;;
  modify (upd_k_cur (fun _ => None)).

(** [swtch(&(c->scheduler), p->context)] and what follows it in the loop. *)
Definition run_proc (p : nat) (s : kstate) (th : threads) : ran :=
  match dispatch p s with
  | Ok _ s =>
      match th !! p with
      | None => Stuck
      | Some k =>
          match k s with
          | Ok _ s => ToUser p s (delete p th)
          | Panic msg => Stopped msg
          | NoFuel => Stuck
          | Swtch s k' =>
              match undispatch s with
              | Ok _ s => Back s (<[p := k']> th)
              | Panic msg => Stopped msg
              | _ => Stuck
              end
          end
      end
  | Panic msg => Stopped msg
  | _ => Stuck
  end.

(** The loop over the process table, from process [p] on; the number of slots left is
    the recursion. *)
Fixpoint scheduler_loop (n : nat) (p : nat) (s : kstate) (th : threads) : ran :=
  match n with
  | O => Back s th
  | S n =>
      match k_procs s !! p with
      | None => Stuck
      | Some pr =>
          if negb (bool_decide (p_state pr = RUNNABLE)) then scheduler_loop n (S p) s th
          else match run_proc p s th with
               | Back s th => scheduler_loop n (S p) s th
               | r => r
               end
      end
  end.

(** One round of [for(;;)] in [scheduler]. *)
Definition scheduler_round (s : kstate) (th : threads) : ran :=
  match acquire LK_ptable s with
  | Ok _ s =>
      match scheduler_loop NPROC 0 s th with
      | Back s th =>
          match release LK_ptable s with
          | Ok _ s => Back s th
          | Panic msg => Stopped msg
          | _ => Stuck
          end
      | r => r
      end
  | Panic msg => Stopped msg
  | _ => Stuck
  end.
