(* ===== verification/Lifecycle.v ===== *)
(** * The life of a process (proc.c)

    What [growproc], [exit2], [wait2], [kill] and the scheduler do to a process and its
    memory, over the definitions of [Proc]. *)

From S2P Require Import Prelude Mem StringC Kernel Mmu Kalloc Sched Bio Layout Log Printf Cons Fs Pipe File Vm Space Mapping Pages Uvm Proc.

(** ** The memory of a process *)

(** The size [growproc] aims at; a decrement by more than the size leaves it alone. *)
Definition grow_target (sz n : Z) : Z := if 0 <=? sz + n then sz + n else sz.

(** The process has exactly the pages below its size. *)
Definition proc_space (s : kstate) (pr : proc) (free : list Z) : Prop :=
  owns s (space_pages (k_mem s) (p_pgdir pr)) free /\ 0 <= p_sz pr < KERNBASE /\
  forall j, 0 <= j < UPAGES -> (present (entry (k_mem s) (p_pgdir pr) j) = true <-> 4096 * j < p_sz pr).

(** The pages the process keeps are as they were. *)
Definition keeps (s s' : kstate) (pgdir sz : Z) : Prop :=
  forall j, 0 <= j -> 4096 * j < sz ->
    entry (k_mem s') pgdir j = entry (k_mem s) pgdir j /\ same_page (k_mem s) (k_mem s') (frame (entry (k_mem s) pgdir j)).

Lemma keeps_refl s pgdir sz : keeps s s pgdir sz.
Proof. by intros j _ _. Qed.

Lemma set_proc_ok p g s : set_proc p g s = Ok tt (upd_k_procs (alter g p) s).
Proof. done. Qed.

Lemma switchuvm_ok p pr s :
  k_procs s !! p = Some pr -> p_kstack pr <> 0 -> p_pgdir pr <> 0 ->
  switchuvm (Some p) s = Ok tt (upd_k_cr3 (fun _ => V2P (p_pgdir pr)) (upd_k_esp0 (fun _ => p_kstack pr +u KSTACKSIZE) s)).
Proof.
  intros Hp Hk Hd. unfold switchuvm. rewrite (kbind_ok _ _ _ _ _ (get_proc_ok p pr s Hp)).
  destruct (Z.eqb_spec (p_kstack pr) 0); [done|]. by destruct (Z.eqb_spec (p_pgdir pr) 0).
Qed.

(** A state with the same memory, free list and kernel image has the same address spaces. *)
Lemma owns_same s s' pages free :
  k_mem s' = k_mem s -> k_freelist s' = k_freelist s -> k_end s' = k_end s -> owns s pages free -> owns s' pages free.
Proof. unfold owns, Kalloc.kmem_ok. by intros -> -> ->. Qed.

(** The end of [growproc] once the size is known. *)
Lemma grow_done p pr sz s :
  k_procs s !! p = Some pr -> p_kstack pr <> 0 -> p_pgdir pr <> 0 ->
  exists s', (set_proc p (upd_p_sz (fun _ => sz)) ;; switchuvm (Some p) ;; kret 0) s = Ok 0 s' /\
    k_mem s' = k_mem s /\ k_freelist s' = k_freelist s /\ k_end s' = k_end s /\
    k_procs s' = <[p := upd_p_sz (fun _ => sz) pr]> (k_procs s) /\ k_cr3 s' = V2P (p_pgdir pr).
Proof.
  intros Hp Hk Hd. rewrite (kbind_ok _ _ _ _ _ (set_proc_ok _ _ _)).
  assert (Hp1 : k_procs (upd_k_procs (alter (upd_p_sz (fun _ => sz)) p) s) !! p = Some (upd_p_sz (fun _ => sz) pr))
    by (simpl; by rewrite list_lookup_alter_eq, Hp).
  rewrite (kbind_ok _ _ _ _ _ (switchuvm_ok p _ _ Hp1 Hk Hd)). eexists. split; [reflexivity|].
  split_and!; [done..| |done]. simpl. apply list_eq. intros i. destruct (decide (i = p)) as [->|Hne].
  - rewrite list_lookup_alter_eq, Hp, list_lookup_insert_eq by (by eapply lookup_lt_Some). done.
  - by rewrite list_lookup_alter_ne, list_lookup_insert_ne by done.
Qed.

Lemma upd_p_sz_id pr : upd_p_sz (fun _ => p_sz pr) pr = pr.
Proof. by destruct pr. Qed.

Section Grow.
Context (s : kstate) (p : nat) (pr : proc) (free : list Z) (n : Z).
Hypothesis Hcur : k_cur s = Some p.
Hypothesis Hp : k_procs s !! p = Some pr.
Hypothesis Hsp : proc_space s pr free.
Hypothesis Hf : Kalloc.kmem_free s.
Hypothesis Hcursor : cursor_ok s.
Hypothesis Hcons : cons_free s.
Hypothesis Hks : p_kstack pr <> 0.
Hypothesis Hn : - 2 ^ 31 <= n < 2 ^ 31.

Let pgdir := p_pgdir pr.

(** Why the call may fail: the size would reach the kernel, or the free list does not hold two pages
    (one for a table) for each new page, or a process of size 0 is to shrink. *)
Definition grow_fails : Prop :=
  KERNBASE <= p_sz pr + n \/
  0 < n /\ Z.of_nat (length free) < 2 * ((p_sz pr + n + 4095) / 4096 - (p_sz pr + 4095) / 4096) \/
  n < 0 /\ p_sz pr = 0.

(** How the call may end: with the new size, or with the process as it was. *)
Definition grow_result (r : Z) (s' : kstate) (sz' : Z) : Prop :=
  exists free', proc_space s' (upd_p_sz (fun _ => sz') pr) free' /\
    k_procs s' = <[p := upd_p_sz (fun _ => sz') pr]> (k_procs s) /\
    space_pages (k_mem s') pgdir ++ free' ≡ₚ space_pages (k_mem s) pgdir ++ free /\
    keeps s s' pgdir (Z.min (p_sz pr) sz') /\
    (r = 0 /\ sz' = grow_target (p_sz pr) n /\ k_cr3 s' = V2P pgdir \/ r = -1 /\ sz' = p_sz pr /\ grow_fails).

(** Finishing after the memory of the process was changed in [s1]. *)
Lemma grow_finish s1 sz' free' :
  k_procs s1 = k_procs s -> proc_space s1 (upd_p_sz (fun _ => sz') pr) free' ->
  space_pages (k_mem s1) pgdir ++ free' ≡ₚ space_pages (k_mem s) pgdir ++ free ->
  keeps s s1 pgdir (Z.min (p_sz pr) sz') -> sz' = grow_target (p_sz pr) n ->
  exists s', (set_proc p (upd_p_sz (fun _ => sz')) ;; switchuvm (Some p) ;; kret 0) s1 = Ok 0 s' /\ grow_result 0 s' sz'.
Proof using All.
  intros Hps (Ho & Hsz & Hpre) Hperm Hkeep Htarget.
  destruct (grow_done p pr sz' s1) as (s' & Hr & Em & Ef & Ee & Eps & Ecr); [by rewrite Hps|done|by eapply owns_pgdir_nz|].
  exists s'. split; [done|]. exists free'. unfold proc_space, keeps, grow_result in *. cbn [p_pgdir p_sz upd_p_sz] in *.
  rewrite Em, Eps, Hps. split_and!; try done; [by eapply owns_same|lia|lia|by left].
Qed.

Lemma user_frame j : 0 <= j -> 4096 * j < p_sz pr -> frame (entry (k_mem s) pgdir j) ∈ mapped (k_mem s) pgdir 0 UPAGES.
Proof using All.
  intros Hj Hlt. destruct Hsp as (_ & Hsz & Hpre). unfold KERNBASE in Hsz. apply elem_of_mapped. exists j.
  change UPAGES with 524288 in *. split; [lia|]. split; [apply Hpre; lia|done].
Qed.

Lemma grow_up : 0 < n -> p_sz pr + n < KERNBASE ->
  exists r s1 free', allocuvm pgdir (p_sz pr) (p_sz pr + n) s = Ok r s1 /\ k_procs s1 = k_procs s /\
    space_pages (k_mem s1) pgdir ++ free' ≡ₚ space_pages (k_mem s) pgdir ++ free /\
    keeps s s1 pgdir (p_sz pr) /\
    (r = p_sz pr + n /\ proc_space s1 (upd_p_sz (fun _ => p_sz pr + n) pr) free' \/ r = 0 /\ grow_fails /\ proc_space s1 pr free').
Proof using All.
  intros Hpos Hlt. pose proof Hsp as (Ho & Hsz & Hpre). unfold KERNBASE in *. fold pgdir in Ho, Hpre.
  set (k := (p_sz pr + 4095) / 4096). set (c := (p_sz pr + n + 4095) / 4096 - k).
  change UPAGES with 524288 in Hpre.
  rewrite <- (app_nil_r (space_pages _ _)) in Ho.
  destruct (allocuvm_ok s pgdir (p_sz pr) (p_sz pr + n) k c [] free Ho Hf Hcursor Hcons) as (r & s1 & free' & Hr & Ho1 & Hperm & Hoth & Hsame & Hres);
    [lia|done|done|done| |].
  { intros j Hj. destruct (present _) eqn:E; [|done]. apply Hpre in E; unfold c, k in *; dlia. }
  rewrite app_nil_r in *. exists r, s1, free'. split; [done|].
  assert (Hk : k_procs s1 = k_procs s).
  { destruct Hres as [(_ & (f & m & ->) & _)|(_ & (s2 & (f & m & ->) & (o & q & d & ->)) & _)]; done. }
  split; [done|]. split; [done|]. split.
  { intros j Hj Hjl. split; [apply Hoth; unfold c, k; dlia|]. by apply Hsame, user_frame. }
  unfold proc_space. cbn [p_sz p_pgdir upd_p_sz]. fold pgdir. unfold KERNBASE. change UPAGES with 524288.
  destruct Hres as [(-> & _ & Hnew)|(-> & _ & Hfew & Hnew)]; [left|right; split; [done|]; split; [by right; left|]];
    (split; [done|]; split; [lia|]) || (split; [done|]; split; [done|]; split; [lia|]).
  all: intros j Hj; destruct (decide (k <= j < k + c)) as [Hin|Hout]; [|rewrite Hoth, Hpre by dlia; unfold c, k in *; dlia].
  - destruct (Hnew j Hin) as (q & Hq & -> & _).
    assert (Hm : Kalloc.managed (k_end s) q).
    { destruct Ho as ((_ & _ & Hall) & _). rewrite Forall_forall in Hall. by apply Hall. }
    destruct (frame_make (k_end s) q (PTE_W .| PTE_U) Hm ltac:(done)) as (_ & H & _). fold (user_pte q) in H. rewrite H.
    unfold c, k in *. split; [dlia|done].
  - rewrite Hnew by done. unfold c, k in *. split; [done|dlia].
Qed.

Lemma grow_down : n < 0 -> 0 <= p_sz pr + n ->
  exists s1 free', deallocuvm pgdir (p_sz pr) (p_sz pr + n) s = Ok (p_sz pr + n) s1 /\ k_procs s1 = k_procs s /\
    space_pages (k_mem s1) pgdir ++ free' ≡ₚ space_pages (k_mem s) pgdir ++ free /\
    keeps s s1 pgdir (p_sz pr + n) /\ proc_space s1 (upd_p_sz (fun _ => p_sz pr + n) pr) free'.
Proof using All.
  intros Hneg Hge. pose proof Hsp as (Ho & Hsz & Hpre). unfold KERNBASE in *. fold pgdir in Ho, Hpre.
  set (k := (p_sz pr + n + 4095) / 4096). set (c := (p_sz pr + 4095) / 4096 - k).
  change UPAGES with 524288 in Hpre. rewrite <- (app_nil_r (space_pages _ _)) in Ho.
  destruct (dealloc_spare s pgdir (p_sz pr) (p_sz pr + n) k c [] free Ho Hf) as (s1 & free' & Hr & Hm & Ho1 & Hperm & Hfr);
    [lia|unfold KERNBASE; lia|done|done|].
  exists s1, free'. split; [done|]. split; [by destruct Hm as (f & m & ->)|]. split; [done|].
  rewrite app_nil_r in Ho, Ho1. destruct (dealloc_frame_range s s1 pgdir k c) as [Hin Hout]; [unfold c, k; dlia..|done|].
  split.
  - intros j Hj Hjl. split; [apply Hout; unfold c, k; dlia|]. assert (Hjs : 4096 * j < p_sz pr) by lia.
    pose proof (user_frame j Hj Hjs) as Hu. destruct (mapped_user s pgdir free _ Ho Hu) as (H1 & H2 & H3 & H4).
    apply Hfr; [done|done|]. intros H. apply elem_of_mapped in H as (i & Hi & Hpi & Hfi).
    assert (i = j); [|subst i; unfold c, k in *; dlia].
    destruct Ho as (_ & Hnd & _). unfold space_pages in Hnd. cbn [app] in Hnd. apply NoDup_cons in Hnd as [_ Hnd].
    rewrite <- app_assoc in Hnd. apply NoDup_app in Hnd as (_ & _ & Hnd). apply NoDup_app in Hnd as (Hnd & _ & _).
    rewrite mapped_unfold in Hnd. change UPAGES with 524288 in Hnd.
    apply (omap_NoDup_inj (fun k => frame_if (entry (k_mem s) pgdir k)) (seqZ 0 524288) i j (frame (entry (k_mem s) pgdir j)) Hnd);
      [apply elem_of_seqZ; unfold c, k in *; dlia..| |]; unfold frame_if.
    + by rewrite Hpi, Hfi.
    + assert (Hpj : present (entry (k_mem s) pgdir j) = true) by (apply Hpre; lia). by rewrite Hpj.
  - unfold proc_space. cbn [p_sz p_pgdir upd_p_sz]. fold pgdir. unfold KERNBASE. change UPAGES with 524288.
    split; [done|]. split; [lia|]. intros j Hj. destruct (decide (k <= j < k + c)) as [Hi|Ho'].
    + rewrite Hin by done. unfold c, k in *. split; [done|dlia].
    + rewrite Hout, Hpre by lia. unfold c, k in *. dlia.
Qed.

(** The part of [growproc] that changes the page table came to [o] in [s1]. *)
Definition resized (o : option Z) (s1 : kstate) : Prop :=
  exists free', let sz' := default (p_sz pr) o in
    k_procs s1 = k_procs s /\ proc_space s1 (upd_p_sz (fun _ => sz') pr) free' /\
    space_pages (k_mem s1) pgdir ++ free' ≡ₚ space_pages (k_mem s) pgdir ++ free /\
    keeps s s1 pgdir (Z.min (p_sz pr) sz') /\ (o = None /\ grow_fails \/ o <> None /\ sz' = grow_target (p_sz pr) n).

Lemma resized_same o : default (p_sz pr) o = p_sz pr -> (o = None /\ grow_fails \/ o <> None /\ p_sz pr = grow_target (p_sz pr) n) -> resized o s.
Proof using All.
  intros E Ho. exists free. cbv zeta. rewrite E, upd_p_sz_id. split; [done|]. split; [done|]. split; [done|].
  split; [apply keeps_refl|done].
Qed.

Lemma resize_up : 0 < n -> exists o s1,
  (sz <- allocuvm pgdir (p_sz pr) (p_sz pr +u n); kret (if sz =? 0 then None else Some sz)) s = Ok o s1 /\ resized o s1.
Proof using All.
  intros Hpos. pose proof Hsp as (_ & Hsz & _). unfold KERNBASE in Hsz. rewrite u32_id by lia.
  destruct (decide (p_sz pr + n < KERNBASE)) as [Hlt|Hge].
  - destruct grow_up as (r & s1 & free' & Hr & Hps & Hperm & Hkp & Hres); [done..|].
    rewrite (kbind_ok _ _ _ _ _ Hr). destruct Hres as [(-> & Hs1)|(-> & Hwhy & Hs1)].
    + destruct (Z.eqb_spec (p_sz pr + n) 0); [lia|]. eexists _, s1. split; [done|]. exists free'. cbn [default id from_option].
      rewrite Z.min_l by lia. split_and!; try done. right. split; [done|]. unfold grow_target. by destruct (Z.leb_spec 0 (p_sz pr + n)); [|lia].
    + exists None, s1. split; [done|]. exists free'. cbn [default id from_option]. rewrite upd_p_sz_id, Z.min_id. split_and!; try done. by left.
  - assert (E : allocuvm pgdir (p_sz pr) (p_sz pr + n) s = Ok 0 s)
      by (unfold allocuvm; by destruct (Z.leb_spec KERNBASE (p_sz pr + n)); [|lia]).
    rewrite (kbind_ok _ _ _ _ _ E). exists None, s. split; [done|]. apply resized_same; [done|left; split; [done|left; lia]].
Qed.

Lemma resize_down : n < 0 -> p_sz pr + n <> 0 -> exists o s1,
  (sz <- deallocuvm pgdir (p_sz pr) (p_sz pr +u n); kret (if sz =? 0 then None else Some sz)) s = Ok o s1 /\ resized o s1.
Proof using All.
  intros Hneg Hnz. pose proof Hsp as (_ & Hsz & _). unfold KERNBASE in Hsz. destruct (decide (0 <= p_sz pr + n)) as [Hge|Hlt].
  - rewrite u32_id by lia. destruct grow_down as (s1 & free' & Hr & Hps & Hperm & Hkp & Hs1); [done..|].
    rewrite (kbind_ok _ _ _ _ _ Hr). destruct (Z.eqb_spec (p_sz pr + n) 0); [lia|]. eexists _, s1. split; [done|].
    exists free'. cbn [default id from_option]. rewrite Z.min_r by lia. split_and!; try done.
    right. split; [done|]. unfold grow_target. by destruct (Z.leb_spec 0 (p_sz pr + n)); [|lia].
  - assert (Eu : p_sz pr +u n = p_sz pr + n + 2 ^ 32)
      by (unfold u32; rewrite <- (Z.mod_add _ 1), Z.mod_small by lia; lia).
    assert (E : deallocuvm pgdir (p_sz pr) (p_sz pr +u n) s = Ok (p_sz pr) s)
      by (unfold deallocuvm; rewrite Eu; by destruct (Z.leb_spec (p_sz pr) (p_sz pr + n + 2 ^ 32)); [|lia]).
    rewrite (kbind_ok _ _ _ _ _ E). destruct (Z.eqb_spec (p_sz pr) 0) as [Ez|_]; (eexists _, s; split; [done|]).
    + apply resized_same; [done|left; split; [done|right; right; done]].
    + apply resized_same; [done|]. right. split; [done|]. unfold grow_target. by destruct (Z.leb_spec 0 (p_sz pr + n)); [lia|].
Qed.
End Grow.

(** ** A machine running one process *)

(** The small address space as the memory of process 0. *)
Definition the_proc : proc :=
  Proc 5000 small_pgdir KERNLINK RUNNING 1 None 0 0 None 0 (replicate NOFILE None) None (replicate 16 0) 0.
Definition one_proc : kstate :=
  upd_k_cur (fun _ => Some 0%nat) (upd_k_procs (fun _ => the_proc :: replicate (NPROC - 1) proc0) small).

(** The entries of an address space with tables for the first [t] directory entries only. *)
Lemma entry_low m pgdir t j :
  0 <= t -> forallb (fun i => negb (present (pde m pgdir i))) (seqZ t (512 - t)) = true ->
  1024 * t <= j < 524288 -> present (entry m pgdir j) = false.
Proof.
  intros Ht Hp Hj. rewrite forallb_forall in Hp.
  assert (Hin : In (j / 1024) (seqZ t (512 - t))) by (rewrite <- list_elem_of_In, elem_of_seqZ; dlia).
  apply Hp in Hin. unfold entry. by destruct (present (pde m pgdir (j / 1024))).
Qed.

(** Processes are not part of an address space. *)
Lemma proc_space_run s g h pr free : proc_space s pr free -> proc_space (upd_k_cur g (upd_k_procs h s)) pr free.
Proof. done. Qed.

Lemma one_proc_space : proc_space one_proc the_proc (rev (take 2 top_pages)).
Proof.
  apply proc_space_run. unfold proc_space. cbn [p_pgdir p_sz the_proc]. split; [exact (proj1 small_ok)|].
  split; [unfold KERNBASE; lia|]. change UPAGES with 524288. intros j Hj.
  destruct (decide (j < 1024)) as [Hlt|Hge].
  - assert (E : forallb (fun j => Bool.eqb (present (entry (k_mem small) small_pgdir j)) (4096 * j <? 5000)) (seqZ 0 1024) = true)
        by (by vm_compute).
      rewrite forallb_forall in E. specialize (E j). rewrite <- list_elem_of_In, elem_of_seqZ in E.
      apply eqb_prop in E; [|lia]. rewrite E. apply Z.ltb_lt.
  - rewrite (entry_low (k_mem small) small_pgdir 1); [|lia|by vm_compute|lia]. split; [done|lia].
Qed.

(** C19: [growproc] keeps the size of the process and its page table in step: it succeeds with
    the new size and exactly the pages below it, or fails, when the size would reach the kernel or
    memory is short ([grow_fails]), with the size and the pages the process had. The pages below both
    sizes keep their contents and no page is lost. The exception is a decrement of the whole size:
    the page table shrinks to size 0 and every page is given back, but the call returns -1 and
    the process keeps the size it had. *)
Theorem growproc_sound (s : kstate) (p : nat) (pr : proc) (free : list Z) (n : Z)
    (Hcur : k_cur s = Some p) (Hp : k_procs s !! p = Some pr) (Hsp : proc_space s pr free)
    (Hf : Kalloc.kmem_free s) (Hcursor : cursor_ok s) (Hcons : cons_free s) (Hks : p_kstack pr <> 0)
    (Hn : - 2 ^ 31 <= n < 2 ^ 31) :
  if (n <? 0) && (p_sz pr + n =? 0)
  then exists s' free', growproc n s = Ok (-1) s' /\ k_procs s' = k_procs s /\
    proc_space s' (upd_p_sz (fun _ => 0) pr) free' /\
    space_pages (k_mem s') (p_pgdir pr) ++ free' ≡ₚ space_pages (k_mem s) (p_pgdir pr) ++ free
  else exists r s' sz', growproc n s = Ok r s' /\ grow_result s p pr free n r s' sz'.
Proof.
  unfold growproc. rewrite (kbind_ok _ _ _ _ _ (curproc_ok p s Hcur)), (kbind_ok _ _ _ _ _ (get_proc_ok p pr s Hp)).
  destruct ((n <? 0) && (p_sz pr + n =? 0)) eqn:Ez.
  { apply andb_true_iff in Ez as [Hneg%Z.ltb_lt Hz%Z.eqb_eq].
    destruct (grow_down s p pr free n) as (s1 & free' & Hr & Hps & Hperm & _ & Hs1); try done; [lia|].
    rewrite Hz in Hr, Hs1. destruct (Z.ltb_spec 0 n); [lia|]. destruct (Z.ltb_spec n 0); [|lia]. rewrite Hz. change (u32 0) with 0.
    exists s1, free'. unfold kbind at 1. rewrite (kbind_ok _ _ _ _ _ Hr). done. }
  assert (Hr : exists o s1, (if 0 <? n then
      sz <- allocuvm (p_pgdir pr) (p_sz pr) (p_sz pr +u n); kret (if sz =? 0 then None else Some sz)
    else if n <? 0 then
      sz <- deallocuvm (p_pgdir pr) (p_sz pr) (p_sz pr +u n); kret (if sz =? 0 then None else Some sz)
    else kret (Some (p_sz pr))) s = Ok o s1 /\ resized s pr free n o s1).
  { destruct (Z.ltb_spec 0 n); [by eapply resize_up|]. destruct (Z.ltb_spec n 0).
    { eapply resize_down; try done. intros E. by rewrite E in Ez. }
    assert (n = 0) as -> by lia. eexists _, s. split; [done|]. eapply resized_same; try done. right. split; [done|]. unfold grow_target.
    rewrite Z.add_0_r. by destruct (0 <=? p_sz pr). }
  destruct Hr as (o & s1 & Hr & free' & Hps & Hs1 & Hperm & Hkp & Ho). rewrite (kbind_ok _ _ _ _ _ Hr).
  destruct Ho as [[-> Hwhy]|[Hne Ho]]; [|destruct o as [sz'|]; [|done]]; cbn [default id from_option] in *.
  - exists (-1), s1, (p_sz pr). split; [done|]. exists free'. rewrite upd_p_sz_id in *.
    split; [done|]. split; [by rewrite Hps, list_insert_id|]. split; [done|]. split; [done|by right].
  - destruct (grow_finish s p pr free n) with (s1 := s1) (sz' := sz') (free' := free') as (s' & Hr' & Hg); try done.
    by exists 0, s', sz'.
Qed.

Lemma one_proc_locks : k_use_lock one_proc = false.
Proof. vm_compute. reflexivity. Qed.
Lemma one_proc_locking : k_locking one_proc = false.
Proof. vm_compute. reflexivity. Qed.

Lemma growproc_sound_witness :
  (exists r s' sz', growproc (-100) one_proc = Ok r s' /\
    grow_result one_proc 0 the_proc (rev (take 2 top_pages)) (-100) r s' sz') /\
  exists s', growproc (-5000) one_proc = Ok (-1) s' /\ k_procs s' = k_procs one_proc.
Proof.
  assert (Hf : Kalloc.kmem_free one_proc) by (intros E; rewrite one_proc_locks in E; discriminate E).
  assert (Hc : cursor_ok one_proc) by (unfold cursor_ok; vm_compute; split; congruence).
  assert (Hl : cons_free one_proc) by (intros E; rewrite one_proc_locking in E; discriminate E).
  assert (Hk : p_kstack the_proc <> 0) by (vm_compute; discriminate). split.
  - exact (growproc_sound one_proc 0 the_proc (rev (take 2 top_pages)) (-100) eq_refl eq_refl one_proc_space Hf Hc Hl Hk ltac:(lia)).
  - destruct (growproc_sound one_proc 0 the_proc (rev (take 2 top_pages)) (-5000) eq_refl eq_refl one_proc_space Hf Hc Hl Hk ltac:(lia))
      as (s' & free' & H1 & H2 & _). exists s'. split; [exact H1|exact H2].
Defined.

(** ** Kill *)

Lemma find_pid ps p pr pid :
  ps !! p = Some pr -> p_pid pr = pid -> (forall j q, (j < p)%nat -> ps !! j = Some q -> p_pid q <> pid) ->
  find_from (fun pr => p_pid pr =? pid) ps 0 = Some p.
Proof.
  intros Hp Hpid Hb. apply (find_from_some _ _ 0 p pr); [done|by apply Z.eqb_eq|].
  intros j q Hj Hq. apply Z.eqb_neq. by apply (Hb j).
Qed.

(** What a kill does to its process. *)
Definition killed_proc (pr : proc) : proc :=
  let pr := upd_p_killed (fun _ => 1) pr in
  if bool_decide (p_state pr = SLEEPING) then upd_p_state (fun _ => RUNNABLE) pr else pr.

Lemma kill_run s p pr pid :
  LK_ptable ∉ k_held s -> k_procs s !! p = Some pr -> p_pid pr = pid ->
  (forall j q, (j < p)%nat -> k_procs s !! j = Some q -> p_pid q <> pid) ->
  kill pid s = Ok 0 (upd_k_procs (alter killed_proc p) s).
Proof.
  intros Hh Hp Hpid Hb. unfold kill. rewrite (kbind_ok _ _ _ _ _ (acquire_ok _ _ Hh)).
  set (s1 := upd_k_held (cons LK_ptable) s). rewrite (kbind_ok (gets k_procs) _ s1 _ s1 eq_refl).
  change (k_procs s1) with (k_procs s). rewrite (find_pid _ p pr pid Hp Hpid Hb).
  rewrite (kbind_ok _ _ _ _ _ (set_proc_ok _ _ _)).
  set (s2 := upd_k_procs _ s1). assert (Hp2 : k_procs s2 !! p = Some (upd_p_killed (fun _ => 1) pr))
    by (cbn; by rewrite list_lookup_alter_eq, Hp).
  rewrite (kbind_ok _ _ _ _ _ (get_proc_ok p _ s2 Hp2)).
  set (s3 := upd_k_held (cons LK_ptable) (upd_k_procs (alter killed_proc p) s)).
  assert (H3 : kwhen (bool_decide (p_state (upd_p_killed (fun _ => 1) pr) = SLEEPING))
    (set_proc p (upd_p_state (fun _ => RUNNABLE))) s2 = Ok tt s3).
  { assert (E : forall g, (forall x, k_procs s !! p = Some x -> g (upd_p_killed (fun _ => 1) x) = killed_proc x) ->
      upd_k_procs (alter g p) s2 = s3).
    { intros g Hg. unfold s3, s2, s1, upd_k_procs, upd_k_held. cbn. f_equal. rewrite list_alter_alter_eq.
      apply list_alter_ext; [|done]. intros x Hx. by apply Hg. }
    unfold kwhen. case_bool_decide as Hs.
    - unfold set_proc, modify. f_equal. apply E. rewrite Hp. intros x [= <-]. unfold killed_proc.
      by rewrite (bool_decide_eq_true_2 _ Hs).
    - unfold kret. f_equal. rewrite <- (E id).
      + unfold upd_k_procs, s2. cbn. by rewrite list_alter_id.
      + rewrite Hp. intros x [= <-]. unfold killed_proc. by rewrite (bool_decide_eq_false_2 _ Hs). }
  rewrite (kbind_ok _ _ _ _ _ H3), (kbind_ok _ _ _ _ _ (release_acquired LK_ptable (k_held s) s3 eq_refl Hh)).
  unfold kret, s3. by destruct s.
Qed.

(** ** Allocating a slot *)

(** Updates of different parts of the state commute, and those of one part compose. *)
Lemma set_procs_alter p g h s :
  upd_k_procs (alter g p) (upd_k_procs (alter h p) s) = upd_k_procs (alter (fun x => g (h x)) p) s.
Proof. unfold upd_k_procs. cbn. f_equal. by rewrite list_alter_alter_eq. Qed.
Lemma procs_freelist g f s : upd_k_procs g (upd_k_freelist f s) = upd_k_freelist f (upd_k_procs g s).
Proof. by destruct s. Qed.
Lemma procs_nextpid g f s : upd_k_procs g (upd_k_nextpid f s) = upd_k_nextpid f (upd_k_procs g s).
Proof. by destruct s. Qed.
Lemma procs_mem g f s : upd_k_procs g (upd_k_mem f s) = upd_k_mem f (upd_k_procs g s).
Proof. by destruct s. Qed.
Lemma mem_mem g f s : upd_k_mem g (upd_k_mem f s) = upd_k_mem (fun m => g (f m)) s.
Proof. by destruct s. Qed.

Section Allocproc.
Context `{Image}.

(** The slot [allocproc] hands out. *)
Definition embryo (pid page : Z) (pr : proc) : proc :=
  upd_p_context (fun _ => page + 3996) (upd_p_tf (fun _ => page + 4020) (upd_p_kstack (fun _ => page)
    (upd_p_pid (fun _ => pid) (upd_p_state (fun _ => EMBRYO) pr)))).

Lemma find_unused ps p pr :
  ps !! p = Some pr -> p_state pr = UNUSED -> (forall j q, (j < p)%nat -> ps !! j = Some q -> p_state q <> UNUSED) ->
  find_from (fun pr => bool_decide (p_state pr = UNUSED)) ps 0 = Some p.
Proof.
  intros Hp Hu Hb. apply (find_from_some _ _ 0 p pr); [done|by apply bool_decide_eq_true|].
  intros j q Hj Hq. apply bool_decide_eq_false. by apply (Hb j).
Qed.

Lemma allocproc_run s p pr page free :
  LK_ptable ∉ k_held s -> k_procs s !! p = Some pr -> p_state pr = UNUSED ->
  (forall j q, (j < p)%nat -> k_procs s !! j = Some q -> p_state q <> UNUSED) ->
  Kalloc.kmem_ok s (page :: free) -> Kalloc.kmem_free s ->
  exists g fl, allocproc s =
    Ok (Some p) (upd_k_mem g (upd_k_freelist fl (upd_k_nextpid (fun n => s32 (n + 1))
      (upd_k_procs (alter (embryo (k_nextpid s) page) p) s)))).
Proof.
  intros Hh Hp Hu Hb Hk Hf. unfold allocproc. rewrite (kbind_ok _ _ _ _ _ (acquire_ok _ _ Hh)).
  set (s1 := upd_k_held (cons LK_ptable) s). rewrite (kbind_ok (gets k_procs) _ s1 _ s1 eq_refl).
  change (k_procs s1) with (k_procs s). rewrite (find_unused _ p pr Hp Hu Hb).
  rewrite (kbind_ok _ _ _ _ _ (set_proc_ok _ _ _)). set (s1' := upd_k_procs _ s1).
  rewrite (kbind_ok (gets k_nextpid) _ s1' (k_nextpid s) s1' eq_refl), (kbind_ok _ _ _ _ _ (set_proc_ok _ _ _)).
  set (s2' := upd_k_procs _ s1'). set (s2 := upd_k_nextpid (fun n => s32 (n + 1)) s2').
  rewrite (kbind_ok (modify _) _ s2' tt s2 eq_refl).
  rewrite (kbind_ok _ _ _ _ _ (release_acquired LK_ptable (k_held s) s2 eq_refl Hh)).
  set (s3 := upd_k_nextpid (fun n => s32 (n + 1)) (upd_k_procs (alter (upd_p_pid (fun _ => k_nextpid s)) p)
    (upd_k_procs (alter (upd_p_state (fun _ => EMBRYO)) p) s))).
  assert (E3 : upd_k_held (fun _ => k_held s) s2 = s3) by (unfold s2, s3, s2', s1', s1; by destruct s). rewrite E3.
  destruct (Kalloc.kalloc_ok s3 (page :: free)) as (s4 & Hka & _ & E4); [exact Hk|exact Hf|].
  rewrite (kbind_ok _ _ _ _ _ Hka), (kbind_ok _ _ _ _ _ (set_proc_ok _ _ _)).
  assert (Hpm : Kalloc.managed (k_end s) page) by (destruct Hk as (_ & _ & H0); by apply Forall_cons in H0 as [? _]).
  destruct (Z.eqb_spec page 0) as [E|_]; [destruct (managed_word _ page 0 Hpm); lia|].
  unfold KSTACKSIZE, sizeof_trapframe, sizeof_context.
  replace (page + 4096 - 76) with (page + 4020) by lia. replace (page + 4020 - 4 - 20) with (page + 3996) by lia.
  eexists _, _. unfold stw, set_proc, modify, kbind, kret. cbn [bind_res]. rewrite E4. unfold s3.
  rewrite !procs_mem, !mem_mem, !procs_freelist, !procs_nextpid, !set_procs_alter. reflexivity.
Qed.
End Allocproc.

(** [kill] marks the process with the pid, wakes it if it sleeps and touches no other; it
    fails, with nothing changed, when no slot has the pid. It keeps no lock. *)
Theorem kill_marks (s : kstate) (pid : Z) (Hlock : LK_ptable ∉ k_held s) :
  (exists p pr, k_procs s !! p = Some pr /\ p_pid pr = pid /\
     (forall j q, (j < p)%nat -> k_procs s !! j = Some q -> p_pid q <> pid) /\
     kill pid s = Ok 0 (upd_k_procs (alter killed_proc p) s) /\
     p_killed (killed_proc pr) = 1 /\ p_state (killed_proc pr) <> SLEEPING) \/
  ((forall p pr, k_procs s !! p = Some pr -> p_pid pr <> pid) /\ kill pid s = Ok (-1) s).
Proof.
  pose proof (find_from_inv (fun pr => p_pid pr =? pid) (k_procs s) 0) as Hf.
  destruct (find_from _ (k_procs s) 0) as [p'|] eqn:E.
  - left. destruct Hf as (p & pr & -> & Hp & Hpid & Hb). exists p, pr. apply Z.eqb_eq in Hpid.
    assert (Hb' : forall j q, (j < p)%nat -> k_procs s !! j = Some q -> p_pid q <> pid)
      by (intros j q Hj Hq; apply Z.eqb_neq; by apply (Hb j)).
    split_and!; try done; [by apply (kill_run s p pr)|unfold killed_proc; by case_bool_decide|].
    unfold killed_proc. by case_bool_decide.
  - right. split; [intros p pr Hp; apply Z.eqb_neq; by eapply Hf|].
    unfold kill. rewrite (kbind_ok _ _ _ _ _ (acquire_ok _ _ Hlock)). set (s1 := upd_k_held (cons LK_ptable) s).
    rewrite (kbind_ok (gets k_procs) _ s1 _ s1 eq_refl). change (k_procs s1) with (k_procs s). rewrite E.
    rewrite (kbind_ok _ _ _ _ _ (release_acquired LK_ptable (k_held s) s1 eq_refl Hlock)). unfold kret, s1. by destruct s.
Qed.

Lemma kill_marks_witness : kill 1 one_proc = Ok 0 (upd_k_procs (alter killed_proc 0%nat) one_proc) \/ kill 1 one_proc = Ok (-1) one_proc.
Proof.
  destruct (kill_marks one_proc 1) as [(p & pr & H1 & H2 & H3 & H4 & _)|[_ H]].
  - vm_compute. intros H. inversion H.
  - destruct p as [|p]; [left; exact H4|]. exfalso. apply (H3 O the_proc); [lia|reflexivity|reflexivity].
  - right. exact H.
Defined.

(** A free slot has the pid 0, so [kill(0)] finds one, marks it as killed and reports success;
    the next process made in the slot starts its life killed. *)
Theorem kill_zero_dooms_next `{Image} (s : kstate) (p : nat) (pr : proc) (page : Z) (free : list Z)
    (Hlock : LK_ptable ∉ k_held s) (Hp : k_procs s !! p = Some pr) (Hu : p_state pr = UNUSED) (Hpid : p_pid pr = 0)
    (Hb : forall j q, (j < p)%nat -> k_procs s !! j = Some q -> p_state q <> UNUSED /\ p_pid q <> 0)
    (Hk : Kalloc.kmem_ok s (page :: free)) (Hf : Kalloc.kmem_free s) :
  exists s1 s2 pr2, kill 0 s = Ok 0 s1 /\ allocproc s1 = Ok (Some p) s2 /\ k_procs s2 !! p = Some pr2 /\
    p_state pr2 = EMBRYO /\ p_pid pr2 = k_nextpid s /\ p_killed pr2 = 1.
Proof.
  pose proof (kill_run s p pr 0 Hlock Hp Hpid (fun j q Hj Hq => proj2 (Hb j q Hj Hq))) as Hr.
  set (s1 := upd_k_procs (alter killed_proc p) s) in *. exists s1.
  assert (Hp1 : k_procs s1 !! p = Some (killed_proc pr)) by (cbn; by rewrite list_lookup_alter_eq, Hp).
  assert (Hu1 : p_state (killed_proc pr) = UNUSED) by (unfold killed_proc; cbn; by rewrite Hu).
  destruct (allocproc_run s1 p (killed_proc pr) page free) as (g & fl & Ha); [done|done|done| |exact Hk|exact Hf|].
  { intros j q Hj. cbn. rewrite list_lookup_alter_ne by lia. intros Hq. by apply (Hb j q). }
  eexists _, _. split; [exact Hr|]. split; [exact Ha|]. cbn. rewrite list_lookup_alter_eq, list_lookup_alter_eq, Hp. cbn.
  split; [reflexivity|]. split_and!; try done. unfold killed_proc. by case_bool_decide.
Qed.

#[local] Instance demo_image : Image := {| trapret := 0; forkret_addr := 0; initcode := [] |}.

Lemma kill_zero_dooms_next_witness :
  exists s1 s2 pr2, kill 0 Kalloc.one_page = Ok 0 s1 /\ allocproc s1 = Ok (Some 0%nat) s2 /\
    k_procs s2 !! 0%nat = Some pr2 /\ p_killed pr2 = 1.
Proof.
  destruct (kill_zero_dooms_next Kalloc.one_page 0 proc0 Kalloc.top_page []) as (s1 & s2 & pr2 & H1 & H2 & H3 & _ & _ & H4).
  - vm_compute. intros H. inversion H.
  - vm_compute. reflexivity.
  - reflexivity.
  - reflexivity.
  - intros j q Hj. lia.
  - exact (proj1 Kalloc.one_page_ok).
  - exact (proj2 Kalloc.one_page_ok).
  - exists s1, s2, pr2. split; [exact H1|]. split; [exact H2|]. split; [exact H3|exact H4].
Defined.

(** ** Dispatching *)

(** The scheduler runs a process as [sleep] and [yield] expect: it is current and RUNNING, on
    its own page table and kernel stack, with the process table lock held and its pid
    unchanged; afterwards the CPU is back on the kernel's page table with no process. *)
Theorem dispatch_resumes (s0 s : kstate) (p : nat) (pr0 pr : proc) (th : threads) (k : kstate -> res unit)
    (Hcur0 : k_cur s0 = Some p) (Hp0 : k_procs s0 !! p = Some pr0)
    (Hp : k_procs s !! p = Some pr) (Hpid : p_pid pr = p_pid pr0) (Hrun : p_state pr = RUNNABLE)
    (Hks : p_kstack pr <> 0) (Hpg : p_pgdir pr <> 0) (Hheld : k_held s = [LK_ptable]) (Hth : th !! p = Some k) :
  exists s1, dispatch p s = Ok tt s1 /\ resumed s0 s1 /\ k_cr3 s1 = V2P (p_pgdir pr) /\
    k_esp0 s1 = p_kstack pr +u KSTACKSIZE /\
    forall s2 k', k s1 = Swtch s2 k' -> exists s3, run_proc p s th = Back s3 (<[p := k']> th) /\
      k_cur s3 = None /\ k_cr3 s3 = V2P (k_kpgdir s2) /\ k_procs s3 = k_procs s2 /\ k_held s3 = k_held s2.
Proof.
  set (s1 := upd_k_procs (alter (upd_p_state (fun _ => RUNNING)) p)
    (upd_k_cr3 (fun _ => V2P (p_pgdir pr)) (upd_k_esp0 (fun _ => p_kstack pr +u KSTACKSIZE) (upd_k_cur (fun _ => Some p) s)))).
  assert (Hd : dispatch p s = Ok tt s1).
  { unfold dispatch. rewrite (kbind_ok (modify _) _ s tt (upd_k_cur (fun _ => Some p) s) eq_refl).
    rewrite (kbind_ok _ _ _ _ _ (switchuvm_ok p pr (upd_k_cur (fun _ => Some p) s) Hp Hks Hpg)). done. }
  exists s1. split; [done|]. split; [|split; [done|split; [done|]]].
  - split_and!; [done|done|]. intros p' pr' Hc. rewrite Hcur0 in Hc. injection Hc as <-. rewrite Hp0. intros [= <-].
    exists (upd_p_state (fun _ => RUNNING) pr). cbn. by rewrite list_lookup_alter_eq, Hp.
  - intros s2 k' Hk. unfold run_proc. rewrite Hd, Hth, Hk.
    exists (upd_k_cur (fun _ => None) (upd_k_cr3 (fun _ => V2P (k_kpgdir s2)) s2)). done.
Qed.

Lemma dispatch_resumes_witness :
  exists s1, dispatch 0 (upd_k_held (fun _ => [LK_ptable]) (upd_k_procs (alter (upd_p_state (fun _ => RUNNABLE)) 0%nat) one_proc)) = Ok tt s1 /\
    resumed one_proc s1.
Proof.
  destruct (dispatch_resumes one_proc
    (upd_k_held (fun _ => [LK_ptable]) (upd_k_procs (alter (upd_p_state (fun _ => RUNNABLE)) 0%nat) one_proc))
    0 the_proc (upd_p_state (fun _ => RUNNABLE) the_proc) {[0%nat := fun s => Ok tt s]} (fun s => Ok tt s))
    as (s1 & H1 & H2 & _).
  - reflexivity.
  - reflexivity.
  - reflexivity.
  - reflexivity.
  - reflexivity.
  - vm_compute. discriminate.
  - vm_compute. discriminate.
  - reflexivity.
  - reflexivity.
  - exists s1. split; [exact H1|exact H2].
Defined.
