(* ===== verification/Exit.v ===== *)
(** * Ending a process and collecting it (proc.c)

    [exit2] turns a process into a zombie that keeps its exit status, wakes its parent and
    gives its children to init; [wait2] hands the status to the parent and gives back every
    page of the child. *)

From S2P Require Import Prelude Mem StringC Kernel Mmu Kalloc Sched Bio Layout Log Printf Cons Fs Pipe File Vm Space Mapping Pages Uvm Umem Proc Lifecycle.

(** ** Handing over the children *)

Definition waits_for (p : option nat) (pr : proc) : Prop := p_state pr = SLEEPING /\ p_chan pr = CH_proc <$> p.

Definition wake_ptr (p : option nat) (pr : proc) : proc :=
  if bool_decide (p_state pr = SLEEPING) && bool_decide (p_chan pr = CH_proc <$> p)
  then upd_p_state (fun _ => RUNNABLE) pr else pr.

(** What one process of the table may see of it: a new parent, a wakeup. *)
Definition adopted (cur : nat) (init : option nat) (pr pr' : proc) : Prop :=
  exists st par, pr' = upd_p_state (fun _ => st) (upd_p_parent (fun _ => par) pr) /\
    (par = p_parent pr \/ p_parent pr = Some cur /\ par = init) /\
    (st = p_state pr \/ waits_for init pr /\ st = RUNNABLE).

Lemma adopted_refl cur init pr : adopted cur init pr pr.
Proof. exists (p_state pr), (p_parent pr). split; [by destruct pr|]. tauto. Qed.

Lemma adopted_trans cur init p1 p2 p3 : adopted cur init p1 p2 -> adopted cur init p2 p3 -> adopted cur init p1 p3.
Proof.
  intros (st & par & -> & Hp & Hs) (st' & par' & -> & Hp' & Hs'). cbn in *. exists st', par'.
  split; [by destruct p1|]. unfold waits_for in *. cbn in *. split.
  - destruct Hp as [->|[H ->]], Hp' as [->|[H' ->]]; tauto.
  - destruct Hs as [->|[[H1 H2] ->]], Hs' as [->|[[H3 H4] ->]]; tauto.
Qed.

Lemma wake_adopted cur init pr : adopted cur init pr (wake_ptr init pr).
Proof.
  unfold wake_ptr. destruct (bool_decide _ && _) eqn:E; [|apply adopted_refl].
  apply andb_prop in E as [E1 E2]. apply bool_decide_eq_true in E1, E2.
  exists RUNNABLE, (p_parent pr). split; [by destruct pr|]. split; [by left|]. right. done.
Qed.

Lemma wake_not_waiting p pr : ~ waits_for p (wake_ptr p pr).
Proof.
  unfold wake_ptr, waits_for. destruct (bool_decide _) eqn:E1; simpl.
  - destruct (bool_decide (p_chan pr = _)) eqn:E2; simpl; [intros [H _]; discriminate H|].
    apply bool_decide_eq_false in E2. tauto.
  - apply bool_decide_eq_false in E1. tauto.
Qed.

Lemma adopted_not_waiting cur init pr pr' : adopted cur init pr pr' -> ~ waits_for init pr -> ~ waits_for init pr'.
Proof. intros (st & par & -> & _ & Hs) Hn [H1 H2]. cbn in *. apply Hn. destruct Hs as [->|[H _]]; [done|done]. Qed.

(** The body of the loop, on the process table. *)
Definition abandon_step (cur : nat) (init : option nat) (ps : list proc) (p : nat) : list proc :=
  match ps !! p with
  | Some pr =>
      if bool_decide (p_parent pr = Some cur) then
        let ps1 := alter (upd_p_parent (fun _ => init)) p ps in
        if bool_decide (p_state pr = ZOMBIE) then map (wake_ptr init) ps1 else ps1
      else ps
  | None => ps
  end.

Lemma abandon_step_length cur init ps p : length (abandon_step cur init ps p) = length ps.
Proof.
  unfold abandon_step. destruct (ps !! p) as [pr|]; [|done].
  repeat case_bool_decide; rewrite ?length_map, ?length_alter; done.
Qed.

Lemma abandon_run cur s l :
  (forall p, p ∈ l -> (p < length (k_procs s))%nat) ->
  kiter l (fun p =>
    pr <- get_proc p;
    kwhen (bool_decide (p_parent pr = Some cur))
      (init <- gets k_initproc;
       set_proc p (upd_p_parent (fun _ => init)) ;;
       kwhen (bool_decide (p_state pr = ZOMBIE)) (wakeup1_ptr init))) s =
  Ok tt (upd_k_procs (fun ps => foldl (abandon_step cur (k_initproc s)) ps l) s).
Proof.
  revert s. induction l as [|p l IH]; intros s Hl; [by destruct s|]. cbn [kiter foldl].
  destruct (lookup_lt_is_Some_2 (k_procs s) p) as [pr Hp]; [apply Hl; set_solver|].
  assert (Hstep : (pr <- get_proc p;
    kwhen (bool_decide (p_parent pr = Some cur))
      (init <- gets k_initproc;
       set_proc p (upd_p_parent (fun _ => init)) ;;
       kwhen (bool_decide (p_state pr = ZOMBIE)) (wakeup1_ptr init))) s =
    Ok tt (upd_k_procs (fun ps => abandon_step cur (k_initproc s) ps p) s)).
  { rewrite (kbind_ok _ _ _ _ _ (get_proc_ok p pr s Hp)). unfold upd_k_procs at 1, abandon_step. rewrite Hp.
    destruct (bool_decide (p_parent pr = Some cur)); [|by destruct s].
    cbn [kwhen]. rewrite (kbind_ok (gets k_initproc) _ s _ s eq_refl), (kbind_ok _ _ _ _ _ (set_proc_ok _ _ _)).
    by destruct (bool_decide (p_state pr = ZOMBIE)). }
  rewrite (kbind_ok _ _ _ _ _ Hstep), IH; [done|]. intros q Hq. cbn [k_procs upd_k_procs].
  rewrite abandon_step_length. apply Hl. set_solver.
Qed.

Lemma wake_parent p pr : p_parent (wake_ptr p pr) = p_parent pr.
Proof. unfold wake_ptr. by destruct (_ && _). Qed.

Lemma adopt_parent cur init pr : p_parent pr = Some cur -> adopted cur init pr (upd_p_parent (fun _ => init) pr).
Proof. intros H. exists (p_state pr), init. split; [by destruct pr|]. tauto. Qed.

(** The lookup of a step. *)
Lemma abandon_step_lookup cur init ps p i :
  abandon_step cur init ps p !! i =
    (fun pr =>
       let pr1 := if bool_decide (i = p /\ p_parent pr = Some cur) then upd_p_parent (fun _ => init) pr else pr in
       if match ps !! p with Some q => bool_decide (p_parent q = Some cur /\ p_state q = ZOMBIE) | None => false end
       then wake_ptr init pr1 else pr1) <$> ps !! i.
Proof.
  unfold abandon_step. destruct (ps !! p) as [q|] eqn:Hq.
  - destruct (decide (p_parent q = Some cur)) as [Hpar|Hpar].
    + rewrite (bool_decide_eq_true_2 _ Hpar).
      assert (Ea : alter (upd_p_parent (fun _ => init)) p ps !! i =
        (fun pr => if bool_decide (i = p /\ p_parent pr = Some cur) then upd_p_parent (fun _ => init) pr else pr) <$> ps !! i).
      { destruct (decide (i = p)) as [->|Hne].
        - rewrite list_lookup_alter_eq, Hq. cbn. by rewrite bool_decide_eq_true_2.
        - rewrite list_lookup_alter_ne by done. destruct (ps !! i); [|done]. cbn. by rewrite bool_decide_eq_false_2 by tauto. }
      destruct (decide (p_state q = ZOMBIE)) as [Hz|Hz].
      * rewrite (bool_decide_eq_true_2 _ Hz), (bool_decide_eq_true_2 (p_parent q = Some cur /\ _)) by done.
        rewrite list_lookup_fmap, Ea. by destruct (ps !! i).
      * rewrite (bool_decide_eq_false_2 _ Hz), (bool_decide_eq_false_2 (p_parent q = Some cur /\ _)) by tauto.
        rewrite Ea. by destruct (ps !! i).
    + rewrite !(bool_decide_eq_false_2 (p_parent q = Some cur)), (bool_decide_eq_false_2 (p_parent q = Some cur /\ _)) by tauto.
      destruct (ps !! i) as [pr|] eqn:Hi; [|done]. cbn. rewrite bool_decide_eq_false_2; [done|]. intros [-> H]. congruence.
  - destruct (ps !! i) as [pr|] eqn:Hi; [|done]. cbn. rewrite bool_decide_eq_false_2; [done|]. intros [-> H]. congruence.
Qed.

Section Abandon.
Context (cur : nat) (init : option nat).
Hypothesis Hinit : init <> Some cur.

Lemma abandon_step_spec ps p :
  let ps1 := abandon_step cur init ps p in
  Forall2 (adopted cur init) ps ps1 /\
  (forall i pr pr1, i <> p -> ps !! i = Some pr -> ps1 !! i = Some pr1 -> p_parent pr1 = p_parent pr) /\
  (forall pr1, ps1 !! p = Some pr1 -> p_parent pr1 <> Some cur) /\
  (forall pr, ps !! p = Some pr -> p_parent pr = Some cur -> p_state pr = ZOMBIE ->
     forall i q, ps1 !! i = Some q -> ~ waits_for init q).
Proof using Hinit.
  intros ps1. unfold ps1. split_and!.
  - apply Forall2_same_length_lookup. split; [by rewrite abandon_step_length|].
    intros i pr pr' Hi. rewrite abandon_step_lookup, Hi. cbn. intros [= <-].
    eapply adopted_trans with (p2 := if bool_decide (i = p /\ p_parent pr = Some cur) then _ else _).
    + case_bool_decide as H; [apply adopt_parent; tauto|apply adopted_refl].
    + destruct (match ps !! p with Some _ => _ | None => _ end); [apply wake_adopted|apply adopted_refl].
  - intros i pr pr1 Hne Hi. rewrite abandon_step_lookup, Hi. cbn. intros [= <-].
    rewrite bool_decide_eq_false_2 by tauto. destruct (match ps !! p with Some _ => _ | None => _ end); [apply wake_parent|done].
  - intros pr1. rewrite abandon_step_lookup. destruct (ps !! p) as [pr|] eqn:Hp; [|done]. cbn. intros [= <-].
    case_bool_decide as H1; case_bool_decide as H2; rewrite ?wake_parent; cbn; tauto.
  - intros pr Hp Hpar Hz i q. rewrite abandon_step_lookup, Hp. rewrite bool_decide_eq_true_2 by done.
    destruct (ps !! i); [|done]. cbn. intros [= <-]. apply wake_not_waiting.
Qed.

Lemma adopted_fold l : forall ps, Forall2 (adopted cur init) ps (foldl (abandon_step cur init) ps l).
Proof using Hinit.
  induction l as [|p l IH]; intros ps; cbn [foldl].
  - apply Forall_Forall2_diag, Forall_true. intros; apply adopted_refl.
  - eapply Forall2_trans; [|apply abandon_step_spec|apply IH]. intros; by eapply adopted_trans.
Qed.

Lemma adopted_lookup ps ps' i pr' :
  Forall2 (adopted cur init) ps ps' -> ps' !! i = Some pr' -> exists pr, ps !! i = Some pr /\ adopted cur init pr pr'.
Proof using Type. intros H Hi. by apply (Forall2_lookup_r _ _ _ _ _ H). Qed.

(** After the loop nobody of the table has [cur] as parent, and if a zombie changed hands
    init is awake. *)
Lemma abandon_fold l : forall ps, NoDup l ->
  let ps' := foldl (abandon_step cur init) ps l in
  (forall i pr', i ∈ l -> ps' !! i = Some pr' -> p_parent pr' <> Some cur) /\
  (forall i pr pr', i ∉ l -> ps !! i = Some pr -> ps' !! i = Some pr' -> p_parent pr' = p_parent pr) /\
  (forall i pr, i ∈ l -> ps !! i = Some pr -> p_parent pr = Some cur -> p_state pr = ZOMBIE ->
     forall j q, ps' !! j = Some q -> ~ waits_for init q).
Proof using Hinit.
  induction l as [|p l IH]; intros ps Hnd; cbn [foldl].
  { split_and!; intros i; [set_solver|congruence|set_solver]. }
  apply NoDup_cons in Hnd as [Hp Hnd]. destruct (abandon_step_spec ps p) as (S1 & S2 & S3 & S4).
  set (ps1 := abandon_step cur init ps p) in *. destruct (IH ps1 Hnd) as (I1 & I2 & I3).
  pose proof (adopted_fold l ps1) as Hf. set (ps' := foldl _ ps1 l) in *. split_and!.
  - intros i pr' [->|Hi]%elem_of_cons Hl; [|by eapply I1].
    destruct (adopted_lookup _ _ _ _ Hf Hl) as (pr1 & H1 & _). rewrite (I2 p pr1 pr') by done. by apply S3.
  - intros i pr pr' [Hne Hi]%not_elem_of_cons Hl Hl'.
    destruct (adopted_lookup _ _ _ _ Hf Hl') as (pr1 & H1 & _). rewrite (I2 i pr1 pr') by done. by apply (S2 i).
  - intros i pr [->|Hi]%elem_of_cons Hl Hpar Hz j q Hj.
    + destruct (adopted_lookup _ _ _ _ Hf Hj) as (q1 & H1 & Ha). eapply adopted_not_waiting; [exact Ha|]. by eapply S4.
    + assert (Hne : i <> p) by (by intros ->). destruct (Forall2_lookup_l _ _ _ _ _ S1 Hl) as (pr1 & H1 & Ha).
      eapply (I3 i pr1); [done|done| | |done].
      * by rewrite (S2 i pr pr1).
      * destruct Ha as (st & par & -> & _ & Hs). cbn. destruct Hs as [->|[[H _] _]]; [done|congruence].
Qed.
End Abandon.

(** ** The zombie *)

Definition zombie (st : Z) (pr : proc) : proc := upd_p_exit_status (fun _ => st) (upd_p_state (fun _ => ZOMBIE) pr).

(** The process table after the process [cur] with parent [par] became a zombie. *)
Definition exit_table (cur : nat) (init par : option nat) (st : Z) (ps : list proc) : list proc :=
  alter (zombie st) cur (foldl (abandon_step cur init) (map (wake_ptr par) ps) (seq 0 NPROC)).

Lemma zombie_state a b c d s :
  k_held s = [] ->
  upd_k_procs a (upd_k_procs b (upd_k_procs c (upd_k_procs d (upd_k_held (cons LK_ptable) s)))) =
  upd_k_held (fun _ => [LK_ptable]) (upd_k_procs (fun _ => a (b (c (d (k_procs s))))) s).
Proof. intros H. destruct s. cbn in *. by subst. Qed.

Lemma become_zombie_run {A} s cur pr st :
  k_cur s = Some cur -> k_procs s !! cur = Some pr -> k_held s = [] -> length (k_procs s) = NPROC ->
  exists k, become_zombie (A := A) cur st s =
    Swtch (upd_k_held (fun _ => [LK_ptable]) (upd_k_procs (fun _ => exit_table cur (k_initproc s) (p_parent pr) st (k_procs s)) s)) k /\
    forall s'', k s'' = Panic "zombie exit".
Proof.
  intros Hcur Hp Hh Hlen. unfold become_zombie.
  rewrite (kbind_ok _ _ _ _ _ (acquire_ok LK_ptable s ltac:(rewrite Hh; set_solver))).
  set (s1 := upd_k_held (cons LK_ptable) s).
  rewrite (kbind_ok _ _ _ _ _ (get_proc_ok cur pr s1 Hp)).
  set (s2 := upd_k_procs (map (wake_ptr (p_parent pr))) s1).
  rewrite (kbind_ok (wakeup1_ptr (p_parent pr)) _ s1 tt s2 eq_refl).
  assert (Hab : abandon cur s2 = Ok tt (upd_k_procs (fun ps => foldl (abandon_step cur (k_initproc s)) ps (seq 0 NPROC)) s2)).
  { apply (abandon_run cur s2). intros p Hin. cbn. rewrite length_map, Hlen. apply elem_of_seq in Hin. lia. }
  rewrite (kbind_ok _ _ _ _ _ Hab). set (s3 := upd_k_procs _ s2).
  rewrite (kbind_ok _ _ _ _ _ (set_proc_ok _ _ _)), (kbind_ok _ _ _ _ _ (set_proc_ok _ _ _)).
  set (s4 := upd_k_procs _ (upd_k_procs _ s3)).
  assert (E4 : s4 = upd_k_held (fun _ => [LK_ptable]) (upd_k_procs (fun _ => exit_table cur (k_initproc s) (p_parent pr) st (k_procs s)) s)).
  { unfold s4, s3, s2, s1. rewrite (zombie_state _ _ _ _ s Hh). unfold exit_table. by rewrite list_alter_alter_eq. }
  assert (Hz : exists q, k_procs s4 !! cur = Some (zombie st q)).
  { rewrite E4. cbn -[seq foldl alter exit_table]. unfold exit_table.
    assert (Hlt : (cur < length (foldl (abandon_step cur (k_initproc s)) (map (wake_ptr (p_parent pr)) (k_procs s)) (seq 0 NPROC)))%nat).
    { assert (Hf : forall l ps, length (foldl (abandon_step cur (k_initproc s)) ps l) = length ps).
      { induction l as [|p l IH]; intros ps; [done|]. cbn [foldl]. by rewrite IH, abandon_step_length. }
      rewrite Hf, length_map. by eapply lookup_lt_Some. }
    apply lookup_lt_is_Some_2 in Hlt as [q Hq]. exists q. by rewrite list_lookup_alter_eq, Hq. }
  destruct Hz as [q Hq]. rewrite <- E4. eexists. split.
  - unfold kbind at 1. rewrite (sched_ok cur (zombie st q)); [reflexivity|by rewrite E4|by rewrite E4|done|done].
  - intros s''. reflexivity.
Qed.

(** C20: the end of [exit2] leaves a zombie that keeps the status, its pid and its parent, with
    only the process table lock held; whoever waits for it is awake; its children belong to
    init, which is awake if one of them is a zombie; no other process is touched. It never
    comes back. *)
Theorem zombie_keeps_status (s : kstate) (cur : nat) (pr : proc) (st : Z)
    (Hcur : k_cur s = Some cur) (Hp : k_procs s !! cur = Some pr) (Hheld : k_held s = [])
    (Hst : p_state pr = RUNNING) (Hself : p_parent pr <> Some cur) (Hinit : k_initproc s <> Some cur)
    (Hlen : length (k_procs s) = NPROC) :
  exists ps' k, become_zombie (A := unit) cur st s =
      Swtch (upd_k_held (fun _ => [LK_ptable]) (upd_k_procs (fun _ => ps') s)) k /\
    (forall s'', k s'' = Panic "zombie exit") /\
    ps' !! cur = Some (zombie st pr) /\
    (forall i q, ps' !! i = Some q -> ~ waits_for (p_parent pr) q /\ p_parent q <> Some cur) /\
    (forall i q, k_procs s !! i = Some q -> p_parent q = Some cur -> p_state q = ZOMBIE ->
       forall j q', ps' !! j = Some q' -> ~ waits_for (k_initproc s) q') /\
    (forall i q, i <> cur -> k_procs s !! i = Some q -> exists q' q1, ps' !! i = Some q' /\
       (q1 = q \/ waits_for (p_parent pr) q /\ q1 = upd_p_state (fun _ => RUNNABLE) q) /\
       adopted cur (k_initproc s) q1 q').
Proof.
  destruct (become_zombie_run (A := unit) s cur pr st Hcur Hp Hheld Hlen) as (k & Hr & Hk).
  exists (exit_table cur (k_initproc s) (p_parent pr) st (k_procs s)), k. split; [exact Hr|]. split; [exact Hk|].
  clear Hr Hk. unfold exit_table. set (init := k_initproc s) in *. set (ps1 := map (wake_ptr (p_parent pr)) (k_procs s)).
  set (ps2 := foldl (abandon_step cur init) ps1 (seq 0 NPROC)).
  pose proof (adopted_fold cur init Hinit (seq 0 NPROC) ps1) as Hf. fold ps2 in Hf.
  destruct (abandon_fold cur init Hinit (seq 0 NPROC) ps1 (NoDup_seq _ _)) as (F1 & _ & F3). fold ps2 in F1, F3.
  assert (Elen : length ps1 = NPROC) by (unfold ps1; by rewrite length_map).
  assert (E1 : forall i, ps1 !! i = wake_ptr (p_parent pr) <$> k_procs s !! i) by (intros i; apply list_lookup_fmap).
  clearbody ps2 ps1.
  assert (Hin : forall i q, ps1 !! i = Some q -> i ∈ seq 0 NPROC).
  { intros i q H. apply lookup_lt_Some in H. rewrite Elen in H. apply elem_of_seq. lia. }
  assert (H1 : ps1 !! cur = Some pr).
  { rewrite E1, Hp. cbn. unfold wake_ptr. by rewrite Hst. }
  assert (H2 : ps2 !! cur = Some pr).
  { destruct (Forall2_lookup_l _ _ _ _ _ Hf H1) as (q & Hq & st' & par & -> & Hpar & Hs). rewrite Hq. f_equal.
    destruct Hpar as [->|[H _]]; [|done]. destruct Hs as [->|[[H _] _]]; [by destruct pr|congruence]. }
  assert (Hall : forall i q', alter (zombie st) cur ps2 !! i = Some q' ->
    exists q1 q2, ps1 !! i = Some q1 /\ ps2 !! i = Some q2 /\ adopted cur init q1 q2 /\
      p_parent q' = p_parent q2 /\ (i = cur /\ p_state q' = ZOMBIE \/ i <> cur /\ q' = q2)).
  { intros i q' Hi. destruct (decide (i = cur)) as [->|Hne].
    - rewrite list_lookup_alter_eq, H2 in Hi. injection Hi as <-. exists pr, pr. split_and!; try done; [apply adopted_refl|by left].
    - rewrite list_lookup_alter_ne in Hi by done. destruct (adopted_lookup _ _ _ _ _ _ Hf Hi) as (q1 & Hq1 & Ha).
      exists q1, q'. split_and!; try done. by right. }
  split; [by rewrite list_lookup_alter_eq, H2|]. split_and!.
  - intros i q' Hi. destruct (Hall i q' Hi) as (q1 & q2 & Hq1 & Hq2 & Ha & Epar & Hq'). split.
    + destruct Hq' as [[-> Hz]|[Hne ->]]; [intros [H _]; congruence|].
      rewrite E1 in Hq1. destruct (k_procs s !! i) as [q|]; [|done]. injection Hq1 as <-.
      pose proof (wake_not_waiting (p_parent pr) q) as Hw. destruct Ha as (st' & par & -> & _ & Hs). intros [G1 G2].
      apply Hw. cbn in *. split; [|done]. destruct Hs as [->|[_ ->]]; [done|done].
    + rewrite Epar. apply (F1 i); [by eapply Hin|done].
  - intros i q Hi Hpar Hz j q' Hj. destruct (Hall j q' Hj) as (q1 & q2 & Hq1 & Hq2 & Ha & Epar & Hq').
    destruct Hq' as [[-> Hz']|[Hne ->]]; [intros [H _]; congruence|].
    assert (Hi1 : ps1 !! i = Some (wake_ptr (p_parent pr) q)) by (by rewrite E1, Hi).
    eapply (F3 i); [by eapply Hin|exact Hi1|by rewrite wake_parent| |exact Hq2].
    unfold wake_ptr. by rewrite Hz.
  - intros i q Hne Hi. assert (Hi1 : ps1 !! i = Some (wake_ptr (p_parent pr) q)) by (by rewrite E1, Hi).
    destruct (Forall2_lookup_l _ _ _ _ _ Hf Hi1) as (q' & Hq' & Ha).
    exists q', (wake_ptr (p_parent pr) q). split; [by rewrite list_lookup_alter_ne|]. split; [|done].
    unfold wake_ptr, waits_for. destruct (decide (p_state q = SLEEPING)) as [D1|D1]; [rewrite (bool_decide_eq_true_2 _ D1)|
      rewrite (bool_decide_eq_false_2 _ D1); by left].
    destruct (decide (p_chan q = CH_proc <$> p_parent pr)) as [D2|D2];
      [rewrite (bool_decide_eq_true_2 _ D2); by right|rewrite (bool_decide_eq_false_2 _ D2); by left].
Qed.

(** Init, a parent asleep in [wait], and its running child. *)
Definition family : list proc :=
  [Proc 0 0 0 SLEEPING 1 None 0 0 (Some (CH_proc 0)) 0 [] None (replicate 16 0) 0;
   Proc 0 0 0 SLEEPING 2 (Some 0%nat) 0 0 (Some (CH_proc 1)) 0 [] None (replicate 16 0) 0;
   Proc 0 0 0 RUNNING 3 (Some 1%nat) 0 0 None 0 [] None (replicate 16 0) 0] ++ replicate 61 proc0.
Definition family_state : kstate :=
  upd_k_initproc (fun _ => Some 0%nat) (upd_k_cur (fun _ => Some 2%nat) (upd_k_procs (fun _ => family) (boot 0 0))).

Lemma zombie_keeps_status_witness :
  exists ps' k, become_zombie (A := unit) 2 42 family_state =
    Swtch (upd_k_held (fun _ => [LK_ptable]) (upd_k_procs (fun _ => ps') family_state)) k /\
    (p_exit_status <$> ps' !! 2%nat) = Some 42.
Proof.
  destruct (zombie_keeps_status family_state 2
    (Proc 0 0 0 RUNNING 3 (Some 1%nat) 0 0 None 0 [] None (replicate 16 0) 0) 42) as (ps' & k & H1 & _ & H2 & _).
  - reflexivity.
  - reflexivity.
  - reflexivity.
  - reflexivity.
  - discriminate.
  - discriminate.
  - reflexivity.
  - exists ps', k. split; [exact H1|]. rewrite H2. reflexivity.
Defined.

(** ** [exit2] as a whole *)

(** Whatever the scheduler and the other processes do, code that ends in [become_zombie]
    never comes back to its caller. *)
Definition no_return {A} (r : res A) : Prop :=
  wpi (fun _ => True) (fun _ => True) (fun _ _ => True) (fun _ _ => False) r.

Lemma no_return_any {A} (r : res A) : wpi (fun _ => True) (fun _ => True) (fun _ _ => True) (fun _ _ => True) r.
Proof. induction r as [a s|msg|s k IH|]; cbn; auto. Qed.

Lemma no_return_bind {A B} (m : K A) (f : A -> K B) s : (forall a s, no_return (f a s)) -> no_return ((a <- m; f a) s).
Proof.
  intros H. apply wpi_bind. eapply wpi_mono; [apply no_return_any|]. intros a s' _. apply H.
Qed.

(** [exit] and [exit2] never return to the system call layer: however they are interleaved with
    other processes, they end in a panic or stay switched out. *)
Theorem exit_never_returns `{Fuel} (A : Type) (st : Z) (s : kstate) :
  no_return (exit2 (A := A) st s) /\ no_return (exit (A := A) s).
Proof.
  assert (Hz : forall cur st s, no_return (become_zombie (A := A) cur st s))
    by (intros; unfold become_zombie; do 7 (apply no_return_bind; intros); exact I).
  assert (He : forall st s, no_return (exit2 (A := A) st s)).
  { intros st' s'. unfold exit2. apply no_return_bind. intros cur s1. apply no_return_bind. intros init s2.
    destruct (bool_decide _); [exact I|]. do 6 (apply no_return_bind; intros). apply Hz. }
  split; apply He.
Qed.

(** ** Collecting the child *)

(** The slot of a collected child. *)
Definition collected (pr : proc) : proc :=
  upd_p_state (fun _ => UNUSED) (upd_p_killed (fun _ => 0) (upd_p_name (insert 0%nat 0)
    (upd_p_parent (fun _ => None) (upd_p_pid (fun _ => 0) (upd_p_kstack (fun _ => 0) pr))))).

Lemma owns_tail s pages rest free : owns s (pages ++ rest) free -> owns s rest free.
Proof. intros H. exact (owns_weaken s [] pages rest free H). Qed.

Lemma procs_mem_comm g f m h f' m' s :
  upd_k_procs g (upd_k_freelist (fun _ => f) (upd_k_mem (fun _ => m)
    (upd_k_procs h (upd_k_freelist (fun _ => f') (upd_k_mem (fun _ => m') s))))) =
  upd_k_procs (fun ps => g (h ps)) (upd_k_freelist (fun _ => f) (upd_k_mem (fun _ => m) s)).
Proof. by destruct s. Qed.

Lemma reap_ok s p ch rest free :
  k_procs s !! p = Some ch -> Kalloc.kmem_free s ->
  owns s (p_kstack ch :: space_pages (k_mem s) (p_pgdir ch) ++ rest) free ->
  exists s1 free', reap p s = Ok tt (upd_k_procs (alter collected p) s1) /\ mem_only s s1 /\ owns s1 rest free' /\
    free' ≡ₚ p_kstack ch :: space_pages (k_mem s) (p_pgdir ch) ++ free /\
    same_outside s s1 (p_kstack ch :: space_pages (k_mem s) (p_pgdir ch)).
Proof.
  intros Hp Hf Hown. unfold reap. rewrite (kbind_ok _ _ _ _ _ (get_proc_ok p ch s Hp)).
  destruct (kfree_owned s (p_kstack ch) _ free Hown Hf) as (s1 & Hk & Hm1 & Ho1 & Hout).
  rewrite (kbind_ok _ _ _ _ _ Hk), (kbind_ok _ _ _ _ _ (set_proc_ok _ _ _)).
  assert (Hkm : Kalloc.managed (k_end s) (p_kstack ch)) by (eapply owns_managed; [exact Hown|inlist]).
  pose proof (same_outside_1 s s1 _ Hkm Hout) as Hs1.
  destruct (space_same (k_mem s) (k_mem s1) (p_pgdir ch)) as (_ & Esp & _).
  { intros q Hq. assert (Hin : q ∈ space_pages (k_mem s) (p_pgdir ch) ++ rest) by (unfold space_pages; inlist).
    apply Hs1; [eapply owns_managed; [exact Hown|inlist]|]. rewrite list_elem_of_singleton. intros ->.
    destruct Hown as (_ & Hnd & _). cbn [app] in Hnd. apply NoDup_cons in Hnd as [Hnd _]. apply Hnd. inlist. }
  set (s2 := upd_k_procs (alter (upd_p_kstack (fun _ => 0)) p) s1).
  rewrite <- Esp in Ho1.
  destruct (freevm_rest s2 (p_pgdir ch) rest (p_kstack ch :: free)) as (s3 & free' & Hr & Hm3 & Ho3 & Hperm & Hs3).
  { exact Ho1. }
  { exact (mem_only_free s s1 Hm1 Hf). }
  change (k_mem s2) with (k_mem s1) in *. rewrite Esp in *. rewrite (kbind_ok _ _ _ _ _ Hr).
  destruct Hm1 as (f1 & m1 & E1), Hm3 as (f3 & m3 & E3).
  exists (upd_k_freelist (fun _ => f3) (upd_k_mem (fun _ => m3) s)), free'. split.
  - unfold kbind, set_proc, modify. cbn [bind_res]. f_equal. rewrite !set_procs_alter, E3. unfold s2. rewrite E1, procs_mem_comm.
    unfold upd_k_procs. cbn. f_equal. by rewrite list_alter_alter_eq.
  - split; [by exists f3, m3|]. split; [|split].
    + revert Ho3. rewrite E3. unfold s2. rewrite E1. done.
    + rewrite Hperm. symmetry. apply Permutation_middle.
    + intros q Hq Hn. apply not_elem_of_cons in Hn as [Hn1 Hn2].
      eapply same_page_trans; [apply Hs1; [done|by rewrite list_elem_of_singleton]|].
      assert (H3 : same_page (k_mem s2) (k_mem s3) q) by (apply Hs3; [unfold s2; by rewrite E1|done]).
      by rewrite E3 in H3.
Qed.

(** The memory of the parent, seen through pages that did not change. *)
Lemma space_kept s s' pgdir pages free freed :
  same_outside s s' freed -> owns s (freed ++ space_pages (k_mem s) pgdir ++ pages) free ->
  space_pages (k_mem s') pgdir = space_pages (k_mem s) pgdir /\
  (forall j, 0 <= j < 2 ^ 20 -> entry (k_mem s') pgdir j = entry (k_mem s) pgdir j) /\
  (forall v, 0 <= v < KERNBASE -> present (upage (k_mem s) pgdir v) = true -> ubyte (k_mem s') pgdir v = ubyte (k_mem s) pgdir v).
Proof.
  intros Hs Hown.
  assert (Hsame : forall q, q ∈ space_pages (k_mem s) pgdir -> same_page (k_mem s) (k_mem s') q).
  { intros q Hq. apply Hs; [eapply owns_managed; [exact Hown|inlist]|]. intros Hin.
    destruct Hown as (_ & Hnd & _). rewrite <- app_assoc in Hnd. apply NoDup_app in Hnd as (_ & Hnd & _). apply (Hnd q Hin). inlist. }
  destruct (space_same (k_mem s) (k_mem s') pgdir) as (_ & Esp & He);
    [intros q Hq; apply Hsame; unfold space_pages; inlist|].
  split; [done|]. split; [done|]. intros v Hv Hp. unfold ubyte.
  destruct (upage_entry _ _ _ He v Hv) as [_ ->]. apply (Hsame (frame (upage (k_mem s) pgdir v))).
  - pose proof (upage_mapped s pgdir v Hv Hp). unfold space_pages. inlist.
  - unfold uaddr, PGSIZE. dlia.
Qed.

Lemma wait_scan_first ps : forall i q c ch hk,
  ps !! c = Some ch -> p_parent ch = Some q -> p_state ch = ZOMBIE ->
  (forall j pr, (j < c)%nat -> ps !! j = Some pr -> p_parent pr = Some q -> p_state pr <> ZOMBIE) ->
  wait_scan ps i q hk = inl (i + c)%nat.
Proof.
  induction ps as [|pr ps IH]; intros i q c ch hk Hc Hpar Hz Hfirst; [done|]. cbn [wait_scan].
  destruct c as [|c]; cbn in Hc.
  - injection Hc as ->. rewrite (bool_decide_eq_true_2 _ Hpar), (bool_decide_eq_true_2 _ Hz). cbn. f_equal. lia.
  - assert (Hrec : forall hk, wait_scan ps (S i) q hk = inl (i + S c)%nat).
    { intros hk'. rewrite (IH (S i) q c ch hk'); [f_equal; lia|done..|].
      intros j pr' Hj Hl. apply (Hfirst (S j)); [lia|done]. }
    destruct (decide (p_parent pr = Some q)) as [Hq|Hq]; [rewrite (bool_decide_eq_true_2 _ Hq)|rewrite (bool_decide_eq_false_2 _ Hq); apply Hrec].
    cbn [negb]. rewrite bool_decide_eq_false_2 by (apply (Hfirst O pr); [lia|done|done]). apply Hrec.
Qed.

(** What [wait2] does once the child is found, up to the release of the lock. *)
Lemma collect_status s c ch pgdir addr free :
  k_procs s !! c = Some ch -> Kalloc.kmem_free s -> k_cr3 s = V2P pgdir ->
  owns s (p_kstack ch :: space_pages (k_mem s) (p_pgdir ch) ++ space_pages (k_mem s) pgdir) free ->
  urange writable (k_mem s) pgdir addr 4 ->
  exists s2 s' free', reap c s = Ok tt s2 /\ ustore32 addr (p_exit_status ch) s2 = Ok tt s' /\
    k_held s' = k_held s /\ k_procs s' = alter collected c (k_procs s) /\
    uload32 addr s' = Ok (u32 (p_exit_status ch)) s' /\ k_cr3 s' = k_cr3 s /\
    owns s' (space_pages (k_mem s') pgdir) free' /\
    free' ≡ₚ p_kstack ch :: space_pages (k_mem s) (p_pgdir ch) ++ free /\
    forall v, 0 <= v < KERNBASE -> present (upage (k_mem s) pgdir v) = true -> ~ (addr <= v < addr + 4) ->
      ubyte (k_mem s') pgdir v = ubyte (k_mem s) pgdir v.
Proof.
  intros Hc Hf Hcr Hown Hrange.
  destruct (reap_ok s c ch (space_pages (k_mem s) pgdir) free Hc Hf Hown) as (s1 & free' & Hr & Hm & Ho & Hperm & Hs).
  rewrite <- (app_nil_r (space_pages (k_mem s) pgdir)), app_comm_cons in Hown.
  destruct (space_kept s s1 pgdir [] free _ Hs Hown) as (Esp & He & Hb). rewrite <- Esp in Ho.
  set (s2 := upd_k_procs (alter collected c) s1). destruct Hm as (f & m & E1).
  assert (Ho2 : owns s2 (space_pages (k_mem s2) pgdir ++ []) free') by (rewrite app_nil_r; exact Ho).
  assert (Hr2 : urange writable (k_mem s2) pgdir addr 4).
  { destruct Hrange as (H0 & H1 & H2). split_and!; [done|done|]. intros v Hv. change (k_mem s2) with (k_mem s1).
    destruct (upage_entry _ _ _ He v ltac:(lia)) as [-> _]. by apply H2. }
  destruct (user_store_loads s2 pgdir addr (le_bytes 4 (p_exit_status ch)) [] free' Ho2) as (s' & Hst & Hld & Hw).
  { unfold s2. by rewrite E1. }
  { by rewrite length_unpack. }
  { apply unpack_ok. lia. }
  rewrite length_unpack in Hld. destruct Hw as [(m' & E') A2 A3 A4 A5 _ _]. rewrite app_nil_r in A2.
  exists s2, s', free'. split; [exact Hr|]. split; [exact Hst|].
  split; [rewrite E'; unfold s2; by rewrite E1|]. split; [rewrite E'; unfold s2; by rewrite E1|].
  split; [unfold uload32; rewrite (kbind_ok _ _ _ _ _ Hld), pack_unpack by lia; done|].
  split; [rewrite E'; unfold s2; by rewrite E1|]. split; [done|]. split; [done|].
  intros v Hv Hp Hn. assert (Hp2 : present (upage (k_mem s2) pgdir v) = true)
    by (change (k_mem s2) with (k_mem s1); by destruct (upage_entry _ _ _ He v Hv) as [-> _]).
  rewrite A5, length_unpack by done. change (k_mem s2) with (k_mem s1). rewrite <- Hb by done.
  destruct (Z.leb_spec addr v), (Z.ltb_spec v (addr + Z.of_nat 4)); cbn; done || lia.
Qed.

(** Reading user memory does not depend on the locks. *)
Lemma uloads_held n : forall va l s g, uloads va n s = Ok l s -> uloads va n (upd_k_held g s) = Ok l (upd_k_held g s).
Proof.
  induction n as [|n IH]; intros va l s g; cbn [uloads]; [by intros [= <-]|].
  unfold kbind, uload8. change (k_mem (upd_k_held g s)) with (k_mem s). change (k_cr3 (upd_k_held g s)) with (k_cr3 s).
  destruct (translate (k_mem s) (k_cr3 s) va) as [[a e]|]; [|done]. cbn [bind_res].
  destruct (uloads (va + 1) n s) as [l' s'| | |] eqn:E; try done. cbn [bind_res]. unfold kret. intros [= <- ->].
  rewrite (IH _ _ _ g E). done.
Qed.

Lemma uload32_held va v s g : uload32 va s = Ok v s -> uload32 va (upd_k_held g s) = Ok v (upd_k_held g s).
Proof.
  unfold uload32, kbind. destruct (uloads va 4 s) as [l s'| | |] eqn:E; try done. cbn [bind_res]. unfold kret.
  intros [= <- ->]. by rewrite (uloads_held _ _ _ _ g E).
Qed.

(** C21: [wait2] collects a zombie child: it returns the child's pid, puts the status the child
    gave to [exit2] at the caller's address, frees the slot, and gives back every page of the
    child, kernel stack, page tables and memory, once. The rest of the caller's memory and
    every other process stay as they were, and no lock is kept. *)
Theorem wait2_collects `{Fuel} (s : kstate) (q c : nat) (ch : proc) (pgdir addr : Z) (free : list Z)
    (Hcur : k_cur s = Some q) (Hheld : k_held s = []) (Hcr : k_cr3 s = V2P pgdir)
    (Hc : k_procs s !! c = Some ch) (Hpar : p_parent ch = Some q) (Hz : p_state ch = ZOMBIE)
    (Hfirst : forall j pr, (j < c)%nat -> k_procs s !! j = Some pr -> p_parent pr = Some q -> p_state pr <> ZOMBIE)
    (Hown : owns s (p_kstack ch :: space_pages (k_mem s) (p_pgdir ch) ++ space_pages (k_mem s) pgdir) free)
    (Haddr : urange writable (k_mem s) pgdir addr 4) :
  exists s' free', wait2 addr s = Ok (p_pid ch) s' /\ k_held s' = [] /\
    k_procs s' = alter collected c (k_procs s) /\
    uload32 addr s' = Ok (u32 (p_exit_status ch)) s' /\
    owns s' (space_pages (k_mem s') pgdir) free' /\
    free' ≡ₚ p_kstack ch :: space_pages (k_mem s) (p_pgdir ch) ++ free /\
    forall v, 0 <= v < KERNBASE -> present (upage (k_mem s) pgdir v) = true -> ~ (addr <= v < addr + 4) ->
      ubyte (k_mem s') pgdir v = ubyte (k_mem s) pgdir v.
Proof.
  unfold wait2. rewrite (kbind_ok _ _ _ _ _ (curproc_ok q s Hcur)).
  rewrite (kbind_ok _ _ _ _ _ (acquire_ok LK_ptable s ltac:(rewrite Hheld; set_solver))).
  set (s1 := upd_k_held (cons LK_ptable) s).
  destruct (collect_status s1 c ch pgdir addr free) as (s2 & s3 & free' & Hr & Hst & Hh & Hps & Hld & Hcr3 & Ho & Hperm & Hb);
    [done|unfold Kalloc.kmem_free; cbn; rewrite Hheld; intros _; set_solver|done|exact Hown|exact Haddr|].
  exists (upd_k_held (fun _ => []) s3), free'. split.
  - assert (Hrun : forall n, wait_loop n q (fun st => ustore32 addr st) s1 = Ok (p_pid ch) (upd_k_held (fun _ => []) s3)); [|apply Hrun].
    intros n. assert (Hscan : wait_scan (k_procs s1) 0 q false = inl c) by (by apply (wait_scan_first _ 0 q c ch)).
    destruct n; cbn [wait_loop]; rewrite (kbind_ok (gets k_procs) _ s1 _ s1 eq_refl), Hscan;
      rewrite (kbind_ok _ _ _ _ _ (get_proc_ok c ch s1 Hc)), (kbind_ok _ _ _ _ _ Hr), (kbind_ok _ _ _ _ _ Hst);
      rewrite (kbind_ok _ _ _ _ _ (release_acquired LK_ptable [] s3 ltac:(rewrite Hh; cbn; by rewrite Hheld) ltac:(set_solver))); done.
  - split; [done|]. split; [done|]. split; [|split; [done|split; [done|done]]].
    by apply uload32_held.
Qed.

(** ** A parent and its zombie *)

Definition kstack1 : Z := small_pgdir + 16384.
Definition pgdir1 : Z := small_pgdir + 20480.
Definition child1 : proc := Proc 0 pgdir1 kstack1 ZOMBIE 2 (Some 0%nat) 0 0 None 0 [] None (replicate 16 0) 42.

(** The child has a kernel stack and an empty directory, the parent the small address space. *)
Definition end_state {A} (r : res A) (d : kstate) : kstate := match r with Ok _ s => s | _ => d end.
Definition make_child : K unit :=
  Kalloc.kalloc ;;
  d <- Kalloc.kalloc;
  modify (upd_k_mem (fun m => StringC.memset m d 0 (Z.to_nat PGSIZE))).
Definition child_mem : kstate := end_state (make_child small) small.
Definition with_child : kstate :=
  upd_k_cr3 (fun _ => V2P small_pgdir) (upd_k_cur (fun _ => Some 0%nat)
    (upd_k_procs (fun _ => the_proc :: child1 :: replicate (NPROC - 2) proc0) child_mem)).

Lemma child_pages :
  kstack1 :: (pgdir1 :: tables (k_mem child_mem) pgdir1 ++ mapped (k_mem child_mem) pgdir1 0 (1024 * 0)) ++
    small_pgdir :: tables (k_mem child_mem) small_pgdir ++ mapped (k_mem child_mem) small_pgdir 0 (1024 * 1) =
  [kstack1; pgdir1; small_pgdir; small_pgdir + 8192; small_pgdir + 4096; small_pgdir + 12288].
Proof. rewrite !tables_unfold, !mapped_unfold. by vm_compute. Qed.

Lemma child_mem_ok :
  owns child_mem (kstack1 :: space_pages (k_mem child_mem) pgdir1 ++ space_pages (k_mem child_mem) small_pgdir) [].
Proof.
  unfold space_pages. rewrite (mapped_low (k_mem child_mem) pgdir1 0); [|lia|by vm_compute].
  rewrite (mapped_low (k_mem child_mem) small_pgdir 1); [|lia|by vm_compute].
  rewrite child_pages.
  split_and!; [split_and!| |].
  - by vm_compute.
  - by_decide.
  - apply Forall_nil_2.
  - by_decide.
  - repeat (apply Forall_cons_2; [split_and!; by vm_compute|]). apply Forall_nil_2.
Qed.

(** Of the state only memory matters for address spaces. *)
Lemma run_space s g1 g2 g3 ks d pgdir free :
  owns s (ks :: space_pages (k_mem s) d ++ space_pages (k_mem s) pgdir) free ->
  let s' := upd_k_cr3 g1 (upd_k_cur g2 (upd_k_procs g3 s)) in
  owns s' (ks :: space_pages (k_mem s') d ++ space_pages (k_mem s') pgdir) free.
Proof. done. Qed.

Lemma run_range P s g1 g2 g3 pgdir va n :
  urange P (k_mem s) pgdir va n -> urange P (k_mem (upd_k_cr3 g1 (upd_k_cur g2 (upd_k_procs g3 s)))) pgdir va n.
Proof. done. Qed.

#[local] Instance fuel_zero : Fuel := O.

Lemma wait2_collects_witness : exists s', wait2 100 with_child = Ok 2 s' /\ uload32 100 s' = Ok 42 s'.
Proof.
  destruct (wait2_collects with_child 0 1 child1 small_pgdir 100 []) as (s' & free' & H1 & _ & _ & H2 & _).
  - reflexivity.
  - vm_compute. reflexivity.
  - reflexivity.
  - reflexivity.
  - reflexivity.
  - reflexivity.
  - intros j pr Hj. assert (j = O) as -> by lia. intros E. injection E as <-. discriminate.
  - apply run_space. exact child_mem_ok.
  - apply run_range. split; [lia|]. split; [unfold KERNBASE; lia|]. intros v Hv. unfold upage.
    replace (v / 4096) with 0 by dlia. vm_compute. split; congruence.
  - exists s'. split; [exact H1|exact H2].
Defined.
