(* ===== verification/Console.v ===== *)
(** * Console input and the console device (console.c)

    The line editor that runs in the keyboard and serial interrupts, and the [read] and
    [write] functions the console puts in the device switch. *)

From S2P Require Import Prelude Mem StringC Kernel Sched Bio Layout Log Printf Cons Fs Pipe File Vm Proc.

Definition INPUT_BUF : Z := 128.
(** [C(x)] *)
Definition C (x : ascii) : Z := ch x - ch "@".

Definition input_at (i : consin) (k : Z) : Z := default 0 (in_buf i !! Z.to_nat (u32 k mod INPUT_BUF)).
Definition set_input (g : consin -> consin) : K unit := modify (upd_k_input g).

(** ** Interrupts *)

(** [case C('U')]: kill line. The line is no longer than [input.e - input.w]. *)
Fixpoint kill_line (n : nat) : K unit :=
  i <- gets k_input;
  if negb (in_e i =? in_w i) && negb (input_at i (in_e i - 1) =? 10) then
    match n with
    | O => fun _ => NoFuel
    | S n =>
        set_input (upd_in_e (fun e => e -u 1)) ;;
        consputc BACKSPACE ;;
        kill_line n
    end
  else kret tt.

(** One turn of the [switch]; the result is [doprocdump]. *)
Definition console_char (c : Z) (doprocdump : bool) : K bool :=
  if c =? C "P" then kret true
  else if c =? C "U" then
    i <- gets k_input;
    kill_line (Z.to_nat (in_e i -u in_w i)) ;;
    kret doprocdump
  else if (c =? C "H") || (c =? 127) then
    i <- gets k_input;
    kwhen (negb (in_e i =? in_w i))
      (set_input (upd_in_e (fun e => e -u 1)) ;;
       consputc BACKSPACE) ;;
    kret doprocdump
  else
    i <- gets k_input;
    kwhen (negb (c =? 0) && (in_e i -u in_r i <? INPUT_BUF))
      (let c := if c =? 13 then 10 else c in
       set_input (upd_in_buf (insert (Z.to_nat (in_e i mod INPUT_BUF)) (u8 c))) ;;
       set_input (upd_in_e (fun e => e +u 1)) ;;
       consputc c ;;
       i <- gets k_input;
       kwhen ((c =? 10) || (c =? C "D") || (in_e i =? in_r i +u INPUT_BUF))
         (set_input (upd_in_w (fun _ => in_e i)) ;;
          wakeup CH_input)) ;;
    kret doprocdump.

Fixpoint console_chars (cs : list Z) (doprocdump : bool) : K bool :=
  match cs with
  | [] => kret doprocdump
  | c :: cs => if c <? 0 then kret doprocdump else d <- console_char c doprocdump; console_chars cs d
  end.

(** [consoleintr(getc)], where [getc] gives the characters [cs] and then -1. *)
Definition consoleintr (cs : list Z) : K unit :=
  acquire LK_cons ;;
  d <- console_chars cs false;
  release LK_cons ;;
  kwhen d procdump.

(** ** The device *)

Section Console.
Context `{Fuel}.

(** [while(input.r == input.w)]: [false] when the process was killed. *)
Fixpoint consoleread_wait (n : nat) : K bool :=
  i <- gets k_input;
  if in_r i =? in_w i then
    p <- curproc;
    pr <- get_proc p;
    if negb (p_killed pr =? 0) then kret false else
    match n with
    | O => fun _ => NoFuel
    | S n => sleep CH_input LK_cons ;; consoleread_wait n
    end
  else kret true.

(** [while(n > 0)]: what is left of [n], or [None] when the process was killed, and the
    bytes put in [dst]. *)
Fixpoint consoleread_loop (n : nat) (target : Z) : K (option nat * list Z) :=
  match n with
  | O => kret (Some O, [])
  | S n' =>
      go <- consoleread_wait fuel;
      if negb go then kret (None, []) else
      i <- gets k_input;
      let c := input_at i (in_r i) in
      set_input (upd_in_r (fun r => r +u 1)) ;;
      if c =? C "D" then
        kwhen (Z.of_nat n <? target) (set_input (upd_in_r (fun r => r -u 1))) ;;
        kret (Some n, [])
      else if c =? 10 then kret (Some n', [c])
      else
        r <- consoleread_loop n' target;
        kret (r.1, c :: r.2)
  end.

Definition consoleread (ip : nat) (n : Z) : K (Z * list Z) :=
  iunlock ip ;;
  let target := u32 n in
  acquire LK_cons ;;
  r <- consoleread_loop (Z.to_nat n) target;
  release LK_cons ;;
  ilock ip ;;
  match r.1 with
  | None => kret (-1, r.2)
  | Some n' => kret (if n <=? 0 then 0 else target - Z.of_nat n', r.2)
  end.

Definition consolewrite (ip : nat) (buf : list Z) (n : Z) : K Z :=
  iunlock ip ;;
  acquire LK_cons ;;
  kiter (take (Z.to_nat n) buf) (fun c => consputc (c .& 0xff)) ;;
  release LK_cons ;;
  ilock ip ;;
  kret n.

Definition CONSOLE : Z := 1.

(** [devsw] after [consoleinit]. *)
#[export] Instance console_devsw : Devsw := {
  dev_read major := if major =? CONSOLE then Some consoleread else None;
  dev_write major := if major =? CONSOLE then Some consolewrite else None;
}.
End Console.

Definition consoleinit : K unit := modify (upd_k_locking (fun _ => true)).
