(* ===== verification/Kbd.v ===== *)
(** * The keyboard and the serial port (kbd.c, kbd.h, uart.c): what they hand the console

    [kbdgetc] is a state machine: its state is the static [shift], its input the
    status and the data port. The tables are written as in kbd.h, the rows from code
    0 on and then the codes set one by one; a code in neither has 0. *)

From S2P Require Import Prelude Kernel Sched Printf Cons Proc Console.

Definition KBS_DIB : Z := 0x01.
Definition NO : Z := 0.
Definition SHIFT : Z := Z.shiftl 1 0.
Definition CTL : Z := Z.shiftl 1 1.
Definition ALT : Z := Z.shiftl 1 2.
Definition CAPSLOCK : Z := Z.shiftl 1 3.
Definition NUMLOCK : Z := Z.shiftl 1 4.
Definition SCROLLLOCK : Z := Z.shiftl 1 5.
Definition E0ESC : Z := Z.shiftl 1 6.

Definition KEY_HOME : Z := 0xE0.
Definition KEY_END : Z := 0xE1.
Definition KEY_UP : Z := 0xE2.
Definition KEY_DN : Z := 0xE3.
Definition KEY_LF : Z := 0xE4.
Definition KEY_RT : Z := 0xE5.
Definition KEY_PGUP : Z := 0xE6.
Definition KEY_PGDN : Z := 0xE7.
Definition KEY_INS : Z := 0xE8.
Definition KEY_DEL : Z := 0xE9.

(** A [uchar] table: the leading rows and the designated entries. *)
Definition table (rows : list Z) (entries : list (Z * Z)) (i : Z) : Z :=
  match list_find (fun e => e.1 = i) entries with
  | Some (_, e) => u8 (e.2)
  | None => u8 (default 0 (rows !! Z.to_nat i))
  end.

Definition shiftcode : Z -> Z :=
  table [] [(0x1D, CTL); (0x2A, SHIFT); (0x36, SHIFT); (0x38, ALT); (0x9D, CTL); (0xB8, ALT)].

Definition togglecode : Z -> Z := table [] [(0x3A, CAPSLOCK); (0x45, NUMLOCK); (0x46, SCROLLLOCK)].

(** The entries all three maps end with, for the given keypad codes. *)
Definition keypad (enter div : Z) : list (Z * Z) :=
  [(0x9C, enter); (0xB5, div);
   (0xC8, KEY_UP); (0xD0, KEY_DN); (0xC9, KEY_PGUP); (0xD1, KEY_PGDN);
   (0xCB, KEY_LF); (0xCD, KEY_RT); (0x97, KEY_HOME); (0xCF, KEY_END);
   (0xD2, KEY_INS); (0xD3, KEY_DEL)].

Definition normalmap : Z -> Z :=
  table
    ([NO; 0x1B] ++ codes "123456" ++
     codes "7890-=" ++ [8; 9] ++
     codes "qwertyui" ++
     codes "op[]" ++ [10; NO] ++ codes "as" ++
     codes "dfghjkl;" ++
     codes "'`" ++ [NO] ++ codes "\zxcv" ++
     codes "bnm,./" ++ [NO] ++ codes "*" ++
     [NO] ++ codes " " ++ [NO; NO; NO; NO; NO; NO] ++
     [NO; NO; NO; NO; NO; NO; NO] ++ codes "7" ++
     codes "89-456+1" ++
     codes "230." ++ [NO; NO; NO; NO])
    (keypad 10 (ch "/")).

Definition shiftmap : Z -> Z :=
  table
    ([NO; 27] ++ codes "!@#$%^" ++
     codes "&*()_+" ++ [8; 9] ++
     codes "QWERTYUI" ++
     codes "OP{}" ++ [10; NO] ++ codes "AS" ++
     codes "DFGHJKL:" ++
     [34] ++ codes "~" ++ [NO] ++ codes "|ZXCV" ++
     codes "BNM<>?" ++ [NO] ++ codes "*" ++
     [NO] ++ codes " " ++ [NO; NO; NO; NO; NO; NO] ++
     [NO; NO; NO; NO; NO; NO; NO] ++ codes "7" ++
     codes "89-456+1" ++
     codes "230." ++ [NO; NO; NO; NO])
    (keypad 10 (ch "/")).

(** [C(x)]: control-x. *)
Definition ctl (x : Z) : Z := x - ch "@".

Definition ctlmap : Z -> Z :=
  table
    ([NO; NO; NO; NO; NO; NO; NO; NO] ++
     [NO; NO; NO; NO; NO; NO; NO; NO] ++
     map ctl (codes "QWERTYUI") ++
     map ctl (codes "OP") ++ [NO; NO; 13; NO] ++ map ctl (codes "AS") ++
     map ctl (codes "DFGHJKL") ++ [NO] ++
     [NO; NO; NO] ++ map ctl (codes "\ZXCV") ++
     map ctl (codes "BNM") ++ [NO; NO] ++ map ctl (codes "/") ++ [NO; NO])
    (keypad 13 (ctl (ch "/"))).

(** [charcode[shift & (CTL | SHIFT)]] *)
Definition charcode (i : Z) : Z -> Z :=
  if i =? 0 then normalmap else if i =? 1 then shiftmap else ctlmap.

(** The character, 0 for none or -1 when there is no data, and the new [shift]. *)
Definition kbdgetc (shift st data : Z) : Z * Z :=
  if Z.land st KBS_DIB =? 0 then (-1, shift) else
  if data =? 0xE0 then (0, Z.lor shift E0ESC) else
  if negb (Z.land data 0x80 =? 0) then
    (* Key released *)
    let data := if negb (Z.land shift E0ESC =? 0) then data else Z.land data 0x7F in
    (0, Z.land shift (Z.lnot (Z.lor (shiftcode data) E0ESC)))
  else
    (* Last character was an E0 escape; or with 0x80 *)
    let esc := negb (Z.land shift E0ESC =? 0) in
    let data := if esc then Z.lor data 0x80 else data in
    let shift := if esc then Z.land shift (Z.lnot E0ESC) else shift in
    let shift := Z.lor shift (shiftcode data) in
    let shift := Z.lxor shift (togglecode data) in
    let c := charcode (Z.land shift (Z.lor CTL SHIFT)) data in
    let c :=
      if negb (Z.land shift CAPSLOCK =? 0) then
        if (ch "a" <=? c) && (c <=? ch "z") then c +u (ch "A" - ch "a")
        else if (ch "A" <=? c) && (c <=? ch "Z") then c +u (ch "a" - ch "A")
        else c
      else c in
    (c, shift).

(** What the calls of [kbdgetc] return for the given contents of the ports, up to -1. *)
Fixpoint kbd_chars (shift : Z) (ports : list (Z * Z)) : list Z * Z :=
  match ports with
  | [] => ([], shift)
  | (st, data) :: ports =>
      let '(c, shift) := kbdgetc shift st data in
      if c <? 0 then ([], shift) else let '(cs, shift) := kbd_chars shift ports in (c :: cs, shift)
  end.

(** [consoleintr(kbdgetc)]: the ports as each call of [kbdgetc] finds them. *)
Definition kbdintr (ports : list (Z * Z)) : K unit :=
  shift <- gets k_shift;
  modify (upd_k_shift (fun _ => snd (kbd_chars shift ports))) ;;
  consoleintr (fst (kbd_chars shift ports)).

(** ** The serial port (uart.c) *)

(** [uartgetc] of a port that is there: its line status and its data. *)
Definition uartgetc (st data : Z) : Z := if Z.land st 0x01 =? 0 then -1 else data.

Fixpoint uart_chars (ports : list (Z * Z)) : list Z :=
  match ports with
  | [] => []
  | (st, data) :: ports => let c := uartgetc st data in if c <? 0 then [] else c :: uart_chars ports
  end.

(** [consoleintr(uartgetc)] *)
Definition uartintr (ports : list (Z * Z)) : K unit := consoleintr (uart_chars ports).

(** ** What the keys give *)

Definition shifts : list Z := seqZ 0 128.
Definition scancodes : list Z := seqZ 0 256.

(** A check for every state and every scan code. *)
Definition for_all_keys (P : Z -> Z -> bool) : bool :=
  forallb (fun s => forallb (P s) scancodes) shifts.

Lemma for_all_keys_spec P : for_all_keys P = true ->
  forall s d, 0 <= s < 128 -> 0 <= d < 256 -> P s d = true.
Proof.
  intros H s d Hs Hd. unfold for_all_keys in H. rewrite forallb_forall in H.
  specialize (H s). rewrite forallb_forall in H. apply H; apply list_elem_of_In, elem_of_seqZ; lia.
Qed.

Definition lower (c : Z) : bool := (ch "a" <=? c) && (c <=? ch "z").
Definition upper (c : Z) : bool := (ch "A" <=? c) && (c <=? ch "Z").
Definition is_on (b shift : Z) : bool := negb (Z.land shift b =? 0).

(** A key is a letter when the plain table has one. *)
Definition letter (d : Z) : bool := lower (normalmap d).

(** What a letter key gives: control-letter, else the capital when exactly one of SHIFT
    and CAPSLOCK is on. *)
Definition letter_char (shift d : Z) : Z :=
  if is_on CTL shift then normalmap d - 96
  else if xorb (is_on SHIFT shift) (is_on CAPSLOCK shift) then normalmap d - 32
  else normalmap d.

Lemma keys_in_range : for_all_keys (fun s d =>
  let '(c, s') := kbdgetc s 1 d in (0 <=? c) && (c <? 256) && (0 <=? s') && (s' <? 128)) = true.
Proof. vm_compute. reflexivity. Qed.

Lemma letters_checked : for_all_keys (fun s d =>
  if letter d && (d <? 128) && negb (is_on E0ESC s)
  then let '(c, s') := kbdgetc s 1 d in
       let '(r, s'') := kbdgetc s' 1 (d + 128) in
       (c =? letter_char s d) && (s' =? s) && (r =? 0) && (s'' =? s)
  else true) = true.
Proof. vm_compute. reflexivity. Qed.

(** The modifiers and the locks: the flag of a modifier key is set by its press and
    cleared by its release, the other flags stay; a lock's flag changes at each press and
    its release changes nothing. *)
Lemma modifiers_checked : for_all_keys (fun s d =>
  if (d <? 128) && negb (d + 128 =? 0xE0) && negb (is_on E0ESC s)
  then let s' := snd (kbdgetc s 1 d) in
       let s'' := snd (kbdgetc s' 1 (d + 128)) in
       (s' =? Z.lxor (Z.lor s (shiftcode d)) (togglecode d)) &&
       (s'' =? Z.ldiff (Z.lxor s (togglecode d)) (shiftcode d))
  else true) = true.
Proof. vm_compute. reflexivity. Qed.

(** With data in the port the driver always has a code of 0..255 to give (so it is never
    taken for "no data") and its state stays in the seven flags. *)
Lemma kbdgetc_range s d : 0 <= s < 128 -> 0 <= d < 256 ->
  0 <= (kbdgetc s 1 d).1 < 256 /\ 0 <= (kbdgetc s 1 d).2 < 128.
Proof.
  intros Hs Hd. pose proof (for_all_keys_spec _ keys_in_range s d Hs Hd) as H.
  cbn beta in H. destruct (kbdgetc s 1 d) as [c s']. cbn [fst snd]. lia.
Qed.

Lemma kbd_chars_range ports : forall s, 0 <= s < 128 -> Forall (fun p => p.1 = 1 /\ 0 <= p.2 < 256) ports ->
  length (kbd_chars s ports).1 = length ports /\ Forall (fun c => 0 <= c < 256) (kbd_chars s ports).1 /\
  0 <= (kbd_chars s ports).2 < 128.
Proof.
  induction ports as [|[st d] ports IH]; intros s Hs Hp; cbn [kbd_chars].
  { cbn. repeat split; try constructor; lia. }
  apply Forall_cons_1 in Hp as [[Hst Hd] Hp]. cbn [fst snd] in *. subst st.
  pose proof (kbdgetc_range s d Hs Hd) as [Hc Hs'].
  destruct (kbdgetc s 1 d) as [c s']. cbn [fst snd] in *.
  rewrite (proj2 (Z.ltb_ge c 0)) by lia. specialize (IH s' Hs' Hp).
  destruct (kbd_chars s' ports) as [cs s'']. cbn [fst snd length] in *.
  destruct IH as (Hl & Hf & Hr). rewrite Hl. auto.
Qed.

Lemma kbd_chars_app s l1 l2 : Forall (fun p => p.1 = 1 /\ 0 <= p.2 < 256) l1 -> 0 <= s < 128 ->
  kbd_chars s (l1 ++ l2) =
  ((kbd_chars s l1).1 ++ (kbd_chars (kbd_chars s l1).2 l2).1, (kbd_chars (kbd_chars s l1).2 l2).2).
Proof.
  revert s. induction l1 as [|[st d] l1 IH]; intros s Hp Hs; cbn [kbd_chars app].
  { cbn [fst snd app]. by destruct (kbd_chars s l2). }
  apply Forall_cons_1 in Hp as [[Hst Hd] Hp]. cbn [fst snd] in *. subst st.
  pose proof (kbdgetc_range s d Hs Hd) as [Hc Hs'].
  destruct (kbdgetc s 1 d) as [c s']. cbn [fst snd] in *.
  rewrite (proj2 (Z.ltb_ge c 0)) by lia. rewrite (IH s' Hp Hs').
  destruct (kbd_chars s' l1) as [cs s'']. reflexivity.
Qed.

(** ** Typing *)

(** A letter is pressed and released. *)
Definition typed (d : Z) : list (Z * Z) := [(1, d); (1, d + 128)].

Definition a_letter (d : Z) : Prop := letter d = true /\ 0 <= d < 128.

Lemma typed_one s d : 0 <= s < 128 -> is_on E0ESC s = false -> a_letter d ->
  kbd_chars s (typed d) = ([letter_char s d; 0], s).
Proof.
  intros Hs Ho [Hl Hd]. pose proof (for_all_keys_spec _ letters_checked s d Hs ltac:(lia)) as H.
  cbn beta in H. rewrite Hl, Ho, (proj2 (Z.ltb_lt d 128)) in H by lia. cbn [andb negb] in H.
  pose proof (kbdgetc_range s d Hs ltac:(lia)) as [Hc Hs'].
  unfold typed. cbn [kbd_chars].
  destruct (kbdgetc s 1 d) as [c s'] eqn:Ec. cbn [fst snd] in *.
  pose proof (kbdgetc_range s' (d + 128) Hs' ltac:(lia)) as [Hc2 _].
  destruct (kbdgetc s' 1 (d + 128)) as [r s''] eqn:Er. cbn [fst snd] in *.
  rewrite (proj2 (Z.ltb_ge c 0)), (proj2 (Z.ltb_ge r 0)) by lia.
  assert (c = letter_char s d /\ s' = s /\ r = 0 /\ s'' = s) as (-> & _ & -> & ->) by lia. reflexivity.
Qed.

(** Typing letters (each key pressed and then released) hands [consoleintr] one
    character per key, in order, each followed by the 0 of its release, and leaves the
    state of the modifiers as it was: with CTL held the control character, else the
    capital exactly when one of SHIFT and CAPSLOCK is on but not both, else the small
    letter. For every state of the modifiers in which no E0 escape is pending. *)
Theorem typing_letters (s : kstate) (ds : list Z) :
  0 <= k_shift s < 128 -> is_on E0ESC (k_shift s) = false -> Forall a_letter ds ->
  kbdintr (concat (map typed ds)) s =
  consoleintr (concat (map (fun d => [letter_char (k_shift s) d; 0]) ds)) s.
Proof.
  intros Hs Ho Hd. unfold kbdintr, gets, modify, kbind. cbn [bind_res].
  assert (kbd_chars (k_shift s) (concat (map typed ds)) =
          (concat (map (fun d => [letter_char (k_shift s) d; 0]) ds), k_shift s)) as ->.
  { induction Hd as [|d ds Hl _ IH]; cbn [map concat]; [reflexivity|].
    rewrite kbd_chars_app, (typed_one _ d Hs Ho Hl); [cbn [fst snd]; rewrite IH; reflexivity| |exact Hs].
    destruct Hl as [_ Hr]. repeat constructor; cbn [fst snd]; lia. }
  cbn [fst snd]. by destruct s.
Qed.

(** With SHIFT held and CAPSLOCK off, the keys l and s give "LS". *)
Definition shifted : kstate := upd_k_shift (fun _ => SHIFT) (boot 0 0).

Lemma typing_letters_witness :
  kbdintr (concat (map typed [0x26; 0x1F])) shifted = consoleintr [76; 0; 83; 0] shifted.
Proof.
  apply (typing_letters shifted [0x26; 0x1F]); [vm_compute; split; congruence|reflexivity|].
  repeat constructor; vm_compute; congruence.
Defined.

(** Both modifiers at once give a small letter, and the E0 prefix turns the keypad's
    codes into the arrow keys. *)
Example shift_and_caps : kbdgetc (Z.lor SHIFT CAPSLOCK) 1 0x1E = (97, Z.lor SHIFT CAPSLOCK).
Proof. reflexivity. Qed.

Example arrow_up : kbd_chars 0 [(1, 0xE0); (1, 0x48); (1, 0xE0); (1, 0xC8); (0, 0)] = ([0; KEY_UP; 0; 0], 0).
Proof. reflexivity. Qed.
