(* ===== verification/Syscall.v ===== *)
(** * System call arguments and the process system calls (syscall.c, sysproc.c) *)

From S2P Require Import Prelude Mem StringC Kernel Mmu Kalloc Sched Bio Layout Log Printf Cons Fs Pipe File Vm Proc.

(** ** Fetching arguments *)

Definition fetchint (addr : Z) : K (option Z) :=
  p <- curproc;
  pr <- get_proc p;
  if (p_sz pr <=? addr) || (p_sz pr <? addr +u 4) then kret None else
  v <- uload32 addr;
  kret (Some (s32 v)).

(** [for(s = *pp; s < ep; s++)]: the bytes before the NUL. *)
Fixpoint fetchstr_loop (n : nat) (s ep : Z) : K (option (list Z)) :=
  if s <? ep then
    match n with
    | O => fun _ => NoFuel
    | S n =>
        c <- uload8 s;
        if c =? 0 then kret (Some []) else
        r <- fetchstr_loop n (s + 1) ep;
        kret (cons c <$> r)
    end
  else kret None.

(** The string at [addr]; memory is not shared, so reading it here is reading it later. *)
Definition fetchstr (addr : Z) : K (option (list Z)) :=
  p <- curproc;
  pr <- get_proc p;
  if p_sz pr <=? addr then kret None else
  fetchstr_loop (Z.to_nat (p_sz pr - addr)) addr (p_sz pr).

Definition argint (n : Z) : K (option Z) :=
  p <- curproc;
  pr <- get_proc p;
  esp <- ldw (p_tf pr + tf_esp);
  fetchint (u32 (esp + 4 + 4 * n)).

Definition argptr (n size : Z) : K (option Z) :=
  p <- curproc;
  i <- argint n;
  match i with
  | None => kret None
  | Some i =>
      pr <- get_proc p;
      if (size <? 0) || (p_sz pr <=? u32 i) || (p_sz pr <? u32 i +u size) then kret None
      else kret (Some (u32 i))
  end.

Definition argstr (n : Z) : K (option (list Z)) :=
  addr <- argint n;
  match addr with
  | None => kret None
  | Some addr => fetchstr (u32 addr)
  end.

(** ** sysproc.c *)

Section Sysproc.
Context `{Fuel} `{Image}.

Definition sys_fork : K Z := fork.
Definition sys_exit : K Z := exit.
Definition sys_wait : K Z := wait.

Definition sys_kill : K Z :=
  pid <- argint 0;
  match pid with None => kret (-1) | Some pid => kill pid end.

Definition sys_getpid : K Z :=
  p <- curproc; pr <- get_proc p; kret (p_pid pr).

Definition sys_freemem : K Z := Kalloc.freemem.

Definition sys_sbrk : K Z :=
  n <- argint 0;
  match n with
  | None => kret (-1)
  | Some n =>
      p <- curproc; pr <- get_proc p;
      let addr := s32 (p_sz pr) in
      r <- growproc n;
      if r <? 0 then kret (-1) else kret addr
  end.

(** [while(ticks - ticks0 < n)]: [n] is converted to [uint]. *)
Fixpoint sys_sleep_loop (fl : nat) (ticks0 n : Z) : K Z :=
  ticks <- gets k_ticks;
  if ticks -u ticks0 <? u32 n then
    p <- curproc; pr <- get_proc p;
    if negb (p_killed pr =? 0) then
      release LK_ticks ;;
      kret (-1)
    else
    match fl with
    | O => fun _ => NoFuel
    | S fl => sleep CH_ticks LK_ticks ;; sys_sleep_loop fl ticks0 n
    end
  else
    release LK_ticks ;;
    kret 0.

Definition sys_sleep : K Z :=
  n <- argint 0;
  match n with
  | None => kret (-1)
  | Some n =>
      acquire LK_ticks ;;
      ticks0 <- gets k_ticks;
      sys_sleep_loop fuel ticks0 n
  end.

Definition sys_uptime : K Z :=
  acquire LK_ticks ;;
  xticks <- gets k_ticks;
  release LK_ticks ;;
  kret (s32 xticks).

Definition sys_exit2 : K Z :=
  exit_status <- argint 0;
  match exit_status with
  | None => kret (-1)
  | Some exit_status => exit2 exit_status
  end.

Definition sys_wait2 : K Z :=
  p <- argptr 0 4;
  match p with None => kret (-1) | Some p => wait2 p end.
End Sysproc.
