(* ===== verification/Args.v ===== *)
(** * System call arguments cannot hurt the kernel (syscall.c)

    Whatever a process leaves in its registers and memory, fetching its arguments does not
    fault, reads only memory below its size, and hands on only pointers into it. *)

From S2P Require Import Prelude Mem StringC Kernel Mmu Kalloc Sched Bio Layout Log Printf Cons Fs Pipe File Vm Space Mapping Pages Umem Proc Lifecycle Syscall.

Section Args.
Context (s : kstate) (p : nat) (pr : proc) (rest free : list Z).
Hypothesis Hcur : k_cur s = Some p.
Hypothesis Hp : k_procs s !! p = Some pr.
Hypothesis Hown : owns s (space_pages (k_mem s) (p_pgdir pr) ++ rest) free.
Hypothesis Hcr : k_cr3 s = V2P (p_pgdir pr).
Hypothesis Hsz : 0 <= p_sz pr < KERNBASE.
Hypothesis Hpages : forall j, 0 <= j -> 4096 * j < p_sz pr -> present (entry (k_mem s) (p_pgdir pr) j) = true.

(** The bytes of the process. *)
Definition byte_at (v : Z) : Z := ubyte (k_mem s) (p_pgdir pr) v.
Definition int_at (v : Z) : Z := s32 (le_val (map byte_at (seqZ v 4))).

Lemma in_range v n : 0 <= v -> v + n <= p_sz pr -> urange (fun _ => True) (k_mem s) (p_pgdir pr) v n.
Proof using Hsz Hpages.
  intros Hv Hn. split_and!; [done|lia|]. intros w Hw. split; [|done]. apply Hpages; [dlia|dlia].
Qed.

Lemma uload8_at v : 0 <= v < p_sz pr -> uload8 v s = Ok (byte_at v) s.
Proof using All.
  intros Hv. apply (uload8_ok s (p_pgdir pr) rest free); [done|done|lia|]. destruct (in_range v 1 ltac:(lia) ltac:(lia)) as (_ & _ & H).
  apply H. lia.
Qed.

Lemma fetchint_ok addr : 0 <= addr < 2 ^ 32 ->
  fetchint addr s = Ok (if addr + 4 <=? p_sz pr then Some (int_at addr) else None) s.
Proof using All.
  intros Ha. unfold KERNBASE in Hsz. unfold fetchint. rewrite (kbind_ok _ _ _ _ _ (curproc_ok p s Hcur)), (kbind_ok _ _ _ _ _ (get_proc_ok p pr s Hp)).
  destruct (Z.leb_spec (p_sz pr) addr); [destruct (Z.leb_spec (addr + 4) (p_sz pr)); [lia|done]|].
  rewrite u32_id by lia. destruct (Z.ltb_spec (p_sz pr) (addr + 4)), (Z.leb_spec (addr + 4) (p_sz pr)); try lia; [done|].
  cbn [orb]. unfold uload32.
  assert (Hl : (bs <- uloads addr 4; kret (le_val bs)) s = Ok (le_val (map byte_at (seqZ addr 4))) s).
  { rewrite (kbind_ok _ _ _ _ _ (uloads_ok 4 addr s (p_pgdir pr) rest free Hown Hcr (in_range addr 4 ltac:(lia) ltac:(lia)))). done. }
  rewrite (kbind_ok _ _ _ _ _ Hl). done.
Qed.

(** [str] is the string at [a], with its NUL below the size of the process. *)
Definition string_at (a : Z) (str : list Z) : Prop :=
  0 <= a /\ a + Z.of_nat (length str) < p_sz pr /\ byte_at (a + Z.of_nat (length str)) = 0 /\
  forall i c, str !! i = Some c -> c = byte_at (a + Z.of_nat i) /\ c <> 0.

Lemma fetchstr_loop_ok n : forall a, 0 <= a -> (Z.to_nat (p_sz pr - a) <= n)%nat ->
  exists r, fetchstr_loop n a (p_sz pr) s = Ok r s /\
    match r with
    | Some str => string_at a str
    | None => forall v, a <= v < p_sz pr -> byte_at v <> 0
    end.
Proof using All.
  induction n as [|n IH]; intros a Ha Hn; cbn [fetchstr_loop].
  { destruct (Z.ltb_spec a (p_sz pr)); [lia|]. exists None. split; [done|]. lia. }
  destruct (Z.ltb_spec a (p_sz pr)); [|exists None; split; [done|lia]].
  rewrite (kbind_ok _ _ _ _ _ (uload8_at a ltac:(lia))). destruct (Z.eqb_spec (byte_at a) 0) as [E|E].
  { exists (Some []). split; [done|]. split_and!; [done|cbn; lia|cbn; by rewrite Z.add_0_r|done]. }
  destruct (IH (a + 1)) as (r & Hr & Hres); [lia|lia|]. rewrite (kbind_ok _ _ _ _ _ Hr). exists (cons (byte_at a) <$> r). split; [done|].
  destruct r as [str|]; cbn.
  - destruct Hres as (H1 & H2 & H3 & H4). split_and!; [done|rewrite length_cons; lia| |].
    + rewrite length_cons. replace (a + Z.of_nat (S (length str))) with (a + 1 + Z.of_nat (length str)) by lia. done.
    + intros [|i] c Hc; cbn in Hc; [injection Hc as <-; by rewrite Z.add_0_r|]. destruct (H4 i c Hc) as [-> H5]. split; [f_equal; lia|].
      done.
  - intros v Hv. destruct (decide (v = a)) as [->|]; [done|]. apply Hres. lia.
Qed.

End Args.

(** C22: fetching an argument never faults and changes nothing: the [n]th argument is the integer
    at its place on the user stack, or an error if that is outside the process; a pointer
    argument that is accepted points to [size] bytes inside the process; a string argument
    that is accepted ends with its NUL inside the process. *)
Theorem arguments_safe (s : kstate) (p : nat) (pr : proc) (rest free : list Z) (n size : Z)
    (Hcur : k_cur s = Some p) (Hp : k_procs s !! p = Some pr)
    (Hown : owns s (space_pages (k_mem s) (p_pgdir pr) ++ rest) free)
    (Hcr : k_cr3 s = V2P (p_pgdir pr)) (Hsz : 0 <= p_sz pr < KERNBASE)
    (Hpages : forall j, 0 <= j -> 4096 * j < p_sz pr -> present (entry (k_mem s) (p_pgdir pr) j) = true)
    (Hsize : - 2 ^ 31 <= size < 2 ^ 31) :
  let a := u32 (load32 (k_mem s) (p_tf pr + tf_esp) + 4 + 4 * n) in
  argint n s = Ok (if a + 4 <=? p_sz pr then Some (int_at s pr a) else None) s /\
  (exists r, argptr n size s = Ok r s /\ forall q, r = Some q -> 0 <= q /\ 0 <= size /\ q + size <= p_sz pr) /\
  (exists r, argstr n s = Ok r s /\ forall str, r = Some str -> exists q, string_at s pr q str).
Proof.
  intros a. assert (Hi : argint n s = Ok (if a + 4 <=? p_sz pr then Some (int_at s pr a) else None) s).
  { unfold argint. rewrite (kbind_ok _ _ _ _ _ (curproc_ok p s Hcur)), (kbind_ok _ _ _ _ _ (get_proc_ok p pr s Hp)).
    rewrite (kbind_ok _ _ _ _ _ (ldw_ok _ s)). eapply (fetchint_ok s p pr rest free); try done. apply u32_range. }
  unfold KERNBASE in Hsz. split; [done|]. split.
  - unfold argptr. rewrite (kbind_ok _ _ _ _ _ (curproc_ok p s Hcur)), (kbind_ok _ _ _ _ _ Hi).
    destruct (a + 4 <=? p_sz pr); [|by exists None]. rewrite (kbind_ok _ _ _ _ _ (get_proc_ok p pr s Hp)).
    set (q := u32 (int_at s pr a)). pose proof (u32_range (int_at s pr a)) as Hq. fold q in Hq.
    destruct (Z.ltb_spec size 0); [by exists None|]. destruct (Z.leb_spec (p_sz pr) q); [by exists None|].
    rewrite u32_id by lia. destruct (Z.ltb_spec (p_sz pr) (q + size)); [by exists None|]. exists (Some q). split; [done|].
    intros q' [= <-]. lia.
  - unfold argstr. rewrite (kbind_ok _ _ _ _ _ Hi). destruct (a + 4 <=? p_sz pr); [|by exists None].
    unfold fetchstr. rewrite (kbind_ok _ _ _ _ _ (curproc_ok p s Hcur)), (kbind_ok _ _ _ _ _ (get_proc_ok p pr s Hp)).
    set (q := u32 (int_at s pr a)). pose proof (u32_range (int_at s pr a)) as Hq. fold q in Hq.
    destruct (p_sz pr <=? q); [by exists None|].
    destruct (fetchstr_loop_ok s p pr rest free Hcur Hp Hown Hcr Hsz Hpages (Z.to_nat (p_sz pr - q)) q) as (r & Hr & Hres); [lia|lia|].
    exists r. split; [done|]. intros str ->. by exists q.
Qed.

Lemma cr3_pages s g pgdir sz :
  (forall j, 0 <= j -> 4096 * j < sz -> present (entry (k_mem s) pgdir j) = true) ->
  forall j, 0 <= j -> 4096 * j < sz -> present (entry (k_mem (upd_k_cr3 g s)) pgdir j) = true.
Proof. done. Qed.

Lemma arguments_safe_witness :
  exists r, argstr 0 (upd_k_cr3 (fun _ => V2P small_pgdir) one_proc) = Ok r (upd_k_cr3 (fun _ => V2P small_pgdir) one_proc).
Proof.
  destruct one_proc_space as (H1 & H2 & H3).
  destruct (arguments_safe (upd_k_cr3 (fun _ => V2P small_pgdir) one_proc) 0 the_proc [] (rev (take 2 top_pages)) 0 0)
    as (_ & _ & (r & H & _)).
  - reflexivity.
  - reflexivity.
  - apply space_cr3. rewrite app_nil_r. exact H1.
  - reflexivity.
  - exact H2.
  - apply cr3_pages. intros j Hj Hlt. apply H3; [|exact Hlt].
    change UPAGES with 524288. change (p_sz the_proc) with 5000 in Hlt. lia.
  - lia.
  - exists r. exact H.
Defined.
