(* ===== verification/Exec.v ===== *)
(** * Running a program (exec.c) *)

From S2P Require Import Prelude Mem StringC Kernel Mmu Kalloc Sched Bio Layout Log Printf Cons Fs Pipe File Vm Proc.

(** ** The headers of an ELF file (elf.h) *)

Definition ELF_MAGIC : Z := 0x464C457F.
Definition ELF_PROG_LOAD : Z := 1.
Definition sizeof_elfhdr : Z := 52.
Definition sizeof_proghdr : Z := 32.

Definition elf_magic (h : list Z) : Z := rd 4 h 0.
Definition elf_entry (h : list Z) : Z := rd 4 h 24.
Definition elf_phoff (h : list Z) : Z := rd 4 h 28.
Definition elf_phnum (h : list Z) : Z := rd 2 h 44.

Definition ph_type (h : list Z) : Z := rd 4 h 0.
Definition ph_off (h : list Z) : Z := rd 4 h 4.
Definition ph_vaddr (h : list Z) : Z := rd 4 h 8.
Definition ph_filesz (h : list Z) : Z := rd 4 h 16.
Definition ph_memsz (h : list Z) : Z := rd 4 h 20.

Section Exec.
Context `{Fuel} `{Devsw}.

(** The loop over the program headers; [None] is [goto bad]. *)
Fixpoint load_segments (n : nat) (ip : nat) (pgdir off sz : Z) : K (option Z) :=
  match n with
  | O => kret (Some sz)
  | S n =>
      r <- readi ip off sizeof_proghdr;
      if negb (r.1 =? sizeof_proghdr) then kret None else
      let ph := r.2 in
      if negb (ph_type ph =? ELF_PROG_LOAD) then load_segments n ip pgdir (off +u sizeof_proghdr) sz else
      if ph_memsz ph <? ph_filesz ph then kret None else
      if ph_vaddr ph +u ph_memsz ph <? ph_vaddr ph then kret None else
      sz <- allocuvm pgdir sz (ph_vaddr ph +u ph_memsz ph);
      if sz =? 0 then kret None else
      if negb (ph_vaddr ph mod PGSIZE =? 0) then kret None else
      r <- loaduvm pgdir (ph_vaddr ph) ip (ph_off ph) (ph_filesz ph);
      if r <? 0 then kret None else
      load_segments n ip pgdir (off +u sizeof_proghdr) sz
  end.

(** Push argument strings: the new [sp] and the pointers for [ustack]. *)
Fixpoint push_args (pgdir sp : Z) (argv : list (list Z)) (argc : nat) : K (option (Z * list Z)) :=
  match argv with
  | [] => kret (Some (sp, []))
  | a :: argv =>
      if Nat.leb MAXARG argc then kret None else
      let sp := (sp -u (Z.of_nat (length a) + 1)) .& u32 (Z.lnot 3) in
      r <- copyout pgdir sp (a ++ [0]);
      if r <? 0 then kret None else
      rest <- push_args pgdir sp argv (S argc);
      kret (match rest with Some (sp', us) => Some (sp', sp :: us) | None => None end)
  end.

(** [ustack] for [argc] arguments at [args], with the stack pointer at [sp]. *)
Definition mk_ustack (sp : Z) (args : list Z) : list Z :=
  let argc := Z.of_nat (length args) in
  [0xffffffff; argc; sp -u (argc + 1) * 4] ++ args ++ [0].

(** [for(last=s=path; *s; s++)]: what follows the last slash. *)
Fixpoint last_elem (s last : list Z) : list Z :=
  match s with
  | [] => last
  | c :: s => last_elem s (if c =? slash then s else last)
  end.

(** [bad:] *)
Definition exec_bad (pgdir : Z) (ip : option nat) : K Z :=
  kwhen (negb (pgdir =? 0)) (freevm pgdir) ;;
  match ip with
  | Some ip => iunlockput ip ;; end_op
  | None => kret tt
  end ;;
  kret (-1).

(** From the user stack on. *)
Definition exec_stack (pgdir sz entry : Z) (path : list Z) (argv : list (list Z)) : K Z :=
  let sz := PGROUNDUP sz in
  sz <- allocuvm pgdir sz (sz +u 2 * PGSIZE);
  if sz =? 0 then exec_bad pgdir None else
  clearpteu pgdir (sz -u 2 * PGSIZE) ;;
  r <- push_args pgdir sz argv 0;
  match r with
  | None => exec_bad pgdir None
  | Some (sp, args) =>
      let ustack := mk_ustack sp args in
      let sp := sp -u Z.of_nat (length ustack) * 4 in
      r <- copyout pgdir sp (concat (map (le_bytes 4) ustack));
      if r <? 0 then exec_bad pgdir None else
      p <- curproc;
      set_proc p (upd_p_name (splice 0 (StringC.safestrcpy (StringC.at_ (last_elem path path)) 16))) ;;
      (* Commit to the user image. *)
      pr <- get_proc p;
      let oldpgdir := p_pgdir pr in
      set_proc p (upd_p_pgdir (fun _ => pgdir)) ;;
      set_proc p (upd_p_sz (fun _ => sz)) ;;
      stw (p_tf pr + tf_eip) entry ;;
      stw (p_tf pr + tf_esp) sp ;;
      switchuvm (Some p) ;;
      freevm oldpgdir ;;
      kret 0
  end.

Definition exec (path : list Z) (argv : list (list Z)) : K Z :=
  begin_op ;;
  ip <- namei path;
  match ip with
  | None =>
      end_op ;;
      cprintf "exec: fail
" [] ;;
      kret (-1)
  | Some ip =>
      ilock ip ;;
      (* Check ELF header *)
      r <- readi ip 0 sizeof_elfhdr;
      if negb (r.1 =? sizeof_elfhdr) then exec_bad 0 (Some ip) else
      let elf := r.2 in
      if negb (elf_magic elf =? ELF_MAGIC) then exec_bad 0 (Some ip) else
      pgdir <- setupkvm;
      if pgdir =? 0 then exec_bad 0 (Some ip) else
      sz <- load_segments (Z.to_nat (elf_phnum elf)) ip pgdir (elf_phoff elf) 0;
      match sz with
      | None => exec_bad pgdir (Some ip)
      | Some sz =>
          iunlockput ip ;;
          end_op ;;
          exec_stack pgdir sz (elf_entry elf) path argv
      end
  end.
End Exec.
