(* ===== verification/Sysfile.v ===== *)
(** * File-system system calls (sysfile.c)

    Argument checking, and calls into file.c, fs.c and exec.c.  Strings and buffers of the
    caller are copied in and out with [uloads] and [ustores]. *)

From S2P Require Import Prelude Fcntl Mem StringC Kernel Mmu Kalloc Sched Bio Layout Log Printf Cons Fs Pipe File Vm Proc Syscall Exec.

(** The descriptor and its file. *)
Definition argfd (n : Z) : K (option (nat * nat)) :=
  fd <- argint n;
  match fd with
  | None => kret None
  | Some fd =>
      p <- curproc; pr <- get_proc p;
      if (fd <? 0) || (Z.of_nat NOFILE <=? fd) then kret None else
      match p_ofile pr !! Z.to_nat fd with
      | Some (Some f) => kret (Some (Z.to_nat fd, f))
      | _ => kret None
      end
  end.

Definition fdalloc (f : nat) : K (option nat) :=
  p <- curproc; pr <- get_proc p;
  match find_from (fun o => bool_decide (o = None)) (p_ofile pr) 0 with
  | Some fd =>
      set_proc p (upd_p_ofile (insert fd (Some f))) ;;
      kret (Some fd)
  | None => kret None
  end.

(** [myproc()->ofile[fd] = 0] *)
Definition clear_fd (fd : nat) : K unit :=
  p <- curproc; set_proc p (upd_p_ofile (insert fd None)).

(** The fields of [struct stat] in the caller's memory. *)
Definition put_stat (a : Z) (st : stat) : K unit :=
  ustores a (le_bytes 2 (st_type st)) ;;
  ustores (a + 4) (le_bytes 4 (st_dev st)) ;;
  ustores (a + 8) (le_bytes 4 (st_ino st)) ;;
  ustores (a + 12) (le_bytes 2 (st_nlink st)) ;;
  ustores (a + 16) (le_bytes 4 (st_size st)).

Section Sysfile.
Context `{Fuel} `{Devsw}.

Definition sys_dup : K Z :=
  r <- argfd 0;
  match r with
  | None => kret (-1)
  | Some (_, f) =>
      fd <- fdalloc f;
      match fd with
      | None => kret (-1)
      | Some fd => filedup f ;; kret (Z.of_nat fd)
      end
  end.

(** [argfd(0, 0, &f) < 0 || argint(2, &n) < 0 || argptr(1, &p, n) < 0] *)
Definition rw_args : K (option (nat * Z * Z)) :=
  r <- argfd 0;
  match r with
  | None => kret None
  | Some (_, f) =>
      n <- argint 2;
      match n with
      | None => kret None
      | Some n =>
          p <- argptr 1 n;
          kret ((fun p => (f, p, n)) <$> p)
      end
  end.

Definition sys_read : K Z :=
  a <- rw_args;
  match a with
  | None => kret (-1)
  | Some (f, p, n) =>
      r <- fileread f n;
      ustores p r.2 ;;
      kret r.1
  end.

Definition sys_write : K Z :=
  a <- rw_args;
  match a with
  | None => kret (-1)
  | Some (f, p, n) =>
      bs <- uloads p (Z.to_nat n);
      filewrite f bs n
  end.

Definition sys_close : K Z :=
  r <- argfd 0;
  match r with
  | None => kret (-1)
  | Some (fd, f) =>
      clear_fd fd ;;
      fileclose f ;;
      kret 0
  end.

Definition sys_fstat : K Z :=
  r <- argfd 0;
  match r with
  | None => kret (-1)
  | Some (_, f) =>
      a <- argptr 1 20;
      match a with
      | None => kret (-1)
      | Some a =>
          st <- filestat f;
          match st with
          | None => kret (-1)
          | Some st => put_stat a st ;; kret 0
          end
      end
  end.

(** The [bad:] exit of [sys_link]. *)
Definition link_bad (ip : nat) : K Z :=
  ilock ip ;;
  set_inode ip (upd_i_nlink (fun n => s16 (n - 1))) ;;
  iupdate ip ;;
  iunlockput ip ;;
  end_op ;;
  kret (-1).

Definition link (old new : list Z) : K Z :=
  begin_op ;;
  ip <- namei old;
  match ip with
  | None => end_op ;; kret (-1)
  | Some ip =>
      ilock ip ;;
      x <- get_inode ip;
      if i_type x =? T_DIR then iunlockput ip ;; end_op ;; kret (-1) else
      set_inode ip (upd_i_nlink (fun n => s16 (n + 1))) ;;
      iupdate ip ;;
      iunlock ip ;;
      r <- nameiparent new (replicate DIRSIZ 0);
      match r with
      | (None, _) => link_bad ip
      | (Some dp, name) =>
          ilock dp ;;
          d <- get_inode dp;
          x <- get_inode ip;
          bad <- (if negb (i_dev d =? i_dev x) then kret true
                  else r <- dirlink dp name (i_inum x); kret (r <? 0));
          if (bad : bool) then iunlockput dp ;; link_bad ip else
          iunlockput dp ;;
          iput ip ;;
          end_op ;;
          kret 0
      end
  end.

Definition sys_link : K Z :=
  old <- argstr 0;
  match old with
  | None => kret (-1)
  | Some old =>
      new <- argstr 1;
      match new with None => kret (-1) | Some new => link old new end
  end.

(** The loop of [isdirempty]. *)
Fixpoint isdirempty_loop (n : nat) (dp : nat) (off : Z) : K bool :=
  d <- get_inode dp;
  if off <? i_size d then
    match n with
    | O => fun _ => NoFuel
    | S n =>
        r <- readi dp off sizeof_dirent;
        if negb (r.1 =? sizeof_dirent) then panic "isdirempty: readi" else
        if negb (de_inum r.2 =? 0) then kret false
        else isdirempty_loop n dp (off + sizeof_dirent)
    end
  else kret true.
Definition isdirempty (dp : nat) : K bool :=
  d <- get_inode dp;
  isdirempty_loop (Z.to_nat (i_size d / sizeof_dirent)) dp (2 * sizeof_dirent).

(** The [bad:] exit of [sys_unlink]. *)
Definition unlink_bad (dp : nat) : K Z :=
  iunlockput dp ;;
  end_op ;;
  kret (-1).

Definition unlink (path : list Z) : K Z :=
  begin_op ;;
  r <- nameiparent path (replicate DIRSIZ 0);
  match r with
  | (None, _) => end_op ;; kret (-1)
  | (Some dp, name) =>
      ilock dp ;;
      (* Cannot unlink "." or "..". *)
      if (namecmp name (codes ".") =? 0) || (namecmp name (codes "..") =? 0) then unlink_bad dp else
      r <- dirlookup dp name;
      match r with
      | None => unlink_bad dp
      | Some (ip, off) =>
          ilock ip ;;
          x <- get_inode ip;
          if i_nlink x <? 1 then panic "unlink: nlink < 1" else
          full <- (if i_type x =? T_DIR then e <- isdirempty ip; kret (negb e) else kret false);
          if (full : bool) then iunlockput ip ;; unlink_bad dp else
          w <- writei dp (replicate (Z.to_nat sizeof_dirent) 0) off sizeof_dirent;
          if negb (w =? sizeof_dirent) then panic "unlink: writei" else
          x <- get_inode ip;
          kwhen (i_type x =? T_DIR)
            (set_inode dp (upd_i_nlink (fun n => s16 (n - 1))) ;;
             iupdate dp) ;;
          iunlockput dp ;;
          set_inode ip (upd_i_nlink (fun n => s16 (n - 1))) ;;
          iupdate ip ;;
          iunlockput ip ;;
          end_op ;;
          kret 0
      end
  end.

Definition sys_unlink : K Z :=
  path <- argstr 0;
  match path with None => kret (-1) | Some path => unlink path end.

Definition create (path : list Z) (type major minor : Z) : K (option nat) :=
  r <- nameiparent path (replicate DIRSIZ 0);
  match r with
  | (None, _) => kret None
  | (Some dp, name) =>
      ilock dp ;;
      r <- dirlookup dp name;
      match r with
      | Some (ip, _) =>
          iunlockput dp ;;
          ilock ip ;;
          x <- get_inode ip;
          if (type =? T_FILE) && (i_type x =? T_FILE) then kret (Some ip) else
          iunlockput ip ;;
          kret None
      | None =>
          d <- get_inode dp;
          ip <- ialloc (i_dev d) type;
          ilock ip ;;
          set_inode ip (upd_i_major (fun _ => s16 major)) ;;
          set_inode ip (upd_i_minor (fun _ => s16 minor)) ;;
          set_inode ip (upd_i_nlink (fun _ => 1)) ;;
          iupdate ip ;;
          kwhen (type =? T_DIR)  (* Create . and .. entries. *)
            (set_inode dp (upd_i_nlink (fun n => s16 (n + 1))) ;;
             iupdate dp ;;
             x <- get_inode ip;
             r <- dirlink ip (codes ".") (i_inum x);
             if r <? 0 then panic "create dots" else
             d <- get_inode dp;
             r <- dirlink ip (codes "..") (i_inum d);
             if r <? 0 then panic "create dots" else kret tt) ;;
          x <- get_inode ip;
          r <- dirlink dp name (i_inum x);
          if r <? 0 then panic "create: dirlink" else
          iunlockput dp ;;
          kret (Some ip)
      end
  end.

(** The inode [sys_open] opens, locked. *)
Definition open_inode (path : list Z) (omode : Z) : K (option nat) :=
  if negb (omode .& O_CREATE =? 0) then
    ip <- create path T_FILE 0 0;
    match ip with
    | None => end_op ;; kret None
    | Some ip => kret (Some ip)
    end
  else
    ip <- namei path;
    match ip with
    | None => end_op ;; kret None
    | Some ip =>
        ilock ip ;;
        x <- get_inode ip;
        if (i_type x =? T_DIR) && negb (omode =? O_RDONLY) then
          iunlockput ip ;; end_op ;; kret None
        else kret (Some ip)
    end.

Definition open (path : list Z) (omode : Z) : K Z :=
  begin_op ;;
  ip <- open_inode path omode;
  match ip with
  | None => kret (-1)
  | Some ip =>
      f <- filealloc;
      fd <- (match f with Some f => fdalloc f | None => kret None end);
      match f, fd with
      | Some f, Some fd =>
          iunlock ip ;;
          end_op ;;
          set_file f (upd_f_type (fun _ => FD_INODE)) ;;
          set_file f (upd_f_ip (fun _ => ip)) ;;
          set_file f (upd_f_off (fun _ => 0)) ;;
          set_file f (upd_f_readable (fun _ => omode .& O_WRONLY =? 0)) ;;
          set_file f (upd_f_writable (fun _ => negb (omode .& O_WRONLY =? 0) || negb (omode .& O_RDWR =? 0))) ;;
          kret (Z.of_nat fd)
      | _, _ =>
          match f with Some f => fileclose f | None => kret tt end ;;
          iunlockput ip ;;
          end_op ;;
          kret (-1)
      end
  end.

Definition sys_open : K Z :=
  path <- argstr 0;
  match path with
  | None => kret (-1)
  | Some path =>
      omode <- argint 1;
      match omode with None => kret (-1) | Some omode => open path omode end
  end.

Definition sys_mkdir : K Z :=
  begin_op ;;
  path <- argstr 0;
  ip <- (match path with Some path => create path T_DIR 0 0 | None => kret None end);
  match ip with
  | None => end_op ;; kret (-1)
  | Some ip => iunlockput ip ;; end_op ;; kret 0
  end.

Definition sys_mknod : K Z :=
  begin_op ;;
  path <- argstr 0;
  ip <- (match path with
         | None => kret None
         | Some path =>
             major <- argint 1;
             match major with
             | None => kret None
             | Some major =>
                 minor <- argint 2;
                 match minor with
                 | None => kret None
                 | Some minor => create path T_DEV major minor
                 end
             end
         end);
  match ip with
  | None => end_op ;; kret (-1)
  | Some ip => iunlockput ip ;; end_op ;; kret 0
  end.

Definition sys_chdir : K Z :=
  p <- curproc;
  begin_op ;;
  path <- argstr 0;
  ip <- (match path with Some path => namei path | None => kret None end);
  match ip with
  | None => end_op ;; kret (-1)
  | Some ip =>
      ilock ip ;;
      x <- get_inode ip;
      if negb (i_type x =? T_DIR) then iunlockput ip ;; end_op ;; kret (-1) else
      iunlock ip ;;
      pr <- get_proc p;
      match p_cwd pr with None => panic "null cwd" | Some d => iput d end ;;
      end_op ;;
      set_proc p (upd_p_cwd (fun _ => Some ip)) ;;
      kret 0
  end.

(** [for(i=0;; i++)] in [sys_exec]; [n] is [NELEM(argv) - i]. *)
Fixpoint fetch_argv (n : nat) (uargv i : Z) : K (option (list (list Z))) :=
  match n with
  | O => kret None
  | S n =>
      uarg <- fetchint (uargv +u 4 * i);
      match uarg with
      | None => kret None
      | Some uarg =>
          if uarg =? 0 then kret (Some []) else
          a <- fetchstr (u32 uarg);
          match a with
          | None => kret None
          | Some a => rest <- fetch_argv n uargv (i + 1); kret (cons a <$> rest)
          end
      end
  end.

Definition sys_exec : K Z :=
  path <- argstr 0;
  match path with
  | None => kret (-1)
  | Some path =>
      uargv <- argint 1;
      match uargv with
      | None => kret (-1)
      | Some uargv =>
          argv <- fetch_argv MAXARG (u32 uargv) 0;
          match argv with None => kret (-1) | Some argv => exec path argv end
      end
  end.

Definition sys_pipe : K Z :=
  fd <- argptr 0 8;
  match fd with
  | None => kret (-1)
  | Some fd =>
      r <- pipealloc;
      match r with
      | None => kret (-1)
      | Some (rf, wf) =>
          fd0 <- fdalloc rf;
          fd1 <- (match fd0 with Some _ => fdalloc wf | None => kret None end);
          match fd0, fd1 with
          | Some fd0, Some fd1 =>
              ustore32 fd (Z.of_nat fd0) ;;
              ustore32 (fd + 4) (Z.of_nat fd1) ;;
              kret 0
          | _, _ =>
              match fd0 with Some fd0 => clear_fd fd0 | None => kret tt end ;;
              fileclose rf ;;
              fileclose wf ;;
              kret (-1)
          end
      end
  end.
End Sysfile.
