(* ===== verification/Trap.v ===== *)
(** * System call dispatch and traps (syscall.c, trap.c)

    [trap] is the kernel's entry from user space and from interrupts.  What the hardware
    gives it is an argument: the CPU's number, the fault address and what the ports of the
    keyboard and of the serial line hold each time they are read. *)

From S2P Require Import Prelude Traps Seg Mem StringC Kernel Mmu Kalloc Sched Bio Layout Log Printf Cons Fs Pipe File Vm Proc Console Kbd Syscall Exec Sysfile.

Section Trap.
Context `{Fuel} `{Devsw} `{Image}.

(** The table [syscalls]. *)
Definition syscalls (num : Z) : option (K Z) :=
  match num with
  | 1 => Some sys_fork
  | 2 => Some sys_exit
  | 3 => Some sys_wait
  | 4 => Some sys_pipe
  | 5 => Some sys_read
  | 6 => Some sys_kill
  | 7 => Some sys_exec
  | 8 => Some sys_fstat
  | 9 => Some sys_chdir
  | 10 => Some sys_dup
  | 11 => Some sys_getpid
  | 12 => Some sys_sbrk
  | 13 => Some sys_sleep
  | 14 => Some sys_uptime
  | 15 => Some sys_open
  | 16 => Some sys_write
  | 17 => Some sys_mknod
  | 18 => Some sys_unlink
  | 19 => Some sys_link
  | 20 => Some sys_mkdir
  | 21 => Some sys_close
  | 22 => Some sys_freemem
  | 23 => Some sys_exit2
  | 24 => Some sys_wait2
  | _ => None
  end.

Definition syscall : K unit :=
  p <- curproc;
  pr <- get_proc p;
  eax <- ldw (p_tf pr + tf_eax);
  let num := s32 eax in
  r <- (match syscalls num with
        | Some sys => sys
        | None =>
            pr <- get_proc p;
            cprintf "%d %s: unknown sys call %d
" [AInt (p_pid pr); AStr (Some (cstr (p_name pr))); AInt num] ;;
            kret (-1)
        end);
  pr <- get_proc p;
  stw (p_tf pr + tf_eax) r.

(** ** Traps *)


(** [if(myproc()->killed) exit();] *)
Definition exit_if_killed : K unit :=
  p <- curproc;
  pr <- get_proc p;
  kwhen (negb (p_killed pr =? 0)) exit.

(** [if(myproc() && myproc()->killed && (tf->cs&3) == DPL_USER) exit();] *)
Definition exit_if_killed_user (cs : Z) : K unit :=
  p <- myproc;
  match p with
  | None => kret tt
  | Some p =>
      pr <- get_proc p;
      kwhen (negb (p_killed pr =? 0) && (cs .& 3 =? DPL_USER)) exit
  end.

(** The [switch]: interrupts, and what else the hardware reports. *)
Definition trap_switch (trapno cs eip err cpu cr2 : Z) (kbd uart : list (Z * Z)) : K unit :=
  if trapno =? T_IRQ0 + IRQ_TIMER then
    kwhen (cpu =? 0)
      (acquire LK_ticks ;;
       modify (upd_k_ticks (fun t => t +u 1)) ;;
       wakeup CH_ticks ;;
       release LK_ticks)
  else if trapno =? T_IRQ0 + IRQ_IDE then kret tt
  else if trapno =? T_IRQ0 + IRQ_IDE + 1 then kret tt
  else if trapno =? T_IRQ0 + IRQ_KBD then kbdintr kbd
  else if trapno =? T_IRQ0 + IRQ_COM1 then uartintr uart
  else if (trapno =? T_IRQ0 + 7) || (trapno =? T_IRQ0 + IRQ_SPURIOUS) then
    cprintf "cpu%d: spurious interrupt at %x:%x
" [AInt cpu; AInt cs; AInt eip]
  else
    p <- myproc;
    match p with
    | Some p =>
        if cs .& 3 =? 0 then
          cprintf "unexpected trap %d from cpu %d eip %x (cr2=0x%x)
" [AInt trapno; AInt cpu; AInt eip; AInt cr2] ;;
          panic "trap"
        else
          pr <- get_proc p;
          cprintf "pid %d %s: trap %d err %d on cpu %d eip 0x%x addr 0x%x--kill proc
" [AInt (p_pid pr); AStr (Some (cstr (p_name pr))); AInt trapno; AInt err; AInt cpu; AInt eip; AInt cr2] ;;
          set_proc p (upd_p_killed (fun _ => 1))
    | None =>
        cprintf "unexpected trap %d from cpu %d eip %x (cr2=0x%x)
" [AInt trapno; AInt cpu; AInt eip; AInt cr2] ;;
        panic "trap"
    end.

Definition trap (tf cpu cr2 : Z) (kbd uart : list (Z * Z)) : K unit :=
  trapno <- ldw (tf + tf_trapno);
  if trapno =? T_SYSCALL then
    exit_if_killed ;;
    p <- curproc;
    set_proc p (upd_p_tf (fun _ => tf)) ;;
    syscall ;;
    exit_if_killed
  else
  cs <- ldw (tf + tf_cs);
  let cs := cs .& 0xffff in
  eip <- ldw (tf + tf_eip);
  err <- ldw (tf + tf_err);
  trap_switch trapno cs eip err cpu cr2 kbd uart ;;
  (* Force process exit if it has been killed and is in user space. *)
  exit_if_killed_user cs ;;
  (* Force process to give up CPU on clock tick. *)
  p <- myproc;
  match p with
  | None => kret tt
  | Some p =>
      pr <- get_proc p;
      kwhen (bool_decide (p_state pr = RUNNING) && (trapno =? T_IRQ0 + IRQ_TIMER)) yield
  end ;;
  (* Check if the process has been killed since we yielded *)
  exit_if_killed_user cs.
End Trap.
