(* ===== verification/Machine.v ===== *)
(** * User programs running on the kernel

    A machine is the kernel's state, what is left to run of the processes that are off the CPU,
    and of each process the user program it goes on with. A system call is made as user code
    makes it: its arguments go to the user stack and to [%eax], and [trap] is entered. *)

From S2P Require Import Prelude Traps Fcntl Mem Kernel Mmu Kalloc Sched Bio Layout Log Printf User Cons Fs File Vm Proc Console Syscall Exec Sysfile Trap.

(** ** The calls *)

(** Where a program keeps the arguments of a call: its strings, the words of [exec], a
    buffer, and its stack. *)
Definition path1 : Z := 0x300.
Definition path2 : Z := 0x400.
Definition words : Z := 0x600.
Definition buffer : Z := 0x1000.
Definition stack : Z := 0x200.

Definition zstr (s : list Z) : list Z := s ++ [0].

(** Where the words of [argv] go, one after another. *)
Fixpoint layout (a : Z) (argv : list (list Z)) : list (Z * list Z) :=
  match argv with
  | [] => []
  | w :: argv => (a, zstr w) :: layout (a + Z.of_nat (length w) + 1) argv
  end.

(** The number of a call, its arguments, the memory it needs, and the bytes of the answer, by the
    number returned. *)
Record callspec := Call { c_num : Z; c_args : list Z; c_mem : list (Z * list Z); c_out : Z -> nat; c_esp : Z }.

Definition simple (num : Z) (args : list Z) (m : list (Z * list Z)) : callspec := Call num args m (fun _ => 0%nat) stack.
Definition answers (num : Z) (args : list Z) (out : Z -> nat) : callspec := Call num args [] out stack.

Definition call_of (c : ucall) : callspec :=
  match c with
  | SFork => simple 1 [] []
  | SWait => simple 3 [] []
  | SPipe => answers 4 [buffer] (fun _ => 8%nat)
  | SRead fd n => answers 5 [fd; buffer; n] Z.to_nat
  | SKill pid => simple 6 [pid] []
  | SExec path argv =>
      let l := layout words argv in
      simple 7 [path1; path2] ([(path1, zstr path); (path2, concat (map (fun x => le_bytes 4 x.1) l) ++ le_bytes 4 0)] ++ l)
  | SFstat fd => answers 8 [fd; buffer] (fun _ => 20%nat)
  | SChdir path => simple 9 [path1] [(path1, zstr path)]
  | SDup fd => simple 10 [fd] []
  | SGetpid => simple 11 [] []
  | SSbrk n => simple 12 [n] []
  | SSleep n => simple 13 [n] []
  | SOpen name mode => simple 15 [path1; mode] [(path1, zstr name)]
  | SWrite fd bytes => simple 16 [fd; buffer; Z.of_nat (length bytes)] [(buffer, bytes)]
  | SMknod name major minor => simple 17 [path1; major; minor] [(path1, zstr name)]
  | SUnlink name => simple 18 [path1] [(path1, zstr name)]
  | SLink old new => simple 19 [path1; path2] [(path1, zstr old); (path2, zstr new)]
  | SMkdir name => simple 20 [path1] [(path1, zstr name)]
  | SClose fd => simple 21 [fd] []
  | SFreemem => simple 22 [] []
  | SWait2 => answers 24 [buffer] (fun _ => 4%nat)
  | SPrintf fd text => simple 16 [fd; buffer; 1] [(buffer, take 1 text)]
  end.

Section Machine.
Context `{Fuel} `{Image}.
#[local] Existing Instance console_devsw.

Fixpoint user_stores (l : list (Z * list Z)) : K unit :=
  match l with
  | [] => kret tt
  | (a, bs) :: l => ustores a bs ;; user_stores l
  end.

(** [int $T_SYSCALL] in user space. *)
Definition int64 (c : callspec) : K unit :=
  p <- curproc;
  pr <- get_proc p;
  user_stores (c_mem c) ;;
  ustores (c_esp c) (concat (map (le_bytes 4) (0 :: c_args c))) ;;
  stw (p_tf pr + tf_eax) (c_num c) ;;
  stw (p_tf pr + tf_esp) (c_esp c) ;;
  stw (p_tf pr + tf_trapno) T_SYSCALL ;;
  trap (p_tf pr) 0 0 [] [].

(** What the program gets back. *)
Definition answer (c : callspec) : K (Z * list Z) :=
  p <- curproc;
  pr <- get_proc p;
  eax <- ldw (p_tf pr + tf_eax);
  let r := s32 eax in
  bs <- uloads buffer (c_out c r);
  kret (r, bs).

(** A tick of the clock, in user space and in the idle scheduler. *)
Definition tick : K unit :=
  p <- curproc;
  pr <- get_proc p;
  stw (p_tf pr + tf_trapno) (T_IRQ0 + IRQ_TIMER) ;;
  trap (p_tf pr) 0 0 [] [].

Definition idle_tick : K unit := trap_switch (T_IRQ0 + IRQ_TIMER) 8 0 0 0 0 [] [].

(** ** The machine *)

(** The program of a process once its call has returned. *)
Record after := After { a_call : callspec; a_then : Z -> list Z -> prog }.

Record machine := Machine {
  m_state : kstate;
  m_threads : threads;
  m_after : gmap nat after;
}.

Inductive outcome :=
| Ended (s : kstate)
| Died (msg : string).

(** Where the machine is. [User]: process [p] is in user space and goes on with the program.
    [Resched]: a process gave up the CPU, and the scheduler goes on with its loop at slot [p],
    holding the lock of the table. *)
Inductive next :=
| User (p : nat) (m : machine) (g : prog)
| Resched (p : nat) (m : machine)
| Idle (m : machine)
| End (o : outcome).

(** The call of process [p] has come back. A child goes on with the program of its parent, and
    with 0, once the scheduler has run it, and what it runs first is [forkret]. *)
Definition returned (p : nat) (m : machine) (s : kstate) : next :=
  match m_after m !! p with
  | None => End (Died "no program")
  | Some a =>
      match answer (a_call a) s with
      | Ok (r, bs) s =>
          let m := Machine s (m_threads m) (m_after m) in
          if (c_num (a_call a) =? 1) && (0 <? r) then
            match find_from (fun pr => p_pid pr =? r) (k_procs s) 0 with
            | Some np => User p (Machine s (<[np := forkret]> (m_threads m)) (<[np := a]> (m_after m))) (a_then a r bs)
            | None => End (Died "no child")
            end
          else User p m (a_then a r bs)
      | Panic msg => End (Died msg)
      | _ => End (Died "stuck")
      end
  end.

(** Process [p] enters the kernel with [k]. *)
Definition enter (p : nat) (m : machine) (k : K unit) : next :=
  match k (m_state m) with
  | Ok _ s => returned p m s
  | Panic msg => End (Died msg)
  | NoFuel => End (Died "fuel")
  | Swtch s k' =>
      match undispatch s with
      | Ok _ s => Resched (S p) (Machine s (<[p := k']> (m_threads m)) (m_after m))
      | _ => End (Died "undispatch")
      end
  end.

Definition call (p : nat) (m : machine) (c : callspec) (k : Z -> list Z -> prog) : next :=
  enter p (Machine (m_state m) (m_threads m) (<[p := After c k]> (m_after m))) (int64 c).

(** One step of a program in user space. The first process halts the machine when it ends. *)
Definition user_step (p : nat) (m : machine) (g : prog) : next :=
  match g with
  | Sys (SPrintf fd []) k => User p m (k 0 [])
  | Sys (SPrintf fd (c :: text)) k => call p m (call_of (SWrite fd [c])) (fun _ _ => Sys (SPrintf fd text) k)
  | Sys c k => call p m (call_of c) k
  | Exit st =>
      if Nat.eqb p 0 then End (Ended (m_state m))
      else call p m (match st with None => simple 2 [] [] | Some x => simple 23 [x] [] end) (fun _ _ => OutOfFuel)
  | Ins (SReadAt fd a n) k => call p m (simple 5 [fd; a; n] []) (fun r _ => k r)
  | Ins (SLinkAt old a) k => call p m (simple 19 [path1; a] [(path1, zstr old)]) (fun r _ => k r)
  | Forever => enter p (Machine (m_state m) (m_threads m) (<[p := After (simple 0 [] []) (fun _ _ => Forever)]> (m_after m))) tick
  | _ => End (Died "program")
  end.

(** What came of running the scheduler. *)
Definition scheduled (m : machine) (r : ran) (idle : kstate -> threads -> next) : next :=
  match r with
  | ToUser p s th => returned p (Machine s th (m_after m)) s
  | Back s th => idle s th
  | Stopped msg => End (Died msg)
  | Stuck => End (Died "stuck")
  end.

Definition resched_step (p : nat) (m : machine) : next :=
  scheduled m (scheduler_loop (NPROC - p) p (m_state m) (m_threads m)) (fun s th =>
    match release LK_ptable s with
    | Ok _ s => Idle (Machine s th (m_after m))
    | _ => End (Died "release")
    end).

(** The scheduler goes round its table; with nothing to run, the clock ticks. *)
Definition idle_step (m : machine) : next :=
  scheduled m (scheduler_round (m_state m) (m_threads m)) (fun s th =>
    match idle_tick s with
    | Ok _ s => Idle (Machine s th (m_after m))
    | _ => End (Died "tick")
    end).

Definition step (x : next) : next :=
  match x with
  | User p m g => user_step p m g
  | Resched p m => resched_step p m
  | Idle m => idle_step m
  | End o => End o
  end.

Fixpoint run (n : nat) (x : next) : next :=
  match n with
  | O => x
  | S n => match x with End _ => x | _ => run n (step x) end
  end.
End Machine.
