(* ===== verification/Selftest.v ===== *)
(** * A test of the model: the kernel runs its own tests

    The kernel starts on an image of mkfs, and its first process runs tests of usertests.c. The
    tests that fork or write large files are left out, for the time it takes to compute them. *)

From S2P Require Import Prelude Fcntl Mem Kernel Mmu Kalloc Sched Bio Layout Mkfs MkfsSpec Log Printf User Cons Fs Image File Vm Proc Console Trap Programs TestsFs TestsProc Machine.

(** ** Booting *)

#[local] Instance rounds : Fuel := 100%nat.
#[local] Instance linked : Image := { trapret := 0x80106000; forkret_addr := 0x80104000; initcode := replicate 44 0 }.
#[local] Existing Instance console_devsw.

(** An image with the files the tests look for. *)
Definition files : list source :=
  [(codes "README", [codes "hello"]); (codes "echo", [codes "x"]); (codes "init", [codes "x"])].

Definition img_of (r : Mkfs.outcome unit) : list (list Z) :=
  match r with Mkfs.Done _ s => disk_of s | _ => [] end.
Definition disk : list (list Z) := img_of (Mkfs.main (map arg_of files) Mkfs.start).

(** The memory of the first process: a directory, a table, five user pages and the kernel stack,
    one after the other. It stands for what [userinit] would set up; the process needs no more. *)
Definition base : Z := P2V (3 * 1024 * 1024).
Definition user_pages : Z := 5.
Definition pte (k : Z) : Z := V2P (base + k * PGSIZE) .| PTE_W .| PTE_U .| PTE_P.
Definition address_space : Mem.mem :=
  foldr (fun '(a, v) m => store32 m a v) ∅
    ((base, pte 1) :: map (fun k => (base + PGSIZE + 4 * k, pte (2 + k))) (seqZ 0 user_pages)).
Definition kstack : Z := base + 7 * PGSIZE.
Definition init_proc (cwd : option nat) : proc :=
  Proc (user_pages * PGSIZE) base kstack RUNNABLE 1 None (kstack + KSTACKSIZE - sizeof_trapframe) 0 None 0
    (replicate NOFILE None) cwd (replicate 16 0) 0.

(** What [main] does to the state of the kernel the tests depend on. *)
Definition start_kernel : K unit :=
  modify (upd_k_mem (fun _ => address_space)) ;;
  consoleinit ;;
  binit ;;
  ideinit disk ;;
  modify (upd_k_use_lock (fun _ => true)) ;;
  modify (upd_k_initproc (fun _ => Some 0%nat)) ;;
  cwd <- namei [slash];
  modify (upd_k_procs (insert 0%nat (init_proc cwd))).

(** What init does first. *)
Definition with_console (g : prog) : prog :=
  Sys (SOpen (codes "console") O_RDWR) (fun fd _ =>
    let rest := do_ (SDup 0) (do_ (SDup 0) g) in
    if fd <? 0 then do_ (SMknod (codes "console") 1 1) (do_ (SOpen (codes "console") O_RDWR) rest)
    else rest).

(** The first process, at slot 0, waits for the scheduler. *)
Definition first_process (g : prog) (r : res unit) : next :=
  match r with
  | Ok _ s => Idle (Machine s {[0%nat := (forkret : K unit)]} {[0%nat := After (simple 0 [] []) (fun _ _ => with_console g)]})
  | Panic msg => End (Died msg)
  | _ => End (Died "boot")
  end.

Definition power_on (g : prog) : next := first_process g (start_kernel (boot base 0x80108000)).

(** What a run that ended has sent to the serial port. *)
Definition console (x : next) : option (list Z) :=
  match x with End (Ended s) => Some (k_out s) | _ => None end.

(** ** The tests *)

Definition selftests : prog :=
  argptest (bsstest (opentest (iputtest (rmdot (fourteen (subdir buf0 (fun buf => linktest buf (fun buf =>
  unlinkread buf (fun _ => dirfile (dirtest quit)))))))))).

Definition passed : string := "sb: size 1000 nblocks 941 ninodes 200 nlog 30 logstart 2 inodestart 32 bmap start 58
arg test passed
bss test
bss test ok
open test
open test ok
iput test
iput test ok
rmdot test
rmdot ok
fourteen test
fourteen ok
subdir test
subdir ok
linktest
linktest ok
unlinkread test
unlinkread ok
dir vs file
dir vs file OK
mkdir test
mkdir test ok
".

(** A test of the model as a whole: started on an image that mkfs made, with a process that makes
    the system calls of these tests of usertests.c through [trap] and with its arguments in user
    memory, it lets every test print that it is ok, and none that something is wrong. *)
Example usertests_pass : console (run (Z.to_nat 100000) (power_on selftests)) = Some (codes passed).
Proof. vm_cast_no_check (@eq_refl (option (list Z)) (Some (codes passed))). Qed.
